(* ===== verification/_CoqProject ===== *)
-Q . S2P
Prelude.v
GoStd.v
GoTime.v
Uuid.v
Release.v
NetIP.v
Fs.v
Paths.v
Auth.v
Json.v
JsonFacts.v
Api.v
Wire.v
Indent.v
Models.v
Config.v
Layout.v
Deploy.v
Instance.v
Manifest.v
Artifact.v
Lifecycle.v
Preview.v
PreviewRun.v
ApplyRun.v
Http.v
Service.v
Bundle.v
Vectors.v
Sql.v
Schema.v
Monad.v
Keys.v
SqlFacts.v
Runtime.v
Receipts.v
Persist.v
Envelope.v
Devices.v
Enrollment.v
Server.v
Cli.v
Collection.v
Sync.v
Snapshot.v
Registry.v
History.v
LogState.v
Startup.v
Samples.v
ChangeLog.v
Accepted.v
ConfigProps.v
InstanceProps.v
DeploySpec.v
LifecycleProps.v
DeployCrash.v
ManifestProps.v
ArtifactProps.v
RemovalProps.v
ServiceProps.v
PreviewProps.v
ApplyGuard.v
ApplyCrash.v
HttpProps.v
Constraints.v
Security.v
ReceiptProps.v
SyncProps.v
Frontier.v
Validated.v
ValidatedHeads.v
System.v
SyncReply.v
EnrollmentProps.v
CollectionProps.v
SnapshotProps.v
ServerProps.v
BundleProps.v
CliProps.v
