(* ===== verification/Prelude.v ===== *)
(** * The JAT sync server: verification library

    ** The program

    [src/runtime] is a self-hosted synchronization server.  Devices keep an
    end-to-end encrypted vault; the server stores opaque records, orders them,
    and never sees plaintext.  One process serves one vault over loopback
    HTTP/1.1 and keeps everything in one SQLite database.  Its parts:

    - package [auth] hashes credentials and request fingerprints; [uuidv4] is the
      identifier format; [api] is the request/response boundary between the
      transport and the data plane;
    - package [store] is the data plane: the wire models and their strict JSON
      ([models.go]), the schema ([schema.go]), authentication, receipts, cursors
      and dispatch ([dataplane.go]), enrollment ([enrollment.go]), the vault
      envelope ([envelope.go]), the device registry ([devices.go]), record
      synchronization ([sync.go]), garbage collection and the uptime clock
      ([collection.go]), snapshots ([snapshot.go]), the checks of a database at
      start-up ([validation.go]) and the store's own life cycle ([store.go]);
    - package [httpapi] turns an HTTP request into a data-plane request and the
      reply, or an error, into an HTTP response;
    - packages [config], [releaseid] and [buildinfo] define the settings and the
      identifiers a build is published under;
    - package [deployment] installs, upgrades, rolls back and removes the server for one
      user: a release manifest is pinned by its digest, a preview of what an apply would
      do is confirmed by its digest, and every change runs as a journalled transaction.

    A request passes [httpapi.Handler.ServeHTTP] (framing, protocol version,
    request identifier, body limit), [Store.HandleAPI] (route), then one handler,
    which authenticates the bearer token, looks for a receipt of an earlier
    identical request, and otherwise runs one database transaction that ends with a
    commit, a stored receipt and the reply.

    ** How the code is modelled

    Go strings and byte slices are [string]; [uint64] is [Z] with its bounds and
    wrap-around written out; a Go error is a value of [option], [res] or the error
    of the monad.  A wire struct is a record with the codec [reflect] derives from
    its tags; a table is a list of row records, in rowid order, with the CHECK,
    UNIQUE and foreign-key clauses of its CREATE TABLE as executable tests that
    every INSERT and UPDATE makes.  A handler runs in the state monad of [Monad.v]
    over [St]: the committed database, the working copy of the open transaction, the
    ephemeral state of the daemon, the bytes [crypto/rand] will return, and an
    oracle that says which statements fail.  Theorems quantify over the last two, so
    they hold for every choice of random bytes and every placement of statement
    failures.

    ** Files

    Foundations.
    - [Prelude]: results, notations, tactics, SQL's stable ORDER BY, list lemmas.
    - [GoStd], [GoTime]: the parts of Go's standard library the server
      calls (strings, strconv, encoding/binary, hex, base64, utf8; crypto/sha256;
      time).
    - [Json], [JsonFacts]: [encoding/json] with strict decoding, and its round trip.
    - [Sql], [Monad], [SqlFacts], [Constraints]: storage classes, statements,
      transactions, the monad with its frame and atomicity reasoning.

    Model, one file per component.
    - [Auth] ([auth/token.go]), [Uuid] ([uuidv4/uuid.go]), [Api] ([api/api.go]).
    - [Wire], [Models], [Vectors] ([models.go], [bounds.go]): structs, validators,
      version vectors.
    - [Schema] ([schema.go]): the tables and their constraints.
    - [Keys], [Runtime], [Receipts], [Snapshot] ([dataplane.go]): key-range
      preflights, counters and the change log, authentication, receipts, dispatch.
    - [Persist] ([validation.go]): the checks of stored state made while serving.
    - [Envelope], [Devices], [Enrollment], [Sync], [Collection] (with the leases),
      [Snapshot]: the files of the same name; [store.go] is in [Devices].
    - [Registry], [History], [LogState], [Startup] ([validation.go],
      Ready of [store.go]): the whole-database checks before the store serves, in the
      order validatePersistentState runs them.
    - [Release] ([releaseid.go], [buildinfo.go]): regular expressions by derivatives,
      release names, build attestations.
    - [NetIP], [Fs], [Indent]: the parts of Go's net, os and path and of
      [encoding/json]'s streaming interface that the settings use; the file system is
      a map from paths to nodes with failures decided by an oracle and a trace of the
      states it went through.
    - [Config] ([config.go], [protected_unix.go]): settings, marker and secret files.
    - [Instance] ([instance/instance.go], [lock_unix.go]): leases of a state directory and
      the resumable initialization of an instance, against the class [InstanceHost].
    - [Paths], [Layout] ([deployment/paths_unix.go]): canonical paths, the layout of an
      installation and the preparation of its directories.
    - [Deploy] ([deployment/state.go], [protected_unix.go]): deployment state and journal.
    - [Manifest] ([deployment/manifest.go], [manifest_file_unix.go]): release manifests,
      with the parts of net/url they use.
    - [Artifact] ([deployment/artifact.go], [remove_artifacts_unix.go]): staging, verifying
      and removing the files of a release; hard links are counted, and a path stands for
      its inode.
    - [Lifecycle] ([deployment/lifecycle.go], [lock_unix.go]): status, rollback, uninstall
      and the transaction of apply, against the class [Host] of what is behind the fields
      of the code's Lifecycle.
    - [Preview] ([deployment/preview.go]): the preview of an apply, its JSON form, its
      validation and its plan; [PreviewRun]: taking one on a machine; [ApplyRun]
      ([deployment/lifecycle.go]): Apply, from the confirmed digest to the transaction.
    - [Http] ([httpapi/handler.go]): the transport, against the interfaces [DataPlane],
      [Readiness] and [Random] of what is behind it.
    - [Service] ([service.go], [deployment/manager.go], [attestation.go],
      [endpoint_unix.go]): service definitions, the commands of the user's service
      manager, identities of executables and of the running server, the binding of the
      active executable.
    - [Bundle] ([releasebundle/bundle.go], [installer.go], [publish_linux.go]): the
      installer's templates and their execution, the install and client commands, the
      checks of build metadata, and the publication of a release bundle.
    - [Server] ([server/server.go]): the filter that bounds a request head, the loopback
      listeners, and the admin protocol of the owner-only socket.
    - [Cli] ([cli/cli.go], newLifecycle of [deployment/lifecycle.go]): every command from
      its arguments to its exit status, with package flag, and the lifecycle it constructs:
      [native_host] and [native_preview_host] put [Service], [Artifact] and [Instance]
      behind the classes [Host] and [PreviewHost]; what is left is the class [Platform].
    - [System]: the store as an instance of these interfaces, and the step relation of
      the running server.
    - [Samples]: a concrete history, computed by the handlers, for the witnesses.

    Theorems.
    - [ChangeLog]: every request keeps the permanent change log contiguous and is
      atomic: an error leaves the committed database as it was.
    - [Constraints]: every request keeps all constraints of all tables.
    - [Security]: a credential authenticates only the device it belongs to and only
      while it is active; revocation and rotation end it.
    - [Security], [ReceiptProps], [EnrollmentProps]: compare-and-swap of the
      envelope; exactly-once execution and replay of receipts, and what pruning
      keeps; one admission per grant and the attempt limit.
    - [SyncProps], [Frontier], [SyncReply]: what a synchronization admits, that the
      heads of a record are the maximal revisions, and that a reply carries the
      longest fitting prefix of the changes after the cursor.
    - [CollectionProps]: collection removes only what is old,
      acknowledged and covered; the uptime clock loses and repeats nothing.
    - [SnapshotProps]: pages are complete, bounded and chained; accounting is exact.
    - [Accepted], [Vectors], [Keys], [Uuid], [Auth], [GoTime]: round trips,
      canonical forms and orders that the components above rely on.
    - [Validated], [ValidatedHeads]: an accepted database has a contiguous change log,
      contiguous author counters and the causal frontiers as heads.
    - [HttpProps]: what reaches the data plane, and what every reply carries.
    - [System]: any interleaving of exchanges and local operations keeps the change log
      and the constraints.
    - [DeploySpec], [LifecycleProps], [DeployCrash]: triples over runs with failures;
      crash consistency of rollback, uninstall and apply's transaction, however often
      they are stopped and run again, and a host that satisfies the laws they use.
    - [PreviewProps]: previews are canonical, stay in the user's scope and announce the
      transaction's checkpoints; [ApplyGuard]: a preview changes nothing, and an apply
      changes nothing before it has rebuilt the confirmed preview; [ApplyCrash]: the whole
      of Apply is crash consistent; the samples: an installation from the preview to
      the running service, for the witnesses.
    - [ManifestProps]: pinned manifests are canonical and install; [ArtifactProps]: staging
      is atomic and what was staged verifies; [RemovalProps]: removal inspects the whole
      tree first and deletes only what the installer wrote, and which interrupted stagings
      it refuses.
    - [ServiceProps]: a rendered definition runs exactly the given binary, manager commands
      stay on the user's own service, definitions are replaced atomically; [ServerProps]:
      the HTTP server never sees more than a bounded request head, admin requests are
      canonical, and a grant needs the active deployment's binding.
    - [BundleProps]: a bundle is published whole or not at all, its commands mean to a
      shell what was meant, and its executables pass the checks of a deployment.
    - [CliProps]: the lifecycle of the command line satisfies the laws of [LifecycleProps]
      and [ApplyCrash], so it is crash consistent; the commands that promise to read only
      do; the client commands of a bundle preview and apply what was uploaded; the replies
      of the admin socket pass the client's checks and carry a recorded grant.
    - [InstanceProps]: initialization can be stopped anywhere and run again, and the
      identity it stored never changes.
    - [ConfigProps], [Release]: exactly which settings and release names are accepted;
      atomic replacement of protected files; round trips of settings and attestations.

    ** Bounds and fuel

    The JSON parser is the only definition of the data plane with fuel: twice the
    input length, each recursive call consuming at least one byte or one level;
    [JsonFacts.parse_print] shows that everything the server prints is parsed
    within it.  All other loops are over lists (rows, entries, pages), on which the
    definitions recurse structurally; the reply-shrinking loop of handleSync and the
    page loops of buildSnapshotPlan recurse on the list they shorten.
    Regular expressions are matched by derivatives over the input, the file-system
    operations recurse on the list of path elements, and the validation passes are folds
    over the rows a query returns.

    ** Not modelled

    SQL text is modelled by what it selects or writes; the query planner, page
    format and locking of SQLite (vendored under [third_party]) are not, nor are the
    migrations of older schema versions and the inspection of the schema text.  Of the
    standard library, net/http and the operating system are interfaces or models of what
    the code relies on.  The mains under [cmd], the goroutines and the socket file of
    package server, and the Windows variant of the protected files are not modelled. *)

From stdpp Require Import base list strings gmap sorting.
From Stdlib Require Import ZArith Lia.

(** ** Results *)

(** A Go call that returns a value or an error. *)
Inductive res (E A : Type) : Type :=
| Ok (a : A)
| Err (e : E).
Arguments Ok {E A} a.
Arguments Err {E A} e.
Lemma Ok_inj {E A} (a b : A) : @Ok E A a = Ok b → a = b.
Proof. by intros [= ->]. Qed.

Declare Scope go_scope.
Delimit Scope go_scope with go.

(** [guard b 'else' e 'in' k] is [if !b { return e }; k]. *)
Notation "'require' b 'else' e ;; k" :=
  (if b then k else e) (at level 100, b at next level, e at next level, right associativity) : go_scope.
Notation "'let?' x := o 'else' e ;; k" :=
  (match o with Some x => k | None => e end)
    (at level 100, x binder, o at next level, e at next level, right associativity) : go_scope.
Notation "'let?' ' p := o 'else' e ;; k" :=
  (match o with Some p => k | None => e end)
    (at level 100, p pattern, o at next level, e at next level, right associativity) : go_scope.

(** ** Tactics *)

(** Case analysis on the first [match] or [if] whose discriminee is closed
    under the context, keeping the equation. *)
Ltac case_match_in H :=
  match type of H with
  | context [match ?x with _ => _ end] =>
      lazymatch x with
      | context [match _ with _ => _ end] => fail
      | _ => let E := fresh "E" in destruct x eqn:E
      end
  end.
Ltac case_match_goal :=
  match goal with
  | |- context [match ?x with _ => _ end] =>
      lazymatch x with
      | context [match _ with _ => _ end] => fail
      | _ => let E := fresh "E" in destruct x eqn:E
      end
  end.
(** Turn boolean tests in the context into propositions. *)
Ltac unbool :=
  repeat match goal with
  | H : _ && _ = true |- _ => apply andb_true_iff in H; destruct H
  | H : _ || _ = false |- _ => apply orb_false_iff in H; destruct H
  | H : negb _ = true |- _ => apply negb_true_iff in H
  | H : negb _ = false |- _ => apply negb_false_iff in H
  | H : bool_decide _ = true |- _ => apply bool_decide_eq_true in H
  | H : bool_decide _ = false |- _ => apply bool_decide_eq_false in H
  | H : (_ <=? _)%Z = true |- _ => apply Z.leb_le in H
  | H : (_ <=? _)%Z = false |- _ => apply Z.leb_gt in H
  | H : (_ <? _)%Z = true |- _ => apply Z.ltb_lt in H
  | H : (_ <? _)%Z = false |- _ => apply Z.ltb_ge in H
  | H : (_ =? _)%Z = true |- _ => apply Z.eqb_eq in H
  | H : (_ =? _)%Z = false |- _ => apply Z.eqb_neq in H
  end.

(** ** Stable sorting: SQL's [ORDER BY] *)
Section OrderBy.
Context {A : Type} (leb : A → A → bool).

Fixpoint insert_by (x : A) (l : list A) : list A :=
  match l with
  | [] => [x]
  | y :: ys => if leb x y then x :: l else y :: insert_by x ys
  end.
Definition order_by (l : list A) : list A := foldr insert_by [] l.

Lemma insert_by_perm x l : insert_by x l ≡ₚ x :: l.
Proof.
  induction l as [|y l IH]; simpl; [done|].
  destruct (leb x y); [done|]. rewrite IH. apply Permutation_swap.
Qed.
Lemma order_by_perm l : order_by l ≡ₚ l.
Proof. induction l as [|x l IH]; simpl; [done|]. by rewrite insert_by_perm, IH. Qed.
Lemma elem_of_order_by x l : x ∈ order_by l ↔ x ∈ l.
Proof. by rewrite order_by_perm. Qed.
Lemma length_order_by l : length (order_by l) = length l.
Proof. by rewrite order_by_perm. Qed.

Context (leb_total : ∀ x y, leb x y = false → leb y x = true)
        (leb_trans : ∀ x y z, leb x y = true → leb y z = true → leb x z = true).

Lemma insert_by_sorted x l :
  StronglySorted (λ a b, leb a b = true) l →
  StronglySorted (λ a b, leb a b = true) (insert_by x l).
Proof using leb_total leb_trans.
  induction 1 as [|y l Hs IH Hall]; simpl; [repeat constructor|].
  destruct (leb x y) eqn:E.
  - constructor; [by constructor|]. constructor; [done|].
    eapply Forall_impl; [exact Hall|]. simpl. eauto.
  - constructor; [done|]. rewrite insert_by_perm. constructor; eauto.
Qed.
Lemma order_by_sorted l : StronglySorted (λ a b, leb a b = true) (order_by l).
Proof using leb_total leb_trans.
  induction l as [|x l IH]; simpl; [constructor|]. by apply insert_by_sorted.
Qed.
End OrderBy.

(** ** Lists *)

(** [strictly lt l]: consecutive elements increase, the check the source makes
    with [index != 0 && previous >= current]. *)
Fixpoint strictly_from {A} (ltb : A → A → bool) (prev : A) (l : list A) : bool :=
  match l with
  | [] => true
  | x :: l' => ltb prev x && strictly_from ltb x l'
  end.
Definition strictly {A} (ltb : A → A → bool) (l : list A) : bool :=
  match l with [] => true | x :: l' => strictly_from ltb x l' end.

Lemma strictly_from_sorted {A} (ltb : A → A → bool)
    (ltb_trans : ∀ x y z, ltb x y = true → ltb y z = true → ltb x z = true) x l :
  strictly_from ltb x l = true → StronglySorted (λ a b, ltb a b = true) (x :: l).
Proof.
  revert x. induction l as [|y l IH]; intros x H; [repeat constructor|].
  simpl in H. unbool. specialize (IH _ H0). inversion IH; subst.
  constructor; [done|]. constructor; [done|].
  eapply Forall_impl; [eassumption|]. simpl. eauto.
Qed.

Lemma StronglySorted_take {A} (R : A → A → Prop) n l :
  StronglySorted R l → StronglySorted R (take n l).
Proof.
  revert n. induction l as [|x l IH]; intros n Hs; destruct n; simpl; try by constructor.
  inversion Hs; subst. constructor; [by apply IH|].
  by apply Forall_take.
Qed.

Lemma StronglySorted_filter {A} (R : A → A → Prop) (f : A → bool) l :
  StronglySorted R l → StronglySorted R (List.filter f l).
Proof.
  induction 1 as [|x l Hs IH Hall]; simpl; [constructor|].
  destruct (f x); [|done]. constructor; [done|].
  apply Forall_forall. intros y Hy. rewrite Forall_forall in Hall.
  apply Hall. rewrite list_elem_of_In in Hy |- *. by apply filter_In in Hy as [? _].
Qed.

(** Traversal in a result type, stopping at the first error. *)
Fixpoint mapM_res {E A B} (f : A → res E B) (l : list A) : res E (list B) :=
  match l with
  | [] => Ok []
  | x :: l' =>
      match f x with
      | Err e => Err e
      | Ok y => match mapM_res f l' with Err e => Err e | Ok ys => Ok (y :: ys) end
      end
  end.

Fixpoint mapM_opt {A B} (f : A → option B) (l : list A) : option (list B) :=
  match l with
  | [] => Some []
  | x :: l' =>
      match f x, mapM_opt f l' with Some y, Some ys => Some (y :: ys) | _, _ => None end
  end.

Lemma mapM_opt_Some {A B} (f : A → option B) l k :
  mapM_opt f l = Some k ↔ Forall2 (λ x y, f x = Some y) l k.
Proof.
  revert k. induction l as [|x l IH]; intros k; simpl.
  - split; [intros [= <-]; constructor|by inversion 1].
  - destruct (f x) eqn:E, (mapM_opt f l) eqn:E2; split; intros H;
      try discriminate; try (inversion H; subst).
    + constructor; [done|]. by apply IH.
    + match goal with H : Forall2 _ _ _ |- _ => apply IH in H end. congruence.
    + match goal with H : Forall2 _ _ _ |- _ => apply IH in H end. congruence.
    + congruence.
    + congruence.
Qed.
