(* ===== verification/GoStd.v ===== *)
(** * The parts of the Go language and standard library the server uses

    Go's [string] and [[]byte] are both sequences of 8-bit units and are both
    modelled by [string] (so the conversions between them are the identity);
    [uint64] values are [Z] in [[0, 2^64)], with the wrap-around written where
    the source can reach it.  This file covers: byte access, byte-wise string
    order, [strings.HasPrefix] and friends, [encoding/binary] big-endian,
    [strconv.FormatUint]/[ParseUint], [encoding/hex],
    [base64.RawURLEncoding.Strict()] and [utf8.Valid]. *)

From stdpp Require Import base list strings.
From Stdlib Require Import ZArith Lia Ascii Wf_nat.
From Stdlib Require String.
From Stdlib Require Import ZArith Lia Ascii.
From S2P Require Import Prelude.
Local Open Scope Z_scope.

Ltac Zify.zify_post_hook ::= Z.div_mod_to_equations.

(** ** Bytes *)
Definition byteZ (c : ascii) : Z := Z.of_N (N_of_ascii c).
Definition chrZ (z : Z) : ascii := ascii_of_N (Z.to_N z).

Lemma byteZ_range c : 0 <= byteZ c < 256.
Proof.
  unfold byteZ. pose proof (N_ascii_bounded c). lia.
Qed.
Lemma chrZ_byteZ c : chrZ (byteZ c) = c.
Proof. unfold chrZ, byteZ. rewrite N2Z.id. apply ascii_N_embedding. Qed.
Lemma byteZ_chrZ z : 0 <= z < 256 → byteZ (chrZ z) = z.
Proof. intros ?. unfold chrZ, byteZ. rewrite N_ascii_embedding; lia. Qed.
Lemma byteZ_inj c d : byteZ c = byteZ d → c = d.
Proof. intros H. rewrite <- (chrZ_byteZ c), <- (chrZ_byteZ d). by rewrite H. Qed.

Definition slen (s : string) : Z := Z.of_nat (String.length s).

Fixpoint bytes_list (s : string) : list Z :=
  match s with EmptyString => [] | String c s' => byteZ c :: bytes_list s' end.
Fixpoint of_bytes (l : list Z) : string :=
  match l with [] => EmptyString | z :: l' => String (chrZ z) (of_bytes l') end.

Definition is_byte (z : Z) : Prop := 0 <= z < 256.

Lemma of_bytes_list s : of_bytes (bytes_list s) = s.
Proof. induction s as [|c s IH]; simpl; [done|]. by rewrite chrZ_byteZ, IH. Qed.
Lemma bytes_list_of l : Forall is_byte l → bytes_list (of_bytes l) = l.
Proof. induction 1; simpl; [done|]. rewrite byteZ_chrZ by done. by f_equal. Qed.
Lemma bytes_list_byte s : Forall is_byte (bytes_list s).
Proof. induction s; simpl; constructor; [apply byteZ_range|done]. Qed.
Lemma length_of_bytes l : String.length (of_bytes l) = length l.
Proof. induction l; simpl; done || congruence. Qed.
Lemma length_bytes_list s : length (bytes_list s) = String.length s.
Proof. induction s; simpl; done || congruence. Qed.
Lemma bytes_list_app s t : bytes_list (s +:+ t) = bytes_list s ++ bytes_list t.
Proof. induction s; simpl; done || congruence. Qed.
Lemma of_bytes_app s t : of_bytes (s ++ t) = of_bytes s +:+ of_bytes t.
Proof. induction s as [|z s IH]; simpl; [done|]. by rewrite IH. Qed.
Lemma length_sapp s t : String.length (s +:+ t) = (String.length s + String.length t)%nat.
Proof. induction s; simpl; done || congruence. Qed.
Lemma sapp_nil_r s : s +:+ "" = s.
Proof. induction s as [|c s IH]; [done|]. change (String c (s +:+ "") = String c s). by rewrite IH. Qed.
Lemma sapp_cons c s t : String c s +:+ t = String c (s +:+ t).
Proof. done. Qed.
Lemma sapp_assoc s t u : (s +:+ t) +:+ u = s +:+ (t +:+ u).
Proof. induction s as [|c s IH]; [done|]. by rewrite !sapp_cons, IH. Qed.
Lemma sapp_inv_head s t u : s +:+ t = s +:+ u → t = u.
Proof. induction s as [|c s IH]; [done|]. intros [= ?]. auto. Qed.

(** ** String functions *)

(** [strings.HasPrefix], [strings.TrimPrefix]. *)
Fixpoint strip_prefix (p s : string) : option string :=
  match p, s with
  | EmptyString, _ => Some s
  | String c p', String d s' => if Ascii.eqb c d then strip_prefix p' s' else None
  | String _ _, EmptyString => None
  end.
Definition has_prefix (p s : string) : bool :=
  match strip_prefix p s with Some _ => true | None => false end.
Definition trim_prefix (p s : string) : string :=
  match strip_prefix p s with Some r => r | None => s end.

Lemma strip_prefix_Some p s r : strip_prefix p s = Some r ↔ s = p +:+ r.
Proof.
  revert s. induction p as [|c p IH]; intros s; simpl.
  - change ("" +:+ r) with r. split; congruence.
  - rewrite sapp_cons. destruct s as [|d s]; [split; discriminate|].
    destruct (Ascii.eqb_spec c d) as [->|Hne].
    + rewrite IH. split; congruence.
    + split; [discriminate|]. intros [= ? _]. congruence.
Qed.
Lemma strip_prefix_app p r : strip_prefix p (p +:+ r) = Some r.
Proof. by apply strip_prefix_Some. Qed.

Definition srev (s : string) : string := of_bytes (rev (bytes_list s)).
(** [strings.HasSuffix], [strings.TrimSuffix]. *)
Definition has_suffix (p s : string) : bool := has_prefix (srev p) (srev s).
Definition trim_suffix (p s : string) : string :=
  if has_suffix p s then srev (trim_prefix (srev p) (srev s)) else s.

Fixpoint contains_byte (c : ascii) (s : string) : bool :=
  match s with EmptyString => false | String d s' => Ascii.eqb c d || contains_byte c s' end.

(** ASCII white space, the set [strings.TrimSpace] removes from ASCII text. *)
Definition is_space (c : ascii) : bool :=
  let z := byteZ c in (z =? 32) || ((9 <=? z) && (z <=? 13)).

Fixpoint string_of_ascii_list (l : list ascii) : string :=
  match l with [] => "" | c :: l' => String c (string_of_ascii_list l') end.

(** Byte order of Go strings: [s < t] and [bytes.Compare]. *)
Definition sltb (s t : string) : bool :=
  match String.compare s t with Lt => true | _ => false end.
Definition sleb (s t : string) : bool :=
  match String.compare s t with Gt => false | _ => true end.

Lemma ascii_compare_byteZ c d : Ascii.compare c d = (byteZ c ?= byteZ d).
Proof. unfold Ascii.compare, byteZ. by rewrite N2Z.inj_compare. Qed.

Lemma string_compare_cons c d s t :
  String.compare (String c s) (String d t) =
  match byteZ c ?= byteZ d with Eq => String.compare s t | o => o end.
Proof. simpl. rewrite ascii_compare_byteZ. done. Qed.

Lemma string_compare_trans o s t u :
  String.compare s t = o → String.compare t u = o → String.compare s u = o.
Proof.
  revert t u. induction s as [|c s IH]; intros [|d t] [|e u]; try (simpl; congruence).
  rewrite !string_compare_cons.
  destruct (Z.compare_spec (byteZ c) (byteZ d)), (Z.compare_spec (byteZ d) (byteZ e)),
    (Z.compare_spec (byteZ c) (byteZ e)); intros; subst; try lia; try congruence; eauto.
Qed.

Lemma sltb_trans s t u : sltb s t = true → sltb t u = true → sltb s u = true.
Proof.
  unfold sltb. intros H1 H2.
  destruct (String.compare s t) eqn:E1, (String.compare t u) eqn:E2; try discriminate.
  by rewrite (string_compare_trans Lt s t u).
Qed.
Lemma string_compare_refl s : String.compare s s = Eq.
Proof. induction s as [|c s IH]; [done|]. by rewrite string_compare_cons, Z.compare_refl. Qed.
Lemma sltb_irrefl s : sltb s s = false.
Proof. unfold sltb. by rewrite string_compare_refl. Qed.
Lemma sleb_refl s : sleb s s = true.
Proof. unfold sleb. by rewrite string_compare_refl. Qed.
Lemma sleb_total s t : sleb s t = false → sleb t s = true.
Proof.
  unfold sleb. rewrite (String.compare_antisym t s).
  by destruct (String.compare s t).
Qed.
Lemma sleb_alt s t : sleb s t = true ↔ s = t ∨ sltb s t = true.
Proof.
  unfold sleb, sltb. destruct (String.compare s t) eqn:E.
  - apply String.compare_eq_iff in E. naive_solver.
  - naive_solver.
  - split; [done|]. intros [->|?]; [|done]. by rewrite string_compare_refl in E.
Qed.
Lemma sleb_trans s t u : sleb s t = true → sleb t u = true → sleb s u = true.
Proof.
  rewrite !sleb_alt. intros [->|?] [->|?]; eauto using sltb_trans.
Qed.
Lemma sltb_not_sleb s t : sltb s t = negb (sleb t s).
Proof.
  unfold sltb, sleb. rewrite (String.compare_antisym s t).
  by destruct (String.compare t s).
Qed.

(** ** Unsigned 64-bit integers *)
Definition two64 : Z := 2 ^ 64.
Definition MaxUint64 : Z := two64 - 1.
Definition MaxInt64 : Z := 2 ^ 63 - 1.
Definition u64 (z : Z) : Prop := 0 <= z < two64.
Definition is_u64 (z : Z) : bool := (0 <=? z) && (z <? two64).
(** uint64 addition wraps. *)
Definition add64 (x y : Z) : Z := (x + y) mod two64.

Lemma is_u64_spec z : is_u64 z = true ↔ u64 z.
Proof. unfold is_u64, u64. rewrite andb_true_iff, Z.leb_le, Z.ltb_lt. done. Qed.
Lemma add64_small x y : 0 <= x → 0 <= y → x + y < two64 → add64 x y = x + y.
Proof. intros. unfold add64. apply Z.mod_small. lia. Qed.

(** [binary.BigEndian.PutUintN] on [n] bytes, and the reader. *)
Fixpoint be_split (n : nat) (z : Z) : list Z :=
  match n with
  | O => []
  | S n' => be_split n' (z / 256) ++ [z mod 256]
  end.
Definition be_combine (l : list Z) : Z := fold_left (λ acc b, acc * 256 + b) l 0.

Lemma length_be_split n z : length (be_split n z) = n.
Proof.
  revert z. induction n as [|n IH]; intros z; simpl; [done|].
  rewrite length_app, IH. simpl. lia.
Qed.
Lemma be_split_byte n z : Forall is_byte (be_split n z).
Proof.
  revert z. induction n as [|n IH]; intros z; simpl; [constructor|].
  apply Forall_app. split; [done|]. repeat constructor; apply Z.mod_pos_bound; lia.
Qed.
Lemma be_combine_snoc l b : be_combine (l ++ [b]) = be_combine l * 256 + b.
Proof. unfold be_combine. by rewrite fold_left_app. Qed.
Lemma be_combine_split n z : 0 <= z → be_combine (be_split n z) = z mod 256 ^ Z.of_nat n.
Proof.
  revert z. induction n as [|n IH]; intros z Hz; simpl be_split.
  - simpl Z.of_nat. by rewrite Z.pow_0_r, Z.mod_1_r.
  - rewrite be_combine_snoc, IH by (apply Z.div_pos; lia).
    rewrite Nat2Z.inj_succ, Z.pow_succ_r by lia.
    rewrite Z.rem_mul_r by lia. lia.
Qed.
Lemma be_combine_range l : Forall is_byte l → 0 <= be_combine l < 256 ^ Z.of_nat (length l).
Proof.
  induction l as [|b l IH] using rev_ind; intros H; [done|].
  apply Forall_app in H as [H1 H2]. inversion H2 as [|? ? Hb]; subst.
  rewrite be_combine_snoc, length_app. simpl length.
  rewrite Nat2Z.inj_add, Z.pow_add_r by lia. change (256 ^ Z.of_nat 1) with 256.
  specialize (IH H1). unfold is_byte in Hb. lia.
Qed.
Lemma be_split_combine l : Forall is_byte l → be_split (length l) (be_combine l) = l.
Proof.
  induction l as [|b l IH] using rev_ind; intros H; [done|].
  apply Forall_app in H as [H1 H2]. inversion H2 as [|? ? Hb]; subst.
  rewrite be_combine_snoc, length_app, Nat.add_comm. simpl.
  unfold is_byte in Hb.
  replace ((be_combine l * 256 + b) / 256) with (be_combine l) by lia.
  replace ((be_combine l * 256 + b) mod 256) with b by lia.
  by rewrite IH.
Qed.

(** ** Decimal integers: [strconv] *)
Definition digit (d : Z) : string := String (chrZ (48 + d)) "".

(** [strconv.FormatUint(n, 10)]; [fuel] bounds the number of digits, and twenty
    digits hold every [uint64]. *)
Fixpoint format_digits (fuel : nat) (n : Z) : string :=
  match fuel with
  | O => ""
  | S f => if n <? 10 then digit n else format_digits f (n / 10) +:+ digit (n mod 10)
  end.
Definition FormatUint (n : Z) : string := format_digits 20 n.

Definition digit_value (c : ascii) : option Z :=
  let z := byteZ c in if (48 <=? z) && (z <=? 57) then Some (z - 48) else None.
Fixpoint parse_digits (acc : Z) (s : string) : option Z :=
  match s with
  | EmptyString => Some acc
  | String c s' =>
      match digit_value c with Some d => parse_digits (acc * 10 + d) s' | None => None end
  end.
(** [strconv.ParseUint(value, 10, 64)]: nonempty decimal digits, in range. *)
Definition ParseUint (s : string) : option Z :=
  match s with
  | EmptyString => None
  | _ => match parse_digits 0 s with
         | Some n => if n <? two64 then Some n else None
         | None => None
         end
  end.

Lemma digit_value_digit d : 0 <= d < 10 → digit_value (chrZ (48 + d)) = Some d.
Proof.
  intros H. unfold digit_value. rewrite byteZ_chrZ by lia.
  destruct (Z.leb_spec 48 (48 + d)), (Z.leb_spec (48 + d) 57); simpl; try lia.
  f_equal. lia.
Qed.
Lemma parse_digits_app s t acc :
  parse_digits acc (s +:+ t) =
  match parse_digits acc s with Some n => parse_digits n t | None => None end.
Proof.
  revert acc. induction s as [|c s IH]; intros acc; [done|].
  rewrite sapp_cons. simpl. destruct (digit_value c); [apply IH|done].
Qed.
Lemma parse_format_digits fuel n :
  0 <= n < 10 ^ Z.of_nat fuel → parse_digits 0 (format_digits fuel n) = Some n.
Proof.
  revert n. induction fuel as [|f IH]; intros n Hn.
  - simpl in *. f_equal. lia.
  - rewrite Nat2Z.inj_succ, Z.pow_succ_r in Hn by lia. simpl format_digits.
    destruct (Z.ltb_spec n 10).
    + simpl. rewrite digit_value_digit by lia. done.
    + rewrite parse_digits_app, IH by lia. simpl.
      rewrite digit_value_digit by lia. f_equal. lia.
Qed.
Lemma format_digits_nonempty fuel n : fuel ≠ O → format_digits fuel n ≠ "".
Proof.
  destruct fuel as [|f]; [done|]. intros _. simpl.
  destruct (n <? 10); [done|]. by destruct (format_digits f (n / 10)).
Qed.

Lemma ParseUint_FormatUint n : u64 n → ParseUint (FormatUint n) = Some n.
Proof.
  intros Hn. unfold ParseUint, FormatUint.
  destruct (format_digits 20 n) eqn:E.
  { exfalso. by apply (format_digits_nonempty 20 n). }
  rewrite <- E, parse_format_digits.
  - unfold u64 in Hn. destruct (Z.ltb_spec n two64); [done|lia].
  - unfold u64, two64 in Hn. lia.
Qed.
Lemma parse_digits_nonneg s acc n : 0 <= acc → parse_digits acc s = Some n → 0 <= n.
Proof.
  revert acc. induction s as [|c s IH]; intros acc Ha; simpl; [congruence|].
  unfold digit_value. destruct (_ && _) eqn:E; [|done]. unbool. apply IH. lia.
Qed.
Lemma ParseUint_range s n : ParseUint s = Some n → u64 n.
Proof.
  unfold ParseUint. destruct s as [|c s]; [done|].
  destruct (parse_digits 0 (String c s)) as [m|] eqn:E; [|done].
  destruct (Z.ltb_spec m two64); [|done]. intros [= <-].
  split; [|done]. eapply parse_digits_nonneg; [|exact E]. lia.
Qed.
(** The decimal text of a [uint64] has digits only. *)
Lemma format_digits_ascii fuel n : 0 <= n →
  Forall (λ b, 48 <= b <= 57) (bytes_list (format_digits fuel n)).
Proof.
  revert n. induction fuel as [|f IH]; intros n Hn; [constructor|]. simpl.
  destruct (Z.ltb_spec n 10).
  - simpl. repeat constructor; rewrite byteZ_chrZ; lia.
  - rewrite bytes_list_app. apply Forall_app. split; [apply IH; lia|].
    simpl. repeat constructor; rewrite byteZ_chrZ; lia.
Qed.

(** ** Hexadecimal: [encoding/hex] *)
Definition hex_digit (v : Z) : ascii := if v <? 10 then chrZ (48 + v) else chrZ (87 + v).
(** [hex.Decode] accepts both letter cases. *)
Definition hex_value (c : ascii) : option Z :=
  let z := byteZ c in
  if (48 <=? z) && (z <=? 57) then Some (z - 48)
  else if (97 <=? z) && (z <=? 102) then Some (z - 87)
  else if (65 <=? z) && (z <=? 70) then Some (z - 55)
  else None.
Fixpoint hex_encode (l : list Z) : string :=
  match l with
  | [] => ""
  | b :: l' => String (hex_digit (b / 16)) (String (hex_digit (b mod 16)) (hex_encode l'))
  end.
Fixpoint hex_decode (s : string) : option (list Z) :=
  match s with
  | EmptyString => Some []
  | String c (String d s') =>
      match hex_value c, hex_value d, hex_decode s' with
      | Some h, Some l, Some r => Some (h * 16 + l :: r)
      | _, _, _ => None
      end
  | String _ EmptyString => None
  end.

Lemma hex_value_digit v : 0 <= v < 16 → hex_value (hex_digit v) = Some v.
Proof.
  intros H. unfold hex_digit, hex_value. destruct (Z.ltb_spec v 10).
  - rewrite byteZ_chrZ by lia.
    destruct (Z.leb_spec 48 (48 + v)), (Z.leb_spec (48 + v) 57); simpl; try lia. f_equal; lia.
  - rewrite byteZ_chrZ by lia.
    destruct (Z.leb_spec 48 (87 + v)), (Z.leb_spec (87 + v) 57); simpl; try lia.
    destruct (Z.leb_spec 97 (87 + v)), (Z.leb_spec (87 + v) 102); simpl; try lia. f_equal; lia.
Qed.
Lemma hex_value_range c v : hex_value c = Some v → 0 <= v < 16.
Proof.
  unfold hex_value. intros H.
  repeat (case_match_in H; unbool; try (injection H as <-; lia)). done.
Qed.
Lemma hex_decode_encode l : Forall is_byte l → hex_decode (hex_encode l) = Some l.
Proof.
  induction 1 as [|b l Hb _ IH]; simpl; [done|]. unfold is_byte in Hb.
  rewrite !hex_value_digit by lia. rewrite IH. do 2 f_equal. lia.
Qed.
Lemma length_hex_encode l : String.length (hex_encode l) = (2 * length l)%nat.
Proof. induction l; simpl; lia. Qed.
Lemma hex_encode_app l k : hex_encode (l ++ k) = hex_encode l +:+ hex_encode k.
Proof. induction l as [|b l IH]; [done|]. simpl. by rewrite IH. Qed.
Lemma hex_decode_byte s : ∀ l, hex_decode s = Some l → Forall is_byte l.
Proof.
  induction s as [s IH] using (induction_ltof1 _ String.length). unfold ltof in IH.
  destruct s as [|c [|d s]]; simpl; intros l H; [injection H as <-; constructor|done|].
  destruct (hex_value c) as [h|] eqn:Hh; [|done].
  destruct (hex_value d) as [v|] eqn:Hv; [|done].
  destruct (hex_decode s) as [r|] eqn:Hr; [|done]. injection H as <-.
  apply hex_value_range in Hh, Hv.
  constructor; [unfold is_byte; lia|]. eapply (IH s); [simpl; lia|done].
Qed.

(** ** Base64: [base64.RawURLEncoding.Strict()] *)
Definition b64_char (v : Z) : ascii :=
  if v <? 26 then chrZ (65 + v) else if v <? 52 then chrZ (71 + v)
  else if v <? 62 then chrZ (v - 4) else if v =? 62 then "-" else "_".
Definition b64_value (c : ascii) : option Z :=
  let z := byteZ c in
  if (65 <=? z) && (z <=? 90) then Some (z - 65)
  else if (97 <=? z) && (z <=? 122) then Some (z - 71)
  else if (48 <=? z) && (z <=? 57) then Some (z + 4)
  else if z =? 45 then Some 62 else if z =? 95 then Some 63 else None.

Fixpoint b64_encode (l : list Z) : string :=
  match l with
  | [] => ""
  | [a] => String (b64_char (a / 4)) (String (b64_char (a mod 4 * 16)) "")
  | [a; b] =>
      String (b64_char (a / 4)) (String (b64_char (a mod 4 * 16 + b / 16))
        (String (b64_char (b mod 16 * 4)) ""))
  | a :: b :: c :: r =>
      String (b64_char (a / 4)) (String (b64_char (a mod 4 * 16 + b / 16))
        (String (b64_char (b mod 16 * 4 + c / 64)) (String (b64_char (c mod 64)) (b64_encode r))))
  end.

(** The decoder drops carriage returns and line feeds, works on quanta of four
    symbols, rejects a final quantum of one symbol and, being [Strict], nonzero
    trailing padding bits. *)
Fixpoint b64_symbols (s : string) : option (list Z) :=
  match s with
  | EmptyString => Some []
  | String c s' =>
      if (byteZ c =? 10) || (byteZ c =? 13) then b64_symbols s'
      else match b64_value c, b64_symbols s' with
           | Some v, Some r => Some (v :: r) | _, _ => None end
  end.
Fixpoint b64_quanta (l : list Z) : option (list Z) :=
  match l with
  | [] => Some []
  | [_] => None
  | [p; q] => if q mod 16 =? 0 then Some [p * 4 + q / 16] else None
  | [p; q; r] =>
      if r mod 4 =? 0 then Some [p * 4 + q / 16; q mod 16 * 16 + r / 4] else None
  | p :: q :: r :: t :: l' =>
      match b64_quanta l' with
      | Some k => Some (p * 4 + q / 16 :: q mod 16 * 16 + r / 4 :: r mod 4 * 64 + t :: k)
      | None => None
      end
  end.
Definition b64_decode (s : string) : option (list Z) :=
  match b64_symbols s with Some l => b64_quanta l | None => None end.

Lemma b64_value_char v : 0 <= v < 64 →
  b64_value (b64_char v) = Some v ∧ byteZ (b64_char v) ≠ 10 ∧ byteZ (b64_char v) ≠ 13.
Proof.
  intros H.
  assert (Hall : forallb (λ n, bool_decide (b64_value (b64_char (Z.of_nat n)) = Some (Z.of_nat n)
     ∧ byteZ (b64_char (Z.of_nat n)) ≠ 10 ∧ byteZ (b64_char (Z.of_nat n)) ≠ 13)) (seq 0 64) = true)
    by (vm_compute; reflexivity).
  rewrite forallb_forall in Hall. specialize (Hall (Z.to_nat v)).
  rewrite in_seq, bool_decide_eq_true, Z2Nat.id in Hall by lia. apply Hall. lia.
Qed.
Lemma b64_symbols_char v s : 0 <= v < 64 →
  b64_symbols (String (b64_char v) s) =
  match b64_symbols s with Some r => Some (v :: r) | None => None end.
Proof.
  intros H. destruct (b64_value_char v H) as (H1 & H2 & H3). simpl.
  apply Z.eqb_neq in H2, H3. by rewrite H2, H3, H1.
Qed.

Lemma b64_decode_encode l : Forall is_byte l → b64_decode (b64_encode l) = Some l.
Proof.
  unfold b64_decode.
  induction l as [l IH] using (induction_ltof1 _ length). unfold ltof in IH.
  intros Hb. destruct l as [|a [|b [|c r]]]; [done|..];
    repeat match goal with H : Forall _ (_ :: _) |- _ => apply Forall_cons in H as [? H] end;
    unfold is_byte in *; simpl b64_encode; rewrite !b64_symbols_char by lia.
  - simpl. destruct (Z.eqb_spec (a mod 4 * 16 mod 16) 0); [do 2 f_equal; lia|lia].
  - simpl. destruct (Z.eqb_spec (b mod 16 * 4 mod 4) 0); [|lia].
    f_equal. f_equal; [lia|]. f_equal. lia.
  - specialize (IH r). destruct (b64_symbols (b64_encode r)) as [k|].
    + simpl. rewrite IH by (simpl; auto; lia).
      f_equal. f_equal; [lia|]. f_equal; [lia|]. f_equal. lia.
    + specialize (IH ltac:(simpl; lia) Hb). discriminate.
Qed.
Lemma b64_encode_inj l k : Forall is_byte l → Forall is_byte k →
  b64_encode l = b64_encode k → l = k.
Proof.
  intros Hl Hk E. apply b64_decode_encode in Hl, Hk. rewrite E in Hl. congruence.
Qed.

(** ** UTF-8: [utf8.Valid] *)
Definition is_cont (z : Z) : bool := (128 <=? z) && (z <=? 191).
Fixpoint utf8_valid_bytes (l : list Z) : bool :=
  match l with
  | [] => true
  | a :: r =>
      if a <? 128 then utf8_valid_bytes r
      else if (194 <=? a) && (a <=? 223) then
        match r with b :: r' => is_cont b && utf8_valid_bytes r' | _ => false end
      else if (224 <=? a) && (a <=? 239) then
        match r with
        | b :: c :: r' =>
            is_cont b && is_cont c && (if a =? 224 then 160 <=? b else true)
            && (if a =? 237 then b <=? 159 else true) && utf8_valid_bytes r'
        | _ => false
        end
      else if (240 <=? a) && (a <=? 244) then
        match r with
        | b :: c :: d :: r' =>
            is_cont b && is_cont c && is_cont d && (if a =? 240 then 144 <=? b else true)
            && (if a =? 244 then b <=? 143 else true) && utf8_valid_bytes r'
        | _ => false
        end
      else false
  end.
Definition utf8_valid (s : string) : bool := utf8_valid_bytes (bytes_list s).

Lemma utf8_valid_ascii l : Forall (λ b, b < 128) l → utf8_valid_bytes l = true.
Proof.
  induction 1 as [|b l Hb _ IH]; simpl; [done|]. by rewrite (proj2 (Z.ltb_lt _ _) Hb).
Qed.

(** ** crypto/sha256, as the server calls it

    [sha256.Sum256] and the streaming [sha256.New] ... [Sum(nil)] interface, both
    a function of the concatenated input.  The definition is FIPS 180-4 on
    32-bit words kept in [Z]; nothing in the development depends on more than
    its being a function with 32-byte results, and no collision resistance is
    assumed anywhere. *)

(** [0xffffffff]: arithmetic on words is modulo [2 ^ 32], here by masking. *)
Definition mask32 : Z := 4294967295.
Definition w32 (z : Z) : Z := Z.land z mask32.
Lemma w32_mod z : w32 z = z mod 2 ^ 32.
Proof. apply (Z.land_ones z 32). lia. Qed.
Definition rotr (n x : Z) : Z := Z.lor (Z.shiftr x n) (w32 (Z.shiftl x (32 - n))).
Definition xor3 (a b c : Z) : Z := Z.lxor a (Z.lxor b c).
Definition ch (x y z : Z) : Z := Z.lxor (Z.land x y) (Z.land (Z.lxor x mask32) z).
Definition maj (x y z : Z) : Z := xor3 (Z.land x y) (Z.land x z) (Z.land y z).
Definition bsig0 (x : Z) : Z := xor3 (rotr 2 x) (rotr 13 x) (rotr 22 x).
Definition bsig1 (x : Z) : Z := xor3 (rotr 6 x) (rotr 11 x) (rotr 25 x).
Definition ssig0 (x : Z) : Z := xor3 (rotr 7 x) (rotr 18 x) (Z.shiftr x 3).
Definition ssig1 (x : Z) : Z := xor3 (rotr 17 x) (rotr 19 x) (Z.shiftr x 10).

(** The constants are the leading fractional bits of roots of the first primes:
    cube roots for the rounds, square roots for the initial value. *)
Definition is_prime (n : nat) : bool :=
  forallb (λ d, negb (n mod d =? 0)%nat) (seq 2 (n - 2)).
Definition first_primes (k : nat) : list Z := map Z.of_nat (take k (List.filter is_prime (seq 2 310))).
(** The largest [r + d] with [d < 2 ^ bits] whose cube does not pass [n]. *)
Fixpoint cube_root_from (bits : nat) (r n : Z) : Z :=
  match bits with
  | O => r
  | S b => let r' := r + 2 ^ Z.of_nat b in cube_root_from b (if r' * r' * r' <=? n then r' else r) n
  end.
Definition fraction_of_cube_root (p : Z) : Z := w32 (cube_root_from 36 0 (p * 2 ^ 96)).
Definition fraction_of_square_root (p : Z) : Z := w32 (Z.sqrt (p * 2 ^ 64)).
Definition round_constants : list Z := Eval vm_compute in map fraction_of_cube_root (first_primes 64).
Definition initial_hash : list Z := Eval vm_compute in map fraction_of_square_root (first_primes 8).

(** Message padding: a one bit, zeros, and the bit length in eight bytes. *)
Definition pad (l : list Z) : list Z :=
  let n := Z.of_nat (length l) in
  l ++ [128] ++ replicate (Z.to_nat ((55 - n) mod 64)) 0 ++ be_split 8 (8 * n).

Fixpoint words (l : list Z) : list Z :=
  match l with
  | a :: b :: c :: d :: r => be_combine [a; b; c; d] :: words r
  | _ => []
  end.

(** The message schedule, newest word first. *)
Fixpoint extend (n : nat) (w : list Z) : list Z :=
  match n with
  | O => w
  | S n' =>
      extend n' (w32 (ssig1 (nth 1 w 0) + nth 6 w 0 + ssig0 (nth 14 w 0) + nth 15 w 0) :: w)
  end.
Definition schedule (block : list Z) : list Z := rev (extend 48 (rev (words block))).

Definition sha_round (s : list Z) (kw : Z * Z) : list Z :=
  match s with
  | [a; b; c; d; e; f; g; h] =>
      let t1 := h + bsig1 e + ch e f g + kw.1 + kw.2 in
      let t2 := bsig0 a + maj a b c in
      [w32 (t1 + t2); a; b; c; w32 (d + t1); e; f; g]
  | _ => s
  end.
Definition compress (h block : list Z) : list Z :=
  zip_with (λ x y, w32 (x + y)) h
    (fold_left sha_round (zip round_constants (schedule block)) h).

Fixpoint blocks (fuel : nat) (l : list Z) (h : list Z) : list Z :=
  match fuel, l with
  | O, _ | _, [] => h
  | S f, _ => blocks f (drop 64 l) (compress h (take 64 l))
  end.

(** [sha256.Sum256(message)]; one compression per 64-byte block, so the number
    of input bytes is more than enough fuel. *)
Definition Sum256 (message : string) : string :=
  let p := pad (bytes_list message) in
  of_bytes (concat (map (be_split 4) (blocks (length p) p initial_hash))).

Example sum256_abc :
  hex_encode (bytes_list (Sum256 "abc"))
  = "ba7816bf8f01cfea414140de5dae2223b00361a396177a9cb410ff61f20015ad".
Proof. vm_compute. reflexivity. Qed.
Example sum256_empty :
  hex_encode (bytes_list (Sum256 ""))
  = "e3b0c44298fc1c149afbf4c8996fb92427ae41e4649b934ca495991b7852b855".
Proof. vm_compute. reflexivity. Qed.

Lemma sha_round_length s kw : length s = 8%nat → length (sha_round s kw) = 8%nat.
Proof. intros H. by do 9 (destruct s as [|? s]; try discriminate). Qed.
Lemma compress_length h b : length h = 8%nat → length (compress h b) = 8%nat.
Proof.
  intros H. unfold compress. rewrite length_zip_with.
  enough (length (fold_left sha_round (zip round_constants (schedule b)) h) = 8%nat) by lia.
  generalize (zip round_constants (schedule b)). intros l. revert h H.
  induction l as [|x l IH]; intros h H; simpl; [done|]. apply IH. by apply sha_round_length.
Qed.
Lemma blocks_length f l h : length h = 8%nat → length (blocks f l h) = 8%nat.
Proof.
  revert l h. induction f as [|f IH]; intros l h H; simpl; [done|].
  destruct l; [done|]. apply IH. by apply compress_length.
Qed.
Lemma Sum256_length m : String.length (Sum256 m) = 32%nat.
Proof.
  unfold Sum256. rewrite length_of_bytes.
  assert (Hc : ∀ k : list Z, length (concat (map (be_split 4) k)) = (4 * length k)%nat).
  { induction k as [|x k IH]; [done|]. cbn [map concat length].
    rewrite length_app, length_be_split, IH. lia. }
  by rewrite Hc, blocks_length.
Qed.

Global Opaque Sum256.
