(* ===== verification/GoTime.v ===== *)
(** * Package time, as the server uses it

    A [time.Time] carries a wall reading and a monotonic reading, both in
    nanoseconds; [Before], [After] and [Sub] use the monotonic one and
    [UnixMilli] the wall one, as Go does for values obtained from [time.Now].
    Timestamps on the wire have the layout "2006-01-02T15:04:05.000Z". *)

From stdpp Require Import base list strings.
From Stdlib Require Import ZArith Lia Ascii.
From S2P Require Import Prelude GoStd.
Local Open Scope Z_scope.

Record gotime := { wall : Z; mono : Z }.

Definition Millisecond : Z := 10 ^ 6.
Definition Second : Z := 10 ^ 9.
Definition Minute : Z := 60 * Second.
Definition Hour : Z := 60 * Minute.

Definition Before (a b : gotime) : bool := mono a <? mono b.
Definition After (a b : gotime) : bool := mono b <? mono a.
Definition Add (t : gotime) (d : Z) : gotime := {| wall := wall t + d; mono := mono t + d |}.
(** [Sub] saturates at the bounds of an int64 duration. *)
Definition Sub (a b : gotime) : Z := Z.max (- 2 ^ 63) (Z.min (2 ^ 63 - 1) (mono a - mono b)).
(** [Duration.Milliseconds]: integer division towards zero. *)
Definition Milliseconds (d : Z) : Z := Z.quot d Millisecond.
Definition UnixMilli (t : gotime) : Z := wall t / Millisecond.

(** ** Civil dates *)
Definition civil (z : Z) : Z * Z * Z :=
  let z := z + 719468 in
  let era := z / 146097 in
  let doe := z mod 146097 in
  let yoe := (doe - doe / 1460 + doe / 36524 - doe / 146096) / 365 in
  let doy := doe - (365 * yoe + yoe / 4 - yoe / 100) in
  let mp := (5 * doy + 2) / 153 in
  let d := doy - (153 * mp + 2) / 5 + 1 in
  let m := if mp <? 10 then mp + 3 else mp - 9 in
  ((yoe + era * 400 + (if m <=? 2 then 1 else 0)), m, d).

Definition days (y m d : Z) : Z :=
  let y := if m <=? 2 then y - 1 else y in
  let era := y / 400 in
  let yoe := y mod 400 in
  let mp := if 2 <? m then m - 3 else m + 9 in
  let doy := (153 * mp + 2) / 5 + d - 1 in
  let doe := yoe * 365 + yoe / 4 - yoe / 100 + doy in
  era * 146097 + doe - 719468.

Definition leap (y : Z) : bool :=
  (y mod 4 =? 0) && (negb (y mod 100 =? 0) || (y mod 400 =? 0)).
Definition days_in (m y : Z) : Z :=
  if m =? 2 then if leap y then 29 else 28
  else if (m =? 4) || (m =? 6) || (m =? 9) || (m =? 11) then 30 else 31.

(** Zero-padded decimal of fixed width (Go's [appendInt]). *)
Fixpoint padded (width : nat) (n : Z) : string :=
  match width with
  | O => ""
  | S w => padded w (n / 10) +:+ digit (n mod 10)
  end.
Definition append_int (x : Z) (width : nat) : string :=
  if x <? 0 then "-" +:+ (if - x <? 10 ^ Z.of_nat width then padded width (- x) else FormatUint (- x))
  else if x <? 10 ^ Z.of_nat width then padded width x else FormatUint x.

(** [formatTimestamp]: [time.UnixMilli(ms).UTC().Format(layout)]. *)
Definition formatTimestamp (milliseconds : Z) : string :=
  let day := milliseconds / 86400000 in
  let rem := milliseconds mod 86400000 in
  let '(y, m, d) := civil day in
  append_int y 4 +:+ "-" +:+ padded 2 m +:+ "-" +:+ padded 2 d +:+ "T" +:+
  padded 2 (rem / 3600000) +:+ ":" +:+ padded 2 (rem / 60000 mod 60) +:+ ":" +:+
  padded 2 (rem / 1000 mod 60) +:+ "." +:+ padded 3 (rem mod 1000) +:+ "Z".

(** [time.Parse(layout, value)] on fixed-width fields, in milliseconds.  The
    further texts Go accepts (a one-digit hour, a decimal comma) are ruled out
    at every use: one caller compares [Format] with the input, the other parses
    text that [formatTimestamp] produced. *)
Definition take_digits (n : nat) (s : string) : option (Z * string) :=
  match parse_digits 0 (String.substring 0 n s) with
  | Some v => if (String.length s <? n)%nat then None
              else Some (v, String.substring n (String.length s - n) s)
  | None => None
  end.
Definition take_lit (p s : string) : option string := strip_prefix p s.

Definition parse_timestamp (s : string) : option Z :=
  match take_digits 4 s with None => None | Some (y, s) =>
  match take_lit "-" s with None => None | Some s =>
  match take_digits 2 s with None => None | Some (mo, s) =>
  match take_lit "-" s with None => None | Some s =>
  match take_digits 2 s with None => None | Some (d, s) =>
  match take_lit "T" s with None => None | Some s =>
  match take_digits 2 s with None => None | Some (h, s) =>
  match take_lit ":" s with None => None | Some s =>
  match take_digits 2 s with None => None | Some (mi, s) =>
  match take_lit ":" s with None => None | Some s =>
  match take_digits 2 s with None => None | Some (se, s) =>
  match take_lit "." s with None => None | Some s =>
  match take_digits 3 s with None => None | Some (ms, s) =>
  match s with
  | String "Z" EmptyString =>
      if (1 <=? mo) && (mo <=? 12) && (1 <=? d) && (d <=? days_in mo y)
         && (h <? 24) && (mi <? 60) && (se <? 60)
      then Some (days y mo d * 86400000 + h * 3600000 + mi * 60000 + se * 1000 + ms)
      else None
  | _ => None
  end end end end end end end end end end end end end end.

(** [validateTimestamp] (true where it returns nil). *)
Definition validateTimestamp (value : string) : bool :=
  match parse_timestamp value with
  | Some ms => String.eqb (formatTimestamp ms) value
  | None => false
  end.

Example timestamp_epoch : formatTimestamp 0 = "1970-01-01T00:00:00.000Z".
Proof. reflexivity. Qed.
Example timestamp_2024 : formatTimestamp 1709210096789 = "2024-02-29T12:34:56.789Z".
Proof. reflexivity. Qed.

(** ** Round trip *)

(** Bounded checks by evaluation. *)
Definition check_step (p : Z → bool) (s : Z * bool) : Z * bool := (s.1 + 1, s.2 && p s.1).
Definition check_upto (n : positive) (p : Z → bool) : bool :=
  (Pos.iter (check_step p) (0, true) n).2.

Lemma check_upto_spec n p : check_upto n p = true → ∀ z, 0 <= z < Z.pos n → p z = true.
Proof.
  unfold check_upto. rewrite Pos2Nat.inj_iter. rewrite <- (positive_nat_Z n).
  generalize (Pos.to_nat n) as k. clear n.
  assert (Hfst : ∀ k, (Nat.iter k (check_step p) (0, true)).1 = Z.of_nat k).
  { induction k as [|k IH]; [done|].
    change ((Nat.iter k (check_step p) (0, true)).1 + 1 = Z.of_nat (S k)). lia. }
  induction k as [|k IH]; [lia|].
  change ((Nat.iter k (check_step p) (0, true)).2
          && p (Nat.iter k (check_step p) (0, true)).1 = true → ∀ z, 0 <= z < Z.of_nat (S k) → p z = true).
  rewrite Hfst. intros [Hb Hp]%andb_true_iff z Hz.
  destruct (decide (z = Z.of_nat k)) as [->|]; [done|]. apply IH; [done|lia].
Qed.

(** First day of the [yoe]-th year of an era, years starting in March. *)
Definition year_start (yoe : Z) : Z := 365 * yoe + yoe / 4 - yoe / 100.
Definition year_of_era (doe : Z) : Z := (doe - doe / 1460 + doe / 36524 - doe / 146096) / 365.

(** The year computation is monotone, so its value on a whole year is fixed by
    the first and the last day, which are checked for the 400 years. *)
Lemma year_of_era_mono a b : a <= b → year_of_era a <= year_of_era b.
Proof.
  intros H. unfold year_of_era. apply Z.div_le_mono; [lia|].
  assert (Hstep : ∀ x, x - x / 1460 + x / 36524 - x / 146096
    <= (x + 1) - (x + 1) / 1460 + (x + 1) / 36524 - (x + 1) / 146096).
  { intros x. replace 146096 with (36524 * 4) by lia. rewrite <- !Z.div_div by lia. lia. }
  replace b with (a + Z.of_nat (Z.to_nat (b - a))) by lia.
  generalize (Z.to_nat (b - a)) as k. induction k as [|k IH]; [lia|].
  etransitivity; [exact IH|]. specialize (Hstep (a + Z.of_nat k)).
  replace (a + Z.of_nat (S k)) with (a + Z.of_nat k + 1) by lia. exact Hstep.
Qed.
Lemma year_ends yoe : 0 <= yoe < 400 →
  year_of_era (year_start yoe) = yoe ∧
  (year_start (yoe + 1) - 1 < 146097 → year_of_era (year_start (yoe + 1) - 1) = yoe) ∧
  year_start (yoe + 1) - year_start yoe <= (if leap (yoe + 1) then 366 else 365) ∧
  year_of_era 146096 = 399 ∧ year_start 399 = 145731.
Proof.
  intros H.
  pose proof (check_upto_spec 400 (λ yoe, (year_of_era (year_start yoe) =? yoe)
    && (negb (year_start (yoe + 1) - 1 <? 146097) || (year_of_era (year_start (yoe + 1) - 1) =? yoe))
    && (year_start (yoe + 1) - year_start yoe <=? (if leap (yoe + 1) then 366 else 365)))
    ltac:(vm_compute; reflexivity) yoe H) as Hc. simpl in Hc. unbool.
  split; [done|]. split; [|done]. intros Hlt. apply orb_true_iff in H2 as [H2|H2]; unbool; lia.
Qed.
Lemma year_of_era_spec doe : 0 <= doe < 146097 →
  0 <= year_of_era doe < 400 ∧ year_start (year_of_era doe) <= doe ∧
  doe - year_start (year_of_era doe) < (if leap (year_of_era doe + 1) then 366 else 365).
Proof.
  intros H.
  assert (Hr : 0 <= year_of_era doe < 400).
  { pose proof (year_of_era_mono 0 doe ltac:(lia)) as H0.
    pose proof (year_of_era_mono doe 146096 ltac:(lia)) as H1.
    change (year_of_era 0) with 0 in H0. change (year_of_era 146096) with 399 in H1. lia. }
  split; [done|]. set (y := year_of_era doe) in *.
  destruct (year_ends y Hr) as (Hs & _ & Hlen & _).
  assert (Hge : year_start y <= doe).
  { destruct (Z.le_gt_cases (year_start y) doe) as [|Hlt]; [done|].
    destruct (decide (y = 0)) as [E|]; [rewrite E in Hlt; change (year_start 0) with 0 in Hlt; lia|].
    destruct (year_ends (y - 1) ltac:(lia)) as (_ & He & _).
    replace (y - 1 + 1) with y in He by lia.
    pose proof (year_of_era_mono doe (year_start y - 1) ltac:(lia)) as Hm.
    change (year_of_era doe) with y in Hm. unfold year_start in He at 1. lia. }
  split; [done|]. destruct (Z.lt_ge_cases doe (year_start (y + 1))) as [|Hge2]; [lia|].
  destruct (decide (y = 399)) as [E|].
  { rewrite E in *. change (year_start 399) with 145731 in *. change (leap (399 + 1)) with true. lia. }
  destruct (year_ends (y + 1) ltac:(lia)) as (Hs' & _).
  pose proof (year_of_era_mono (year_start (y + 1)) doe ltac:(lia)) as Hm.
  change (year_of_era doe) with y in Hm. lia.
Qed.

(** Month and day from the day of a March-based year. *)
Definition month_day (doy : Z) : Z * Z :=
  let mp := (5 * doy + 2) / 153 in
  (if mp <? 10 then mp + 3 else mp - 9, doy - (153 * mp + 2) / 5 + 1).
Lemma month_day_spec doy m d : 0 <= doy < 366 → month_day doy = (m, d) →
  1 <= m <= 12 ∧ 1 <= d ∧
  d <= (if m =? 2 then if doy <? 365 then 28 else 29
        else if (m =? 4) || (m =? 6) || (m =? 9) || (m =? 11) then 30 else 31) ∧
  (153 * (if 2 <? m then m - 3 else m + 9) + 2) / 5 + d - 1 = doy ∧
  (doy = 365 → m = 2).
Proof.
  intros H Hmd.
  pose proof (check_upto_spec 366 (λ doy, let '(m, d) := month_day doy in
    (1 <=? m) && (m <=? 12) && (1 <=? d) &&
    (d <=? (if m =? 2 then if doy <? 365 then 28 else 29
        else if (m =? 4) || (m =? 6) || (m =? 9) || (m =? 11) then 30 else 31))
    && ((153 * (if 2 <? m then m - 3 else m + 9) + 2) / 5 + d - 1 =? doy)
    && (negb (doy =? 365) || (m =? 2))) ltac:(vm_compute; reflexivity) doy H) as Hc.
  cbv beta in Hc. rewrite Hmd in Hc. unbool. repeat split; try done.
  intros ->. apply orb_true_iff in H1 as [H1|H1]; unbool; lia.
Qed.

Lemma era_days_ok doe y m d : 0 <= doe < 146097 → civil (doe - 719468) = (y, m, d) →
  days y m d = doe - 719468 ∧ 1 <= m <= 12 ∧ 1 <= d <= days_in m y ∧ 0 <= y <= 400.
Proof.
  intros H Hc. destruct (year_of_era_spec doe H) as (Hy & Hs & Hl).
  unfold civil in Hc. replace (doe - 719468 + 719468) with doe in Hc by lia.
  rewrite (Z.div_small doe), (Z.mod_small doe) in Hc by lia.
  change ((doe - doe / 1460 + doe / 36524 - doe / 146096) / 365) with (year_of_era doe) in Hc.
  set (yoe := year_of_era doe) in *.
  change (365 * yoe + yoe / 4 - yoe / 100) with (year_start yoe) in Hc.
  set (doy := doe - year_start yoe) in *.
  assert (Hdoy : 0 <= doy < 366) by (destruct (leap (yoe + 1)); lia).
  destruct (month_day doy) as [m' d'] eqn:Hmd.
  pose proof (month_day_spec doy m' d' Hdoy Hmd) as (Hm & Hd1 & Hd2 & Hinv & H365).
  unfold month_day in Hmd. injection Hmd as Hm' Hd'. rewrite Hm', Hd' in Hc.
  injection Hc as <- <- <-. rewrite Z.mul_0_l, Z.add_0_r.
  unfold days, days_in. destruct (Z.leb_spec m' 2), (Z.ltb_spec 2 m'); try lia.
  - rewrite Z.add_simpl_r, (Z.div_small yoe), (Z.mod_small yoe) by lia.
    unfold doy, year_start in *. destruct (Z.eqb_spec m' 2); [|lia].
    destruct (Z.ltb_spec (doe - (365 * yoe + yoe / 4 - yoe / 100)) 365); destruct (leap (yoe + 1)); lia.
  - rewrite Z.add_0_r, (Z.div_small yoe), (Z.mod_small yoe) by lia.
    unfold doy, year_start in *. destruct (Z.eqb_spec m' 2); lia.
Qed.

Lemma civil_shift e doe : 0 <= doe < 146097 →
  civil (e * 146097 + doe - 719468)
  = let '(y, m, d) := civil (doe - 719468) in (y + e * 400, m, d).
Proof.
  intros H. unfold civil.
  replace (e * 146097 + doe - 719468 + 719468) with (doe + e * 146097) by lia.
  replace (doe - 719468 + 719468) with doe by lia.
  rewrite Z.div_add, Z.mod_add, (Z.div_small doe), (Z.mod_small doe) by lia.
  do 2 f_equal. lia.
Qed.
Lemma days_shift e y m d : days (y + e * 400) m d = days y m d + e * 146097.
Proof.
  unfold days. destruct (m <=? 2); destruct (2 <? m);
    [replace (y + e * 400 - 1) with (y - 1 + e * 400) by lia|replace (y + e * 400 - 1) with (y - 1 + e * 400) by lia| |];
    rewrite Z.div_add, Z.mod_add by lia; lia.
Qed.
Lemma leap_shift e y : leap (y + e * 400) = leap y.
Proof.
  unfold leap.
  replace (y + e * 400) with (y + (e * 100) * 4) by lia. rewrite Z.mod_add by lia.
  replace (y + e * 100 * 4) with (y + (e * 4) * 100) by lia. rewrite (Z.mod_add _ _ 100) by lia.
  replace (y + e * 4 * 100) with (y + e * 400) by lia. rewrite Z.mod_add by lia. done.
Qed.

Lemma civil_days z y m d : civil z = (y, m, d) →
  days y m d = z ∧ 1 <= m <= 12 ∧ 1 <= d <= days_in m y ∧
  400 * ((z + 719468) / 146097) <= y <= 400 * ((z + 719468) / 146097) + 400.
Proof.
  intros H. set (e := (z + 719468) / 146097). set (doe := (z + 719468) mod 146097).
  assert (Hdoe : 0 <= doe < 146097) by (apply Z.mod_pos_bound; lia).
  assert (Hz : z = e * 146097 + doe - 719468).
  { pose proof (Z.div_mod (z + 719468) 146097 ltac:(lia)). unfold e, doe. lia. }
  rewrite Hz, civil_shift in H by done.
  destruct (civil (doe - 719468)) as [[y0 m0] d0] eqn:Hc. injection H as <- <- <-.
  pose proof (era_days_ok doe _ _ _ Hdoe Hc) as (H1 & H2 & H3 & H4).
  rewrite days_shift. assert (Hi : days_in m0 (y0 + e * 400) = days_in m0 y0).
  { unfold days_in. by rewrite leap_shift. }
  rewrite Hi. lia.
Qed.

Lemma padded_length w n : String.length (padded w n) = w.
Proof.
  revert n. induction w as [|w IH]; intros n; [done|]. simpl.
  rewrite length_sapp, IH. simpl. lia.
Qed.
Lemma parse_padded w n : 0 <= n < 10 ^ Z.of_nat w → parse_digits 0 (padded w n) = Some n.
Proof.
  revert n. induction w as [|w IH]; intros n Hn.
  - simpl in *. f_equal. lia.
  - rewrite Nat2Z.inj_succ, Z.pow_succ_r in Hn by lia. simpl padded.
    rewrite parse_digits_app, IH by lia. simpl.
    rewrite digit_value_digit by lia. f_equal. lia.
Qed.
Lemma substring_app_l s t : String.substring 0 (String.length s) (s +:+ t) = s.
Proof. induction s as [|c s IH]; [by destruct t|]. rewrite sapp_cons. simpl. by rewrite IH. Qed.
Lemma substring_all s : String.substring 0 (String.length s) s = s.
Proof. induction s as [|c s IH]; [done|]. simpl. by rewrite IH. Qed.
Lemma substring_app_r s t :
  String.substring (String.length s) (String.length (s +:+ t) - String.length s) (s +:+ t) = t.
Proof.
  induction s as [|c s IH].
  - change ("" +:+ t) with t. simpl String.length. rewrite Nat.sub_0_r. apply substring_all.
  - rewrite sapp_cons. simpl. apply IH.
Qed.
Lemma take_digits_padded w n s : 0 <= n < 10 ^ Z.of_nat w →
  take_digits w (padded w n +:+ s) = Some (n, s).
Proof.
  intros Hn. unfold take_digits.
  pose proof (substring_app_l (padded w n) s) as Hl.
  pose proof (substring_app_r (padded w n) s) as Hr.
  rewrite padded_length in Hl, Hr. rewrite Hl, Hr, parse_padded by done.
  rewrite length_sapp, padded_length.
  destruct (Nat.ltb_spec (w + String.length s) w); [lia|done].
Qed.

(** The instants whose year has four digits: 0000-01-01 to 9999-12-31. *)
Definition four_digit_year (milliseconds : Z) : Prop :=
  let '(y, _, _) := civil (milliseconds / 86400000) in 0 <= y <= 9999.

Lemma parse_format_timestamp ms : four_digit_year ms → parse_timestamp (formatTimestamp ms) = Some ms.
Proof.
  unfold four_digit_year, formatTimestamp, parse_timestamp.
  destruct (civil (ms / 86400000)) as [[y m] d] eqn:Hc. intros Hy.
  apply civil_days in Hc as (Hd & Hm & Hdd & _).
  assert (Hdm : days_in m y <= 31).
  { unfold days_in. repeat case_match_goal; lia. }
  assert (Happ : append_int y 4 = padded 4 y).
  { unfold append_int. destruct (Z.ltb_spec y 0); [lia|].
    destruct (Z.ltb_spec y (10 ^ Z.of_nat 4)); [done|lia]. }
  rewrite Happ. clear Happ. unfold take_lit.
  rewrite (take_digits_padded 4) by (simpl Z.of_nat; lia). rewrite strip_prefix_app.
  rewrite (take_digits_padded 2) by (simpl Z.of_nat; lia). rewrite strip_prefix_app.
  rewrite (take_digits_padded 2) by (simpl Z.of_nat; lia). rewrite strip_prefix_app.
  rewrite (take_digits_padded 2) by (simpl Z.of_nat; lia). rewrite strip_prefix_app.
  rewrite (take_digits_padded 2) by (simpl Z.of_nat; lia). rewrite strip_prefix_app.
  rewrite (take_digits_padded 2) by (simpl Z.of_nat; lia). rewrite strip_prefix_app.
  rewrite (take_digits_padded 3) by (simpl Z.of_nat; lia).
  rewrite Hd.
  repeat match goal with
  | |- context [?a <=? ?b] => destruct (Z.leb_spec a b); [|lia]
  | |- context [?a <? ?b] => destruct (Z.ltb_spec a b); [|lia]
  end. simpl. f_equal. lia.
Qed.

Lemma formatTimestamp_valid ms : four_digit_year ms → validateTimestamp (formatTimestamp ms) = true.
Proof.
  intros H. unfold validateTimestamp. rewrite parse_format_timestamp by done.
  apply String.eqb_refl.
Qed.

(** Timestamps round trip: for every instant with a four-digit year,
    parsing the wire text [formatTimestamp] produces returns the same number of
    milliseconds, and the text passes [validateTimestamp]. *)
Theorem timestamp_roundtrip ms (Hy : four_digit_year ms) :
  parse_timestamp (formatTimestamp ms) = Some ms ∧ validateTimestamp (formatTimestamp ms) = true.
Proof. split; [by apply parse_format_timestamp|by apply formatTimestamp_valid]. Qed.

Lemma timestamp_roundtrip_witness :
  parse_timestamp (formatTimestamp 1709210096789) = Some 1709210096789 ∧
  validateTimestamp (formatTimestamp 1709210096789) = true.
Proof. apply (timestamp_roundtrip 1709210096789). vm_compute. split; discriminate. Defined.
