(* ===== verification/Uuid.v ===== *)
(** * Package uuidv4: canonical lowercase UUIDv4 text

    Models [src/runtime/internal/uuidv4/uuid.go].  A 16-byte array is a list of
    sixteen byte values; [Parse] returns [None] where the code returns
    [ErrInvalid]. *)

From stdpp Require Import base list strings.
From Stdlib Require Import ZArith Lia Ascii.
From Stdlib Require String.
From S2P Require Import Prelude GoStd.
Local Open Scope Z_scope.

Definition byte_at (n : nat) (l : list Z) : Z := nth n l 0.

(** [Format]: hex groups of 4, 2, 2, 2 and 6 bytes joined by dashes. *)
Definition Format (value : list Z) : string :=
  hex_encode (take 4 value) +:+ "-" +:+ hex_encode (take 2 (drop 4 value)) +:+ "-" +:+
  hex_encode (take 2 (drop 6 value)) +:+ "-" +:+ hex_encode (take 2 (drop 8 value)) +:+ "-" +:+
  hex_encode (drop 10 value).

Definition char_is (n : nat) (c : ascii) (s : string) : bool :=
  match String.get n s with Some d => Ascii.eqb d c | None => false end.

(** The version and variant bits: [decoded[6]>>4 == 4 && decoded[8]>>6 == 2]. *)
Definition is_v4 (decoded : list Z) : bool :=
  (Z.shiftr (byte_at 6 decoded) 4 =? 4) && (Z.shiftr (byte_at 8 decoded) 6 =? 2).

Definition Parse (value : string) : option (list Z) :=
  if (String.length value =? 36)%nat && char_is 8 "-" value && char_is 13 "-" value
     && char_is 18 "-" value && char_is 23 "-" value
  then
    let compact := String.substring 0 8 value +:+ String.substring 9 4 value +:+
                   String.substring 14 4 value +:+ String.substring 19 4 value +:+
                   String.substring 24 12 value in
    match hex_decode compact with
    | None => None
    | Some decoded =>
        if String.eqb (Format decoded) value && is_v4 decoded then Some decoded else None
    end
  else None.

(** [New], as a function of the sixteen bytes read from [crypto/rand]. *)
Definition set_byte (n : nat) (v : Z) (l : list Z) : list Z := <[n:=v]> l.
Definition New (random : list Z) : string :=
  let value := set_byte 6 (Z.lor (Z.land (byte_at 6 random) 15) 64) random in
  let value := set_byte 8 (Z.lor (Z.land (byte_at 8 value) 63) 128) value in
  Format value.

Definition valid_uuid (s : string) : bool :=
  match Parse s with Some _ => true | None => false end.

(** ** Properties *)

Ltac list16 l :=
  repeat match goal with
  | H : length l = _ |- _ => destruct l as [|? l]; simpl in H; try discriminate; try lia
  end.
Lemma length16_inv (l : list Z) : length l = 16%nat →
  ∃ a b c d e f g h i j k m n o p q, l = [a;b;c;d;e;f;g;h;i;j;k;m;n;o;p;q].
Proof.
  intros H.
  do 16 (destruct l as [|? l]; [discriminate|]). destruct l; [|discriminate].
  repeat eexists.
Qed.

Lemma Format_length l : length l = 16%nat → String.length (Format l) = 36%nat.
Proof.
  intros H. unfold Format.
  rewrite !length_sapp, !length_hex_encode, !length_take, !length_drop, H. done.
Qed.

Lemma Parse_Format l :
  length l = 16%nat → Forall is_byte l → is_v4 l = true → Parse (Format l) = Some l.
Proof.
  intros Hlen Hb Hv. unfold Parse. rewrite (Format_length l Hlen).
  apply length16_inv in Hlen as
    (a&b&c&d&e&f&g&h&i&j&k&m&n&o&p&q&->).
  pose proof (hex_decode_encode _ Hb) as Hd.
  set (lhs := hex_decode _ : option (list Z)) in |- *.
  change lhs with (hex_decode (hex_encode [a;b;c;d;e;f;g;h;i;j;k;m;n;o;p;q])).
  rewrite Hd, String.eqb_refl, Hv. reflexivity.
Qed.

Lemma hex_decode_length s l : hex_decode s = Some l → String.length s = (2 * length l)%nat.
Proof.
  revert l. induction s as [s IH] using (Wf_nat.induction_ltof1 _ String.length).
  unfold Wf_nat.ltof in IH.
  destruct s as [|c [|d s]]; simpl; intros l H; [injection H as <-; done|done|].
  destruct (hex_value c), (hex_value d); try discriminate.
  destruct (hex_decode s) as [r|] eqn:Hr; [|discriminate]. injection H as <-.
  apply IH in Hr; [|simpl; lia]. simpl. lia.
Qed.

Lemma substring_length n m s : (n + m <= String.length s)%nat →
  String.length (String.substring n m s) = m.
Proof.
  revert n m. induction s as [|c s IH]; intros n m H; simpl in *.
  - destruct n, m; simpl; lia.
  - destruct n; [destruct m|]; simpl; try done.
    + f_equal. apply IH. lia.
    + apply IH. lia.
Qed.

Lemma Parse_Some s l : Parse s = Some l →
  s = Format l ∧ length l = 16%nat ∧ Forall is_byte l ∧ is_v4 l = true.
Proof.
  unfold Parse. destruct (_ && _) eqn:E; [|discriminate]. unbool.
  apply Nat.eqb_eq in H.
  destruct (hex_decode _) as [d|] eqn:Hd; [|discriminate].
  destruct (String.eqb_spec (Format d) s) as [Hf|]; [|discriminate].
  destruct (is_v4 d) eqn:Hv; [|discriminate]. intros [= <-].
  split; [done|]. split; [|split; [by eapply hex_decode_byte|done]].
  apply hex_decode_length in Hd.
  rewrite !length_sapp, !substring_length in Hd by lia. lia.
Qed.

Lemma Parse_inj s t l : Parse s = Some l → Parse t = Some l → s = t.
Proof. intros Hs Ht. apply Parse_Some in Hs as [-> _], Ht as [-> _]. done. Qed.

Lemma valid_uuid_length s : valid_uuid s = true → String.length s = 36%nat.
Proof.
  unfold valid_uuid. destruct (Parse s) eqn:E; [|done]. intros _.
  apply Parse_Some in E as (-> & ? & _). by apply Format_length.
Qed.

Lemma land_lor_v4 x : 0 <= x < 256 →
  Z.shiftr (Z.lor (Z.land x 15) 64) 4 = 4 ∧ is_byte (Z.lor (Z.land x 15) 64) ∧
  Z.shiftr (Z.lor (Z.land x 63) 128) 6 = 2 ∧ is_byte (Z.lor (Z.land x 63) 128).
Proof.
  intros Hx. unfold is_byte.
  assert (Hall : forallb (λ n, let x := Z.of_nat n in
    (Z.shiftr (Z.lor (Z.land x 15) 64) 4 =? 4) && ((0 <=? Z.lor (Z.land x 15) 64)
    && (Z.lor (Z.land x 15) 64 <? 256)) && (Z.shiftr (Z.lor (Z.land x 63) 128) 6 =? 2)
    && ((0 <=? Z.lor (Z.land x 63) 128) && (Z.lor (Z.land x 63) 128 <? 256))) (seq 0 256) = true)
    by (vm_compute; reflexivity).
  rewrite forallb_forall in Hall. specialize (Hall (Z.to_nat x)).
  rewrite in_seq, Z2Nat.id in Hall by lia. specialize (Hall ltac:(lia)).
  cbv zeta in Hall. unbool. lia.
Qed.

Lemma New_valid random :
  length random = 16%nat → Forall is_byte random → valid_uuid (New random) = true.
Proof.
  intros Hlen Hb. unfold New, valid_uuid, set_byte.
  apply length16_inv in Hlen as (a&b&c&d&e&f&g&h&i&j&k&m&n&o&p&q&->).
  repeat match goal with H : Forall _ (_ :: _) |- _ => apply Forall_cons in H as [? H] end.
  simpl. unfold byte_at. simpl.
  destruct (land_lor_v4 g ltac:(done)) as (Hg & Hgb & _).
  destruct (land_lor_v4 i ltac:(done)) as (_ & _ & Hi & Hib).
  rewrite Parse_Format; [done|done| |].
  - repeat (constructor; [done|]). constructor.
  - unfold is_v4, byte_at. simpl nth. by rewrite Hg, Hi.
Qed.

(** UUID round trip: every text the parser accepts is exactly the canonical
    rendering of the bytes it returns, and rendering any sixteen bytes that
    carry the v4 version and variant bits parses back to those bytes. *)
Theorem uuid_roundtrip :
  (∀ s l, Parse s = Some l → Format l = s ∧ length l = 16%nat ∧ is_v4 l = true) ∧
  (∀ l, length l = 16%nat → Forall is_byte l → is_v4 l = true → Parse (Format l) = Some l).
Proof.
  split.
  - intros s l H. apply Parse_Some in H as (-> & ? & _ & ?). done.
  - apply Parse_Format.
Qed.
