(* ===== verification/Release.v ===== *)
(** * Release identifiers and build attestations

    [src/runtime/internal/releaseid/releaseid.go] and
    [src/runtime/internal/buildinfo/buildinfo.go].  The patterns are anchored
    ([^...$]), so [MatchString] asks whether the whole text is in the language of
    the expression; [matches] decides it with Brzozowski derivatives and
    [matches_spec] relates it to the language.  The classes of the patterns are
    ASCII, so matching bytes is matching runes. *)

From stdpp Require Import base list strings.
From Stdlib Require Import ZArith Lia Ascii.
From S2P Require Import Prelude GoStd.
Local Open Scope Z_scope.

(** ** Regular expressions *)
Inductive regexp :=
| Never | Empty
| Class (p : Z → bool)
| Cat (r s : regexp) | Or (r s : regexp) | Star (r : regexp).

Definition Plus (r : regexp) : regexp := Cat r (Star r).
Definition Maybe (r : regexp) : regexp := Or Empty r.
Definition Lit (c : ascii) : regexp := Class (λ z, z =? byteZ c).
Fixpoint Repeat (n : nat) (r : regexp) : regexp :=
  match n with O => Empty | S n' => Cat r (Repeat n' r) end.
Definition Range (lo hi : Z) : regexp := Class (λ z, (lo <=? z) && (z <=? hi)).

Inductive lang : regexp → list Z → Prop :=
| lang_empty : lang Empty []
| lang_class p z : p z = true → lang (Class p) [z]
| lang_cat r s u v : lang r u → lang s v → lang (Cat r s) (u ++ v)
| lang_or_l r s u : lang r u → lang (Or r s) u
| lang_or_r r s u : lang s u → lang (Or r s) u
| lang_star_nil r : lang (Star r) []
| lang_star_cons r u v : lang r u → lang (Star r) v → lang (Star r) (u ++ v).

Fixpoint nullable (r : regexp) : bool :=
  match r with
  | Never => false | Empty => true | Class _ => false
  | Cat r s => nullable r && nullable s
  | Or r s => nullable r || nullable s
  | Star _ => true
  end.
Fixpoint derive (z : Z) (r : regexp) : regexp :=
  match r with
  | Never => Never | Empty => Never
  | Class p => if p z then Empty else Never
  | Cat r s => if nullable r then Or (Cat (derive z r) s) (derive z s) else Cat (derive z r) s
  | Or r s => Or (derive z r) (derive z s)
  | Star r => Cat (derive z r) (Star r)
  end.
Fixpoint matches_bytes (r : regexp) (l : list Z) : bool :=
  match l with [] => nullable r | z :: l' => matches_bytes (derive z r) l' end.
(** [Regexp.MatchString] of an anchored pattern. *)
Definition matches (r : regexp) (s : string) : bool := matches_bytes r (bytes_list s).

Lemma nullable_spec r : nullable r = true ↔ lang r [].
Proof.
  induction r as [| |p|r1 IH1 r2 IH2|r1 IH1 r2 IH2|r IH]; simpl.
  - split; [done|by inversion 1].
  - split; [constructor|done].
  - split; [done|by inversion 1].
  - rewrite andb_true_iff, IH1, IH2. split.
    + intros [??]. by apply (lang_cat _ _ [] []).
    + inversion 1 as [| |? ? u v ? ? Hr Hnil| | | |]; subst.
      apply app_eq_nil in Hnil as [-> ->]. done.
  - rewrite orb_true_iff, IH1, IH2. split.
    + intros [?|?]; [by apply lang_or_l|by apply lang_or_r].
    + inversion 1; subst; auto.
  - split; [constructor|done].
Qed.

Lemma lang_star_inv r w : lang (Star r) w →
  w = [] ∨ ∃ u v, u ≠ [] ∧ w = u ++ v ∧ lang r u ∧ lang (Star r) v.
Proof.
  remember (Star r) as e eqn:E. intros H. revert E.
  induction H as [| | | | | |r' u v Hu _ Hv IH]; intros E; try done; [by left|].
  injection E as ->. destruct u as [|z u]; [by apply IH|].
  right. by exists (z :: u), v.
Qed.

Lemma derive_spec z r w : lang (derive z r) w ↔ lang r (z :: w).
Proof.
  revert w. induction r as [| |p|r1 IH1 r2 IH2|r1 IH1 r2 IH2|r IH]; intros w; simpl.
  - split; by inversion 1.
  - split; by inversion 1.
  - destruct (p z) eqn:E; split.
    + inversion 1; subst. by constructor.
    + inversion 1; subst. constructor.
    + by inversion 1.
    + inversion 1; congruence.
  - assert (Hcat : ∀ u v, lang (derive z r1) u → lang r2 v → lang (Cat r1 r2) (z :: u ++ v)).
    { intros u v Hu Hv. apply IH1 in Hu. by apply (lang_cat _ _ (z :: u) v). }
    split; intros H.
    + destruct (nullable r1) eqn:E.
      * apply nullable_spec in E. inversion H; subst.
        -- match goal with H : lang (Cat _ _) _ |- _ => inversion H; subst end. by apply Hcat.
        -- apply (lang_cat _ _ [] (z :: w)); [done|]. by apply IH2.
      * inversion H; subst. by apply Hcat.
    + inversion H as [| |? ? u v Hu Hv Hrs Huv| | | |]; subst. destruct u as [|z' u]; simpl in Huv.
      * subst v. apply nullable_spec in Hu. rewrite Hu. apply lang_or_r. by apply IH2.
      * injection Huv as -> <-. apply IH1 in Hu.
        destruct (nullable r1); [apply lang_or_l|]; by constructor.
  - split; inversion 1; subst; (apply lang_or_l + apply lang_or_r); (by apply IH1 || by apply IH2).
  - split.
    + inversion 1; subst. apply (lang_star_cons r (z :: _)); [|done]. by apply IH.
    + intros H. apply lang_star_inv in H as [|(u & v & Hne & E & Hu & Hv)]; [done|].
      destruct u as [|z' u]; [done|]. injection E as <- ->. apply IH in Hu. by constructor.
Qed.

Lemma matches_spec r s : matches r s = true ↔ lang r (bytes_list s).
Proof.
  unfold matches. generalize (bytes_list s). intros l. revert r.
  induction l as [|z l IH]; intros r; simpl; [apply nullable_spec|].
  by rewrite IH, derive_spec.
Qed.

(** Every byte of a matched text satisfies one of the classes of the pattern. *)
Fixpoint classes (r : regexp) (z : Z) : bool :=
  match r with
  | Never | Empty => false
  | Class p => p z
  | Cat r s | Or r s => classes r z || classes s z
  | Star r => classes r z
  end.
Lemma lang_classes r w : lang r w → Forall (λ z, classes r z = true) w.
Proof.
  induction 1; simpl; repeat constructor; try done.
  - apply Forall_app. split; (eapply Forall_impl; [eassumption|]); simpl; intros z Hz;
      rewrite Hz, ?orb_true_r; done.
  - eapply Forall_impl; [eassumption|]. simpl. intros z ->. done.
  - eapply Forall_impl; [eassumption|]. simpl. intros z ->. by rewrite orb_true_r.
  - by apply Forall_app.
Qed.

(** ** releaseid.go *)
Definition lower_or_digit : regexp := Class (λ z, ((97 <=? z) && (z <=? 122)) || ((48 <=? z) && (z <=? 57))).
Definition dec_digit : regexp := Range 48 57.

(** Three dotted numbers after an optional [v], then an optional suffix of lower-case
    alphanumeric words that starts with a dash and separates words by dots or dashes. *)
Definition Pattern : regexp :=
  Cat (Maybe (Lit "v")) (Cat (Plus dec_digit) (Cat (Lit ".") (Cat (Plus dec_digit) (Cat (Lit ".")
    (Cat (Plus dec_digit)
      (Maybe (Cat (Lit "-") (Cat (Plus lower_or_digit)
        (Star (Cat (Class (λ z, (z =? byteZ ".") || (z =? byteZ "-"))) (Plus lower_or_digit))))))))))).
Definition maxBytes : Z := 64.
Definition Valid (value : string) : bool :=
  (0 <? slen value) && (slen value <=? maxBytes) && matches Pattern value.

(** ** buildinfo.go *)
Definition AttestationPrefix : string := "jat-release-v1|".

(** Forty and sixty-four lower-case hexadecimal digits, and [goX.Y.Z]. *)
Definition lower_hex : regexp := Class (λ z, ((48 <=? z) && (z <=? 57)) || ((97 <=? z) && (z <=? 102))).
Definition revisionPattern : regexp := Repeat 40 lower_hex.
Definition toolchainPattern : regexp :=
  Cat (Lit "g") (Cat (Lit "o") (Cat (Range 49 57) (Cat (Star dec_digit) (Cat (Lit ".")
    (Cat (Plus dec_digit) (Cat (Lit ".") (Plus dec_digit))))))).
Definition digestPattern : regexp := Repeat 64 lower_hex.

Record BuildIdentity := {
  Release : string; SourceRevision : string; BuildToolchain : string;
  BuildDigest : string; ProtocolVersion : string; StorageSchemaVersion : string }.

#[export] Instance BuildIdentity_eq_dec : EqDecision BuildIdentity.
Proof. solve_decision. Defined.

(** [validate], with the error texts of the source. *)
Definition validate_build (identity : BuildIdentity) : res string unit :=
  if negb (Valid (Release identity)) then Err "build attestation release is invalid"
  else if negb (matches revisionPattern (SourceRevision identity))
    then Err "build attestation source revision is invalid"
  else if negb (matches toolchainPattern (BuildToolchain identity))
    then Err "build attestation toolchain is invalid"
  else if negb (matches digestPattern (BuildDigest identity))
    then Err "build attestation identity is invalid"
  else if negb (String.eqb (ProtocolVersion identity) "1")
       || negb (String.eqb (StorageSchemaVersion identity) "1")
    then Err "build attestation protocol or storage schema is invalid"
  else Ok tt.

(** [strings.Join] and [strings.Split] with a one-byte separator. *)
Fixpoint join (sep : ascii) (l : list string) : string :=
  match l with
  | [] => ""
  | [s] => s
  | s :: l' => s +:+ String sep (join sep l')
  end.
Fixpoint split (sep : ascii) (s : string) : list string :=
  match s with
  | EmptyString => [""]
  | String c s' =>
      if Ascii.eqb c sep then "" :: split sep s'
      else match split sep s' with
           | [] => [String c ""]
           | w :: ws => String c w :: ws
           end
  end.

Definition attestation_tag : string := trim_suffix "|" AttestationPrefix.
Definition Encode (identity : BuildIdentity) : res string string :=
  match validate_build identity with
  | Err e => Err e
  | Ok _ =>
      Ok (join "|" [attestation_tag; Release identity; SourceRevision identity; BuildToolchain identity;
                    BuildDigest identity; ProtocolVersion identity; StorageSchemaVersion identity])
  end.
Definition ParseBuild (value : string) : res string BuildIdentity :=
  match split "|" value with
  | [tag; release; revision; toolchain; digest; protocol; schema] =>
      if negb (String.eqb tag attestation_tag) then Err "build attestation has an invalid field set"
      else
        let identity := {| Release := release; SourceRevision := revision; BuildToolchain := toolchain;
                           BuildDigest := digest; ProtocolVersion := protocol;
                           StorageSchemaVersion := schema |} in
        match validate_build identity with Err e => Err e | Ok _ => Ok identity end
  | _ => Err "build attestation has an invalid field set"
  end.

(** [ValidatedCurrent] of the linker-assigned text; [runtime_version] is
    [runtime.Version()]. *)
Definition ValidatedCurrent (runtime_version EncodedIdentity : string) : res string BuildIdentity :=
  if String.eqb EncodedIdentity "dev" then
    Ok {| Release := "dev"; SourceRevision := "dev"; BuildToolchain := runtime_version;
          BuildDigest := "dev"; ProtocolVersion := "1"; StorageSchemaVersion := "1" |}
  else ParseBuild EncodedIdentity.

(** ** Splitting and joining *)
Lemma split_nonempty sep s : split sep s ≠ [].
Proof.
  destruct s as [|c s]; [done|]. simpl. destruct (Ascii.eqb c sep); [done|].
  by destruct (split sep s).
Qed.
Lemma split_plain sep s : contains_byte sep s = false → split sep s = [s].
Proof.
  induction s as [|c s IH]; [done|]. simpl. rewrite Ascii.eqb_sym.
  destruct (Ascii.eqb c sep); [done|]. simpl. intros H. by rewrite IH.
Qed.
Lemma split_cons sep s t : contains_byte sep s = false →
  split sep (s +:+ String sep t) = s :: split sep t.
Proof.
  induction s as [|c s IH]; simpl.
  - by rewrite Ascii.eqb_refl.
  - rewrite Ascii.eqb_sym. destruct (Ascii.eqb c sep); [done|]. simpl. intros H. by rewrite IH.
Qed.
Lemma split_join sep l : l ≠ [] → Forall (λ s, contains_byte sep s = false) l →
  split sep (join sep l) = l.
Proof.
  intros Hne Hall. induction Hall as [|s l Hs Hall IH]; [done|]. destruct l as [|t l].
  - by apply split_plain.
  - change (join sep (s :: t :: l)) with (s +:+ String sep (join sep (t :: l))).
    rewrite split_cons by done. by rewrite IH.
Qed.
Lemma join_split sep s : join sep (split sep s) = s.
Proof.
  induction s as [|c s IH]; [done|]. simpl. destruct (Ascii.eqb_spec c sep) as [->|Hne].
  - pose proof (split_nonempty sep s) as Hne. destruct (split sep s) as [|w ws] eqn:E; [done|].
    change (String sep (join sep (w :: ws)) = String sep s). by rewrite IH.
  - destruct (split sep s) as [|w ws] eqn:E; [by apply split_nonempty in E|].
    destruct ws as [|w' ws]; simpl in IH |- *; by rewrite <- IH.
Qed.

(** A text matched by a pattern none of whose classes holds a byte does not contain it. *)
Lemma matches_without r s c :
  matches r s = true → classes r (byteZ c) = false → contains_byte c s = false.
Proof.
  rewrite matches_spec. intros H%lang_classes Hc. induction s as [|d s IH]; [done|].
  simpl in H |- *. inversion H as [|? ? Hd Hs]; subst.
  destruct (Ascii.eqb_spec c d) as [->|_]; [congruence|]. simpl. auto.
Qed.

(** The bytes a nonempty match can start with. *)
Fixpoint firsts (r : regexp) (z : Z) : bool :=
  match r with
  | Never | Empty => false
  | Class p => p z
  | Cat r s => firsts r z || (nullable r && firsts s z)
  | Or r s => firsts r z || firsts s z
  | Star r => firsts r z
  end.
Lemma lang_firsts r z w : lang r (z :: w) → firsts r z = true.
Proof.
  remember (z :: w) as l eqn:E. intros H. revert z w E.
  induction H as [|p z' Hp|r s u v Hu IHu Hv IHv|r s u _ IH|r s u _ IH| |r u v Hu IHu _ IHv];
    intros z w E; simpl.
  - done.
  - by injection E as -> _.
  - destruct u as [|y u]; simpl in E.
    + apply nullable_spec in Hu. rewrite Hu, (IHv _ _ E). apply orb_true_r.
    + injection E as -> _. by rewrite (IHu z u).
  - by rewrite (IH _ _ E).
  - rewrite (IH _ _ E). apply orb_true_r.
  - done.
  - destruct u as [|y u]; simpl in E; [by apply (IHv _ _ E)|]. injection E as -> _. by apply (IHu z u).
Qed.

(** ** Properties *)

Lemma validate_build_ok identity :
  validate_build identity = Ok tt ↔
  Valid (Release identity) = true ∧ matches revisionPattern (SourceRevision identity) = true ∧
  matches toolchainPattern (BuildToolchain identity) = true ∧
  matches digestPattern (BuildDigest identity) = true ∧
  ProtocolVersion identity = "1" ∧ StorageSchemaVersion identity = "1".
Proof.
  unfold validate_build.
  destruct (Valid (Release identity)), (matches revisionPattern _), (matches toolchainPattern _),
    (matches digestPattern _); simpl; try (split; [discriminate|intros (?&?&?&?&?); discriminate]).
  destruct (String.eqb_spec (ProtocolVersion identity) "1"),
    (String.eqb_spec (StorageSchemaVersion identity) "1"); simpl; intuition congruence.
Qed.

(** No field of a valid identity contains the separator. *)
Lemma attestation_fields_plain identity : validate_build identity = Ok tt →
  Forall (λ s, contains_byte "|" s = false)
    [attestation_tag; Release identity; SourceRevision identity; BuildToolchain identity;
     BuildDigest identity; ProtocolVersion identity; StorageSchemaVersion identity].
Proof.
  rewrite validate_build_ok. intros (Hr & Hs & Ht & Hd & -> & ->).
  unfold Valid in Hr. unbool.
  repeat constructor; try (eapply matches_without; [eassumption|reflexivity]).
Qed.

(** Build attestations round-trip exactly: a text parses to an identity if and only
    if it is the encoding of that identity.  So the record a linker embeds has one
    spelling, and nothing else is accepted as it. *)
Theorem attestation_roundtrip (identity : BuildIdentity) (value : string) :
  Encode identity = Ok value ↔ ParseBuild value = Ok identity.
Proof.
  unfold Encode, ParseBuild. split.
  - destruct (validate_build identity) as [[]|] eqn:Hv; [|done]. intros H%Ok_inj. subst value.
    rewrite split_join; [|done|by apply attestation_fields_plain].
    rewrite String.eqb_refl. simpl. destruct identity; simpl in *. by rewrite Hv.
  - intros H. pose proof (join_split "|" value) as Hj.
    destruct (split "|" value) as [|t [|a [|b [|c [|d [|e [|f [|]]]]]]]]; try done.
    destruct (String.eqb_spec t attestation_tag) as [->|]; [|done]. simpl in H.
    destruct (validate_build _) as [[]|] eqn:Hv in H; [|done]. injection H as <-.
    rewrite Hv. simpl. simpl in Hj. by rewrite Hj.
Qed.

(** A valid release identifier is a safe path component and a safe command-line
    word: at most 64 bytes of lower-case letters, digits, dots and dashes, starting with
    a digit or [v], hence never empty, [.], [..], a path with a separator, or an option. *)
Theorem release_path_safe (value : string) :
  Valid value = true →
  1 <= slen value <= 64 ∧
  Forall (λ z, 97 <= z <= 122 ∨ 48 <= z <= 57 ∨ z = byteZ "." ∨ z = byteZ "-") (bytes_list value) ∧
  (∃ z rest, bytes_list value = z :: rest ∧ (z = byteZ "v" ∨ 48 <= z <= 57)).
Proof.
  unfold Valid, maxBytes. intros H. unbool. rename H0 into Hm. apply matches_spec in Hm.
  split; [lia|]. split.
  - apply lang_classes in Hm. eapply Forall_impl; [exact Hm|]. simpl. intros z Hz.
    rewrite ?orb_true_iff, ?andb_true_iff, ?Z.leb_le, ?Z.eqb_eq in Hz.
    change (byteZ "v") with 118 in Hz. change (byteZ ".") with 46 in *.
    change (byteZ "-") with 45 in *. intuition lia.
  - destruct (bytes_list value) as [|z rest] eqn:E.
    { destruct value; [|done]. compute in H; done. }
    exists z, rest. split; [done|]. apply lang_firsts in Hm. simpl in Hm.
    rewrite ?orb_false_r, ?orb_true_iff, ?andb_true_iff, ?Z.leb_le, ?Z.eqb_eq in Hm. intuition lia.
Qed.

Lemma release_path_safe_witness :
  Valid "v1.12.0-rc.1" = true ∧ 1 <= slen "v1.12.0-rc.1" <= 64 ∧
  map Valid ["1.2"; "latest"; "1.2.3-"; "../1.2.3"; "1.2.3-RC"; "1.2.3-a..b"; ""] =
    [false; false; false; false; false; false; false].
Proof.
  assert (H : Valid "v1.12.0-rc.1" = true) by (vm_compute; reflexivity).
  split; [exact H|]. split; [|vm_compute; reflexivity].
  apply (release_path_safe "v1.12.0-rc.1" H).
Defined.
