(* ===== verification/NetIP.v ===== *)
(** * Host, port and IP address text: packages net and strconv

    What [src/runtime/internal/config/config.go] uses of Go's [net] package:
    SplitHostPort, JoinHostPort, ParseIP, and the methods IsLoopback and String of a
    16-byte address, with [strconv.Atoi].  An address is the list of its sixteen
    bytes; an IPv4 address is held in its mapped form, as ParseIP returns it. *)

From stdpp Require Import base list strings.
From Stdlib Require Import ZArith Lia Ascii.
From Stdlib Require String.
From S2P Require Import Prelude GoStd Release.
Local Open Scope Z_scope.

(** ** Slices of strings *)

(** [strings.IndexByte] and [strings.LastIndexByte]. *)
Fixpoint index_byte (c : ascii) (s : string) : option nat :=
  match s with
  | EmptyString => None
  | String d s' => if Ascii.eqb c d then Some O else S <$> index_byte c s'
  end.
Fixpoint last_index_byte (c : ascii) (s : string) : option nat :=
  match s with
  | EmptyString => None
  | String d s' =>
      match last_index_byte c s' with
      | Some i => Some (S i)
      | None => if Ascii.eqb c d then Some O else None
      end
  end.
(** [s[:n]] and [s[n:]]. *)
Fixpoint stake (n : nat) (s : string) : string :=
  match n, s with S n', String c s' => String c (stake n' s') | _, _ => "" end.
Fixpoint sdrop (n : nat) (s : string) : string :=
  match n, s with S n', String _ s' => sdrop n' s' | _, _ => s end.

(** ** net.SplitHostPort, net.JoinHostPort *)
Definition SplitHostPort (hostport : string) : option (string * string) :=
  match last_index_byte ":" hostport with
  | None => None
  | Some i =>
      let rest := sdrop (S i) hostport in
      if has_prefix "[" hostport then
        match index_byte "]" hostport with
        | None => None
        | Some close =>
            if (S close =? i)%nat
               && negb (contains_byte "[" (sdrop 1 hostport))
               && negb (contains_byte "]" (sdrop (S close) hostport))
            then Some (sdrop 1 (stake close hostport), rest) else None
        end
      else
        let host := stake i hostport in
        if negb (contains_byte ":" host) && negb (contains_byte "[" hostport)
           && negb (contains_byte "]" hostport)
        then Some (host, rest) else None
  end.

Definition JoinHostPort (host port : string) : string :=
  if contains_byte ":" host then "[" +:+ host +:+ "]:" +:+ port else host +:+ ":" +:+ port.

(** ** strconv.Atoi on a 64-bit platform *)
Definition Atoi (s : string) : option Z :=
  let digits s := match s with EmptyString => None | _ => parse_digits 0 s end in
  match s with
  | String c s' =>
      if Ascii.eqb c "-" then n ← digits s'; if n <=? 2 ^ 63 then Some (- n) else None
      else n ← digits (if Ascii.eqb c "+" then s' else s); if n <=? MaxInt64 then Some n else None
  | EmptyString => None
  end.

(** ** net.ParseIP *)

(** One decimal field: digits without a leading zero, at most 255. *)
Definition parse_octet (s : string) : option Z :=
  match s with
  | EmptyString => None
  | String c (String _ _) => if Ascii.eqb c "0" then None else n ← parse_digits 0 s; if n <=? 255 then Some n else None
  | _ => parse_digits 0 s
  end.
Definition parse_ipv4_fields (s : string) : option (list Z) :=
  match split "." s with
  | [a; b; c; d] => mapM_opt parse_octet [a; b; c; d]
  | _ => None
  end.

(** A hexadecimal group: its value, the number of digits and the rest. *)
Fixpoint hex_group (acc : Z) (off : nat) (s : string) : Z * nat * string :=
  match s with
  | String c s' =>
      match hex_value c with
      | Some v => hex_group (acc * 16 + v) (S off) s'
      | None => (acc, off, s)
      end
  | EmptyString => (acc, off, s)
  end.

(** The groups of an IPv6 address: the bytes parsed, the position of the ellipsis
    and the text left when the loop ends.  A round adds two bytes and the loop stops
    at sixteen, so eight rounds are all there are. *)
Fixpoint ipv6_groups (rounds : nat) (ip : list Z) (ellipsis : option nat) (s : string)
    : option (list Z * option nat * string) :=
  match rounds with
  | O => Some (ip, ellipsis, s)
  | S rounds' =>
      match hex_group 0 0 s with
      | (acc, off, rest) =>
          if ((off =? 0) || (4 <? off))%nat then None
          else if has_prefix "." rest then
            (if (bool_decide (ellipsis = None) && negb (length ip =? 12)%nat) || (16 <? length ip + 4)%nat
             then None
             else fields ← parse_ipv4_fields s; Some (ip ++ fields, ellipsis, ""))
          else
            let ip := ip ++ [acc / 256 mod 256; acc mod 256] in
            match rest with
            | EmptyString => Some (ip, ellipsis, "")
            | String c more =>
                if negb (Ascii.eqb c ":") then None
                else
                  match more with
                  | EmptyString => None
                  | String d more' =>
                      if Ascii.eqb d ":" then
                        match ellipsis, more' with
                        | Some _, _ => None
                        | None, EmptyString => Some (ip, Some (length ip), "")
                        | None, _ => ipv6_groups rounds' ip (Some (length ip)) more'
                        end
                      else ipv6_groups rounds' ip ellipsis more
                  end
            end
      end
  end.
Definition expand_ellipsis (ip : list Z) (ellipsis : option nat) : option (list Z) :=
  if (length ip <? 16)%nat then
    match ellipsis with
    | None => None
    | Some at_ => Some (take at_ ip ++ replicate (16 - length ip) 0 ++ drop at_ ip)
    end
  else match ellipsis with Some _ => None | None => Some ip end.
Definition parse_ipv6 (s : string) : option (list Z) :=
  let start := match strip_prefix "::" s with Some rest => (Some O, rest) | None => (None, s) end in
  match start with
  | (Some _, EmptyString) => Some (replicate 16 0)
  | (ellipsis, rest) =>
      match ipv6_groups 8 [] ellipsis rest with
      | Some (ip, ellipsis, EmptyString) => expand_ellipsis ip ellipsis
      | _ => None
      end
  end.

Definition v4_mapped_prefix : list Z := replicate 10 0 ++ [255; 255].
(** A zone ([%]) is never accepted by ParseIP; otherwise the first dot or colon
    decides the family. *)
Fixpoint ip_family (s : string) : option bool :=
  match s with
  | EmptyString => None
  | String c s' =>
      if Ascii.eqb c "." then Some true else if Ascii.eqb c ":" then Some false
      else if Ascii.eqb c "%" then None else ip_family s'
  end.
Definition ParseIP (s : string) : option (list Z) :=
  match ip_family s with
  | None => None
  | Some true => fields ← parse_ipv4_fields s; Some (v4_mapped_prefix ++ fields)
  | Some false => if contains_byte "%" s then None else parse_ipv6 s
  end.

(** ** Methods of net.IP *)
Definition To4 (ip : list Z) : option (list Z) :=
  if bool_decide (take 12 ip = v4_mapped_prefix) then Some (drop 12 ip) else None.
Definition IPv6loopback : list Z := replicate 15 0 ++ [1].
Definition IsLoopback (ip : list Z) : bool :=
  match To4 ip with
  | Some ip4 => nth 0 ip4 0 =? 127
  | None => bool_decide (ip = IPv6loopback)
  end.

Fixpoint pairs16 (l : list Z) : list Z :=
  match l with a :: b :: l' => a * 256 + b :: pairs16 l' | _ => [] end.
Fixpoint zero_run (l : list Z) : nat :=
  match l with 0 :: l' => S (zero_run l') | _ => O end.
(** The first longest run of at least two zero groups, as (start, length). *)
Fixpoint best_run (i : nat) (l : list Z) (best : nat * nat) : nat * nat :=
  match l with
  | [] => best
  | _ :: l' =>
      let n := zero_run l in
      best_run (S i) l' (if (2 <=? n)%nat && (snd best <? n)%nat then (i, n) else best)
  end.
Definition append_hex (v : Z) : string :=
  let d k := String (hex_digit (v / k mod 16)) "" in
  (if 4096 <=? v then d 4096 else "") +:+ (if 256 <=? v then d 256 else "") +:+
  (if 16 <=? v then d 16 else "") +:+ d 1.
Definition string6 (ip : list Z) : string :=
  let groups := pairs16 ip in
  match best_run 0 groups (O, O) with
  | (_, O) => join ":" (map append_hex groups)
  | (start, n) =>
      join ":" (map append_hex (take start groups)) +:+ "::" +:+
      join ":" (map append_hex (drop (start + n) groups))
  end.
Definition string4 (ip4 : list Z) : string := join "." (map FormatUint ip4).
(** Method [String] of a 16-byte address. *)
Definition IPString (ip : list Z) : string :=
  match To4 ip with Some ip4 => string4 ip4 | None => string6 ip end.

Example parse_examples :
  map ParseIP ["127.0.0.1"; "::1"; "::ffff:127.0.0.1"; "127.0.0.01"; "1.2.3"; "::"; "1::2::3"; "fe80::1%eth0";
               "1:2:3:4:5:6:7:8"; "1:2:3:4:5:6:7::"; "::1:2:3:4:5:6:7:8"] =
  [Some (v4_mapped_prefix ++ [127; 0; 0; 1]); Some IPv6loopback; Some (v4_mapped_prefix ++ [127; 0; 0; 1]);
   None; None; Some (replicate 16 0); None; None; Some [0;1;0;2;0;3;0;4;0;5;0;6;0;7;0;8];
   Some [0;1;0;2;0;3;0;4;0;5;0;6;0;7;0;0]; None].
Proof. vm_compute. reflexivity. Qed.
Example string_examples :
  map (λ s, IPString <$> ParseIP s) ["::1"; "2001:DB8:0:0:1:0:0:1"; "1:0:2:3:4:5:6:7"; "::"; "::ffff:1.2.3.4"] =
  [Some "::1"; Some "2001:db8::1:0:0:1"; Some "1:0:2:3:4:5:6:7"; Some "::"; Some "1.2.3.4"].
Proof. vm_compute. reflexivity. Qed.
Example split_examples :
  map SplitHostPort ["127.0.0.1:80"; "[::1]:80"; "::1:80"; "[::1]"; "localhost"; "[::1]x:80"; "a]:80"; "[[::1]:80"; ":80"] =
  [Some ("127.0.0.1", "80"); Some ("::1", "80"); None; None; None; None; None; None; Some ("", "80")].
Proof. vm_compute. reflexivity. Qed.
