(* ===== verification/Fs.v ===== *)
(** * Files: packages os and path/filepath

    The file-system calls of [src/runtime/internal/config] and
    [src/runtime/internal/instance], on a map from absolute path to node.  A program
    runs in the monad [FsM] over a [World]: the files, the effective user, the file
    mode mask, the random bytes and numbers of temporary names still to be drawn, and an oracle
    that says which calls fail (a permission, a full disk, an I/O error); [Some n]
    fails the call, a write after its first [n] bytes.  [w_trace] remembers every
    earlier content of the file system, newest first: a crash leaves one of them.

    Ancestors of the paths used are taken to be real directories. *)

From stdpp Require Import base list strings gmap.
From Stdlib Require Import ZArith Lia Ascii.
From Stdlib Require String.
From S2P Require Import Prelude GoStd Release NetIP.
Local Open Scope Z_scope.

(** ** path/filepath on Unix *)
Definition IsAbs (path : string) : bool := has_prefix "/" path.

(** Lexical processing of the elements of a path, last element first in [stack]. *)
Fixpoint clean_elements (rooted : bool) (stack : list string) (elements : list string) : list string :=
  match elements with
  | [] => rev stack
  | e :: rest =>
      if String.eqb e "" || String.eqb e "." then clean_elements rooted stack rest
      else if String.eqb e ".." then
        match stack with
        | top :: below =>
            if String.eqb top ".." then clean_elements rooted (e :: stack) rest
            else clean_elements rooted below rest
        | [] => clean_elements rooted (if rooted then [] else [e]) rest
        end
      else clean_elements rooted (e :: stack) rest
  end.
Definition Clean (path : string) : string :=
  let rooted := IsAbs path in
  let body := join "/" (clean_elements rooted [] (split "/" path)) in
  if rooted then "/" +:+ body else if String.eqb body "" then "." else body.
(** [filepath.Join] and [filepath.Dir]. *)
Definition Join (elements : list string) : string :=
  match List.filter (λ e, negb (String.eqb e "")) elements with
  | [] => ""
  | l => Clean (join "/" l)
  end.
Definition Dir (path : string) : string :=
  match last_index_byte "/" path with
  | Some i => Clean (stake (S i) path)
  | None => "."
  end.

(** ** The file system *)
Inductive node :=
| Directory (mode owner : Z)
| Regular (mode owner nlink : Z) (content : string)
| Symlink
| Special.
Abbreviation files := (gmap string node).

#[export] Instance node_eq_dec : EqDecision node.
Proof. solve_decision. Defined.

(** Errors as the callers distinguish them; [%w] keeps the kind. *)
Inductive ferr := NotExist | Exist | Uninitialized | Failed (text : string).
#[export] Instance ferr_eq_dec : EqDecision ferr.
Proof. solve_decision. Defined.
Definition wrap (context : string) (e : ferr) : ferr :=
  match e with Failed text => Failed (context +:+ ": " +:+ text) | _ => e end.

Record World := mkWorld {
  w_files : files; w_euid : Z; w_umask : Z;
  w_rand : list Z; w_names : nat → Z;
  w_faults : list (option nat); w_trace : list files }.

Definition FsM (A : Type) : Type := World → World * res ferr A.
#[export] Instance fsm_ret : MRet FsM := λ A a w, (w, Ok a).
#[export] Instance fsm_bind : MBind FsM := λ A B f m w,
  match m w with (w', Ok a) => f a w' | (w', Err e) => (w', Err e) end.
Definition raise {A} (e : ferr) : FsM A := λ w, (w, Err e).
Definition check (b : bool) (e : ferr) : FsM unit := if b then mret tt else raise e.
(** The result of a call as a value, and an error with context. *)
Definition attempt {A} (m : FsM A) : FsM (res ferr A) := λ w, let '(w', r) := m w in (w', Ok r).
Definition in_context {A} (context : string) (m : FsM A) : FsM A := λ w,
  let '(w', r) := m w in (w', match r with Ok a => Ok a | Err e => Err (wrap context e) end).
(** A deferred cleanup: runs whatever happened, and its own result is dropped. *)
Definition deferred {A} (m : FsM A) (cleanup : FsM unit) : FsM A := λ w,
  let '(w', r) := m w in ((cleanup w').1, r).
Definition ask {A} (f : World → A) : FsM A := λ w, (w, Ok (f w)).

Definition with_files (fs : files) (w : World) : World :=
  mkWorld fs (w_euid w) (w_umask w) (w_rand w) (w_names w) (w_faults w) (w_files w :: w_trace w).
Definition next_fault (w : World) : World * option nat :=
  match w_faults w with
  | [] => (w, None)
  | f :: rest => (mkWorld (w_files w) (w_euid w) (w_umask w) (w_rand w) (w_names w) rest (w_trace w), f)
  end.
(** One call that reads, and one that changes the files; [partial n] is what a failed
    call leaves behind. *)
Definition inspect {A} (f : World → res ferr A) : FsM A := λ w,
  let '(w, fault) := next_fault w in
  match fault with Some _ => (w, Err (Failed "input/output error")) | None => (w, f w) end.
Definition modify (f : World → res ferr files) (partial : nat → files → files) : FsM unit := λ w,
  let '(w, fault) := next_fault w in
  match fault with
  | Some n => (with_files (partial n (w_files w)) w, Err (Failed "input/output error"))
  | None => match f w with Ok fs => (with_files fs w, Ok tt) | Err e => (w, Err e) end
  end.
Definition intact (_ : nat) (fs : files) : files := fs.

Definition is_directory (fs : files) (path : string) : bool :=
  match fs !! path with Some (Directory _ _) => true | _ => false end.

Definition Lstat (path : string) : FsM node :=
  inspect (λ w, match w_files w !! path with Some n => Ok n | None => Err NotExist end).
(** [open(2)] with [O_NOFOLLOW]; the descriptor is what the path named. *)
Definition open_nofollow (path : string) (writable : bool) : FsM node :=
  inspect (λ w, match w_files w !! path with
                | None => Err NotExist
                | Some Symlink => Err (Failed "too many levels of symbolic links")
                | Some (Directory _ _ as n) => if writable then Err (Failed "is a directory") else Ok n
                | Some n => Ok n
                end).
Definition create_node (path : string) (mode : Z) (w : World) : files :=
  <[path := Regular (Z.ldiff mode (w_umask w)) (w_euid w) 1 ""]> (w_files w).
(** [O_CREATE|O_EXCL]. *)
Definition create_exclusive (path : string) (mode : Z) : FsM unit :=
  modify (λ w, match w_files w !! path with
               | Some _ => Err Exist
               | None => if is_directory (w_files w) (Dir path) then Ok (create_node path mode w) else Err NotExist
               end) intact.
Definition set_mode (mode : Z) (n : node) : node :=
  match n with
  | Directory _ o => Directory mode o
  | Regular _ o l c => Regular mode o l c
  | n => n
  end.
Definition Chmod (path : string) (mode : Z) : FsM unit :=
  modify (λ w, match w_files w !! path with
               | Some n => Ok (<[path := set_mode mode n]> (w_files w))
               | None => Err NotExist
               end) intact.
Definition append_content (data : string) (n : node) : node :=
  match n with Regular m o l c => Regular m o l (c +:+ data) | n => n end.
(** Writing to a file just created. *)
Definition write_to (path data : string) : FsM unit :=
  modify (λ w, match w_files w !! path with
               | Some n => Ok (<[path := append_content data n]> (w_files w))
               | None => Err NotExist
               end) (λ n fs, alter (append_content (stake n data)) path fs).
(** [Sync] and [Close] of a file, and of a directory that must exist. *)
Definition sync_file : FsM unit := inspect (λ _, Ok tt).
Definition open_directory (path : string) : FsM unit :=
  inspect (λ w, if is_directory (w_files w) path then Ok tt else Err NotExist).
Definition Rename (from to : string) : FsM unit :=
  modify (λ w, match w_files w !! from with
               | None => Err NotExist
               | Some n => if is_directory (w_files w) to then Err (Failed "file exists")
                           else Ok (<[to := n]> (delete from (w_files w)))
               end) intact.
Definition Remove (path : string) : FsM unit :=
  modify (λ w, match w_files w !! path with
               | None => Err NotExist
               | Some _ => Ok (delete path (w_files w))
               end) intact.
(** [os.CreateTemp]: draw 32-bit numbers until the name is free, at most 10000 times; the
    file gets mode 0600. *)
Definition temporary_path (directory prefix : string) (n : Z) : string :=
  Join [directory; prefix +:+ FormatUint (n mod 2 ^ 32)].
Definition temporary_attempts : nat := Z.to_nat 10000.
#[global] Opaque temporary_attempts.
Definition later_names (k : nat) (names : nat → Z) : nat → Z := λ n, names (k + n)%nat.
Fixpoint free_name (attempts : nat) (fs : files) (directory prefix : string) (names : nat → Z) :
    option (string * (nat → Z)) :=
  match attempts with
  | O => None
  | S attempts =>
      let path := temporary_path directory prefix (names O) in
      match fs !! path with
      | Some _ => free_name attempts fs directory prefix (later_names 1 names)
      | None => Some (path, later_names 1 names)
      end
  end.
Arguments free_name : simpl never.
Definition CreateTemp (directory prefix : string) : FsM string := λ w,
  let '(w, fault) := next_fault w in
  match fault with
  | Some _ => (w, Err (Failed "input/output error"))
  | None =>
      match free_name temporary_attempts (w_files w) directory prefix (w_names w) with
      | None => (w, Err Exist)
      | Some (path, rest) =>
          if is_directory (w_files w) directory then
            (mkWorld (create_node path 384 w) (w_euid w) (w_umask w) (w_rand w) rest (w_faults w)
               (w_files w :: w_trace w), Ok path)
          else (w, Err NotExist)
      end
  end.
(** [os.MkdirAll]: the ancestors of a path, then the path itself. *)
Fixpoint ancestors (prefix : string) (elements : list string) : list string :=
  match elements with
  | [] => []
  | e :: rest => let path := prefix +:+ "/" +:+ e in path :: ancestors path rest
  end.
Fixpoint make_directories (mode : Z) (w : World) (fs : files) (paths : list string) : res ferr files :=
  match paths with
  | [] => Ok fs
  | p :: rest =>
      match fs !! p with
      | Some (Directory _ _) => make_directories mode w fs rest
      | Some _ => Err (Failed "not a directory")
      | None => make_directories mode w (<[p := Directory (Z.ldiff mode (w_umask w)) (w_euid w)]> fs) rest
      end
  end.
Definition MkdirAll (path : string) (mode : Z) : FsM unit :=
  modify (λ w, make_directories mode w (w_files w) (ancestors "" (clean_elements true [] (split "/" path)))) intact.
(** [rand.Read] of [n] bytes. *)
Definition read_random (n : nat) : FsM (list Z) := λ w,
  if (length (w_rand w) <? n)%nat then (w, Err (Failed "unexpected EOF"))
  else (mkWorld (w_files w) (w_euid w) (w_umask w) (drop n (w_rand w)) (w_names w) (w_faults w) (w_trace w),
        Ok (take n (w_rand w))).

Example clean_examples :
  map Clean ["/a/b/../c/./d//"; "/.."; "a/../.."; ""; "/"; "../a"] = ["/a/c/d"; "/"; ".."; "."; "/"; "../a"]
  ∧ map Dir ["/a/b"; "/a"; "a"] = ["/a"; "/"; "."] ∧ Join ["/state"; "config.json"] = "/state/config.json".
Proof. vm_compute. done. Qed.

(** ** Reasoning about runs

    [passes P w w']: from [w] to [w'] the file system went only through states that
    satisfy [P], the last one included.  [triple o P pre m post] says so of a run of [m]
    by user [o] from the files [pre], with [post] on success; a failure may leave any
    state of [P]. *)
Definition passes (P : files → Prop) (w w' : World) : Prop :=
  w_euid w' = w_euid w ∧
  ∃ added, w_trace w' = added ++ w_trace w ∧ Forall P added ∧ P (w_files w').
Definition triple {A} (o : Z) (P : files → Prop) (pre : files) (m : FsM A) (post : A → files → Prop) : Prop :=
  ∀ w, w_files w = pre → w_euid w = o →
    passes P w (m w).1 ∧ ∀ a, (m w).2 = Ok a → post a (w_files (m w).1).

Lemma passes_refl P w : P (w_files w) → passes P w w.
Proof. intros H. split; [done|]. by exists []. Qed.
Lemma passes_trans P w1 w2 w3 : passes P w1 w2 → passes P w2 w3 → passes P w1 w3.
Proof.
  intros (E1 & l1 & T1 & F1 & _) (E2 & l2 & T2 & F2 & H). split; [congruence|].
  exists (l2 ++ l1). rewrite T2, T1, app_assoc. split_and!; [done| |done]. by apply Forall_app.
Qed.
Lemma passes_impl (P Q : files → Prop) w w' : (∀ fs, P fs → Q fs) → passes P w w' → passes Q w w'.
Proof. intros HPQ (E & l & T & F & H). split; [done|]. exists l. split_and!; eauto using Forall_impl. Qed.
Lemma passes_one P w fs : P (w_files w) → P fs → passes P w (with_files fs w).
Proof. intros ? ?. split; [done|]. exists [w_files w]. by repeat constructor. Qed.

Lemma next_fault_files w : w_files (next_fault w).1 = w_files w.
Proof. unfold next_fault. by destruct (w_faults w). Qed.
Lemma next_fault_euid w : w_euid (next_fault w).1 = w_euid w.
Proof. unfold next_fault. by destruct (w_faults w). Qed.
Lemma next_fault_trace w : w_trace (next_fault w).1 = w_trace w.
Proof. unfold next_fault. by destruct (w_faults w). Qed.
Lemma passes_next_fault P w : P (w_files w) → passes P w (next_fault w).1.
Proof.
  intros H. split; [apply next_fault_euid|]. exists []. rewrite next_fault_trace, next_fault_files. by repeat constructor.
Qed.

(** Computations that change no file. *)
Definition Quiet {A} (m : FsM A) : Prop := ∀ w,
  w_files (m w).1 = w_files w ∧ w_trace (m w).1 = w_trace w ∧ w_euid (m w).1 = w_euid w.
Create HintDb quiet.
Lemma quiet_pure {A} (r : World → res ferr A) : Quiet (λ w, (w, r w)).
Proof. done. Qed.
Lemma quiet_ret {A} (a : A) : Quiet (mret a).
Proof. done. Qed.
Lemma quiet_bind {A B} (m : FsM A) (f : A → FsM B) : Quiet m → (∀ a, Quiet (f a)) → Quiet (m ≫= f).
Proof.
  intros Hm Hf w. unfold mbind, fsm_bind. destruct (Hm w) as (E1 & E2 & E3).
  destruct (m w) as [w1 [a|e]]; simpl in *; [|done].
  destruct (Hf a w1) as (F1 & F2 & F3). split_and!; congruence.
Qed.
Lemma quiet_attempt {A} (m : FsM A) : Quiet m → Quiet (attempt m).
Proof. intros Hm w. specialize (Hm w). unfold attempt. by destruct (m w). Qed.
Lemma quiet_context {A} context (m : FsM A) : Quiet m → Quiet (in_context context m).
Proof. intros Hm w. specialize (Hm w). unfold in_context. by destruct (m w). Qed.
Lemma quiet_check b e : Quiet (check b e).
Proof. by destruct b. Qed.
Lemma quiet_inspect {A} (f : World → res ferr A) : Quiet (inspect f).
Proof.
  intros w. unfold inspect. pose proof (next_fault_files w). pose proof (next_fault_trace w).
  pose proof (next_fault_euid w). destruct (next_fault w) as [w1 []]; done.
Qed.
Lemma quiet_random n : Quiet (read_random n).
Proof. intros w. unfold read_random. by destruct (_ <? _)%nat. Qed.
#[export] Hint Resolve quiet_check quiet_random : quiet.
Ltac quiet :=
  repeat lazymatch goal with
  | |- Quiet (mbind _ _) => apply quiet_bind; [|intros ?]
  | |- Quiet (mret _) => apply quiet_ret
  | |- Quiet (raise _) => apply quiet_pure
  | |- Quiet (ask _) => apply quiet_pure
  | |- Quiet (inspect _) => apply quiet_inspect
  | |- Quiet (attempt _) => apply quiet_attempt
  | |- Quiet (in_context _ _) => apply quiet_context
  | |- Quiet (match ?x with _ => _ end) => destruct x
  | |- Quiet _ => solve [auto with quiet nocore]
  end.

Section triples.
Context (o : Z) (P : files → Prop).

Lemma triple_quiet {A} pre (m : FsM A) : P pre → Quiet m → triple o P pre m (λ _ fs, fs = pre).
Proof.
  intros Hp Hm w <- Ho. destruct (Hm w) as (E1 & E2 & E3). split; [|done].
  split; [done|]. exists []. rewrite E1, E2. by repeat constructor.
Qed.

Lemma triple_post {A} pre (m : FsM A) (Q R : A → files → Prop) :
  triple o P pre m Q → (∀ a fs, Q a fs → R a fs) → triple o P pre m R.
Proof. intros H HQR w Hw Ho. destruct (H w Hw Ho) as [Hp Hq]. split; eauto. Qed.
Lemma fs_triple_ret {A} pre (a : A) (post : A → files → Prop) :
  P pre → post a pre → triple o P pre (mret a) post.
Proof. intros Hp Hq w <- _. split; [by apply passes_refl|]. by intros b [= <-]. Qed.
Lemma triple_raise {A} pre e (post : A → files → Prop) : P pre → triple o P pre (raise e) post.
Proof. intros Hp w <- _. split; [by apply passes_refl|done]. Qed.
Lemma fs_triple_bind {A B} pre (m : FsM A) (f : A → FsM B) Q post :
  triple o P pre m Q → (∀ a mid, Q a mid → triple o P mid (f a) post) → triple o P pre (m ≫= f) post.
Proof.
  intros Hm Hf w Hw Ho. unfold mbind, fsm_bind. destruct (Hm w Hw Ho) as [Hp Hq].
  destruct (m w) as [w1 [a|e]]; simpl in *; [|split; [done|done]].
  destruct (Hf a (w_files w1) (Hq a eq_refl) w1 eq_refl) as [Hp2 Hq2]; [destruct Hp; congruence|].
  split; [by eapply passes_trans|done].
Qed.
Lemma triple_attempt {A} pre (m : FsM A) Q :
  triple o P pre m Q →
  triple o P pre (attempt m) (λ r fs, P fs ∧ ∀ a, r = Ok a → Q a fs).
Proof.
  intros Hm w Hw Ho. destruct (Hm w Hw Ho) as [Hp Hq]. unfold attempt.
  destruct (m w) as [w1 r]; simpl in *. split; [done|]. intros ? [= <-].
  split; [by destruct Hp as (_ & ? & _ & _ & ?)|]. by intros a ->; apply Hq.
Qed.
Lemma triple_context {A} pre context (m : FsM A) Q :
  triple o P pre m Q → triple o P pre (in_context context m) Q.
Proof.
  intros Hm w Hw Ho. destruct (Hm w Hw Ho) as [Hp Hq]. unfold in_context.
  destruct (m w) as [w1 [a|e]]; simpl in *; split; try done; intros b [= <-]; auto.
Qed.
Lemma triple_modify pre f partial (post : unit → files → Prop) :
  P pre → (∀ n, P (partial n pre)) →
  (∀ w fs, w_files w = pre → w_euid w = o → f w = Ok fs → P fs ∧ post tt fs) →
  triple o P pre (modify f partial) post.
Proof.
  intros Hp Hpart Hf w <- Ho. unfold modify. destruct (next_fault w) as [w1 fault] eqn:E.
  pose proof (passes_next_fault P w Hp) as H. pose proof (next_fault_files w) as Hw.
  pose proof (next_fault_euid w) as He. rewrite E in H, Hw, He. simpl in *.
  destruct fault as [n|]; [|destruct (f w1) as [fs|e] eqn:Ef]; simpl.
  - split; [|done]. eapply passes_trans; [exact H|]. apply passes_one; rewrite Hw; auto.
  - destruct (Hf w1 fs Hw ltac:(congruence) Ef) as [Hfs Hpost]. split; [|by intros []].
    eapply passes_trans; [exact H|]. apply passes_one; rewrite ?Hw; auto.
  - split; done.
Qed.
Lemma free_name_spec attempts fs directory prefix names path rest :
  free_name attempts fs directory prefix names = Some (path, rest) →
  fs !! path = None ∧ ∃ n, path = temporary_path directory prefix n.
Proof.
  revert names. induction attempts as [|k IH]; intros names; [done|]. unfold free_name; fold free_name.
  destruct (fs !! temporary_path _ _ _) eqn:E; [apply IH|]. intros [= <- <-]. eauto.
Qed.
Lemma triple_CreateTemp pre directory prefix : P pre →
  (∀ n m, pre !! temporary_path directory prefix n = None →
    P (<[temporary_path directory prefix n := Regular m o 1 ""]> pre)) →
  triple o P pre (CreateTemp directory prefix) (λ path fs, pre !! path = None ∧
    (∃ n, path = temporary_path directory prefix n) ∧ ∃ m, fs = <[path := Regular m o 1 ""]> pre).
Proof.
  intros Hp Hnew w <- Ho. unfold CreateTemp. destruct (next_fault w) as [w1 fault] eqn:E.
  pose proof (passes_next_fault P w Hp) as H. pose proof (next_fault_files w) as Hw.
  pose proof (next_fault_euid w) as He. pose proof (next_fault_trace w) as Ht. rewrite E in H, Hw, He, Ht. simpl in *.
  destruct fault; [by split|].
  destruct (free_name _ _ _ _ _) as [[path rest]|] eqn:En; [|by split].
  apply free_name_spec in En as [Hfree [n Hn]]. rewrite Hw in Hfree.
  destruct (is_directory _ _); [|by split]. unfold create_node. rewrite He, Hw, Ho. simpl.
  assert (Hfs : P (<[path := Regular (Z.ldiff 384 (w_umask w1)) o 1 ""]> (w_files w))) by (subst path; auto).
  split.
  - split; [simpl; congruence|]. exists [w_files w]. simpl. rewrite Ht. split_and!; [done|by constructor|done].
  - intros ? [= <-]. split_and!; eauto.
Qed.
End triples.
