(* ===== verification/Paths.v ===== *)
(** * Lexical paths

    [filepath.Rel] and [filepath.Base] on Unix, and the algebra of canonical absolute
    paths: such a path is the list of its components, and [Clean], [Join], [Dir] and
    [Rel] are list operations on it. *)

From stdpp Require Import base list strings gmap.
From Stdlib Require Import ZArith Lia Ascii.
From Stdlib Require String.
From S2P Require Import Prelude GoStd Release NetIP Fs.
Local Open Scope Z_scope.

(** [canonicalAbsolutePath] of [src/runtime/internal/deployment/state.go]. *)
Definition canonicalAbsolutePath (value : string) : bool :=
  negb (String.eqb value "") && IsAbs value && String.eqb (Clean value) value.

(** The path that leads from [base] to [targ], element by element; [None] is the error
    "can't make [targ] relative to [base]". *)
Fixpoint strip_common (b t : list string) : list string * list string :=
  match b, t with
  | x :: b', y :: t' => if String.eqb x y then strip_common b' t' else (b, t)
  | _, _ => (b, t)
  end.
Definition path_elements (path : string) : list string :=
  List.filter (λ e, negb (String.eqb e "")) (split "/" path).
Definition Rel (basepath targpath : string) : option string :=
  let base := Clean basepath in
  let targ := Clean targpath in
  if String.eqb targ base then Some "."
  else
    let base := if String.eqb base "." then "" else base in
    if negb (Bool.eqb (IsAbs base) (IsAbs targ)) then None
    else
      let '(b, t) := strip_common (path_elements base) (path_elements targ) in
      if String.eqb (hd "" b) ".." then None
      else Some (join "/" (map (λ _, "..") b ++ t)).
(** [filepath.Base]. *)
Definition Base (path : string) : string :=
  if String.eqb path "" then "."
  else match last (path_elements path) with Some e => e | None => "/" end.

Example rel_examples :
  (Rel "/home/u" "/home/u/a/b", Rel "/home/u" "/home/v", Rel "/home/u" "/home/u/", Rel "/" "/a", Rel "/a" "b",
   map Base ["/a/b"; "/"; ""; "a/"]) =
  (Some "a/b", Some "../v", Some ".", Some "a", None, ["b"; "/"; "."; "a"]).
Proof. vm_compute. done. Qed.

(** ** Components *)
Definition component (c : string) : bool :=
  negb (String.eqb c "") && negb (String.eqb c ".") && negb (String.eqb c "..") && negb (contains_byte "/" c).
Abbreviation components := (Forall (λ c, component c = true)).
(** The absolute path with these components. *)
Definition abs (es : list string) : string := "/" +:+ join "/" es.
Definition elements (path : string) : list string := clean_elements true [] (split "/" path).

Lemma component_inv c : component c = true → c ≠ "" ∧ c ≠ "." ∧ c ≠ ".." ∧ contains_byte "/" c = false.
Proof. unfold component. intros. unbool. by rewrite !String.eqb_neq in *. Qed.
Lemma component_plain es : components es → Forall (λ c, contains_byte "/" c = false) es.
Proof. intros H. eapply Forall_impl; [exact H|]. intros c Hc%component_inv. tauto. Qed.

Lemma split_no_sep sep s : Forall (λ c, contains_byte sep c = false) (split sep s).
Proof.
  induction s as [|c s IH]; simpl; [by repeat constructor|].
  destruct (Ascii.eqb_spec c sep) as [->|Hne]; [by constructor|].
  destruct (split sep s) as [|w ws]; [by repeat constructor; simpl; rewrite orb_false_r; apply Ascii.eqb_neq|].
  inversion IH; subst. constructor; [|done]. simpl. rewrite H1, orb_false_r. apply Ascii.eqb_neq. congruence.
Qed.

Lemma clean_components es : ∀ stack, components es → clean_elements true stack es = rev stack ++ es.
Proof.
  induction es as [|c es IH]; intros stack H; simpl; [by rewrite app_nil_r|].
  apply Forall_cons in H as [(H1 & H2 & H3 & _)%component_inv H].
  destruct (String.eqb_spec c ""), (String.eqb_spec c "."), (String.eqb_spec c ".."); try done. simpl.
  rewrite IH by done. simpl. by rewrite <- app_assoc.
Qed.
Lemma clean_are_components l : ∀ stack, Forall (λ c, contains_byte "/" c = false) l → components stack →
  components (clean_elements true stack l).
Proof.
  induction l as [|c l IH]; intros stack Hl Hs; simpl; [by apply Forall_rev|].
  apply Forall_cons in Hl as [Hc Hl].
  destruct (String.eqb_spec c ""), (String.eqb_spec c "."); simpl; try by apply IH.
  destruct (String.eqb_spec c "..") as [->|].
  - destruct stack as [|top below]; [by apply IH|]. apply Forall_cons in Hs as [Ht Hb].
    apply component_inv in Ht as (_ & _ & Ht & _). destruct (String.eqb_spec top ".."); [done|]. by apply IH.
  - apply IH; [done|]. constructor; [|done]. unfold component.
    by rewrite (proj2 (String.eqb_neq c "")), (proj2 (String.eqb_neq c ".")), (proj2 (String.eqb_neq c "..")), Hc.
Qed.

Lemma split_abs es : components es → es ≠ [] → split "/" (abs es) = "" :: es.
Proof.
  intros H Hne. change (abs es) with ("" +:+ String "/" (join "/" es)). rewrite split_cons by done.
  by rewrite split_join by (done || by apply component_plain).
Qed.
Lemma elements_components path : components (elements path).
Proof. apply clean_are_components; [apply split_no_sep|constructor]. Qed.
Lemma elements_abs es : components es → elements (abs es) = es.
Proof.
  intros H. destruct es as [|c es]; [done|]. unfold elements. rewrite split_abs by done.
  change (clean_elements true [] ("" :: c :: es)) with (clean_elements true [] (c :: es)).
  by rewrite clean_components.
Qed.
Lemma Clean_abs es : components es → Clean (abs es) = abs es.
Proof.
  intros H. unfold Clean. change (IsAbs (abs es)) with true. cbv iota.
  change (clean_elements true [] (split "/" (abs es))) with (elements (abs es)). by rewrite elements_abs.
Qed.
Lemma abs_inj es fs : components es → components fs → abs es = abs fs → es = fs.
Proof. intros He Hf H. by rewrite <- (elements_abs es), H, elements_abs. Qed.
Lemma canonical_abs es : components es → canonicalAbsolutePath (abs es) = true.
Proof. intros H. unfold canonicalAbsolutePath. rewrite Clean_abs, String.eqb_refl by done. done. Qed.
Lemma canonical_elements path : canonicalAbsolutePath path = true → path = abs (elements path).
Proof.
  unfold canonicalAbsolutePath. intros H. unbool. apply String.eqb_eq in H0. unfold Clean in H0. by rewrite H1 in H0.
Qed.
Lemma canonical_inv path : canonicalAbsolutePath path = true → ∃ es, components es ∧ path = abs es.
Proof. intros H. exists (elements path). split; [apply elements_components|by apply canonical_elements]. Qed.

(** ** Join, Dir and Rel *)
Lemma join_snoc sep es c : es ≠ [] → join sep (es ++ [c]) = join sep es +:+ String sep c.
Proof.
  induction es as [|e [|f es] IH]; intros H; [done|done|].
  change (join sep ((e :: f :: es) ++ [c])) with (e +:+ String sep (join sep ((f :: es) ++ [c]))).
  rewrite IH by done. change (join sep (e :: f :: es)) with (e +:+ String sep (join sep (f :: es))).
  by rewrite sapp_assoc.
Qed.
Lemma Join_abs es c : components es → component c = true → Join [abs es; c] = abs (es ++ [c]).
Proof.
  intros He Hc. assert (Hc' : c ≠ "") by apply component_inv, Hc. unfold Join.
  assert (E : List.filter (λ e, negb (String.eqb e "")) [abs es; c] = [abs es; c]).
  { simpl. destruct (String.eqb_spec c ""); done. }
  rewrite E. change (join "/" [abs es; c]) with (abs es +:+ String "/" c).
  destruct es as [|e es].
  - change (abs [] +:+ String "/" c) with ("/" +:+ ("/" +:+ c)).
    unfold Clean. change (IsAbs ("/" +:+ ("/" +:+ c))) with true. cbv iota.
    change (split "/" ("/" +:+ ("/" +:+ c))) with ("" :: "" :: split "/" c).
    rewrite split_plain by apply component_inv, Hc.
    change (clean_elements true [] ["" ; ""; c]) with (clean_elements true [] [c]).
    rewrite clean_components by by constructor. done.
  - change (abs (e :: es) +:+ String "/" c) with ("/" +:+ (join "/" (e :: es) +:+ String "/" c)).
    rewrite <- join_snoc by done. apply Clean_abs, Forall_app. by split; [|constructor].
Qed.
Lemma last_index_snoc c s t : contains_byte c t = false →
  last_index_byte c (s +:+ String c t) = Some (String.length s).
Proof.
  intros Ht. assert (Hn : last_index_byte c t = None).
  { induction t as [|d t IH]; [done|]. simpl in Ht |- *. unbool. by rewrite IH, H by done. }
  induction s as [|d s IH]; [by change ("" +:+ ?x) with x; simpl; rewrite Hn, Ascii.eqb_refl|].
  rewrite sapp_cons. simpl. by rewrite IH.
Qed.
Lemma stake_snoc s c t : stake (S (String.length s)) (s +:+ String c t) = s +:+ String c "".
Proof. induction s as [|d s IH]; [by destruct t|]. rewrite !sapp_cons. cbn [String.length stake]. f_equal. apply IH. Qed.
Lemma split_snoc sep s : split sep (s +:+ String sep "") = split sep s ++ [""].
Proof.
  induction s as [|c s IH]; [simpl; by rewrite Ascii.eqb_refl|]. rewrite sapp_cons. simpl.
  rewrite IH. destruct (Ascii.eqb c sep); [done|].
  destruct (split sep s) eqn:E; [by apply split_nonempty in E|done].
Qed.
Lemma Dir_abs es c : components es → component c = true → Dir (abs (es ++ [c])) = abs es.
Proof.
  intros He Hc. destruct es as [|e es].
  - unfold Dir. change (abs ([] ++ [c])) with ("" +:+ String "/" c).
    by rewrite last_index_snoc, stake_snoc by apply component_inv, Hc.
  - assert (E : abs ((e :: es) ++ [c]) = abs (e :: es) +:+ String "/" c).
    { unfold abs. by rewrite join_snoc, sapp_assoc by done. }
    unfold Dir. rewrite E, last_index_snoc, stake_snoc by apply component_inv, Hc.
    unfold Clean. rewrite split_snoc.
    change (IsAbs (abs (e :: es) +:+ "/")) with true. rewrite split_abs by done. cbv iota.
    unfold abs. f_equal. f_equal.
    change (clean_elements true [] (("" :: e :: es) ++ [""])) with (clean_elements true [] ((e :: es) ++ [""])).
    generalize (e :: es) He. clear. intros l Hl.
    assert (H : ∀ stack, components l → clean_elements true stack (l ++ [""]) = rev stack ++ l).
    { induction l as [|c l IH]; intros stack Hc; [simpl; by rewrite app_nil_r|].
      apply Forall_cons in Hc as [(H1 & H2 & H3 & _)%component_inv Hc]. apply Forall_cons in Hl as [_ Hl]. simpl.
      destruct (String.eqb_spec c ""), (String.eqb_spec c "."), (String.eqb_spec c ".."); try done. simpl.
      rewrite IH by done. simpl. by rewrite <- app_assoc. }
    by rewrite H.
Qed.

Lemma path_elements_abs es : components es → path_elements (abs es) = es.
Proof.
  intros H. destruct es as [|c es]; [done|]. unfold path_elements. rewrite split_abs by done. simpl List.filter.
  apply Forall_cons in H as [Hc H]. destruct (String.eqb_spec c "") as [->|]; [done|]. simpl. f_equal.
  induction H as [|d es Hd _ IH]; [done|]. simpl. destruct (String.eqb_spec d "") as [->|]; [done|]. simpl.
  by rewrite IH.
Qed.
Lemma strip_common_app b d : strip_common b (b ++ d) = ([], d).
Proof. induction b as [|x b IH]; simpl; [by destruct d|]. by rewrite String.eqb_refl. Qed.
Lemma strip_common_spec b : ∀ t b' t', strip_common b t = (b', t') → ∃ p, b = p ++ b' ∧ t = p ++ t'.
Proof.
  induction b as [|x b IH]; intros t b' t'; simpl.
  - destruct t; intros [= <- <-]; by exists [].
  - destruct t as [|y t]; [intros [= <- <-]; by exists []|].
    destruct (String.eqb_spec x y) as [->|]; [|intros [= <- <-]; by exists []].
    intros (p & -> & ->)%IH. by exists (y :: p).
Qed.
Lemma Rel_abs b t : components b → components t →
  Rel (abs b) (abs t) =
  if bool_decide (t = b) then Some "." else
  let '(b', t') := strip_common b t in Some (join "/" (map (λ _, "..") b' ++ t')).
Proof.
  intros Hb Ht. unfold Rel. rewrite !Clean_abs, !path_elements_abs by done.
  case_bool_decide as E; [subst; by rewrite String.eqb_refl|].
  destruct (String.eqb_spec (abs t) (abs b)) as [H|_]; [by apply abs_inj in H|].
  change (String.eqb (abs b) ".") with false. cbv iota. change (IsAbs (abs ?x)) with true. simpl negb. cbv iota.
  rewrite path_elements_abs by done. destruct (strip_common b t) as [b' t'] eqn:Es.
  apply strip_common_spec in Es as (p & Hb' & _).
  destruct (String.eqb_spec (hd "" b') "..") as [H|]; [|done].
  exfalso. destruct b' as [|x b']; [done|]. simpl in H. subst b x.
  apply Forall_app in Hb as [_ Hb]. by apply Forall_cons in Hb as [? _].
Qed.

(** [requireStrictDescendant] of [paths_unix.go]. *)
Definition requireStrictDescendant (parent child name : string) : res string unit :=
  let refused := Err (name +:+ " must be strictly beneath the current user's home directory") in
  match Rel parent child with
  | None => refused
  | Some relative =>
      if String.eqb relative "." || String.eqb relative "" || String.eqb relative ".." ||
         has_prefix "../" relative || IsAbs relative
      then refused else Ok tt
  end.

Lemma IsAbs_component c s : component c = true → IsAbs (c +:+ s) = false.
Proof.
  intros (Hne & _ & _ & Hc)%component_inv. destruct c as [|d c]; [done|]. cbn [contains_byte] in Hc. unbool.
  rewrite sapp_cons. unfold IsAbs, has_prefix. cbn [strip_prefix]. by rewrite H.
Qed.
Lemma component_dotdot c s : component c = true → has_prefix "../" (c +:+ s) = false.
Proof.
  intros (Hne & H1 & H2 & Hc)%component_inv. unfold has_prefix.
  destruct (strip_prefix "../" (c +:+ s)) as [r|] eqn:E; [|done]. exfalso. apply strip_prefix_Some in E.
  destruct c as [|a [|b [|d c]]]; simpl in *; rewrite ?sapp_cons in E; try done.
  - injection E as ->. done.
  - injection E as -> ->. done.
  - injection E as -> -> -> _. simpl in Hc. done.
Qed.
Lemma join_head sep x l : ∃ s, join sep (x :: l) = x +:+ s.
Proof. destruct l as [|y l]; [exists ""; by rewrite sapp_nil_r|]. by exists (String sep (join sep (y :: l))). Qed.

Lemma requireStrictDescendant_abs b t name : components b → components t →
  requireStrictDescendant (abs b) (abs t) name = Ok tt ↔ ∃ d, d ≠ [] ∧ t = b ++ d.
Proof.
  intros Hb Ht. unfold requireStrictDescendant. rewrite Rel_abs by done. case_bool_decide as E.
  { split; [done|]. intros (d & Hd & ->). destruct d; [done|].
    apply (f_equal length) in E. rewrite length_app in E. simpl in E. lia. }
  destruct (strip_common b t) as [b' t'] eqn:Es. pose proof Es as Hs.
  apply strip_common_spec in Es as (p & Ep & Et). destruct b' as [|x b'].
  - rewrite app_nil_r in Ep. subst p. simpl. destruct t' as [|c t'].
    { rewrite app_nil_r in Et. done. }
    assert (Hc : component c = true).
    { rewrite Et in Ht. apply Forall_app in Ht as [_ Ht]. by apply Forall_cons in Ht as [? _]. }
    destruct (join_head "/" c t') as [s Hj]. pose proof Hc as (H1 & H2 & H3 & _)%component_inv.
    assert (Hlong : ∀ u, join "/" (c :: t') = u → contains_byte "/" u = false → u = c).
    { intros u Hu Hno. destruct t' as [|c' t']; [by simpl in Hu|]. exfalso.
      change (join "/" (c :: c' :: t')) with (c +:+ String "/" (join "/" (c' :: t'))) in Hu. subst u.
      clear -Hno. induction c as [|d c IH]; simpl in Hno; [done|]. unbool. auto. }
    split; [|intros _].
    + intros _. by exists (c :: t').
    + destruct (String.eqb_spec (join "/" (c :: t')) ".") as [Hd|]; [by apply Hlong in Hd|].
      destruct (String.eqb_spec (join "/" (c :: t')) "") as [Hd|]; [by apply Hlong in Hd|].
      destruct (String.eqb_spec (join "/" (c :: t')) "..") as [Hd|]; [by apply Hlong in Hd|].
      rewrite Hj, component_dotdot, IsAbs_component by done. done.
  - simpl map. cbv iota. split.
    + destruct (join_head "/" ".." (map (λ _, "..") b' ++ t')) as [s Hj].
      change ((".." :: map (λ _, "..") b') ++ t') with (".." :: (map (λ _, "..") b' ++ t')).
      destruct (map (λ _, "..") b' ++ t') as [|y l]; [done|].
      change (join "/" (".." :: y :: l)) with ("../" +:+ join "/" (y :: l)).
      unfold has_prefix. rewrite strip_prefix_app. by rewrite !orb_true_r.
    + intros (d & Hd & ->). exfalso. rewrite strip_common_app in Hs. done.
Qed.
