(* ===== verification/Auth.v ===== *)
(** * Package auth: the credential-hash boundary

    Models [src/runtime/internal/auth/token.go].  Each hash is [Sum256] of a
    preimage built by a sequence of [hash.Write] calls; the preimage builders
    are definitions of their own so that domain separation can be stated. *)

From stdpp Require Import base list strings.
From Stdlib Require Import ZArith Lia Ascii.
From S2P Require Import Prelude GoStd Uuid.
Local Open Scope Z_scope.

Definition credentialSize : nat := 32.

Definition fixedScopes : list string :=
  ["devices:manage"; "devices:read"; "envelope:read"; "envelope:write"; "sync:read"; "sync:write"].
Definition FixedScopes : list string := fixedScopes.

Fixpoint strings_eqb (l k : list string) : bool :=
  match l, k with
  | [], [] => true
  | x :: l', y :: k' => String.eqb x y && strings_eqb l' k'
  | _, _ => false
  end.
Lemma strings_eqb_eq l k : strings_eqb l k = true ↔ l = k.
Proof.
  revert k. induction l as [|x l IH]; intros [|y k]; simpl; try (split; congruence).
  rewrite andb_true_iff, String.eqb_eq, IH. split; [intros [-> ->]|intros [= -> ->]]; done.
Qed.

(** [ValidateScopes] (true where it returns nil). *)
Definition ValidateScopes (scopes : list string) : bool := strings_eqb scopes fixedScopes.

(** [VerifyHash]: [subtle.ConstantTimeCompare] of two 32-byte arrays. *)
Definition VerifyHash (stored computed : string) : bool := String.eqb stored computed.

(** [writeLengthPrefixed]: four big-endian bytes of [uint32(len)], then the value. *)
Definition writeLengthPrefixed (value : string) : list Z :=
  be_split 4 (Z.of_nat (String.length value) mod 2 ^ 32) ++ bytes_list value.

Definition device_token_preimage (instance vault device : list Z) (token : string) : list Z :=
  writeLengthPrefixed "JAT device token hash v1" ++ instance ++ vault ++ device ++ bytes_list token.
Definition enrollment_grant_preimage (instance vault : list Z) (grant : string) : list Z :=
  writeLengthPrefixed "JAT enrollment grant hash v1" ++ instance ++ vault ++ bytes_list grant.
Definition request_body_preimage (label : string) (instance vault device : list Z) (body : string) : list Z :=
  writeLengthPrefixed label ++ instance ++ vault ++ device ++ writeLengthPrefixed body.

Definition DeviceTokenHash (instanceID vaultID deviceID token : string) : option string :=
  if negb (String.length token =? credentialSize)%nat then None
  else match Parse instanceID, Parse vaultID, Parse deviceID with
       | Some i, Some v, Some d => Some (Sum256 (of_bytes (device_token_preimage i v d token)))
       | _, _, _ => None
       end.

Definition EnrollmentGrantHash (instanceID vaultID grant : string) : option string :=
  if negb (String.length grant =? credentialSize)%nat then None
  else match Parse instanceID, Parse vaultID with
       | Some i, Some v => Some (Sum256 (of_bytes (enrollment_grant_preimage i v grant)))
       | _, _ => None
       end.

Definition RequestBodyFingerprint (label instanceID vaultID deviceID body : string) : option string :=
  match Parse instanceID, Parse vaultID, Parse deviceID with
  | Some i, Some v, Some d => Some (Sum256 (of_bytes (request_body_preimage label i v d body)))
  | _, _, _ => None
  end.

(** ** Properties *)

Lemma ValidateScopes_iff scopes : ValidateScopes scopes = true ↔ scopes = fixedScopes.
Proof. apply strings_eqb_eq. Qed.

Lemma VerifyHash_iff a b : VerifyHash a b = true ↔ a = b.
Proof. apply String.eqb_eq. Qed.

Lemma bytes_list_inj s t : bytes_list s = bytes_list t → s = t.
Proof. intros H. by rewrite <- (of_bytes_list s), <- (of_bytes_list t), H. Qed.

Lemma writeLengthPrefixed_length v :
  length (writeLengthPrefixed v) = (4 + String.length v)%nat.
Proof. unfold writeLengthPrefixed. by rewrite length_app, length_be_split, length_bytes_list. Qed.

(** A length prefix makes the encoding prefix-free, so two concatenations that
    start with one agree on it. *)
Lemma writeLengthPrefixed_app_inj v w r s :
  Z.of_nat (String.length v) < 2 ^ 32 → Z.of_nat (String.length w) < 2 ^ 32 →
  writeLengthPrefixed v ++ r = writeLengthPrefixed w ++ s → v = w ∧ r = s.
Proof.
  unfold writeLengthPrefixed. intros Hv Hw H. rewrite <- !app_assoc in H.
  apply app_inj_1 in H as [H1 H2]; [|by rewrite !length_be_split].
  apply (f_equal be_combine) in H1.
  rewrite !be_combine_split in H1 by (apply Z.mod_pos_bound; lia).
  change (256 ^ Z.of_nat 4) with (2 ^ 32) in H1. rewrite !Z.mod_mod, !Z.mod_small in H1 by lia.
  apply app_inj_1 in H2 as [H2 ->]; [|rewrite !length_bytes_list; lia].
  by apply bytes_list_inj in H2 as ->.
Qed.

Lemma DeviceTokenHash_length i v d t h : DeviceTokenHash i v d t = Some h → String.length h = 32%nat.
Proof.
  unfold DeviceTokenHash. intros H.
  repeat (case_match_in H; try discriminate). injection H as <-. apply Sum256_length.
Qed.
Lemma EnrollmentGrantHash_length i v t h : EnrollmentGrantHash i v t = Some h → String.length h = 32%nat.
Proof.
  unfold EnrollmentGrantHash. intros H.
  repeat (case_match_in H; try discriminate). injection H as <-. apply Sum256_length.
Qed.
Lemma RequestBodyFingerprint_length l i v d b h :
  RequestBodyFingerprint l i v d b = Some h → String.length h = 32%nat.
Proof.
  unfold RequestBodyFingerprint. intros H.
  repeat (case_match_in H; try discriminate). injection H as <-. apply Sum256_length.
Qed.

(** Domain separation of the request fingerprint: for identifiers of equal
    width and label and body within the four-byte length prefix, the hashed
    preimage determines the label, the three identifiers and the body, so two
    requests share a preimage only if they are the same request under the same
    operation label. *)
Theorem request_body_preimage_injective l1 i1 v1 d1 b1 l2 i2 v2 d2 b2
    (Hl1 : Z.of_nat (String.length l1) < 2 ^ 32) (Hl2 : Z.of_nat (String.length l2) < 2 ^ 32)
    (Hb1 : Z.of_nat (String.length b1) < 2 ^ 32) (Hb2 : Z.of_nat (String.length b2) < 2 ^ 32)
    (Hi : length i1 = length i2) (Hv : length v1 = length v2) (Hd : length d1 = length d2)
    (Heq : request_body_preimage l1 i1 v1 d1 b1 = request_body_preimage l2 i2 v2 d2 b2) :
  l1 = l2 ∧ i1 = i2 ∧ v1 = v2 ∧ d1 = d2 ∧ b1 = b2.
Proof.
  unfold request_body_preimage in Heq.
  apply writeLengthPrefixed_app_inj in Heq as [-> Heq]; [|done|done].
  apply app_inj_1 in Heq as [-> Heq]; [|done].
  apply app_inj_1 in Heq as [-> Heq]; [|done].
  apply app_inj_1 in Heq as [-> Heq]; [|done].
  rewrite <- (app_nil_r (writeLengthPrefixed b1)), <- (app_nil_r (writeLengthPrefixed b2)) in Heq.
  apply writeLengthPrefixed_app_inj in Heq as [-> _]; done.
Qed.

Lemma request_body_preimage_injective_witness :
  "JAT sync request fingerprint v1" = "JAT sync request fingerprint v1" ∧ [1] = [1] ∧ [2] = [2] ∧ [3] = [3] ∧ "{}" = "{}".
Proof.
  apply (request_body_preimage_injective "JAT sync request fingerprint v1" [1] [2] [3] "{}"
           "JAT sync request fingerprint v1" [1] [2] [3] "{}"); vm_compute; reflexivity.
Defined.

(** The three credential families never share a preimage. *)
Lemma preimage_domains_disjoint i v d t i' v' g :
  device_token_preimage i v d t ≠ enrollment_grant_preimage i' v' g.
Proof.
  unfold device_token_preimage, enrollment_grant_preimage. intros H.
  apply writeLengthPrefixed_app_inj in H as [H _]; [discriminate|done|done].
Qed.
