(* ===== verification/Json.v ===== *)
(** * encoding/json and the strict decoder of the store

    [json.Marshal] of the wire structs, the decoder (with its
    case-insensitive field matching, merging and null rules), and
    [decodeStrict], [validateRequiredJSON], [validateJSONValue] and
    [decodeStoredCanonical] of [src/runtime/internal/store/models.go].

    Go types are described by [ty] (what [reflect.Type] exposes) and Go values
    by [gval].  Parsing uses fuel twice the input length, which
    [parse_print] shows to be enough for everything the server prints. *)

From stdpp Require Import base list strings.
From Stdlib Require Import ZArith Lia Ascii.
From Stdlib Require String.
From S2P Require Import Prelude GoStd.
Local Open Scope Z_scope.

(** ** JSON values *)
#[local] Unset Elimination Schemes.
Inductive json :=
| JNull
| JBool (b : bool)
| JNum (literal : string)
| JStr (s : string)
| JArr (l : list json)
| JObj (l : list (string * json)).

(** Induction with hypotheses for the elements of arrays and objects. *)
Section json_ind.
Context (P : json → Prop)
  (Hnull : P JNull) (Hbool : ∀ b, P (JBool b)) (Hnum : ∀ s, P (JNum s)) (Hstr : ∀ s, P (JStr s))
  (Harr : ∀ l, Forall P l → P (JArr l))
  (Hobj : ∀ l, Forall (λ kv, P kv.2) l → P (JObj l)).
Fixpoint json_ind (j : json) : P j :=
  match j with
  | JNull => Hnull
  | JBool b => Hbool b
  | JNum s => Hnum s
  | JStr s => Hstr s
  | JArr l => Harr l ((fix go l := match l return Forall P l with
      | [] => Forall_nil_2 _ | x :: l' => Forall_cons_2 _ _ _ (json_ind x) (go l') end) l)
  | JObj l => Hobj l ((fix go l := match l return Forall (λ kv, P kv.2) l with
      | [] => Forall_nil_2 _ | x :: l' => Forall_cons_2 _ _ _ (json_ind x.2) (go l') end) l)
  end.
End json_ind.

(** ** Printing: [json.Marshal] *)

(** Number of bytes of the valid UTF-8 sequence at the head, if there is one. *)
Definition rune_len (l : list Z) : option nat :=
  if utf8_valid_bytes (take 1 l) then Some 1%nat
  else if utf8_valid_bytes (take 2 l) then Some 2%nat
  else if utf8_valid_bytes (take 3 l) then Some 3%nat
  else if utf8_valid_bytes (take 4 l) then Some 4%nat
  else None.

Definition dquote : ascii := chrZ 34.
Definition backslash : ascii := chrZ 92.
Definition esc (c : ascii) : string := String backslash (String c "").
Definition u_esc (hex : string) : string := esc "u" +:+ hex.

(** Bytes the encoder copies unchanged (HTML-safe set). *)
Definition html_safe (z : Z) : bool :=
  (32 <=? z) && (z <? 128) && negb (z =? 34) && negb (z =? 92)
  && negb (z =? 60) && negb (z =? 62) && negb (z =? 38).

Definition escape_ascii (z : Z) : string :=
  if html_safe z then String (chrZ z) ""
  else if z =? 34 then esc dquote
  else if z =? 92 then esc backslash
  else if z =? 8 then esc "b" else if z =? 12 then esc "f"
  else if z =? 10 then esc "n" else if z =? 13 then esc "r" else if z =? 9 then esc "t"
  else u_esc ("00" +:+ hex_encode [z]).

Fixpoint escape_bytes (fuel : nat) (l : list Z) : string :=
  match fuel, l with
  | O, _ | _, [] => ""
  | S f, z :: r =>
      if z <? 128 then escape_ascii z +:+ escape_bytes f r
      else match rune_len l with
           | None => u_esc "fffd" +:+ escape_bytes f r
           | Some n =>
               let rune := take n l in
               (if bool_decide (rune = [226; 128; 168]) then u_esc "2028"
                else if bool_decide (rune = [226; 128; 169]) then u_esc "2029"
                else of_bytes rune) +:+ escape_bytes f (drop n l)
           end
  end.
Definition print_string (s : string) : string :=
  String dquote (escape_bytes (String.length s) (bytes_list s) +:+ String dquote "").

Fixpoint print (j : json) : string :=
  match j with
  | JNull => "null"
  | JBool true => "true"
  | JBool false => "false"
  | JNum s => s
  | JStr s => print_string s
  | JArr l =>
      "[" +:+ (fix elems l := match l with
        | [] => ""
        | [x] => print x
        | x :: l' => print x +:+ "," +:+ elems l'
        end) l +:+ "]"
  | JObj l =>
      "{" +:+ (fix members l := match l with
        | [] => ""
        | [(k, x)] => print_string k +:+ ":" +:+ print x
        | (k, x) :: l' => print_string k +:+ ":" +:+ print x +:+ "," +:+ members l'
        end) l +:+ "}"
  end.

(** ** Parsing *)
Definition is_ws (c : ascii) : bool :=
  let z := byteZ c in (z =? 32) || (z =? 9) || (z =? 10) || (z =? 13).
Fixpoint skip_ws (s : string) : string :=
  match s with
  | String c s' => if is_ws c then skip_ws s' else s
  | EmptyString => ""
  end.

Definition is_digit (z : Z) : bool := (48 <=? z) && (z <=? 57).
Definition number_byte (z : Z) : bool :=
  is_digit z || (z =? 43) || (z =? 45) || (z =? 46) || (z =? 69) || (z =? 101).
Fixpoint span_number (s : string) : string * string :=
  match s with
  | String c s' =>
      if number_byte (byteZ c) then let '(a, b) := span_number s' in (String c a, b)
      else ("", s)
  | EmptyString => ("", "")
  end.

Fixpoint drop_digits (l : list Z) : list Z :=
  match l with z :: r => if is_digit z then drop_digits r else l | [] => [] end.
(** One or more digits. *)
Definition digits1 (l : list Z) : option (list Z) :=
  match l with z :: r => if is_digit z then Some (drop_digits r) else None | [] => None end.
(** The JSON number grammar: optional minus, an integer without leading zeros,
    optional fraction, optional exponent. *)
Definition exponent_ok (l : list Z) : bool :=
  match l with
  | [] => true
  | z :: r =>
      if (z =? 101) || (z =? 69) then
        let r := match r with s :: r' => if (s =? 43) || (s =? 45) then r' else r | [] => [] end in
        match digits1 r with Some [] => true | _ => false end
      else false
  end.
Definition fraction_ok (l : list Z) : bool :=
  match l with
  | z :: r =>
      if z =? 46 then match digits1 r with Some r' => exponent_ok r' | None => false end
      else exponent_ok l
  | [] => true
  end.
Definition valid_number (s : string) : bool :=
  let l := bytes_list s in
  let l := match l with z :: r => if z =? 45 then r else l | [] => [] end in
  match l with
  | z :: r =>
      if z =? 48 then fraction_ok r
      else if is_digit z then fraction_ok (drop_digits r) else false
  | [] => false
  end.

Definition hex4 (s : string) : option (Z * string) :=
  match s with
  | String a (String b (String c (String d r))) =>
      match hex_value a, hex_value b, hex_value c, hex_value d with
      | Some w, Some x, Some y, Some z => Some (w * 4096 + x * 256 + y * 16 + z, r)
      | _, _, _, _ => None
      end
  | _ => None
  end.
Definition utf8_encode (r : Z) : list Z :=
  if r <? 128 then [r]
  else if r <? 2048 then [192 + r / 64; 128 + r mod 64]
  else if r <? 65536 then [224 + r / 4096; 128 + r / 64 mod 64; 128 + r mod 64]
  else [240 + r / 262144; 128 + r / 4096 mod 64; 128 + r / 64 mod 64; 128 + r mod 64].
Definition replacement : list Z := [239; 191; 189].

(** The text after the opening quote: decoded bytes and what follows the
    closing quote.  Lone surrogates and invalid UTF-8 become U+FFFD. *)
Fixpoint parse_string (fuel : nat) (s : string) : option (list Z * string) :=
  match fuel with
  | O => None
  | S f =>
    match s with
    | EmptyString => None
    | String c r =>
      let z := byteZ c in
      if z =? 34 then Some ([], r)
      else if z =? 92 then
        match r with
        | EmptyString => None
        | String e r' =>
          let simple b := match parse_string f r' with
                          | Some (l, t) => Some (b :: l, t) | None => None end in
          let ez := byteZ e in
          if (ez =? 34) || (ez =? 92) || (ez =? 47) then simple ez
          else if ez =? 98 then simple 8 else if ez =? 102 then simple 12
          else if ez =? 110 then simple 10 else if ez =? 114 then simple 13
          else if ez =? 116 then simple 9
          else if ez =? 117 then
            match hex4 r' with
            | None => None
            | Some (u, r2) =>
              if (55296 <=? u) && (u <=? 57343) then
                let pair := match r2 with
                  | String b1 (String u1 r3) =>
                      if (byteZ b1 =? 92) && (byteZ u1 =? 117) then
                        match hex4 r3 with
                        | Some (v, r4) =>
                            if (u <=? 56319) && (56320 <=? v) && (v <=? 57343)
                            then Some (65536 + (u - 55296) * 1024 + (v - 56320), r4) else None
                        | None => None
                        end
                      else None
                  | _ => None
                  end in
                match pair with
                | Some (rune, r4) =>
                    match parse_string f r4 with
                    | Some (l, t) => Some (utf8_encode rune ++ l, t) | None => None end
                | None =>
                    match parse_string f r2 with
                    | Some (l, t) => Some (replacement ++ l, t) | None => None end
                end
              else match parse_string f r2 with
                   | Some (l, t) => Some (utf8_encode u ++ l, t) | None => None end
            end
          else None
        end
      else if z <? 32 then None
      else if z <? 128 then
        match parse_string f r with Some (l, t) => Some (z :: l, t) | None => None end
      else match rune_len (bytes_list s) with
           | None => match parse_string f r with
                     | Some (l, t) => Some (replacement ++ l, t) | None => None end
           | Some n =>
               match parse_string f (of_bytes (drop n (bytes_list s))) with
               | Some (l, t) => Some (take n (bytes_list s) ++ l, t) | None => None end
           end
    end
  end.
Definition parse_text (s : string) : option (string * string) :=
  match parse_string (S (String.length s)) s with
  | Some (l, t) => Some (of_bytes l, t)
  | None => None
  end.

Fixpoint parse_value (fuel : nat) (s : string) : option (json * string) :=
  match fuel with
  | O => None
  | S f =>
    match skip_ws s with
    | EmptyString => None
    | String c r =>
      let z := byteZ c in
      if z =? 123 then
        match skip_ws r with
        | String d r' => if byteZ d =? 125 then Some (JObj [], r')
            else match parse_members f r with Some (l, t) => Some (JObj l, t) | None => None end
        | EmptyString => None
        end
      else if z =? 91 then
        match skip_ws r with
        | String d r' => if byteZ d =? 93 then Some (JArr [], r')
            else match parse_elems f r with Some (l, t) => Some (JArr l, t) | None => None end
        | EmptyString => None
        end
      else if z =? 34 then
        match parse_text r with Some (v, t) => Some (JStr v, t) | None => None end
      else if (z =? 45) || is_digit z then
        let '(lit, t) := span_number (String c r) in
        if valid_number lit then Some (JNum lit, t) else None
      else match strip_prefix "null" (String c r), strip_prefix "true" (String c r),
                 strip_prefix "false" (String c r) with
           | Some t, _, _ => Some (JNull, t)
           | _, Some t, _ => Some (JBool true, t)
           | _, _, Some t => Some (JBool false, t)
           | None, None, None => None
           end
    end
  end
with parse_elems (fuel : nat) (s : string) : option (list json * string) :=
  match fuel with
  | O => None
  | S f =>
    match parse_value f s with
    | None => None
    | Some (x, t) =>
      match skip_ws t with
      | String d t' =>
          if byteZ d =? 93 then Some ([x], t')
          else if byteZ d =? 44 then
            match parse_elems f t' with Some (l, u) => Some (x :: l, u) | None => None end
          else None
      | EmptyString => None
      end
    end
  end
with parse_members (fuel : nat) (s : string) : option (list (string * json) * string) :=
  match fuel with
  | O => None
  | S f =>
    match skip_ws s with
    | String q r =>
      if byteZ q =? 34 then
        match parse_text r with
        | None => None
        | Some (k, t) =>
          match skip_ws t with
          | String colon t' =>
            if byteZ colon =? 58 then
              match parse_value f t' with
              | None => None
              | Some (x, u) =>
                match skip_ws u with
                | String d u' =>
                    if byteZ d =? 125 then Some ([(k, x)], u')
                    else if byteZ d =? 44 then
                      match parse_members f u' with
                      | Some (l, w) => Some ((k, x) :: l, w) | None => None end
                    else None
                | EmptyString => None
                end
              end
            else None
          | EmptyString => None
          end
        end
      else None
    | EmptyString => None
    end
  end.

(** A whole document: one value, then only white space. *)
Definition parse_json (body : string) : option json :=
  match parse_value (2 * String.length body + 2) body with
  | Some (j, t) => if String.eqb (skip_ws t) "" then Some j else None
  | None => None
  end.

(** ** Go types and values

    [TInt] is [int] and [int64], [TUint] is [uint64]. *)
#[local] Unset Elimination Schemes.
Inductive ty :=
| TString | TBool | TInt | TUint
| TPtr (t : ty)
| TSlice (t : ty)
| TStruct (fields : list (string * ty)).

(** [GSlice isnil visible stale]: [stale] holds the values beyond the length
    that a later decode into the same backing array starts from. *)
Inductive gval :=
| GStr (s : string)
| GBool (b : bool)
| GInt (z : Z)
| GPtr (o : option gval)
| GSlice (isnil : bool) (visible stale : list gval)
| GStruct (fields : list gval).

Section ty_ind.
Context (P : ty → Prop)
  (Hs : P TString) (Hb : P TBool) (Hi : P TInt) (Hu : P TUint) (Hp : ∀ t, P t → P (TPtr t))
  (Hl : ∀ t, P t → P (TSlice t)) (Hf : ∀ fs, Forall (λ f, P f.2) fs → P (TStruct fs)).
Fixpoint ty_ind (t : ty) : P t :=
  match t with
  | TString => Hs | TBool => Hb | TInt => Hi | TUint => Hu
  | TPtr t' => Hp t' (ty_ind t') | TSlice t' => Hl t' (ty_ind t')
  | TStruct fs => Hf fs ((fix go l := match l return Forall (λ f, P f.2) l with
      | [] => Forall_nil_2 _ | x :: l' => Forall_cons_2 _ _ _ (ty_ind x.2) (go l') end) fs)
  end.
End ty_ind.

Fixpoint zero (t : ty) : gval :=
  match t with
  | TString => GStr "" | TBool => GBool false | TInt | TUint => GInt 0
  | TPtr _ => GPtr None | TSlice _ => GSlice true [] []
  | TStruct fs => GStruct ((fix go fs := match fs with
      | [] => [] | (_, t') :: fs' => zero t' :: go fs' end) fs)
  end.

(** [strconv.FormatInt] and the integer literals the decoder accepts. *)
Definition FormatInt (z : Z) : string :=
  if z <? 0 then "-" +:+ FormatUint (- z) else FormatUint z.
Definition parse_int (literal : string) : option Z :=
  match literal with
  | String c r =>
      if byteZ c =? 45 then
        match r with EmptyString => None | _ =>
          match parse_digits 0 r with
          | Some n => if n <=? 2 ^ 63 then Some (- n) else None | None => None end end
      else match parse_digits 0 literal with
           | Some n => if n <=? MaxInt64 then Some n else None | None => None end
  | EmptyString => None
  end.

(** The JSON value [json.Marshal] writes for a Go value of a type. *)
Fixpoint to_json (t : ty) (g : gval) : json :=
  match t, g with
  | TString, GStr s => JStr s
  | TBool, GBool b => JBool b
  | TInt, GInt z => JNum (FormatInt z)
  | TUint, GInt z => JNum (FormatUint z)
  | TPtr t', GPtr (Some v) => to_json t' v
  | TSlice t', GSlice isnil l _ => if isnil then JNull else JArr (map (to_json t') l)
  | TStruct fs, GStruct vs =>
      JObj ((fix go fs vs := match fs, vs with
        | (n, t') :: fs', v :: vs' => (n, to_json t' v) :: go fs' vs'
        | _, _ => [] end) fs vs)
  | _, _ => JNull
  end.

(** [marshalJSON]. *)
Definition marshal (t : ty) (g : gval) : string := print (to_json t g).

(** Field lookup folds case: ASCII letters, and the two non-ASCII runes whose
    simple folding is an ASCII letter (U+017F and U+212A). *)
Fixpoint fold_name (l : list Z) : list Z :=
  match l with
  | 197 :: 191 :: r => 115 :: fold_name r
  | 226 :: 132 :: 170 :: r => 107 :: fold_name r
  | z :: r => (if (65 <=? z) && (z <=? 90) then z + 32 else z) :: fold_name r
  | [] => []
  end.
Definition fold_eqb (a b : string) : bool :=
  bool_decide (fold_name (bytes_list a) = fold_name (bytes_list b)).

(** Index of the field a key decodes into: the exact name, else the first one
    equal under folding. *)
Fixpoint find_index {A} (p : A → bool) (l : list A) : option nat :=
  match l with
  | [] => None
  | x :: l' => if p x then Some O else S <$> find_index p l'
  end.
Definition field_index (fs : list (string * ty)) (key : string) : option nat :=
  match find_index (λ f, String.eqb f.1 key) fs with
  | Some i => Some i
  | None => find_index (λ f, fold_eqb f.1 key) fs
  end.

(** Decoding into an existing value.  [strict] is [DisallowUnknownFields]. *)
Fixpoint decode (strict : bool) (t : ty) (old : gval) (j : json) {struct t} : option gval :=
  match t, j with
  | TPtr _, JNull => Some (GPtr None)
  | TPtr t', _ =>
      let inner := match old with GPtr (Some g) => g | _ => zero t' end in
      match decode strict t' inner j with Some g => Some (GPtr (Some g)) | None => None end
  | TSlice _, JNull => Some (GSlice true [] [])
  | _, JNull => Some old
  | TString, JStr s => Some (GStr s)
  | TBool, JBool b => Some (GBool b)
  | TInt, JNum lit => match parse_int lit with Some z => Some (GInt z) | None => None end
  | TUint, JNum lit => match ParseUint lit with Some z => Some (GInt z) | None => None end
  | TSlice t', JArr l =>
      let back := match old with GSlice _ v s => v ++ s | _ => [] end in
      match (fix elems l back := match l with
        | [] => Some []
        | x :: l' =>
            let o := match back with b :: _ => b | [] => zero t' end in
            match decode strict t' o x, elems l' (tail back) with
            | Some g, Some gs => Some (g :: gs) | _, _ => None end
        end) l back with
      | Some gs => Some (GSlice false gs (match l with [] => [] | _ => drop (length l) back end))
      | None => None
      end
  | TStruct fs, JObj kvs =>
      let set_field i v := (fix go fs (vals : list gval) (i : nat) {struct fs} :=
        match fs, vals with
        | (_, t') :: fs', o :: vals' =>
            match i with
            | O => match decode strict t' o v with Some g => Some (g :: vals') | None => None end
            | S i' => match go fs' vals' i' with Some r => Some (o :: r) | None => None end
            end
        | _, _ => None
        end) in
      let member acc kv :=
        match acc with
        | None => None
        | Some vals =>
            match field_index fs kv.1 with
            | None => if strict then None else Some vals
            | Some i => set_field i kv.2 fs vals i
            end
        end in
      match old with
      | GStruct vals =>
          match fold_left member kvs (Some vals) with
          | Some vals' => Some (GStruct vals') | None => None end
      | _ => None
      end
  | _, _ => None
  end.

(** [validateRequiredJSON]: every struct field is present under its exact name
    and nothing that is not a pointer is null. *)
Definition lookup_last (key : string) (l : list (string * json)) : option json :=
  fold_left (λ acc kv, if String.eqb kv.1 key then Some kv.2 else acc) l None.
Fixpoint validateRequiredJSON (t : ty) (j : json) {struct t} : bool :=
  match t, j with
  | TPtr t', _ => match j with JNull => true | _ => validateRequiredJSON t' j end
  | _, JNull => false
  | TStruct fs, JObj kvs =>
      (fix go fs := match fs with
        | [] => true
        | (n, t') :: fs' =>
            match lookup_last n kvs with
            | Some v => validateRequiredJSON t' v && go fs'
            | None => false
            end
        end) fs
  | TStruct _, _ => false
  | TSlice t', JArr l => forallb (validateRequiredJSON t') l
  | TSlice _, _ => false
  | _, _ => true
  end.

(** [validateJSONValue]: nesting of at most 32 levels and no object with two
    equal keys. *)
Fixpoint validateJSONValue (depth : Z) (j : json) : bool :=
  (depth <=? 32) &&
  match j with
  | JArr l => forallb (validateJSONValue (depth + 1)) l
  | JObj l => bool_decide (NoDup l.*1) && forallb (λ kv, validateJSONValue (depth + 1) kv.2) l
  | _ => true
  end.

(** [decodeStrict(body, &value)] into a fresh zero value of type [t]. *)
Definition decodeStrict (t : ty) (body : string) : option gval :=
  if String.eqb body "" || negb (utf8_valid body) then None
  else match parse_json body with
       | None => None
       | Some j =>
           if validateJSONValue 1 j && validateRequiredJSON t j then decode true t (zero t) j else None
       end.

(** [json.Unmarshal(body, &value)] into a fresh zero value. *)
Definition unmarshal (t : ty) (body : string) : option gval :=
  match parse_json body with Some j => decode false t (zero t) j | None => None end.

Definition maxBodyBytes : Z := 4 * 1024 * 1024.

(** [decodeStoredCanonical]. *)
Definition decodeStoredCanonical (t : ty) (body : string) : option gval :=
  if (slen body =? 0) || (maxBodyBytes <? slen body) then None
  else match decodeStrict t body with
       | Some g => if String.eqb (marshal t g) body then Some g else None
       | None => None
       end.
