(* ===== verification/JsonFacts.v ===== *)
(** * Round trip of the JSON codec

    For values whose strings need no escaping (all identifiers, counters,
    base64 texts and timestamps of the protocol), parsing what the encoder
    prints gives the value back, and [decodeStrict] accepts it. *)

From stdpp Require Import base list strings sets.
From Stdlib Require Import ZArith Lia Ascii.
From Stdlib Require String.
From S2P Require Import Prelude GoStd Json.
Local Open Scope Z_scope.

Definition plain (s : string) : bool := forallb html_safe (bytes_list s).

Lemma html_safe_inv z : html_safe z = true →
  32 <= z < 128 ∧ z ≠ 34 ∧ z ≠ 92.
Proof. unfold html_safe. intros H. unbool. lia. Qed.

Lemma plain_cons c s : plain (String c s) = true ↔ html_safe (byteZ c) = true ∧ plain s = true.
Proof. unfold plain. simpl. by rewrite andb_true_iff. Qed.

Lemma escape_plain s : plain s = true → escape_bytes (String.length s) (bytes_list s) = s.
Proof.
  induction s as [|c s IH]; [done|]. rewrite plain_cons. intros [Hc Hs]. simpl.
  pose proof (html_safe_inv _ Hc) as (Hr & _).
  destruct (Z.ltb_spec (byteZ c) 128); [|lia].
  rewrite IH by done. unfold escape_ascii. rewrite Hc, chrZ_byteZ. done.
Qed.
Lemma print_string_plain s : plain s = true →
  print_string s = String dquote (s +:+ String dquote "").
Proof. intros H. unfold print_string. by rewrite escape_plain. Qed.
Lemma length_print_plain s : plain s = true → String.length (print_string s) = (String.length s + 2)%nat.
Proof. intros H. rewrite print_string_plain by done. simpl. rewrite length_sapp. simpl. lia. Qed.

Lemma parse_string_plain s rest fuel : plain s = true → (String.length s < fuel)%nat →
  parse_string fuel (s +:+ String dquote rest) = Some (bytes_list s, rest).
Proof.
  revert fuel. induction s as [|c s IH]; intros [|f] Hp Hf; simpl in Hf; try lia; [done|].
  apply plain_cons in Hp as [Hc Hs]. apply html_safe_inv in Hc as (Hr & H34 & H92).
  rewrite sapp_cons. cbn -[Z.eqb Z.ltb].
  apply Z.eqb_neq in H34, H92. rewrite H34, H92.
  destruct (Z.ltb_spec (byteZ c) 32); [lia|]. destruct (Z.ltb_spec (byteZ c) 128); [|lia].
  by rewrite IH by (done || lia).
Qed.
Lemma parse_text_plain s rest : plain s = true →
  parse_text (s +:+ String dquote rest) = Some (s, rest).
Proof.
  intros H. unfold parse_text. rewrite parse_string_plain; [by rewrite of_bytes_list|done|].
  rewrite length_sapp. simpl. lia.
Qed.

(** ** Printed numbers *)
Definition number_literal (s : string) : bool :=
  valid_number s && forallb number_byte (bytes_list s) &&
  match s with String c _ => (byteZ c =? 45) || is_digit (byteZ c) | EmptyString => false end.

(** What may follow a value: not a byte that could continue a number. *)
Definition stops (rest : string) : bool :=
  match rest with String c _ => negb (number_byte (byteZ c)) | EmptyString => true end.

Lemma span_number_app s rest : forallb number_byte (bytes_list s) = true → stops rest = true →
  span_number (s +:+ rest) = (s, rest).
Proof.
  induction s as [|c s IH]; intros Hn Hs.
  - change ("" +:+ rest) with rest. destruct rest as [|d r]; [done|]. simpl in *.
    unbool. by rewrite Hs.
  - rewrite sapp_cons. simpl in *. unbool. rewrite H, IH by done. done.
Qed.

Lemma drop_digits_all l : forallb is_digit l = true → drop_digits l = [].
Proof. induction l as [|z l IH]; simpl; [done|]. intros H. unbool. rewrite H. auto. Qed.

Lemma digits_of_format fuel n : 0 <= n → forallb is_digit (bytes_list (format_digits fuel n)) = true.
Proof.
  intros Hn. apply forallb_forall. intros z Hz%list_elem_of_In.
  pose proof (format_digits_ascii fuel n Hn) as H. rewrite Forall_forall in H.
  specialize (H z Hz). unfold is_digit. destruct (Z.leb_spec 48 z), (Z.leb_spec z 57); simpl; lia.
Qed.
(** Decimal texts have no leading zero unless they are "0". *)
Lemma format_digits_head fuel n z r : (0 < fuel)%nat → 0 < n < 10 ^ Z.of_nat fuel →
  bytes_list (format_digits fuel n) = z :: r → 49 <= z <= 57.
Proof.
  revert n z r. induction fuel as [|f IH]; intros n z r Hf Hn; [lia|].
  rewrite Nat2Z.inj_succ, Z.pow_succ_r in Hn by lia. simpl.
  destruct (Z.ltb_spec n 10).
  - simpl. rewrite byteZ_chrZ by lia. intros [= <- _]. lia.
  - rewrite bytes_list_app. destruct (bytes_list (format_digits f (n / 10))) as [|z' r'] eqn:E.
    + destruct f as [|f]; [simpl in Hn; lia|].
      apply (f_equal length) in E. rewrite length_bytes_list in E.
      destruct (format_digits (S f) (n / 10)) eqn:E2; [|done].
      exfalso. by apply (format_digits_nonempty (S f) (n / 10)).
    + simpl. intros [= <- _]. destruct f as [|f]; [done|].
      apply (IH (n / 10) z' r'); [lia|lia|done].
Qed.

Lemma FormatUint_literal n : u64 n → number_literal (FormatUint n) = true.
Proof.
  intros Hn. pose proof (digits_of_format 20 n ltac:(unfold u64 in Hn; lia)) as Hd.
  fold (FormatUint n) in Hd.
  assert (Hb : forallb number_byte (bytes_list (FormatUint n)) = true).
  { apply forallb_forall. intros z Hz. rewrite forallb_forall in Hd.
    unfold number_byte. by rewrite (Hd z Hz). }
  unfold number_literal. rewrite Hb.
  destruct (FormatUint n) as [|c s] eqn:E.
  { exfalso. by apply (format_digits_nonempty 20 n). }
  pose proof Hd as Hd'. simpl in Hd'. unbool. rewrite H.
  rewrite orb_true_r, !andb_true_r. unfold valid_number. simpl.
  assert (Hc : byteZ c ≠ 45) by (unfold is_digit in H; unbool; lia).
  destruct (decide (n = 0)) as [->|Hnz].
  { vm_compute in E. injection E as <- <-. done. }
  assert (Hh : 49 <= byteZ c <= 57).
  { apply (format_digits_head 20 n _ (bytes_list s)); [lia|unfold u64, two64 in Hn; lia|].
    unfold FormatUint in E. by rewrite E. }
  destruct (Z.eqb_spec (byteZ c) 45); [lia|]. destruct (Z.eqb_spec (byteZ c) 48); [lia|].
  by rewrite H, drop_digits_all.
Qed.

(** ** Plain JSON values *)
Fixpoint json_plain (j : json) : bool :=
  match j with
  | JNull | JBool _ => true
  | JNum s => number_literal s
  | JStr s => plain s
  | JArr l => forallb json_plain l
  | JObj l => forallb (λ kv, plain kv.1 && json_plain kv.2) l
  end.
(** Fuel a value needs. *)
Fixpoint jsize (j : json) : nat :=
  match j with
  | JArr l => S ((fix go l := match l with [] => O | x :: l' => S (jsize x + go l') end) l)
  | JObj l => S ((fix go l := match l with [] => O | kx :: l' => S (jsize kx.2 + go l') end) l)
  | _ => 1%nat
  end.
Definition elems_size (l : list json) : nat := foldr (λ x n, S (jsize x + n)) O l.
Definition members_size (l : list (string * json)) : nat := foldr (λ kx n, S (jsize kx.2 + n)) O l.
Fixpoint print_elems (l : list json) : string :=
  match l with [] => "" | [x] => print x | x :: l' => print x +:+ "," +:+ print_elems l' end.
Fixpoint print_members (l : list (string * json)) : string :=
  match l with
  | [] => ""
  | [(k, x)] => print_string k +:+ ":" +:+ print x
  | (k, x) :: l' => print_string k +:+ ":" +:+ print x +:+ "," +:+ print_members l'
  end.
Lemma print_arr l : print (JArr l) = "[" +:+ print_elems l +:+ "]".
Proof. reflexivity. Qed.
Lemma print_obj l : print (JObj l) = "{" +:+ print_members l +:+ "}".
Proof. reflexivity. Qed.
Lemma jsize_arr l : jsize (JArr l) = S (elems_size l).
Proof. reflexivity. Qed.
Lemma jsize_obj l : jsize (JObj l) = S (members_size l).
Proof. reflexivity. Qed.

(** The first byte of a printed value: not white space and not a closing bracket. *)
Definition value_head (s : string) : bool :=
  match s with
  | String c _ => negb (is_ws c) && negb (byteZ c =? 93) && negb (byteZ c =? 125)
  | EmptyString => false
  end.
Lemma value_head_app s t : value_head s = true → value_head (s +:+ t) = true.
Proof. by destruct s. Qed.
Lemma print_value_head j : json_plain j = true → value_head (print j) = true.
Proof.
  destruct j as [|[]|s|s|l|l]; try done. simpl. unfold number_literal. intros H. unbool.
  destruct s as [|c s]; [done|]. unfold value_head, is_ws, is_digit in *.
  apply orb_true_iff in H0 as [H0|H0]; unbool;
  repeat match goal with |- context [?a =? ?b] => destruct (Z.eqb_spec a b); [lia|] end; done.
Qed.
Lemma skip_ws_head s : value_head s = true → skip_ws s = s.
Proof. destruct s as [|c s]; [done|]. simpl. intros H. unbool. by rewrite H. Qed.
Lemma value_head_ws s : value_head s = true → value_head (skip_ws s) = true.
Proof. intros H. by rewrite skip_ws_head. Qed.

(** ** Parsing what was printed *)

(** One step of the value parser, by the first byte after white space. *)
Lemma parse_value_step f s c r : skip_ws s = String c r →
  parse_value (S f) s =
  (let z := byteZ c in
   if z =? 123 then
     match skip_ws r with
     | String d r' => if byteZ d =? 125 then Some (JObj [], r')
         else match parse_members f r with Some (l, t) => Some (JObj l, t) | None => None end
     | EmptyString => None
     end
   else if z =? 91 then
     match skip_ws r with
     | String d r' => if byteZ d =? 93 then Some (JArr [], r')
         else match parse_elems f r with Some (l, t) => Some (JArr l, t) | None => None end
     | EmptyString => None
     end
   else if z =? 34 then
     match parse_text r with Some (v, t) => Some (JStr v, t) | None => None end
   else if (z =? 45) || is_digit z then
     let '(lit, t) := span_number (String c r) in
     if valid_number lit then Some (JNum lit, t) else None
   else match strip_prefix "null" (String c r), strip_prefix "true" (String c r),
              strip_prefix "false" (String c r) with
        | Some t, _, _ => Some (JNull, t)
        | _, Some t, _ => Some (JBool true, t)
        | _, _, Some t => Some (JBool false, t)
        | None, None, None => None
        end).
Proof. intros H. cbn -[byteZ Z.eqb skip_ws span_number parse_text]. by rewrite H. Qed.

Lemma parse_value_arr f s : value_head (skip_ws s) = true →
  parse_value (S f) (String "[" s) =
  match parse_elems f s with Some (l, t) => Some (JArr l, t) | None => None end.
Proof.
  intros H. rewrite (parse_value_step _ _ "[" s) by done. cbv zeta.
  change (byteZ "[" =? 123) with false. change (byteZ "[" =? 91) with true. cbv iota.
  destruct (skip_ws s) as [|c t]; [done|]. unfold value_head in H. unbool.
  by rewrite (proj2 (Z.eqb_neq _ _) H1).
Qed.
Lemma parse_value_obj f s : value_head (skip_ws s) = true →
  parse_value (S f) (String "{" s) =
  match parse_members f s with Some (l, t) => Some (JObj l, t) | None => None end.
Proof.
  intros H. rewrite (parse_value_step _ _ "{" s) by done. cbv zeta.
  change (byteZ "{" =? 123) with true. cbv iota.
  destruct (skip_ws s) as [|c t]; [done|]. unfold value_head in H. unbool.
  by rewrite (proj2 (Z.eqb_neq _ _) H0).
Qed.
Lemma parse_value_str f s rest : plain s = true →
  parse_value (S f) (print_string s +:+ rest) = Some (JStr s, rest).
Proof.
  intros H. rewrite print_string_plain by done.
  rewrite sapp_cons, sapp_assoc, sapp_cons. change ("" +:+ rest) with rest.
  rewrite (parse_value_step _ _ dquote (s +:+ String dquote rest)) by done. cbv zeta.
  change (byteZ dquote =? 123) with false. change (byteZ dquote =? 91) with false.
  change (byteZ dquote =? 34) with true. cbv iota. by rewrite parse_text_plain.
Qed.
Lemma parse_value_num f s rest : number_literal s = true → stops rest = true →
  parse_value (S f) (s +:+ rest) = Some (JNum s, rest).
Proof.
  unfold number_literal. intros H Hs. unbool. destruct s as [|c s]; [done|].
  assert (Hws : is_ws c = false).
  { unfold is_ws, is_digit in *. apply orb_true_iff in H0 as [H0|H0]; unbool;
    repeat match goal with |- context [?a =? ?b] => destruct (Z.eqb_spec a b); [lia|] end; done. }
  pose proof (span_number_app (String c s) rest H1 Hs) as Hspan.
  rewrite sapp_cons in Hspan |- *.
  rewrite (parse_value_step _ _ c (s +:+ rest)) by (simpl; by rewrite Hws). cbv zeta.
  destruct (Z.eqb_spec (byteZ c) 123) as [E|_]; [rewrite E in H0; done|].
  destruct (Z.eqb_spec (byteZ c) 91) as [E|_]; [rewrite E in H0; done|].
  destruct (Z.eqb_spec (byteZ c) 34) as [E|_]; [rewrite E in H0; done|].
  by rewrite H0, Hspan, H.
Qed.

Lemma parse_elems_one f s x t c u : parse_value f s = Some (x, t) → skip_ws t = String c u →
  parse_elems (S f) s =
  if byteZ c =? 93 then Some ([x], u)
  else if byteZ c =? 44 then
    match parse_elems f u with Some (l, w) => Some (x :: l, w) | None => None end
  else None.
Proof. intros H1 H2. cbn -[parse_value skip_ws byteZ Z.eqb]. by rewrite H1, H2. Qed.

Lemma parse_members_one f k x s t c u : plain k = true →
  parse_value f s = Some (x, t) → skip_ws t = String c u →
  parse_members (S f) (print_string k +:+ ":" +:+ s) =
  if byteZ c =? 125 then Some ([(k, x)], u)
  else if byteZ c =? 44 then
    match parse_members f u with Some (l, w) => Some ((k, x) :: l, w) | None => None end
  else None.
Proof.
  intros Hk H1 H2.
  assert (E : print_string k +:+ ":" +:+ s = String dquote (k +:+ String dquote (String ":" s))).
  { rewrite print_string_plain by done. by rewrite sapp_cons, sapp_assoc. }
  rewrite E.
  cbn -[parse_value parse_text skip_ws byteZ Z.eqb dquote String.append].
  change (skip_ws (String dquote ?t)) with (String dquote t). cbv iota.
  change (byteZ dquote =? 34) with true. cbv iota. rewrite parse_text_plain by done.
  change (skip_ws (String ":" ?t)) with (String ":" t). cbv iota.
  change (byteZ ":" =? 58) with true. cbv iota. by rewrite H1, H2.
Qed.

Lemma parse_print j : json_plain j = true → ∀ rest fuel, (jsize j <= fuel)%nat → stops rest = true →
  parse_value fuel (print j +:+ rest) = Some (j, rest).
Proof.
  induction j as [|b|s|s|l IH|l IH] using json_ind; intros Hp rest fuel Hf Hst;
    (destruct fuel as [|f]; [simpl in Hf; lia|]).
  - done.
  - by destruct b.
  - by apply parse_value_num.
  - by apply parse_value_str.
  - rewrite jsize_arr in Hf. rewrite print_arr.
    destruct l as [|x l]; [done|].
    simpl json_plain in Hp. apply andb_true_iff in Hp as [Hx Hl].
    assert (E : ("[" +:+ print_elems (x :: l) +:+ "]") +:+ rest
                = String "[" (print_elems (x :: l) +:+ String "]" rest)) by by rewrite !sapp_assoc.
    rewrite E. clear E.
    rewrite parse_value_arr.
    2:{ apply value_head_ws. destruct l; simpl print_elems; rewrite ?sapp_assoc; by apply value_head_app, print_value_head. }
    enough (Helems : ∀ l x f, Forall (λ j, json_plain j = true → ∀ rest fuel, (jsize j <= fuel)%nat →
        stops rest = true → parse_value fuel (print j +:+ rest) = Some (j, rest)) (x :: l) →
        forallb json_plain (x :: l) = true → (elems_size (x :: l) <= f)%nat →
        parse_elems f (print_elems (x :: l) +:+ String "]" rest) = Some (x :: l, rest)).
    { rewrite (Helems l x f); [done|done| |lia]. simpl. by rewrite Hx. }
    clear. intros l. induction l as [|y l IHl]; intros x f HF Hp Hf;
      (destruct f as [|f]; [simpl in Hf; lia|]); inversion HF as [|? ? Hx HF']; subst;
      simpl in Hp; apply andb_true_iff in Hp as [Hpx Hpl]; simpl in Hf.
    + simpl print_elems. erewrite parse_elems_one; [|apply Hx; [done|lia|done]|done]. done.
    + change (print_elems (x :: y :: l)) with (print x +:+ "," +:+ print_elems (y :: l)).
      rewrite !sapp_assoc. erewrite parse_elems_one; [|apply Hx; [done|lia|done]|done].
      change (byteZ "," =? 93) with false. change (byteZ "," =? 125) with false.
      change (byteZ "," =? 44) with true. cbv iota. change ("" +:+ ?s) with s.
      rewrite IHl; [done|done|done|simpl; lia].
  - rewrite jsize_obj in Hf. rewrite print_obj.
    destruct l as [|[k x] l]; [done|].
    assert (E : ("{" +:+ print_members ((k, x) :: l) +:+ "}") +:+ rest
                = String "{" (print_members ((k, x) :: l) +:+ String "}" rest)) by by rewrite !sapp_assoc.
    rewrite E. clear E.
    rewrite parse_value_obj by (destruct l as [|[??]]; done).
    enough (Hmem : ∀ l k x f, Forall (λ kv, json_plain kv.2 = true → ∀ rest fuel, (jsize kv.2 <= fuel)%nat →
        stops rest = true → parse_value fuel (print kv.2 +:+ rest) = Some (kv.2, rest)) ((k, x) :: l) →
        forallb (λ kv, plain kv.1 && json_plain kv.2) ((k, x) :: l) = true →
        (members_size ((k, x) :: l) <= f)%nat →
        parse_members f (print_members ((k, x) :: l) +:+ String "}" rest) = Some ((k, x) :: l, rest)).
    { by rewrite (Hmem l k x f) by (done || lia). }
    clear. intros l. induction l as [|[k' y] l IHl]; intros k x f HF Hp Hf;
      (destruct f as [|f]; [simpl in Hf; lia|]); inversion HF as [|? ? Hx HF']; subst;
      simpl in Hp; apply andb_true_iff in Hp as [Hpx Hpl];
      apply andb_true_iff in Hpx as [Hk Hpx]; simpl in Hf, Hx.
    + simpl print_members. rewrite !sapp_assoc.
      erewrite parse_members_one; [|done|apply Hx; [done|lia|done]|done]. done.
    + change (print_members ((k, x) :: (k', y) :: l))
        with (print_string k +:+ ":" +:+ print x +:+ "," +:+ print_members ((k', y) :: l)).
      rewrite !sapp_assoc.
      erewrite parse_members_one; [|done|apply Hx; [done|lia|done]|done].
      change (byteZ "," =? 93) with false. change (byteZ "," =? 125) with false.
      change (byteZ "," =? 44) with true. cbv iota. change ("" +:+ ?s) with s.
      rewrite IHl; [done|done|done|simpl; lia].
Qed.

(** ** Typed values *)
Fixpoint has_ty (t : ty) (g : gval) {struct t} : bool :=
  match t, g with
  | TString, GStr s => plain s
  | TBool, GBool _ => true
  | TInt, GInt z => (0 <=? z) && (z <=? MaxInt64)
  | TUint, GInt z => (0 <=? z) && (z <? two64)
  | TPtr t', GPtr o => match o with None => true | Some v => has_ty t' v end
  | TSlice t', GSlice isnil l stale => negb isnil && forallb (has_ty t') l && bool_decide (stale = [])
  | TStruct fs, GStruct vs =>
      (fix go fs vs := match fs, vs with
        | [], [] => true
        | (_, t') :: fs', v :: vs' => has_ty t' v && go fs' vs'
        | _, _ => false end) fs vs
  | _, _ => false
  end.
(** Well-formed type descriptions: distinct plain field names and no pointer to
    a pointer, as for every struct of the store. *)
Fixpoint wf_ty (t : ty) : bool :=
  match t with
  | TString | TBool | TInt | TUint => true
  | TPtr t' => wf_ty t' && match t' with TPtr _ => false | _ => true end
  | TSlice t' => wf_ty t'
  | TStruct fs => bool_decide (NoDup fs.*1) && forallb (λ f, plain f.1 && wf_ty f.2) fs
  end.
Fixpoint ty_depth (t : ty) : Z :=
  match t with
  | TString | TBool | TInt | TUint => 1
  | TPtr t' => ty_depth t'
  | TSlice t' => 1 + ty_depth t'
  | TStruct fs => 1 + foldr (λ f n, Z.max (ty_depth f.2) n) 0 fs
  end.

Definition fields_json (fs : list (string * ty)) (vs : list gval) : list (string * json) :=
  zip_with (λ f v, (f.1, to_json f.2 v)) fs vs.
Lemma to_json_struct fs vs : to_json (TStruct fs) (GStruct vs) = JObj (fields_json fs vs).
Proof.
  simpl. f_equal. revert vs. induction fs as [|[n t] fs IH]; intros [|v vs]; simpl; try done.
  by rewrite IH.
Qed.
Definition zeros (fs : list (string * ty)) : list gval := map (λ f, zero f.2) fs.
Lemma zero_struct fs : zero (TStruct fs) = GStruct (zeros fs).
Proof. simpl. f_equal. induction fs as [|[n t] fs IH]; simpl; [done|]. by rewrite IH. Qed.
Lemma has_ty_struct fs vs : has_ty (TStruct fs) (GStruct vs) = true ↔
  Forall2 (λ f v, has_ty f.2 v = true) fs vs.
Proof.
  simpl. revert vs. induction fs as [|[n t] fs IH]; intros [|v vs].
  - split; [constructor|done].
  - split; [done|]. intros HF. inversion HF.
  - split; [done|]. intros HF. inversion HF.
  - rewrite andb_true_iff, IH. split; [intros []; by constructor|inversion 1; done].
Qed.

(** Setting one field of a struct value. *)
Definition set_field (strict : bool) (v : json) :=
  fix go (fs : list (string * ty)) (vals : list gval) (i : nat) {struct fs} : option (list gval) :=
  match fs, vals with
  | (_, t') :: fs', o :: vals' =>
      match i with
      | O => match decode strict t' o v with Some g => Some (g :: vals') | None => None end
      | S i' => match go fs' vals' i' with Some r => Some (o :: r) | None => None end
      end
  | _, _ => None
  end.
Definition set_member (strict : bool) (fs : list (string * ty)) (acc : option (list gval))
    (kv : string * json) : option (list gval) :=
  match acc with
  | None => None
  | Some vals =>
      match field_index fs kv.1 with
      | None => if strict then None else Some vals
      | Some i => set_field strict kv.2 fs vals i
      end
  end.
Lemma decode_struct strict fs vals kvs :
  decode strict (TStruct fs) (GStruct vals) (JObj kvs) =
  match fold_left (set_member strict fs) kvs (Some vals) with
  | Some vals' => Some (GStruct vals') | None => None end.
Proof. reflexivity. Qed.

Lemma find_index_exact (fs1 fs2 : list (string * ty)) n t :
  NoDup (fs1 ++ (n, t) :: fs2).*1 →
  find_index (λ f : string * ty, String.eqb f.1 n) (fs1 ++ (n, t) :: fs2) = Some (length fs1).
Proof.
  induction fs1 as [|[m u] fs1 IH]; simpl; intros Hnd.
  - by rewrite String.eqb_refl.
  - apply NoDup_cons in Hnd as [Hni Hnd]. rewrite fmap_app in Hni.
    destruct (String.eqb_spec m n) as [->|]; [set_solver|]. by rewrite IH.
Qed.
Lemma set_field_at strict v fs1 fs2 n t vs1 vs2 o : length fs1 = length vs1 →
  set_field strict v (fs1 ++ (n, t) :: fs2) (vs1 ++ o :: vs2) (length fs1) =
  match decode strict t o v with Some g => Some (vs1 ++ g :: vs2) | None => None end.
Proof.
  revert vs1. induction fs1 as [|[m u] fs1 IH]; intros [|w vs1] H; try discriminate; [done|].
  simpl. rewrite IH by (simpl in H; lia). by destruct (decode strict t o v).
Qed.

(** Decoding an object with one member per field, in order. *)
Lemma decode_fields strict fs vs (J : string * ty → gval → json) : NoDup fs.*1 →
  Forall2 (λ f v, decode strict f.2 (zero f.2) (J f v) = Some v) fs vs →
  fold_left (set_member strict fs) (zip_with (λ f v, (f.1, J f v)) fs vs) (Some (zeros fs)) = Some vs.
Proof.
  intros Hnd HF.
  enough (Hgo : ∀ fs2 vs2 fs1 vs1, fs = fs1 ++ fs2 → length fs1 = length vs1 →
    Forall2 (λ f v, decode strict f.2 (zero f.2) (J f v) = Some v) fs2 vs2 →
    fold_left (set_member strict fs) (zip_with (λ f v, (f.1, J f v)) fs2 vs2) (Some (vs1 ++ zeros fs2)) = Some (vs1 ++ vs2))
    by by apply (Hgo fs vs [] []).
  clear vs HF. induction fs2 as [|[n t] fs2 IH2]; intros vs2 fs1 vs1 Hfs Hlen HF;
    inversion HF as [|? v ? vs2' Hv HF']; subst vs2; [done|]. simpl in Hv.
  cbn [zip_with fold_left]. unfold set_member at 2. simpl fst. simpl snd.
  subst fs. unfold field_index. rewrite find_index_exact by done.
  change (zeros ((n, t) :: fs2)) with (zero t :: zeros fs2). rewrite set_field_at, Hv by done.
  assert (E : vs1 ++ v :: zeros fs2 = (vs1 ++ [v]) ++ zeros fs2) by by rewrite <- app_assoc.
  rewrite E, (IH2 vs2' (fs1 ++ [(n, t)])); [by rewrite <- app_assoc| | |done].
  - by rewrite <- app_assoc.
  - rewrite !length_app. simpl. lia.
Qed.

Lemma to_json_not_null t g : wf_ty t = true → has_ty t g = true →
  match t with TPtr _ => True | _ => to_json t g ≠ JNull end.
Proof. destruct t, g; simpl; try done. intros _ H. unbool. by rewrite H. Qed.

Lemma decode_ptr strict t old j : j ≠ JNull →
  decode strict (TPtr t) old j =
  match decode strict t (match old with GPtr (Some g) => g | _ => zero t end) j with
  | Some g => Some (GPtr (Some g)) | None => None end.
Proof. by destruct j. Qed.

Lemma FormatInt_parse z : 0 <= z <= MaxInt64 → parse_int (FormatInt z) = Some z.
Proof.
  intros H. unfold FormatInt. destruct (Z.ltb_spec z 0); [lia|]. unfold FormatUint, parse_int.
  assert (Hu : z < 10 ^ Z.of_nat 20) by (unfold MaxInt64 in H; lia).
  pose proof (digits_of_format 20 z ltac:(lia)) as Hd.
  destruct (format_digits 20 z) as [|c s] eqn:E.
  { exfalso. by apply (format_digits_nonempty 20 z). }
  simpl in Hd. unbool. unfold is_digit in H1. unbool.
  destruct (Z.eqb_spec (byteZ c) 45); [lia|].
  rewrite <- E, parse_format_digits by lia. destruct (Z.leb_spec z MaxInt64); [done|lia].
Qed.

Lemma to_json_plain t g : wf_ty t = true → has_ty t g = true → json_plain (to_json t g) = true.
Proof.
  revert g. induction t as [| | | |t IH|t IH|fs IH] using ty_ind; intros g Hw Hg;
    destruct g as [s|b|z|o|nl l st|vs]; try done.
  - simpl in *. unbool. unfold FormatInt. destruct (Z.ltb_spec z 0); [lia|].
    apply FormatUint_literal. unfold u64, two64, MaxInt64 in *. lia.
  - simpl in *. unbool. by apply FormatUint_literal.
  - simpl in Hw. unbool. destruct o as [v|]; [|done]. by apply IH.
  - simpl in *. unbool. rewrite H. simpl. apply forallb_forall. intros j Hj.
    apply in_map_iff in Hj as (v & <- & Hv). apply IH; [done|].
    rewrite forallb_forall in H1. auto.
  - rewrite to_json_struct. apply has_ty_struct in Hg. simpl in Hw. unbool. clear H.
    simpl. unfold fields_json. induction Hg as [|[n t] v fs vs Hv Hg IHg]; [done|].
    inversion IH as [|? ? Ht IH']; subst. simpl in *. unbool.
    rewrite H, (Ht v) by done. simpl. by apply IHg.
Qed.

Lemma decode_to_json strict t g : wf_ty t = true → has_ty t g = true →
  decode strict t (zero t) (to_json t g) = Some g.
Proof.
  revert g. induction t as [| | | |t IH|t IH|fs IH] using ty_ind; intros g Hw Hg;
    destruct g as [s|b|z|o|nl l st|vs]; try done.
  - simpl in *. unbool. by rewrite FormatInt_parse.
  - simpl in *. unbool. by rewrite ParseUint_FormatUint.
  - simpl in Hw, Hg. unbool. destruct o as [v|]; [|done].
    change (to_json (TPtr t) (GPtr (Some v))) with (to_json t v).
    rewrite decode_ptr.
    + simpl. by rewrite IH.
    + pose proof (to_json_not_null t v H Hg) as Hn. by destruct t.
  - simpl in Hg. unbool. subst st. simpl. rewrite H. simpl.
    assert (Hel : ∀ l, forallb (has_ty t) l = true →
      (fix elems (l0 : list json) (back : list gval) {struct l0} : option (list gval) :=
         match l0 with
         | [] => Some []
         | x :: l' => match decode strict t match back with [] => zero t | b :: _ => b end x with
             | Some g => match elems l' (tail back) with Some gs => Some (g :: gs) | None => None end
             | None => None end
         end) (map (to_json t) l) [] = Some l).
    { clear -IH Hw. induction l as [|x l IHl]; [done|]. simpl. intros Hp. unbool.
      rewrite IH by done. by rewrite IHl. }
    rewrite Hel by done. destruct nl; [done|]. f_equal. f_equal.
    rewrite drop_nil. by destruct (map (to_json t) l).
  - rewrite to_json_struct, zero_struct, decode_struct. apply has_ty_struct in Hg.
    simpl in Hw. apply andb_true_iff in Hw as [Hnd Hw]. apply bool_decide_eq_true in Hnd.
    assert (HF : Forall2 (λ f v, decode strict f.2 (zero f.2) (to_json f.2 v) = Some v) fs vs).
    { clear Hnd. revert Hw IH. induction Hg as [|[n t] v fs vs Hv Hg IHg]; intros Hw IH; constructor.
      - simpl in Hw. unbool. by apply (Forall_inv IH).
      - apply IHg; [simpl in Hw; by unbool|by apply Forall_inv_tail in IH]. }
    unfold fields_json. by rewrite (decode_fields strict fs vs (λ f v, to_json f.2 v)).
Qed.

Lemma lookup_last_notin n l acc : n ∉ l.*1 →
  fold_left (λ acc (kv : string * json), if String.eqb kv.1 n then Some kv.2 else acc) l acc = acc.
Proof.
  revert acc. induction l as [|[k v] l IH]; intros acc Hn; [done|]. simpl in *.
  apply not_elem_of_cons in Hn as [Hn1 Hn2].
  destruct (String.eqb_spec k n) as [->|]; [done|]. by apply IH.
Qed.
Lemma lookup_last_at n v (l1 l2 : list (string * json)) : n ∉ l2.*1 →
  lookup_last n (l1 ++ (n, v) :: l2) = Some v.
Proof.
  intros Hn. unfold lookup_last. rewrite fold_left_app. simpl. rewrite String.eqb_refl.
  by apply lookup_last_notin.
Qed.
Lemma fields_json_fst fs vs : length fs = length vs → (fields_json fs vs).*1 = fs.*1.
Proof.
  revert vs. induction fs as [|f fs IH]; intros [|v vs] H; try discriminate; [done|].
  simpl. f_equal. apply IH. simpl in H. lia.
Qed.

(** The exact-name requirement of a struct, field by field. *)
Definition required_fields (kvs : list (string * json)) (fs : list (string * ty)) : bool :=
  forallb (λ f, match lookup_last f.1 kvs with Some v => validateRequiredJSON f.2 v | None => false end) fs.
Lemma validateRequired_struct fs kvs :
  validateRequiredJSON (TStruct fs) (JObj kvs) = required_fields kvs fs.
Proof.
  simpl. unfold required_fields. induction fs as [|[n t] fs IH]; simpl; [done|].
  rewrite IH. by destruct (lookup_last n kvs).
Qed.

Lemma validateRequired_to_json t g : wf_ty t = true → has_ty t g = true →
  validateRequiredJSON t (to_json t g) = true.
Proof.
  revert g. induction t as [| | | |t IH|t IH|fs IH] using ty_ind; intros g Hw Hg;
    destruct g as [s|b|z|o|nl l st|vs]; try done.
  - simpl in Hw, Hg. unbool. destruct o as [v|]; [|done].
    change (to_json (TPtr t) (GPtr (Some v))) with (to_json t v).
    pose proof (IH v H Hg) as Hr. simpl. by destruct (to_json t v).
  - simpl in *. unbool. rewrite H. simpl. apply forallb_forall. intros j Hj.
    apply in_map_iff in Hj as (v & <- & Hv). apply IH; [done|].
    rewrite forallb_forall in H1. auto.
  - rewrite to_json_struct, validateRequired_struct. apply has_ty_struct in Hg.
    simpl in Hw. apply andb_true_iff in Hw as [Hnd Hw]. apply bool_decide_eq_true in Hnd.
    pose proof (Forall2_length _ _ _ Hg) as Hlen.
    unfold required_fields. apply forallb_forall. intros [n t] Hin. apply list_elem_of_In in Hin.
    apply list_elem_of_split in Hin as (fs1 & fs2 & ->).
    apply Forall2_app_inv_l in Hg as (vs1 & vs2' & Hg1 & Hg2 & ->).
    inversion Hg2 as [|? v ? vs2 Hv Hg3]; subst vs2'.
    pose proof (Forall2_length _ _ _ Hg1) as Hl1. pose proof (Forall2_length _ _ _ Hg3) as Hl3.
    apply Forall_app in IH as [_ IH]. inversion IH as [|? ? Ht _]; subst.
    rewrite forallb_app in Hw. simpl in Hw. unbool.
    unfold fields_json. rewrite zip_with_app by done. simpl.
    rewrite lookup_last_at; [by apply Ht|].
    fold (fields_json fs2 vs2). rewrite fields_json_fst by done.
    rewrite fmap_app, NoDup_app in Hnd. destruct Hnd as (_ & _ & Hnd). simpl in Hnd.
    by apply NoDup_cons in Hnd as [? _].
Qed.

Lemma ty_depth_pos t : 1 <= ty_depth t.
Proof.
  induction t as [| | | |t IH|t IH|fs IH] using ty_ind; simpl; try lia.
  enough (0 <= foldr (λ f n, Z.max (ty_depth f.2) n) 0 fs) by lia.
  clear. induction fs; simpl; lia.
Qed.
Lemma validateJSONValue_depth_le d j : 
  validateJSONValue d j = true → d <= 32.
Proof. destruct j; simpl; intros H; unbool; lia. Qed.

Lemma validateJSONValue_to_json t g d : wf_ty t = true → has_ty t g = true →
  d + ty_depth t <= 33 → validateJSONValue d (to_json t g) = true.
Proof.
  revert g d. induction t as [| | | |t IH|t IH|fs IH] using ty_ind; intros g d Hw Hg Hd;
    pose proof (ty_depth_pos (TStruct [])) as _.
  1-4: destruct g; try done; simpl in *; (destruct (Z.leb_spec d 32); [done|lia]).
  - destruct g as [s|b|z|o|nl l st|vs]; try done. simpl in Hw, Hg, Hd. unbool.
    destruct o as [v|]; [by apply IH|]. simpl. pose proof (ty_depth_pos t).
    destruct (Z.leb_spec d 32); [done|lia].
  - destruct g as [s|b|z|o|nl l st|vs]; try done. simpl in Hw, Hg, Hd. unbool. simpl. rewrite H.
    pose proof (ty_depth_pos t). simpl. destruct (Z.leb_spec d 32); [|lia]. simpl.
    apply forallb_forall. intros j Hj.
    apply in_map_iff in Hj as (v & <- & Hv). apply IH; [done| |lia].
    rewrite forallb_forall in H1. auto.
  - destruct g as [s|b|z|o|nl l st|vs]; try done.
    rewrite to_json_struct. apply has_ty_struct in Hg.
    simpl in Hw. apply andb_true_iff in Hw as [Hnd Hw]. apply bool_decide_eq_true in Hnd.
    pose proof (Forall2_length _ _ _ Hg) as Hlen. simpl in Hd.
    assert (Hpos : 0 <= foldr (λ f n, Z.max (ty_depth f.2) n) 0 fs)
      by (clear; induction fs; simpl; lia).
    simpl. destruct (Z.leb_spec d 32); [|lia]. simpl.
    rewrite fields_json_fst by done. rewrite bool_decide_eq_true_2 by done. simpl.
    clear Hnd Hlen. revert Hd Hpos Hw IH. induction Hg as [|[n t] v fs vs Hv Hg IHg];
      intros Hd Hpos Hw IH; [done|].
    inversion IH as [|? ? Ht IH']; subst. simpl in Hd, Hpos, Hw, Hv. unbool. simpl.
    assert (0 <= foldr (λ f n, Z.max (ty_depth f.2) n) 0 fs)
      by (clear; induction fs; simpl; lia).
    simpl in Ht. rewrite (Ht v (d + 1)) by (done || lia). simpl. apply IHg; [lia|done..].
Qed.

(** ** The codec round trip *)

Lemma plain_bytes s : plain s = true → Forall (λ b, b < 128) (bytes_list s).
Proof.
  unfold plain. rewrite forallb_forall. intros H. apply Forall_forall. intros b Hb%list_elem_of_In.
  apply H, html_safe_inv in Hb. lia.
Qed.
Definition low (s : string) : Prop := Forall (λ b, b < 128) (bytes_list s).
Lemma low_app s t : low s → low t → low (s +:+ t).
Proof. unfold low. intros. rewrite bytes_list_app. by apply Forall_app. Qed.
Lemma low_print_string s : plain s = true → low (print_string s).
Proof.
  intros H. rewrite print_string_plain by done. unfold low. simpl.
  constructor; [done|]. rewrite bytes_list_app. apply Forall_app.
  split; [by apply plain_bytes|]. by repeat constructor.
Qed.
Lemma low_print j : json_plain j = true → low (print j).
Proof.
  induction j as [|b|s|s|l IH|l IH] using json_ind; intros Hp.
  - by repeat constructor.
  - destruct b; by repeat constructor.
  - simpl in *. unfold number_literal in Hp. unbool. unfold low. apply Forall_forall.
    intros b Hb%list_elem_of_In. rewrite forallb_forall in H1. apply H1 in Hb.
    unfold number_byte, is_digit in Hb. rewrite !orb_true_iff in Hb.
    destruct Hb as [[[[[Hb|Hb]|Hb]|Hb]|Hb]|Hb]; unbool; lia.
  - by apply low_print_string.
  - rewrite print_arr. apply low_app; [by repeat constructor|]. apply low_app; [|by repeat constructor].
    simpl in Hp. induction IH as [|x l Hx IH IHl]; [constructor|].
    simpl in Hp. unbool. destruct l as [|y l]; [by apply Hx|].
    change (low (print x +:+ "," +:+ print_elems (y :: l))).
    repeat apply low_app; [by apply Hx|by repeat constructor|by apply IHl].
  - rewrite print_obj. apply low_app; [by repeat constructor|]. apply low_app; [|by repeat constructor].
    simpl in Hp. induction IH as [|[k x] l Hx IH IHl]; [constructor|].
    simpl in Hp, Hx. unbool. destruct l as [|[k' y] l].
    + change (low (print_string k +:+ ":" +:+ print x)).
      repeat apply low_app; [by apply low_print_string|by repeat constructor|by apply Hx].
    + change (low (print_string k +:+ ":" +:+ print x +:+ "," +:+ print_members ((k', y) :: l))).
      repeat apply low_app; [by apply low_print_string|by repeat constructor|by apply Hx
        |by repeat constructor|by apply IHl].
Qed.

Lemma jsize_print j : json_plain j = true → (jsize j <= 2 * String.length (print j))%nat.
Proof.
  induction j as [|b|s|s|l IH|l IH] using json_ind; intros Hp; try (simpl; lia).
  - destruct b; simpl; lia.
  - simpl in *. unfold number_literal in Hp. unbool. destruct s; [done|]. simpl. lia.
  - rewrite print_arr, jsize_arr, !length_sapp. simpl (String.length "["). simpl (String.length "]").
    enough (elems_size l <= 2 * String.length (print_elems l) + 2)%nat by lia.
    simpl in Hp. induction IH as [|x l Hx IH IHl]; [simpl; lia|].
    simpl in Hp. unbool. specialize (IHl H0). specialize (Hx H). destruct l as [|y l]; [simpl in *; lia|].
    change (print_elems (x :: y :: l)) with (print x +:+ "," +:+ print_elems (y :: l)).
    rewrite !length_sapp. simpl (String.length ","). change (elems_size (x :: y :: l))
      with (S (jsize x + elems_size (y :: l))). lia.
  - rewrite print_obj, jsize_obj, !length_sapp. simpl (String.length "{"). simpl (String.length "}").
    enough (members_size l <= 2 * String.length (print_members l) + 2)%nat by lia.
    simpl in Hp. induction IH as [|[k x] l Hx IH IHl]; [simpl; lia|].
    simpl in Hp, Hx. unbool. specialize (IHl H0). specialize (Hx H1). destruct l as [|[k' y] l].
    + change (print_members [(k, x)]) with (print_string k +:+ ":" +:+ print x).
      rewrite !length_sapp. simpl in *. lia.
    + change (print_members ((k, x) :: (k', y) :: l))
        with (print_string k +:+ ":" +:+ print x +:+ "," +:+ print_members ((k', y) :: l)).
      rewrite !length_sapp. simpl (String.length ","). simpl (String.length ":").
      change (members_size ((k, x) :: (k', y) :: l)) with (S (jsize x + members_size ((k', y) :: l))). lia.
Qed.

Lemma parse_json_print j : json_plain j = true → parse_json (print j) = Some j.
Proof.
  intros Hp. unfold parse_json.
  pose proof (parse_print j Hp "" (2 * String.length (print j) + 2)) as H.
  rewrite sapp_nil_r in H. rewrite H; [done| |done]. pose proof (jsize_print j Hp). lia.
Qed.

Lemma decodeStrict_marshal t g : wf_ty t = true → ty_depth t <= 32 → has_ty t g = true →
  decodeStrict t (marshal t g) = Some g.
Proof.
  intros Hw Hd Hg. pose proof (to_json_plain t g Hw Hg) as Hp. unfold decodeStrict, marshal.
  pose proof (print_value_head _ Hp) as Hh.
  destruct (String.eqb_spec (print (to_json t g)) "") as [E|_]; [by rewrite E in Hh|].
  unfold utf8_valid. rewrite utf8_valid_ascii by by apply low_print. simpl.
  rewrite parse_json_print, validateJSONValue_to_json, validateRequired_to_json by (done || lia).
  simpl. by apply decode_to_json.
Qed.
Lemma unmarshal_marshal t g : wf_ty t = true → has_ty t g = true →
  unmarshal t (marshal t g) = Some g.
Proof.
  intros Hw Hg. unfold unmarshal, marshal.
  rewrite parse_json_print by by apply to_json_plain. by apply decode_to_json.
Qed.
Lemma decodeStoredCanonical_marshal t g : wf_ty t = true → ty_depth t <= 32 → has_ty t g = true →
  slen (marshal t g) <= maxBodyBytes → decodeStoredCanonical t (marshal t g) = Some g.
Proof.
  intros Hw Hd Hg Hl. unfold decodeStoredCanonical.
  pose proof (print_value_head _ (to_json_plain t g Hw Hg)) as Hh. fold (marshal t g) in Hh.
  destruct (Z.eqb_spec (slen (marshal t g)) 0) as [E|_].
  { unfold slen in E. destruct (marshal t g); [done|simpl in E; lia]. }
  destruct (Z.ltb_spec maxBodyBytes (slen (marshal t g))); [lia|]. simpl.
  rewrite decodeStrict_marshal by done. by rewrite String.eqb_refl.
Qed.
