(* ===== verification/Api.v ===== *)
(** * Package api: the boundary between transport and data plane

    Models [src/runtime/internal/api/api.go]. *)

From stdpp Require Import base list strings.
From Stdlib Require Import ZArith Lia Ascii.
From S2P Require Import Prelude GoStd GoTime.
Local Open Scope Z_scope.

Record Request := {
  Method : string; Path : string; RequestID : string; Authorization : string;
  Body : string; Now : gotime }.
Record Header := { Name : string; Value : string }.
Record Response := { Status : Z; RBody : string; Headers : list Header }.
Record Error := { Code : string; Retryable : bool }.
Definition NewError (code : string) (retryable : bool) : Error := {| Code := code; Retryable := retryable |}.

#[export] Instance Header_eq_dec : EqDecision Header.
Proof. solve_decision. Defined.

(** [V1ResponseHeaders]: the frozen, ordered header artifact. *)
Definition V1ResponseHeaders (requestID : string) (bodyLength : Z) : list Header :=
  [ {| Name := "Content-Type"; Value := "application/json; charset=utf-8" |};
    {| Name := "JAT-Protocol-Version"; Value := "1" |};
    {| Name := "JAT-Request-ID"; Value := requestID |};
    {| Name := "Content-Length"; Value := FormatUint bodyLength |} ].

Definition errorStatuses : list (string * Z) :=
  [ ("invalid_request", 400); ("unsupported_protocol", 426); ("unsupported_capability", 426);
    ("unauthorized", 401); ("token_revoked", 401); ("scope_denied", 403);
    ("authenticated_device_mismatch", 403); ("rate_limited", 429); ("grant_expired", 410);
    ("grant_consumed", 410); ("enrollment_replay_mismatch", 409); ("request_id_reused", 409);
    ("generation_conflict", 409); ("generation_exhausted", 409); ("counter_conflict", 409);
    ("counter_exhausted", 409); ("revision_equivocation", 409); ("too_many_siblings", 409);
    ("limit_exceeded", 413); ("cursor_expired", 410); ("envelope_missing", 404);
    ("device_not_found", 404); ("snapshot_not_found", 404); ("snapshot_expired", 410);
    ("stale_after_collection", 409); ("zero_active_confirmation_required", 409);
    ("instance_mismatch", 409); ("server_cursor_exhausted", 507); ("internal_error", 500) ].

Definition assoc {A} (k : string) (l : list (string * A)) : option A :=
  snd <$> List.find (λ kv, String.eqb kv.1 k) l.

(** Method [Status] of [Error]. *)
Definition ErrorStatus (err : Error) : Z :=
  match assoc (Code err) errorStatuses with Some status => status | None => 500 end.

Definition errorMessages : list (string * string) :=
  [ ("invalid_request", "The request did not match protocol version 1.");
    ("unsupported_protocol", "The requested protocol version is not supported.");
    ("unsupported_capability", "A required protocol capability is unavailable.");
    ("unauthorized", "The supplied credential was not accepted.");
    ("token_revoked", "The device token has been revoked.");
    ("scope_denied", "The device token lacks the required scope.");
    ("authenticated_device_mismatch", "The request device does not match the authenticated device.");
    ("rate_limited", "The operation exceeded its rate limit.");
    ("grant_expired", "The enrollment grant has expired.");
    ("grant_consumed", "The enrollment grant has already been consumed.");
    ("enrollment_replay_mismatch", "The enrollment retry did not match the recorded enrollment.");
    ("request_id_reused", "The request identifier was reused with different bytes.");
    ("generation_conflict", "The requested generation does not match the stored generation.");
    ("generation_exhausted", "The generation has no valid successor.");
    ("counter_conflict", "The author counter did not advance exactly once.");
    ("counter_exhausted", "The author counter has no valid successor.");
    ("revision_equivocation", "A revision identifier or vector was reused with different bytes.");
    ("too_many_siblings", "The record has too many undominated siblings.");
    ("limit_exceeded", "The request exceeded a protocol limit.");
    ("cursor_expired", "The requested cursor is no longer retained.");
    ("envelope_missing", "The vault envelope is unavailable.");
    ("device_not_found", "The requested device does not exist.");
    ("snapshot_not_found", "The requested snapshot does not exist.");
    ("snapshot_expired", "The requested snapshot has expired.");
    ("stale_after_collection", "The mutation does not dominate the retained collection frontier.");
    ("zero_active_confirmation_required", "Revoking the last active device requires explicit confirmation.");
    ("instance_mismatch", "The request identity does not match this server instance.");
    ("server_cursor_exhausted", "The server change cursor has no remaining capacity.");
    ("internal_error", "The service could not complete the request.") ].

(** Method [Message] of [Error]. *)
Definition ErrorMessage (err : Error) : string :=
  match assoc (Code err) errorMessages with
  | Some message => message
  | None => "The service could not complete the request."
  end.

(** The two tables agree on their keys. *)
Lemma error_tables_agree : errorStatuses.*1 = errorMessages.*1.
Proof. reflexivity. Qed.

Lemma ErrorStatus_range err : 400 <= ErrorStatus err <= 507.
Proof.
  unfold ErrorStatus, assoc.
  destruct (List.find _ errorStatuses) as [[k v]|] eqn:E; simpl; [|lia].
  apply List.find_some in E as [Hin _].
  assert (Hall : forallb (λ kv : string * Z, (400 <=? kv.2) && (kv.2 <=? 507)) errorStatuses = true)
    by reflexivity.
  rewrite forallb_forall in Hall. specialize (Hall _ Hin). simpl in Hall. unbool. lia.
Qed.
