(* ===== verification/Wire.v ===== *)
(** * Wire structs of the store

    The JSON-tagged structs of [src/runtime/internal/store/models.go] and
    [snapshot.go] (and the anonymous device-list struct of [devices.go]), one
    record each, with the codec that [reflect] derives from their tags.  A field
    of struct [S] is [<prefix>_<GoName>].  Slices are lists; the one place where
    a nil slice reaches the encoder uses [goslice].  Pointers are options. *)

From stdpp Require Import base list strings.
From Stdlib Require Import ZArith Lia Ascii.
From S2P Require Import Prelude GoStd Json JsonFacts Api.
Local Open Scope Z_scope.

(** A Go type with its JSON description and conversions.  [of_g] is total on
    the values the decoder produces for the type. *)
Class GoJSON (A : Type) := {
  go_ty : ty;
  to_g : A → gval;
  of_g : gval → option A }.
Arguments go_ty A {_}.
Class GoJSONLaws (A : Type) `{GoJSON A} := {
  of_to_g : ∀ a : A, of_g (to_g a) = Some a;
  wf_go_ty : wf_ty (go_ty A) = true }.

#[export] Instance string_json : GoJSON string :=
  {| go_ty := TString; to_g := GStr; of_g g := match g with GStr s => Some s | _ => None end |}.
#[export] Instance bool_json : GoJSON bool :=
  {| go_ty := TBool; to_g := GBool; of_g g := match g with GBool b => Some b | _ => None end |}.
#[export] Instance int_json : GoJSON Z :=
  {| go_ty := TInt; to_g := GInt; of_g g := match g with GInt z => Some z | _ => None end |}.
#[export] Instance pointer_json {A} `{GoJSON A} : GoJSON (option A) :=
  {| go_ty := TPtr (go_ty A);
     to_g o := GPtr (to_g <$> o);
     of_g g := match g with
               | GPtr None => Some None
               | GPtr (Some v) => Some <$> of_g v
               | _ => None end |}.
#[export] Instance slice_json {A} `{GoJSON A} : GoJSON (list A) :=
  {| go_ty := TSlice (go_ty A);
     to_g l := GSlice false (map to_g l) [];
     of_g g := match g with GSlice _ l _ => mapM_opt of_g l | _ => None end |}.

(** A slice that may be nil. *)
Inductive goslice (A : Type) := NilSlice | Slice (l : list A).
Arguments NilSlice {A}.
Arguments Slice {A} l.
#[export] Instance goslice_json {A} `{GoJSON A} : GoJSON (goslice A) :=
  {| go_ty := TSlice (go_ty A);
     to_g s := match s with NilSlice => GSlice true [] [] | Slice l => GSlice false (map to_g l) [] end;
     of_g g := match g with
               | GSlice true _ _ => Some NilSlice
               | GSlice false l _ => Slice <$> mapM_opt of_g l
               | _ => None end |}.

Lemma mapM_of_to {A} `{GoJSONLaws A} (l : list A) : mapM_opt of_g (map to_g l) = Some l.
Proof. induction l as [|x l IH]; simpl; [done|]. by rewrite of_to_g, IH. Qed.

#[export] Instance string_json_laws : GoJSONLaws string.
Proof. by split. Qed.
#[export] Instance bool_json_laws : GoJSONLaws bool.
Proof. by split. Qed.
#[export] Instance int_json_laws : GoJSONLaws Z.
Proof. by split. Qed.
#[export] Instance slice_json_laws {A} `{GoJSONLaws A} : GoJSONLaws (list A).
Proof. split; [intros l; apply mapM_of_to|apply (wf_go_ty (A:=A))]. Qed.
#[export] Instance goslice_json_laws {A} `{GoJSONLaws A} : GoJSONLaws (goslice A).
Proof. split; [intros [|l]; simpl; [done|by rewrite mapM_of_to]|apply (wf_go_ty (A:=A))]. Qed.
Lemma pointer_json_laws {A} `{GoJSONLaws A} :
  match go_ty A with TPtr _ => false | _ => true end = true → GoJSONLaws (option A).
Proof.
  intros Hp. split.
  - intros [a|]; simpl; [|done]. by rewrite of_to_g.
  - change (wf_ty (go_ty A) && match go_ty A with TPtr _ => false | _ => true end = true). by rewrite wf_go_ty, Hp.
Qed.
#[export] Hint Extern 1 (GoJSONLaws (option _)) =>
  (apply pointer_json_laws; reflexivity) : typeclass_instances.

(** [marshalJSON], [decodeStrict], [json.Unmarshal] and [decodeStoredCanonical]
    at a Go type. *)
Definition marshalJSON {A} `{GoJSON A} (a : A) : string := marshal (go_ty A) (to_g a).
Definition decodeStrictAs A `{GoJSON A} (body : string) : option A :=
  match decodeStrict (go_ty A) body with Some g => of_g g | None => None end.
Definition unmarshalAs A `{GoJSON A} (body : string) : option A :=
  match unmarshal (go_ty A) body with Some g => of_g g | None => None end.
Definition decodeStoredCanonicalAs A `{GoJSON A} (body : string) : option A :=
  match decodeStoredCanonical (go_ty A) body with Some g => of_g g | None => None end.

(** Values whose strings print without escapes and whose integers are
    nonnegative [int]s. *)
Definition wire_plain {A} `{GoJSON A} (a : A) : bool := has_ty (go_ty A) (to_g a).

Section codec.
Context {A : Type} `{GoJSONLaws A}.
Lemma decodeStrictAs_marshal (a : A) : ty_depth (go_ty A) <= 32 → wire_plain a = true →
  decodeStrictAs A (marshalJSON a) = Some a.
Proof.
  intros Hd Hp. unfold decodeStrictAs, marshalJSON.
  rewrite decodeStrict_marshal by (done || apply wf_go_ty). apply of_to_g.
Qed.
Lemma unmarshalAs_marshal (a : A) : wire_plain a = true → unmarshalAs A (marshalJSON a) = Some a.
Proof.
  intros Hp. unfold unmarshalAs, marshalJSON.
  rewrite unmarshal_marshal by (done || apply wf_go_ty). apply of_to_g.
Qed.
Lemma decodeStoredCanonicalAs_marshal (a : A) : ty_depth (go_ty A) <= 32 → wire_plain a = true →
  slen (marshalJSON a) <= maxBodyBytes →
  decodeStoredCanonicalAs A (marshalJSON a) = Some a.
Proof.
  intros Hd Hp Hl. unfold decodeStoredCanonicalAs, marshalJSON.
  rewrite decodeStoredCanonical_marshal by (done || apply wf_go_ty). apply of_to_g.
Qed.
End codec.

(** ** The structs *)
Ltac solve_struct_laws :=
  split; [intros []; cbn -[of_g to_g];
          lazymatch goal with |- of_g (to_g ?a) = _ => unfold of_g at 1, to_g at 1; cbn -[of_g to_g] | _ => idtac end;
          rewrite ?of_to_g; reflexivity
         |reflexivity].

Record vectorEntry := Mk_vectorEntry {
  ve_DeviceID : string;
  ve_Counter : string }.
#[export] Instance vectorEntry_json : GoJSON vectorEntry :=
  {| go_ty := TStruct [
       ("device_id", go_ty (string));
       ("counter", go_ty (string))];
     to_g a := GStruct [to_g (a.(ve_DeviceID)); to_g (a.(ve_Counter))];
     of_g g := match g with
       | GStruct [v0; v1] =>
           match of_g (A:=string) v0, of_g (A:=string) v1 with
           | Some a0, Some a1 =>
               Some (Mk_vectorEntry a0 a1)
           | _, _ => None end
       | _ => None end |}.
#[export] Instance vectorEntry_json_laws : GoJSONLaws vectorEntry.
Proof. solve_struct_laws. Qed.

Record recordRevision := Mk_recordRevision {
  rr_RecordID : string;
  rr_RevisionID : string;
  rr_AuthorDeviceID : string;
  rr_AuthorCounter : string;
  rr_VersionVector : list vectorEntry;
  rr_CollectionWitnessAuthenticator : option string;
  rr_PayloadSchema : string;
  rr_CryptoSuite : string;
  rr_Tombstone : bool;
  rr_Nonce : string;
  rr_Ciphertext : string }.
#[export] Instance recordRevision_json : GoJSON recordRevision :=
  {| go_ty := TStruct [
       ("record_id", go_ty (string));
       ("revision_id", go_ty (string));
       ("author_device_id", go_ty (string));
       ("author_counter", go_ty (string));
       ("version_vector", go_ty (list vectorEntry));
       ("collection_witness_authenticator", go_ty (option string));
       ("payload_schema", go_ty (string));
       ("crypto_suite", go_ty (string));
       ("tombstone", go_ty (bool));
       ("nonce", go_ty (string));
       ("ciphertext", go_ty (string))];
     to_g a := GStruct [to_g (a.(rr_RecordID)); to_g (a.(rr_RevisionID)); to_g (a.(rr_AuthorDeviceID)); to_g (a.(rr_AuthorCounter)); to_g (a.(rr_VersionVector)); to_g (a.(rr_CollectionWitnessAuthenticator)); to_g (a.(rr_PayloadSchema)); to_g (a.(rr_CryptoSuite)); to_g (a.(rr_Tombstone)); to_g (a.(rr_Nonce)); to_g (a.(rr_Ciphertext))];
     of_g g := match g with
       | GStruct [v0; v1; v2; v3; v4; v5; v6; v7; v8; v9; v10] =>
           match of_g (A:=string) v0, of_g (A:=string) v1, of_g (A:=string) v2, of_g (A:=string) v3, of_g (A:=list vectorEntry) v4, of_g (A:=option string) v5, of_g (A:=string) v6, of_g (A:=string) v7, of_g (A:=bool) v8, of_g (A:=string) v9, of_g (A:=string) v10 with
           | Some a0, Some a1, Some a2, Some a3, Some a4, Some a5, Some a6, Some a7, Some a8, Some a9, Some a10 =>
               Some (Mk_recordRevision a0 a1 a2 a3 a4 a5 a6 a7 a8 a9 a10)
           | _, _, _, _, _, _, _, _, _, _, _ => None end
       | _ => None end |}.
#[export] Instance recordRevision_json_laws : GoJSONLaws recordRevision.
Proof. solve_struct_laws. Qed.

Record argon2Parameters := Mk_argon2Parameters {
  ar_Version : Z;
  ar_Salt : string;
  ar_MemoryKiB : Z;
  ar_Iterations : Z;
  ar_Parallelism : Z;
  ar_OutputLength : Z }.
#[export] Instance argon2Parameters_json : GoJSON argon2Parameters :=
  {| go_ty := TStruct [
       ("version", go_ty (Z));
       ("salt", go_ty (string));
       ("memory_kib", go_ty (Z));
       ("iterations", go_ty (Z));
       ("parallelism", go_ty (Z));
       ("output_length", go_ty (Z))];
     to_g a := GStruct [to_g (a.(ar_Version)); to_g (a.(ar_Salt)); to_g (a.(ar_MemoryKiB)); to_g (a.(ar_Iterations)); to_g (a.(ar_Parallelism)); to_g (a.(ar_OutputLength))];
     of_g g := match g with
       | GStruct [v0; v1; v2; v3; v4; v5] =>
           match of_g (A:=Z) v0, of_g (A:=string) v1, of_g (A:=Z) v2, of_g (A:=Z) v3, of_g (A:=Z) v4, of_g (A:=Z) v5 with
           | Some a0, Some a1, Some a2, Some a3, Some a4, Some a5 =>
               Some (Mk_argon2Parameters a0 a1 a2 a3 a4 a5)
           | _, _, _, _, _, _ => None end
       | _ => None end |}.
#[export] Instance argon2Parameters_json_laws : GoJSONLaws argon2Parameters.
Proof. solve_struct_laws. Qed.

Record vaultEnvelope := Mk_vaultEnvelope {
  env_ProtocolVersion : string;
  env_CryptoSuite : string;
  env_InstanceID : string;
  env_VaultID : string;
  env_EnvelopeGeneration : string;
  env_InstanceSecretGeneration : string;
  env_Mode : string;
  env_HKDFSalt : string;
  env_Argon2 : option argon2Parameters;
  env_Nonce : string;
  env_WrappedVMK : string }.
#[export] Instance vaultEnvelope_json : GoJSON vaultEnvelope :=
  {| go_ty := TStruct [
       ("protocol_version", go_ty (string));
       ("crypto_suite", go_ty (string));
       ("instance_id", go_ty (string));
       ("vault_id", go_ty (string));
       ("envelope_generation", go_ty (string));
       ("instance_secret_generation", go_ty (string));
       ("mode", go_ty (string));
       ("hkdf_salt", go_ty (string));
       ("argon2", go_ty (option argon2Parameters));
       ("nonce", go_ty (string));
       ("wrapped_vmk", go_ty (string))];
     to_g a := GStruct [to_g (a.(env_ProtocolVersion)); to_g (a.(env_CryptoSuite)); to_g (a.(env_InstanceID)); to_g (a.(env_VaultID)); to_g (a.(env_EnvelopeGeneration)); to_g (a.(env_InstanceSecretGeneration)); to_g (a.(env_Mode)); to_g (a.(env_HKDFSalt)); to_g (a.(env_Argon2)); to_g (a.(env_Nonce)); to_g (a.(env_WrappedVMK))];
     of_g g := match g with
       | GStruct [v0; v1; v2; v3; v4; v5; v6; v7; v8; v9; v10] =>
           match of_g (A:=string) v0, of_g (A:=string) v1, of_g (A:=string) v2, of_g (A:=string) v3, of_g (A:=string) v4, of_g (A:=string) v5, of_g (A:=string) v6, of_g (A:=string) v7, of_g (A:=option argon2Parameters) v8, of_g (A:=string) v9, of_g (A:=string) v10 with
           | Some a0, Some a1, Some a2, Some a3, Some a4, Some a5, Some a6, Some a7, Some a8, Some a9, Some a10 =>
               Some (Mk_vaultEnvelope a0 a1 a2 a3 a4 a5 a6 a7 a8 a9 a10)
           | _, _, _, _, _, _, _, _, _, _, _ => None end
       | _ => None end |}.
#[export] Instance vaultEnvelope_json_laws : GoJSONLaws vaultEnvelope.
Proof. solve_struct_laws. Qed.

Record device := Mk_device {
  dev_DeviceID : string;
  dev_Scopes : list string;
  dev_Status : string;
  dev_CreatedAt : string;
  dev_RevokedAt : option string;
  dev_LastSyncAt : option string;
  dev_AckCursor : string;
  dev_MaxAuthorCounter : string }.
#[export] Instance device_json : GoJSON device :=
  {| go_ty := TStruct [
       ("device_id", go_ty (string));
       ("scopes", go_ty (list string));
       ("status", go_ty (string));
       ("created_at", go_ty (string));
       ("revoked_at", go_ty (option string));
       ("last_sync_at", go_ty (option string));
       ("ack_cursor", go_ty (string));
       ("max_author_counter", go_ty (string))];
     to_g a := GStruct [to_g (a.(dev_DeviceID)); to_g (a.(dev_Scopes)); to_g (a.(dev_Status)); to_g (a.(dev_CreatedAt)); to_g (a.(dev_RevokedAt)); to_g (a.(dev_LastSyncAt)); to_g (a.(dev_AckCursor)); to_g (a.(dev_MaxAuthorCounter))];
     of_g g := match g with
       | GStruct [v0; v1; v2; v3; v4; v5; v6; v7] =>
           match of_g (A:=string) v0, of_g (A:=list string) v1, of_g (A:=string) v2, of_g (A:=string) v3, of_g (A:=option string) v4, of_g (A:=option string) v5, of_g (A:=string) v6, of_g (A:=string) v7 with
           | Some a0, Some a1, Some a2, Some a3, Some a4, Some a5, Some a6, Some a7 =>
               Some (Mk_device a0 a1 a2 a3 a4 a5 a6 a7)
           | _, _, _, _, _, _, _, _ => None end
       | _ => None end |}.
#[export] Instance device_json_laws : GoJSONLaws device.
Proof. solve_struct_laws. Qed.

Record collectionMarker := Mk_collectionMarker {
  cm_RecordID : string;
  cm_WitnessRevisionID : string;
  cm_Frontier : list vectorEntry;
  cm_CollectionWitnessAuthenticator : string;
  cm_BarrierCursor : string }.
#[export] Instance collectionMarker_json : GoJSON collectionMarker :=
  {| go_ty := TStruct [
       ("record_id", go_ty (string));
       ("witness_revision_id", go_ty (string));
       ("frontier", go_ty (list vectorEntry));
       ("collection_witness_authenticator", go_ty (string));
       ("barrier_cursor", go_ty (string))];
     to_g a := GStruct [to_g (a.(cm_RecordID)); to_g (a.(cm_WitnessRevisionID)); to_g (a.(cm_Frontier)); to_g (a.(cm_CollectionWitnessAuthenticator)); to_g (a.(cm_BarrierCursor))];
     of_g g := match g with
       | GStruct [v0; v1; v2; v3; v4] =>
           match of_g (A:=string) v0, of_g (A:=string) v1, of_g (A:=list vectorEntry) v2, of_g (A:=string) v3, of_g (A:=string) v4 with
           | Some a0, Some a1, Some a2, Some a3, Some a4 =>
               Some (Mk_collectionMarker a0 a1 a2 a3 a4)
           | _, _, _, _, _ => None end
       | _ => None end |}.
#[export] Instance collectionMarker_json_laws : GoJSONLaws collectionMarker.
Proof. solve_struct_laws. Qed.

Record change := Mk_change {
  chg_Cursor : string;
  chg_Kind : string;
  chg_ReceivedAt : string;
  chg_RecordRevision : option recordRevision;
  chg_CollectionMarker : option collectionMarker }.
#[export] Instance change_json : GoJSON change :=
  {| go_ty := TStruct [
       ("cursor", go_ty (string));
       ("kind", go_ty (string));
       ("received_at", go_ty (string));
       ("record_revision", go_ty (option recordRevision));
       ("collection_marker", go_ty (option collectionMarker))];
     to_g a := GStruct [to_g (a.(chg_Cursor)); to_g (a.(chg_Kind)); to_g (a.(chg_ReceivedAt)); to_g (a.(chg_RecordRevision)); to_g (a.(chg_CollectionMarker))];
     of_g g := match g with
       | GStruct [v0; v1; v2; v3; v4] =>
           match of_g (A:=string) v0, of_g (A:=string) v1, of_g (A:=string) v2, of_g (A:=option recordRevision) v3, of_g (A:=option collectionMarker) v4 with
           | Some a0, Some a1, Some a2, Some a3, Some a4 =>
               Some (Mk_change a0 a1 a2 a3 a4)
           | _, _, _, _, _ => None end
       | _ => None end |}.
#[export] Instance change_json_laws : GoJSONLaws change.
Proof. solve_struct_laws. Qed.

Record enrollmentRequest := Mk_enrollmentRequest {
  er_ProtocolVersion : string;
  er_EnrollmentID : string;
  er_DeviceID : string;
  er_DeviceToken : string;
  er_Scopes : list string }.
#[export] Instance enrollmentRequest_json : GoJSON enrollmentRequest :=
  {| go_ty := TStruct [
       ("protocol_version", go_ty (string));
       ("enrollment_id", go_ty (string));
       ("device_id", go_ty (string));
       ("device_token", go_ty (string));
       ("scopes", go_ty (list string))];
     to_g a := GStruct [to_g (a.(er_ProtocolVersion)); to_g (a.(er_EnrollmentID)); to_g (a.(er_DeviceID)); to_g (a.(er_DeviceToken)); to_g (a.(er_Scopes))];
     of_g g := match g with
       | GStruct [v0; v1; v2; v3; v4] =>
           match of_g (A:=string) v0, of_g (A:=string) v1, of_g (A:=string) v2, of_g (A:=string) v3, of_g (A:=list string) v4 with
           | Some a0, Some a1, Some a2, Some a3, Some a4 =>
               Some (Mk_enrollmentRequest a0 a1 a2 a3 a4)
           | _, _, _, _, _ => None end
       | _ => None end |}.
#[export] Instance enrollmentRequest_json_laws : GoJSONLaws enrollmentRequest.
Proof. solve_struct_laws. Qed.

Record enrollmentResponse := Mk_enrollmentResponse {
  ers_ProtocolVersion : string;
  ers_InstanceID : string;
  ers_VaultID : string;
  ers_Device : device;
  ers_EnvelopeGeneration : string;
  ers_BecameFirstActiveDevice : bool }.
#[export] Instance enrollmentResponse_json : GoJSON enrollmentResponse :=
  {| go_ty := TStruct [
       ("protocol_version", go_ty (string));
       ("instance_id", go_ty (string));
       ("vault_id", go_ty (string));
       ("device", go_ty (device));
       ("envelope_generation", go_ty (string));
       ("became_first_active_device", go_ty (bool))];
     to_g a := GStruct [to_g (a.(ers_ProtocolVersion)); to_g (a.(ers_InstanceID)); to_g (a.(ers_VaultID)); to_g (a.(ers_Device)); to_g (a.(ers_EnvelopeGeneration)); to_g (a.(ers_BecameFirstActiveDevice))];
     of_g g := match g with
       | GStruct [v0; v1; v2; v3; v4; v5] =>
           match of_g (A:=string) v0, of_g (A:=string) v1, of_g (A:=string) v2, of_g (A:=device) v3, of_g (A:=string) v4, of_g (A:=bool) v5 with
           | Some a0, Some a1, Some a2, Some a3, Some a4, Some a5 =>
               Some (Mk_enrollmentResponse a0 a1 a2 a3 a4 a5)
           | _, _, _, _, _, _ => None end
       | _ => None end |}.
#[export] Instance enrollmentResponse_json_laws : GoJSONLaws enrollmentResponse.
Proof. solve_struct_laws. Qed.

Record putEnvelopeRequest := Mk_putEnvelopeRequest {
  pe_ExpectedGeneration : string;
  pe_NewGeneration : string;
  pe_Envelope : vaultEnvelope }.
#[export] Instance putEnvelopeRequest_json : GoJSON putEnvelopeRequest :=
  {| go_ty := TStruct [
       ("expected_generation", go_ty (string));
       ("new_generation", go_ty (string));
       ("envelope", go_ty (vaultEnvelope))];
     to_g a := GStruct [to_g (a.(pe_ExpectedGeneration)); to_g (a.(pe_NewGeneration)); to_g (a.(pe_Envelope))];
     of_g g := match g with
       | GStruct [v0; v1; v2] =>
           match of_g (A:=string) v0, of_g (A:=string) v1, of_g (A:=vaultEnvelope) v2 with
           | Some a0, Some a1, Some a2 =>
               Some (Mk_putEnvelopeRequest a0 a1 a2)
           | _, _, _ => None end
       | _ => None end |}.
#[export] Instance putEnvelopeRequest_json_laws : GoJSONLaws putEnvelopeRequest.
Proof. solve_struct_laws. Qed.

Record syncRequest := Mk_syncRequest {
  sq_ProtocolVersion : string;
  sq_DeviceID : string;
  sq_RequestID : string;
  sq_AfterCursor : string;
  sq_AckCursor : string;
  sq_Mutations : list recordRevision }.
#[export] Instance syncRequest_json : GoJSON syncRequest :=
  {| go_ty := TStruct [
       ("protocol_version", go_ty (string));
       ("device_id", go_ty (string));
       ("request_id", go_ty (string));
       ("after_cursor", go_ty (string));
       ("ack_cursor", go_ty (string));
       ("mutations", go_ty (list recordRevision))];
     to_g a := GStruct [to_g (a.(sq_ProtocolVersion)); to_g (a.(sq_DeviceID)); to_g (a.(sq_RequestID)); to_g (a.(sq_AfterCursor)); to_g (a.(sq_AckCursor)); to_g (a.(sq_Mutations))];
     of_g g := match g with
       | GStruct [v0; v1; v2; v3; v4; v5] =>
           match of_g (A:=string) v0, of_g (A:=string) v1, of_g (A:=string) v2, of_g (A:=string) v3, of_g (A:=string) v4, of_g (A:=list recordRevision) v5 with
           | Some a0, Some a1, Some a2, Some a3, Some a4, Some a5 =>
               Some (Mk_syncRequest a0 a1 a2 a3 a4 a5)
           | _, _, _, _, _, _ => None end
       | _ => None end |}.
#[export] Instance syncRequest_json_laws : GoJSONLaws syncRequest.
Proof. solve_struct_laws. Qed.

Record syncResponse := Mk_syncResponse {
  ss_ProtocolVersion : string;
  ss_ServerCursor : string;
  ss_NextCursor : string;
  ss_HasMore : bool;
  ss_EnvelopeGeneration : string;
  ss_Changes : list change }.
#[export] Instance syncResponse_json : GoJSON syncResponse :=
  {| go_ty := TStruct [
       ("protocol_version", go_ty (string));
       ("server_cursor", go_ty (string));
       ("next_cursor", go_ty (string));
       ("has_more", go_ty (bool));
       ("envelope_generation", go_ty (string));
       ("changes", go_ty (list change))];
     to_g a := GStruct [to_g (a.(ss_ProtocolVersion)); to_g (a.(ss_ServerCursor)); to_g (a.(ss_NextCursor)); to_g (a.(ss_HasMore)); to_g (a.(ss_EnvelopeGeneration)); to_g (a.(ss_Changes))];
     of_g g := match g with
       | GStruct [v0; v1; v2; v3; v4; v5] =>
           match of_g (A:=string) v0, of_g (A:=string) v1, of_g (A:=string) v2, of_g (A:=bool) v3, of_g (A:=string) v4, of_g (A:=list change) v5 with
           | Some a0, Some a1, Some a2, Some a3, Some a4, Some a5 =>
               Some (Mk_syncResponse a0 a1 a2 a3 a4 a5)
           | _, _, _, _, _, _ => None end
       | _ => None end |}.
#[export] Instance syncResponse_json_laws : GoJSONLaws syncResponse.
Proof. solve_struct_laws. Qed.

Record snapshotCreateRequest := Mk_snapshotCreateRequest {
  sc_ProtocolVersion : string;
  sc_DeviceID : string;
  sc_RequestID : string;
  sc_RequiredCapabilities : list string }.
#[export] Instance snapshotCreateRequest_json : GoJSON snapshotCreateRequest :=
  {| go_ty := TStruct [
       ("protocol_version", go_ty (string));
       ("device_id", go_ty (string));
       ("request_id", go_ty (string));
       ("required_capabilities", go_ty (list string))];
     to_g a := GStruct [to_g (a.(sc_ProtocolVersion)); to_g (a.(sc_DeviceID)); to_g (a.(sc_RequestID)); to_g (a.(sc_RequiredCapabilities))];
     of_g g := match g with
       | GStruct [v0; v1; v2; v3] =>
           match of_g (A:=string) v0, of_g (A:=string) v1, of_g (A:=string) v2, of_g (A:=list string) v3 with
           | Some a0, Some a1, Some a2, Some a3 =>
               Some (Mk_snapshotCreateRequest a0 a1 a2 a3)
           | _, _, _, _ => None end
       | _ => None end |}.
#[export] Instance snapshotCreateRequest_json_laws : GoJSONLaws snapshotCreateRequest.
Proof. solve_struct_laws. Qed.

Record snapshotCreateResponse := Mk_snapshotCreateResponse {
  scr_ProtocolVersion : string;
  scr_SnapshotID : string;
  scr_CutCursor : string;
  scr_EnvelopeGeneration : string;
  scr_Envelope : vaultEnvelope;
  scr_ExpiresAt : string;
  scr_FirstPageToken : string }.
#[export] Instance snapshotCreateResponse_json : GoJSON snapshotCreateResponse :=
  {| go_ty := TStruct [
       ("protocol_version", go_ty (string));
       ("snapshot_id", go_ty (string));
       ("cut_cursor", go_ty (string));
       ("envelope_generation", go_ty (string));
       ("envelope", go_ty (vaultEnvelope));
       ("expires_at", go_ty (string));
       ("first_page_token", go_ty (string))];
     to_g a := GStruct [to_g (a.(scr_ProtocolVersion)); to_g (a.(scr_SnapshotID)); to_g (a.(scr_CutCursor)); to_g (a.(scr_EnvelopeGeneration)); to_g (a.(scr_Envelope)); to_g (a.(scr_ExpiresAt)); to_g (a.(scr_FirstPageToken))];
     of_g g := match g with
       | GStruct [v0; v1; v2; v3; v4; v5; v6] =>
           match of_g (A:=string) v0, of_g (A:=string) v1, of_g (A:=string) v2, of_g (A:=string) v3, of_g (A:=vaultEnvelope) v4, of_g (A:=string) v5, of_g (A:=string) v6 with
           | Some a0, Some a1, Some a2, Some a3, Some a4, Some a5, Some a6 =>
               Some (Mk_snapshotCreateResponse a0 a1 a2 a3 a4 a5 a6)
           | _, _, _, _, _, _, _ => None end
       | _ => None end |}.
#[export] Instance snapshotCreateResponse_json_laws : GoJSONLaws snapshotCreateResponse.
Proof. solve_struct_laws. Qed.

Record snapshotPageRequest := Mk_snapshotPageRequest {
  sp_ProtocolVersion : string;
  sp_DeviceID : string;
  sp_PageToken : string }.
#[export] Instance snapshotPageRequest_json : GoJSON snapshotPageRequest :=
  {| go_ty := TStruct [
       ("protocol_version", go_ty (string));
       ("device_id", go_ty (string));
       ("page_token", go_ty (string))];
     to_g a := GStruct [to_g (a.(sp_ProtocolVersion)); to_g (a.(sp_DeviceID)); to_g (a.(sp_PageToken))];
     of_g g := match g with
       | GStruct [v0; v1; v2] =>
           match of_g (A:=string) v0, of_g (A:=string) v1, of_g (A:=string) v2 with
           | Some a0, Some a1, Some a2 =>
               Some (Mk_snapshotPageRequest a0 a1 a2)
           | _, _, _ => None end
       | _ => None end |}.
#[export] Instance snapshotPageRequest_json_laws : GoJSONLaws snapshotPageRequest.
Proof. solve_struct_laws. Qed.

Record sourceDevice := Mk_sourceDevice {
  sd_DeviceID : string;
  sd_MaxAuthorCounter : string }.
#[export] Instance sourceDevice_json : GoJSON sourceDevice :=
  {| go_ty := TStruct [
       ("device_id", go_ty (string));
       ("max_author_counter", go_ty (string))];
     to_g a := GStruct [to_g (a.(sd_DeviceID)); to_g (a.(sd_MaxAuthorCounter))];
     of_g g := match g with
       | GStruct [v0; v1] =>
           match of_g (A:=string) v0, of_g (A:=string) v1 with
           | Some a0, Some a1 =>
               Some (Mk_sourceDevice a0 a1)
           | _, _ => None end
       | _ => None end |}.
#[export] Instance sourceDevice_json_laws : GoJSONLaws sourceDevice.
Proof. solve_struct_laws. Qed.

Record snapshotPageResponse := Mk_snapshotPageResponse {
  spr_ProtocolVersion : string;
  spr_SnapshotID : string;
  spr_CutCursor : string;
  spr_EnvelopeGeneration : string;
  spr_Revisions : goslice recordRevision;
  spr_CollectionMarkers : list collectionMarker;
  spr_SourceDevices : list sourceDevice;
  spr_NextPageToken : option string;
  spr_HasMore : bool }.
#[export] Instance snapshotPageResponse_json : GoJSON snapshotPageResponse :=
  {| go_ty := TStruct [
       ("protocol_version", go_ty (string));
       ("snapshot_id", go_ty (string));
       ("cut_cursor", go_ty (string));
       ("envelope_generation", go_ty (string));
       ("revisions", go_ty (goslice recordRevision));
       ("collection_markers", go_ty (list collectionMarker));
       ("source_devices", go_ty (list sourceDevice));
       ("next_page_token", go_ty (option string));
       ("has_more", go_ty (bool))];
     to_g a := GStruct [to_g (a.(spr_ProtocolVersion)); to_g (a.(spr_SnapshotID)); to_g (a.(spr_CutCursor)); to_g (a.(spr_EnvelopeGeneration)); to_g (a.(spr_Revisions)); to_g (a.(spr_CollectionMarkers)); to_g (a.(spr_SourceDevices)); to_g (a.(spr_NextPageToken)); to_g (a.(spr_HasMore))];
     of_g g := match g with
       | GStruct [v0; v1; v2; v3; v4; v5; v6; v7; v8] =>
           match of_g (A:=string) v0, of_g (A:=string) v1, of_g (A:=string) v2, of_g (A:=string) v3, of_g (A:=goslice recordRevision) v4, of_g (A:=list collectionMarker) v5, of_g (A:=list sourceDevice) v6, of_g (A:=option string) v7, of_g (A:=bool) v8 with
           | Some a0, Some a1, Some a2, Some a3, Some a4, Some a5, Some a6, Some a7, Some a8 =>
               Some (Mk_snapshotPageResponse a0 a1 a2 a3 a4 a5 a6 a7 a8)
           | _, _, _, _, _, _, _, _, _ => None end
       | _ => None end |}.
#[export] Instance snapshotPageResponse_json_laws : GoJSONLaws snapshotPageResponse.
Proof. solve_struct_laws. Qed.

Record revokeDeviceRequest := Mk_revokeDeviceRequest {
  rv_RequestID : string;
  rv_AllowZeroActive : bool }.
#[export] Instance revokeDeviceRequest_json : GoJSON revokeDeviceRequest :=
  {| go_ty := TStruct [
       ("request_id", go_ty (string));
       ("allow_zero_active", go_ty (bool))];
     to_g a := GStruct [to_g (a.(rv_RequestID)); to_g (a.(rv_AllowZeroActive))];
     of_g g := match g with
       | GStruct [v0; v1] =>
           match of_g (A:=string) v0, of_g (A:=bool) v1 with
           | Some a0, Some a1 =>
               Some (Mk_revokeDeviceRequest a0 a1)
           | _, _ => None end
       | _ => None end |}.
#[export] Instance revokeDeviceRequest_json_laws : GoJSONLaws revokeDeviceRequest.
Proof. solve_struct_laws. Qed.

Record tokenRotationRequest := Mk_tokenRotationRequest {
  tr_RotationID : string;
  tr_DeviceID : string;
  tr_NewDeviceToken : string }.
#[export] Instance tokenRotationRequest_json : GoJSON tokenRotationRequest :=
  {| go_ty := TStruct [
       ("rotation_id", go_ty (string));
       ("device_id", go_ty (string));
       ("new_device_token", go_ty (string))];
     to_g a := GStruct [to_g (a.(tr_RotationID)); to_g (a.(tr_DeviceID)); to_g (a.(tr_NewDeviceToken))];
     of_g g := match g with
       | GStruct [v0; v1; v2] =>
           match of_g (A:=string) v0, of_g (A:=string) v1, of_g (A:=string) v2 with
           | Some a0, Some a1, Some a2 =>
               Some (Mk_tokenRotationRequest a0 a1 a2)
           | _, _, _ => None end
       | _ => None end |}.
#[export] Instance tokenRotationRequest_json_laws : GoJSONLaws tokenRotationRequest.
Proof. solve_struct_laws. Qed.

Record snapshotPageDescriptor := Mk_snapshotPageDescriptor {
  pd_RevisionIDs : list string;
  pd_CollectionMarkers : list collectionMarker;
  pd_SourceDevices : list sourceDevice;
  pd_NextPageToken : option string;
  pd_HasMore : bool }.
#[export] Instance snapshotPageDescriptor_json : GoJSON snapshotPageDescriptor :=
  {| go_ty := TStruct [
       ("revision_ids", go_ty (list string));
       ("collection_markers", go_ty (list collectionMarker));
       ("source_devices", go_ty (list sourceDevice));
       ("next_page_token", go_ty (option string));
       ("has_more", go_ty (bool))];
     to_g a := GStruct [to_g (a.(pd_RevisionIDs)); to_g (a.(pd_CollectionMarkers)); to_g (a.(pd_SourceDevices)); to_g (a.(pd_NextPageToken)); to_g (a.(pd_HasMore))];
     of_g g := match g with
       | GStruct [v0; v1; v2; v3; v4] =>
           match of_g (A:=list string) v0, of_g (A:=list collectionMarker) v1, of_g (A:=list sourceDevice) v2, of_g (A:=option string) v3, of_g (A:=bool) v4 with
           | Some a0, Some a1, Some a2, Some a3, Some a4 =>
               Some (Mk_snapshotPageDescriptor a0 a1 a2 a3 a4)
           | _, _, _, _, _ => None end
       | _ => None end |}.
#[export] Instance snapshotPageDescriptor_json_laws : GoJSONLaws snapshotPageDescriptor.
Proof. solve_struct_laws. Qed.

Record deviceList := Mk_deviceList {
  dl_Devices : list device }.
#[export] Instance deviceList_json : GoJSON deviceList :=
  {| go_ty := TStruct [
       ("devices", go_ty (list device))];
     to_g a := GStruct [to_g (a.(dl_Devices))];
     of_g g := match g with
       | GStruct [v0] =>
           match of_g (A:=list device) v0 with
           | Some a0 =>
               Some (Mk_deviceList a0)
           | _ => None end
       | _ => None end |}.
#[export] Instance deviceList_json_laws : GoJSONLaws deviceList.
Proof. solve_struct_laws. Qed.
