(* ===== verification/Indent.v ===== *)
(** * Indented JSON: json.MarshalIndent and json.Decoder

    Configuration files are written with [json.MarshalIndent(value, "", "  ")] and a
    final line feed, and read back by a decoder that refuses unknown fields and
    anything after the first value ([writeJSONAtomic] and [readStrictJSON] of
    [src/runtime/internal/config/config.go]). *)

From stdpp Require Import base list strings.
From Stdlib Require Import ZArith Lia Ascii.
From Stdlib Require String.
From S2P Require Import Prelude GoStd Json JsonFacts Api Wire.
Local Open Scope Z_scope.

Fixpoint blanks (n : nat) : string := match n with O => "" | S n' => "  " +:+ blanks n' end.
Definition newline : string := String (chrZ 10) "".
Definition line_at (depth : nat) : string := newline +:+ blanks depth.

(** Each element or member on a line of its own, two blanks per level; empty
    arrays and objects stay closed. *)
Fixpoint indent (depth : nat) (j : json) : string :=
  match j with
  | JArr ((_ :: _) as l) =>
      "[" +:+ (fix elems l := match l with
        | [] => ""
        | [x] => line_at (S depth) +:+ indent (S depth) x
        | x :: l' => line_at (S depth) +:+ indent (S depth) x +:+ "," +:+ elems l'
        end) l +:+ line_at depth +:+ "]"
  | JObj ((_ :: _) as l) =>
      "{" +:+ (fix members l := match l with
        | [] => ""
        | [(k, x)] => line_at (S depth) +:+ print_string k +:+ ":" +:+ " " +:+ indent (S depth) x
        | (k, x) :: l' =>
            line_at (S depth) +:+ print_string k +:+ ":" +:+ " " +:+ indent (S depth) x +:+ "," +:+ members l'
        end) l +:+ line_at depth +:+ "}"
  | _ => print j
  end.

(** [writeJSONAtomic]'s payload. *)
Definition indentedJSON {A} `{GoJSON A} (a : A) : string := indent 0 (to_json (go_ty A) (to_g a)) +:+ newline.
(** [readStrictJSON]'s decoding of a payload. *)
Definition decodeStrictStream A `{GoJSON A} (payload : string) : option A :=
  match parse_json payload with
  | Some j => match decode true (go_ty A) (zero (go_ty A)) j with Some g => of_g g | None => None end
  | None => None
  end.

(** ** Round trip *)
Definition indent_elems (depth : nat) : list json → string :=
  fix elems l := match l with
  | [] => ""
  | [x] => line_at depth +:+ indent depth x
  | x :: l' => line_at depth +:+ indent depth x +:+ "," +:+ elems l'
  end.
Definition indent_members (depth : nat) : list (string * json) → string :=
  fix members l := match l with
  | [] => ""
  | [(k, x)] => line_at depth +:+ print_string k +:+ ":" +:+ " " +:+ indent depth x
  | (k, x) :: l' =>
      line_at depth +:+ print_string k +:+ ":" +:+ " " +:+ indent depth x +:+ "," +:+ members l'
  end.
Lemma indent_arr depth x l :
  indent depth (JArr (x :: l)) = "[" +:+ indent_elems (S depth) (x :: l) +:+ line_at depth +:+ "]".
Proof. reflexivity. Qed.
Lemma indent_obj depth kx l :
  indent depth (JObj (kx :: l)) = "{" +:+ indent_members (S depth) (kx :: l) +:+ line_at depth +:+ "}".
Proof. reflexivity. Qed.

Lemma skip_blanks n s : skip_ws (blanks n +:+ s) = skip_ws s.
Proof. induction n as [|n IH]; [done|]. simpl blanks. rewrite sapp_assoc. apply IH. Qed.
Lemma skip_line n s : skip_ws (line_at n +:+ s) = skip_ws s.
Proof. unfold line_at. rewrite sapp_assoc. apply skip_blanks. Qed.

(** The parsers see through white space. *)
Lemma parse_value_skip f s t : skip_ws s = skip_ws t → parse_value f s = parse_value f t.
Proof. destruct f as [|f]; [done|]. intros H. cbn -[skip_ws]. by rewrite H. Qed.
Lemma parse_value_blank f s : parse_value f (" " +:+ s) = parse_value f s.
Proof. by apply parse_value_skip. Qed.
Lemma parse_elems_skip f s t : skip_ws s = skip_ws t → parse_elems f s = parse_elems f t.
Proof. destruct f as [|f]; [done|]. intros H. cbn -[skip_ws parse_value]. by rewrite (parse_value_skip f s t). Qed.
Lemma parse_members_skip f s t : skip_ws s = skip_ws t → parse_members f s = parse_members f t.
Proof. destruct f as [|f]; [done|]. intros H. cbn -[skip_ws parse_value]. by rewrite H. Qed.

Lemma indent_value_head depth j : json_plain j = true → value_head (indent depth j) = true.
Proof.
  intros H. destruct j as [|b|s|s|[|x l]|[|x l]]; try done; by apply print_value_head in H.
Qed.

Lemma stops_line n s : stops (line_at n +:+ s) = true.
Proof. done. Qed.

(** What [parse_indent] says of one value, for every depth and continuation. *)
Definition reparsed (j : json) : Prop :=
  json_plain j = true → ∀ depth rest fuel, (jsize j <= fuel)%nat → stops rest = true →
  parse_value fuel (indent depth j +:+ rest) = Some (j, rest).

Lemma parse_indent_elems depth rest l : ∀ x f, Forall reparsed (x :: l) →
  forallb json_plain (x :: l) = true → (elems_size (x :: l) <= f)%nat →
  parse_elems f (indent_elems (S depth) (x :: l) +:+ line_at depth +:+ String "]" rest) = Some (x :: l, rest).
Proof.
  induction l as [|y l IH]; intros x f HF Hp Hf;
    (destruct f as [|f]; [simpl in Hf; lia|]); inversion HF as [|? ? Hx HF']; subst;
    simpl in Hp; apply andb_true_iff in Hp as [Hpx Hpl]; simpl in Hf.
  - change (indent_elems (S depth) [x]) with (line_at (S depth) +:+ indent (S depth) x).
    rewrite sapp_assoc, (parse_elems_skip _ _ _ (skip_line _ _)).
    erewrite parse_elems_one; [|apply Hx; [done|lia|apply stops_line]|rewrite skip_line; done]. done.
  - change (indent_elems (S depth) (x :: y :: l))
      with (line_at (S depth) +:+ indent (S depth) x +:+ "," +:+ indent_elems (S depth) (y :: l)).
    rewrite !sapp_assoc, (parse_elems_skip _ _ _ (skip_line _ _)).
    erewrite parse_elems_one; [|apply Hx; [done|lia|done]|done].
    change (byteZ "," =? 93) with false. change (byteZ "," =? 44) with true. cbv iota.
    change ("" +:+ ?s) with s. rewrite IH; [done|done|done|simpl; lia].
Qed.
Lemma parse_indent_members depth rest l : ∀ k x f, Forall (λ kv, reparsed kv.2) ((k, x) :: l) →
  forallb (λ kv, plain kv.1 && json_plain kv.2) ((k, x) :: l) = true → (members_size ((k, x) :: l) <= f)%nat →
  parse_members f (indent_members (S depth) ((k, x) :: l) +:+ line_at depth +:+ String "}" rest) =
    Some ((k, x) :: l, rest).
Proof.
  induction l as [|[k' y] l IH]; intros k x f HF Hp Hf;
    (destruct f as [|f]; [simpl in Hf; lia|]); inversion HF as [|? ? Hx HF']; subst;
    simpl in Hp; apply andb_true_iff in Hp as [Hpx Hpl];
    apply andb_true_iff in Hpx as [Hk Hpx]; simpl in Hf, Hx.
  - change (indent_members (S depth) [(k, x)])
      with (line_at (S depth) +:+ print_string k +:+ ":" +:+ " " +:+ indent (S depth) x).
    rewrite !sapp_assoc, (parse_members_skip _ _ _ (skip_line _ _)).
    erewrite parse_members_one;
      [|done|rewrite parse_value_blank; apply Hx; [done|lia|apply stops_line]|rewrite skip_line; done].
    done.
  - change (indent_members (S depth) ((k, x) :: (k', y) :: l))
      with (line_at (S depth) +:+ print_string k +:+ ":" +:+ " " +:+ indent (S depth) x +:+ ","
            +:+ indent_members (S depth) ((k', y) :: l)).
    rewrite !sapp_assoc, (parse_members_skip _ _ _ (skip_line _ _)).
    erewrite parse_members_one;
      [|done|rewrite parse_value_blank; apply Hx; [done|lia|done]|done].
    change (byteZ "," =? 125) with false. change (byteZ "," =? 44) with true. cbv iota.
    change ("" +:+ ?s) with s. rewrite IH; [done|done|done|simpl; lia].
Qed.

Lemma parse_indent j : reparsed j.
Proof.
  induction j as [|b|s|s|l IH|l IH] using json_ind; intros Hp depth rest fuel Hf Hst;
    try (by apply parse_print).
  - destruct l as [|x l]; [by apply parse_print|]. destruct fuel as [|f]; [simpl in Hf; lia|].
    rewrite jsize_arr in Hf. rewrite indent_arr, !sapp_assoc, sapp_cons.
    change ("" +:+ ?s) with s. change ("]" +:+ ?s) with (String "]" s).
    simpl json_plain in Hp. pose proof Hp as Hp'. apply andb_true_iff in Hp' as [Hx _].
    rewrite parse_value_arr.
    2:{ destruct l; simpl indent_elems; rewrite !sapp_assoc, skip_line;
        by apply value_head_ws, value_head_app, indent_value_head. }
    rewrite parse_indent_elems; [done|exact IH|exact Hp|lia].
  - destruct l as [|[k x] l]; [by apply parse_print|]. destruct fuel as [|f]; [simpl in Hf; lia|].
    rewrite jsize_obj in Hf. rewrite indent_obj, !sapp_assoc, sapp_cons.
    change ("" +:+ ?s) with s. change ("}" +:+ ?s) with (String "}" s).
    rewrite parse_value_obj by (destruct l as [|[??]]; simpl indent_members; rewrite !sapp_assoc, skip_line; done).
    rewrite parse_indent_members; [done|exact IH|exact Hp|lia].
Qed.

Lemma length_print_indent depth j : (String.length (print j) <= String.length (indent depth j))%nat.
Proof.
  revert depth. induction j as [|b|s|s|l IH|l IH] using json_ind; intros depth; try done.
  - destruct l as [|x l]; [done|]. rewrite print_arr, indent_arr, !length_sapp.
    enough (String.length (print_elems (x :: l)) <= String.length (indent_elems (S depth) (x :: l)))%nat by lia.
    revert IH. generalize (x :: l). clear. intros l HF. induction HF as [|x l Hx HF IH]; [done|].
    specialize (Hx (S depth)). destruct l as [|y l].
    + change (indent_elems (S depth) [x]) with (line_at (S depth) +:+ indent (S depth) x).
      rewrite length_sapp. change (print_elems [x]) with (print x). lia.
    + change (indent_elems (S depth) (x :: y :: l))
        with (line_at (S depth) +:+ indent (S depth) x +:+ "," +:+ indent_elems (S depth) (y :: l)).
      change (print_elems (x :: y :: l)) with (print x +:+ "," +:+ print_elems (y :: l)).
      rewrite !length_sapp. lia.
  - destruct l as [|kx l]; [done|]. rewrite print_obj, indent_obj, !length_sapp.
    enough (String.length (print_members (kx :: l)) <= String.length (indent_members (S depth) (kx :: l)))%nat by lia.
    revert IH. generalize (kx :: l). clear. intros l HF. induction HF as [|[k x] l Hx HF IH]; [done|].
    simpl in Hx. specialize (Hx (S depth)). destruct l as [|[k' y] l].
    + change (indent_members (S depth) [(k, x)])
        with (line_at (S depth) +:+ print_string k +:+ ":" +:+ " " +:+ indent (S depth) x).
      change (print_members [(k, x)]) with (print_string k +:+ ":" +:+ print x). rewrite !length_sapp. lia.
    + change (indent_members (S depth) ((k, x) :: (k', y) :: l))
        with (line_at (S depth) +:+ print_string k +:+ ":" +:+ " " +:+ indent (S depth) x +:+ ","
              +:+ indent_members (S depth) ((k', y) :: l)).
      change (print_members ((k, x) :: (k', y) :: l))
        with (print_string k +:+ ":" +:+ print x +:+ "," +:+ print_members ((k', y) :: l)).
      rewrite !length_sapp. lia.
Qed.

(** A written configuration value is read back as it was. *)
Lemma decodeStrictStream_indented {A} `{GoJSONLaws A} (a : A) :
  wire_plain a = true → decodeStrictStream A (indentedJSON a) = Some a.
Proof.
  intros Hp. unfold decodeStrictStream, indentedJSON, parse_json.
  pose proof (to_json_plain _ _ (wf_go_ty (A:=A)) Hp) as Hj.
  rewrite parse_indent; [|done| |done].
  - change (String.eqb (skip_ws newline) "") with true. cbv iota.
    rewrite decode_to_json by (done || apply wf_go_ty). apply of_to_g.
  - rewrite length_sapp. pose proof (jsize_print _ Hj).
    pose proof (length_print_indent 0 (to_json (go_ty A) (to_g a))). lia.
Qed.
