(* ===== verification/Models.v ===== *)
(** * Validation of wire values

    The validators of [src/runtime/internal/store/models.go] and the bounds of
    [bounds.go].  A validator that returns [(values, error)] returns an option;
    one that returns only [error] returns [bool] (true for nil).  Version
    vectors are finite maps from device identifier to counter. *)

From stdpp Require Import base list strings gmap.
From Stdlib Require Import ZArith Lia Ascii.
From S2P Require Import Prelude GoStd GoTime Uuid Auth Json Wire.
Local Open Scope Z_scope.
Local Open Scope go_scope.

Definition ProtocolMajor : string := "1".
Definition cryptoSuite : string := "jat-xchacha-hkdf-argon2id-draft2".
Definition maxMutations : nat := 256.
Definition maxChanges : nat := 128.
Definition requiredSnapshotCapabilities : list string :=
  ["authenticated-collection-frontiers-v2"; "snapshot-collection-markers-v1";
   "snapshot-device-registry-v1"; "snapshot-read-v1"].

(** bounds.go *)
Definition maxUUIDBytes : Z := 36.
Definition maxOperationBytes : Z := slen "device-revocation/" + maxUUIDBytes.
Definition maxVectorEntries : nat := 64.
(** Length of the longest vector entry: the two keys, a 36-byte identifier, a
    20-digit counter and eleven punctuation bytes. *)
Definition maxVectorEntryText : string :=
  print (JObj [("device_id", JStr "00000000-0000-4000-8000-000000000000");
               ("counter", JStr "18446744073709551615")]).
Definition maxVectorBytes : Z :=
  2 + Z.of_nat maxVectorEntries * slen maxVectorEntryText + Z.of_nat maxVectorEntries - 1.

Record Identity := { InstanceID : string; VaultID : string }.

Abbreviation version_vector := (gmap string Z).
Definition counter_of (v : version_vector) (d : string) : Z := default 0 (v !! d).

Definition parseUint64 (value : string) : option Z :=
  match ParseUint value with
  | Some parsed => if String.eqb (FormatUint parsed) value then Some parsed else None
  | None => None
  end.
Definition encodeUint64Text (value : Z) : string := FormatUint value.

(** [exactBytes < 0] selects the range check, as in the source. *)
Definition decodeBase64 (value : string) (exactBytes minimumBytes maximumBytes : Z) : option string :=
  match b64_decode value with
  | None => None
  | Some decoded =>
      let n := Z.of_nat (length decoded) in
      if negb (String.eqb (b64_encode decoded) value) then None
      else if (0 <=? exactBytes) && negb (n =? exactBytes) then None
      else if (exactBytes <? 0) && ((n <? minimumBytes) || (maximumBytes <? n)) then None
      else Some (of_bytes decoded)
  end.
Definition base64_ok (value : string) (n : Z) : bool :=
  match decodeBase64 value n 0 0 with Some _ => true | None => false end.
(** [base64.RawURLEncoding.EncodeToString]. *)
Definition encodeBase64 (value : string) : string := b64_encode (bytes_list value).

Definition validateUUID (value : string) : bool := valid_uuid value.

Fixpoint validateVector_loop (previous : option (list Z)) (values : version_vector)
    (vector : list vectorEntry) : option version_vector :=
  match vector with
  | [] => Some values
  | entry :: rest =>
      match Parse (ve_DeviceID entry) with
      | None => None
      | Some identifier =>
          let ordered := match previous with
                         | None => true
                         | Some p => sltb (of_bytes p) (of_bytes identifier) end in
          match ordered, parseUint64 (ve_Counter entry) with
          | true, Some counter =>
              if counter =? 0 then None
              else validateVector_loop (Some identifier) (<[ve_DeviceID entry := counter]> values) rest
          | _, _ => None
          end
      end
  end.
Definition validateVector (vector : list vectorEntry) : option version_vector :=
  if (length vector =? 0)%nat || (maxVectorEntries <? length vector)%nat then None
  else validateVector_loop None ∅ vector.

Definition validateRevision (revision : recordRevision) : option (Z * version_vector) :=
  require forallb validateUUID [rr_RecordID revision; rr_RevisionID revision; rr_AuthorDeviceID revision]
    else None;;
  let? authorCounter := parseUint64 (rr_AuthorCounter revision) else None;;
  require negb (authorCounter =? 0) else None;;
  let? vector := validateVector (rr_VersionVector revision) else None;;
  require counter_of vector (rr_AuthorDeviceID revision) =? authorCounter else None;;
  require match rr_CollectionWitnessAuthenticator revision with
          | Some w => base64_ok w 32 | None => true end else None;;
  require String.eqb (rr_PayloadSchema revision) ProtocolMajor
          && String.eqb (rr_CryptoSuite revision) cryptoSuite else None;;
  require base64_ok (rr_Nonce revision) 24 else None;;
  let? _ := decodeBase64 (rr_Ciphertext revision) (-1) 16 (512 * 1024) else None;;
  Some (authorCounter, vector).

Definition validateEnvelope (envelope : vaultEnvelope) (identity : Identity) : option (Z * Z) :=
  require String.eqb (env_ProtocolVersion envelope) ProtocolMajor
          && String.eqb (env_CryptoSuite envelope) cryptoSuite else None;;
  require String.eqb (env_InstanceID envelope) (InstanceID identity)
          && String.eqb (env_VaultID envelope) (VaultID identity) else None;;
  let? generation := parseUint64 (env_EnvelopeGeneration envelope) else None;;
  require negb (generation =? 0) else None;;
  let? secretGeneration := parseUint64 (env_InstanceSecretGeneration envelope) else None;;
  require base64_ok (env_HKDFSalt envelope) 32 else None;;
  require base64_ok (env_Nonce envelope) 24 else None;;
  require base64_ok (env_WrappedVMK envelope) 48 else None;;
  require
    if String.eqb (env_Mode envelope) "base" then
      match env_Argon2 envelope with None => true | Some _ => false end
    else if String.eqb (env_Mode envelope) "passphrase" then
      match env_Argon2 envelope with
      | None => false
      | Some a => (ar_Version a =? 19) && (ar_MemoryKiB a =? 65536) && (ar_Iterations a =? 3)
                  && (ar_Parallelism a =? 1) && (ar_OutputLength a =? 32) && base64_ok (ar_Salt a) 16
      end
    else false
    else None;;
  Some (generation, secretGeneration).

Definition validateCollectionMarker (marker : collectionMarker) : option (version_vector * Z * string) :=
  require validateUUID (cm_RecordID marker) else None;;
  require validateUUID (cm_WitnessRevisionID marker) else None;;
  let? frontier := validateVector (cm_Frontier marker) else None;;
  let? authenticator := decodeBase64 (cm_CollectionWitnessAuthenticator marker) 32 0 0 else None;;
  let? barrier := parseUint64 (cm_BarrierCursor marker) else None;;
  Some (frontier, barrier, authenticator).

Definition decodeStoredCollectionMarker (body : string) : option collectionMarker :=
  let? marker := unmarshalAs collectionMarker body else None;;
  let? _ := validateCollectionMarker marker else None;;
  require String.eqb (marshalJSON marker) body else None;;
  Some marker.

Definition validateEnrollmentRequest (request : enrollmentRequest) : option string :=
  require String.eqb (er_ProtocolVersion request) ProtocolMajor else None;;
  require validateUUID (er_EnrollmentID request) else None;;
  require validateUUID (er_DeviceID request) else None;;
  require ValidateScopes (er_Scopes request) else None;;
  decodeBase64 (er_DeviceToken request) 32 0 0.

Definition uint64_text (s : string) : bool :=
  match parseUint64 s with Some _ => true | None => false end.

Definition validateDevice (value : device) : bool :=
  validateUUID (dev_DeviceID value) && ValidateScopes (dev_Scopes value)
  && validateTimestamp (dev_CreatedAt value)
  && uint64_text (dev_AckCursor value) && uint64_text (dev_MaxAuthorCounter value)
  && match dev_LastSyncAt value with Some t => validateTimestamp t | None => true end
  && (if String.eqb (dev_Status value) "active" then
        match dev_RevokedAt value with None => true | Some _ => false end
      else if String.eqb (dev_Status value) "revoked" then
        match dev_RevokedAt value with Some t => validateTimestamp t | None => false end
      else false).

(** One change of a stored sync response: its cursor, if the shape is right. *)
Definition validate_change (serverCursor : Z) (previous : option Z) (item : change) : option Z :=
  let? cursor := parseUint64 (chg_Cursor item) else None;;
  require (cursor <=? serverCursor)
          && match previous with Some p => p <? cursor | None => true end
          && validateTimestamp (chg_ReceivedAt item) else None;;
  require
    if String.eqb (chg_Kind item) "record_revision" then
      match chg_RecordRevision item, chg_CollectionMarker item with
      | Some r, None => match validateRevision r with Some _ => true | None => false end
      | _, _ => false
      end
    else if String.eqb (chg_Kind item) "collection_marker" then
      match chg_RecordRevision item, chg_CollectionMarker item with
      | None, Some m => match validateCollectionMarker m with Some _ => true | None => false end
      | _, _ => false
      end
    else if String.eqb (chg_Kind item) "envelope_changed" || String.eqb (chg_Kind item) "device_changed" then
      match chg_RecordRevision item, chg_CollectionMarker item with None, None => true | _, _ => false end
    else false
    else None;;
  Some cursor.
Fixpoint validate_changes (serverCursor : Z) (previous : option Z) (items : list change) : option (option Z) :=
  match items with
  | [] => Some previous
  | item :: rest =>
      match validate_change serverCursor previous item with
      | Some cursor => validate_changes serverCursor (Some cursor) rest
      | None => None
      end
  end.
Definition validateSyncResponse (response : syncResponse) : bool :=
  require String.eqb (ss_ProtocolVersion response) ProtocolMajor
          && (length (ss_Changes response) <=? maxChanges)%nat else false;;
  let? serverCursor := parseUint64 (ss_ServerCursor response) else false;;
  let? nextCursor := parseUint64 (ss_NextCursor response) else false;;
  require nextCursor <=? serverCursor else false;;
  require uint64_text (ss_EnvelopeGeneration response) else false;;
  match validate_changes serverCursor None (ss_Changes response) with
  | None => false
  | Some None => true
  | Some (Some previous) => nextCursor =? previous
  end.

Definition revocation_prefix : string := "device-revocation/".

Definition validateStoredOperationResponse (operation : string) (status : Z) (body : string)
    (identity : Identity) : bool :=
  require status =? 200 else false;;
  if String.eqb operation "vault-envelope" then
    match decodeStoredCanonicalAs vaultEnvelope body with
    | Some envelope => match validateEnvelope envelope identity with Some _ => true | None => false end
    | None => false
    end
  else if String.eqb operation "sync" then
    match decodeStoredCanonicalAs syncResponse body with
    | Some response => validateSyncResponse response
    | None => false
    end
  else if has_prefix revocation_prefix operation then
    let target := trim_prefix revocation_prefix operation in
    require validateUUID target else false;;
    match decodeStoredCanonicalAs device body with
    | Some response => String.eqb (dev_DeviceID response) target && validateDevice response
    | None => false
    end
  else false.

Definition validateStoredEnrollmentResponse (body : string) (identity : Identity) (deviceID : string) : bool :=
  match decodeStoredCanonicalAs enrollmentResponse body with
  | None => false
  | Some response =>
      String.eqb (ers_ProtocolVersion response) ProtocolMajor
      && String.eqb (ers_InstanceID response) (InstanceID identity)
      && String.eqb (ers_VaultID response) (VaultID identity)
      && String.eqb (dev_DeviceID (ers_Device response)) deviceID
      && validateDevice (ers_Device response)
      && uint64_text (ers_EnvelopeGeneration response)
  end.

Definition validateStoredSnapshotCreateResponse (body : string) (identity : Identity)
    (snapshotID ownerDeviceID : string) (cutCursor envelopeGeneration expiresAtMS : Z) : bool :=
  match decodeStoredCanonicalAs snapshotCreateResponse body with
  | None => false
  | Some response =>
      String.eqb (scr_ProtocolVersion response) ProtocolMajor
      && String.eqb (scr_SnapshotID response) snapshotID
      && String.eqb (scr_CutCursor response) (encodeUint64Text cutCursor)
      && String.eqb (scr_EnvelopeGeneration response) (encodeUint64Text envelopeGeneration)
      && String.eqb (scr_ExpiresAt response) (formatTimestamp expiresAtMS)
      && validateUUID ownerDeviceID
      && base64_ok (scr_FirstPageToken response) 32
      && match validateEnvelope (scr_Envelope response) identity with
         | Some (validated, _) => validated =? envelopeGeneration
         | None => false
         end
  end.

(** ** Version vectors *)

(** [vectorDominates]: the first loop fails on any smaller counter and notes a
    larger one; the second looks for a device only the left vector has. *)
Definition vectorDominates (left right : version_vector) : bool :=
  if forallb (λ kv, negb (counter_of left kv.1 <? kv.2)) (map_to_list right) then
    existsb (λ kv, kv.2 <? counter_of left kv.1) (map_to_list right)
    || existsb (λ kv, match right !! kv.1 with None => 0 <? kv.2 | Some _ => false end) (map_to_list left)
  else false.

(** [vectorsEqual]. *)
Definition vectorsEqual (left right : version_vector) : bool :=
  (size left =? size right)%nat
  && forallb (λ kv, counter_of right kv.1 =? kv.2) (map_to_list left).
