(* ===== verification/Config.v ===== *)
(** * Settings and protected files

    [src/runtime/internal/config/config.go] and [protected_unix.go]: the validated
    settings of an instance, its install marker and secret, and the owner-only files
    that hold them.  File modes are permission bits. *)

From stdpp Require Import base list strings gmap.
From Stdlib Require Import ZArith Lia Ascii.
From Stdlib Require String.
From S2P Require Import Prelude GoStd Uuid Json JsonFacts Api Wire Indent Release NetIP Fs.
Local Open Scope Z_scope.

Definition ConfigVersion : Z := 1.
Definition DefaultPort : Z := 37421.
Definition secretFileMode : Z := 384.  (* 0o600 *)
Definition stateDirMode : Z := 448.    (* 0o700 *)
Definition maxConfigBytes : Z := 1024 * 1024.
Definition ErrInsecureDirectory : ferr :=
  Failed "state directory must be owned by the current user and not group- or world-writable".
Definition ErrNonLoopback : string := "listener address must contain a literal loopback IP".

Record Settings := Mk_Settings {
  se_ConfigVersion : Z;
  se_InstanceID : string;
  se_VaultID : string;
  se_Listeners : list string }.
#[export] Instance Settings_eq_dec : EqDecision Settings.
Proof. solve_decision. Defined.
#[export] Instance Settings_json : GoJSON Settings :=
  {| go_ty := TStruct [
       ("config_version", go_ty Z); ("instance_id", go_ty string);
       ("vault_id", go_ty string); ("listeners", go_ty (list string))];
     to_g a := GStruct [to_g (se_ConfigVersion a); to_g (se_InstanceID a); to_g (se_VaultID a); to_g (se_Listeners a)];
     of_g g := match g with
       | GStruct [v0; v1; v2; v3] =>
           match of_g (A:=Z) v0, of_g (A:=string) v1, of_g (A:=string) v2, of_g (A:=list string) v3 with
           | Some a0, Some a1, Some a2, Some a3 => Some (Mk_Settings a0 a1 a2 a3)
           | _, _, _, _ => None end
       | _ => None end |}.
#[export] Instance Settings_json_laws : GoJSONLaws Settings.
Proof. solve_struct_laws. Qed.

Record InstallMarker := Mk_InstallMarker { im_Generation : string; im_Phase : string; im_State : string }.
#[export] Instance InstallMarker_eq_dec : EqDecision InstallMarker.
Proof. solve_decision. Defined.
#[export] Instance InstallMarker_json : GoJSON InstallMarker :=
  {| go_ty := TStruct [("generation", go_ty string); ("phase", go_ty string); ("state", go_ty string)];
     to_g a := GStruct [to_g (im_Generation a); to_g (im_Phase a); to_g (im_State a)];
     of_g g := match g with
       | GStruct [v0; v1; v2] =>
           match of_g (A:=string) v0, of_g (A:=string) v1, of_g (A:=string) v2 with
           | Some a0, Some a1, Some a2 => Some (Mk_InstallMarker a0 a1 a2)
           | _, _, _ => None end
       | _ => None end |}.
#[export] Instance InstallMarker_json_laws : GoJSONLaws InstallMarker.
Proof. solve_struct_laws. Qed.

Record Paths := {
  StateDir : string; ConfigPath : string; Database : string;
  InstanceSecret : string; InstallMarkerPath : string; AdminSocket : string }.
Definition ForStateDir (stateDir : string) : Paths :=
  {| StateDir := stateDir;
     ConfigPath := Join [stateDir; "config.json"];
     Database := Join [stateDir; "server.db"];
     InstanceSecret := Join [stateDir; "instance-secret"];
     InstallMarkerPath := Join [stateDir; "install-state.json"];
     AdminSocket := Join [stateDir; ".enrollment.sock"] |}.

(** [home], [goos] and [xdg] are what UserHomeDir, GOOS and Getenv return. *)
Definition DefaultStateDir (home : res string string) (goos xdg : string) : res string string :=
  match home with
  | Err e => Err ("resolve home directory: " +:+ e)
  | Ok home =>
      if String.eqb goos "darwin"
        then Ok (Join [home; "Library"; "Application Support"; "JustAnotherTerminal"; "sshserver"])
      else if String.eqb goos "linux" then
        (if negb (String.eqb xdg "") then
           (if negb (IsAbs xdg) then Err "XDG_STATE_HOME must be absolute" else Ok (Join [xdg; "jat"; "sshserver"]))
         else Ok (Join [home; ".local"; "state"; "jat"; "sshserver"]))
      else Err "unsupported operating system"
  end.

Definition DefaultListeners : list string :=
  [JoinHostPort "127.0.0.1" (FormatInt DefaultPort); JoinHostPort "::1" (FormatInt DefaultPort)].

(** ** Validation *)
Definition ValidateListener (address : string) : res string unit :=
  match SplitHostPort address with
  | None => Err "split host and port"
  | Some (host, portText) =>
      match ParseIP host with
      | None => Err ErrNonLoopback
      | Some ip =>
          if negb (IsLoopback ip) then Err ErrNonLoopback
          else
            match Atoi portText with
            | None => Err "listener port must be between 1 and 65535"
            | Some port =>
                if (port <? 1) || (65535 <? port) then Err "listener port must be between 1 and 65535"
                else if negb (String.eqb (JoinHostPort (IPString ip) (FormatInt port)) address)
                  then Err "listener is not canonical"
                else Ok tt
            end
      end
  end.

(** The loop over the listeners: [seen] addresses and the shared port. *)
Fixpoint validate_listeners (seen : list string) (sharedPort : string) (l : list string) : res string unit :=
  match l with
  | [] => Ok tt
  | address :: rest =>
      match ValidateListener address with
      | Err e => Err ("listener: " +:+ e)
      | Ok _ =>
          let port := match SplitHostPort address with Some (_, port) => port | None => "" end in
          if negb (String.eqb sharedPort "") && negb (String.eqb port sharedPort)
            then Err "all listener addresses must use one shared port"
          else if bool_decide (address ∈ seen) then Err "duplicate listener"
          else validate_listeners (address :: seen) (if String.eqb sharedPort "" then port else sharedPort) rest
      end
  end.
(** Method [Validate] of [Settings]. *)
Definition Validate (settings : Settings) : res string unit :=
  if negb (se_ConfigVersion settings =? ConfigVersion) then Err "unsupported config version"
  else if negb (valid_uuid (se_InstanceID settings)) then Err "invalid instance ID"
  else if negb (valid_uuid (se_VaultID settings)) then Err "invalid vault ID"
  else if String.eqb (se_InstanceID settings) (se_VaultID settings) then Err "instance and vault IDs must differ"
  else if (length (se_Listeners settings) =? 0)%nat || (2 <? length (se_Listeners settings))%nat
    then Err "one or two listener addresses are required"
  else validate_listeners [] "" (se_Listeners settings).

Definition valid_or_fail (r : res string unit) : FsM unit :=
  match r with Ok _ => mret tt | Err e => raise (Failed e) end.
Definition uuid_new : FsM string := random ← read_random 16; mret (New random).
Definition NewSettings (listeners : list string) : FsM Settings :=
  instanceID ← uuid_new;
  vaultID ← uuid_new;
  let settings := Mk_Settings ConfigVersion instanceID vaultID (order_by sleb listeners) in
  _ ← valid_or_fail (Validate settings);
  mret settings.

Definition SameListeners (left right : list string) : bool :=
  (length left =? length right)%nat && bool_decide (order_by sleb left = order_by sleb right).

(** ** State directory *)
Definition check_directory (w : World) (n : node) : res ferr unit :=
  match n with
  | Directory mode owner =>
      if negb (Z.land mode 18 =? 0) || negb (owner =? w_euid w) then Err ErrInsecureDirectory else Ok tt
  | _ => Err (Failed "state directory must be a real directory, not a symlink")
  end.
Definition lift {A} (r : res ferr A) : FsM A := λ w, (w, r).
Definition ValidateStateDirectory (path : string) : FsM unit :=
  _ ← check (negb (String.eqb path "") && IsAbs path) (Failed "state directory must be an absolute path");
  n ← in_context "stat state directory" (Lstat path);
  w ← ask (λ w, w);
  lift (check_directory w n).
Definition EnsureStateDirectory (path : string) : FsM unit :=
  _ ← check (negb (String.eqb path "") && IsAbs path) (Failed "state directory must be an absolute path");
  found ← attempt (Lstat path);
  w ← ask (λ w, w);
  created ← match found with
            | Ok n => _ ← lift (check_directory w n); mret false
            | Err NotExist => mret true
            | Err e => raise (wrap "inspect state directory" e)
            end;
  _ ← in_context "create state directory" (MkdirAll path stateDirMode);
  _ ← (if (created : bool) then in_context "protect state directory" (Chmod path stateDirMode) else mret tt);
  ValidateStateDirectory path.

(** ** Protected files *)
Definition validateOpenedProtectedFile (w : World) (n : node) (allowedMode : Z) : res ferr unit :=
  match n with
  | Regular mode owner nlink _ =>
      if negb (owner =? w_euid w) then Err (Failed "protected file must be owned by the current user")
      else if negb (nlink =? 1) then Err (Failed "protected file must have exactly one hard link")
      else if negb (Z.ldiff mode allowedMode =? 0) then Err (Failed "protected file permissions are too broad")
      else Ok tt
  | _ => Err (Failed "protected path must be a regular file")
  end.
Definition openProtectedFile (path : string) (writable : bool) (allowedMode : Z) : FsM node :=
  n ← open_nofollow path writable;
  _ ← sync_file;  (* fstat *)
  w ← ask (λ w, w);
  _ ← lift (validateOpenedProtectedFile w n allowedMode);
  mret n.
Definition ValidateProtectedFile (path : string) (allowedMode : Z) : FsM unit :=
  _ ← openProtectedFile path false allowedMode;
  sync_file.  (* Close *)
Definition readProtectedFile (path : string) (allowedMode limit : Z) : FsM string :=
  n ← openProtectedFile path false allowedMode;
  _ ← sync_file;  (* ReadAll *)
  let payload := match n with Regular _ _ _ content => content | _ => "" end in
  _ ← check (slen payload <=? limit) (Failed "protected file exceeds size limit");
  mret payload.
Definition syncDirectory (path : string) : FsM unit :=
  _ ← in_context "open parent directory" (open_directory path);
  in_context "sync parent directory" sync_file.
Definition usable_path (path : string) : bool := negb (contains_byte (chrZ 0) path) && IsAbs path.

Definition PrepareProtectedFile (path : string) (mode : Z) : FsM unit :=
  _ ← check (usable_path path) (Failed "protected file path must be absolute and contain no NUL");
  created ← attempt (create_exclusive path mode);
  match created with
  | Err Exist => ValidateProtectedFile path mode
  | Err e => raise (wrap "create protected file" e)
  | Ok _ =>
      _ ← in_context "protect file" (Chmod path mode);
      _ ← in_context "sync protected file" sync_file;
      _ ← in_context "close protected file" sync_file;
      _ ← syncDirectory (Dir path);
      ValidateProtectedFile path mode
  end.
Definition RestrictProtectedFile (path : string) (mode : Z) : FsM unit :=
  n ← openProtectedFile path true 511;
  _ ← in_context "protect file" (Chmod path mode);
  _ ← sync_file;  (* fstat *)
  w ← ask (λ w, w);
  lift (validateOpenedProtectedFile w (set_mode mode n) mode).

(** [WriteFileAtomic]: a temporary file beside the target, then a rename.  The
    deferred removal runs unless the rename happened. *)
Definition write_temporary (path temporary value : string) (mode : Z) : FsM unit :=
  _ ← in_context "protect temporary file" (Chmod temporary mode);
  _ ← in_context "write temporary file" (write_to temporary value);
  _ ← in_context "sync temporary file" sync_file;
  _ ← in_context "close temporary file" sync_file;
  in_context "install file" (Rename temporary path).
Definition WriteFileAtomic (path value : string) (mode : Z) : FsM unit :=
  _ ← check (usable_path path) (Failed "path must be absolute and contain no NUL");
  existing ← attempt (ValidateProtectedFile path mode);
  _ ← match existing with
      | Ok _ | Err NotExist => mret tt
      | Err e => raise (wrap "validate existing protected file" e)
      end;
  let directory := Dir path in
  temporary ← in_context "create temporary file" (CreateTemp directory ".jat-write-");
  installed ← attempt (write_temporary path temporary value mode);
  _ ← match installed with
      | Ok _ => mret tt
      | Err e => _ ← attempt (Remove temporary); raise e
      end;
  _ ← syncDirectory directory;
  ValidateProtectedFile path mode.

(** Which of these change no file. *)
Lemma quiet_lift {A} (r : res ferr A) : Quiet (lift r).
Proof. apply quiet_pure. Qed.
Lemma quiet_valid r : Quiet (valid_or_fail r).
Proof. unfold valid_or_fail. quiet. Qed.
#[export] Hint Resolve quiet_lift quiet_valid : quiet.
Lemma quiet_open path b allowed : Quiet (openProtectedFile path b allowed).
Proof. unfold openProtectedFile, open_nofollow, sync_file. quiet. Qed.
#[export] Hint Resolve quiet_open : quiet.
Lemma quiet_validate path allowed : Quiet (ValidateProtectedFile path allowed).
Proof. unfold ValidateProtectedFile, sync_file. quiet. Qed.
Lemma quiet_read path allowed limit : Quiet (readProtectedFile path allowed limit).
Proof. unfold readProtectedFile, sync_file. quiet. Qed.
Lemma quiet_sync path : Quiet (syncDirectory path).
Proof. unfold syncDirectory, open_directory, sync_file. quiet. Qed.
#[export] Hint Resolve quiet_validate quiet_read quiet_sync : quiet.

(** ** Stored settings, marker and secret *)
Definition writeJSONAtomic {A} `{GoJSON A} (path : string) (value : A) (mode : Z) : FsM unit :=
  WriteFileAtomic path (indentedJSON value) mode.
Definition readStrictJSON A `{GoJSON A} (path : string) : FsM A :=
  payload ← readProtectedFile path secretFileMode maxConfigBytes;
  match decodeStrictStream A payload with
  | Some value => mret value
  | None => raise (Failed "invalid JSON")
  end.

Definition LoadSettings (path : string) : FsM Settings :=
  loaded ← attempt (readStrictJSON Settings path);
  settings ← match loaded with
             | Ok settings => mret settings
             | Err NotExist => raise Uninitialized
             | Err e => raise (wrap "load config" e)
             end;
  _ ← in_context "validate config" (valid_or_fail (Validate settings));
  mret settings.
Definition SaveSettings (path : string) (settings : Settings) : FsM unit :=
  _ ← valid_or_fail (Validate settings);
  writeJSONAtomic path settings secretFileMode.

Definition check_marker (marker : InstallMarker) : res string unit :=
  let one_of s l := existsb (String.eqb s) l in
  if negb (String.eqb (im_Generation marker) "1") then Err "unsupported install-marker generation"
  else if negb (one_of (im_Phase marker) ["initializing"; "ready"]) then Err "invalid install-marker phase"
  else if negb (one_of (im_State marker) ["resume"; "complete"]) then Err "invalid install-marker state"
  else if negb (Bool.eqb (String.eqb (im_Phase marker) "ready") (String.eqb (im_State marker) "complete"))
    then Err "inconsistent install marker"
  else Ok tt.
Definition LoadMarker (path : string) : FsM InstallMarker :=
  marker ← readStrictJSON InstallMarker path;
  _ ← valid_or_fail (check_marker marker);
  mret marker.
Definition SaveMarker (path : string) (marker : InstallMarker) : FsM unit := writeJSONAtomic path marker secretFileMode.

Definition ReadSecret (path : string) : FsM string :=
  value ← readProtectedFile path secretFileMode 33;
  _ ← check (slen value =? 32) (Failed "instance-secret file must contain exactly 32 bytes");
  mret value.
Definition WriteSecret (path value : string) : FsM unit :=
  _ ← check (slen value =? 32) (Failed "instance secret must contain exactly 32 bytes");
  WriteFileAtomic path value secretFileMode.

Lemma quiet_readStrictJSON A `{GoJSON A} path : Quiet (readStrictJSON A path).
Proof. unfold readStrictJSON. quiet. Qed.
#[export] Hint Resolve quiet_readStrictJSON : quiet.
Lemma quiet_LoadSettings path : Quiet (LoadSettings path).
Proof. unfold LoadSettings. quiet. Qed.
Lemma quiet_LoadMarker path : Quiet (LoadMarker path).
Proof. unfold LoadMarker. quiet. Qed.
Lemma quiet_ReadSecret path : Quiet (ReadSecret path).
Proof. unfold ReadSecret. quiet. Qed.
Lemma quiet_NewSettings listeners : Quiet (NewSettings listeners).
Proof. unfold NewSettings, uuid_new. quiet. Qed.
#[export] Hint Resolve quiet_LoadSettings quiet_LoadMarker quiet_ReadSecret quiet_NewSettings : quiet.
Lemma quiet_ValidateStateDirectory path : Quiet (ValidateStateDirectory path).
Proof. unfold ValidateStateDirectory, Lstat. quiet. Qed.
#[export] Hint Resolve quiet_ValidateStateDirectory : quiet.
