(* ===== verification/Layout.v ===== *)
(** * Deployment layout: paths_unix.go

    [src/runtime/internal/deployment/paths_unix.go], with the directory checks of
    [artifact.go] and the targets of [manifest.go]: the paths of a user-scoped
    deployment beneath the home directory, and the owner-only directories that hold
    it.  A directory descriptor is the path it was opened at; [fstat] may fail. *)

From stdpp Require Import base list strings gmap.
From Stdlib Require Import ZArith Lia Ascii.
From Stdlib Require String.
From S2P Require Import Prelude GoStd Release NetIP Fs Paths Wire Config.
Local Open Scope Z_scope.

(** ** Targets and patterns (manifest.go) *)
Record Target := Mk_Target { tg_OS : string; tg_Architecture : string }.
#[export] Instance Target_eq_dec : EqDecision Target.
Proof. solve_decision. Defined.
Definition supportedTargets : list Target :=
  [Mk_Target "linux" "amd64"; Mk_Target "linux" "arm64"; Mk_Target "darwin" "amd64"; Mk_Target "darwin" "arm64"].
Definition isSupportedTarget (target : Target) : bool := bool_decide (target ∈ supportedTargets).

Definition lower_hex : regexp := Class (λ z, ((48 <=? z) && (z <=? 57)) || ((97 <=? z) && (z <=? 102))).
Definition hexDigestPattern : regexp := Repeat 64 lower_hex.
Definition sourceRevisionPattern : regexp := Repeat 40 lower_hex.

(** ** The layout *)
Record Layout := Mk_Layout {
  ly_HomeDir : string;
  ly_InstallRoot : string;
  ly_StateDir : string;
  ly_VersionsDir : string;
  ly_StatePath : string;
  ly_JournalPath : string;
  ly_LockPath : string }.
#[export] Instance Layout_eq_dec : EqDecision Layout.
Proof. solve_decision. Defined.

Definition layout_path_ok (value : string) : bool :=
  canonicalAbsolutePath value && negb (contains_byte (chrZ 0) value).
(** The three paths are checked in the order of a map iteration, so which of several
    bad ones the message names is not determined. *)
Definition NewLayout (homeDir installRoot stateDir : string) : res string Layout :=
  if negb (layout_path_ok homeDir && layout_path_ok installRoot && layout_path_ok stateDir)
    then Err "layout paths must be canonical absolute paths without NUL"
  else
    match requireStrictDescendant homeDir installRoot "install root" with
    | Err e => Err e
    | Ok _ =>
        match requireStrictDescendant homeDir stateDir "state directory" with
        | Err e => Err e
        | Ok _ =>
            Ok (Mk_Layout homeDir installRoot stateDir
                  (Join [installRoot; "versions"]) (Join [installRoot; "deployment.json"])
                  (Join [installRoot; "deployment-journal.json"]) (Join [installRoot; ".deployment.lock"]))
        end
    end.

(** [home] and [resolvedHome] are what UserHomeDir and EvalSymlinks return, [stateDir]
    what DefaultStateDir returns, [dataHome] the value of XDG_DATA_HOME. *)
Definition DefaultLayout (home resolvedHome stateDir : res string string) (goos dataHome : string) : res string Layout :=
  match home, resolvedHome, stateDir with
  | Err e, _, _ => Err ("resolve home directory: " +:+ e)
  | _, Err e, _ => Err ("resolve physical home directory: " +:+ e)
  | _, _, Err e => Err e
  | Ok home, Ok resolvedHome, Ok stateDir =>
      let stateDir :=
        if negb (String.eqb home resolvedHome) && (String.eqb stateDir home || has_prefix (home +:+ "/") stateDir)
          then resolvedHome +:+ trim_prefix home stateDir else stateDir in
      if String.eqb goos "darwin" then
        NewLayout resolvedHome
          (Join [resolvedHome; "Library"; "Application Support"; "JustAnotherTerminal"; "sshserver-deployment"]) stateDir
      else if String.eqb goos "linux" then
        let dataHome := if String.eqb dataHome "" then Join [resolvedHome; ".local"; "share"] else dataHome in
        NewLayout resolvedHome (Join [dataHome; "jat"; "sshserver-deployment"]) stateDir
      else Err "unsupported operating system"
  end.

Definition VersionDir (layout : Layout) (release : string) : res string string :=
  if negb (Valid release) then Err "release identifier is not path-safe"
  else Ok (Join [ly_VersionsDir layout; release]).
Definition BinaryPath (layout : Layout) (release : string) (target : Target) : res string string :=
  match VersionDir layout release with
  | Err e => Err e
  | Ok versionDir =>
      if negb (isSupportedTarget target) then Err "unsupported deployment target"
      else Ok (Join [versionDir; "sshserver-" +:+ tg_OS target +:+ "-" +:+ tg_Architecture target])
  end.

(** ** Directory checks *)
Definition validateAbsoluteCanonicalPath (path : string) : res string unit :=
  if String.eqb path "" || contains_byte (chrZ 0) path || negb (IsAbs path) || negb (String.eqb (Clean path) path)
    then Err "path must be absolute, canonical, and contain no NUL" else Ok tt.
Definition validateDirectory (euid : Z) (n : node) (requireOwner : bool) : bool :=
  match n with
  | Directory mode owner =>
      (Z.land mode 18 =? 0) && (if requireOwner then owner =? euid else (owner =? euid) || (owner =? 0))
  | _ => false
  end.
Definition fstat : FsM unit := sync_file.
(** [Openat] of a directory without following links. *)
Definition open_directory_nofollow (path : string) : FsM node :=
  inspect (λ w, match w_files w !! path with
                | None => Err NotExist
                | Some (Directory _ _ as n) => Ok n
                | Some Symlink => Err (Failed "too many levels of symbolic links")
                | Some _ => Err (Failed "not a directory")
                end).
Definition child (current name : string) : string :=
  if String.eqb current "/" then "/" +:+ name else current +:+ "/" +:+ name.

(** A stat result that must be trusted; a failed stat is not. *)
Definition trusted (n : node) (requireOwner : bool) (refusal : string) : FsM unit :=
  stat ← attempt fstat;
  euid ← ask w_euid;
  check (match stat with Ok _ => validateDirectory euid n requireOwner | Err _ => false end) (Failed refusal).
Fixpoint open_components (requireOwner : bool) (current : string) (n : node) (components : list string) :
    FsM (string * node) :=
  match components with
  | [] => mret (current, n)
  | component :: rest =>
      n ← in_context "open directory component without following links" (open_directory_nofollow (child current component));
      _ ← trusted n (requireOwner && match rest with [] => true | _ => false end) "directory component is not trusted";
      open_components requireOwner (child current component) n rest
  end.
Definition openVerifiedDirectory (path : string) (requireOwner : bool) : FsM string :=
  _ ← valid_or_fail (validateAbsoluteCanonicalPath path);
  root ← in_context "open filesystem root" (open_directory_nofollow "/");
  _ ← trusted root false "filesystem root is not a trusted directory";
  let components := split "/" (trim_prefix "/" path) in
  let components := match components with [""] => [] | _ => components end in
  '(opened, n) ← open_components requireOwner "/" root components;
  _ ← (if requireOwner then trusted n true "artifact destination is not an owner-controlled directory" else mret tt);
  mret opened.

(** [validateDirectoryFD] of an opened directory. *)
Definition validateDirectoryFD (n : node) : FsM unit :=
  _ ← fstat;
  euid ← ask w_euid;
  match n with
  | Directory mode owner =>
      _ ← check (owner =? euid) (Failed "deployment directory must be owned by the current user");
      check (Z.land mode 18 =? 0) (Failed "deployment directory must not be group- or world-writable")
  | _ => raise (Failed "deployment path component must be a directory")
  end.
Definition openSecureDirectory (path : string) : FsM string :=
  n ← open_directory_nofollow path;
  _ ← validateDirectoryFD n;
  mret path.

Definition safe_component (c : string) : bool :=
  negb (String.eqb c "" || String.eqb c "." || String.eqb c ".." || contains_byte (chrZ 0) c).
Definition directoryMode : Z := 448.  (* 0o700 *)
Definition Mkdirat (path : string) : FsM unit :=
  modify (λ w, match w_files w !! path with
               | Some _ => Err Exist
               | None => Ok (<[path := Directory (Z.ldiff directoryMode (w_umask w)) (w_euid w)]> (w_files w))
               end) intact.
(** One component of [ensureDirectoryBelow]: opened, or created and then opened. *)
Definition ensure_component (path : string) : FsM node :=
  opened ← attempt (open_directory_nofollow path);
  match opened with
  | Ok n => mret n
  | Err NotExist =>
      made ← attempt (Mkdirat path);
      _ ← match made with Ok _ | Err Exist => mret tt | Err e => raise e end;
      open_directory_nofollow path
  | Err e => raise e
  end.
Fixpoint ensure_components (current : string) (components : list string) : FsM unit :=
  match components with
  | [] => mret tt
  | component :: rest =>
      _ ← check (safe_component component) (Failed "directory path contains an unsafe component");
      n ← ensure_component (child current component);
      _ ← validateDirectoryFD n;
      ensure_components (child current component) rest
  end.
Definition ensureDirectoryBelow (root relative : string) : FsM unit :=
  _ ← fstat;  (* Dup *)
  ensure_components root (split "/" relative).
Fixpoint validate_components (current : string) (components : list string) : FsM unit :=
  match components with
  | [] => mret tt
  | component :: rest =>
      _ ← check (safe_component component) (Failed "directory path contains an unsafe component");
      opened ← attempt (open_directory_nofollow (child current component));
      match opened with
      | Err NotExist => mret tt
      | Err e => raise e
      | Ok n => _ ← validateDirectoryFD n; validate_components (child current component) rest
      end
  end.
Definition validateExistingDirectoryBelow (root relative : string) : FsM unit :=
  _ ← fstat;  (* Dup *)
  validate_components root (split "/" relative).

(** ** Preparing and validating a layout *)
Definition validateLayoutShape (layout : Layout) : FsM unit :=
  euid ← ask w_euid;
  _ ← check (negb (euid =? 0)) (Failed "refusing user-scoped deployment as root");
  match NewLayout (ly_HomeDir layout) (ly_InstallRoot layout) (ly_StateDir layout) with
  | Err e => raise (Failed e)
  | Ok rebuilt =>
      check (bool_decide (rebuilt = layout)) (Failed "deployment layout contains inconsistent derived paths")
  end.
Definition relative_to (layout : Layout) (target : string) : string :=
  match Rel (ly_HomeDir layout) target with Some relative => relative | None => "" end.
Definition layout_directories (layout : Layout) : list (string * string) :=
  [("install root", ly_InstallRoot layout); ("versions directory", ly_VersionsDir layout);
   ("state directory", ly_StateDir layout)].
Fixpoint each {A} (f : A → FsM unit) (l : list A) : FsM unit :=
  match l with [] => mret tt | x :: rest => _ ← f x; each f rest end.

Definition PrepareLayout (layout : Layout) : FsM unit :=
  _ ← validateLayoutShape layout;
  home ← in_context "validate home directory" (openVerifiedDirectory (ly_HomeDir layout) true);
  each (λ '(name, target), in_context ("prepare " +:+ name) (ensureDirectoryBelow home (relative_to layout target)))
    (layout_directories layout).
Definition prepareLayoutDirectory (layout : Layout) (target name : string) : FsM unit :=
  _ ← validateLayoutShape layout;
  home ← in_context "validate home directory" (openVerifiedDirectory (ly_HomeDir layout) true);
  in_context ("prepare " +:+ name) (ensureDirectoryBelow home (relative_to layout target)).
Definition PrepareDeploymentLockRoot (layout : Layout) : FsM unit :=
  prepareLayoutDirectory layout (ly_InstallRoot layout) "install root".
Definition PrepareDeploymentStateDirectory (layout : Layout) : FsM unit :=
  prepareLayoutDirectory layout (ly_StateDir layout) "state directory".
Definition ValidateLayoutReadOnly (layout : Layout) : FsM unit :=
  _ ← validateLayoutShape layout;
  home ← in_context "validate home directory" (openVerifiedDirectory (ly_HomeDir layout) true);
  each (λ '(name, target), in_context ("validate prospective " +:+ name)
          (validateExistingDirectoryBelow home (relative_to layout target))) (layout_directories layout).
Definition PrepareVersionDirectory (layout : Layout) (release : string) : FsM string :=
  _ ← PrepareLayout layout;
  match VersionDir layout release with
  | Err e => raise (Failed e)
  | Ok versionDir =>
      root ← openSecureDirectory (ly_VersionsDir layout);
      _ ← in_context "prepare release directory" (ensureDirectoryBelow root release);
      mret versionDir
  end.

(** ** What these leave alone

    Reading is quiet; preparing adds owner-only directories and changes nothing else. *)
Lemma quiet_fstat : Quiet fstat.
Proof. unfold fstat, sync_file. quiet. Qed.
Lemma quiet_open_directory path : Quiet (open_directory_nofollow path).
Proof. unfold open_directory_nofollow. quiet. Qed.
#[export] Hint Resolve quiet_fstat quiet_open_directory : quiet.
Lemma quiet_trusted n b refusal : Quiet (trusted n b refusal).
Proof. unfold trusted. quiet. Qed.
#[export] Hint Resolve quiet_trusted : quiet.
Lemma quiet_open_components b components : ∀ current n, Quiet (open_components b current n components).
Proof. induction components as [|c l IH]; intros current n; simpl; quiet. Qed.
#[export] Hint Resolve quiet_open_components : quiet.
Lemma quiet_openVerifiedDirectory path b : Quiet (openVerifiedDirectory path b).
Proof. unfold openVerifiedDirectory. quiet. Qed.
Lemma quiet_validateDirectoryFD n : Quiet (validateDirectoryFD n).
Proof. unfold validateDirectoryFD. quiet. Qed.
#[export] Hint Resolve quiet_openVerifiedDirectory quiet_validateDirectoryFD : quiet.
Lemma quiet_openSecureDirectory path : Quiet (openSecureDirectory path).
Proof. unfold openSecureDirectory. quiet. Qed.
Lemma quiet_validate_components components : ∀ current, Quiet (validate_components current components).
Proof. induction components as [|c l IH]; intros current; simpl; quiet. Qed.
Lemma quiet_shape layout : Quiet (validateLayoutShape layout).
Proof. unfold validateLayoutShape. quiet. Qed.
#[export] Hint Resolve quiet_openSecureDirectory quiet_validate_components quiet_shape : quiet.
Lemma quiet_each {A} (f : A → FsM unit) l : (∀ x, Quiet (f x)) → Quiet (each f l).
Proof. intros Hf. induction l as [|x l IH]; simpl; quiet; auto. Qed.
Lemma quiet_ValidateLayoutReadOnly layout : Quiet (ValidateLayoutReadOnly layout).
Proof.
  unfold ValidateLayoutReadOnly, validateExistingDirectoryBelow. quiet. apply quiet_each. intros []. quiet.
Qed.

(** [fs] is [fs0] with some new directories of user [o] at paths of [new]. *)
Definition grows (o : Z) (new : string → Prop) (fs0 fs : files) : Prop :=
  ∀ p, fs !! p = fs0 !! p ∨ (fs0 !! p = None ∧ new p ∧ ∃ mode, fs !! p = Some (Directory mode o)).
Definition secure_directory (o : Z) (fs : files) (p : string) : Prop :=
  ∃ mode, fs !! p = Some (Directory mode o) ∧ Z.land mode 18 = 0.

Section preparing.
Context (o : Z) (new : string → Prop).

Lemma grows_refl fs : grows o new fs fs.
Proof. intros p. by left. Qed.
Lemma grows_trans fs1 fs2 fs3 : grows o new fs1 fs2 → grows o new fs2 fs3 → grows o new fs1 fs3.
Proof.
  intros H1 H2 p. destruct (H1 p) as [E1|(N1 & P1 & m1 & D1)], (H2 p) as [E2|(N2 & P2 & m2 & D2)].
  - left. congruence.
  - right. split_and!; [congruence|done|by eexists].
  - right. split_and!; [done|done|]. exists m1. congruence.
  - congruence.
Qed.
Lemma grows_secure fs fs' p : grows o new fs fs' → secure_directory o fs p → secure_directory o fs' p.
Proof. intros H (m & E & Hm). destruct (H p) as [E'|(N & _)]; [|congruence]. exists m. split; [congruence|done]. Qed.

Lemma grow_one fs p mode : fs !! p = None → new p → grows o new fs (<[p := Directory mode o]> fs).
Proof.
  intros Hn Hp q. destruct (decide (q = p)) as [->|]; [right|left; by rewrite lookup_insert_ne].
  rewrite lookup_insert_eq. eauto.
Qed.

(** A run that only adds directories; [post] holds at the end of a successful one. *)
Definition prepares {A} (m : FsM A) (post : A → files → Prop) : Prop :=
  ∀ fs, triple o (grows o new fs) fs m (λ a fs', grows o new fs fs' ∧ post a fs').

Lemma prepares_quiet {A} (m : FsM A) : Quiet m → prepares m (λ _ _, True).
Proof.
  intros Hm fs. eapply triple_post; [apply triple_quiet; [apply grows_refl|done]|].
  intros a ? ->. split; [apply grows_refl|done].
Qed.
Lemma prepares_bind {A B} (m : FsM A) (f : A → FsM B) P Q :
  prepares m P → (∀ a, prepares (f a) (Q a)) →
  prepares (m ≫= f) (λ b fs, ∃ a mid, P a mid ∧ grows o new mid fs ∧ Q a b fs).
Proof.
  intros Hm Hf fs. eapply fs_triple_bind; [apply Hm|]. intros a mid [Hg HP] w Hw Ho.
  destruct (Hf a mid w Hw Ho) as [Hp Hq]. split.
  - eapply passes_impl; [|exact Hp]. intros fs'. by apply grows_trans.
  - intros b Hb. destruct (Hq b Hb) as [Hg' HQ]. split; [by eapply grows_trans|]. by exists a, mid.
Qed.
Lemma prepares_impl {A} (m : FsM A) (P Q : A → files → Prop) :
  prepares m P → (∀ a fs, P a fs → Q a fs) → prepares m Q.
Proof. intros Hm H fs. eapply triple_post; [apply Hm|]. intros a fs' []. auto. Qed.
Lemma prepares_context {A} context (m : FsM A) P : prepares m P → prepares (in_context context m) P.
Proof. intros Hm fs. apply triple_context, Hm. Qed.

Lemma prepares_Mkdirat p : new p → prepares (Mkdirat p) (λ _ _, True).
Proof.
  intros Hp fs. apply triple_modify; [apply grows_refl|intros; apply grows_refl|].
  intros w fs' -> Ho. destruct (fs !! p) eqn:E; [done|]. intros [= <-]. rewrite Ho.
  split; [by apply grow_one|]. split; [by apply grow_one|done].
Qed.
Lemma prepares_attempt {A} (m : FsM A) P : prepares m P → prepares (attempt m) (λ r fs, ∀ a, r = Ok a → P a fs).
Proof.
  intros Hm fs. eapply triple_post; [apply triple_attempt, Hm|]. intros r fs' [Hg H]. split; [done|].
  intros a Ha. by apply (H a).
Qed.
(** The directory that was opened is the one at the path. *)
Lemma prepares_open p : prepares (open_directory_nofollow p) (λ n fs, fs !! p = Some n).
Proof.
  intros fs w <- Ho. split.
  - destruct (quiet_open_directory p w) as (E1 & E2 & E3). split; [done|]. exists [].
    rewrite E1, E2. by repeat constructor; apply grows_refl.
  - intros n. destruct (quiet_open_directory p w) as (E1 & _). rewrite E1.
    intros Hn. split; [apply grows_refl|]. revert Hn. unfold open_directory_nofollow, inspect.
    pose proof (next_fault_files w) as Hw. destruct (next_fault w) as [w' []]; [done|]. simpl in *. rewrite Hw.
    destruct (w_files w !! p) as [[]|]; try done. by intros [= <-].
Qed.
Lemma grows_lookup fs fs' p n : grows o new fs fs' → fs !! p = Some n → fs' !! p = Some n.
Proof. intros H E. destruct (H p) as [E'|(N & _)]; congruence. Qed.
Lemma prepares_ret {A} (a : A) : prepares (mret a) (λ b _, b = a).
Proof. intros fs. apply fs_triple_ret; [apply grows_refl|]. split; [apply grows_refl|done]. Qed.
Lemma prepares_raise {A} e (P : A → files → Prop) : prepares (raise e) P.
Proof. intros fs. apply triple_raise, grows_refl. Qed.

Lemma prepares_ensure_component p : new p → prepares (ensure_component p) (λ n fs, fs !! p = Some n).
Proof.
  intros Hp. unfold ensure_component.
  eapply prepares_impl.
  - eapply (prepares_bind _ _ _ (λ r n fs, match r with Ok m => n = m | Err _ => fs !! p = Some n end));
      [apply prepares_attempt, prepares_open|].
    intros [n|[]]; [apply prepares_ret| |apply prepares_raise..].
    eapply prepares_impl.
    + eapply prepares_bind; [eapply prepares_attempt, prepares_Mkdirat, Hp|]. intros made.
      eapply prepares_bind; [apply prepares_quiet; quiet|]. intros ?. apply prepares_open.
    + simpl. intros n fs (? & ? & _ & _ & ? & ? & _ & _ & ?). done.
  - simpl. intros n fs ([m|e] & mid & Hr & Hg & Hn); [|done]. subst m. by eapply grows_lookup; [|apply Hr].
Qed.
Lemma prepares_validateDirectoryFD n : prepares (validateDirectoryFD n) (λ _ _, ∃ mode, n = Directory mode o ∧ Z.land mode 18 = 0).
Proof.
  intros fs w Hw Ho. destruct (quiet_validateDirectoryFD n w) as (E1 & E2 & E3). rewrite E1, Hw. split.
  - split; [done|]. exists []. rewrite E1, E2, Hw. by repeat constructor; apply grows_refl.
  - intros [] H. split; [apply grows_refl|]. revert H. unfold validateDirectoryFD, mbind, fsm_bind.
    pose proof (quiet_fstat w) as (_ & _ & He). destruct (fstat w) as [w1 [[]|]]; [|done]. simpl in *.
    destruct n as [mode owner| | |]; try done. unfold check. destruct (Z.eqb_spec owner (w_euid w1)); [|done]. simpl.
    destruct (Z.eqb_spec (Z.land mode 18) 0); [|done]. intros _. exists mode. split; [|done]. congruence.
Qed.

(** The paths below [current] along [components], nearest first. *)
Fixpoint chain (current : string) (components : list string) : list string :=
  match components with
  | [] => []
  | c :: rest => child current c :: chain (child current c) rest
  end.
Lemma prepares_ensure_components components : ∀ current, Forall new (chain current components) →
  prepares (ensure_components current components) (λ _ fs, Forall (secure_directory o fs) (chain current components)).
Proof.
  induction components as [|c rest IH]; intros current Hnew; simpl.
  { eapply prepares_impl; [apply prepares_ret|]. constructor. }
  apply Forall_cons in Hnew as [Hc Hnew]. eapply prepares_impl.
  - eapply prepares_bind; [apply prepares_quiet; quiet|]. intros ?.
    eapply prepares_bind; [by apply prepares_ensure_component|]. intros n.
    eapply (prepares_bind _ _ _ (λ _ _ fs, Forall (secure_directory o fs) (chain (child current c) rest)));
      [apply prepares_validateDirectoryFD|]. intros ?. by apply IH.
  - simpl. intros _ fs (_ & _ & _ & _ & n & mid & Hn & Hg & _ & mid2 & (mode & -> & Hm) & Hg2 & HF).
    constructor; [|done]. exists mode. split; [|done]. by eapply grows_lookup; [exact Hg|].
Qed.
Lemma prepares_ensureDirectoryBelow root relative : Forall new (chain root (split "/" relative)) →
  prepares (ensureDirectoryBelow root relative) (λ _ fs, Forall (secure_directory o fs) (chain root (split "/" relative))).
Proof.
  intros H. unfold ensureDirectoryBelow. eapply prepares_impl.
  - eapply prepares_bind; [apply prepares_quiet; quiet|]. intros ?. by apply prepares_ensure_components.
  - simpl. intros _ fs (_ & _ & _ & _ & HF). done.
Qed.
Lemma prepares_each {A} (f : A → FsM unit) (P : A → files → Prop) l :
  (∀ x fs fs', P x fs → grows o new fs fs' → P x fs') → Forall (λ x, prepares (f x) (λ _, P x)) l →
  prepares (each f l) (λ _ fs, Forall (λ x, P x fs) l).
Proof.
  intros Hmono HF. induction HF as [|x l Hx HF IH]; simpl.
  { eapply prepares_impl; [apply prepares_ret|]. constructor. }
  eapply prepares_impl.
  - eapply prepares_bind; [exact Hx|]. intros ?. exact IH.
  - simpl. intros _ fs (_ & mid & H & Hg & Hl). constructor; [|done]. by eapply Hmono.
Qed.
End preparing.

(** ** Accepted layouts *)
Lemma child_abs es c : components es → child (abs es) c = abs (es ++ [c]).
Proof.
  intros Hes. unfold child. destruct es as [|e es]; [done|].
  destruct (String.eqb_spec (abs (e :: es)) "/") as [E|_].
  - by apply (abs_inj _ []) in E; [|done|constructor].
  - unfold abs. rewrite join_snoc by done. by rewrite sapp_assoc.
Qed.
Lemma chain_spec cs : ∀ es, components es → components cs →
  ∀ p, p ∈ chain (abs es) cs ↔ ∃ d rest, d ≠ [] ∧ cs = d ++ rest ∧ p = abs (es ++ d).
Proof.
  induction cs as [|c cs IH]; intros es He Hcs p; simpl.
  - split; [by intros ?%not_elem_of_nil|]. intros (d & rest & Hd & E & _). by destruct d.
  - apply Forall_cons in Hcs as [Hc Hcs]. rewrite child_abs, elem_of_cons by done.
    rewrite IH by (done || by apply Forall_app; split; [|constructor]). split.
    + intros [->|(d & rest & Hd & -> & ->)]; [by exists [c], cs|].
      exists (c :: d), rest. by rewrite <- app_assoc.
    + intros (d & rest & Hd & E & ->). destruct d as [|c' d]; [done|]. injection E as <- ->.
      destruct d as [|c' d]; [by left|]. right. exists (c' :: d), rest. by rewrite <- app_assoc.
Qed.

(** [beneath layout p]: [p] is on the way from the home directory to [target]. *)
Definition on_the_way (home target p : string) : Prop :=
  ∃ d rest, d ≠ [] ∧ elements target = elements home ++ d ++ rest ∧ p = abs (elements home ++ d).
Definition layout_directory (layout : Layout) (p : string) : Prop :=
  ∃ target, target ∈ (layout_directories layout).*2 ∧ on_the_way (ly_HomeDir layout) target p.

Lemma layout_path_ok_canonical p : layout_path_ok p = true → canonicalAbsolutePath p = true.
Proof. unfold layout_path_ok. intros H. by unbool. Qed.
(** The components of an accepted layout. *)
Lemma NewLayout_inv homeDir installRoot stateDir layout :
  NewLayout homeDir installRoot stateDir = Ok layout →
  ∃ h i s, components (h ++ i) ∧ components (h ++ s) ∧ i ≠ [] ∧ s ≠ [] ∧
    layout = Mk_Layout (abs h) (abs (h ++ i)) (abs (h ++ s)) (abs (h ++ i ++ ["versions"]))
      (abs (h ++ i ++ ["deployment.json"])) (abs (h ++ i ++ ["deployment-journal.json"]))
      (abs (h ++ i ++ [".deployment.lock"])) ∧
    homeDir = abs h ∧ installRoot = abs (h ++ i) ∧ stateDir = abs (h ++ s).
Proof.
  unfold NewLayout. destruct (negb _) eqn:E; [done|]. unbool.
  apply layout_path_ok_canonical, canonical_inv in H as (h & Hh & ->), H1 as (i & Hi & ->), H0 as (s & Hs & ->).
  destruct (requireStrictDescendant (abs h) (abs i) _) as [[]|] eqn:E1; [|done].
  destruct (requireStrictDescendant (abs h) (abs s) _) as [[]|] eqn:E2; [|done].
  apply requireStrictDescendant_abs in E1 as (i' & Hi' & ->), E2 as (s' & Hs' & ->); try done.
  intros [= <-]. exists h, i', s'. by rewrite !Join_abs, <- !app_assoc.
Qed.

Lemma open_components_path b cs : ∀ current n w r,
  (open_components b current n cs w).2 = Ok r → r.1 = foldl child current cs.
Proof.
  induction cs as [|c cs IH]; intros current n w r; simpl; [by intros [= <-]|].
  unfold mbind, fsm_bind. destruct (in_context _ _ w) as [w1 [m|]]; [|done].
  destruct (trusted _ _ _ w1) as [w2 [[]|]]; [|done]. apply IH.
Qed.
Lemma foldl_child cs : ∀ es, components es → components cs → foldl child (abs es) cs = abs (es ++ cs).
Proof.
  induction cs as [|c cs IH]; intros es He Hcs; simpl; [by rewrite app_nil_r|].
  apply Forall_cons in Hcs as [Hc Hcs]. rewrite child_abs, IH; [by rewrite <- app_assoc|apply Forall_app; by split; [|constructor]|done|done].
Qed.
Lemma openVerifiedDirectory_path h b w r : components h →
  (openVerifiedDirectory (abs h) b w).2 = Ok r → r = abs h.
Proof.
  intros Hh. unfold openVerifiedDirectory, mbind, fsm_bind.
  destruct (valid_or_fail _ w) as [w1 [[]|]]; [|done].
  destruct (in_context _ _ w1) as [w2 [root|]]; [|done].
  destruct (trusted _ _ _ w2) as [w3 [[]|]]; [|done].
  assert (E : match split "/" (trim_prefix "/" (abs h)) with [""] => [] | _ => split "/" (trim_prefix "/" (abs h)) end = h).
  { change (trim_prefix "/" (abs h)) with (join "/" h). destruct h as [|c h]; [done|].
    rewrite split_join by (done || by apply component_plain). destruct c; [|done]. by apply Forall_cons in Hh as [? _]. }
  rewrite E. destruct (open_components b "/" root h w3) as [w4 [[opened n]|]] eqn:Eo; [|done].
  assert (Hp : opened = abs h).
  { assert (H := open_components_path b h "/" root w3 (opened, n)). rewrite Eo in H. simpl in H.
    rewrite H by done. by apply (foldl_child h []). }
  destruct b; [destruct (trusted _ _ _ w4) as [w5 [[]|]]; [|done]|]; by intros [= <-].
Qed.
Lemma relative_to_abs layout h d : ly_HomeDir layout = abs h → components (h ++ d) → d ≠ [] →
  split "/" (relative_to layout (abs (h ++ d))) = d.
Proof.
  intros E Hc Hd. pose proof Hc as [Hh Hd']%Forall_app. unfold relative_to.
  rewrite E, Rel_abs by done. case_bool_decide as E'.
  { apply (f_equal length) in E'. rewrite length_app in E'. destruct d; [done|]. simpl in E'. lia. }
  rewrite strip_common_app. simpl. by apply split_join, component_plain.
Qed.
Lemma elements_beneath h d : components (h ++ d) → elements (abs (h ++ d)) = elements (abs h) ++ d.
Proof. intros Hc. pose proof Hc as [Hh _]%Forall_app. by rewrite !elements_abs. Qed.

Lemma prepares_target o layout h d : ly_HomeDir layout = abs h → components (h ++ d) → d ≠ [] →
  abs (h ++ d) ∈ (layout_directories layout).*2 →
  prepares o (layout_directory layout) (ensureDirectoryBelow (abs h) (relative_to layout (abs (h ++ d))))
    (λ _ fs, secure_directory o fs (abs (h ++ d))).
Proof.
  intros Eh Hc Hd Hin. pose proof Hc as [Hh Hd']%Forall_app.
  assert (Hall : Forall (layout_directory layout) (chain (abs h) d)).
  { apply Forall_forall. intros p (d1 & rest & Hne & -> & ->)%chain_spec; [|done..].
    exists (abs (h ++ d1 ++ rest)). split; [done|]. exists d1, rest.
    by rewrite Eh, elements_beneath, elements_abs by done. }
  eapply prepares_impl.
  - apply prepares_ensureDirectoryBelow. by rewrite (relative_to_abs layout h d).
  - rewrite (relative_to_abs layout h d) by done. intros _ fs HF. rewrite Forall_forall in HF. apply HF.
    apply chain_spec; [done..|]. exists d, []. by rewrite app_nil_r.
Qed.

(** A computation that only reads, and what its result is known to satisfy. *)
Lemma prepares_bind_quiet {A B} (m : FsM A) (f : A → FsM B) o new (R : A → Prop) Q :
  Quiet m → (∀ w a, (m w).2 = Ok a → R a) → (∀ a, R a → prepares o new (f a) Q) → prepares o new (m ≫= f) Q.
Proof.
  intros Hq HR Hf fs. eapply (fs_triple_bind _ _ _ _ _ (λ a fs', fs' = fs ∧ R a)).
  - intros w <- Ho. destruct (Hq w) as (E1 & E2 & E3). rewrite E1. split.
    + split; [done|]. exists []. rewrite E1, E2. by repeat constructor.
    + intros a Ha. split; [done|eauto].
  - intros a ? [-> Ha]. by apply Hf.
Qed.
Lemma in_context_ok {A} context (m : FsM A) w a : (in_context context m w).2 = Ok a → (m w).2 = Ok a.
Proof. unfold in_context. by destruct (m w) as [? []]. Qed.

(** Release identifiers and binary names as path components. *)
Lemma contains_byte_bytes c s : contains_byte c s = true → byteZ c ∈ bytes_list s.
Proof.
  induction s as [|d s IH]; [done|]. cbn [contains_byte bytes_list]. rewrite orb_true_iff, elem_of_cons.
  intros [->%Ascii.eqb_eq|H]; auto.
Qed.
Lemma Valid_component r : Valid r = true → component r = true.
Proof.
  unfold Valid. intros H. unbool. pose proof H0 as Hm. apply matches_spec in Hm.
  unfold component. rewrite (matches_without _ _ "/" H0 eq_refl). rewrite andb_true_r.
  assert (Hf : ∀ z l, bytes_list r = z :: l → z ≠ 46).
  { intros z l E. rewrite E in Hm. apply lang_firsts in Hm. intros ->. by vm_compute in Hm. }
  destruct r as [|c r]; [done|]. assert (Hc : byteZ c ≠ 46) by by eapply Hf.
  destruct (String.eqb_spec (String c r) ".") as [[= -> _]|]; [done|].
  destruct (String.eqb_spec (String c r) "..") as [[= -> _]|]; done.
Qed.
Definition binary_name (target : Target) : string :=
  "sshserver-" +:+ tg_OS target +:+ "-" +:+ tg_Architecture target.
Lemma binary_name_component target : isSupportedTarget target = true → component (binary_name target) = true.
Proof.
  unfold isSupportedTarget. intros H. unbool. unfold supportedTargets in H.
  repeat (apply elem_of_cons in H as [->|H]; [done|]). by apply not_elem_of_nil in H.
Qed.
Lemma binary_name_inj t1 t2 : isSupportedTarget t1 = true → isSupportedTarget t2 = true →
  binary_name t1 = binary_name t2 → t1 = t2.
Proof.
  unfold isSupportedTarget. intros H1 H2. unbool. unfold supportedTargets in *.
  repeat (apply elem_of_cons in H1 as [->|H1]; [|]); try by apply not_elem_of_nil in H1.
  all: repeat (apply elem_of_cons in H2 as [->|H2]; [try done|]); by apply not_elem_of_nil in H2.
Qed.
Lemma BinaryPath_abs v layout release target p : components v → ly_VersionsDir layout = abs v →
  BinaryPath layout release target = Ok p ↔
  Valid release = true ∧ isSupportedTarget target = true ∧ p = abs (v ++ [release; binary_name target]).
Proof.
  intros Hv E. unfold BinaryPath, VersionDir. destruct (Valid release) eqn:Hr; [|split; [done|by intros [? _]]].
  simpl. destruct (isSupportedTarget target) eqn:Ht; [|split; [done|by intros (_ & ? & _)]]. simpl.
  apply Valid_component in Hr. apply binary_name_component in Ht.
  rewrite E, Join_abs by done. fold (binary_name target).
  rewrite Join_abs by (done || by apply Forall_app; split; [|constructor]). rewrite <- app_assoc.
  split; [intros [= <-]; done|]. by intros (_ & _ & ->).
Qed.

Lemma validateLayoutShape_ok layout w w' :
  validateLayoutShape layout w = (w', Ok tt) →
  w_euid w ≠ 0 ∧ NewLayout (ly_HomeDir layout) (ly_InstallRoot layout) (ly_StateDir layout) = Ok layout.
Proof.
  unfold validateLayoutShape, mbind, fsm_bind, ask, check.
  destruct (Z.eqb_spec (w_euid w) 0); [done|]. simpl.
  destruct (NewLayout _ _ _) as [rebuilt|]; [|done]. case_bool_decide; [|done]. by subst.
Qed.

(** Preparing directories of a layout whose shape has been validated. *)
Lemma layout_targets layout :
  NewLayout (ly_HomeDir layout) (ly_InstallRoot layout) (ly_StateDir layout) = Ok layout →
  ∃ h, components h ∧ ly_HomeDir layout = abs h ∧
    ∀ x, x ∈ layout_directories layout → ∃ d, d ≠ [] ∧ components (h ++ d) ∧ x.2 = abs (h ++ d).
Proof.
  intros (h & i & s & Hi & Hs & Hni & Hns & E & Eh & Ei & Es)%NewLayout_inv.
  pose proof Hi as [Hh _]%Forall_app. exists h. split_and!; [done|done|].
  intros x Hx. unfold layout_directories in Hx. rewrite Ei, Es, E in Hx.
  repeat (apply elem_of_cons in Hx as [->|Hx]; [simpl|]); [by eauto| |by eauto|by apply not_elem_of_nil in Hx].
  exists (i ++ ["versions"]). split_and!; [by destruct i| |done]. rewrite app_assoc. apply Forall_app.
  by split; [|constructor].
Qed.
Lemma prepares_shape {A} o new layout (m : FsM A) Q :
  (o ≠ 0 → NewLayout (ly_HomeDir layout) (ly_InstallRoot layout) (ly_StateDir layout) = Ok layout → prepares o new m Q) →
  prepares o new (_ ← validateLayoutShape layout; m) Q.
Proof.
  intros Hm fs. eapply (fs_triple_bind _ _ _ _ _ (λ _ fs', fs' = fs ∧ o ≠ 0 ∧
    NewLayout (ly_HomeDir layout) (ly_InstallRoot layout) (ly_StateDir layout) = Ok layout)).
  - intros w Hw Ho. destruct (quiet_shape layout w) as (E1 & E2 & E3).
    destruct (validateLayoutShape layout w) as [w' r] eqn:E. simpl in *. split.
    + split; [done|]. exists []. rewrite E1, E2, Hw. by repeat constructor.
    + intros [] ->. apply validateLayoutShape_ok in E as [? ?]. split_and!; congruence.
  - intros _ ? (-> & Ho & Hl). by apply Hm.
Qed.
Lemma prepares_home {A} o new layout h (f : string → FsM A) Q : components h → ly_HomeDir layout = abs h →
  prepares o new (f (abs h)) Q →
  prepares o new (home ← in_context "validate home directory" (openVerifiedDirectory (ly_HomeDir layout) true); f home) Q.
Proof.
  intros Hh Eh Hf. apply (prepares_bind_quiet _ _ _ _ (λ home, home = abs h)); [quiet| |by intros ? ->].
  intros w a H%in_context_ok. rewrite Eh in H. by apply openVerifiedDirectory_path in H.
Qed.
Lemma prepares_PrepareLayout o layout :
  prepares o (layout_directory layout) (PrepareLayout layout) (λ _ fs,
    o ≠ 0 ∧ Forall (secure_directory o fs) (layout_directories layout).*2).
Proof.
  apply prepares_shape. intros Ho (h & Hh & Eh & Hdirs)%layout_targets. apply (prepares_home _ _ _ h); [done|done|].
  eapply prepares_impl.
  - apply (prepares_each _ _ _ (λ x fs, secure_directory o fs x.2)).
    + intros x fs fs' H Hg. by eapply grows_secure.
    + apply Forall_forall. intros [name target] Hx. apply prepares_context.
      destruct (Hdirs _ Hx) as (d & Hd & Hc & Et). simpl in Et. subst target.
      apply prepares_target; [done..|]. apply (list_elem_of_fmap_2 snd _ _ Hx).
  - intros ? fs HF. split; [done|]. apply Forall_fmap. exact HF.
Qed.
Lemma prepares_prepareLayoutDirectory o layout target name : target ∈ (layout_directories layout).*2 →
  prepares o (layout_directory layout) (prepareLayoutDirectory layout target name) (λ _ fs, secure_directory o fs target).
Proof.
  intros Hin. apply prepares_shape. intros _ (h & Hh & Eh & Hdirs)%layout_targets.
  apply list_elem_of_fmap in Hin as (x & -> & Hx). destruct (Hdirs _ Hx) as (d & Hd & Hc & Et).
  apply (prepares_home _ _ _ h); [done|done|]. apply prepares_context. rewrite Et. apply prepares_target; [done..|].
  rewrite <- Et. by apply (list_elem_of_fmap_2 snd).
Qed.
Lemma prepares_wider {A} o (new new' : string → Prop) (m : FsM A) Q :
  (∀ p, new p → new' p) → prepares o new m Q → prepares o new' m Q.
Proof.
  intros Hn Hm fs w Hw Ho. destruct (Hm fs w Hw Ho) as [Hp Hq].
  assert (Hg : ∀ fs', grows o new fs fs' → grows o new' fs fs').
  { intros fs' H p. destruct (H p) as [?|(? & ? & ?)]; [by left|right; auto]. }
  split; [by eapply passes_impl|]. intros a Ha. destruct (Hq a Ha). auto.
Qed.

(** [PrepareVersionDirectory] may also add the directory of one release. *)
Definition deployment_directory (layout : Layout) (p : string) : Prop :=
  layout_directory layout p ∨ ∃ release, Valid release = true ∧ p = child (ly_VersionsDir layout) release.
Lemma prepares_PrepareVersionDirectory o layout release :
  prepares o (deployment_directory layout) (PrepareVersionDirectory layout release) (λ _ _, True).
Proof.
  unfold PrepareVersionDirectory. eapply prepares_impl; [eapply (prepares_bind _ _ _ _ _ (λ _ _ _, True))|done].
  { eapply prepares_wider; [|apply prepares_PrepareLayout]. by left. }
  intros _. unfold VersionDir. destruct (Valid release) eqn:Hr; [|apply prepares_raise]. simpl.
  eapply (prepares_bind_quiet _ _ _ _ (λ root, root = ly_VersionsDir layout)); [quiet| |].
  { intros w a. unfold openSecureDirectory, mbind, fsm_bind.
    destruct (open_directory_nofollow _ w) as [w1 [n|]]; [|done]. destruct (validateDirectoryFD n w1) as [w2 [[]|]]; [|done].
    by intros [= <-]. }
  intros root ->. eapply prepares_impl; [eapply (prepares_bind _ _ _ _ _ (λ _ _ _, True))|done].
  - apply prepares_context, prepares_ensureDirectoryBelow.
    rewrite split_plain by by apply component_inv, Valid_component. apply Forall_singleton. right. eauto.
  - intros _. apply prepares_quiet. quiet.
Qed.

(** PrepareLayout is safe, whatever fails and wherever it stops: all it ever does to
    the file system is to add directories, owned by the user, on the way from the home
    directory to the install root, the versions directory and the state directory; no
    existing file, link or directory is touched.  It succeeds only for a user other than
    root, and then the three directories exist, belong to that user and cannot be written
    by anybody else. *)
Theorem prepare_layout_safe (layout : Layout) (w : World) :
  let run := PrepareLayout layout w in
  (∃ added, w_trace run.1 = added ++ w_trace w ∧
     Forall (grows (w_euid w) (layout_directory layout) (w_files w)) (w_files run.1 :: added)) ∧
  (run.2 = Ok tt → w_euid w ≠ 0 ∧
     Forall (secure_directory (w_euid w) (w_files run.1)) (layout_directories layout).*2).
Proof.
  intros run. destruct (prepares_PrepareLayout (w_euid w) layout (w_files w) w eq_refl eq_refl)
    as [(_ & added & Ht & HF & Hw) Hok].
  split; [exists added; split; [done|by constructor]|]. intros H. by destruct (Hok tt H) as (_ & ? & ?).
Qed.

(** Binary paths are immutable names: in an accepted layout the path of a binary
    determines its release and its platform, lies strictly beneath the versions directory
    and the home directory, and is none of the metadata files. *)
Theorem binary_path_determines_release (homeDir installRoot stateDir : string) (layout : Layout)
    (r1 r2 : string) (t1 t2 : Target) (p : string) :
  NewLayout homeDir installRoot stateDir = Ok layout →
  BinaryPath layout r1 t1 = Ok p → BinaryPath layout r2 t2 = Ok p →
  r1 = r2 ∧ t1 = t2 ∧
  requireStrictDescendant (ly_VersionsDir layout) p "" = Ok tt ∧ requireStrictDescendant homeDir p "" = Ok tt ∧
  p ≠ ly_StatePath layout ∧ p ≠ ly_JournalPath layout ∧ p ≠ ly_LockPath layout.
Proof.
  intros (h & i & s & Hi & Hs & Hni & Hns & -> & -> & _ & _)%NewLayout_inv H1 H2.
  pose proof Hi as [Hh Hi']%Forall_app.
  assert (Hv : components (h ++ i ++ ["versions"])) by (rewrite app_assoc; apply Forall_app; by split; [|constructor]).
  eapply (BinaryPath_abs _ _ _ _ _ Hv) in H1 as (V1 & T1 & ->); [|done].
  eapply (BinaryPath_abs _ _ _ _ _ Hv) in H2 as (V2 & T2 & E); [|done]. simpl ly_VersionsDir.
  assert (Hc : ∀ r t, Valid r = true → isSupportedTarget t = true →
    components ((h ++ i ++ ["versions"]) ++ [r; binary_name t])).
  { intros r t Hr Ht. apply Forall_app. split; [done|]. repeat constructor; auto using Valid_component, binary_name_component. }
  apply abs_inj in E; [|by apply Hc..]. apply app_inv_head in E. apply (f_equal (λ l, (hd "" l, hd "" (tl l)))) in E. apply pair_eq in E as [E En].
  simpl in E, En. subst r2.
  apply binary_name_inj in En as <-; [|done..].
  assert (Hmeta : ∀ name, component name = true →
    abs ((h ++ i ++ ["versions"]) ++ [r1; binary_name t1]) ≠ abs (h ++ i ++ [name])).
  { intros name Hn E. apply abs_inj in E; [|by apply Hc|rewrite app_assoc; apply Forall_app; by split; [|constructor]].
    apply (f_equal length) in E. rewrite !length_app in E. simpl in E. lia. }
  split_and!; [done|done| | |by apply Hmeta..].
  - apply requireStrictDescendant_abs; [done|by apply Hc|]. by exists [r1; binary_name t1].
  - apply requireStrictDescendant_abs; [done|by apply Hc|]. rewrite <- app_assoc.
    eexists. split; [|done]. by destruct i.
Qed.

(** ** A concrete deployment *)
Definition sample_layout : Layout :=
  match NewLayout "/home/u" "/home/u/.local/share/jat/sshserver-deployment" "/home/u/.local/state/jat/sshserver" with
  | Ok layout => layout | Err _ => Mk_Layout "" "" "" "" "" "" "" end.
Definition home_files : files :=
  <["/" := Directory 493 0]> (<["/home" := Directory 493 0]> (<["/home/u" := Directory 448 1000]> ∅)).
Definition home_world : World := mkWorld home_files 1000 18 (repeat 7 64) Z.of_nat [] [].

Example layout_examples :
  (PrepareLayout sample_layout home_world).2 = Ok tt ∧
  w_files (PrepareLayout sample_layout home_world).1 !! ly_VersionsDir sample_layout = Some (Directory 448 1000) ∧
  DefaultLayout (Ok "/home/u") (Ok "/home/u") (DefaultStateDir (Ok "/home/u") "linux" "") "linux" "" = Ok sample_layout ∧
  BinaryPath sample_layout "1.0.0" (Mk_Target "linux" "arm64") =
    Ok "/home/u/.local/share/jat/sshserver-deployment/versions/1.0.0/sshserver-linux-arm64" ∧
  (PrepareVersionDirectory sample_layout "1.0.0" home_world).2 =
    Ok "/home/u/.local/share/jat/sshserver-deployment/versions/1.0.0".
Proof. vm_compute. done. Qed.

Lemma binary_path_determines_release_witness :
  NewLayout "/home/u" "/home/u/.local/share/jat/sshserver-deployment" "/home/u/.local/state/jat/sshserver" = Ok sample_layout ∧
  "/home/u/.local/share/jat/sshserver-deployment/versions/1.0.0/sshserver-linux-arm64" ≠ ly_StatePath sample_layout.
Proof.
  assert (H : NewLayout "/home/u" "/home/u/.local/share/jat/sshserver-deployment" "/home/u/.local/state/jat/sshserver" =
    Ok sample_layout) by (vm_compute; reflexivity).
  assert (Hb : BinaryPath sample_layout "1.0.0" (Mk_Target "linux" "arm64") =
    Ok "/home/u/.local/share/jat/sshserver-deployment/versions/1.0.0/sshserver-linux-arm64") by (vm_compute; reflexivity).
  split; [exact H|]. exact (proj1 (proj2 (proj2 (proj2 (proj2 (binary_path_determines_release _ _ _ _ _ _ _ _ _ H Hb Hb)))))).
Defined.
