(* ===== verification/Deploy.v ===== *)
(** * Deployment state and journal: state.go

    [src/runtime/internal/deployment/state.go] with the file access of
    [protected_unix.go]: the installed release, the committed deployment state and the
    journal of the transaction in progress; what makes each valid; and the two
    owner-only metadata files that hold them, in one canonical byte form. *)

From stdpp Require Import base list strings gmap.
From Stdlib Require Import ZArith Lia Ascii.
From Stdlib Require String.
From S2P Require Import Prelude GoStd Json JsonFacts Api Wire Indent Release NetIP Fs Paths Config Layout.
Local Open Scope Z_scope.

Definition DeploymentStateVersion : Z := 1.
Definition maxDeploymentFileBytes : Z := 64 * 1024.
Definition maxArtifactBytes : Z := 256 * 1024 * 1024.
Definition maxReleaseFileBytes : Z := 4 * 1024 * 1024.
Definition transactionIDPattern : regexp := Repeat 32 lower_hex.

Definition StatusActive : string := "active".
Definition StatusForeground : string := "foreground".
Definition StatusUninstalled : string := "uninstalled".
Definition ManagerNone : string := "none".
Definition ManagerForeground : string := "foreground".
Definition ManagerSystemd : string := "systemd-user".
Definition ManagerLaunchd : string := "launchd-user".
Definition OperationApply : string := "apply".
Definition OperationRollback : string := "rollback".
Definition OperationUninstall : string := "uninstall".
Definition PhasePlanned : string := "planned".
Definition PhaseArtifactStaged : string := "artifact_staged".
Definition PhaseInstanceReady : string := "instance_ready".
Definition PhasePriorServiceStopped : string := "prior_service_stopped".
Definition PhaseDefinitionInstalled : string := "definition_installed".
Definition PhaseActivated : string := "activated".
Definition PhaseHealthVerified : string := "health_verified".
Definition PhaseDefinitionRemoved : string := "definition_removed".
Definition PhaseRemovingArtifacts : string := "removing_artifacts".
Definition PhaseArtifactsRemoved : string := "artifacts_removed".
Definition PhaseCommitting : string := "committing".
Definition PhaseStateSaved : string := "state_saved".

(** ** Records *)
Record InstalledRelease := Mk_InstalledRelease {
  ir_Release : string;
  ir_SourceRevision : string;
  ir_BuildToolchain : string;
  ir_BuildIdentity : string;
  ir_ManifestSHA256 : string;
  ir_ProtocolVersion : string;
  ir_StorageSchema : string;
  ir_OS : string;
  ir_Architecture : string;
  ir_BinaryPath : string;
  ir_BinaryBytes : Z;
  ir_BinarySHA256 : string;
  ir_LicenseBytes : Z;
  ir_LicenseSHA256 : string;
  ir_NoticeBytes : Z;
  ir_NoticeSHA256 : string }.
#[export] Instance InstalledRelease_eq_dec : EqDecision InstalledRelease.
Proof. solve_decision. Defined.
#[export] Instance InstalledRelease_json : GoJSON InstalledRelease :=
  {| go_ty := TStruct [
       ("release", go_ty (string)); ("source_revision", go_ty (string)); ("build_toolchain", go_ty (string));
       ("build_identity", go_ty (string)); ("manifest_sha256", go_ty (string)); ("protocol_version", go_ty
       (string)); ("storage_schema", go_ty (string)); ("os", go_ty (string)); ("architecture", go_ty (string));
       ("binary_path", go_ty (string)); ("binary_bytes", go_ty (Z)); ("binary_sha256", go_ty (string));
       ("license_bytes", go_ty (Z)); ("license_sha256", go_ty (string)); ("notice_bytes", go_ty (Z));
       ("notice_sha256", go_ty (string))];
     to_g a := GStruct [
       to_g (ir_Release a); to_g (ir_SourceRevision a); to_g (ir_BuildToolchain a); to_g (ir_BuildIdentity a);
       to_g (ir_ManifestSHA256 a); to_g (ir_ProtocolVersion a); to_g (ir_StorageSchema a); to_g (ir_OS a); to_g
       (ir_Architecture a); to_g (ir_BinaryPath a); to_g (ir_BinaryBytes a); to_g (ir_BinarySHA256 a); to_g
       (ir_LicenseBytes a); to_g (ir_LicenseSHA256 a); to_g (ir_NoticeBytes a); to_g (ir_NoticeSHA256 a)];
     of_g g := match g with
       | GStruct [v0; v1; v2; v3; v4; v5; v6; v7; v8; v9; v10; v11; v12; v13; v14; v15] =>
           match of_g (A:=string) v0, of_g (A:=string) v1, of_g (A:=string) v2, of_g (A:=string) v3, of_g (A:=string) v4,
             of_g (A:=string) v5, of_g (A:=string) v6, of_g (A:=string) v7, of_g (A:=string) v8, of_g (A:=string) v9,
             of_g (A:=Z) v10, of_g (A:=string) v11, of_g (A:=Z) v12, of_g (A:=string) v13, of_g (A:=Z) v14, of_g
             (A:=string) v15 with
           | Some a0, Some a1, Some a2, Some a3, Some a4, Some a5, Some a6, Some a7, Some a8, Some a9, Some a10, Some
             a11, Some a12, Some a13, Some a14, Some a15 =>
               Some (Mk_InstalledRelease a0 a1 a2 a3 a4 a5 a6 a7 a8 a9 a10 a11 a12 a13 a14 a15)
           | _, _, _, _, _, _, _, _, _, _, _, _, _, _, _, _ => None end
       | _ => None end |}.
#[export] Instance InstalledRelease_json_laws : GoJSONLaws InstalledRelease.
Proof. solve_struct_laws. Qed.

Record DeploymentState := Mk_DeploymentState {
  ds_StateVersion : Z;
  ds_Generation : Z;
  ds_Status : string;
  ds_Manager : string;
  ds_StateDir : string;
  ds_ServiceDefinition : string;
  ds_Active : option InstalledRelease;
  ds_Previous : option InstalledRelease }.
#[export] Instance DeploymentState_eq_dec : EqDecision DeploymentState.
Proof. solve_decision. Defined.
#[export] Instance DeploymentState_json : GoJSON DeploymentState :=
  {| go_ty := TStruct [
       ("state_version", go_ty (Z)); ("generation", TUint); ("status", go_ty (string)); ("manager", go_ty
       (string)); ("state_dir", go_ty (string)); ("service_definition", go_ty (string)); ("active", go_ty
       (option InstalledRelease)); ("previous", go_ty (option InstalledRelease))];
     to_g a := GStruct [
       to_g (ds_StateVersion a); to_g (ds_Generation a); to_g (ds_Status a); to_g (ds_Manager a); to_g
       (ds_StateDir a); to_g (ds_ServiceDefinition a); to_g (ds_Active a); to_g (ds_Previous a)];
     of_g g := match g with
       | GStruct [v0; v1; v2; v3; v4; v5; v6; v7] =>
           match of_g (A:=Z) v0, of_g (A:=Z) v1, of_g (A:=string) v2, of_g (A:=string) v3, of_g (A:=string) v4, of_g
             (A:=string) v5, of_g (A:=option InstalledRelease) v6, of_g (A:=option InstalledRelease) v7 with
           | Some a0, Some a1, Some a2, Some a3, Some a4, Some a5, Some a6, Some a7 =>
               Some (Mk_DeploymentState a0 a1 a2 a3 a4 a5 a6 a7)
           | _, _, _, _, _, _, _, _ => None end
       | _ => None end |}.
#[export] Instance DeploymentState_json_laws : GoJSONLaws DeploymentState.
Proof. solve_struct_laws. Qed.

Record DeploymentJournal := Mk_DeploymentJournal {
  dj_StateVersion : Z;
  dj_TransactionID : string;
  dj_Operation : string;
  dj_Phase : string;
  dj_Manager : string;
  dj_ServiceDefinition : string;
  dj_SourcePath : string;
  dj_LicenseSourcePath : string;
  dj_NoticeSourcePath : string;
  dj_Desired : option InstalledRelease;
  dj_PriorState : option DeploymentState }.
#[export] Instance DeploymentJournal_eq_dec : EqDecision DeploymentJournal.
Proof. solve_decision. Defined.
#[export] Instance DeploymentJournal_json : GoJSON DeploymentJournal :=
  {| go_ty := TStruct [
       ("state_version", go_ty (Z)); ("transaction_id", go_ty (string)); ("operation", go_ty (string));
       ("phase", go_ty (string)); ("manager", go_ty (string)); ("service_definition", go_ty (string));
       ("source_path", go_ty (string)); ("license_source_path", go_ty (string)); ("notice_source_path", go_ty
       (string)); ("desired", go_ty (option InstalledRelease)); ("prior_state", go_ty (option DeploymentState))];
     to_g a := GStruct [
       to_g (dj_StateVersion a); to_g (dj_TransactionID a); to_g (dj_Operation a); to_g (dj_Phase a); to_g
       (dj_Manager a); to_g (dj_ServiceDefinition a); to_g (dj_SourcePath a); to_g (dj_LicenseSourcePath a);
       to_g (dj_NoticeSourcePath a); to_g (dj_Desired a); to_g (dj_PriorState a)];
     of_g g := match g with
       | GStruct [v0; v1; v2; v3; v4; v5; v6; v7; v8; v9; v10] =>
           match of_g (A:=Z) v0, of_g (A:=string) v1, of_g (A:=string) v2, of_g (A:=string) v3, of_g (A:=string) v4, of_g
             (A:=string) v5, of_g (A:=string) v6, of_g (A:=string) v7, of_g (A:=string) v8, of_g (A:=option
             InstalledRelease) v9, of_g (A:=option DeploymentState) v10 with
           | Some a0, Some a1, Some a2, Some a3, Some a4, Some a5, Some a6, Some a7, Some a8, Some a9, Some a10 =>
               Some (Mk_DeploymentJournal a0 a1 a2 a3 a4 a5 a6 a7 a8 a9 a10)
           | _, _, _, _, _, _, _, _, _, _, _ => None end
       | _ => None end |}.
#[export] Instance DeploymentJournal_json_laws : GoJSONLaws DeploymentJournal.
Proof. solve_struct_laws. Qed.

(** The journal with another phase. *)
Definition at_phase (journal : DeploymentJournal) (phase : string) : DeploymentJournal :=
  Mk_DeploymentJournal (dj_StateVersion journal) (dj_TransactionID journal) (dj_Operation journal) phase
    (dj_Manager journal) (dj_ServiceDefinition journal) (dj_SourcePath journal) (dj_LicenseSourcePath journal)
    (dj_NoticeSourcePath journal) (dj_Desired journal) (dj_PriorState journal).

(** ** Validation *)
Abbreviation fails c e := (if c then Err (e : string) else Ok tt).
(** Checks in order: the first failure is the result. *)
Fixpoint all_ok (checks : list (res string unit)) : res string unit :=
  match checks with [] => Ok tt | Ok _ :: rest => all_ok rest | Err e :: _ => Err e end.
Definition result_of {A} (r : res string A) : res string unit :=
  match r with Ok _ => Ok tt | Err e => Err e end.
Definition when_some {A} (o : option A) (f : A → res string unit) : res string unit :=
  match o with Some a => f a | None => Ok tt end.

(** Method [validate] of [InstalledRelease]. *)
Definition validate_release (layout : Layout) (release : InstalledRelease) : res string unit :=
  let digest s := matches hexDigestPattern s in
  let size_ok n limit := (0 <? n) && (n <=? limit) in
  let target := Mk_Target (ir_OS release) (ir_Architecture release) in
  let wantPath := BinaryPath layout (ir_Release release) target in
  all_ok [
    fails (negb (Valid (ir_Release release))) "installed release identifier is invalid";
    fails (negb (matches sourceRevisionPattern (ir_SourceRevision release)) ||
           negb (matches toolchainPattern (ir_BuildToolchain release)) ||
           negb (digest (ir_BuildIdentity release)) || negb (digest (ir_ManifestSHA256 release)) ||
           negb (digest (ir_BinarySHA256 release))) "installed release identity is invalid";
    fails (negb (String.eqb (ir_ProtocolVersion release) "1") || negb (String.eqb (ir_StorageSchema release) "1"))
      "installed release is incompatible with V1";
    result_of wantPath;
    fails (negb (match wantPath with Ok p => String.eqb (ir_BinaryPath release) p | Err _ => false end) ||
           negb (IsAbs (ir_BinaryPath release)) || negb (String.eqb (Clean (ir_BinaryPath release)) (ir_BinaryPath release)))
      "installed binary path does not match the immutable release layout";
    fails (negb (size_ok (ir_BinaryBytes release) maxArtifactBytes)) "installed binary size is invalid";
    fails (negb (size_ok (ir_LicenseBytes release) maxReleaseFileBytes) ||
           negb (size_ok (ir_NoticeBytes release) maxReleaseFileBytes) ||
           negb (digest (ir_LicenseSHA256 release)) || negb (digest (ir_NoticeSHA256 release)))
      "installed release support-file metadata is invalid"].

Definition SupportFilePath (layout : Layout) (release : InstalledRelease) (name : string) : res string string :=
  if negb (String.eqb name "LICENSE") && negb (String.eqb name "NOTICE")
    then Err "release support file must be LICENSE or NOTICE"
  else match VersionDir layout (ir_Release release) with
       | Err e => Err e
       | Ok versionDir => Ok (Join [versionDir; name])
       end.

Definition os_is (o : option InstalledRelease) (os : string) : bool :=
  match o with Some release => String.eqb (ir_OS release) os | None => false end.
(** Method [Validate] of [DeploymentState]. *)
Definition validate_state (layout : Layout) (state : DeploymentState) : res string unit :=
  let active := ds_Active state in
  let manager := ds_Manager state in
  let definition := ds_ServiceDefinition state in
  all_ok [
    fails (negb (ds_StateVersion state =? DeploymentStateVersion) || (ds_Generation state =? 0))
      "deployment state version or generation is invalid";
    fails (negb (String.eqb (ds_StateDir state) (ly_StateDir layout)))
      "deployment state directory does not match the protected layout";
    when_some active (validate_release layout);
    when_some (ds_Previous state) (validate_release layout);
    fails (match active, ds_Previous state with
           | Some a, Some p => String.eqb (ir_ManifestSHA256 a) (ir_ManifestSHA256 p)
           | _, _ => false end) "active and previous releases must be distinct";
    if String.eqb (ds_Status state) StatusActive then
      all_ok [
        fails (bool_decide (active = None) ||
               (negb (String.eqb manager ManagerSystemd) && negb (String.eqb manager ManagerLaunchd)) ||
               String.eqb definition "" || negb (canonicalAbsolutePath definition))
          "active deployment state lacks a user service manager and definition";
        requireStrictDescendant (ly_HomeDir layout) definition "service definition";
        fails (negb (Bool.eqb (String.eqb manager ManagerSystemd) (os_is active "linux")) ||
               negb (Bool.eqb (String.eqb manager ManagerLaunchd) (os_is active "darwin")))
          "deployment service manager does not match the active platform"]
    else if String.eqb (ds_Status state) StatusForeground then
      fails (bool_decide (active = None) || negb (String.eqb manager ManagerForeground) || negb (String.eqb definition ""))
        "foreground deployment state is inconsistent"
    else if String.eqb (ds_Status state) StatusUninstalled then
      fails (negb (bool_decide (active = None)) || negb (String.eqb manager ManagerNone) || negb (String.eqb definition ""))
        "uninstalled deployment state is inconsistent"
    else Err "deployment status is invalid"].

Definition allowed_phases (operation : string) : list string :=
  if String.eqb operation OperationApply then
    [PhasePlanned; PhaseArtifactStaged; PhaseInstanceReady; PhasePriorServiceStopped; PhaseDefinitionInstalled;
     PhaseActivated; PhaseHealthVerified; PhaseCommitting; PhaseStateSaved]
  else if String.eqb operation OperationRollback then
    [PhasePlanned; PhasePriorServiceStopped; PhaseDefinitionInstalled; PhaseActivated; PhaseHealthVerified;
     PhaseCommitting; PhaseStateSaved]
  else if String.eqb operation OperationUninstall then
    [PhasePlanned; PhasePriorServiceStopped; PhaseDefinitionRemoved; PhaseRemovingArtifacts; PhaseArtifactsRemoved;
     PhaseCommitting; PhaseStateSaved]
  else [].
(** Method [Validate] of [DeploymentJournal]. *)
Definition validate_journal (layout : Layout) (journal : DeploymentJournal) : res string unit :=
  let operation := dj_Operation journal in
  let manager := dj_Manager journal in
  let definition := dj_ServiceDefinition journal in
  let artifact := dj_SourcePath journal in
  let license := dj_LicenseSourcePath journal in
  let notice := dj_NoticeSourcePath journal in
  let has_desired := negb (bool_decide (dj_Desired journal = None)) in
  all_ok [
    fails (negb (dj_StateVersion journal =? DeploymentStateVersion) ||
           negb (matches transactionIDPattern (dj_TransactionID journal))) "deployment journal identity is invalid";
    when_some (dj_Desired journal) (validate_release layout);
    when_some (dj_PriorState journal) (validate_state layout);
    fails (negb (bool_decide (dj_Phase journal ∈ allowed_phases operation)))
      "deployment journal operation or phase is invalid";
    fails (negb (Bool.eqb (String.eqb operation OperationApply || String.eqb operation OperationRollback) has_desired))
      "deployment journal desired release is inconsistent with its operation";
    if String.eqb operation OperationApply then
      all_ok [
        fails (negb (canonicalAbsolutePath artifact) || negb (canonicalAbsolutePath license) ||
               negb (canonicalAbsolutePath notice))
          "apply journal requires canonical artifact and release-file source paths";
        fails (String.eqb artifact license || String.eqb artifact notice || String.eqb license notice)
          "apply journal input paths must be distinct"]
    else fails (negb (String.eqb artifact "") || negb (String.eqb license "") || negb (String.eqb notice ""))
           "only apply journals may retain release input paths";
    match dj_Desired journal with
    | Some desired =>
        all_ok [
          if String.eqb manager ManagerForeground then
            fails (negb (String.eqb definition "")) "foreground journal must not contain a service definition"
          else if String.eqb manager ManagerSystemd then
            fails (negb (String.eqb (ir_OS desired) "linux") || negb (canonicalAbsolutePath definition))
              "systemd journal is inconsistent with the desired release"
          else if String.eqb manager ManagerLaunchd then
            fails (negb (String.eqb (ir_OS desired) "darwin") || negb (canonicalAbsolutePath definition))
              "launchd journal is inconsistent with the desired release"
          else Err "deployment journal manager is invalid";
          if negb (String.eqb definition "")
            then requireStrictDescendant (ly_HomeDir layout) definition "service definition" else Ok tt]
    | None =>
        fails (negb (String.eqb manager ManagerNone) &&
               match dj_PriorState journal with Some prior => negb (String.eqb manager (ds_Manager prior)) | None => true end)
          "uninstall journal manager does not match its prior state"
    end;
    fails (String.eqb operation OperationRollback &&
           match dj_PriorState journal with Some prior => bool_decide (ds_Active prior = None) | None => true end)
      "rollback journal requires an active prior state";
    fails (String.eqb operation OperationUninstall && bool_decide (dj_PriorState journal = None))
      "uninstall journal requires prior deployment state"].

(** ** Errors and the deployment monad

    Sentinel errors keep their identity through [%w] and [errors.Join]. *)
Inductive derr :=
| ErrNoDeploymentState | ErrNoDeploymentJournal
| ErrInjectedDeploymentCrash | ErrDeploymentPreviewConfirmationMismatch
| ErrRuntimeUnavailable | ErrInstalledReleaseFilesMissing | ErrNotDeployedExecutable
| FileError (e : ferr)
| Refused (text : string)
| Joined (first second : derr).
#[export] Instance derr_eq_dec : EqDecision derr.
Proof. solve_decision. Defined.
(** [errors.Is]. *)
Fixpoint Is (e sentinel : derr) : bool :=
  bool_decide (e = sentinel) ||
  match e with Joined first second => Is first sentinel || Is second sentinel | _ => false end.
Definition dwrap (context : string) (e : derr) : derr :=
  match e with
  | Refused text => Refused (context +:+ ": " +:+ text)
  | FileError e => FileError (wrap context e)
  | e => e
  end.

(** The machine a lifecycle operation runs on: the files, the state [H] of the host's
    service manager and runtime, and the operation's [journal] variable, which the
    steps update through a pointer. *)
Record Machine (H : Type) := mkMachine { m_world : World; m_host : H; m_journal : DeploymentJournal }.
Arguments mkMachine {H}.
Arguments m_world {H}.
Arguments m_host {H}.
Arguments m_journal {H}.
Definition DepM (H A : Type) : Type := Machine H → Machine H * res derr A.

Section monad.
Context {H : Type}.
Definition dep_ret {A} (a : A) : DepM H A := λ m, (m, Ok a).
Definition dep_bind {A B} (f : A → DepM H B) (x : DepM H A) : DepM H B := λ m,
  match x m with (m', Ok a) => f a m' | (m', Err e) => (m', Err e) end.
#[export] Instance depm_ret : MRet (DepM H) := @dep_ret.
#[export] Instance depm_bind : MBind (DepM H) := @dep_bind.
Definition fail {A} (e : derr) : DepM H A := λ m, (m, Err e).
Definition refuse {A} (text : string) : DepM H A := fail (Refused text).
Definition demand (b : bool) (text : string) : DepM H unit := if b then mret tt else refuse text.
Definition from_res {A} (r : res string A) : DepM H A := match r with Ok a => mret a | Err e => refuse e end.
Definition tried {A} (x : DepM H A) : DepM H (res derr A) := λ m, let '(m', r) := x m in (m', Ok r).
Definition within {A} (context : string) (x : DepM H A) : DepM H A := λ m,
  let '(m', r) := x m in (m', match r with Ok a => Ok a | Err e => Err (dwrap context e) end).
(** A file-system computation of the deployment. *)
Definition on_files {A} (x : FsM A) : DepM H A := λ m,
  let '(w, r) := x (m_world m) in
  (mkMachine w (m_host m) (m_journal m), match r with Ok a => Ok a | Err e => Err (FileError e) end).
Definition get_journal : DepM H DeploymentJournal := λ m, (m, Ok (m_journal m)).
Definition set_journal (journal : DeploymentJournal) : DepM H unit := λ m,
  (mkMachine (m_world m) (m_host m) journal, Ok tt).
End monad.

(** ** Metadata files (protected_unix.go) *)
Definition validateDeploymentFileFD (n : node) : FsM unit :=
  _ ← fstat;
  euid ← ask w_euid;
  match n with
  | Regular mode owner nlink _ =>
      _ ← check (owner =? euid) (Failed "deployment metadata must be owned by the current user");
      _ ← check (nlink =? 1) (Failed "deployment metadata must have exactly one hard link");
      check (Z.land mode 63 =? 0) (Failed "deployment metadata must be owner-only")
  | _ => raise (Failed "deployment metadata must be a regular file")
  end.
Definition readDeploymentFile (path : string) (limit : Z) : FsM string :=
  n ← open_nofollow path false;
  _ ← validateDeploymentFileFD n;
  _ ← sync_file;  (* ReadAll *)
  let payload := match n with Regular _ _ _ content => content | _ => "" end in
  _ ← check (slen payload <=? limit) (Failed "deployment metadata exceeds its size boundary");
  mret payload.
Definition removeDeploymentFile (path : string) : FsM unit :=
  opened ← attempt (open_nofollow path false);
  match opened with
  | Err NotExist => mret tt
  | Err e => raise e
  | Ok n =>
      _ ← validateDeploymentFileFD n;
      _ ← sync_file;  (* Close *)
      removed ← attempt (Remove path);
      _ ← match removed with Ok _ | Err NotExist => mret tt | Err e => raise e end;
      _ ← in_context "open deployment metadata directory" (open_directory_nofollow (Dir path));
      in_context "sync deployment metadata directory" sync_file
  end.
Definition RemoveConsumedInput (path : string) : FsM unit :=
  _ ← valid_or_fail (validateAbsoluteCanonicalPath path);
  removeDeploymentFile path.

Definition loadCanonicalDeploymentJSON A `{GoJSON A} (path : string) : FsM A :=
  payload ← readDeploymentFile path maxDeploymentFileBytes;
  match decodeStrictStream A payload with
  | None => raise (Failed "invalid JSON or trailing data")
  | Some destination =>
      _ ← check (String.eqb payload (indentedJSON destination))
            (Failed "deployment metadata is not in canonical byte form");
      mret destination
  end.
Definition saveCanonicalDeploymentJSON {A} `{GoJSON A} (path : string) (value : A) : FsM unit :=
  WriteFileAtomic path (indentedJSON value) 384.

(** ** Loading, saving and removing *)
Section metadata.
Context {H : Type}.
Definition load_metadata A `{GoJSON A} (missing : derr) (context path : string) (valid : A → res string unit) : DepM H A :=
  loaded ← tried (on_files (loadCanonicalDeploymentJSON A path));
  match loaded with
  | Err (FileError NotExist) => fail missing
  | Err e => fail (dwrap context e)
  | Ok value => _ ← from_res (valid value); mret value
  end.
Definition save_metadata {A} `{GoJSON A} (path : string) (valid : A → res string unit) (value : A) : DepM H unit :=
  _ ← from_res (valid value);
  on_files (saveCanonicalDeploymentJSON path value).

Definition LoadState (layout : Layout) : DepM H DeploymentState :=
  load_metadata DeploymentState ErrNoDeploymentState "load deployment state" (ly_StatePath layout) (validate_state layout).
Definition SaveState (layout : Layout) (state : DeploymentState) : DepM H unit :=
  save_metadata (ly_StatePath layout) (validate_state layout) state.
Definition LoadJournal (layout : Layout) : DepM H DeploymentJournal :=
  load_metadata DeploymentJournal ErrNoDeploymentJournal "load deployment journal" (ly_JournalPath layout)
    (validate_journal layout).
Definition SaveJournal (layout : Layout) (journal : DeploymentJournal) : DepM H unit :=
  save_metadata (ly_JournalPath layout) (validate_journal layout) journal.
Definition RemoveJournal (layout : Layout) : DepM H unit := on_files (removeDeploymentFile (ly_JournalPath layout)).
Definition RemoveState (layout : Layout) : DepM H unit := on_files (removeDeploymentFile (ly_StatePath layout)).
End metadata.

(** ** A concrete deployment *)
Definition digest_of (c : string) : string := String.concat "" (repeat c 64).
Definition sample_release (release digit : string) : InstalledRelease :=
  Mk_InstalledRelease release (String.concat "" (repeat "a" 40)) "go1.26.0" (digest_of digit) (digest_of digit) "1" "1"
    "linux" "amd64"
    ("/home/u/.local/share/jat/sshserver-deployment/versions/" +:+ release +:+ "/sshserver-linux-amd64")
    1000 (digest_of digit) 100 (digest_of digit) 200 (digest_of digit).
Definition sample_definition : string := "/home/u/.config/systemd/user/jat-sshserver.service".
Definition sample_state (generation : Z) : DeploymentState :=
  Mk_DeploymentState 1 generation StatusActive ManagerSystemd (ly_StateDir sample_layout) sample_definition
    (Some (sample_release "2.0.0" "2")) (Some (sample_release "1.0.0" "1")).
Definition sample_journal : DeploymentJournal :=
  Mk_DeploymentJournal 1 (String.concat "" (repeat "0" 32)) OperationRollback PhasePlanned ManagerSystemd sample_definition
    "" "" "" (Some (sample_release "1.0.0" "1")) (Some (sample_state 7)).
Definition prepared_world : World := (PrepareLayout sample_layout home_world).1.
Definition sample_machine : Machine unit := mkMachine prepared_world tt sample_journal.

Example metadata_examples :
  validate_state sample_layout (sample_state 7) = Ok tt ∧
  validate_journal sample_layout sample_journal = Ok tt ∧
  (LoadState sample_layout sample_machine).2 = Err ErrNoDeploymentState ∧
  ((_ ← SaveState sample_layout (sample_state 7); LoadState sample_layout) sample_machine).2 = Ok (sample_state 7) ∧
  ((_ ← SaveJournal sample_layout sample_journal; LoadJournal sample_layout) sample_machine).2 = Ok sample_journal ∧
  ((_ ← SaveJournal sample_layout sample_journal; _ ← RemoveJournal sample_layout; LoadJournal sample_layout)
     sample_machine).2 = Err ErrNoDeploymentJournal ∧
  validate_state sample_layout (sample_state 0) ≠ Ok tt.
Proof. vm_compute. done. Qed.
