(* ===== verification/Instance.v ===== *)
(** * Initialization of an instance

    [src/runtime/internal/instance]: the lease of a state directory ([lock_unix.go]) and
    the resumable initialization of its settings, secret and database ([instance.go]), on
    the files of [Fs].  The database and the advisory locks are behind [InstanceHost]:
    [store_Open] and [store_Close] are the store's, whose database is the file at the path.  No other
    process changes the paths, so that a lock path names the locked descriptor for as
    long as it names a file. *)

From stdpp Require Import base list strings gmap.
From Stdlib Require Import ZArith Lia Ascii.
From Stdlib Require String.
From S2P Require Import Prelude GoStd Uuid Json Api Wire Indent Models Release NetIP Fs Config Layout.
Local Open Scope Z_scope.

Class InstanceHost := {
  store_Open : string → Identity → FsM unit;
  store_Close : string → FsM unit;
  (** [flock(LOCK_EX|LOCK_NB)]: whether the lock was free. *)
  flock_nb : string → FsM bool;
  flock_release : string → FsM unit }.

(** [errors.Join]: the kind is that of the first error that has one. *)
Definition join_errors (first second : ferr) : ferr :=
  match first, second with
  | Failed a, Failed b => Failed (a +:+ String (chrZ 10) b)
  | Failed _, kind => kind
  | kind, _ => kind
  end.

Section instance.
Context `{InstanceHost}.

(** ** Locks *)
Inductive lockOpenMode := lockCreateOrOpen | lockCreateOnly | lockOpenOnly.
Record fileLock := mkFileLock { fl_path : string; fl_created : bool }.
Definition owner_only (euid : Z) (n : node) : bool :=
  match n with
  | Regular mode owner nlink _ => (owner =? euid) && (nlink =? 1) && (Z.land mode 63 =? 0)
  | _ => false
  end.
Definition attestPathIdentity (lock : fileLock) : FsM unit :=
  _ ← in_context "stat leased instance lock" fstat;
  n ← in_context "stat leased instance lock path" (Lstat (fl_path lock));
  euid ← ask w_euid;
  check (owner_only euid n) (Failed "leased instance lock must remain an owner-only, single-link regular file").
Definition lock_Close (lock : fileLock) : FsM unit :=
  unlocked ← attempt (flock_release (fl_path lock));
  closed ← attempt sync_file;
  match unlocked, closed with
  | Err e, _ => raise e
  | _, Err e => raise e
  | _, _ => mret tt
  end.
(** [open(2)] in the three modes; whether the file was created. *)
Definition open_lock_file (path : string) (mode : lockOpenMode) : FsM bool :=
  match mode with
  | lockCreateOnly => _ ← create_exclusive path 384; mret true
  | lockOpenOnly => _ ← open_nofollow path true; mret false
  | lockCreateOrOpen =>
      created ← attempt (create_exclusive path 384);
      match created with
      | Ok _ => mret true
      | Err Exist => _ ← open_nofollow path true; mret false
      | Err e => raise e
      end
  end.
Definition acquireNamedLockMode (stateDir name busyMessage : string) (mode : lockOpenMode) : FsM fileLock :=
  let path := Join [stateDir; name] in
  created ← in_context "open instance lock" (open_lock_file path mode);
  n ← in_context "stat instance lock" (Lstat path);
  euid ← ask w_euid;
  _ ← check (owner_only euid n) (Failed "instance lock must be an owner-only, single-link regular file");
  free ← in_context "lock instance" (flock_nb path);
  _ ← check free (Failed busyMessage);
  let lock := mkFileLock path created in
  attested ← attempt (attestPathIdentity lock);
  match attested with
  | Ok _ => mret lock
  | Err e =>
      closed ← attempt (lock_Close lock);
      raise (match closed with Ok _ => e | Err c => join_errors e (wrap "release unattested instance lock" c) end)
  end.
Definition busy_initialization : string := "another initialization is already running".
Definition acquireLock (stateDir : string) : FsM fileLock :=
  acquireNamedLockMode stateDir ".instance.lock" busy_initialization lockCreateOrOpen.
Definition acquireLockWithPresence (stateDir : string) (present : bool) : FsM fileLock :=
  acquireNamedLockMode stateDir ".instance.lock" busy_initialization (if present then lockOpenOnly else lockCreateOnly).

(** ** Leases *)
Definition acquireInitializationLease (stateDir : string) (lockPresent : option bool) : FsM fileLock :=
  _ ← EnsureStateDirectory stateDir;
  match lockPresent with
  | None => acquireLock stateDir
  | Some present => acquireLockWithPresence stateDir present
  end.
Definition AcquireInitializationLease (stateDir : string) : FsM fileLock := acquireInitializationLease stateDir None.
Definition AcquireInitializationLeaseWithLockPresence (stateDir : string) (present : bool) : FsM fileLock :=
  acquireInitializationLease stateDir (Some present).
Definition AttestLockPath (lease : fileLock) : FsM unit := attestPathIdentity lease.
Definition InitializationLockCreated (lease : fileLock) : bool := fl_created lease.

(** ** Opening *)
Definition identity_of_settings (settings : Settings) : Identity := {| InstanceID := se_InstanceID settings; VaultID := se_VaultID settings |}.
Definition complete_marker (path : string) : FsM unit :=
  loaded ← attempt (LoadMarker path);
  marker ← match loaded with
           | Ok marker => mret marker
           | Err NotExist => raise Uninitialized
           | Err e => raise (wrap "load install marker" e)
           end;
  check (String.eqb (im_Phase marker) "ready" && String.eqb (im_State marker) "complete")
    (Failed "installation is incomplete; rerun init").
(** The opened instance is its settings; its store is the one that was opened. *)
Definition OpenInstance (stateDir : string) : FsM Settings :=
  let paths := ForStateDir stateDir in
  _ ← EnsureStateDirectory stateDir;
  _ ← complete_marker (InstallMarkerPath paths);
  settings ← LoadSettings (ConfigPath paths);
  _ ← in_context "validate instance secret" (ReadSecret (InstanceSecret paths));
  _ ← store_Open (Database paths) (identity_of_settings settings);
  mret settings.
Definition CloseInstance (stateDir : string) (lock : option fileLock) : FsM unit :=
  stored ← attempt (store_Close (Database (ForStateDir stateDir)));
  released ← match lock with Some lock => attempt (lock_Close lock) | None => mret (Ok tt) end;
  match stored, released with
  | Ok _, Ok _ => mret tt
  | Ok _, Err e => raise e
  | Err e, Ok _ => raise e
  | Err e, Err f => raise (join_errors e f)
  end.
Definition closeInstanceWithContext (stateDir operation : string) : FsM unit :=
  in_context operation (CloseInstance stateDir None).
Definition LoadCompletedSettings (stateDir : string) : FsM Settings :=
  let paths := ForStateDir stateDir in
  _ ← ValidateStateDirectory stateDir;
  _ ← complete_marker (InstallMarkerPath paths);
  LoadSettings (ConfigPath paths).
Definition OpenForServe (stateDir : string) : FsM (Settings * fileLock) :=
  _ ← EnsureStateDirectory stateDir;
  lock ← acquireNamedLockMode stateDir ".server.lock" "another server process is already running" lockCreateOrOpen;
  opened ← attempt (OpenInstance stateDir);
  match opened with
  | Err e =>
      closed ← attempt (lock_Close lock);
      raise (match closed with Ok _ => e | Err c => join_errors e (wrap "release server lock" c) end)
  | Ok settings =>
      attested ← attempt (attestPathIdentity lock);
      match attested with
      | Ok _ => mret (settings, lock)
      | Err e =>
          stored ← attempt (store_Close (Database (ForStateDir stateDir)));
          closed ← attempt (lock_Close lock);
          let e := wrap "attest server lock after opening instance" e in
          let e := match stored with Ok _ => e | Err s => join_errors e s end in
          raise (match closed with Ok _ => e | Err c => join_errors e c end)
      end
  end.

(** ** Initialization *)
Definition exists_path (path : string) : FsM bool :=
  stat ← attempt (Lstat path);
  mret (match stat with Ok _ => true | Err _ => false end).
Definition same_listeners (requested : option (list string)) (settings : Settings) : bool :=
  match requested with Some listeners => SameListeners listeners (se_Listeners settings) | None => true end.

Section attested.
Context (attest : FsM unit).
(** A completed installation: opened, compared and closed. *)
Definition validate_completed (stateDir : string) (requestedListeners : option (list string)) : FsM Settings :=
  _ ← attest;
  settings ← in_context "validate completed installation" (OpenInstance stateDir);
  if negb (same_listeners requestedListeners settings) then
    closed ← attempt (closeInstanceWithContext stateDir "close validated installation");
    let e := Failed "refusing to change listeners during idempotent initialization" in
    raise (match closed with Ok _ => e | Err c => join_errors e c end)
  else
    _ ← closeInstanceWithContext stateDir "close validated installation";
    _ ← attest;
    mret settings.
(** The settings: those of an earlier run, or new ones. *)
Definition settings_step (paths : Paths) (requestedListeners : option (list string)) : FsM Settings :=
  loaded ← attempt (LoadSettings (ConfigPath paths));
  match loaded with
  | Ok settings =>
      _ ← check (same_listeners requestedListeners settings) (Failed "refusing to replace existing listener configuration");
      mret settings
  | Err Uninitialized =>
      secret ← exists_path (InstanceSecret paths);
      database ← (if secret : bool then mret true else exists_path (Database paths));
      _ ← check (negb (secret || database)) (Failed "partial installation has secret or database but no recoverable config");
      settings ← NewSettings (match requestedListeners with Some listeners => listeners | None => DefaultListeners end);
      _ ← attest;
      _ ← in_context "write config" (SaveSettings (ConfigPath paths) settings);
      mret settings
  | Err e => raise e
  end.
Definition secret_step (paths : Paths) : FsM unit :=
  read ← attempt (ReadSecret (InstanceSecret paths));
  match read with
  | Ok _ => mret tt
  | Err NotExist =>
      secret ← in_context "generate instance secret" (read_random 32);
      _ ← attest;
      in_context "write instance secret" (WriteSecret (InstanceSecret paths) (of_bytes secret))
  | Err e => raise (wrap "read instance secret" e)
  end.
Definition initializing_marker : InstallMarker := Mk_InstallMarker "1" "initializing" "resume".
Definition ready_marker : InstallMarker := Mk_InstallMarker "1" "ready" "complete".
Definition complete_installation (paths : Paths) (requestedListeners : option (list string)) : FsM Settings :=
  _ ← attest;
  _ ← in_context "record installation start" (SaveMarker (InstallMarkerPath paths) initializing_marker);
  settings ← settings_step paths requestedListeners;
  _ ← secret_step paths;
  _ ← attest;
  _ ← store_Open (Database paths) (identity_of_settings settings);
  _ ← in_context "close initialized database" (store_Close (Database paths));
  _ ← attest;
  _ ← in_context "record installation completion" (SaveMarker (InstallMarkerPath paths) ready_marker);
  _ ← attest;
  mret settings.
Definition initializeWithLease (stateDir : string) (requestedListeners : option (list string)) : FsM Settings :=
  let paths := ForStateDir stateDir in
  loaded ← attempt (LoadMarker (InstallMarkerPath paths));
  match loaded with
  | Ok marker =>
      if String.eqb (im_Phase marker) "ready" then validate_completed stateDir requestedListeners
      else complete_installation paths requestedListeners
  | Err NotExist => complete_installation paths requestedListeners
  | Err e => raise (wrap "load install marker" e)
  end.
End attested.

Definition LeaseInitialize (stateDir : string) (lease : fileLock) (requestedListeners : option (list string)) : FsM Settings :=
  let attest := in_context "attest initialization lease" (AttestLockPath lease) in
  _ ← attest;
  initializeWithLease attest stateDir requestedListeners.
Definition InitializeInstance (stateDir : string) (requestedListeners : option (list string)) : FsM Settings :=
  lease ← AcquireInitializationLease stateDir;
  result ← attempt (LeaseInitialize stateDir lease requestedListeners);
  closed ← attempt (lock_Close lease);
  match result, closed with
  | Ok settings, Ok _ => mret settings
  | Err e, Ok _ => raise e
  | Ok _, Err c => raise (wrap "release initialization lock" c)
  | Err e, Err c => raise (join_errors e (wrap "release initialization lock" c))
  end.
End instance.
