(* ===== verification/Manifest.v ===== *)
(** * Release manifests

    [src/runtime/internal/deployment/manifest.go] and [manifest_file_unix.go], after the
    parts of net/url they use: [url.Parse], [EscapedPath], [Hostname], [Port] and [String] of the standard library
    (Go 1.25), as [src/runtime/internal/deployment/manifest.go] and [preview.go] use them,
    and the fact they rely on: a path with nothing to escape is its own escaping. *)

From stdpp Require Import base list strings gmap.
From Stdlib Require Import ZArith Lia Ascii.
From Stdlib Require String.
From S2P Require Import Prelude GoStd Json Release NetIP Fs Paths.
From S2P Require Import JsonFacts Api Wire Indent Config Layout Deploy.
Local Open Scope Z_scope.

(** [strings.Cut] at a byte, [strings.Contains] of a byte, [strings.Count]. *)
Definition Cut (sep : ascii) (s : string) : string * string :=
  match index_byte sep s with
  | Some i => (stake i s, sdrop (S i) s)
  | None => (s, "")
  end.
Fixpoint count_byte (c : ascii) (s : string) : nat :=
  match s with
  | EmptyString => O
  | String d s' => if Ascii.eqb c d then S (count_byte c s') else count_byte c s'
  end.
Fixpoint index_string (p s : string) : option nat :=
  if has_prefix p s then Some O
  else match s with EmptyString => None | String _ s' => S <$> index_string p s' end.

Definition is_alpha (z : Z) : bool := ((97 <=? z) && (z <=? 122)) || ((65 <=? z) && (z <=? 90)).
Definition one_of (chars : string) (z : Z) : bool := existsb (Z.eqb z) (bytes_list chars).
Definition ascii_lower (s : string) : string :=
  of_bytes (map (λ z, if (65 <=? z) && (z <=? 90) then z + 32 else z) (bytes_list s)).

(** ** Escaping *)
Inductive encoding := encodePath | encodeUserPassword | encodeHost | encodeZone | encodeFragment.
Definition host_like (mode : encoding) : bool := match mode with encodeHost | encodeZone => true | _ => false end.
Definition shouldEscape (mode : encoding) (c : Z) : bool :=
  if is_alpha c || is_digit c then false
  else if host_like mode && (one_of "!$&'()*+,;=:[]<>" c || (c =? 34)) then false
  else if one_of "-_.~" c then false
  else if one_of "$&+,/:;=?@" c then
    match mode with
    | encodePath => c =? 63
    | encodeUserPassword => one_of "@/?:" c
    | encodeFragment => false
    | encodeHost | encodeZone => true
    end
  else match mode with encodeFragment => negb (one_of "!()*" c) | _ => true end.

Definition upper_hex (v : Z) : Z := if v <? 10 then 48 + v else 55 + v.
Definition escape_byte (mode : encoding) (c : Z) : list Z :=
  if shouldEscape mode c then [37; upper_hex (c / 16); upper_hex (c mod 16)] else [c].
Definition escape (mode : encoding) (s : string) : string := of_bytes (concat (map (escape_byte mode) (bytes_list s))).

Definition unhex (z : Z) : option Z := hex_value (chrZ z).
(** A triplet is refused in a host unless it stands for a byte outside ASCII or for the
    percent sign; a byte of a host that needs escaping is refused. *)
Definition triplet_ok (mode : encoding) (v : Z) : bool :=
  match mode with
  | encodeHost => (128 <=? v) || (v =? 37)
  | encodeZone => (v =? 37) || (v =? 32) || negb (shouldEscape encodeHost v)
  | _ => true
  end.
Fixpoint unescape_bytes (mode : encoding) (l : list Z) : option (list Z) :=
  match l with
  | [] => Some []
  | c :: rest =>
      if c =? 37 then
        match rest with
        | a :: b :: rest' =>
            match unhex a, unhex b with
            | Some x, Some y =>
                if triplet_ok mode (16 * x + y) then cons (16 * x + y) <$> unescape_bytes mode rest' else None
            | _, _ => None
            end
        | _ => None
        end
      else if host_like mode && (c <? 128) && shouldEscape mode c then None
      else cons c <$> unescape_bytes mode rest
  end.
Definition unescape (mode : encoding) (s : string) : option string := of_bytes <$> unescape_bytes mode (bytes_list s).

(** ** URLs *)
Record URL := mkURL {
  u_Scheme : string; u_Opaque : string; u_User : option (string * option string); u_Host : string;
  u_Path : string; u_RawPath : string; u_ForceQuery : bool; u_RawQuery : string; u_Fragment : string;
  u_OmitHost : bool }.

Definition scheme_byte (z : Z) : bool := is_alpha z || is_digit z || one_of "+-." z.
(** [getScheme]: [None] is the error "missing protocol scheme"; [at_start] says that no
    byte has been read. *)
Fixpoint scheme_length (at_start : bool) (s : string) : option nat :=
  match s with
  | EmptyString => None
  | String c s' =>
      let z := byteZ c in
      if is_alpha z || (negb at_start && scheme_byte z) then S <$> scheme_length false s'
      else if z =? 58 then Some O else None
  end.
Definition getScheme (rawURL : string) : option (string * string) :=
  match scheme_length true rawURL with
  | Some O => None
  | Some n => Some (stake n rawURL, sdrop (S n) rawURL)
  | None => Some ("", rawURL)
  end.

Definition validOptionalPort (port : string) : bool :=
  match port with
  | EmptyString => true
  | String c digits => Ascii.eqb c ":" && forallb is_digit (bytes_list digits)
  end.
Definition parseHost (host : string) : option string :=
  if has_prefix "[" host then
    match last_index_byte "]" host with
    | None => None
    | Some i =>
        if negb (validOptionalPort (sdrop (S i) host)) then None
        else
          match index_string "%25" (stake i host) with
          | Some zone =>
              match unescape encodeHost (stake zone host), unescape encodeZone (sdrop zone (stake i host)),
                    unescape encodeHost (sdrop i host) with
              | Some host1, Some host2, Some host3 => Some (host1 +:+ host2 +:+ host3)
              | _, _, _ => None
              end
          | None => unescape encodeHost host
          end
    end
  else
    match last_index_byte ":" host with
    | Some i => if validOptionalPort (sdrop i host) then unescape encodeHost host else None
    | None => unescape encodeHost host
    end.
Definition validUserinfo (s : string) : bool :=
  forallb (λ z, is_alpha z || is_digit z || one_of "-._:~!$&'()*+,;=%@" z) (bytes_list s).
Definition parseAuthority (authority : string) : option (option (string * option string) * string) :=
  match last_index_byte "@" authority with
  | None => pair None <$> parseHost authority
  | Some i =>
      match parseHost (sdrop (S i) authority) with
      | None => None
      | Some host =>
          let userinfo := stake i authority in
          if negb (validUserinfo userinfo) then None
          else if negb (contains_byte ":" userinfo) then
            (λ user, (Some (user, None), host)) <$> unescape encodeUserPassword userinfo
          else
            let '(username, password) := Cut ":" userinfo in
            match unescape encodeUserPassword username, unescape encodeUserPassword password with
            | Some username, Some password => Some (Some (username, Some password), host)
            | _, _ => None
            end
      end
  end.
(** The path and the raw path of [setPath]. *)
Definition setPath (p : string) : option (string * string) :=
  path ← unescape encodePath p;
  Some (path, if String.eqb p (escape encodePath path) then "" else p).

Definition contains_ctl (s : string) : bool := existsb (λ z, (z <? 32) || (z =? 127)) (bytes_list s).
Definition parse_url (rawURL : string) : option URL :=
  if contains_ctl rawURL then None
  else if String.eqb rawURL "*" then Some (mkURL "" "" None "" "*" "" false "" "" false)
  else
    match getScheme rawURL with
    | None => None
    | Some (scheme, rest) =>
        let scheme := ascii_lower scheme in
        let force := has_suffix "?" rest && (count_byte "?" rest =? 1)%nat in
        let '(rest, query) := if force then (stake (String.length rest - 1) rest, "") else Cut "?" rest in
        let rooted := has_prefix "/" rest in
        if negb rooted && negb (String.eqb scheme "") then
          Some (mkURL scheme rest None "" "" "" force query "" false)
        else if negb rooted && contains_byte ":" (Cut "/" rest).1 then None
        else
          let parsed :=
            if (negb (String.eqb scheme "") || negb (has_prefix "///" rest)) && has_prefix "//" rest then
              let after := sdrop 2 rest in
              let '(authority, rest) :=
                match index_byte "/" after with Some i => (stake i after, sdrop i after) | None => (after, "") end in
              match parseAuthority authority with
              | Some (user, host) => Some (user, host, rest, false)
              | None => None
              end
            else Some (None, "", rest, negb (String.eqb scheme "") && rooted) in
          match parsed with
          | None => None
          | Some (user, host, rest, omit) =>
              match setPath rest with
              | Some (path, rawPath) => Some (mkURL scheme "" user host path rawPath force query "" omit)
              | None => None
              end
          end
    end.
Definition ParseURL (rawURL : string) : option URL :=
  let '(u, frag) := Cut "#" rawURL in
  match parse_url u with
  | None => None
  | Some url =>
      if String.eqb frag "" then Some url
      else
        match unescape encodeFragment frag with
        | Some fragment =>
            Some (mkURL (u_Scheme url) (u_Opaque url) (u_User url) (u_Host url) (u_Path url) (u_RawPath url)
                    (u_ForceQuery url) (u_RawQuery url) fragment (u_OmitHost url))
        | None => None
        end
  end.

(** A raw path is used only when it is an encoding of the path. *)
Definition validEncoded (mode : encoding) (s : string) : bool :=
  forallb (λ z, one_of "!$&'()*+,;=:@" z || one_of "[]%" z || negb (shouldEscape mode z)) (bytes_list s).
Definition EscapedPath (u : URL) : string :=
  if negb (String.eqb (u_RawPath u) "") && validEncoded encodePath (u_RawPath u) &&
     match unescape encodePath (u_RawPath u) with Some p => String.eqb p (u_Path u) | None => false end
    then u_RawPath u
  else if String.eqb (u_Path u) "*" then "*" else escape encodePath (u_Path u).
Definition splitHostPort (hostPort : string) : string * string :=
  let '(host, port) :=
    match last_index_byte ":" hostPort with
    | Some colon => if validOptionalPort (sdrop colon hostPort) then (stake colon hostPort, sdrop (S colon) hostPort)
                    else (hostPort, "")
    | None => (hostPort, "")
    end in
  (if has_prefix "[" host && has_suffix "]" host then sdrop 1 (stake (String.length host - 1) host) else host, port).
Definition Hostname (u : URL) : string := (splitHostPort (u_Host u)).1.
Definition Port (u : URL) : string := (splitHostPort (u_Host u)).2.

(** [String] of a URL that has only a scheme, a host and a path. *)
Definition base_url (scheme host path : string) : URL := mkURL scheme "" None host path "" false "" "" false.
Definition URLString (u : URL) : string :=
  let prefix := if String.eqb (u_Scheme u) "" then "" else u_Scheme u +:+ ":" in
  let authority :=
    if negb (String.eqb (u_Scheme u) "") || negb (String.eqb (u_Host u) "") then
      (if negb (String.eqb (u_Host u) "") || negb (String.eqb (u_Path u) "") then "//" else "") +:+
      escape encodeHost (u_Host u)
    else "" in
  let path := EscapedPath u in
  let slash := if negb (String.eqb path "") && negb (has_prefix "/" path) && negb (String.eqb (u_Host u) "") then "/" else "" in
  let head := prefix +:+ authority +:+ slash in
  let dot := if String.eqb head "" && contains_byte ":" (Cut "/" path).1 then "./" else "" in
  head +:+ dot +:+ path.

Example url_examples :
  (ParseURL "https://downloads.example.com/jat/releases/1.0.0/LICENSE",
   option_map EscapedPath (ParseURL "https://h/a%2fb c"),
   ParseURL "https://h:x/", ParseURL ":a", ParseURL "a b:c",
   ParseURL "HTTPS://u:p@H%25x:1/?q#f",
   option_map URLString (ParseURL "https://ex%25ample.com/a/b"),
   ParseURL "mailto:a@b", option_map Hostname (ParseURL "https://[::1%25lo]:80/")) =
  (Some (base_url "https" "downloads.example.com" "/jat/releases/1.0.0/LICENSE"),
   Some "/a/b%20c", None, None, None,
   Some (mkURL "https" "" (Some ("u", Some "p")) "H%x:1" "/" "" false "q" "f" false),
   Some "https://ex%25ample.com/a/b",
   Some (mkURL "mailto" "a@b" None "" "" "" false "" "" false), Some "::1%lo").
Proof. vm_compute. reflexivity. Qed.

(** ** Release manifests: manifest.go

    [src/runtime/internal/deployment/manifest.go] and [manifest_file_unix.go], with
    [InstalledFromManifest] of [state.go]: the pinned release manifest, what makes it
    valid, its canonical bytes, and the release it installs. *)

(** [strings.ToLower] outside ASCII maps runes by the Unicode tables. *)
Class UnicodeCase := { unicode_lower : string → string }.
Definition ToLower `{UnicodeCase} (s : string) : string :=
  if forallb (λ z, z <? 128) (bytes_list s) then ascii_lower s else unicode_lower s.

Definition ManifestVersion : Z := 1.
Definition maxManifestBytes : Z := 64 * 1024.
Definition alnum : regexp := Class (λ z, is_alpha z || is_digit z).
Definition urlSegmentPattern : regexp := Cat alnum (Star (Class (λ z, is_alpha z || is_digit z || one_of "._-" z))).

(** ** Records *)
Record ReleaseArtifact := Mk_ReleaseArtifact {
  ra_OS : string;
  ra_Architecture : string;
  ra_BuildIdentity : string;
  ra_URL : string;
  ra_Bytes : Z;
  ra_SHA256 : string }.
#[export] Instance ReleaseArtifact_eq_dec : EqDecision ReleaseArtifact.
Proof. solve_decision. Defined.
#[export] Instance ReleaseArtifact_json : GoJSON ReleaseArtifact :=
  {| go_ty := TStruct [
       ("os", go_ty (string)); ("architecture", go_ty (string)); ("build_identity", go_ty (string)); ("url",
       go_ty (string)); ("bytes", go_ty (Z)); ("sha256", go_ty (string))];
     to_g a := GStruct [
       to_g (ra_OS a); to_g (ra_Architecture a); to_g (ra_BuildIdentity a); to_g (ra_URL a); to_g (ra_Bytes a);
       to_g (ra_SHA256 a)];
     of_g g := match g with
       | GStruct [v0; v1; v2; v3; v4; v5] =>
           match of_g (A:=string) v0, of_g (A:=string) v1, of_g (A:=string) v2, of_g (A:=string) v3, of_g (A:=Z) v4, of_g
             (A:=string) v5 with
           | Some a0, Some a1, Some a2, Some a3, Some a4, Some a5 =>
               Some (Mk_ReleaseArtifact a0 a1 a2 a3 a4 a5)
           | _, _, _, _, _, _ => None end
       | _ => None end |}.
#[export] Instance ReleaseArtifact_json_laws : GoJSONLaws ReleaseArtifact.
Proof. solve_struct_laws. Qed.

Record ReleaseFile := Mk_ReleaseFile {
  rf_Name : string;
  rf_URL : string;
  rf_Bytes : Z;
  rf_SHA256 : string }.
#[export] Instance ReleaseFile_eq_dec : EqDecision ReleaseFile.
Proof. solve_decision. Defined.
#[export] Instance ReleaseFile_json : GoJSON ReleaseFile :=
  {| go_ty := TStruct [
       ("name", go_ty (string)); ("url", go_ty (string)); ("bytes", go_ty (Z)); ("sha256", go_ty (string))];
     to_g a := GStruct [
       to_g (rf_Name a); to_g (rf_URL a); to_g (rf_Bytes a); to_g (rf_SHA256 a)];
     of_g g := match g with
       | GStruct [v0; v1; v2; v3] =>
           match of_g (A:=string) v0, of_g (A:=string) v1, of_g (A:=Z) v2, of_g (A:=string) v3 with
           | Some a0, Some a1, Some a2, Some a3 =>
               Some (Mk_ReleaseFile a0 a1 a2 a3)
           | _, _, _, _ => None end
       | _ => None end |}.
#[export] Instance ReleaseFile_json_laws : GoJSONLaws ReleaseFile.
Proof. solve_struct_laws. Qed.

Record ReleaseManifest := Mk_ReleaseManifest {
  rm_ManifestVersion : Z;
  rm_Release : string;
  rm_SourceRevision : string;
  rm_BuildToolchain : string;
  rm_ProtocolVersion : string;
  rm_StorageSchema : string;
  rm_DownloadOrigin : string;
  rm_Artifacts : list ReleaseArtifact;
  rm_ReleaseFiles : list ReleaseFile }.
#[export] Instance ReleaseManifest_eq_dec : EqDecision ReleaseManifest.
Proof. solve_decision. Defined.
#[export] Instance ReleaseManifest_json : GoJSON ReleaseManifest :=
  {| go_ty := TStruct [
       ("manifest_version", go_ty (Z)); ("release", go_ty (string)); ("source_revision", go_ty (string));
       ("build_toolchain", go_ty (string)); ("protocol_version", go_ty (string)); ("storage_schema", go_ty
       (string)); ("download_origin", go_ty (string)); ("artifacts", go_ty (list ReleaseArtifact));
       ("release_files", go_ty (list ReleaseFile))];
     to_g a := GStruct [
       to_g (rm_ManifestVersion a); to_g (rm_Release a); to_g (rm_SourceRevision a); to_g (rm_BuildToolchain
       a); to_g (rm_ProtocolVersion a); to_g (rm_StorageSchema a); to_g (rm_DownloadOrigin a); to_g
       (rm_Artifacts a); to_g (rm_ReleaseFiles a)];
     of_g g := match g with
       | GStruct [v0; v1; v2; v3; v4; v5; v6; v7; v8] =>
           match of_g (A:=Z) v0, of_g (A:=string) v1, of_g (A:=string) v2, of_g (A:=string) v3, of_g (A:=string) v4, of_g
             (A:=string) v5, of_g (A:=string) v6, of_g (A:=list ReleaseArtifact) v7, of_g (A:=list ReleaseFile) v8 with
           | Some a0, Some a1, Some a2, Some a3, Some a4, Some a5, Some a6, Some a7, Some a8 =>
               Some (Mk_ReleaseManifest a0 a1 a2 a3 a4 a5 a6 a7 a8)
           | _, _, _, _, _, _, _, _, _ => None end
       | _ => None end |}.
#[export] Instance ReleaseManifest_json_laws : GoJSONLaws ReleaseManifest.
Proof. solve_struct_laws. Qed.

(** ** Digests *)
Definition SHA256Hex (payload : string) : string := hex_encode (bytes_list (Sum256 payload)).
Definition build_identity_input (release sourceRevision buildToolchain : string) (target : Target) : string :=
  join (chrZ 10) [
    "sshserver-build-identity-v1"; "release=" +:+ release; "source_revision=" +:+ sourceRevision;
    "build_toolchain=" +:+ buildToolchain; "os=" +:+ tg_OS target; "architecture=" +:+ tg_Architecture target; ""].
Definition DeriveBuildIdentity (release sourceRevision buildToolchain : string) (target : Target) : res string string :=
  if negb (Valid release) then Err "build identity release is invalid"
  else if negb (matches sourceRevisionPattern sourceRevision) then Err "build identity source revision is invalid"
  else if negb (matches toolchainPattern buildToolchain) then Err "build identity toolchain is invalid"
  else if negb (isSupportedTarget target) then Err "build identity target is unsupported"
  else Ok (SHA256Hex (build_identity_input release sourceRevision buildToolchain target)).

(** ** URLs *)
Definition splitCanonicalURLPath (value : string) : list string :=
  if String.eqb value "" then [] else split "/" (trim_prefix "/" value).
Definition safe_segment (segment : string) : bool :=
  matches urlSegmentPattern segment && negb (String.eqb segment ".") && negb (String.eqb segment "..").

Section manifest.
Context `{UnicodeCase}.

Definition parseDownloadOrigin (value : string) : res string URL :=
  match ParseURL value with
  | None => Err "download origin must be an exact HTTPS base without credentials, escaped path, query, or fragment"
  | Some origin =>
      if (512 <? slen value) || negb (String.eqb (u_Scheme origin) "https") || String.eqb (u_Host origin) "" ||
         bool_decide (is_Some (u_User origin)) || negb (String.eqb (u_RawPath origin) "") ||
         negb (String.eqb (u_RawQuery origin) "") || negb (String.eqb (u_Fragment origin) "") ||
         negb (String.eqb (u_Opaque origin) "") || negb (String.eqb (EscapedPath origin) (u_Path origin)) ||
         (256 <? slen (u_Path origin))
        then Err "download origin must be an exact HTTPS base without credentials, escaped path, query, or fragment"
      else if String.eqb (Hostname origin) "" || negb (String.eqb (Port origin) "") || contains_byte "@" (u_Host origin)
        then Err "download origin host is not canonical"
      else if negb (String.eqb (ToLower (u_Host origin)) (u_Host origin)) then Err "download origin host must be lowercase"
      else if negb (String.eqb (u_Path origin) "") &&
              (String.eqb (u_Path origin) "/" || has_suffix "/" (u_Path origin) ||
               negb (String.eqb (Clean (u_Path origin)) (u_Path origin)))
        then Err "download origin path is not canonical"
      else if negb (forallb safe_segment (splitCanonicalURLPath (u_Path origin)))
        then Err "download origin path contains an unsafe segment"
      else Ok origin
  end.

Definition parseReleaseURL (value : string) (origin : URL) (release : string) : res string URL :=
  match ParseURL value with
  | None => Err "release URL is not canonical"
  | Some parsed =>
      if negb (String.eqb (u_Scheme parsed) (u_Scheme origin)) || negb (String.eqb (u_Host parsed) (u_Host origin)) ||
         bool_decide (is_Some (u_User parsed)) || negb (String.eqb (u_RawQuery parsed) "") ||
         negb (String.eqb (u_Fragment parsed) "") || negb (String.eqb (u_Opaque parsed) "") ||
         String.eqb (u_Path parsed) "" || negb (String.eqb (u_RawPath parsed) "") ||
         negb (String.eqb (Clean (u_Path parsed)) (u_Path parsed)) ||
         negb (String.eqb (EscapedPath parsed) (u_Path parsed))
        then Err "release URL is not canonical"
      else
        let originSegments := splitCanonicalURLPath (u_Path origin) in
        let segments := splitCanonicalURLPath (u_Path parsed) in
        let n := length originSegments in
        if negb (length segments =? n + 3)%nat || negb (bool_decide (take n segments = originSegments)) ||
           negb (bool_decide (segments !! n = Some "releases")) || negb (bool_decide (segments !! S n = Some release))
          then Err "release URL must use the exact download-origin/releases/<release>/<file> layout"
        else if negb (forallb safe_segment segments) then Err "release URL contains an unsafe path segment"
        else Ok parsed
  end.

(** ** Validation *)
Definition artifact_name (artifact : ReleaseArtifact) : string := "sshserver-" +:+ ra_OS artifact +:+ "-" +:+ ra_Architecture artifact.
Definition validate_artifact (manifest : ReleaseManifest) (origin : URL) (target : Target) (artifact : ReleaseArtifact) :
    res string unit :=
  let label := ra_OS artifact +:+ "/" +:+ ra_Architecture artifact in
  all_ok [
    fails (negb (String.eqb (ra_OS artifact) (tg_OS target)) ||
           negb (String.eqb (ra_Architecture artifact) (tg_Architecture target)))
      "release manifest artifacts are missing or not canonically ordered";
    fails ((ra_Bytes artifact <=? 0) || (maxArtifactBytes <? ra_Bytes artifact))
      (label +:+ " artifact size is outside the release boundary");
    fails (negb (matches hexDigestPattern (ra_BuildIdentity artifact)))
      (label +:+ " artifact build identity must be lowercase hexadecimal");
    match DeriveBuildIdentity (rm_Release manifest) (rm_SourceRevision manifest) (rm_BuildToolchain manifest) target with
    | Ok expected => fails (negb (String.eqb (ra_BuildIdentity artifact) expected))
        (label +:+ " artifact build identity does not match the deterministic release inputs")
    | Err _ => Err (label +:+ " artifact build identity does not match the deterministic release inputs")
    end;
    fails (negb (matches hexDigestPattern (ra_SHA256 artifact))) (label +:+ " artifact SHA-256 must be lowercase hexadecimal");
    match parseReleaseURL (ra_URL artifact) origin (rm_Release manifest) with
    | Ok artifactURL => fails (negb (String.eqb (Base (u_Path artifactURL)) (artifact_name artifact)))
        (label +:+ " artifact URL must end in " +:+ String dquote (artifact_name artifact +:+ String dquote ""))
    | Err _ => Err (label +:+ " artifact URL is not an exact direct download on the approved origin")
    end].
Definition validate_release_file (manifest : ReleaseManifest) (origin : URL) (releaseFile : ReleaseFile) : res string unit :=
  all_ok [
    fails ((rf_Bytes releaseFile <=? 0) || (maxReleaseFileBytes <? rf_Bytes releaseFile))
      (rf_Name releaseFile +:+ " size is outside the release boundary");
    fails (negb (matches hexDigestPattern (rf_SHA256 releaseFile))) (rf_Name releaseFile +:+ " SHA-256 must be lowercase hexadecimal");
    match parseReleaseURL (rf_URL releaseFile) origin (rm_Release manifest) with
    | Ok releaseURL => fails (negb (String.eqb (Base (u_Path releaseURL)) (rf_Name releaseFile)))
        (rf_Name releaseFile +:+ " URL is not an exact direct download on the approved origin")
    | Err _ => Err (rf_Name releaseFile +:+ " URL is not an exact direct download on the approved origin")
    end].
Definition validate_manifest (manifest : ReleaseManifest) : res string unit :=
  all_ok [
    fails (negb (rm_ManifestVersion manifest =? ManifestVersion))
      ("unsupported release manifest version " +:+ FormatInt (rm_ManifestVersion manifest));
    fails (negb (Valid (rm_Release manifest))) "release identifier is not immutable and path-safe";
    fails (negb (matches sourceRevisionPattern (rm_SourceRevision manifest)))
      "release source revision must be an exact lowercase Git commit ID";
    fails (negb (matches toolchainPattern (rm_BuildToolchain manifest)))
      "release build toolchain must be an exact Go patch release";
    fails (negb (String.eqb (rm_ProtocolVersion manifest) "1")) "release manifest protocol version must be 1";
    fails (negb (String.eqb (rm_StorageSchema manifest) "1")) "release manifest storage schema must be 1";
    match parseDownloadOrigin (rm_DownloadOrigin manifest) with
    | Err e => Err e
    | Ok origin =>
        all_ok [
          fails (negb (length (rm_Artifacts manifest) =? length supportedTargets)%nat)
            "release manifest must contain exactly four supported artifacts";
          all_ok (zip_with (validate_artifact manifest origin) supportedTargets (rm_Artifacts manifest));
          fails (negb (bool_decide (map rf_Name (rm_ReleaseFiles manifest) = ["LICENSE"; "NOTICE"])))
            "release manifest must contain LICENSE and NOTICE in canonical order";
          all_ok (map (validate_release_file manifest origin) (rm_ReleaseFiles manifest))]
    end].

(** ** Canonical bytes and pinned parsing *)
Definition manifest_CanonicalBytes (manifest : ReleaseManifest) : res string string :=
  match validate_manifest manifest with Err e => Err e | Ok _ => Ok (indentedJSON manifest) end.
Definition ParsePinnedManifest (payload expectedSHA256 : string) : res string ReleaseManifest :=
  if (slen payload =? 0) || (maxManifestBytes <? slen payload) then Err "release manifest exceeds its size boundary"
  else if negb (matches hexDigestPattern expectedSHA256) then Err "release manifest pin must be a lowercase SHA-256 digest"
  else if negb (bool_decide (hex_decode expectedSHA256 = Some (bytes_list (Sum256 payload))))
    then Err "release manifest SHA-256 does not match the pinned digest"
  else
    match decodeStrictStream ReleaseManifest payload with
    | None => Err "decode release manifest"  (* or "release manifest contains trailing data" *)
    | Some manifest =>
        match validate_manifest manifest with
        | Err e => Err e
        | Ok _ =>
            match manifest_CanonicalBytes manifest with
            | Err e => Err e
            | Ok canonical =>
                if String.eqb payload canonical then Ok manifest
                else Err "release manifest is not in canonical byte form"
            end
        end
    end.
Definition Artifact (manifest : ReleaseManifest) (target : Target) : res string ReleaseArtifact :=
  match validate_manifest manifest with
  | Err e => Err e
  | Ok _ =>
      match List.find (λ a, String.eqb (ra_OS a) (tg_OS target) && String.eqb (ra_Architecture a) (tg_Architecture target))
              (rm_Artifacts manifest) with
      | Some artifact => Ok artifact
      | None => Err ("release does not support " +:+ tg_OS target +:+ "/" +:+ tg_Architecture target)
      end
  end.
(** The support files of a validated manifest; the code indexes the slice. *)
Definition support_file (manifest : ReleaseManifest) (index : nat) : ReleaseFile :=
  nth index (rm_ReleaseFiles manifest) (Mk_ReleaseFile "" "" 0 "").
Definition InstalledFromManifest (layout : Layout) (manifest : ReleaseManifest) (manifestSHA256 : string)
    (target : Target) : res string InstalledRelease :=
  match validate_manifest manifest with
  | Err e => Err e
  | Ok _ =>
      if negb (matches hexDigestPattern manifestSHA256) then Err "installed manifest digest must be lowercase SHA-256"
      else
        match Artifact manifest target with
        | Err e => Err e
        | Ok artifact =>
            match BinaryPath layout (rm_Release manifest) target with
            | Err e => Err e
            | Ok binaryPath =>
                let license := support_file manifest 0 in
                let notice := support_file manifest 1 in
                let release := Mk_InstalledRelease (rm_Release manifest) (rm_SourceRevision manifest)
                  (rm_BuildToolchain manifest) (ra_BuildIdentity artifact) manifestSHA256 (rm_ProtocolVersion manifest)
                  (rm_StorageSchema manifest) (tg_OS target) (tg_Architecture target) binaryPath (ra_Bytes artifact)
                  (ra_SHA256 artifact) (rf_Bytes license) (rf_SHA256 license) (rf_Bytes notice) (rf_SHA256 notice) in
                match validate_release layout release with Err e => Err e | Ok _ => Ok release end
            end
        end
  end.

(** [ReadPinnedManifestFile] of manifest_file_unix.go. *)
Definition ReadPinnedManifestFile (path expectedSHA256 : string) : FsM string :=
  _ ← check (negb (String.eqb path "") && IsAbs path && String.eqb (Clean path) path && negb (contains_byte (chrZ 0) path))
        (Failed "release manifest path must be canonical and absolute");
  payload ← in_context "read protected release manifest" (readDeploymentFile path maxManifestBytes);
  match ParsePinnedManifest payload expectedSHA256 with
  | Ok _ => mret payload
  | Err e => raise (Failed e)
  end.
End manifest.
