(* ===== verification/Artifact.v ===== *)
(** * Staging, verifying and removing artifacts: artifact.go, remove_artifacts_unix.go

    [src/runtime/internal/deployment/artifact.go]: publishing a verified file under its
    final name through a temporary one and a hard link, inspecting what is published,
    and checking installer inputs; [remove_artifacts_unix.go]: removing the version tree.
    A path is its inode for the length of a run, so that two descriptors of one path
    always have one identity; a published file has two links until its temporary name is
    gone. *)

From stdpp Require Import base list strings gmap.
From Stdlib Require Import ZArith Lia Ascii.
From Stdlib Require String.
From S2P Require Import Prelude GoStd Json JsonFacts Api Wire Indent Release NetIP Fs Paths Config Layout Deploy Manifest.
Local Open Scope Z_scope.

Definition maximumStagedArtifactBytes : Z := 256 * 1024 * 1024.
Definition temporaryNameAttempts : nat := 16.
Definition executableMode : Z := 320.  (* 0o500 *)
Definition supportFileMode : Z := 256.  (* 0o400 *)
Record artifactExpectation := mkExpectation { ae_bytes : Z; ae_digest : list Z }.

(** ** Links *)
Definition set_links (nlink : Z) (n : node) : node :=
  match n with Regular mode owner _ content => Regular mode owner nlink content | n => n end.
(** [linkat(2)]: a second name for a regular file. *)
Definition Linkat (from to : string) : FsM unit :=
  modify (λ w, match w_files w !! from, w_files w !! to with
               | Some (Regular mode owner nlink content), None =>
                   let n := Regular mode owner (nlink + 1) content in
                   Ok (<[to := n]> (<[from := n]> (w_files w)))
               | Some _, None => Err (Failed "operation not permitted")
               | _, Some _ => Err Exist
               | None, None => Err NotExist
               end) intact.
(** [unlinkat(2)] of one of two names that may still be links of one file. *)
Definition drop_link (path other : string) (fs : files) : files :=
  match fs !! path with
  | Some (Regular _ _ nlink _) =>
      delete path (if 1 <? nlink then alter (set_links (nlink - 1)) other fs else fs)
  | _ => delete path fs
  end.
Definition Unlinkat (path other : string) : FsM unit :=
  modify (λ w, match w_files w !! path with
               | None => Err NotExist
               | Some (Directory _ _) => Err (Failed "is a directory")
               | Some _ => Ok (drop_link path other (w_files w))
               end) intact.
(** A cleanup that runs only after a failure. *)
Definition on_error {A} (m : FsM A) (cleanup : FsM unit) : FsM A := λ w,
  match m w with
  | (w', Ok a) => (w', Ok a)
  | (w', Err e) => ((cleanup w').1, Err e)
  end.

(** ** Checks *)
Definition parseArtifactExpectation (expectedBytes : Z) (expectedSHA256 : string) : res string artifactExpectation :=
  if (expectedBytes <=? 0) || (maximumStagedArtifactBytes <? expectedBytes)
    then Err "artifact size expectation is outside the supported boundary"
  else if negb (slen expectedSHA256 =? 64) || negb (String.eqb (ascii_lower expectedSHA256) expectedSHA256)
    then Err "artifact SHA-256 expectation must be lowercase hexadecimal"
  else
    match hex_decode expectedSHA256 with
    | Some digest => Ok (mkExpectation expectedBytes digest)
    | None => Err "artifact SHA-256 expectation must be lowercase hexadecimal"
    end.
Definition validateArtifactName (name : string) : res string unit :=
  if String.eqb name "" || String.eqb name "." || String.eqb name ".." || (128 <? slen name) || contains_byte (chrZ 0) name ||
     negb (String.eqb (Base name) name) || negb (String.eqb (Clean name) name)
    then Err "staged artifact name must be a safe single path component" else Ok tt.
Definition permissions (mode : Z) : Z := Z.land mode 511.
Definition validateOwnedRegularFile (euid : Z) (n : node) (exactPermissions : option Z) : res string unit :=
  match n with
  | Regular mode owner nlink _ =>
      if negb (owner =? euid) then Err "file is not owned by the current user"
      else if negb (nlink =? 1) then Err "file has multiple hard links"
      else if negb (Z.land (permissions mode) 18 =? 0) then Err "file is group- or world-writable"
      else match exactPermissions with
           | Some exact => if permissions mode =? exact then Ok tt else Err "file permissions differ from the expected"
           | None => Ok tt
           end
  | _ => Err "not a regular file"
  end.
Definition owned_ok (euid : Z) (n : node) (exactPermissions : option Z) : bool :=
  match validateOwnedRegularFile euid n exactPermissions with Ok _ => true | Err _ => false end.
Definition content_of (n : node) : string := match n with Regular _ _ _ content => content | _ => "" end.
Definition size_of (n : node) : Z := slen (content_of n).
(** At most [limit] bytes of a file. *)
Definition limited (limit : Z) (s : string) : string := if slen s <=? limit then s else stake (Z.to_nat limit) s.
(** [statFile] of an open descriptor. *)
Definition statFile (path : string) : FsM node :=
  inspect (λ w, match w_files w !! path with Some n => Ok n | None => Err NotExist end).
Definition refuse_unless (b : bool) (text : string) : FsM unit := check b (Failed text).
Definition from_text {A} (r : res string A) : FsM A := match r with Ok a => mret a | Err e => raise (Failed e) end.

Definition openVerifiedArtifactSource (path : string) (expectedBytes : Z) : FsM (string * node) :=
  _ ← in_context "artifact source path" (valid_or_fail (validateAbsoluteCanonicalPath path));
  parent ← in_context "artifact source directory" (openVerifiedDirectory (Dir path) false);
  let source := child parent (Base path) in
  n ← in_context "open artifact source without following links" (open_nofollow source false);
  _ ← in_context "inspect artifact source descriptor" fstat;
  euid ← ask w_euid;
  _ ← in_context "artifact source" (valid_or_fail (validateOwnedRegularFile euid n None));
  _ ← refuse_unless (size_of n =? expectedBytes) "artifact source size differs from the expected";
  mret (source, n).

Definition inspectExistingArtifact (destination finalName : string) (expectation : artifactExpectation) (finalMode : Z) :
    FsM (bool * bool) :=
  let path := child destination finalName in
  opened ← attempt (open_nofollow path false);
  match opened with
  | Err NotExist => mret (false, false)
  | Err e => raise (wrap "inspect existing staged artifact" e)
  | Ok initial =>
      _ ← in_context "inspect existing artifact descriptor" fstat;
      euid ← ask w_euid;
      if negb (owned_ok euid initial (Some finalMode)) || negb (size_of initial =? ae_bytes expectation)
        then mret (true, false)
      else
        _ ← in_context "hash existing staged artifact" sync_file;
        let read := limited (ae_bytes expectation + 1) (content_of initial) in
        final ← in_context "reinspect existing artifact descriptor" (statFile path);
        mret (true, (slen read =? ae_bytes expectation) && bool_decide (bytes_list (Sum256 read) = ae_digest expectation) &&
                    owned_ok euid final (Some finalMode) && (size_of final =? ae_bytes expectation))
  end.

(** ** Staging *)
Fixpoint createArtifactTemporary (attempts : nat) (destination finalName : string) : FsM string :=
  match attempts with
  | O => raise (Failed "artifact temporary name collision limit reached")
  | S attempts =>
      random ← in_context "generate artifact temporary name" (read_random 16);
      let name := "." +:+ finalName +:+ ".stage-" +:+ hex_encode random in
      let path := child destination name in
      made ← attempt (create_exclusive path 384);
      match made with
      | Err Exist => createArtifactTemporary attempts destination finalName
      | Err e => raise (wrap "create artifact temporary file" e)
      | Ok _ =>
          _ ← on_error (in_context "protect artifact temporary file" (Chmod path 384)) (Unlinkat path path);
          stat ← attempt (statFile path);
          euid ← ask w_euid;
          _ ← on_error (refuse_unless (match stat with
                  | Ok n => owned_ok euid n (Some 384) && (size_of n =? 0)
                  | Err _ => false end) "artifact temporary file is not a new owner-only regular file")
                (Unlinkat path path);
          mret path
      end
  end.
(** Copying into the temporary file, up to the moment before publication. *)
Definition copy_verified (source temporary : string) (expectation : artifactExpectation) (finalMode : Z) : FsM unit :=
  initial ← in_context "copy artifact from verified descriptor" (statFile source);
  let payload := limited (ae_bytes expectation + 1) (content_of initial) in
  _ ← in_context "copy artifact from verified descriptor" (write_to temporary payload);
  _ ← refuse_unless (slen payload =? ae_bytes expectation) "artifact source changed size during verification";
  final ← in_context "reinspect artifact source descriptor" (statFile source);
  euid ← ask w_euid;
  _ ← refuse_unless (owned_ok euid final None && (size_of final =? ae_bytes expectation))
        "artifact source descriptor changed during verification";
  _ ← refuse_unless (bool_decide (bytes_list (Sum256 payload) = ae_digest expectation))
        "artifact SHA-256 does not match the release manifest";
  copied ← in_context "inspect copied artifact" (statFile temporary);
  _ ← refuse_unless (owned_ok euid copied (Some 384) && (size_of copied =? ae_bytes expectation))
        "artifact temporary file changed during verification";
  _ ← in_context "sync verified artifact contents" sync_file;
  _ ← in_context "make verified artifact executable" (Chmod temporary finalMode);
  _ ← in_context "sync verified artifact mode" sync_file;
  verified ← in_context "inspect executable artifact" (statFile temporary);
  refuse_unless (owned_ok euid verified (Some finalMode) && (size_of verified =? ae_bytes expectation))
    "verified artifact changed before publication".
(** The final name was there already. *)
Definition reuse_existing (destination finalName temporary : string) (expectation : artifactExpectation) (finalMode : Z) :
    FsM unit :=
  let final := child destination finalName in
  _ ← on_error (
        '(exists_, identical) ← inspectExistingArtifact destination finalName expectation finalMode;
        _ ← refuse_unless (exists_ && identical)
              "staged artifact destination already contains different bytes or metadata";
        in_context "remove redundant verified artifact temporary" (Unlinkat temporary final))
      (Unlinkat temporary final);
  _ ← in_context "close redundant verified artifact temporary" sync_file;
  in_context "sync existing artifact directory" sync_file.
(** The final name is new: the temporary one goes. *)
Definition finish_publication (final temporary : string) (expectation : artifactExpectation) (finalMode : Z) : FsM unit :=
  unlinked ← attempt (Unlinkat temporary final);
  match unlinked with
  | Err e =>
      _ ← attempt (Unlinkat final temporary);
      _ ← attempt (Unlinkat temporary final);
      raise (wrap "remove artifact temporary name after publication" e)
  | Ok _ =>
      descriptor ← in_context "reinspect published artifact descriptor" (statFile final);
      published ← in_context "inspect published artifact" (statFile final);
      euid ← ask w_euid;
      _ ← refuse_unless (owned_ok euid descriptor (Some finalMode) && (size_of descriptor =? ae_bytes expectation) &&
                         owned_ok euid published (Some finalMode) && (size_of published =? ae_bytes expectation))
            "published artifact does not match the verified temporary file";
      in_context "sync artifact destination directory" sync_file
  end.
Definition stageOpenedArtifact (source : string) (initial : node) (destinationDir finalName : string)
    (expectation : artifactExpectation) (finalMode : Z) : FsM string :=
  _ ← from_text (validateArtifactName finalName);
  euid ← ask w_euid;
  _ ← refuse_unless (owned_ok euid initial None && (size_of initial =? ae_bytes expectation))
        "artifact source descriptor changed before staging";
  destination ← in_context "artifact destination directory" (openVerifiedDirectory destinationDir true);
  temporary ← createArtifactTemporary temporaryNameAttempts destination finalName;
  let final := child destination finalName in
  _ ← on_error (copy_verified source temporary expectation finalMode) (Unlinkat temporary final);
  linked ← attempt (Linkat temporary final);
  _ ← match linked with
      | Ok _ => finish_publication final temporary expectation finalMode
      | Err Exist => reuse_existing destination finalName temporary expectation finalMode
      | Err e =>
          _ ← attempt (Unlinkat temporary final);
          raise (wrap "publish verified artifact without replacing an existing file" e)
      end;
  mret (Join [destinationDir; finalName]).
Definition stageVerifiedFile (sourcePath destinationDir finalName : string) (expectedBytes : Z) (expectedSHA256 : string)
    (maximumBytes finalMode : Z) : FsM string :=
  _ ← refuse_unless (negb ((expectedBytes <=? 0) || (maximumBytes <? expectedBytes)))
        "artifact size expectation is outside the supported boundary";
  expectation ← from_text (parseArtifactExpectation expectedBytes expectedSHA256);
  _ ← from_text (validateArtifactName finalName);
  '(source, sourceStat) ← openVerifiedArtifactSource sourcePath (ae_bytes expectation);
  stageOpenedArtifact source sourceStat destinationDir finalName expectation finalMode.
Definition StageVerifiedArtifact (sourcePath destinationDir finalName : string) (expectedBytes : Z) (expectedSHA256 : string) :
    FsM string :=
  stageVerifiedFile sourcePath destinationDir finalName expectedBytes expectedSHA256 maximumStagedArtifactBytes executableMode.
Definition support_name (name : string) : bool := String.eqb name "LICENSE" || String.eqb name "NOTICE".
Definition StageVerifiedReleaseFile (sourcePath destinationDir finalName : string) (expectedBytes : Z) (expectedSHA256 : string) :
    FsM string :=
  _ ← refuse_unless (support_name finalName) "release support file must be LICENSE or NOTICE";
  stageVerifiedFile sourcePath destinationDir finalName expectedBytes expectedSHA256 maxReleaseFileBytes supportFileMode.

(** ** Verifying *)
Definition verifyStagedFile (path : string) (expectedBytes : Z) (expectedSHA256 : string) (maximumBytes finalMode : Z) : FsM unit :=
  _ ← refuse_unless (negb ((expectedBytes <=? 0) || (maximumBytes <? expectedBytes)))
        "artifact size expectation is outside the supported boundary";
  expectation ← from_text (parseArtifactExpectation expectedBytes expectedSHA256);
  _ ← valid_or_fail (validateAbsoluteCanonicalPath path);
  directory ← in_context "verify staged artifact directory" (openVerifiedDirectory (Dir path) true);
  '(exists_, identical) ← inspectExistingArtifact directory (Base path) expectation finalMode;
  _ ← refuse_unless exists_ "staged artifact does not exist";
  refuse_unless identical "staged artifact does not match its pinned release metadata".
Definition VerifyStagedArtifact (path : string) (expectedBytes : Z) (expectedSHA256 : string) : FsM unit :=
  verifyStagedFile path expectedBytes expectedSHA256 maximumStagedArtifactBytes executableMode.
Definition VerifyStagedReleaseFile (path : string) (expectedBytes : Z) (expectedSHA256 : string) : FsM unit :=
  _ ← refuse_unless (support_name (Base path)) "release support file must be LICENSE or NOTICE";
  verifyStagedFile path expectedBytes expectedSHA256 maxReleaseFileBytes supportFileMode.

Definition readVerifiedSourceSnapshot (source : string) (expectation : artifactExpectation) (kind : string) : FsM string :=
  initial ← in_context ("hash " +:+ kind +:+ " source") (statFile source);
  let snapshot := limited (ae_bytes expectation + 1) (content_of initial) in
  _ ← refuse_unless ((slen snapshot =? ae_bytes expectation) && bool_decide (bytes_list (Sum256 snapshot) = ae_digest expectation))
        (kind +:+ " SHA-256 does not match the release manifest");
  final ← in_context ("reinspect " +:+ kind +:+ " source descriptor") (statFile source);
  euid ← ask w_euid;
  _ ← refuse_unless (owned_ok euid final None && (size_of final =? ae_bytes expectation))
        (kind +:+ " source descriptor changed during preview verification");
  mret snapshot.
Definition VerifyReleaseFileSource (path : string) (expectedBytes : Z) (expectedSHA256 : string) : FsM unit :=
  expectation ← from_text (parseArtifactExpectation expectedBytes expectedSHA256);
  _ ← refuse_unless (expectedBytes <=? maxReleaseFileBytes)
        "release support-file size expectation is outside the supported boundary";
  '(source, _) ← openVerifiedArtifactSource path (ae_bytes expectation);
  _ ← readVerifiedSourceSnapshot source expectation "release support-file";
  mret tt.

(** *** Build metadata

    [debug/buildinfo] reads the Go build information embedded in an executable. *)
Record BuildMetadata := mkMetadata {
  bm_GoVersion : string; bm_Path : string; bm_MainPath : string; bm_MainReplace : bool; bm_Settings : list (string * string);
  bm_MainVersion : string }.
Class BuildInfoReader := { read_build_info : string → option BuildMetadata }.
Definition runtimeModule : string := "github.com/kciceblue/sshserver/runtime".
Definition setting (settings : list (string * string)) (key : string) : option string :=
  snd <$> List.find (λ kv, String.eqb kv.1 key) settings.
Fixpoint no_duplicates (l : list string) : bool :=
  match l with [] => true | x :: l' => negb (existsb (String.eqb x) l') && no_duplicates l' end.
Definition validateArtifactBuildMetadata (metadata : BuildMetadata) (expected : InstalledRelease) : res string unit :=
  let settings := bm_Settings metadata in
  let value key := match setting settings key with Some v => v | None => "" end in
  let want '(key, wanted) := fails (negb (String.eqb (value key) wanted)) ("artifact build metadata " +:+ key) in
  let baseline := if String.eqb (ir_Architecture expected) "arm64" then ("GOARM64", "v8.0") else ("GOAMD64", "v1") in
  all_ok ([
    fails (negb (String.eqb (bm_GoVersion metadata) (ir_BuildToolchain expected)))
      "artifact Go toolchain does not match the pinned release";
    fails (negb (String.eqb (bm_Path metadata) (runtimeModule +:+ "/cmd/sshserver")) ||
           negb (String.eqb (bm_MainPath metadata) runtimeModule) || bm_MainReplace metadata)
      "artifact is not the exact local sshserver runtime module";
    fails (negb (no_duplicates (map fst settings))) "artifact build metadata repeats a setting"] ++
    map want [("-buildmode", "exe"); ("-compiler", "gc"); ("-trimpath", "true"); ("CGO_ENABLED", "0");
              ("GOOS", ir_OS expected); ("GOARCH", ir_Architecture expected); baseline] ++
    map (λ forbidden, fails (match setting settings forbidden with Some _ => true | None => false end)
                        ("artifact build metadata contains forbidden setting " +:+ forbidden))
      ["-overlay"; "-tags"; "GOEXPERIMENT"; "GOFLAGS"]).
Definition expected_identity (expected : InstalledRelease) : BuildIdentity := {|
  Release := ir_Release expected; SourceRevision := ir_SourceRevision expected;
  BuildToolchain := ir_BuildToolchain expected; BuildDigest := ir_BuildIdentity expected;
  ProtocolVersion := ir_ProtocolVersion expected; StorageSchemaVersion := ir_StorageSchema expected |}.
Definition VerifyArtifactSource `{BuildInfoReader} (path : string) (expected : InstalledRelease) : FsM unit :=
  expectation ← from_text (parseArtifactExpectation (ir_BinaryBytes expected) (ir_BinarySHA256 expected));
  '(source, _) ← openVerifiedArtifactSource path (ae_bytes expectation);
  snapshot ← readVerifiedSourceSnapshot source expectation "artifact";
  attestation ← in_context "construct expected artifact attestation" (from_text (Encode (expected_identity expected)));
  _ ← refuse_unless (match index_string attestation snapshot with Some _ => true | None => false end)
        "artifact does not contain its exact frozen release attestation";
  match read_build_info snapshot with
  | None => raise (Failed "read artifact Go build metadata")
  | Some metadata => from_text (validateArtifactBuildMetadata metadata expected)
  end.

(** ** Removing the version tree *)
Fixpoint literal (s : string) : regexp :=
  match s with EmptyString => Empty | String c s' => Cat (Lit c) (literal s') end.
Definition target_pattern : regexp :=
  Cat (literal "sshserver-") (Cat (Or (literal "linux") (literal "darwin"))
    (Cat (literal "-") (Or (literal "amd64") (literal "arm64")))).
Definition installedArtifactNamePattern : regexp := target_pattern.
Definition stagedArtifactTemporaryPattern : regexp :=
  Cat (literal ".") (Cat target_pattern (Cat (literal ".stage-") (Repeat 32 lower_hex))).
Record removableVersion := mkRemovable { rv_name : string; rv_files : list string }.

Definition validateRemovableArtifact (euid : Z) (name : string) (n : node) : res string unit :=
  let installed := matches installedArtifactNamePattern name in
  let staged := matches stagedArtifactTemporaryPattern name in
  if negb installed && negb staged && negb (support_name name)
    then Err ("installed release contains unexpected file " +:+ name)
  else
    match validateOwnedRegularFile euid n None with
    | Err e => Err ("installed artifact " +:+ name +:+ " is not trusted: " +:+ e)
    | Ok _ =>
        let mode := match n with Regular mode _ _ _ => permissions mode | _ => 0 end in
        if installed then fails (negb (mode =? executableMode)) ("installed executable " +:+ name +:+ " must have mode 0500")
        else if staged then fails (negb (mode =? 384)) ("staged artifact temporary " +:+ name +:+ " must have mode 0600")
        else fails (negb (mode =? supportFileMode)) ("installed release file " +:+ name +:+ " must have mode 0400")
    end.

(** The names in a directory, sorted: [Readdirnames] and [sort.Strings]. *)
Definition entry_name (directory path : string) : option string :=
  match strip_prefix (child directory "") path with
  | Some name => if String.eqb name "" || contains_byte "/" name then None else Some name
  | None => None
  end.
Definition directory_names (fs : files) (directory : string) : list string :=
  order_by sleb (omap (λ '(path, _), entry_name directory path) (map_to_list fs)).
Definition Readdirnames (directory : string) : FsM (list string) :=
  inspect (λ w, Ok (directory_names (w_files w) directory)).
(** [unlinkat(2)] with [AT_REMOVEDIR]. *)
Definition RemoveDirectory (path : string) : FsM unit :=
  modify (λ w, match w_files w !! path with
               | Some (Directory _ _) =>
                   match directory_names (w_files w) path with
                   | [] => Ok (delete path (w_files w))
                   | _ => Err (Failed "directory not empty")
                   end
               | Some _ => Err (Failed "not a directory")
               | None => Err NotExist
               end) intact.

Definition check_removable (directory name : string) : FsM unit :=
  n ← statFile (child directory name);
  euid ← ask w_euid;
  from_text (validateRemovableArtifact euid name n).
Definition preflight_version (versions name : string) : FsM removableVersion :=
  _ ← refuse_unless (Valid name) ("installed versions contains unexpected entry " +:+ name);
  let directory := child versions name in
  n ← in_context ("open installed release " +:+ name) (open_directory_nofollow directory);
  _ ← trusted n true ("installed release directory " +:+ name +:+ " is not trusted");
  names ← Readdirnames directory;
  _ ← each (check_removable directory) names;
  _ ← sync_file;  (* Close *)
  mret (mkRemovable name names).
Fixpoint collect {A B} (f : A → FsM B) (l : list A) : FsM (list B) :=
  match l with
  | [] => mret []
  | x :: rest => y ← f x; ys ← collect f rest; mret (y :: ys)
  end.
Definition preflightInstalledVersions (versions : string) : FsM (list removableVersion) :=
  _ ← sync_file;  (* Seek *)
  names ← Readdirnames versions;
  collect (preflight_version versions) names.
Definition remove_file (directory name : string) : FsM unit :=
  n ← in_context "reinspect installed artifact" (statFile (child directory name));
  euid ← ask w_euid;
  _ ← from_text (validateRemovableArtifact euid name n);
  in_context "remove installed artifact" (Unlinkat (child directory name) (child directory name)).
Definition remove_version (versions : string) (version : removableVersion) : FsM unit :=
  let directory := child versions (rv_name version) in
  _ ← in_context "reopen release for removal" (open_directory_nofollow directory);
  _ ← each (remove_file directory) (rv_files version);
  _ ← in_context "sync emptied release directory" sync_file;
  _ ← sync_file;  (* Close *)
  in_context "remove release directory" (RemoveDirectory directory).
Definition RemoveInstalledArtifacts (layout : Layout) : FsM unit :=
  opened ← attempt (openVerifiedDirectory (ly_VersionsDir layout) true);
  match opened with
  | Err NotExist => mret tt
  | Err e => raise (wrap "open installed versions" e)
  | Ok versions =>
      plan ← preflightInstalledVersions versions;
      _ ← each (remove_version versions) plan;
      in_context "sync installed versions directory" sync_file
  end.

(** ** A concrete staging *)
Definition versions_world : World := (PrepareVersionDirectory sample_layout "2.1.0" home_world).1.
Definition download (name content : string) (w : World) : World :=
  mkWorld (<["/home/u/" +:+ name := Regular 384 1000 1 content]> (w_files w)) (w_euid w) (w_umask w) (w_rand w) (w_names w)
    (w_faults w) [].
Definition sample_world_with (content : string) : World := download "input" content versions_world.
Definition sample_version_dir : string := Join [ly_VersionsDir sample_layout; "2.1.0"].
Definition stage_sample (name : string) (content : string) : World * res ferr string :=
  StageVerifiedReleaseFile "/home/u/input" sample_version_dir name (slen content)
    (hex_encode (bytes_list (Sum256 content))) (sample_world_with content).
Example staging_examples :
  (stage_sample "LICENSE" "text").2 = Ok (Join [sample_version_dir; "LICENSE"]) ∧
  w_files (stage_sample "LICENSE" "text").1 !! Join [sample_version_dir; "LICENSE"] = Some (Regular 256 1000 1 "text") ∧
  directory_names (w_files (stage_sample "LICENSE" "text").1) sample_version_dir = ["LICENSE"] ∧
  (VerifyStagedReleaseFile (Join [sample_version_dir; "LICENSE"]) 4 (hex_encode (bytes_list (Sum256 "text")))
     (stage_sample "LICENSE" "text").1).2 = Ok tt ∧
  (RemoveInstalledArtifacts sample_layout (stage_sample "LICENSE" "text").1).2 = Ok tt ∧
  directory_names (w_files (RemoveInstalledArtifacts sample_layout (stage_sample "LICENSE" "text").1).1)
    (ly_VersionsDir sample_layout) = [] ∧
  matches stagedArtifactTemporaryPattern (".sshserver-linux-amd64.stage-" +:+ String.concat "" (repeat "0" 32)) = true.
Proof. vm_compute. done. Qed.
