(* ===== verification/Lifecycle.v ===== *)
(** * The deployment lifecycle: lifecycle.go

    [src/runtime/internal/deployment/lifecycle.go] with the locks of [lock_unix.go] and
    the manager checks of [preview.go]: status, rollback and uninstall, and the
    transaction that apply runs, on a machine whose metadata files are those of
    [Deploy] and whose service manager, runtime and artifacts are behind the class
    [Host], as the code keeps them behind the fields of [Lifecycle].

    A transaction advances through phases; each is recorded in the journal file before
    the next begins, so that a later run can resume or undo it. *)

From stdpp Require Import base list strings gmap.
From Stdlib Require Import ZArith Lia Ascii.
From Stdlib Require String.
From S2P Require Import Prelude GoStd Json JsonFacts Api Wire Indent Release NetIP Fs Paths Config Layout Deploy.
Local Open Scope Z_scope.

(** ** Results *)
Record ForegroundFallback := Mk_ForegroundFallback {
  ff_Required : bool; ff_Reason : string; ff_Command : list string; ff_Supervised : bool }.
#[export] Instance ForegroundFallback_eq_dec : EqDecision ForegroundFallback.
Proof. solve_decision. Defined.
Record ManagerAvailability := Mk_ManagerAvailability {
  ma_Manager : string; ma_Available : bool; ma_ServiceDefinition : string; ma_Foreground : option ForegroundFallback }.
#[export] Instance ManagerAvailability_eq_dec : EqDecision ManagerAvailability.
Proof. solve_decision. Defined.
Record DeploymentLocator := Mk_DeploymentLocator {
  dl_Version : string; dl_LifecycleBinaryPath : string; dl_HomeDir : string; dl_InstallRoot : string;
  dl_StateDir : string; dl_Release : string; dl_OS : string; dl_Architecture : string;
  dl_ManifestSHA256 : string; dl_BinarySHA256 : string; dl_BinaryBytes : Z }.
Record ApplyResult := Mk_ApplyResult {
  ar_Status : string; ar_Locator : DeploymentLocator; ar_State : DeploymentState;
  ar_Foreground : option ForegroundFallback; ar_TransactionID : string }.
Record StatusResult := Mk_StatusResult {
  sr_Status : string; sr_State : option DeploymentState; sr_Journal : option DeploymentJournal;
  sr_Running : bool; sr_RecoveryRequired : bool }.
Record UninstallResult := Mk_UninstallResult {
  ur_Status : string; ur_State : DeploymentState; ur_TransactionID : string }.

(** ** The host

    The service manager, the runtime, the artifacts and the advisory locks.  A host call
    runs on the files and the host's own state; [health_deadline] says whether the
    deadline of the wait loop has passed when it is next asked. *)
Definition HostM (H A : Type) : Type := World * H → (World * H) * res derr A.
Class Host (H : Type) := {
  Kind : string;
  DefinitionPath : string;
  Detect : string → string → HostM H ManagerAvailability;
  InstallDefinition : string → HostM H string;
  Activate : HostM H unit;
  Stop : HostM H unit;
  RemoveService : HostM H unit;
  IsActive : HostM H bool;
  Inspect : string → HostM H BuildIdentity;
  stageArtifact : string → string → string → Z → string → HostM H string;
  verifyArtifact : string → Z → string → HostM H unit;
  stageReleaseFile : string → string → string → Z → string → HostM H string;
  verifyReleaseFile : string → Z → string → HostM H unit;
  verifyPreviewRelease : InstalledRelease → HostM H unit;
  renderService : string → string → string → res derr string;
  probeRunning : string → HostM H BuildIdentity;
  removeArtifacts : Layout → HostM H unit;
  lease_Initialize : HostM H Settings;
  lease_Attest : HostM H unit;
  flock : string → HostM H unit;
  funlock : string → HostM H unit;
  health_deadline : HostM H bool }.

Record Lifecycle := Mk_Lifecycle { lc_layout : Layout; lc_target : Target; lc_failAfterPhase : string }.

(** ** Identities *)
(** [ValidateReleaseIdentity] of attestation.go. *)
Definition ValidateReleaseIdentity (identity : BuildIdentity) (expected : InstalledRelease) : res string unit :=
  all_ok [
    fails (negb (String.eqb (Release identity) (ir_Release expected)) ||
           negb (String.eqb (SourceRevision identity) (ir_SourceRevision expected)) ||
           negb (String.eqb (BuildToolchain identity) (ir_BuildToolchain expected)) ||
           negb (String.eqb (BuildDigest identity) (ir_BuildIdentity expected)) ||
           negb (String.eqb (ProtocolVersion identity) (ir_ProtocolVersion expected)) ||
           negb (String.eqb (StorageSchemaVersion identity) (ir_StorageSchema expected)))
      "reported build identity does not match the pinned release artifact";
    fails (negb (Valid (Release identity)) || negb (matches sourceRevisionPattern (SourceRevision identity)) ||
           negb (matches toolchainPattern (BuildToolchain identity)) ||
           negb (matches hexDigestPattern (BuildDigest identity)) ||
           negb (String.eqb (ProtocolVersion identity) "1") || negb (String.eqb (StorageSchemaVersion identity) "1"))
      "reported build identity is not an exact V1 release identity"].
Definition identity_matches (identity : BuildIdentity) (expected : InstalledRelease) : bool :=
  match ValidateReleaseIdentity identity expected with Ok _ => true | Err _ => false end.

(** ** Phases *)
Fixpoint rank_from (i : Z) (order : list string) (phase : string) (rank : Z) : Z :=
  match order with
  | [] => rank
  | p :: rest => rank_from (i + 1) rest phase (if String.eqb phase p then i else rank)
  end.
Definition phase_reached (order : list string) (current target : string) : bool :=
  let currentRank := rank_from 0 order current (-1) in
  let targetRank := rank_from 0 order target (-1) in
  (targetRank <=? currentRank) && (0 <=? targetRank).
Definition apply_order : list string :=
  [PhasePlanned; PhaseArtifactStaged; PhaseInstanceReady; PhasePriorServiceStopped; PhaseDefinitionInstalled;
   PhaseActivated; PhaseHealthVerified; PhaseCommitting; PhaseStateSaved].
Definition rollback_order : list string :=
  [PhasePlanned; PhasePriorServiceStopped; PhaseDefinitionInstalled; PhaseActivated; PhaseHealthVerified;
   PhaseCommitting; PhaseStateSaved].
Definition uninstall_order : list string :=
  [PhasePlanned; PhasePriorServiceStopped; PhaseDefinitionRemoved; PhaseRemovingArtifacts; PhaseArtifactsRemoved;
   PhaseCommitting; PhaseStateSaved].
Definition applyPhaseReached : string → string → bool := phase_reached apply_order.
Definition rollbackPhaseReached : string → string → bool := phase_reached rollback_order.
Definition uninstallPhaseReached : string → string → bool := phase_reached uninstall_order.

Definition sameInstalledRelease (first second : option InstalledRelease) : bool := bool_decide (first = second).
Definition sameDeploymentState (first second : DeploymentState) : bool :=
  (ds_StateVersion first =? ds_StateVersion second) && (ds_Generation first =? ds_Generation second) &&
  String.eqb (ds_Status first) (ds_Status second) && String.eqb (ds_Manager first) (ds_Manager second) &&
  String.eqb (ds_StateDir first) (ds_StateDir second) &&
  String.eqb (ds_ServiceDefinition first) (ds_ServiceDefinition second) &&
  sameInstalledRelease (ds_Active first) (ds_Active second) &&
  sameInstalledRelease (ds_Previous first) (ds_Previous second).

(** ** Committed states: [uint64] addition wraps *)
Definition next_generation (generation : Z) : Z := (generation + 1) mod two64.
Definition status_for (manager : string) : string :=
  if String.eqb manager ManagerForeground then StatusForeground else StatusActive.
Definition committedUninstallState (layout : Layout) (journal : DeploymentJournal) (prior : DeploymentState) : DeploymentState :=
  Mk_DeploymentState DeploymentStateVersion (next_generation (ds_Generation prior)) StatusUninstalled ManagerNone
    (ly_StateDir layout) "" None (ds_Active prior).
Definition committedRollbackState (layout : Layout) (journal : DeploymentJournal) (prior : DeploymentState) : DeploymentState :=
  Mk_DeploymentState DeploymentStateVersion (next_generation (ds_Generation prior)) (status_for (dj_Manager journal))
    (dj_Manager journal) (ly_StateDir layout) (dj_ServiceDefinition journal) (dj_Desired journal) (ds_Active prior).
Definition committedApplyState (layout : Layout) (journal : DeploymentJournal) (desired : InstalledRelease) : DeploymentState :=
  let generation := match dj_PriorState journal with Some prior => next_generation (ds_Generation prior) | None => 1 end in
  let previous :=
    match dj_PriorState journal with
    | Some prior =>
        match ds_Active prior with
        | Some active =>
            if negb (String.eqb (ir_ManifestSHA256 active) (ir_ManifestSHA256 desired))
              then Some active else ds_Previous prior
        | None => None
        end
    | None => None
    end in
  Mk_DeploymentState DeploymentStateVersion generation (status_for (dj_Manager journal)) (dj_Manager journal)
    (ly_StateDir layout) (dj_ServiceDefinition journal) (Some desired) previous.

Definition deploymentLocatorForState (layout : Layout) (state : DeploymentState) : res string DeploymentLocator :=
  match NewLayout (ly_HomeDir layout) (ly_InstallRoot layout) (ly_StateDir layout) with
  | Err e => Err ("validate deployment locator layout: " +:+ e)
  | Ok rebuilt =>
      if negb (bool_decide (rebuilt = layout)) then Err "deployment locator layout contains inconsistent derived paths"
      else
        match validate_state layout state with
        | Err e => Err ("validate deployment locator state: " +:+ e)
        | Ok _ =>
            match ds_Active state with
            | None => Err "deployment locator requires an active or foreground release"
            | Some active =>
                if negb (String.eqb (ds_Status state) StatusActive) && negb (String.eqb (ds_Status state) StatusForeground)
                  then Err "deployment locator requires an active or foreground release"
                else
                  match requireStrictDescendant (ly_VersionsDir layout) (ir_BinaryPath active) "lifecycle binary" with
                  | Err e => Err e
                  | Ok _ =>
                      match BinaryPath layout (ir_Release active) (Mk_Target (ir_OS active) (ir_Architecture active)) with
                      | Err e => Err e
                      | Ok expectedPath =>
                          if negb (String.eqb (ir_BinaryPath active) expectedPath) || (ir_BinaryBytes active <=? 0) ||
                             (maxArtifactBytes <? ir_BinaryBytes active) ||
                             negb (matches hexDigestPattern (ir_ManifestSHA256 active)) ||
                             negb (matches hexDigestPattern (ir_BinarySHA256 active))
                            then Err "deployment locator active release metadata is invalid"
                          else Ok (Mk_DeploymentLocator "1" (ir_BinaryPath active) (ly_HomeDir layout)
                                     (ly_InstallRoot layout) (ly_StateDir layout) (ir_Release active) (ir_OS active)
                                     (ir_Architecture active) (ir_ManifestSHA256 active) (ir_BinarySHA256 active)
                                     (ir_BinaryBytes active))
                      end
                  end
            end
        end
  end.
Definition resultForState (layout : Layout) (state : DeploymentState) (foreground : option ForegroundFallback)
    (transactionID : string) : res string ApplyResult :=
  match deploymentLocatorForState layout state with
  | Err e => Err e
  | Ok locator =>
      let status := if String.eqb (ds_Status state) StatusForeground then "foreground_required" else "active" in
      Ok (Mk_ApplyResult status locator state foreground transactionID)
  end.
Definition foregroundForRelease (layout : Layout) (manager : string) (desired : option InstalledRelease) :
    option ForegroundFallback :=
  match desired with
  | Some desired =>
      if String.eqb manager ManagerForeground
        then Some (Mk_ForegroundFallback true "user_service_manager_unavailable"
                     [ir_BinaryPath desired; "serve"; "--state-dir"; ly_StateDir layout] true)
        else None
  | None => None
  end.
Definition foregroundFor (layout : Layout) (journal : DeploymentJournal) : option ForegroundFallback :=
  foregroundForRelease layout (dj_Manager journal) (dj_Desired journal).
Definition managerMatchesJournal (availability : ManagerAvailability) (journal : DeploymentJournal) : bool :=
  String.eqb (ma_Manager availability) (dj_Manager journal) &&
  String.eqb (ma_ServiceDefinition availability) (dj_ServiceDefinition journal).

Section operations.
Context {H : Type} `{!Host H} (lifecycle : Lifecycle).
Abbreviation layout := (lc_layout lifecycle).
Abbreviation M A := (DepM H A).

Definition host {A} (x : HostM H A) : M A := λ m,
  let '((w, h), r) := x (m_world m, m_host m) in (mkMachine w h (m_journal m), r).
Definition from_derr {A} (r : res derr A) : M A := λ m, (m, r).

(** ** Locks (lock_unix.go)

    A lock is the descriptor of the locked path. *)
Definition close_lock (path : string) : M unit :=
  unlocked ← tried (host (funlock path));
  closed ← tried (on_files sync_file);
  match unlocked with Ok _ => from_derr closed | Err e => fail e end.
Definition acquireDeploymentBootstrapLock : M string :=
  n ← within "open deployment bootstrap lock" (on_files (open_directory_nofollow (ly_HomeDir layout)));
  _ ← within "validate deployment bootstrap lock" (on_files (validateDirectoryFD n));
  _ ← within "lock deployment bootstrap" (host (flock (ly_HomeDir layout)));
  mret (ly_HomeDir layout).
(** [open(2)] of the lock file, created when [create] is set and it does not exist. *)
Definition open_lock (path : string) (create : bool) : FsM node :=
  opened ← attempt (open_nofollow path true);
  match opened with
  | Ok n => mret n
  | Err NotExist =>
      if create then
        made ← attempt (create_exclusive path 384);
        _ ← match made with Ok _ | Err Exist => mret tt | Err e => raise e end;
        open_nofollow path true
      else raise NotExist
  | Err e => raise e
  end.
Definition acquireDeploymentFileLock (create : bool) : M string :=
  n ← within "open deployment lock" (on_files (open_lock (ly_LockPath layout) create));
  _ ← within "validate deployment lock" (on_files (validateDeploymentFileFD n));
  _ ← within "lock deployment lifecycle" (host (flock (ly_LockPath layout)));
  mret (ly_LockPath layout).
Definition acquireDeploymentLock : M string := acquireDeploymentFileLock true.
Definition acquireExistingDeploymentLock : M string := acquireDeploymentFileLock false.

(** A deferred close: its failure is joined to the error of the body. *)
Definition closing {A} (context path : string) (body : M A) : M A :=
  result ← tried body;
  closed ← tried (close_lock path);
  match closed with
  | Ok _ => from_derr result
  | Err e => fail (match result with Ok _ => dwrap context e | Err first => Joined first (dwrap context e) end)
  end.
Definition lifecycle_lock : M string :=
  stat ← tried (on_files (Lstat (ly_LockPath layout)));
  match stat with
  | Ok _ => acquireExistingDeploymentLock
  | Err (FileError NotExist) => _ ← on_files (PrepareDeploymentLockRoot layout); acquireDeploymentLock
  | Err e => fail (dwrap "inspect deployment lock" e)
  end.
(** [acquireDeploymentMutationLocks], the body that runs under both locks, and their
    release in the reverse order. *)
Definition with_mutation_locks {A} (body : M A) : M A :=
  bootstrap ← acquireDeploymentBootstrapLock;
  acquired ← tried lifecycle_lock;
  match acquired with
  | Err e =>
      closed ← tried (close_lock bootstrap);
      fail (match closed with Ok _ => e | Err c => Joined e (dwrap "release deployment bootstrap lock" c) end)
  | Ok lock =>
      closing "release deployment bootstrap lock" bootstrap (closing "release deployment lock" lock body)
  end.
Definition newTransactionID : M string :=
  payload ← within "generate deployment transaction ID" (on_files (read_random 16));
  mret (hex_encode payload).

(** ** Steps *)
Definition verifyDesired (desired : InstalledRelease) : M unit :=
  _ ← host (verifyArtifact (ir_BinaryPath desired) (ir_BinaryBytes desired) (ir_BinarySHA256 desired));
  licensePath ← from_res (SupportFilePath layout desired "LICENSE");
  _ ← host (verifyReleaseFile licensePath (ir_LicenseBytes desired) (ir_LicenseSHA256 desired));
  noticePath ← from_res (SupportFilePath layout desired "NOTICE");
  _ ← host (verifyReleaseFile noticePath (ir_NoticeBytes desired) (ir_NoticeSHA256 desired));
  reported ← host (Inspect (ir_BinaryPath desired));
  from_res (ValidateReleaseIdentity reported desired).
Definition stageSupportFiles (versionDir : string) (desired : InstalledRelease) (licenseSource noticeSource : string)
    (attest : M unit) : M unit :=
  _ ← attest;
  licensePath ← host (stageReleaseFile licenseSource versionDir "LICENSE" (ir_LicenseBytes desired) (ir_LicenseSHA256 desired));
  wantLicense ← from_res (SupportFilePath layout desired "LICENSE");
  _ ← demand (String.eqb licensePath wantLicense) "release LICENSE staging returned an unexpected immutable path";
  _ ← attest;
  noticePath ← host (stageReleaseFile noticeSource versionDir "NOTICE" (ir_NoticeBytes desired) (ir_NoticeSHA256 desired));
  wantNotice ← from_res (SupportFilePath layout desired "NOTICE");
  demand (String.eqb noticePath wantNotice) "release NOTICE staging returned an unexpected immutable path".
Definition stopPrior (prior : option DeploymentState) (attest : M unit) : M unit :=
  match prior with
  | None => mret tt
  | Some prior =>
      match ds_Active prior with
      | None => mret tt
      | Some active =>
          if String.eqb (ds_Status prior) StatusUninstalled then mret tt
          else if String.eqb (ds_Status prior) StatusActive then
            _ ← demand (String.eqb (ds_Manager prior) Kind) "prior service manager does not match this host";
            _ ← attest;
            host Stop
          else
            probed ← tried (host (probeRunning (ly_StateDir layout)));
            match probed with
            | Ok reported =>
                if identity_matches reported active
                  then refuse "the supervised foreground runtime must be stopped before deployment"
                  else refuse "an unknown foreground runtime is using the protected instance"
            | Err e => if Is e ErrRuntimeUnavailable then mret tt else fail e
            end
      end
  end.
Definition activateDesired (desired : InstalledRelease) (attest : M unit) : M unit :=
  active ← host IsActive;
  if active : bool then
    probed ← tried (host (probeRunning (ly_StateDir layout)));
    if match probed with Ok reported => identity_matches reported desired | Err _ => false end then mret tt
    else _ ← attest; _ ← host Stop; _ ← attest; host Activate
  else _ ← attest; host Activate.

(** The wait loop polls every 50 ms for 15 s: its 301st wait cannot end before the
    deadline. *)
Definition health_polls : nat := 300.
Fixpoint wait_loop (polls : nat) (desired : InstalledRelease) : M unit :=
  active ← host IsActive;
  attested ← (if active : bool then
                probed ← tried (host (probeRunning (ly_StateDir layout)));
                match probed with
                | Ok reported => mret (Some (ValidateReleaseIdentity reported desired))
                | Err e => if Is e ErrRuntimeUnavailable then mret None else fail e
                end
              else mret None);
  match attested with
  | Some verdict => from_res verdict
  | None =>
      expired ← host health_deadline;
      if expired : bool then refuse "user service did not attest the desired release before the health deadline"
      else match polls with
           | O => refuse "user service did not attest the desired release before the health deadline"
           | S polls => wait_loop polls desired
           end
  end.
Definition waitForRunning (desired : InstalledRelease) : M unit := wait_loop health_polls desired.

(** ** Journal *)
Definition injectCrash (phase : string) : M unit :=
  if String.eqb (lc_failAfterPhase lifecycle) phase then fail ErrInjectedDeploymentCrash else mret tt.
Definition checkpoint (phase : string) : M unit :=
  journal ← get_journal;
  let journal := at_phase journal phase in
  _ ← set_journal journal;
  _ ← SaveJournal layout journal;
  injectCrash phase.
(** A step that is skipped when its phase has been reached. *)
Definition unless_reached (order : list string) (phase : string) (step : M unit) : M unit :=
  journal ← get_journal;
  if phase_reached order (dj_Phase journal) phase then mret tt else step.

(** [validateCommitted…State]: the saved state must be the one the journal commits. *)
Definition validate_committed (want : DeploymentState) (refusal : string) : M DeploymentState :=
  state ← LoadState layout;
  _ ← demand (sameDeploymentState state want) refusal;
  mret state.

(** Putting the prior release back in service. *)
Definition restore_service (what : string) (active : InstalledRelease) (attest : M unit) : M unit :=
  _ ← within ("verify " +:+ what) (verifyDesired active);
  payload ← from_derr (renderService (ir_OS active) (ir_BinaryPath active) (ly_StateDir layout));
  _ ← within ("restore " +:+ what) (_ ← attest; host (InstallDefinition payload));
  _ ← within ("reactivate " +:+ what) (_ ← attest; host Activate);
  within ("attest " +:+ what) (waitForRunning active).
Definition restore_if_active (what : string) (prior : DeploymentState) (attest : M unit) : M unit :=
  match ds_Active prior with
  | Some active => if String.eqb (ds_Status prior) StatusActive then restore_service what active attest else mret tt
  | None => mret tt
  end.

(** The journal's release and prior state, which a validated journal of the operation
    has; the code dereferences the pointers. *)
Definition journal_desired : M InstalledRelease :=
  journal ← get_journal;
  match dj_Desired journal with Some desired => mret desired | None => refuse "nil pointer dereference" end.
Definition journal_prior : M DeploymentState :=
  journal ← get_journal;
  match dj_PriorState journal with Some prior => mret prior | None => refuse "nil pointer dereference" end.

(** [renderService] and [InstallDefinition] of the desired release. *)
Definition install_desired (desired : InstalledRelease) (attest : M unit) (refusal : string) : M unit :=
  payload ← from_derr (renderService (ir_OS desired) (ir_BinaryPath desired) (ly_StateDir layout));
  _ ← attest;
  installed ← host (InstallDefinition payload);
  journal ← get_journal;
  demand (String.eqb installed (dj_ServiceDefinition journal)) refusal.

(** ** Rollback *)
Definition runRollback : M ApplyResult :=
  journal ← get_journal;
  if String.eqb (dj_Phase journal) PhaseStateSaved then
    prior ← journal_prior;
    state ← validate_committed (committedRollbackState layout journal prior)
              "saved rollback state does not match the recovering transaction";
    result ← from_res (resultForState layout state (foregroundFor layout journal) (dj_TransactionID journal));
    _ ← RemoveJournal layout;
    mret result
  else
    desired ← journal_desired;
    _ ← verifyDesired desired;
    _ ← unless_reached rollback_order PhasePriorServiceStopped
          (_ ← stopPrior (dj_PriorState journal) (mret tt); checkpoint PhasePriorServiceStopped);
    _ ← unless_reached rollback_order PhaseDefinitionInstalled
          (_ ← (if negb (String.eqb (dj_Manager journal) ManagerForeground)
                then install_desired desired (mret tt) "service manager installed an unexpected rollback definition path"
                else mret tt);
           checkpoint PhaseDefinitionInstalled);
    _ ← (if negb (String.eqb (dj_Manager journal) ManagerForeground) then
           _ ← unless_reached rollback_order PhaseActivated
                 (_ ← activateDesired desired (mret tt); checkpoint PhaseActivated);
           unless_reached rollback_order PhaseHealthVerified
             (_ ← waitForRunning desired; checkpoint PhaseHealthVerified)
         else mret tt);
    _ ← unless_reached rollback_order PhaseCommitting (checkpoint PhaseCommitting);
    prior ← journal_prior;
    let state := committedRollbackState layout journal prior in
    _ ← SaveState layout state;
    _ ← checkpoint PhaseStateSaved;
    result ← from_res (resultForState layout state (foregroundFor layout journal) (dj_TransactionID journal));
    _ ← RemoveJournal layout;
    mret result.

Definition restorePriorAfterFailedSwitch : M unit :=
  journal ← get_journal;
  _ ← (if negb (String.eqb (dj_Manager journal) ManagerForeground)
       then within "remove failed switched service" (host RemoveService) else mret tt);
  match dj_PriorState journal with
  | None => refuse "switch recovery has no prior state"
  | Some prior =>
      _ ← restore_if_active "prior release during switch recovery" prior (mret tt);
      _ ← SaveState layout prior;
      RemoveJournal layout
  end.

(** What a caller does with the outcome of a run: success, an injected crash and a
    transaction past [keep] are returned; anything else is undone. *)
Definition or_restore {A} (run : M A) (keep : DeploymentJournal → derr → bool) (restore : M unit) : M A :=
  result ← tried run;
  journal ← get_journal;
  match result with
  | Ok a => mret a
  | Err e =>
      if Is e ErrInjectedDeploymentCrash || keep journal e then fail e
      else restored ← tried restore;
           fail (match restored with Ok _ => e | Err r => Joined e r end)
  end.
Definition state_saved (journal : DeploymentJournal) (_ : derr) : bool := String.eqb (dj_Phase journal) PhaseStateSaved.

Definition run_or_restore_rollback : M ApplyResult := or_restore runRollback state_saved restorePriorAfterFailedSwitch.
Definition start_rollback : M ApplyResult :=
  state ← LoadState layout;
  match ds_Active state, ds_Previous state with
  | Some active, Some previous =>
      _ ← demand (negb (String.eqb (ds_Status state) StatusUninstalled))
            "no verified previous release is available for rollback";
      _ ← demand (String.eqb (ir_StorageSchema active) (ir_StorageSchema previous))
            "rollback across storage schemas requires a complete verified database image";
      _ ← within "verify previous release before rollback" (verifyDesired previous);
      availability ← host (Detect (ir_BinaryPath previous) (ly_StateDir layout));
      _ ← demand (negb (String.eqb (ds_Status state) StatusActive) || ma_Available availability)
            "the active native user service manager is unavailable; refusing rollback";
      transactionID ← newTransactionID;
      let journal := Mk_DeploymentJournal DeploymentStateVersion transactionID OperationRollback PhasePlanned
        (ma_Manager availability) (ma_ServiceDefinition availability) "" "" "" (Some previous) (Some state) in
      _ ← set_journal journal;
      _ ← SaveJournal layout journal;
      _ ← injectCrash PhasePlanned;
      run_or_restore_rollback
  | _, _ => refuse "no verified previous release is available for rollback"
  end.
Definition Rollback : M ApplyResult :=
  with_mutation_locks (
    _ ← on_files (PrepareLayout layout);
    loaded ← tried (LoadJournal layout);
    match loaded with
    | Ok journal =>
        _ ← set_journal journal;
        _ ← demand (String.eqb (dj_Operation journal) OperationRollback)
              "a different deployment transaction requires recovery before rollback";
        run_or_restore_rollback
    | Err e => if Is e ErrNoDeploymentJournal then start_rollback else fail e
    end).

(** ** Uninstall *)
Definition runUninstall : M UninstallResult :=
  journal ← get_journal;
  prior ← journal_prior;
  let state := committedUninstallState layout journal prior in
  if String.eqb (dj_Phase journal) PhaseStateSaved then
    state ← validate_committed state "saved uninstall state does not match the recovering transaction";
    _ ← RemoveJournal layout;
    mret (Mk_UninstallResult "uninstalled" state (dj_TransactionID journal))
  else
    _ ← unless_reached uninstall_order PhasePriorServiceStopped
          (_ ← stopPrior (dj_PriorState journal) (mret tt); checkpoint PhasePriorServiceStopped);
    _ ← unless_reached uninstall_order PhaseDefinitionRemoved
          (_ ← (if negb (String.eqb (dj_Manager journal) ManagerForeground) &&
                   negb (String.eqb (dj_Manager journal) ManagerNone) then host RemoveService else mret tt);
           checkpoint PhaseDefinitionRemoved);
    _ ← unless_reached uninstall_order PhaseRemovingArtifacts (checkpoint PhaseRemovingArtifacts);
    _ ← unless_reached uninstall_order PhaseArtifactsRemoved
          (_ ← host (removeArtifacts layout); checkpoint PhaseArtifactsRemoved);
    _ ← unless_reached uninstall_order PhaseCommitting (checkpoint PhaseCommitting);
    _ ← SaveState layout state;
    _ ← checkpoint PhaseStateSaved;
    _ ← RemoveJournal layout;
    mret (Mk_UninstallResult "uninstalled" state (dj_TransactionID journal)).

Definition restorePriorAfterFailedUninstall : M unit :=
  journal ← get_journal;
  match dj_PriorState journal with
  | None => refuse "uninstall recovery has no prior state"
  | Some prior =>
      _ ← restore_if_active "prior release during uninstall recovery" prior (mret tt);
      _ ← SaveState layout prior;
      RemoveJournal layout
  end.

Definition removing_artifacts (journal : DeploymentJournal) (_ : derr) : bool :=
  uninstallPhaseReached (dj_Phase journal) PhaseRemovingArtifacts.
Definition run_or_restore_uninstall : M UninstallResult :=
  or_restore runUninstall removing_artifacts restorePriorAfterFailedUninstall.
Definition start_uninstall : M UninstallResult :=
  loaded ← tried (LoadState layout);
  match loaded with
  | Err e =>
      if Is e ErrNoDeploymentState then
        let state := Mk_DeploymentState DeploymentStateVersion 1 StatusUninstalled ManagerNone (ly_StateDir layout) "" None None in
        _ ← SaveState layout state;
        mret (Mk_UninstallResult "uninstalled" state "")
      else fail e
  | Ok state =>
      if String.eqb (ds_Status state) StatusUninstalled then mret (Mk_UninstallResult "uninstalled" state "")
      else
        transactionID ← newTransactionID;
        let journal := Mk_DeploymentJournal DeploymentStateVersion transactionID OperationUninstall PhasePlanned
          (ds_Manager state) (ds_ServiceDefinition state) "" "" "" None (Some state) in
        _ ← set_journal journal;
        _ ← SaveJournal layout journal;
        _ ← injectCrash PhasePlanned;
        run_or_restore_uninstall
  end.
Definition Uninstall : M UninstallResult :=
  with_mutation_locks (
    _ ← on_files (PrepareLayout layout);
    loaded ← tried (LoadJournal layout);
    match loaded with
    | Ok journal =>
        _ ← set_journal journal;
        _ ← demand (String.eqb (dj_Operation journal) OperationUninstall)
              "a different deployment transaction requires recovery before uninstall";
        run_or_restore_uninstall
    | Err e => if Is e ErrNoDeploymentJournal then start_uninstall else fail e
    end).

(** ** Status *)
Definition Status : M (StatusResult * option derr) :=
  let quiet_result status state := (Mk_StatusResult status state None false false, None) in
  loaded ← tried (LoadJournal layout);
  match loaded with
  | Ok journal =>
      state ← tried (LoadState layout);
      match state with
      | Ok state => mret (Mk_StatusResult "recovery_required" (Some state) (Some journal) false true, None)
      | Err e =>
          if Is e ErrNoDeploymentState
            then mret (Mk_StatusResult "recovery_required" None (Some journal) false true, None) else fail e
      end
  | Err e =>
      if negb (Is e ErrNoDeploymentJournal) then fail e
      else
        state ← tried (LoadState layout);
        match state with
        | Err e => if Is e ErrNoDeploymentState then mret (quiet_result "uninstalled" None) else fail e
        | Ok state =>
            if String.eqb (ds_Status state) StatusUninstalled then mret (quiet_result "uninstalled" (Some state))
            else
              match ds_Active state with
              | None => refuse "deployment state has no active release"
              | Some release =>
                  verified ← tried (verifyDesired release);
                  match verified with
                  | Err e => mret (Mk_StatusResult "damaged" (Some state) None false false, Some e)
                  | Ok _ =>
                      let managed := String.eqb (ds_Status state) StatusActive in
                      active ← (if managed then host IsActive else mret true);
                      if negb active then mret (quiet_result "inactive" (Some state))
                      else
                        let foreground := String.eqb (ds_Status state) StatusForeground in
                        probed ← tried (host (probeRunning (ly_StateDir layout)));
                        match probed with
                        | Err e =>
                            if Is e ErrRuntimeUnavailable
                              then mret (quiet_result (if foreground then "foreground_stopped" else "starting") (Some state))
                              else fail e
                        | Ok reported =>
                            match ValidateReleaseIdentity reported release with
                            | Err e => mret (Mk_StatusResult "identity_mismatch" (Some state) None false false, Some (Refused e))
                            | Ok _ =>
                                mret (Mk_StatusResult (if foreground then "foreground_running" else "active")
                                        (Some state) None true false, None)
                            end
                        end
                  end
              end
        end
  end.

(** ** The transaction of apply

    [attest] is the check that the initialization lease still holds its lock path;
    apply makes it before every change. *)
Definition attested_checkpoint (attest : M unit) (phase : string) : M unit := _ ← attest; checkpoint phase.
Definition stage_release (release : InstalledRelease) (artifact license notice refusal : string) (attest : M unit) : M unit :=
  _ ← attest;
  versionDir ← on_files (PrepareVersionDirectory layout (ir_Release release));
  _ ← attest;
  staged ← host (stageArtifact artifact versionDir (Base (ir_BinaryPath release)) (ir_BinaryBytes release) (ir_BinarySHA256 release));
  _ ← demand (String.eqb staged (ir_BinaryPath release)) refusal;
  stageSupportFiles versionDir release license notice attest.
Definition runApply (initialize attest : M unit) : M ApplyResult :=
  journal ← get_journal;
  desired ← journal_desired;
  let state := committedApplyState layout journal desired in
  if String.eqb (dj_Phase journal) PhaseStateSaved then
    state ← validate_committed state "saved deployment state does not match the recovering transaction";
    result ← from_res (resultForState layout state (foregroundFor layout journal) (dj_TransactionID journal));
    _ ← attest;
    _ ← RemoveJournal layout;
    mret result
  else
    let checkpoint := attested_checkpoint attest in
    _ ← (if applyPhaseReached (dj_Phase journal) PhaseArtifactStaged then verifyDesired desired
         else
           _ ← stage_release desired (dj_SourcePath journal) (dj_LicenseSourcePath journal) (dj_NoticeSourcePath journal)
                 "artifact staging returned an unexpected immutable path" attest;
           _ ← verifyDesired desired;
           checkpoint PhaseArtifactStaged);
    _ ← unless_reached apply_order PhaseInstanceReady (_ ← initialize; checkpoint PhaseInstanceReady);
    _ ← unless_reached apply_order PhasePriorServiceStopped
          (_ ← stopPrior (dj_PriorState journal) attest; checkpoint PhasePriorServiceStopped);
    _ ← unless_reached apply_order PhaseDefinitionInstalled
          (_ ← (if negb (String.eqb (dj_Manager journal) ManagerForeground)
                then install_desired desired attest "service manager installed an unexpected definition path" else mret tt);
           checkpoint PhaseDefinitionInstalled);
    _ ← (if negb (String.eqb (dj_Manager journal) ManagerForeground) then
           _ ← unless_reached apply_order PhaseActivated (_ ← activateDesired desired attest; checkpoint PhaseActivated);
           unless_reached apply_order PhaseHealthVerified (_ ← waitForRunning desired; checkpoint PhaseHealthVerified)
         else mret tt);
    _ ← unless_reached apply_order PhaseCommitting (checkpoint PhaseCommitting);
    _ ← attest;
    _ ← SaveState layout state;
    _ ← checkpoint PhaseStateSaved;
    result ← from_res (resultForState layout state (foregroundFor layout journal) (dj_TransactionID journal));
    _ ← attest;
    _ ← RemoveJournal layout;
    mret result.

Definition restorePriorAfterFailedApply (attest : M unit) : M unit :=
  let removeJournal := _ ← attest; RemoveJournal layout in
  journal ← get_journal;
  if negb (applyPhaseReached (dj_Phase journal) PhasePriorServiceStopped) then
    match dj_PriorState journal with
    | Some prior =>
        match ds_Active prior with
        | Some active =>
            if applyPhaseReached (dj_Phase journal) PhaseInstanceReady && String.eqb (ds_Status prior) StatusActive then
              running ← within "inspect prior service after interrupted stop" (host IsActive);
              intact ← (if running : bool then
                          probed ← tried (host (probeRunning (ly_StateDir layout)));
                          mret (match probed with Ok reported => identity_matches reported active | Err _ => false end)
                        else mret false);
              _ ← (if intact : bool then mret tt else restore_service "prior release after interrupted stop" active attest);
              removeJournal
            else removeJournal
        | None => removeJournal
        end
    | None => removeJournal
    end
  else
    _ ← (if negb (String.eqb (dj_Manager journal) ManagerForeground)
         then within "rollback failed deployment service" (_ ← attest; host RemoveService) else mret tt);
    match dj_PriorState journal with
    | None => _ ← (_ ← attest; RemoveState layout); removeJournal
    | Some prior =>
        _ ← restore_if_active "prior release" prior attest;
        _ ← (_ ← attest; SaveState layout prior);
        removeJournal
    end.

(** [reattestRunApplyError] and the end of [Apply]: a lost lease is reported before the
    failure it hides, and leaves the transaction to a later run. *)
Definition reattested {A} (attest : M unit) (run : M A) : M A :=
  result ← tried run;
  match result with Ok a => mret a | Err e => _ ← attest; fail e end.
Definition unconfirmed_or_saved (journal : DeploymentJournal) (e : derr) : bool :=
  Is e ErrDeploymentPreviewConfirmationMismatch || String.eqb (dj_Phase journal) PhaseStateSaved.
Definition run_or_restore_apply (initialize attest : M unit) : M ApplyResult :=
  or_restore (reattested attest (runApply initialize attest)) unconfirmed_or_saved (restorePriorAfterFailedApply attest).

Definition validateRecordedActiveServiceBinding (state : option DeploymentState) : M unit :=
  match state with
  | Some state =>
      if negb (String.eqb (ds_Status state) StatusActive) then mret tt
      else demand (String.eqb (ds_Manager state) Kind && String.eqb (ds_ServiceDefinition state) DefinitionPath)
             "recorded active service definition does not match the current user service manager"
  | None => mret tt
  end.
Definition verifyRetainedRollbackReleaseForApply (state : option DeploymentState) (desired : InstalledRelease) : M unit :=
  match state with
  | Some state =>
      match ds_Active state, ds_Previous state with
      | Some active, Some previous =>
          if bool_decide (active = desired)
            then within "verify retained rollback release before apply" (host (verifyPreviewRelease previous)) else mret tt
      | _, _ => mret tt
      end
  | None => mret tt
  end.
Definition verifyRecordedReleaseForApply (state : option DeploymentState) (desired : InstalledRelease) : M unit :=
  match state with
  | Some st =>
      match ds_Active st with
      | Some active =>
          if String.eqb (ds_Status st) StatusUninstalled then mret tt
          else
            verified ← tried (host (verifyPreviewRelease active));
            match verified with
            | Err e =>
                if bool_decide (active = desired) && Is e ErrInstalledReleaseFilesMissing
                  then verifyRetainedRollbackReleaseForApply state desired
                  else fail (dwrap "verify recorded active release before apply" e)
            | Ok _ => verifyRetainedRollbackReleaseForApply state desired
            end
      | None => mret tt
      end
  | None => mret tt
  end.
Definition validateIdempotentApply (state : DeploymentState) (artifact license notice : string) (attest : M unit) : M ApplyResult :=
  match ds_Active state with
  | None => refuse "idempotent deployment state has no active release"
  | Some active =>
      _ ← stage_release active artifact license notice "idempotent artifact staging returned an unexpected path" attest;
      _ ← verifyDesired active;
      _ ← (if String.eqb (ds_Status state) StatusActive then
             running ← host IsActive;
             _ ← demand running "recorded user service is not active; run deployment recovery";
             reported ← host (probeRunning (ly_StateDir layout));
             from_res (ValidateReleaseIdentity reported active)
           else mret tt);
      result ← from_res (resultForState layout state (foregroundForRelease layout (ds_Manager state) (ds_Active state)) "");
      _ ← attest;
      mret result
  end.
End operations.
