(* ===== verification/Preview.v ===== *)
(** * Deployment previews: preview.go

    [src/runtime/internal/deployment/preview.go] without its reads of the machine: the
    preview document, the ordered plan of each classification, what makes a preview valid,
    and its canonical bytes.  [PreviewRun] takes the snapshot.

    A field of struct [S] is [<prefix>_<GoName>]; the slices a preview must write as arrays
    may be nil and are [goslice]s. *)

From stdpp Require Import base list strings gmap.
From Stdlib Require Import ZArith Lia Ascii.
From Stdlib Require String.
From S2P Require Import Prelude GoStd Json JsonFacts Api Wire Indent Release NetIP Fs Paths Config Layout Deploy Manifest Lifecycle.
Local Open Scope Z_scope.

#[export] Instance goslice_eq_dec {A} `{EqDecision A} : EqDecision (goslice A).
Proof. solve_decision. Defined.

Definition DeploymentPreviewVersion : string := "1".
Definition maxDeploymentPreviewBytes : Z := 512 * 1024.
(** At most [n] repetitions. *)
Fixpoint UpTo (n : nat) (r : regexp) : regexp :=
  match n with O => Empty | S n' => Maybe (Cat r (UpTo n' r)) end.
Definition reason_byte (z : Z) : bool := ((97 <=? z) && (z <=? 122)) || is_digit z.
Definition previewReasonPattern : regexp :=
  Cat (Class reason_byte) (UpTo 127 (Class (λ z, reason_byte z || (z =? 95)))).

Definition previewActionOperations : list string := [
  "prepare_install_root"; "prepare_versions_directory"; "prepare_release_directory";
  "prepare_state_directory"; "acquire_bootstrap_lock"; "create_lifecycle_lock"; "acquire_lifecycle_lock";
  "create_initialization_lock"; "acquire_initialization_lock";
  "create_apply_journal"; "resume_apply_journal"; "rebind_apply_journal_inputs";
  "recover_existing_transaction"; "publish_verified_artifact"; "publish_verified_license";
  "publish_verified_notice"; "checkpoint_apply_journal"; "initialize_or_resume_loopback_instance";
  "stop_prior_user_service"; "verify_prior_foreground_stopped"; "return_supervised_foreground_command";
  "install_user_service_definition"; "activate_user_service";
  "verify_running_release_identity_and_loopback_health"; "defer_health_until_supervised_foreground_start";
  "commit_deployment_state"; "remove_apply_journal"; "verify_or_reuse_artifact";
  "verify_or_reuse_license"; "verify_or_reuse_notice"; "verify_installed_release_identity";
  "verify_user_service_active"].
Definition previewBlockReasons : list string := [
  "active_native_manager_unavailable";
  "active_service_definition_does_not_match_current_user_manager";
  "completed_instance_configuration_is_missing";
  "completed_instance_database_is_invalid";
  "completed_instance_secret_is_invalid";
  "different_deployment_transaction_requires_matching_recovery";
  "foreground_runtime_status_is_unavailable";
  "installed_release_verification_failed";
  "installed_release_verification_failed_during_recovery";
  "instance_configuration_is_invalid";
  "instance_initialization_lock_is_invalid";
  "instance_install_marker_is_invalid";
  "instance_state_directory_is_invalid";
  "partial_instance_has_unrecoverable_data_without_configuration";
  "resumable_instance_database_is_invalid";
  "resumable_instance_secret_is_invalid";
  "recorded_user_service_is_not_active";
  "recovery_release_verification_failed";
  "running_release_identity_does_not_match";
  "service_manager_changed_during_recovery";
  "saved_deployment_state_does_not_match_recovering_transaction";
  "supervised_foreground_runtime_must_stop_before_apply";
  "unknown_foreground_runtime_uses_protected_instance"].
Definition previewForegroundReasons : list string := ["user_service_manager_not_installed"; "user_service_manager_unavailable"].
Definition PreviewFresh : string := "fresh".
Definition PreviewIdempotent : string := "idempotent".
Definition PreviewUpgrade : string := "upgrade".
Definition PreviewResumeOrRecoveryRequired : string := "resume_or_recovery_required".
Definition PreviewBlocked : string := "blocked".
Definition among (s : string) (l : list string) : bool := existsb (String.eqb s) l.

(** ** Records *)
Record PreviewRequest := Mk_PreviewRequest {
  pq_ManifestPath : string; pq_ManifestPayload : string; pq_ManifestSHA256 : string;
  pq_ArtifactPath : string; pq_LicensePath : string; pq_NoticePath : string }.
Record previewInstanceSnapshot := mkInstance {
  in_state : string; in_listeners : list string; in_blockReason : string; in_initializationLockPresent : bool }.

Record PreviewReleaseIdentity := Mk_PreviewReleaseIdentity {
  pr_Release : string;
  pr_SourceRevision : string;
  pr_BuildToolchain : string;
  pr_BuildIdentity : string;
  pr_ProtocolVersion : string;
  pr_StorageSchema : string }.
#[export] Instance PreviewReleaseIdentity_eq_dec : EqDecision PreviewReleaseIdentity.
Proof. solve_decision. Defined.
#[export] Instance PreviewReleaseIdentity_json : GoJSON PreviewReleaseIdentity :=
  {| go_ty := TStruct [
       ("release", go_ty (string)); ("source_revision", go_ty (string)); ("build_toolchain", go_ty (string));
       ("build_identity", go_ty (string)); ("protocol_version", go_ty (string)); ("storage_schema", go_ty
       (string))];
     to_g a := GStruct [
       to_g (pr_Release a); to_g (pr_SourceRevision a); to_g (pr_BuildToolchain a); to_g (pr_BuildIdentity a);
       to_g (pr_ProtocolVersion a); to_g (pr_StorageSchema a)];
     of_g g := match g with
       | GStruct [v0; v1; v2; v3; v4; v5] =>
           match of_g (A:=string) v0, of_g (A:=string) v1, of_g (A:=string) v2, of_g (A:=string) v3, of_g (A:=string) v4,
             of_g (A:=string) v5 with
           | Some a0, Some a1, Some a2, Some a3, Some a4, Some a5 =>
               Some (Mk_PreviewReleaseIdentity a0 a1 a2 a3 a4 a5)
           | _, _, _, _, _, _ => None end
       | _ => None end |}.
#[export] Instance PreviewReleaseIdentity_json_laws : GoJSONLaws PreviewReleaseIdentity.
Proof. solve_struct_laws. Qed.

Record PreviewTargetIdentity := Mk_PreviewTargetIdentity {
  pt_OS : string;
  pt_Architecture : string }.
#[export] Instance PreviewTargetIdentity_eq_dec : EqDecision PreviewTargetIdentity.
Proof. solve_decision. Defined.
#[export] Instance PreviewTargetIdentity_json : GoJSON PreviewTargetIdentity :=
  {| go_ty := TStruct [
       ("os", go_ty (string)); ("architecture", go_ty (string))];
     to_g a := GStruct [
       to_g (pt_OS a); to_g (pt_Architecture a)];
     of_g g := match g with
       | GStruct [v0; v1] =>
           match of_g (A:=string) v0, of_g (A:=string) v1 with
           | Some a0, Some a1 =>
               Some (Mk_PreviewTargetIdentity a0 a1)
           | _, _ => None end
       | _ => None end |}.
#[export] Instance PreviewTargetIdentity_json_laws : GoJSONLaws PreviewTargetIdentity.
Proof. solve_struct_laws. Qed.

Record PreviewManifestIdentity := Mk_PreviewManifestIdentity {
  pmi_Path : string;
  pmi_Bytes : Z;
  pmi_SHA256 : string }.
#[export] Instance PreviewManifestIdentity_eq_dec : EqDecision PreviewManifestIdentity.
Proof. solve_decision. Defined.
#[export] Instance PreviewManifestIdentity_json : GoJSON PreviewManifestIdentity :=
  {| go_ty := TStruct [
       ("path", go_ty (string)); ("bytes", go_ty (Z)); ("sha256", go_ty (string))];
     to_g a := GStruct [
       to_g (pmi_Path a); to_g (pmi_Bytes a); to_g (pmi_SHA256 a)];
     of_g g := match g with
       | GStruct [v0; v1; v2] =>
           match of_g (A:=string) v0, of_g (A:=Z) v1, of_g (A:=string) v2 with
           | Some a0, Some a1, Some a2 =>
               Some (Mk_PreviewManifestIdentity a0 a1 a2)
           | _, _, _ => None end
       | _ => None end |}.
#[export] Instance PreviewManifestIdentity_json_laws : GoJSONLaws PreviewManifestIdentity.
Proof. solve_struct_laws. Qed.

Record PreviewArtifactIdentity := Mk_PreviewArtifactIdentity {
  pai_SourcePath : string;
  pai_URL : string;
  pai_Bytes : Z;
  pai_SHA256 : string }.
#[export] Instance PreviewArtifactIdentity_eq_dec : EqDecision PreviewArtifactIdentity.
Proof. solve_decision. Defined.
#[export] Instance PreviewArtifactIdentity_json : GoJSON PreviewArtifactIdentity :=
  {| go_ty := TStruct [
       ("source_path", go_ty (string)); ("url", go_ty (string)); ("bytes", go_ty (Z)); ("sha256", go_ty
       (string))];
     to_g a := GStruct [
       to_g (pai_SourcePath a); to_g (pai_URL a); to_g (pai_Bytes a); to_g (pai_SHA256 a)];
     of_g g := match g with
       | GStruct [v0; v1; v2; v3] =>
           match of_g (A:=string) v0, of_g (A:=string) v1, of_g (A:=Z) v2, of_g (A:=string) v3 with
           | Some a0, Some a1, Some a2, Some a3 =>
               Some (Mk_PreviewArtifactIdentity a0 a1 a2 a3)
           | _, _, _, _ => None end
       | _ => None end |}.
#[export] Instance PreviewArtifactIdentity_json_laws : GoJSONLaws PreviewArtifactIdentity.
Proof. solve_struct_laws. Qed.

Record PreviewSupportFileIdentity := Mk_PreviewSupportFileIdentity {
  psf_SourcePath : string;
  psf_URL : string;
  psf_Bytes : Z;
  psf_SHA256 : string }.
#[export] Instance PreviewSupportFileIdentity_eq_dec : EqDecision PreviewSupportFileIdentity.
Proof. solve_decision. Defined.
#[export] Instance PreviewSupportFileIdentity_json : GoJSON PreviewSupportFileIdentity :=
  {| go_ty := TStruct [
       ("source_path", go_ty (string)); ("url", go_ty (string)); ("bytes", go_ty (Z)); ("sha256", go_ty
       (string))];
     to_g a := GStruct [
       to_g (psf_SourcePath a); to_g (psf_URL a); to_g (psf_Bytes a); to_g (psf_SHA256 a)];
     of_g g := match g with
       | GStruct [v0; v1; v2; v3] =>
           match of_g (A:=string) v0, of_g (A:=string) v1, of_g (A:=Z) v2, of_g (A:=string) v3 with
           | Some a0, Some a1, Some a2, Some a3 =>
               Some (Mk_PreviewSupportFileIdentity a0 a1 a2 a3)
           | _, _, _, _ => None end
       | _ => None end |}.
#[export] Instance PreviewSupportFileIdentity_json_laws : GoJSONLaws PreviewSupportFileIdentity.
Proof. solve_struct_laws. Qed.

Record PreviewInputs := Mk_PreviewInputs {
  pin_Manifest : PreviewManifestIdentity;
  pin_Artifact : PreviewArtifactIdentity;
  pin_License : PreviewSupportFileIdentity;
  pin_Notice : PreviewSupportFileIdentity }.
#[export] Instance PreviewInputs_eq_dec : EqDecision PreviewInputs.
Proof. solve_decision. Defined.
#[export] Instance PreviewInputs_json : GoJSON PreviewInputs :=
  {| go_ty := TStruct [
       ("manifest", go_ty (PreviewManifestIdentity)); ("artifact", go_ty (PreviewArtifactIdentity));
       ("license", go_ty (PreviewSupportFileIdentity)); ("notice", go_ty (PreviewSupportFileIdentity))];
     to_g a := GStruct [
       to_g (pin_Manifest a); to_g (pin_Artifact a); to_g (pin_License a); to_g (pin_Notice a)];
     of_g g := match g with
       | GStruct [v0; v1; v2; v3] =>
           match of_g (A:=PreviewManifestIdentity) v0, of_g (A:=PreviewArtifactIdentity) v1, of_g
             (A:=PreviewSupportFileIdentity) v2, of_g (A:=PreviewSupportFileIdentity) v3 with
           | Some a0, Some a1, Some a2, Some a3 =>
               Some (Mk_PreviewInputs a0 a1 a2 a3)
           | _, _, _, _ => None end
       | _ => None end |}.
#[export] Instance PreviewInputs_json_laws : GoJSONLaws PreviewInputs.
Proof. solve_struct_laws. Qed.

Record PreviewPaths := Mk_PreviewPaths {
  pp_HomeDir : string;
  pp_InstallRoot : string;
  pp_VersionsDir : string;
  pp_ReleaseDir : string;
  pp_StateDir : string;
  pp_BinaryPath : string;
  pp_LicensePath : string;
  pp_NoticePath : string;
  pp_ServiceDefinition : string;
  pp_DeploymentState : string;
  pp_DeploymentJournal : string;
  pp_LifecycleLock : string;
  pp_InitializationLock : string;
  pp_AdminSocket : string }.
#[export] Instance PreviewPaths_eq_dec : EqDecision PreviewPaths.
Proof. solve_decision. Defined.
#[export] Instance PreviewPaths_json : GoJSON PreviewPaths :=
  {| go_ty := TStruct [
       ("home_dir", go_ty (string)); ("install_root", go_ty (string)); ("versions_dir", go_ty (string));
       ("release_dir", go_ty (string)); ("state_dir", go_ty (string)); ("binary_path", go_ty (string));
       ("license_path", go_ty (string)); ("notice_path", go_ty (string)); ("service_definition_path", go_ty
       (string)); ("deployment_state_path", go_ty (string)); ("deployment_journal_path", go_ty (string));
       ("lifecycle_lock_path", go_ty (string)); ("initialization_lock_path", go_ty (string));
       ("admin_socket_path", go_ty (string))];
     to_g a := GStruct [
       to_g (pp_HomeDir a); to_g (pp_InstallRoot a); to_g (pp_VersionsDir a); to_g (pp_ReleaseDir a); to_g
       (pp_StateDir a); to_g (pp_BinaryPath a); to_g (pp_LicensePath a); to_g (pp_NoticePath a); to_g
       (pp_ServiceDefinition a); to_g (pp_DeploymentState a); to_g (pp_DeploymentJournal a); to_g
       (pp_LifecycleLock a); to_g (pp_InitializationLock a); to_g (pp_AdminSocket a)];
     of_g g := match g with
       | GStruct [v0; v1; v2; v3; v4; v5; v6; v7; v8; v9; v10; v11; v12; v13] =>
           match of_g (A:=string) v0, of_g (A:=string) v1, of_g (A:=string) v2, of_g (A:=string) v3, of_g (A:=string) v4,
             of_g (A:=string) v5, of_g (A:=string) v6, of_g (A:=string) v7, of_g (A:=string) v8, of_g (A:=string) v9,
             of_g (A:=string) v10, of_g (A:=string) v11, of_g (A:=string) v12, of_g (A:=string) v13 with
           | Some a0, Some a1, Some a2, Some a3, Some a4, Some a5, Some a6, Some a7, Some a8, Some a9, Some a10, Some
             a11, Some a12, Some a13 =>
               Some (Mk_PreviewPaths a0 a1 a2 a3 a4 a5 a6 a7 a8 a9 a10 a11 a12 a13)
           | _, _, _, _, _, _, _, _, _, _, _, _, _, _ => None end
       | _ => None end |}.
#[export] Instance PreviewPaths_json_laws : GoJSONLaws PreviewPaths.
Proof. solve_struct_laws. Qed.

Record PreviewExisting := Mk_PreviewExisting {
  pe_InstanceState : string;
  pe_LifecycleLockPresent : bool;
  pe_InitializationLockPresent : bool;
  pe_State : option DeploymentState;
  pe_Journal : option DeploymentJournal }.
#[export] Instance PreviewExisting_eq_dec : EqDecision PreviewExisting.
Proof. solve_decision. Defined.
#[export] Instance PreviewExisting_json : GoJSON PreviewExisting :=
  {| go_ty := TStruct [
       ("instance_state", go_ty (string)); ("lifecycle_lock_present", go_ty (bool));
       ("initialization_lock_present", go_ty (bool)); ("state", go_ty (option DeploymentState)); ("journal",
       go_ty (option DeploymentJournal))];
     to_g a := GStruct [
       to_g (pe_InstanceState a); to_g (pe_LifecycleLockPresent a); to_g (pe_InitializationLockPresent a); to_g
       (pe_State a); to_g (pe_Journal a)];
     of_g g := match g with
       | GStruct [v0; v1; v2; v3; v4] =>
           match of_g (A:=string) v0, of_g (A:=bool) v1, of_g (A:=bool) v2, of_g (A:=option DeploymentState) v3, of_g
             (A:=option DeploymentJournal) v4 with
           | Some a0, Some a1, Some a2, Some a3, Some a4 =>
               Some (Mk_PreviewExisting a0 a1 a2 a3 a4)
           | _, _, _, _, _ => None end
       | _ => None end |}.
#[export] Instance PreviewExisting_json_laws : GoJSONLaws PreviewExisting.
Proof. solve_struct_laws. Qed.

Record PreviewAction := Mk_PreviewAction {
  pa_Sequence : Z;
  pa_Category : string;
  pa_Operation : string;
  pa_Path : string;
  pa_Arguments : goslice string }.
#[export] Instance PreviewAction_eq_dec : EqDecision PreviewAction.
Proof. solve_decision. Defined.
#[export] Instance PreviewAction_json : GoJSON PreviewAction :=
  {| go_ty := TStruct [
       ("sequence", go_ty (Z)); ("category", go_ty (string)); ("operation", go_ty (string)); ("path", go_ty
       (string)); ("arguments", go_ty (goslice string))];
     to_g a := GStruct [
       to_g (pa_Sequence a); to_g (pa_Category a); to_g (pa_Operation a); to_g (pa_Path a); to_g (pa_Arguments
       a)];
     of_g g := match g with
       | GStruct [v0; v1; v2; v3; v4] =>
           match of_g (A:=Z) v0, of_g (A:=string) v1, of_g (A:=string) v2, of_g (A:=string) v3, of_g (A:=goslice string)
             v4 with
           | Some a0, Some a1, Some a2, Some a3, Some a4 =>
               Some (Mk_PreviewAction a0 a1 a2 a3 a4)
           | _, _, _, _, _ => None end
       | _ => None end |}.
#[export] Instance PreviewAction_json_laws : GoJSONLaws PreviewAction.
Proof. solve_struct_laws. Qed.

Record PreviewDataAssertions := Mk_PreviewDataAssertions {
  pda_PreserveStateDirectory : bool;
  pda_PreserveInstanceIDs : bool;
  pda_PreserveDatabase : bool;
  pda_PreserveDeviceRegistry : bool;
  pda_PreserveInstanceSecret : bool;
  pda_DestructivePurgePlanned : bool }.
#[export] Instance PreviewDataAssertions_eq_dec : EqDecision PreviewDataAssertions.
Proof. solve_decision. Defined.
#[export] Instance PreviewDataAssertions_json : GoJSON PreviewDataAssertions :=
  {| go_ty := TStruct [
       ("preserve_state_directory", go_ty (bool)); ("preserve_instance_ids", go_ty (bool));
       ("preserve_database", go_ty (bool)); ("preserve_device_registry", go_ty (bool));
       ("preserve_instance_secret", go_ty (bool)); ("destructive_purge_planned", go_ty (bool))];
     to_g a := GStruct [
       to_g (pda_PreserveStateDirectory a); to_g (pda_PreserveInstanceIDs a); to_g (pda_PreserveDatabase a);
       to_g (pda_PreserveDeviceRegistry a); to_g (pda_PreserveInstanceSecret a); to_g
       (pda_DestructivePurgePlanned a)];
     of_g g := match g with
       | GStruct [v0; v1; v2; v3; v4; v5] =>
           match of_g (A:=bool) v0, of_g (A:=bool) v1, of_g (A:=bool) v2, of_g (A:=bool) v3, of_g (A:=bool) v4, of_g
             (A:=bool) v5 with
           | Some a0, Some a1, Some a2, Some a3, Some a4, Some a5 =>
               Some (Mk_PreviewDataAssertions a0 a1 a2 a3 a4 a5)
           | _, _, _, _, _, _ => None end
       | _ => None end |}.
#[export] Instance PreviewDataAssertions_json_laws : GoJSONLaws PreviewDataAssertions.
Proof. solve_struct_laws. Qed.

Record PreviewNetworkAssertions := Mk_PreviewNetworkAssertions {
  pna_LoopbackOnly : bool;
  pna_Listeners : list string;
  pna_PublicListenerPlanned : bool }.
#[export] Instance PreviewNetworkAssertions_eq_dec : EqDecision PreviewNetworkAssertions.
Proof. solve_decision. Defined.
#[export] Instance PreviewNetworkAssertions_json : GoJSON PreviewNetworkAssertions :=
  {| go_ty := TStruct [
       ("loopback_only", go_ty (bool)); ("listeners", go_ty (list string)); ("public_listener_planned", go_ty
       (bool))];
     to_g a := GStruct [
       to_g (pna_LoopbackOnly a); to_g (pna_Listeners a); to_g (pna_PublicListenerPlanned a)];
     of_g g := match g with
       | GStruct [v0; v1; v2] =>
           match of_g (A:=bool) v0, of_g (A:=list string) v1, of_g (A:=bool) v2 with
           | Some a0, Some a1, Some a2 =>
               Some (Mk_PreviewNetworkAssertions a0 a1 a2)
           | _, _, _ => None end
       | _ => None end |}.
#[export] Instance PreviewNetworkAssertions_json_laws : GoJSONLaws PreviewNetworkAssertions.
Proof. solve_struct_laws. Qed.

Record PreviewScopeAssertions := Mk_PreviewScopeAssertions {
  psa_CurrentUserOnly : bool;
  psa_SudoRequired : bool }.
#[export] Instance PreviewScopeAssertions_eq_dec : EqDecision PreviewScopeAssertions.
Proof. solve_decision. Defined.
#[export] Instance PreviewScopeAssertions_json : GoJSON PreviewScopeAssertions :=
  {| go_ty := TStruct [
       ("current_user_only", go_ty (bool)); ("sudo_required", go_ty (bool))];
     to_g a := GStruct [
       to_g (psa_CurrentUserOnly a); to_g (psa_SudoRequired a)];
     of_g g := match g with
       | GStruct [v0; v1] =>
           match of_g (A:=bool) v0, of_g (A:=bool) v1 with
           | Some a0, Some a1 =>
               Some (Mk_PreviewScopeAssertions a0 a1)
           | _, _ => None end
       | _ => None end |}.
#[export] Instance PreviewScopeAssertions_json_laws : GoJSONLaws PreviewScopeAssertions.
Proof. solve_struct_laws. Qed.

Record PreviewAssertions := Mk_PreviewAssertions {
  pas_Data : PreviewDataAssertions;
  pas_Network : PreviewNetworkAssertions;
  pas_Scope : PreviewScopeAssertions }.
#[export] Instance PreviewAssertions_eq_dec : EqDecision PreviewAssertions.
Proof. solve_decision. Defined.
#[export] Instance PreviewAssertions_json : GoJSON PreviewAssertions :=
  {| go_ty := TStruct [
       ("data_preservation", go_ty (PreviewDataAssertions)); ("network", go_ty (PreviewNetworkAssertions));
       ("scope", go_ty (PreviewScopeAssertions))];
     to_g a := GStruct [
       to_g (pas_Data a); to_g (pas_Network a); to_g (pas_Scope a)];
     of_g g := match g with
       | GStruct [v0; v1; v2] =>
           match of_g (A:=PreviewDataAssertions) v0, of_g (A:=PreviewNetworkAssertions) v1, of_g
             (A:=PreviewScopeAssertions) v2 with
           | Some a0, Some a1, Some a2 =>
               Some (Mk_PreviewAssertions a0 a1 a2)
           | _, _, _ => None end
       | _ => None end |}.
#[export] Instance PreviewAssertions_json_laws : GoJSONLaws PreviewAssertions.
Proof. solve_struct_laws. Qed.

#[export] Instance ForegroundFallback_json : GoJSON ForegroundFallback :=
  {| go_ty := TStruct [
       ("required", go_ty (bool)); ("reason", go_ty (string)); ("command", go_ty (list string)); ("supervised",
       go_ty (bool))];
     to_g a := GStruct [
       to_g (ff_Required a); to_g (ff_Reason a); to_g (ff_Command a); to_g (ff_Supervised a)];
     of_g g := match g with
       | GStruct [v0; v1; v2; v3] =>
           match of_g (A:=bool) v0, of_g (A:=string) v1, of_g (A:=list string) v2, of_g (A:=bool) v3 with
           | Some a0, Some a1, Some a2, Some a3 =>
               Some (Mk_ForegroundFallback a0 a1 a2 a3)
           | _, _, _, _ => None end
       | _ => None end |}.
#[export] Instance ForegroundFallback_json_laws : GoJSONLaws ForegroundFallback.
Proof. solve_struct_laws. Qed.

#[export] Instance ManagerAvailability_json : GoJSON ManagerAvailability :=
  {| go_ty := TStruct [
       ("manager", go_ty (string)); ("available", go_ty (bool)); ("service_definition", go_ty (string));
       ("foreground", go_ty (option ForegroundFallback))];
     to_g a := GStruct [
       to_g (ma_Manager a); to_g (ma_Available a); to_g (ma_ServiceDefinition a); to_g (ma_Foreground a)];
     of_g g := match g with
       | GStruct [v0; v1; v2; v3] =>
           match of_g (A:=string) v0, of_g (A:=bool) v1, of_g (A:=string) v2, of_g (A:=option ForegroundFallback) v3 with
           | Some a0, Some a1, Some a2, Some a3 =>
               Some (Mk_ManagerAvailability a0 a1 a2 a3)
           | _, _, _, _ => None end
       | _ => None end |}.
#[export] Instance ManagerAvailability_json_laws : GoJSONLaws ManagerAvailability.
Proof. solve_struct_laws. Qed.

Record DeploymentPreview := Mk_DeploymentPreview {
  dp_Version : string;
  dp_Classification : string;
  dp_ApplyAllowed : bool;
  dp_BlockReason : string;
  dp_Release : PreviewReleaseIdentity;
  dp_Target : PreviewTargetIdentity;
  dp_Inputs : PreviewInputs;
  dp_Paths : PreviewPaths;
  dp_Manager : ManagerAvailability;
  dp_Existing : PreviewExisting;
  dp_Actions : goslice PreviewAction;
  dp_Assertions : PreviewAssertions }.
#[export] Instance DeploymentPreview_eq_dec : EqDecision DeploymentPreview.
Proof. solve_decision. Defined.
#[export] Instance DeploymentPreview_json : GoJSON DeploymentPreview :=
  {| go_ty := TStruct [
       ("version", go_ty (string)); ("classification", go_ty (string)); ("apply_allowed", go_ty (bool));
       ("block_reason", go_ty (string)); ("release_identity", go_ty (PreviewReleaseIdentity));
       ("target_identity", go_ty (PreviewTargetIdentity)); ("inputs", go_ty (PreviewInputs)); ("paths", go_ty
       (PreviewPaths)); ("manager", go_ty (ManagerAvailability)); ("existing", go_ty (PreviewExisting));
       ("actions", go_ty (goslice PreviewAction)); ("assertions", go_ty (PreviewAssertions))];
     to_g a := GStruct [
       to_g (dp_Version a); to_g (dp_Classification a); to_g (dp_ApplyAllowed a); to_g (dp_BlockReason a); to_g
       (dp_Release a); to_g (dp_Target a); to_g (dp_Inputs a); to_g (dp_Paths a); to_g (dp_Manager a); to_g
       (dp_Existing a); to_g (dp_Actions a); to_g (dp_Assertions a)];
     of_g g := match g with
       | GStruct [v0; v1; v2; v3; v4; v5; v6; v7; v8; v9; v10; v11] =>
           match of_g (A:=string) v0, of_g (A:=string) v1, of_g (A:=bool) v2, of_g (A:=string) v3, of_g
             (A:=PreviewReleaseIdentity) v4, of_g (A:=PreviewTargetIdentity) v5, of_g (A:=PreviewInputs) v6, of_g
             (A:=PreviewPaths) v7, of_g (A:=ManagerAvailability) v8, of_g (A:=PreviewExisting) v9, of_g (A:=goslice
             PreviewAction) v10, of_g (A:=PreviewAssertions) v11 with
           | Some a0, Some a1, Some a2, Some a3, Some a4, Some a5, Some a6, Some a7, Some a8, Some a9, Some a10, Some
             a11 =>
               Some (Mk_DeploymentPreview a0 a1 a2 a3 a4 a5 a6 a7 a8 a9 a10 a11)
           | _, _, _, _, _, _, _, _, _, _, _, _ => None end
       | _ => None end |}.
#[export] Instance DeploymentPreview_json_laws : GoJSONLaws DeploymentPreview.
Proof. solve_struct_laws. Qed.

(** ** Plans *)
Definition step : Type := string * string * string * list string.
(** [appendAction] numbers the actions from one. *)
Definition numbered (steps : list step) : list PreviewAction :=
  imap (λ i '(category, operation, path, arguments),
          Mk_PreviewAction (Z.of_nat i + 1) category operation path (Slice arguments)) steps.
Definition with_plan (preview : DeploymentPreview) (classification : string) (allowed : bool) (reason : string)
    (actions : list PreviewAction) : DeploymentPreview :=
  Mk_DeploymentPreview (dp_Version preview) classification allowed reason (dp_Release preview) (dp_Target preview)
    (dp_Inputs preview) (dp_Paths preview) (dp_Manager preview) (dp_Existing preview) (Slice actions) (dp_Assertions preview).

Section plans.
Context (preview : DeploymentPreview).
Abbreviation paths := (dp_Paths preview).
Abbreviation inputs := (dp_Inputs preview).
Abbreviation manager := (dp_Manager preview).
Definition previewLifecycleLockOperations : list string :=
  if pe_LifecycleLockPresent (dp_Existing preview) then ["acquire_lifecycle_lock"]
  else ["create_lifecycle_lock"; "acquire_lifecycle_lock"].
Definition previewInitializationLockOperations : list string :=
  if pe_InitializationLockPresent (dp_Existing preview) then ["acquire_initialization_lock"]
  else ["create_initialization_lock"; "acquire_initialization_lock"].
Definition previewMutationAdmission : list step :=
  ("state", "acquire_bootstrap_lock", pp_HomeDir paths, []) ::
  (if pe_LifecycleLockPresent (dp_Existing preview) then []
   else [("filesystem", "prepare_install_root", pp_InstallRoot paths, [])]) ++
  map (λ operation, ("state", operation, pp_LifecycleLock paths, [])) previewLifecycleLockOperations.
Definition previewLayoutPreparation : list step := [
  ("filesystem", "prepare_install_root", pp_InstallRoot paths, []);
  ("filesystem", "prepare_versions_directory", pp_VersionsDir paths, []);
  ("filesystem", "prepare_state_directory", pp_StateDir paths, [])].
Definition previewApplyPreparation : list step :=
  previewMutationAdmission ++
  [("filesystem", "prepare_state_directory", pp_StateDir paths, [])] ++
  map (λ operation, ("state", operation, pp_InitializationLock paths, [])) previewInitializationLockOperations ++
  previewLayoutPreparation.
Definition checkpoint_step (phase : string) : step :=
  ("state", "checkpoint_apply_journal", pp_DeploymentJournal paths, [phase]).
(** Steps that remain while the journal has not reached the phase. *)
Definition pending (journal : option DeploymentJournal) (phase : string) (steps : list step) : list step :=
  match journal with
  | None => steps
  | Some journal => if applyPhaseReached (dj_Phase journal) phase then [] else steps
  end.
Definition journal_steps (journal : option DeploymentJournal) : list step :=
  match journal with
  | None => [("state", "create_apply_journal", pp_DeploymentJournal paths, [PhasePlanned])]
  | Some journal =>
      ("state", "resume_apply_journal", pp_DeploymentJournal paths, [dj_TransactionID journal; dj_Phase journal]) ::
      (if String.eqb (dj_Phase journal) PhasePlanned &&
          (negb (String.eqb (dj_SourcePath journal) (pai_SourcePath (pin_Artifact inputs))) ||
           negb (String.eqb (dj_LicenseSourcePath journal) (psf_SourcePath (pin_License inputs))) ||
           negb (String.eqb (dj_NoticeSourcePath journal) (psf_SourcePath (pin_Notice inputs))))
       then [("state", "rebind_apply_journal_inputs", pp_DeploymentJournal paths,
              [pai_SourcePath (pin_Artifact inputs); psf_SourcePath (pin_License inputs); psf_SourcePath (pin_Notice inputs)])]
       else [])
  end.
Definition stop_steps (prior : option DeploymentState) : list step :=
  match prior with
  | Some prior =>
      if String.eqb (ds_Status prior) StatusActive
        then [("service", "stop_prior_user_service", ds_ServiceDefinition prior, [ds_Manager prior])]
      else if String.eqb (ds_Status prior) StatusForeground
        then [("service", "verify_prior_foreground_stopped", pp_AdminSocket paths, [])]
      else []
  | None => []
  end.
Definition is_foreground : bool := String.eqb (ma_Manager manager) ManagerForeground.
Definition install_steps : list step :=
  if is_foreground
    then [("service", "return_supervised_foreground_command", "",
           match ma_Foreground manager with Some foreground => ff_Command foreground | None => [] end)]
  else [("service", "install_user_service_definition", pp_ServiceDefinition paths,
         [ma_Manager manager; pp_BinaryPath paths; pp_StateDir paths])].
Definition previewApplyActions (prior : option DeploymentState) (journal : option DeploymentJournal) : list PreviewAction :=
  let prior := match journal with Some journal => dj_PriorState journal | None => prior end in
  numbered (
    previewApplyPreparation ++
    journal_steps journal ++
    pending journal PhaseArtifactStaged [
      ("filesystem", "prepare_release_directory", pp_ReleaseDir paths, []);
      ("filesystem", "publish_verified_artifact", pp_BinaryPath paths, [pai_SourcePath (pin_Artifact inputs)]);
      ("filesystem", "publish_verified_license", pp_LicensePath paths, [psf_SourcePath (pin_License inputs)]);
      ("filesystem", "publish_verified_notice", pp_NoticePath paths, [psf_SourcePath (pin_Notice inputs)]);
      checkpoint_step PhaseArtifactStaged] ++
    pending journal PhaseInstanceReady [
      ("init", "initialize_or_resume_loopback_instance", pp_StateDir paths, pna_Listeners (pas_Network (dp_Assertions preview)));
      checkpoint_step PhaseInstanceReady] ++
    pending journal PhasePriorServiceStopped (stop_steps prior ++ [checkpoint_step PhasePriorServiceStopped]) ++
    pending journal PhaseDefinitionInstalled (install_steps ++ [checkpoint_step PhaseDefinitionInstalled]) ++
    (if is_foreground then [("health", "defer_health_until_supervised_foreground_start", pp_AdminSocket paths, [])]
     else
       pending journal PhaseActivated [
         ("service", "activate_user_service", pp_ServiceDefinition paths, [ma_Manager manager]);
         checkpoint_step PhaseActivated] ++
       pending journal PhaseHealthVerified [
         ("health", "verify_running_release_identity_and_loopback_health", pp_AdminSocket paths,
          [pr_BuildIdentity (dp_Release preview)]);
         checkpoint_step PhaseHealthVerified]) ++
    pending journal PhaseCommitting [checkpoint_step PhaseCommitting] ++
    pending journal PhaseStateSaved [
      ("state", "commit_deployment_state", pp_DeploymentState paths, [pr_Release (dp_Release preview); ma_Manager manager]);
      checkpoint_step PhaseStateSaved] ++
    [("state", "remove_apply_journal", pp_DeploymentJournal paths, [])]).
Definition previewIdempotentActions (state : DeploymentState) : list PreviewAction :=
  numbered (
    previewApplyPreparation ++ [
      ("filesystem", "prepare_release_directory", pp_ReleaseDir paths, []);
      ("filesystem", "verify_or_reuse_artifact", pp_BinaryPath paths, [pai_SourcePath (pin_Artifact inputs)]);
      ("filesystem", "verify_or_reuse_license", pp_LicensePath paths, [psf_SourcePath (pin_License inputs)]);
      ("filesystem", "verify_or_reuse_notice", pp_NoticePath paths, [psf_SourcePath (pin_Notice inputs)]);
      ("health", "verify_installed_release_identity", pp_BinaryPath paths, [pr_BuildIdentity (dp_Release preview)])] ++
    (if String.eqb (ds_Status state) StatusActive then [
      ("service", "verify_user_service_active", ds_ServiceDefinition state, [ds_Manager state]);
      ("health", "verify_running_release_identity_and_loopback_health", pp_AdminSocket paths,
       [pr_BuildIdentity (dp_Release preview)])] else [])).
Definition previewRecoveryActions (journal : DeploymentJournal) : list PreviewAction :=
  numbered (
    (if String.eqb (dj_Operation journal) OperationApply then previewApplyPreparation
     else previewMutationAdmission ++ previewLayoutPreparation) ++
    [("state", "recover_existing_transaction", pp_DeploymentJournal paths, [dj_Operation journal; dj_Phase journal])]).

Definition installedReleaseFromPreview : InstalledRelease :=
  let release := dp_Release preview in
  Mk_InstalledRelease (pr_Release release) (pr_SourceRevision release) (pr_BuildToolchain release) (pr_BuildIdentity release)
    (pmi_SHA256 (pin_Manifest inputs)) (pr_ProtocolVersion release) (pr_StorageSchema release)
    (pt_OS (dp_Target preview)) (pt_Architecture (dp_Target preview)) (pp_BinaryPath paths)
    (pai_Bytes (pin_Artifact inputs)) (pai_SHA256 (pin_Artifact inputs)) (psf_Bytes (pin_License inputs))
    (psf_SHA256 (pin_License inputs)) (psf_Bytes (pin_Notice inputs)) (psf_SHA256 (pin_Notice inputs)).

Definition different_transaction : string := "different_deployment_transaction_requires_matching_recovery".
Definition expectedPreviewActions : res string (list PreviewAction) :=
  let classification := dp_Classification preview in
  let existing := dp_Existing preview in
  if String.eqb classification PreviewFresh then Ok (previewApplyActions None None)
  else if String.eqb classification PreviewIdempotent then
    match pe_State existing with
    | None => Err "idempotent deployment preview has no state"
    | Some state => Ok (previewIdempotentActions state)
    end
  else if String.eqb classification PreviewUpgrade then
    match pe_State existing with
    | None => Err "upgrade deployment preview has no state"
    | Some state => Ok (previewApplyActions (Some state) None)
    end
  else if String.eqb classification PreviewResumeOrRecoveryRequired then
    match pe_Journal existing with
    | None => Err "deployment recovery preview has no journal"
    | Some journal =>
        if dp_ApplyAllowed preview then Ok (previewApplyActions (dj_PriorState journal) (Some journal))
        else if String.eqb (dp_BlockReason preview) different_transaction then Ok (previewRecoveryActions journal)
        else Ok []
    end
  else if String.eqb classification PreviewBlocked then Ok []
  else Err "deployment preview classification is invalid".
End plans.
Definition elements_of {A} (s : goslice A) : list A := match s with NilSlice => [] | Slice l => l end.
Definition is_nil {A} (s : goslice A) : bool := match s with NilSlice => true | Slice _ => false end.
Definition equal_action (first second : PreviewAction) : bool :=
  (pa_Sequence first =? pa_Sequence second) && String.eqb (pa_Category first) (pa_Category second) &&
  String.eqb (pa_Operation first) (pa_Operation second) && String.eqb (pa_Path first) (pa_Path second) &&
  bool_decide (elements_of (pa_Arguments first) = elements_of (pa_Arguments second)).
Fixpoint equalPreviewActions (first second : list PreviewAction) : bool :=
  match first, second with
  | [], [] => true
  | a :: first, b :: second => equal_action a b && equalPreviewActions first second
  | _, _ => false
  end.

(** ** Validation *)
Definition supervised_command (binaryPath stateDir : string) : list string := [binaryPath; "serve"; "--state-dir"; stateDir].
Definition validateForegroundPreview (preview : DeploymentPreview) : res string unit :=
  let manager := dp_Manager preview in
  let paths := dp_Paths preview in
  fails (ma_Available manager || negb (String.eqb (ma_ServiceDefinition manager) "") ||
         negb (String.eqb (pp_ServiceDefinition paths) "") ||
         match ma_Foreground manager with
         | None => true
         | Some foreground =>
             negb (ff_Required foreground) || negb (ff_Supervised foreground) ||
             negb (matches previewReasonPattern (ff_Reason foreground)) ||
             negb (among (ff_Reason foreground) previewForegroundReasons) ||
             negb (bool_decide (ff_Command foreground = supervised_command (pp_BinaryPath paths) (pp_StateDir paths)))
         end) "deployment preview foreground outcome is invalid".
Fixpoint distinct (l : list string) : bool :=
  match l with [] => true | x :: l' => negb (among x l') && distinct l' end.
Fixpoint adjacent (p : string → string → bool) (l : list string) : bool :=
  match l with x :: ((y :: _) as l') => p x y && adjacent p l' | _ => true end.

Section previews.
Context `{UnicodeCase}.
Definition previewDownloadOrigin (artifactURL : URL) (release artifactName : string) : res string URL :=
  let segments := splitCanonicalURLPath (u_Path artifactURL) in
  let n := length segments in
  if (n <? 3)%nat || negb (bool_decide (drop (n - 3) segments = ["releases"; release; artifactName]))
    then Err "artifact URL does not identify the exact release"
  else
    let prefix := take (n - 3) segments in
    let originPath := match prefix with [] => "" | _ => "/" +:+ join "/" prefix end in
    parseDownloadOrigin (URLString (base_url (u_Scheme artifactURL) (u_Host artifactURL) originPath)).
Definition validatePreviewURLs (preview : DeploymentPreview) : res string unit :=
  let inputs := dp_Inputs preview in
  let release := pr_Release (dp_Release preview) in
  match ParseURL (pai_URL (pin_Artifact inputs)) with
  | None => Err "deployment preview artifact URL is invalid"
  | Some artifactURL =>
      if String.eqb (u_Scheme artifactURL) "" || String.eqb (u_Host artifactURL) ""
        then Err "deployment preview artifact URL is invalid"
      else
        let artifactName := "sshserver-" +:+ pt_OS (dp_Target preview) +:+ "-" +:+ pt_Architecture (dp_Target preview) in
        match previewDownloadOrigin artifactURL release artifactName with
        | Err _ => Err "deployment preview download origin is invalid"
        | Ok origin =>
            all_ok (map (λ '(value, name),
              match parseReleaseURL value origin release with
              | Ok parsed => fails (negb (String.eqb (Base (u_Path parsed)) name)) ("deployment preview " +:+ name +:+ " URL is invalid")
              | Err _ => Err ("deployment preview " +:+ name +:+ " URL is invalid")
              end) [(pai_URL (pin_Artifact inputs), artifactName); (psf_URL (pin_License inputs), "LICENSE");
                    (psf_URL (pin_Notice inputs), "NOTICE")])
        end
  end.

Definition classified (preview : DeploymentPreview) (classification : string) : bool :=
  String.eqb (dp_Classification preview) classification.
Definition validate_classification (preview : DeploymentPreview) : res string unit :=
  let allowed := dp_ApplyAllowed preview in
  let reason := dp_BlockReason preview in
  if classified preview PreviewFresh || classified preview PreviewIdempotent || classified preview PreviewUpgrade
    then fails (negb allowed || negb (String.eqb reason "")) "applicable deployment preview classification is inconsistent"
  else if classified preview PreviewResumeOrRecoveryRequired
    then fails (Bool.eqb allowed (negb (String.eqb reason ""))) "deployment recovery preview applicability is inconsistent"
  else if classified preview PreviewBlocked
    then fails (allowed || String.eqb reason "" || negb (bool_decide (elements_of (dp_Actions preview) = [])))
           "blocked deployment preview is inconsistent"
  else Err "deployment preview classification is invalid".
Definition installed_state (state : option DeploymentState) : bool :=
  match state with Some state => negb (String.eqb (ds_Status state) StatusUninstalled) | None => false end.
(** The desired release is the recorded one, under the recorded manager. *)
Definition idempotent_state (preview : DeploymentPreview) (desired : InstalledRelease) : bool :=
  match pe_State (dp_Existing preview) with
  | Some state => bool_decide (ds_Active state = Some desired) && String.eqb (ds_Manager state) (ma_Manager (dp_Manager preview))
  | None => false
  end.
Definition matching_apply (preview : DeploymentPreview) (desired : InstalledRelease) : bool :=
  match pe_Journal (dp_Existing preview) with
  | Some journal => String.eqb (dj_Operation journal) OperationApply && bool_decide (dj_Desired journal = Some desired) &&
                    managerMatchesJournal (dp_Manager preview) journal
  | None => false
  end.
Definition validate_manager (layout : Layout) (preview : DeploymentPreview) : res string unit :=
  let manager := dp_Manager preview in
  if String.eqb (ma_Manager manager) ManagerForeground then validateForegroundPreview preview
  else
    let wantManager := if String.eqb (pt_OS (dp_Target preview)) "darwin" then ManagerLaunchd else ManagerSystemd in
    all_ok [
      fails (negb (String.eqb (ma_Manager manager) wantManager) || negb (ma_Available manager) ||
             bool_decide (is_Some (ma_Foreground manager)) || String.eqb (ma_ServiceDefinition manager) "" ||
             negb (String.eqb (ma_ServiceDefinition manager) (pp_ServiceDefinition (dp_Paths preview))) ||
             negb (canonicalAbsolutePath (ma_ServiceDefinition manager))) "deployment preview native manager outcome is invalid";
      requireStrictDescendant (ly_HomeDir layout) (ma_ServiceDefinition manager) "service definition"].
Definition validate_actions (preview : DeploymentPreview) : res string unit :=
  all_ok [
    fails (is_nil (dp_Actions preview)) "deployment preview actions must be an explicit array";
    all_ok (imap (λ index action, all_ok [
      fails (negb (pa_Sequence action =? Z.of_nat index + 1) || is_nil (pa_Arguments action))
        "deployment preview action ordering is invalid";
      fails (negb (among (pa_Category action) ["filesystem"; "service"; "init"; "health"; "state"]))
        "deployment preview action category is invalid";
      fails (negb (among (pa_Operation action) previewActionOperations) ||
             negb (String.eqb (pa_Path action) "") && negb (canonicalAbsolutePath (pa_Path action)))
        "deployment preview action is invalid"]) (elements_of (dp_Actions preview)));
    match expectedPreviewActions preview with
    | Err e => Err e
    | Ok expected => fails (negb (equalPreviewActions (elements_of (dp_Actions preview)) expected))
        "deployment preview actions do not match the exact classified lifecycle plan"
    end].
Definition validate_assertions (assertions : PreviewAssertions) : res string unit :=
  let data := pas_Data assertions in
  let network := pas_Network assertions in
  let scope := pas_Scope assertions in
  all_ok [
    fails (negb (pda_PreserveStateDirectory data) || negb (pda_PreserveInstanceIDs data) ||
           negb (pda_PreserveDatabase data) || negb (pda_PreserveDeviceRegistry data) ||
           negb (pda_PreserveInstanceSecret data) || pda_DestructivePurgePlanned data ||
           negb (pna_LoopbackOnly network) || pna_PublicListenerPlanned network ||
           negb (psa_CurrentUserOnly scope) || psa_SudoRequired scope || bool_decide (pna_Listeners network = []))
      "deployment preview safety assertions are invalid";
    all_ok (map (λ listener, match ValidateListener listener with
                             | Ok _ => Ok tt
                             | Err _ => Err "deployment preview contains a non-loopback listener"
                             end) (pna_Listeners network));
    fails (negb (adjacent sleb (pna_Listeners network))) "deployment preview listeners are not canonically ordered";
    fails (negb (adjacent (λ a b, negb (String.eqb a b)) (pna_Listeners network))) "deployment preview listeners are not unique"].
Definition input_paths (preview : DeploymentPreview) : list string :=
  let inputs := dp_Inputs preview in
  [pmi_Path (pin_Manifest inputs); pai_SourcePath (pin_Artifact inputs); psf_SourcePath (pin_License inputs);
   psf_SourcePath (pin_Notice inputs)].
Definition bounded_digest (bytes maximum : Z) (digest : string) : bool :=
  (0 <? bytes) && (bytes <=? maximum) && matches hexDigestPattern digest.
(** Method [Validate] of [DeploymentPreview]. *)
Definition validate_preview (preview : DeploymentPreview) : res string unit :=
  let existing := dp_Existing preview in
  let reason := dp_BlockReason preview in
  let paths := dp_Paths preview in
  let inputs := dp_Inputs preview in
  let release := dp_Release preview in
  let target := Mk_Target (pt_OS (dp_Target preview)) (pt_Architecture (dp_Target preview)) in
  let desired := installedReleaseFromPreview preview in
  all_ok [
    fails (negb (String.eqb (dp_Version preview) DeploymentPreviewVersion)) "deployment preview version is invalid";
    validate_classification preview;
    fails (negb (String.eqb reason "") && (negb (matches previewReasonPattern reason) || negb (among reason previewBlockReasons)))
      "deployment preview block reason is invalid";
    fails (negb (Bool.eqb (classified preview PreviewResumeOrRecoveryRequired) (bool_decide (is_Some (pe_Journal existing)))))
      "deployment preview recovery classification does not match its journal";
    fails (classified preview PreviewFresh && installed_state (pe_State existing)) "fresh deployment preview has an installed state";
    fails ((classified preview PreviewIdempotent || classified preview PreviewUpgrade) && negb (installed_state (pe_State existing)))
      "existing deployment preview classification has no installed state";
    match NewLayout (pp_HomeDir paths) (pp_InstallRoot paths) (pp_StateDir paths) with
    | Err _ => Err "deployment preview paths do not form one canonical layout"
    | Ok layout =>
        all_ok [
          fails (negb (String.eqb (ly_VersionsDir layout) (pp_VersionsDir paths)) ||
                 negb (String.eqb (ly_StatePath layout) (pp_DeploymentState paths)) ||
                 negb (String.eqb (ly_JournalPath layout) (pp_DeploymentJournal paths)) ||
                 negb (String.eqb (ly_LockPath layout) (pp_LifecycleLock paths)))
            "deployment preview paths do not form one canonical layout";
          fails (negb (isSupportedTarget target)) "deployment preview target is unsupported";
          fails (negb (Valid (pr_Release release)) || negb (matches sourceRevisionPattern (pr_SourceRevision release)) ||
                 negb (matches toolchainPattern (pr_BuildToolchain release)) ||
                 negb (matches hexDigestPattern (pr_BuildIdentity release)) ||
                 negb (String.eqb (pr_ProtocolVersion release) "1") || negb (String.eqb (pr_StorageSchema release) "1"))
            "deployment preview release identity is invalid";
          match DeriveBuildIdentity (pr_Release release) (pr_SourceRevision release) (pr_BuildToolchain release) target with
          | Ok want => fails (negb (String.eqb (pr_BuildIdentity release) want))
              "deployment preview build identity does not match its release and target"
          | Err _ => Err "deployment preview build identity does not match its release and target"
          end;
          match BinaryPath layout (pr_Release release) target with
          | Ok binaryPath => fails (negb (String.eqb binaryPath (pp_BinaryPath paths))) "deployment preview binary path is invalid"
          | Err _ => Err "deployment preview binary path is invalid"
          end;
          let releaseDir := match VersionDir layout (pr_Release release) with Ok d => d | Err _ => "" end in
          fails (negb (String.eqb (pp_ReleaseDir paths) releaseDir) ||
                 negb (String.eqb (pp_LicensePath paths) (Join [releaseDir; "LICENSE"])) ||
                 negb (String.eqb (pp_NoticePath paths) (Join [releaseDir; "NOTICE"])) ||
                 negb (String.eqb (pp_InitializationLock paths) (Join [ly_StateDir layout; ".instance.lock"])) ||
                 negb (String.eqb (pp_AdminSocket paths) (AdminSocket (ForStateDir (ly_StateDir layout)))))
            "deployment preview derived paths are invalid";
          fails (negb (forallb canonicalAbsolutePath (input_paths preview))) "deployment preview input path is invalid";
          fails (negb (distinct (input_paths preview))) "deployment preview input paths are not distinct";
          fails (negb (bounded_digest (pmi_Bytes (pin_Manifest inputs)) maxManifestBytes (pmi_SHA256 (pin_Manifest inputs))) ||
                 negb (bounded_digest (pai_Bytes (pin_Artifact inputs)) maxArtifactBytes (pai_SHA256 (pin_Artifact inputs))) ||
                 negb (bounded_digest (psf_Bytes (pin_License inputs)) maxReleaseFileBytes (psf_SHA256 (pin_License inputs))) ||
                 negb (bounded_digest (psf_Bytes (pin_Notice inputs)) maxReleaseFileBytes (psf_SHA256 (pin_Notice inputs))))
            "deployment preview input identity is invalid";
          match validate_release layout desired with
          | Ok _ => Ok tt
          | Err e => Err ("deployment preview desired release is invalid: " +:+ e)
          end;
          validatePreviewURLs preview;
          validate_manager layout preview;
          when_some (pe_State existing) (validate_state layout);
          when_some (pe_Journal existing) (validate_journal layout)]
    end;
    (if classified preview PreviewIdempotent then
       fails (negb (idempotent_state preview desired))
         "idempotent deployment preview does not match its desired release and manager"
     else if classified preview PreviewUpgrade then
       fails (idempotent_state preview desired) "upgrade deployment preview is already idempotent"
     else if classified preview PreviewResumeOrRecoveryRequired then
       fails (dp_ApplyAllowed preview && negb (matching_apply preview desired))
         "deployment recovery preview does not match its desired release and manager"
     else Ok tt);
    fails (negb (among (pe_InstanceState existing) ["missing"; "uninitialized"; "resume"; "initializing"; "ready"; "invalid"]) ||
           String.eqb (pe_InstanceState existing) "invalid" && dp_ApplyAllowed preview)
      "deployment preview instance state is invalid";
    validate_actions preview;
    validate_assertions (dp_Assertions preview)].

(** ** Canonical bytes

    [service_definition] and [foreground] of the manager are left out when empty. *)
Definition empty_member (kv : string * json) : bool :=
  among kv.1 ["service_definition"; "foreground"] && match kv.2 with JStr "" | JNull => true | _ => false end.
Definition manager_json (manager : ManagerAvailability) : json :=
  match to_json (go_ty ManagerAvailability) (to_g manager) with
  | JObj members => JObj (List.filter (λ kv, negb (empty_member kv)) members)
  | j => j
  end.
Definition preview_json (preview : DeploymentPreview) : json :=
  match to_json (go_ty DeploymentPreview) (to_g preview) with
  | JObj members => JObj (map (λ kv, if String.eqb kv.1 "manager" then (kv.1, manager_json (dp_Manager preview)) else kv) members)
  | j => j
  end.
Definition marshal_preview (preview : DeploymentPreview) : string := print (preview_json preview).
Definition preview_CanonicalBytes (preview : DeploymentPreview) : res string string :=
  match validate_preview preview with
  | Err e => Err e
  | Ok _ => Ok (marshal_preview preview +:+ String (chrZ 10) "")
  end.
Definition ParseDeploymentPreview (payload : string) : res string DeploymentPreview :=
  if (slen payload =? 0) || (maxDeploymentPreviewBytes <? slen payload) then Err "deployment preview exceeds its size boundary"
  else
    match decodeStrictStream DeploymentPreview payload with
    | None => Err "decode deployment preview"  (* or "deployment preview contains trailing data" *)
    | Some preview =>
        match preview_CanonicalBytes preview with
        | Err e => Err e
        | Ok canonical => if String.eqb payload canonical then Ok preview else Err "deployment preview is not in canonical byte form"
        end
    end.
Definition finishPreview (preview : DeploymentPreview) : res string DeploymentPreview :=
  match validate_preview preview with Err e => Err e | Ok _ => Ok preview end.
Definition finishBlockedPreview (preview : DeploymentPreview) (reason : string) : res string DeploymentPreview :=
  finishPreview (with_plan preview PreviewBlocked false reason []).
Definition finishRecoveryUnavailable (preview : DeploymentPreview) (reason : string) : res string DeploymentPreview :=
  finishPreview (with_plan preview PreviewResumeOrRecoveryRequired false reason []).
End previews.
