(* ===== verification/PreviewRun.v ===== *)
(** * Taking a preview: preview.go on a machine

    The part of [src/runtime/internal/deployment/preview.go] that reads the machine: the
    shared lock, the state of the instance, the installed releases, the service manager,
    and the classification of what an apply would do.  What [Lifecycle] keeps behind
    fields is behind [Host] and [PreviewHost]; [validate_existing] is the store's
    [ValidateExisting], whose database is not a file of the model. *)

From stdpp Require Import base list strings gmap.
From Stdlib Require Import ZArith Lia Ascii.
From Stdlib Require String.
From S2P Require Import Prelude GoStd Json JsonFacts Api Wire Indent Release NetIP Fs Paths Config Layout Deploy Manifest Artifact Lifecycle Preview.
Local Open Scope Z_scope.

Class PreviewHost (H : Type) := {
  verifySourceArtifact : string → InstalledRelease → HostM H unit;
  verifySourceReleaseFile : string → Z → string → HostM H unit;
  validate_existing : string → string → string → HostM H unit;
  flock_shared : string → HostM H unit;
  acquireInstanceLease : string → bool → HostM H bool;
  close_lease : HostM H unit }.

(** ** The service manager's answer *)
Definition sameForeground (first second : option ForegroundFallback) : bool := bool_decide (first = second).
Definition sameManagerAvailability (first second : ManagerAvailability) : bool :=
  String.eqb (ma_Manager first) (ma_Manager second) && Bool.eqb (ma_Available first) (ma_Available second) &&
  String.eqb (ma_ServiceDefinition first) (ma_ServiceDefinition second) && sameForeground (ma_Foreground first) (ma_Foreground second).

(** ** The preview before it is classified *)
Definition basePreview (layout : Layout) (request : PreviewRequest) (manifest : ReleaseManifest) (desired : InstalledRelease)
    (artifact : ReleaseArtifact) (availability : ManagerAvailability) (state : option DeploymentState)
    (journal : option DeploymentJournal) (lifecycleLockPresent : bool) (instance : previewInstanceSnapshot) :
    res string DeploymentPreview :=
  match VersionDir layout (ir_Release desired) with
  | Err e => Err e
  | Ok releaseDir =>
      match SupportFilePath layout desired "LICENSE", SupportFilePath layout desired "NOTICE" with
      | Ok licensePath, Ok noticePath =>
          let license := support_file manifest 0 in
          let notice := support_file manifest 1 in
          Ok (Mk_DeploymentPreview DeploymentPreviewVersion "" false ""
            (Mk_PreviewReleaseIdentity (ir_Release desired) (ir_SourceRevision desired) (ir_BuildToolchain desired)
               (ir_BuildIdentity desired) (ir_ProtocolVersion desired) (ir_StorageSchema desired))
            (Mk_PreviewTargetIdentity (ir_OS desired) (ir_Architecture desired))
            (Mk_PreviewInputs
               (Mk_PreviewManifestIdentity (pq_ManifestPath request) (slen (pq_ManifestPayload request)) (pq_ManifestSHA256 request))
               (Mk_PreviewArtifactIdentity (pq_ArtifactPath request) (ra_URL artifact) (ra_Bytes artifact) (ra_SHA256 artifact))
               (Mk_PreviewSupportFileIdentity (pq_LicensePath request) (rf_URL license) (rf_Bytes license) (rf_SHA256 license))
               (Mk_PreviewSupportFileIdentity (pq_NoticePath request) (rf_URL notice) (rf_Bytes notice) (rf_SHA256 notice)))
            (Mk_PreviewPaths (ly_HomeDir layout) (ly_InstallRoot layout) (ly_VersionsDir layout) releaseDir (ly_StateDir layout)
               (ir_BinaryPath desired) licensePath noticePath (ma_ServiceDefinition availability) (ly_StatePath layout)
               (ly_JournalPath layout) (ly_LockPath layout) (Join [ly_StateDir layout; ".instance.lock"])
               (AdminSocket (ForStateDir (ly_StateDir layout))))
            availability
            (Mk_PreviewExisting (in_state instance) lifecycleLockPresent (in_initializationLockPresent instance) state journal)
            (Slice [])
            (Mk_PreviewAssertions
               (Mk_PreviewDataAssertions true true true true true false)
               (Mk_PreviewNetworkAssertions true (in_listeners instance) false)
               (Mk_PreviewScopeAssertions true false)))
      | Err e, _ => Err e
      | _, Err e => Err e
      end
  end.

Section previews.
Context {H : Type} `{!Host H} `{!PreviewHost H} `{UnicodeCase} `{BuildInfoReader} (lifecycle : Lifecycle).
Abbreviation layout := (lc_layout lifecycle).
Abbreviation M A := (DepM H A).

Definition not_exist (e : derr) : bool := Is e (FileError NotExist).

(** ** Reading the machine *)
Definition acquireDeploymentSharedLock : M string :=
  n ← within "open deployment lock" (on_files (open_lock (ly_LockPath layout) false));
  _ ← within "validate deployment lock" (on_files (validateDeploymentFileFD n));
  _ ← within "lock deployment lifecycle" (host (flock_shared (ly_LockPath layout)));
  mret (ly_LockPath layout).
Definition acquireDeploymentSharedLockIfPresent : M (option string) :=
  lock ← tried acquireDeploymentSharedLock;
  match lock with
  | Ok path => mret (Some path)
  | Err e => if not_exist e then mret None else fail e
  end.
Definition validateExistingDeploymentLock : M unit :=
  lock ← acquireDeploymentSharedLockIfPresent;
  match lock with
  | None => mret tt
  | Some path => within "release deployment preflight lock" (close_lock path)
  end.
Definition loadPreviewState : M (option DeploymentState) :=
  loaded ← tried (LoadState layout);
  match loaded with
  | Ok state => mret (Some state)
  | Err e => if Is e ErrNoDeploymentState then mret None else fail e
  end.
Definition loadPreviewJournal : M (option DeploymentJournal) :=
  loaded ← tried (LoadJournal layout);
  match loaded with
  | Ok journal => mret (Some journal)
  | Err e => if Is e ErrNoDeploymentJournal then mret None else fail e
  end.

(** ** The instance *)
Definition pathExists (path : string) : M bool :=
  stat ← tried (on_files (Lstat path));
  mret (match stat with Err e => negb (not_exist e) | Ok _ => true end).
Fixpoint any_exists (l : list string) : M bool :=
  match l with [] => mret false | path :: rest => found ← pathExists path; if found : bool then mret true else any_exists rest end.
Definition sidecars (paths : Paths) : list string := [Database paths +:+ "-wal"; Database paths +:+ "-shm"; Database paths +:+ "-journal"].
Definition partialInstanceDataExists (paths : Paths) : M bool := any_exists (InstanceSecret paths :: Database paths :: sidecars paths).
(** Whether each of the files passes; [optional] says whether it may be missing. *)
Fixpoint protected_files (optional : string → bool) (l : list string) : M bool :=
  match l with
  | [] => mret true
  | path :: rest =>
      checked ← tried (on_files (ValidateProtectedFile path 384));
      match checked with
      | Ok _ => protected_files optional rest
      | Err e => if optional path && not_exist e then protected_files optional rest else mret false
      end
  end.
Definition validateResumableInstanceFiles (paths : Paths) (settings : Settings) : M string :=
  secret ← tried (on_files (ReadSecret (InstanceSecret paths)));
  if match secret with Ok _ => false | Err e => negb (not_exist e) end then mret "resumable_instance_secret_is_invalid"
  else
    intact ← protected_files (λ _, true) (Database paths :: sidecars paths);
    if negb intact then mret "resumable_instance_database_is_invalid"
    else
      present ← pathExists (Database paths);
      if negb present then
        orphan ← any_exists (sidecars paths);
        mret (if orphan : bool then "resumable_instance_database_is_invalid" else "")
      else
        checked ← tried (host (validate_existing (Database paths) (se_InstanceID settings) (se_VaultID settings)));
        mret (match checked with Ok _ => "" | Err _ => "resumable_instance_database_is_invalid" end).
Definition completed_instance (paths : Paths) (settings : res derr Settings) (result : string → string → previewInstanceSnapshot) :
    M previewInstanceSnapshot :=
  match settings with
  | Err _ => mret (result "invalid" "completed_instance_configuration_is_missing")
  | Ok settings =>
      secret ← tried (on_files (ReadSecret (InstanceSecret paths)));
      match secret with
      | Err _ => mret (result "invalid" "completed_instance_secret_is_invalid")
      | Ok _ =>
          intact ← protected_files (λ path, negb (String.eqb path (Database paths))) (Database paths :: sidecars paths);
          if negb intact then mret (result "invalid" "completed_instance_database_is_invalid")
          else
            checked ← tried (host (validate_existing (Database paths) (se_InstanceID settings) (se_VaultID settings)));
            mret (match checked with
                  | Ok _ => result "ready" ""
                  | Err _ => result "invalid" "completed_instance_database_is_invalid"
                  end)
      end
  end.
(** Without a completed marker: [initializing] with one, [resume] or [uninitialized] without. *)
Definition partial_instance (paths : Paths) (settings : res derr Settings) (result : string → string → previewInstanceSnapshot)
    (with_settings without_settings : string) : M previewInstanceSnapshot :=
  match settings with
  | Err _ =>
      partial ← partialInstanceDataExists paths;
      mret (if partial : bool then result "invalid" "partial_instance_has_unrecoverable_data_without_configuration"
            else result without_settings "")
  | Ok settings =>
      blockReason ← validateResumableInstanceFiles paths settings;
      mret (if String.eqb blockReason "" then result with_settings "" else result "invalid" blockReason)
  end.
Definition inspectPreviewInstance (stateDir : string) : M previewInstanceSnapshot :=
  let listeners := order_by sleb DefaultListeners in
  let invalid reason := mret (mkInstance "invalid" listeners reason false) in
  info ← tried (on_files (Lstat stateDir));
  match info with
  | Err e => if not_exist e then mret (mkInstance "missing" listeners "" false) else invalid "instance_state_directory_is_invalid"
  | Ok n =>
      valid ← (match n with
               | Directory _ _ => tried (on_files (ValidateStateDirectory stateDir))
               | _ => mret (Err (Refused "not a directory"))
               end);
      match valid with
      | Err _ => invalid "instance_state_directory_is_invalid"
      | Ok _ =>
          lock ← tried (on_files (ValidateProtectedFile (Join [stateDir; ".instance.lock"]) 384));
          if match lock with Ok _ => false | Err e => negb (not_exist e) end then invalid "instance_initialization_lock_is_invalid"
          else
            let present := match lock with Ok _ => true | Err _ => false end in
            let paths := ForStateDir stateDir in
            marker ← tried (on_files (LoadMarker (InstallMarkerPath paths)));
            settings ← tried (on_files (LoadSettings (ConfigPath paths)));
            let listeners := match settings with Ok s => order_by sleb (se_Listeners s) | Err _ => listeners end in
            let result state blockReason := mkInstance state listeners blockReason present in
            if match settings with Ok _ => false | Err e => negb (Is e (FileError Uninitialized)) end
              then mret (result "invalid" "instance_configuration_is_invalid")
            else
              match marker with
              | Ok marker =>
                  if String.eqb (im_Phase marker) "ready" then completed_instance paths settings result
                  else partial_instance paths settings result "initializing" "initializing"
              | Err e =>
                  if not_exist e then partial_instance paths settings result "resume" "uninitialized"
                  else mret (result "invalid" "instance_install_marker_is_invalid")
              end
      end
  end.

(** ** Installed releases *)
Definition verifyPreviewInstalledPath (path : string) (verify : M unit) : M bool :=
  stat ← tried (on_files (Lstat path));
  match stat with
  | Ok _ => _ ← verify; mret false
  | Err e => if not_exist e then mret true else fail e
  end.
Definition verifyInstalledReleaseForPreview (desired : InstalledRelease) : M unit :=
  releaseDir ← from_res (VersionDir layout (ir_Release desired));
  stat ← tried (on_files (Lstat releaseDir));
  match stat with
  | Err e => if not_exist e then fail ErrInstalledReleaseFilesMissing else fail e
  | Ok _ =>
      _ ← within "validate installed release directory" (on_files (openVerifiedDirectory releaseDir true));
      _ ← within "close installed release directory" (on_files sync_file);
      binaryMissing ← verifyPreviewInstalledPath (ir_BinaryPath desired)
        (_ ← on_files (VerifyStagedArtifact (ir_BinaryPath desired) (ir_BinaryBytes desired) (ir_BinarySHA256 desired));
         on_files (VerifyArtifactSource (ir_BinaryPath desired) desired));
      licensePath ← from_res (SupportFilePath layout desired "LICENSE");
      licenseMissing ← verifyPreviewInstalledPath licensePath
        (on_files (VerifyStagedReleaseFile licensePath (ir_LicenseBytes desired) (ir_LicenseSHA256 desired)));
      noticePath ← from_res (SupportFilePath layout desired "NOTICE");
      noticeMissing ← verifyPreviewInstalledPath noticePath
        (on_files (VerifyStagedReleaseFile noticePath (ir_NoticeBytes desired) (ir_NoticeSHA256 desired)));
      if binaryMissing || licenseMissing || noticeMissing then fail ErrInstalledReleaseFilesMissing else mret tt
  end.
Definition preflightDesiredReleaseDestinations (desired : InstalledRelease) : M unit :=
  verified ← tried (verifyInstalledReleaseForPreview desired);
  match verified with
  | Ok _ => mret tt
  | Err e => if Is e ErrInstalledReleaseFilesMissing then mret tt else fail (dwrap "preflight desired release destinations" e)
  end.

(** ** The service manager *)
Definition validateManagerAvailability (desired : InstalledRelease) (availability : ManagerAvailability) : M unit :=
  let manager := ma_Manager availability in
  if ma_Available availability then
    _ ← demand (String.eqb manager Kind && String.eqb (ma_ServiceDefinition availability) DefinitionPath &&
                bool_decide (ma_Foreground availability = None))
          "service-manager probe returned an inconsistent native-user outcome";
    demand (Bool.eqb (String.eqb manager ManagerSystemd) (String.eqb (ir_OS desired) "linux") &&
            Bool.eqb (String.eqb manager ManagerLaunchd) (String.eqb (ir_OS desired) "darwin"))
      "service-manager outcome does not match the deployment target"
  else
    demand (String.eqb manager ManagerForeground && String.eqb (ma_ServiceDefinition availability) "" &&
            match ma_Foreground availability with
            | Some foreground =>
                ff_Required foreground && ff_Supervised foreground && negb (String.eqb (ff_Reason foreground) "") &&
                bool_decide (ff_Command foreground = supervised_command (ir_BinaryPath desired) (ly_StateDir layout))
            | None => false
            end) "service-manager probe returned an invalid foreground outcome".
Definition validateProspectiveServiceDefinition (path : string) : M unit :=
  _ ← demand (canonicalAbsolutePath path) "service definition path is not canonical and absolute";
  _ ← from_res (requireStrictDescendant (ly_HomeDir layout) path "service definition");
  home ← on_files (openSecureDirectory (ly_HomeDir layout));
  relative ← from_res (match Rel (ly_HomeDir layout) (Dir path) with Some r => Ok r | None => Err "Rel: can't make path relative" end);
  _ ← on_files (validateExistingDirectoryBelow home relative);
  checked ← tried (on_files (ValidateProtectedFile path 384));
  match checked with
  | Ok _ => mret tt
  | Err e => if not_exist e then mret tt else fail (dwrap "validate existing service definition" e)
  end.
Definition validateApplyManager (desired : InstalledRelease) (availability : ManagerAvailability) : M unit :=
  _ ← validateManagerAvailability desired availability;
  if negb (String.eqb (ma_ServiceDefinition availability) "")
    then validateProspectiveServiceDefinition (ma_ServiceDefinition availability) else mret tt.

(** ** Classification *)
Definition foregroundRuntimePreviewBlockReason (state : option DeploymentState) : M string :=
  probed ← tried (host (probeRunning (ly_StateDir layout)));
  mret (match probed with
        | Ok reported =>
            match state with
            | Some state =>
                match ds_Active state with
                | Some active => if identity_matches reported active then "supervised_foreground_runtime_must_stop_before_apply"
                                 else "unknown_foreground_runtime_uses_protected_instance"
                | None => "unknown_foreground_runtime_uses_protected_instance"
                end
            | None => "unknown_foreground_runtime_uses_protected_instance"
            end
        | Err e => if Is e ErrRuntimeUnavailable then "" else "foreground_runtime_status_is_unavailable"
        end).
Definition status_is (status : string) (state : option DeploymentState) : bool :=
  match state with Some state => String.eqb (ds_Status state) status | None => false end.
Definition classifyJournalPreview (preview : DeploymentPreview) (desired : InstalledRelease) (availability : ManagerAvailability)
    (journal : DeploymentJournal) : M DeploymentPreview :=
  let unavailable reason := from_res (finishRecoveryUnavailable preview reason) in
  let recovery := with_plan preview PreviewResumeOrRecoveryRequired in
  if negb (String.eqb (dj_Operation journal) OperationApply) || negb (bool_decide (dj_Desired journal = Some desired))
    then from_res (finishPreview (recovery false different_transaction
           (previewRecoveryActions (recovery false different_transaction []) journal)))
  else if negb (managerMatchesJournal availability journal) then unavailable "service_manager_changed_during_recovery"
  else
    verified ← tried (verifyRecordedReleaseForApply (dj_PriorState journal) desired);
    match verified with
    | Err _ => unavailable "installed_release_verification_failed_during_recovery"
    | Ok _ =>
        if String.eqb (dj_Phase journal) PhaseStateSaved &&
           negb (match pe_State (dp_Existing preview) with
                 | Some state => sameDeploymentState state (committedApplyState layout journal desired)
                 | None => false
                 end)
          then unavailable "saved_deployment_state_does_not_match_recovering_transaction"
        else
          reason ← (if status_is StatusForeground (dj_PriorState journal) &&
                       negb (applyPhaseReached (dj_Phase journal) PhasePriorServiceStopped)
                    then foregroundRuntimePreviewBlockReason (dj_PriorState journal) else mret "");
          if negb (String.eqb reason "") then unavailable reason
          else from_res (finishPreview (recovery true "" (previewApplyActions preview (dj_PriorState journal) (Some journal))))
    end.
Definition classifyStatePreview (preview : DeploymentPreview) (desired : InstalledRelease) (availability : ManagerAvailability)
    (state : option DeploymentState) : M DeploymentPreview :=
  let blocked reason := from_res (finishBlockedPreview preview reason) in
  let finish classification actions := from_res (finishPreview (with_plan preview classification true "" actions)) in
  retained ← tried (match state with
                    | Some _ => verifyRetainedRollbackReleaseForApply state desired
                    | None => mret tt end);
  match retained with
  | Err _ => blocked "installed_release_verification_failed"
  | Ok _ =>
      match state with
      | None => finish PreviewFresh (previewApplyActions preview None None)
      | Some st =>
          if String.eqb (ds_Status st) StatusUninstalled then finish PreviewFresh (previewApplyActions preview None None)
          else if String.eqb (ds_Status st) StatusActive && negb (ma_Available availability)
            then blocked "active_native_manager_unavailable"
          else if String.eqb (ds_Status st) StatusActive &&
                  (negb (String.eqb (ds_Manager st) Kind) || negb (String.eqb (ds_ServiceDefinition st) DefinitionPath))
            then blocked "active_service_definition_does_not_match_current_user_manager"
          else if bool_decide (ds_Active st = Some desired) && String.eqb (ds_Manager st) (ma_Manager availability) then
            reason ← (if String.eqb (ds_Status st) StatusActive then
                        active ← tried (host IsActive);
                        if negb (match active with Ok b => b | Err _ => false end) then mret "recorded_user_service_is_not_active"
                        else
                          probed ← tried (host (probeRunning (ly_StateDir layout)));
                          mret (if match probed with Ok reported => identity_matches reported desired | Err _ => false end
                                then "" else "running_release_identity_does_not_match")
                      else mret "");
            if negb (String.eqb reason "") then blocked reason
            else finish PreviewIdempotent (previewIdempotentActions preview st)
          else
            reason ← (if String.eqb (ds_Status st) StatusForeground then foregroundRuntimePreviewBlockReason state else mret "");
            if negb (String.eqb reason "") then blocked reason
            else finish PreviewUpgrade (previewApplyActions preview state None)
      end
  end.

(** ** The snapshot *)
Definition verify_recovering (desired : option InstalledRelease) (recovering : bool) : M (res derr unit) :=
  match desired with
  | Some release => if recovering then tried (host (verifyPreviewRelease release)) else mret (Ok tt)
  | None => mret (Ok tt)
  end.
Definition installed_release (state : option DeploymentState) : option InstalledRelease :=
  match state with Some st => if String.eqb (ds_Status st) StatusUninstalled then None else ds_Active st | None => None end.
Definition previewSnapshotWithInstance (request : PreviewRequest) (manifest : ReleaseManifest) (desired : InstalledRelease)
    (artifact : ReleaseArtifact) (lifecycleLockPresent : bool) (instanceOverride : option previewInstanceSnapshot) :
    M DeploymentPreview :=
  _ ← on_files (ValidateLayoutReadOnly layout);
  availability ← host (Detect (ir_BinaryPath desired) (ly_StateDir layout));
  _ ← validateApplyManager desired availability;
  state ← loadPreviewState;
  journal ← loadPreviewJournal;
  instance ← (match instanceOverride with Some instance => mret instance | None => inspectPreviewInstance (ly_StateDir layout) end);
  preview ← from_res (basePreview layout request manifest desired artifact availability state journal lifecycleLockPresent instance);
  installed ← verify_recovering (installed_release state) true;
  match journal with
  | Some journal =>
      let unavailable reason := from_res (finishRecoveryUnavailable preview reason) in
      match installed with
      | Err _ => unavailable "installed_release_verification_failed_during_recovery"
      | Ok _ =>
          recovering ← verify_recovering (dj_Desired journal)
            (String.eqb (dj_Operation journal) OperationRollback ||
             String.eqb (dj_Operation journal) OperationApply && applyPhaseReached (dj_Phase journal) PhaseArtifactStaged);
          match recovering with
          | Err _ => unavailable "recovery_release_verification_failed"
          | Ok _ =>
              if negb (String.eqb (in_blockReason instance) "") then unavailable (in_blockReason instance)
              else
                destinations ← (if String.eqb (dj_Operation journal) OperationApply && bool_decide (dj_Desired journal = Some desired) &&
                                   negb (applyPhaseReached (dj_Phase journal) PhaseArtifactStaged)
                                then tried (preflightDesiredReleaseDestinations desired) else mret (Ok tt));
                match destinations with
                | Err _ => unavailable "recovery_release_verification_failed"
                | Ok _ => classifyJournalPreview preview desired availability journal
                end
          end
      end
  | None =>
      let blocked reason := from_res (finishBlockedPreview preview reason) in
      let repairable e := bool_decide (installed_release state = Some desired) &&
        match state with Some st => String.eqb (ds_Manager st) (ma_Manager availability) | None => false end &&
        Is e ErrInstalledReleaseFilesMissing in
      if match installed with Err e => negb (repairable e) | Ok _ => false end then blocked "installed_release_verification_failed"
      else if negb (String.eqb (in_blockReason instance) "") then blocked (in_blockReason instance)
      else
        destinations ← tried (preflightDesiredReleaseDestinations desired);
        match destinations with
        | Err _ => blocked "installed_release_verification_failed"
        | Ok _ => classifyStatePreview preview desired availability state
        end
  end.
Definition previewSnapshot (request : PreviewRequest) (manifest : ReleaseManifest) (desired : InstalledRelease)
    (artifact : ReleaseArtifact) (lifecycleLockPresent : bool) : M DeploymentPreview :=
  previewSnapshotWithInstance request manifest desired artifact lifecycleLockPresent None.
Definition previewWhileLocked (request : PreviewRequest) (manifest : ReleaseManifest) (desired : InstalledRelease)
    (artifact : ReleaseArtifact) (lock : string) : M DeploymentPreview :=
  closing "release deployment preview lock" lock (previewSnapshot request manifest desired artifact true).

Definition request_paths (request : PreviewRequest) : list string :=
  [pq_ManifestPath request; pq_ArtifactPath request; pq_LicensePath request; pq_NoticePath request].
(** The first path that is not canonical, or repeats an earlier one. *)
Fixpoint check_inputs (seen paths : list string) : res string unit :=
  match paths with
  | [] => Ok tt
  | path :: rest =>
      if negb (canonicalAbsolutePath path) then Err "deployment preview inputs must use canonical absolute paths"
      else if among path seen then Err "deployment preview input paths must be distinct"
      else check_inputs (path :: seen) rest
  end.
Definition previewDesired (request : PreviewRequest) : res string (ReleaseManifest * InstalledRelease * ReleaseArtifact) :=
  match ParsePinnedManifest (pq_ManifestPayload request) (pq_ManifestSHA256 request) with
  | Err e => Err e
  | Ok manifest =>
      match InstalledFromManifest layout manifest (pq_ManifestSHA256 request) (lc_target lifecycle) with
      | Err e => Err e
      | Ok desired =>
          match check_inputs [] (request_paths request) with
          | Err e => Err e
          | Ok _ =>
              match Artifact manifest (lc_target lifecycle) with
              | Err e => Err e
              | Ok artifact => Ok (manifest, desired, artifact)
              end
          end
      end
  end.
Definition verify_inputs (what : string → string) (request : PreviewRequest) (desired : InstalledRelease) : M unit :=
  _ ← within (what "artifact") (host (verifySourceArtifact (pq_ArtifactPath request) desired));
  _ ← within (what "LICENSE") (host (verifySourceReleaseFile (pq_LicensePath request) (ir_LicenseBytes desired) (ir_LicenseSHA256 desired)));
  within (what "NOTICE") (host (verifySourceReleaseFile (pq_NoticePath request) (ir_NoticeBytes desired) (ir_NoticeSHA256 desired))).
(** [Preview]: without a lifecycle lock the snapshot is tentative, and is taken again under
    the lock when one has appeared. *)
Definition TakePreview (request : PreviewRequest) : M DeploymentPreview :=
  '(manifest, desired, artifact) ← from_res (previewDesired request);
  _ ← on_files (ValidateLayoutReadOnly layout);
  _ ← verify_inputs (λ what, "verify preview " +:+ what) request desired;
  lock ← acquireDeploymentSharedLockIfPresent;
  match lock with
  | Some path => previewWhileLocked request manifest desired artifact path
  | None =>
      tentative ← tried (previewSnapshot request manifest desired artifact false);
      lock ← acquireDeploymentSharedLockIfPresent;
      match lock with
      | None => from_derr tentative
      | Some path => previewWhileLocked request manifest desired artifact path
      end
  end.
End previews.
