(* ===== verification/ApplyRun.v ===== *)
(** * Applying a confirmed preview: Apply of lifecycle.go

    [Apply] of [src/runtime/internal/deployment/lifecycle.go] with what only it uses: the
    preview is rebuilt under the locks and must have the digest the user confirmed before
    anything is changed, again once the lifecycle lock is held, and again once the
    instance is leased; then the transaction of [Lifecycle] runs, begins or resumes. *)

From stdpp Require Import base list strings gmap.
From Stdlib Require Import ZArith Lia Ascii.
From Stdlib Require String.
From S2P Require Import Prelude GoStd Json JsonFacts Api Wire Indent Release NetIP Fs Paths Config Layout Deploy Manifest Artifact Lifecycle Preview PreviewRun.
Local Open Scope Z_scope.

Record ApplyRequest := Mk_ApplyRequest { aq_preview : PreviewRequest; aq_ConfirmedPreviewSHA256 : string }.

Section apply.
Context {H : Type} `{!Host H} `{!PreviewHost H} `{UnicodeCase} `{BuildInfoReader} (lifecycle : Lifecycle).
Abbreviation layout := (lc_layout lifecycle).
Abbreviation M A := (DepM H A).

(** ** Confirmation *)
Definition confirmDeploymentPreview (preview : DeploymentPreview) (confirmedSHA256 : string) : M unit :=
  _ ← demand (matches hexDigestPattern confirmedSHA256)
        "confirmed deployment preview SHA-256 must be exactly 64 lowercase hexadecimal characters";
  canonical ← from_res (preview_CanonicalBytes preview);
  _ ← (if String.eqb (SHA256Hex canonical) confirmedSHA256 then mret tt else fail ErrDeploymentPreviewConfirmationMismatch);
  demand (dp_ApplyAllowed preview) ("confirmed deployment preview is not applicable: " +:+ dp_BlockReason preview).
Definition verifyApplyConfirmationInputs (request : ApplyRequest) (desired : InstalledRelease) : M unit :=
  let inputs := aq_preview request in
  payload ← on_files (ReadPinnedManifestFile (pq_ManifestPath inputs) (pq_ManifestSHA256 inputs));
  _ ← demand (String.eqb payload (pq_ManifestPayload inputs)) "deployment manifest bytes changed after they were read";
  verify_inputs (λ what, "verify confirmed deployment " +:+ what) inputs desired.
Definition onlyInitializationLockPresent (stateDir : string) : M bool :=
  opened ← tried (on_files (openVerifiedDirectory stateDir true));
  match opened with
  | Err _ => mret false
  | Ok directory =>
      names ← tried (on_files (Readdirnames directory));
      mret (match names with Ok names => bool_decide (names = [".instance.lock"]) | Err _ => false end)
  end.
Definition lockedConfirmationInstanceSnapshot (confirmedState : string) : M previewInstanceSnapshot :=
  current ← inspectPreviewInstance (ly_StateDir layout);
  structural ← (if String.eqb confirmedState "missing" && String.eqb (in_state current) "uninitialized" &&
                   String.eqb (in_blockReason current) ""
                then onlyInitializationLockPresent (ly_StateDir layout) else mret false);
  mret (if structural : bool
        then mkInstance "missing" (in_listeners current) (in_blockReason current) (in_initializationLockPresent current)
        else current).
Definition attestConfirmedInitializationLease : M unit :=
  attested ← tried (host lease_Attest);
  match attested with Ok _ => mret tt | Err _ => fail ErrDeploymentPreviewConfirmationMismatch end.
(** [initializeInstance] of [Apply]. *)
Definition initialize_instance : M unit :=
  initialized ← tried (host lease_Initialize);
  match initialized with Ok _ => mret tt | Err e => _ ← attestConfirmedInitializationLease; fail e end.
Definition revalidateApplyManager (desired : InstalledRelease) (initial : ManagerAvailability) : M ManagerAvailability :=
  current ← host (Detect (ir_BinaryPath desired) (ly_StateDir layout));
  _ ← validateApplyManager lifecycle desired current;
  _ ← demand (sameManagerAvailability initial current)
        "service-manager availability changed during apply preflight; rerun preview before applying";
  mret current.

(** ** Steps of Apply *)
Definition recorded_ok (state : option DeploymentState) (desired : InstalledRelease) : M unit :=
  _ ← validateRecordedActiveServiceBinding state;
  verifyRecordedReleaseForApply state desired.
Definition same_transaction (journal : DeploymentJournal) (desired : InstalledRelease) : M unit :=
  demand (String.eqb (dj_Operation journal) OperationApply && bool_decide (dj_Desired journal = Some desired))
    "a different deployment transaction requires recovery before apply".
Definition same_manager (availability : ManagerAvailability) (journal : DeploymentJournal) : M unit :=
  demand (managerMatchesJournal availability journal)
    "service-manager outcome no longer matches the recoverable deployment transaction".
(** Everything that is checked before the first lock. *)
Definition apply_preflight (request : ApplyRequest) (desired : InstalledRelease) : M unit :=
  _ ← verifyApplyConfirmationInputs request desired;
  _ ← on_files (ValidateLayoutReadOnly layout);
  _ ← preflightDesiredReleaseDestinations lifecycle desired;
  instance ← inspectPreviewInstance (ly_StateDir layout);
  _ ← demand (String.eqb (in_blockReason instance) "")
        ("deployment instance preflight is blocked: " +:+ in_blockReason instance);
  _ ← validateExistingDeploymentLock lifecycle;
  journal ← loadPreviewJournal lifecycle;
  _ ← (match journal with Some journal => same_transaction journal desired | None => mret tt end);
  state ← loadPreviewState lifecycle;
  _ ← (match state with Some _ => recorded_ok state desired | None => mret tt end);
  _ ← (match journal with Some journal => recorded_ok (dj_PriorState journal) desired | None => mret tt end);
  initial ← host (Detect (ir_BinaryPath desired) (ly_StateDir layout));
  _ ← validateApplyManager lifecycle desired initial;
  current ← revalidateApplyManager desired initial;
  match journal with Some journal => same_manager current journal | None => mret tt end.

Definition rebound (journal : DeploymentJournal) (inputs : PreviewRequest) : DeploymentJournal :=
  Mk_DeploymentJournal (dj_StateVersion journal) (dj_TransactionID journal) (dj_Operation journal) (dj_Phase journal)
    (dj_Manager journal) (dj_ServiceDefinition journal) (pq_ArtifactPath inputs) (pq_LicensePath inputs) (pq_NoticePath inputs)
    (dj_Desired journal) (dj_PriorState journal).
(** The journal variable is set before the lease is attested and the journal saved. *)
Definition record_journal (journal : DeploymentJournal) : M unit :=
  _ ← set_journal journal;
  _ ← attestConfirmedInitializationLease;
  SaveJournal layout journal.
Definition resume_apply (inputs : PreviewRequest) (desired : InstalledRelease) (availability : ManagerAvailability)
    (journal : DeploymentJournal) : M ApplyResult :=
  let attest := attestConfirmedInitializationLease in
  _ ← set_journal journal;
  _ ← same_transaction journal desired;
  _ ← same_manager availability journal;
  _ ← recorded_ok (dj_PriorState journal) desired;
  current ← loadPreviewState lifecycle;
  _ ← (match current with Some _ => recorded_ok current desired | None => mret tt end);
  _ ← (if String.eqb (dj_Phase journal) PhasePlanned &&
          (negb (String.eqb (dj_SourcePath journal) (pq_ArtifactPath inputs)) ||
           negb (String.eqb (dj_LicenseSourcePath journal) (pq_LicensePath inputs)) ||
           negb (String.eqb (dj_NoticeSourcePath journal) (pq_NoticePath inputs)))
       then record_journal (rebound journal inputs) else mret tt);
  run_or_restore_apply lifecycle initialize_instance attest.
Definition start_apply (inputs : PreviewRequest) (desired : InstalledRelease) (availability : ManagerAvailability) : M ApplyResult :=
  let attest := attestConfirmedInitializationLease in
  prior ← loadPreviewState lifecycle;
  _ ← (match prior with Some _ => recorded_ok prior desired | None => mret tt end);
  _ ← demand (negb (status_is StatusActive prior && negb (ma_Available availability)))
        "the active native user service manager is unavailable; refusing an implicit foreground transition";
  let fresh :=
    transactionID ← newTransactionID;
    let journal := Mk_DeploymentJournal DeploymentStateVersion transactionID OperationApply PhasePlanned
      (ma_Manager availability) (ma_ServiceDefinition availability) (pq_ArtifactPath inputs) (pq_LicensePath inputs)
      (pq_NoticePath inputs) (Some desired) prior in
    _ ← record_journal journal;
    _ ← injectCrash lifecycle PhasePlanned;
    run_or_restore_apply lifecycle initialize_instance attest in
  match prior with
  | Some state =>
      if bool_decide (ds_Active state = Some desired) && String.eqb (ds_Manager state) (ma_Manager availability)
        then validateIdempotentApply lifecycle state (pq_ArtifactPath inputs) (pq_LicensePath inputs) (pq_NoticePath inputs) attest
        else fresh
  | None => fresh
  end.
Definition apply_transaction (inputs : PreviewRequest) (desired : InstalledRelease) (availability : ManagerAvailability) : M ApplyResult :=
  journal ← loadPreviewJournal lifecycle;
  match journal with
  | Some journal => resume_apply inputs desired availability journal
  | None => start_apply inputs desired availability
  end.

(** A deferred release of the instance lease. *)
Definition releasing_lease {A} (body : M A) : M A :=
  result ← tried body;
  closed ← tried (host close_lease);
  match closed with
  | Ok _ => from_derr result
  | Err e =>
      let e := dwrap "release deployment instance lease" e in
      fail (match result with Ok _ => e | Err first => Joined first e end)
  end.
Definition lease_instance (present : bool) : M bool :=
  leased ← tried (host (acquireInstanceLease (ly_StateDir layout) present));
  match leased with
  | Ok created => mret created
  | Err e => if Is e (FileError Exist) || Is e (FileError NotExist) then fail ErrDeploymentPreviewConfirmationMismatch else fail e
  end.

Section confirmed.
Context (request : ApplyRequest) (manifest : ReleaseManifest) (desired : InstalledRelease) (artifact : ReleaseArtifact).
Abbreviation inputs := (aq_preview request).
Definition confirmed_snapshot (lockPresent : bool) (instance : option previewInstanceSnapshot) : M DeploymentPreview :=
  preview ← previewSnapshotWithInstance lifecycle inputs manifest desired artifact lockPresent instance;
  _ ← confirmDeploymentPreview preview (aq_ConfirmedPreviewSHA256 request);
  mret preview.
(** Under both locks and the lease. *)
Definition apply_leased (lockPresent created : bool) (confirmed : DeploymentPreview) : M ApplyResult :=
  let present := pe_InitializationLockPresent (dp_Existing confirmed) in
  _ ← (if Bool.eqb created present then fail ErrDeploymentPreviewConfirmationMismatch else mret tt);
  _ ← verifyApplyConfirmationInputs request desired;
  snapshot ← lockedConfirmationInstanceSnapshot (pe_InstanceState (dp_Existing confirmed));
  _ ← attestConfirmedInitializationLease;
  final ← confirmed_snapshot lockPresent
            (Some (mkInstance (in_state snapshot) (in_listeners snapshot) (in_blockReason snapshot) present));
  _ ← on_files (PrepareLayout layout);
  _ ← attestConfirmedInitializationLease;
  apply_transaction inputs desired (dp_Manager final).
(** Under both locks. *)
Definition apply_locked (lockPresent : bool) (bootstrapPreview : option DeploymentPreview) : M ApplyResult :=
  _ ← verifyApplyConfirmationInputs request desired;
  lockedPreview ← confirmed_snapshot lockPresent None;
  let confirmed := match bootstrapPreview with Some preview => preview | None => lockedPreview end in
  _ ← preflightDesiredReleaseDestinations lifecycle desired;
  _ ← on_files (PrepareDeploymentStateDirectory layout);
  created ← lease_instance (pe_InitializationLockPresent (dp_Existing confirmed));
  releasing_lease (apply_leased lockPresent created confirmed).
(** Under the bootstrap lock: a first installation confirms the preview before it creates
    the lifecycle lock. *)
Definition apply_admitted : M ApplyResult :=
  stat ← tried (on_files (Lstat (ly_LockPath layout)));
  '(lock, lockPresent, bootstrapPreview) ←
    (match stat with
     | Ok _ => lock ← acquireExistingDeploymentLock lifecycle; mret (lock, true, None)
     | Err e =>
         if not_exist e then
           preview ← confirmed_snapshot false None;
           _ ← verifyApplyConfirmationInputs request desired;
           _ ← on_files (PrepareDeploymentLockRoot layout);
           lock ← acquireDeploymentLock lifecycle;
           mret (lock, false, Some preview)
         else fail (dwrap "inspect deployment lock" e)
     end);
  closing "release deployment lock" lock (apply_locked lockPresent bootstrapPreview).
End confirmed.
Definition Apply (request : ApplyRequest) : M ApplyResult :=
  _ ← demand (matches hexDigestPattern (aq_ConfirmedPreviewSHA256 request))
        "confirmed deployment preview SHA-256 must be exactly 64 lowercase hexadecimal characters";
  '(manifest, desired, artifact) ← from_res (previewDesired lifecycle (aq_preview request));
  _ ← apply_preflight request desired;
  bootstrap ← acquireDeploymentBootstrapLock lifecycle;
  closing "release deployment bootstrap lock" bootstrap (apply_admitted request manifest desired artifact).
End apply.
