(* ===== verification/Http.v ===== *)
(** * The HTTP transport

    [src/runtime/internal/httpapi/handler.go]: the frozen V1 transport in front of the
    data plane.  An [HttpRequest] is what [net/http] hands to a handler: the header map
    has canonical keys, a server request always has a body, and reading that body gives
    its bytes and then either the end or an error.  The data plane and the readiness
    check are the interfaces of the source, as type classes over the state they run on.

    A reply is either written through the response writer, or, for a retained receipt
    on a connection that can be taken over, as raw bytes that may be cut short when the
    peer goes away.  [json.Marshal] does not fail on the structs of this file, so the
    fallback of writeJSON is not reachable and left out. *)

From stdpp Require Import base list strings gmap.
From Stdlib Require Import ZArith Lia Ascii.
From Stdlib Require String.
From S2P Require Import Prelude GoStd GoTime Uuid Release Json JsonFacts Api Wire NetIP Fs Config.
Local Open Scope Z_scope.

Definition MaxHeaderBytes : Z := 16 * 1024.
Definition MaxBodyBytes : Z := 4 * 1024 * 1024.

(** ** Requests *)
Record HttpURL := { Scheme : string; UrlPath : string; RawPath : string; RawQuery : string;
                    ForceQuery : bool; Fragment : string }.
Record HttpBody := { body_bytes : string; body_fails : bool }.
Record HttpRequest := {
  ProtoMajor : Z; ProtoMinor : Z; HttpMethod : string; URL : HttpURL; RequestURI : string;
  HttpHeader : gmap string (list string);
  TransferEncoding : list string; Trailer : gmap string (list string);
  ContentLength : Z; HttpBodyOf : HttpBody }.

(** [Header.Values] and [Header.Get] of a canonical key. *)
Definition HeaderValues (key : string) (request : HttpRequest) : list string :=
  match HttpHeader request !! key with Some l => l | None => [] end.
Definition HeaderGet (key : string) (request : HttpRequest) : string :=
  match HeaderValues key request with v :: _ => v | [] => "" end.

(** [strings.TrimSpace]: the UTF-8 encodings of Unicode white space. *)
Definition unicode_spaces : list (list Z) :=
  map (λ z, [z]) [9; 10; 11; 12; 13; 32] ++ [[194; 133]; [194; 160]; [225; 154; 128]] ++
  map (λ z, [226; 128; z]) [128; 129; 130; 131; 132; 133; 134; 135; 136; 137; 138; 168; 169; 175] ++
  [[226; 129; 159]; [227; 128; 128]].
Fixpoint drop_list_prefix (p l : list Z) : option (list Z) :=
  match p, l with
  | [], _ => Some l
  | a :: p', b :: l' => if a =? b then drop_list_prefix p' l' else None
  | _ :: _, [] => None
  end.
Fixpoint first_drop (ps : list (list Z)) (l : list Z) : option (list Z) :=
  match ps with
  | [] => None
  | p :: ps' => match drop_list_prefix p l with Some r => Some r | None => first_drop ps' l end
  end.
(** Each round removes at least one byte. *)
Fixpoint trim_with (fuel : nat) (ps : list (list Z)) (l : list Z) : list Z :=
  match fuel with
  | O => l
  | S f => match first_drop ps l with Some r => trim_with f ps r | None => l end
  end.
Definition TrimSpace (s : string) : string :=
  let l := bytes_list s in
  let l := trim_with (length l) unicode_spaces l in
  of_bytes (rev (trim_with (length l) (map (@rev Z) unicode_spaces) (rev l))).

Definition headerContainsToken (values : list string) (token : string) : bool :=
  existsb (λ value, existsb (λ item, fold_eqb (TrimSpace item) token) (split "," value)) values.

Definition validateTransport (request : HttpRequest) : res string unit :=
  if negb (ProtoMajor request =? 1) || negb (ProtoMinor request =? 1) then Err "HTTP/1.1 is required"
  else if negb (String.eqb (Scheme (URL request)) "") || has_prefix "http://" (RequestURI request)
          || has_prefix "https://" (RequestURI request)
    then Err "absolute-form request target is forbidden"
  else if negb (String.eqb (RawQuery (URL request)) "") || ForceQuery (URL request)
          || negb (String.eqb (Fragment (URL request)) "") || negb (String.eqb (RawPath (URL request)) "")
    then Err "query, fragment, and encoded paths are forbidden"
  else if String.eqb (HttpMethod request) "CONNECT" then Err "CONNECT is forbidden"
  else if bool_decide (is_Some (HttpHeader request !! "Origin")) then Err "Origin is forbidden"
  else if negb (String.eqb (HeaderGet "Upgrade" request) "")
          || headerContainsToken (HeaderValues "Connection" request) "upgrade"
    then Err "protocol upgrade is forbidden"
  else if negb (String.eqb (HeaderGet "Proxy-Connection" request) "") then Err "proxy mode is forbidden"
  else if negb (length (TransferEncoding request) =? 0)%nat || negb (bool_decide (Trailer request = ∅))
          || negb (String.eqb (HeaderGet "Expect" request) "") || negb (String.eqb (HeaderGet "Te" request) "")
    then Err "streamed request framing is forbidden"
  else if ContentLength request <? 0 then Err "request body length is invalid"
  else Ok tt.

(** One [Read] of one byte. *)
Definition requireEmptyBody (request : HttpRequest) : res string unit :=
  if negb (ContentLength request =? 0) then Err "request body is forbidden"
  else if negb (slen (body_bytes (HttpBodyOf request)) =? 0) then Err "request body is forbidden"
  else if body_fails (HttpBodyOf request) then Err "read error"
  else Ok tt.

(** [io.ReadAll] through [http.MaxBytesReader]: one byte past the limit is an error of
    its own, before any later read error. *)
Definition readJSONBody (request : HttpRequest) : res Error string :=
  let body := HttpBodyOf request in
  if negb (String.eqb (HttpMethod request) "POST") && negb (String.eqb (HttpMethod request) "PUT")
    then Err (NewError "invalid_request" false)
  else if negb (bool_decide (HeaderValues "Content-Type" request = ["application/json; charset=utf-8"]))
    then Err (NewError "invalid_request" false)
  else if ContentLength request <=? 0 then Err (NewError "invalid_request" false)
  else if MaxBodyBytes <? slen (body_bytes body) then Err (NewError "limit_exceeded" false)
  else if body_fails body then Err (NewError "invalid_request" false)
  else if slen (body_bytes body) =? 0 then Err (NewError "invalid_request" false)
  else Ok (body_bytes body).

(** ** Reply bodies *)
Record protocolError := Mk_protocolError {
  pe_Code : string; pe_Message : string; pe_Retryable : bool; pe_RequestID : string }.
#[export] Instance protocolError_json : GoJSON protocolError :=
  {| go_ty := TStruct [("code", go_ty string); ("message", go_ty string); ("retryable", go_ty bool);
                       ("request_id", go_ty string)];
     to_g a := GStruct [to_g (pe_Code a); to_g (pe_Message a); to_g (pe_Retryable a); to_g (pe_RequestID a)];
     of_g g := match g with
       | GStruct [v0; v1; v2; v3] =>
           match of_g (A:=string) v0, of_g (A:=string) v1, of_g (A:=bool) v2, of_g (A:=string) v3 with
           | Some a0, Some a1, Some a2, Some a3 => Some (Mk_protocolError a0 a1 a2 a3)
           | _, _, _, _ => None end
       | _ => None end |}.
#[export] Instance protocolError_json_laws : GoJSONLaws protocolError.
Proof. solve_struct_laws. Qed.
Record errorEnvelope := Mk_errorEnvelope { ee_Error : protocolError }.
#[export] Instance errorEnvelope_json : GoJSON errorEnvelope :=
  {| go_ty := TStruct [("error", go_ty protocolError)];
     to_g a := GStruct [to_g (ee_Error a)];
     of_g g := match g with
       | GStruct [v0] => match of_g (A:=protocolError) v0 with Some a0 => Some (Mk_errorEnvelope a0) | None => None end
       | _ => None end |}.
#[export] Instance errorEnvelope_json_laws : GoJSONLaws errorEnvelope.
Proof. solve_struct_laws. Qed.

Record healthResponse := Mk_health { hr_Status : string; hr_ProtocolVersion : string }.
#[export] Instance healthResponse_json : GoJSON healthResponse :=
  {| go_ty := TStruct [("status", go_ty string); ("protocol_version", go_ty string)];
     to_g a := GStruct [to_g (hr_Status a); to_g (hr_ProtocolVersion a)];
     of_g g := match g with
       | GStruct [v0; v1] =>
           match of_g (A:=string) v0, of_g (A:=string) v1 with Some a0, Some a1 => Some (Mk_health a0 a1) | _, _ => None end
       | _ => None end |}.

(** The eleven integers of [limits], by tag. *)
Definition limits : list (string * Z) :=
  [ ("max_body_bytes", MaxBodyBytes); ("max_mutations", 256); ("max_page_changes", 128);
    ("max_snapshot_page_revisions", 128); ("max_snapshot_page_collection_markers", 128);
    ("max_snapshot_page_source_devices", 64); ("max_active_snapshots_per_device", 1);
    ("max_active_snapshots_per_instance", 8); ("max_snapshot_creates_per_minute_per_device", 5);
    ("max_active_snapshot_metadata_bytes_per_instance", 64 * 1024 * 1024); ("max_devices", 64) ].
Definition capability_names : list string :=
  [ "authenticated-collection-frontiers-v2"; "conflict-siblings-v1"; "device-token-rotation-v1";
    "envelope-cas-v1"; "snapshot-collection-markers-v1"; "snapshot-device-registry-v1";
    "snapshot-read-v1"; "tombstone-ack-v1" ].
(** The JSON text of [capabilitiesResponse]. *)
Definition capabilitiesResponse (settings : Settings) (capabilities : list string) : string :=
  print (JObj [ ("instance_id", JStr (se_InstanceID settings)); ("vault_id", JStr (se_VaultID settings));
                ("protocol_min", JStr "1"); ("protocol_max", JStr "1"); ("storage_schema", JStr "1");
                ("crypto_suites", JArr [JStr "jat-xchacha-hkdf-argon2id-draft2"]);
                ("capabilities", JArr (map JStr capabilities));
                ("limits", JObj (map (λ kv, (kv.1, JNum (FormatInt kv.2))) limits)) ]).

(** ** Writing a reply *)

(** What taking over the connection gives: nothing (not a Hijacker, or it fails), or a
    connection that accepts all bytes, or only the first [n]. *)
Inductive connection := NoHijack | Hijack (accepts : option nat).
Inductive HttpReply :=
| Written (status : Z) (headers : list (string * string)) (body : string)
| Raw (bytes : string).

(** [http.StatusText] of the codes the protocol uses. *)
Definition StatusText (status : Z) : string :=
  match List.find (λ kv, kv.1 =? status)
    [ (200, "OK"); (201, "Created"); (204, "No Content"); (400, "Bad Request"); (401, "Unauthorized");
      (403, "Forbidden"); (404, "Not Found"); (409, "Conflict"); (410, "Gone");
      (413, "Request Entity Too Large"); (426, "Upgrade Required"); (429, "Too Many Requests");
      (500, "Internal Server Error"); (507, "Insufficient Storage") ] with
  | Some (_, text) => text
  | None => ""
  end.
Definition crlf : string := String (chrZ 13) (String (chrZ 10) "").
Fixpoint header_lines (headers : list Header) : string :=
  match headers with
  | [] => ""
  | h :: rest => Name h +:+ ": " +:+ Value h +:+ crlf +:+ header_lines rest
  end.
Definition retained_bytes (status : Z) (body : string) (headers : list Header) : string :=
  "HTTP/1.1 " +:+ FormatInt status +:+ " " +:+ StatusText status +:+ crlf +:+ header_lines headers +:+ crlf +:+ body.
Definition writeRetainedHTTPResponse (conn : connection) (status : Z) (body : string) (headers : list Header)
    : option HttpReply :=
  match conn with
  | NoHijack => None
  | Hijack None => Some (Raw (retained_bytes status body headers))
  | Hijack (Some n) => Some (Raw (stake n (retained_bytes status body headers)))
  end.
(** [http.CanonicalHeaderKey] of a name made of letters and dashes. *)
Fixpoint canonical_key (upper : bool) (s : string) : string :=
  match s with
  | EmptyString => ""
  | String c s' =>
      let z := byteZ c in
      let c' := if upper && (97 <=? z) && (z <=? 122) then chrZ (z - 32)
                else if negb upper && (65 <=? z) && (z <=? 90) then chrZ (z + 32) else c in
      String c' (canonical_key (z =? 45) s')
  end.
Definition CanonicalHeaderKey (s : string) : string := canonical_key true s.
(** The header map net/http sends: Date is suppressed by an explicit nil entry, and
    [Header.Set] canonicalizes the names. *)
Definition v1_headers (requestID : string) (body : string) : list (string * string) :=
  [("Cache-Control", "no-store"); ("X-Content-Type-Options", "nosniff")] ++
  map (λ h, (CanonicalHeaderKey (Name h), Value h)) (V1ResponseHeaders requestID (slen body)).
Definition writeJSONBytes (conn : connection) (status : Z) (requestID body : string)
    (retainedHeaders : option (list Header)) : HttpReply :=
  let written := Written status (v1_headers requestID body) body in
  match retainedHeaders with
  | Some headers =>
      if bool_decide (headers = V1ResponseHeaders requestID (slen body)) then
        match writeRetainedHTTPResponse conn status body headers with Some reply => reply | None => written end
      else written
  | None => written
  end.
Definition writeProtocolError (conn : connection) (status : Z) (code : string) (retryable : bool) (requestID : string)
    : HttpReply :=
  let err := NewError code retryable in
  writeJSONBytes conn status requestID
    (marshalJSON (Mk_errorEnvelope (Mk_protocolError code (ErrorMessage err) retryable requestID))) None.
Definition WriteLimitExceeded (conn : connection) (requestID : string) : HttpReply :=
  writeProtocolError conn 413 "limit_exceeded" false requestID.

(** ** The handler *)

(** The interfaces [api.DataPlane] and [Readiness], and [crypto/rand], over the state
    of the component behind the transport. *)
Class DataPlane (S : Type) := { dp_HandleAPI : Request → S → res Error Response * S }.
Class Readiness (S : Type) := { rd_Ready : S → bool * S }.
Class Random (S : Type) := { rnd_Read : Z → S → option string * S }.
(** A successful read fills the buffer. *)
Class RandomLaws (S : Type) `{Random S} := {
  rnd_Read_length n s r s' : rnd_Read n s = (Some r, s') → slen r = n }.

Record HttpHandler := { h_settings : Settings; h_dataPlane : bool }.
(** [New]; whether the readiness provider is also a data plane is known by its type. *)
Definition NewHandler (settings : Settings) (readiness_is_nil is_data_plane : bool) : res string HttpHandler :=
  match Validate settings with
  | Err e => Err e
  | Ok _ =>
      if readiness_is_nil then Err "readiness provider is required"
      else Ok {| h_settings := settings; h_dataPlane := is_data_plane |}
  end.

Section serve.
Context {S : Type} `{!DataPlane S} `{!Readiness S} `{!Random S}.
Context (handler : HttpHandler) (conn : connection) (now : gotime).

Definition zero_request_id : string := "00000000-0000-4000-8000-000000000000".
Definition RequestIDOrFallback (values : list string) (s : S) : string * S :=
  let fallback :=
    match rnd_Read 16 s with
    | (Some random, s') => (New (bytes_list random), s')
    | (None, s') => (zero_request_id, s')
    end in
  match values with
  | [v] => if valid_uuid v then (v, s) else fallback
  | _ => fallback
  end.

(** The [default] case of the switch: the data plane. *)
Definition serve_data_plane (request : HttpRequest) (requestID : string) (s : S) : HttpReply * S :=
  let refuse code status := (writeProtocolError conn status code false requestID, s) in
  let fail (err : Error) s := (writeProtocolError conn (ErrorStatus err) (Code err) (Retryable err) requestID, s) in
  if negb (h_dataPlane handler) then refuse "invalid_request" 400
  else
    match (if String.eqb (HttpMethod request) "GET"
           then match requireEmptyBody request with
                | Ok _ => Ok "" | Err _ => Err (NewError "invalid_request" false) end
           else readJSONBody request) with
    | Err err => fail err s
    | Ok body =>
        match HeaderValues "Authorization" request with
        | [authorization] =>
            match dp_HandleAPI {| Method := HttpMethod request; Path := UrlPath (URL request); RequestID := requestID;
                                  Authorization := authorization; Body := body; Now := now |} s with
            | (Err err, s') => fail err s'
            | (Ok result, s') =>
                (writeJSONBytes conn (Status result) requestID (RBody result) (Some (Headers result)), s')
            end
        | _ => refuse "unauthorized" 401
        end
    end.

Definition ServeHTTP (request : HttpRequest) (s : S) : HttpReply * S :=
  let '(fallbackID, s1) := RequestIDOrFallback (HeaderValues "Jat-Request-Id" request) s in
  let refuse code status := (writeProtocolError conn status code false fallbackID, s1) in
  match validateTransport request with
  | Err _ => refuse "invalid_request" 400
  | Ok _ =>
      match HeaderValues "Jat-Protocol-Version" request with
      | [version] =>
          if String.eqb version "" then refuse "invalid_request" 400
          else if negb (String.eqb version "1") then refuse "unsupported_protocol" 426
          else
            match HeaderValues "Jat-Request-Id" request with
            | [requestID] =>
                if negb (valid_uuid requestID) then refuse "invalid_request" 400
                else if String.eqb (UrlPath (URL request)) "/v1/healthz" then
                  (if negb (String.eqb (HttpMethod request) "GET")
                      || match requireEmptyBody request with Ok _ => false | Err _ => true end
                   then (writeProtocolError conn 400 "invalid_request" false requestID, s1)
                   else match rd_Ready s1 with
                        | (false, s2) => (writeProtocolError conn 500 "internal_error" true requestID, s2)
                        | (true, s2) => (writeJSONBytes conn 200 requestID (marshalJSON (Mk_health "ok" "1")) None, s2)
                        end)
                else if String.eqb (UrlPath (URL request)) "/v1/capabilities" then
                  (if negb (String.eqb (HttpMethod request) "GET")
                      || match requireEmptyBody request with Ok _ => false | Err _ => true end
                   then (writeProtocolError conn 400 "invalid_request" false requestID, s1)
                   else (writeJSONBytes conn 200 requestID
                           (capabilitiesResponse (h_settings handler)
                              (if h_dataPlane handler then capability_names else [])) None, s1))
                else serve_data_plane request requestID s1
            | _ => refuse "invalid_request" 400
            end
      | _ => refuse "invalid_request" 400
      end
  end.
End serve.
