(* ===== verification/Service.v ===== *)
(** * Service definitions, service managers and identity probes

    [src/runtime/internal/service/service.go] (the rendered systemd unit and LaunchAgent)
    and, of [src/runtime/internal/deployment], [manager.go] (the adapter that installs,
    starts and stops them), [attestation.go] (the identity a binary or a running server
    reports) and [endpoint_unix.go] (the deployment an executable belongs to).  Processes
    and sockets are behind the classes [Exec] and [UnixSockets]. *)

From stdpp Require Import base list strings gmap.
From Stdlib Require Import ZArith Lia Ascii.
From Stdlib Require String.
From S2P Require Import Prelude GoStd Json Api Wire Indent Release NetIP Fs Paths Config Layout Deploy Manifest Lifecycle Preview PreviewRun Http.
Local Open Scope Z_scope.

(** ** Package strings *)
Definition Contains (s p : string) : bool := match index_string p s with Some _ => true | None => false end.
(** [strings.ReplaceAll] of a non-empty text; [skip] bytes belong to the last occurrence. *)
Fixpoint replace_from (skip : nat) (old new s : string) : string :=
  match s with
  | EmptyString => ""
  | String c rest =>
      match skip with
      | S k => replace_from k old new rest
      | O => if has_prefix old s then new +:+ replace_from (String.length old - 1) old new rest
             else String c (replace_from 0 old new rest)
      end
  end.
Definition ReplaceAll (s old new : string) : string := replace_from 0 old new s.

(** ** The templates *)
Definition Label : string := "com.kciceblue.sshserver".
Definition dquote : string := String (chrZ 34) "".
Definition quoted (s : string) : string := dquote +:+ s +:+ dquote.
Definition lines_text (lines : list string) : string := foldr (λ line text, line +:+ newline +:+ text) "" lines.
Definition systemd_lines (execStart stateDir : string) : list string := [
  "[Unit]";
  "Description=Just Another Terminal single-user sync service";
  "Documentation=https://github.com/kciceblue/sshserver";
  "After=network.target";
  "";
  "[Service]";
  "Type=simple";
  "ExecStart=" +:+ execStart;
  "Restart=on-failure";
  "RestartSec=2s";
  "UMask=0077";
  "NoNewPrivileges=true";
  "PrivateTmp=true";
  "ProtectSystem=strict";
  "ProtectHome=read-only";
  "ReadWritePaths=" +:+ stateDir;
  "RestrictAddressFamilies=AF_UNIX AF_INET AF_INET6";
  "LockPersonality=true";
  "";
  "[Install]";
  "WantedBy=default.target"].
Definition launchd_lines (binary stateDir stdout stderr : string) : list string := [
  "<?xml version=" +:+ quoted "1.0" +:+ " encoding=" +:+ quoted "UTF-8" +:+ "?>";
  "<!DOCTYPE plist PUBLIC " +:+ quoted "-//Apple//DTD PLIST 1.0//EN" +:+ " " +:+
    quoted "http://www.apple.com/DTDs/PropertyList-1.0.dtd" +:+ ">";
  "<plist version=" +:+ quoted "1.0" +:+ ">";
  "<dict>";
  "  <key>Label</key>";
  "  <string>com.kciceblue.sshserver</string>";
  "  <key>ProgramArguments</key>";
  "  <array>";
  "    <string>" +:+ binary +:+ "</string>";
  "    <string>serve</string>";
  "    <string>--state-dir</string>";
  "    <string>" +:+ stateDir +:+ "</string>";
  "  </array>";
  "  <key>RunAtLoad</key>";
  "  <true/>";
  "  <key>KeepAlive</key>";
  "  <dict>";
  "    <key>SuccessfulExit</key>";
  "    <false/>";
  "  </dict>";
  "  <key>ProcessType</key>";
  "  <string>Background</string>";
  "  <key>ThrottleInterval</key>";
  "  <integer>2</integer>";
  "  <key>Umask</key>";
  "  <integer>63</integer>";
  "  <key>StandardOutPath</key>";
  "  <string>" +:+ stdout +:+ "</string>";
  "  <key>StandardErrorPath</key>";
  "  <string>" +:+ stderr +:+ "</string>";
  "</dict>";
  "</plist>"].
Definition systemdTemplate : string := lines_text (systemd_lines "{{EXEC_START}}" "{{STATE_DIR}}").
Definition launchdTemplate : string := lines_text (launchd_lines "{{BINARY}}" "{{STATE_DIR}}" "{{STDOUT}}" "{{STDERR}}").
(** The embedded files, by their digests. *)
Example template_digests : (SHA256Hex systemdTemplate, SHA256Hex launchdTemplate) =
  ("be7a34df252607daad9a84fb04b0d159ee632dd32124d08c17fb050e5a89b0d5", "080ca6bb65d056c6c2ad6eaef97cc4876403c2e27909de41de9f1bcfbd276a92").
Proof. vm_compute. reflexivity. Qed.

(** ** Rendering *)
(** The bytes below 0x80 of valid UTF-8 are its runes below 0x80. *)
Definition validPathText (value : string) : bool :=
  utf8_valid value && forallb (λ z, negb ((z <? 32) || (z =? 127))) (bytes_list value).
Definition systemd_escape (escapeDollar : bool) (c : ascii) : string :=
  if Ascii.eqb c "\" then "\\"
  else if Ascii.eqb c (chrZ 34) then "\" +:+ dquote
  else if Ascii.eqb c "%" then "%%"
  else if Ascii.eqb c "$" then if escapeDollar then "$$" else "$"
  else String c "".
Fixpoint flat_string (f : ascii → string) (s : string) : string :=
  match s with EmptyString => "" | String c rest => f c +:+ flat_string f rest end.
Definition quoteSystemd (value : string) (escapeDollar : bool) : res string string :=
  if negb (validPathText value) then Err "systemd argument contains invalid text"
  else Ok (dquote +:+ flat_string (systemd_escape escapeDollar) value +:+ dquote).
Definition quoteSystemdExecArgument (value : string) : res string string := quoteSystemd value true.
Definition quoteSystemdPath (value : string) : res string string := quoteSystemd value false.
(** [xml.EscapeText] of valid UTF-8; U+FFFE and U+FFFF are not XML characters. *)
Definition xml_escape (c : ascii) : string :=
  let z := byteZ c in
  if z =? 34 then "&#34;" else if z =? 39 then "&#39;" else if z =? 38 then "&amp;"
  else if z =? 60 then "&lt;" else if z =? 62 then "&gt;"
  else if z =? 9 then "&#x9;" else if z =? 10 then "&#xA;" else if z =? 13 then "&#xD;"
  else if z <? 32 then of_bytes [239; 191; 189]
  else String c "".
Fixpoint EscapeText (s : string) : string :=
  match s with
  | String a (String b (String c rest) as tail) =>
      if (byteZ a =? 239) && (byteZ b =? 191) && (190 <=? byteZ c) then of_bytes [239; 191; 189] +:+ EscapeText rest
      else xml_escape a +:+ EscapeText tail
  | String a rest => xml_escape a +:+ EscapeText rest
  | EmptyString => ""
  end.
Definition canonical_text (value : string) : bool := IsAbs value && String.eqb (Clean value) value && validPathText value.
(** Of two bad paths the code reports either. *)
Definition Render (platform binary stateDir : string) : res string string :=
  let name_ok name value k :=
    if canonical_text value then k
    else Err (name +:+ " must be a canonical absolute path without control characters") in
  if negb (String.eqb platform "linux") && negb (String.eqb platform "darwin")
  then Err ("unsupported service platform " +:+ platform)
  else name_ok "binary" binary (name_ok "state directory" stateDir (
    if String.eqb stateDir "/" then Err "state directory must not be the filesystem root"
    else if String.eqb platform "linux" then
      match quoteSystemdExecArgument binary, quoteSystemdExecArgument stateDir, quoteSystemdPath stateDir with
      | Err e, _, _ => Err e
      | _, Err e, _ => Err e
      | _, _, Err e => Err e
      | Ok binaryArgument, Ok stateArgument, Ok statePath =>
          let execStart := join " " [binaryArgument; "serve"; "--state-dir"; stateArgument] in
          let result := ReplaceAll systemdTemplate "{{EXEC_START}}" execStart in
          Ok (ReplaceAll result "{{STATE_DIR}}" statePath)
      end
    else
      let result := ReplaceAll launchdTemplate "{{BINARY}}" (EscapeText binary) in
      let result := ReplaceAll result "{{STATE_DIR}}" (EscapeText stateDir) in
      let result := ReplaceAll result "{{STDOUT}}" (EscapeText (Join [stateDir; "service.stdout.log"])) in
      Ok (ReplaceAll result "{{STDERR}}" (EscapeText (Join [stateDir; "service.stderr.log"]))))).

(** ** Installing a definition by hand: [home] and [configHome] are the environment's *)
Definition DefaultOutputPath (home : res string string) (configHome platform : string) : res string string :=
  match home with
  | Err e => Err e
  | Ok home =>
      if String.eqb platform "linux" then
        if String.eqb configHome "" then Ok (Join [Join [home; ".config"]; "systemd"; "user"; Label +:+ ".service"])
        else if negb (IsAbs configHome) then Err "XDG_CONFIG_HOME must be absolute"
        else Ok (Join [configHome; "systemd"; "user"; Label +:+ ".service"])
      else if String.eqb platform "darwin" then Ok (Join [home; "Library"; "LaunchAgents"; Label +:+ ".plist"])
      else Err ("unsupported service platform " +:+ platform)
  end.
Definition fs_res {A} (r : res string A) : FsM A := match r with Ok a => mret a | Err e => raise (Failed e) end.
Definition InstallService (home : res string string) (configHome goos platform binary stateDir outputPath : string) : FsM string :=
  let platform := if String.eqb platform "auto" then goos else platform in
  payload ← fs_res (Render platform binary stateDir);
  outputPath ← (if String.eqb outputPath "" then fs_res (DefaultOutputPath home configHome platform) else mret outputPath);
  _ ← check (canonical_text outputPath)
        (Failed "service output path must be canonical, absolute, and free of control characters");
  _ ← in_context "create service directory" (MkdirAll (Dir outputPath) 448);
  _ ← in_context "install service definition" (WriteFileAtomic outputPath payload 384);
  mret outputPath.

(** ** Host computations: the files and the host's own state *)
Definition host_ret {H A} (a : A) : HostM H A := λ s, (s, Ok a).
Definition host_bind {H A B} (f : A → HostM H B) (x : HostM H A) : HostM H B := λ s,
  match x s with (s', Ok a) => f a s' | (s', Err e) => (s', Err e) end.
#[export] Instance hostm_ret {H} : MRet (HostM H) := @host_ret H.
#[export] Instance hostm_bind {H} : MBind (HostM H) := @host_bind H.

Section host.
Context {H : Type}.
Definition hfail {A} (e : derr) : HostM H A := λ s, (s, Err e).
Definition hrefuse {A} (text : string) : HostM H A := hfail (Refused text).
Definition hdemand (b : bool) (text : string) : HostM H unit := if b then mret tt else hrefuse text.
Definition hres {A} (r : res string A) : HostM H A := match r with Ok a => mret a | Err e => hrefuse e end.
Definition hwithin {A} (context : string) (x : HostM H A) : HostM H A := λ s,
  let '(s', r) := x s in (s', match r with Ok a => Ok a | Err e => Err (dwrap context e) end).
Definition htried {A} (x : HostM H A) : HostM H (res derr A) := λ s, let '(s', r) := x s in (s', Ok r).
Definition hfiles {A} (x : FsM A) : HostM H A := λ s,
  let '(w, r) := x s.1 in ((w, s.2), match r with Ok a => Ok a | Err e => Err (FileError e) end).
End host.

(** ** Bounded output: [boundedCommandBuffer] and [boundedBuffer] *)
Record boundedCommandBuffer := mkBuffer { bb_buffer : string; bb_limit : Z; bb_overflow : bool }.
Definition buffer_Write (buffer : boundedCommandBuffer) (payload : string) : boundedCommandBuffer :=
  let remaining := bb_limit buffer - slen (bb_buffer buffer) in
  if remaining <=? 0 then mkBuffer (bb_buffer buffer) (bb_limit buffer) true
  else if remaining <? slen payload
  then mkBuffer (bb_buffer buffer +:+ stake (Z.to_nat remaining) payload) (bb_limit buffer) true
  else mkBuffer (bb_buffer buffer +:+ payload) (bb_limit buffer) (bb_overflow buffer).
Definition buffer_of (limit : Z) (chunks : list string) : boundedCommandBuffer :=
  fold_left buffer_Write chunks (mkBuffer "" limit false).

(** ** Processes: package os/exec

    A process writes to its two outputs in chunks and ends, with an error unless it
    exits with status zero; the environment is the caller's unless given. *)
Record Process := mkProcess { p_stdout : list string; p_stderr : list string; p_error : option string }.
Inductive look_error := ErrNotFound | LookError (text : string).
Class Exec (H : Type) := {
  exec_LookPath : string → World * H → (World * H) * res look_error string;
  exec_Run : option (list string) → string → list string → World * H → (World * H) * Process }.

Record CommandResult := mkResult { cr_Stdout : string; cr_Stderr : string }.
Class CommandRunner (H : Type) := {
  LookPath : string → World * H → (World * H) * res look_error string;
  Run : string → list string → World * H → (World * H) * (CommandResult * option string) }.
Definition maxServiceDefinitionBytes : Z := 256 * 1024.
Definition maxManagerCommandOutputBytes : Z := 64 * 1024.
Definition ErrManagerCommandOutputExceeded : string := "service-manager command output exceeds its size boundary".
Definition run_bounded `{Exec H} (name : string) (args : list string) (s : World * H) : (World * H) * (CommandResult * option string) :=
  let '(s', p) := exec_Run None name args s in
  let stdout := buffer_of maxManagerCommandOutputBytes (p_stdout p) in
  let stderr := buffer_of maxManagerCommandOutputBytes (p_stderr p) in
  let err :=
    if bb_overflow stdout || bb_overflow stderr
    then Some (match p_error p with
               | Some e => e +:+ newline +:+ ErrManagerCommandOutputExceeded
               | None => ErrManagerCommandOutputExceeded
               end)
    else p_error p in
  (s', (mkResult (bb_buffer stdout) (bb_buffer stderr), err)).
#[export] Instance ExecCommandRunner {H} `{!Exec H} : CommandRunner H := {
  LookPath := exec_LookPath;
  Run := run_bounded }.

(** ** Classification of a manager's answer *)
Section classification.
Context `{UnicodeCase}.
Definition result_text (result : CommandResult) : string := ToLower (cr_Stdout result +:+ newline +:+ cr_Stderr result).
Definition managerUnavailable (platform : string) (result : CommandResult) : bool :=
  let text := result_text result in
  if String.eqb platform "linux" then
    Contains text "failed to connect to bus" || Contains text "no medium found" ||
    Contains text "system has not been booted with systemd" ||
    Contains text "xdg_runtime_dir" && Contains text "not set"
  else Contains text "could not find domain for" || Contains text "domain does not exist".
Definition managerNotLoaded (platform : string) (result : CommandResult) : bool :=
  let text := result_text result in
  if String.eqb platform "linux" then
    Contains text "not loaded" ||
    (Contains text "unit file" && Contains text "does not exist") ||
    (Contains text "unit " && Contains text "could not be found") ||
    String.eqb (TrimSpace (cr_Stdout result)) "unknown"
  else
    Contains text "could not find service" || Contains text "could not find specified service" ||
    Contains text "no such process".
End classification.
Definition systemdInactiveState (state : string) : bool :=
  bool_decide (state ∈ ["inactive"; "failed"; "deactivating"; "unknown"; "not-found"]).
Definition commandError (kind operation : string) (result : CommandResult) (err : string) : derr :=
  let detail := TrimSpace (cr_Stderr result) in
  let detail := if String.eqb detail "" then TrimSpace (cr_Stdout result) else detail in
  let detail := if 4096 <? slen detail then stake (Z.to_nat 4096) detail +:+ "..." else detail in
  let text := kind +:+ " " +:+ operation +:+ ": " +:+ err in
  Refused (if String.eqb detail "" then text else text +:+ ": " +:+ detail).

(** ** The adapter *)
Record ServiceManagerAdapter := mkAdapter {
  sa_platform : string; sa_homeDir : string; sa_uid : Z; sa_commandName : string;
  sa_definitionPath : string; sa_domain : string; sa_target : string }.
(** [environment] is the value of XDG_CONFIG_HOME. *)
Definition newServiceManagerAdapter (environment platform homeDir linuxConfigHome : string) : FsM ServiceManagerAdapter :=
  _ ← check (String.eqb platform "linux" || String.eqb platform "darwin")
        (Failed ("unsupported service-manager platform " +:+ platform));
  _ ← in_context "validate user home" (fs_res (validateAbsoluteCanonicalPath homeDir));
  _ ← in_context "validate user home" (openSecureDirectory homeDir);
  _ ← in_context "close user home" sync_file;
  uid ← ask w_euid;
  adapter ←
    (if String.eqb platform "linux" then
       let configHome :=
         if String.eqb linuxConfigHome "" then
           if String.eqb environment "" then Join [homeDir; ".config"] else environment
         else linuxConfigHome in
       _ ← in_context "validate XDG configuration home" (fs_res (validateAbsoluteCanonicalPath configHome));
       mret (mkAdapter platform homeDir uid "systemctl" (Join [configHome; "systemd"; "user"; Label +:+ ".service"]) ""
               (Label +:+ ".service"))
     else
       let domain := "gui/" +:+ FormatUint uid in
       mret (mkAdapter platform homeDir uid "launchctl" (Join [homeDir; "Library"; "LaunchAgents"; Label +:+ ".plist"]) domain
               (domain +:+ "/" +:+ Label)));
  _ ← fs_res (requireStrictDescendant homeDir (sa_definitionPath adapter) "service definition");
  _ ← in_context "validate service definition path" (fs_res (validateAbsoluteCanonicalPath (sa_definitionPath adapter)));
  mret adapter.
Definition NewServiceManagerAdapter (environment platform homeDir : string) : FsM ServiceManagerAdapter :=
  newServiceManagerAdapter environment platform homeDir "".
Definition NewNativeServiceManagerAdapter (environment goos homeDir : string) : FsM ServiceManagerAdapter :=
  NewServiceManagerAdapter environment goos homeDir.
Definition newNativeStatusServiceManagerAdapter (environment goos homeDir : string) : FsM ServiceManagerAdapter :=
  newServiceManagerAdapter environment goos homeDir (Join [homeDir; ".config"]).

Section adapter.
Context {H : Type} `{!CommandRunner H} `{UnicodeCase} (adapter : ServiceManagerAdapter).
Definition adapter_Kind : string := if String.eqb (sa_platform adapter) "linux" then ManagerSystemd else ManagerLaunchd.
Definition on_linux : bool := String.eqb (sa_platform adapter) "linux".
(** A command: its result, whether it failed or not. *)
Definition run_command (command : string) (args : list string) : HostM H (CommandResult * option string) := λ s,
  let '(s', r) := Run command args s in (s', Ok r).
Definition lookup_result : HostM H (res look_error string) := λ s,
  let '(s', r) := LookPath (sa_commandName adapter) s in (s', Ok r).
Definition lookupCommand : HostM H (res look_error string) :=
  found ← lookup_result;
  mret (match found with
        | Err e => Err e
        | Ok command =>
            match validateAbsoluteCanonicalPath command with
            | Ok _ => Ok command
            | Err e => Err (LookError ("resolved manager command is unsafe: " +:+ e))
            end
        end).
(** [lookupCommand] where every error is returned with its context. *)
Definition required_command (purpose : string) : HostM H string :=
  found ← lookupCommand;
  match found with
  | Ok command => mret command
  | Err ErrNotFound => hrefuse ("discover " +:+ adapter_Kind +:+ purpose +:+ ": executable file not found in $PATH")
  | Err (LookError e) => hrefuse ("discover " +:+ adapter_Kind +:+ purpose +:+ ": " +:+ e)
  end.
Definition runRequired (command operation : string) (args : list string) : HostM H unit :=
  '(result, err) ← run_command command args;
  match err with Some e => hfail (commandError adapter_Kind operation result e) | None => mret tt end.
Definition runProbe (command : string) : HostM H (CommandResult * option string) :=
  if on_linux then run_command command ["--user"; "show-environment"]
  else run_command command ["print-disabled"; sa_domain adapter].
Definition foregroundAvailability (reason : string) (command : list string) : ManagerAvailability :=
  Mk_ManagerAvailability ManagerForeground false "" (Some (Mk_ForegroundFallback true reason command true)).
Definition foreground_path (name value : string) : res string unit :=
  match validateAbsoluteCanonicalPath value with
  | Err e => Err ("validate " +:+ name +:+ ": " +:+ e)
  | Ok _ => requireStrictDescendant (sa_homeDir adapter) value name
  end.
(** Of two bad paths the code reports either. *)
Definition foreground (binaryPath stateDir : string) : res string (list string) :=
  match foreground_path "foreground binary" binaryPath, foreground_path "foreground state directory" stateDir with
  | Err e, _ => Err e
  | _, Err e => Err e
  | Ok _, Ok _ => Ok [binaryPath; "serve"; "--state-dir"; stateDir]
  end.
Definition adapter_Detect (binaryPath stateDir : string) : HostM H ManagerAvailability :=
  command ← hres (foreground binaryPath stateDir);
  found ← lookupCommand;
  match found with
  | Err ErrNotFound => mret (foregroundAvailability "user_service_manager_not_installed" command)
  | Err (LookError e) => hrefuse ("discover " +:+ adapter_Kind +:+ ": " +:+ e)
  | Ok manager =>
      '(result, runErr) ← runProbe manager;
      match runErr with
      | Some e =>
          if managerUnavailable (sa_platform adapter) result
          then mret (foregroundAvailability "user_service_manager_unavailable" command)
          else hfail (commandError adapter_Kind "probe" result e)
      | None => mret (Mk_ManagerAvailability adapter_Kind true (sa_definitionPath adapter) None)
      end
  end.
Definition install_definition (payload : string) : FsM string :=
  _ ← check ((0 <? slen payload) && (slen payload <=? maxServiceDefinitionBytes))
        (Failed "service definition is empty or exceeds its size boundary");
  home ← in_context "validate user home" (openSecureDirectory (sa_homeDir adapter));
  match Rel (sa_homeDir adapter) (Dir (sa_definitionPath adapter)) with
  | None => raise (Failed "resolve service definition parent")
  | Some relativeParent =>
      _ ← in_context "prepare service definition parent" (ensureDirectoryBelow home relativeParent);
      _ ← in_context "close user home" sync_file;
      _ ← in_context "install service definition" (WriteFileAtomic (sa_definitionPath adapter) payload 384);
      installed ← in_context "validate installed service definition"
                    (readDeploymentFile (sa_definitionPath adapter) maxServiceDefinitionBytes);
      _ ← check (String.eqb installed payload) (Failed "installed service definition does not match rendered bytes");
      mret (sa_definitionPath adapter)
  end.
Definition adapter_InstallDefinition (payload : string) : HostM H string := hfiles (install_definition payload).
Definition adapter_Activate : HostM H unit :=
  command ← required_command " for activation";
  if on_linux then
    _ ← runRequired command "reload definitions" ["--user"; "daemon-reload"];
    runRequired command "enable and start" ["--user"; "enable"; "--now"; sa_target adapter]
  else
    _ ← runRequired command "bootstrap" ["bootstrap"; sa_domain adapter; sa_definitionPath adapter];
    runRequired command "kickstart" ["kickstart"; "-k"; sa_target adapter].
Definition adapter_Stop : HostM H unit :=
  command ← required_command " for stop";
  '(result, err) ← (if on_linux then run_command command ["--user"; "disable"; "--now"; sa_target adapter]
                    else run_command command ["bootout"; sa_target adapter]);
  match err with
  | None => mret tt
  | Some e => if managerNotLoaded (sa_platform adapter) result then mret tt
              else hfail (commandError adapter_Kind "stop" result e)
  end.
Definition adapter_Remove : HostM H unit :=
  _ ← adapter_Stop;
  _ ← hwithin "remove service definition" (hfiles (removeDeploymentFile (sa_definitionPath adapter)));
  if on_linux then
    command ← required_command " for definition reload";
    runRequired command "reload definitions" ["--user"; "daemon-reload"]
  else mret tt.
Definition adapter_IsActive : HostM H bool :=
  command ← required_command " for status";
  if on_linux then
    '(result, runErr) ← run_command command ["--user"; "is-active"; sa_target adapter];
    let state := TrimSpace (cr_Stdout result) in
    match runErr with
    | None => mret (String.eqb state "active")
    | Some e =>
        if managerNotLoaded (sa_platform adapter) result || systemdInactiveState state then mret false
        else hfail (commandError adapter_Kind "check status" result e)
    end
  else
    '(result, runErr) ← run_command command ["print"; sa_target adapter];
    match runErr with
    | None => mret (Contains (cr_Stdout result) "state = running")
    | Some e =>
        if managerNotLoaded (sa_platform adapter) result then mret false
        else hfail (commandError adapter_Kind "check status" result e)
    end.
End adapter.

(** ** Identities: attestation.go *)
#[export] Instance BuildIdentity_json : GoJSON BuildIdentity :=
  {| go_ty := TStruct [
       ("release", go_ty string); ("source_revision", go_ty string); ("build_toolchain", go_ty string);
       ("build_identity", go_ty string); ("protocol_version", go_ty string); ("storage_schema", go_ty string)];
     to_g a := GStruct [
       to_g (Release a); to_g (SourceRevision a); to_g (BuildToolchain a);
       to_g (BuildDigest a); to_g (ProtocolVersion a); to_g (StorageSchemaVersion a)];
     of_g g := match g with
       | GStruct [v0; v1; v2; v3; v4; v5] =>
           match of_g (A:=string) v0, of_g (A:=string) v1, of_g (A:=string) v2, of_g (A:=string) v3,
             of_g (A:=string) v4, of_g (A:=string) v5 with
           | Some a0, Some a1, Some a2, Some a3, Some a4, Some a5 => Some (Build_BuildIdentity a0 a1 a2 a3 a4 a5)
           | _, _, _, _, _, _ => None end
       | _ => None end |}.
#[export] Instance BuildIdentity_json_laws : GoJSONLaws BuildIdentity.
Proof. solve_struct_laws. Qed.
Definition maxIdentityBytes : Z := 4096.
Definition parseIdentity (payload : string) : res string BuildIdentity :=
  if (slen payload =? 0) || (maxIdentityBytes <? slen payload) then Err "build identity exceeds its size boundary"
  else match decodeStrictStream BuildIdentity payload with
       | Some identity => Ok identity
       | None => Err "build identity contains trailing data"  (* or the decoder's error *)
       end.
Definition inspection_environment : list string := ["HOME=/nonexistent"; "LANG=C"; "LC_ALL=C"; "PATH=/usr/bin:/bin"].
Definition InspectExecutable `{Exec H} (binaryPath : string) : HostM H BuildIdentity :=
  _ ← hdemand (canonicalAbsolutePath binaryPath) "identity inspection requires a canonical absolute binary path";
  p ← (λ s, let '(s', p) := exec_Run (Some inspection_environment) binaryPath ["version"; "--format=json"] s in (s', Ok p));
  let stdout := buffer_of maxIdentityBytes (p_stdout p) in
  let stderr := buffer_of maxIdentityBytes (p_stderr p) in
  match p_error p with
  | Some e => hrefuse ("inspect staged binary identity: " +:+ e +:+ ": " +:+ TrimSpace (bb_buffer stderr))
  | None =>
      _ ← hdemand (negb (bb_overflow stdout || bb_overflow stderr)) "staged binary identity output exceeds its size boundary";
      hwithin "validate staged binary identity" (hres (parseIdentity (bb_buffer stdout)))
  end.

(** A connection to the admin socket; [read_up_to c n] is [io.ReadAll] of an
    [io.LimitReader]. *)
Inductive dial_error := NoServer (text : string)  (* ENOENT or ECONNREFUSED *) | DialError (text : string).
Class UnixSockets (H : Type) := {
  connection : Type;
  DialUnix : string → World * H → (World * H) * res dial_error connection;
  SetDeadline : connection → HostM H unit;
  WriteString : connection → string → HostM H unit;
  CloseWrite : connection → HostM H unit;
  read_up_to : connection → Z → HostM H string;
  CloseConnection : connection → HostM H unit }.
Definition status_request : string := "{" +:+ quoted "operation" +:+ ":" +:+ quoted "deployment_status" +:+ "}".
Definition converse `{UnixSockets H} (c : connection) : HostM H BuildIdentity :=
  _ ← SetDeadline c;
  _ ← hwithin "request running deployment identity" (WriteString c status_request);
  _ ← hwithin "finish deployment status request" (CloseWrite c);
  payload ← hwithin "read running deployment identity" (read_up_to c (maxIdentityBytes + 1));
  _ ← hdemand (slen payload <=? maxIdentityBytes) "running deployment identity exceeds its size boundary";
  hwithin "validate running deployment identity" (hres (parseIdentity payload)).
Definition ProbeRunningIdentity `{UnixSockets H} (stateDir : string) : HostM H BuildIdentity :=
  _ ← hdemand (canonicalAbsolutePath stateDir) "running identity probe requires a canonical absolute state directory";
  dialled ← (λ s, let '(s', r) := DialUnix (AdminSocket (ForStateDir stateDir)) s in (s', Ok r));
  match dialled with
  | Err (NoServer _) => hfail ErrRuntimeUnavailable
  | Err (DialError e) => hrefuse ("connect to owner-only deployment status socket: " +:+ e)
  | Ok c =>
      result ← htried (converse c);
      _ ← htried (CloseConnection c);
      match result with Ok identity => mret identity | Err e => hfail e end
  end.

(** ** The deployment of an executable: endpoint_unix.go

    [UserHomeDir] and [EvalSymlinks] are the environment's. *)
Record ActiveExecutableBinding := mkBinding {
  ab_Generation : Z; ab_BinaryPath : string; ab_BinarySHA256 : string; ab_StateDir : string }.
Record deploymentExecutableLocation := mkLocation {
  el_resolvedExecutable : string; el_physicalHome : string; el_installRoot : string }.
Definition activeExecutableBinding (state : DeploymentState) (resolvedExecutable : string) : res string ActiveExecutableBinding :=
  let activeStatus := String.eqb (ds_Status state) StatusActive || String.eqb (ds_Status state) StatusForeground in
  let refused := Err "executable is not the active deployed release" in
  match ds_Active state with
  | Some active =>
      if negb activeStatus || negb (String.eqb (ir_BinaryPath active) resolvedExecutable) then refused
      else Ok (mkBinding (ds_Generation state) (ir_BinaryPath active) (ir_BinarySHA256 active) (ds_StateDir state))
  | None => refused
  end.

(** The locks are those of a lifecycle of the layout. *)
Definition lifecycle_of (layout : Layout) : Lifecycle := Mk_Lifecycle layout (Mk_Target "" "") "".
Section endpoint.
Context {H : Type} `{!Host H, !PreviewHost H} (UserHomeDir : res string string) (EvalSymlinks : string → FsM string).
Definition locateDeploymentExecutable (executable : string) : DepM H deploymentExecutableLocation :=
  if String.eqb executable "" || negb (IsAbs executable) || negb (String.eqb (Clean executable) executable)
  then fail ErrNotDeployedExecutable else
  resolvedExecutable ← within "resolve executable path" (on_files (EvalSymlinks executable));
  let versionDir := Dir resolvedExecutable in
  let versionsDir := Dir versionDir in
  if negb (String.eqb (Base versionsDir) "versions") || String.eqb (Base versionDir) "" || String.eqb (Base versionDir) "."
  then fail ErrNotDeployedExecutable else
  let installRoot := Dir versionsDir in
  home ← within "resolve home directory" (from_res UserHomeDir);
  physicalHome ← within "resolve physical home directory" (on_files (EvalSymlinks home));
  _ ← within "validate executable deployment root" (from_res (requireStrictDescendant physicalHome installRoot "install root"));
  _ ← within "verify executable deployment root" (on_files (openVerifiedDirectory installRoot true));
  _ ← within "close verified deployment root" (on_files sync_file);
  _ ← within "verify executable version directory" (on_files (openVerifiedDirectory versionDir true));
  _ ← within "close verified version directory" (on_files sync_file);
  mret (mkLocation resolvedExecutable physicalHome installRoot).
Definition ActiveExecutableForExecutable (executable : string) : DepM H ActiveExecutableBinding :=
  location ← locateDeploymentExecutable executable;
  let statePath := Join [el_installRoot location; "deployment.json"] in
  state ← within "load executable deployment state" (on_files (loadCanonicalDeploymentJSON DeploymentState statePath));
  layout ← within "validate executable deployment layout"
             (from_res (NewLayout (el_physicalHome location) (el_installRoot location) (ds_StateDir state)));
  _ ← within "validate executable deployment state" (from_res (validate_state layout state));
  from_res (activeExecutableBinding state (el_resolvedExecutable location)).
Definition StateDirForExecutable (executable : string) : DepM H string :=
  binding ← ActiveExecutableForExecutable executable;
  mret (ab_StateDir binding).
Definition same_binding (expected actual : ActiveExecutableBinding) : bool :=
  (ab_Generation expected =? ab_Generation actual) && String.eqb (ab_BinaryPath expected) (ab_BinaryPath actual) &&
  String.eqb (ab_BinarySHA256 expected) (ab_BinarySHA256 actual).
(** The checks under the shared lock. *)
Definition managed_binding (layout : Layout) (location : deploymentExecutableLocation) (expected : ActiveExecutableBinding) : DepM H unit :=
  journal ← tried (LoadJournal layout);
  _ ← match journal with
      | Ok _ => refuse "managed enrollment requires deployment recovery"
      | Err e => if Is e ErrNoDeploymentJournal then mret tt else fail (dwrap "inspect managed enrollment journal" e)
      end;
  state ← within "reload managed enrollment state" (LoadState layout);
  actual ← from_res (activeExecutableBinding state (el_resolvedExecutable location));
  demand (same_binding expected actual) "managed enrollment binding is stale".
(** The lease is the path of the locked file. *)
Definition AcquireManagedActiveLease (executable stateDir : string) (expected : ActiveExecutableBinding) : DepM H string :=
  location ← locateDeploymentExecutable executable;
  layout ← within "validate managed enrollment layout"
             (from_res (NewLayout (el_physicalHome location) (el_installRoot location) stateDir));
  lock ← within "acquire managed enrollment lease" (acquireDeploymentSharedLock (lifecycle_of layout));
  bound ← tried (managed_binding layout location expected);
  match bound with
  | Ok _ => mret lock
  | Err cause =>
      closed ← tried (close_lock lock);
      fail (match closed with Ok _ => cause | Err e => Joined cause (dwrap "release managed enrollment lease" e) end)
  end.
Definition managed_Close (lease : option string) : DepM H unit :=
  match lease with None => mret tt | Some lock => close_lock lock end.
End endpoint.
