(* ===== verification/Bundle.v ===== *)
(** * Release bundles: releasebundle

    [src/runtime/internal/releasebundle/bundle.go], [installer.go] and [publish_linux.go]
    (or [publish_darwin.go]): the release manifest of a set of verified build artifacts,
    the installer script and the one-line command that fetches it, the commands a client
    runs over SSH, and the publication of all of them as one directory that is never
    replaced.  Directories are moved and removed as subtrees of the file map. *)

From stdpp Require Import base list strings gmap.
From Stdlib Require Import ZArith Lia Ascii.
From Stdlib Require String.
From S2P Require Import Prelude GoStd GoTime Json JsonFacts Api Wire Indent Release NetIP Fs Paths Config Layout Deploy Manifest Artifact.
From S2P Require Import Lifecycle Preview PreviewRun Http Service.
Local Open Scope Z_scope.

(** ** text/template

    A template is text with actions between [{{] and [}}]; the actions used are a field
    and [quote] of a field. *)
Definition prepend (c : ascii) (l : list string) : list string :=
  match l with [] => [String c ""] | w :: ws => String c w :: ws end.
(** [strings.Split] with a longer separator; [skip] bytes belong to the last one. *)
Fixpoint split_text (skip : nat) (sep s : string) : list string :=
  match s with
  | EmptyString => [""]
  | String c rest =>
      match skip with
      | S k => split_text k sep rest
      | O => if has_prefix sep s then "" :: split_text (String.length sep - 1) sep rest
             else prepend c (split_text 0 sep rest)
      end
  end.
Inductive template_value := VString (s : string) | VInt (n : Z).
Definition shellQuote (value : string) : string :=
  "'" +:+ ReplaceAll value "'" ("'" +:+ dquote +:+ "'" +:+ dquote +:+ "'") +:+ "'".
Definition template_data := list (string * template_value).
Definition field (data : template_data) (name : string) : option template_value :=
  snd <$> List.find (λ kv, String.eqb kv.1 name) data.
Definition evaluate (data : template_data) (action : string) : option string :=
  match strip_prefix "quote " action with
  | Some name => match field data name with Some (VString s) => Some (shellQuote s) | _ => None end
  | None => match field data action with Some (VString s) => Some s | Some (VInt n) => Some (FormatInt n) | None => None end
  end.
(** The text before the first action, then each action with the text after it. *)
Definition parse_template (template : string) : string * list (string * string) :=
  let cut part := match index_string "}}" part with
                  | Some i => (stake i part, sdrop (i + 2) part)
                  | None => (part, "")  (* an unclosed action, which Parse refuses *)
                  end in
  match split_text 0 "{{" template with
  | [] => ("", [])
  | text :: parts => (text, map cut parts)
  end.
Fixpoint execute_actions (data : template_data) (parts : list (string * string)) : option string :=
  match parts with
  | [] => Some ""
  | (action, text) :: rest =>
      match evaluate data action, execute_actions data rest with
      | Some value, Some more => Some (value +:+ text +:+ more)
      | _, _ => None
      end
  end.
Definition Execute (template : string) (data : template_data) : res string string :=
  let '(text, parts) := parse_template template in
  match execute_actions data parts with Some rendered => Ok (text +:+ rendered) | None => Err "render template" end.

(** ** The installer templates

    A caret stands for a double quote, which the templates do not otherwise contain. *)
Definition with_quotes (s : string) : string := flat_string (λ c, if Ascii.eqb c "^" then dquote else String c "") s.
Definition installer_functions : list string := [
  "#!/bin/sh";
  "set -efu";
  "if [ ^$#^ -eq 0 ]; then";
  "  exec {{quote .EnvPath}} -i HOME=^${HOME-}^ XDG_DATA_HOME=^${XDG_DATA_HOME-}^ XDG_STATE_HOME=^${XDG_STATE_HOME-}^ XDG_CONFIG_HOME=^${XDG_CONFIG_HOME-}^ XDG_RUNTIME_DIR=^${XDG_RUNTIME_DIR-}^ PATH={{quote .ToolPath}} LC_ALL=C {{quote .ShellPath}} ^$0^ --jat-installer-v1-sanitized";
  "fi";
  "if [ ^$#^ -ne 1 ] || [ ^$1^ != ^--jat-installer-v1-sanitized^ ]; then";
  "  printf '%s\n' 'sshserver installer: arguments are not supported' >&2";
  "  exit 2";
  "fi";
  "shift";
  "umask 077";
  "PATH={{quote .ToolPath}}";
  "LC_ALL=C";
  "export PATH LC_ALL";
  "";
  "fail() {";
  "  printf '%s\n' ^sshserver installer: $*^ >&2";
  "  exit 1";
  "}";
  "";
  "validate_absolute_path() {";
  "  path_label=$1";
  "  path_value=$2";
  "  case ^$path_value^ in";
  "    /*) ;;";
  "    *) fail ^$path_label must be absolute^ ;;";
  "  esac";
  "  case ^$path_value^ in";
  "    /|*/|*//*|*/./*|*/../*|*/.|*/..) fail ^$path_label must be canonical and non-root^ ;;";
  "  esac";
  "}";
  "";
  "HOME=${HOME-}";
  "XDG_DATA_HOME=${XDG_DATA_HOME-}";
  "XDG_STATE_HOME=${XDG_STATE_HOME-}";
  "XDG_CONFIG_HOME=${XDG_CONFIG_HOME-}";
  "XDG_RUNTIME_DIR=${XDG_RUNTIME_DIR-}";
  "validate_absolute_path HOME ^$HOME^";
  "[ -d ^$HOME^ ] || fail 'HOME is not a directory'";
  "for xdg_pair in ^XDG_DATA_HOME:$XDG_DATA_HOME^ ^XDG_STATE_HOME:$XDG_STATE_HOME^ ^XDG_CONFIG_HOME:$XDG_CONFIG_HOME^ ^XDG_RUNTIME_DIR:$XDG_RUNTIME_DIR^; do";
  "  xdg_label=${xdg_pair%%:*}";
  "  xdg_value=${xdg_pair#*:}";
  "  if [ -n ^$xdg_value^ ]; then";
  "    validate_absolute_path ^$xdg_label^ ^$xdg_value^";
  "  fi";
  "done";
  "";
  "# A redirection failure on the POSIX special builtin exec may terminate dash";
  "# before its OR handler runs. Probe each fixed terminal path through the";
  "# regular command builtin first so every supported /bin/sh reports the";
  "# product diagnostic, then retain the descriptors for the exact preview and";
  "# confirmation exchange.";
  "command : 3<{{quote .TTYReadPath}} || fail 'an interactive controlling terminal is required'";
  "command : 4>{{quote .TTYWritePath}} || fail 'an interactive controlling terminal is required'";
  "exec 3<{{quote .TTYReadPath}}";
  "exec 4>{{quote .TTYWritePath}}";
  "";
  "tool_path() {";
  "  resolved_tool=$(command -v ^$1^ 2>/dev/null || true)";
  "  case ^$resolved_tool^ in";
  "    /*) printf '%s\n' ^$resolved_tool^ ;;";
  "    *) fail ^required tool $1 is unavailable on the fixed system PATH^ ;;";
  "  esac";
  "}";
  "";
  "curl_tool=$(tool_path curl)";
  "mktemp_tool=$(tool_path mktemp)";
  "wc_tool=$(tool_path wc)";
  "chmod_tool=$(tool_path chmod)";
  "rm_tool=$(tool_path rm)";
  "rmdir_tool=$(tool_path rmdir)";
  "uname_tool=$(tool_path uname)";
  "cat_tool=$(tool_path cat)";
  "env_tool=$(tool_path env)";
  "if checksum_tool=$(command -v sha256sum 2>/dev/null); then";
  "  checksum_kind=sha256sum";
  "elif checksum_tool=$(command -v shasum 2>/dev/null); then";
  "  checksum_kind=shasum";
  "else";
  "  fail 'sha256sum or shasum is required'";
  "fi";
  "case ^$checksum_tool^ in";
  "  /*) ;;";
  "  *) fail 'checksum tool did not resolve to an absolute system path' ;;";
  "esac";
  "";
  "require_supported_curl() {";
  "  curl_version_output=$(^$curl_tool^ --disable --version) || fail 'query system curl version'";
  "  curl_version=${curl_version_output#curl }";
  "  curl_version=${curl_version%% *}";
  "  curl_version=${curl_version%%-*}";
  "  case ^$curl_version^ in";
  "    ''|*[!0-9.]*|.*|*.|*..*) fail 'system curl returned an unsupported version string' ;;";
  "  esac";
  "  saved_ifs=$IFS";
  "  IFS=.";
  "  set -- $curl_version";
  "  IFS=$saved_ifs";
  "  [ ^$#^ -eq 3 ] || fail 'system curl returned an unsupported version string'";
  "  curl_major=$1";
  "  curl_minor=$2";
  "  curl_patch=$3";
  "  case ^$curl_major:$curl_minor:$curl_patch^ in";
  "    *[!0-9:]*) fail 'system curl returned an unsupported version string' ;;";
  "  esac";
  "  if [ ^$curl_major^ -lt 7 ] || { [ ^$curl_major^ -eq 7 ] && [ ^$curl_minor^ -lt 58 ]; }; then";
  "    fail 'curl 7.58.0 or newer is required for the pinned HTTPS installer'";
  "  fi";
  "}";
  "require_supported_curl";
  "";
  "file_sha256() {";
  "  if [ ^$checksum_kind^ = sha256sum ]; then";
  "    checksum_output=$(^$checksum_tool^ < ^$1^) || fail 'sha256sum failed'";
  "  else";
  "    checksum_output=$(^$checksum_tool^ -a 256 < ^$1^) || fail 'shasum failed'";
  "  fi";
  "  set -- $checksum_output";
  "  [ ^$#^ -ge 1 ] || fail 'checksum tool returned no digest'";
  "  printf '%s\n' ^$1^";
  "}";
  "";
  "verify_exact_file() {";
  "  verification_path=$1";
  "  verification_bytes=$2";
  "  verification_sha256=$3";
  "  verification_label=$4";
  "  [ -f ^$verification_path^ ] && [ ! -L ^$verification_path^ ] || fail ^$verification_label is not a regular file^";
  "  actual_bytes=$(^$wc_tool^ -c < ^$verification_path^) || fail ^count $verification_label bytes^";
  "  set -- $actual_bytes";
  "  [ ^$#^ -eq 1 ] || fail ^$verification_label byte count is invalid^";
  "  actual_bytes=$1";
  "  [ ^$actual_bytes^ = ^$verification_bytes^ ] || fail ^$verification_label byte count mismatch^";
  "  actual_sha256=$(file_sha256 ^$verification_path^)";
  "  [ ^$actual_sha256^ = ^$verification_sha256^ ] || fail ^$verification_label SHA-256 mismatch^";
  "}";
  "";
  "download_exact() {";
  "  download_url=$1";
  "  expected_bytes=$2";
  "  expected_sha256=$3";
  "  destination=$4";
  "  destination_mode=$5";
  "  [ ! -e ^$destination^ ] && [ ! -L ^$destination^ ] || fail 'download destination already exists'";
  "  file_limit_blocks=$(( (expected_bytes + 511) / 512 ))";
  "  [ ^$file_limit_blocks^ -gt 0 ] || fail 'download file limit is invalid'";
  "  (";
  "    ulimit -c 0 2>/dev/null || exit 96";
  "    trap '' XFSZ";
  "    ulimit -f ^$file_limit_blocks^ 2>/dev/null || exit 97";
  "    ^$curl_tool^ --disable --proto '=https' --tlsv1.2 --fail --silent --show-error --connect-timeout 15 --max-time 900 --max-filesize ^$expected_bytes^ --output ^$destination^ --url ^$download_url^";
  "  ) || fail ^download failed or exceeded its independent file limit: $download_url^";
  "  verify_exact_file ^$destination^ ^$expected_bytes^ ^$expected_sha256^ ^download: $download_url^";
  "  ^$chmod_tool^ ^$destination_mode^ ^$destination^ || fail 'protect verified download'";
  "}";
  ""].
Definition installer_program : list string := [
  "kernel=$(^$uname_tool^ -s) || fail 'detect operating system'";
  "machine=$(^$uname_tool^ -m) || fail 'detect execution architecture'";
  "case ^$kernel/$machine^ in";
  "  Linux/x86_64|Linux/amd64)";
  "    target=linux/amd64";
  "    artifact_url={{quote .LinuxAMD64.URL}}";
  "    artifact_bytes={{.LinuxAMD64.Bytes}}";
  "    artifact_sha256={{quote .LinuxAMD64.SHA256}}";
  "    ;;";
  "  Linux/aarch64|Linux/arm64)";
  "    target=linux/arm64";
  "    artifact_url={{quote .LinuxARM64.URL}}";
  "    artifact_bytes={{.LinuxARM64.Bytes}}";
  "    artifact_sha256={{quote .LinuxARM64.SHA256}}";
  "    ;;";
  "  Darwin/x86_64|Darwin/amd64)";
  "    target=darwin/amd64";
  "    artifact_url={{quote .DarwinAMD64.URL}}";
  "    artifact_bytes={{.DarwinAMD64.Bytes}}";
  "    artifact_sha256={{quote .DarwinAMD64.SHA256}}";
  "    ;;";
  "  Darwin/arm64|Darwin/aarch64)";
  "    target=darwin/arm64";
  "    artifact_url={{quote .DarwinARM64.URL}}";
  "    artifact_bytes={{.DarwinARM64.Bytes}}";
  "    artifact_sha256={{quote .DarwinARM64.SHA256}}";
  "    ;;";
  "  *) fail ^unsupported execution target: $kernel/$machine^ ;;";
  "esac";
  "";
  "cd ^$HOME^ || fail 'enter HOME'";
  "physical_home=$(pwd -P) || fail 'resolve physical HOME'";
  "work_dir=$(^$mktemp_tool^ -d ^$physical_home/.jat-sshserver-install.XXXXXXXX^) || fail 'create installer workspace'";
  "case ^$work_dir^ in";
  "  ^$physical_home^/.jat-sshserver-install.*) ;;";
  "  *) fail 'mktemp returned an unexpected workspace' ;;";
  "esac";
  "[ -d ^$work_dir^ ] && [ ! -L ^$work_dir^ ] || fail 'installer workspace is unsafe'";
  "cd ^$work_dir^ || fail 'enter installer workspace'";
  "[ ^$(pwd -P)^ = ^$work_dir^ ] || fail 'installer workspace identity changed before entry'";
  "^$chmod_tool^ 700 . || fail 'protect pinned installer workspace'";
  "cleanup() {";
  "  cleanup_dir=$(pwd -P 2>/dev/null || true)";
  "  ^$rm_tool^ -f ./release-manifest.json ./LICENSE ./NOTICE ./sshserver ./deployment-preview.json 2>/dev/null || :";
  "  if [ ^$cleanup_dir^ != ^$work_dir^ ]; then";
  "    ^$rm_tool^ -f ^$work_dir/release-manifest.json^ ^$work_dir/LICENSE^ ^$work_dir/NOTICE^ ^$work_dir/sshserver^ ^$work_dir/deployment-preview.json^ 2>/dev/null || :";
  "  fi";
  "  cd / || :";
  "  [ -z ^$cleanup_dir^ ] || ^$rmdir_tool^ ^$cleanup_dir^ 2>/dev/null || :";
  "  [ ^$cleanup_dir^ = ^$work_dir^ ] || ^$rmdir_tool^ ^$work_dir^ 2>/dev/null || :";
  "}";
  "trap cleanup 0";
  "";
  "download_exact {{quote .Manifest.URL}} {{.Manifest.Bytes}} {{quote .Manifest.SHA256}} ./release-manifest.json 400";
  "download_exact {{quote .License.URL}} {{.License.Bytes}} {{quote .License.SHA256}} ./LICENSE 400";
  "download_exact {{quote .Notice.URL}} {{.Notice.Bytes}} {{quote .Notice.SHA256}} ./NOTICE 400";
  "download_exact ^$artifact_url^ ^$artifact_bytes^ ^$artifact_sha256^ ./sshserver 500";
  "";
  "# A parent rename does not change this shell's current-directory inode, but it";
  "# does stale an earlier physical pathname. Rebind every absolute child input";
  "# after the download hooks and again after the unbounded confirmation wait.";
  "rebind_input_paths() {";
  "  pinned_work_dir=$(pwd -P) || fail 'resolve pinned installer workspace'";
  "  case ^$pinned_work_dir^ in";
  "    ^$physical_home^/.jat-sshserver-install.*) ;;";
  "    *) fail 'installer workspace moved outside the physical home boundary' ;;";
  "  esac";
  "  [ -d ^$pinned_work_dir^ ] && [ ! -L ^$pinned_work_dir^ ] || fail 'pinned installer workspace is no longer addressable'";
  "  manifest_path=$pinned_work_dir/release-manifest.json";
  "  license_path=$pinned_work_dir/LICENSE";
  "  notice_path=$pinned_work_dir/NOTICE";
  "  artifact_path=$pinned_work_dir/sshserver";
  "}";
  "rebind_input_paths";
  "";
  "run_clean() {";
  "  ^$env_tool^ -i HOME=^$HOME^ XDG_DATA_HOME=^$XDG_DATA_HOME^ XDG_STATE_HOME=^$XDG_STATE_HOME^ XDG_CONFIG_HOME=^$XDG_CONFIG_HOME^ XDG_RUNTIME_DIR=^$XDG_RUNTIME_DIR^ PATH=^$PATH^ LC_ALL=C ^$@^";
  "}";
  "";
  "verify_exact_file ./sshserver ^$artifact_bytes^ ^$artifact_sha256^ 'artifact before deployment preview'";
  "run_clean ./sshserver deploy preview --manifest ^$manifest_path^ --manifest-sha256 {{quote .Manifest.SHA256}} --artifact ^$artifact_path^ --license ^$license_path^ --notice ^$notice_path^ > ./deployment-preview.json || fail 'verified deployment preview failed'";
  "preview_bytes=$(^$wc_tool^ -c < ./deployment-preview.json) || fail 'count deployment preview bytes'";
  "set -- $preview_bytes";
  "[ ^$#^ -eq 1 ] || fail 'deployment preview byte count is invalid'";
  "preview_bytes=$1";
  "case ^$preview_bytes^ in";
  "  ''|*[!0-9]*) fail 'deployment preview byte count is invalid' ;;";
  "esac";
  "[ ^$preview_bytes^ -gt 0 ] && [ ^$preview_bytes^ -le 524288 ] || fail 'deployment preview exceeds its output boundary'";
  "^$chmod_tool^ 400 ./deployment-preview.json || fail 'protect deployment preview'";
  "preview_sha256=$(file_sha256 ./deployment-preview.json)";
  "printf '%s\n' ^Verified sshserver {{.Release}} deployment preview for $target:^ >&4";
  "^$cat_tool^ ./deployment-preview.json >&4 || fail 'display deployment preview'";
  "printf '%s' 'Type yes to apply exactly this preview: ' >&4";
  "IFS= read -r confirmation <&3 || fail 'read deployment confirmation'";
  "[ ^$confirmation^ = yes ] || fail 'installation declined'";
  "^$rm_tool^ -f ./deployment-preview.json || fail 'remove confirmed preview file'";
  "exec 3<&-";
  "exec 4>&-";
  "";
  "rebind_input_paths";
  "verify_exact_file ./sshserver ^$artifact_bytes^ ^$artifact_sha256^ 'artifact before deployment apply'";
  "run_clean ./sshserver deploy apply --manifest ^$manifest_path^ --manifest-sha256 {{quote .Manifest.SHA256}} --artifact ^$artifact_path^ --license ^$license_path^ --notice ^$notice_path^ --confirmed-preview-sha256 ^$preview_sha256^ --consume-inputs --supervise-foreground || fail 'verified deployment apply or supervised foreground server failed'"].
Definition bootstrap_lines : list string := [
  "set -efu;";
  "umask 077;";
  "PATH={{quote .ToolPath}}; LC_ALL=C; export PATH LC_ALL;";
  "fail() { printf '%s\n' ^sshserver installer bootstrap: $*^ >&2; exit 1; };";
  "tool_path() { bootstrap_tool=$(command -v ^$1^ 2>/dev/null || true); case ^$bootstrap_tool^ in /*) printf '%s\n' ^$bootstrap_tool^ ;; *) fail ^required tool $1 is unavailable on the fixed system PATH^ ;; esac; };";
  "curl_tool=$(tool_path curl); mktemp_tool=$(tool_path mktemp); wc_tool=$(tool_path wc); chmod_tool=$(tool_path chmod); rm_tool=$(tool_path rm); rmdir_tool=$(tool_path rmdir); cat_tool=$(tool_path cat); env_tool=$(tool_path env);";
  "curl_version_output=$(^$curl_tool^ --disable --version) || fail 'query system curl version';";
  "curl_version=${curl_version_output#curl }; curl_version=${curl_version%% *}; curl_version=${curl_version%%-*};";
  "case ^$curl_version^ in ''|*[!0-9.]*|.*|*.|*..*) fail 'system curl returned an unsupported version string' ;; esac;";
  "saved_ifs=$IFS; IFS=.; set -- $curl_version; IFS=$saved_ifs; [ ^$#^ -eq 3 ] || fail 'system curl returned an unsupported version string';";
  "curl_major=$1; curl_minor=$2; curl_patch=$3; case ^$curl_major:$curl_minor:$curl_patch^ in *[!0-9:]*) fail 'system curl returned an unsupported version string' ;; esac;";
  "if [ ^$curl_major^ -lt 7 ] || { [ ^$curl_major^ -eq 7 ] && [ ^$curl_minor^ -lt 58 ]; }; then fail 'curl 7.58.0 or newer is required for the pinned HTTPS installer'; fi;";
  "if checksum_tool=$(command -v sha256sum 2>/dev/null); then checksum_kind=sha256sum; elif checksum_tool=$(command -v shasum 2>/dev/null); then checksum_kind=shasum; else fail 'sha256sum or shasum is required'; fi;";
  "case ^$checksum_tool^ in /*) ;; *) fail 'checksum tool did not resolve to an absolute system path' ;; esac;";
  "cd /tmp || fail 'enter installer bootstrap root'; bootstrap_root=$(pwd -P) || fail 'resolve installer bootstrap root'; case ^$bootstrap_root^ in /*) ;; *) fail 'installer bootstrap root is not absolute' ;; esac;";
  "work_dir=$(^$mktemp_tool^ -d ^$bootstrap_root/jat-sshserver-bootstrap.XXXXXXXX^) || fail 'create installer bootstrap workspace';";
  "case ^$work_dir^ in ^$bootstrap_root^/jat-sshserver-bootstrap.*) ;; *) fail 'mktemp returned an unexpected workspace' ;; esac;";
  "[ -d ^$work_dir^ ] && [ ! -L ^$work_dir^ ] || fail 'installer bootstrap workspace is unsafe';";
  "cd ^$work_dir^ || fail 'enter installer bootstrap workspace'; [ ^$(pwd -P)^ = ^$work_dir^ ] || fail 'installer bootstrap workspace identity changed before entry'; ^$chmod_tool^ 700 . || fail 'protect pinned installer bootstrap workspace';";
  "cleanup() { cleanup_dir=$(pwd -P 2>/dev/null || true); ^$rm_tool^ -f ./install.sh ^$work_dir/install.sh^ 2>/dev/null || :; cd / || :; [ -z ^$cleanup_dir^ ] || ^$rmdir_tool^ ^$cleanup_dir^ 2>/dev/null || :; [ ^$cleanup_dir^ = ^$work_dir^ ] || ^$rmdir_tool^ ^$work_dir^ 2>/dev/null || :; }; trap cleanup 0;";
  "installer_path=./install.sh; installer_file_limit_blocks=$(( ({{.InstallerBytes}} + 511) / 512 )); [ ^$installer_file_limit_blocks^ -gt 0 ] || fail 'installer file limit is invalid';";
  "( ulimit -c 0 2>/dev/null || exit 96; trap '' XFSZ; ulimit -f ^$installer_file_limit_blocks^ 2>/dev/null || exit 97; ^$curl_tool^ --disable --proto '=https' --tlsv1.2 --fail --silent --show-error --connect-timeout 15 --max-time 120 --max-filesize {{.InstallerBytes}} --output ^$installer_path^ --url {{quote .InstallerURL}} ) || fail 'download pinned installer or enforce its independent file limit';";
  "[ -f ^$installer_path^ ] && [ ! -L ^$installer_path^ ] || fail 'installer download is not a regular file'; ^$chmod_tool^ 400 ^$installer_path^ || fail 'protect downloaded installer';";
  "command : 5<^$installer_path^ || fail 'open downloaded installer'; exec 5<^$installer_path^; ^$rm_tool^ -f ^$installer_path^ || fail 'unlink downloaded installer';";
  "installer_sentinel=__JAT_INSTALLER_EOF_7f29a4a2__; installer_with_sentinel=$(^$cat_tool^ <&5 || exit 98; printf '%s' ^$installer_sentinel^) || fail 'read downloaded installer from retained descriptor'; exec 5<&-;";
  "case ^$installer_with_sentinel^ in *^$installer_sentinel^) ;; *) fail 'installer sentinel is missing' ;; esac; installer_program=${installer_with_sentinel%^$installer_sentinel^}; unset installer_with_sentinel;";
  "actual_bytes=$(printf '%s' ^$installer_program^ | ^$wc_tool^ -c) || fail 'count retained installer bytes'; set -- $actual_bytes; [ ^$#^ -eq 1 ] || fail 'installer byte count is invalid'; actual_bytes=$1; [ ^$actual_bytes^ = {{quote .InstallerBytes}} ] || fail 'installer byte count mismatch';";
  "if [ ^$checksum_kind^ = sha256sum ]; then checksum_output=$(printf '%s' ^$installer_program^ | ^$checksum_tool^) || fail 'sha256sum failed'; else checksum_output=$(printf '%s' ^$installer_program^ | ^$checksum_tool^ -a 256) || fail 'shasum failed'; fi;";
  "set -- $checksum_output; [ ^$#^ -ge 1 ] || fail 'checksum tool returned no digest'; [ ^$1^ = {{quote .InstallerSHA}} ] || fail 'installer SHA-256 mismatch';";
  "^$env_tool^ -i HOME=^${HOME-}^ XDG_DATA_HOME=^${XDG_DATA_HOME-}^ XDG_STATE_HOME=^${XDG_STATE_HOME-}^ XDG_CONFIG_HOME=^${XDG_CONFIG_HOME-}^ XDG_RUNTIME_DIR=^${XDG_RUNTIME_DIR-}^ PATH={{quote .ToolPath}} LC_ALL=C {{quote .ShellPath}} -c ^$installer_program^ install.sh --jat-installer-v1-sanitized"].
Definition installerScriptTemplate : string := lines_text (map with_quotes (installer_functions ++ installer_program)).
Definition installerBootstrapTemplate : string := join " " (map with_quotes bootstrap_lines).
(** The texts of the source, by their digests. *)
Example installer_digests : (SHA256Hex installerScriptTemplate, SHA256Hex installerBootstrapTemplate) =
  ("6e44a8038b76c1eef498c669ebf07492796d881fb4154476d96f772373f38087", "8f9ca2befde3e63f33629e8e8b00ff3b3c4237602a61e3813143fb7651a7f0b8").
Proof. vm_compute. reflexivity. Qed.

(** ** The installer *)
Definition maxInstallerBytes : Z := 64 * 1024.
Definition installerURLSegmentPattern : regexp := Cat alnum (Star (Class (λ z, is_alpha z || is_digit z || one_of "._-" z))).
Record installerPin := mkPin { pin_URL : string; pin_Bytes : Z; pin_SHA256 : string }.
Record installerTemplateData := mkInstallerData {
  itd_Release : string; itd_ToolPath : string; itd_TTYReadPath : string; itd_TTYWritePath : string; itd_EnvPath : string;
  itd_ShellPath : string; itd_Manifest : installerPin; itd_License : installerPin; itd_Notice : installerPin;
  itd_LinuxAMD64 : installerPin; itd_LinuxARM64 : installerPin; itd_DarwinAMD64 : installerPin; itd_DarwinARM64 : installerPin }.
Record installerRenderOptions := mkRenderOptions {
  ro_ToolPath : string; ro_TTYReadPath : string; ro_TTYWritePath : string; ro_EnvPath : string; ro_ShellPath : string }.
Definition productionInstallerRenderOptions : installerRenderOptions :=
  mkRenderOptions "/usr/bin:/bin" "/dev/tty" "/dev/tty" "/usr/bin/env" "/bin/sh".
Definition pin_fields (name : string) (pin : installerPin) : template_data := [
  (name +:+ ".URL", VString (pin_URL pin)); (name +:+ ".Bytes", VInt (pin_Bytes pin)); (name +:+ ".SHA256", VString (pin_SHA256 pin))].
Definition installer_fields (d : installerTemplateData) : template_data :=
  [(".Release", VString (itd_Release d)); (".ToolPath", VString (itd_ToolPath d)); (".TTYReadPath", VString (itd_TTYReadPath d));
   (".TTYWritePath", VString (itd_TTYWritePath d)); (".EnvPath", VString (itd_EnvPath d)); (".ShellPath", VString (itd_ShellPath d))] ++
  pin_fields ".Manifest" (itd_Manifest d) ++ pin_fields ".License" (itd_License d) ++ pin_fields ".Notice" (itd_Notice d) ++
  pin_fields ".LinuxAMD64" (itd_LinuxAMD64 d) ++ pin_fields ".LinuxARM64" (itd_LinuxARM64 d) ++
  pin_fields ".DarwinAMD64" (itd_DarwinAMD64 d) ++ pin_fields ".DarwinARM64" (itd_DarwinARM64 d).

Definition canonical_directory (path : string) : bool :=
  negb (String.eqb path "") && IsAbs path && String.eqb (Clean path) path && negb (contains_byte (chrZ 0) path).
Definition validateInstallerRenderOptions (options : installerRenderOptions) : res string unit :=
  let runtime := [ro_TTYReadPath options; ro_TTYWritePath options; ro_EnvPath options; ro_ShellPath options] in
  if existsb (String.eqb "") (ro_ToolPath options :: runtime) then Err "installer render paths are required"
  else if negb (forallb canonical_directory (split ":" (ro_ToolPath options)))
    then Err "installer tool path must contain only canonical absolute directories"
  else if negb (forallb canonical_directory runtime) then Err "installer runtime path must be canonical and absolute"
  else Ok tt.

(** The entry of the map [artifacts]: the last artifact of a target, or zero values. *)
Definition artifact_pin (manifest : ReleaseManifest) (key : string) : installerPin :=
  match List.find (λ a, String.eqb (ra_OS a +:+ "/" +:+ ra_Architecture a) key) (rev (rm_Artifacts manifest)) with
  | Some a => mkPin (ra_URL a) (ra_Bytes a) (ra_SHA256 a)
  | None => mkPin "" 0 ""
  end.
Definition file_pin (f : ReleaseFile) : installerPin := mkPin (rf_URL f) (rf_Bytes f) (rf_SHA256 f).
Definition installer_data (manifest : ReleaseManifest) (manifestBytes : Z) (manifestSHA256 : string)
    (options : installerRenderOptions) : installerTemplateData := {|
  itd_Release := rm_Release manifest; itd_ToolPath := ro_ToolPath options; itd_TTYReadPath := ro_TTYReadPath options;
  itd_TTYWritePath := ro_TTYWritePath options; itd_EnvPath := ro_EnvPath options; itd_ShellPath := ro_ShellPath options;
  itd_Manifest := mkPin (rm_DownloadOrigin manifest +:+ "/releases/" +:+ rm_Release manifest +:+ "/release-manifest.json")
    manifestBytes manifestSHA256;
  itd_License := file_pin (support_file manifest 0); itd_Notice := file_pin (support_file manifest 1);
  itd_LinuxAMD64 := artifact_pin manifest "linux/amd64"; itd_LinuxARM64 := artifact_pin manifest "linux/arm64";
  itd_DarwinAMD64 := artifact_pin manifest "darwin/amd64"; itd_DarwinARM64 := artifact_pin manifest "darwin/arm64" |}.

Section installer.
Context `{UnicodeCase}.
(** The size and digest a caller names are those of the manifest's canonical bytes. *)
Definition pin_matches (canonical : string) (manifestBytes : Z) (manifestSHA256 : string) : bool :=
  (manifestBytes =? slen canonical) && (0 <? manifestBytes) && (manifestBytes <=? 64 * 1024) &&
  String.eqb (SHA256Hex canonical) manifestSHA256.
Definition installerScriptWithOptions (manifest : ReleaseManifest) (manifestBytes : Z) (manifestSHA256 : string)
    (options : installerRenderOptions) : res string string :=
  match manifest_CanonicalBytes manifest with
  | Err e => Err e
  | Ok canonical =>
      if negb (pin_matches canonical manifestBytes manifestSHA256)
        then Err "installer manifest size or pin does not match its canonical bytes"
      else
        match validateInstallerRenderOptions options with
        | Err e => Err e
        | Ok _ =>
            match Execute installerScriptTemplate (installer_fields (installer_data manifest manifestBytes manifestSHA256 options)) with
            | Err e => Err e
            | Ok payload =>
                if (slen payload =? 0) || (maxInstallerBytes <? slen payload) || negb (has_suffix newline payload) ||
                   contains_byte (chrZ 0) payload
                  then Err "rendered installer exceeds its deterministic output boundary"
                else Ok payload
            end
        end
  end.
Definition InstallerScript (manifest : ReleaseManifest) (manifestBytes : Z) (manifestSHA256 : string) : res string string :=
  installerScriptWithOptions manifest manifestBytes manifestSHA256 productionInstallerRenderOptions.

(** [String] of a URL with the query; one with a user, an opaque part or a fragment is
    refused by the other conditions. *)
Definition url_text (u : Manifest.URL) : string :=
  URLString u +:+ (if u_ForceQuery u || negb (String.eqb (u_RawQuery u) "") then "?" +:+ u_RawQuery u else "").
Definition canonical_installer_url (installerURL : string) : option Manifest.URL :=
  match ParseURL installerURL with
  | None => None
  | Some u =>
      if (640 <? slen installerURL) || negb (has_prefix "https://" installerURL) || negb (String.eqb (url_text u) installerURL) ||
         negb (String.eqb (u_Scheme u) "https") || String.eqb (u_Host u) "" || bool_decide (is_Some (u_User u)) ||
         negb (String.eqb (u_RawQuery u) "") || negb (String.eqb (u_Fragment u) "") || negb (String.eqb (u_Opaque u) "") ||
         negb (String.eqb (u_RawPath u) "") || String.eqb (Hostname u) "" || negb (String.eqb (Port u) "") ||
         negb (String.eqb (ToLower (u_Host u)) (u_Host u)) || (384 <? slen (u_Path u)) ||
         negb (String.eqb (Clean (u_Path u)) (u_Path u)) || negb (String.eqb (EscapedPath u) (u_Path u))
        then None else Some u
  end.
Definition installer_layout (segments : list string) : bool :=
  match rev segments with
  | file :: release :: releases :: _ => String.eqb releases "releases" && Valid release && String.eqb file "install.sh"
  | _ => false
  end.
Definition bootstrap_fields (options : installerRenderOptions) (installerURL installerPayload : string) : template_data := [
  (".ToolPath", VString (ro_ToolPath options)); (".EnvPath", VString (ro_EnvPath options));
  (".ShellPath", VString (ro_ShellPath options)); (".InstallerURL", VString installerURL);
  (".InstallerBytes", VString (FormatInt (slen installerPayload))); (".InstallerSHA", VString (SHA256Hex installerPayload))].
Definition environment_text : string := with_quotes
  (" -i HOME=^${HOME-}^ XDG_DATA_HOME=^${XDG_DATA_HOME-}^ XDG_STATE_HOME=^${XDG_STATE_HOME-}^ " +:+
   "XDG_CONFIG_HOME=^${XDG_CONFIG_HOME-}^ XDG_RUNTIME_DIR=^${XDG_RUNTIME_DIR-}^ PATH=").
Definition command_line (options : installerRenderOptions) (program : string) : string :=
  ro_EnvPath options +:+ environment_text +:+ shellQuote (ro_ToolPath options) +:+ " LC_ALL=C " +:+ ro_ShellPath options +:+
  " -c " +:+ shellQuote program +:+ newline.
Definition installCommandWithOptions (installerURL installerPayload : string) (options : installerRenderOptions) : res string string :=
  match validateInstallerRenderOptions options with
  | Err e => Err e
  | Ok _ =>
      match canonical_installer_url installerURL with
      | None => Err "installer URL must be one canonical direct HTTPS install.sh URL"
      | Some u =>
          let segments := split "/" (trim_prefix "/" (u_Path u)) in
          if negb (installer_layout segments)
            then Err "installer URL must use the exact download-origin/releases/<release>/install.sh layout"
          else if negb (forallb (λ s, matches installerURLSegmentPattern s && negb (String.eqb s ".") && negb (String.eqb s "..")) segments)
            then Err "installer URL contains an unsafe path segment"
          else if (slen installerPayload =? 0) || (maxInstallerBytes <? slen installerPayload) ||
                  negb (has_suffix newline installerPayload) || contains_byte (chrZ 0) installerPayload
            then Err "installer payload must be NUL-free, newline-terminated, and within its shell-argument size boundary"
          else
            match Execute installerBootstrapTemplate (bootstrap_fields options installerURL installerPayload) with
            | Err e => Err e
            | Ok program =>
                if contains_byte (chrZ 10) program || contains_byte (chrZ 0) program
                  then Err "installer bootstrap must be one shell program line"
                else
                  let line := command_line options program in
                  if negb (count_byte (chrZ 10) line =? 1)%nat || negb (has_suffix newline line) || contains_byte (chrZ 0) line
                    then Err "installer command is not exactly one line"
                  else Ok line
            end
      end
  end.
Definition InstallCommand (installerURL installerPayload : string) : res string string :=
  installCommandWithOptions installerURL installerPayload productionInstallerRenderOptions.

(** ** Commands for the client *)
Record UploadFiles := mkUploadFiles {
  uf_Directory : string; uf_DirectoryMode : string; uf_Manifest : string; uf_ManifestMode : string; uf_Artifact : string;
  uf_ArtifactMode : string; uf_License : string; uf_LicenseMode : string; uf_Notice : string; uf_NoticeMode : string }.
Definition uploadFiles (manifest : ReleaseManifest) (manifestSHA256 : string) (artifact : ReleaseArtifact) : UploadFiles :=
  let directory := ".jat-sshserver-upload-" +:+ rm_Release manifest +:+ "-" +:+ ra_OS artifact +:+ "-" +:+
                   ra_Architecture artifact +:+ "-" +:+ stake 16 manifestSHA256 in
  mkUploadFiles directory "0700" (directory +:+ "/release-manifest.json") "0400" (directory +:+ "/sshserver") "0500"
    (directory +:+ "/LICENSE") "0400" (directory +:+ "/NOTICE") "0400".
Definition validatedCommandFiles (manifest : ReleaseManifest) (manifestBytes : Z) (manifestSHA256 : string)
    (artifact : ReleaseArtifact) : res string UploadFiles :=
  match manifest_CanonicalBytes manifest with
  | Err e => Err e
  | Ok canonical =>
      if negb (pin_matches canonical manifestBytes manifestSHA256)
        then Err "deployment command manifest size or pin does not match its canonical bytes"
      else if String.eqb (ra_OS artifact) "" || String.eqb (ra_Architecture artifact) ""
        then Err "deployment command artifact target is missing"
      else
        match Artifact manifest (Mk_Target (ra_OS artifact) (ra_Architecture artifact)) with
        | Ok selected => if bool_decide (selected = artifact) then Ok (uploadFiles manifest manifestSHA256 artifact)
                         else Err "deployment command artifact is not the exact manifest target"
        | Err _ => Err "deployment command artifact is not the exact manifest target"
        end
  end.
Definition prefixHome (path : string) : string := "~/" +:+ path.
Definition command_parts (files : UploadFiles) (operation manifestSHA256 : string) : list string := [
  prefixHome (uf_Artifact files); "deploy"; operation; "--manifest"; prefixHome (uf_Manifest files); "--manifest-sha256";
  manifestSHA256; "--artifact"; prefixHome (uf_Artifact files); "--license"; prefixHome (uf_License files); "--notice";
  prefixHome (uf_Notice files)].
Definition PreviewLine (manifest : ReleaseManifest) (manifestBytes : Z) (manifestSHA256 : string) (artifact : ReleaseArtifact) :
    res string string :=
  match validatedCommandFiles manifest manifestBytes manifestSHA256 artifact with
  | Err e => Err e
  | Ok files => Ok (join " " (command_parts files "preview" manifestSHA256) +:+ newline)
  end.
Definition ActivationLine (manifest : ReleaseManifest) (manifestBytes : Z) (manifestSHA256 : string) (artifact : ReleaseArtifact)
    (confirmedPreviewSHA256 : string) : res string string :=
  match validatedCommandFiles manifest manifestBytes manifestSHA256 artifact with
  | Err e => Err e
  | Ok files =>
      if negb (slen confirmedPreviewSHA256 =? 64) || negb (String.eqb confirmedPreviewSHA256 (ToLower confirmedPreviewSHA256)) ||
         negb (forallb (one_of "0123456789abcdef") (bytes_list confirmedPreviewSHA256))
        then Err "confirmed preview SHA-256 must be exactly 64 lowercase hexadecimal characters"
      else Ok (join " " (command_parts files "apply" manifestSHA256 ++
                         ["--confirmed-preview-sha256"; confirmedPreviewSHA256; "--consume-inputs"]) +:+ newline)
  end.
End installer.

(** ** Build metadata *)

(** [time.Parse] of "20060102150405" and of RFC 3339, in seconds since 1970 UTC: an hour
    may have one digit, a fraction of a second may follow. *)
Definition valid_civil (y mo d h mi se : Z) : bool :=
  (1 <=? mo) && (mo <=? 12) && (1 <=? d) && (d <=? days_in mo y) && (h <? 24) && (mi <? 60) && (se <? 60).
Definition compact_time (s : string) : option Z :=
  '(y, s) ← take_digits 4 s; '(mo, s) ← take_digits 2 s; '(d, s) ← take_digits 2 s;
  '(h, s) ← take_digits 2 s; '(mi, s) ← take_digits 2 s; '(se, s) ← take_digits 2 s;
  if String.eqb s "" && valid_civil y mo d h mi se then Some (days y mo d * 86400 + h * 3600 + mi * 60 + se) else None.
Definition take_hour (s : string) : option (Z * string) :=
  match take_digits 2 s with Some r => Some r | None => take_digits 1 s end.
Fixpoint skip_digits (s : string) : string :=
  match s with String c rest => if is_digit (byteZ c) then skip_digits rest else s | EmptyString => "" end.
Definition skip_fraction (s : string) : string :=
  match s with
  | String c (String d rest as digits) =>
      if (Ascii.eqb c "." || Ascii.eqb c ",") && is_digit (byteZ d) then skip_digits digits else s
  | _ => s
  end.
Definition zone_offset (s : string) : option Z :=
  if String.eqb s "Z" then Some 0 else
  match s with
  | String sign rest =>
      '(hr, rest) ← take_digits 2 rest; rest ← take_lit ":" rest; '(mm, rest) ← take_digits 2 rest;
      if String.eqb rest "" && (hr <=? 24) && (mm <=? 60) then
        if Ascii.eqb sign "+" then Some ((hr * 60 + mm) * 60) else if Ascii.eqb sign "-" then Some (- ((hr * 60 + mm) * 60)) else None
      else None
  | EmptyString => None
  end.
Definition rfc3339_time (s : string) : option Z :=
  '(y, s) ← take_digits 4 s; s ← take_lit "-" s; '(mo, s) ← take_digits 2 s; s ← take_lit "-" s; '(d, s) ← take_digits 2 s;
  s ← take_lit "T" s; '(h, s) ← take_hour s; s ← take_lit ":" s; '(mi, s) ← take_digits 2 s; s ← take_lit ":" s;
  '(se, s) ← take_digits 2 s; offset ← zone_offset (skip_fraction s);
  if valid_civil y mo d h mi se then Some (days y mo d * 86400 + h * 3600 + mi * 60 + se - offset) else None.
Definition compact_format (seconds : Z) : string :=
  let '(y, m, d) := civil (seconds / 86400) in
  let rem := seconds mod 86400 in
  append_int y 4 +:+ padded 2 m +:+ padded 2 d +:+ padded 2 (rem / 3600) +:+ padded 2 (rem / 60 mod 60) +:+ padded 2 (rem mod 60).
Example time_examples :
  (compact_time "20240229123456", compact_time "20230229123456", rfc3339_time "2024-02-29T12:34:56Z",
   rfc3339_time "2024-02-29T2:34:56.75+02:00", compact_format <$> rfc3339_time "2024-02-29T00:34:56+02:00") =
  (Some 1709210096, None, Some 1709210096, Some 1709166896, Some "20240228223456").
Proof. vm_compute. reflexivity. Qed.

Definition goPseudoVersionPattern : regexp :=
  Cat (Lit "v") (Cat (Plus dec_digit) (Cat (Lit ".") (Cat (Plus dec_digit) (Cat (Lit ".") (Cat (Plus dec_digit) (Cat (Lit "-")
    (Cat (Maybe (Cat (Plus (Class (λ z, is_digit z || is_alpha z || one_of ".-" z))) (Lit ".")))
      (Cat (Repeat 14 dec_digit) (Cat (Lit "-") (Repeat 12 lower_hex)))))))))).
(** The groups have fixed widths and end the text: the last 12 bytes, and 14 before the dash. *)
Definition pseudo_groups (version : string) : option (string * string) :=
  if matches goPseudoVersionPattern version then
    let n := String.length version in Some (stake 14 (sdrop (n - 27) version), sdrop (n - 12) version)
  else None.
Definition validLocalMainVersion (version sourceRevision vcsTime : string) : bool :=
  if String.eqb version "" || String.eqb version "(devel)" then true
  else
    match pseudo_groups version with
    | None => false
    | Some (timestamp, revision) =>
        if negb (slen sourceRevision =? 40) || negb (String.eqb revision (stake 12 sourceRevision)) then false
        else
          match compact_time timestamp with
          | None => false
          | Some _ =>
              if String.eqb vcsTime "" then true
              else match rfc3339_time vcsTime with
                   | Some seconds => String.eqb (compact_format seconds) timestamp
                   | None => false
                   end
          end
    end.
Definition targetKey (target : Target) : string := tg_OS target +:+ "/" +:+ tg_Architecture target.
Definition validateGoBuildInfo (info : BuildMetadata) (target : Target) (sourceRevision toolchain : string) : res string unit :=
  let settings := bm_Settings info in
  let value key := match setting settings key with Some v => v | None => "" end in
  let want '(key, wanted) := fails (negb (String.eqb (value key) wanted)) (targetKey target +:+ " build metadata " +:+ key) in
  let present key := bool_decide (is_Some (setting settings key)) in
  let vcs := ["vcs"; "vcs.revision"; "vcs.time"; "vcs.modified"] in
  let baseline := if String.eqb (tg_Architecture target) "arm64" then ("GOARM64", "v8.0") else ("GOAMD64", "v1") in
  all_ok ([
    fails (negb (String.eqb (bm_GoVersion info) toolchain)) (targetKey target +:+ " Go version does not match");
    fails (negb (String.eqb (bm_Path info) (runtimeModule +:+ "/cmd/sshserver")) ||
           negb (String.eqb (bm_MainPath info) runtimeModule) || bm_MainReplace info)
      (targetKey target +:+ " main package metadata is not the exact local sshserver runtime module");
    fails (negb (no_duplicates (map fst settings))) (targetKey target +:+ " build metadata repeats a setting")] ++
    map want [("-buildmode", "exe"); ("-compiler", "gc"); ("-trimpath", "true"); ("CGO_ENABLED", "0");
              ("GOOS", tg_OS target); ("GOARCH", tg_Architecture target)] ++ [
    fails (existsb present vcs &&
           (negb (forallb present vcs) || negb (String.eqb (value "vcs") "git") ||
            negb (String.eqb (value "vcs.revision") sourceRevision) || String.eqb (value "vcs.time") "" ||
            negb (String.eqb (value "vcs.modified") "false")))
      (targetKey target +:+ " build metadata has incomplete, mismatched, or dirty VCS provenance");
    fails (negb (validLocalMainVersion (bm_MainVersion info) sourceRevision (value "vcs.time")))
      (targetKey target +:+ " main package metadata is not the exact local sshserver runtime module");
    want baseline] ++
    map (λ forbidden, fails (present forbidden) (targetKey target +:+ " build metadata contains forbidden setting " +:+ forbidden))
      ["-overlay"; "-tags"; "GOEXPERIMENT"; "GOFLAGS"]).
Definition verifyGoBuildMetadata `{BuildInfoReader} (payload : string) (target : Target)
    (release sourceRevision toolchain digest : string) : res string unit :=
  match Encode {| Release := release; SourceRevision := sourceRevision; BuildToolchain := toolchain; BuildDigest := digest;
                  ProtocolVersion := "1"; StorageSchemaVersion := "1" |} with
  | Err e => Err ("construct frozen build attestation for " +:+ targetKey target +:+ ": " +:+ e)
  | Ok attestation =>
      if negb (Contains payload attestation)
        then Err (targetKey target +:+ " release artifact does not contain its exact frozen build attestation")
      else
        match read_build_info payload with
        | None => Err ("read Go build metadata for " +:+ targetKey target)
        | Some info => validateGoBuildInfo info target sourceRevision toolchain
        end
  end.

(** ** Trees of the file system *)
Definition below (directory path : string) : bool := String.eqb path directory || has_prefix (child directory "") path.
Definition moved (from to path : string) : string :=
  if String.eqb path from then to
  else match strip_prefix (child from "") path with Some rest => child to rest | None => path end.
Definition move_tree (from to : string) (fs : files) : files :=
  list_to_map (map (λ '(path, n), (moved from to path, n)) (map_to_list fs)).
Definition remove_tree (path : string) (fs : files) : files := filter (λ kv, below path kv.1 = false) fs.
(** [os.RemoveAll]; one that fails has removed some of the entries. *)
Definition RemoveAll (path : string) : FsM unit :=
  modify (λ w, Ok (remove_tree path (w_files w)))
    (λ n fs, foldr delete fs (take n (map (child path) (directory_names fs path)))).
(** [os.MkdirTemp]: a pattern with a separator is refused. *)
Definition MkdirTemp (directory pattern : string) : FsM string := λ w,
  if contains_byte "/" pattern then (w, Err (Failed "pattern contains path separator"))
  else
    let '(w, fault) := next_fault w in
    match fault with
    | Some _ => (w, Err (Failed "input/output error"))
    | None =>
        match free_name temporary_attempts (w_files w) directory pattern (w_names w) with
        | None => (w, Err Exist)
        | Some (path, rest) =>
            if is_directory (w_files w) directory then
              (mkWorld (<[path := Directory (Z.ldiff 448 (w_umask w)) (w_euid w)]> (w_files w)) (w_euid w) (w_umask w) (w_rand w) rest
                 (w_faults w) (w_files w :: w_trace w), Ok path)
            else (w, Err NotExist)
        end
    end.
(** [renameat2(2)] with RENAME_NOREPLACE, or [renamex_np] with RENAME_EXCL. *)
Definition publishDirectoryNoReplace (staged destination : string) : FsM unit :=
  modify (λ w, match w_files w !! staged, w_files w !! destination with
               | None, _ => Err NotExist
               | Some _, Some _ => Err Exist
               | Some _, None => if is_directory (w_files w) (Dir destination)
                                 then Ok (move_tree staged destination (w_files w)) else Err NotExist
               end) intact.

(** ** Files of a bundle *)
Definition maxBundleArtifactBytes : Z := 256 * 1024 * 1024.
Record bundleOutput := mkOutput { bo_name : string; bo_payload : string; bo_mode : Z }.
Definition validateBundleDirectory (path : string) : FsM unit :=
  n ← open_directory_nofollow path;
  _ ← fstat;
  euid ← ask w_euid;
  check (validateDirectory euid n true)
    (Failed "directory must be owner-controlled, non-writable by group or others, and not a symbolic link").
(** The metadata of an input or a published file, and [sameBundleFile] of two stats of
    one descriptor. *)
Definition input_ok (euid limit : Z) (n : node) : bool :=
  match n with
  | Regular mode owner nlink content =>
      (owner =? euid) && (nlink =? 1) && (Z.land mode 18 =? 0) && (0 <? slen content) && (slen content <=? limit)
  | _ => false
  end.
Definition sameBundleFile (first second : node) : bool :=
  match first, second with
  | Regular m o l c, Regular m' o' l' c' => (slen c =? slen c') && (m =? m') && (o =? o') && (l =? l')
  | _, _ => false
  end.
Definition readBundleInput (path : string) (limit : Z) : FsM string :=
  before ← open_nofollow path false;
  _ ← fstat;
  euid ← ask w_euid;
  _ ← refuse_unless (input_ok euid limit before)
        "release input must be a bounded, single-link, non-writable regular file owned by the current user";
  _ ← sync_file;  (* ReadAll *)
  let payload := limited (limit + 1) (content_of before) in
  after ← statFile path;
  _ ← refuse_unless ((slen payload =? size_of before) && sameBundleFile before after && input_ok euid limit after)
        "release input changed while it was read";
  mret payload.
Definition output_ok (output : bundleOutput) : bool :=
  negb (String.eqb (bo_name output) "") && String.eqb (Base (bo_name output)) (bo_name output) &&
  ((bo_mode output =? 256) || (bo_mode output =? 320)) && negb (String.eqb (bo_payload output) "").
Definition writeNewBundleFile (directory : string) (output : bundleOutput) : FsM unit :=
  _ ← refuse_unless (output_ok output) "release bundle output is invalid";
  let path := Join [directory; bo_name output] in
  _ ← in_context ("create immutable release output " +:+ bo_name output) (create_exclusive path (bo_mode output));
  _ ← Chmod path (bo_mode output);
  _ ← write_to path (bo_payload output);
  _ ← sync_file;
  sync_file.  (* Close *)
Definition exact_metadata (euid : Z) (output : bundleOutput) (n : node) : bool :=
  match n with
  | Regular mode owner nlink content =>
      (owner =? euid) && (nlink =? 1) && (permissions mode =? bo_mode output) && (slen content =? slen (bo_payload output))
  | _ => false
  end.
Definition readExactBundleOutput (path : string) (output : bundleOutput) : FsM string :=
  before ← open_nofollow path false;
  _ ← fstat;
  euid ← ask w_euid;
  _ ← refuse_unless (exact_metadata euid output before) "published bundle entry metadata is unsafe or different";
  _ ← sync_file;  (* ReadAll *)
  let payload := limited (slen (bo_payload output) + 1) (content_of before) in
  after ← statFile path;
  _ ← refuse_unless ((slen payload =? slen (bo_payload output)) && sameBundleFile before after)
        "published bundle entry changed while it was read";
  mret payload.
Definition compare_entry (published : string) (outputs : list bundleOutput) (name : string) : FsM unit :=
  match List.find (λ o, String.eqb (bo_name o) name) (rev outputs) with
  | None => raise (Failed ("unexpected published bundle entry " +:+ name))
  | Some output =>
      let path := Join [published; name] in
      directory ← ask (λ w, is_directory (w_files w) path);
      _ ← refuse_unless (negb directory) ("unexpected published bundle entry " +:+ name);
      payload ← readExactBundleOutput path output;
      refuse_unless (String.eqb payload (bo_payload output)) ("published bundle entry " +:+ name +:+ " has different bytes")
  end.
Definition directory_mode (n : node) : Z := match n with Directory mode _ => permissions mode | _ => -1 end.
Definition compareBundleDirectory (published : string) (outputs : list bundleOutput) : FsM unit :=
  _ ← validateBundleDirectory published;
  info ← attempt (Lstat published);
  _ ← refuse_unless (match info with Ok n => directory_mode n =? 448 | Err _ => false end)
        "published bundle directory is not exactly mode 0700";
  names ← Readdirnames published;
  _ ← refuse_unless (length names =? length outputs)%nat "published bundle file set is incomplete or contains extras";
  each (compare_entry published outputs) names.

(** ** Generating a bundle *)
Record Options := mkOptions {
  op_ArtifactDir : string; op_DistDir : string; op_LicensePath : string; op_NoticePath : string;
  op_Release : string; op_SourceRevision : string; op_BuildToolchain : string; op_DownloadOrigin : string }.
Record BundleResult := mkResult {
  br_ManifestPath : string; br_ManifestSHA256 : string; br_InstallerPath : string; br_InstallerURL : string;
  br_InstallerBytes : Z; br_InstallerSHA256 : string; br_InstallCommandPath : string; br_InstallCommandBytes : Z;
  br_InstallCommandSHA256 : string; br_PreviewPaths : list (string * string); br_PreviewSHA256 : list (string * string);
  br_UploadFiles : list (string * UploadFiles) }.
Definition releaseURL (options : Options) (name : string) : string :=
  op_DownloadOrigin options +:+ "/releases/" +:+ op_Release options +:+ "/" +:+ name.
Definition target_name (target : Target) : string := "sshserver-" +:+ tg_OS target +:+ "-" +:+ tg_Architecture target.
Definition syncBundleDirectory (path : string) : FsM unit :=
  _ ← open_directory path;
  sync_file.

Section generate.
Context `{UnicodeCase} (verifyMetadata : string → Target → string → string → string → string → res string unit) (options : Options).

(** One target: its payload and its entry of the manifest. *)
Definition bundle_artifact (target : Target) : FsM (string * ReleaseArtifact) :=
  let name := target_name target in
  digest ← from_text (DeriveBuildIdentity (op_Release options) (op_SourceRevision options) (op_BuildToolchain options) target);
  payload ← in_context ("read " +:+ targetKey target +:+ " release artifact")
              (readBundleInput (Join [op_ArtifactDir options; name]) maxBundleArtifactBytes);
  _ ← refuse_unless (Contains payload digest)
        (targetKey target +:+ " release artifact does not contain its deterministic build identity");
  _ ← from_text (verifyMetadata payload target (op_Release options) (op_SourceRevision options) (op_BuildToolchain options) digest);
  mret (payload, Mk_ReleaseArtifact (tg_OS target) (tg_Architecture target) digest (releaseURL options name) (slen payload)
                   (SHA256Hex payload)).
Definition release_file (name payload : string) : ReleaseFile :=
  Mk_ReleaseFile name (releaseURL options name) (slen payload) (SHA256Hex payload).
Definition bundle_manifest (license notice : string) (artifacts : list ReleaseArtifact) : ReleaseManifest :=
  Mk_ReleaseManifest ManifestVersion (op_Release options) (op_SourceRevision options) (op_BuildToolchain options) "1" "1"
    (op_DownloadOrigin options) artifacts [release_file "LICENSE" license; release_file "NOTICE" notice].
(** One target again: its preview command. *)
Definition preview_name (target : Target) : string := "preview-" +:+ tg_OS target +:+ "-" +:+ tg_Architecture target +:+ ".txt".
Definition bundle_preview (manifest : ReleaseManifest) (manifestBytes : Z) (manifestSHA256 : string) (target : Target) :
    FsM (string * UploadFiles) :=
  artifact ← from_text (Artifact manifest target);
  preview ← from_text (PreviewLine manifest manifestBytes manifestSHA256 artifact);
  mret (preview, uploadFiles manifest manifestSHA256 artifact).
Definition keyed {A} (values : list A) : list (string * A) := zip (map targetKey supportedTargets) values.
(** Everything that goes into the bundle, in the order it is written. *)
Definition bundle_contents : FsM (BundleResult * list bundleOutput) :=
  license ← in_context "read release LICENSE" (readBundleInput (op_LicensePath options) (4 * 1024 * 1024));
  notice ← in_context "read release NOTICE" (readBundleInput (op_NoticePath options) (4 * 1024 * 1024));
  _ ← refuse_unless (negb (String.eqb license "") && negb (String.eqb notice "")) "release LICENSE and NOTICE must not be empty";
  artifacts ← collect bundle_artifact supportedTargets;
  let manifest := bundle_manifest license notice (map snd artifacts) in
  manifestPayload ← from_text (manifest_CanonicalBytes manifest);
  let manifestSHA256 := SHA256Hex manifestPayload in
  installerPayload ← from_text (InstallerScript manifest (slen manifestPayload) manifestSHA256);
  let installerURL := releaseURL options "install.sh" in
  installCommandPayload ← from_text (InstallCommand installerURL installerPayload);
  previews ← collect (bundle_preview manifest (slen manifestPayload) manifestSHA256) supportedTargets;
  let within name := Join [op_DistDir options; name] in
  let result := mkResult (within "release-manifest.json") manifestSHA256 (within "install.sh") installerURL
    (slen installerPayload) (SHA256Hex installerPayload) (within "install-command.txt") (slen installCommandPayload)
    (SHA256Hex installCommandPayload) (keyed (map (λ t, within (preview_name t)) supportedTargets))
    (keyed (map (λ p, SHA256Hex p.1) previews)) (keyed (map snd previews)) in
  mret (result,
    [mkOutput "LICENSE" license 256; mkOutput "NOTICE" notice 256] ++
    zip_with (λ t a, mkOutput (target_name t) a.1 320) supportedTargets artifacts ++
    [mkOutput "release-manifest.json" manifestPayload 256; mkOutput "install.sh" installerPayload 256;
     mkOutput "install-command.txt" installCommandPayload 256] ++
    zip_with (λ t p, mkOutput (preview_name t) p.1 256) supportedTargets previews).
Definition write_bundle (stageDir : string) : FsM (BundleResult * list bundleOutput) :=
  _ ← in_context "protect release bundle staging directory" (Chmod stageDir 448);
  '(result, outputs) ← bundle_contents;
  _ ← each (writeNewBundleFile stageDir) outputs;
  _ ← in_context "sync complete release bundle staging directory" (syncBundleDirectory stageDir);
  mret (result, outputs).
(** Of several bad paths the code reports any. *)
Definition check_options : res string unit :=
  all_ok [
    fails (negb (canonical_directory (op_ArtifactDir options))) "artifact directory must be canonical and absolute";
    fails (negb (canonical_directory (op_DistDir options))) "distribution directory must be canonical and absolute";
    fails (negb (canonical_directory (op_LicensePath options))) "license path must be canonical and absolute";
    fails (negb (canonical_directory (op_NoticePath options))) "notice path must be canonical and absolute";
    fails (negb (Valid (op_Release options))) "release identifier is not an exact immutable version";
    fails (String.eqb (op_ArtifactDir options) (op_DistDir options)) "artifact and immutable distribution directories must be distinct"].
Definition generate : FsM BundleResult :=
  _ ← from_text check_options;
  _ ← in_context "validate release artifact directory" (validateBundleDirectory (op_ArtifactDir options));
  let distributionParent := Dir (op_DistDir options) in
  _ ← in_context "create release distribution parent" (MkdirAll distributionParent 448);
  _ ← in_context "validate release distribution parent" (validateBundleDirectory distributionParent);
  stageDir ← in_context "create release bundle staging directory"
               (MkdirTemp distributionParent ("." +:+ Base (op_DistDir options) +:+ ".stage-"));
  '(result, outputs) ← on_error (write_bundle stageDir) (RemoveAll stageDir);
  published ← attempt (publishDirectoryNoReplace stageDir (op_DistDir options));
  match published with
  | Ok _ =>
      _ ← in_context "sync published release bundle parent" (syncBundleDirectory distributionParent);
      mret result
  | Err e =>
      deferred (
        existing ← attempt (Lstat (op_DistDir options));
        match existing with
        | Err _ => raise (wrap "publish immutable release bundle" e)
        | Ok _ =>
            _ ← in_context "immutable release bundle already exists with different or unsafe contents"
                  (compareBundleDirectory (op_DistDir options) outputs);
            mret result
        end) (RemoveAll stageDir)
  end.
End generate.
Definition Generate `{UnicodeCase} `{BuildInfoReader} (options : Options) : FsM BundleResult := generate verifyGoBuildMetadata options.
