(* ===== verification/Vectors.v ===== *)
(** * Causal order on version vectors

    [vectorDominates] and [vectorsEqual] of [models.go]/[sync.go] against the
    pointwise order on counters (a missing device counts as zero), and what
    [validateVector] guarantees of a vector it accepts. *)

From stdpp Require Import base list strings gmap sets.
From Stdlib Require Import ZArith Lia Ascii.
From S2P Require Import Prelude GoStd Uuid Wire Models.
Local Open Scope Z_scope.

(** Counters are unsigned; validated vectors hold only positive ones. *)
Definition nonneg (v : version_vector) : Prop := ∀ d, 0 <= counter_of v d.
Definition positive (v : version_vector) : Prop := map_Forall (λ _ c, 0 < c) v.

Definition vle (l r : version_vector) : Prop := ∀ d, counter_of l d <= counter_of r d.

Lemma positive_nonneg v : positive v → nonneg v.
Proof.
  intros Hp d. unfold counter_of. destruct (v !! d) as [c|] eqn:E; simpl; [|lia].
  apply Hp in E. lia.
Qed.

#[export] Instance vle_preorder : PreOrder vle.
Proof. split; [intros v d; lia|]. intros u v w H1 H2 d. specialize (H1 d); specialize (H2 d). lia. Qed.

Lemma counter_of_entry v d c : (d, c) ∈ map_to_list v → counter_of v d = c.
Proof. intros H%elem_of_map_to_list. unfold counter_of. by rewrite H. Qed.

Lemma positive_ext l r : positive l → positive r → (∀ d, counter_of l d = counter_of r d) → l = r.
Proof.
  intros Hl Hr H. apply map_eq. intros d. specialize (H d). unfold counter_of in H.
  destruct (l !! d) as [a|] eqn:Ea, (r !! d) as [b|] eqn:Eb; simpl in H; try congruence.
  - apply Hl in Ea. lia.
  - apply Hr in Eb. lia.
Qed.
Lemma vle_antisym l r : positive l → positive r → vle l r → vle r l → l = r.
Proof.
  intros Hl Hr H1 H2. apply positive_ext; [done|done|]. intros d.
  specialize (H1 d); specialize (H2 d). lia.
Qed.

Lemma vectorDominates_spec left right : nonneg left → nonneg right →
  vectorDominates left right = true ↔
  vle right left ∧ ∃ d, counter_of right d < counter_of left d.
Proof.
  intros Hl Hr. unfold vectorDominates.
  destruct (forallb _ (map_to_list right)) eqn:Hf.
  - assert (Hle : vle right left).
    { intros d. unfold counter_of at 1. destruct (right !! d) as [c|] eqn:E; simpl; [|apply Hl].
      rewrite forallb_forall in Hf. specialize (Hf (d, c)).
      rewrite <- list_elem_of_In, elem_of_map_to_list in Hf. specialize (Hf E).
      simpl in Hf. unbool. lia. }
    rewrite orb_true_iff, !existsb_exists. split.
    + intros [([d c] & Hin & Hc)|([d c] & Hin & Hc)]; (split; [done|]); exists d; simpl in Hc.
      * apply list_elem_of_In, counter_of_entry in Hin. unbool. lia.
      * apply list_elem_of_In, counter_of_entry in Hin. unfold counter_of at 1.
        destruct (right !! d) eqn:E; [done|]. simpl. unbool. lia.
    + intros [_ [d Hd]]. destruct (right !! d) as [c|] eqn:E.
      * left. exists (d, c). rewrite <- list_elem_of_In, elem_of_map_to_list. split; [done|].
        simpl. apply Z.ltb_lt. unfold counter_of at 1 in Hd. by rewrite E in Hd.
      * right. unfold counter_of in Hd. rewrite E in Hd. simpl in Hd.
        destruct (left !! d) as [c|] eqn:E2; [|simpl in Hd; lia]. exists (d, c).
        rewrite <- list_elem_of_In, elem_of_map_to_list. split; [done|].
        simpl in *. rewrite E. by apply Z.ltb_lt.
  - split; [done|]. intros [Hle _]. exfalso. apply not_true_iff_false in Hf. apply Hf.
    apply forallb_forall. intros [d c] Hin. simpl. apply negb_true_iff, Z.ltb_ge.
    apply list_elem_of_In, counter_of_entry in Hin. specialize (Hle d). lia.
Qed.

Lemma vectorsEqual_eq l r : positive l → positive r → vectorsEqual l r = true ↔ l = r.
Proof.
  intros Hl Hr. unfold vectorsEqual. rewrite andb_true_iff, Nat.eqb_eq. split.
  - intros [Hs Hf]. apply map_subseteq_size_eq; [|lia].
    apply map_subseteq_spec. intros k c E.
    rewrite forallb_forall in Hf. specialize (Hf (k, c)).
    rewrite <- list_elem_of_In, elem_of_map_to_list in Hf. specialize (Hf E). simpl in Hf. unbool.
    unfold counter_of in Hf. destruct (r !! k) eqn:E2; simpl in Hf; [by subst|].
    apply Hl in E. lia.
  - intros ->. split; [done|]. apply forallb_forall. intros [d c] Hin.
    apply list_elem_of_In, counter_of_entry in Hin. simpl. by apply Z.eqb_eq.
Qed.

(** Strictness, for positive vectors: dominating is being above and different. *)
Lemma vectorDominates_positive left right : positive left → positive right →
  vectorDominates left right = true ↔ vle right left ∧ left ≠ right.
Proof.
  intros Hl Hr. rewrite vectorDominates_spec by by apply positive_nonneg. split.
  - intros [Hle [d Hd]]. split; [done|]. intros ->. lia.
  - intros [Hle Hne]. split; [done|].
    destruct (decide (∃ d, d ∈ dom left ∪ dom right ∧ counter_of right d < counter_of left d))
      as [(d & _ & Hd)|Hno]; [eauto|exfalso].
    apply Hne, vle_antisym; [done|done| |done]. intros d.
    destruct (decide (d ∈ dom left ∪ dom right)) as [Hin|Hout].
    + destruct (Z.le_gt_cases (counter_of left d) (counter_of right d)); [done|]. exfalso.
      apply Hno. exists d. split; [done|lia].
    + rewrite not_elem_of_union, !not_elem_of_dom in Hout. destruct Hout as [E1 E2].
      unfold counter_of. by rewrite E1, E2.
Qed.

Lemma vectorDominates_irrefl v : nonneg v → vectorDominates v v = false.
Proof.
  intros Hv. apply not_true_iff_false. rewrite vectorDominates_spec by done.
  intros [_ [d Hd]]. lia.
Qed.
Lemma vectorDominates_trans u v w : nonneg u → nonneg v → nonneg w →
  vectorDominates u v = true → vectorDominates v w = true → vectorDominates u w = true.
Proof.
  intros Hu Hv Hw. rewrite !vectorDominates_spec by done. intros [H1 [d Hd]] [H2 _].
  split; [by etransitivity|]. exists d. specialize (H2 d). lia.
Qed.
Lemma vectorDominates_asym u v : nonneg u → nonneg v →
  vectorDominates u v = true → vectorDominates v u = false.
Proof.
  intros Hu Hv H. apply not_true_iff_false. intros H'.
  assert (H2 := vectorDominates_trans u v u Hu Hv Hu H H').
  by rewrite vectorDominates_irrefl in H2.
Qed.

(** ** Accepted vectors *)

Lemma parseUint64_Some s n : parseUint64 s = Some n → s = encodeUint64Text n ∧ u64 n.
Proof.
  unfold parseUint64. destruct (ParseUint s) as [m|] eqn:E; [|done].
  destruct (String.eqb_spec (FormatUint m) s) as [Hs|]; [|done]. intros [= <-].
  split; [done|]. by eapply ParseUint_range.
Qed.
Lemma parseUint64_encode n : u64 n → parseUint64 (encodeUint64Text n) = Some n.
Proof.
  intros H. unfold parseUint64, encodeUint64Text.
  by rewrite ParseUint_FormatUint, String.eqb_refl.
Qed.

Lemma validateVector_loop_positive p vs vec out :
  validateVector_loop p vs vec = Some out → positive vs → positive out.
Proof.
  revert p vs. induction vec as [|e vec IH]; intros p vs H Hp; [by injection H as <-|]. simpl in H.
  destruct (Parse (ve_DeviceID e)); [|done].
  destruct (match p with None => true | Some _ => _ end); [|done].
  destruct (parseUint64 (ve_Counter e)) as [c|] eqn:Ec; [|done].
  destruct (Z.eqb_spec c 0); [done|]. eapply IH; [exact H|].
  apply map_Forall_insert_2; [|done]. apply parseUint64_Some in Ec as [_ Hc].
  unfold u64 in Hc. lia.
Qed.
Lemma validateVector_positive vec v : validateVector vec = Some v → positive v.
Proof.
  unfold validateVector. destruct (_ || _); [done|]. intros H.
  eapply validateVector_loop_positive; [exact H|]. apply map_Forall_empty.
Qed.

(** The accepted entries are strictly ordered by identifier bytes, so each
    device occurs once and the map has exactly the listed counters. *)
Lemma validateVector_loop_lookup p vs vec out :
  validateVector_loop p vs vec = Some out →
  (∀ d i, d ∈ dom vs → Parse d = Some i → ∃ q, p = Some q ∧ (q = i ∨ sltb (of_bytes i) (of_bytes q) = true)) →
  (∀ d, d ∈ dom vs → is_Some (Parse d)) →
  NoDup (map ve_DeviceID vec) ∧ Forall (λ e, ve_DeviceID e ∉ dom vs) vec ∧
  ∀ d, out !! d = match List.find (λ e, String.eqb (ve_DeviceID e) d) vec with
                  | Some e => parseUint64 (ve_Counter e) | None => vs !! d end.
Proof.
  revert p vs. induction vec as [|e vec IH]; intros p vs H Hlt Hpar.
  { injection H as <-. split; [constructor|]. split; [constructor|done]. }
  simpl in H. destruct (Parse (ve_DeviceID e)) as [i|] eqn:Ei; [|done].
  destruct (match p with None => true | Some _ => _ end) eqn:Eo; [|done].
  destruct (parseUint64 (ve_Counter e)) as [c|] eqn:Ec; [|done].
  destruct (Z.eqb_spec c 0); [done|].
  assert (Hfresh : ve_DeviceID e ∉ dom vs).
  { intros Hin. destruct (Hlt _ _ Hin Ei) as (q & -> & [->|Hq]).
    - by rewrite sltb_irrefl in Eo.
    - pose proof (sltb_trans _ _ _ Eo Hq) as Hc. by rewrite sltb_irrefl in Hc. }
  apply IH in H as (Hnd & Hall & Hlk).
  - split; [|split].
    + simpl. constructor; [|done]. intros Hin. apply list_elem_of_In, in_map_iff in Hin as (e' & He' & Hin).
      rewrite Forall_forall in Hall. apply list_elem_of_In in Hin. apply Hall in Hin.
      rewrite dom_insert, He' in Hin. set_solver.
    + constructor; [done|]. eapply Forall_impl; [exact Hall|]. simpl. intros x. rewrite dom_insert. set_solver.
    + intros d. rewrite Hlk. simpl. destruct (String.eqb_spec (ve_DeviceID e) d) as [<-|Hne].
      * destruct (List.find _ vec) as [e'|] eqn:Ef.
        -- apply List.find_some in Ef as [Hin Heq]. apply String.eqb_eq in Heq.
           rewrite Forall_forall in Hall. apply list_elem_of_In, Hall in Hin.
           rewrite dom_insert, Heq in Hin. set_solver.
        -- by rewrite lookup_insert_eq.
      * destruct (List.find _ vec); [done|]. by rewrite lookup_insert_ne.
  - intros d j. rewrite dom_insert. intros [->%elem_of_singleton|Hin]%elem_of_union Hj.
    + exists i. split; [done|]. left. congruence.
    + destruct (Hlt _ _ Hin Hj) as (q & -> & [->|Hq]); exists i; (split; [done|]); right; [done|].
      by eapply sltb_trans.
  - intros d. rewrite dom_insert. intros [->%elem_of_singleton|Hin]%elem_of_union; [by rewrite Ei|auto].
Qed.

Lemma validateVector_spec vec v : validateVector vec = Some v →
  positive v ∧ NoDup (map ve_DeviceID vec) ∧ (0 < length vec <= maxVectorEntries)%nat ∧
  ∀ d, v !! d = match List.find (λ e, String.eqb (ve_DeviceID e) d) vec with
                | Some e => parseUint64 (ve_Counter e) | None => None end.
Proof.
  intros H. split; [by eapply validateVector_positive|].
  unfold validateVector in H.
  destruct ((length vec =? 0)%nat || (maxVectorEntries <? length vec)%nat) eqn:E; [done|].
  apply orb_false_iff in E as [E1%Nat.eqb_neq E2%Nat.ltb_ge].
  apply validateVector_loop_lookup in H as (Hnd & _ & Hlk).
  - split; [done|]. split; [lia|]. intros d. rewrite Hlk. by destruct (List.find _ vec).
  - intros d i. rewrite dom_empty. set_solver.
  - intros d. rewrite dom_empty. set_solver.
Qed.

(** Causality is a strict partial order on the vectors the server accepts:
    for any three vectors that pass [validateVector], [vectorDominates] is
    irreflexive and transitive, holds exactly when the left vector is pointwise
    above the right one and different from it, and [vectorsEqual] is equality
    of the maps. *)
Theorem dominance_strict_order e1 e2 e3 u v w
    (Hu : validateVector e1 = Some u) (Hv : validateVector e2 = Some v)
    (Hw : validateVector e3 = Some w) :
  vectorDominates u u = false ∧
  (vectorDominates u v = true → vectorDominates v w = true → vectorDominates u w = true) ∧
  (vectorDominates u v = true ↔ vle v u ∧ u ≠ v) ∧
  (vectorsEqual u v = true ↔ u = v).
Proof.
  apply validateVector_positive in Hu, Hv, Hw.
  split; [by apply vectorDominates_irrefl, positive_nonneg|].
  split; [apply vectorDominates_trans; by apply positive_nonneg|].
  split; [by apply vectorDominates_positive|by apply vectorsEqual_eq].
Qed.

Definition sample_device_a : string := "00000000-0000-4000-8000-00000000000a".
Definition sample_device_b : string := "00000000-0000-4000-8000-00000000000b".
Definition sample_vector (a b : Z) : list vectorEntry :=
  [Mk_vectorEntry sample_device_a (FormatUint a); Mk_vectorEntry sample_device_b (FormatUint b)].
Definition sample_map (a b : Z) : version_vector := <[sample_device_b:=b]> {[sample_device_a:=a]}.
Lemma dominance_strict_order_witness :
  vectorDominates (sample_map 2 3) (sample_map 1 1) = true.
Proof.
  assert (H1 : validateVector (sample_vector 2 3) = Some (sample_map 2 3)) by (vm_compute; reflexivity).
  assert (H2 : validateVector (sample_vector 2 2) = Some (sample_map 2 2)) by (vm_compute; reflexivity).
  assert (H3 : validateVector (sample_vector 1 1) = Some (sample_map 1 1)) by (vm_compute; reflexivity).
  destruct (dominance_strict_order _ _ _ _ _ _ H1 H2 H3) as (_ & Htrans & _).
  apply Htrans; vm_compute; reflexivity.
Defined.
