(* ===== verification/Sql.v ===== *)
(** * The database layer the store talks to

    What [src/runtime/internal/store] relies on of [database/sql] and SQLite:
    storage classes and their order, [length] and [octet_length], rows under
    STRICT/NOT NULL/CHECK/UNIQUE constraints, statement failure, and
    transactions with rollback.  The store opens one connection
    ([SetMaxOpenConns(1)] in [store.go]), so transactions are serial.

    A TEXT or BLOB column holds a [cell], which can also hold the wrong storage
    class: the queries of the store test [typeof] because a damaged file can
    contain one.  INTEGER columns are [Z] or [option Z].

    Statements run in the monad [M], a state monad whose errors are values.  A
    statement may fail for reasons outside the model (I/O, cancellation): the
    field [st_faults] is an oracle that says which statements fail; [[]] is the
    fault-free run.  [st_rand] is the stream [crypto/rand] returns. *)

From stdpp Require Import base list strings gmap.
From Stdlib Require Import ZArith Lia Ascii.
From S2P Require Import Prelude GoStd Json Models.
Local Open Scope Z_scope.

(** ** Cells *)
Inductive cell := CNull | CText (s : string) | CBlob (s : string).
#[export] Instance cell_eq_dec : EqDecision cell.
Proof. solve_decision. Defined.

Definition is_text (c : cell) : bool := match c with CText _ => true | _ => false end.
Definition is_blob (c : cell) : bool := match c with CBlob _ => true | _ => false end.
Definition is_null (c : cell) : bool := match c with CNull => true | _ => false end.

(** [a = b] in a WHERE clause: NULL equals nothing. *)
Definition cell_eqb (a b : cell) : bool :=
  match a, b with
  | CText x, CText y | CBlob x, CBlob y => String.eqb x y
  | _, _ => false
  end.
(** [a < b] in a WHERE clause: TEXT sorts before BLOB, bytes by [memcmp]. *)
Definition cell_ltb (a b : cell) : bool :=
  match a, b with
  | CText x, CText y | CBlob x, CBlob y => sltb x y
  | CText _, CBlob _ => true
  | _, _ => false
  end.
Definition cell_leb (a b : cell) : bool :=
  match a, b with
  | CText x, CText y | CBlob x, CBlob y => sleb x y
  | CText _, CBlob _ => true
  | _, _ => false
  end.
(** The order of ORDER BY, where NULL comes first. *)
Definition cell_oleb (a b : cell) : bool :=
  match a with CNull => true | _ => cell_leb a b end.

(** [octet_length], and [length]: bytes of a BLOB, characters of a TEXT up to
    its first NUL (a byte from 0xC0 up absorbs the continuation bytes after it). *)
Definition octet_length (c : cell) : option Z :=
  match c with CNull => None | CText s | CBlob s => Some (slen s) end.
Fixpoint text_chars (multi : bool) (s : string) : Z :=
  match s with
  | EmptyString => 0
  | String c rest =>
      let z := byteZ c in
      if z =? 0 then 0
      else if multi && is_cont z then text_chars true rest
      else 1 + text_chars (192 <=? z) rest
  end.
Definition sql_length (c : cell) : option Z :=
  match c with
  | CNull => None
  | CText s => Some (text_chars false s)
  | CBlob s => Some (slen s)
  end.
(** [CHECK (length(c) = n)]: NULL passes a CHECK. *)
Definition length_is (c : cell) (n : Z) : bool :=
  match sql_length c with Some m => m =? n | None => true end.

(** ** Scanning a column into a Go variable

    The store reads a column as the pair [octet_length(c)], [CASE WHEN typeof(c)
    = .. AND octet_length(c) .. THEN c END] and tests it with the functions of
    [bounds.go]. *)

(** boundedRequiredBytes, boundedOptionalBytes, boundedRequiredText and
    boundedOptionalText: a nil slice or an invalid [sql.NullString] is [None]. *)
Definition boundedRequiredBytes (length : Z) (value : option string) (maximum : Z) : bool :=
  (0 <? length) && (length <=? maximum) && (slen (default "" value) =? length).
Definition boundedOptionalBytes (length : option Z) (value : option string) (maximum : Z) : bool :=
  match length with
  | None => match value with None => true | Some _ => false end
  | Some n => boundedRequiredBytes n value maximum
  end.
Definition boundedRequiredText (length : Z) (value : option string) (maximum : Z) : bool :=
  match value with
  | None => false
  | Some s => (0 <? length) && (length <=? maximum) && (slen s =? length)
  end.
Definition boundedOptionalText (length : option Z) (value : option string) (maximum : Z) : bool :=
  match length with
  | None => match value with None => true | Some _ => false end
  | Some n => boundedRequiredText n value maximum
  end.

(** [CASE WHEN typeof(c) = 'blob' AND octet_length(c) BETWEEN low AND high
    THEN c END], and the same for text. *)
Definition case_blob (low high : Z) (c : cell) : option string :=
  match c with CBlob s => if (low <=? slen s) && (slen s <=? high) then Some s else None | _ => None end.
Definition case_text (low high : Z) (c : cell) : option string :=
  match c with CText s => if (low <=? slen s) && (slen s <=? high) then Some s else None | _ => None end.

(** A column that has to hold a blob (a text) whose length is in a range: the
    pair above, scanned into a plain [int64] (a NULL length fails the scan) and
    tested. *)
Definition scan_blob (low high : Z) (c : cell) : option string :=
  match octet_length c with
  | None => None
  | Some n =>
      let value := case_blob low high c in
      if boundedRequiredBytes n value high && (low <=? n) then value else None
  end.
Definition scan_text (low high : Z) (c : cell) : option string :=
  match octet_length c with
  | None => None
  | Some n =>
      let value := case_text low high c in
      if boundedRequiredText n value high && (low <=? n) then value else None
  end.
(** A nullable column: [None] is an invalid value, [Some None] is NULL. *)
Definition scan_opt_blob (low high : Z) (c : cell) : option (option string) :=
  match octet_length c with
  | None => Some None
  | Some n =>
      let value := case_blob low high c in
      if boundedOptionalBytes (Some n) value high && (low <=? n) then Some value else None
  end.
Definition scan_opt_text (low high : Z) (c : cell) : option (option string) :=
  match octet_length c with
  | None => Some None
  | Some n =>
      let value := case_text low high c in
      if boundedOptionalText (Some n) value high && (low <=? n) then Some value else None
  end.
(** [length(c)] and [CASE WHEN length(c) BETWEEN 1 AND maximum THEN c END]
    scanned into [[]byte]: either storage class. *)
Definition scan_body (maximum : Z) (c : cell) : option string :=
  match c, sql_length c with
  | CText s, Some n | CBlob s, Some n =>
      if (1 <=? n) && (n <=? maximum) && boundedRequiredBytes n (Some s) maximum then Some s else None
  | _, _ => None
  end.

(** EncodeUint64, DecodeUint64 (store.go). *)
Definition EncodeUint64 (value : Z) : string := of_bytes (be_split 8 value).
Definition DecodeUint64 (value : string) : option Z :=
  if (String.length value =? 8)%nat then Some (be_combine (bytes_list value)) else None.
(** An eight-byte blob column, decoded. *)
Definition scan_u64 (c : cell) : option Z :=
  match scan_blob 8 8 c with Some s => DecodeUint64 s | None => None end.
Definition cell_u64 (z : Z) : cell := CBlob (EncodeUint64 z).
(** A text column that has to hold a UUID. *)
Definition scan_uuid (c : cell) : option string :=
  match scan_text 36 36 c with
  | Some s => if validateUUID s then Some s else None
  | None => None
  end.

Definition scan_opt_uuid (c : cell) : option (option string) :=
  match scan_opt_text 36 36 c with
  | Some (Some s) => if validateUUID s then Some (Some s) else None
  | other => other
  end.

(** ** Tables *)
Section Table.
Context {R : Type} (ck : R → bool) (conflict : R → R → bool).
(** INSERT: constraint checks, then the row is appended. *)
Definition insert_row (r : R) (rows : list R) : option (list R) :=
  if ck r && forallb (λ q, negb (conflict r q)) rows then Some (rows ++ [r]) else None.
(** UPDATE: each selected row in turn, checked against the rest. *)
Fixpoint update_rows (p : R → bool) (f : R → R) (before after : list R) : option (list R) :=
  match after with
  | [] => Some before
  | r :: rest =>
      if p r then
        let r' := f r in
        if ck r' && forallb (λ q, negb (conflict r' q)) (before ++ rest)
        then update_rows p f (before ++ [r']) rest else None
      else update_rows p f (before ++ [r]) rest
  end.
End Table.
Definition delete_rows {R} (p : R → bool) (rows : list R) : list R := List.filter (λ r, negb (p r)) rows.
Definition select {R} (p : R → bool) (rows : list R) : list R := List.filter p rows.
(** [l LEFT JOIN r ON on]: every left row with each match, or with NULLs. *)
Definition matches {B} (on : B → bool) (r : list B) : list (option B) :=
  match select on r with [] => [None] | bs => map Some bs end.
Definition left_join {A B} (on : A → B → bool) (l : list A) (r : list B) : list (A * option B) :=
  flat_map (λ a, map (λ b, (a, b)) (matches (on a) r)) l.
Definition ocell {A} (f : A → cell) (o : option A) : cell := match o with Some a => f a | None => CNull end.
(** QueryRow: the first row, or [sql.ErrNoRows]. *)
Definition query_row {R} (rows : list R) : option R := head rows.
