(* ===== verification/Schema.v ===== *)
(** * The storage schema

    The CREATE TABLE statements of [src/runtime/internal/store/schema.go]: one
    record per table, [ck_<table>] for the column types, NOT NULL and CHECK
    constraints of a row, [conflict_<table>] for PRIMARY KEY and UNIQUE, and the
    foreign keys in [insert_<table>] and [delete_<table>].  All tables are STRICT,
    where a PRIMARY KEY column is NOT NULL.  Columns of table [devices] are
    [d_<column>], and so on.  UNIQUE constraints whose columns are a permutation
    or a superset of another key are implied by it and not repeated. *)

From stdpp Require Import base list strings gmap.
From Stdlib Require Import ZArith Lia Ascii.
From S2P Require Import Prelude GoStd Models Sql.
Local Open Scope Z_scope.

Definition null_or (p : Z → bool) (x : option Z) : bool := match x with Some t => p t | None => true end.
Definition text_in (c : cell) (l : list string) : bool := existsb (λ s, cell_eqb c (CText s)) l.
Definition flag (z : Z) : bool := (z =? 0) || (z =? 1).
(** Column types of STRICT tables. *)
Definition text_column (c : cell) : bool := is_text c.
Definition blob_column (c : cell) : bool := is_blob c.
Definition opt_text_column (c : cell) : bool := is_null c || is_text c.
Definition opt_blob_column (c : cell) : bool := is_null c || is_blob c.
Definition change_kinds : list string :=
  ["record_revision"; "collection_marker"; "envelope_changed"; "device_changed"].

(** [instance_metadata]: identity of the database. *)
Record instance_metadata_row := Mk_instance_metadata {
  im_singleton : Z;
  im_instance_id : cell;
  im_vault_id : cell;
  im_protocol_major : cell;
  im_storage_schema : cell }.
Definition ck_instance_metadata (r : instance_metadata_row) : bool :=
  text_column (im_instance_id r)
  && text_column (im_vault_id r)
  && text_column (im_protocol_major r)
  && text_column (im_storage_schema r)
  && (im_singleton r =? 1)
  && length_is (im_instance_id r) 36
  && length_is (im_vault_id r) 36
  && cell_eqb (im_protocol_major r) (CText "1")
  && cell_eqb (im_storage_schema r) (CText "1")
  && negb (cell_eqb (im_instance_id r) (im_vault_id r)).
Definition conflict_instance_metadata (r q : instance_metadata_row) : bool :=
  (im_singleton r =? im_singleton q).

(** [devices]: the device registry. *)
Record devices_row := Mk_devices {
  d_device_id : cell;
  d_token_hash : cell;
  d_scopes_json : cell;
  d_created_at_ms : Z;
  d_revoked_at_ms : option Z;
  d_last_sync_at_ms : option Z;
  d_last_ack_cursor : cell;
  d_max_author_counter : cell }.
Definition ck_devices (r : devices_row) : bool :=
  text_column (d_device_id r)
  && blob_column (d_token_hash r)
  && text_column (d_scopes_json r)
  && blob_column (d_last_ack_cursor r)
  && blob_column (d_max_author_counter r)
  && length_is (d_device_id r) 36
  && length_is (d_token_hash r) 32
  && length_is (d_last_ack_cursor r) 8
  && length_is (d_max_author_counter r) 8
  && (null_or (λ t, d_created_at_ms r <=? t) (d_revoked_at_ms r))
  && (null_or (λ t, d_created_at_ms r <=? t) (d_last_sync_at_ms r)).
Definition conflict_devices (r q : devices_row) : bool :=
  cell_eqb (d_device_id r) (d_device_id q)
  || cell_eqb (d_token_hash r) (d_token_hash q).

(** [device_origins]: when each device came and went. *)
Record device_origins_row := Mk_device_origins {
  do_device_id : cell;
  do_origin_kind : cell;
  do_created_cursor : cell;
  do_revoked_cursor : cell;
  do_baseline_revoked : Z }.
Definition ck_device_origins (r : device_origins_row) : bool :=
  text_column (do_device_id r)
  && text_column (do_origin_kind r)
  && opt_blob_column (do_created_cursor r)
  && opt_blob_column (do_revoked_cursor r)
  && text_in (do_origin_kind r) ["baseline"; "enrolled"]
  && length_is (do_created_cursor r) 8
  && length_is (do_revoked_cursor r) 8
  && flag (do_baseline_revoked r)
  && Bool.eqb (cell_eqb (do_origin_kind r) (CText "enrolled")) (negb (is_null (do_created_cursor r)))
  && (cell_eqb (do_origin_kind r) (CText "baseline") || (do_baseline_revoked r =? 0))
  && ((do_baseline_revoked r =? 0) || is_null (do_revoked_cursor r))
  && (is_null (do_revoked_cursor r) || is_null (do_created_cursor r) || negb (cell_eqb (do_revoked_cursor r) (do_created_cursor r))).
Definition conflict_device_origins (r q : device_origins_row) : bool :=
  cell_eqb (do_device_id r) (do_device_id q)
  || cell_eqb (do_created_cursor r) (do_created_cursor q)
  || cell_eqb (do_revoked_cursor r) (do_revoked_cursor q).

(** [runtime_state]: counters and generations. *)
Record runtime_state_row := Mk_runtime_state {
  rs_singleton : Z;
  rs_server_cursor : cell;
  rs_cursor_floor : cell;
  rs_envelope_generation : cell;
  rs_instance_secret_generation : cell;
  rs_collection_generation : cell;
  rs_accumulated_uptime_ms : cell;
  rs_active_boot_id : cell;
  rs_collection_scan_after_record_id : cell }.
Definition ck_runtime_state (r : runtime_state_row) : bool :=
  blob_column (rs_server_cursor r)
  && blob_column (rs_cursor_floor r)
  && blob_column (rs_envelope_generation r)
  && blob_column (rs_instance_secret_generation r)
  && blob_column (rs_collection_generation r)
  && blob_column (rs_accumulated_uptime_ms r)
  && opt_blob_column (rs_active_boot_id r)
  && text_column (rs_collection_scan_after_record_id r)
  && (rs_singleton r =? 1)
  && length_is (rs_server_cursor r) 8
  && length_is (rs_cursor_floor r) 8
  && length_is (rs_envelope_generation r) 8
  && length_is (rs_instance_secret_generation r) 8
  && length_is (rs_collection_generation r) 8
  && length_is (rs_accumulated_uptime_ms r) 8
  && length_is (rs_active_boot_id r) 16
  && (cell_eqb (rs_collection_scan_after_record_id r) (CText "") || length_is (rs_collection_scan_after_record_id r) 36).
Definition conflict_runtime_state (r q : runtime_state_row) : bool :=
  (rs_singleton r =? rs_singleton q).

(** [device_sync_state]: highest cursor returned to a device. *)
Record device_sync_state_row := Mk_device_sync_state {
  ds_device_id : cell;
  ds_max_returned_cursor : cell }.
Definition ck_device_sync_state (r : device_sync_state_row) : bool :=
  text_column (ds_device_id r)
  && blob_column (ds_max_returned_cursor r)
  && length_is (ds_max_returned_cursor r) 8.
Definition conflict_device_sync_state (r q : device_sync_state_row) : bool :=
  cell_eqb (ds_device_id r) (ds_device_id q).

(** [enrollment_grants]: hashed enrollment grants. *)
Record enrollment_grants_row := Mk_enrollment_grants {
  eg_grant_hash : cell;
  eg_boot_id : cell;
  eg_expires_at_ms : Z;
  eg_consumed_enrollment_id : cell }.
Definition ck_enrollment_grants (r : enrollment_grants_row) : bool :=
  blob_column (eg_grant_hash r)
  && blob_column (eg_boot_id r)
  && opt_text_column (eg_consumed_enrollment_id r)
  && length_is (eg_grant_hash r) 32
  && length_is (eg_boot_id r) 16.
Definition conflict_enrollment_grants (r q : enrollment_grants_row) : bool :=
  cell_eqb (eg_grant_hash r) (eg_grant_hash q).

(** [enrollments]: completed enrollments. *)
Record enrollments_row := Mk_enrollments {
  en_enrollment_id : cell;
  en_device_id : cell;
  en_created_cursor : cell;
  en_token_hash : cell;
  en_scopes_json : cell;
  en_request_fingerprint : cell;
  en_response_json : cell;
  en_created_status : Z }.
Definition ck_enrollments (r : enrollments_row) : bool :=
  text_column (en_enrollment_id r)
  && text_column (en_device_id r)
  && blob_column (en_created_cursor r)
  && blob_column (en_token_hash r)
  && text_column (en_scopes_json r)
  && blob_column (en_request_fingerprint r)
  && blob_column (en_response_json r)
  && length_is (en_enrollment_id r) 36
  && length_is (en_created_cursor r) 8
  && length_is (en_token_hash r) 32
  && length_is (en_request_fingerprint r) 32
  && (en_created_status r =? 201).
Definition conflict_enrollments (r q : enrollments_row) : bool :=
  cell_eqb (en_enrollment_id r) (en_enrollment_id q)
  || cell_eqb (en_device_id r) (en_device_id q)
  || cell_eqb (en_created_cursor r) (en_created_cursor q).

(** [vault_envelope]: the current key envelope. *)
Record vault_envelope_row := Mk_vault_envelope {
  vn_singleton : Z;
  vn_generation : cell;
  vn_envelope_json : cell }.
Definition ck_vault_envelope (r : vault_envelope_row) : bool :=
  blob_column (vn_generation r)
  && blob_column (vn_envelope_json r)
  && (vn_singleton r =? 1)
  && length_is (vn_generation r) 8.
Definition conflict_vault_envelope (r q : vault_envelope_row) : bool :=
  (vn_singleton r =? vn_singleton q).

(** [revision_objects]: revision bodies by content hash. *)
Record revision_objects_row := Mk_revision_objects {
  ro_content_hash : cell;
  ro_revision_json : cell }.
Definition ck_revision_objects (r : revision_objects_row) : bool :=
  blob_column (ro_content_hash r)
  && blob_column (ro_revision_json r)
  && length_is (ro_content_hash r) 32
  && (match sql_length (ro_revision_json r) with Some n => 0 <? n | None => true end).
Definition conflict_revision_objects (r q : revision_objects_row) : bool :=
  cell_eqb (ro_content_hash r) (ro_content_hash q).

(** [record_revisions]: every accepted revision. *)
Record record_revisions_row := Mk_record_revisions {
  v_revision_id : cell;
  v_record_id : cell;
  v_author_device_id : cell;
  v_author_counter : cell;
  v_vector_json : cell;
  v_collection_witness_authenticator : cell;
  v_tombstone : Z;
  v_content_hash : cell;
  v_received_at_ms : Z;
  v_accepted_uptime_ms : cell;
  v_change_cursor : cell;
  v_collected_generation : cell;
  v_retained : Z;
  v_undominated : Z }.
Definition ck_record_revisions (r : record_revisions_row) : bool :=
  text_column (v_revision_id r)
  && text_column (v_record_id r)
  && text_column (v_author_device_id r)
  && blob_column (v_author_counter r)
  && blob_column (v_vector_json r)
  && opt_blob_column (v_collection_witness_authenticator r)
  && blob_column (v_content_hash r)
  && blob_column (v_accepted_uptime_ms r)
  && blob_column (v_change_cursor r)
  && opt_blob_column (v_collected_generation r)
  && length_is (v_revision_id r) 36
  && length_is (v_record_id r) 36
  && length_is (v_author_device_id r) 36
  && length_is (v_author_counter r) 8
  && flag (v_tombstone r)
  && length_is (v_content_hash r) 32
  && length_is (v_accepted_uptime_ms r) 8
  && length_is (v_change_cursor r) 8
  && length_is (v_collected_generation r) 8
  && flag (v_retained r)
  && flag (v_undominated r)
  && ((v_retained r =? 1) || (v_undominated r =? 0))
  && (Bool.eqb (v_retained r =? 0) (negb (is_null (v_collected_generation r)))).
Definition conflict_record_revisions (r q : record_revisions_row) : bool :=
  cell_eqb (v_revision_id r) (v_revision_id q)
  || cell_eqb (v_change_cursor r) (v_change_cursor q)
  || (cell_eqb (v_author_device_id r) (v_author_device_id q) && cell_eqb (v_author_counter r) (v_author_counter q))
  || (cell_eqb (v_record_id r) (v_record_id q) && cell_eqb (v_revision_id r) (v_revision_id q)).

(** [revision_acceptance_origins]: admission uptime of a revision. *)
Record revision_acceptance_origins_row := Mk_revision_acceptance_origins {
  ao_revision_id : cell;
  ao_accepted_uptime_ms : cell }.
Definition ck_revision_acceptance_origins (r : revision_acceptance_origins_row) : bool :=
  text_column (ao_revision_id r)
  && blob_column (ao_accepted_uptime_ms r)
  && length_is (ao_revision_id r) 36
  && length_is (ao_accepted_uptime_ms r) 8.
Definition conflict_revision_acceptance_origins (r q : revision_acceptance_origins_row) : bool :=
  cell_eqb (ao_revision_id r) (ao_revision_id q).

(** [collection_records]: records to scan for collection. *)
Record collection_records_row := Mk_collection_records {
  cr_record_id : cell;
  cr_barrier_cursor : cell }.
Definition ck_collection_records (r : collection_records_row) : bool :=
  text_column (cr_record_id r)
  && blob_column (cr_barrier_cursor r)
  && length_is (cr_record_id r) 36
  && length_is (cr_barrier_cursor r) 8.
Definition conflict_collection_records (r q : collection_records_row) : bool :=
  cell_eqb (cr_record_id r) (cr_record_id q).

(** [record_heads]: undominated revisions of a record. *)
Record record_heads_row := Mk_record_heads {
  h_record_id : cell;
  h_revision_id : cell }.
Definition ck_record_heads (r : record_heads_row) : bool :=
  text_column (h_record_id r)
  && text_column (h_revision_id r)
  && length_is (h_record_id r) 36
  && length_is (h_revision_id r) 36.
Definition conflict_record_heads (r q : record_heads_row) : bool :=
  (cell_eqb (h_record_id r) (h_record_id q) && cell_eqb (h_revision_id r) (h_revision_id q)).

(** [record_vector_index]: revisions of a record by vector. *)
Record record_vector_index_row := Mk_record_vector_index {
  vi_record_id : cell;
  vi_vector_hash : cell;
  vi_revision_id : cell }.
Definition ck_record_vector_index (r : record_vector_index_row) : bool :=
  text_column (vi_record_id r)
  && blob_column (vi_vector_hash r)
  && text_column (vi_revision_id r)
  && length_is (vi_record_id r) 36
  && length_is (vi_vector_hash r) 32
  && length_is (vi_revision_id r) 36.
Definition conflict_record_vector_index (r q : record_vector_index_row) : bool :=
  (cell_eqb (vi_record_id r) (vi_record_id q) && cell_eqb (vi_vector_hash r) (vi_vector_hash q) && cell_eqb (vi_revision_id r) (vi_revision_id q)).

(** [collection_candidates]: dominated retained revisions by age. *)
Record collection_candidates_row := Mk_collection_candidates {
  cc_record_id : cell;
  cc_accepted_uptime_ms : cell;
  cc_revision_id : cell }.
Definition ck_collection_candidates (r : collection_candidates_row) : bool :=
  text_column (cc_record_id r)
  && blob_column (cc_accepted_uptime_ms r)
  && text_column (cc_revision_id r)
  && length_is (cc_record_id r) 36
  && length_is (cc_accepted_uptime_ms r) 8
  && length_is (cc_revision_id r) 36.
Definition conflict_collection_candidates (r q : collection_candidates_row) : bool :=
  (cell_eqb (cc_record_id r) (cc_record_id q) && cell_eqb (cc_accepted_uptime_ms r) (cc_accepted_uptime_ms q) && cell_eqb (cc_revision_id r) (cc_revision_id q)).

(** [collection_markers]: collection frontier of a record. *)
Record collection_markers_row := Mk_collection_markers {
  mk_record_id : cell;
  mk_witness_revision_id : cell;
  mk_frontier_json : cell;
  mk_collection_witness_authenticator : cell;
  mk_barrier_cursor : cell;
  mk_marker_json : cell;
  mk_change_cursor : cell;
  mk_received_at_ms : Z }.
Definition ck_collection_markers (r : collection_markers_row) : bool :=
  text_column (mk_record_id r)
  && text_column (mk_witness_revision_id r)
  && blob_column (mk_frontier_json r)
  && blob_column (mk_collection_witness_authenticator r)
  && blob_column (mk_barrier_cursor r)
  && blob_column (mk_marker_json r)
  && blob_column (mk_change_cursor r)
  && length_is (mk_record_id r) 36
  && length_is (mk_witness_revision_id r) 36
  && length_is (mk_collection_witness_authenticator r) 32
  && length_is (mk_barrier_cursor r) 8
  && length_is (mk_change_cursor r) 8.
Definition conflict_collection_markers (r q : collection_markers_row) : bool :=
  cell_eqb (mk_record_id r) (mk_record_id q)
  || cell_eqb (mk_change_cursor r) (mk_change_cursor q).

(** [change_origins]: every cursor ever assigned. *)
Record change_origins_row := Mk_change_origins {
  co_cursor : cell;
  co_kind : cell;
  co_envelope_generation : cell }.
Definition ck_change_origins (r : change_origins_row) : bool :=
  blob_column (co_cursor r)
  && text_column (co_kind r)
  && opt_blob_column (co_envelope_generation r)
  && length_is (co_cursor r) 8
  && text_in (co_kind r) change_kinds
  && length_is (co_envelope_generation r) 8
  && Bool.eqb (cell_eqb (co_kind r) (CText "envelope_changed")) (negb (is_null (co_envelope_generation r))).
Definition conflict_change_origins (r q : change_origins_row) : bool :=
  cell_eqb (co_cursor r) (co_cursor q)
  || cell_eqb (co_envelope_generation r) (co_envelope_generation q)
  || (cell_eqb (co_cursor r) (co_cursor q) && cell_eqb (co_kind r) (co_kind q)).

(** [changes]: the retained change feed. *)
Record changes_row := Mk_changes {
  ch_cursor : cell;
  ch_kind : cell;
  ch_received_at_ms : Z;
  ch_record_revision_id : cell;
  ch_collection_marker_record_id : cell;
  ch_collection_marker_json : cell;
  ch_device_changed_id : cell;
  ch_device_change_kind : cell }.
Definition ck_changes (r : changes_row) : bool :=
  blob_column (ch_cursor r)
  && text_column (ch_kind r)
  && opt_text_column (ch_record_revision_id r)
  && opt_text_column (ch_collection_marker_record_id r)
  && opt_blob_column (ch_collection_marker_json r)
  && opt_text_column (ch_device_changed_id r)
  && opt_text_column (ch_device_change_kind r)
  && length_is (ch_cursor r) 8
  && text_in (ch_kind r) change_kinds
  && (is_null (ch_device_change_kind r) || text_in (ch_device_change_kind r) ["enrolled"; "revoked"])
  && Bool.eqb (cell_eqb (ch_kind r) (CText "record_revision")) (negb (is_null (ch_record_revision_id r)))
  && Bool.eqb (cell_eqb (ch_kind r) (CText "collection_marker")) (negb (is_null (ch_collection_marker_record_id r)))
  && Bool.eqb (cell_eqb (ch_kind r) (CText "collection_marker")) (negb (is_null (ch_collection_marker_json r)))
  && Bool.eqb (cell_eqb (ch_kind r) (CText "device_changed")) (negb (is_null (ch_device_changed_id r)))
  && Bool.eqb (cell_eqb (ch_kind r) (CText "device_changed")) (negb (is_null (ch_device_change_kind r)))
  && length_is (ch_device_changed_id r) 36.
Definition conflict_changes (r q : changes_row) : bool :=
  cell_eqb (ch_cursor r) (ch_cursor q).

(** [operation_receipts]: replies kept for replay. *)
Record operation_receipts_row := Mk_operation_receipts {
  op_receipt_sequence : Z;
  op_device_id : cell;
  op_operation : cell;
  op_request_id : cell;
  op_request_fingerprint : cell;
  op_response_status : Z;
  op_response_json : cell;
  op_created_at_ms : Z;
  op_created_uptime_ms : cell }.
Definition ck_operation_receipts (r : operation_receipts_row) : bool :=
  text_column (op_device_id r)
  && text_column (op_operation r)
  && text_column (op_request_id r)
  && blob_column (op_request_fingerprint r)
  && blob_column (op_response_json r)
  && blob_column (op_created_uptime_ms r)
  && length_is (op_device_id r) 36
  && length_is (op_request_id r) 36
  && length_is (op_request_fingerprint r) 32
  && (op_response_status r =? 200)
  && length_is (op_created_uptime_ms r) 8.
Definition conflict_operation_receipts (r q : operation_receipts_row) : bool :=
  (op_receipt_sequence r =? op_receipt_sequence q)
  || (cell_eqb (op_device_id r) (op_device_id q) && cell_eqb (op_operation r) (op_operation q) && cell_eqb (op_request_id r) (op_request_id q)).

(** [operation_receipt_retention]: retention index of receipts. *)
Record operation_receipt_retention_row := Mk_operation_receipt_retention {
  rt_device_id : cell;
  rt_receipt_class : cell;
  rt_receipt_sequence : Z;
  rt_created_uptime_ms : cell }.
Definition ck_operation_receipt_retention (r : operation_receipt_retention_row) : bool :=
  text_column (rt_device_id r)
  && text_column (rt_receipt_class r)
  && blob_column (rt_created_uptime_ms r)
  && length_is (rt_device_id r) 36
  && text_in (rt_receipt_class r) ["sync"; "other"]
  && length_is (rt_created_uptime_ms r) 8.
Definition conflict_operation_receipt_retention (r q : operation_receipt_retention_row) : bool :=
  (rt_receipt_sequence r =? rt_receipt_sequence q).

(** [token_rotations]: token rotations. *)
Record token_rotations_row := Mk_token_rotations {
  tk_rotation_id : cell;
  tk_device_id : cell;
  tk_old_token_hash : cell;
  tk_new_token_hash : cell;
  tk_request_fingerprint : cell;
  tk_response_json : cell;
  tk_created_at_ms : Z }.
Definition ck_token_rotations (r : token_rotations_row) : bool :=
  text_column (tk_rotation_id r)
  && text_column (tk_device_id r)
  && blob_column (tk_old_token_hash r)
  && blob_column (tk_new_token_hash r)
  && blob_column (tk_request_fingerprint r)
  && blob_column (tk_response_json r)
  && length_is (tk_rotation_id r) 36
  && length_is (tk_device_id r) 36
  && length_is (tk_old_token_hash r) 32
  && length_is (tk_new_token_hash r) 32
  && length_is (tk_request_fingerprint r) 32.
Definition conflict_token_rotations (r q : token_rotations_row) : bool :=
  cell_eqb (tk_rotation_id r) (tk_rotation_id q).

(** [self_revocation_receipts]: receipt of a device that revoked itself. *)
Record self_revocation_receipts_row := Mk_self_revocation_receipts {
  sf_device_id : cell;
  sf_request_id : cell;
  sf_body_fingerprint : cell;
  sf_pre_revocation_token_hash : cell;
  sf_response_status : Z;
  sf_response_headers_json : cell;
  sf_response_json : cell }.
Definition ck_self_revocation_receipts (r : self_revocation_receipts_row) : bool :=
  text_column (sf_device_id r)
  && text_column (sf_request_id r)
  && blob_column (sf_body_fingerprint r)
  && blob_column (sf_pre_revocation_token_hash r)
  && blob_column (sf_response_headers_json r)
  && blob_column (sf_response_json r)
  && length_is (sf_device_id r) 36
  && length_is (sf_request_id r) 36
  && length_is (sf_body_fingerprint r) 32
  && length_is (sf_pre_revocation_token_hash r) 32
  && (sf_response_status r =? 200).
Definition conflict_self_revocation_receipts (r q : self_revocation_receipts_row) : bool :=
  cell_eqb (sf_device_id r) (sf_device_id q).

(** [snapshots]: snapshot leases. *)
Record snapshots_row := Mk_snapshots {
  sn_snapshot_id : cell;
  sn_owner_device_id : cell;
  sn_request_id : cell;
  sn_request_fingerprint : cell;
  sn_cut_cursor : cell;
  sn_envelope_generation : cell;
  sn_collection_generation : cell;
  sn_expires_at_ms : Z;
  sn_metadata_bytes : Z;
  sn_create_response_json : cell }.
Definition ck_snapshots (r : snapshots_row) : bool :=
  text_column (sn_snapshot_id r)
  && text_column (sn_owner_device_id r)
  && text_column (sn_request_id r)
  && blob_column (sn_request_fingerprint r)
  && blob_column (sn_cut_cursor r)
  && blob_column (sn_envelope_generation r)
  && blob_column (sn_collection_generation r)
  && blob_column (sn_create_response_json r)
  && length_is (sn_snapshot_id r) 36
  && length_is (sn_owner_device_id r) 36
  && length_is (sn_request_id r) 36
  && length_is (sn_request_fingerprint r) 32
  && length_is (sn_cut_cursor r) 8
  && length_is (sn_envelope_generation r) 8
  && length_is (sn_collection_generation r) 8
  && (0 <=? sn_metadata_bytes r).
Definition conflict_snapshots (r q : snapshots_row) : bool :=
  cell_eqb (sn_snapshot_id r) (sn_snapshot_id q)
  || (cell_eqb (sn_owner_device_id r) (sn_owner_device_id q) && cell_eqb (sn_request_id r) (sn_request_id q)).

(** [snapshot_pages]: page descriptors of a snapshot. *)
Record snapshot_pages_row := Mk_snapshot_pages {
  pg_snapshot_id : cell;
  pg_page_index : Z;
  pg_page_token : cell;
  pg_response_json : cell }.
Definition ck_snapshot_pages (r : snapshot_pages_row) : bool :=
  text_column (pg_snapshot_id r)
  && text_column (pg_page_token r)
  && blob_column (pg_response_json r)
  && (0 <=? pg_page_index r)
  && length_is (pg_page_token r) 43.
Definition conflict_snapshot_pages (r q : snapshot_pages_row) : bool :=
  cell_eqb (pg_page_token r) (pg_page_token q)
  || (cell_eqb (pg_snapshot_id r) (pg_snapshot_id q) && (pg_page_index r =? pg_page_index q)).

(** [snapshot_revision_refs]: revision bodies a snapshot holds. *)
Record snapshot_revision_refs_row := Mk_snapshot_revision_refs {
  rf_snapshot_id : cell;
  rf_revision_id : cell;
  rf_content_hash : cell }.
Definition ck_snapshot_revision_refs (r : snapshot_revision_refs_row) : bool :=
  text_column (rf_snapshot_id r)
  && text_column (rf_revision_id r)
  && blob_column (rf_content_hash r)
  && length_is (rf_revision_id r) 36
  && length_is (rf_content_hash r) 32.
Definition conflict_snapshot_revision_refs (r q : snapshot_revision_refs_row) : bool :=
  (cell_eqb (rf_snapshot_id r) (rf_snapshot_id q) && cell_eqb (rf_revision_id r) (rf_revision_id q)).

(** The whole database. *)
Record db := Mk_db {
  tb_instance_metadata : list instance_metadata_row;
  tb_devices : list devices_row;
  tb_device_origins : list device_origins_row;
  tb_runtime_state : list runtime_state_row;
  tb_device_sync_state : list device_sync_state_row;
  tb_enrollment_grants : list enrollment_grants_row;
  tb_enrollments : list enrollments_row;
  tb_vault_envelope : list vault_envelope_row;
  tb_revision_objects : list revision_objects_row;
  tb_record_revisions : list record_revisions_row;
  tb_revision_acceptance_origins : list revision_acceptance_origins_row;
  tb_collection_records : list collection_records_row;
  tb_record_heads : list record_heads_row;
  tb_record_vector_index : list record_vector_index_row;
  tb_collection_candidates : list collection_candidates_row;
  tb_collection_markers : list collection_markers_row;
  tb_change_origins : list change_origins_row;
  tb_changes : list changes_row;
  tb_operation_receipts : list operation_receipts_row;
  tb_operation_receipt_retention : list operation_receipt_retention_row;
  tb_token_rotations : list token_rotations_row;
  tb_self_revocation_receipts : list self_revocation_receipts_row;
  tb_snapshots : list snapshots_row;
  tb_snapshot_pages : list snapshot_pages_row;
  tb_snapshot_revision_refs : list snapshot_revision_refs_row }.
Definition empty_db : db := Mk_db [] [] [] [] [] [] [] [] [] [] [] [] [] [] [] [] [] [] [] [] [] [] [] [] [].

Definition set_instance_metadata (rows : list instance_metadata_row) (d : db) : db :=
  Mk_db rows (tb_devices d) (tb_device_origins d) (tb_runtime_state d) (tb_device_sync_state d) (tb_enrollment_grants d) (tb_enrollments d) (tb_vault_envelope d) (tb_revision_objects d) (tb_record_revisions d) (tb_revision_acceptance_origins d) (tb_collection_records d) (tb_record_heads d) (tb_record_vector_index d) (tb_collection_candidates d) (tb_collection_markers d) (tb_change_origins d) (tb_changes d) (tb_operation_receipts d) (tb_operation_receipt_retention d) (tb_token_rotations d) (tb_self_revocation_receipts d) (tb_snapshots d) (tb_snapshot_pages d) (tb_snapshot_revision_refs d).
Definition set_devices (rows : list devices_row) (d : db) : db :=
  Mk_db (tb_instance_metadata d) rows (tb_device_origins d) (tb_runtime_state d) (tb_device_sync_state d) (tb_enrollment_grants d) (tb_enrollments d) (tb_vault_envelope d) (tb_revision_objects d) (tb_record_revisions d) (tb_revision_acceptance_origins d) (tb_collection_records d) (tb_record_heads d) (tb_record_vector_index d) (tb_collection_candidates d) (tb_collection_markers d) (tb_change_origins d) (tb_changes d) (tb_operation_receipts d) (tb_operation_receipt_retention d) (tb_token_rotations d) (tb_self_revocation_receipts d) (tb_snapshots d) (tb_snapshot_pages d) (tb_snapshot_revision_refs d).
Definition set_device_origins (rows : list device_origins_row) (d : db) : db :=
  Mk_db (tb_instance_metadata d) (tb_devices d) rows (tb_runtime_state d) (tb_device_sync_state d) (tb_enrollment_grants d) (tb_enrollments d) (tb_vault_envelope d) (tb_revision_objects d) (tb_record_revisions d) (tb_revision_acceptance_origins d) (tb_collection_records d) (tb_record_heads d) (tb_record_vector_index d) (tb_collection_candidates d) (tb_collection_markers d) (tb_change_origins d) (tb_changes d) (tb_operation_receipts d) (tb_operation_receipt_retention d) (tb_token_rotations d) (tb_self_revocation_receipts d) (tb_snapshots d) (tb_snapshot_pages d) (tb_snapshot_revision_refs d).
Definition set_runtime_state (rows : list runtime_state_row) (d : db) : db :=
  Mk_db (tb_instance_metadata d) (tb_devices d) (tb_device_origins d) rows (tb_device_sync_state d) (tb_enrollment_grants d) (tb_enrollments d) (tb_vault_envelope d) (tb_revision_objects d) (tb_record_revisions d) (tb_revision_acceptance_origins d) (tb_collection_records d) (tb_record_heads d) (tb_record_vector_index d) (tb_collection_candidates d) (tb_collection_markers d) (tb_change_origins d) (tb_changes d) (tb_operation_receipts d) (tb_operation_receipt_retention d) (tb_token_rotations d) (tb_self_revocation_receipts d) (tb_snapshots d) (tb_snapshot_pages d) (tb_snapshot_revision_refs d).
Definition set_device_sync_state (rows : list device_sync_state_row) (d : db) : db :=
  Mk_db (tb_instance_metadata d) (tb_devices d) (tb_device_origins d) (tb_runtime_state d) rows (tb_enrollment_grants d) (tb_enrollments d) (tb_vault_envelope d) (tb_revision_objects d) (tb_record_revisions d) (tb_revision_acceptance_origins d) (tb_collection_records d) (tb_record_heads d) (tb_record_vector_index d) (tb_collection_candidates d) (tb_collection_markers d) (tb_change_origins d) (tb_changes d) (tb_operation_receipts d) (tb_operation_receipt_retention d) (tb_token_rotations d) (tb_self_revocation_receipts d) (tb_snapshots d) (tb_snapshot_pages d) (tb_snapshot_revision_refs d).
Definition set_enrollment_grants (rows : list enrollment_grants_row) (d : db) : db :=
  Mk_db (tb_instance_metadata d) (tb_devices d) (tb_device_origins d) (tb_runtime_state d) (tb_device_sync_state d) rows (tb_enrollments d) (tb_vault_envelope d) (tb_revision_objects d) (tb_record_revisions d) (tb_revision_acceptance_origins d) (tb_collection_records d) (tb_record_heads d) (tb_record_vector_index d) (tb_collection_candidates d) (tb_collection_markers d) (tb_change_origins d) (tb_changes d) (tb_operation_receipts d) (tb_operation_receipt_retention d) (tb_token_rotations d) (tb_self_revocation_receipts d) (tb_snapshots d) (tb_snapshot_pages d) (tb_snapshot_revision_refs d).
Definition set_enrollments (rows : list enrollments_row) (d : db) : db :=
  Mk_db (tb_instance_metadata d) (tb_devices d) (tb_device_origins d) (tb_runtime_state d) (tb_device_sync_state d) (tb_enrollment_grants d) rows (tb_vault_envelope d) (tb_revision_objects d) (tb_record_revisions d) (tb_revision_acceptance_origins d) (tb_collection_records d) (tb_record_heads d) (tb_record_vector_index d) (tb_collection_candidates d) (tb_collection_markers d) (tb_change_origins d) (tb_changes d) (tb_operation_receipts d) (tb_operation_receipt_retention d) (tb_token_rotations d) (tb_self_revocation_receipts d) (tb_snapshots d) (tb_snapshot_pages d) (tb_snapshot_revision_refs d).
Definition set_vault_envelope (rows : list vault_envelope_row) (d : db) : db :=
  Mk_db (tb_instance_metadata d) (tb_devices d) (tb_device_origins d) (tb_runtime_state d) (tb_device_sync_state d) (tb_enrollment_grants d) (tb_enrollments d) rows (tb_revision_objects d) (tb_record_revisions d) (tb_revision_acceptance_origins d) (tb_collection_records d) (tb_record_heads d) (tb_record_vector_index d) (tb_collection_candidates d) (tb_collection_markers d) (tb_change_origins d) (tb_changes d) (tb_operation_receipts d) (tb_operation_receipt_retention d) (tb_token_rotations d) (tb_self_revocation_receipts d) (tb_snapshots d) (tb_snapshot_pages d) (tb_snapshot_revision_refs d).
Definition set_revision_objects (rows : list revision_objects_row) (d : db) : db :=
  Mk_db (tb_instance_metadata d) (tb_devices d) (tb_device_origins d) (tb_runtime_state d) (tb_device_sync_state d) (tb_enrollment_grants d) (tb_enrollments d) (tb_vault_envelope d) rows (tb_record_revisions d) (tb_revision_acceptance_origins d) (tb_collection_records d) (tb_record_heads d) (tb_record_vector_index d) (tb_collection_candidates d) (tb_collection_markers d) (tb_change_origins d) (tb_changes d) (tb_operation_receipts d) (tb_operation_receipt_retention d) (tb_token_rotations d) (tb_self_revocation_receipts d) (tb_snapshots d) (tb_snapshot_pages d) (tb_snapshot_revision_refs d).
Definition set_record_revisions (rows : list record_revisions_row) (d : db) : db :=
  Mk_db (tb_instance_metadata d) (tb_devices d) (tb_device_origins d) (tb_runtime_state d) (tb_device_sync_state d) (tb_enrollment_grants d) (tb_enrollments d) (tb_vault_envelope d) (tb_revision_objects d) rows (tb_revision_acceptance_origins d) (tb_collection_records d) (tb_record_heads d) (tb_record_vector_index d) (tb_collection_candidates d) (tb_collection_markers d) (tb_change_origins d) (tb_changes d) (tb_operation_receipts d) (tb_operation_receipt_retention d) (tb_token_rotations d) (tb_self_revocation_receipts d) (tb_snapshots d) (tb_snapshot_pages d) (tb_snapshot_revision_refs d).
Definition set_revision_acceptance_origins (rows : list revision_acceptance_origins_row) (d : db) : db :=
  Mk_db (tb_instance_metadata d) (tb_devices d) (tb_device_origins d) (tb_runtime_state d) (tb_device_sync_state d) (tb_enrollment_grants d) (tb_enrollments d) (tb_vault_envelope d) (tb_revision_objects d) (tb_record_revisions d) rows (tb_collection_records d) (tb_record_heads d) (tb_record_vector_index d) (tb_collection_candidates d) (tb_collection_markers d) (tb_change_origins d) (tb_changes d) (tb_operation_receipts d) (tb_operation_receipt_retention d) (tb_token_rotations d) (tb_self_revocation_receipts d) (tb_snapshots d) (tb_snapshot_pages d) (tb_snapshot_revision_refs d).
Definition set_collection_records (rows : list collection_records_row) (d : db) : db :=
  Mk_db (tb_instance_metadata d) (tb_devices d) (tb_device_origins d) (tb_runtime_state d) (tb_device_sync_state d) (tb_enrollment_grants d) (tb_enrollments d) (tb_vault_envelope d) (tb_revision_objects d) (tb_record_revisions d) (tb_revision_acceptance_origins d) rows (tb_record_heads d) (tb_record_vector_index d) (tb_collection_candidates d) (tb_collection_markers d) (tb_change_origins d) (tb_changes d) (tb_operation_receipts d) (tb_operation_receipt_retention d) (tb_token_rotations d) (tb_self_revocation_receipts d) (tb_snapshots d) (tb_snapshot_pages d) (tb_snapshot_revision_refs d).
Definition set_record_heads (rows : list record_heads_row) (d : db) : db :=
  Mk_db (tb_instance_metadata d) (tb_devices d) (tb_device_origins d) (tb_runtime_state d) (tb_device_sync_state d) (tb_enrollment_grants d) (tb_enrollments d) (tb_vault_envelope d) (tb_revision_objects d) (tb_record_revisions d) (tb_revision_acceptance_origins d) (tb_collection_records d) rows (tb_record_vector_index d) (tb_collection_candidates d) (tb_collection_markers d) (tb_change_origins d) (tb_changes d) (tb_operation_receipts d) (tb_operation_receipt_retention d) (tb_token_rotations d) (tb_self_revocation_receipts d) (tb_snapshots d) (tb_snapshot_pages d) (tb_snapshot_revision_refs d).
Definition set_record_vector_index (rows : list record_vector_index_row) (d : db) : db :=
  Mk_db (tb_instance_metadata d) (tb_devices d) (tb_device_origins d) (tb_runtime_state d) (tb_device_sync_state d) (tb_enrollment_grants d) (tb_enrollments d) (tb_vault_envelope d) (tb_revision_objects d) (tb_record_revisions d) (tb_revision_acceptance_origins d) (tb_collection_records d) (tb_record_heads d) rows (tb_collection_candidates d) (tb_collection_markers d) (tb_change_origins d) (tb_changes d) (tb_operation_receipts d) (tb_operation_receipt_retention d) (tb_token_rotations d) (tb_self_revocation_receipts d) (tb_snapshots d) (tb_snapshot_pages d) (tb_snapshot_revision_refs d).
Definition set_collection_candidates (rows : list collection_candidates_row) (d : db) : db :=
  Mk_db (tb_instance_metadata d) (tb_devices d) (tb_device_origins d) (tb_runtime_state d) (tb_device_sync_state d) (tb_enrollment_grants d) (tb_enrollments d) (tb_vault_envelope d) (tb_revision_objects d) (tb_record_revisions d) (tb_revision_acceptance_origins d) (tb_collection_records d) (tb_record_heads d) (tb_record_vector_index d) rows (tb_collection_markers d) (tb_change_origins d) (tb_changes d) (tb_operation_receipts d) (tb_operation_receipt_retention d) (tb_token_rotations d) (tb_self_revocation_receipts d) (tb_snapshots d) (tb_snapshot_pages d) (tb_snapshot_revision_refs d).
Definition set_collection_markers (rows : list collection_markers_row) (d : db) : db :=
  Mk_db (tb_instance_metadata d) (tb_devices d) (tb_device_origins d) (tb_runtime_state d) (tb_device_sync_state d) (tb_enrollment_grants d) (tb_enrollments d) (tb_vault_envelope d) (tb_revision_objects d) (tb_record_revisions d) (tb_revision_acceptance_origins d) (tb_collection_records d) (tb_record_heads d) (tb_record_vector_index d) (tb_collection_candidates d) rows (tb_change_origins d) (tb_changes d) (tb_operation_receipts d) (tb_operation_receipt_retention d) (tb_token_rotations d) (tb_self_revocation_receipts d) (tb_snapshots d) (tb_snapshot_pages d) (tb_snapshot_revision_refs d).
Definition set_change_origins (rows : list change_origins_row) (d : db) : db :=
  Mk_db (tb_instance_metadata d) (tb_devices d) (tb_device_origins d) (tb_runtime_state d) (tb_device_sync_state d) (tb_enrollment_grants d) (tb_enrollments d) (tb_vault_envelope d) (tb_revision_objects d) (tb_record_revisions d) (tb_revision_acceptance_origins d) (tb_collection_records d) (tb_record_heads d) (tb_record_vector_index d) (tb_collection_candidates d) (tb_collection_markers d) rows (tb_changes d) (tb_operation_receipts d) (tb_operation_receipt_retention d) (tb_token_rotations d) (tb_self_revocation_receipts d) (tb_snapshots d) (tb_snapshot_pages d) (tb_snapshot_revision_refs d).
Definition set_changes (rows : list changes_row) (d : db) : db :=
  Mk_db (tb_instance_metadata d) (tb_devices d) (tb_device_origins d) (tb_runtime_state d) (tb_device_sync_state d) (tb_enrollment_grants d) (tb_enrollments d) (tb_vault_envelope d) (tb_revision_objects d) (tb_record_revisions d) (tb_revision_acceptance_origins d) (tb_collection_records d) (tb_record_heads d) (tb_record_vector_index d) (tb_collection_candidates d) (tb_collection_markers d) (tb_change_origins d) rows (tb_operation_receipts d) (tb_operation_receipt_retention d) (tb_token_rotations d) (tb_self_revocation_receipts d) (tb_snapshots d) (tb_snapshot_pages d) (tb_snapshot_revision_refs d).
Definition set_operation_receipts (rows : list operation_receipts_row) (d : db) : db :=
  Mk_db (tb_instance_metadata d) (tb_devices d) (tb_device_origins d) (tb_runtime_state d) (tb_device_sync_state d) (tb_enrollment_grants d) (tb_enrollments d) (tb_vault_envelope d) (tb_revision_objects d) (tb_record_revisions d) (tb_revision_acceptance_origins d) (tb_collection_records d) (tb_record_heads d) (tb_record_vector_index d) (tb_collection_candidates d) (tb_collection_markers d) (tb_change_origins d) (tb_changes d) rows (tb_operation_receipt_retention d) (tb_token_rotations d) (tb_self_revocation_receipts d) (tb_snapshots d) (tb_snapshot_pages d) (tb_snapshot_revision_refs d).
Definition set_operation_receipt_retention (rows : list operation_receipt_retention_row) (d : db) : db :=
  Mk_db (tb_instance_metadata d) (tb_devices d) (tb_device_origins d) (tb_runtime_state d) (tb_device_sync_state d) (tb_enrollment_grants d) (tb_enrollments d) (tb_vault_envelope d) (tb_revision_objects d) (tb_record_revisions d) (tb_revision_acceptance_origins d) (tb_collection_records d) (tb_record_heads d) (tb_record_vector_index d) (tb_collection_candidates d) (tb_collection_markers d) (tb_change_origins d) (tb_changes d) (tb_operation_receipts d) rows (tb_token_rotations d) (tb_self_revocation_receipts d) (tb_snapshots d) (tb_snapshot_pages d) (tb_snapshot_revision_refs d).
Definition set_token_rotations (rows : list token_rotations_row) (d : db) : db :=
  Mk_db (tb_instance_metadata d) (tb_devices d) (tb_device_origins d) (tb_runtime_state d) (tb_device_sync_state d) (tb_enrollment_grants d) (tb_enrollments d) (tb_vault_envelope d) (tb_revision_objects d) (tb_record_revisions d) (tb_revision_acceptance_origins d) (tb_collection_records d) (tb_record_heads d) (tb_record_vector_index d) (tb_collection_candidates d) (tb_collection_markers d) (tb_change_origins d) (tb_changes d) (tb_operation_receipts d) (tb_operation_receipt_retention d) rows (tb_self_revocation_receipts d) (tb_snapshots d) (tb_snapshot_pages d) (tb_snapshot_revision_refs d).
Definition set_self_revocation_receipts (rows : list self_revocation_receipts_row) (d : db) : db :=
  Mk_db (tb_instance_metadata d) (tb_devices d) (tb_device_origins d) (tb_runtime_state d) (tb_device_sync_state d) (tb_enrollment_grants d) (tb_enrollments d) (tb_vault_envelope d) (tb_revision_objects d) (tb_record_revisions d) (tb_revision_acceptance_origins d) (tb_collection_records d) (tb_record_heads d) (tb_record_vector_index d) (tb_collection_candidates d) (tb_collection_markers d) (tb_change_origins d) (tb_changes d) (tb_operation_receipts d) (tb_operation_receipt_retention d) (tb_token_rotations d) rows (tb_snapshots d) (tb_snapshot_pages d) (tb_snapshot_revision_refs d).
Definition set_snapshots (rows : list snapshots_row) (d : db) : db :=
  Mk_db (tb_instance_metadata d) (tb_devices d) (tb_device_origins d) (tb_runtime_state d) (tb_device_sync_state d) (tb_enrollment_grants d) (tb_enrollments d) (tb_vault_envelope d) (tb_revision_objects d) (tb_record_revisions d) (tb_revision_acceptance_origins d) (tb_collection_records d) (tb_record_heads d) (tb_record_vector_index d) (tb_collection_candidates d) (tb_collection_markers d) (tb_change_origins d) (tb_changes d) (tb_operation_receipts d) (tb_operation_receipt_retention d) (tb_token_rotations d) (tb_self_revocation_receipts d) rows (tb_snapshot_pages d) (tb_snapshot_revision_refs d).
Definition set_snapshot_pages (rows : list snapshot_pages_row) (d : db) : db :=
  Mk_db (tb_instance_metadata d) (tb_devices d) (tb_device_origins d) (tb_runtime_state d) (tb_device_sync_state d) (tb_enrollment_grants d) (tb_enrollments d) (tb_vault_envelope d) (tb_revision_objects d) (tb_record_revisions d) (tb_revision_acceptance_origins d) (tb_collection_records d) (tb_record_heads d) (tb_record_vector_index d) (tb_collection_candidates d) (tb_collection_markers d) (tb_change_origins d) (tb_changes d) (tb_operation_receipts d) (tb_operation_receipt_retention d) (tb_token_rotations d) (tb_self_revocation_receipts d) (tb_snapshots d) rows (tb_snapshot_revision_refs d).
Definition set_snapshot_revision_refs (rows : list snapshot_revision_refs_row) (d : db) : db :=
  Mk_db (tb_instance_metadata d) (tb_devices d) (tb_device_origins d) (tb_runtime_state d) (tb_device_sync_state d) (tb_enrollment_grants d) (tb_enrollments d) (tb_vault_envelope d) (tb_revision_objects d) (tb_record_revisions d) (tb_revision_acceptance_origins d) (tb_collection_records d) (tb_record_heads d) (tb_record_vector_index d) (tb_collection_candidates d) (tb_collection_markers d) (tb_change_origins d) (tb_changes d) (tb_operation_receipts d) (tb_operation_receipt_retention d) (tb_token_rotations d) (tb_self_revocation_receipts d) (tb_snapshots d) (tb_snapshot_pages d) rows.

(** INSERT INTO each table, with its foreign keys ([foreign_keys(1)] in store.go). *)
Definition insert_instance_metadata (r : instance_metadata_row) (d : db) : option db :=
  match insert_row ck_instance_metadata conflict_instance_metadata r (tb_instance_metadata d) with
  | Some rows => Some (set_instance_metadata rows d)
  | None => None
  end.
Definition insert_devices (r : devices_row) (d : db) : option db :=
  match insert_row ck_devices conflict_devices r (tb_devices d) with
  | Some rows => Some (set_devices rows d)
  | None => None
  end.
Definition insert_device_origins (r : device_origins_row) (d : db) : option db :=
  if existsb (λ q, cell_eqb (d_device_id q) (do_device_id r)) (tb_devices d)
  then match insert_row ck_device_origins conflict_device_origins r (tb_device_origins d) with
  | Some rows => Some (set_device_origins rows d)
  | None => None
  end
  else None.
Definition insert_runtime_state (r : runtime_state_row) (d : db) : option db :=
  match insert_row ck_runtime_state conflict_runtime_state r (tb_runtime_state d) with
  | Some rows => Some (set_runtime_state rows d)
  | None => None
  end.
Definition insert_device_sync_state (r : device_sync_state_row) (d : db) : option db :=
  if existsb (λ q, cell_eqb (d_device_id q) (ds_device_id r)) (tb_devices d)
  then match insert_row ck_device_sync_state conflict_device_sync_state r (tb_device_sync_state d) with
  | Some rows => Some (set_device_sync_state rows d)
  | None => None
  end
  else None.
Definition insert_enrollment_grants (r : enrollment_grants_row) (d : db) : option db :=
  match insert_row ck_enrollment_grants conflict_enrollment_grants r (tb_enrollment_grants d) with
  | Some rows => Some (set_enrollment_grants rows d)
  | None => None
  end.
Definition insert_enrollments (r : enrollments_row) (d : db) : option db :=
  if existsb (λ q, cell_eqb (d_device_id q) (en_device_id r)) (tb_devices d)
  then match insert_row ck_enrollments conflict_enrollments r (tb_enrollments d) with
  | Some rows => Some (set_enrollments rows d)
  | None => None
  end
  else None.
Definition insert_vault_envelope (r : vault_envelope_row) (d : db) : option db :=
  match insert_row ck_vault_envelope conflict_vault_envelope r (tb_vault_envelope d) with
  | Some rows => Some (set_vault_envelope rows d)
  | None => None
  end.
Definition insert_revision_objects (r : revision_objects_row) (d : db) : option db :=
  match insert_row ck_revision_objects conflict_revision_objects r (tb_revision_objects d) with
  | Some rows => Some (set_revision_objects rows d)
  | None => None
  end.
Definition insert_record_revisions (r : record_revisions_row) (d : db) : option db :=
  match insert_row ck_record_revisions conflict_record_revisions r (tb_record_revisions d) with
  | Some rows => Some (set_record_revisions rows d)
  | None => None
  end.
Definition insert_revision_acceptance_origins (r : revision_acceptance_origins_row) (d : db) : option db :=
  match insert_row ck_revision_acceptance_origins conflict_revision_acceptance_origins r (tb_revision_acceptance_origins d) with
  | Some rows => Some (set_revision_acceptance_origins rows d)
  | None => None
  end.
Definition insert_collection_records (r : collection_records_row) (d : db) : option db :=
  match insert_row ck_collection_records conflict_collection_records r (tb_collection_records d) with
  | Some rows => Some (set_collection_records rows d)
  | None => None
  end.
Definition insert_record_heads (r : record_heads_row) (d : db) : option db :=
  match insert_row ck_record_heads conflict_record_heads r (tb_record_heads d) with
  | Some rows => Some (set_record_heads rows d)
  | None => None
  end.
Definition insert_record_vector_index (r : record_vector_index_row) (d : db) : option db :=
  match insert_row ck_record_vector_index conflict_record_vector_index r (tb_record_vector_index d) with
  | Some rows => Some (set_record_vector_index rows d)
  | None => None
  end.
Definition insert_collection_candidates (r : collection_candidates_row) (d : db) : option db :=
  match insert_row ck_collection_candidates conflict_collection_candidates r (tb_collection_candidates d) with
  | Some rows => Some (set_collection_candidates rows d)
  | None => None
  end.
Definition insert_collection_markers (r : collection_markers_row) (d : db) : option db :=
  match insert_row ck_collection_markers conflict_collection_markers r (tb_collection_markers d) with
  | Some rows => Some (set_collection_markers rows d)
  | None => None
  end.
Definition insert_change_origins (r : change_origins_row) (d : db) : option db :=
  match insert_row ck_change_origins conflict_change_origins r (tb_change_origins d) with
  | Some rows => Some (set_change_origins rows d)
  | None => None
  end.
Definition insert_changes (r : changes_row) (d : db) : option db :=
  if existsb (λ q, cell_eqb (co_cursor q) (ch_cursor r) && cell_eqb (co_kind q) (ch_kind r)) (tb_change_origins d)
  then match insert_row ck_changes conflict_changes r (tb_changes d) with
  | Some rows => Some (set_changes rows d)
  | None => None
  end
  else None.
Definition insert_operation_receipts (r : operation_receipts_row) (d : db) : option db :=
  match insert_row ck_operation_receipts conflict_operation_receipts r (tb_operation_receipts d) with
  | Some rows => Some (set_operation_receipts rows d)
  | None => None
  end.
Definition insert_operation_receipt_retention (r : operation_receipt_retention_row) (d : db) : option db :=
  match insert_row ck_operation_receipt_retention conflict_operation_receipt_retention r (tb_operation_receipt_retention d) with
  | Some rows => Some (set_operation_receipt_retention rows d)
  | None => None
  end.
Definition insert_token_rotations (r : token_rotations_row) (d : db) : option db :=
  match insert_row ck_token_rotations conflict_token_rotations r (tb_token_rotations d) with
  | Some rows => Some (set_token_rotations rows d)
  | None => None
  end.
Definition insert_self_revocation_receipts (r : self_revocation_receipts_row) (d : db) : option db :=
  match insert_row ck_self_revocation_receipts conflict_self_revocation_receipts r (tb_self_revocation_receipts d) with
  | Some rows => Some (set_self_revocation_receipts rows d)
  | None => None
  end.
Definition insert_snapshots (r : snapshots_row) (d : db) : option db :=
  match insert_row ck_snapshots conflict_snapshots r (tb_snapshots d) with
  | Some rows => Some (set_snapshots rows d)
  | None => None
  end.
Definition insert_snapshot_pages (r : snapshot_pages_row) (d : db) : option db :=
  if existsb (λ q, cell_eqb (sn_snapshot_id q) (pg_snapshot_id r)) (tb_snapshots d)
  then match insert_row ck_snapshot_pages conflict_snapshot_pages r (tb_snapshot_pages d) with
  | Some rows => Some (set_snapshot_pages rows d)
  | None => None
  end
  else None.
Definition insert_snapshot_revision_refs (r : snapshot_revision_refs_row) (d : db) : option db :=
  if existsb (λ q, cell_eqb (sn_snapshot_id q) (rf_snapshot_id r)) (tb_snapshots d)
     && existsb (λ q, cell_eqb (ro_content_hash q) (rf_content_hash r)) (tb_revision_objects d)
  then match insert_row ck_snapshot_revision_refs conflict_snapshot_revision_refs r (tb_snapshot_revision_refs d) with
  | Some rows => Some (set_snapshot_revision_refs rows d)
  | None => None
  end
  else None.
(** UPDATE of each table; no statement of the store changes a column that a
    foreign key mentions. *)
Definition update_instance_metadata (p : instance_metadata_row → bool) (f : instance_metadata_row → instance_metadata_row) (d : db) : option db :=
  match update_rows ck_instance_metadata conflict_instance_metadata p f [] (tb_instance_metadata d) with
  | Some rows => Some (set_instance_metadata rows d)
  | None => None
  end.
Definition update_devices (p : devices_row → bool) (f : devices_row → devices_row) (d : db) : option db :=
  match update_rows ck_devices conflict_devices p f [] (tb_devices d) with
  | Some rows => Some (set_devices rows d)
  | None => None
  end.
Definition update_device_origins (p : device_origins_row → bool) (f : device_origins_row → device_origins_row) (d : db) : option db :=
  match update_rows ck_device_origins conflict_device_origins p f [] (tb_device_origins d) with
  | Some rows => Some (set_device_origins rows d)
  | None => None
  end.
Definition update_runtime_state (p : runtime_state_row → bool) (f : runtime_state_row → runtime_state_row) (d : db) : option db :=
  match update_rows ck_runtime_state conflict_runtime_state p f [] (tb_runtime_state d) with
  | Some rows => Some (set_runtime_state rows d)
  | None => None
  end.
Definition update_device_sync_state (p : device_sync_state_row → bool) (f : device_sync_state_row → device_sync_state_row) (d : db) : option db :=
  match update_rows ck_device_sync_state conflict_device_sync_state p f [] (tb_device_sync_state d) with
  | Some rows => Some (set_device_sync_state rows d)
  | None => None
  end.
Definition update_enrollment_grants (p : enrollment_grants_row → bool) (f : enrollment_grants_row → enrollment_grants_row) (d : db) : option db :=
  match update_rows ck_enrollment_grants conflict_enrollment_grants p f [] (tb_enrollment_grants d) with
  | Some rows => Some (set_enrollment_grants rows d)
  | None => None
  end.
Definition update_enrollments (p : enrollments_row → bool) (f : enrollments_row → enrollments_row) (d : db) : option db :=
  match update_rows ck_enrollments conflict_enrollments p f [] (tb_enrollments d) with
  | Some rows => Some (set_enrollments rows d)
  | None => None
  end.
Definition update_vault_envelope (p : vault_envelope_row → bool) (f : vault_envelope_row → vault_envelope_row) (d : db) : option db :=
  match update_rows ck_vault_envelope conflict_vault_envelope p f [] (tb_vault_envelope d) with
  | Some rows => Some (set_vault_envelope rows d)
  | None => None
  end.
Definition update_revision_objects (p : revision_objects_row → bool) (f : revision_objects_row → revision_objects_row) (d : db) : option db :=
  match update_rows ck_revision_objects conflict_revision_objects p f [] (tb_revision_objects d) with
  | Some rows => Some (set_revision_objects rows d)
  | None => None
  end.
Definition update_record_revisions (p : record_revisions_row → bool) (f : record_revisions_row → record_revisions_row) (d : db) : option db :=
  match update_rows ck_record_revisions conflict_record_revisions p f [] (tb_record_revisions d) with
  | Some rows => Some (set_record_revisions rows d)
  | None => None
  end.
Definition update_revision_acceptance_origins (p : revision_acceptance_origins_row → bool) (f : revision_acceptance_origins_row → revision_acceptance_origins_row) (d : db) : option db :=
  match update_rows ck_revision_acceptance_origins conflict_revision_acceptance_origins p f [] (tb_revision_acceptance_origins d) with
  | Some rows => Some (set_revision_acceptance_origins rows d)
  | None => None
  end.
Definition update_collection_records (p : collection_records_row → bool) (f : collection_records_row → collection_records_row) (d : db) : option db :=
  match update_rows ck_collection_records conflict_collection_records p f [] (tb_collection_records d) with
  | Some rows => Some (set_collection_records rows d)
  | None => None
  end.
Definition update_record_heads (p : record_heads_row → bool) (f : record_heads_row → record_heads_row) (d : db) : option db :=
  match update_rows ck_record_heads conflict_record_heads p f [] (tb_record_heads d) with
  | Some rows => Some (set_record_heads rows d)
  | None => None
  end.
Definition update_record_vector_index (p : record_vector_index_row → bool) (f : record_vector_index_row → record_vector_index_row) (d : db) : option db :=
  match update_rows ck_record_vector_index conflict_record_vector_index p f [] (tb_record_vector_index d) with
  | Some rows => Some (set_record_vector_index rows d)
  | None => None
  end.
Definition update_collection_candidates (p : collection_candidates_row → bool) (f : collection_candidates_row → collection_candidates_row) (d : db) : option db :=
  match update_rows ck_collection_candidates conflict_collection_candidates p f [] (tb_collection_candidates d) with
  | Some rows => Some (set_collection_candidates rows d)
  | None => None
  end.
Definition update_collection_markers (p : collection_markers_row → bool) (f : collection_markers_row → collection_markers_row) (d : db) : option db :=
  match update_rows ck_collection_markers conflict_collection_markers p f [] (tb_collection_markers d) with
  | Some rows => Some (set_collection_markers rows d)
  | None => None
  end.
Definition update_change_origins (p : change_origins_row → bool) (f : change_origins_row → change_origins_row) (d : db) : option db :=
  match update_rows ck_change_origins conflict_change_origins p f [] (tb_change_origins d) with
  | Some rows => Some (set_change_origins rows d)
  | None => None
  end.
Definition update_changes (p : changes_row → bool) (f : changes_row → changes_row) (d : db) : option db :=
  match update_rows ck_changes conflict_changes p f [] (tb_changes d) with
  | Some rows => Some (set_changes rows d)
  | None => None
  end.
Definition update_operation_receipts (p : operation_receipts_row → bool) (f : operation_receipts_row → operation_receipts_row) (d : db) : option db :=
  match update_rows ck_operation_receipts conflict_operation_receipts p f [] (tb_operation_receipts d) with
  | Some rows => Some (set_operation_receipts rows d)
  | None => None
  end.
Definition update_operation_receipt_retention (p : operation_receipt_retention_row → bool) (f : operation_receipt_retention_row → operation_receipt_retention_row) (d : db) : option db :=
  match update_rows ck_operation_receipt_retention conflict_operation_receipt_retention p f [] (tb_operation_receipt_retention d) with
  | Some rows => Some (set_operation_receipt_retention rows d)
  | None => None
  end.
Definition update_token_rotations (p : token_rotations_row → bool) (f : token_rotations_row → token_rotations_row) (d : db) : option db :=
  match update_rows ck_token_rotations conflict_token_rotations p f [] (tb_token_rotations d) with
  | Some rows => Some (set_token_rotations rows d)
  | None => None
  end.
Definition update_self_revocation_receipts (p : self_revocation_receipts_row → bool) (f : self_revocation_receipts_row → self_revocation_receipts_row) (d : db) : option db :=
  match update_rows ck_self_revocation_receipts conflict_self_revocation_receipts p f [] (tb_self_revocation_receipts d) with
  | Some rows => Some (set_self_revocation_receipts rows d)
  | None => None
  end.
Definition update_snapshots (p : snapshots_row → bool) (f : snapshots_row → snapshots_row) (d : db) : option db :=
  match update_rows ck_snapshots conflict_snapshots p f [] (tb_snapshots d) with
  | Some rows => Some (set_snapshots rows d)
  | None => None
  end.
Definition update_snapshot_pages (p : snapshot_pages_row → bool) (f : snapshot_pages_row → snapshot_pages_row) (d : db) : option db :=
  match update_rows ck_snapshot_pages conflict_snapshot_pages p f [] (tb_snapshot_pages d) with
  | Some rows => Some (set_snapshot_pages rows d)
  | None => None
  end.
Definition update_snapshot_revision_refs (p : snapshot_revision_refs_row → bool) (f : snapshot_revision_refs_row → snapshot_revision_refs_row) (d : db) : option db :=
  match update_rows ck_snapshot_revision_refs conflict_snapshot_revision_refs p f [] (tb_snapshot_revision_refs d) with
  | Some rows => Some (set_snapshot_revision_refs rows d)
  | None => None
  end.
