(* ===== verification/Monad.v ===== *)
(** * The state the store works on and the monad its operations run in

    [Store] (store.go) holds a database handle, the instance identity and the
    [ephemeralState] of dataplane.go.  [St] is that state during one operation:
    the committed database, the working copy of the open transaction, the
    ephemeral state, and the two oracles described in [Sql].  [beginTransaction]
    starts from the committed database; a transaction that is never committed is
    rolled back by the handlers' [defer transaction.Rollback()], so it leaves the
    committed database as it was.  A failed [Commit] rolls back as well.

    Go's early returns of an error are the monad's errors; the state is kept on
    an error because ephemeral changes are not rolled back. *)

From stdpp Require Import base list strings gmap.
From Stdlib Require Import ZArith Lia Ascii.
From S2P Require Import Prelude GoStd GoTime Api Models Sql Schema.
Local Open Scope Z_scope.

Record grantDeadline := { gd_hash : string; gd_deadline : gotime }.
Record ephemeralState := Mk_eph {
  bootID : string;
  booted : bool;
  uptimeCheckpoint : gotime;
  grantDeadlines : list grantDeadline;
  enrollmentAttempts : list gotime;
  snapshotAttempts : gmap string (list gotime);
  snapshotDeadlines : gmap string gotime }.
(** The zero [time.Time], the start of year 1. *)
Definition zero_time : gotime := {| wall := - 62135596800 * Second; mono := - 62135596800 * Second |}.
Definition newEphemeralState : ephemeralState :=
  Mk_eph (of_bytes (repeat 0 16)) false zero_time [] [] ∅ ∅.

Record St := Mk_St {
  st_db : db;
  st_tx : db;
  st_eph : ephemeralState;
  st_faults : list bool;
  st_rand : list string }.

Definition M (E A : Type) : Type := St → res E A * St.
#[export] Instance M_ret E : MRet (M E) := λ A a s, (Ok a, s).
#[export] Instance M_bind E : MBind (M E) := λ A B f m s,
  match m s with
  | (Ok a, s') => f a s'
  | (Err e, s') => (Err e, s')
  end.
Definition throw {E A} (e : E) : M E A := λ s, (Err e, s).
(** [if !b { return e }]. *)
Definition ensure {E} (b : bool) (e : E) : M E () := if b then mret () else throw e.
Definition from_option {E A} (o : option A) (e : E) : M E A :=
  match o with Some a => mret a | None => throw e end.
Definition get_eph {E} : M E ephemeralState := λ s, (Ok (st_eph s), s).
Definition set_eph {E} (x : ephemeralState) : M E () :=
  λ s, (Ok (), Mk_St (st_db s) (st_tx s) x (st_faults s) (st_rand s)).

(** Whether the next database call fails. *)
Definition tick {E} : M E bool := λ s,
  match st_faults s with
  | [] => (Ok false, s)
  | b :: rest => (Ok b, Mk_St (st_db s) (st_tx s) (st_eph s) rest (st_rand s))
  end.
Definition read_tx {E} : M E db := λ s, (Ok (st_tx s), s).
Definition write_tx {E} (d : db) : M E () :=
  λ s, (Ok (), Mk_St (st_db s) d (st_eph s) (st_faults s) (st_rand s)).

(** A query that returns [err] on a database error. *)
Definition query {E A} (err : E) (f : db → A) : M E A :=
  fault ← tick; if (fault : bool) then throw err else d ← read_tx; mret (f d).
(** A statement that writes: [None] is a constraint violation. *)
Definition exec {E} (err : E) (f : db → option db) : M E () :=
  fault ← tick; if (fault : bool) then throw err else
  d ← read_tx; d' ← from_option (f d) err; write_tx d'.
(** [BeginTx] and [Commit]. *)
Definition begin_tx {E} (err : E) : M E () :=
  fault ← tick; if (fault : bool) then throw err else
  λ s, (Ok (), Mk_St (st_db s) (st_db s) (st_eph s) (st_faults s) (st_rand s)).
Definition commit_tx {E} (err : E) : M E () :=
  fault ← tick; if (fault : bool) then throw err else
  λ s, (Ok (), Mk_St (st_tx s) (st_tx s) (st_eph s) (st_faults s) (st_rand s)).
(** [rand.Read] of [n] bytes. *)
Definition rand_read {E} (n : Z) (err : E) : M E string := λ s,
  match st_rand s with
  | r :: rest =>
      let s' := Mk_St (st_db s) (st_tx s) (st_eph s) (st_faults s) rest in
      if slen r =? n then (Ok r, s') else (Err err, s')
  | [] => (Err err, s)
  end.

Definition internal_error : Error := NewError "internal_error" true.
(** The forms the handlers use: every database error is [internal_error]. *)
Definition Handler (A : Type) : Type := M Error A.
Definition select_db {A} (f : db → A) : Handler A := query internal_error f.
Definition exec_db (f : db → option db) : Handler () := exec internal_error f.
Definition beginTransaction : Handler () := begin_tx internal_error.
Definition commitTransaction : Handler () := commit_tx internal_error.
Definition fail {A} (code : string) (retryable : bool) : Handler A := throw (NewError code retryable).
(** A value that is present, else [internal_error]. *)
Definition some_or_internal {A} (o : option A) : Handler A := from_option o internal_error.
Definition ensure_internal (b : bool) : Handler () := ensure b internal_error.

(** A caller that replaces the error of its callee. *)
Definition map_err {E E' A} (f : E → E') (m : M E A) : M E' A := λ s,
  match m s with (Ok a, s') => (Ok a, s') | (Err e, s') => (Err (f e), s') end.
Definition or_internal {E A} (m : M E A) : Handler A := map_err (λ _, internal_error) m.

(** A call whose error is kept as a value. *)
Definition try {E E' A} (m : M E A) : M E' (res E A) := λ s, let '(r, s') := m s in (Ok r, s').

(** A call with a clean-up that runs when it fails. *)
Definition on_error {E A} (m : M E A) (cleanup : M E ()) : M E A := λ s,
  match m s with
  | (Ok a, s') => (Ok a, s')
  | (Err e, s') => (Err e, (cleanup s').2)
  end.

(** A loop whose body may return early. *)
Fixpoint map_each {E A B} (f : A → M E B) (l : list A) : M E (list B) :=
  match l with [] => mret [] | x :: l' => y ← f x; ys ← map_each f l'; mret (y :: ys) end.
Fixpoint for_each {E A} (l : list A) (body : A → M E ()) : M E () :=
  match l with [] => mret () | x :: l' => body x;; for_each l' body end.
Fixpoint fold_each {E A S} (l : list A) (acc : S) (body : S → A → M E S) : M E S :=
  match l with [] => mret acc | x :: l' => acc' ← body acc x; fold_each l' acc' body end.

(** ** Inversion of runs *)
Lemma bind_ok {E A B} (m : M E A) (f : A → M E B) s b s' :
  (m ≫= f) s = (Ok b, s') ↔ ∃ a s1, m s = (Ok a, s1) ∧ f a s1 = (Ok b, s').
Proof.
  unfold mbind, M_bind. destruct (m s) as [[a|e] s1]; split.
  - eauto.
  - intros (a' & s1' & [= <- <-] & ?). done.
  - done.
  - intros (a' & s1' & ? & ?). done.
Qed.
Lemma bind_err {E A B} (m : M E A) (f : A → M E B) s e s' :
  (m ≫= f) s = (Err e, s') ↔ m s = (Err e, s') ∨ ∃ a s1, m s = (Ok a, s1) ∧ f a s1 = (Err e, s').
Proof.
  unfold mbind, M_bind. destruct (m s) as [[a|e'] s1]; split; intros H.
  - eauto.
  - destruct H as [|(a' & s1' & [= <- <-] & ?)]; done.
  - left. congruence.
  - destruct H as [|(a' & s1' & ? & ?)]; congruence.
Qed.
Lemma ret_ok {E A} (a b : A) s s' : (mret a : M E A) s = (Ok b, s') ↔ b = a ∧ s' = s.
Proof. unfold mret, M_ret. split; [by intros [= -> ->]|by intros [-> ->]]. Qed.
Lemma from_option_ok {E A} (o : option A) (e : E) s a s' :
  from_option o e s = (Ok a, s') ↔ o = Some a ∧ s' = s.
Proof.
  destruct o; simpl; unfold mret, M_ret, throw; split; try (intros [= -> ->]); try (intros [[= ->] ->]); try done.
Qed.
Lemma ensure_ok {E} b (e : E) s u s' : ensure b e s = (Ok u, s') ↔ b = true ∧ s' = s.
Proof.
  destruct u, b; simpl; unfold mret, M_ret, throw; split; try (intros [= ->]); try (intros [? ->]); done.
Qed.

(** What a computation leaves of the state: a relation between the state before
    and the state after that forgets the oracles. *)
Lemma query_ok {E A} (e : E) (f : db → A) s a s' : query e f s = (Ok a, s') →
  a = f (st_tx s) ∧ st_tx s' = st_tx s ∧ st_db s' = st_db s ∧ st_eph s' = st_eph s ∧ st_rand s' = st_rand s.
Proof.
  unfold query, tick, mbind, M_bind, read_tx, mret, M_ret, throw.
  destruct (st_faults s) as [|[] ?]; [|done|]; intros [= <- <-]; done.
Qed.
Lemma exec_ok {E} (e : E) f s u s' : exec e f s = (Ok u, s') →
  f (st_tx s) = Some (st_tx s') ∧ st_db s' = st_db s ∧ st_eph s' = st_eph s ∧ st_rand s' = st_rand s.
Proof.
  unfold exec, tick, mbind, M_bind, read_tx, from_option, write_tx, mret, M_ret, throw.
  destruct (st_faults s) as [|[] ?]; [|done|]; simpl; destruct (f (st_tx s)) eqn:Ef;
    try discriminate; intros [= _ <-]; done.
Qed.
Lemma begin_ok {E} (e : E) s u s' : begin_tx e s = (Ok u, s') →
  st_tx s' = st_db s ∧ st_db s' = st_db s ∧ st_eph s' = st_eph s ∧ st_rand s' = st_rand s.
Proof.
  unfold begin_tx, tick, mbind, M_bind, throw.
  destruct (st_faults s) as [|[] ?]; [|done|]; intros [= _ <-]; done.
Qed.
Lemma commit_ok {E} (e : E) s u s' : commit_tx e s = (Ok u, s') →
  st_db s' = st_tx s ∧ st_tx s' = st_tx s ∧ st_eph s' = st_eph s ∧ st_rand s' = st_rand s.
Proof.
  unfold commit_tx, tick, mbind, M_bind, throw.
  destruct (st_faults s) as [|[] ?]; [|done|]; intros [= _ <-]; done.
Qed.

(** ** Relations every run respects

    [Pres R m]: whatever [m] returns, the states before and after are related by
    [R].  For a preorder [R] this is closed under the monad's operations, so a
    handler's frame property follows from those of its statements. *)
Definition Pres {E A} (R : relation St) (m : M E A) : Prop := ∀ s, R s (m s).2.

(** The committed database is untouched. *)
Definition same_db : relation St := λ s s', st_db s' = st_db s.
(** Nothing but the oracles moved. *)
Definition same_state : relation St := λ s s',
  st_db s' = st_db s ∧ st_tx s' = st_tx s ∧ st_eph s' = st_eph s.
#[export] Instance same_db_preorder : PreOrder same_db.
Proof. split; [done|]. intros ???. unfold same_db. congruence. Qed.
#[export] Instance same_state_preorder : PreOrder same_state.
Proof. split; [done|]. intros ??? (?&?&?) (?&?&?). unfold same_state. split_and!; congruence. Qed.
Lemma same_state_db s s' : same_state s s' → same_db s s'.
Proof. by intros [? _]. Qed.

Section pres.
Context {E : Type} (R : relation St) `{!PreOrder R}.
Lemma pres_ret {A} (a : A) : Pres R (mret a : M E A).
Proof. intros s. reflexivity. Qed.
Lemma pres_throw {A} (e : E) : Pres R (throw e : M E A).
Proof. intros s. reflexivity. Qed.
Lemma pres_bind {A B} (m : M E A) (f : A → M E B) :
  Pres R m → (∀ a, Pres R (f a)) → Pres R (m ≫= f).
Proof.
  intros Hm Hf s. unfold mbind, M_bind. specialize (Hm s).
  destruct (m s) as [[a|e] s1]; [|done]. etrans; [exact Hm|apply Hf].
Qed.
Lemma pres_from_option {A} (o : option A) (e : E) : Pres R (from_option o e).
Proof. destruct o; [apply pres_ret|apply pres_throw]. Qed.
Lemma pres_ensure b (e : E) : Pres R (ensure b e).
Proof. destruct b; [apply pres_ret|apply pres_throw]. Qed.
Lemma pres_get_eph : Pres R (get_eph : M E _).
Proof. intros s. reflexivity. Qed.
Lemma pres_read_tx : Pres R (read_tx : M E _).
Proof. intros s. reflexivity. Qed.
Lemma pres_for_each {A} (l : list A) body : (∀ x, Pres R (body x)) → Pres R (for_each l body : M E ()).
Proof. intros Hb. induction l; simpl; [apply pres_ret|]. by apply pres_bind. Qed.
Lemma pres_map_each {A B} (f : A → M E B) l : (∀ x, Pres R (f x)) → Pres R (map_each f l).
Proof.
  intros Hf. induction l; simpl; [apply pres_ret|]. apply pres_bind; [done|]. intros ?.
  apply pres_bind; [done|]. intros ?. apply pres_ret.
Qed.
Lemma pres_fold_each {A S} (l : list A) (acc : S) body :
  (∀ a x, Pres R (body a x)) → Pres R (fold_each l acc body : M E S).
Proof. intros Hb. revert acc. induction l; intros acc; simpl; [apply pres_ret|]. by apply pres_bind. Qed.
Context (R_sub : ∀ s s', same_state s s' → R s s').
Lemma pres_tick : Pres R (tick : M E bool).
Proof using R_sub. intros s. apply R_sub. unfold tick. by destruct (st_faults s). Qed.
Lemma pres_query {A} (e : E) (f : db → A) : Pres R (query e f).
Proof using PreOrder0 R_sub.
  apply pres_bind; [apply pres_tick|]. intros []; [apply pres_throw|].
  apply pres_bind; [apply pres_read_tx|]. intros ?. apply pres_ret.
Qed.
Lemma pres_rand_read n (e : E) : Pres R (rand_read n e).
Proof using R_sub.
  intros s. apply R_sub. unfold rand_read. destruct (st_rand s); [done|]. by case_match.
Qed.
End pres.
Lemma pres_map_err {E E' A} (R : relation St) (f : E → E') (m : M E A) : Pres R m → Pres R (map_err f m).
Proof. intros Hm s. specialize (Hm s). unfold map_err. by destruct (m s) as [[] ?]. Qed.
Lemma pres_try {E E' A} (R : relation St) (m : M E A) : Pres R m → Pres R (try m : M E' _).
Proof. intros Hm s. specialize (Hm s). unfold try. by destruct (m s) as [[] ?]. Qed.
Lemma pres_weaken {E A} (R R' : relation St) (m : M E A) :
  (∀ s s', R s s' → R' s s') → Pres R m → Pres R' m.
Proof. intros HR Hm s. apply HR, Hm. Qed.

Lemma keeps_exec {E} (e : E) f : Pres same_db (exec e f).
Proof.
  apply pres_bind; [apply _|apply pres_tick, same_state_db|]. intros []; [by apply pres_throw, _|].
  apply pres_bind; [apply _|by apply pres_read_tx, _|]. intros d.
  apply pres_bind; [apply _|by apply pres_from_option, _|]. by intros d' s.
Qed.
Lemma keeps_begin {E} (e : E) : Pres same_db (begin_tx e).
Proof.
  apply pres_bind; [apply _|apply pres_tick, same_state_db|]. intros []; [by apply pres_throw, _|by intros s].
Qed.
Lemma keeps_set_eph {E} x : Pres same_db (set_eph x : M E ()).
Proof. by intros s. Qed.

(** ** Atomicity: an error leaves the committed database as it was. *)
Definition Atomic {E A} (m : M E A) : Prop := ∀ s e s', m s = (Err e, s') → st_db s' = st_db s.
(** A computation that always returns a value. *)
Definition Total {E A} (m : M E A) : Prop := ∀ s, ∃ a s', m s = (Ok a, s').

Lemma atomic_keeps {E A} (m : M E A) : Pres same_db m → Atomic m.
Proof. intros Hm s e s' H. specialize (Hm s). by rewrite H in Hm. Qed.
Lemma atomic_bind {E A B} (m : M E A) (f : A → M E B) :
  Pres same_db m → (∀ a, Atomic (f a)) → Atomic (m ≫= f).
Proof.
  intros Hm Hf s e s' H. specialize (Hm s). unfold same_db in Hm.
  apply bind_err in H as [H|(a & s1 & H1 & H2)].
  - by rewrite H in Hm.
  - rewrite H1 in Hm. simpl in Hm. rewrite <- Hm. by eapply Hf.
Qed.
(** Only a computation that cannot fail may follow a commit. *)
Lemma atomic_then_total {E A B} (m : M E A) (f : A → M E B) :
  Atomic m → (∀ a, Total (f a)) → Atomic (m ≫= f).
Proof.
  intros Hm Hf s e s' H. apply bind_err in H as [H|(a & s1 & H1 & H2)]; [by eapply Hm|].
  destruct (Hf a s1) as (b & s2 & H3). congruence.
Qed.
Lemma atomic_on_error {E A} (m : M E A) cleanup :
  Atomic m → Pres same_db cleanup → Atomic (on_error m cleanup).
Proof.
  intros Hm Hc s e s' H. unfold on_error in H. destruct (m s) as [[a|e1] s1] eqn:E1; [done|].
  injection H as -> <-. rewrite (Hc s1). by eapply Hm.
Qed.
Lemma atomic_commit {E} (e : E) : Atomic (commit_tx e).
Proof.
  intros s e' s' H. unfold commit_tx, tick, mbind, M_bind, throw in H.
  destruct (st_faults s) as [|[] ?]; try discriminate. by injection H as _ <-.
Qed.
Lemma total_ret {E A} (a : A) : Total (mret a : M E A).
Proof. intros s. by eexists _, _. Qed.
Lemma total_set_eph {E} x : Total (set_eph x : M E ()).
Proof. intros s. by eexists _, _. Qed.
Lemma total_get_eph {E} : Total (get_eph : M E _).
Proof. intros s. by eexists _, _. Qed.
Lemma total_bind {E A B} (m : M E A) (f : A → M E B) : Total m → (∀ a, Total (f a)) → Total (m ≫= f).
Proof.
  intros Hm Hf s. destruct (Hm s) as (a & s1 & H1). destruct (Hf a s1) as (b & s2 & H2).
  exists b, s2. apply bind_ok. eauto.
Qed.

(** Hints for the three judgements.  [reads] proves [Pres same_state], [keeps]
    proves [Pres same_db], each descending through the monad and using the
    lemmas registered in its database. *)
Create HintDb reads.
Create HintDb keeps.
Create HintDb atomic.
Tactic Notation "pres_step" tactic3(hints) :=
  lazymatch goal with
  | |- Pres _ (mbind _ _) => apply pres_bind; [apply _| |intros ?]
  | |- Pres _ (mret _) => apply pres_ret; apply _
  | |- Pres _ (throw _) => apply pres_throw; apply _
  | |- Pres _ (fail _ _) => apply pres_throw; apply _
  | |- Pres _ (from_option _ _) => apply pres_from_option; apply _
  | |- Pres _ (some_or_internal _) => apply pres_from_option; apply _
  | |- Pres _ (ensure _ _) => apply pres_ensure; apply _
  | |- Pres _ (ensure_internal _) => apply pres_ensure; apply _
  | |- Pres _ get_eph => apply pres_get_eph; apply _
  | |- Pres _ read_tx => apply pres_read_tx; apply _
  | |- Pres _ (map_err _ _) => apply pres_map_err
  | |- Pres _ (try _) => apply pres_try
  | |- Pres _ (or_internal _) => apply pres_map_err
  | |- Pres _ (map_each _ _) => apply pres_map_each; [apply _|intros ?]
  | |- Pres _ (for_each _ _) => apply pres_for_each; [apply _|intros ?]
  | |- Pres _ (fold_each _ _ _) => apply pres_fold_each; [apply _|intros ? ?]
  | |- Pres same_state (query _ _) => apply pres_query; [apply _|auto]
  | |- Pres same_state (select_db _) => apply pres_query; [apply _|auto]
  | |- Pres same_state (rand_read _ _) => apply pres_rand_read; auto
  | |- Pres same_db (query _ _) => apply pres_query; [apply _|apply same_state_db]
  | |- Pres same_db (select_db _) => apply pres_query; [apply _|apply same_state_db]
  | |- Pres same_db (rand_read _ _) => apply pres_rand_read; apply same_state_db
  | |- Pres same_db (exec _ _) => apply keeps_exec
  | |- Pres same_db (exec_db _) => apply keeps_exec
  | |- Pres same_db (begin_tx _) => apply keeps_begin
  | |- Pres same_db beginTransaction => apply keeps_begin
  | |- Pres same_db (set_eph _) => apply keeps_set_eph
  | |- Pres _ (match ?x with _ => _ end) => destruct x
  | |- Pres _ (let '_ := ?x in _) => destruct x
  | |- Pres _ _ => solve [hints]
  end.
Ltac reads := repeat pres_step (auto with reads nocore).
Ltac keeps := repeat first [pres_step (auto with keeps nocore) | apply (pres_weaken same_state _ _ same_state_db); solve [auto with reads nocore]].

Ltac total :=
  repeat lazymatch goal with
  | |- Total (mbind _ _) => apply total_bind; [|intros ?]
  | |- Total (mret _) => apply total_ret
  | |- Total (set_eph _) => apply total_set_eph
  | |- Total get_eph => apply total_get_eph
  | |- Total (match ?x with _ => _ end) => destruct x
  end.
Ltac atomic :=
  repeat first
    [ solve [auto with atomic nocore]
    | lazymatch goal with
      | |- Atomic (mbind _ commitTransaction) => apply atomic_then_total; [apply atomic_commit|intros ?; solve [total]]
      | |- Atomic (mbind _ (on_error _ _)) =>
          apply atomic_then_total;
          [apply atomic_on_error; [solve [auto with atomic nocore]|solve [keeps]]|intros ?; solve [total]]
      | |- Atomic (match ?x with _ => _ end) => destruct x
      | |- Atomic (on_error _ _) => apply atomic_on_error; [|solve [keeps]]
      end
    | apply atomic_bind; [solve [keeps]|intros ?]
    | apply atomic_then_total; [solve [auto with atomic nocore]|intros ?; solve [total]]
    | apply atomic_keeps; solve [keeps] ].
Lemma atomic_commitTransaction : Atomic commitTransaction.
Proof. apply atomic_commit. Qed.
#[export] Hint Resolve atomic_commit atomic_commitTransaction : atomic.
#[export] Hint Extern 2 (Atomic _) => (apply atomic_keeps; solve [auto with keeps nocore]) : atomic.
