(* ===== verification/Keys.v ===== *)
(** * Key ranges and authoritative absence

    The store never trusts that an exact-key lookup found nothing: a damaged file
    could hold the key as a BLOB or with trailing bytes.  The preflight functions
    ([receiptKeyPrefixBounds] in dataplane.go, preflightEnrollmentKey in
    enrollment.go, preflightTokenRotationKey in devices.go,
    preflightCollectionMarkerKey in collection.go) therefore read two index
    ranges, text and blob, from the key up to the key with its last byte
    incremented.  [preflight_key] is their common body; the theorems say what the
    ranges contain. *)

From stdpp Require Import base list strings gmap.
From Stdlib Require Import ZArith Lia Ascii.
From S2P Require Import Prelude GoStd Uuid Api Models Sql Schema Monad.
Local Open Scope Z_scope.
Local Open Scope go_scope.

(** [upper[len(upper)-1]++] on a byte slice. *)
Fixpoint bump_last (s : string) : string :=
  match s with
  | EmptyString => EmptyString
  | String c EmptyString => String (chrZ ((byteZ c + 1) mod 256)) EmptyString
  | String c rest => String c (bump_last rest)
  end.
(** [c >= lower AND c < upper], [c > lower AND c < upper]. *)
Definition in_range (lower upper c : cell) : bool := cell_leb lower c && cell_ltb c upper.
Definition in_open_range (lower upper c : cell) : bool := cell_ltb lower c && cell_ltb c upper.
(** The two arms of an alias probe: a text that properly extends the key, or a
    blob that starts with it. *)
Definition alias_of (key : string) (c : cell) : bool :=
  in_open_range (CText key) (CText (bump_last key)) c || in_range (CBlob key) (CBlob (bump_last key)) c.
(** The rows of the TEXT range followed by those of the BLOB range. *)
Definition key_range {R} (column : R → cell) (key : string) (rows : list R) : list R :=
  select (λ r, in_range (CText key) (CText (bump_last key)) (column r)) rows
  ++ select (λ r, in_range (CBlob key) (CBlob (bump_last key)) (column r)) rows.

(** Whether the key is present: every row of the two ranges has to be the key
    itself, as text, and there is at most one. *)
Definition is_key (key : string) (c : cell) : bool :=
  match scan_uuid c with Some stored => String.eqb stored key | None => false end.
Definition preflight_key {R} (table : db → list R) (column : R → cell) (key : string) : Handler bool :=
  ensure_internal (validateUUID key);;
  rows ← select_db (λ d, take 2 (key_range column key (table d)));
  ensure_internal (forallb (λ r, is_key key (column r)) rows);;
  ensure_internal (length rows <=? 1)%nat;;
  mret (length rows =? 1)%nat.

Lemma reads_preflight_key {R} (t : db → list R) c k : Pres same_state (preflight_key t c k).
Proof. unfold preflight_key. reads. Qed.
#[export] Hint Resolve reads_preflight_key : reads.

(** ** What a range contains *)
Lemma sltb_cons c d s t : sltb (String c s) (String d t) = (byteZ c <? byteZ d) || ((byteZ c =? byteZ d) && sltb s t).
Proof.
  unfold sltb. rewrite string_compare_cons.
  destruct (Z.compare_spec (byteZ c) (byteZ d)) as [E|E|E].
  - rewrite E, Z.ltb_irrefl, Z.eqb_refl. done.
  - by rewrite (proj2 (Z.ltb_lt _ _) E).
  - rewrite (proj2 (Z.ltb_ge _ _)), (proj2 (Z.eqb_neq _ _)) by lia. done.
Qed.
Lemma sleb_cons c d s t : sleb (String c s) (String d t) = (byteZ c <? byteZ d) || ((byteZ c =? byteZ d) && sleb s t).
Proof.
  unfold sleb. rewrite string_compare_cons.
  destruct (Z.compare_spec (byteZ c) (byteZ d)) as [E|E|E].
  - rewrite E, Z.ltb_irrefl, Z.eqb_refl. done.
  - by rewrite (proj2 (Z.ltb_lt _ _) E).
  - rewrite (proj2 (Z.ltb_ge _ _)), (proj2 (Z.eqb_neq _ _)) by lia. done.
Qed.

(** The last byte of a string is below 255, so it can be incremented. *)
Fixpoint bumpable (s : string) : bool :=
  match s with
  | EmptyString => false
  | String c EmptyString => byteZ c <? 255
  | String _ rest => bumpable rest
  end.
Lemma between_prefix key s : bumpable key = true →
  sleb key s = true ∧ sltb s (bump_last key) = true ↔ has_prefix key s = true.
Proof.
  unfold has_prefix. revert s. induction key as [|c key IH]; intros s Hb; [done|].
  destruct s as [|d s]; [simpl; by split; [intros [? _]|]|].
  rewrite sleb_cons. destruct key as [|c' key].
  - simpl in Hb. apply Z.ltb_lt in Hb. pose proof (byteZ_range c).
    cbn [bump_last strip_prefix]. rewrite sltb_cons, Z.mod_small, byteZ_chrZ by lia.
    replace (sleb "" s) with true by (by destruct s).
    replace (sltb s "") with false by (by destruct s).
    destruct (Ascii.eqb_spec c d) as [->|Hne].
    + rewrite Z.eqb_refl, orb_true_r. split; [done|]. intros _. split; [done|].
      rewrite orb_false_iff || idtac. apply orb_true_iff. left. apply Z.ltb_lt. lia.
    + assert (byteZ c ≠ byteZ d) by (intros ?; apply Hne, byteZ_inj; done).
      rewrite (proj2 (Z.eqb_neq (byteZ c) (byteZ d))) by done. rewrite andb_false_r.
      split; [|done]. intros [H1 H2]. rewrite orb_false_r in H1, H2. unbool. lia.
  - cbn [bump_last strip_prefix]. fold (bump_last (String c' key)).
    rewrite sltb_cons. specialize (IH s Hb). cbn [bumpable] in Hb.
    destruct (Ascii.eqb_spec c d) as [->|Hne].
    + rewrite Z.ltb_irrefl, Z.eqb_refl. simpl orb. simpl andb. apply IH.
    + assert (byteZ c ≠ byteZ d) by (intros ?; apply Hne, byteZ_inj; done).
      rewrite !(proj2 (Z.eqb_neq _ _)) by done. rewrite !andb_false_l, !orb_false_r.
      split; [|done]. intros [H1 H2]. unbool. lia.
Qed.
Lemma has_prefix_spec key s : has_prefix key s = true ↔ ∃ t, s = key +:+ t.
Proof.
  unfold has_prefix. split.
  - destruct (strip_prefix key s) as [t|] eqn:E; [|done]. intros _. exists t. by apply strip_prefix_Some.
  - intros [t ->]. by rewrite strip_prefix_app.
Qed.

(** A canonical UUID ends in a hexadecimal digit. *)
Lemma bumpable_app s t : t ≠ "" → bumpable (s +:+ t) = bumpable t.
Proof.
  intros Ht. induction s as [|c s IH]; [done|]. rewrite sapp_cons, <- IH.
  destruct (s +:+ t) as [|d u] eqn:E; [|done].
  destruct s; [|done]. by change ("" +:+ t) with t in E.
Qed.
Lemma hex_digit_small v : 0 <= v < 16 → byteZ (hex_digit v) < 255.
Proof. intros ?. unfold hex_digit. destruct (v <? 10) eqn:E; unbool; rewrite byteZ_chrZ; lia. Qed.
Lemma bumpable_hex l : Forall is_byte l → l ≠ [] → bumpable (hex_encode l) = true.
Proof.
  induction 1 as [|z l Hz Hl IH]; [done|]. intros _. simpl.
  destruct l as [|z' l].
  - simpl. apply Z.ltb_lt, hex_digit_small. unfold is_byte in Hz. split.
    + apply Z.mod_pos_bound. lia.
    + apply Z.mod_pos_bound. lia.
  - rewrite <- IH by done. done.
Qed.
Lemma uuid_bumpable key : validateUUID key = true → bumpable key = true.
Proof.
  unfold validateUUID, valid_uuid. destruct (Parse key) as [l|] eqn:E; [|done]. intros _.
  apply Parse_Some in E as (-> & Hl & Hb & _). unfold Format.
  assert (Hn : drop 10 l ≠ []) by (intros Hd; apply (f_equal length) in Hd; rewrite length_drop in Hd; simpl in Hd; lia).
  assert (He : hex_encode (drop 10 l) ≠ "").
  { intros H. apply (f_equal String.length) in H. rewrite length_hex_encode in H. simpl in H.
    destruct (drop 10 l); [done|simpl in H; lia]. }
  assert (Happ : ∀ a b : string, b ≠ "" → a +:+ b ≠ "").
  { intros [|c a] b Hb'; [done|]. by rewrite sapp_cons. }
  rewrite !bumpable_app by auto. apply bumpable_hex; [|done]. by apply Forall_drop.
Qed.

Lemma in_text_range key c : bumpable key = true →
  in_range (CText key) (CText (bump_last key)) c = true ↔ ∃ t, c = CText (key +:+ t).
Proof.
  intros Hb. unfold in_range. destruct c as [|s|s]; simpl.
  - split; [done|by intros [? ?]].
  - rewrite andb_true_iff, between_prefix, has_prefix_spec by done. split; intros [t Ht]; exists t; congruence.
  - split; [done|by intros [? ?]].
Qed.
Lemma in_blob_range key c : bumpable key = true →
  in_range (CBlob key) (CBlob (bump_last key)) c = true ↔ ∃ t, c = CBlob (key +:+ t).
Proof.
  intros Hb. unfold in_range. destruct c as [|s|s]; simpl.
  - split; [done|by intros [? ?]].
  - split; [done|by intros [? ?]].
  - rewrite andb_true_iff, between_prefix, has_prefix_spec by done. split; intros [t Ht]; exists t; congruence.
Qed.
Lemma sapp_self key t : key +:+ t = key → t = "".
Proof.
  intros H. apply (f_equal String.length) in H. rewrite length_sapp in H. destruct t; [done|simpl in H; lia].
Qed.
Lemma alias_of_spec key c : bumpable key = true →
  alias_of key c = true ↔ (∃ t, t ≠ "" ∧ c = CText (key +:+ t)) ∨ (∃ t, c = CBlob (key +:+ t)).
Proof.
  intros Hb. unfold alias_of. rewrite orb_true_iff, in_blob_range by done.
  assert (Ho : in_open_range (CText key) (CText (bump_last key)) c = true ↔ ∃ t, t ≠ "" ∧ c = CText (key +:+ t)).
  2: by rewrite Ho.
  unfold in_open_range. split.
  - intros [H1 H2]%andb_true_iff.
    destruct (proj1 (in_text_range key c Hb)) as [t ->].
    { unfold in_range. rewrite H2, andb_true_r. destruct c as [|s|s]; try done. simpl in H1 |- *.
      apply sleb_alt. by right. }
    exists t. split; [|done]. intros ->. simpl in H1. by rewrite sapp_nil_r, sltb_irrefl in H1.
  - intros (t & Ht & ->). assert (Hr := proj2 (in_text_range key (CText (key +:+ t)) Hb) (ex_intro _ t eq_refl)).
    unfold in_range in Hr. apply andb_true_iff in Hr as [H1 H2]. rewrite H2, andb_true_r. simpl in H1 |- *.
    apply sleb_alt in H1 as [H1|H1]; [|done]. by apply eq_sym, sapp_self in H1.
Qed.
Lemma elem_of_select {R} (p : R → bool) l x : x ∈ select p l ↔ x ∈ l ∧ p x = true.
Proof. unfold select. rewrite !list_elem_of_In. apply filter_In. Qed.
Lemma elem_of_key_range {R} (column : R → cell) key rows r : bumpable key = true →
  r ∈ key_range column key rows ↔
  r ∈ rows ∧ ((∃ t, column r = CText (key +:+ t)) ∨ ∃ t, column r = CBlob (key +:+ t)).
Proof.
  intros Hb. unfold key_range. rewrite elem_of_app, !elem_of_select, in_text_range, in_blob_range by done. tauto.
Qed.

Lemma scan_text_Some low high c s : scan_text low high c = Some s → c = CText s ∧ low <= slen s <= high.
Proof.
  unfold scan_text. destruct c as [|u|u]; [done| |].
  - cbn [octet_length case_text]. intros H.
    destruct ((low <=? slen u) && (slen u <=? high)) eqn:E; case_match_in H; try done.
    injection H as <-. unbool. done.
  - cbn [octet_length case_text]. by case_match.
Qed.
Lemma scan_uuid_Some c s : scan_uuid c = Some s → c = CText s ∧ validateUUID s = true.
Proof.
  unfold scan_uuid. destruct (scan_text 36 36 c) as [u|] eqn:E; [|done].
  destruct (validateUUID u) eqn:Eu; [|done]. intros [= <-]. by apply scan_text_Some in E as [-> _].
Qed.
Lemma is_key_spec key c : is_key key c = true → c = CText key.
Proof.
  unfold is_key. destruct (scan_uuid c) as [s|] eqn:E; [|done]. intros ->%String.eqb_eq.
  by apply scan_uuid_Some in E as [-> _].
Qed.

Lemma select_exact_range {R} (column : R → cell) key rows : bumpable key = true →
  (∀ r, r ∈ key_range column key rows → column r = CText key) →
  select (λ r, cell_eqb (column r) (CText key)) rows = key_range column key rows.
Proof.
  intros Hb Hall. unfold key_range.
  assert (Hblob : select (λ r, in_range (CBlob key) (CBlob (bump_last key)) (column r)) rows = []).
  { destruct (select _ rows) as [|r l] eqn:E; [done|]. exfalso.
    assert (Hr : r ∈ select (λ r, in_range (CBlob key) (CBlob (bump_last key)) (column r)) rows) by (rewrite E; left).
    apply elem_of_select in Hr as [Hr Hin].
    apply in_blob_range in Hin as [t Ht]; [|done].
    assert (Hk : column r = CText key) by (apply Hall, elem_of_key_range; eauto). congruence. }
  rewrite Hblob, app_nil_r. unfold select. apply List.filter_ext_in. intros r Hr.
  apply Bool.eq_iff_eq_true. rewrite in_text_range by done. split.
  - destruct (column r) as [|u|u]; try done. intros ->%String.eqb_eq. exists "". by rewrite sapp_nil_r.
  - intros [t Ht]. rewrite (Hall r); [simpl; apply String.eqb_refl|].
    apply elem_of_key_range; [done|]. split; [by apply list_elem_of_In|eauto].
Qed.

Lemma preflight_key_Ok {R} (table : db → list R) (column : R → cell) key s present s'
    (Hrun : preflight_key table column key s = (Ok present, s')) :
  (∀ r, r ∈ table (st_tx s) → alias_of key (column r) = false) ∧
  length (select (λ r, cell_eqb (column r) (CText key)) (table (st_tx s))) = (if present then 1 else 0)%nat.
Proof.
  unfold preflight_key in Hrun.
  apply bind_ok in Hrun as (? & s1 & H1 & Hrun). apply ensure_ok in H1 as [Hu ->].
  apply bind_ok in Hrun as (rows & s2 & H2 & Hrun). apply query_ok in H2 as (-> & _).
  apply bind_ok in Hrun as (? & s3 & H3 & Hrun). apply ensure_ok in H3 as [Hkeys ->].
  apply bind_ok in Hrun as (? & s4 & H4 & Hrun). apply ensure_ok in H4 as [Hlen ->].
  apply ret_ok in Hrun as [-> ->]. apply Nat.leb_le in Hlen.
  pose proof (uuid_bumpable _ Hu) as Hb.
  set (rng := key_range column key (table (st_tx s))) in *.
  assert (Htake : take 2 rng = rng).
  { apply take_ge. destruct rng as [|a [|b l]]; simpl in *; lia. }
  rewrite Htake in *.
  assert (Hexact : ∀ r, r ∈ rng → column r = CText key).
  { intros r Hr. rewrite forallb_forall in Hkeys. by apply is_key_spec, Hkeys, list_elem_of_In. }
  split.
  - intros r Hr. apply not_true_iff_false. intros Ha. apply alias_of_spec in Ha as [(t & Ht & Hc)|[t Hc]]; [| |done].
    + assert (Hk : column r = CText key) by (apply Hexact, elem_of_key_range; eauto).
      rewrite Hk in Hc. injection Hc as Hc. by apply eq_sym, sapp_self in Hc.
    + assert (Hk : column r = CText key) by (apply Hexact, elem_of_key_range; eauto). congruence.
  - rewrite select_exact_range by done. fold rng.
    destruct rng as [|a [|b l]]; simpl in *; done || lia.
Qed.

(** A preflight makes absence of a key authoritative: when it returns, no row
    holds the key as a blob, no row holds a text or a blob that extends it, and
    the number of rows that hold exactly the key is the answer (one or zero).
    A table with any such alias, or with the key twice, is an internal error. *)
Theorem preflight_key_authoritative {R} (table : db → list R) (column : R → cell) key s present s'
    (Hrun : preflight_key table column key s = (Ok present, s')) :
  (∀ r, r ∈ table (st_tx s) → alias_of key (column r) = false) ∧
  length (select (λ r, cell_eqb (column r) (CText key)) (table (st_tx s))) = (if present then 1 else 0)%nat.
Proof. by eapply preflight_key_Ok. Qed.

(** A registry with one device: its key is present, once. *)
Definition sample_key : string := "00000000-0000-4000-8000-00000000000a".
Definition sample_registry : St :=
  let d := set_devices [Mk_devices (CText sample_key) CNull CNull 0 None None CNull CNull] empty_db in
  Mk_St d d newEphemeralState [] [].
Lemma preflight_key_authoritative_witness :
  (∀ r, r ∈ tb_devices (st_tx sample_registry) → alias_of sample_key (d_device_id r) = false) ∧
  length (select (λ r, cell_eqb (d_device_id r) (CText sample_key)) (tb_devices (st_tx sample_registry))) = 1%nat.
Proof.
  apply (preflight_key_authoritative tb_devices d_device_id sample_key sample_registry true sample_registry).
  vm_compute. reflexivity.
Defined.
