(* ===== verification/SqlFacts.v ===== *)
(** * Facts about stored integers and table operations

    Eight-byte big-endian blobs round-trip and compare like the integers they
    encode; what UPDATE, INSERT and DELETE leave of a table; what [scan_*] accept. *)

From stdpp Require Import base list strings gmap.
From Stdlib Require Import ZArith Lia Ascii.
From S2P Require Import Prelude GoStd Models Sql Schema Monad Keys.
Local Open Scope Z_scope.

(** ** Stored integers *)
Lemma EncodeUint64_length z : String.length (EncodeUint64 z) = 8%nat.
Proof. unfold EncodeUint64. by rewrite length_of_bytes, length_be_split. Qed.
Lemma EncodeUint64_slen z : slen (EncodeUint64 z) = 8.
Proof. unfold slen. by rewrite EncodeUint64_length. Qed.
Lemma DecodeUint64_EncodeUint64 z : u64 z → DecodeUint64 (EncodeUint64 z) = Some z.
Proof.
  intros [H1 H2]. unfold DecodeUint64. rewrite EncodeUint64_length. cbn [Nat.eqb].
  unfold EncodeUint64. rewrite bytes_list_of by apply be_split_byte. rewrite be_combine_split by lia.
  f_equal. apply Z.mod_small. split; [lia|]. exact H2.
Qed.
Lemma DecodeUint64_range s z : DecodeUint64 s = Some z → u64 z.
Proof.
  unfold DecodeUint64. destruct (String.length s =? 8)%nat eqn:E; [|done]. intros [= <-].
  apply Nat.eqb_eq in E. pose proof (be_combine_range (bytes_list s) (bytes_list_byte s)) as H.
  rewrite length_bytes_list, E in H. exact H.
Qed.
Lemma EncodeUint64_DecodeUint64 s z : DecodeUint64 s = Some z → EncodeUint64 z = s.
Proof.
  unfold DecodeUint64. destruct (String.length s =? 8)%nat eqn:E; [|done]. intros [= <-].
  apply Nat.eqb_eq in E. unfold EncodeUint64. rewrite <- E, <- length_bytes_list.
  rewrite be_split_combine by apply bytes_list_byte. apply of_bytes_list.
Qed.
Lemma DecodeUint64_inj s t z : DecodeUint64 s = Some z → DecodeUint64 t = Some z → s = t.
Proof. intros H1%EncodeUint64_DecodeUint64 H2%EncodeUint64_DecodeUint64. congruence. Qed.

(** Big-endian order is numeric order. *)
Lemma be_combine_cons b l : be_combine (b :: l) = b * 256 ^ Z.of_nat (length l) + be_combine l.
Proof.
  induction l as [|c l IH] using rev_ind; [unfold be_combine; simpl; lia|].
  rewrite app_comm_cons, !be_combine_snoc, IH, length_app. simpl length.
  rewrite Nat2Z.inj_add, Z.pow_add_r by lia. change (256 ^ Z.of_nat 1) with 256. ring.
Qed.
Lemma compare_be l k : Forall is_byte l → Forall is_byte k → length l = length k →
  String.compare (of_bytes l) (of_bytes k) = (be_combine l ?= be_combine k).
Proof.
  intros Hl. revert k. induction Hl as [|b l Hb Hl IH]; intros k Hk Hlen; [by destruct k|].
  destruct k as [|c k]; [done|]. inversion Hk as [|? ? Hc Hk']; subst. injection Hlen as Hlen.
  cbn [of_bytes]. rewrite string_compare_cons, !byteZ_chrZ by done. rewrite !be_combine_cons, <- Hlen.
  pose proof (be_combine_range l Hl) as R1. pose proof (be_combine_range k Hk') as R2. rewrite <- Hlen in R2.
  set (P := 256 ^ Z.of_nat (length l)) in *.
  destruct (Z.compare_spec b c) as [->|H|H].
  - rewrite IH by done. symmetry. apply Zcompare_plus_compat.
  - symmetry. apply Z.compare_lt_iff. nia.
  - symmetry. apply Z.compare_gt_iff. nia.
Qed.
Lemma EncodeUint64_compare a b : u64 a → u64 b →
  String.compare (EncodeUint64 a) (EncodeUint64 b) = (a ?= b).
Proof.
  intros Ha Hb. unfold EncodeUint64.
  rewrite compare_be by (apply be_split_byte || by rewrite !length_be_split).
  unfold u64 in *. rewrite !be_combine_split by lia.
  change (256 ^ Z.of_nat 8) with two64. by rewrite !Z.mod_small by lia.
Qed.
Lemma EncodeUint64_sltb a b : u64 a → u64 b → sltb (EncodeUint64 a) (EncodeUint64 b) = (a <? b).
Proof. intros Ha Hb. unfold sltb. rewrite EncodeUint64_compare by done. unfold Z.ltb. by destruct (a ?= b). Qed.
Lemma EncodeUint64_sleb a b : u64 a → u64 b → sleb (EncodeUint64 a) (EncodeUint64 b) = (a <=? b).
Proof. intros Ha Hb. unfold sleb. rewrite EncodeUint64_compare by done. unfold Z.leb. by destruct (a ?= b). Qed.
Lemma EncodeUint64_inj a b : u64 a → u64 b → EncodeUint64 a = EncodeUint64 b → a = b.
Proof. intros Ha%DecodeUint64_EncodeUint64 Hb%DecodeUint64_EncodeUint64 E. congruence. Qed.
Lemma cell_u64_inj a b : u64 a → u64 b → cell_u64 a = cell_u64 b → a = b.
Proof. intros Ha Hb E. apply EncodeUint64_inj; [done..|]. unfold cell_u64 in E. congruence. Qed.

Lemma scan_blob_Some low high c s : scan_blob low high c = Some s → c = CBlob s ∧ low <= slen s <= high.
Proof.
  unfold scan_blob. destruct c as [|u|u]; [done| |].
  - cbn [octet_length case_blob]. intros H. by case_match_in H.
  - cbn [octet_length case_blob]. intros H.
    destruct ((low <=? slen u) && (slen u <=? high)) eqn:E; case_match_in H; try done.
    injection H as <-. unbool. done.
Qed.
Lemma scan_blob_ok low high s : 0 < low → low <= slen s <= high → scan_blob low high (CBlob s) = Some s.
Proof.
  intros H1 H2. unfold scan_blob, boundedRequiredBytes. cbn [octet_length case_blob].
  assert (E1 : (low <=? slen s) = true) by (apply Z.leb_le; lia).
  assert (E2 : (slen s <=? high) = true) by (apply Z.leb_le; lia).
  assert (E3 : (0 <? slen s) = true) by (apply Z.ltb_lt; lia).
  rewrite E1, E2, E3. cbn. by rewrite Z.eqb_refl.
Qed.
Lemma scan_u64_cell z : u64 z → scan_u64 (cell_u64 z) = Some z.
Proof.
  intros Hz. unfold scan_u64, cell_u64. rewrite scan_blob_ok by (rewrite ?EncodeUint64_slen; lia).
  by apply DecodeUint64_EncodeUint64.
Qed.
Lemma scan_u64_Some c z : scan_u64 c = Some z → c = cell_u64 z ∧ u64 z.
Proof.
  unfold scan_u64. destruct (scan_blob 8 8 c) as [s|] eqn:E; [|done]. intros H.
  apply scan_blob_Some in E as [-> _]. split; [|by eapply DecodeUint64_range].
  unfold cell_u64. by rewrite (EncodeUint64_DecodeUint64 s z).
Qed.
Lemma scan_uuid_ok s : validateUUID s = true → scan_uuid (CText s) = Some s.
Proof.
  intros H. unfold scan_uuid.
  assert (E : scan_text 36 36 (CText s) = Some s).
  { unfold scan_text, boundedRequiredText. cbn [octet_length case_text].
    unfold slen. rewrite (Uuid.valid_uuid_length s H). cbv beta iota. simpl (_ && _). cbv iota beta. rewrite (Uuid.valid_uuid_length s H). reflexivity. }
  by rewrite E, H.
Qed.
Lemma scan_body_blob n s : 0 < slen s <= n → scan_body n (CBlob s) = Some s.
Proof.
  intros H. unfold scan_body, boundedRequiredBytes. cbn [sql_length default].
  assert (E1 : (1 <=? slen s) = true) by (apply Z.leb_le; lia).
  assert (E2 : (slen s <=? n) = true) by (apply Z.leb_le; lia).
  assert (E3 : (0 <? slen s) = true) by (apply Z.ltb_lt; lia).
  rewrite E1, E2, E3. cbn. by rewrite Z.eqb_refl.
Qed.

(** ** Rows *)
(** ORDER BY is a total order on cells. *)
Lemma cell_oleb_total a b : cell_oleb a b = false → cell_oleb b a = true.
Proof. destruct a, b; simpl; try done; apply sleb_total. Qed.
Lemma cell_oleb_trans a b c : cell_oleb a b = true → cell_oleb b c = true → cell_oleb a c = true.
Proof. destruct a, b, c; simpl; try done; apply sleb_trans. Qed.
Lemma sleb_antisym s t : sleb s t = true → sleb t s = true → s = t.
Proof.
  rewrite !sleb_alt. intros [->|H1] [E|H2]; [done..|]. pose proof (sltb_trans _ _ _ H1 H2) as H. by rewrite sltb_irrefl in H.
Qed.
Lemma cell_oleb_antisym a b : cell_oleb a b = true → cell_oleb b a = true → a = b.
Proof. destruct a, b; simpl; try done; intros H1 H2; f_equal; by apply sleb_antisym. Qed.
Lemma cell_oleb_refl a : cell_oleb a a = true.
Proof. destruct a; simpl; try done; apply sleb_refl. Qed.

Lemma cell_eqb_true a b : cell_eqb a b = true → a = b.
Proof. by destruct a, b; simpl; try done; intros ->%String.eqb_eq. Qed.
Lemma cell_eqb_refl a : a ≠ CNull → cell_eqb a a = true.
Proof. destruct a; simpl; [done|..]; intros _; apply String.eqb_refl. Qed.
Lemma cell_eqb_sym a b : cell_eqb a b = cell_eqb b a.
Proof. destruct a, b; simpl; try done; apply String.eqb_sym. Qed.

Section tables.
Context {R : Type} (ck : R → bool) (conflict : R → R → bool).
Lemma insert_row_Some r rows rows' : insert_row ck conflict r rows = Some rows' →
  rows' = rows ++ [r] ∧ ck r = true ∧ ∀ q, q ∈ rows → conflict r q = false.
Proof.
  unfold insert_row. destruct (ck r && _) eqn:E; [|done]. intros [= <-]. unbool. split_and!; [done|done|].
  intros q Hq. rewrite forallb_forall in H0. apply list_elem_of_In, H0 in Hq. by apply negb_true_iff in Hq.
Qed.
Lemma update_rows_Some p f before after rows' : update_rows ck conflict p f before after = Some rows' →
  rows' = before ++ map (λ r, if p r then f r else r) after.
Proof.
  revert before. induction after as [|r after IH]; intros before; simpl.
  - intros [= <-]. by rewrite app_nil_r.
  - destruct (p r).
    + destruct (ck (f r) && _); [|done]. intros H. apply IH in H. by rewrite H, <- app_assoc.
    + intros H. apply IH in H. by rewrite H, <- app_assoc.
Qed.
Lemma update_rows_map p f rows rows' : update_rows ck conflict p f [] rows = Some rows' →
  rows' = map (λ r, if p r then f r else r) rows.
Proof. apply update_rows_Some. Qed.
End tables.

Lemma select_map_update {R} (p q : R → bool) (f : R → R) rows :
  (∀ r, q r = true → q (f r) = true) → (∀ r, q r = false → p r = true → q (f r) = false) →
  select q (map (λ r, if p r then f r else r) rows) = map (λ r, if p r then f r else r) (select q rows).
Proof.
  intros Hq Hq'. induction rows as [|r rows IH]; simpl; [done|]. destruct (q r) eqn:E.
  - replace (q (if p r then f r else r)) with true; [simpl; by rewrite IH|]. destruct (p r); [by rewrite Hq|done].
  - replace (q (if p r then f r else r)) with false; [done|]. destruct (p r) eqn:Ep; [by rewrite Hq'|done].
Qed.
Lemma map_select_all {R} (p : R → bool) (f : R → R) rows :
  map (λ r, if p r then f r else r) (select p rows) = map f (select p rows).
Proof.
  apply map_ext_in. intros r Hr. unfold select in Hr. apply filter_In in Hr as [_ ->]. done.
Qed.
Lemma elem_of_delete_rows {R} (p : R → bool) rows r : r ∈ delete_rows p rows ↔ r ∈ rows ∧ p r = false.
Proof. unfold delete_rows. rewrite !list_elem_of_In, filter_In, negb_true_iff. done. Qed.
Lemma head_elem {R} (l : list R) r : query_row l = Some r → r ∈ l.
Proof. destruct l; [done|]. intros [= ->]. left. Qed.
