(* ===== verification/Runtime.v ===== *)
(** * Runtime counters, the change log, accumulated uptime and authentication

    The singleton row [runtime_state] and the cursor-assigning helpers of
    [src/runtime/internal/store/dataplane.go] (readRuntimeState,
    readCursorFloor, reserveCursors, setServerCursor, insertChangeOrigin,
    insertChange, encodeRandomBase64, generateUUID), with the uptime clock of
    [collection.go] (checkpointUptimeTx, commitUptimeTransaction,
    CheckpointUptime). *)

From stdpp Require Import base list strings gmap.
From Stdlib Require Import ZArith Lia Ascii.
From S2P Require Import Prelude GoStd GoTime Uuid Api Models Sql Schema Monad.
From S2P Require Import Auth Json Wire.
Local Open Scope Z_scope.

Definition runtime_singleton (r : runtime_state_row) : bool := rs_singleton r =? 1.
Definition runtime_row (d : db) : option runtime_state_row :=
  query_row (select runtime_singleton (tb_runtime_state d)).

Definition decode_runtime (r : runtime_state_row) : option (Z * Z * Z * Z) :=
  match scan_u64 (rs_server_cursor r), scan_u64 (rs_envelope_generation r),
        scan_u64 (rs_instance_secret_generation r), scan_u64 (rs_collection_generation r) with
  | Some cursor, Some envelope, Some secret, Some collection => Some (cursor, envelope, secret, collection)
  | _, _, _, _ => None
  end.
(** Server cursor, envelope, secret and collection generations. *)
Definition readRuntimeState : Handler (Z * Z * Z * Z) :=
  row ← select_db runtime_row;
  row ← some_or_internal row;
  some_or_internal (decode_runtime row).
Definition readCursorFloor : Handler Z :=
  row ← select_db runtime_row;
  row ← some_or_internal row;
  some_or_internal (scan_u64 (rs_cursor_floor row)).

Definition reserveCursors (count : Z) : Handler Z :=
  '(cursor, _, _, _) ← readRuntimeState;
  if MaxUint64 - cursor <? count then fail "server_cursor_exhausted" false
  else mret (cursor + count).

Definition with_server_cursor (c : cell) (r : runtime_state_row) : runtime_state_row :=
  Mk_runtime_state (rs_singleton r) c (rs_cursor_floor r) (rs_envelope_generation r)
    (rs_instance_secret_generation r) (rs_collection_generation r) (rs_accumulated_uptime_ms r)
    (rs_active_boot_id r) (rs_collection_scan_after_record_id r).
Definition with_accumulated_uptime (c : cell) (r : runtime_state_row) : runtime_state_row :=
  Mk_runtime_state (rs_singleton r) (rs_server_cursor r) (rs_cursor_floor r) (rs_envelope_generation r)
    (rs_instance_secret_generation r) (rs_collection_generation r) c
    (rs_active_boot_id r) (rs_collection_scan_after_record_id r).
Definition setServerCursor (value : Z) : Handler () :=
  exec_db (update_runtime_state runtime_singleton (with_server_cursor (cell_u64 value))).

Definition insertChangeOrigin (cursor : Z) (kind : string) (envelopeGeneration : Z) : Handler () :=
  exec_db (insert_change_origins
    (Mk_change_origins (cell_u64 cursor) (CText kind)
       (if envelopeGeneration =? 0 then CNull else cell_u64 envelopeGeneration))).

(** An empty Go string is passed to SQL as NULL. *)
Definition text_or_null (s : string) : cell := if String.eqb s "" then CNull else CText s.
Definition insertChange (cursor : Z) (kind revisionID markerRecordID deviceID deviceChangeKind : string)
    (envelopeGeneration : Z) (now : gotime) : Handler () :=
  insertChangeOrigin cursor kind envelopeGeneration;;
  exec_db (insert_changes
    (Mk_changes (cell_u64 cursor) (CText kind) (UnixMilli now) (text_or_null revisionID)
       (text_or_null markerRecordID) CNull (text_or_null deviceID) (text_or_null deviceChangeKind))).

Definition encodeRandomBase64 (size : Z) : Handler string :=
  value ← rand_read size internal_error; mret (encodeBase64 value).
Definition generateUUID : Handler string :=
  value ← rand_read 16 internal_error; mret (New (bytes_list value)).

(** ** Uptime (collection.go) *)

(** The uptime that checkpointing adds: elapsed whole milliseconds, saturating. *)
Definition advance_uptime (accumulated elapsedMilliseconds : Z) : Z :=
  if MaxUint64 - accumulated <? elapsedMilliseconds then MaxUint64 else accumulated + elapsedMilliseconds.
Definition checkpointUptimeTx (now : gotime) : Handler (Z * gotime) :=
  eph ← get_eph;
  ensure_internal (booted eph);;
  let currentCheckpoint := uptimeCheckpoint eph in
  let elapsedMilliseconds := Milliseconds (Sub now currentCheckpoint) in
  let nextCheckpoint := if 0 <? elapsedMilliseconds
                        then Add currentCheckpoint (elapsedMilliseconds * Millisecond)
                        else currentCheckpoint in
  row ← select_db runtime_row;
  row ← some_or_internal row;
  accumulated ← some_or_internal (scan_u64 (rs_accumulated_uptime_ms row));
  if elapsedMilliseconds <=? 0 then mret (accumulated, nextCheckpoint)
  else
    let accumulated := advance_uptime accumulated elapsedMilliseconds in
    exec_db (update_runtime_state runtime_singleton (with_accumulated_uptime (cell_u64 accumulated)));;
    mret (accumulated, nextCheckpoint).

Definition with_checkpoint (t : gotime) (e : ephemeralState) : ephemeralState :=
  Mk_eph (bootID e) (booted e) t (grantDeadlines e) (enrollmentAttempts e)
    (snapshotAttempts e) (snapshotDeadlines e).
Definition commitUptimeTransaction (next : gotime) : Handler () :=
  commitTransaction;;
  eph ← get_eph;
  if After next (uptimeCheckpoint eph) then set_eph (with_checkpoint next eph) else mret ().

Definition CheckpointUptime (now : gotime) : Handler () :=
  beginTransaction;;
  '(_, checkpoint) ← checkpointUptimeTx now;
  commitUptimeTransaction checkpoint.

(** ** Frame facts *)
Lemma reads_readRuntimeState : Pres same_state readRuntimeState.
Proof. unfold readRuntimeState. reads. Qed.
Lemma reads_readCursorFloor : Pres same_state readCursorFloor.
Proof. unfold readCursorFloor. reads. Qed.
#[export] Hint Resolve reads_readRuntimeState reads_readCursorFloor : reads.
Lemma reads_reserveCursors n : Pres same_state (reserveCursors n).
Proof. unfold reserveCursors. reads. Qed.
#[export] Hint Resolve reads_reserveCursors : reads.
Lemma keeps_setServerCursor v : Pres same_db (setServerCursor v).
Proof. unfold setServerCursor. keeps. Qed.
Lemma keeps_insertChangeOrigin c k g : Pres same_db (insertChangeOrigin c k g).
Proof. unfold insertChangeOrigin. keeps. Qed.
#[export] Hint Resolve keeps_setServerCursor keeps_insertChangeOrigin : keeps.
Lemma keeps_insertChange c k r m d dk g now : Pres same_db (insertChange c k r m d dk g now).
Proof. unfold insertChange. keeps. Qed.
Lemma keeps_checkpointUptimeTx now : Pres same_db (checkpointUptimeTx now).
Proof. unfold checkpointUptimeTx. keeps. Qed.
#[export] Hint Resolve keeps_insertChange keeps_checkpointUptimeTx : keeps.
Lemma reads_encodeRandomBase64 n : Pres same_state (encodeRandomBase64 n).
Proof. unfold encodeRandomBase64. reads. Qed.
Lemma reads_generateUUID : Pres same_state generateUUID.
Proof. unfold generateUUID. reads. Qed.
#[export] Hint Resolve reads_encodeRandomBase64 reads_generateUUID : reads.
Lemma atomic_commitUptimeTransaction next : Atomic (commitUptimeTransaction next).
Proof. unfold commitUptimeTransaction. atomic. Qed.
#[export] Hint Resolve atomic_commitUptimeTransaction : atomic.
Lemma atomic_CheckpointUptime now : Atomic (CheckpointUptime now).
Proof. unfold CheckpointUptime. atomic. Qed.

(** ** Device authentication

    parseAuthorization, authenticate, requestFingerprint and pathIdentifier of
    [src/runtime/internal/store/dataplane.go]. *)

Local Open Scope go_scope.
Record deviceAuth := { da_DeviceID : string; da_Hash : string; da_Scopes : list string; da_Revoked : bool }.

(** [strings.TrimSpace(value) != value]: [value] starts or ends with white space.
    Only values whose tail is base64url text get past the following decode, so the
    ASCII part of the Unicode white-space set is the part that matters. *)
Definition first_space (s : string) : bool := match s with String c _ => is_space c | _ => false end.
Definition trimmed (s : string) : bool := negb (first_space s) && negb (first_space (srev s)).

Definition parseAuthorization (value scheme : string) : option string :=
  let prefix := scheme +:+ " " in
  let? rest := strip_prefix prefix value else None;;
  require trimmed value && negb (contains_byte " " rest) else None;;
  decodeBase64 rest 32 0 0.

Definition pathIdentifier (path prefix suffix : string) : option string :=
  let value := trim_suffix suffix (trim_prefix prefix path) in
  if String.eqb value "" || contains_byte "/" value || negb (validateUUID value) then None
  else Some value.

Definition wantScopes : string := marshalJSON FixedScopes.

(** The columns of one row of the registry, checked. *)
Definition scan_credential (r : devices_row) : option (string * string * bool) :=
  let? deviceID := scan_uuid (d_device_id r) else None;;
  let? stored := scan_blob 32 32 (d_token_hash r) else None;;
  let? scopesJSON := scan_text (slen wantScopes) (slen wantScopes) (d_scopes_json r) else None;;
  require String.eqb scopesJSON wantScopes else None;;
  Some (deviceID, stored, match d_revoked_at_ms r with Some _ => true | None => false end).

Section authenticate.
Context (identity : Identity).

(** The scan of the registry: [None] is an invalid row; the last row whose hash
    matches wins. *)
Fixpoint authenticate_rows (token : string) (match_ : option deviceAuth) (rows : list devices_row)
    : option (option deviceAuth) :=
  match rows with
  | [] => Some match_
  | r :: rest =>
      let? '(deviceID, stored, revoked) := scan_credential r else None;;
      let? computed := DeviceTokenHash (InstanceID identity) (VaultID identity) deviceID token else None;;
      if VerifyHash stored computed then
        let? scopes := unmarshalAs (list string) wantScopes else None;;
        require ValidateScopes scopes else None;;
        authenticate_rows token
          (Some {| da_DeviceID := deviceID; da_Hash := stored; da_Scopes := scopes; da_Revoked := revoked |}) rest
      else authenticate_rows token match_ rest
  end.

Definition registry_rows (limit : nat) (d : db) : list devices_row :=
  take limit (order_by (λ a b, cell_oleb (d_device_id a) (d_device_id b)) (tb_devices d)).

Definition authenticate (authorization requiredScope : string) : Handler deviceAuth :=
  token ← from_option (parseAuthorization authorization "Bearer") (NewError "unauthorized" false);
  rows ← select_db (registry_rows 65);
  found ← some_or_internal (authenticate_rows token None rows);
  ensure_internal (length rows <=? 64)%nat;;
  device ← from_option found (NewError "unauthorized" false);
  ensure (negb (da_Revoked device)) (NewError "token_revoked" false);;
  ensure (String.eqb requiredScope "" || existsb (String.eqb requiredScope) (da_Scopes device))
    (NewError "scope_denied" false);;
  mret device.

Definition requestFingerprint (label deviceID body : string) : Handler string :=
  some_or_internal (RequestBodyFingerprint label (InstanceID identity) (VaultID identity) deviceID body).

Lemma reads_authenticate a b : Pres same_state (authenticate a b).
Proof. unfold authenticate. reads. Qed.
Lemma reads_requestFingerprint a b c : Pres same_state (requestFingerprint a b c).
Proof. unfold requestFingerprint. reads. Qed.
End authenticate.
#[export] Hint Resolve reads_authenticate reads_requestFingerprint : reads.
