(* ===== verification/Receipts.v ===== *)
(** * Operation receipts

    Replies to state-changing requests are stored and replayed when the same
    request arrives again.  lookupReceipt, preflightOperationReceiptKeys and its
    helpers, storeReceipt, storeReceiptAtUptime and pruneOperationReceipts of
    [src/runtime/internal/store/dataplane.go]. *)

From stdpp Require Import base list strings gmap.
From Stdlib Require Import ZArith Lia Ascii.
From S2P Require Import Prelude GoStd GoTime Uuid Auth Json Wire Api Models Sql Schema Monad Keys Runtime.
Local Open Scope Z_scope.
Local Open Scope go_scope.

Definition receiptMinimumUptime : Z := 30 * 24 * Hour.
Definition receiptMinimumCount : Z := 10000.

Definition validOperationReceiptKey (operation : string) : bool :=
  String.eqb operation "sync" || String.eqb operation "vault-envelope"
  || (has_prefix revocation_prefix operation && validateUUID (trim_prefix revocation_prefix operation)).

Definition rejectReceiptKeyAliases (column : operation_receipts_row → cell) (key : string) : Handler () :=
  rows ← select_db (λ d, take 1 (select (λ r, alias_of key (column r)) (tb_operation_receipts d)));
  ensure_internal (match rows with [] => true | _ => false end).

(** The rows whose [column] is the key as text or blob, or extends it, where
    [other] is exactly [value]. *)
Definition key_candidates (column other : operation_receipts_row → cell) (key value : string) (d : db) : list Z :=
  map op_receipt_sequence
    (select (λ r, cell_eqb (other r) (CText value) && in_range (CText key) (CText (bump_last key)) (column r))
       (tb_operation_receipts d)
     ++ select (λ r, cell_eqb (other r) (CText value) && in_range (CBlob key) (CBlob (bump_last key)) (column r))
       (tb_operation_receipts d)).
Definition fingerprint_candidates (fingerprint : string) (d : db) : list Z :=
  map op_receipt_sequence
    (select (λ r, cell_eqb (op_request_fingerprint r) (CBlob fingerprint)) (tb_operation_receipts d)).

Definition receiptLogicalKeyCandidate : Z := 1.
Definition receiptFingerprintCandidate : Z := 2.
Definition add_source (source sequence : Z) (candidates : gmap Z Z) : gmap Z Z :=
  <[sequence := Z.lor (default 0 (candidates !! sequence)) source]> candidates.
Definition collectReceiptKeyCandidates (candidates : gmap Z Z) (source : Z) (limit : nat)
    (rows_of : db → list Z) : Handler (gmap Z Z) :=
  rows ← select_db (λ d, take limit (rows_of d));
  ensure_internal (forallb (λ q, 0 <? q) rows);;
  ensure_internal (length rows <? limit)%nat;;
  mret (fold_left (λ acc q, add_source source q acc) rows candidates).

(** One row of receiptCandidateValidationQuery. *)
Definition candidate_row_ok (source : Z) (deviceID currentOperation requestID : string) (sequence : Z)
    (row : operation_receipts_row * option operation_receipt_retention_row) : bool :=
  let '(r, q) := row in
  (op_receipt_sequence r =? sequence)
  && match scan_uuid (op_device_id r), scan_text 1 maxOperationBytes (op_operation r), scan_uuid (op_request_id r) with
     | Some receiptDeviceID, Some operation, Some storedRequestID =>
         String.eqb receiptDeviceID deviceID
         && validOperationReceiptKey operation
         && negb (negb (String.eqb storedRequestID requestID)
                  && (negb (Z.land source receiptLogicalKeyCandidate =? 0)
                      || negb (String.eqb currentOperation "vault-envelope")
                      || negb (String.eqb operation "vault-envelope")))
         && match q with
            | None => false
            | Some m =>
                (rt_receipt_sequence m =? sequence)
                && match scan_uuid (rt_device_id m) with
                   | Some mappingDeviceID => String.eqb mappingDeviceID receiptDeviceID
                   | None => false end
                && text_in (rt_receipt_class m) ["sync"; "other"]
                && Bool.eqb (String.eqb operation "sync") (cell_eqb (rt_receipt_class m) (CText "sync"))
                && match scan_blob 8 8 (op_created_uptime_ms r), scan_blob 8 8 (rt_created_uptime_ms m) with
                   | Some receiptUptime, Some mappingUptime => String.eqb receiptUptime mappingUptime
                   | _, _ => false end
            end
     | _, _, _ => false
     end.
Definition validateReceiptKeyCandidate (sequence source : Z) (deviceID currentOperation requestID : string) : Handler () :=
  ensure_internal (negb (source =? 0)
    && (Z.ldiff source (Z.lor receiptLogicalKeyCandidate receiptFingerprintCandidate) =? 0));;
  rows ← select_db (λ d, take 2
    (left_join (λ r q, rt_receipt_sequence q =? op_receipt_sequence r)
       (select (λ r, op_receipt_sequence r =? sequence) (tb_operation_receipts d))
       (tb_operation_receipt_retention d)));
  ensure_internal (forallb (candidate_row_ok source deviceID currentOperation requestID sequence) rows
    && (length rows =? 1)%nat).

Definition preflightOperationReceiptKeys (deviceID operation requestID fingerprint : string) : Handler () :=
  ensure_internal (validateUUID deviceID && validOperationReceiptKey operation && validateUUID requestID);;
  rejectReceiptKeyAliases op_device_id deviceID;;
  rejectReceiptKeyAliases op_request_id requestID;;
  candidates ← collectReceiptKeyCandidates ∅ receiptLogicalKeyCandidate 4
    (key_candidates op_request_id op_device_id requestID deviceID);
  candidates ← collectReceiptKeyCandidates candidates receiptLogicalKeyCandidate 4
    (key_candidates op_device_id op_request_id deviceID requestID);
  candidates ← collectReceiptKeyCandidates candidates receiptFingerprintCandidate 2
    (fingerprint_candidates fingerprint);
  for_each (map_to_list candidates) (λ c, validateReceiptKeyCandidate c.1 c.2 deviceID operation requestID).

Definition receipt_key_is (deviceID operation requestID : string) (r : operation_receipts_row) : bool :=
  cell_eqb (op_device_id r) (CText deviceID) && cell_eqb (op_operation r) (CText operation)
  && cell_eqb (op_request_id r) (CText requestID).
Definition ok_response (status : Z) (body : string) : Response :=
  {| Status := status; RBody := body; Headers := [] |}.

Section receipts.
Context (identity : Identity).

Definition decode_receipt (operation : string) (r : operation_receipts_row) : option (string * Response) :=
  let? storedFingerprint := scan_blob 32 32 (op_request_fingerprint r) else None;;
  let? body := scan_body maxBodyBytes (op_response_json r) else None;;
  require validateStoredOperationResponse operation (op_response_status r) body identity else None;;
  Some (storedFingerprint, ok_response (op_response_status r) body).

Definition lookupReceipt (deviceID operation requestID fingerprint : string) : Handler (option Response) :=
  row ← select_db (λ d, query_row (select (receipt_key_is deviceID operation requestID) (tb_operation_receipts d)));
  match row with
  | None => preflightOperationReceiptKeys deviceID operation requestID fingerprint;; mret None
  | Some r =>
      '(stored, response) ← some_or_internal (decode_receipt operation r);
      ensure (VerifyHash stored fingerprint) (NewError "request_id_reused" false);;
      mret (Some response)
  end.

Definition receipt_class (operation : string) : string := if String.eqb operation "sync" then "sync" else "other".
Definition class_rows (deviceID receiptClass : string) (d : db) : list operation_receipt_retention_row :=
  select (λ r, cell_eqb (rt_device_id r) (CText deviceID) && cell_eqb (rt_receipt_class r) (CText receiptClass))
    (tb_operation_receipt_retention d).
(** ORDER BY receipt_sequence DESC LIMIT 1 OFFSET n. *)
Definition nth_newest (n : nat) (rows : list operation_receipt_retention_row) : option Z :=
  nth_error (order_by (λ a b, b <=? a) (map rt_receipt_sequence rows)) n.
Definition expired_receipts (deviceID receiptClass : string) (boundary cutoff : Z) (d : db) : list Z :=
  take 256 (order_by Z.leb (map rt_receipt_sequence
    (select (λ r, (rt_receipt_sequence r <? boundary) && cell_leb (rt_created_uptime_ms r) (cell_u64 cutoff))
       (class_rows deviceID receiptClass d)))).
Definition delete_receipt (sequence : Z) (d : db) : option db :=
  Some (set_operation_receipts (delete_rows (λ r, op_receipt_sequence r =? sequence) (tb_operation_receipts d)) d).
Definition delete_retention (deviceID receiptClass : string) (sequence : Z) (d : db) : option db :=
  Some (set_operation_receipt_retention
    (delete_rows (λ r, cell_eqb (rt_device_id r) (CText deviceID) && cell_eqb (rt_receipt_class r) (CText receiptClass)
                       && (rt_receipt_sequence r =? sequence)) (tb_operation_receipt_retention d)) d).
Definition pruneOperationReceipts (deviceID operation : string) (accumulatedUptimeMS retainCount minimumAge : Z) : Handler () :=
  ensure_internal (negb ((retainCount <? 1) || (minimumAge <? 0)));;
  let minimumAgeMS := Z.quot minimumAge Millisecond in
  if accumulatedUptimeMS <? minimumAgeMS then mret () else
  let cutoff := accumulatedUptimeMS - minimumAgeMS in
  let receiptClass := receipt_class operation in
  boundary ← select_db (λ d, nth_newest (Z.to_nat (retainCount - 1)) (class_rows deviceID receiptClass d));
  match boundary with
  | None => mret ()
  | Some protectedBoundary =>
      ensure_internal (0 <? protectedBoundary);;
      expired ← select_db (expired_receipts deviceID receiptClass protectedBoundary cutoff);
      ensure_internal (forallb (λ q, 0 <? q) expired);;
      for_each expired (λ sequence,
        exec_db (delete_receipt sequence);;
        exec_db (delete_retention deviceID receiptClass sequence))
  end.

(** The rowid SQLite gives a new row: one above the largest in use. *)
Definition next_rowid (ids : list Z) : Z :=
  match ids with [] => 1 | i :: rest => 1 + fold_left Z.max rest i end.
Definition storeReceiptAtUptime (deviceID operation requestID fingerprint : string) (response : Response)
    (now : gotime) (accumulatedUptimeMS : Z) : Handler () :=
  let encodedUptime := cell_u64 accumulatedUptimeMS in
  d ← read_tx;
  let receiptSequence := next_rowid (map op_receipt_sequence (tb_operation_receipts d)) in
  exec_db (insert_operation_receipts
    (Mk_operation_receipts receiptSequence (CText deviceID) (CText operation) (CText requestID) (CBlob fingerprint)
       (Status response) (CBlob (RBody response)) (UnixMilli now) encodedUptime));;
  ensure_internal (0 <? receiptSequence);;
  exec_db (insert_operation_receipt_retention
    (Mk_operation_receipt_retention (CText deviceID) (CText (receipt_class operation)) receiptSequence encodedUptime));;
  pruneOperationReceipts deviceID operation accumulatedUptimeMS receiptMinimumCount receiptMinimumUptime.

Definition storeReceipt (deviceID operation requestID fingerprint : string) (response : Response)
    (now : gotime) : Handler gotime :=
  '(accumulatedUptimeMS, checkpoint) ← checkpointUptimeTx now;
  storeReceiptAtUptime deviceID operation requestID fingerprint response now accumulatedUptimeMS;;
  mret checkpoint.

Lemma reads_rejectReceiptKeyAliases c k : Pres same_state (rejectReceiptKeyAliases c k).
Proof. unfold rejectReceiptKeyAliases. reads. Qed.
Lemma reads_collectReceiptKeyCandidates c s l f : Pres same_state (collectReceiptKeyCandidates c s l f).
Proof. unfold collectReceiptKeyCandidates. reads. Qed.
Lemma reads_validateReceiptKeyCandidate a b c d e : Pres same_state (validateReceiptKeyCandidate a b c d e).
Proof. unfold validateReceiptKeyCandidate. reads. Qed.
Hint Resolve reads_rejectReceiptKeyAliases reads_collectReceiptKeyCandidates reads_validateReceiptKeyCandidate : reads.
Lemma reads_preflightOperationReceiptKeys a b c d : Pres same_state (preflightOperationReceiptKeys a b c d).
Proof. unfold preflightOperationReceiptKeys. reads. Qed.
Hint Resolve reads_preflightOperationReceiptKeys : reads.
Lemma reads_lookupReceipt a b c d : Pres same_state (lookupReceipt a b c d).
Proof. unfold lookupReceipt. reads. Qed.
Lemma keeps_pruneOperationReceipts a b c d e : Pres same_db (pruneOperationReceipts a b c d e).
Proof. unfold pruneOperationReceipts. keeps. Qed.
Hint Resolve keeps_pruneOperationReceipts : keeps.
Lemma keeps_storeReceiptAtUptime a b c d e f g : Pres same_db (storeReceiptAtUptime a b c d e f g).
Proof. unfold storeReceiptAtUptime. keeps. Qed.
Hint Resolve keeps_storeReceiptAtUptime : keeps.
Lemma keeps_storeReceipt a b c d e f : Pres same_db (storeReceipt a b c d e f).
Proof. unfold storeReceipt. keeps. Qed.
End receipts.
#[export] Hint Resolve reads_lookupReceipt reads_preflightOperationReceiptKeys : reads.
#[export] Hint Resolve keeps_storeReceiptAtUptime keeps_storeReceipt : keeps.
