(* ===== verification/Persist.v ===== *)
(** * Checks of stored state used while serving requests

    validatePersistentEnvelope and validatePersistentChangeOrigins of
    [src/runtime/internal/store/validation.go]: the envelope row agrees with the
    runtime counters, and the permanent change origins are exactly the cursors
    1, 2, ..., server cursor, each owned by one durable row.  Errors carry the
    detail text of [invalidPersistentState]. *)

From stdpp Require Import base list strings gmap.
From Stdlib Require Import ZArith Lia Ascii.
From S2P Require Import Prelude GoStd Json Wire Models Sql Schema Monad.
Local Open Scope Z_scope.
Local Open Scope go_scope.

Definition envelope_row (d : db) : option vault_envelope_row :=
  query_row (select (λ r, vn_singleton r =? 1) (tb_vault_envelope d)).

Definition validatePersistentEnvelope (identity : Identity) (runtimeGeneration secretGeneration : Z) : M string () :=
  row ← query "read envelope row" envelope_row;
  match row with
  | None => ensure (runtimeGeneration =? 0) "runtime envelope generation has no envelope"
  | Some r =>
      '(generation, envelope) ← from_option
        (let? generation := scan_u64 (vn_generation r) else None;;
         let? body := scan_body maxBodyBytes (vn_envelope_json r) else None;;
         let? envelope := decodeStoredCanonicalAs vaultEnvelope body else None;;
         Some (generation, envelope)) "invalid envelope row";
      ensure (match validateEnvelope envelope identity with
              | Some (bodyGeneration, bodySecret) =>
                  (generation =? runtimeGeneration) && (bodyGeneration =? generation) && (bodySecret =? secretGeneration)
              | None => false
              end) "inconsistent envelope row"
  end.

(** The projection [durable_owners]. *)
Definition durable_owners (d : db) : list (cell * string) :=
  map (λ r, (v_change_cursor r, "record_revision")) (tb_record_revisions d)
  ++ map (λ r, (do_created_cursor r, "device_changed")) (select (λ r, negb (is_null (do_created_cursor r))) (tb_device_origins d))
  ++ map (λ r, (do_revoked_cursor r, "device_changed")) (select (λ r, negb (is_null (do_revoked_cursor r))) (tb_device_origins d))
  ++ map (λ r, (en_created_cursor r, "device_changed")) (tb_enrollments d)
  ++ map (λ r, (mk_change_cursor r, "collection_marker")) (tb_collection_markers d).
Definition has_origin (d : db) (cursor kind : cell) : bool :=
  existsb (λ o, cell_eqb (co_cursor o) cursor && cell_eqb (co_kind o) kind) (tb_change_origins d).
Definition orphan_change (d : db) : bool :=
  existsb (λ c, negb (has_origin d (ch_cursor c) (ch_kind c))) (tb_changes d).
Definition orphan_owner (d : db) : bool :=
  existsb (λ o, negb (has_origin d o.1 (CText o.2))) (durable_owners d).

(** A row of the origin query: the origin and its seven left joins. *)
Record origin_join := Mk_origin_join {
  oj_o : change_origins_row;
  oj_c : option changes_row;
  oj_r : option record_revisions_row;
  oj_m : option collection_markers_row;
  oj_mo : option collection_markers_row;
  oj_d : option device_origins_row;
  oj_e : option enrollments_row;
  oj_rd : option device_origins_row }.
Definition origin_joins (d : db) : list origin_join :=
  flat_map (λ o,
    flat_map (λ c, flat_map (λ r, flat_map (λ m, flat_map (λ mo, flat_map (λ dd, flat_map (λ e,
      map (λ rd, Mk_origin_join o c r m mo dd e rd)
        (matches (λ x, cell_eqb (do_revoked_cursor x) (co_cursor o)) (tb_device_origins d)))
        (matches (λ x, cell_eqb (en_created_cursor x) (co_cursor o)) (tb_enrollments d)))
        (matches (λ x, cell_eqb (do_created_cursor x) (co_cursor o)) (tb_device_origins d)))
        (matches (λ x, cell_eqb (mk_change_cursor x) (co_cursor o)) (tb_collection_markers d)))
        (matches (λ x, cell_eqb (mk_record_id x) (ocell ch_collection_marker_record_id c)) (tb_collection_markers d)))
        (matches (λ x, cell_eqb (v_change_cursor x) (co_cursor o)) (tb_record_revisions d)))
        (matches (λ x, cell_eqb (ch_cursor x) (co_cursor o)) (tb_changes d)))
    (order_by (λ a b, cell_oleb (co_cursor a) (co_cursor b)) (tb_change_origins d)).

(** The scanned row: every optional column is absent or well-formed. *)
Record origin_scan := Mk_origin_scan {
  os_cursor : Z; os_kind : string; os_generation : option string; os_change : bool;
  os_changeRevisionID : option string; os_changeMarkerRecordID : option string; os_changeMarkerBody : option string;
  os_changedDeviceID : option string; os_deviceChangeKind : option string;
  os_revision : option (string * Z);
  os_markerRecordID : option string; os_markerCursor : option string; os_markerBody : option string;
  os_markerOriginRecordID : option string; os_markerOriginBody : option string;
  os_originDeviceID : option string; os_revokedDeviceID : option string }.
Definition text_of_kind (c : cell) (l : list string) : option string :=
  match c with CText s => if existsb (String.eqb s) l then Some s else None | _ => None end.
Definition opt_text_of_kind (c : cell) (l : list string) : option (option string) :=
  match c with CNull => Some None | _ => Some <$> text_of_kind c l end.
Definition opt_eqb (a b : option string) : bool :=
  match a, b with Some x, Some y => String.eqb x y | None, None => true | _, _ => false end.
Definition is_some {A} (o : option A) : bool := match o with Some _ => true | None => false end.

Definition scan_origin (j : origin_join) : option origin_scan :=
  let o := oj_o j in
  let? cursor := scan_u64 (co_cursor o) else None;;
  let? kind := text_of_kind (co_kind o) change_kinds else None;;
  let? generation := scan_opt_blob 8 8 (co_envelope_generation o) else None;;
  let? changeState := match oj_c j with
                      | None => Some false
                      | Some c => if is_text (ch_kind c) && cell_eqb (ch_kind c) (co_kind o) then Some true else None
                      end else None;;
  let? revision := match oj_r j with
                   | None => Some None
                   | Some r => let? id := scan_uuid (v_revision_id r) else None;;
                               require flag (v_retained r) else None;;
                               Some (Some (id, v_retained r))
                   end else None;;
  let? changeRevisionID := scan_opt_uuid (ocell ch_record_revision_id (oj_c j)) else None;;
  let? changeMarkerRecordID := scan_opt_uuid (ocell ch_collection_marker_record_id (oj_c j)) else None;;
  let? changeMarkerBody := scan_opt_blob 1 maxBodyBytes (ocell ch_collection_marker_json (oj_c j)) else None;;
  let? changedDeviceID := scan_opt_uuid (ocell ch_device_changed_id (oj_c j)) else None;;
  let? deviceChangeKind := opt_text_of_kind (ocell ch_device_change_kind (oj_c j)) ["enrolled"; "revoked"] else None;;
  let? markerRecordID := scan_opt_uuid (ocell mk_record_id (oj_m j)) else None;;
  let? markerCursor := scan_opt_blob 8 8 (ocell mk_change_cursor (oj_m j)) else None;;
  let? markerBody := scan_opt_blob 1 maxBodyBytes (ocell mk_marker_json (oj_m j)) else None;;
  let? markerOriginRecordID := scan_opt_uuid (ocell mk_record_id (oj_mo j)) else None;;
  let? markerOriginBody := scan_opt_blob 1 maxBodyBytes (ocell mk_marker_json (oj_mo j)) else None;;
  require Bool.eqb (is_some markerOriginRecordID) (is_some markerOriginBody) else None;;
  let? originDeviceID := scan_opt_uuid (ocell do_device_id (oj_d j)) else None;;
  let? enrollmentDeviceID := scan_opt_uuid (ocell en_device_id (oj_e j)) else None;;
  let? revokedDeviceID := scan_opt_uuid (ocell do_device_id (oj_rd j)) else None;;
  require opt_eqb originDeviceID enrollmentDeviceID else None;;
  Some (Mk_origin_scan cursor kind generation changeState changeRevisionID changeMarkerRecordID changeMarkerBody
          changedDeviceID deviceChangeKind revision markerRecordID markerCursor markerBody
          markerOriginRecordID markerOriginBody originDeviceID revokedDeviceID).

(** The switch on the origin's kind, for the kinds that own a durable row. *)
Definition revision_owner_ok (s : origin_scan) : bool :=
  negb (is_some (os_generation s) || is_some (os_markerRecordID s) || is_some (os_markerOriginRecordID s)
        || is_some (os_originDeviceID s) || is_some (os_revokedDeviceID s) || is_some (os_changeMarkerRecordID s)
        || is_some (os_changeMarkerBody s) || is_some (os_changedDeviceID s) || is_some (os_deviceChangeKind s))
  && match os_revision s with
     | None => false
     | Some (id, retained) =>
         if retained =? 1 then os_change s && opt_eqb (os_changeRevisionID s) (Some id)
         else negb (os_change s) && negb (is_some (os_changeRevisionID s))
     end.
Definition marker_owner_ok (s : origin_scan) : bool :=
  negb (is_some (os_generation s) || is_some (os_revision s) || is_some (os_originDeviceID s)
        || is_some (os_revokedDeviceID s) || is_some (os_changeRevisionID s)
        || is_some (os_changedDeviceID s) || is_some (os_deviceChangeKind s))
  && os_change s
  && match os_markerRecordID s, os_changeMarkerRecordID s, os_changeMarkerBody s, os_markerCursor s, os_markerBody s with
     | Some markerRecordID, Some changeMarkerRecordID, Some changeMarkerBody, Some markerCursor, Some markerBody =>
         String.eqb changeMarkerRecordID markerRecordID
         && match decodeStoredCollectionMarker changeMarkerBody, decodeStoredCollectionMarker markerBody,
                  DecodeUint64 markerCursor with
            | Some changeMarker, Some currentMarker, Some currentMarkerCursor =>
                let ownerAtOrigin := is_some (os_markerOriginRecordID s) in
                String.eqb (cm_RecordID changeMarker) changeMarkerRecordID
                && String.eqb (cm_RecordID currentMarker) markerRecordID
                && negb (currentMarkerCursor <? os_cursor s)
                && Bool.eqb ownerAtOrigin (currentMarkerCursor =? os_cursor s)
                && (negb ownerAtOrigin
                    || (opt_eqb (os_markerOriginRecordID s) (Some changeMarkerRecordID)
                        && opt_eqb (os_markerOriginBody s) (Some changeMarkerBody)))
                && (negb (currentMarkerCursor =? os_cursor s) || String.eqb changeMarkerBody markerBody)
            | _, _, _ => false
            end
     | _, _, _, _, _ => false
     end.
Definition device_owner_ok (s : origin_scan) : bool :=
  negb (is_some (os_generation s) || is_some (os_revision s) || is_some (os_markerRecordID s)
        || is_some (os_markerOriginRecordID s) || is_some (os_changeRevisionID s)
        || is_some (os_changeMarkerRecordID s) || is_some (os_changeMarkerBody s))
  && os_change s
  && match os_changedDeviceID s, os_deviceChangeKind s with
     | Some changed, Some kind =>
         match os_originDeviceID s, os_revokedDeviceID s with
         | Some origin, None => String.eqb changed origin && String.eqb kind "enrolled"
         | None, Some revoked => String.eqb changed revoked && String.eqb kind "revoked"
         | _, _ => false
         end
     | _, _ => false
     end.
Definition envelope_origin_ok (envelopeGeneration : Z) (s : origin_scan) : option Z :=
  let? generation := match os_generation s with Some g => DecodeUint64 g | None => None end else None;;
  require negb (envelopeGeneration =? MaxUint64) && (generation =? envelopeGeneration + 1)
          && negb (is_some (os_revision s)) && os_change s
          && negb (is_some (os_markerRecordID s) || is_some (os_markerOriginRecordID s) || is_some (os_originDeviceID s)
                   || is_some (os_revokedDeviceID s) || is_some (os_changeRevisionID s)
                   || is_some (os_changeMarkerRecordID s) || is_some (os_changeMarkerBody s)
                   || is_some (os_changedDeviceID s) || is_some (os_deviceChangeKind s)) else None;;
  Some generation.

(** The state of the scan: previous cursor, last envelope generation, and the
    generation at each snapshot cut. *)
Definition origin_step (serverCursor : Z) (acc : Z * Z * gmap Z Z) (j : origin_join) : M string (Z * Z * gmap Z Z) :=
  let '(previous, envelopeGeneration, cuts) := acc in
  s ← from_option (scan_origin j) "invalid change origin";
  let cursor := os_cursor s in
  ensure (negb (cursor =? 0) && negb (previous =? MaxUint64) && (cursor =? previous + 1) && (cursor <=? serverCursor))
    "change origins are not contiguous";;
  if String.eqb (os_kind s) "record_revision" then
    ensure (revision_owner_ok s) "change origin does not match durable owner";;
    mret (cursor, envelopeGeneration, cuts)
  else if String.eqb (os_kind s) "collection_marker" then
    ensure (marker_owner_ok s) "change origin does not match durable owner";;
    mret (cursor, envelopeGeneration, cuts)
  else if String.eqb (os_kind s) "device_changed" then
    ensure (device_owner_ok s) "change origin does not match durable owner";;
    mret (cursor, envelopeGeneration, cuts)
  else if String.eqb (os_kind s) "envelope_changed" then
    generation ← from_option (envelope_origin_ok envelopeGeneration s) "invalid envelope change origin";
    mret (cursor, generation, map_imap (λ cut g, Some (if cursor <=? cut then generation else g)) cuts)
  else throw "invalid change origin kind".

Definition validatePersistentChangeOrigins (serverCursor runtimeEnvelopeGeneration : Z) (snapshotCuts : list Z)
    : M string (gmap Z Z) :=
  ensure (length snapshotCuts <=? 8)%nat "too many snapshot cuts";;
  ensure (forallb (λ cut, cut <=? serverCursor) snapshotCuts) "snapshot cut exceeds server cursor";;
  let generationsAtCut : gmap Z Z := list_to_map (map (λ cut, (cut, 0)) snapshotCuts) in
  orphans ← query "durable change owner does not match origin" (λ d, orphan_change d || orphan_owner d);
  ensure (negb orphans) "durable change owner does not match origin";;
  rows ← query "read change origins" origin_joins;
  '(previous, envelopeGeneration, cuts) ← fold_each rows (0, 0, generationsAtCut) (origin_step serverCursor);
  ensure (previous =? serverCursor) "change origins do not reach server cursor";;
  ensure (envelopeGeneration =? runtimeEnvelopeGeneration) "envelope generation does not match accepted history";;
  mret cuts.

Lemma reads_validatePersistentEnvelope a b c : Pres same_state (validatePersistentEnvelope a b c).
Proof. unfold validatePersistentEnvelope. reads. Qed.
Lemma reads_validatePersistentChangeOrigins a b c : Pres same_state (validatePersistentChangeOrigins a b c).
Proof. unfold validatePersistentChangeOrigins, origin_step. reads. Qed.
#[export] Hint Resolve reads_validatePersistentEnvelope reads_validatePersistentChangeOrigins : reads.
