(* ===== verification/Envelope.v ===== *)
(** * The vault envelope

    handleGetEnvelope and handlePutEnvelope of
    [src/runtime/internal/store/envelope.go]: one opaque envelope, replaced by
    compare-and-swap on its generation. *)

From stdpp Require Import base list strings gmap.
From Stdlib Require Import ZArith Lia Ascii.
From S2P Require Import Prelude GoStd GoTime Auth Json Wire Api Models Sql Schema Monad Runtime.
From S2P Require Import Receipts Persist.
Local Open Scope Z_scope.
Local Open Scope go_scope.

Definition envelope_label : string := "JAT vault envelope request fingerprint v1".
Definition with_envelope_generation (c : cell) (r : runtime_state_row) : runtime_state_row :=
  Mk_runtime_state (rs_singleton r) (rs_server_cursor r) (rs_cursor_floor r) c
    (rs_instance_secret_generation r) (rs_collection_generation r) (rs_accumulated_uptime_ms r)
    (rs_active_boot_id r) (rs_collection_scan_after_record_id r).
(** INSERT .. ON CONFLICT(singleton) DO UPDATE. *)
Definition upsert_vault_envelope (generation body : cell) (d : db) : option db :=
  if existsb (λ r, vn_singleton r =? 1) (tb_vault_envelope d) then
    update_vault_envelope (λ r, vn_singleton r =? 1) (λ r, Mk_vault_envelope (vn_singleton r) generation body) d
  else insert_vault_envelope (Mk_vault_envelope 1 generation body) d.

Section envelope.
Context (identity : Identity).

(** The stored envelope, checked against the runtime counters. *)
Definition decode_envelope_row (runtimeGeneration secretGeneration : Z) (r : vault_envelope_row) : option string :=
  let? storedGeneration := scan_u64 (vn_generation r) else None;;
  let? body := scan_body maxBodyBytes (vn_envelope_json r) else None;;
  require storedGeneration =? runtimeGeneration else None;;
  let? envelope := unmarshalAs vaultEnvelope body else None;;
  let? '(envelopeGeneration, envelopeSecretGeneration) := validateEnvelope envelope identity else None;;
  require (envelopeGeneration =? runtimeGeneration) && (envelopeSecretGeneration =? secretGeneration)
          && String.eqb (marshalJSON envelope) body else None;;
  Some body.

Definition handleGetEnvelope (call : Request) : Handler Response :=
  ensure (String.eqb (Body call) "") (NewError "invalid_request" false);;
  beginTransaction;;
  authenticate identity (Authorization call) "envelope:read";;
  '(_, runtimeGeneration, secretGeneration, _) ← readRuntimeState;
  row ← select_db envelope_row;
  match row with
  | None =>
      ensure_internal (runtimeGeneration =? 0);;
      fail "envelope_missing" false
  | Some r =>
      body ← some_or_internal (decode_envelope_row runtimeGeneration secretGeneration r);
      mret (ok_response 200 body)
  end.

(** The guards on the requested generation, in the order of the code. *)
Definition put_envelope_checks (request : putEnvelopeRequest) (expected cursor storedGeneration secretGeneration : Z) : Handler Z :=
  ensure (expected =? storedGeneration) (NewError "generation_conflict" true);;
  ensure (negb (storedGeneration =? MaxUint64)) (NewError "generation_exhausted" false);;
  newGeneration ← from_option (parseUint64 (pe_NewGeneration request)) (NewError "invalid_request" false);
  ensure (newGeneration =? storedGeneration + 1) (NewError "invalid_request" false);;
  ensure (negb (cursor =? MaxUint64)) (NewError "server_cursor_exhausted" false);;
  ensure (match validateEnvelope (pe_Envelope request) identity with
          | Some (envelopeGeneration, envelopeSecretGeneration) =>
              (envelopeGeneration =? newGeneration) && (envelopeSecretGeneration =? secretGeneration)
          | None => false end) (NewError "invalid_request" false);;
  mret newGeneration.

Definition put_envelope_write (deviceID requestID fingerprint : string) (now : gotime) (cursor newGeneration : Z)
    (responseBody : string) : Handler Response :=
  exec_db (upsert_vault_envelope (cell_u64 newGeneration) (CBlob responseBody));;
  exec_db (update_runtime_state runtime_singleton (with_envelope_generation (cell_u64 newGeneration)));;
  let newCursor := cursor + 1 in
  insertChange newCursor "envelope_changed" "" "" "" "" newGeneration now;;
  let response := ok_response 200 responseBody in
  checkpoint ← storeReceipt deviceID "vault-envelope" requestID fingerprint response now;
  setServerCursor newCursor;;
  commitUptimeTransaction checkpoint;;
  mret response.

Definition handlePutEnvelope (call : Request) : Handler Response :=
  request ← from_option (decodeStrictAs putEnvelopeRequest (Body call)) (NewError "invalid_request" false);
  expected ← from_option (parseUint64 (pe_ExpectedGeneration request)) (NewError "invalid_request" false);
  beginTransaction;;
  authenticated ← authenticate identity (Authorization call) "envelope:write";
  fingerprint ← requestFingerprint identity envelope_label (da_DeviceID authenticated) (Body call);
  found ← lookupReceipt identity (da_DeviceID authenticated) "vault-envelope" (RequestID call) fingerprint;
  match found with
  | Some response => mret response
  | None =>
      '(cursor, storedGeneration, secretGeneration, _) ← readRuntimeState;
      or_internal (validatePersistentEnvelope identity storedGeneration secretGeneration);;
      or_internal (validatePersistentChangeOrigins cursor storedGeneration []);;
      newGeneration ← put_envelope_checks request expected cursor storedGeneration secretGeneration;
      put_envelope_write (da_DeviceID authenticated) (RequestID call) fingerprint (Now call)
        cursor newGeneration (marshalJSON (pe_Envelope request))
  end.

Lemma keeps_handleGetEnvelope call : Pres same_db (handleGetEnvelope call).
Proof. unfold handleGetEnvelope. keeps. Qed.
Lemma reads_put_envelope_checks a b c d e : Pres same_state (put_envelope_checks a b c d e).
Proof. unfold put_envelope_checks. reads. Qed.
Hint Resolve reads_put_envelope_checks : reads.
Lemma atomic_handlePutEnvelope call : Atomic (handlePutEnvelope call).
Proof. unfold handlePutEnvelope, put_envelope_write. atomic. Qed.
End envelope.
#[export] Hint Resolve reads_put_envelope_checks : reads.
#[export] Hint Resolve keeps_handleGetEnvelope : keeps.
#[export] Hint Resolve atomic_handlePutEnvelope : atomic.
