(* ===== verification/Devices.v ===== *)
(** * The device registry and the store's own operations

    [src/runtime/internal/store/devices.go]: deviceFromValues, readDevice,
    handleListDevices, handleRevokeDevice (with the retired-bearer replay),
    preflightTokenRotationKey and handleTokenRotation. *)

From stdpp Require Import base list strings gmap.
From Stdlib Require Import ZArith Lia Ascii.
From S2P Require Import Prelude GoStd GoTime Uuid Auth Json JsonFacts Wire Api Models Sql Schema Monad Keys.
From S2P Require Import Runtime Receipts.
Local Open Scope Z_scope.
Local Open Scope go_scope.

Definition deviceFromValues (deviceID : string) (createdAt : Z) (revokedAt lastSyncAt : option Z)
    (ackCursor maxAuthorCounter : Z) : device :=
  Mk_device deviceID FixedScopes
    (match revokedAt with Some _ => "revoked" | None => "active" end)
    (formatTimestamp createdAt) (formatTimestamp <$> revokedAt) (formatTimestamp <$> lastSyncAt)
    (encodeUint64Text ackCursor) (encodeUint64Text maxAuthorCounter).

Definition device_is (deviceID : string) (r : devices_row) : bool := cell_eqb (d_device_id r) (CText deviceID).
Definition device_row (deviceID : string) (d : db) : option devices_row :=
  query_row (select (device_is deviceID) (tb_devices d)).
Definition decode_device (deviceID : string) (r : devices_row) : option (device * string) :=
  let? tokenHash := scan_blob 32 32 (d_token_hash r) else None;;
  let? ackCursor := scan_u64 (d_last_ack_cursor r) else None;;
  let? maxCounter := scan_u64 (d_max_author_counter r) else None;;
  let? scopesJSON := scan_text (slen wantScopes) (slen wantScopes) (d_scopes_json r) else None;;
  require String.eqb scopesJSON wantScopes else None;;
  let? scopes := unmarshalAs (list string) scopesJSON else None;;
  require ValidateScopes scopes else None;;
  Some (deviceFromValues deviceID (d_created_at_ms r) (d_revoked_at_ms r) (d_last_sync_at_ms r) ackCursor maxCounter,
        tokenHash).
Definition readDevice (deviceID : string) : Handler (device * string) :=
  row ← select_db (device_row deviceID);
  row ← from_option row (NewError "device_not_found" false);
  some_or_internal (decode_device deviceID row).

(** The JSON form of [api.Header]. *)
#[export] Instance Header_json : GoJSON Header :=
  {| go_ty := TStruct [("name", go_ty string); ("value", go_ty string)];
     to_g a := GStruct [to_g (Name a); to_g (Value a)];
     of_g g := match g with
       | GStruct [v0; v1] =>
           match of_g (A:=string) v0, of_g (A:=string) v1 with
           | Some a0, Some a1 => Some {| Name := a0; Value := a1 |}
           | _, _ => None end
       | _ => None end |}.
#[export] Instance Header_json_laws : GoJSONLaws Header.
Proof. solve_struct_laws. Qed.

(** ** Writes *)
Definition with_revoked_at (revokedAt : Z) (r : devices_row) : devices_row :=
  Mk_devices (d_device_id r) (d_token_hash r) (d_scopes_json r) (d_created_at_ms r)
    (Some (Z.max revokedAt (d_created_at_ms r))) (d_last_sync_at_ms r) (d_last_ack_cursor r) (d_max_author_counter r).
Definition with_token_hash (hash : cell) (r : devices_row) : devices_row :=
  Mk_devices (d_device_id r) hash (d_scopes_json r) (d_created_at_ms r) (d_revoked_at_ms r)
    (d_last_sync_at_ms r) (d_last_ack_cursor r) (d_max_author_counter r).
Definition with_revoked_cursor (c : cell) (r : device_origins_row) : device_origins_row :=
  Mk_device_origins (do_device_id r) (do_origin_kind r) (do_created_cursor r) c (do_baseline_revoked r).
Definition active (r : devices_row) : bool := match d_revoked_at_ms r with None => true | Some _ => false end.
(** The origin row that records the revocation of an active device. *)
Definition open_origin (deviceID : string) (r : device_origins_row) : bool :=
  cell_eqb (do_device_id r) (CText deviceID) && (do_baseline_revoked r =? 0) && is_null (do_revoked_cursor r).

(** [operation LIKE 'device-revocation/%']: LIKE ignores ASCII case. *)
Definition lower (c : ascii) : ascii :=
  let z := byteZ c in if (65 <=? z) && (z <=? 90) then chrZ (z + 32) else c.
Fixpoint lower_string (s : string) : string :=
  match s with EmptyString => EmptyString | String c s' => String (lower c) (lower_string s') end.
Definition like_revocation (c : cell) : bool :=
  match c with CText s | CBlob s => has_prefix revocation_prefix (lower_string s) | CNull => false end.
Definition cross_target_reuse (deviceID requestID operation : string) (d : db) : bool :=
  existsb (λ r, cell_eqb (op_device_id r) (CText deviceID) && cell_eqb (op_request_id r) (CText requestID)
                && like_revocation (op_operation r) && negb (cell_eqb (op_operation r) (CText operation)))
    (tb_operation_receipts d).

Record retiredSelfRevocationReceipt := Mk_retired {
  re_deviceID : string; re_requestID : string; re_fingerprint : string;
  re_status : Z; re_headers : list Header; re_body : string }.

Section devices.
Context (identity : Identity).

Definition handleListDevices (call : Request) : Handler Response :=
  ensure (String.eqb (Body call) "") (NewError "invalid_request" false);;
  beginTransaction;;
  authenticate identity (Authorization call) "devices:read";;
  rows ← select_db (registry_rows 65);
  identifiers ← some_or_internal (mapM_opt (λ r, scan_uuid (d_device_id r)) rows);
  ensure_internal (length identifiers <=? 64)%nat;;
  devices ← map_each (λ identifier, '(value, _) ← readDevice identifier; mret value) identifiers;
  mret (ok_response 200 (marshalJSON (Mk_deviceList devices))).

(** The scan over the retired receipts: every row is hashed; [None] is an
    invalid row, otherwise the devices whose retired hash matches. *)
Fixpoint retired_matches (token : string) (tokenValid : bool) (rows : list self_revocation_receipts_row)
    : option (list string) :=
  match rows with
  | [] => Some []
  | r :: rest =>
      let? deviceID := scan_uuid (sf_device_id r) else None;;
      let? stored := scan_blob 32 32 (sf_pre_revocation_token_hash r) else None;;
      let? computed := DeviceTokenHash (InstanceID identity) (VaultID identity) deviceID token else None;;
      let? others := retired_matches token tokenValid rest else None;;
      Some (if tokenValid && VerifyHash stored computed then deviceID :: others else others)
  end.
Definition zero_token : string := of_bytes (repeat 0 32).
Definition decode_retired (deviceID : string) (r : self_revocation_receipts_row)
    : option retiredSelfRevocationReceipt :=
  let? requestID := scan_uuid (sf_request_id r) else None;;
  let? fingerprint := scan_blob 32 32 (sf_body_fingerprint r) else None;;
  let? headersBody := scan_body maxBodyBytes (sf_response_headers_json r) else None;;
  let? body := scan_body maxBodyBytes (sf_response_json r) else None;;
  let? headers := unmarshalAs (list Header) headersBody else None;;
  require String.eqb (marshalJSON headers) headersBody && (sf_response_status r =? 200)
          && bool_decide (headers = V1ResponseHeaders requestID (slen body)) else None;;
  let? responseDevice := decodeStoredCanonicalAs device body else None;;
  require validateDevice responseDevice && String.eqb (dev_DeviceID responseDevice) deviceID
          && String.eqb (dev_Status responseDevice) "revoked" else None;;
  Some (Mk_retired deviceID requestID fingerprint (sf_response_status r) headers body).
Definition lookupRetiredSelfRevocationReceipt (presentedToken : option string)
    : Handler (option retiredSelfRevocationReceipt) :=
  rows ← select_db (λ d, take 65
    (order_by (λ a b, cell_oleb (sf_device_id a) (sf_device_id b)) (tb_self_revocation_receipts d)));
  found ← some_or_internal (retired_matches (default zero_token presentedToken)
    (match presentedToken with Some _ => true | None => false end) rows);
  ensure_internal ((length rows <=? 64)%nat && (length found <=? 1)%nat);;
  match found with
  | matchedDeviceID :: _ =>
      row ← select_db (λ d, query_row
        (select (λ r, cell_eqb (sf_device_id r) (CText matchedDeviceID)) (tb_self_revocation_receipts d)));
      row ← some_or_internal row;
      receipt ← some_or_internal (decode_retired matchedDeviceID row);
      mret (Some receipt)
  | [] => mret None
  end.

Definition self_label : string := "JAT self revocation body fingerprint v1".
Definition revocation_label : string := "JAT device revocation request fingerprint v1".
(** The body of a revocation request that names the request it arrives in. *)
Definition decode_revoke (call : Request) : option revokeDeviceRequest :=
  let? request := decodeStrictAs revokeDeviceRequest (Body call) else None;;
  require String.eqb (rv_RequestID request) (RequestID call) && validateUUID (rv_RequestID request) else None;;
  Some request.

(** A retired bearer: the reply comes from the retired receipt or is refused. *)
Definition revoke_retired (call : Request) (targetDeviceID : string) (retired : retiredSelfRevocationReceipt)
    : Handler Response :=
  ensure (String.eqb (re_deviceID retired) targetDeviceID) (NewError "token_revoked" false);;
  from_option (decode_revoke call) (NewError "token_revoked" false);;
  selfFingerprint ← requestFingerprint identity self_label targetDeviceID (Body call);
  if String.eqb (re_requestID retired) (RequestID call) && VerifyHash (re_fingerprint retired) selfFingerprint
  then mret {| Status := re_status retired; RBody := re_body retired; Headers := re_headers retired |}
  else fail "token_revoked" false.

(** The target was revoked before: the reply is recorded and nothing else changes. *)
Definition revoke_again (call : Request) (deviceID operation fingerprint : string) (target : device) : Handler Response :=
  let response := ok_response 200 (marshalJSON target) in
  checkpoint ← storeReceipt deviceID operation (RequestID call) fingerprint response (Now call);
  commitUptimeTransaction checkpoint;;
  mret response.

(** Marking the device revoked: its row, its origin, and the re-read device. *)
Definition revoke_mark (targetDeviceID : string) (revokedAt newCursor : Z) : Handler (device * string) :=
  exec_db (update_devices (λ r, device_is targetDeviceID r && active r) (with_revoked_at revokedAt));;
  d ← read_tx;
  exec_db (update_device_origins (open_origin targetDeviceID) (with_revoked_cursor (cell_u64 newCursor)));;
  ensure_internal (length (select (open_origin targetDeviceID) (tb_device_origins d)) =? 1)%nat;;
  readDevice targetDeviceID.

(** The receipt a device leaves behind when it revokes itself. *)
Definition self_receipt (call : Request) (targetDeviceID targetHash : string) (body : string) : Handler Response :=
  selfFingerprint ← requestFingerprint identity self_label targetDeviceID (Body call);
  let headers := V1ResponseHeaders (RequestID call) (slen body) in
  exec_db (insert_self_revocation_receipts
    (Mk_self_revocation_receipts (CText targetDeviceID) (CText (RequestID call)) (CBlob selfFingerprint)
       (CBlob targetHash) 200 (CBlob (marshalJSON headers)) (CBlob body)));;
  mret {| Status := 200; RBody := body; Headers := headers |}.

Definition revoke_active (call : Request) (deviceID targetDeviceID operation fingerprint : string)
    (request : revokeDeviceRequest) : Handler Response :=
  activeCount ← select_db (λ d, length (take 65 (select active (tb_devices d))));
  ensure_internal (activeCount <=? 64)%nat;;
  ensure (negb ((activeCount =? 1)%nat && negb (rv_AllowZeroActive request)))
    (NewError "zero_active_confirmation_required" false);;
  newCursor ← reserveCursors 1;
  '(target, targetHash) ← revoke_mark targetDeviceID (UnixMilli (Now call)) newCursor;
  changeTime ← some_or_internal (match dev_RevokedAt target with Some t => parse_timestamp t | None => None end);
  let body := marshalJSON target in
  response ← (if String.eqb deviceID targetDeviceID then self_receipt call targetDeviceID targetHash body
              else mret (ok_response 200 body));
  insertChange newCursor "device_changed" "" "" targetDeviceID "revoked" 0
    {| wall := changeTime * Millisecond; mono := changeTime * Millisecond |};;
  checkpoint ← storeReceipt deviceID operation (RequestID call) fingerprint response (Now call);
  setServerCursor newCursor;;
  commitUptimeTransaction checkpoint;;
  mret response.

Definition handleRevokeDevice (call : Request) (targetDeviceID : string) : Handler Response :=
  let presentedToken := parseAuthorization (Authorization call) "Bearer" in
  beginTransaction;;
  retiredMatch ← lookupRetiredSelfRevocationReceipt presentedToken;
  match retiredMatch with
  | Some retired => revoke_retired call targetDeviceID retired
  | None =>
      request ← from_option (decode_revoke call) (NewError "invalid_request" false);
      from_option presentedToken (NewError "unauthorized" false);;
      authenticated ← authenticate identity (Authorization call) "devices:manage";
      let deviceID := da_DeviceID authenticated in
      fingerprint ← requestFingerprint identity revocation_label deviceID (Body call);
      let operation := revocation_prefix +:+ targetDeviceID in
      found ← lookupReceipt identity deviceID operation (RequestID call) fingerprint;
      match found with
      | Some response => mret response
      | None =>
          reuse ← select_db (cross_target_reuse deviceID (RequestID call) operation);
          ensure (negb reuse) (NewError "request_id_reused" false);;
          '(target, _) ← readDevice targetDeviceID;
          if String.eqb (dev_Status target) "revoked" then revoke_again call deviceID operation fingerprint target
          else revoke_active call deviceID targetDeviceID operation fingerprint request
      end
  end.

(** ** Token rotation *)
Definition rotation_label : string := "JAT token rotation request fingerprint v1".
Definition preflightTokenRotationKey (rotationID : string) : Handler bool :=
  preflight_key tb_token_rotations tk_rotation_id rotationID.

Record storedRotation := Mk_storedRotation {
  ro_deviceID : string; ro_oldHash : string; ro_newHash : string; ro_fingerprint : string; ro_response : string }.
Definition decode_rotation (r : token_rotations_row) : option storedRotation :=
  let? storedDeviceID := scan_uuid (tk_device_id r) else None;;
  let? oldHash := scan_blob 32 32 (tk_old_token_hash r) else None;;
  let? recordedNewHash := scan_blob 32 32 (tk_new_token_hash r) else None;;
  let? recordedFingerprint := scan_blob 32 32 (tk_request_fingerprint r) else None;;
  let? responseBody := scan_body maxBodyBytes (tk_response_json r) else None;;
  let? storedResponse := decodeStoredCanonicalAs device responseBody else None;;
  require validateDevice storedResponse && String.eqb (dev_DeviceID storedResponse) storedDeviceID else None;;
  Some (Mk_storedRotation storedDeviceID oldHash recordedNewHash recordedFingerprint responseBody).

(** The rotation was recorded before: an exact retry gets the recorded reply. *)
Definition rotation_replay (request : tokenRotationRequest) (presentedToken newHash fingerprint : string) : Handler Response :=
  row ← select_db (λ d, query_row
    (select (λ r, cell_eqb (tk_rotation_id r) (CText (tr_RotationID request))) (tb_token_rotations d)));
  row ← some_or_internal row;
  stored ← some_or_internal (decode_rotation row);
  presentedStoredHash ← some_or_internal
    (DeviceTokenHash (InstanceID identity) (VaultID identity) (ro_deviceID stored) presentedToken);
  ensure (VerifyHash (ro_oldHash stored) presentedStoredHash || VerifyHash (ro_newHash stored) presentedStoredHash)
    (NewError "unauthorized" false);;
  owner ← select_db (device_row (ro_deviceID stored));
  owner ← some_or_internal owner;
  ensure (active owner) (NewError "token_revoked" false);;
  ensure (String.eqb (ro_deviceID stored) (tr_DeviceID request)) (NewError "authenticated_device_mismatch" false);;
  ensure (VerifyHash (ro_newHash stored) newHash && VerifyHash (ro_fingerprint stored) fingerprint)
    (NewError "request_id_reused" false);;
  mret (ok_response 200 (ro_response stored)).

Definition rotation_apply (call : Request) (request : tokenRotationRequest) (presentedHash newHash fingerprint : string)
    : Handler Response :=
  '(current, currentHash) ← readDevice (tr_DeviceID request);
  ensure (negb (String.eqb (dev_Status current) "revoked")) (NewError "token_revoked" false);;
  ensure (VerifyHash currentHash presentedHash) (NewError "unauthorized" false);;
  exec_db (update_devices (device_is (tr_DeviceID request)) (with_token_hash (CBlob newHash)));;
  '(current, _) ← readDevice (tr_DeviceID request);
  let responseBody := marshalJSON current in
  exec (NewError "request_id_reused" false) (insert_token_rotations
    (Mk_token_rotations (CText (tr_RotationID request)) (CText (tr_DeviceID request)) (CBlob currentHash) (CBlob newHash)
       (CBlob fingerprint) (CBlob responseBody) (UnixMilli (Now call))));;
  commitTransaction;;
  mret (ok_response 200 responseBody).

Definition handleTokenRotation (call : Request) : Handler Response :=
  request ← from_option (decodeStrictAs tokenRotationRequest (Body call)) (NewError "invalid_request" false);
  ensure (validateUUID (tr_RotationID request) && validateUUID (tr_DeviceID request)) (NewError "invalid_request" false);;
  newToken ← from_option (decodeBase64 (tr_NewDeviceToken request) 32 0 0) (NewError "invalid_request" false);
  presentedToken ← from_option (parseAuthorization (Authorization call) "Bearer") (NewError "unauthorized" false);
  presentedHash ← from_option
    (DeviceTokenHash (InstanceID identity) (VaultID identity) (tr_DeviceID request) presentedToken)
    (NewError "unauthorized" false);
  newHash ← from_option (DeviceTokenHash (InstanceID identity) (VaultID identity) (tr_DeviceID request) newToken)
    (NewError "invalid_request" false);
  fingerprint ← requestFingerprint identity rotation_label (tr_DeviceID request) (Body call);
  beginTransaction;;
  authenticated ← try (authenticate identity (Authorization call) "");
  match authenticated with
  | Ok device => ensure (String.eqb (da_DeviceID device) (tr_DeviceID request))
                   (NewError "authenticated_device_mismatch" false)
  | Err authErr => ensure (negb (String.eqb (Code authErr) "token_revoked")) authErr
  end;;
  rotationPresent ← preflightTokenRotationKey (tr_RotationID request);
  if (rotationPresent : bool) then rotation_replay request presentedToken newHash fingerprint
  else
    match authenticated with
    | Err authErr => throw authErr
    | Ok _ => rotation_apply call request presentedHash newHash fingerprint
    end.

(** ** Frame facts *)
Lemma reads_readDevice a : Pres same_state (readDevice a).
Proof. unfold readDevice. reads. Qed.
Hint Resolve reads_readDevice : reads.
Lemma keeps_handleListDevices call : Pres same_db (handleListDevices call).
Proof. unfold handleListDevices. keeps. Qed.
Lemma reads_lookupRetired a : Pres same_state (lookupRetiredSelfRevocationReceipt a).
Proof. unfold lookupRetiredSelfRevocationReceipt. reads. Qed.
Lemma reads_revoke_retired a b c : Pres same_state (revoke_retired a b c).
Proof. unfold revoke_retired. reads. Qed.
Hint Resolve reads_lookupRetired reads_revoke_retired : reads.
Lemma keeps_revoke_mark a b c : Pres same_db (revoke_mark a b c).
Proof. unfold revoke_mark. keeps. Qed.
Lemma keeps_self_receipt a b c d : Pres same_db (self_receipt a b c d).
Proof. unfold self_receipt. keeps. Qed.
Hint Resolve keeps_revoke_mark keeps_self_receipt : keeps.
Lemma atomic_handleRevokeDevice call target : Atomic (handleRevokeDevice call target).
Proof. unfold handleRevokeDevice, revoke_again, revoke_active. atomic. Qed.
Lemma reads_preflightTokenRotationKey a : Pres same_state (preflightTokenRotationKey a).
Proof. apply reads_preflight_key. Qed.
Lemma reads_rotation_replay a b c d : Pres same_state (rotation_replay a b c d).
Proof. unfold rotation_replay. reads. Qed.
Hint Resolve reads_preflightTokenRotationKey reads_rotation_replay : reads.
Lemma atomic_handleTokenRotation call : Atomic (handleTokenRotation call).
Proof. unfold handleTokenRotation, rotation_apply. atomic. Qed.
End devices.
#[export] Hint Resolve reads_readDevice reads_lookupRetired reads_revoke_retired reads_preflightTokenRotationKey
  reads_rotation_replay : reads.
#[export] Hint Resolve keeps_handleListDevices : keeps.
#[export] Hint Resolve atomic_handleRevokeDevice atomic_handleTokenRotation : atomic.

(** ** Opening a store and its baseline devices

    The parts of [src/runtime/internal/store/store.go] that work on the database:
    the rows a new database starts with (initialize), validateIdentityInput,
    validateIdentity, CreateDevice, DeviceCredential and VerifyDeviceToken.  Go
    errors are their message. *)

Definition validateIdentityInput (identity : Identity) : bool :=
  valid_uuid (InstanceID identity) && valid_uuid (VaultID identity)
  && negb (String.eqb (InstanceID identity) (VaultID identity)).

(** The inserts of [initialize] for a database it created. *)
Definition fresh_metadata (identity : Identity) : instance_metadata_row :=
  Mk_instance_metadata 1 (CText (InstanceID identity)) (CText (VaultID identity)) (CText "1") (CText "1").
Definition fresh_runtime : runtime_state_row :=
  Mk_runtime_state 1 (cell_u64 0) (cell_u64 0) (cell_u64 0) (cell_u64 1) (cell_u64 0) (cell_u64 0) CNull (CText "").
Definition initialize_rows (identity : Identity) : M string () :=
  exec "initialize instance metadata" (insert_instance_metadata (fresh_metadata identity));;
  exec "initialize runtime state" (insert_runtime_state fresh_runtime);;
  d ← read_tx;
  for_each (tb_devices d) (λ r, exec "initialize device sync state"
    (insert_device_sync_state (Mk_device_sync_state (d_device_id r) (cell_u64 0)))).

(** A text column that has to be exactly [want]. *)
Definition scan_exact (want : string) (c : cell) : bool :=
  match scan_text (slen want) (slen want) c with Some s => String.eqb s want | None => false end.
Definition validateIdentity (expected : Identity) : M string () :=
  row ← query "read instance metadata" (λ d, query_row (select (λ r, im_singleton r =? 1) (tb_instance_metadata d)));
  row ← from_option row "database instance identity does not match config";
  ensure (match scan_text 36 36 (im_instance_id row), scan_text 36 36 (im_vault_id row) with
          | Some instanceID, Some vaultID =>
              String.eqb instanceID (InstanceID expected) && String.eqb vaultID (VaultID expected)
              && scan_exact "1" (im_protocol_major row) && scan_exact "1" (im_storage_schema row)
          | _, _ => false end) "database instance identity does not match config".

Section store.
Context (identity : Identity).

(** server cursor, whether a boot is active, and whether a snapshot exists. *)
Definition activation_state (d : db) : option (cell * cell * bool) :=
  match runtime_row d with
  | Some r => Some (rs_server_cursor r, rs_active_boot_id r, match tb_snapshots d with [] => false | _ => true end)
  | None => None
  end.
Definition CreateDevice (deviceID token : string) (scopes : list string) (createdAt : gotime) : M string () :=
  ensure (valid_uuid deviceID) "device ID";;
  ensure (ValidateScopes scopes) "scopes";;
  hash ← from_option (DeviceTokenHash (InstanceID identity) (VaultID identity) deviceID token) "device token hash";
  begin_tx "begin create device";;
  state ← query "read baseline activation state" activation_state;
  '(cursorCell, bootCell, snapshotPresent) ← from_option state "read baseline activation state";
  '(cursor, activeBoot) ← from_option
    (let? cursor := scan_u64 cursorCell else None;;
     let? activeBoot := scan_opt_blob 16 16 bootCell else None;;
     Some (cursor, activeBoot)) "stored baseline activation state is invalid";
  ensure ((cursor =? 0) && (match activeBoot with None => true | Some _ => false end) && negb snapshotPresent)
    "create device: baseline device creation is closed after activation";;
  exec "create device" (insert_devices
    (Mk_devices (CText deviceID) (CBlob hash) (CText wantScopes) (UnixMilli createdAt) None None (cell_u64 0) (cell_u64 0)));;
  exec "create device origin" (insert_device_origins
    (Mk_device_origins (CText deviceID) (CText "baseline") CNull CNull 0));;
  exec "create device sync state" (insert_device_sync_state (Mk_device_sync_state (CText deviceID) (cell_u64 0)));;
  commit_tx "commit create device".

(** Outside a transaction the query reads the committed database. *)
Definition DeviceCredential (deviceID : string) (d : db) : res string (string * list string) :=
  require valid_uuid deviceID else Err "device ID";;
  let? r := device_row deviceID d else Err "sql: no rows in result set";;
  let? '(hash, scopesJSON) :=
    (let? hash := scan_blob 32 32 (d_token_hash r) else None;;
     let? scopesJSON := scan_text (slen wantScopes) (slen wantScopes) (d_scopes_json r) else None;;
     require String.eqb scopesJSON wantScopes else None;;
     Some (hash, scopesJSON)) else Err "stored device credential is invalid";;
  let? scopes := unmarshalAs (list string) scopesJSON else Err "decode stored scopes";;
  require ValidateScopes scopes else Err "validate stored scopes";;
  Ok (hash, scopes).
Definition VerifyDeviceToken (deviceID token : string) (d : db) : res string bool :=
  match DeviceCredential deviceID d with
  | Err e => Err e
  | Ok (stored, _) =>
      let? computed := DeviceTokenHash (InstanceID identity) (VaultID identity) deviceID token else Err "device token hash";;
      Ok (VerifyHash stored computed)
  end.

Lemma atomic_CreateDevice a b c d : Atomic (CreateDevice a b c d).
Proof. unfold CreateDevice. atomic. Qed.
End store.
#[export] Hint Resolve atomic_CreateDevice : atomic.
