(* ===== verification/Enrollment.v ===== *)
(** * Enrollment of devices

    StartBoot and CreateEnrollmentGrant of
    [src/runtime/internal/store/dataplane.go] and all of [enrollment.go]: a grant
    is a one-time credential bound to the running daemon; presenting it admits
    one device. *)

From stdpp Require Import base list strings gmap.
From Stdlib Require Import ZArith Lia Ascii.
From S2P Require Import Prelude GoStd GoTime Uuid Auth Json Wire Api Models Sql Schema Monad Keys Runtime.
From S2P Require Import Receipts Devices.
Local Open Scope Z_scope.
Local Open Scope go_scope.

Definition enrollmentGrantLifetime : Z := 5 * Minute.
Definition enrollment_label : string := "JAT enrollment request fingerprint v1".

Definition with_attempts (l : list gotime) (e : ephemeralState) : ephemeralState :=
  Mk_eph (bootID e) (booted e) (uptimeCheckpoint e) (grantDeadlines e) l (snapshotAttempts e) (snapshotDeadlines e).
Definition with_deadlines (l : list grantDeadline) (e : ephemeralState) : ephemeralState :=
  Mk_eph (bootID e) (booted e) (uptimeCheckpoint e) l (enrollmentAttempts e) (snapshotAttempts e) (snapshotDeadlines e).

(** At most five attempts in any minute. *)
Definition recent_attempts (now : gotime) (attempts : list gotime) : list gotime :=
  List.filter (λ attempt, After attempt (Add now (- Minute))) attempts.
Definition admitEnrollmentAttempt (now : gotime) : Handler () :=
  eph ← get_eph;
  ensure (booted eph) (NewError "grant_expired" false);;
  let retained := recent_attempts now (enrollmentAttempts eph) in
  set_eph (with_attempts retained eph);;
  ensure (length retained <? 5)%nat (NewError "rate_limited" false);;
  set_eph (with_attempts (retained ++ [now]) eph).

(** The collision probe over both tables: [(source, device_id)] rows. *)
Definition collision_rows (deviceID : string) (d : db) : list (nat * cell) :=
  take 4 (map (λ r, (1%nat, en_device_id r)) (key_range en_device_id deviceID (tb_enrollments d))
          ++ map (λ r, (2%nat, d_device_id r)) (key_range d_device_id deviceID (tb_devices d))).
Definition seen (source : nat) (rows : list (nat * cell)) : nat :=
  length (List.filter (λ r : nat * cell, (r.1 =? source)%nat) rows).
Definition preflightEnrollmentDeviceCollision (deviceID : string) : Handler bool :=
  ensure_internal (validateUUID deviceID);;
  rows ← select_db (collision_rows deviceID);
  ensure_internal (forallb (λ r : nat * cell, is_key deviceID r.2) rows);;
  ensure_internal ((seen 1 rows <=? 1)%nat && (seen 2 rows <=? 1)%nat);;
  mret ((seen 1 rows =? 1)%nat || (seen 2 rows =? 1)%nat).

Definition preflightEnrollmentKey (enrollmentID : string) : Handler bool :=
  preflight_key tb_enrollments en_enrollment_id enrollmentID.

(** One grant row of this boot: its hash and the enrollment that consumed it. *)
Definition scan_grant (r : enrollment_grants_row) : option (string * option string) :=
  let? hash := scan_blob 32 32 (eg_grant_hash r) else None;;
  let? consumed := scan_opt_uuid (eg_consumed_enrollment_id r) else None;;
  Some (hash, consumed).
(** The last element that satisfies a test (the scans do not stop early). *)
Definition last_such {A} (p : A → bool) (l : list A) : option A := List.find p (rev l).

Definition lookupGrant (presented : string) (now : gotime) : Handler (option string) :=
  eph ← get_eph;
  ensure (booted eph) (NewError "grant_expired" false);;
  rows ← select_db (λ d,
    order_by (λ a b, cell_oleb (eg_grant_hash a) (eg_grant_hash b))
      (select (λ r, cell_eqb (eg_boot_id r) (CBlob (bootID eph))) (tb_enrollment_grants d)));
  grants ← some_or_internal (mapM_opt scan_grant rows);
  '(_, consumed) ← from_option (last_such (λ g : string * option string, VerifyHash g.1 presented) grants)
    (NewError "unauthorized" false);
  deadline ← from_option (last_such (λ g, VerifyHash (gd_hash g) presented) (grantDeadlines eph))
    (NewError "grant_expired" false);
  ensure (Before now (gd_deadline deadline)) (NewError "grant_expired" false);;
  mret consumed.

Definition consume_grant (enrollmentID grantHash : string) (d : db) : option db :=
  update_enrollment_grants (λ r, cell_eqb (eg_grant_hash r) (CBlob grantHash))
    (λ r, Mk_enrollment_grants (eg_grant_hash r) (eg_boot_id r) (eg_expires_at_ms r) (CText enrollmentID)) d.

Section enrollment.
Context (identity : Identity).

Definition decode_enrollment (r : enrollments_row) : option (string * string * string * string) :=
  let? deviceID := scan_uuid (en_device_id r) else None;;
  let? storedToken := scan_blob 32 32 (en_token_hash r) else None;;
  let? storedFingerprint := scan_blob 32 32 (en_request_fingerprint r) else None;;
  let? scopesJSON := scan_text (slen wantScopes) (slen wantScopes) (en_scopes_json r) else None;;
  require String.eqb scopesJSON wantScopes else None;;
  let? response := scan_body maxBodyBytes (en_response_json r) else None;;
  require (en_created_status r =? 201) && validateStoredEnrollmentResponse response identity deviceID else None;;
  Some (deviceID, storedToken, storedFingerprint, response).
(** [Some response] for an exact retry, [None] when no enrollment has the id. *)
Definition lookupEnrollment (enrollmentID : string) (request : enrollmentRequest) (tokenHash fingerprint : string)
    : Handler (option string) :=
  present ← preflightEnrollmentKey enrollmentID;
  if negb present then mret None else
  row ← select_db (λ d, query_row
    (select (λ r, cell_eqb (en_enrollment_id r) (CText enrollmentID)) (tb_enrollments d)));
  row ← some_or_internal row;
  '(deviceID, recordedToken, recordedFingerprint, response) ← some_or_internal (decode_enrollment row);
  ensure (String.eqb enrollmentID (er_EnrollmentID request) && String.eqb deviceID (er_DeviceID request)
          && VerifyHash recordedToken tokenHash && VerifyHash recordedFingerprint fingerprint)
    (NewError "enrollment_replay_mismatch" false);;
  mret (Some response).

(** The refusals that precede the write. *)
Definition enrollment_admit (request : enrollmentRequest) (tokenHash : string) (now : gotime) : Handler nat :=
  deviceCollision ← preflightEnrollmentDeviceCollision (er_DeviceID request);
  ensure (negb deviceCollision) (NewError "enrollment_replay_mismatch" false);;
  conflict ← select_db (λ d, existsb (λ r, cell_eqb (d_token_hash r) (CBlob tokenHash)) (tb_devices d));
  ensure (negb conflict) (NewError "enrollment_replay_mismatch" false);;
  admitEnrollmentAttempt now;;
  counted ← select_db (λ d, take 65 (tb_devices d));
  ensure_internal (length counted <=? 64)%nat;;
  ensure (length counted <? 64)%nat (NewError "limit_exceeded" false);;
  mret (length (select active counted)).

Definition enrollment_write (request : enrollmentRequest) (tokenHash grantHash fingerprint : string) (now : gotime)
    (activeCount : nat) (newCursor envelopeGeneration : Z) : Handler Response :=
  let createdAt := UnixMilli now in
  let deviceID := CText (er_DeviceID request) in
  exec_db (insert_devices
    (Mk_devices deviceID (CBlob tokenHash) (CText wantScopes) createdAt None None (cell_u64 0) (cell_u64 0)));;
  exec_db (insert_device_origins (Mk_device_origins deviceID (CText "enrolled") (cell_u64 newCursor) CNull 0));;
  exec_db (insert_device_sync_state (Mk_device_sync_state deviceID (cell_u64 0)));;
  let responseBody := marshalJSON
    (Mk_enrollmentResponse "1" (InstanceID identity) (VaultID identity)
       (deviceFromValues (er_DeviceID request) createdAt None None 0 0)
       (encodeUint64Text envelopeGeneration) (activeCount =? 0)%nat) in
  exec_db (insert_enrollments
    (Mk_enrollments (CText (er_EnrollmentID request)) deviceID (cell_u64 newCursor) (CBlob tokenHash)
       (CText wantScopes) (CBlob fingerprint) (CBlob responseBody) 201));;
  exec_db (consume_grant (er_EnrollmentID request) grantHash);;
  insertChange newCursor "device_changed" "" "" (er_DeviceID request) "enrolled" 0 now;;
  setServerCursor newCursor;;
  commitTransaction;;
  mret (ok_response 201 responseBody).

Definition handleEnrollment (call : Request) : Handler Response :=
  request ← from_option (decodeStrictAs enrollmentRequest (Body call)) (NewError "invalid_request" false);
  token ← from_option (validateEnrollmentRequest request) (NewError "invalid_request" false);
  grant ← from_option (parseAuthorization (Authorization call) "JAT-Enrollment") (NewError "unauthorized" false);
  grantHash ← from_option (EnrollmentGrantHash (InstanceID identity) (VaultID identity) grant)
    (NewError "unauthorized" false);
  tokenHash ← from_option (DeviceTokenHash (InstanceID identity) (VaultID identity) (er_DeviceID request) token)
    (NewError "invalid_request" false);
  fingerprint ← requestFingerprint identity enrollment_label (er_DeviceID request) (Body call);
  beginTransaction;;
  consumedEnrollmentID ← lookupGrant grantHash (Now call);
  match consumedEnrollmentID with
  | Some consumed =>
      replay ← lookupEnrollment consumed request tokenHash fingerprint;
      response ← from_option replay (NewError "grant_consumed" false);
      mret (ok_response 200 response)
  | None =>
      replay ← lookupEnrollment (er_EnrollmentID request) request tokenHash fingerprint;
      match replay with
      | Some response =>
          exec_db (consume_grant (er_EnrollmentID request) grantHash);;
          commitTransaction;;
          mret (ok_response 200 response)
      | None =>
          activeCount ← enrollment_admit request tokenHash (Now call);
          newCursor ← reserveCursors 1;
          '(_, envelopeGeneration, _, _) ← readRuntimeState;
          enrollment_write request tokenHash grantHash fingerprint (Now call) activeCount newCursor envelopeGeneration
      end
  end.

(** ** Grants (dataplane.go)
    Go errors of these two are their message. *)
Record EnrollmentGrant := { Grant : string; ExpiresAt : gotime }.
Definition delete_grant (hash boot : string) (d : db) : option db :=
  Some (set_enrollment_grants
    (delete_rows (λ r, cell_eqb (eg_grant_hash r) (CBlob hash) && cell_eqb (eg_boot_id r) (CBlob boot))
       (tb_enrollment_grants d)) d).
Definition CreateEnrollmentGrant (now : gotime) : M string EnrollmentGrant :=
  eph ← get_eph;
  ensure (booted eph) "server daemon is not running";;
  let expiredHashes := map gd_hash (List.filter (λ g, negb (Before now (gd_deadline g))) (grantDeadlines eph)) in
  grant ← rand_read 32 "generate enrollment grant";
  hash ← from_option (EnrollmentGrantHash (InstanceID identity) (VaultID identity) grant) "enrollment grant hash";
  let deadline := Add now enrollmentGrantLifetime in
  begin_tx "begin enrollment grant persistence";;
  for_each expiredHashes (λ expiredHash, exec "prune expired enrollment grant hashes" (delete_grant expiredHash (bootID eph)));;
  exec "persist enrollment grant hash" (insert_enrollment_grants
    (Mk_enrollment_grants (CBlob hash) (CBlob (bootID eph)) (UnixMilli deadline) CNull));;
  commit_tx "commit enrollment grant persistence";;
  eph ← get_eph;
  let retained := List.filter (λ g, negb (existsb (String.eqb (gd_hash g)) expiredHashes)) (grantDeadlines eph) in
  set_eph (with_deadlines (retained ++ [{| gd_hash := hash; gd_deadline := deadline |}]) eph);;
  mret {| Grant := grant; ExpiresAt := deadline |}.

(** ** Frame facts *)
Lemma keeps_admitEnrollmentAttempt now : Pres same_db (admitEnrollmentAttempt now).
Proof. unfold admitEnrollmentAttempt. keeps. Qed.
Lemma reads_preflightEnrollmentDeviceCollision a : Pres same_state (preflightEnrollmentDeviceCollision a).
Proof. unfold preflightEnrollmentDeviceCollision. reads. Qed.
Lemma reads_lookupGrant a b : Pres same_state (lookupGrant a b).
Proof. unfold lookupGrant. reads. Qed.
Hint Resolve keeps_admitEnrollmentAttempt : keeps.
Hint Resolve reads_preflightEnrollmentDeviceCollision reads_lookupGrant : reads.
Lemma reads_lookupEnrollment a b c d : Pres same_state (lookupEnrollment a b c d).
Proof. unfold lookupEnrollment, preflightEnrollmentKey. reads. Qed.
Lemma keeps_enrollment_admit a b c : Pres same_db (enrollment_admit a b c).
Proof. unfold enrollment_admit. keeps. Qed.
Hint Resolve reads_lookupEnrollment : reads.
Hint Resolve keeps_enrollment_admit : keeps.
Lemma atomic_handleEnrollment call : Atomic (handleEnrollment call).
Proof. unfold handleEnrollment, enrollment_write. atomic. Qed.
Lemma atomic_CreateEnrollmentGrant now : Atomic (CreateEnrollmentGrant now).
Proof. unfold CreateEnrollmentGrant. atomic. Qed.
End enrollment.
#[export] Hint Resolve reads_preflightEnrollmentDeviceCollision reads_lookupGrant reads_lookupEnrollment : reads.
#[export] Hint Resolve keeps_admitEnrollmentAttempt : keeps.
#[export] Hint Resolve atomic_handleEnrollment atomic_CreateEnrollmentGrant : atomic.
