(* ===== verification/Server.v ===== *)
(** * The server process: server.go

    [src/runtime/internal/server/server.go]: the filter that bounds a request head before
    net/http sees it, the HTTP listeners, and the requests of the owner-only admin socket
    with the enrollment grants they create.  The sockets themselves, the goroutines and
    the shutdown are the operating system's and net/http's; a connection is the list of
    the segments its peer sends, with the error that ends them. *)

From stdpp Require Import base list strings gmap.
From Stdlib Require Import ZArith Lia Ascii.
From Stdlib Require String.
From S2P Require Import Prelude GoStd GoTime Uuid Auth Json Api Wire Models Sql Schema Monad Runtime Enrollment.
From S2P Require Import Indent Release NetIP Fs Paths Config Layout Deploy Manifest Lifecycle Preview PreviewRun Http Service.
Local Open Scope Z_scope.

(** ** The head of a request *)
Definition head_end : string := crlf +:+ crlf.
(** [bytes.Split] at CRLF. *)
Fixpoint split_crlf (s : string) : list string :=
  let push (c : ascii) (lines : list string) :=
    match lines with line :: rest => String c line :: rest | [] => [String c ""] end in
  match s with
  | EmptyString => [""]
  | String c rest =>
      match rest with
      | String d rest' => if (byteZ c =? 13) && (byteZ d =? 10) then "" :: split_crlf rest' else push c (split_crlf rest)
      | EmptyString => push c (split_crlf rest)
      end
  end.
Definition request_id_value (line : string) : option string :=
  match index_byte ":" line with
  | Some (S separator) =>
      if fold_eqb (stake (S separator) line) "JAT-Request-ID" then Some (TrimSpace (sdrop (S (S separator)) line)) else None
  | _ => None
  end.
Definition requestIDValues (requestHead : string) : list string := omap request_id_value (tail (split_crlf requestHead)).

Definition limit_request : string :=
  "GET / HTTP/1.1" +:+ crlf +:+ "Host: localhost" +:+ crlf +:+ "Connection: close" +:+ crlf +:+ crlf.
(** A peer: the segments still to arrive, then the error of every later read. *)
Record peer := mkPeer { pr_segments : list string; pr_error : string }.
Definition peer_Read (size : nat) (p : peer) : string * option string * peer :=
  match pr_segments p with
  | [] => ("", Some (pr_error p), p)
  | segment :: rest =>
      let kept := sdrop size segment in
      (stake size segment, None, mkPeer (if String.eqb kept "" then rest else kept :: rest) (pr_error p))
  end.
Record headerLimitConn := mkConn {
  hc_peer : peer; hc_buffer : string; hc_complete : bool; hc_exceeded : bool; hc_requestID : string }.

Section head.
Context {S : Type} `{!Random S} (maxBytes : Z).
(** Copying the buffer to the caller: [copy] and the new slice. *)
Definition deliver (size : nat) (c : headerLimitConn) : string * option string * headerLimitConn :=
  (stake size (hc_buffer c), None,
   mkConn (hc_peer c) (sdrop size (hc_buffer c)) true (hc_exceeded c) (hc_requestID c)).
Definition replaceWithLimitRequest (size : nat) (c : headerLimitConn) (s : S) : (string * option string * headerLimitConn) * S :=
  let '(requestID, s') := RequestIDOrFallback (requestIDValues (hc_buffer c)) s in
  (deliver size (mkConn (hc_peer c) limit_request true true requestID), s').
(** The loop: every round but the last takes at least a byte or an empty segment. *)
Fixpoint fill (fuel : nat) (size : nat) (c : headerLimitConn) (s : S) : (string * option string * headerLimitConn) * S :=
  match fuel with
  | O => (("", None, c), s)
  | Datatypes.S fuel' =>
      match index_string head_end (hc_buffer c) with
      | Some e =>
          if maxBytes <? Z.of_nat e + 4 then replaceWithLimitRequest size c s
          else (deliver size c, s)
      | None =>
          if maxBytes <? slen (hc_buffer c) then replaceWithLimitRequest size c s
          else
            let remaining := maxBytes + 1 - slen (hc_buffer c) in
            let chunkSize := if remaining <? 4096 then remaining else 4096 in
            let '(data, err, p) := peer_Read (Z.to_nat chunkSize) (hc_peer c) in
            let c' := mkConn p (hc_buffer c +:+ data) (hc_complete c) (hc_exceeded c) (hc_requestID c) in
            if negb (String.eqb data "") then fill fuel' size c' s
            else match err with
                 | Some e => (("", Some e, c'), s)
                 | None => fill fuel' size c' s
                 end
      end
  end.
Definition peer_size (p : peer) : nat := sum_list (map (λ segment, Datatypes.S (String.length segment)) (pr_segments p)).
(** [headerLimitConn.Read] into a buffer of [size] bytes. *)
Definition conn_Read (size : nat) (c : headerLimitConn) (s : S) : (string * option string * headerLimitConn) * S :=
  if negb (String.eqb (hc_buffer c) "") && hc_complete c then (deliver size c, s)
  else if hc_complete c then
    let '(data, err, p) := peer_Read size (hc_peer c) in
    ((data, err, mkConn p (hc_buffer c) true (hc_exceeded c) (hc_requestID c)), s)
  else fill (Datatypes.S (peer_size (hc_peer c))) size c s.
End head.

(** [headerLimitListener.Accept] of a connection, and the handler behind it. *)
Definition accept_limited (p : peer) : headerLimitConn := mkConn p "" false false "".
Definition limitedHandler {S : Type} `{!DataPlane S, !Readiness S, !Random S} (handler : HttpHandler) (conn : Http.connection) (now : gotime)
    (c : headerLimitConn) (request : HttpRequest) (s : S) : HttpReply * S :=
  if hc_exceeded c then (WriteLimitExceeded conn (hc_requestID c), s) else ServeHTTP handler conn now request s.

(** ** Listeners *)
Class Listeners (N : Type) := {
  listener : Type;
  Listen : string → string → N → N * res string listener;
  CloseListener : listener → N → N }.
Section listeners.
Context {N : Type} `{!Listeners N}.
Definition closeListeners (listeners : list listener) (n : N) : N := fold_left (λ n l, CloseListener l n) listeners n.
Definition network_of (host : string) : string :=
  match ParseIP host with
  | Some ip => match To4 ip with Some _ => "tcp4" | None => "tcp6" end
  | None => "tcp6"
  end.
Fixpoint listen_each (listeners : list listener) (addresses : list string) (n : N) : N * res string (list listener) :=
  match addresses with
  | [] => (n, Ok listeners)
  | address :: rest =>
      match SplitHostPort address with
      | None => (closeListeners listeners n, Err "split host and port")
      | Some (host, _) =>
          match Listen (network_of host) address n with
          | (n', Ok l) => listen_each (listeners ++ [l]) rest n'
          | (n', Err e) => (closeListeners listeners n', Err ("listen on " +:+ address +:+ ": " +:+ e))
          end
      end
  end.
Definition listenHTTP (addresses : list string) (n : N) : N * res string (list listener) := listen_each [] addresses n.
End listeners.

(** ** Admin requests *)
Definition maxAdminRequestBytes : Z := 32 * 1024.
(** [ActiveExecutableBinding] on the wire: the state directory stays behind. *)
Record wireBinding := Mk_wireBinding { wb_Generation : Z; wb_BinaryPath : string; wb_BinarySHA256 : string }.
#[export] Instance wireBinding_eq_dec : EqDecision wireBinding.
Proof. solve_decision. Defined.
#[export] Instance wireBinding_json : GoJSON wireBinding :=
  {| go_ty := TStruct [("generation", TUint); ("binary_path", go_ty string); ("binary_sha256", go_ty string)];
     to_g a := GStruct [to_g (wb_Generation a); to_g (wb_BinaryPath a); to_g (wb_BinarySHA256 a)];
     of_g g := match g with
       | GStruct [v0; v1; v2] =>
           match of_g (A:=Z) v0, of_g (A:=string) v1, of_g (A:=string) v2 with
           | Some a0, Some a1, Some a2 => Some (Mk_wireBinding a0 a1 a2)
           | _, _, _ => None end
       | _ => None end |}.
#[export] Instance wireBinding_json_laws : GoJSONLaws wireBinding.
Proof. solve_struct_laws. Qed.
Record adminRequest := Mk_adminRequest { aq_Operation : string; aq_DirectInit : bool; aq_Deployment : option wireBinding }.
#[export] Instance adminRequest_eq_dec : EqDecision adminRequest.
Proof. solve_decision. Defined.
#[export] Instance adminRequest_json : GoJSON adminRequest :=
  {| go_ty := TStruct [("operation", go_ty string); ("direct_init", go_ty bool); ("deployment", go_ty (option wireBinding))];
     to_g a := GStruct [to_g (aq_Operation a); to_g (aq_DirectInit a); to_g (aq_Deployment a)];
     of_g g := match g with
       | GStruct [v0; v1; v2] =>
           match of_g (A:=string) v0, of_g (A:=bool) v1, of_g (A:=option wireBinding) v2 with
           | Some a0, Some a1, Some a2 => Some (Mk_adminRequest a0 a1 a2)
           | _, _, _ => None end
       | _ => None end |}.
#[export] Instance adminRequest_json_laws : GoJSONLaws adminRequest.
Proof. solve_struct_laws. Qed.
(** [omitempty]: a false flag and a nil pointer are left out. *)
Definition empty_value (kv : string * json) : bool := match kv.2 with JBool false | JNull => true | _ => false end.
Definition admin_json (request : adminRequest) : json :=
  match to_json (go_ty adminRequest) (to_g request) with
  | JObj members => JObj (List.filter (λ kv, negb (empty_value kv)) members)
  | j => j
  end.
Definition encodeAdminRequest (request : adminRequest) : res string string :=
  let payload := print (admin_json request) in
  if (slen payload =? 0) || (maxAdminRequestBytes <? slen payload) then Err "admin request exceeds its size boundary" else Ok payload.
Definition wire_binding (binding : ActiveExecutableBinding) : wireBinding :=
  Mk_wireBinding (ab_Generation binding) (ab_BinaryPath binding) (ab_BinarySHA256 binding).
Definition EncodeEnrollmentCreateRequest (binding : option ActiveExecutableBinding) : res string string :=
  encodeAdminRequest
    (match binding with
     | None => Mk_adminRequest "enrollment_create" true None
     | Some b => Mk_adminRequest "enrollment_create" false (Some (wire_binding b))
     end).
Definition decodeAdminRequest (payload : string) : res string adminRequest :=
  if (slen payload =? 0) || (maxAdminRequestBytes <? slen payload) then Err "admin request exceeds its size boundary"
  else
    match decodeStrictStream adminRequest payload with
    | None => Err "invalid admin command"
    | Some request =>
        match encodeAdminRequest request with
        | Ok canonical => if String.eqb payload canonical then Ok request else Err "invalid admin command"
        | Err _ => Err "invalid admin command"
        end
    end.

(** ** Answering them *)
Record enrollmentReply := Mk_enrollmentReply {
  er_ProtocolVersion : string; er_InstanceID : string; er_VaultID : string; er_InstanceSecret : string;
  er_EnrollmentGrant : string; er_ExpiresAt : string; er_LoopbackPort : Z }.
#[export] Instance enrollmentReply_json : GoJSON enrollmentReply :=
  {| go_ty := TStruct [("protocol_version", go_ty string); ("instance_id", go_ty string); ("vault_id", go_ty string);
       ("instance_secret", go_ty string); ("enrollment_grant", go_ty string); ("expires_at", go_ty string); ("loopback_port", go_ty Z)];
     to_g a := GStruct [to_g (er_ProtocolVersion a); to_g (er_InstanceID a); to_g (er_VaultID a); to_g (er_InstanceSecret a);
       to_g (er_EnrollmentGrant a); to_g (er_ExpiresAt a); to_g (er_LoopbackPort a)];
     of_g g := match g with
       | GStruct [v0; v1; v2; v3; v4; v5; v6] =>
           match of_g (A:=string) v0, of_g (A:=string) v1, of_g (A:=string) v2, of_g (A:=string) v3, of_g (A:=string) v4,
             of_g (A:=string) v5, of_g (A:=Z) v6 with
           | Some a0, Some a1, Some a2, Some a3, Some a4, Some a5, Some a6 => Some (Mk_enrollmentReply a0 a1 a2 a3 a4 a5 a6)
           | _, _, _, _, _, _, _ => None end
       | _ => None end |}.

(** A computation of the admin socket runs on the store and on the machine. *)
Definition AdminM (H A : Type) : Type := St * Machine H → (St * Machine H) * res derr A.
Definition admin_ret {H A} (a : A) : AdminM H A := λ s, (s, Ok a).
Definition admin_bind {H A B} (f : A → AdminM H B) (x : AdminM H A) : AdminM H B := λ s,
  match x s with (s', Ok a) => f a s' | (s', Err e) => (s', Err e) end.
#[export] Instance adminm_ret {H} : MRet (AdminM H) := @admin_ret H.
#[export] Instance adminm_bind {H} : MBind (AdminM H) := @admin_bind H.

Section admin.
Context {H : Type} `{!Host H, !PreviewHost H} (UserHomeDir : res string string) (EvalSymlinks : string → FsM string).
Context (settings : Settings) (stateDir executable : string) (runtime_version EncodedIdentity : string) (now : gotime).
Abbreviation A_ := (AdminM H).
Definition admin_fail {A} (e : derr) : A_ A := λ s, (s, Err e).
Definition admin_refuse {A} (text : string) : A_ A := admin_fail (Refused text).
Definition admin_tried {A} (x : A_ A) : A_ (res derr A) := λ s, let '(s', r) := x s in (s', Ok r).
Definition on_store {A} (x : Monad.M string A) : A_ A := λ s,
  let '(r, st) := x s.1 in ((st, s.2), match r with Ok a => Ok a | Err e => Err (Refused e) end).
Definition on_machine {A} (x : DepM H A) : A_ A := λ s, let '(m, r) := x s.2 in ((s.1, m), r).
Definition admin_res {A} (r : res string A) : A_ A := match r with Ok a => mret a | Err e => admin_refuse e end.
Definition or_refuse {A} (o : option A) (text : string) : A_ A := match o with Some a => mret a | None => admin_refuse text end.

Definition instance_identity : Identity := {| InstanceID := se_InstanceID settings; VaultID := se_VaultID settings |}.
(** The settings were validated: there is a first listener. *)
Definition enrollmentResponse_body : A_ string :=
  grant ← on_store (CreateEnrollmentGrant instance_identity now);
  secret ← on_machine (on_files (ReadSecret (InstanceSecret (ForStateDir stateDir))));
  '(_, portText) ← or_refuse (SplitHostPort (hd "" (se_Listeners settings))) "split host and port";
  port ← or_refuse (Atoi portText) "invalid syntax";
  mret (marshalJSON (Mk_enrollmentReply "1" (se_InstanceID settings) (se_VaultID settings) (b64_encode (bytes_list secret))
    (b64_encode (bytes_list (Grant grant))) (formatTimestamp (UnixMilli (ExpiresAt grant))) port)).
Definition handleEnrollmentRequest (request : adminRequest) : A_ string :=
  match aq_Deployment request with
  | Some binding =>
      if aq_DirectInit request then admin_refuse "invalid enrollment binding" else
      lease ← on_machine (AcquireManagedActiveLease UserHomeDir EvalSymlinks executable stateDir
                (mkBinding (wb_Generation binding) (wb_BinaryPath binding) (wb_BinarySHA256 binding) ""));
      body ← admin_tried enrollmentResponse_body;
      closed ← admin_tried (on_machine (managed_Close (Some lease)));
      match body, closed with
      | Ok body, Ok _ => mret body
      | Err e, Ok _ => admin_fail e
      | Ok _, Err c => admin_fail c
      | Err e, Err c => admin_fail (Joined e c)
      end
  | None =>
      if negb (aq_DirectInit request) then admin_refuse "invalid enrollment binding" else
      active ← admin_tried (on_machine (ActiveExecutableForExecutable UserHomeDir EvalSymlinks executable));
      match active with
      | Ok _ => admin_refuse "managed enrollment requires an active deployment binding"
      | Err e =>
          if Is e ErrNotDeployedExecutable then enrollmentResponse_body
          else admin_fail (dwrap "validate direct enrollment executable" e)
      end
  end.
Definition deployment_status_reply : res string string :=
  match ValidatedCurrent runtime_version EncodedIdentity with
  | Ok identity => Ok (marshalJSON identity)
  | Err e => Err ("validate compiled build identity: " +:+ e)
  end.
Definition handleAdminRequest (payload : string) : A_ string :=
  request ← admin_res (decodeAdminRequest payload);
  if String.eqb (aq_Operation request) "deployment_status" then
    if aq_DirectInit request || bool_decide (is_Some (aq_Deployment request)) then admin_refuse "invalid admin command"
    else admin_res deployment_status_reply
  else if String.eqb (aq_Operation request) "enrollment_create" then handleEnrollmentRequest request
  else admin_refuse "invalid admin command".
(** [handleAdminConnection] and the answer [runAdmin] sends: at most one byte more than
    the bound is read. *)
Definition bootstrap_failed : string := "{" +:+ quoted "error" +:+ ":" +:+ quoted "bootstrap_failed" +:+ "}".
Definition handleAdminConnection (sent : string) (s : St * Machine H) : (St * Machine H) * string :=
  let '(s', reply) := handleAdminRequest (stake (Z.to_nat (maxAdminRequestBytes + 1)) sent) s in
  (s', match reply with Ok body => body | Err _ => bootstrap_failed end).
End admin.
