(* ===== verification/Cli.v ===== *)
(** * The command line

    [src/runtime/internal/cli/cli.go] over the packages it calls, and the lifecycle it
    constructs ([newLifecycle] and [NewNativeLifecycle] of
    [src/runtime/internal/deployment/lifecycle.go]): the instances [native_host] and
    [native_preview_host] put the service-manager adapter, the artifacts, the instance
    lease and the status socket of the other files behind the fields of a [Lifecycle].
    What is left outside is the class [Platform]: processes, sockets, advisory locks,
    clocks, the standard streams, the HTTP client and the serving loop.  [FlagSet_Parse] is
    package flag. *)

From stdpp Require Import base list strings gmap.
From Stdlib Require Import ZArith Lia Ascii.
From Stdlib Require String.
From S2P Require Import Prelude GoStd GoTime Uuid Json JsonFacts Api Wire Indent Models Release NetIP Fs Paths Config Layout Deploy Instance.
From S2P Require Import Manifest Artifact Lifecycle Preview PreviewRun ApplyRun Http Service Bundle Runtime Server.
Local Open Scope Z_scope.

(** ** Flags: package flag *)
Inductive flagKind := StringFlag | BoolFlag.
Record flag := mkFlag { f_name : string; f_kind : flagKind }.
(** What was set, in order, and the arguments that remain. *)
Record parsed := mkParsed { p_values : list (string * string); p_args : list string }.
Inductive flag_error := ErrHelp | FlagError (text : string).
Definition ParseBool (value : string) : option bool :=
  if bool_decide (value ∈ ["1"; "t"; "T"; "true"; "TRUE"; "True"]) then Some true
  else if bool_decide (value ∈ ["0"; "f"; "F"; "false"; "FALSE"; "False"]) then Some false
  else None.
(** The part before the first equals sign after the first byte, and the part after it. *)
Fixpoint cut_equals (s : string) : string * option string :=
  match s with
  | EmptyString => ("", None)
  | String "=" rest => ("", Some rest)
  | String c rest => let '(name, value) := cut_equals rest in (String c name, value)
  end.
Definition cut_flag (s : string) : string * option string :=
  match s with
  | EmptyString => ("", None)
  | String c rest => let '(name, value) := cut_equals rest in (String c name, value)
  end.
(** The name part of an argument that is a flag: [None] when it is not one, [Some None]
    for the terminator. *)
Definition flag_text (s : string) : option (option string) :=
  match s with
  | String "-" EmptyString => None
  | String "-" (String "-" EmptyString) => Some None
  | String "-" (String "-" rest) => Some (Some rest)
  | String "-" rest => Some (Some rest)
  | _ => None
  end.
Definition bad_syntax (name : string) : bool :=
  match name with EmptyString => true | String c _ => Ascii.eqb c "-" || Ascii.eqb c "=" end.
Fixpoint FlagSet_Parse (flags : list flag) (args : list string) : res flag_error parsed :=
  let add name value r := match r with Ok p => Ok (mkParsed ((name, value) :: p_values p) (p_args p)) | Err e => Err e end in
  match args with
  | [] => Ok (mkParsed [] [])
  | s :: rest =>
      match flag_text s with
      | None => Ok (mkParsed [] args)
      | Some None => Ok (mkParsed [] rest)
      | Some (Some text) =>
          if bad_syntax text then Err (FlagError ("bad flag syntax: " +:+ s)) else
          let '(name, value) := cut_flag text in
          match List.find (λ f, String.eqb (f_name f) name) flags with
          | None =>
              if String.eqb name "help" || String.eqb name "h" then Err ErrHelp
              else Err (FlagError ("flag provided but not defined: -" +:+ name))
          | Some (mkFlag _ BoolFlag) =>
              let value := match value with Some value => value | None => "true" end in
              match ParseBool value with
              | Some _ => add name value (FlagSet_Parse flags rest)
              | None => Err (FlagError ("invalid boolean value for -" +:+ name))
              end
          | Some (mkFlag _ StringFlag) =>
              match value, rest with
              | Some value, _ => add name value (FlagSet_Parse flags rest)
              | None, value :: rest' => add name value (FlagSet_Parse flags rest')
              | None, [] => Err (FlagError ("flag needs an argument: -" +:+ name))
              end
          end
      end
  end.
(** The value of a string variable, of a boolean one, and of a repeated one. *)
Definition string_value (p : parsed) (name default : string) : string :=
  match List.find (λ kv, String.eqb kv.1 name) (rev (p_values p)) with Some kv => kv.2 | None => default end.
Definition bool_value (p : parsed) (name : string) : bool :=
  match List.find (λ kv, String.eqb kv.1 name) (rev (p_values p)) with
  | Some kv => match ParseBool kv.2 with Some b => b | None => false end
  | None => false
  end.
Record stringList := mkStringList { sl_values : list string; sl_set : bool }.
Definition list_value (p : parsed) (name : string) : stringList :=
  fold_left (λ l kv, if String.eqb kv.1 name then mkStringList (sl_values l ++ [kv.2]) true else l) (p_values p)
    (mkStringList [] false).
Definition string_flags (names : list string) : list flag := map (λ name, mkFlag name StringFlag) names.

(** ** The platform *)
Record Environment := mkEnvironment {
  en_GOOS : string; en_GOARCH : string; en_Version : string;
  en_UserHomeDir : res string string; en_Executable : res string string; en_Getenv : string → string;
  en_EncodedIdentity : string }.
(** A response of the HTTP client: its body is read up to a limit, or fails. *)
Record ClientResponse := mkClientResponse {
  re_StatusCode : Z; re_ContentType : string; re_Body : string; re_BodyError : bool }.
Class Platform (S : Type) := {
  platform_exec :: Exec S;
  platform_sockets :: UnixSockets S;
  (** [flock(2)] on the file at a path, and the deadline of the health wait. *)
  lock_exclusive : string → HostM S unit;
  lock_shared : string → HostM S unit;
  unlock : string → HostM S unit;
  deadline_passed : HostM S bool;
  (** [store.ValidateExisting] and [server.RunWithAdmin]. *)
  ValidateExisting : string → string → string → HostM S unit;
  RunWithAdmin : Settings → string → HostM S unit;
  EvalSymlinks : string → FsM string;
  (** The standard streams; an error and the message of a failed flag are printed. *)
  WriteStdout : string → HostM S unit;
  WriteStderr : string → HostM S unit;
  PrintError : derr → HostM S unit;
  PrintFlagError : string → flag_error → HostM S unit;
  ExecForeground : string → list string → HostM S unit;
  ClientDo : string → string → list (string * string) → HostM S ClientResponse }.

(** ** The native lifecycle

    The state a lifecycle's fields close over: the platform's and the instance lease. *)
Record Native (S : Type) := mkNative { nt_platform : S; nt_lease : option fileLock }.
Arguments mkNative {S}.
Arguments nt_platform {S}.
Arguments nt_lease {S}.

Section native.
Context {S : Type} `{!Platform S, !InstanceHost, !UnicodeCase, !BuildInfoReader}.
Abbreviation N := (Native S).
Definition on_platform {A} (x : HostM S A) : HostM N A := λ s,
  let '((w, p), r) := x (s.1, nt_platform s.2) in ((w, mkNative p (nt_lease s.2)), r).
Definition with_lease {A} (f : fileLock → FsM A) : HostM N A := λ s,
  match nt_lease s.2 with
  | Some lease => hfiles (f lease) s
  | None => hrefuse "initialization lease is closed" s
  end.
Definition acquire_lease (stateDir : string) (present : bool) : HostM N bool := λ s,
  match hfiles (AcquireInitializationLeaseWithLockPresence stateDir present) s with
  | ((w, h), Ok lease) => ((w, mkNative (nt_platform h) (Some lease)), Ok (InitializationLockCreated lease))
  | (s', Err e) => (s', Err e)
  end.
Definition release_lease : HostM N unit := λ s,
  match nt_lease s.2 with
  | None => (s, Ok tt)
  | Some lease =>
      let '((w, h), r) := hfiles (lock_Close lease) s in ((w, mkNative (nt_platform h) None), r)
  end.
(** A computation of the deployment that uses no journal variable. *)
Definition no_journal : DeploymentJournal := Mk_DeploymentJournal 0 "" "" "" "" "" "" "" "" None None.
Definition as_host {A} (x : DepM N A) : HostM N A := λ s,
  let '(m, r) := x (mkMachine s.1 s.2 no_journal) in ((m_world m, m_host m), r).

Context (layout : Layout) (manager : ServiceManagerAdapter).
Definition newLifecycle (target : Target) : Lifecycle := Mk_Lifecycle layout target "".
(** [Initialize] of the lease is called with no listeners. *)
Definition native_host : Host N := {|
  Kind := adapter_Kind manager;
  DefinitionPath := sa_definitionPath manager;
  Detect binaryPath stateDir := on_platform (adapter_Detect manager binaryPath stateDir);
  InstallDefinition payload := adapter_InstallDefinition manager payload;
  Activate := on_platform (adapter_Activate manager);
  Stop := on_platform (adapter_Stop manager);
  RemoveService := on_platform (adapter_Remove manager);
  IsActive := on_platform (adapter_IsActive manager);
  Inspect binaryPath := on_platform (InspectExecutable binaryPath);
  stageArtifact sourcePath destinationDir finalName bytes digest :=
    hfiles (StageVerifiedArtifact sourcePath destinationDir finalName bytes digest);
  verifyArtifact path bytes digest := hfiles (VerifyStagedArtifact path bytes digest);
  stageReleaseFile sourcePath destinationDir finalName bytes digest :=
    hfiles (StageVerifiedReleaseFile sourcePath destinationDir finalName bytes digest);
  verifyReleaseFile path bytes digest := hfiles (VerifyStagedReleaseFile path bytes digest);
  verifyPreviewRelease release := as_host (verifyInstalledReleaseForPreview (newLifecycle (Mk_Target "" "")) release);
  renderService platform binary stateDir :=
    match Render platform binary stateDir with Ok text => Ok text | Err e => Err (Refused e) end;
  probeRunning stateDir := on_platform (ProbeRunningIdentity stateDir);
  removeArtifacts l := hfiles (RemoveInstalledArtifacts l);
  lease_Initialize := with_lease (λ lease, LeaseInitialize (ly_StateDir layout) lease None);
  lease_Attest := with_lease AttestLockPath;
  flock path := on_platform (lock_exclusive path);
  funlock path := on_platform (unlock path);
  health_deadline := on_platform deadline_passed |}.
Definition native_preview_host : PreviewHost N := {|
  verifySourceArtifact path release := hfiles (VerifyArtifactSource path release);
  verifySourceReleaseFile path bytes digest := hfiles (VerifyReleaseFileSource path bytes digest);
  validate_existing path instanceID vaultID := on_platform (ValidateExisting path instanceID vaultID);
  flock_shared path := on_platform (lock_shared path);
  acquireInstanceLease stateDir present := acquire_lease stateDir present;
  close_lease := release_lease |}.
End native.

(** ** Commands *)
Section cli.
Context {S : Type} `{!Platform S, !InstanceHost, !UnicodeCase, !BuildInfoReader} (env : Environment).
Abbreviation N := (Native S).
Abbreviation M A := (DepM N A).
Definition platform {A} (x : HostM S A) : M A := host (on_platform x).
Definition file {A} (x : FsM A) : M A := on_files x.
Definition ignored (x : HostM S unit) : M unit := _ ← tried (platform x); mret tt.
(** [flags.Parse]: the message of a failure goes to the flag set's output. *)
Definition flag_refusal (e : flag_error) : derr := match e with ErrHelp => Refused "flag: help requested" | FlagError text => Refused text end.
Definition parse_flags (name : string) (flags : list flag) (args : list string) : M parsed :=
  match FlagSet_Parse flags args with
  | Ok p => mret p
  | Err e => _ ← ignored (PrintFlagError name e); fail (flag_refusal e)
  end.
Definition no_arguments (p : parsed) (name : string) : M unit :=
  demand (bool_decide (p_args p = [])) (name +:+ " accepts no positional arguments").
(** [json.NewEncoder(runner.Stdout).Encode]. *)
Definition encode_json (j : json) : M unit := platform (WriteStdout (print j +:+ newline)).
Definition json_of {A} `{GoJSON A} (a : A) : json := to_json (go_ty A) (to_g a).
Definition omit_empty {A} `{GoJSON A} (name : string) (value : option A) : list (string * json) :=
  match value with Some a => [(name, json_of a)] | None => [] end.
Definition omit_text (name value : string) : list (string * json) := if String.eqb value "" then [] else [(name, JStr value)].

(** *** Defaults of the environment *)
Definition default_state_dir : res string string := DefaultStateDir (en_UserHomeDir env) (en_GOOS env) (en_Getenv env "XDG_STATE_HOME").
Definition default_layout : M Layout :=
  resolved ← match en_UserHomeDir env with
             | Err e => mret (Err e)
             | Ok home =>
                 r ← tried (file (EvalSymlinks home));
                 mret (match r with Ok path => Ok path | Err _ => Err "evaluate symbolic links" end)
             end;
  from_res (DefaultLayout (en_UserHomeDir env) resolved default_state_dir (en_GOOS env) (en_Getenv env "XDG_DATA_HOME")).

(** *** version *)
Definition runVersion (args : list string) : M unit :=
  p ← parse_flags "version" (string_flags ["format"]) args;
  _ ← no_arguments p "version";
  identity ← within "validate compiled build identity" (from_res (ValidatedCurrent (en_Version env) (en_EncodedIdentity env)));
  let format := string_value p "format" "text" in
  if String.eqb format "text" then platform (WriteStdout ("sshserver " +:+ Release identity +:+ newline))
  else if String.eqb format "json" then encode_json (json_of identity)
  else refuse "version supports only --format=text or --format=json".

(** *** Flags of a deployment *)
Record deploymentFlagValues := mkValues { fv_homeDir : string; fv_installRoot : string; fv_stateDir : string }.
Definition layout_flags : list string := ["home-dir"; "install-root"; "state-dir"].
Definition layout_values (p : parsed) (defaults : deploymentFlagValues) : deploymentFlagValues :=
  mkValues (string_value p "home-dir" (fv_homeDir defaults)) (string_value p "install-root" (fv_installRoot defaults))
    (string_value p "state-dir" (fv_stateDir defaults)).
(** [newDeploymentFlags] and the parse that follows it everywhere. *)
Definition newDeploymentFlags (name : string) (more : list flag) (args : list string) : M (deploymentFlagValues * parsed) :=
  layout ← default_layout;
  p ← parse_flags name (string_flags layout_flags ++ more) args;
  mret (layout_values p (mkValues (ly_HomeDir layout) (ly_InstallRoot layout) (ly_StateDir layout)), p).
Definition newDeploymentStatusFlags (name : string) (args : list string) : M (deploymentFlagValues * parsed) :=
  p ← parse_flags name (string_flags layout_flags) args;
  mret (layout_values p (mkValues "" "" ""), p).
(** A lifecycle of the machine, with the adapter its host uses. *)
Definition native_target : Target := Mk_Target (en_GOOS env) (en_GOARCH env).
Definition supported_host : M unit :=
  demand (isSupportedTarget native_target) ("unsupported deployment host " +:+ en_GOOS env +:+ "/" +:+ en_GOARCH env).
Definition NewNativeLifecycle (layout : Layout) : M (Lifecycle * ServiceManagerAdapter) :=
  _ ← supported_host;
  manager ← file (NewNativeServiceManagerAdapter (en_Getenv env "XDG_CONFIG_HOME") (en_GOOS env) (ly_HomeDir layout));
  mret (newLifecycle layout native_target, manager).
Definition NewNativeStatusLifecycle (layout : Layout) : M (Lifecycle * ServiceManagerAdapter) :=
  _ ← supported_host;
  manager ← file (newNativeStatusServiceManagerAdapter (en_Getenv env "XDG_CONFIG_HOME") (en_GOOS env) (ly_HomeDir layout));
  mret (newLifecycle layout native_target, manager).
Definition lifecycle (values : deploymentFlagValues) : M (Lifecycle * ServiceManagerAdapter) :=
  layout ← from_res (NewLayout (fv_homeDir values) (fv_installRoot values) (fv_stateDir values));
  NewNativeLifecycle layout.
Definition statusLayout (values : deploymentFlagValues) : M Layout :=
  let explicit := List.filter (λ v, negb (String.eqb v "")) [fv_homeDir values; fv_installRoot values; fv_stateDir values] in
  match length explicit with
  | 0%nat => default_layout
  | 3%nat => from_res (NewLayout (fv_homeDir values) (fv_installRoot values) (fv_stateDir values))
  | _ => refuse "--home-dir, --install-root, and --state-dir must be supplied together"
  end.
Definition statusLifecycle (values : deploymentFlagValues) : M (Lifecycle * ServiceManagerAdapter) :=
  layout ← statusLayout values;
  NewNativeStatusLifecycle layout.
(** The operations of a lifecycle on the native host. *)
Definition on_host (lc : Lifecycle * ServiceManagerAdapter) : Host N := native_host (lc_layout lc.1) lc.2.
Definition lifecycle_Preview (lc : Lifecycle * ServiceManagerAdapter) (request : PreviewRequest) : M DeploymentPreview :=
  TakePreview (Host0 := on_host lc) (PreviewHost0 := native_preview_host) lc.1 request.
Definition lifecycle_Apply (lc : Lifecycle * ServiceManagerAdapter) (request : ApplyRequest) : M ApplyResult :=
  Apply (Host0 := on_host lc) (PreviewHost0 := native_preview_host) lc.1 request.
Definition lifecycle_Rollback (lc : Lifecycle * ServiceManagerAdapter) : M ApplyResult := Rollback (Host0 := on_host lc) lc.1.
Definition lifecycle_Uninstall (lc : Lifecycle * ServiceManagerAdapter) : M UninstallResult := Uninstall (Host0 := on_host lc) lc.1.
Definition lifecycle_Status (lc : Lifecycle * ServiceManagerAdapter) : M (StatusResult * option derr) := Status (Host0 := on_host lc) lc.1.

(** *** Results *)
Definition locator_json (l : DeploymentLocator) : json := JObj [
  ("version", JStr (dl_Version l)); ("lifecycle_binary_path", JStr (dl_LifecycleBinaryPath l)); ("home_dir", JStr (dl_HomeDir l));
  ("install_root", JStr (dl_InstallRoot l)); ("state_dir", JStr (dl_StateDir l)); ("release", JStr (dl_Release l));
  ("os", JStr (dl_OS l)); ("architecture", JStr (dl_Architecture l)); ("manifest_sha256", JStr (dl_ManifestSHA256 l));
  ("binary_sha256", JStr (dl_BinarySHA256 l)); ("binary_bytes", json_of (dl_BinaryBytes l))].
Definition apply_json (r : ApplyResult) : json := JObj (
  [("status", JStr (ar_Status r)); ("deployment_locator", locator_json (ar_Locator r)); ("state", json_of (ar_State r))] ++
  omit_empty "foreground" (ar_Foreground r) ++ omit_text "transaction_id" (ar_TransactionID r)).
Definition status_json (r : StatusResult) : json := JObj (
  [("status", JStr (sr_Status r))] ++ omit_empty "state" (sr_State r) ++ omit_empty "journal" (sr_Journal r) ++
  [("running", JBool (sr_Running r)); ("recovery_required", JBool (sr_RecoveryRequired r))]).
Definition uninstall_json (r : UninstallResult) : json := JObj (
  [("status", JStr (ur_Status r)); ("state", json_of (ur_State r))] ++ omit_text "transaction_id" (ur_TransactionID r)).
Definition writePreviewResult (preview : DeploymentPreview) : M unit :=
  canonical ← from_res (preview_CanonicalBytes preview);
  platform (WriteStdout canonical).
Definition writeApplyResult (result : ApplyResult) : M unit := encode_json (apply_json result).
Definition locates (locator : DeploymentLocator) (active : InstalledRelease) : bool :=
  String.eqb (dl_Version locator) "1" && String.eqb (dl_LifecycleBinaryPath locator) (ir_BinaryPath active) &&
  String.eqb (dl_Release locator) (ir_Release active) && String.eqb (dl_OS locator) (ir_OS active) &&
  String.eqb (dl_Architecture locator) (ir_Architecture active) && String.eqb (dl_ManifestSHA256 locator) (ir_ManifestSHA256 active) &&
  String.eqb (dl_BinarySHA256 locator) (ir_BinarySHA256 active) && (dl_BinaryBytes locator =? ir_BinaryBytes active).
(** No command is needed for a service the manager runs. *)
Definition supervisedForegroundCommand (result : ApplyResult) : res string (list string) :=
  let locator := ar_Locator result in
  let state := ar_State result in
  match NewLayout (dl_HomeDir locator) (dl_InstallRoot locator) (dl_StateDir locator) with
  | Err e => Err ("validate supervised deployment locator: " +:+ e)
  | Ok layout =>
      match validate_state layout state with
      | Err e => Err ("validate supervised deployment state: " +:+ e)
      | Ok _ =>
          if negb (match ds_Active state with Some active => locates locator active | None => false end)
            then Err "supervised deployment locator does not match the committed active release"
          else if String.eqb (ar_Status result) "active" then
            if negb (String.eqb (ds_Status state) StatusActive) || String.eqb (ds_Manager state) ManagerForeground ||
               bool_decide (is_Some (ar_Foreground result))
            then Err "active supervised deployment result is inconsistent" else Ok []
          else
            match ar_Foreground result with
            | Some foreground =>
                if negb (String.eqb (ar_Status result) "foreground_required") || negb (String.eqb (ds_Status state) StatusForeground) ||
                   negb (String.eqb (ds_Manager state) ManagerForeground) || negb (ff_Required foreground) ||
                   negb (String.eqb (ff_Reason foreground) "user_service_manager_unavailable") || negb (ff_Supervised foreground)
                then Err "supervised deployment result is not an exact foreground requirement"
                else
                  let want := [dl_LifecycleBinaryPath locator; "serve"; "--state-dir"; dl_StateDir locator] in
                  if bool_decide (ff_Command foreground = want) then Ok want
                  else Err "supervised deployment foreground command does not match the installed locator"
            | None => Err "supervised deployment result is not an exact foreground requirement"
            end
      end
  end.
Definition writeAndSuperviseApplyResult (result : ApplyResult) : M unit :=
  command ← from_res (supervisedForegroundCommand result);
  _ ← writeApplyResult result;
  match command with
  | [] => mret tt
  | program :: _ => platform (ExecForeground program command)
  end.

(** *** deploy *)
Definition input_flags : list string := ["manifest"; "manifest-sha256"; "artifact"; "license"; "notice"].
Definition inputs_given (p : parsed) (names : list string) : bool :=
  forallb (λ name, negb (String.eqb (string_value p name "") "")) names.
Definition inputs_distinct (p : parsed) : bool :=
  no_duplicates (map (λ name, string_value p name "") ["manifest"; "artifact"; "license"; "notice"]).
Definition read_inputs (p : parsed) : M PreviewRequest :=
  let manifestPath := string_value p "manifest" "" in
  let manifestSHA256 := string_value p "manifest-sha256" "" in
  payload ← file (ReadPinnedManifestFile manifestPath manifestSHA256);
  mret (Mk_PreviewRequest manifestPath payload manifestSHA256 (string_value p "artifact" "") (string_value p "license" "")
          (string_value p "notice" "")).
Definition runDeployPreview (args : list string) : M unit :=
  '(values, p) ← newDeploymentFlags "deploy preview" (string_flags input_flags) args;
  _ ← no_arguments p "deploy preview";
  _ ← demand (inputs_given p input_flags) "deploy preview requires --manifest, --manifest-sha256, --artifact, --license, and --notice";
  _ ← demand (inputs_distinct p) "deployment input paths must be distinct";
  lc ← lifecycle values;
  request ← read_inputs p;
  preview ← lifecycle_Preview lc request;
  writePreviewResult preview.
(** The code removes them in the order of a map iteration. *)
Fixpoint remove_consumed (inputs : list (string * string)) : M (option derr) :=
  match inputs with
  | [] => mret None
  | (label, path) :: rest =>
      removed ← tried (within ("remove consumed " +:+ label) (file (RemoveConsumedInput path)));
      others ← remove_consumed rest;
      mret (match removed, others with
            | Ok _, _ => others
            | Err e, None => Some e
            | Err e, Some o => Some (Joined e o)
            end)
  end.
Definition consume_inputs (request : PreviewRequest) : M unit :=
  failed ← remove_consumed [("manifest", pq_ManifestPath request); ("artifact", pq_ArtifactPath request);
                            ("LICENSE", pq_LicensePath request); ("NOTICE", pq_NoticePath request)];
  match failed with Some e => fail e | None => mret tt end.
Definition apply_flags : list flag :=
  string_flags (input_flags ++ ["confirmed-preview-sha256"]) ++ [mkFlag "consume-inputs" BoolFlag; mkFlag "supervise-foreground" BoolFlag].
Definition runDeployApply (operation : string) (args : list string) : M unit :=
  '(values, p) ← newDeploymentFlags ("deploy " +:+ operation) apply_flags args;
  _ ← no_arguments p ("deploy " +:+ operation);
  let consumeInputs := bool_value p "consume-inputs" in
  let superviseForeground := bool_value p "supervise-foreground" in
  _ ← demand (negb (superviseForeground && negb (String.eqb operation "apply")))
        "--supervise-foreground is supported only by deploy apply";
  _ ← demand (negb (superviseForeground && negb consumeInputs)) "--supervise-foreground requires --consume-inputs";
  _ ← demand (inputs_given p (input_flags ++ ["confirmed-preview-sha256"]))
        ("deploy " +:+ operation +:+
         " requires --manifest, --manifest-sha256, --artifact, --license, --notice, and --confirmed-preview-sha256");
  _ ← demand (inputs_distinct p) "deployment input paths must be distinct";
  lc ← lifecycle values;
  request ← read_inputs p;
  result ← lifecycle_Apply lc (Mk_ApplyRequest request (string_value p "confirmed-preview-sha256" ""));
  _ ← (if consumeInputs then consume_inputs request else mret tt);
  if superviseForeground then writeAndSuperviseApplyResult result else writeApplyResult result.
(** A status that was determined is printed with its error too. *)
Definition runDeployStatus (args : list string) : M unit :=
  '(values, p) ← newDeploymentStatusFlags "deploy status" args;
  _ ← no_arguments p "deploy status";
  lc ← statusLifecycle values;
  '(result, statusErr) ← lifecycle_Status lc;
  _ ← (if String.eqb (sr_Status result) "" then mret tt else encode_json (status_json result));
  match statusErr with Some e => fail e | None => mret tt end.
Definition runDeployRollback (args : list string) : M unit :=
  '(values, p) ← newDeploymentFlags "deploy rollback" [] args;
  _ ← no_arguments p "deploy rollback";
  lc ← lifecycle values;
  result ← lifecycle_Rollback lc;
  writeApplyResult result.
Definition runDeployUninstall (args : list string) : M unit :=
  '(values, p) ← newDeploymentFlags "deploy uninstall" [] args;
  _ ← no_arguments p "deploy uninstall";
  lc ← lifecycle values;
  result ← lifecycle_Uninstall lc;
  encode_json (uninstall_json result).
Definition runDeploy (args : list string) : M unit :=
  match args with
  | [] => refuse "deploy requires preview, apply, recover, status, rollback, or uninstall"
  | command :: rest =>
      if String.eqb command "preview" then runDeployPreview rest
      else if String.eqb command "apply" || String.eqb command "recover" then runDeployApply command rest
      else if String.eqb command "status" then runDeployStatus rest
      else if String.eqb command "rollback" then runDeployRollback rest
      else if String.eqb command "uninstall" then runDeployUninstall rest
      else refuse ("unknown deploy command " +:+ quoted command)
  end.

(** *** init and serve *)
Definition runInit (args : list string) : M unit :=
  stateDir ← from_res default_state_dir;
  p ← parse_flags "init" (string_flags ["state-dir"; "listen"]) args;
  _ ← no_arguments p "init";
  let stateDir := string_value p "state-dir" stateDir in
  let listeners := list_value p "listen" in
  settings ← file (InitializeInstance stateDir (if sl_set listeners then Some (sl_values listeners) else None));
  encode_json (JObj [("status", JStr "initialized"); ("instance_id", JStr (se_InstanceID settings));
    ("vault_id", JStr (se_VaultID settings)); ("listeners", json_of (se_Listeners settings)); ("state_dir", JStr stateDir)]).
Fixpoint announce (listeners : list string) : M unit :=
  match listeners with
  | [] => mret tt
  | listener :: rest => _ ← ignored (WriteStderr ("sshserver: listening on " +:+ listener +:+ newline)); announce rest
  end.
Definition runServe (args : list string) : M unit :=
  stateDir ← from_res default_state_dir;
  p ← parse_flags "serve" (string_flags ["state-dir"]) args;
  _ ← no_arguments p "serve";
  let stateDir := string_value p "state-dir" stateDir in
  '(settings, lock) ← file (OpenForServe stateDir);
  served ← tried (_ ← announce (se_Listeners settings); platform (RunWithAdmin settings stateDir));
  closed ← tried (within "close server instance" (file (CloseInstance stateDir (Some lock))));
  match served, closed with
  | _, Ok _ => from_derr served
  | Ok _, Err c => fail c
  | Err e, Err c => fail (Joined e c)
  end.

(** *** enrollment *)
Definition state_of_environment : M string := from_res default_state_dir.
Definition enrollmentStateForExecutable (executable explicitStateDir : string) : M (string * option ActiveExecutableBinding) :=
  active ← tried (ActiveExecutableForExecutable (en_UserHomeDir env) EvalSymlinks executable);
  match active with
  | Ok binding =>
      _ ← demand (String.eqb explicitStateDir "" || String.eqb explicitStateDir (ab_StateDir binding))
            "explicit enrollment state directory does not match the active deployment";
      mret (ab_StateDir binding, Some binding)
  | Err e =>
      if Is e ErrNotDeployedExecutable then
        if negb (String.eqb explicitStateDir "") then mret (explicitStateDir, None)
        else stateDir ← state_of_environment; mret (stateDir, None)
      else fail e
  end.
Definition commandStateForExecutable (executable : string) : M (string * option ActiveExecutableBinding) :=
  active ← tried (ActiveExecutableForExecutable (en_UserHomeDir env) EvalSymlinks executable);
  match active with
  | Ok binding => mret (ab_StateDir binding, Some binding)
  | Err e => if negb (Is e ErrNotDeployedExecutable) then fail e
             else stateDir ← state_of_environment; mret (stateDir, None)
  end.
Definition stateDirForExecutable (executable : string) : M string :=
  '(stateDir, _) ← commandStateForExecutable executable;
  mret stateDir.
(** The errors of a step are replaced by one text. *)
Definition or_text {A} (text : string) (x : M A) : M A :=
  r ← tried x;
  match r with Ok a => mret a | Err _ => refuse text end.
Definition credential_ok (text : string) : bool :=
  match b64_decode text with
  | Some bytes => (Z.of_nat (length bytes) =? 32) && String.eqb (b64_encode bytes) text
  | None => false
  end.
Definition reply_ok (reply : enrollmentReply) : bool :=
  String.eqb (er_ProtocolVersion reply) ProtocolMajor && credential_ok (er_InstanceSecret reply) &&
  credential_ok (er_EnrollmentGrant reply) && (1 <=? er_LoopbackPort reply) && (er_LoopbackPort reply <=? 65535) &&
  valid_uuid (er_InstanceID reply) && valid_uuid (er_VaultID reply) && negb (String.eqb (er_VaultID reply) (er_InstanceID reply)) &&
  validateTimestamp (er_ExpiresAt reply).
Definition enrollment_reply (payload : string) : res string enrollmentReply :=
  let invalid := "enrollment service returned an invalid response" in
  if (slen payload =? 0) || (4096 <? slen payload) then Err invalid
  else
    match decodeStrictStream enrollmentReply payload with
    | Some reply => if reply_ok reply then Ok reply else Err invalid
    | None => Err invalid  (* or trailing data *)
    end.
Definition dial (path : string) : M connection :=
  dialled ← platform (λ s, let '(s', r) := DialUnix path s in (s', Ok r));
  match dialled with Ok c => mret c | Err _ => refuse "enrollment service is unavailable" end.
Definition request_enrollment (c : connection) (binding : option ActiveExecutableBinding) : M enrollmentReply :=
  let failed := "enrollment service request failed" in
  request ← or_text failed (from_res (EncodeEnrollmentCreateRequest binding));
  _ ← or_text failed (platform (WriteString c request));
  _ ← or_text failed (platform (CloseWrite c));
  payload ← or_text "enrollment service returned an invalid response" (platform (read_up_to c 4097));
  from_res (enrollment_reply payload).
Definition runEnrollment (args : list string) : M unit :=
  match args with
  | command :: rest =>
      if negb (String.eqb command "create") then refuse "enrollment requires create" else
      p ← parse_flags "enrollment create" (string_flags ["state-dir"; "format"]) rest;
      _ ← no_arguments p "enrollment create";
      _ ← demand (String.eqb (string_value p "format" "json") "json") "enrollment create supports only --format=json";
      executable ← or_text "enrollment executable path is unavailable" (from_res (en_Executable env));
      '(stateDir, binding) ← or_text "enrollment instance state is unavailable"
        (enrollmentStateForExecutable executable (string_value p "state-dir" ""));
      _ ← file (EnsureStateDirectory stateDir);
      c ← dial (AdminSocket (ForStateDir stateDir));
      reply ← tried (request_enrollment c binding);
      written ← tried (match reply with Ok reply => encode_json (json_of reply) | Err e => fail e end);
      _ ← ignored (CloseConnection c);
      from_derr written
  | [] => refuse "enrollment requires create"
  end.

(** *** endpoint *)
Fixpoint shared_port (listeners : list string) (sharedPort : string) (hasProductIPv4Listener : bool) : res string (string * bool) :=
  match listeners with
  | [] => Ok (sharedPort, hasProductIPv4Listener)
  | address :: rest =>
      match SplitHostPort address with
      | None => Err "endpoint listener configuration is invalid"
      | Some (host, port) =>
          if negb (String.eqb sharedPort "") && negb (String.eqb sharedPort port) then Err "endpoint listeners do not share one port"
          else shared_port rest (if String.eqb sharedPort "" then port else sharedPort)
                 (String.eqb host "127.0.0.1" || hasProductIPv4Listener)
      end
  end.
Definition discoverableIPv4LoopbackPort (listeners : list string) : res string Z :=
  match shared_port listeners "" false with
  | Err e => Err e
  | Ok (sharedPort, hasProductIPv4Listener) =>
      if negb hasProductIPv4Listener then Err "endpoint has no usable 127.0.0.1 listener"
      else
        match Atoi sharedPort with
        | Some port => if (port <? 1) || (65535 <? port) then Err "endpoint listener port is invalid" else Ok port
        | None => Err "endpoint listener port is invalid"
        end
  end.
Definition runEndpointShow (args : list string) : M unit :=
  match FlagSet_Parse (string_flags ["state-dir"; "format"]) args with
  | Err _ => refuse "endpoint show has invalid options"
  | Ok p =>
      _ ← no_arguments p "endpoint show";
      _ ← demand (String.eqb (string_value p "format" "json") "json") "endpoint show supports only --format=json";
      let stateDir := string_value p "state-dir" "" in
      stateDir ← (if String.eqb stateDir "" then
                    executable ← or_text "endpoint executable path is unavailable" (from_res (en_Executable env));
                    or_text "endpoint instance state is unavailable" (stateDirForExecutable executable)
                  else mret stateDir);
      settings ← or_text "endpoint instance state is unavailable" (file (LoadCompletedSettings stateDir));
      port ← from_res (discoverableIPv4LoopbackPort (se_Listeners settings));
      encode_json (JObj [("protocol_version", JStr ProtocolMajor); ("instance_id", JStr (se_InstanceID settings));
        ("vault_id", JStr (se_VaultID settings)); ("loopback_port", json_of port)])
  end.
Definition runEndpoint (args : list string) : M unit :=
  match args with
  | [] => refuse "endpoint requires show"
  | command :: rest => if String.eqb command "show" then runEndpointShow rest else refuse "endpoint supports only show"
  end.

(** *** health *)
Definition health_reply (response : ClientResponse) : res string unit :=
  let payload := stake 1025 (re_Body response) in
  if negb (re_StatusCode response =? 200) then
    Err ("health returned HTTP " +:+ FormatInt (re_StatusCode response) +:+ ": " +:+ TrimSpace (stake 1024 (re_Body response)))
  else if negb (String.eqb (re_ContentType response) "application/json; charset=utf-8")
    then Err "health returned an unexpected content type"
  else if re_BodyError response && (slen (re_Body response) <? 1025) then Err "read health response"
  else if 1024 <? slen payload then Err "health response exceeds 1024 bytes"
  else
    match decodeStrictStream healthResponse payload with
    | None => Err "decode health response"  (* or trailing data *)
    | Some body =>
        if negb (String.eqb (hr_Status body) "ok") || negb (String.eqb (hr_ProtocolVersion body) ProtocolMajor)
        then Err "health returned an invalid response" else Ok tt
    end.
Definition runHealth (args : list string) : M unit :=
  p ← parse_flags "health" (string_flags ["address"]) args;
  _ ← no_arguments p "health";
  let address := string_value p "address" (hd "" DefaultListeners) in
  _ ← from_res (ValidateListener address);
  requestID ← file uuid_new;
  response ← within "health request" (platform (ClientDo "GET" ("http://" +:+ address +:+ "/v1/healthz")
    [("JAT-Protocol-Version", ProtocolMajor); ("JAT-Request-ID", requestID)]));
  _ ← from_res (health_reply response);
  platform (WriteStdout ("ok" +:+ newline)).

(** *** service *)
Definition filepathAbs (path : string) : res string string := if IsAbs path then Ok path else Err "executable path must be absolute".
Record serviceValues := mkServiceValues { sv_platform : string; sv_binary : string; sv_stateDir : string; sv_output : string }.
Definition serviceFlags (name : string) (args : list string) (allowOutput : bool) : M (serviceValues * parsed) :=
  binary ← from_res (en_Executable env);
  binary ← from_res (filepathAbs binary);
  stateDir ← from_res default_state_dir;
  p ← parse_flags name (string_flags (["platform"; "binary"; "state-dir"] ++ if allowOutput then ["output"] else [])) args;
  mret (mkServiceValues (string_value p "platform" (en_GOOS env)) (string_value p "binary" binary)
          (string_value p "state-dir" stateDir) (string_value p "output" ""), p).
Definition renderService_command (args : list string) : M unit :=
  '(values, p) ← serviceFlags "service render" args false;
  _ ← no_arguments p "service render";
  payload ← from_res (Render (sv_platform values) (sv_binary values) (sv_stateDir values));
  platform (WriteStdout payload).
Definition installService (args : list string) : M unit :=
  '(values, p) ← serviceFlags "service install" args true;
  _ ← no_arguments p "service install";
  installed ← file (InstallService (en_UserHomeDir env) (en_Getenv env "XDG_CONFIG_HOME") (en_GOOS env)
    (sv_platform values) (sv_binary values) (sv_stateDir values) (sv_output values));
  platform (WriteStdout (installed +:+ newline)).
Definition runService (args : list string) : M unit :=
  match args with
  | [] => refuse "service requires render or install"
  | command :: rest =>
      if String.eqb command "render" then renderService_command rest
      else if String.eqb command "install" then installService rest
      else refuse ("unknown service command " +:+ quoted command)
  end.

(** *** The runner *)
Definition usage : M unit :=
  ignored (WriteStderr ("usage: sshserver <init|serve|health|enrollment|endpoint|service|deploy|version> [options]" +:+ newline)).
Definition dispatch (command : string) (rest : list string) : M unit :=
  if String.eqb command "init" then runInit rest
  else if String.eqb command "serve" then runServe rest
  else if String.eqb command "health" then runHealth rest
  else if String.eqb command "enrollment" then runEnrollment rest
  else if String.eqb command "endpoint" then runEndpoint rest
  else if String.eqb command "service" then runService rest
  else if String.eqb command "deploy" then runDeploy rest
  else if String.eqb command "version" then runVersion rest
  else refuse ("unknown command " +:+ quoted command).
Definition Runner_Run (args : list string) (m : Machine N) : Machine N * Z :=
  match args with
  | [] => ((usage m).1, 2)
  | command :: rest =>
      if bool_decide (command ∈ ["help"; "-h"; "--help"]) then ((usage m).1, 0)
      else match dispatch command rest m with
           | (m', Ok _) => (m', 0)
           | (m', Err e) => ((ignored (PrintError e) m').1, 1)
           end
  end.
End cli.
