(* ===== verification/Collection.v ===== *)
(** * Garbage collection of dominated revisions, and leases

    [src/runtime/internal/store/collection.go]: a revision may be collected when
    it has been retained for ninety days of server uptime, every active device
    has acknowledged the record's barrier cursor, and an authenticated head or the
    stored collection marker covers it.  The long function collectEligible is
    split at its loops: [collect_candidate] is the body of the inner loop,
    [collect_record] of the outer one. *)

From stdpp Require Import base list strings gmap.
From Stdlib Require Import ZArith Lia Ascii.
From S2P Require Import Prelude GoStd GoTime Uuid Auth Json Wire Api Models Sql Schema Monad Keys Runtime.
From S2P Require Import Enrollment.
Local Open Scope Z_scope.
Local Open Scope go_scope.

Definition minimumRetentionUptime : Z := 90 * 24 * Hour.
Definition collectionRecordBatch : nat := 32.
Definition collectionCandidateBatch : nat := 256.

Record collectionRevision := Mk_collectionRevision {
  revisionID : string; recordID : string; vectorEntries : list vectorEntry; vector : version_vector;
  authenticator : option string; contentHash : string; tombstone : bool; acceptedUptimeMS : Z; changeCursor : Z }.
(** A marker that is present; an absent one is [None]. *)
Record storedCollectionMarker := Mk_storedCollectionMarker {
  sm_witnessRevisionID : string; sm_frontierEntries : list vectorEntry; sm_frontier : version_vector;
  sm_authenticator : string; sm_body : string }.

(** ** Selection: the pure part *)
Definition authenticated_head (h : collectionRevision) : bool :=
  match authenticator h with Some a => slen a =? 32 | None => false end.
Definition marker_dominated (v : version_vector) (marker : option storedCollectionMarker) : bool :=
  match marker with Some m => vectorDominates v (sm_frontier m) | None => true end.
(** The head at [index] dominates every other head. *)
Fixpoint dominates_others (v : version_vector) (index : nat) (heads : list collectionRevision) : bool :=
  match heads with
  | [] => true
  | h :: rest =>
      match index with
      | O => forallb (λ o, vectorDominates v (vector o)) rest
      | S index' => vectorDominates v (vector h) && dominates_others v index' rest
      end
  end.
Fixpoint advancing_witness_from (index : nat) (all todo : list collectionRevision) (marker : option storedCollectionMarker)
    : option collectionRevision :=
  match todo with
  | [] => None
  | w :: rest =>
      if authenticated_head w && marker_dominated (vector w) marker && dominates_others (vector w) index all
      then Some w else advancing_witness_from (S index) all rest marker
  end.
Definition selectAdvancingWitness (heads : list collectionRevision) (marker : option storedCollectionMarker)
    : option collectionRevision :=
  advancing_witness_from 0 heads heads marker.

Definition selectWitnessCoveredCandidates (revisions : list collectionRevision) (witness : option collectionRevision)
    : list collectionRevision :=
  match witness with
  | None => []
  | Some w => List.filter (λ c,
      if String.eqb (revisionID c) (revisionID w) && vectorsEqual (vector c) (vector w) then tombstone w
      else vectorDominates (vector w) (vector c)) revisions
  end.
Definition selectMarkerCoveredCandidates (revisions : list collectionRevision) (marker : option storedCollectionMarker)
    : list collectionRevision :=
  match marker with
  | None => []
  | Some m =>
      if slen (sm_authenticator m) =? 32 then
        List.filter (λ c,
          if String.eqb (revisionID c) (sm_witnessRevisionID m) && vectorsEqual (vector c) (sm_frontier m) then tombstone c
          else vectorDominates (sm_frontier m) (vector c)) revisions
      else []
  end.
Definition allAcknowledged (acknowledgements : list Z) (barrier : Z) : bool :=
  forallb (λ acknowledgement, negb (acknowledgement <? barrier)) acknowledgements.

(** ** Reads *)
Definition loadActiveAcknowledgements : Handler (list Z) :=
  rows ← select_db (λ d, take 65 (order_by (λ a b, cell_oleb (d_device_id a) (d_device_id b))
    (select (λ r, match d_revoked_at_ms r with None => true | Some _ => false end) (tb_devices d))));
  result ← some_or_internal (mapM_opt (λ r, scan_u64 (d_last_ack_cursor r)) rows);
  ensure_internal (length result <=? 64)%nat;;
  mret result.

(** boundedEmptyOrUUIDText on the pair the query returns. *)
Definition scan_empty_or_uuid (c : cell) : option string :=
  match c with
  | CText s => if String.eqb s "" then Some "" else if (slen s =? maxUUIDBytes) && validateUUID s then Some s else None
  | _ => None
  end.
Definition loadCollectionRecordBatch : Handler (list string * string) :=
  row ← select_db runtime_row;
  row ← some_or_internal row;
  scanAfter ← some_or_internal (scan_empty_or_uuid (rs_collection_scan_after_record_id row));
  rows ← select_db (λ d, take collectionRecordBatch (order_by (λ a b, cell_oleb (cr_record_id a) (cr_record_id b))
    (select (λ r, cell_ltb (CText scanAfter) (cr_record_id r)) (tb_collection_records d))));
  result ← some_or_internal (mapM_opt (λ r, scan_uuid (cr_record_id r)) rows);
  mret (result, scanAfter).

(** A row of collectionHeadsSQL or collectionCandidatesSQL: the revision, the
    indexed acceptance time and the joined acceptance origin. *)
Definition scan_collection_row (row : record_revisions_row * cell * option revision_acceptance_origins_row)
    : option collectionRevision :=
  let '(r, indexedAccepted, a) := row in
  let? revisionID := scan_uuid (v_revision_id r) else None;;
  let? recordID := scan_uuid (v_record_id r) else None;;
  let? contentHash := scan_blob 32 32 (v_content_hash r) else None;;
  let? vectorBody := scan_body maxVectorBytes (v_vector_json r) else None;;
  let? authenticator := scan_opt_blob 32 32 (v_collection_witness_authenticator r) else None;;
  require flag (v_tombstone r) else None;;
  let? indexed := scan_blob 8 8 indexedAccepted else None;;
  let? revisionAccepted := scan_blob 8 8 (v_accepted_uptime_ms r) else None;;
  let? originAccepted := scan_blob 8 8 (ocell ao_accepted_uptime_ms a) else None;;
  let? cursorBytes := scan_blob 8 8 (v_change_cursor r) else None;;
  require String.eqb indexed revisionAccepted && String.eqb revisionAccepted originAccepted else None;;
  let? entries := unmarshalAs (list vectorEntry) vectorBody else None;;
  let? vec := validateVector entries else None;;
  let? accepted := DecodeUint64 originAccepted else None;;
  let? cursor := DecodeUint64 cursorBytes else None;;
  Some (Mk_collectionRevision revisionID recordID entries vec authenticator contentHash
          (v_tombstone r =? 1) accepted cursor).
Definition loadCollectionRevisionRows
    (statement : db → list (record_revisions_row * cell * option revision_acceptance_origins_row))
    : Handler (list collectionRevision) :=
  rows ← select_db statement;
  some_or_internal (mapM_opt scan_collection_row rows).

Definition acceptance_of (r : record_revisions_row) (d : db) : list (option revision_acceptance_origins_row) :=
  matches (λ a, cell_eqb (ao_revision_id a) (v_revision_id r)) (tb_revision_acceptance_origins d).
Definition collectionHeadsSQL (record : string) (d : db)
    : list (record_revisions_row * cell * option revision_acceptance_origins_row) :=
  take 33 (flat_map (λ h, flat_map (λ r, map (λ a, (r, v_accepted_uptime_ms r, a)) (acceptance_of r d))
      (select (λ r, cell_eqb (v_revision_id r) (h_revision_id h)) (tb_record_revisions d)))
    (order_by (λ a b, cell_oleb (h_revision_id a) (h_revision_id b))
       (select (λ h, cell_eqb (h_record_id h) (CText record)) (tb_record_heads d)))).
Definition candidate_order (a b : collection_candidates_row) : bool :=
  cell_ltb (cc_accepted_uptime_ms a) (cc_accepted_uptime_ms b)
  || (cell_oleb (cc_accepted_uptime_ms a) (cc_accepted_uptime_ms b) && cell_oleb (cc_revision_id a) (cc_revision_id b)).
Definition collectionCandidatesSQL (record : string) (cutoff : Z) (d : db)
    : list (record_revisions_row * cell * option revision_acceptance_origins_row) :=
  take collectionCandidateBatch
    (flat_map (λ q, flat_map (λ r, map (λ a, (r, cc_accepted_uptime_ms q, a)) (acceptance_of r d))
      (select (λ r, cell_eqb (v_revision_id r) (cc_revision_id q) && cell_eqb (v_record_id r) (cc_record_id q)
                    && (v_retained r =? 1)) (tb_record_revisions d)))
    (order_by candidate_order
       (select (λ q, cell_eqb (cc_record_id q) (CText record) && cell_leb (cc_accepted_uptime_ms q) (cell_u64 cutoff))
          (tb_collection_candidates d)))).

Definition loadCollectionRecordWork (record : string) (accumulatedUptimeMS : Z)
    : Handler (Z * list collectionRevision * list collectionRevision) :=
  row ← select_db (λ d, query_row (select (λ r, cell_eqb (cr_record_id r) (CText record)) (tb_collection_records d)));
  row ← some_or_internal row;
  barrier ← some_or_internal (scan_u64 (cr_barrier_cursor row));
  ensure_internal (negb (barrier =? 0));;
  heads ← loadCollectionRevisionRows (collectionHeadsSQL record);
  ensure_internal (length heads <=? 32)%nat;;
  let minimumMS := Z.quot minimumRetentionUptime Millisecond in
  if accumulatedUptimeMS <? minimumMS then mret (barrier, heads, [])
  else
    candidates ← loadCollectionRevisionRows (collectionCandidatesSQL record (accumulatedUptimeMS - minimumMS));
    mret (barrier, heads, candidates).

Definition preflightCollectionMarkerKey (record : string) : Handler bool :=
  preflight_key tb_collection_markers mk_record_id record.
Definition decode_marker (record : string) (r : collection_markers_row) : option storedCollectionMarker :=
  let? witnessRevisionID := scan_uuid (mk_witness_revision_id r) else None;;
  let? frontierBody := scan_body maxVectorBytes (mk_frontier_json r) else None;;
  let? auth := scan_blob 32 32 (mk_collection_witness_authenticator r) else None;;
  let? barrier := scan_u64 (mk_barrier_cursor r) else None;;
  let? body := scan_body maxBodyBytes (mk_marker_json r) else None;;
  let? frontierEntries := unmarshalAs (list vectorEntry) frontierBody else None;;
  let? frontier := validateVector frontierEntries else None;;
  let? bodyMarker := decodeStoredCollectionMarker body else None;;
  let? '(bodyFrontier, bodyBarrier, bodyAuthenticator) := validateCollectionMarker bodyMarker else None;;
  require String.eqb (cm_RecordID bodyMarker) record && String.eqb (cm_WitnessRevisionID bodyMarker) witnessRevisionID
          && vectorsEqual bodyFrontier frontier && (bodyBarrier =? barrier)
          && VerifyHash auth bodyAuthenticator else None;;
  Some (Mk_storedCollectionMarker witnessRevisionID frontierEntries frontier auth body).
Definition loadCollectionMarker (record : string) : Handler (option storedCollectionMarker) :=
  present ← preflightCollectionMarkerKey record;
  if negb present then mret None else
  row ← select_db (λ d, query_row (select (λ r, cell_eqb (mk_record_id r) (CText record)) (tb_collection_markers d)));
  row ← some_or_internal row;
  marker ← some_or_internal (decode_marker record row);
  mret (Some marker).

(** ** Writes *)
(** DELETE FROM revision_objects: refused while a snapshot references the body. *)
Definition delete_revision_object (hash : string) (d : db) : option db :=
  if existsb (λ f, cell_eqb (rf_content_hash f) (CBlob hash)) (tb_snapshot_revision_refs d)
     && existsb (λ o, cell_eqb (ro_content_hash o) (CBlob hash)) (tb_revision_objects d)
  then None
  else Some (set_revision_objects (delete_rows (λ o, cell_eqb (ro_content_hash o) (CBlob hash)) (tb_revision_objects d)) d).
Definition snapshot_ids (d : db) : list snapshots_row :=
  take 9 (order_by (λ a b, cell_oleb (sn_snapshot_id a) (sn_snapshot_id b)) (tb_snapshots d)).
Definition snapshot_refers (snapshotID revision : string) (d : db) : bool :=
  existsb (λ f, cell_eqb (rf_snapshot_id f) (CText snapshotID) && cell_eqb (rf_revision_id f) (CText revision))
    (tb_snapshot_revision_refs d).
(** Whether one of the snapshots refers to the revision: one query each. *)
Fixpoint any_snapshot_refers (snapshotIDs : list string) (revision : string) : Handler bool :=
  match snapshotIDs with
  | [] => mret false
  | id :: rest =>
      present ← select_db (snapshot_refers id revision);
      if (present : bool) then mret true else any_snapshot_refers rest revision
  end.
Definition deleteUnreferencedRevisionObject (hash revision : string) : Handler () :=
  row ← select_db (λ d, query_row (select (λ r, cell_eqb (v_revision_id r) (CText revision)) (tb_record_revisions d)));
  row ← some_or_internal row;
  revisionHash ← some_or_internal (scan_blob 32 32 (v_content_hash row));
  ensure_internal (String.eqb revisionHash hash);;
  if v_retained row =? 1 then mret () else
  rows ← select_db snapshot_ids;
  snapshotIDs ← some_or_internal (mapM_opt (λ r, scan_uuid (sn_snapshot_id r)) rows);
  ensure_internal (length snapshotIDs <=? 8)%nat;;
  referenced ← any_snapshot_refers snapshotIDs revision;
  if (referenced : bool) then mret () else exec_db (delete_revision_object hash).

Definition upsert_collection_marker (row : collection_markers_row) (d : db) : option db :=
  let same r := cell_eqb (mk_record_id r) (mk_record_id row) in
  if existsb same (tb_collection_markers d)
  then update_collection_markers same
         (λ r, Mk_collection_markers (mk_record_id r) (mk_witness_revision_id row) (mk_frontier_json row)
                 (mk_collection_witness_authenticator row) (mk_barrier_cursor row) (mk_marker_json row)
                 (mk_change_cursor row) (mk_received_at_ms row)) d
  else insert_collection_markers row d.
Definition writeCollectionMarker (witness : collectionRevision) (barrier cursor : Z) (now : gotime) : Handler string :=
  let auth := default "" (authenticator witness) in
  let body := marshalJSON (Mk_collectionMarker (recordID witness) (revisionID witness) (vectorEntries witness)
                             (encodeBase64 auth) (encodeUint64Text barrier)) in
  exec_db (upsert_collection_marker
    (Mk_collection_markers (CText (recordID witness)) (CText (revisionID witness))
       (CBlob (marshalJSON (vectorEntries witness))) (CBlob auth) (cell_u64 barrier) (CBlob body)
       (cell_u64 cursor) (UnixMilli now)));;
  mret body.
Definition insertMarkerChange (cursor : Z) (record markerBody : string) (now : gotime) : Handler () :=
  insertChangeOrigin cursor "collection_marker" 0;;
  exec_db (insert_changes
    (Mk_changes (cell_u64 cursor) (CText "collection_marker") (UnixMilli now) CNull (CText record) (CBlob markerBody)
       CNull CNull)).

(** SET retained = 0, undominated = 0, collected_generation = g. *)
Definition as_collected (generation : cell) (r : record_revisions_row) : record_revisions_row :=
  Mk_record_revisions (v_revision_id r) (v_record_id r) (v_author_device_id r) (v_author_counter r) (v_vector_json r)
    (v_collection_witness_authenticator r) (v_tombstone r) (v_content_hash r) (v_received_at_ms r)
    (v_accepted_uptime_ms r) (v_change_cursor r) generation 0 0.
Definition delete_head (record revision : string) (d : db) : option db :=
  Some (set_record_heads (delete_rows (λ h, cell_eqb (h_record_id h) (CText record)
                                            && cell_eqb (h_revision_id h) (CText revision)) (tb_record_heads d)) d).
Definition delete_change (cursor : Z) (revision : string) (d : db) : option db :=
  Some (set_changes (delete_rows (λ c, cell_eqb (ch_cursor c) (cell_u64 cursor)
                                       && cell_eqb (ch_record_revision_id c) (CText revision)) (tb_changes d)) d).
Definition delete_candidate (record : string) (accepted : Z) (revision : string) (d : db) : option db :=
  Some (set_collection_candidates
    (delete_rows (λ q, cell_eqb (cc_record_id q) (CText record) && cell_eqb (cc_accepted_uptime_ms q) (cell_u64 accepted)
                       && cell_eqb (cc_revision_id q) (CText revision)) (tb_collection_candidates d)) d).
Definition delete_finished_record (record : string) (d : db) : option db :=
  if existsb (λ q, cell_eqb (cc_record_id q) (CText record)) (tb_collection_candidates d) then Some d
  else Some (set_collection_records
    (delete_rows (λ r, cell_eqb (cr_record_id r) (CText record)) (tb_collection_records d)) d).

Definition collect_candidate (collectionGeneration cursorFloor : Z) (c : collectionRevision) : Handler Z :=
  exec_db (update_record_revisions
    (λ r, cell_eqb (v_revision_id r) (CText (revisionID c)) && (v_retained r =? 1))
    (as_collected (cell_u64 collectionGeneration)));;
  exec_db (delete_head (recordID c) (revisionID c));;
  exec_db (delete_change (changeCursor c) (revisionID c));;
  exec_db (delete_candidate (recordID c) (acceptedUptimeMS c) (revisionID c));;
  deleteUnreferencedRevisionObject (contentHash c) (revisionID c);;
  mret (if cursorFloor <? changeCursor c then changeCursor c else cursorFloor).

(** The variables of the outer loop. *)
Record collect_state := Mk_collect_state {
  cs_serverCursor : Z; cs_cursorFloor : Z; cs_generation : Z; cs_advanced : bool }.
(** What one record contributes: the candidates to collect and, when the marker
    advances, its witness. *)
Definition collect_selection (st : collect_state) (heads candidates : list collectionRevision)
    (marker : option storedCollectionMarker) : list collectionRevision * option collectionRevision :=
  let witness := selectAdvancingWitness heads marker in
  let selected := selectWitnessCoveredCandidates candidates witness in
  match witness with
  | Some w =>
      if negb (length selected =? 0)%nat && negb (cs_serverCursor st =? MaxUint64) then (selected, Some w)
      else (selectMarkerCoveredCandidates candidates marker, None)
  | None => (selectMarkerCoveredCandidates candidates marker, None)
  end.
Definition collect_record (now : gotime) (activeAcks : list Z) (accumulatedUptimeMS : Z) (st : collect_state)
    (record : string) : Handler collect_state :=
  '(barrier, heads, candidates) ← loadCollectionRecordWork record accumulatedUptimeMS;
  if negb (allAcknowledged activeAcks barrier) then mret st else
  marker ← loadCollectionMarker record;
  let '(selected, advancing) := collect_selection st heads candidates marker in
  if (length selected =? 0)%nat then mret st else
  serverCursor ← (match advancing with
                  | Some witness =>
                      let serverCursor := cs_serverCursor st + 1 in
                      markerBody ← writeCollectionMarker witness barrier serverCursor now;
                      insertMarkerChange serverCursor record markerBody now;;
                      mret serverCursor
                  | None => mret (cs_serverCursor st)
                  end);
  let generation := if cs_advanced st then cs_generation st else cs_generation st + 1 in
  cursorFloor ← fold_each selected (cs_cursorFloor st) (collect_candidate generation);
  exec_db (delete_finished_record record);;
  mret (Mk_collect_state serverCursor cursorFloor generation true).

Definition with_collection (st : collect_state) (scanAfter : string) (r : runtime_state_row) : runtime_state_row :=
  Mk_runtime_state (rs_singleton r) (cell_u64 (cs_serverCursor st)) (cell_u64 (cs_cursorFloor st))
    (rs_envelope_generation r) (rs_instance_secret_generation r) (cell_u64 (cs_generation st))
    (rs_accumulated_uptime_ms r) (rs_active_boot_id r) (CText scanAfter).
Definition with_scan_reset (r : runtime_state_row) : runtime_state_row :=
  Mk_runtime_state (rs_singleton r) (rs_server_cursor r) (rs_cursor_floor r) (rs_envelope_generation r)
    (rs_instance_secret_generation r) (rs_collection_generation r) (rs_accumulated_uptime_ms r)
    (rs_active_boot_id r) (CText "").

(** The batch to work on: the next one, or the first again after the last. *)
Definition collection_batch : Handler (list string) :=
  '(recordIDs, scanAfter) ← loadCollectionRecordBatch;
  match recordIDs with
  | _ :: _ => mret recordIDs
  | [] =>
      if String.eqb scanAfter "" then mret []
      else
        exec_db (update_runtime_state runtime_singleton with_scan_reset);;
        '(recordIDs, _) ← loadCollectionRecordBatch;
        mret recordIDs
  end.

Definition collectEligible (now : gotime) (accumulatedUptimeMS serverCursor : Z) : Handler Z :=
  row ← select_db runtime_row;
  row ← some_or_internal row;
  collectionGeneration ← some_or_internal (scan_u64 (rs_collection_generation row));
  if collectionGeneration =? MaxUint64 then mret serverCursor else
  activeAcks ← loadActiveAcknowledgements;
  match activeAcks with
  | [] => mret serverCursor
  | _ :: _ =>
      recordIDs ← collection_batch;
      match recordIDs with
      | [] => mret serverCursor
      | first :: _ =>
          cursorFloor ← readCursorFloor;
          st ← fold_each recordIDs (Mk_collect_state serverCursor cursorFloor collectionGeneration false)
                 (collect_record now activeAcks accumulatedUptimeMS);
          exec_db (update_runtime_state runtime_singleton (with_collection st (List.last recordIDs first)));;
          mret (cs_serverCursor st)
      end
  end.

(** ** Frame facts *)
Lemma reads_loadActiveAcknowledgements : Pres same_state loadActiveAcknowledgements.
Proof. unfold loadActiveAcknowledgements. reads. Qed.
Lemma reads_loadCollectionRecordBatch : Pres same_state loadCollectionRecordBatch.
Proof. unfold loadCollectionRecordBatch. reads. Qed.
Lemma reads_loadCollectionRevisionRows f : Pres same_state (loadCollectionRevisionRows f).
Proof. unfold loadCollectionRevisionRows. reads. Qed.
#[export] Hint Resolve reads_loadActiveAcknowledgements reads_loadCollectionRecordBatch reads_loadCollectionRevisionRows : reads.
Lemma reads_loadCollectionRecordWork a b : Pres same_state (loadCollectionRecordWork a b).
Proof. unfold loadCollectionRecordWork. reads. Qed.
Lemma reads_loadCollectionMarker a : Pres same_state (loadCollectionMarker a).
Proof. unfold loadCollectionMarker, preflightCollectionMarkerKey. reads. Qed.
Lemma reads_any_snapshot_refers l r : Pres same_state (any_snapshot_refers l r).
Proof. induction l; simpl; reads. Qed.
#[export] Hint Resolve reads_loadCollectionRecordWork reads_loadCollectionMarker reads_any_snapshot_refers : reads.
Lemma keeps_deleteUnreferencedRevisionObject a b : Pres same_db (deleteUnreferencedRevisionObject a b).
Proof. unfold deleteUnreferencedRevisionObject. keeps. Qed.
#[export] Hint Resolve keeps_deleteUnreferencedRevisionObject : keeps.
Lemma keeps_collect_candidate a b c : Pres same_db (collect_candidate a b c).
Proof. unfold collect_candidate. keeps. Qed.
#[export] Hint Resolve keeps_collect_candidate : keeps.
Lemma keeps_collect_record a b c d e : Pres same_db (collect_record a b c d e).
Proof. unfold collect_record, writeCollectionMarker, insertMarkerChange. keeps. Qed.
#[export] Hint Resolve keeps_collect_record : keeps.
Lemma keeps_collectEligible a b c : Pres same_db (collectEligible a b c).
Proof. unfold collectEligible, collection_batch. keeps. Qed.
#[export] Hint Resolve keeps_collectEligible : keeps.

(** ** Snapshot leases and daemon boot

    The lease part of [src/runtime/internal/store/snapshot.go]
    (admitSnapshotAttempt, pruneExpiredSnapshots,
    deleteSnapshotAndReleaseObjects) and StartBoot of [dataplane.go].  A lease
    lives in daemon-monotonic time, so it does not survive a restart. *)

Definition snapshotLifetime : Z := 15 * Minute.

Definition with_snapshot_attempts (m : gmap string (list gotime)) (e : ephemeralState) : ephemeralState :=
  Mk_eph (bootID e) (booted e) (uptimeCheckpoint e) (grantDeadlines e) (enrollmentAttempts e) m (snapshotDeadlines e).
Definition with_snapshot_deadlines (m : gmap string gotime) (e : ephemeralState) : ephemeralState :=
  Mk_eph (bootID e) (booted e) (uptimeCheckpoint e) (grantDeadlines e) (enrollmentAttempts e) (snapshotAttempts e) m.

(** At most five snapshot attempts of a device in any minute. *)
Definition admitSnapshotAttempt (deviceID : string) (now : gotime) : Handler () :=
  eph ← get_eph;
  ensure_internal (booted eph);;
  let retained := recent_attempts now (default [] (snapshotAttempts eph !! deviceID)) in
  if (5 <=? length retained)%nat then
    set_eph (with_snapshot_attempts (<[deviceID := retained]> (snapshotAttempts eph)) eph);;
    fail "rate_limited" false
  else set_eph (with_snapshot_attempts (<[deviceID := retained ++ [now]]> (snapshotAttempts eph)) eph).

Record snapshotRevisionReference := Mk_reference { sr_revisionID : string; sr_contentHash : string }.
Definition scan_reference (r : snapshot_revision_refs_row) : option snapshotRevisionReference :=
  let? revisionID := scan_uuid (rf_revision_id r) else None;;
  let? hash := scan_blob 32 32 (rf_content_hash r) else None;;
  Some (Mk_reference revisionID hash).
(** DELETE FROM snapshots, cascading to its pages and references. *)
Definition delete_snapshot (snapshotID : string) (d : db) : option db :=
  let gone c := cell_eqb c (CText snapshotID) in
  Some (set_snapshots (delete_rows (λ r, gone (sn_snapshot_id r)) (tb_snapshots d))
       (set_snapshot_pages (delete_rows (λ r, gone (pg_snapshot_id r)) (tb_snapshot_pages d))
       (set_snapshot_revision_refs (delete_rows (λ r, gone (rf_snapshot_id r)) (tb_snapshot_revision_refs d)) d))).
Definition deleteSnapshotAndReleaseObjects (snapshotID : string) : Handler () :=
  rows ← select_db (λ d, order_by (λ a b, cell_oleb (rf_revision_id a) (rf_revision_id b))
    (select (λ r, cell_eqb (rf_snapshot_id r) (CText snapshotID)) (tb_snapshot_revision_refs d)));
  references ← some_or_internal (mapM_opt scan_reference rows);
  exec_db (delete_snapshot snapshotID);;
  for_each references (λ reference, deleteUnreferencedRevisionObject (sr_contentHash reference) (sr_revisionID reference)).

Definition lease_expired (now : gotime) (deadlines : gmap string gotime) (identifier : string) : bool :=
  match deadlines !! identifier with Some deadline => negb (Before now deadline) | None => true end.
Definition pruneExpiredSnapshots (now : gotime) : Handler () :=
  rows ← select_db snapshot_ids;
  identifiers ← some_or_internal (mapM_opt (λ r, scan_uuid (sn_snapshot_id r)) rows);
  ensure_internal (length identifiers <=? 8)%nat;;
  eph ← get_eph;
  let expired := List.filter (lease_expired now (snapshotDeadlines eph)) identifiers in
  set_eph (with_snapshot_deadlines (fold_left (λ m id, delete id m) expired (snapshotDeadlines eph)) eph);;
  for_each expired deleteSnapshotAndReleaseObjects.

(** StartBoot, with the value [time.Now()] returns after the commit. *)
Definition with_active_boot (c : cell) (r : runtime_state_row) : runtime_state_row :=
  Mk_runtime_state (rs_singleton r) (rs_server_cursor r) (rs_cursor_floor r) (rs_envelope_generation r)
    (rs_instance_secret_generation r) (rs_collection_generation r) (rs_accumulated_uptime_ms r)
    c (rs_collection_scan_after_record_id r).
Definition StartBoot (now : gotime) : M string () :=
  boot ← rand_read 16 "generate daemon boot ID";
  begin_tx "begin daemon boot";;
  exec "record daemon boot ID" (update_runtime_state runtime_singleton (with_active_boot (CBlob boot)));;
  exec "invalidate prior enrollment grants" (λ d, Some (set_enrollment_grants [] d));;
  rows ← query "read prior snapshot leases" snapshot_ids;
  snapshotIDs ← from_option (mapM_opt (λ r, scan_uuid (sn_snapshot_id r)) rows) "read prior snapshot lease";
  ensure (length snapshotIDs <=? 8)%nat "invalid prior snapshot leases";;
  for_each snapshotIDs (λ id, map_err (λ e, "release prior snapshot revision objects: " +:+ Code e)
    (deleteSnapshotAndReleaseObjects id));;
  commit_tx "commit daemon boot";;
  set_eph (Mk_eph boot true now [] [] ∅ ∅).

Lemma keeps_admitSnapshotAttempt a b : Pres same_db (admitSnapshotAttempt a b).
Proof. unfold admitSnapshotAttempt. keeps. Qed.
Lemma keeps_deleteSnapshotAndReleaseObjects a : Pres same_db (deleteSnapshotAndReleaseObjects a).
Proof. unfold deleteSnapshotAndReleaseObjects. keeps. Qed.
#[export] Hint Resolve keeps_admitSnapshotAttempt keeps_deleteSnapshotAndReleaseObjects : keeps.
Lemma keeps_pruneExpiredSnapshots a : Pres same_db (pruneExpiredSnapshots a).
Proof. unfold pruneExpiredSnapshots. keeps. Qed.
#[export] Hint Resolve keeps_pruneExpiredSnapshots : keeps.
Lemma atomic_StartBoot now : Atomic (StartBoot now).
Proof. unfold StartBoot. atomic. Qed.
#[export] Hint Resolve atomic_StartBoot : atomic.
