(* ===== verification/Sync.v ===== *)
(** * Synchronization

    [src/runtime/internal/store/sync.go]: a device submits revisions it authored
    and an acknowledgement, and receives the changes after a cursor.  handleSync
    is split at its sections: decoding ([sync_decode]), the device's stored state
    ([sync_device]), the write of one accepted revision ([sync_apply]), the
    reduction of the reply to the body limit ([fit_response]). *)

From stdpp Require Import base list strings gmap.
From Stdlib Require Import ZArith Lia Ascii.
From S2P Require Import Prelude GoStd GoTime Uuid Auth Json Wire Api Models Sql Schema Monad Keys.
From S2P Require Import Runtime Receipts Persist Devices Collection.
Local Open Scope Z_scope.
Local Open Scope go_scope.

Record pendingRevision := Mk_pending {
  pn_revision : recordRevision; pn_canonical : string; pn_contentHash : string;
  pn_authorCounter : Z; pn_vector : version_vector; pn_isNew : bool }.

Definition boolToInt (value : bool) : Z := if value then 1 else 0.

(** [sort.SearchStrings]: binary search for the first element not below [x]. *)
Fixpoint search_from (fuel i j : nat) (scopes : list string) (x : string) : nat :=
  match fuel with
  | O => i
  | S fuel' =>
      if (i <? j)%nat then
        let h := ((i + j) / 2)%nat in
        if sltb (nth h scopes "") x then search_from fuel' (S h) j scopes x else search_from fuel' i h scopes x
      else i
  end.
Definition hasScope (scopes : list string) (required : string) : bool :=
  let index := search_from (S (length scopes)) 0 (length scopes) scopes required in
  match scopes !! index with Some s => String.eqb s required | None => false end.

Definition mutationKeyLess (left right : recordRevision) : bool :=
  match parseUint64 (rr_AuthorCounter left), parseUint64 (rr_AuthorCounter right) with
  | Some leftCounter, Some rightCounter =>
      if negb (leftCounter =? rightCounter) then leftCounter <? rightCounter
      else if negb (String.eqb (rr_RecordID left) (rr_RecordID right)) then sltb (rr_RecordID left) (rr_RecordID right)
      else sltb (rr_RevisionID left) (rr_RevisionID right)
  | _, _ => false
  end.
(** One revision of the list, given the one before it. *)
Definition mutation_shape (deviceID : string) (previous : option recordRevision) (revision : recordRevision)
    : option (Z * version_vector) :=
  let? shape := validateRevision revision else None;;
  require String.eqb (rr_AuthorDeviceID revision) deviceID
          && match previous with Some p => mutationKeyLess p revision | None => true end else None;;
  Some shape.
Fixpoint validateMutationShapes (deviceID : string) (previous : option recordRevision) (revisions : list recordRevision) : bool :=
  match revisions with
  | [] => true
  | revision :: rest =>
      match mutation_shape deviceID previous revision with
      | Some _ => validateMutationShapes deviceID (Some revision) rest
      | None => false
      end
  end.

(** ** Reads *)
(** A stored revision's identifier and vector. *)
Definition scan_vector_row (r : record_revisions_row) : option (string * version_vector) :=
  let? revisionID := scan_uuid (v_revision_id r) else None;;
  let? body := scan_body maxVectorBytes (v_vector_json r) else None;;
  let? entries := unmarshalAs (list vectorEntry) body else None;;
  let? vec := validateVector entries else None;;
  Some (revisionID, vec).
(** [record_heads h JOIN record_revisions r], in head order. *)
Definition head_rows (record : string) (d : db) : list record_revisions_row :=
  flat_map (λ h, select (λ r, cell_eqb (v_revision_id r) (h_revision_id h)) (tb_record_revisions d))
    (order_by (λ a b, cell_oleb (h_revision_id a) (h_revision_id b))
       (select (λ h, cell_eqb (h_record_id h) (CText record)) (tb_record_heads d))).

(** Whether the candidate is undominated, and the heads it dominates. *)
Definition classify (candidate : version_vector) (heads : list (string * version_vector)) : bool * list string :=
  (negb (existsb (λ h : string * version_vector, vectorDominates h.2 candidate) heads),
   map fst (List.filter (λ h : string * version_vector, vectorDominates candidate h.2) heads)).
Definition classifyRevisionFrontier (record : string) (candidate : version_vector) : Handler (bool * list string) :=
  rows ← select_db (λ d, take 33 (head_rows record d));
  heads ← some_or_internal (mapM_opt scan_vector_row rows);
  ensure_internal (length rows <=? 32)%nat;;
  mret (classify candidate heads).

Definition preflightRevisionKeyAbsence (revision : string) : Handler () :=
  ensure_internal (validateUUID revision);;
  present ← select_db (λ d, take 1 (key_range v_revision_id revision (tb_record_revisions d)));
  ensure_internal (match present with [] => true | _ => false end).
Definition preflightRecordKeyAliases (record : string) : Handler () :=
  ensure_internal (validateUUID record);;
  present ← select_db (λ d,
    existsb (λ r, alias_of record (v_record_id r)) (tb_record_revisions d)
    || existsb (λ r, alias_of record (vi_record_id r)) (tb_record_vector_index d)
    || existsb (λ r, alias_of record (h_record_id r)) (tb_record_heads d)
    || existsb (λ r, alias_of record (cc_record_id r)) (tb_collection_candidates d)
    || existsb (λ r, alias_of record (cr_record_id r)) (tb_collection_records d));
  ensure_internal (negb present).

Definition equivocation : Error := NewError "revision_equivocation" false.
(** Another revision of the record with the same vector. *)
Definition equivocates (revision : string) (candidate : version_vector) (other : string * version_vector) : bool :=
  negb (String.eqb other.1 revision) && vectorsEqual candidate other.2.
Definition pending_vectors (pending : list pendingRevision) : list (string * version_vector) :=
  map (λ p, (rr_RevisionID (pn_revision p), pn_vector p)) pending.
(** Stored rows in order: an invalid row or an equivocation ends the scan. *)
Definition scan_siblings (revision : string) (candidate : version_vector) (rows : list record_revisions_row)
    : Handler (list (string * version_vector)) :=
  map_each (λ r, v ← some_or_internal (scan_vector_row r);
                 ensure (negb (equivocates revision candidate v)) equivocation;; mret v) rows.
Definition validateEqualVectorEquivocation (record revision vectorHash : string) (candidate : version_vector)
    (pending : list pendingRevision) : Handler () :=
  ensure (negb (existsb (equivocates revision candidate) (pending_vectors pending))) equivocation;;
  rows ← select_db (λ d, flat_map (λ i, select (λ r, cell_eqb (v_revision_id r) (vi_revision_id i)) (tb_record_revisions d))
    (order_by (λ a b, cell_oleb (vi_revision_id a) (vi_revision_id b))
       (select (λ i, cell_eqb (vi_record_id i) (CText record) && cell_eqb (vi_vector_hash i) (CBlob vectorHash))
          (tb_record_vector_index d))));
  scan_siblings revision candidate rows;;
  mret ().

(** Every counter of the vector belongs to a registered device and does not pass
    the highest counter accepted from it.  The code ranges over a Go map; when
    several entries are wrong, which error it reports depends on the iteration
    order, here that of [map_to_list]. *)
Definition registry_entry (authorDeviceID : string) (authorCounter : Z) (entry : string * Z) : Handler () :=
  let '(vectorDeviceID, counter) := entry in
  if String.eqb vectorDeviceID authorDeviceID then
    ensure (counter =? authorCounter) (NewError "invalid_request" false)
  else
    row ← select_db (device_row vectorDeviceID);
    row ← from_option row (NewError "invalid_request" false);
    maximum ← some_or_internal (scan_u64 (d_max_author_counter row));
    ensure (counter <=? maximum) (NewError "counter_conflict" false).
Definition validateVectorRegistry (authorDeviceID : string) (authorCounter : Z) (vec : version_vector) : Handler () :=
  for_each (map_to_list vec) (registry_entry authorDeviceID authorCounter).

(** The number of vectors no other vector of the list dominates. *)
Definition dominated_at (vectors : list version_vector) (i : nat) : bool :=
  existsb (λ j, negb (i =? j)%nat && vectorDominates (nth j vectors ∅) (nth i vectors ∅)) (seq 0 (length vectors)).
Definition undominated_count (vectors : list version_vector) : nat :=
  length (List.filter (λ i, negb (dominated_at vectors i)) (seq 0 (length vectors))).
Definition validateRecordCausality (record revision : string) (candidate : version_vector) (pending : list pendingRevision)
    : Handler () :=
  markerPresent ← preflightCollectionMarkerKey record;
  (if (markerPresent : bool) then
     row ← select_db (λ d, query_row (select (λ r, cell_eqb (mk_record_id r) (CText record)) (tb_collection_markers d)));
     frontier ← some_or_internal
       (let? r := row else None;;
        let? body := scan_body maxVectorBytes (mk_frontier_json r) else None;;
        let? entries := unmarshalAs (list vectorEntry) body else None;;
        validateVector entries);
     ensure (vectorDominates candidate frontier) (NewError "stale_after_collection" false)
   else mret ());;
  rows ← select_db (head_rows record);
  ensure (negb (existsb (equivocates revision candidate) (pending_vectors pending))) equivocation;;
  stored ← scan_siblings revision candidate rows;
  let vectors := candidate :: map snd (pending_vectors pending) ++ map snd stored in
  ensure (undominated_count vectors <=? 32)%nat (NewError "too_many_siblings" false).

(** ** Admission of the submitted revisions *)
(** The new revisions accepted so far that belong to a record. *)
Definition pending_of (record : string) (pending : list pendingRevision) : list pendingRevision :=
  List.filter (λ p, pn_isNew p && String.eqb (rr_RecordID (pn_revision p)) record) pending.
Definition pending_revision (revision : string) (pending : list pendingRevision) : option pendingRevision :=
  List.find (λ p, pn_isNew p && String.eqb (rr_RevisionID (pn_revision p)) revision) pending.

(** The checks a revision the server has not stored must pass. *)
Definition admit_new (deviceID : string) (lastCounter : Z) (pending : list pendingRevision) (revision : recordRevision)
    (authorCounter : Z) (vec : version_vector) : Handler () :=
  let vectorHash := Sum256 (marshalJSON (rr_VersionVector revision)) in
  let siblings := pending_of (rr_RecordID revision) pending in
  preflightRevisionKeyAbsence (rr_RevisionID revision);;
  preflightRecordKeyAliases (rr_RecordID revision);;
  validateEqualVectorEquivocation (rr_RecordID revision) (rr_RevisionID revision) vectorHash vec siblings;;
  ensure (negb (lastCounter =? MaxUint64)) (NewError "counter_exhausted" false);;
  ensure (authorCounter =? lastCounter + 1) (NewError "counter_conflict" false);;
  validateVectorRegistry deviceID authorCounter vec;;
  validateRecordCausality (rr_RecordID revision) (rr_RevisionID revision) vec siblings.

(** One step of the loop: the list accepted so far and the last counter. *)
Definition mutation_step (deviceID : string) (pending : list pendingRevision) (lastCounter : Z)
    (previous : option recordRevision) (revision : recordRevision) : Handler (list pendingRevision * Z) :=
  '(authorCounter, vec) ← from_option (mutation_shape deviceID previous revision) (NewError "invalid_request" false);
  let canonical := marshalJSON revision in
  let contentHash := Sum256 canonical in
  let item isNew := Mk_pending revision canonical contentHash authorCounter vec isNew in
  stored ← select_db (λ d, query_row
    (select (λ r, cell_eqb (v_revision_id r) (CText (rr_RevisionID revision))) (tb_record_revisions d)));
  match stored with
  | Some r =>
      recorded ← some_or_internal (scan_blob 32 32 (v_content_hash r));
      ensure (String.eqb recorded contentHash) equivocation;;
      mret (pending ++ [item false], lastCounter)
  | None =>
      match pending_revision (rr_RevisionID revision) pending with
      | Some prior =>
          ensure (String.eqb (pn_contentHash prior) contentHash) equivocation;;
          mret (pending, lastCounter)
      | None =>
          admit_new deviceID lastCounter pending revision authorCounter vec;;
          mret (pending ++ [item true], authorCounter)
      end
  end.
Fixpoint validateMutations (deviceID : string) (pending : list pendingRevision) (lastCounter : Z)
    (previous : option recordRevision) (revisions : list recordRevision) : Handler (list pendingRevision * Z) :=
  match revisions with
  | [] => mret (pending, lastCounter)
  | revision :: rest =>
      '(pending', lastCounter') ← mutation_step deviceID pending lastCounter previous revision;
      validateMutations deviceID pending' lastCounter' (Some revision) rest
  end.
Definition new_count (pending : list pendingRevision) : Z := Z.of_nat (length (List.filter pn_isNew pending)).

(** ** Writes *)
Definition insert_object (hash body : string) (d : db) : option db :=
  if existsb (λ o, cell_eqb (ro_content_hash o) (CBlob hash)) (tb_revision_objects d) then Some d
  else insert_revision_objects (Mk_revision_objects (CBlob hash) (CBlob body)) d.
Definition as_dominated (r : record_revisions_row) : record_revisions_row :=
  Mk_record_revisions (v_revision_id r) (v_record_id r) (v_author_device_id r) (v_author_counter r) (v_vector_json r)
    (v_collection_witness_authenticator r) (v_tombstone r) (v_content_hash r) (v_received_at_ms r)
    (v_accepted_uptime_ms r) (v_change_cursor r) (v_collected_generation r) (v_retained r) 0.
Definition retire_head (record revision : string) : Handler () :=
  exec_db (update_record_revisions
    (λ r, cell_eqb (v_revision_id r) (CText revision) && (v_retained r =? 1) && (v_undominated r =? 1)) as_dominated);;
  exec_db (delete_head record revision).
Definition upsert_collection_record (record : string) (barrier : Z) (d : db) : option db :=
  let same r := cell_eqb (cr_record_id r) (CText record) in
  if existsb same (tb_collection_records d)
  then update_collection_records same (λ r, Mk_collection_records (cr_record_id r) (cell_u64 barrier)) d
  else insert_collection_records (Mk_collection_records (CText record) (cell_u64 barrier)) d.
Definition witness_cell (revision : recordRevision) : cell :=
  match rr_CollectionWitnessAuthenticator revision with
  | Some w => match decodeBase64 w 32 0 0 with Some b => CBlob b | None => CNull end
  | None => CNull
  end.

(** The row of an accepted revision. *)
Definition revision_row (now : gotime) (uptime cursor : Z) (undominated : bool) (item : pendingRevision) : record_revisions_row :=
  let revision := pn_revision item in
  Mk_record_revisions (CText (rr_RevisionID revision)) (CText (rr_RecordID revision)) (CText (rr_AuthorDeviceID revision))
    (cell_u64 (pn_authorCounter item)) (CBlob (marshalJSON (rr_VersionVector revision))) (witness_cell revision)
    (boolToInt (rr_Tombstone revision)) (CBlob (pn_contentHash item)) (UnixMilli now) (cell_u64 uptime) (cell_u64 cursor)
    CNull 1 (boolToInt undominated).
(** The object is stored once, and a stored object has to be the same bytes. *)
Definition store_object (item : pendingRevision) : Handler () :=
  exec_db (insert_object (pn_contentHash item) (pn_canonical item));;
  row ← select_db (λ d, query_row
    (select (λ o, cell_eqb (ro_content_hash o) (CBlob (pn_contentHash item))) (tb_revision_objects d)));
  body ← some_or_internal (let? o := row else None;; scan_body maxBodyBytes (ro_revision_json o));
  ensure_internal (String.eqb body (pn_canonical item)).
(** The body of the loop over the accepted revisions: returns the next cursor. *)
Definition sync_apply (now : gotime) (uptime : Z) (cursor : Z) (item : pendingRevision) : Handler Z :=
  if negb (pn_isNew item) then mret cursor else
  let revision := pn_revision item in
  let record := CText (rr_RecordID revision) in
  let id := CText (rr_RevisionID revision) in
  store_object item;;
  let cursor := cursor + 1 in
  '(undominated, dominated) ← classifyRevisionFrontier (rr_RecordID revision) (pn_vector item);
  for_each dominated (retire_head (rr_RecordID revision));;
  exec_db (insert_record_revisions (revision_row now uptime cursor undominated item));;
  exec_db (insert_revision_acceptance_origins (Mk_revision_acceptance_origins id (cell_u64 uptime)));;
  exec_db (insert_collection_candidates (Mk_collection_candidates record (cell_u64 uptime) id));;
  exec_db (insert_record_vector_index
    (Mk_record_vector_index record (CBlob (Sum256 (marshalJSON (rr_VersionVector revision)))) id));;
  (if (undominated : bool) then exec_db (insert_record_heads (Mk_record_heads record id)) else mret ());;
  exec_db (upsert_collection_record (rr_RecordID revision) cursor);;
  insertChange cursor "record_revision" (rr_RevisionID revision) "" "" "" 0 now;;
  mret cursor.

(** ** Changes after a cursor *)
Definition scan_opt_body (maximum : Z) (c : cell) : option (option string) :=
  match c with CNull => Some None | _ => Some <$> scan_body maximum c end.
Record storedChange := Mk_storedChange {
  sc_cursor : Z; sc_kind : string; sc_receivedAt : Z;
  sc_revisionID : option string; sc_markerRecordID : option string; sc_markerBody : option string }.
Definition scan_change (r : changes_row) : option storedChange :=
  let? cursor := scan_u64 (ch_cursor r) else None;;
  let? kind := text_of_kind (ch_kind r) change_kinds else None;;
  let? revisionID := scan_opt_uuid (ch_record_revision_id r) else None;;
  let? markerRecordID := scan_opt_uuid (ch_collection_marker_record_id r) else None;;
  let? markerBody := scan_opt_body maxBodyBytes (ch_collection_marker_json r) else None;;
  Some (Mk_storedChange cursor kind (ch_received_at_ms r) revisionID markerRecordID markerBody).
Definition change_rows (afterCursor : Z) (d : db) : list changes_row :=
  take (maxChanges + 1) (order_by (λ a b, cell_oleb (ch_cursor a) (ch_cursor b))
    (select (λ r, cell_ltb (cell_u64 afterCursor) (ch_cursor r)) (tb_changes d))).

(** The body of a revision, which has to be the canonical bytes of its hash. *)
Definition decode_object (revision : string) (hash body : string) : option recordRevision :=
  let? value := unmarshalAs recordRevision body else None;;
  require String.eqb (marshalJSON value) body && String.eqb (Sum256 body) hash else None;;
  let? _ := validateRevision value else None;;
  require String.eqb (rr_RevisionID value) revision else None;;
  Some value.
(** [record_revisions r JOIN revision_objects o USING (content_hash)], retained. *)
Definition retained_object (revision : string) (d : db) : option (record_revisions_row * revision_objects_row) :=
  query_row (flat_map (λ r, map (λ o, (r, o))
      (select (λ o, cell_eqb (ro_content_hash o) (v_content_hash r)) (tb_revision_objects d)))
    (select (λ r, cell_eqb (v_revision_id r) (CText revision) && (v_retained r =? 1)) (tb_record_revisions d))).
Definition load_change (item : storedChange) : Handler change :=
  let result := Mk_change (encodeUint64Text (sc_cursor item)) (sc_kind item) (formatTimestamp (sc_receivedAt item)) in
  if String.eqb (sc_kind item) "record_revision" then
    revisionID ← some_or_internal (sc_revisionID item);
    row ← select_db (retained_object revisionID);
    '(r, o) ← some_or_internal row;
    revision ← some_or_internal
      (let? body := scan_body maxBodyBytes (ro_revision_json o) else None;;
       let? hash := scan_blob 32 32 (v_content_hash r) else None;;
       decode_object revisionID hash body);
    mret (result (Some revision) None)
  else if String.eqb (sc_kind item) "collection_marker" then
    marker ← some_or_internal
      (let? recordID := sc_markerRecordID item else None;;
       let? body := sc_markerBody item else None;;
       let? marker := decodeStoredCollectionMarker body else None;;
       require String.eqb (cm_RecordID marker) recordID else None;;
       Some marker);
    mret (result None (Some marker))
  else mret (result None None).
(** The changes, the cursor to continue from, and whether more remain. *)
Definition loadChanges (afterCursor : Z) : Handler (list change * Z * bool) :=
  rows ← select_db (change_rows afterCursor);
  stored ← some_or_internal (mapM_opt scan_change rows);
  let hasMore := (maxChanges <? length stored)%nat in
  let stored := take maxChanges stored in
  changes ← map_each load_change stored;
  mret (changes, List.last (map sc_cursor stored) afterCursor, hasMore).

(** The reply is cut from the end until it fits. *)
Fixpoint fit_response (fuel : nat) (serverCursor envelopeGeneration : Z) (changes : list change) (nextCursor : Z)
    (hasMore : bool) : option (string * Z) :=
  let body := marshalJSON (Mk_syncResponse "1" (encodeUint64Text serverCursor) (encodeUint64Text nextCursor) hasMore
                             (encodeUint64Text envelopeGeneration) changes) in
  if slen body <=? maxBodyBytes then Some (body, nextCursor)
  else if (length changes <=? 1)%nat then None
  else
    match fuel with
    | O => None
    | S fuel' =>
        let shorter := removelast changes in
        match last shorter with
        | Some final =>
            match parseUint64 (chg_Cursor final) with
            | Some cursor => fit_response fuel' serverCursor envelopeGeneration shorter cursor true
            | None => None
            end
        | None => None
        end
    end.

(** ** The handler *)
Definition with_author_counter (c : cell) (r : devices_row) : devices_row :=
  Mk_devices (d_device_id r) (d_token_hash r) (d_scopes_json r) (d_created_at_ms r) (d_revoked_at_ms r)
    (d_last_sync_at_ms r) (d_last_ack_cursor r) c.
Definition with_sync (ack : cell) (lastSyncAt : Z) (r : devices_row) : devices_row :=
  Mk_devices (d_device_id r) (d_token_hash r) (d_scopes_json r) (d_created_at_ms r) (d_revoked_at_ms r)
    (Some lastSyncAt) ack (d_max_author_counter r).
Definition set_max_returned (deviceID : string) (cursor : Z) (d : db) : option db :=
  update_device_sync_state (λ r, cell_eqb (ds_device_id r) (CText deviceID))
    (λ r, Mk_device_sync_state (ds_device_id r) (cell_u64 cursor)) d.
Definition sync_label : string := "JAT sync request fingerprint v1".

Definition sync_decode (call : Request) : option (syncRequest * Z * Z) :=
  let? request := decodeStrictAs syncRequest (Body call) else None;;
  require String.eqb (sq_ProtocolVersion request) "1" && validateUUID (sq_DeviceID request)
          && validateUUID (sq_RequestID request) && String.eqb (sq_RequestID request) (RequestID call)
          && (length (sq_Mutations request) <=? maxMutations)%nat else None;;
  require validateMutationShapes (sq_DeviceID request) None (sq_Mutations request) else None;;
  let? afterCursor := parseUint64 (sq_AfterCursor request) else None;;
  let? ackCursor := parseUint64 (sq_AckCursor request) else None;;
  Some (request, afterCursor, ackCursor).

(** created_at_ms, stored acknowledgement, highest author counter, highest
    cursor returned. *)
Definition sync_device (deviceID : string) : Handler (Z * Z * Z * Z) :=
  row ← select_db (λ d, query_row
    (flat_map (λ r, map (λ s, (r, s)) (select (λ s, cell_eqb (ds_device_id s) (d_device_id r)) (tb_device_sync_state d)))
       (select (device_is deviceID) (tb_devices d))));
  '(r, s) ← some_or_internal row;
  some_or_internal
    (let? storedAck := scan_u64 (d_last_ack_cursor r) else None;;
     let? maxAuthorCounter := scan_u64 (d_max_author_counter r) else None;;
     let? maxReturned := scan_u64 (ds_max_returned_cursor s) else None;;
     Some (d_created_at_ms r, storedAck, maxAuthorCounter, maxReturned)).

(** The cursor guards that need the device's state. *)
Definition sync_guards (deviceID : string) (afterCursor ackCursor serverCursor cursorFloor : Z) : Handler (Z * Z * Z) :=
  ensure (negb (afterCursor <? cursorFloor)) (NewError "cursor_expired" false);;
  ensure (afterCursor <=? serverCursor) (NewError "invalid_request" false);;
  '(createdAtMS, storedAck, maxAuthorCounter, maxReturned) ← sync_device deviceID;
  ensure (afterCursor <=? maxReturned) (NewError "invalid_request" false);;
  ensure (negb ((ackCursor <? storedAck) || (maxReturned <? ackCursor))) (NewError "invalid_request" false);;
  mret (createdAtMS, maxAuthorCounter, maxReturned).

(** The accepted revisions, the author counter and the acknowledgement. *)
Definition sync_write (deviceID : string) (now : gotime) (uptime serverCursor ackCursor createdAtMS finalAuthorCounter : Z)
    (pending : list pendingRevision) : Handler Z :=
  nextAssignedCursor ← fold_each pending serverCursor (sync_apply now uptime);
  serverCursor ← (if new_count pending =? 0 then mret serverCursor else
    exec_db (update_devices (device_is deviceID) (with_author_counter (cell_u64 finalAuthorCounter)));;
    setServerCursor nextAssignedCursor;;
    mret nextAssignedCursor);
  let lastSyncAt := Z.max (UnixMilli now) createdAtMS in
  exec_db (update_devices (device_is deviceID) (with_sync (cell_u64 ackCursor) lastSyncAt));;
  mret serverCursor.

(** Pruning, collection, and the reply. *)
Definition sync_reply (deviceID : string) (now : gotime) (uptime serverCursor afterCursor envelopeGeneration maxReturned : Z)
    : Handler Response :=
  pruneExpiredSnapshots now;;
  serverCursor ← collectEligible now uptime serverCursor;
  cursorFloor ← readCursorFloor;
  ensure (negb (afterCursor <? cursorFloor)) (NewError "cursor_expired" false);;
  '(changes, nextCursor, hasMore) ← loadChanges afterCursor;
  '(body, nextCursor) ← some_or_internal
    (fit_response (length changes) serverCursor envelopeGeneration changes nextCursor hasMore);
  (if maxReturned <? nextCursor then exec_db (set_max_returned deviceID nextCursor) else mret ());;
  mret (ok_response 200 body).

Section handler.
Context (identity : Identity).

Definition sync_authenticate (call : Request) (request : syncRequest) : Handler deviceAuth :=
  authenticated ← authenticate identity (Authorization call) "sync:read";
  ensure (String.eqb (da_DeviceID authenticated) (sq_DeviceID request)) (NewError "authenticated_device_mismatch" false);;
  ensure ((length (sq_Mutations request) =? 0)%nat || hasScope (da_Scopes authenticated) "sync:write")
    (NewError "scope_denied" false);;
  mret authenticated.

Definition sync_execute (call : Request) (request : syncRequest) (deviceID fingerprint : string)
    (afterCursor ackCursor : Z) : Handler Response :=
  '(serverCursor, envelopeGeneration, _, _) ← readRuntimeState;
  cursorFloor ← readCursorFloor;
  '(createdAtMS, maxAuthorCounter, maxReturned) ← sync_guards deviceID afterCursor ackCursor serverCursor cursorFloor;
  '(pending, finalAuthorCounter) ← validateMutations deviceID [] maxAuthorCounter None (sq_Mutations request);
  ensure (new_count pending <=? MaxUint64 - serverCursor) (NewError "server_cursor_exhausted" false);;
  '(accumulatedUptimeMS, checkpoint) ← checkpointUptimeTx (Now call);
  serverCursor ← sync_write deviceID (Now call) accumulatedUptimeMS serverCursor ackCursor createdAtMS finalAuthorCounter pending;
  response ← sync_reply deviceID (Now call) accumulatedUptimeMS serverCursor afterCursor envelopeGeneration maxReturned;
  storeReceiptAtUptime deviceID "sync" (RequestID call) fingerprint response (Now call) accumulatedUptimeMS;;
  commitUptimeTransaction checkpoint;;
  mret response.

Definition handleSync (call : Request) : Handler Response :=
  '(request, afterCursor, ackCursor) ← from_option (sync_decode call) (NewError "invalid_request" false);
  beginTransaction;;
  authenticated ← sync_authenticate call request;
  let deviceID := da_DeviceID authenticated in
  fingerprint ← requestFingerprint identity sync_label deviceID (Body call);
  found ← lookupReceipt identity deviceID "sync" (RequestID call) fingerprint;
  match found with
  | Some response => mret response
  | None => sync_execute call request deviceID fingerprint afterCursor ackCursor
  end.
End handler.

(** ** Frame facts *)
Lemma reads_classifyRevisionFrontier a b : Pres same_state (classifyRevisionFrontier a b).
Proof. unfold classifyRevisionFrontier. reads. Qed.
Lemma reads_scan_siblings a b c : Pres same_state (scan_siblings a b c).
Proof. unfold scan_siblings. reads. Qed.
#[export] Hint Resolve reads_classifyRevisionFrontier reads_scan_siblings : reads.
Lemma reads_validateEqualVectorEquivocation a b c d e : Pres same_state (validateEqualVectorEquivocation a b c d e).
Proof. unfold validateEqualVectorEquivocation. reads. Qed.
Lemma reads_validateVectorRegistry a b c : Pres same_state (validateVectorRegistry a b c).
Proof. unfold validateVectorRegistry, registry_entry. reads. Qed.
Lemma reads_validateRecordCausality a b c d : Pres same_state (validateRecordCausality a b c d).
Proof. unfold validateRecordCausality, preflightCollectionMarkerKey. reads. Qed.
#[export] Hint Resolve reads_validateEqualVectorEquivocation reads_validateVectorRegistry reads_validateRecordCausality : reads.
Lemma reads_mutation_step a b c d e : Pres same_state (mutation_step a b c d e).
Proof. unfold mutation_step, admit_new, preflightRevisionKeyAbsence, preflightRecordKeyAliases. reads. Qed.
#[export] Hint Resolve reads_mutation_step : reads.
Lemma reads_validateMutations a b c d e : Pres same_state (validateMutations a b c d e).
Proof. revert b c d. induction e; intros; simpl; reads. Qed.
Lemma reads_load_change a : Pres same_state (load_change a).
Proof. unfold load_change. reads. Qed.
#[export] Hint Resolve reads_validateMutations reads_load_change : reads.
Lemma reads_loadChanges a : Pres same_state (loadChanges a).
Proof. unfold loadChanges. reads. Qed.
Lemma reads_sync_guards a b c d e : Pres same_state (sync_guards a b c d e).
Proof. unfold sync_guards, sync_device. reads. Qed.
#[export] Hint Resolve reads_loadChanges reads_sync_guards : reads.
Lemma keeps_sync_apply a b c d : Pres same_db (sync_apply a b c d).
Proof. unfold sync_apply, store_object, retire_head. keeps. Qed.
#[export] Hint Resolve keeps_sync_apply : keeps.
Lemma keeps_sync_write a b c d e f g h : Pres same_db (sync_write a b c d e f g h).
Proof. unfold sync_write. keeps. Qed.
Lemma keeps_sync_reply a b c d e f g : Pres same_db (sync_reply a b c d e f g).
Proof. unfold sync_reply. keeps. Qed.
#[export] Hint Resolve keeps_sync_write keeps_sync_reply : keeps.
Lemma atomic_handleSync identity call : Atomic (handleSync identity call).
Proof. unfold handleSync, sync_authenticate, sync_execute. atomic. Qed.
#[export] Hint Resolve atomic_handleSync : atomic.
