(* ===== verification/Snapshot.v ===== *)
(** * Snapshots

    [src/runtime/internal/store/snapshot.go]: a device asks for a consistent cut
    of all heads, collection markers and devices, split into pages whose bodies
    fit the response limit and are chained by random tokens.  buildSnapshotPlan is
    split into its three phases ([plan_revisions], [plan_markers],
    [plan_devices]) and the linking of pages ([link_pages]); handleCreateSnapshot
    into the replay of an earlier reply, the limits, and the write. *)

From stdpp Require Import base list strings gmap.
From Stdlib Require Import ZArith Lia Ascii.
From S2P Require Import Prelude GoStd GoTime Uuid Auth Json Wire Api Models Sql Schema Monad Keys.
From S2P Require Import Runtime Receipts Persist Devices Collection Sync.
From S2P Require Import Envelope Enrollment.
Local Open Scope Z_scope.
Local Open Scope go_scope.

Definition snapshotMetadataLimit : Z := 64 * 1024 * 1024.
Record storedSnapshotPage := Mk_page { pp_token : string; pp_descriptor : snapshotPageDescriptor; pp_body : string }.

(** ** Metadata accounting *)
Record snapshotMetadataAccounting := Mk_account { total : Z; overflow : bool }.
Definition addLength64 (length : Z) (account : snapshotMetadataAccounting) : snapshotMetadataAccounting :=
  if overflow account || (length <? 0) || (MaxInt64 - total account <? length)
  then Mk_account (total account) true
  else Mk_account (total account + length) false.
Definition addLength (length : Z) : snapshotMetadataAccounting → snapshotMetadataAccounting := addLength64 length.
Definition addLP (value : string) (account : snapshotMetadataAccounting) : snapshotMetadataAccounting :=
  addLength (slen value) (addLength 8 account).
Definition addRecord (tag : string) (fields : list string) (account : snapshotMetadataAccounting)
    : snapshotMetadataAccounting :=
  fold_left (λ acc field, addLP field acc) fields (addLength 8 (addLP tag account)).
Definition account_ok (account : snapshotMetadataAccounting) : bool := negb (overflow account).
Definition accountingUint64 (value : Z) : string := of_bytes (be_split 8 value).
Definition zero32 : string := of_bytes (repeat 0 32).
Definition zero8 : string := of_bytes (repeat 0 8).
Definition accountSnapshotBase (snapshotID ownerDeviceID requestID createBody : string)
    (account : snapshotMetadataAccounting) : snapshotMetadataAccounting :=
  addRecord "snapshots.monotonic_lease" [snapshotID; zero8]
    (addRecord "snapshots.owner_request.unique" [ownerDeviceID; requestID; snapshotID]
      (addRecord "snapshots.pk" [snapshotID]
        (addRecord "snapshots.row" [snapshotID; ownerDeviceID; requestID; zero32; zero8; zero8; zero8; zero8; zero8; createBody]
           account))).
Definition accountSnapshotPage (snapshotID : string) (pageIndex : Z) (token body : string)
    (account : snapshotMetadataAccounting) : snapshotMetadataAccounting :=
  let index := accountingUint64 pageIndex in
  addRecord "snapshot_pages.token.unique" [token; snapshotID; index]
    (addRecord "snapshot_pages.pk" [snapshotID; index]
      (addRecord "snapshot_pages.row" [snapshotID; index; token; body] account)).
Definition accountSnapshotReference (snapshotID : string) (reference : snapshotRevisionReference)
    (account : snapshotMetadataAccounting) : snapshotMetadataAccounting :=
  addRecord "snapshot_revision_refs.pk" [snapshotID; sr_revisionID reference]
    (addRecord "snapshot_revision_refs.row" [snapshotID; sr_revisionID reference; sr_contentHash reference] account).
Fixpoint account_pages (snapshotID : string) (index : Z) (pages : list storedSnapshotPage)
    (account : snapshotMetadataAccounting) : snapshotMetadataAccounting :=
  match pages with
  | [] => account
  | page :: rest => account_pages snapshotID (index + 1) rest
                      (accountSnapshotPage snapshotID index (pp_token page) (pp_body page) account)
  end.
(** The total and whether it did not overflow. *)
Definition snapshotMetadataBytes (snapshotID ownerDeviceID requestID createBody : string)
    (pages : list storedSnapshotPage) (references : list snapshotRevisionReference) : Z * bool :=
  let account := fold_left (λ acc r, accountSnapshotReference snapshotID r acc) references
    (account_pages snapshotID 0 pages
      (accountSnapshotBase snapshotID ownerDeviceID requestID createBody (Mk_account 0 false))) in
  (total account, account_ok account).

(** ** The plan *)
Definition placeholder : string := "AAAAAAAAAAAAAAAAAAAAAAAAAAAAAAAAAAAAAAAAAAA".
Definition snapshotPageFits (snapshotID : string) (cutCursor envelopeGeneration : Z) (revisions : goslice recordRevision)
    (descriptor : snapshotPageDescriptor) : bool :=
  let body := marshalJSON (Mk_snapshotPageResponse "1" snapshotID (encodeUint64Text cutCursor)
    (encodeUint64Text envelopeGeneration) revisions (pd_CollectionMarkers descriptor) (pd_SourceDevices descriptor)
    (Some placeholder) true) in
  slen body <=? maxBodyBytes.

Definition limit_exceeded : Error := NewError "limit_exceeded" false.
(** The descriptors so far and the lower bound of their metadata. *)
Record plan_state := Mk_plan { pl_lower : snapshotMetadataAccounting; pl_descriptors : list snapshotPageDescriptor }.
Definition within (available : Z) (account : snapshotMetadataAccounting) : bool :=
  account_ok account && (total account <=? available).

Definition revisions_page (ids : list string) : snapshotPageDescriptor := Mk_snapshotPageDescriptor ids [] [] None false.
Definition markers_page (markers : list collectionMarker) : snapshotPageDescriptor :=
  Mk_snapshotPageDescriptor [] markers [] None false.
Definition devices_page (devices : list sourceDevice) : snapshotPageDescriptor :=
  Mk_snapshotPageDescriptor [] [] devices None false.

Record head_object := Mk_head_object {
  ho_recordID : string; ho_revisionID : string; ho_hash : string; ho_revision : recordRevision }.
Definition plan_order (a b : record_heads_row) : bool :=
  cell_ltb (h_record_id a) (h_record_id b)
  || (cell_oleb (h_record_id a) (h_record_id b) && cell_oleb (h_revision_id a) (h_revision_id b)).
Definition plan_rows (d : db) : list (record_revisions_row * revision_objects_row) :=
  flat_map (λ h, flat_map (λ r, map (λ o, (r, o))
        (select (λ o, cell_eqb (ro_content_hash o) (v_content_hash r)) (tb_revision_objects d)))
      (select (λ r, cell_eqb (v_revision_id r) (h_revision_id h)) (tb_record_revisions d)))
    (order_by plan_order (tb_record_heads d)).
(** A row of the head query, given the identifiers of the row before it. *)
Definition scan_plan_row (previous : option (string * string)) (row : record_revisions_row * revision_objects_row)
    : option head_object :=
  let '(r, o) := row in
  let? recordID := scan_uuid (v_record_id r) else None;;
  let? revisionID := scan_uuid (v_revision_id r) else None;;
  let? hash := scan_blob 32 32 (v_content_hash r) else None;;
  let? body := scan_body maxBodyBytes (ro_revision_json o) else None;;
  require match previous with
          | Some (previousRecordID, previousRevisionID) =>
              negb (sltb recordID previousRecordID
                    || (String.eqb recordID previousRecordID && sleb revisionID previousRevisionID))
          | None => true
          end else None;;
  let? revision := decodeStoredCanonicalAs recordRevision body else None;;
  require String.eqb (rr_RecordID revision) recordID && String.eqb (rr_RevisionID revision) revisionID
          && String.eqb (Sum256 body) hash else None;;
  Some (Mk_head_object recordID revisionID hash revision).

Section plan.
Context (snapshotID : string) (cutCursor envelopeGeneration availableMetadata : Z).

Definition appendDescriptor (st : plan_state) (descriptor : snapshotPageDescriptor) : Handler plan_state :=
  let lower := accountSnapshotPage snapshotID (Z.of_nat (length (pl_descriptors st))) placeholder
                 (marshalJSON descriptor) (pl_lower st) in
  ensure (within availableMetadata lower) limit_exceeded;;
  mret (Mk_plan lower (pl_descriptors st ++ [descriptor])).

Definition revisions_fit (revisions : list recordRevision) (ids : list string) : bool :=
  (length revisions <=? 128)%nat
  && snapshotPageFits snapshotID cutCursor envelopeGeneration (Slice revisions) (revisions_page ids).
Definition finishRevisionPage (st : plan_state) (ids : list string) : Handler plan_state :=
  match ids with [] => mret st | _ => appendDescriptor st (revisions_page ids) end.

(** The loop variables of the revision phase: the plan, the open page, the
    references and the previous row. *)
Record revision_phase := Mk_revision_phase {
  rp_plan : plan_state; rp_revisions : list recordRevision; rp_ids : list string;
  rp_references : list snapshotRevisionReference; rp_previous : option (string * string) }.
(** The open page with the row added, or the row alone on a new page. *)
Definition place_revision (ph : revision_phase) (h : head_object)
    : Handler (plan_state * list recordRevision * list string) :=
  let candidateRevisions := rp_revisions ph ++ [ho_revision h] in
  let candidateIDs := rp_ids ph ++ [ho_revisionID h] in
  if revisions_fit candidateRevisions candidateIDs then mret (rp_plan ph, candidateRevisions, candidateIDs)
  else
    ensure_internal (negb (length (rp_revisions ph) =? 0)%nat);;
    plan ← finishRevisionPage (rp_plan ph) (rp_ids ph);
    ensure_internal (snapshotPageFits snapshotID cutCursor envelopeGeneration (Slice [ho_revision h])
                       (revisions_page [ho_revisionID h]));;
    mret (plan, [ho_revision h], [ho_revisionID h]).
Definition plan_revision (ph : revision_phase) (row : record_revisions_row * revision_objects_row) : Handler revision_phase :=
  h ← some_or_internal (scan_plan_row (rp_previous ph) row);
  '(plan, revisions, ids) ← place_revision ph h;
  let reference := Mk_reference (ho_revisionID h) (ho_hash h) in
  let lower := accountSnapshotReference snapshotID reference (pl_lower plan) in
  ensure (within availableMetadata lower) limit_exceeded;;
  mret (Mk_revision_phase (Mk_plan lower (pl_descriptors plan)) revisions ids
          (rp_references ph ++ [reference]) (Some (ho_recordID h, ho_revisionID h))).
Definition plan_revisions (st : plan_state) : Handler (plan_state * list snapshotRevisionReference) :=
  rows ← select_db plan_rows;
  ph ← fold_each rows (Mk_revision_phase st [] [] [] None) plan_revision;
  plan ← finishRevisionPage (rp_plan ph) (rp_ids ph);
  mret (plan, rp_references ph).

Definition finishMarkerPage (st : plan_state) (markers : list collectionMarker) : Handler plan_state :=
  match markers with [] => mret st | _ => appendDescriptor st (markers_page markers) end.
Definition plan_marker (ph : plan_state * list collectionMarker * option string) (row : collection_markers_row)
    : Handler (plan_state * list collectionMarker * option string) :=
  let '(st, pageMarkers, previous) := ph in
  marker ← some_or_internal
    (let? body := scan_body maxBodyBytes (mk_marker_json row) else None;;
     let? marker := decodeStoredCollectionMarker body else None;;
     require match previous with Some p => sltb p (cm_RecordID marker) | None => true end else None;;
     Some marker);
  let candidate := pageMarkers ++ [marker] in
  if (length candidate <=? 128)%nat
     && snapshotPageFits snapshotID cutCursor envelopeGeneration NilSlice (markers_page candidate)
  then mret (st, candidate, Some (cm_RecordID marker))
  else
    ensure_internal (negb (length pageMarkers =? 0)%nat);;
    st ← finishMarkerPage st pageMarkers;
    mret (st, [marker], Some (cm_RecordID marker)).
Definition plan_markers (st : plan_state) : Handler plan_state :=
  rows ← select_db (λ d, order_by (λ a b, cell_oleb (mk_record_id a) (mk_record_id b)) (tb_collection_markers d));
  '(st, pageMarkers, _) ← fold_each rows (st, [], None) plan_marker;
  finishMarkerPage st pageMarkers.

Definition scan_source_device (r : devices_row) : option sourceDevice :=
  let? deviceID := scan_uuid (d_device_id r) else None;;
  let? counter := scan_u64 (d_max_author_counter r) else None;;
  Some (Mk_sourceDevice deviceID (encodeUint64Text counter)).
Definition plan_devices (st : plan_state) : Handler plan_state :=
  rows ← select_db (registry_rows 65);
  devices ← some_or_internal (mapM_opt scan_source_device rows);
  ensure_internal (strictly sltb (map sd_DeviceID devices));;
  ensure_internal (length devices <=? 64)%nat;;
  match devices with
  | [] => mret st
  | _ =>
      ensure_internal (snapshotPageFits snapshotID cutCursor envelopeGeneration NilSlice (devices_page devices));;
      appendDescriptor st (devices_page devices)
  end.

(** Each page names the token of the next one. *)
Fixpoint link_pages (descriptors : list snapshotPageDescriptor) (tokens : list string) : list storedSnapshotPage :=
  match descriptors, tokens with
  | descriptor :: rest, token :: tokens' =>
      let linked := Mk_snapshotPageDescriptor (pd_RevisionIDs descriptor) (pd_CollectionMarkers descriptor)
        (pd_SourceDevices descriptor) (match rest with [] => None | _ => head tokens' end)
        (match rest with [] => false | _ => true end) in
      Mk_page token linked (marshalJSON linked) :: link_pages rest tokens'
  | _, _ => []
  end.

Definition buildSnapshotPlan (ownerDeviceID requestID : string)
    : Handler (list storedSnapshotPage * list snapshotRevisionReference) :=
  ensure (negb (availableMetadata <? 0)) limit_exceeded;;
  let lower := accountSnapshotBase snapshotID ownerDeviceID requestID "" (Mk_account 0 false) in
  ensure (within availableMetadata lower) limit_exceeded;;
  '(st, references) ← plan_revisions (Mk_plan lower []);
  st ← plan_markers st;
  st ← plan_devices st;
  st ← (match pl_descriptors st with
        | [] => appendDescriptor st (revisions_page [])
        | _ => mret st end);
  tokens ← map_each (λ _, encodeRandomBase64 32) (pl_descriptors st);
  mret (link_pages (pl_descriptors st) tokens, references).
End plan.

(** ** Creation *)
Definition preflightSnapshotOwnerKeys (ownerDeviceID requestID : string) : Handler () :=
  ensure_internal (validateUUID ownerDeviceID && validateUUID requestID);;
  rows ← select_db (λ d, take 2 (key_range sn_owner_device_id ownerDeviceID (tb_snapshots d)));
  ensure_internal (forallb (λ r, is_key ownerDeviceID (sn_owner_device_id r)
    && match scan_uuid (sn_request_id r) with Some stored => negb (String.eqb stored requestID) | None => false end) rows);;
  ensure_internal (length rows <=? 1)%nat.

(** Snapshots of this owner, of the instance, and their metadata. *)
Definition snapshot_load (ownerDeviceID : string) (d : db) : nat * nat * Z :=
  let rows := take 9 (tb_snapshots d) in
  (length (select (λ r, cell_eqb (sn_owner_device_id r) (CText ownerDeviceID)) rows), length rows,
   fold_left Z.add (map sn_metadata_bytes rows) 0).
Definition snapshot_limits (ownerDeviceID : string) : Handler Z :=
  '(activeForDevice, activeForInstance, activeMetadata) ← select_db (snapshot_load ownerDeviceID);
  ensure_internal (activeMetadata <=? MaxInt64);;
  ensure_internal (activeForInstance <=? 8)%nat;;
  ensure (negb ((1 <=? activeForDevice)%nat || (8 <=? activeForInstance)%nat)) limit_exceeded;;
  ensure_internal (negb ((activeMetadata <? 0) || (snapshotMetadataLimit <? activeMetadata)));;
  mret activeMetadata.

Definition insert_pages (snapshotID : string) (pages : list storedSnapshotPage) : Handler () :=
  fold_each pages 0 (λ index page,
    exec_db (insert_snapshot_pages
      (Mk_snapshot_pages (CText snapshotID) index (CText (pp_token page)) (CBlob (pp_body page))));;
    mret (index + 1));;
  mret ().
Definition raise_max_returned (deviceID : string) (serverCursor : Z) : Handler () :=
  row ← select_db (λ d, query_row (select (λ r, cell_eqb (ds_device_id r) (CText deviceID)) (tb_device_sync_state d)));
  maxReturned ← some_or_internal (let? r := row else None;; scan_u64 (ds_max_returned_cursor r));
  if maxReturned <? serverCursor then exec_db (set_max_returned deviceID serverCursor) else mret ().

Definition set_deadline (snapshotID : string) (deadline : gotime) : Handler () :=
  eph ← get_eph; set_eph (with_snapshot_deadlines (<[snapshotID := deadline]> (snapshotDeadlines eph)) eph).
Definition drop_deadline (snapshotID : string) : Handler () :=
  eph ← get_eph; set_eph (with_snapshot_deadlines (delete snapshotID (snapshotDeadlines eph)) eph).

Section snapshot.
Context (identity : Identity).

Definition snapshot_label : string := "JAT snapshot create request fingerprint v1".
Definition decode_snapshot_create (call : Request) : option snapshotCreateRequest :=
  let? request := decodeStrictAs snapshotCreateRequest (Body call) else None;;
  require String.eqb (sc_ProtocolVersion request) "1" && validateUUID (sc_DeviceID request)
          && validateUUID (sc_RequestID request) && String.eqb (sc_RequestID request) (RequestID call) else None;;
  Some request.
(** The reply recorded with a snapshot, and the fingerprint of its request. *)
Definition decode_snapshot (r : snapshots_row) : option (string * string) :=
  let? snapshotID := scan_uuid (sn_snapshot_id r) else None;;
  let? owner := scan_uuid (sn_owner_device_id r) else None;;
  let? recorded := scan_blob 32 32 (sn_request_fingerprint r) else None;;
  let? cut := scan_u64 (sn_cut_cursor r) else None;;
  let? generation := scan_u64 (sn_envelope_generation r) else None;;
  let? response := scan_body maxBodyBytes (sn_create_response_json r) else None;;
  require validateStoredSnapshotCreateResponse response identity snapshotID owner cut generation (sn_expires_at_ms r)
    else None;;
  Some (recorded, response).
Definition snapshot_envelope (envelopeGeneration secretGeneration : Z) : Handler vaultEnvelope :=
  row ← select_db envelope_row;
  row ← from_option row (NewError "envelope_missing" false);
  some_or_internal
    (let? body := scan_body maxBodyBytes (vn_envelope_json row) else None;;
     let? envelope := unmarshalAs vaultEnvelope body else None;;
     let? '(validated, validatedSecret) := validateEnvelope envelope identity else None;;
     require (validated =? envelopeGeneration) && (validatedSecret =? secretGeneration)
             && String.eqb (marshalJSON envelope) body else None;;
     Some envelope).

Definition snapshot_write (call : Request) (deviceID fingerprint snapshotID : string)
    (serverCursor envelopeGeneration collectionGeneration activeMetadata : Z) (envelope : vaultEnvelope)
    (pages : list storedSnapshotPage) (references : list snapshotRevisionReference) : Handler Response :=
  let expiresAt := UnixMilli (Add (Now call) snapshotLifetime) in
  firstToken ← some_or_internal (pp_token <$> head pages);
  let createBody := marshalJSON (Mk_snapshotCreateResponse "1" snapshotID (encodeUint64Text serverCursor)
    (encodeUint64Text envelopeGeneration) envelope (formatTimestamp expiresAt) firstToken) in
  let '(metadataBytes, ok) := snapshotMetadataBytes snapshotID deviceID (RequestID call) createBody pages references in
  ensure (ok && (metadataBytes <=? snapshotMetadataLimit - activeMetadata)) limit_exceeded;;
  exec_db (insert_snapshots
    (Mk_snapshots (CText snapshotID) (CText deviceID) (CText (RequestID call)) (CBlob fingerprint) (cell_u64 serverCursor)
       (cell_u64 envelopeGeneration) (cell_u64 collectionGeneration) expiresAt metadataBytes (CBlob createBody)));;
  insert_pages snapshotID pages;;
  for_each references (λ r, exec_db (insert_snapshot_revision_refs
    (Mk_snapshot_revision_refs (CText snapshotID) (CText (sr_revisionID r)) (CBlob (sr_contentHash r)))));;
  raise_max_returned deviceID serverCursor;;
  set_deadline snapshotID (Add (Now call) snapshotLifetime);;
  on_error commitTransaction (drop_deadline snapshotID);;
  mret (ok_response 201 createBody).

Definition snapshot_create (call : Request) (deviceID fingerprint : string) : Handler Response :=
  preflightSnapshotOwnerKeys deviceID (RequestID call);;
  admitSnapshotAttempt deviceID (Now call);;
  pruneExpiredSnapshots (Now call);;
  activeMetadata ← snapshot_limits deviceID;
  '(serverCursor, envelopeGeneration, secretGeneration, collectionGeneration) ← readRuntimeState;
  envelope ← snapshot_envelope envelopeGeneration secretGeneration;
  snapshotID ← generateUUID;
  '(pages, references) ← buildSnapshotPlan snapshotID serverCursor envelopeGeneration
    (snapshotMetadataLimit - activeMetadata) deviceID (RequestID call);
  snapshot_write call deviceID fingerprint snapshotID serverCursor envelopeGeneration collectionGeneration
    activeMetadata envelope pages references.

Definition handleCreateSnapshot (call : Request) : Handler Response :=
  request ← from_option (decode_snapshot_create call) (NewError "invalid_request" false);
  ensure (strings_eqb (sc_RequiredCapabilities request) requiredSnapshotCapabilities)
    (NewError "unsupported_capability" false);;
  beginTransaction;;
  authenticated ← authenticate identity (Authorization call) "sync:read";
  let deviceID := da_DeviceID authenticated in
  ensure (String.eqb deviceID (sc_DeviceID request)) (NewError "authenticated_device_mismatch" false);;
  fingerprint ← requestFingerprint identity snapshot_label deviceID (Body call);
  stored ← select_db (λ d, query_row (select (λ r, cell_eqb (sn_owner_device_id r) (CText deviceID)
                                                   && cell_eqb (sn_request_id r) (CText (RequestID call))) (tb_snapshots d)));
  match stored with
  | Some r =>
      '(recorded, response) ← some_or_internal (decode_snapshot r);
      ensure (VerifyHash recorded fingerprint) (NewError "request_id_reused" false);;
      mret (ok_response 200 response)
  | None => snapshot_create call deviceID fingerprint
  end.

(** ** Pages *)
Definition decodeStoredSnapshotPageDescriptor (body : string) : option snapshotPageDescriptor :=
  let? descriptor := decodeStoredCanonicalAs snapshotPageDescriptor body else None;;
  let ids := pd_RevisionIDs descriptor in
  let markers := pd_CollectionMarkers descriptor in
  let devices := pd_SourceDevices descriptor in
  require (length ids <=? 128)%nat && (length markers <=? 128)%nat && (length devices <=? 64)%nat else None;;
  let nonemptyPhases := length (List.filter (λ n, negb (n =? 0)%nat) [length ids; length markers; length devices]) in
  require (nonemptyPhases <=? 1)%nat && negb ((nonemptyPhases =? 0)%nat && pd_HasMore descriptor) else None;;
  require
    if pd_HasMore descriptor
    then match pd_NextPageToken descriptor with Some token => base64_ok token 32 | None => false end
    else match pd_NextPageToken descriptor with Some _ => false | None => true end
    else None;;
  require forallb validateUUID ids && bool_decide (NoDup ids) else None;;
  require forallb (λ m, match validateCollectionMarker m with Some _ => true | None => false end) markers
          && strictly sltb (map cm_RecordID markers) else None;;
  require forallb (λ d, validateUUID (sd_DeviceID d) && uint64_text (sd_MaxAuthorCounter d)) devices
          && strictly sltb (map sd_DeviceID devices) else None;;
  Some descriptor.

Definition snapshot_object (snapshotID revisionID : string) (d : db)
    : option (snapshot_revision_refs_row * revision_objects_row) :=
  query_row (flat_map (λ s, map (λ o, (s, o))
      (select (λ o, cell_eqb (ro_content_hash o) (rf_content_hash s)) (tb_revision_objects d)))
    (select (λ s, cell_eqb (rf_snapshot_id s) (CText snapshotID) && cell_eqb (rf_revision_id s) (CText revisionID))
       (tb_snapshot_revision_refs d))).
Definition load_snapshot_revision (snapshotID revisionID : string) : Handler recordRevision :=
  row ← select_db (snapshot_object snapshotID revisionID);
  '(s, o) ← some_or_internal row;
  some_or_internal
    (let? body := scan_body maxBodyBytes (ro_revision_json o) else None;;
     let? storedHash := scan_blob 32 32 (ro_content_hash o) else None;;
     let? referencedHash := scan_blob 32 32 (rf_content_hash s) else None;;
     require VerifyHash storedHash referencedHash else None;;
     decode_object revisionID storedHash body).

Definition snapshot_page_body (snapshotID : string) (cutCursor envelopeGeneration : Z) (revisions : list recordRevision)
    (descriptor : snapshotPageDescriptor) : string :=
  marshalJSON (Mk_snapshotPageResponse "1" snapshotID (encodeUint64Text cutCursor) (encodeUint64Text envelopeGeneration)
    (Slice revisions) (pd_CollectionMarkers descriptor) (pd_SourceDevices descriptor)
    (pd_NextPageToken descriptor) (pd_HasMore descriptor)).

Definition handleSnapshotPage (call : Request) (snapshotID : string) : Handler Response :=
  request ← from_option
    (let? request := decodeStrictAs snapshotPageRequest (Body call) else None;;
     require String.eqb (sp_ProtocolVersion request) "1" && validateUUID (sp_DeviceID request) else None;;
     require base64_ok (sp_PageToken request) 32 else None;;
     Some request) (NewError "invalid_request" false);
  beginTransaction;;
  authenticated ← authenticate identity (Authorization call) "sync:read";
  ensure (String.eqb (da_DeviceID authenticated) (sp_DeviceID request)) (NewError "authenticated_device_mismatch" false);;
  row ← select_db (λ d, query_row (select (λ r, cell_eqb (sn_snapshot_id r) (CText snapshotID)) (tb_snapshots d)));
  row ← from_option row (NewError "snapshot_not_found" false);
  '(owner, cutCursor, envelopeGeneration) ← some_or_internal
    (let? owner := scan_uuid (sn_owner_device_id row) else None;;
     let? cut := scan_u64 (sn_cut_cursor row) else None;;
     let? generation := scan_u64 (sn_envelope_generation row) else None;;
     Some (owner, cut, generation));
  ensure (String.eqb owner (da_DeviceID authenticated)) (NewError "snapshot_not_found" false);;
  eph ← get_eph;
  ensure (negb (lease_expired (Now call) (snapshotDeadlines eph) snapshotID)) (NewError "snapshot_expired" false);;
  page ← select_db (λ d, query_row (select (λ r, cell_eqb (pg_snapshot_id r) (CText snapshotID)
                                                 && cell_eqb (pg_page_token r) (CText (sp_PageToken request)))
                                      (tb_snapshot_pages d)));
  page ← from_option page (NewError "invalid_request" false);
  descriptor ← some_or_internal
    (let? body := scan_body maxBodyBytes (pg_response_json page) else None;;
     decodeStoredSnapshotPageDescriptor body);
  revisions ← map_each (load_snapshot_revision snapshotID) (pd_RevisionIDs descriptor);
  let body := snapshot_page_body snapshotID cutCursor envelopeGeneration revisions descriptor in
  ensure_internal (slen body <=? maxBodyBytes);;
  mret (ok_response 200 body).
End snapshot.

(** ** Frame facts *)
Lemma reads_appendDescriptor a b c d : Pres same_state (appendDescriptor a b c d).
Proof. unfold appendDescriptor. reads. Qed.
#[export] Hint Resolve reads_appendDescriptor : reads.
Lemma reads_finishRevisionPage a b c d : Pres same_state (finishRevisionPage a b c d).
Proof. unfold finishRevisionPage. reads. Qed.
Lemma reads_finishMarkerPage a b c d : Pres same_state (finishMarkerPage a b c d).
Proof. unfold finishMarkerPage. reads. Qed.
#[export] Hint Resolve reads_finishRevisionPage reads_finishMarkerPage : reads.
Lemma reads_plan_revisions a b c d e : Pres same_state (plan_revisions a b c d e).
Proof. unfold plan_revisions, plan_revision, place_revision. reads. Qed.
Lemma reads_plan_markers a b c d e : Pres same_state (plan_markers a b c d e).
Proof. unfold plan_markers, plan_marker. reads. Qed.
Lemma reads_plan_devices a b c d e : Pres same_state (plan_devices a b c d e).
Proof. unfold plan_devices. reads. Qed.
#[export] Hint Resolve reads_plan_revisions reads_plan_markers reads_plan_devices : reads.
Lemma reads_buildSnapshotPlan a b c d e f : Pres same_state (buildSnapshotPlan a b c d e f).
Proof. unfold buildSnapshotPlan. reads. Qed.
Lemma reads_snapshot_limits a : Pres same_state (snapshot_limits a).
Proof. unfold snapshot_limits. reads. Qed.
Lemma reads_snapshot_envelope a b c : Pres same_state (snapshot_envelope a b c).
Proof. unfold snapshot_envelope. reads. Qed.
Lemma reads_load_snapshot_revision a b : Pres same_state (load_snapshot_revision a b).
Proof. unfold load_snapshot_revision. reads. Qed.
#[export] Hint Resolve reads_buildSnapshotPlan reads_snapshot_limits reads_snapshot_envelope reads_load_snapshot_revision : reads.
Lemma keeps_drop_deadline a : Pres same_db (drop_deadline a).
Proof. unfold drop_deadline. keeps. Qed.
#[export] Hint Resolve keeps_drop_deadline : keeps.
Lemma atomic_snapshot_write a b c d e f g h i j k : Atomic (snapshot_write a b c d e f g h i j k).
Proof.
  unfold snapshot_write, insert_pages, raise_max_returned, set_deadline. atomic.
Qed.
#[export] Hint Resolve atomic_snapshot_write : atomic.
Lemma atomic_handleCreateSnapshot identity call : Atomic (handleCreateSnapshot identity call).
Proof. unfold handleCreateSnapshot, snapshot_create, preflightSnapshotOwnerKeys. atomic. Qed.
Lemma keeps_handleSnapshotPage identity call id : Pres same_db (handleSnapshotPage identity call id).
Proof. unfold handleSnapshotPage. keeps. Qed.
#[export] Hint Resolve atomic_handleCreateSnapshot : atomic.
#[export] Hint Resolve keeps_handleSnapshotPage : keeps.

(** ** Dispatch

    HandleAPI of [src/runtime/internal/store/dataplane.go]: the route table of
    the data plane.  [clock] is what [time.Now()] returns when the caller left
    [Now] zero. *)

(** [Time.IsZero]. *)
Definition is_zero_time (t : gotime) : bool := wall t =? wall zero_time.
Definition with_now (now : gotime) (request : Request) : Request :=
  {| Method := Method request; Path := Path request; RequestID := RequestID request;
     Authorization := Authorization request; Body := Body request; Now := now |}.

Section router.
Context (identity : Identity) (clock : gotime).

Definition route_identified (request : Request) (prefix suffix : string) (handler : Request → string → Handler Response)
    : Handler Response :=
  match pathIdentifier (Path request) prefix suffix with
  | Some id => handler request id
  | None => fail "invalid_request" false
  end.
Definition HandleAPI (request : Request) : Handler Response :=
  let request := if is_zero_time (Now request) then with_now clock request else request in
  let route method path := String.eqb (Method request) method && String.eqb (Path request) path in
  if route "POST" "/v1/enrollments" then handleEnrollment identity request
  else if route "GET" "/v1/vault-envelope" then handleGetEnvelope identity request
  else if route "PUT" "/v1/vault-envelope" then handlePutEnvelope identity request
  else if route "POST" "/v1/sync" then handleSync identity request
  else if route "POST" "/v1/snapshot-reads" then handleCreateSnapshot identity request
  else if route "GET" "/v1/devices" then handleListDevices identity request
  else if route "POST" "/v1/device-token-rotations" then handleTokenRotation identity request
  else if String.eqb (Method request) "POST" && has_prefix "/v1/devices/" (Path request)
          && has_suffix "/revoke" (Path request)
    then route_identified request "/v1/devices/" "/revoke" (handleRevokeDevice identity)
  else if String.eqb (Method request) "POST" && has_prefix "/v1/snapshot-reads/" (Path request)
          && has_suffix "/pages" (Path request)
    then route_identified request "/v1/snapshot-reads/" "/pages" (handleSnapshotPage identity)
  else fail "invalid_request" false.

Lemma atomic_HandleAPI request : Atomic (HandleAPI request).
Proof.
  unfold HandleAPI, route_identified.
  cbv zeta. generalize (if is_zero_time (Now request) then with_now clock request else request). intros r.
  atomic.
Qed.
End router.
