(* ===== verification/Registry.v ===== *)
(** * Start-up validation: runtime counters and the device registry

    The first part of [src/runtime/internal/store/validation.go]
    (validatePersistentRuntime, validatePersistentDevices, validateReadinessDevices)
    and Ready of [store.go].  A row is scanned with the checks of its columns and then
    tested against the rows before it; [None] of a scan is the "invalid ..." error.
    Where the source ranges over a Go map, the model ranges over the map's entries:
    the result does not depend on the order, only which of two errors is reported
    could. *)

From stdpp Require Import base list strings gmap.
From Stdlib Require Import ZArith Lia Ascii.
From S2P Require Import Prelude GoStd GoTime Uuid Auth Json Wire Api Models Sql Schema Monad Runtime Persist Devices.
Local Open Scope Z_scope.
Local Open Scope go_scope.

(** A stored millisecond count that prints as a valid timestamp. *)
Definition timestamp_ok (ms : Z) : bool := validateTimestamp (formatTimestamp ms).
(** ORDER BY two text or blob columns. *)
Definition cells_leb (a b : list cell) : bool :=
  (fix go a b := match a, b with
     | x :: a', y :: b' => if bool_decide (x = y) then go a' b' else cell_oleb x y
     | _, _ => true
     end) a b.
Definition int_flag (z : Z) : bool := (0 <=? z) && (z <=? 1).

(** ** Runtime *)
Record runtime_counters := Mk_counters {
  vr_serverCursor : Z; vr_envelopeGeneration : Z; vr_secretGeneration : Z; vr_collectionGeneration : Z }.
(** [collection_scan_after_record_id]: empty or a UUID. *)
Definition scan_after_ok (c : cell) : bool :=
  match c with CText s => String.eqb s "" || ((slen s =? 36) && validateUUID s) | _ => false end.
Definition scan_runtime (r : runtime_state_row) : option runtime_counters :=
  let? cursor := scan_u64 (rs_server_cursor r) else None;;
  let? floor := scan_u64 (rs_cursor_floor r) else None;;
  let? envelope := scan_u64 (rs_envelope_generation r) else None;;
  let? secret := scan_u64 (rs_instance_secret_generation r) else None;;
  let? collection := scan_u64 (rs_collection_generation r) else None;;
  let? _ := scan_u64 (rs_accumulated_uptime_ms r) else None;;
  let? _ := scan_opt_blob 16 16 (rs_active_boot_id r) else None;;
  require (floor <=? cursor) && negb (secret =? 0) && scan_after_ok (rs_collection_scan_after_record_id r) else None;;
  Some (Mk_counters cursor envelope secret collection).
Definition validatePersistentRuntime : M string runtime_counters :=
  row ← query "missing runtime state" runtime_row;
  row ← from_option row "missing runtime state";
  from_option (scan_runtime row) "invalid runtime state".

(** ** Devices *)
Record validatedDeviceRow := Mk_validatedDevice {
  vd_createdAt : Z; vd_createdCursor : Z; vd_revokedCursor : Z; vd_revoked : bool; vd_revokedAt : Z;
  vd_baselineRevoked : bool; vd_maxCounter : Z; vd_ackCursor : Z; vd_maxReturned : Z }.
Abbreviation registry := (gmap string validatedDeviceRow).

(** devices LEFT JOIN device_sync_state LEFT JOIN device_origins. *)
Record registry_join := Mk_registry_join {
  rj_d : devices_row; rj_s : option device_sync_state_row; rj_o : option device_origins_row }.
Definition registry_joins (d : db) : list registry_join :=
  take 65 (flat_map (λ r,
    flat_map (λ s, map (λ o, Mk_registry_join r s o)
      (matches (λ o, cell_eqb (do_device_id o) (d_device_id r)) (tb_device_origins d)))
      (matches (λ s, cell_eqb (ds_device_id s) (d_device_id r)) (tb_device_sync_state d)))
    (order_by (λ a b, cell_oleb (d_device_id a) (d_device_id b)) (tb_devices d))).

Record registry_scan := Mk_registry_scan {
  rg_deviceID : string; rg_originKind : string; rg_createdCursor : option Z; rg_revokedCursor : option Z;
  rg_baselineRevoked : Z; rg_ack : Z; rg_counter : Z; rg_returned : Z }.
(** An optional eight-byte column, decoded. *)
Definition scan_opt_u64 (c : cell) : option (option Z) :=
  let? value := scan_opt_blob 8 8 c else None;;
  match value with
  | None => Some None
  | Some bytes => let? n := DecodeUint64 bytes else None;; Some (Some n)
  end.
Definition origin_text (c : cell) : option string := text_of_kind c ["baseline"; "enrolled"].
Definition scan_registry (j : registry_join) : option registry_scan :=
  let d := rj_d j in
  let? deviceID := scan_uuid (d_device_id d) else None;;
  let? _ := scan_blob 32 32 (d_token_hash d) else None;;
  let? scopesJSON := scan_text (slen wantScopes) (slen wantScopes) (d_scopes_json d) else None;;
  require String.eqb scopesJSON wantScopes else None;;
  let? originKind := origin_text (ocell do_origin_kind (rj_o j)) else None;;
  let? createdCursor := scan_opt_u64 (ocell do_created_cursor (rj_o j)) else None;;
  let? revokedCursor := scan_opt_u64 (ocell do_revoked_cursor (rj_o j)) else None;;
  let? baselineRevoked := do_baseline_revoked <$> rj_o j else None;;
  let? ack := scan_u64 (d_last_ack_cursor d) else None;;
  let? counter := scan_u64 (d_max_author_counter d) else None;;
  let? returned := scan_u64 (ocell ds_max_returned_cursor (rj_s j)) else None;;
  require int_flag baselineRevoked && timestamp_ok (d_created_at_ms d) else None;;
  Some (Mk_registry_scan deviceID originKind createdCursor revokedCursor baselineRevoked ack counter returned).

(** [at_ >= createdAt] and printable, when there is one. *)
Definition later_ok (createdAt : Z) (at_ : option Z) : bool :=
  match at_ with None => true | Some t => (createdAt <=? t) && timestamp_ok t end.
Definition registry_cursors_ok (serverCursor : Z) (revokedAt : option Z) (s : registry_scan) : bool :=
  let created := default 0 (rg_createdCursor s) in
  let revoked := match revokedAt with Some _ => true | None => false end in
  Bool.eqb (String.eqb (rg_originKind s) "enrolled") (is_some (rg_createdCursor s))
  && match rg_createdCursor s with None => true | Some c => negb (c =? 0) && (c <=? serverCursor) end
  && match rg_revokedCursor s with
     | None => true
     | Some c => negb (c =? 0) && (c <=? serverCursor) && negb (c <=? created)
     end
  && negb (String.eqb (rg_originKind s) "enrolled" && negb (rg_baselineRevoked s =? 0))
  && negb ((rg_baselineRevoked s =? 1) && negb revoked)
  && Bool.eqb (is_some (rg_revokedCursor s)) (revoked && (rg_baselineRevoked s =? 0))
  && (rg_ack s <=? rg_returned s) && (rg_returned s <=? serverCursor).

Definition device_step (serverCursor : Z) (acc : registry * string) (j : registry_join) : M string (registry * string) :=
  let '(result, previous) := acc in
  s ← from_option (scan_registry j) "invalid device row";
  ensure (String.eqb previous "" || sltb previous (rg_deviceID s)) "invalid device row";;
  let createdAt := d_created_at_ms (rj_d j) in
  let revokedAt := d_revoked_at_ms (rj_d j) in
  ensure (later_ok createdAt revokedAt) "invalid device revocation timestamp";;
  ensure (later_ok createdAt (d_last_sync_at_ms (rj_d j))) "invalid device sync timestamp";;
  ensure (registry_cursors_ok serverCursor revokedAt s) "invalid device cursor state";;
  let row := Mk_validatedDevice createdAt (default 0 (rg_createdCursor s)) (default 0 (rg_revokedCursor s))
    (is_some revokedAt) (default 0 revokedAt) (rg_baselineRevoked s =? 1) (rg_counter s) (rg_ack s) (rg_returned s) in
  let result := <[rg_deviceID s := row]> result in
  ensure (size result <=? 64)%nat "invalid device registry";;
  mret (result, rg_deviceID s).

(** Rows of one table whose device is missing. *)
Definition no_device (d : db) (id : cell) : bool :=
  negb (existsb (λ r, cell_eqb (d_device_id r) id) (tb_devices d)).
Definition validatePersistentDevices (serverCursor : Z) : M string registry :=
  rows ← query "read device rows" registry_joins;
  '(result, _) ← fold_each rows (∅, "") (device_step serverCursor);
  ensure (size result <=? 64)%nat "invalid device registry";;
  orphanSync ← query "orphan device sync state" (λ d, existsb (λ s, no_device d (ds_device_id s)) (tb_device_sync_state d));
  ensure (negb orphanSync) "orphan device sync state";;
  orphanOrigin ← query "orphan device origin" (λ d, existsb (λ o, no_device d (do_device_id o)) (tb_device_origins d));
  ensure (negb orphanOrigin) "orphan device origin";;
  mret result.

(** ** Readiness *)
Definition readiness_step (serverCursor : Z) (j : registry_join) : M string () :=
  s ← from_option (scan_registry j) "invalid readiness device sentinel";
  let createdAt := d_created_at_ms (rj_d j) in
  let revokedAt := d_revoked_at_ms (rj_d j) in
  ensure (later_ok createdAt revokedAt && later_ok createdAt (d_last_sync_at_ms (rj_d j)))
    "invalid readiness device sentinel";;
  ensure (registry_cursors_ok serverCursor revokedAt s) "invalid readiness device cursor".
Definition validateReadinessDevices (serverCursor : Z) : M string () :=
  rows ← query "read readiness device sentinel" registry_joins;
  for_each rows (readiness_step serverCursor);;
  ensure (length rows <=? 64)%nat "invalid readiness device registry".

Section readiness.
Context (identity : Identity).
(** The schema text is fixed in the model, so validateSchemaState has nothing to reject. *)
Definition validateReadinessSnapshot : M string () :=
  validateIdentity identity;;
  counters ← validatePersistentRuntime;
  validateReadinessDevices (vr_serverCursor counters);;
  validatePersistentEnvelope identity (vr_envelopeGeneration counters) (vr_secretGeneration counters).
(** A read-only transaction: nothing is written back. *)
Definition Ready : M string () :=
  begin_tx "database readiness: begin consistent read";;
  validateReadinessSnapshot;;
  (fault ← tick; ensure (negb (fault : bool)) "database readiness: commit consistent read").
End readiness.

Lemma reads_validateIdentity i : Pres same_state (validateIdentity i).
Proof. unfold validateIdentity. reads. Qed.
Lemma reads_validatePersistentRuntime : Pres same_state validatePersistentRuntime.
Proof. unfold validatePersistentRuntime. reads. Qed.
Lemma reads_validatePersistentDevices n : Pres same_state (validatePersistentDevices n).
Proof. unfold validatePersistentDevices, device_step. reads. Qed.
Lemma reads_validateReadinessDevices n : Pres same_state (validateReadinessDevices n).
Proof. unfold validateReadinessDevices, readiness_step. reads. Qed.
#[export] Hint Resolve reads_validateIdentity reads_validatePersistentRuntime reads_validatePersistentDevices
  reads_validateReadinessDevices : reads.
