(* ===== verification/History.v ===== *)
(** * Start-up validation: revisions, heads and collection queues

    The part of [src/runtime/internal/store/validation.go] that checks the permanent
    record history: revision objects, the revision rows with their reconstructed
    frontiers, acceptance origins, author counters, the head and vector indexes and the
    collection queues. *)

From stdpp Require Import base list strings gmap.
From Stdlib Require Import ZArith Lia Ascii.
From S2P Require Import Prelude GoStd GoTime Uuid Auth Json Wire Api Models Sql Schema Monad Runtime.
From S2P Require Import Persist Devices Registry.
Local Open Scope Z_scope.
Local Open Scope go_scope.

(** ** Revision objects *)
Definition object_ok (r : revision_objects_row) : M string () :=
  '(hash, body) ← from_option
    (let? hash := scan_blob 32 32 (ro_content_hash r) else None;;
     let? body := scan_body maxBodyBytes (ro_revision_json r) else None;;
     Some (hash, body)) "revision object exceeds body limit";
  revision ← from_option (decodeStoredCanonicalAs recordRevision body) "invalid revision object";
  ensure (String.eqb (Sum256 body) hash) "revision object hash mismatch";;
  ensure (is_some (validateRevision revision)) "invalid revision object profile".
Definition validatePersistentRevisionObjects : M string () :=
  rows ← query "read revision objects" (λ d, order_by (λ a b, cell_oleb (ro_content_hash a) (ro_content_hash b)) (tb_revision_objects d));
  for_each rows object_ok.

(** ** Revision rows *)
Record revision_join := Mk_revision_join {
  vj_r : record_revisions_row; vj_a : option revision_acceptance_origins_row; vj_o : option revision_objects_row;
  vj_c : option changes_row; vj_p : option change_origins_row }.
Definition revision_joins (d : db) : list revision_join :=
  flat_map (λ r,
    flat_map (λ a, flat_map (λ o, flat_map (λ c, map (λ p, Mk_revision_join r a o c p)
      (matches (λ p, cell_eqb (co_cursor p) (v_change_cursor r)) (tb_change_origins d)))
      (matches (λ c, cell_eqb (ch_cursor c) (v_change_cursor r) && cell_eqb (ch_kind c) (CText "record_revision")
                     && cell_eqb (ch_record_revision_id c) (v_revision_id r)) (tb_changes d)))
      (matches (λ o, cell_eqb (ro_content_hash o) (v_content_hash r)) (tb_revision_objects d)))
      (matches (λ a, cell_eqb (ao_revision_id a) (v_revision_id r)) (tb_revision_acceptance_origins d)))
    (order_by (λ a b, cells_leb [v_record_id a; v_change_cursor a] [v_record_id b; v_change_cursor b]) (tb_record_revisions d)).

Record revision_scan := Mk_revision_scan {
  vs_revisionID : string; vs_recordID : string; vs_authorID : string; vs_counter : Z; vs_vectorBody : string;
  vs_witness : option string; vs_hash : string; vs_cursor : Z; vs_collected : option Z;
  vs_tombstone : bool; vs_retained : bool; vs_undominated : bool; vs_change : bool }.
Definition scan_revision (j : revision_join) : option revision_scan :=
  let r := vj_r j in
  let? revisionID := scan_uuid (v_revision_id r) else None;;
  let? recordID := scan_uuid (v_record_id r) else None;;
  let? authorID := scan_uuid (v_author_device_id r) else None;;
  let? counter := scan_u64 (v_author_counter r) else None;;
  let? vectorBody := scan_body maxVectorBytes (v_vector_json r) else None;;
  let? witness := scan_opt_blob 32 32 (v_collection_witness_authenticator r) else None;;
  let? hash := scan_blob 32 32 (v_content_hash r) else None;;
  let? uptime := scan_blob 8 8 (v_accepted_uptime_ms r) else None;;
  let? originUptime := scan_blob 8 8 (ocell ao_accepted_uptime_ms (vj_a j)) else None;;
  require String.eqb uptime originUptime else None;;
  let? cursor := scan_u64 (v_change_cursor r) else None;;
  let? collected := scan_opt_u64 (v_collected_generation r) else None;;
  let? change := scan_opt_blob 8 8 (ocell ch_cursor (vj_c j)) else None;;
  require int_flag (v_tombstone r) && int_flag (v_retained r) && int_flag (v_undominated r)
          && negb ((v_retained r =? 0) && negb (v_undominated r =? 0)) && timestamp_ok (v_received_at_ms r) else None;;
  Some (Mk_revision_scan revisionID recordID authorID counter vectorBody witness hash cursor collected
          (v_tombstone r =? 1) (v_retained r =? 1) (v_undominated r =? 1) (is_some change)).

(** A reconstructed frontier: the undominated revisions seen so far. *)
Record frontierItem := Mk_item { fi_id : string; fi_vector : version_vector }.
Definition advanceFrontier (frontier : list frontierItem) (revisionID : string) (vector : version_vector)
    : res string (list frontierItem) :=
  if existsb (λ e, vectorsEqual (fi_vector e) vector) frontier then Err "equal-vector revision equivocation"
  else
    let next := List.filter (λ e, negb (vectorDominates vector (fi_vector e))) frontier in
    if existsb (λ e, vectorDominates (fi_vector e) vector) frontier then Ok next
    else
      let next := next ++ [Mk_item revisionID vector] in
      if (32 <? length next)%nat then Err "too many reconstructed undominated revisions" else Ok next.

Record replay := Mk_replay {
  rp_record : string; rp_historical : list frontierItem; rp_retained : list frontierItem;
  rp_heads : gset string; rp_counters : gmap string Z }.
Definition of_res {A} (r : res string A) : M string A := match r with Ok a => mret a | Err e => throw e end.
Definition flushFrontier (st : replay) : M string () :=
  ensure ((length (rp_retained st) =? size (rp_heads st))%nat && (length (rp_retained st) <=? 32)%nat)
    "invalid stored undominated frontier";;
  ensure (forallb (λ item, bool_decide (fi_id item ∈ rp_heads st)) (rp_retained st)) "incorrect stored undominated flag".

(** A vector entry the registry knows at this cursor. *)
Definition entry_ok (devices : registry) (cursor : Z) (entry : string * Z) : bool :=
  match devices !! entry.1 with
  | None => false
  | Some row => negb (negb (vd_createdCursor row =? 0) && (cursor <=? vd_createdCursor row)) && (entry.2 <=? vd_maxCounter row)
  end.
Definition opt_bytes (o : option string) : string := default "" o.
(** The checks of the object a revision row refers to. *)
Definition referenced_object_ok (s : revision_scan) (entries : list vectorEntry) (object : option revision_objects_row)
    : M string () :=
  match object with
  | None =>
      ensure (negb (vs_retained s)) "retained revision object or change mismatch";;
      ensure (negb (negb (vs_retained s) && vs_change s)) "collected revision retains a change"
  | Some o =>
      body ← from_option (scan_body maxBodyBytes (ro_revision_json o)) "revision object exceeds body limit";
      revision ← from_option (decodeStoredCanonicalAs recordRevision body) "invalid referenced revision object";
      ensure (negb (vs_retained s && negb (vs_change s))) "retained revision object or change mismatch";;
      ensure (String.eqb (rr_RevisionID revision) (vs_revisionID s) && String.eqb (rr_RecordID revision) (vs_recordID s)
              && String.eqb (rr_AuthorDeviceID revision) (vs_authorID s)
              && String.eqb (rr_AuthorCounter revision) (encodeUint64Text (vs_counter s))
              && bool_decide (map (λ e, (ve_DeviceID e, ve_Counter e)) (rr_VersionVector revision)
                              = map (λ e, (ve_DeviceID e, ve_Counter e)) entries)
              && Bool.eqb (rr_Tombstone revision) (vs_tombstone s)) "revision object identity mismatch";;
      ensure (negb (negb (vs_retained s) && vs_change s)) "collected revision retains a change";;
      ensure (String.eqb (Sum256 body) (vs_hash s)) "revision content address mismatch";;
      let witness := match rr_CollectionWitnessAuthenticator revision with
                     | Some text => opt_bytes (decodeBase64 text 32 0 0) | None => "" end in
      ensure (String.eqb witness (opt_bytes (vs_witness s))) "revision witness mismatch"
  end.

Definition revision_row_ok (devices : registry) (serverCursor collectionGeneration : Z) (s : revision_scan)
    (entries : list vectorEntry) : option version_vector :=
  let? vector := validateVector entries else None;;
  let? device := devices !! vs_authorID s else None;;
  require negb (vs_cursor s =? 0) && (vs_cursor s <=? serverCursor)
          && Bool.eqb (negb (vs_retained s)) (is_some (vs_collected s))
          && match vs_collected s with None => true | Some g => negb (g =? 0) && (g <=? collectionGeneration) end
          && String.eqb (marshalJSON entries) (vs_vectorBody s)
          && (counter_of vector (vs_authorID s) =? vs_counter s)
          && negb (negb (vd_createdCursor device =? 0) && (vs_cursor s <=? vd_createdCursor device))
          && (vs_counter s <=? vd_maxCounter device) else None;;
  Some vector.

Definition revision_step (devices : registry) (serverCursor collectionGeneration : Z) (st : replay) (j : revision_join)
    : M string replay :=
  s ← from_option (scan_revision j) "invalid revision row";
  ensure (cell_eqb (ocell co_kind (vj_p j)) (CText "record_revision")) "revision does not match durable change origin";;
  entries ← from_option (unmarshalAs (list vectorEntry) (vs_vectorBody s)) "invalid stored revision vector";
  vector ← from_option (revision_row_ok devices serverCursor collectionGeneration s entries) "inconsistent revision row";
  st ← (if String.eqb (rp_record st) (vs_recordID s) then mret st
        else (if String.eqb (rp_record st) "" then mret () else flushFrontier st);;
             mret (Mk_replay (vs_recordID s) [] [] ∅ (rp_counters st)));
  historical ← of_res (advanceFrontier (rp_historical st) (vs_revisionID s) vector);
  retained ← (if vs_retained s then of_res (advanceFrontier (rp_retained st) (vs_revisionID s) vector)
              else mret (rp_retained st));
  let heads := if vs_retained s && vs_undominated s then {[vs_revisionID s]} ∪ rp_heads st else rp_heads st in
  ensure (size heads <=? 32)%nat "too many stored undominated revisions";;
  let counters := if default 0 (rp_counters st !! vs_authorID s) <? vs_counter s
                  then <[vs_authorID s := vs_counter s]> (rp_counters st) else rp_counters st in
  ensure (forallb (entry_ok devices (vs_cursor s)) (map_to_list vector)) "revision vector exceeds device registry";;
  referenced_object_ok s entries (vj_o j);;
  mret (Mk_replay (vs_recordID s) historical retained heads counters).

(** ** Collection generations *)
Definition advancePersistentCollectionGeneration (previous generation : Z) : Z * bool :=
  if generation =? previous then (previous, true)
  else if (previous =? MaxUint64) || negb (generation =? previous + 1) then (previous, false)
  else (generation, true).
Definition generation_step (collectionGeneration previous : Z) (c : cell) : M string Z :=
  generation ← from_option (scan_u64 c) "invalid revision collection generation";
  ensure (negb (generation =? 0) && (generation <=? collectionGeneration)) "invalid revision collection generation";;
  let '(next, valid) := advancePersistentCollectionGeneration previous generation in
  ensure valid "collection generation does not match accepted history";;
  mret next.
Definition validatePersistentCollectionGenerationSequence (collectionGeneration : Z) : M string () :=
  cells ← query "read revision collection generations" (λ d,
    order_by cell_oleb (List.filter (λ c, negb (is_null c)) (map v_collected_generation (tb_record_revisions d))));
  previous ← fold_each cells 0 (generation_step collectionGeneration);
  ensure (previous =? collectionGeneration) "collection generation does not match accepted history".

Definition validatePersistentRevisions (devices : registry) (serverCursor collectionGeneration : Z)
    : M string (gmap string Z) :=
  rows ← query "read revision rows" revision_joins;
  st ← fold_each rows (Mk_replay "" [] [] ∅ ∅) (revision_step devices serverCursor collectionGeneration);
  (if String.eqb (rp_record st) "" then mret () else flushFrontier st);;
  validatePersistentCollectionGenerationSequence collectionGeneration;;
  mret (rp_counters st).

(** ** Acceptance origins *)
Definition acceptance_ok (x : revision_acceptance_origins_row * option record_revisions_row) : bool :=
  match scan_uuid (ao_revision_id x.1), scan_blob 8 8 (ao_accepted_uptime_ms x.1),
        scan_uuid (ocell v_revision_id x.2), scan_blob 8 8 (ocell v_accepted_uptime_ms x.2) with
  | Some originID, Some originUptime, Some revisionID, Some uptime =>
      String.eqb revisionID originID && String.eqb uptime originUptime
  | _, _, _, _ => false
  end.
Definition validatePersistentRevisionAcceptanceOrigins : M string () :=
  rows ← query "read revision acceptance origins" (λ d,
    left_join (λ a r, cell_eqb (v_revision_id r) (ao_revision_id a))
      (order_by (λ a b, cell_oleb (ao_revision_id a) (ao_revision_id b)) (tb_revision_acceptance_origins d))
      (tb_record_revisions d));
  for_each rows (λ x, ensure (acceptance_ok x) "invalid revision acceptance origin").

(** ** Author counters *)
Record history := Mk_history { hy_author : string; hy_counter : Z; hy_collected : Z; hy_seen : gset string }.
Definition finishAuthor (devices : registry) (h : history) : M string () :=
  ensure (String.eqb (hy_author h) ""
          || (match devices !! hy_author h with Some row => vd_maxCounter row | None => 0 end =? hy_counter h))
    "device counter history is incomplete".
Definition history_step (devices : registry) (h : history) (r : record_revisions_row) : M string history :=
  '(authorID, counter, cursor) ← from_option
    (let? authorID := scan_uuid (v_author_device_id r) else None;;
     let? counter := scan_u64 (v_author_counter r) else None;;
     let? cursor := scan_u64 (v_change_cursor r) else None;;
     require int_flag (v_retained r) else None;;
     Some (authorID, counter, cursor)) "invalid revision history sequence";
  ensure (is_some (devices !! authorID)) "revision history has unknown author";;
  h ← (if String.eqb authorID (hy_author h) then mret h
       else finishAuthor devices h;; mret (Mk_history authorID 0 (hy_collected h) ({[authorID]} ∪ hy_seen h)));
  ensure (negb (counter =? 0) && negb (cursor =? 0) && negb (hy_counter h =? MaxUint64) && (counter =? hy_counter h + 1))
    "revision author counters are not contiguous";;
  mret (Mk_history (hy_author h) counter
          (if (v_retained r =? 0) && (hy_collected h <? cursor) then cursor else hy_collected h) (hy_seen h)).
(** The cursor floor of the runtime row. *)
Definition read_floor : M string Z :=
  row ← query "read cursor floor" runtime_row;
  from_option (row ← row; scan_u64 (rs_cursor_floor row)) "read cursor floor".
Definition validatePersistentHistorySequence (devices : registry) : M string () :=
  rows ← query "read revision history sequence" (λ d,
    order_by (λ a b, cells_leb [v_author_device_id a; v_author_counter a] [v_author_device_id b; v_author_counter b])
      (tb_record_revisions d));
  h ← fold_each rows (Mk_history "" 0 0 ∅) (history_step devices);
  finishAuthor devices h;;
  ensure (forallb (λ x, bool_decide (x.1 ∈ hy_seen h) || (vd_maxCounter x.2 =? 0)) (map_to_list devices))
    "device counter history is missing";;
  floor ← read_floor;
  ensure (floor =? hy_collected h) "cursor floor does not match collected history".

(** ** Heads and vector index *)
Definition head_row_ok (x : record_heads_row * option record_revisions_row) : option string :=
  let? recordID := scan_uuid (h_record_id x.1) else None;;
  let? _ := scan_uuid (h_revision_id x.1) else None;;
  let? revisionRecord := scan_uuid (ocell v_record_id x.2) else None;;
  let? r := x.2 else None;;
  require String.eqb revisionRecord recordID && (v_retained r =? 1) && (v_undominated r =? 1) else None;;
  Some recordID.
Definition head_step (acc : string * Z) (x : record_heads_row * option record_revisions_row) : M string (string * Z) :=
  let '(previousRecord, count) := acc in
  recordID ← from_option (head_row_ok x) "invalid record head";
  let count := (if String.eqb recordID previousRecord then count else 0) + 1 in
  ensure (count <=? 32) "too many record heads";;
  mret (recordID, count).
Definition missing_head (d : db) : bool :=
  existsb (λ r, (v_retained r =? 1) && (v_undominated r =? 1)
    && negb (existsb (λ h, cell_eqb (h_record_id h) (v_record_id r) && cell_eqb (h_revision_id h) (v_revision_id r))
               (tb_record_heads d))) (tb_record_revisions d).
Definition validatePersistentRecordHeads : M string () :=
  rows ← query "read record heads" (λ d,
    left_join (λ h r, cell_eqb (v_revision_id r) (h_revision_id h))
      (order_by (λ a b, cells_leb [h_record_id a; h_revision_id a] [h_record_id b; h_revision_id b]) (tb_record_heads d))
      (tb_record_revisions d));
  _ ← fold_each rows ("", 0) head_step;
  missing ← query "record head index is incomplete" missing_head;
  ensure (negb missing) "record head index is incomplete".

Definition vector_row_ok (x : record_vector_index_row * option record_revisions_row) : option (string * string * string) :=
  let? recordID := scan_uuid (vi_record_id x.1) else None;;
  let? vectorHash := scan_blob 32 32 (vi_vector_hash x.1) else None;;
  let? _ := scan_uuid (vi_revision_id x.1) else None;;
  let? revisionRecord := scan_uuid (ocell v_record_id x.2) else None;;
  require String.eqb revisionRecord recordID else None;;
  let? vectorBody := scan_body maxVectorBytes (ocell v_vector_json x.2) else None;;
  Some (recordID, vectorHash, vectorBody).
Definition vector_step (previous : option (string * string)) (x : record_vector_index_row * option record_revisions_row)
    : M string (option (string * string)) :=
  '(recordID, vectorHash, vectorBody) ← from_option (vector_row_ok x) "invalid record vector index";
  ensure (String.eqb (Sum256 vectorBody) vectorHash) "record vector index hash mismatch";;
  ensure (negb (bool_decide (previous = Some (recordID, vectorHash)))) "duplicate record vector index";;
  mret (Some (recordID, vectorHash)).
(** EXCEPT treats NULLs as equal; identifiers are NOT NULL. *)
Definition missing_vector (d : db) : bool :=
  existsb (λ r, negb (existsb (λ i, bool_decide (vi_record_id i = v_record_id r) && bool_decide (vi_revision_id i = v_revision_id r))
    (tb_record_vector_index d))) (tb_record_revisions d).
Definition validatePersistentRecordVectorIndex : M string () :=
  rows ← query "read record vector index" (λ d,
    left_join (λ i r, cell_eqb (v_revision_id r) (vi_revision_id i))
      (order_by (λ a b, cells_leb [vi_record_id a; vi_vector_hash a; vi_revision_id a]
                                  [vi_record_id b; vi_vector_hash b; vi_revision_id b]) (tb_record_vector_index d))
      (tb_record_revisions d));
  _ ← fold_each rows None vector_step;
  missing ← query "record vector index is incomplete" missing_vector;
  ensure (negb missing) "record vector index is incomplete".

(** ** Collection queues *)

(** max(change_cursor) of a record, NULL when it has no revision. *)
Definition max_cell (l : list cell) : cell :=
  foldr (λ c best, match best with CNull => c | _ => if cell_ltb best c then c else best end) CNull l.
Definition record_maximum (d : db) (recordID : cell) : option cell :=
  match select (λ r, cell_eqb (v_record_id r) recordID) (tb_record_revisions d) with
  | [] => None
  | rows => Some (max_cell (map v_change_cursor rows))
  end.
Definition queue_row_ok (serverCursor : Z) (x : collection_records_row * option cell) : M string () :=
  '(barrier, maximum) ← from_option
    (let? _ := scan_uuid (cr_record_id x.1) else None;;
     let? barrier := scan_u64 (cr_barrier_cursor x.1) else None;;
     let? maximum := x.2 else None;;
     let? maximum := scan_u64 maximum else None;;
     Some (barrier, maximum)) "invalid collection record queue";
  ensure ((barrier =? maximum) && negb (barrier =? 0) && (barrier <=? serverCursor)) "invalid collection record barrier".
Definition unqueued_record (d : db) : bool :=
  existsb (λ r, (v_retained r =? 1)
    && negb (existsb (λ q, bool_decide (cr_record_id q = v_record_id r)) (tb_collection_records d))) (tb_record_revisions d).
Definition empty_queue (d : db) : bool :=
  existsb (λ q, negb (existsb (λ r, cell_eqb (v_record_id r) (cr_record_id q) && (v_retained r =? 1)) (tb_record_revisions d)))
    (tb_collection_records d).

Record candidate_join := Mk_candidate_join {
  cj_q : collection_candidates_row; cj_r : option record_revisions_row; cj_a : option revision_acceptance_origins_row }.
Definition candidate_joins (d : db) : list candidate_join :=
  flat_map (λ q,
    flat_map (λ r, map (λ a, Mk_candidate_join q r a)
      (matches (λ a, cell_eqb (ao_revision_id a) (cc_revision_id q)) (tb_revision_acceptance_origins d)))
      (matches (λ r, cell_eqb (v_revision_id r) (cc_revision_id q)) (tb_record_revisions d)))
    (order_by (λ a b, cells_leb [cc_record_id a; cc_accepted_uptime_ms a; cc_revision_id a]
                                [cc_record_id b; cc_accepted_uptime_ms b; cc_revision_id b]) (tb_collection_candidates d)).
Definition queued_candidate_ok (j : candidate_join) : bool :=
  match scan_uuid (cc_record_id (cj_q j)), scan_blob 8 8 (cc_accepted_uptime_ms (cj_q j)), scan_uuid (cc_revision_id (cj_q j)),
        scan_uuid (ocell v_record_id (cj_r j)), scan_blob 8 8 (ocell v_accepted_uptime_ms (cj_r j)),
        v_retained <$> cj_r j, scan_blob 8 8 (ocell ao_accepted_uptime_ms (cj_a j)) with
  | Some recordID, Some uptime, Some _, Some revisionRecord, Some revisionUptime, Some retained, Some originUptime =>
      String.eqb revisionRecord recordID && String.eqb uptime revisionUptime && (retained =? 1)
      && String.eqb revisionUptime originUptime
  | _, _, _, _, _, _, _ => false
  end.
Definition missing_candidate (d : db) : bool :=
  existsb (λ r, (v_retained r =? 1)
    && negb (existsb (λ q, cell_eqb (cc_revision_id q) (v_revision_id r) && cell_eqb (cc_record_id q) (v_record_id r)
                           && cell_eqb (cc_accepted_uptime_ms q) (v_accepted_uptime_ms r)) (tb_collection_candidates d)))
    (tb_record_revisions d).
Definition validatePersistentCollectionQueues (serverCursor : Z) : M string () :=
  rows ← query "read collection record queue" (λ d,
    map (λ q, (q, record_maximum d (cr_record_id q)))
      (order_by (λ a b, cell_oleb (cr_record_id a) (cr_record_id b)) (tb_collection_records d)));
  for_each rows (queue_row_ok serverCursor);;
  unqueued ← query "collection record queue is incomplete" unqueued_record;
  ensure (negb unqueued) "collection record queue is incomplete";;
  empty ← query "collection record queue has empty records" empty_queue;
  ensure (negb empty) "collection record queue has empty records";;
  candidates ← query "read collection candidate queue" candidate_joins;
  for_each candidates (λ j, ensure (queued_candidate_ok j) "invalid collection candidate queue");;
  missing ← query "collection candidate queue is incomplete" missing_candidate;
  ensure (negb missing) "collection candidate queue is incomplete".

(** ** Object references *)
Definition orphan_object (d : db) : bool :=
  existsb (λ o,
    negb (existsb (λ r, (v_retained r =? 1) && cell_eqb (v_content_hash r) (ro_content_hash o)) (tb_record_revisions d)
          || existsb (λ f, cell_eqb (rf_content_hash f) (ro_content_hash o)) (tb_snapshot_revision_refs d)))
    (tb_revision_objects d).
Definition validatePersistentObjectReferences : M string () :=
  orphan ← query "orphan revision object" orphan_object;
  ensure (negb orphan) "orphan revision object".

(** ** None of this writes *)
Lemma reads_of_res {A} (r : res string A) : Pres same_state (of_res r).
Proof. unfold of_res. reads. Qed.
#[export] Hint Resolve reads_of_res : reads.
Lemma reads_flushFrontier st : Pres same_state (flushFrontier st).
Proof. unfold flushFrontier. reads. Qed.
Lemma reads_referenced_object s e o : Pres same_state (referenced_object_ok s e o).
Proof. unfold referenced_object_ok. reads. Qed.
Lemma reads_finishAuthor d h : Pres same_state (finishAuthor d h).
Proof. unfold finishAuthor. reads. Qed.
Lemma reads_read_floor : Pres same_state read_floor.
Proof. unfold read_floor. reads. Qed.
#[export] Hint Resolve reads_flushFrontier reads_referenced_object reads_finishAuthor reads_read_floor : reads.
Lemma reads_revision_step d n g st j : Pres same_state (revision_step d n g st j).
Proof. unfold revision_step. reads. Qed.
Lemma reads_history_step d h r : Pres same_state (history_step d h r).
Proof. unfold history_step. reads. Qed.
#[export] Hint Resolve reads_revision_step reads_history_step : reads.
Lemma reads_validatePersistentRevisionObjects : Pres same_state validatePersistentRevisionObjects.
Proof. unfold validatePersistentRevisionObjects, object_ok. reads. Qed.
Lemma reads_generation_sequence g : Pres same_state (validatePersistentCollectionGenerationSequence g).
Proof. unfold validatePersistentCollectionGenerationSequence, generation_step. reads. Qed.
#[export] Hint Resolve reads_generation_sequence : reads.
Lemma reads_validatePersistentRevisions d n g : Pres same_state (validatePersistentRevisions d n g).
Proof. unfold validatePersistentRevisions. reads. Qed.
Lemma reads_acceptance_origins : Pres same_state validatePersistentRevisionAcceptanceOrigins.
Proof. unfold validatePersistentRevisionAcceptanceOrigins. reads. Qed.
Lemma reads_history_sequence d : Pres same_state (validatePersistentHistorySequence d).
Proof. unfold validatePersistentHistorySequence. reads. Qed.
Lemma reads_record_heads : Pres same_state validatePersistentRecordHeads.
Proof. unfold validatePersistentRecordHeads, head_step. reads. Qed.
Lemma reads_vector_index : Pres same_state validatePersistentRecordVectorIndex.
Proof. unfold validatePersistentRecordVectorIndex, vector_step. reads. Qed.
Lemma reads_collection_queues n : Pres same_state (validatePersistentCollectionQueues n).
Proof. unfold validatePersistentCollectionQueues, queue_row_ok. reads. Qed.
Lemma reads_object_references : Pres same_state validatePersistentObjectReferences.
Proof. unfold validatePersistentObjectReferences. reads. Qed.
#[export] Hint Resolve reads_validatePersistentRevisionObjects reads_validatePersistentRevisions reads_acceptance_origins
  reads_history_sequence reads_record_heads reads_vector_index reads_collection_queues reads_object_references : reads.
