(* ===== verification/LogState.v ===== *)
(** * Start-up validation: changes, markers, receipts and credentials

    The part of [src/runtime/internal/store/validation.go] that checks the retained
    change log, the collection markers, the operation receipts with their retention
    index, and the enrollment, rotation, self-revocation and grant rows. *)

From stdpp Require Import base list strings gmap.
From Stdlib Require Import ZArith Lia Ascii.
From S2P Require Import Prelude GoStd GoTime Uuid Auth Json Wire Api Models Sql Schema Monad Runtime.
From S2P Require Import Persist Devices Registry History.
Local Open Scope Z_scope.
Local Open Scope go_scope.

(** [length(c)] and [CASE WHEN length(c) BETWEEN 1 AND maximum THEN c END] of a nullable column. *)
Definition scan_opt_body (maximum : Z) (c : cell) : option (option string) :=
  match c with CNull => Some None | _ => Some <$> scan_body maximum c end.

(** ** Changes *)
Record change_join := Mk_change_join {
  xj_c : changes_row; xj_r : option record_revisions_row; xj_p : option change_origins_row;
  xj_m : option collection_markers_row }.
Definition change_joins (d : db) : list change_join :=
  flat_map (λ c,
    flat_map (λ r, flat_map (λ p, map (λ m, Mk_change_join c r p m)
      (matches (λ m, cell_eqb (mk_record_id m) (ch_collection_marker_record_id c)) (tb_collection_markers d)))
      (matches (λ p, cell_eqb (co_cursor p) (ch_cursor c)) (tb_change_origins d)))
      (matches (λ r, cell_eqb (v_revision_id r) (ch_record_revision_id c)) (tb_record_revisions d)))
    (order_by (λ a b, cell_oleb (ch_cursor a) (ch_cursor b)) (tb_changes d)).

Record change_scan := Mk_change_scan {
  xs_cursor : Z; xs_kind : option string; xs_revisionID : option string; xs_markerID : option string;
  xs_markerBody : option string; xs_deviceID : option string; xs_deviceKind : option string;
  xs_originKind : option string; xs_markerCursor : option string; xs_markerBodyState : Z }.
(** The last CASE of the query. *)
Definition marker_body_state (c : changes_row) (m : option collection_markers_row) : Z :=
  match m with
  | None => 0
  | Some m =>
      if cell_eqb (mk_change_cursor m) (ch_cursor c) then
        (if is_blob (mk_marker_json m) && is_some (scan_body maxBodyBytes (mk_marker_json m))
            && cell_eqb (mk_marker_json m) (ch_collection_marker_json c) then 1 else -1)
      else 0
  end.
Definition scan_change (j : change_join) : option change_scan :=
  let c := xj_c j in
  let? cursor := scan_u64 (ch_cursor c) else None;;
  let? revisionID := scan_opt_text 36 36 (ch_record_revision_id c) else None;;
  let? markerID := scan_opt_text 36 36 (ch_collection_marker_record_id c) else None;;
  let? markerBody := scan_opt_body maxBodyBytes (ch_collection_marker_json c) else None;;
  let? deviceID := scan_opt_text 36 36 (ch_device_changed_id c) else None;;
  let? deviceKind := opt_text_of_kind (ch_device_change_kind c) ["enrolled"; "revoked"] else None;;
  let? markerCursor := scan_opt_blob 8 8 (ocell mk_change_cursor (xj_m j)) else None;;
  Some (Mk_change_scan cursor (text_of_kind (ch_kind c) change_kinds) revisionID markerID markerBody deviceID deviceKind
          (text_of_kind (ocell co_kind (xj_p j)) change_kinds) markerCursor (marker_body_state c (xj_m j))).

Record log_state := Mk_log { lg_previous : Z; lg_retained : Z; lg_enrolled : gset string; lg_revoked : gset string }.
Definition no_device_columns (s : change_scan) : bool := negb (is_some (xs_deviceID s)) && negb (is_some (xs_deviceKind s)).
Definition no_marker_columns (s : change_scan) : bool := negb (is_some (xs_markerID s)) && negb (is_some (xs_markerBody s)).
Definition revision_change_ok (s : change_scan) : bool :=
  match xs_revisionID s with Some id => no_marker_columns s && no_device_columns s && validateUUID id | None => false end.
Definition marker_change_ok (s : change_scan) : bool :=
  match xs_markerID s, decodeStoredCollectionMarker (opt_bytes (xs_markerBody s)), xs_markerCursor s with
  | Some markerID, Some marker, Some cursorBytes =>
      match DecodeUint64 cursorBytes with
      | None => false
      | Some current =>
          negb (is_some (xs_revisionID s)) && no_device_columns s && String.eqb (cm_RecordID marker) markerID
          && negb (current <? xs_cursor s)
          && (xs_markerBodyState s =? (if current =? xs_cursor s then 1 else 0))
      end
  | _, _, _ => false
  end.
Definition device_change (devices : registry) (receivedAt : Z) (s : change_scan) (st : log_state) : M string log_state :=
  '(id, kind, device) ← from_option
    (let? id := xs_deviceID s else None;;
     let? kind := xs_deviceKind s else None;;
     let? device := devices !! id else None;;
     require negb (is_some (xs_revisionID s)) && no_marker_columns s && validateUUID id else None;;
     Some (id, kind, device)) "invalid device change";
  if String.eqb kind "enrolled" then
    ensure ((xs_cursor s =? vd_createdCursor device) && (receivedAt =? vd_createdAt device))
      "device enrollment history mismatch";;
    ensure (negb (bool_decide (id ∈ lg_enrolled st))) "duplicate device enrollment change";;
    mret (Mk_log (lg_previous st) (lg_retained st) ({[id]} ∪ lg_enrolled st) (lg_revoked st))
  else if String.eqb kind "revoked" then
    ensure (vd_revoked device && (receivedAt =? vd_revokedAt device) && negb (xs_cursor s <=? vd_createdCursor device)
            && (vd_baselineRevoked device || (xs_cursor s =? vd_revokedCursor device)))
      "device revocation history mismatch";;
    ensure (negb (bool_decide (id ∈ lg_revoked st))) "duplicate device revocation change";;
    mret (Mk_log (lg_previous st) (lg_retained st) (lg_enrolled st) ({[id]} ∪ lg_revoked st))
  else throw "invalid device change kind".

Definition change_step (devices : registry) (serverCursor floor : Z) (st : log_state) (j : change_join) : M string log_state :=
  s ← from_option (scan_change j) "invalid change row";
  kind ← from_option (match xs_kind s, xs_originKind s with
                      | Some kind, Some origin => if String.eqb origin kind then Some kind else None
                      | _, _ => None end) "change row does not match durable origin";
  let cursor := xs_cursor s in
  let receivedAt := ch_received_at_ms (xj_c j) in
  ensure (negb (cursor =? 0) && negb (cursor <=? lg_previous st) && (cursor <=? serverCursor) && timestamp_ok receivedAt)
    "invalid change cursor";;
  ensure (negb (floor <? cursor) || (negb (lg_retained st =? MaxUint64) && (cursor =? lg_retained st + 1)))
    "retained change cursor gap";;
  let st := Mk_log (lg_previous st) (if floor <? cursor then cursor else lg_retained st) (lg_enrolled st) (lg_revoked st) in
  st ← (if String.eqb kind "record_revision" then
          ensure (revision_change_ok s) "invalid revision change";;
          ensure (match xj_r j with Some r => v_retained r =? 1 | None => false end) "orphan revision change";;
          mret st
        else if String.eqb kind "collection_marker" then
          ensure (is_some (xj_m j) && marker_change_ok s) "invalid marker change";;
          mret st
        else if String.eqb kind "envelope_changed" then
          ensure (negb (is_some (xs_revisionID s)) && no_marker_columns s && no_device_columns s) "invalid metadata change";;
          mret st
        else if String.eqb kind "device_changed" then device_change devices receivedAt s st
        else throw "invalid change kind");
  mret (Mk_log cursor (lg_retained st) (lg_enrolled st) (lg_revoked st)).

Definition validatePersistentChanges (devices : registry) (serverCursor : Z) : M string () :=
  floor ← read_floor;
  ensure (floor <=? serverCursor) "invalid cursor floor";;
  rows ← query "read change rows" change_joins;
  st ← fold_each rows (Mk_log 0 floor ∅ ∅) (change_step devices serverCursor floor);
  ensure (lg_retained st =? serverCursor) "retained change cursor gap";;
  ensure (forallb (λ x, Bool.eqb (bool_decide (x.1 ∈ lg_enrolled st)) (negb (vd_createdCursor x.2 =? 0))) (map_to_list devices))
    "device enrollment change mismatch";;
  ensure (forallb (λ x, Bool.eqb (bool_decide (x.1 ∈ lg_revoked st)) (vd_revoked x.2 && negb (vd_baselineRevoked x.2)))
            (map_to_list devices)) "device revocation change mismatch".

(** ** Markers *)
Record marker_join := Mk_marker_join {
  mj_m : collection_markers_row; mj_r : option record_revisions_row; mj_c : option changes_row }.
Definition marker_joins (d : db) : list marker_join :=
  flat_map (λ m,
    flat_map (λ r, map (λ c, Mk_marker_join m r c)
      (matches (λ c, cell_eqb (ch_cursor c) (mk_change_cursor m)) (tb_changes d)))
      (matches (λ r, cell_eqb (v_revision_id r) (mk_witness_revision_id m)) (tb_record_revisions d)))
    (order_by (λ a b, cell_oleb (mk_record_id a) (mk_record_id b)) (tb_collection_markers d)).
Record marker_scan := Mk_marker_scan {
  ms_recordID : string; ms_witnessID : string; ms_frontier : string; ms_authenticator : string; ms_barrier : Z;
  ms_body : string; ms_change : Z; ms_witnessRecord : string; ms_witnessVector : option string;
  ms_witnessAuthenticator : option string; ms_changeRecord : option string; ms_changeBody : option string }.
Definition scan_marker (j : marker_join) : option marker_scan :=
  let m := mj_m j in
  let? recordID := scan_uuid (mk_record_id m) else None;;
  let? witnessID := scan_uuid (mk_witness_revision_id m) else None;;
  let? witnessRecord := scan_uuid (ocell v_record_id (mj_r j)) else None;;
  let? frontier := scan_body maxVectorBytes (mk_frontier_json m) else None;;
  let? authenticator := scan_blob 32 32 (mk_collection_witness_authenticator m) else None;;
  let? barrier := scan_u64 (mk_barrier_cursor m) else None;;
  let? changeCursor := scan_u64 (mk_change_cursor m) else None;;
  let? body := scan_body maxBodyBytes (mk_marker_json m) else None;;
  let? witnessVector := scan_opt_body maxVectorBytes (ocell v_vector_json (mj_r j)) else None;;
  let? witnessAuthenticator := scan_opt_blob 32 32 (ocell v_collection_witness_authenticator (mj_r j)) else None;;
  let? changeRecord := scan_opt_text 36 36 (ocell ch_collection_marker_record_id (mj_c j)) else None;;
  let? changeBody := scan_opt_blob 1 maxBodyBytes (ocell ch_collection_marker_json (mj_c j)) else None;;
  Some (Mk_marker_scan recordID witnessID frontier authenticator barrier body changeCursor witnessRecord witnessVector
          witnessAuthenticator changeRecord changeBody).
Definition marker_consistent (serverCursor receivedAt : Z) (kind : cell) (s : marker_scan) : option collectionMarker :=
  let? marker := decodeStoredCollectionMarker (ms_body s) else None;;
  let? authenticator := decodeBase64 (cm_CollectionWitnessAuthenticator marker) 32 0 0 else None;;
  require String.eqb (cm_RecordID marker) (ms_recordID s) && String.eqb (cm_WitnessRevisionID marker) (ms_witnessID s)
          && String.eqb (marshalJSON (cm_Frontier marker)) (ms_frontier s) && String.eqb authenticator (ms_authenticator s)
          && String.eqb (cm_BarrierCursor marker) (encodeUint64Text (ms_barrier s))
          && negb (ms_change s <=? ms_barrier s) && (ms_change s <=? serverCursor) && timestamp_ok receivedAt
          && String.eqb (ms_witnessRecord s) (ms_recordID s) && String.eqb (opt_bytes (ms_witnessVector s)) (ms_frontier s)
          && String.eqb (opt_bytes (ms_witnessAuthenticator s)) (ms_authenticator s)
          && cell_eqb kind (CText "collection_marker") && opt_eqb (ms_changeRecord s) (Some (ms_recordID s))
          && String.eqb (opt_bytes (ms_changeBody s)) (ms_body s) else None;;
  Some marker.
Definition marker_row_ok (devices : registry) (serverCursor : Z) (j : marker_join) : M string () :=
  s ← from_option (scan_marker j) "invalid marker row";
  marker ← from_option (marker_consistent serverCursor (mk_received_at_ms (mj_m j)) (ocell ch_kind (mj_c j)) s)
    "inconsistent marker row";
  let frontier := match validateCollectionMarker marker with Some (frontier, _, _) => frontier | None => ∅ end in
  ensure (forallb (λ e, match devices !! e.1 with Some row => e.2 <=? vd_maxCounter row | None => false end)
            (map_to_list frontier)) "marker frontier exceeds device registry".
Definition validatePersistentMarkers (devices : registry) (serverCursor : Z) : M string () :=
  rows ← query "read marker rows" marker_joins;
  for_each rows (marker_row_ok devices serverCursor).

(** ** Operation receipts *)
Definition deviceExists (devices : registry) (deviceID : string) : bool := is_some (devices !! deviceID).
Definition receipt_row_ok (identity : Identity) (devices : registry) (r : operation_receipts_row) : M string () :=
  uptime ← from_option
    (let? deviceID := scan_uuid (op_device_id r) else None;;
     let? _ := scan_uuid (op_request_id r) else None;;
     let? _ := scan_blob 32 32 (op_request_fingerprint r) else None;;
     require deviceExists devices deviceID else None;;
     let? operation := scan_text 1 maxOperationBytes (op_operation r) else None;;
     let? body := scan_body maxBodyBytes (op_response_json r) else None;;
     let? uptime := scan_blob 8 8 (op_created_uptime_ms r) else None;;
     require timestamp_ok (op_created_at_ms r)
             && validateStoredOperationResponse operation (op_response_status r) body identity else None;;
     Some uptime) "invalid operation receipt";
  ensure (is_some (DecodeUint64 uptime)) "invalid operation receipt uptime".
Definition validatePersistentReceipts (identity : Identity) (devices : registry) : M string () :=
  rows ← query "read operation receipts" (λ d,
    order_by (λ a b, op_receipt_sequence a <=? op_receipt_sequence b) (tb_operation_receipts d));
  for_each rows (receipt_row_ok identity devices).

Definition retention_row_ok (x : operation_receipt_retention_row * option operation_receipts_row) : bool :=
  match scan_uuid (rt_device_id x.1), text_of_kind (rt_receipt_class x.1) ["sync"; "other"],
        scan_blob 8 8 (rt_created_uptime_ms x.1), scan_uuid (ocell op_device_id x.2),
        scan_text 1 maxOperationBytes (ocell op_operation x.2), scan_blob 8 8 (ocell op_created_uptime_ms x.2) with
  | Some deviceID, Some class, Some uptime, Some receiptDevice, Some operation, Some receiptUptime =>
      (0 <? rt_receipt_sequence x.1) && String.eqb receiptDevice deviceID && String.eqb uptime receiptUptime
      && Bool.eqb (String.eqb class "sync") (String.eqb operation "sync")
  | _, _, _, _, _, _ => false
  end.
Definition unindexed_receipt (d : db) : bool :=
  existsb (λ r, negb (existsb (λ q, rt_receipt_sequence q =? op_receipt_sequence r) (tb_operation_receipt_retention d)))
    (tb_operation_receipts d).
Definition retention_leb (a b : operation_receipt_retention_row) : bool :=
  if bool_decide (rt_device_id a = rt_device_id b ∧ rt_receipt_class a = rt_receipt_class b)
  then rt_receipt_sequence a <=? rt_receipt_sequence b
  else cells_leb [rt_device_id a; rt_receipt_class a] [rt_device_id b; rt_receipt_class b].
Definition validatePersistentReceiptRetention : M string () :=
  rows ← query "read operation receipt retention" (λ d,
    left_join (λ q r, op_receipt_sequence r =? rt_receipt_sequence q)
      (order_by retention_leb (tb_operation_receipt_retention d)) (tb_operation_receipts d));
  for_each rows (λ x, ensure (retention_row_ok x) "invalid operation receipt retention");;
  missing ← query "operation receipt retention is incomplete" unindexed_receipt;
  ensure (negb missing) "operation receipt retention is incomplete".

(** ** Enrollments, rotations, self-revocations, grants *)
Definition enrollment_step (identity : Identity) (devices : registry) (enrolled : gset string) (r : enrollments_row)
    : M string (gset string) :=
  '(deviceID, createdCursor) ← from_option
    (let? _ := scan_uuid (en_enrollment_id r) else None;;
     let? deviceID := scan_uuid (en_device_id r) else None;;
     let? createdCursor := scan_u64 (en_created_cursor r) else None;;
     let? _ := scan_blob 32 32 (en_token_hash r) else None;;
     let? _ := scan_blob 32 32 (en_request_fingerprint r) else None;;
     require deviceExists devices deviceID else None;;
     let? scopes := scan_text (slen wantScopes) (slen wantScopes) (en_scopes_json r) else None;;
     let? body := scan_body maxBodyBytes (en_response_json r) else None;;
     require String.eqb scopes wantScopes && (en_created_status r =? 201)
             && validateStoredEnrollmentResponse body identity deviceID else None;;
     Some (deviceID, createdCursor)) "invalid enrollment row";
  ensure (negb (createdCursor =? 0)
          && match devices !! deviceID with Some row => vd_createdCursor row =? createdCursor | None => false end)
    "invalid enrollment cursor";;
  mret ({[deviceID]} ∪ enrolled).
Definition rotation_row_ok (devices : registry) (r : token_rotations_row) : bool :=
  match scan_uuid (tk_rotation_id r), scan_uuid (tk_device_id r), scan_blob 32 32 (tk_old_token_hash r),
        scan_blob 32 32 (tk_new_token_hash r), scan_blob 32 32 (tk_request_fingerprint r),
        scan_body maxBodyBytes (tk_response_json r) with
  | Some _, Some deviceID, Some _, Some _, Some _, Some body =>
      deviceExists devices deviceID && timestamp_ok (tk_created_at_ms r)
      && match decodeStoredCanonicalAs device body with
         | Some response => validateDevice response && String.eqb (dev_DeviceID response) deviceID
         | None => false
         end
  | _, _, _, _, _, _ => false
  end.
Definition self_revocation_ok (devices : registry) (r : self_revocation_receipts_row) : M string () :=
  '(headers, headersBody) ← from_option
    (let? deviceID := scan_uuid (sf_device_id r) else None;;
     let? requestID := scan_uuid (sf_request_id r) else None;;
     let? _ := scan_blob 32 32 (sf_body_fingerprint r) else None;;
     let? _ := scan_blob 32 32 (sf_pre_revocation_token_hash r) else None;;
     require match devices !! deviceID with Some row => vd_revoked row | None => false end
             && (sf_response_status r =? 200) else None;;
     let? headersBody := scan_body maxBodyBytes (sf_response_headers_json r) else None;;
     let? body := scan_body maxBodyBytes (sf_response_json r) else None;;
     let? headers := unmarshalAs (list Header) headersBody else None;;
     require bool_decide (headers = V1ResponseHeaders requestID (slen body)) else None;;
     let? response := decodeStoredCanonicalAs device body else None;;
     require validateDevice response && String.eqb (dev_DeviceID response) deviceID
             && String.eqb (dev_Status response) "revoked" else None;;
     Some (headers, headersBody)) "invalid self-revocation receipt";
  ensure (String.eqb (marshalJSON headers) headersBody) "noncanonical self-revocation headers".
Definition validatePersistentEnrollmentsAndRotations (identity : Identity) (devices : registry) : M string () :=
  enrollments ← query "read enrollment rows" (λ d,
    order_by (λ a b, cell_oleb (en_enrollment_id a) (en_enrollment_id b)) (tb_enrollments d));
  enrolled ← fold_each enrollments ∅ (enrollment_step identity devices);
  ensure (forallb (λ x, Bool.eqb (bool_decide (x.1 ∈ enrolled)) (negb (vd_createdCursor x.2 =? 0))) (map_to_list devices))
    "device enrollment provenance mismatch";;
  rotations ← query "read rotation rows" (λ d,
    order_by (λ a b, cell_oleb (tk_rotation_id a) (tk_rotation_id b)) (tb_token_rotations d));
  for_each rotations (λ r, ensure (rotation_row_ok devices r) "invalid token rotation row");;
  self ← query "read self-revocation receipts" (λ d,
    order_by (λ a b, cell_oleb (sf_device_id a) (sf_device_id b)) (tb_self_revocation_receipts d));
  for_each self (self_revocation_ok devices).

Definition grant_row_ok (x : enrollment_grants_row * option enrollments_row) : bool :=
  match scan_blob 32 32 (eg_grant_hash x.1), scan_blob 16 16 (eg_boot_id x.1),
        scan_opt_uuid (eg_consumed_enrollment_id x.1), scan_opt_uuid (ocell en_enrollment_id x.2) with
  | Some _, Some _, Some consumed, Some matched => timestamp_ok (eg_expires_at_ms x.1) && opt_eqb consumed matched
  | _, _, _, _ => false
  end.
Definition validatePersistentEnrollmentGrants : M string () :=
  rows ← query "read enrollment grants" (λ d,
    left_join (λ g e, cell_eqb (en_enrollment_id e) (eg_consumed_enrollment_id g))
      (order_by (λ a b, cell_oleb (eg_grant_hash a) (eg_grant_hash b)) (tb_enrollment_grants d)) (tb_enrollments d));
  for_each rows (λ x, ensure (grant_row_ok x) "invalid enrollment grant").

(** ** None of this writes *)
Lemma reads_change_step d n f st j : Pres same_state (change_step d n f st j).
Proof. unfold change_step, device_change. reads. Qed.
#[export] Hint Resolve reads_change_step : reads.
Lemma reads_validatePersistentChanges d n : Pres same_state (validatePersistentChanges d n).
Proof. unfold validatePersistentChanges. reads. Qed.
Lemma reads_validatePersistentMarkers d n : Pres same_state (validatePersistentMarkers d n).
Proof. unfold validatePersistentMarkers, marker_row_ok. reads. Qed.
Lemma reads_validatePersistentReceipts i d : Pres same_state (validatePersistentReceipts i d).
Proof. unfold validatePersistentReceipts, receipt_row_ok. reads. Qed.
Lemma reads_receipt_retention : Pres same_state validatePersistentReceiptRetention.
Proof. unfold validatePersistentReceiptRetention. reads. Qed.
Lemma reads_enrollments_rotations i d : Pres same_state (validatePersistentEnrollmentsAndRotations i d).
Proof. unfold validatePersistentEnrollmentsAndRotations, enrollment_step, self_revocation_ok. reads. Qed.
Lemma reads_enrollment_grants : Pres same_state validatePersistentEnrollmentGrants.
Proof. unfold validatePersistentEnrollmentGrants. reads. Qed.
#[export] Hint Resolve reads_validatePersistentChanges reads_validatePersistentMarkers reads_validatePersistentReceipts
  reads_receipt_retention reads_enrollments_rotations reads_enrollment_grants : reads.
