(* ===== verification/Startup.v ===== *)
(** * Start-up validation: active snapshots, and the whole

    validatePersistentSnapshots of [src/runtime/internal/store/validation.go], split at
    its passes: the snapshot rows, the create responses, the pages and their bodies, the
    page chain of each snapshot, the revision references, and for each snapshot the replay
    of the record history up to its cut, which has to reproduce the references, the source
    registry and the markers. *)

From stdpp Require Import base list strings gmap.
From Stdlib Require Import ZArith Lia Ascii.
From S2P Require Import Prelude GoStd GoTime Uuid Auth Json Wire Api Models Sql Schema Monad Runtime.
From S2P Require Import Persist Devices Collection Snapshot Registry History LogState.
Local Open Scope Z_scope.
Local Open Scope go_scope.

(** A page: its token and body length, then its body with the descriptor. *)
Record validatedPage := Mk_vpage { vp_token : string; vp_length : Z; vp_content : option (string * snapshotPageDescriptor) }.
Definition empty_descriptor : snapshotPageDescriptor := Mk_snapshotPageDescriptor [] [] [] None false.
Definition vp_descriptor (p : validatedPage) : snapshotPageDescriptor := default empty_descriptor (snd <$> vp_content p).
Definition vp_body (p : validatedPage) : string := default "" (fst <$> vp_content p).
Record validatedSnapshot := Mk_vsnapshot {
  vn_owner : string; vn_request : string; vn_cut : Z; vn_envelope : Z; vn_collection : Z; vn_expires : Z;
  vn_metadata : Z; vn_createLength : Z; vn_create : option (string * snapshotCreateResponse);
  vn_pages : list validatedPage; vn_references : list snapshotRevisionReference; vn_records : gmap string string;
  vn_sources : gmap string Z; vn_markers : gmap string string; vn_ordered : list string;
  vn_account : snapshotMetadataAccounting }.
Abbreviation snapshot_map := (gmap string validatedSnapshot).

(** ** The snapshot rows *)
Record snapshots_pass := Mk_pass {
  ps_snapshots : snapshot_map; ps_cuts : list Z; ps_owners : gset string; ps_declared : Z }.
Definition scan_snapshot (r : snapshots_row) : option (string * string * string * Z * Z * Z) :=
  let? snapshotID := scan_uuid (sn_snapshot_id r) else None;;
  let? requestID := scan_uuid (sn_request_id r) else None;;
  let? ownerID := scan_uuid (sn_owner_device_id r) else None;;
  let? _ := scan_blob 32 32 (sn_request_fingerprint r) else None;;
  let? cut := scan_u64 (sn_cut_cursor r) else None;;
  let? generation := scan_u64 (sn_envelope_generation r) else None;;
  let? collection := scan_u64 (sn_collection_generation r) else None;;
  Some (snapshotID, ownerID, requestID, cut, generation, collection).
Definition snapshot_step (devices : registry) (serverCursor collectionGeneration : Z) (st : snapshots_pass) (r : snapshots_row)
    : M string snapshots_pass :=
  let metadata := sn_metadata_bytes r in
  '(snapshotID, ownerID, requestID, cut, generation, collection) ← from_option (scan_snapshot r) "invalid snapshot row";
  owner ← from_option (devices !! ownerID) "invalid snapshot row";
  (* length() of a TEXT or BLOB that is NOT NULL *)
  createLength ← from_option (sql_length (sn_create_response_json r)) "invalid snapshot row";
  ensure ((0 <=? metadata) && (metadata <=? snapshotMetadataLimit) && (size (ps_snapshots st) <? 8)%nat) "invalid snapshot row";;
  ensure ((cut <=? serverCursor) && (collection <=? collectionGeneration)
          && negb (negb (vd_createdCursor owner =? 0) && (cut <? vd_createdCursor owner))) "inconsistent snapshot row";;
  ensure ((0 <? createLength) && (createLength <=? metadata) && (createLength <=? maxBodyBytes))
    "snapshot create response exceeds declared metadata";;
  ensure (metadata <=? snapshotMetadataLimit - ps_declared st) "active snapshot metadata exceeds limit";;
  let account := addLength64 createLength (accountSnapshotBase snapshotID ownerID requestID "" (Mk_account 0 false)) in
  ensure (account_ok account && (total account <=? metadata)) "snapshot metadata undercounts base row";;
  ensure (negb (bool_decide (ownerID ∈ ps_owners st))) "multiple active snapshots for one owner";;
  let snapshot := Mk_vsnapshot ownerID requestID cut generation collection (sn_expires_at_ms r) metadata createLength None
                    [] [] ∅ ∅ ∅ [] account in
  mret (Mk_pass (<[snapshotID := snapshot]> (ps_snapshots st)) (ps_cuts st ++ [cut]) ({[ownerID]} ∪ ps_owners st)
          (ps_declared st + metadata)).

(** ** Create responses *)
Definition create_step (identity : Identity) (snapshots : snapshot_map) (r : snapshots_row) : M string snapshot_map :=
  snapshotID ← from_option (scan_uuid (sn_snapshot_id r)) "invalid snapshot create response";
  '(snapshot, body) ← from_option
    (let? snapshot := snapshots !! snapshotID else None;;
     let? body := scan_body maxBodyBytes (sn_create_response_json r) else None;;
     require bool_decide (sql_length (sn_create_response_json r) = Some (vn_createLength snapshot)) else None;;
     Some (snapshot, body)) "snapshot create response exceeds declared metadata";
  create ← from_option
    (require validateStoredSnapshotCreateResponse body identity snapshotID (vn_owner snapshot) (vn_cut snapshot)
               (vn_envelope snapshot) (vn_expires snapshot) else None;;
     decodeStoredCanonicalAs snapshotCreateResponse body) "inconsistent snapshot row";
  mret (<[snapshotID := Mk_vsnapshot (vn_owner snapshot) (vn_request snapshot) (vn_cut snapshot) (vn_envelope snapshot)
      (vn_collection snapshot) (vn_expires snapshot) (vn_metadata snapshot) (vn_createLength snapshot) (Some (body, create))
      (vn_pages snapshot) (vn_references snapshot) (vn_records snapshot) (vn_sources snapshot) (vn_markers snapshot)
      (vn_ordered snapshot) (vn_account snapshot)]> snapshots).

(** ** Pages *)
Definition with_pages (pages : list validatedPage) (account : snapshotMetadataAccounting) (s : validatedSnapshot) : validatedSnapshot :=
  Mk_vsnapshot (vn_owner s) (vn_request s) (vn_cut s) (vn_envelope s) (vn_collection s) (vn_expires s) (vn_metadata s)
    (vn_createLength s) (vn_create s) pages (vn_references s) (vn_records s) (vn_sources s) (vn_markers s) (vn_ordered s) account.
Definition decodeBase64Token (value : string) : bool := base64_ok value 32.
Definition page_step (snapshots : snapshot_map) (r : snapshot_pages_row) : M string snapshot_map :=
  '(snapshotID, token) ← from_option
    (let? snapshotID := scan_uuid (pg_snapshot_id r) else None;;
     let? token := scan_text 43 43 (pg_page_token r) else None;;
     Some (snapshotID, token)) "invalid snapshot page";
  bodyLength ← from_option (sql_length (pg_response_json r)) "invalid snapshot page";
  snapshot ← from_option
    (let? snapshot := snapshots !! snapshotID else None;;
     require (pg_page_index r =? Z.of_nat (length (vn_pages snapshot))) && decodeBase64Token token else None;;
     Some snapshot) "invalid snapshot page";
  ensure ((0 <? bodyLength) && (bodyLength <=? vn_metadata snapshot) && (bodyLength <=? maxBodyBytes))
    "snapshot page response exceeds declared metadata";;
  let account := addLength64 bodyLength
    (accountSnapshotPage snapshotID (Z.of_nat (length (vn_pages snapshot))) token "" (vn_account snapshot)) in
  ensure (account_ok account && (total account <=? vn_metadata snapshot)) "snapshot pages exceed declared metadata";;
  mret (<[snapshotID := with_pages (vn_pages snapshot ++ [Mk_vpage token bodyLength None]) account snapshot]> snapshots).
Definition page_body_step (acc : snapshot_map * nat) (r : snapshot_pages_row) : M string (snapshot_map * nat) :=
  let '(snapshots, count) := acc in
  let index := pg_page_index r in
  snapshotID ← from_option (scan_uuid (pg_snapshot_id r)) "invalid snapshot page response";
  '(snapshot, page, body) ← from_option
    (let? snapshot := snapshots !! snapshotID else None;;
     require (0 <=? index) else None;;
     let? page := vn_pages snapshot !! Z.to_nat index else None;;
     let? body := scan_body maxBodyBytes (pg_response_json r) else None;;
     require bool_decide (sql_length (pg_response_json r) = Some (vp_length page)) else None;;
     Some (snapshot, page, body)) "snapshot page response exceeds declared metadata";
  descriptor ← from_option (decodeStoredSnapshotPageDescriptor body) "invalid snapshot page";
  let pages := <[Z.to_nat index := Mk_vpage (vp_token page) (vp_length page) (Some (body, descriptor))]> (vn_pages snapshot) in
  mret (<[snapshotID := with_pages pages (vn_account snapshot) snapshot]> snapshots, S count).
Definition pages_leb (a b : snapshot_pages_row) : bool :=
  if bool_decide (pg_snapshot_id a = pg_snapshot_id b) then pg_page_index a <=? pg_page_index b
  else cell_oleb (pg_snapshot_id a) (pg_snapshot_id b).
Definition ordered_pages (d : db) : list snapshot_pages_row := order_by pages_leb (tb_snapshot_pages d).

(** ** The page chain of one snapshot *)
Fixpoint chain_ok (pages : list validatedPage) : res string unit :=
  match pages with
  | [] => Ok tt
  | [last] =>
      if pd_HasMore (vp_descriptor last) || is_some (pd_NextPageToken (vp_descriptor last))
      then Err "snapshot final page is not terminal" else Ok tt
  | page :: (next :: _) as rest =>
      if pd_HasMore (vp_descriptor page) && opt_eqb (pd_NextPageToken (vp_descriptor page)) (Some (vp_token next))
      then chain_ok rest else Err "snapshot page token chain is broken"
  end.
Definition source_step (sources : gmap string Z) (source : sourceDevice) : M string (gmap string Z) :=
  counter ← from_option (parseUint64 (sd_MaxAuthorCounter source)) "invalid snapshot source counter";
  ensure (negb (is_some (sources !! sd_DeviceID source))) "duplicate snapshot source device";;
  mret (<[sd_DeviceID source := counter]> sources).
Definition page_phase (d : snapshotPageDescriptor) : Z :=
  match pd_RevisionIDs d, pd_CollectionMarkers d, pd_SourceDevices d with
  | _ :: _, _, _ => 0 | [], _ :: _, _ => 1 | [], [], _ :: _ => 2 | [], [], [] => 3
  end.
Record walk := Mk_walk {
  wk_phase : Z; wk_marker : string; wk_source : string; wk_ordered : list string; wk_markers : gmap string string }.
Definition walk_marker (cut : Z) (sources : gmap string Z) (w : walk) (marker : collectionMarker) : M string walk :=
  ensure (String.eqb (wk_marker w) "" || sltb (wk_marker w) (cm_RecordID marker)) "snapshot markers are not globally ordered";;
  let '(frontier, barrier) := match validateCollectionMarker marker with
                              | Some (frontier, barrier, _) => (frontier, barrier) | None => (∅, 0) end in
  ensure (barrier <=? cut) "snapshot marker barrier exceeds cut";;
  ensure (forallb (λ e, match sources !! e.1 with Some maximum => e.2 <=? maximum | None => false end) (map_to_list frontier))
    "snapshot marker exceeds source registry";;
  mret (Mk_walk (wk_phase w) (cm_RecordID marker) (wk_source w) (wk_ordered w)
          (<[cm_RecordID marker := marshalJSON marker]> (wk_markers w))).
Definition walk_source (w : walk) (source : sourceDevice) : M string walk :=
  ensure (String.eqb (wk_source w) "" || sltb (wk_source w) (sd_DeviceID source)) "snapshot sources are not globally ordered";;
  mret (Mk_walk (wk_phase w) (wk_marker w) (sd_DeviceID source) (wk_ordered w) (wk_markers w)).
Definition walk_page (pageCount : nat) (cut : Z) (sources : gmap string Z) (w : walk) (page : validatedPage) : M string walk :=
  let d := vp_descriptor page in
  let phase := page_phase d in
  ensure (negb ((phase =? 3) && negb (pageCount =? 1)%nat) && negb (phase <? wk_phase w)) "invalid snapshot phase order";;
  let w := Mk_walk phase (wk_marker w) (wk_source w) (wk_ordered w ++ pd_RevisionIDs d) (wk_markers w) in
  w ← fold_each (pd_CollectionMarkers d) w (walk_marker cut sources);
  fold_each (pd_SourceDevices d) w walk_source.
Definition snapshot_chain (s : validatedSnapshot) : M string validatedSnapshot :=
  ensure (match vn_pages s, vn_create s with
          | first :: _, Some (_, create) => String.eqb (scr_FirstPageToken create) (vp_token first)
          | _, _ => false end) "snapshot has no valid first page";;
  of_res (chain_ok (vn_pages s));;
  sources ← fold_each (flat_map (λ p, pd_SourceDevices (vp_descriptor p)) (vn_pages s)) ∅ source_step;
  w ← fold_each (vn_pages s) (Mk_walk (-1) "" "" [] ∅) (walk_page (length (vn_pages s)) (vn_cut s) sources);
  mret (Mk_vsnapshot (vn_owner s) (vn_request s) (vn_cut s) (vn_envelope s) (vn_collection s) (vn_expires s) (vn_metadata s)
          (vn_createLength s) (vn_create s) (vn_pages s) (vn_references s) (vn_records s) sources (wk_markers w) (wk_ordered w)
          (vn_account s)).
(** Over all snapshots of the map. *)
Definition each_snapshot (f : validatedSnapshot → M string validatedSnapshot) (snapshots : snapshot_map) : M string snapshot_map :=
  fold_each (map_to_list snapshots) ∅ (λ acc x, s ← f x.2; mret (<[x.1 := s]> acc)).

(** ** Revision references *)
Record reference_join := Mk_reference_join {
  fj_s : snapshot_revision_refs_row; fj_r : option record_revisions_row; fj_o : option revision_objects_row }.
Definition reference_joins (d : db) : list reference_join :=
  flat_map (λ s,
    flat_map (λ r, map (λ o, Mk_reference_join s r o)
      (matches (λ o, cell_eqb (ro_content_hash o) (rf_content_hash s)) (tb_revision_objects d)))
      (matches (λ r, cell_eqb (v_revision_id r) (rf_revision_id s) && cell_eqb (v_content_hash r) (rf_content_hash s))
         (tb_record_revisions d)))
    (order_by (λ a b, cells_leb [rf_snapshot_id a; rf_revision_id a] [rf_snapshot_id b; rf_revision_id b])
       (tb_snapshot_revision_refs d)).
Record reference_scan := Mk_reference_scan {
  fs_snapshotID : string; fs_revisionID : string; fs_hash : string; fs_recordID : string; fs_authorID : string;
  fs_counter : Z; fs_entries : list vectorEntry; fs_collected : Z; fs_cursor : Z }.
Definition scan_snapshot_reference (collectionGeneration : Z) (j : reference_join) : option reference_scan :=
  let? snapshotID := scan_uuid (rf_snapshot_id (fj_s j)) else None;;
  let? revisionID := scan_uuid (rf_revision_id (fj_s j)) else None;;
  let? hash := scan_blob 32 32 (rf_content_hash (fj_s j)) else None;;
  let? r := fj_r j else None;;
  let? matching := scan_uuid (v_revision_id r) else None;;
  require String.eqb matching revisionID else None;;
  let? recordID := scan_uuid (v_record_id r) else None;;
  let? authorID := scan_uuid (v_author_device_id r) else None;;
  let? counter := scan_u64 (v_author_counter r) else None;;
  let? collected := scan_opt_u64 (v_collected_generation r) else None;;
  let? cursor := scan_u64 (v_change_cursor r) else None;;
  let? objectHash := scan_blob 32 32 (ocell ro_content_hash (fj_o j)) else None;;
  require int_flag (v_retained r) && Bool.eqb (v_retained r =? 0) (is_some collected)
          && match collected with None => true | Some g => negb (g =? 0) && (g <=? collectionGeneration) end else None;;
  let? vectorBody := scan_body maxVectorBytes (v_vector_json r) else None;;
  let? entries := unmarshalAs (list vectorEntry) vectorBody else None;;
  require String.eqb objectHash hash else None;;
  Some (Mk_reference_scan snapshotID revisionID hash recordID authorID counter entries (default 0 collected) cursor).
Definition reference_step (collectionGeneration : Z) (snapshots : snapshot_map) (j : reference_join) : M string snapshot_map :=
  '(f, s) ← from_option
    (let? f := scan_snapshot_reference collectionGeneration j else None;;
     let? s := snapshots !! fs_snapshotID f else None;;
     Some (f, s)) "invalid snapshot reference";
  ensure (negb (negb (fs_collected f =? 0) && (fs_collected f <=? vn_collection s)))
    "snapshot reference was collected before snapshot";;
  ensure (fs_cursor f <=? vn_cut s) "snapshot reference accepted after cut";;
  vector ← from_option
    (let? vector := validateVector (fs_entries f) else None;;
     require counter_of vector (fs_authorID f) =? fs_counter f else None;;
     Some vector) "invalid snapshot reference vector";
  ensure (forallb (λ e, match vn_sources s !! e.1 with Some maximum => e.2 <=? maximum | None => false end) (map_to_list vector))
    "snapshot revision exceeds source registry";;
  let reference := Mk_reference (fs_revisionID f) (fs_hash f) in
  let account := accountSnapshotReference (fs_snapshotID f) reference (vn_account s) in
  ensure (account_ok account && (total account <=? vn_metadata s)) "snapshot references exceed declared metadata";;
  mret (<[fs_snapshotID f := Mk_vsnapshot (vn_owner s) (vn_request s) (vn_cut s) (vn_envelope s) (vn_collection s)
      (vn_expires s) (vn_metadata s) (vn_createLength s) (vn_create s) (vn_pages s) (vn_references s ++ [reference])
      (<[fs_revisionID f := fs_recordID f]> (vn_records s)) (vn_sources s) (vn_markers s) (vn_ordered s) account]> snapshots).

(** ** The record history at the cut *)
Record cutItem := Mk_cut_item { ct_id : string; ct_vector : version_vector; ct_tombstone : bool; ct_collected : Z }.
Record cut_scan := Mk_cut_scan {
  cx_revisionID : string; cx_recordID : string; cx_authorID : string; cx_counter : Z; cx_entries : list vectorEntry;
  cx_tombstone : bool; cx_collected : Z }.
Definition scan_cut (cut : Z) (r : record_revisions_row) : option cut_scan :=
  let? revisionID := scan_uuid (v_revision_id r) else None;;
  let? recordID := scan_uuid (v_record_id r) else None;;
  let? authorID := scan_uuid (v_author_device_id r) else None;;
  let? counter := scan_u64 (v_author_counter r) else None;;
  let? vectorBody := scan_body maxVectorBytes (v_vector_json r) else None;;
  let? collected := scan_opt_u64 (v_collected_generation r) else None;;
  let? cursor := scan_u64 (v_change_cursor r) else None;;
  require int_flag (v_tombstone r) && int_flag (v_retained r) && negb (cursor =? 0) && (cursor <=? cut)
          && Bool.eqb (v_retained r =? 0) (is_some collected) else None;;
  let? entries := unmarshalAs (list vectorEntry) vectorBody else None;;
  Some (Mk_cut_scan revisionID recordID authorID counter entries (v_tombstone r =? 1) (default 0 collected)).
Definition cut_rows (cut : Z) (d : db) : list record_revisions_row :=
  order_by (λ a b, cells_leb [v_record_id a; v_change_cursor a] [v_record_id b; v_change_cursor b])
    (select (λ r, cell_leb (v_change_cursor r) (cell_u64 cut)) (tb_record_revisions d)).

Record cut_state := Mk_cut {
  cu_record : string; cu_frontier : list cutItem; cu_maxima : gmap string Z; cu_references : gmap string (gset string) }.
(** A head that is not referenced: a tombstone collected before the snapshot, whose marker the snapshot carries. *)
Definition collected_head (s : validatedSnapshot) (record : string) (item : cutItem) : bool :=
  ct_tombstone item && negb (ct_collected item =? 0) && (ct_collected item <=? vn_collection s)
  && match vn_markers s !! record with
     | None => false
     | Some body =>
         match decodeStoredCollectionMarker body with
         | None => false
         | Some marker =>
             String.eqb (cm_WitnessRevisionID marker) (ct_id item)
             && match validateCollectionMarker marker with
                | Some (frontier, _, _) => vectorsEqual frontier (ct_vector item)
                | None => false
                end
         end
     end.
Definition flush_cut (s : validatedSnapshot) (st : cut_state) : M string (gmap string (gset string)) :=
  if String.eqb (cu_record st) "" then mret (cu_references st)
  else
    let references := default ∅ (cu_references st !! cu_record st) in
    ensure (forallb (λ id, existsb (λ item, String.eqb (ct_id item) id) (cu_frontier st)) (elements references))
      "snapshot reference was dominated at cut";;
    ensure (forallb (λ item, bool_decide (ct_id item ∈ references) || collected_head s (cu_record st) item) (cu_frontier st))
      "snapshot frontier head is missing at cut";;
    mret (delete (cu_record st) (cu_references st)).
Definition advance_cut (frontier : list cutItem) (item : cutItem) : res string (list cutItem) :=
  if existsb (λ e, vectorsEqual (ct_vector e) (ct_vector item)) frontier
    then Err "equal-vector revision equivocation at snapshot cut"
  else
    let next := List.filter (λ e, negb (vectorDominates (ct_vector item) (ct_vector e))) frontier in
    if existsb (λ e, vectorDominates (ct_vector e) (ct_vector item)) frontier then Ok next
    else
      let next := next ++ [item] in
      if (32 <? length next)%nat then Err "snapshot cut has too many undominated revisions" else Ok next.
Definition cut_step (devices : registry) (s : validatedSnapshot) (st : cut_state) (r : record_revisions_row) : M string cut_state :=
  x ← from_option (scan_cut (vn_cut s) r) "invalid snapshot cut revision";
  vector ← from_option
    (let? vector := validateVector (cx_entries x) else None;;
     require is_some (devices !! cx_authorID x) && (counter_of vector (cx_authorID x) =? cx_counter x) else None;;
     Some vector) "invalid snapshot cut revision vector";
  st ← (if String.eqb (cu_record st) (cx_recordID x) then mret st
        else references ← flush_cut s st; mret (Mk_cut (cx_recordID x) [] (cu_maxima st) references));
  frontier ← of_res (advance_cut (cu_frontier st) (Mk_cut_item (cx_revisionID x) vector (cx_tombstone x) (cx_collected x)));
  let maxima := if default 0 (cu_maxima st !! cx_authorID x) <? cx_counter x
                then <[cx_authorID x := cx_counter x]> (cu_maxima st) else cu_maxima st in
  mret (Mk_cut (cu_record st) frontier maxima (cu_references st)).
Definition references_by_record (records : gmap string string) : gmap string (gset string) :=
  foldr (λ x acc, <[x.2 := {[x.1]} ∪ default ∅ (acc !! x.2)]> acc) ∅ (map_to_list records).
(** The devices that existed at the cut, with the counters of the replay. *)
Definition sources_match (devices : registry) (s : validatedSnapshot) (maxima : gmap string Z) : bool :=
  let expected := List.filter (λ x, negb (negb (vd_createdCursor x.2 =? 0) && (vn_cut s <? vd_createdCursor x.2))) (map_to_list devices) in
  forallb (λ x, match vn_sources s !! x.1 with
                | Some counter => counter =? default 0 (maxima !! x.1) | None => false end) expected
  && (size (vn_sources s) =? length expected)%nat.

(** ** Markers at the cut *)
Record cut_markers := Mk_cut_markers { cm_current : string; cm_latest : string; cm_remaining : gmap string string }.
Definition flush_marker (st : cut_markers) : M string (gmap string string) :=
  if String.eqb (cm_current st) "" then mret (cm_remaining st)
  else
    ensure (opt_eqb (cm_remaining st !! cm_current st) (Some (cm_latest st))) "snapshot marker does not match cut";;
    mret (delete (cm_current st) (cm_remaining st)).
Definition cut_marker_rows (cut : Z) (d : db) : list changes_row :=
  order_by (λ a b, cells_leb [ch_collection_marker_record_id a; ch_cursor a] [ch_collection_marker_record_id b; ch_cursor b])
    (select (λ c, cell_eqb (ch_kind c) (CText "collection_marker") && cell_leb (ch_cursor c) (cell_u64 cut)) (tb_changes d)).
Definition cut_marker_step (cut : Z) (st : cut_markers) (c : changes_row) : M string cut_markers :=
  '(recordID, body) ← from_option
    (let? recordID := scan_uuid (ch_collection_marker_record_id c) else None;;
     let? cursor := scan_u64 (ch_cursor c) else None;;
     let? body := scan_body maxBodyBytes (ch_collection_marker_json c) else None;;
     let? marker := decodeStoredCollectionMarker body else None;;
     require negb (cursor =? 0) && (cursor <=? cut) && String.eqb (cm_RecordID marker) recordID else None;;
     Some (recordID, body)) "invalid snapshot cut marker";
  remaining ← (if String.eqb (cm_current st) recordID then mret (cm_remaining st) else flush_marker st);
  mret (Mk_cut_markers recordID body remaining).

Definition snapshot_at_cut (devices : registry) (s : validatedSnapshot) : M string () :=
  rows ← query "read snapshot cut revisions" (cut_rows (vn_cut s));
  st ← fold_each rows (Mk_cut "" [] ∅ (references_by_record (vn_records s))) (cut_step devices s);
  references ← flush_cut s st;
  ensure (bool_decide (references = ∅)) "snapshot reference was not accepted at cut";;
  ensure (sources_match devices s (cu_maxima st)) "snapshot source registry does not match cut";;
  markers ← query "read snapshot cut markers" (cut_marker_rows (vn_cut s));
  st ← fold_each markers (Mk_cut_markers "" "" (vn_markers s)) (cut_marker_step (vn_cut s));
  remaining ← flush_marker st;
  ensure (bool_decide (remaining = ∅)) "snapshot marker does not match cut".

(** ** Descriptors and accounting *)
Fixpoint descriptors_ordered (records : gmap string string) (previous : option (string * string)) (seen : list string)
    (ids : list string) : res string nat :=
  match ids with
  | [] => Ok (length seen)
  | id :: rest =>
      match records !! id with
      | None => Err "snapshot descriptor has no reference"
      | Some recordID =>
          if bool_decide (id ∈ seen)
             || match previous with
                | None => false
                | Some (previousRecord, previousID) =>
                    sltb recordID previousRecord || (String.eqb recordID previousRecord && sleb id previousID)
                end
          then Err "snapshot revisions are not globally ordered"
          else descriptors_ordered records (Some (recordID, id)) (id :: seen) rest
      end
  end.
Definition snapshot_accounted (total : Z) (x : string * validatedSnapshot) : M string Z :=
  let s := x.2 in
  seen ← of_res (descriptors_ordered (vn_records s) None [] (vn_ordered s));
  ensure (seen =? length (vn_references s))%nat "snapshot references do not match descriptors";;
  let pages := map (λ p, Mk_page (vp_token p) (vp_descriptor p) (vp_body p)) (vn_pages s) in
  let '(metadata, ok) := snapshotMetadataBytes x.1 (vn_owner s) (vn_request s) (default "" (fst <$> vn_create s)) pages (vn_references s) in
  ensure (ok && (metadata =? vn_metadata s) && (metadata <=? snapshotMetadataLimit) && (metadata <=? MaxInt64 - total))
    "snapshot metadata accounting mismatch";;
  mret (total + metadata).

Definition validatePersistentSnapshots (identity : Identity) (devices : registry)
    (serverCursor envelopeGeneration collectionGeneration : Z) : M string () :=
  let by_id d := order_by (λ a b, cell_oleb (sn_snapshot_id a) (sn_snapshot_id b)) (tb_snapshots d) in
  rows ← query "read snapshots" by_id;
  pass ← fold_each rows (Mk_pass ∅ [] ∅ 0) (snapshot_step devices serverCursor collectionGeneration);
  let snapshots := ps_snapshots pass in
  generationsAtCut ← validatePersistentChangeOrigins serverCursor envelopeGeneration (ps_cuts pass);
  ensure (forallb (λ x, vn_envelope x.2 =? default 0 (generationsAtCut !! vn_cut x.2)) (map_to_list snapshots))
    "snapshot envelope generation does not match cut";;
  creates ← query "read snapshot create responses" by_id;
  snapshots ← fold_each creates snapshots (create_step identity);
  ensure (length creates =? size snapshots)%nat "read snapshot create responses";;
  pages ← query "read snapshot pages" ordered_pages;
  snapshots ← fold_each pages snapshots page_step;
  bodies ← query "read snapshot page responses" ordered_pages;
  '(snapshots, bodyCount) ← fold_each bodies (snapshots, O) page_body_step;
  ensure (bodyCount =? length (flat_map (λ x, vn_pages x.2) (map_to_list snapshots)))%nat "snapshot page response count mismatch";;
  snapshots ← each_snapshot snapshot_chain snapshots;
  references ← query "read snapshot refs" reference_joins;
  snapshots ← fold_each references snapshots (reference_step collectionGeneration);
  for_each (map_to_list snapshots) (λ x, snapshot_at_cut devices x.2);;
  totalMetadata ← fold_each (map_to_list snapshots) 0 snapshot_accounted;
  ensure (totalMetadata <=? snapshotMetadataLimit) "active snapshot metadata exceeds limit".

(** ** None of this writes *)
Lemma reads_flush_cut s st : Pres same_state (flush_cut s st).
Proof. unfold flush_cut. reads. Qed.
Lemma reads_flush_marker st : Pres same_state (flush_marker st).
Proof. unfold flush_marker. reads. Qed.
#[export] Hint Resolve reads_flush_cut reads_flush_marker : reads.
Lemma reads_snapshot_step d n g st r : Pres same_state (snapshot_step d n g st r).
Proof. unfold snapshot_step. reads. Qed.
Lemma reads_create_step i m r : Pres same_state (create_step i m r).
Proof. unfold create_step. reads. Qed.
Lemma reads_page_step m r : Pres same_state (page_step m r).
Proof. unfold page_step. reads. Qed.
Lemma reads_page_body_step m r : Pres same_state (page_body_step m r).
Proof. unfold page_body_step. reads. Qed.
Lemma reads_snapshot_chain s : Pres same_state (snapshot_chain s).
Proof. unfold snapshot_chain, walk_page, walk_marker, walk_source, source_step. reads. Qed.
#[export] Hint Resolve reads_snapshot_step reads_create_step reads_page_step reads_page_body_step reads_snapshot_chain : reads.
Lemma reads_each_snapshot f m : (∀ s, Pres same_state (f s)) → Pres same_state (each_snapshot f m).
Proof. intros Hf. unfold each_snapshot. reads. Qed.
Lemma reads_reference_step g m j : Pres same_state (reference_step g m j).
Proof. unfold reference_step. reads. Qed.
Lemma reads_snapshot_at_cut d s : Pres same_state (snapshot_at_cut d s).
Proof. unfold snapshot_at_cut, cut_step, cut_marker_step. reads. Qed.
Lemma reads_snapshot_accounted n x : Pres same_state (snapshot_accounted n x).
Proof. unfold snapshot_accounted. reads. Qed.
Lemma reads_snapshot_chains m : Pres same_state (each_snapshot snapshot_chain m).
Proof. apply reads_each_snapshot, reads_snapshot_chain. Qed.
#[export] Hint Resolve reads_snapshot_chains reads_reference_step reads_snapshot_at_cut reads_snapshot_accounted : reads.
Lemma reads_validatePersistentSnapshots i d n e g : Pres same_state (validatePersistentSnapshots i d n e g).
Proof. unfold validatePersistentSnapshots. reads. Qed.
#[export] Hint Resolve reads_validatePersistentSnapshots : reads.

(** ** Start-up validation

    validatePersistentState of [src/runtime/internal/store/validation.go]: the checks of
    [Registry], [Persist], [History], [LogState] and the snapshots above in the order the store
    runs them before it serves requests. *)

Definition counters_match (devices : registry) (historicalCounters : gmap string Z) : bool :=
  forallb (λ x, vd_maxCounter x.2 =? default 0 (historicalCounters !! x.1)) (map_to_list devices).
Definition validatePersistentState (identity : Identity) : M string () :=
  counters ← validatePersistentRuntime;
  let serverCursor := vr_serverCursor counters in
  devices ← validatePersistentDevices serverCursor;
  validatePersistentEnvelope identity (vr_envelopeGeneration counters) (vr_secretGeneration counters);;
  validatePersistentRevisionObjects;;
  historicalCounters ← validatePersistentRevisions devices serverCursor (vr_collectionGeneration counters);
  validatePersistentRevisionAcceptanceOrigins;;
  validatePersistentHistorySequence devices;;
  ensure (counters_match devices historicalCounters) "device counter does not match accepted history";;
  validatePersistentRecordHeads;;
  validatePersistentRecordVectorIndex;;
  validatePersistentCollectionQueues serverCursor;;
  validatePersistentChanges devices serverCursor;;
  validatePersistentMarkers devices serverCursor;;
  validatePersistentReceipts identity devices;;
  validatePersistentReceiptRetention;;
  validatePersistentEnrollmentsAndRotations identity devices;;
  validatePersistentEnrollmentGrants;;
  validatePersistentSnapshots identity devices serverCursor (vr_envelopeGeneration counters) (vr_collectionGeneration counters);;
  validatePersistentObjectReferences.

Lemma reads_validatePersistentState identity : Pres same_state (validatePersistentState identity).
Proof. unfold validatePersistentState. reads. Qed.
