(* ===== verification/Samples.v ===== *)
(** * A running server, as a fixture

    One concrete history the witnesses evaluate: a fresh database with a baseline
    device, a boot, then requests through [HandleAPI] (enrollment of a second
    device, a vault envelope, a synchronized revision, a snapshot).  Every state is
    computed by the handlers of the development, once, when this file is compiled. *)

From stdpp Require Import base list strings gmap.
From Stdlib Require Import ZArith Lia Ascii.
From S2P Require Import Prelude GoStd GoTime Uuid Auth Json Wire Api Models Sql Schema Monad Runtime.
From S2P Require Import Receipts Envelope Devices Enrollment Collection Sync Snapshot.
Local Open Scope Z_scope.

Definition id_of (last : string) : string := "00000000-0000-4000-8000-00000000000" +:+ last.
Definition sample_identity : Identity := {| InstanceID := id_of "1"; VaultID := id_of "2" |}.
Definition sample_device : string := id_of "a".
Definition sample_device_2 : string := id_of "b".
Definition sample_token : string := of_bytes (repeat 5 32).
Definition sample_token_2 : string := of_bytes (repeat 6 32).
Definition bearer (token : string) : string := "Bearer " +:+ encodeBase64 token.
(** [ms] milliseconds after the boot. *)
Definition at_ms (ms : Z) : gotime := {| wall := (1700000000000 + ms) * Millisecond; mono := ms * Millisecond |}.
Definition randomness : list string :=
  map (λ i, of_bytes (repeat (Z.of_nat i) 16)) [0; 1]%nat ++ map (λ i, of_bytes (repeat (Z.of_nat i) 32)) (seq 10 3).
Definition call_of (method path requestID authorization body : string) (ms : Z) : Request :=
  {| Method := method; Path := path; RequestID := requestID; Authorization := authorization; Body := body;
     Now := at_ms ms |}.

(** The state a computation ends in. *)
Definition after {E A} (m : M E A) (s : St) : St := (m s).2.
Definition with_rand (l : list string) (s : St) : St := Mk_St (st_db s) (st_tx s) (st_eph s) (st_faults s) l.
Definition with_faults (l : list bool) (s : St) : St := Mk_St (st_db s) (st_tx s) (st_eph s) l (st_rand s).
Definition with_tx (d : db) (s : St) : St := Mk_St (st_db s) d (st_eph s) (st_faults s) (st_rand s).
Definition api (request : Request) : Handler Response := HandleAPI sample_identity (at_ms 0) request.

Definition blank : St := Mk_St empty_db empty_db newEphemeralState [] [].
Definition installed : St := Eval vm_compute in
  after (begin_tx "" ;; initialize_rows sample_identity;; commit_tx "" : M string ()) blank.
Definition booted_state : St := Eval vm_compute in
  after (StartBoot (at_ms 0))
    (with_rand [of_bytes (repeat 9 16)]
       (after (CreateDevice sample_identity sample_device sample_token FixedScopes (at_ms 0)) installed)).

(** A grant and the enrollment that presents it. *)
Definition sample_grant : string := of_bytes (repeat 7 32).
Definition granted_state : St := Eval vm_compute in
  after (CreateEnrollmentGrant sample_identity (at_ms 10)) (with_rand [sample_grant] booted_state).
Definition enroll_call : Request :=
  call_of "POST" "/v1/enrollments" (id_of "3") ("JAT-Enrollment " +:+ encodeBase64 sample_grant)
    (marshalJSON (Mk_enrollmentRequest "1" (id_of "4") sample_device_2 (encodeBase64 sample_token_2) FixedScopes)) 20.
Definition enrolled_state : St := Eval vm_compute in
  after (api enroll_call) granted_state.

(** The first vault envelope. *)
Definition sample_envelope : vaultEnvelope :=
  Mk_vaultEnvelope "1" cryptoSuite (id_of "1") (id_of "2") "1" "1" "base" (encodeBase64 (of_bytes (repeat 1 32))) None
    (encodeBase64 (of_bytes (repeat 2 24))) (encodeBase64 (of_bytes (repeat 3 48))).
Definition put_call : Request :=
  call_of "PUT" "/v1/vault-envelope" (id_of "5") (bearer sample_token)
    (marshalJSON (Mk_putEnvelopeRequest "0" "1" sample_envelope)) 30.
Definition enveloped_state : St := Eval vm_compute in
  after (api put_call) enrolled_state.

(** One revision of one record. *)
Definition sample_revision : recordRevision :=
  Mk_recordRevision (id_of "6") (id_of "7") sample_device "1" [Mk_vectorEntry sample_device "1"]
    (Some (encodeBase64 (of_bytes (repeat 4 32)))) "1" cryptoSuite false
    (encodeBase64 (of_bytes (repeat 2 24))) (encodeBase64 (of_bytes (repeat 8 16))).
Definition sync_call : Request :=
  call_of "POST" "/v1/sync" (id_of "8") (bearer sample_token)
    (marshalJSON (Mk_syncRequest "1" sample_device (id_of "8") "0" "0" [sample_revision])) 40.
Definition synced_state : St := Eval vm_compute in
  after (api sync_call) enveloped_state.

(** A snapshot. *)
Definition snapshot_call : Request :=
  call_of "POST" "/v1/snapshot-reads" (id_of "9") (bearer sample_token)
    (marshalJSON (Mk_snapshotCreateRequest "1" sample_device (id_of "9") requiredSnapshotCapabilities)) 50.
Definition snapshot_state : St := Eval vm_compute in
  after (api snapshot_call) (with_rand (of_bytes (repeat 11 16) :: map (λ i, of_bytes (repeat i 32)) [12; 13; 14]) synced_state).

(** The status of a reply, or the code of the error. *)
Definition outcome {A} (f : A → Z) (r : res Error A) : Z + string :=
  match r with Ok a => inl (f a) | Err e => inr (Code e) end.
Definition status_of (request : Request) (s : St) : Z + string := outcome Status (api request s).1.

(** The scenario goes through. *)
Example scenario_runs :
  [ status_of enroll_call granted_state; status_of put_call enrolled_state; status_of sync_call enveloped_state;
    status_of snapshot_call (with_rand (of_bytes (repeat 11 16) :: map (λ i, of_bytes (repeat i 32)) [12; 13; 14]) synced_state) ]
  = [inl 201; inl 200; inl 200; inl 201].
Proof. vm_compute. reflexivity. Qed.

(** One device revokes the other, and rotates its own token. *)
Definition revoke_call : Request :=
  call_of "POST" ("/v1/devices/" +:+ sample_device_2 +:+ "/revoke") (id_of "c") (bearer sample_token)
    (marshalJSON (Mk_revokeDeviceRequest (id_of "c") false)) 60.
Definition rotate_call : Request :=
  call_of "POST" "/v1/device-token-rotations" (id_of "d") (bearer sample_token)
    (marshalJSON (Mk_tokenRotationRequest (id_of "e") sample_device (encodeBase64 (of_bytes (repeat 15 32))))) 70.
Example devices_run : [status_of revoke_call enrolled_state; status_of rotate_call enrolled_state] = [inl 200; inl 200].
Proof. vm_compute. reflexivity. Qed.
