(* ===== verification/ChangeLog.v ===== *)
(** * The change log is contiguous

    Every state-changing request assigns the next cursors: the permanent rows of
    [change_origins] are exactly the cursors 1, 2, ..., n in order, and n is the
    server cursor of the single runtime row.  [change_log_ok] states it and
    [HandleAPI_change_log] shows that every request preserves it and never
    shortens the log.

    The proof separates the statements that do not touch the log ([same_log],
    found by the same structural search as the frame facts of the handlers) from
    the few that do: [insertChangeOrigin], [setServerCursor] and the final update
    of a collection. *)

From stdpp Require Import base list strings gmap.
From Stdlib Require Import ZArith Lia Ascii.
From S2P Require Import Prelude GoStd GoTime Api Json Wire Models Sql Schema Monad Keys SqlFacts Runtime.
From S2P Require Import Receipts Persist Envelope Devices Enrollment Collection Sync Snapshot.
From S2P Require Import Samples.
Local Open Scope Z_scope.

(** ** The log and what leaves it alone *)
Definition cursors (n : nat) : list cell := map (λ i, cell_u64 (Z.of_nat i)) (seq 1 n).
Definition log_of (d : db) : list cell * list cell :=
  (map co_cursor (tb_change_origins d), map rs_server_cursor (select runtime_singleton (tb_runtime_state d))).
(** Cursors 1 to [n] have origins; the runtime row says [c]. *)
Definition log_at (c : Z) (n : nat) (d : db) : Prop := log_of d = (cursors n, [cell_u64 c]).
Definition change_log_ok (d : db) (n : nat) : Prop :=
  log_at (Z.of_nat n) n d ∧ Z.of_nat n <= MaxUint64.

Definition same_log : relation St := λ s s', st_db s' = st_db s ∧ log_of (st_tx s') = log_of (st_tx s).
#[export] Instance same_log_preorder : PreOrder same_log.
Proof. split; [done|]. intros ??? [] []. unfold same_log. split; congruence. Qed.
Lemma same_state_log s s' : same_state s s' → same_log s s'.
Proof. intros (?&E&?). split; [done|by rewrite E]. Qed.

Definition log_frame (f : db → option db) : Prop := ∀ d d', f d = Some d' → log_of d' = log_of d.
Lemma logs_exec {E} (e : E) f : log_frame f → Pres same_log (exec e f).
Proof.
  intros Hf s. unfold exec, tick, mbind, M_bind, read_tx, from_option, write_tx, mret, M_ret, throw.
  destruct (st_faults s) as [|[] ?]; simpl; [|done|]; destruct (f (st_tx s)) eqn:Ef; simpl; try done;
    (split; [done|]); simpl; by apply Hf.
Qed.
Lemma logs_set_eph {E} x : Pres same_log (set_eph x : M E ()).
Proof. by intros s. Qed.

Lemma log_frame_runtime f :
  (∀ r, rs_singleton (f r) = rs_singleton r) → (∀ r, rs_server_cursor (f r) = rs_server_cursor r) →
  log_frame (update_runtime_state runtime_singleton f).
Proof.
  intros Hs Hc d d' H. unfold update_runtime_state in H.
  destruct (update_rows _ _ _ _ _ _) as [rows|] eqn:E; [|done]. injection H as <-.
  apply update_rows_map in E. subst rows. unfold log_of. f_equal. cbn [tb_runtime_state set_runtime_state].
  rewrite select_map_update.
  - rewrite map_map. apply map_ext. intros r. destruct (runtime_singleton r); [apply Hc|done].
  - intros r. unfold runtime_singleton. by rewrite Hs.
  - intros r. unfold runtime_singleton. rewrite Hs. done.
Qed.

(** Statements on other tables: by computation. *)
Ltac frame_cases H := repeat (case_match_in H; try discriminate H); try (injection H as <-; reflexivity).
Ltac head_of t := lazymatch t with ?f _ => head_of f | _ => t end.
Ltac unfold_statement H :=
  cbv beta in H; try (lazymatch type of H with ?f = Some _ => let h := head_of f in unfold h in H end).
Ltac log_frame_tac :=
  first
    [ apply log_frame_runtime; intros ?; reflexivity
    | let d := fresh in let d' := fresh in let H := fresh in
      intros d d' H; do 2 (unfold_statement H; frame_cases H) ].

Create HintDb logs.
Ltac logs_step :=
  lazymatch goal with
  | |- Pres same_log (query _ _) => apply pres_query; [apply _|apply same_state_log]
  | |- Pres same_log (select_db _) => apply pres_query; [apply _|apply same_state_log]
  | |- Pres same_log (rand_read _ _) => apply pres_rand_read; apply same_state_log
  | |- Pres same_log (exec_db _) => apply logs_exec; solve [auto with logs nocore | log_frame_tac]
  | |- Pres same_log (exec _ _) => apply logs_exec; solve [auto with logs nocore | log_frame_tac]
  | |- Pres same_log (set_eph _) => apply logs_set_eph
  | |- Pres same_log _ =>
      first [ pres_step (auto with logs nocore)
            | apply (pres_weaken same_state _ _ same_state_log); solve [auto with reads nocore] ]
  end.
Ltac logs := repeat logs_step.

Lemma logs_checkpointUptimeTx now : Pres same_log (checkpointUptimeTx now).
Proof. unfold checkpointUptimeTx. logs. Qed.
Lemma logs_pruneOperationReceipts a b c d e : Pres same_log (pruneOperationReceipts a b c d e).
Proof. unfold pruneOperationReceipts. logs. Qed.
#[export] Hint Resolve logs_checkpointUptimeTx logs_pruneOperationReceipts : logs.
Lemma logs_storeReceiptAtUptime a b c d e f g : Pres same_log (storeReceiptAtUptime a b c d e f g).
Proof. unfold storeReceiptAtUptime. logs. Qed.
#[export] Hint Resolve logs_storeReceiptAtUptime : logs.
Lemma logs_storeReceipt a b c d e f : Pres same_log (storeReceipt a b c d e f).
Proof. unfold storeReceipt. logs. Qed.
#[export] Hint Resolve logs_storeReceipt : logs.
Lemma logs_deleteUnreferencedRevisionObject a b : Pres same_log (deleteUnreferencedRevisionObject a b).
Proof. unfold deleteUnreferencedRevisionObject. logs. Qed.
#[export] Hint Resolve logs_deleteUnreferencedRevisionObject : logs.
Lemma logs_collect_candidate a b c : Pres same_log (collect_candidate a b c).
Proof. unfold collect_candidate. logs. Qed.
Lemma logs_deleteSnapshotAndReleaseObjects a : Pres same_log (deleteSnapshotAndReleaseObjects a).
Proof. unfold deleteSnapshotAndReleaseObjects. logs. Qed.
#[export] Hint Resolve logs_collect_candidate logs_deleteSnapshotAndReleaseObjects : logs.
Lemma logs_pruneExpiredSnapshots a : Pres same_log (pruneExpiredSnapshots a).
Proof. unfold pruneExpiredSnapshots. logs. Qed.
Lemma logs_admitEnrollmentAttempt a : Pres same_log (admitEnrollmentAttempt a).
Proof. unfold admitEnrollmentAttempt. logs. Qed.
#[export] Hint Resolve logs_admitEnrollmentAttempt : logs.
Lemma logs_enrollment_admit a b c : Pres same_log (enrollment_admit a b c).
Proof. unfold enrollment_admit. logs. Qed.
Lemma logs_admitSnapshotAttempt a b : Pres same_log (admitSnapshotAttempt a b).
Proof. unfold admitSnapshotAttempt. logs. Qed.
Lemma logs_preflightSnapshotOwnerKeys a b : Pres same_log (preflightSnapshotOwnerKeys a b).
Proof. unfold preflightSnapshotOwnerKeys. logs. Qed.
Lemma logs_insert_pages a b : Pres same_log (insert_pages a b).
Proof. unfold insert_pages. logs. Qed.
Lemma logs_raise_max_returned a b : Pres same_log (raise_max_returned a b).
Proof. unfold raise_max_returned. logs. Qed.
Lemma logs_set_deadline a b : Pres same_log (set_deadline a b).
Proof. unfold set_deadline. logs. Qed.
#[export] Hint Resolve logs_preflightSnapshotOwnerKeys logs_insert_pages logs_raise_max_returned logs_set_deadline : logs.
Lemma logs_revoke_mark a b c : Pres same_log (revoke_mark a b c).
Proof. unfold revoke_mark. logs. Qed.
Lemma logs_self_receipt a b c d e : Pres same_log (self_receipt a b c d e).
Proof. unfold self_receipt. logs. Qed.
#[export] Hint Resolve logs_pruneExpiredSnapshots logs_enrollment_admit logs_admitSnapshotAttempt
  logs_revoke_mark logs_self_receipt : logs.

(** ** Runs that extend the log *)
(** Started from a committed log of length [n0], the open transaction has origins
    up to [n] and a runtime row that says [c]. *)
Definition Open (n0 : nat) (c : Z) (n : nat) (s : St) : Prop :=
  change_log_ok (st_db s) n0 ∧ log_at c n (st_tx s) ∧ (n0 <= n)%nat ∧ Z.of_nat n <= MaxUint64 ∧ u64 c.
Definition Closed (n0 : nat) (s : St) : Prop := ∃ n, (n0 <= n)%nat ∧ change_log_ok (st_db s) n.
Definition Triple {A} (P : St → Prop) (m : Handler A) (Q : A → St → Prop) : Prop :=
  ∀ s a s', P s → m s = (Ok a, s') → Q a s'.

Lemma triple_bind {A B} P (m : Handler A) (f : A → Handler B) Q R :
  Triple P m Q → (∀ a, Triple (Q a) (f a) R) → Triple P (m ≫= f) R.
Proof. intros Hm Hf s b s' Hp (a & s1 & H1 & H2)%bind_ok. by eapply Hf; [eapply Hm|]. Qed.
Lemma triple_weaken {A} P P' (m : Handler A) Q Q' :
  (∀ s, P s → P' s) → (∀ a s, Q' a s → Q a s) → Triple P' m Q' → Triple P m Q.
Proof. intros HP HQ Hm s a s' Hp H. eapply HQ, Hm; eauto. Qed.
Lemma triple_ret {A} (P : St → Prop) (a : A) (Q : A → St → Prop) : (∀ s, P s → Q a s) → Triple P (mret a) Q.
Proof. intros HQ s b s' Hp [-> ->]%ret_ok. auto. Qed.
Lemma triple_throw {A} P (e : Error) (Q : A → St → Prop) : Triple P (throw e) Q.
Proof. by intros s b s' _ ?. Qed.

Lemma open_same_log n0 c n s s' : same_log s s' → Open n0 c n s → Open n0 c n s'.
Proof. intros [E1 E2] (H1&H2&?). unfold Open, log_at in *. rewrite E1, E2. done. Qed.
(** A step that leaves the log alone. *)
Lemma triple_skip {A B} n0 c n (m : Handler A) (f : A → Handler B) Q :
  Pres same_log m → (∀ a, Triple (Open n0 c n) (f a) Q) → Triple (Open n0 c n) (m ≫= f) Q.
Proof.
  intros Hm Hf. eapply (triple_bind _ m f (λ _, Open n0 c n)); [|done].
  intros s a s' Hp H. specialize (Hm s). rewrite H in Hm. by eapply open_same_log.
Qed.
Lemma triple_skip_fact {A B} n0 c n (φ : A → Prop) (m : Handler A) (f : A → Handler B) Q :
  Pres same_log m → (∀ a s s', m s = (Ok a, s') → φ a) →
  (∀ a, φ a → Triple (Open n0 c n) (f a) Q) → Triple (Open n0 c n) (m ≫= f) Q.
Proof.
  intros Hm Hφ Hf. eapply (triple_bind _ m f (λ a s, φ a ∧ Open n0 c n s)).
  - intros s a s' Hp H. split; [by eapply Hφ|]. specialize (Hm s). rewrite H in Hm. by eapply open_same_log.
  - intros a s b s' [Ha Hp]. by eapply Hf.
Qed.
Lemma triple_same {A} n0 c n (m : Handler A) : Pres same_log m → Triple (Open n0 c n) m (λ _, Open n0 c n).
Proof. intros Hm s a s' Hp H. specialize (Hm s). rewrite H in Hm. by eapply open_same_log. Qed.
Lemma triple_ensure {B} P b e (f : () → Handler B) Q :
  (b = true → Triple P (f ()) Q) → Triple P (ensure b e ≫= f) Q.
Proof.
  intros Hf s a s' Hp H. apply bind_ok in H as (u & s1 & H1 & H2). apply ensure_ok in H1 as [Hb ->].
  destruct u. by eapply Hf.
Qed.
Lemma triple_bound {A} n0 c n (m : Handler A) Q :
  (Z.of_nat n <= MaxUint64 → Triple (Open n0 c n) m Q) → Triple (Open n0 c n) m Q.
Proof. intros Hm s a s' Hp. pose proof Hp as (_&_&_&?&_). by apply Hm. Qed.
Lemma triple_begin {B} n0 (f : () → Handler B) Q :
  (∀ u, Triple (Open n0 (Z.of_nat n0) n0) (f u) Q) →
  Triple (λ s, change_log_ok (st_db s) n0) (beginTransaction ≫= f) Q.
Proof.
  intros Hf. eapply triple_bind; [|exact Hf]. intros s u s' [H1 H2] H. apply begin_ok in H as (Etx & Edb & _).
  unfold Open. rewrite Etx, Edb. unfold change_log_ok, u64, MaxUint64 in *. split_and!; try done; lia.
Qed.
Lemma triple_commit n0 n : Triple (Open n0 (Z.of_nat n) n) commitTransaction (λ _, Closed n0).
Proof.
  intros s u s' (H1&H2&H3&H4&H5) Hrun. apply commit_ok in Hrun as (Edb & _). exists n. rewrite Edb. done.
Qed.
Lemma triple_commitUptime n0 n next : Triple (Open n0 (Z.of_nat n) n) (commitUptimeTransaction next) (λ _, Closed n0).
Proof.
  eapply triple_bind; [apply triple_commit|]. intros u s a s' (m & Hm & Hok) H. exists m. split; [done|].
  apply bind_ok in H as (e & s1 & [= <- <-] & H). by destruct (After _ _); injection H as _ <-.
Qed.

Lemma cursors_S n : cursors (S n) = cursors n ++ [cell_u64 (Z.of_nat (S n))].
Proof. unfold cursors. by rewrite seq_S, map_app. Qed.
Lemma log_read c n d r : log_at c n d → u64 c → runtime_row d = Some r → scan_u64 (rs_server_cursor r) = Some c.
Proof.
  unfold log_at, log_of, runtime_row, query_row. intros [= _ H] Hc Hr.
  destruct (select runtime_singleton (tb_runtime_state d)) as [|q rest]; [done|]. injection Hr as ->.
  injection H as -> _. by apply scan_u64_cell.
Qed.
(** The cursor a run reads is the one the log says. *)
Lemma triple_read {B} n0 c n (f : Z * Z * Z * Z → Handler B) Q :
  (∀ eg sg cg, Triple (Open n0 c n) (f (c, eg, sg, cg)) Q) →
  Triple (Open n0 c n) (readRuntimeState ≫= f) Q.
Proof.
  intros Hf s b s' Hp H. apply bind_ok in H as ([[[c' eg] sg] cg] & s1 & H1 & H2).
  assert (Hs : same_state s s1) by (pose proof (reads_readRuntimeState s) as Hr; by rewrite H1 in Hr).
  unfold readRuntimeState in H1.
  apply bind_ok in H1 as (row & s2 & Hq & H1). apply query_ok in Hq as (-> & Etx & _).
  apply bind_ok in H1 as (r & s3 & H3 & H1). apply from_option_ok in H3 as [Hr ->].
  apply from_option_ok in H1 as [Hd _]. unfold decode_runtime in Hd.
  assert (Hc : scan_u64 (rs_server_cursor r) = Some c).
  { destruct Hp as (_ & Hl & _ & _ & Hu). by eapply log_read. }
  rewrite Hc in Hd. repeat case_match_in Hd; try discriminate. injection Hd as <- -> -> ->.
  eapply Hf; [|exact H2]. eapply open_same_log; [by apply same_state_log|done].
Qed.
Lemma triple_reserveCursors n0 c n :
  Triple (Open n0 c n) (reserveCursors 1) (λ v s, v = c + 1 ∧ v <= MaxUint64 ∧ Open n0 c n s).
Proof.
  apply triple_read. intros eg sg cg. destruct (MaxUint64 - c <? 1) eqn:E; [apply triple_throw|].
  apply triple_ret. intros s Hs. unbool. split_and!; [done|lia|done].
Qed.
(** A statement that sets the cursor of the runtime row. *)
Lemma triple_set_cursor n0 c n v f : u64 v →
  (∀ r, rs_singleton (f r) = rs_singleton r) → (∀ r, rs_server_cursor (f r) = cell_u64 v) →
  Triple (Open n0 c n) (exec_db (update_runtime_state runtime_singleton f)) (λ _, Open n0 v n).
Proof.
  intros Hv Hs Hf s u s' (H1&H2&H3&H4&H5) H. apply exec_ok in H as (Hu & Edb & _).
  unfold update_runtime_state in Hu. destruct (update_rows _ _ _ _ _ _) as [rows|] eqn:E; [|done].
  injection Hu as Hu. apply update_rows_map in E. subst rows. unfold Open. rewrite Edb, <- Hu.
  split_and!; try done. unfold log_at, log_of in *. injection H2 as Ho Hc. cbn [tb_change_origins tb_runtime_state set_runtime_state].
  rewrite Ho. f_equal.
  assert (Hr : ∀ r, runtime_singleton (f r) = runtime_singleton r) by (intros r; unfold runtime_singleton; by rewrite Hs).
  rewrite select_map_update by (intros r; rewrite Hr; done). rewrite map_select_all, map_map.
  destruct (select runtime_singleton (tb_runtime_state (st_tx s))) as [|q [|q' rest]]; [done| |done].
  simpl. by rewrite Hf.
Qed.
Lemma triple_setServerCursor n0 c n v : u64 v → Triple (Open n0 c n) (setServerCursor v) (λ _, Open n0 v n).
Proof. intros Hv. by apply triple_set_cursor. Qed.
Lemma triple_insertChangeOrigin n0 c n cursor kind g : cursor = Z.of_nat (S n) → cursor <= MaxUint64 →
  Triple (Open n0 c n) (insertChangeOrigin cursor kind g) (λ _, Open n0 c (S n)).
Proof.
  intros -> Hm s u s' (H1&H2&H3&H4&H5) H. apply exec_ok in H as (Hu & Edb & _).
  unfold insert_change_origins in Hu. destruct (insert_row _ _ _ _) as [rows|] eqn:E; [|done].
  injection Hu as Hu. apply insert_row_Some in E as (-> & _). unfold Open. rewrite Edb, <- Hu.
  split_and!; try done; [|lia]. unfold log_at, log_of in *. injection H2 as Ho Hc.
  cbn [tb_change_origins tb_runtime_state set_change_origins]. rewrite map_app, Ho, Hc, cursors_S. done.
Qed.
Lemma triple_insertChange n0 c n cursor kind a b e f g now : cursor = Z.of_nat (S n) → cursor <= MaxUint64 →
  Triple (Open n0 c n) (insertChange cursor kind a b e f g now) (λ _, Open n0 c (S n)).
Proof.
  intros Hc Hm. eapply triple_bind; [by apply triple_insertChangeOrigin|]. intros u s v s' Hp H.
  assert (Hl : Pres same_log (exec_db (insert_changes (Mk_changes (cell_u64 cursor) (CText kind) (UnixMilli now)
    (text_or_null a) (text_or_null b) CNull (text_or_null e) (text_or_null f))))) by logs.
  specialize (Hl s). rewrite H in Hl. by eapply open_same_log.
Qed.

(** ** Composition *)
Lemma triple_pure {A} (φ : Prop) P (m : Handler A) Q : (φ → Triple P m Q) → Triple (λ s, φ ∧ P s) m Q.
Proof. intros Hm s a s' [Hφ Hp]. by apply Hm. Qed.
Lemma triple_ex {A X} (P : X → St → Prop) (m : Handler A) Q : (∀ x, Triple (P x) m Q) → Triple (λ s, ∃ x, P x s) m Q.
Proof. intros Hm s a s' [x Hp]. by eapply Hm. Qed.
(** A step before the transaction starts. *)
Lemma triple_prepare {A B} n0 (m : Handler A) (f : A → Handler B) Q :
  Pres same_db m → (∀ a, Triple (λ s, change_log_ok (st_db s) n0) (f a) Q) →
  Triple (λ s, change_log_ok (st_db s) n0) (m ≫= f) Q.
Proof.
  intros Hm Hf. eapply (triple_bind _ m f (λ _ s, change_log_ok (st_db s) n0)); [|done].
  intros s a s' Hp H. specialize (Hm s). rewrite H in Hm. unfold same_db in Hm. simpl in Hm. by rewrite Hm.
Qed.
Lemma triple_keeps {A} n0 (m : Handler A) :
  Pres same_db m → Triple (λ s, change_log_ok (st_db s) n0) m (λ _, Closed n0).
Proof.
  intros Hm s a s' Hp H. specialize (Hm s). rewrite H in Hm. unfold same_db in Hm. exists n0.
  simpl in Hm. by rewrite Hm.
Qed.
Lemma open_closed n0 c n s : Open n0 c n s → Closed n0 s.
Proof. intros (H & _). by exists n0. Qed.
(** A run that ends without a commit leaves the committed log. *)
Lemma triple_end {A} n0 c n (m : Handler A) : Pres same_log m → Triple (Open n0 c n) m (λ _, Closed n0).
Proof.
  intros Hm s a s' Hp H. specialize (Hm s). rewrite H in Hm. eapply open_closed. by eapply open_same_log.
Qed.
Lemma triple_on_error {A} P (m : Handler A) cleanup Q : Triple P m Q → Triple P (on_error m cleanup) Q.
Proof.
  intros Hm s a s' Hp H. unfold on_error in H. destruct (m s) as [[b|e] s1] eqn:E; [|done].
  injection H as -> ->. by eapply Hm.
Qed.
Lemma triple_reply {A B} n0 n (m : Handler A) (b : B) :
  Triple (Open n0 (Z.of_nat n) n) m (λ _, Closed n0) →
  Triple (Open n0 (Z.of_nat n) n) (m ≫= λ _, mret b) (λ _, Closed n0).
Proof. intros Hm. eapply triple_bind; [exact Hm|]. intros a. by apply triple_ret. Qed.
Lemma u64_nat n : Z.of_nat n <= MaxUint64 → u64 (Z.of_nat n).
Proof. unfold u64, MaxUint64. lia. Qed.

(** Descend through the steps that leave the log alone. *)
Ltac skip1 :=
  lazymatch goal with
  | |- Triple _ (reserveCursors _ ≫= _) _ => fail
  | |- Triple _ (readRuntimeState ≫= _) _ => fail
  | |- _ => apply triple_skip; [solve [logs]|intros ?]
  end.
Ltac skip := repeat skip1.
Ltac prepare := first [apply triple_begin; intros ? | apply triple_prepare; [solve [keeps]|intros ?; prepare]].

(** The end of the handlers that assign one cursor. *)
Lemma triple_advance {B} n0 c n v checkpoint (b : B) : v = Z.of_nat n → v <= MaxUint64 →
  Triple (Open n0 c n)
    (setServerCursor v;; commitUptimeTransaction checkpoint;; mret b) (λ _, Closed n0).
Proof.
  intros -> Hm. eapply triple_bind; [by apply triple_setServerCursor, u64_nat|]. intros ?.
  apply triple_reply, triple_commitUptime.
Qed.
(** Writing the change of the next cursor. *)
Lemma triple_next {B} n0 n v kind a b e f g now (k : () → Handler B) Q : v = Z.of_nat (S n) → v <= MaxUint64 →
  (∀ u, Triple (Open n0 (Z.of_nat n) (S n)) (k u) Q) →
  Triple (Open n0 (Z.of_nat n) n) (insertChange v kind a b e f g now ≫= k) Q.
Proof. intros Hv Hm Hk. eapply triple_bind; [by apply triple_insertChange|]. apply Hk. Qed.
Lemma triple_reserve {B} n0 n (k : Z → Handler B) Q :
  (Z.of_nat (S n) <= MaxUint64 → Triple (Open n0 (Z.of_nat n) n) (k (Z.of_nat (S n))) Q) →
  Triple (Open n0 (Z.of_nat n) n) (reserveCursors 1 ≫= k) Q.
Proof.
  intros Hk. eapply triple_bind; [apply triple_reserveCursors|]. intros v. cbv beta.
  apply triple_pure. intros ->. apply triple_pure. intros Hm.
  replace (Z.of_nat n + 1) with (Z.of_nat (S n)) in * by lia. auto.
Qed.

Section handlers.
Context (identity : Identity) (n0 : nat).
Abbreviation Start := (λ s, change_log_ok (st_db s) n0).
Abbreviation Done := (λ _ : Response, Closed n0).

Lemma put_envelope_checks_ok request expected cursor g sg v s s' :
  put_envelope_checks identity request expected cursor g sg s = (Ok v, s') → cursor ≠ MaxUint64.
Proof.
  intros H. unfold put_envelope_checks in H.
  do 4 (apply bind_ok in H as (? & ? & _ & H)).
  apply bind_ok in H as (? & ? & [Hs _]%ensure_ok & _). by unbool.
Qed.
Lemma triple_handlePutEnvelope call : Triple Start (handlePutEnvelope identity call) Done.
Proof.
  unfold handlePutEnvelope. prepare. skip. case_match; [apply triple_end; logs|].
  apply triple_read. intros g sg cg. do 2 skip1.
  eapply triple_skip_fact; [logs|apply put_envelope_checks_ok|]. intros v Hv. cbv beta in Hv.
  unfold put_envelope_write.
  apply triple_bound. intros Hm. skip. apply triple_next; [lia|lia|]. intros ?. skip. apply triple_advance; lia.
Qed.
Lemma triple_handleEnrollment call : Triple Start (handleEnrollment identity call) Done.
Proof.
  unfold handleEnrollment. prepare. skip. case_match; [apply triple_end; logs|]. skip.
  case_match; [skip; apply triple_reply, triple_commit|]. skip.
  apply triple_reserve. intros Hm. apply triple_read. intros g sg cg. unfold enrollment_write. skip.
  apply triple_next; [done|done|]. intros ?.
  eapply triple_bind; [by apply triple_setServerCursor, u64_nat|]. intros ?. apply triple_reply, triple_commit.
Qed.
Lemma triple_handleRevokeDevice call target : Triple Start (handleRevokeDevice identity call target) Done.
Proof.
  unfold handleRevokeDevice. prepare. skip. case_match; [apply triple_end; logs|]. skip.
  case_match; [apply triple_end; logs|]. skip. case_match. case_match.
  - unfold revoke_again. skip. apply triple_reply, triple_commitUptime.
  - unfold revoke_active. skip. apply triple_reserve. intros Hm. skip. case_match. skip.
    apply triple_next; [done|done|]. intros ?. skip. by apply triple_advance.
Qed.
Lemma triple_handleTokenRotation call : Triple Start (handleTokenRotation identity call) Done.
Proof.
  unfold handleTokenRotation. prepare. skip. case_match; [apply triple_end; logs|].
  case_match; [|apply triple_throw]. unfold rotation_apply. skip. case_match. skip. case_match. skip.
  apply triple_reply, triple_commit.
Qed.
Lemma triple_handleCreateSnapshot call : Triple Start (handleCreateSnapshot identity call) Done.
Proof.
  unfold handleCreateSnapshot. prepare. skip. case_match; [apply triple_end; logs|].
  unfold snapshot_create. skip. apply triple_read. intros g sg cg. skip. case_match. unfold snapshot_write. skip.
  apply triple_reply, triple_on_error, triple_commit.
Qed.

(** A sync: each new revision takes the next cursor, and so may the collection. *)
Lemma triple_sync_apply c n now uptime item :
  let n' := if pn_isNew item then S n else n in
  Z.of_nat n' <= MaxUint64 →
  Triple (Open n0 c n) (sync_apply now uptime (Z.of_nat n) item) (λ v s, v = Z.of_nat n' ∧ Open n0 c n' s).
Proof.
  cbv zeta. unfold sync_apply. intros Hm. destruct (pn_isNew item); simpl; [|by apply triple_ret].
  unfold store_object, retire_head. skip. case_match. skip.
  eapply triple_bind; [apply triple_insertChange; lia|]. intros ?. apply triple_ret. intros s Hs. split; [lia|done].
Qed.
Lemma triple_sync_fold c now uptime pending n :
  Z.of_nat n + new_count pending <= MaxUint64 →
  Triple (Open n0 c n) (fold_each pending (Z.of_nat n) (sync_apply now uptime))
    (λ v s, v = Z.of_nat n + new_count pending ∧ Open n0 c (n + length (List.filter pn_isNew pending)) s).
Proof.
  revert n. induction pending as [|item pending IH]; intros n Hm.
  - apply triple_ret. intros s Hs. unfold new_count. simpl. rewrite Nat.add_0_r. split; [lia|done].
  - unfold new_count in *. simpl in *. 
    eapply triple_bind; [apply triple_sync_apply; destruct (pn_isNew item); simpl in *; lia|].
    intros v. apply triple_pure. intros ->.
    eapply triple_weaken; [done| |apply IH; destruct (pn_isNew item); simpl in *; lia].
    intros v s [-> Hs]. destruct (pn_isNew item); simpl in *; [rewrite <- Nat.add_succ_comm|]; split; try lia; done.
Qed.
(** The log is closed again, with [v] as its cursor. *)
Definition Settled (v : Z) (s : St) : Prop := ∃ n, v = Z.of_nat n ∧ Open n0 (Z.of_nat n) n s.
Lemma triple_sync_write deviceID now uptime ack created final pending :
  new_count pending <= MaxUint64 - Z.of_nat n0 →
  Triple (Open n0 (Z.of_nat n0) n0) (sync_write deviceID now uptime (Z.of_nat n0) ack created final pending) Settled.
Proof.
  intros Hm. unfold sync_write. eapply triple_bind; [apply triple_sync_fold; lia|]. intros v. cbv beta.
  apply triple_pure. intros ->. unfold new_count in *.
  eapply (triple_bind _ _ _ Settled).
  - destruct (Z.eqb_spec (Z.of_nat (length (List.filter pn_isNew pending))) 0) as [E|E].
    + apply triple_ret. intros s Hs. exists n0. replace (length _) with 0%nat in Hs by lia.
      by rewrite Nat.add_0_r in Hs.
    + rewrite <- Nat2Z.inj_add in *. skip. eapply triple_bind; [apply triple_setServerCursor, u64_nat; lia|].
      intros ?. apply triple_ret. intros s Hs. by eexists.
  - intros v. apply triple_ex. intros n. apply triple_pure. intros ->. skip. apply triple_ret. intros s Hs. by exists n.
Qed.
Lemma triple_collect_record c now acks uptime st record n : cs_serverCursor st = Z.of_nat n →
  Triple (Open n0 c n) (collect_record now acks uptime st record)
    (λ st' s, ∃ n', cs_serverCursor st' = Z.of_nat n' ∧ Open n0 c n' s).
Proof.
  intros Hst. unfold collect_record. skip. case_match. case_match.
  case_match; [apply triple_ret; by exists n|]. skip. case_match eqn:Hsel.
  case_match; [apply triple_ret; by exists n|].
  eapply (triple_bind _ _ _ (λ v s, ∃ n', v = Z.of_nat n' ∧ Open n0 c n' s)).
  - case_match; [|apply triple_ret; by exists n]. unfold writeCollectionMarker, insertMarkerChange. skip.
    apply triple_bound. intros Hm.
    assert (cs_serverCursor st ≠ MaxUint64).
    { unfold collect_selection in Hsel. repeat case_match; simplify_eq. by unbool. }
    eapply triple_bind; [eapply triple_bind; [apply triple_insertChangeOrigin; lia|]|].
    + intros ?. apply (triple_same _ _ _ _); logs.
    + intros ?. apply triple_ret. intros s Hs. exists (S n). split; [lia|exact Hs].
  - intros v. apply triple_ex. intros n'. apply triple_pure. intros ->. skip. apply triple_ret. intros s Hs. by exists n'.
Qed.
Lemma triple_collect_fold c now acks uptime records : ∀ st n, cs_serverCursor st = Z.of_nat n →
  Triple (Open n0 c n) (fold_each records st (collect_record now acks uptime))
    (λ st' s, ∃ n', cs_serverCursor st' = Z.of_nat n' ∧ Open n0 c n' s).
Proof.
  induction records as [|record records IH]; intros st n Hst; [apply triple_ret; by exists n|].
  simpl. eapply triple_bind; [by apply triple_collect_record|]. intros st'.
  apply triple_ex. intros n'. apply triple_pure. intros Hst'. by apply IH.
Qed.
Lemma triple_collectEligible now uptime n :
  Triple (Open n0 (Z.of_nat n) n) (collectEligible now uptime (Z.of_nat n)) Settled.
Proof.
  assert (Hret : Triple (Open n0 (Z.of_nat n) n) (mret (Z.of_nat n)) Settled) by (apply triple_ret; by exists n).
  unfold collectEligible. do 3 skip1. case_match; [done|]. skip1. case_match; [done|].
  unfold collection_batch. skip1. case_match; [done|]. skip1.
  eapply triple_bind; [by apply triple_collect_fold|]. intros st. apply triple_ex. intros n'.
  apply triple_pure. intros Hst. apply triple_bound. intros Hm.
  eapply triple_bind; [apply (triple_set_cursor _ _ _ (cs_serverCursor st)); try done; rewrite Hst; by apply u64_nat|].
  intros u1. rewrite Hst. apply triple_ret. intros s1 Hs. by exists n'.
Qed.
Lemma triple_sync_reply deviceID now uptime n after g max :
  Triple (Open n0 (Z.of_nat n) n) (sync_reply deviceID now uptime (Z.of_nat n) after g max)
    (λ _ s, ∃ v, Settled v s).
Proof.
  unfold sync_reply. skip1. eapply triple_bind; [apply triple_collectEligible|]. intros v.
  apply triple_ex. intros n'. apply triple_pure. intros ->. skip. case_match. case_match. skip. case_match. skip.
  apply triple_ret. intros s1 Hs. by eexists _, n'.
Qed.
Lemma triple_handleSync call : Triple Start (handleSync identity call) Done.
Proof.
  unfold handleSync. apply triple_prepare; [keeps|]. intros [[request after] ack]. prepare.
  unfold sync_authenticate. skip. case_match; [apply triple_end; logs|]. unfold sync_execute.
  apply triple_read. intros g sg cg. skip1. skip1. case_match. case_match. skip1. case_match.
  apply triple_ensure. intros Hm. unbool. skip1. case_match.
  eapply triple_bind; [by apply triple_sync_write|]. intros v. apply triple_ex. intros n. apply triple_pure. intros ->.
  eapply triple_bind; [apply triple_sync_reply|]. intros r.
  apply triple_ex. intros v. apply triple_ex. intros n'. apply triple_pure. intros ->. skip.
  apply triple_reply, triple_commitUptime.
Qed.

Lemma triple_HandleAPI clock request : Triple Start (HandleAPI identity clock request) Done.
Proof.
  unfold HandleAPI, route_identified. cbv zeta.
  generalize (if is_zero_time (Now request) then with_now clock request else request). intros r.
  repeat (case_match; try (by apply triple_throw));
    first [ apply triple_handleEnrollment | apply triple_handlePutEnvelope | apply triple_handleSync
          | apply triple_handleCreateSnapshot | apply triple_handleTokenRotation | apply triple_handleRevokeDevice
          | apply triple_keeps; keeps ].
Qed.
End handlers.

(** C1. The change log is contiguous: from a database whose permanent change
    origins are exactly the cursors 1..n with n the server cursor, any request,
    accepted or refused, under any database failures, leaves a database of the same
    form with at least n cursors: cursors are never skipped, reused or lost. *)
Theorem HandleAPI_change_log identity clock request s r s' n
    (Hlog : change_log_ok (st_db s) n) (Hrun : HandleAPI identity clock request s = (r, s')) :
  ∃ n', (n <= n')%nat ∧ change_log_ok (st_db s') n'.
Proof.
  destruct r as [a|e].
  - by eapply triple_HandleAPI.
  - exists n. split; [done|]. by rewrite (atomic_HandleAPI _ _ _ _ _ _ Hrun).
Qed.

(** The first envelope written after an enrollment: the log grows from 1 to 2. *)
Lemma HandleAPI_change_log_witness :
  ∃ n', (1 <= n')%nat ∧ change_log_ok (st_db (after (api put_call) enrolled_state)) n'.
Proof.
  apply (HandleAPI_change_log sample_identity (at_ms 0) put_call enrolled_state (api put_call enrolled_state).1).
  - split; [vm_compute; reflexivity|vm_compute; discriminate].
  - apply surjective_pairing.
Defined.

(** C2. Every request is atomic: whatever request arrives, in whatever state and
    with whatever database failures, if the reply is an error then the committed
    database is exactly what it was. *)
Theorem HandleAPI_atomic identity clock request s e s' (Hrun : HandleAPI identity clock request s = (Err e, s')) :
  st_db s' = st_db s.
Proof. by eapply atomic_HandleAPI. Qed.

(** The twenty-first database statement of the request fails. *)
Lemma HandleAPI_atomic_witness :
  let s := with_faults (repeat false 20 ++ [true]) enrolled_state in
  outcome Status (api put_call s).1 = inr "internal_error" ∧ st_db (after (api put_call) s) = st_db enrolled_state.
Proof.
  cbv zeta. split; [vm_compute; reflexivity|].
  apply (HandleAPI_atomic sample_identity (at_ms 0) put_call (with_faults (repeat false 20 ++ [true]) enrolled_state)
           internal_error).
  vm_compute. reflexivity.
Defined.
