(* ===== verification/Accepted.v ===== *)
(** * What the server accepts, it can read back; round trips

    Stored revisions, envelopes and markers are canonical JSON that later requests
    decode again and compare byte for byte.  The validators of [models.go] admit
    only texts that JSON prints without escapes (identifiers, counters, base64url),
    so a validated value always survives storage: this file proves it for the three
    opaque objects a client submits or the server keeps. *)

From stdpp Require Import base list strings gmap.
From Stdlib Require Import ZArith Lia Ascii.
From S2P Require Import Prelude GoStd Uuid Auth Json JsonFacts Wire Api Models Vectors.
From S2P Require Import Sql Schema Monad SqlFacts Envelope Collection Sync Samples.
Local Open Scope Z_scope.

(** ** Plain texts *)
Create HintDb plain.
Lemma plain_app a b : plain a = true → plain b = true → plain (a +:+ b) = true.
Proof. unfold plain. rewrite bytes_list_app, forallb_app. by intros -> ->. Qed.
Lemma plain_of_bytes s : (∀ b, b ∈ bytes_list s → html_safe b = true) → plain s = true.
Proof. intros H. apply forallb_forall. intros b Hb. by apply H, list_elem_of_In. Qed.
Lemma plain_FormatUint n : 0 <= n → plain (FormatUint n) = true.
Proof.
  intros Hn. apply plain_of_bytes. intros b Hb. unfold FormatUint in Hb.
  pose proof (format_digits_ascii 20 n Hn) as Hf. rewrite Forall_forall in Hf. specialize (Hf b Hb). cbv beta in Hf.
  unfold html_safe. repeat (apply andb_true_iff; split); apply Z.leb_le || apply Z.ltb_lt || apply negb_true_iff, Z.eqb_neq; lia.
Qed.
Lemma plain_counter s n : parseUint64 s = Some n → plain s = true.
Proof. intros [-> Hn]%parseUint64_Some. apply plain_FormatUint. unfold u64 in Hn. lia. Qed.

Lemma hex_digit_safe v : 0 <= v < 16 → html_safe (byteZ (hex_digit v)) = true.
Proof.
  intros Hv. assert (Hall : forallb (λ n, html_safe (byteZ (hex_digit (Z.of_nat n)))) (seq 0 16) = true) by reflexivity.
  rewrite forallb_forall in Hall. specialize (Hall (Z.to_nat v)). rewrite in_seq, Z2Nat.id in Hall by lia. apply Hall. lia.
Qed.
Lemma plain_hex l : Forall is_byte l → plain (hex_encode l) = true.
Proof.
  induction 1 as [|b l Hb _ IH]; [done|]. simpl. unfold is_byte in Hb.
  rewrite !plain_cons. split_and!; [apply hex_digit_safe; lia..|done].
Qed.
Lemma plain_uuid s : validateUUID s = true → plain s = true.
Proof.
  unfold validateUUID, valid_uuid. destruct (Parse s) as [l|] eqn:E; [|done]. intros _.
  apply Parse_Some in E as (-> & _ & Hb & _). unfold Format.
  repeat apply plain_app; try done; apply plain_hex; auto using Forall_take, Forall_drop.
Qed.

Lemma b64_symbols_range s l : b64_symbols s = Some l → Forall (λ v, 0 <= v < 64) l.
Proof.
  revert l. induction s as [|c s IH]; intros l; simpl; [by intros [= <-]|].
  destruct (_ || _); [apply IH|]. destruct (b64_value c) as [v|] eqn:Ev; [|done].
  destruct (b64_symbols s); [|done]. intros [= <-]. constructor; [|by apply IH].
  unfold b64_value in Ev. pose proof (byteZ_range c). repeat case_match; simplify_eq; unbool; lia.
Qed.
Lemma b64_quanta_bytes : ∀ l k, Forall (λ v, 0 <= v < 64) l → b64_quanta l = Some k → Forall is_byte k.
Proof.
  intros l. induction l as [l IH] using (induction_ltof1 _ length). unfold ltof in IH. intros k Hl Hk.
  unfold is_byte in *.
  destruct l as [|p [|q [|r [|t l]]]]; simpl in Hk; repeat case_match; simplify_eq;
    repeat rewrite Forall_cons in Hl; repeat constructor; try (destruct_and!; lia).
  apply (IH l); [simpl; lia| |done]. by destruct Hl as (_&_&_&_&?).
Qed.
Lemma b64_char_safe v : 0 <= v < 64 → html_safe (byteZ (b64_char v)) = true.
Proof.
  intros Hv. assert (Hall : forallb (λ n, html_safe (byteZ (b64_char (Z.of_nat n)))) (seq 0 64) = true) by reflexivity.
  rewrite forallb_forall in Hall. specialize (Hall (Z.to_nat v)). rewrite in_seq, Z2Nat.id in Hall by lia. apply Hall. lia.
Qed.
Lemma plain_b64_encode : ∀ l, Forall is_byte l → plain (b64_encode l) = true.
Proof.
  intros l. induction l as [l IH] using (induction_ltof1 _ length). unfold ltof in IH. intros Hl.
  destruct l as [|a [|b [|c l]]]; [done|..]; repeat rewrite Forall_cons in Hl; unfold is_byte in Hl; simpl;
    rewrite !plain_cons; split_and!; try done; try (apply b64_char_safe; destruct_and!; lia).
  apply IH; [simpl; lia|]. by destruct Hl as (_&_&_&?).
Qed.
Lemma plain_base64 s a b c r : decodeBase64 s a b c = Some r → plain s = true.
Proof.
  unfold decodeBase64, b64_decode. destruct (b64_symbols s) as [l|] eqn:E1; [|done].
  destruct (b64_quanta l) as [k|] eqn:E2; [|done].
  destruct (String.eqb_spec (b64_encode k) s) as [<-|]; [|done]. intros _.
  apply plain_b64_encode. eapply b64_quanta_bytes; [|done]. by eapply b64_symbols_range.
Qed.
Lemma plain_base64_ok s n : base64_ok s n = true → plain s = true.
Proof. unfold base64_ok. destruct (decodeBase64 _ _ _ _) eqn:E; [|done]. intros _. by eapply plain_base64. Qed.
#[export] Hint Resolve plain_uuid plain_counter plain_base64 plain_base64_ok : plain.

(** ** Version vectors *)
Lemma validateVector_loop_plain p vs vec out : validateVector_loop p vs vec = Some out →
  forallb (λ e, plain (ve_DeviceID e) && plain (ve_Counter e)) vec = true.
Proof.
  revert p vs. induction vec as [|e vec IH]; intros p vs H; [done|]. simpl in *.
  destruct (Parse (ve_DeviceID e)) eqn:Ep; [|done].
  case_match; [|done]. destruct (parseUint64 (ve_Counter e)) eqn:Ec; [|done]. case_match; [done|].
  rewrite (IH _ _ H), andb_true_r. apply andb_true_iff. split; [|by eapply plain_counter].
  apply plain_uuid. unfold validateUUID, valid_uuid. by rewrite Ep.
Qed.
Lemma vector_plain vec v : validateVector vec = Some v → wire_plain vec = true.
Proof.
  unfold validateVector. case_match; [done|]. intros Hl%validateVector_loop_plain.
  unfold wire_plain. simpl. apply andb_true_iff. split; [|done].
  clear -Hl. induction vec as [|e vec IH]; [done|]. simpl in *. apply andb_true_iff in Hl as [He Hl].
  by rewrite andb_true_r, He, IH.
Qed.

(** ** The opaque objects *)
Lemma vector_plain_elements vec v : validateVector vec = Some v → forallb (has_ty (go_ty vectorEntry)) (map to_g vec) = true.
Proof. intros H%vector_plain. unfold wire_plain in H. simpl in H. by apply andb_true_iff in H as [H _]. Qed.
Lemma eqb_plain a b : String.eqb a b = true → plain b = true → plain a = true.
Proof. by intros ->%String.eqb_eq. Qed.
#[export] Hint Resolve vector_plain_elements eqb_plain : plain.
Ltac plain_fields := repeat (apply andb_true_iff; split); simpl; eauto with plain; try reflexivity.

Lemma revision_plain r shape : validateRevision r = Some shape → wire_plain r = true.
Proof.
  unfold validateRevision. intros H. repeat (case_match_in H; try discriminate H); destruct r; simpl in *; subst; unbool;
    unfold wire_plain; simpl; plain_fields; by eapply eqb_plain.
Qed.
Lemma envelope_plain e identity r :
  plain (InstanceID identity) = true → plain (VaultID identity) = true →
  validateEnvelope e identity = Some r → wire_plain e = true.
Proof.
  intros Hi Hv H. unfold validateEnvelope in H. repeat (case_match_in H; try discriminate H); destruct e; simpl in *; subst; unbool;
    unfold wire_plain; simpl; plain_fields; apply Z.leb_le; unfold MaxInt64; lia.
Qed.
Lemma marker_plain m r : validateCollectionMarker m = Some r → wire_plain m = true.
Proof.
  unfold validateCollectionMarker. intros H. repeat (case_match_in H; try discriminate H); destruct m; simpl in *; subst; unbool;
    unfold wire_plain; simpl; plain_fields.
Qed.

Lemma marshal_nonempty {A} `{GoJSON A} (a : A) fs vs : to_g a = GStruct vs → go_ty A = TStruct fs → 1 <= slen (marshalJSON a).
Proof.
  intros Hg Ht. unfold marshalJSON, marshal. rewrite Hg, Ht. simpl. unfold slen. simpl. lia.
Qed.

(** Every accepted revision stays readable: the canonical bytes the server stores
    for a revision that passes validateRevision, under the hash it stores them with,
    decode to exactly that revision in the delta and snapshot readers. *)
Theorem accepted_revision_readable revision shape (Hvalid : validateRevision revision = Some shape) :
  let body := marshalJSON revision in
  decode_object (rr_RevisionID revision) (Sum256 body) body = Some revision.
Proof.
  cbv zeta. unfold decode_object. rewrite unmarshalAs_marshal by (by eapply revision_plain).
  simpl. by rewrite !String.eqb_refl, Hvalid.
Qed.
Lemma accepted_revision_readable_witness :
  let body := marshalJSON sample_revision in
  decode_object (rr_RevisionID sample_revision) (Sum256 body) body = Some sample_revision.
Proof.
  apply (accepted_revision_readable sample_revision (1, {[sample_device := 1]})). vm_compute. reflexivity.
Defined.

(** The envelope that replaces the stored one is the envelope later reads return:
    for an envelope that passes validateEnvelope and fits the body limit, the row
    handlePutEnvelope writes decodes, against the counters it was validated with, to
    exactly the bytes that were stored. *)
Theorem accepted_envelope_readable identity envelope generation secretGeneration
    (Hid : validateUUID (InstanceID identity) && validateUUID (VaultID identity) = true)
    (Hvalid : validateEnvelope envelope identity = Some (generation, secretGeneration))
    (Hfits : slen (marshalJSON envelope) <= maxBodyBytes) :
  let body := marshalJSON envelope in
  decode_envelope_row identity generation secretGeneration (Mk_vault_envelope 1 (cell_u64 generation) (CBlob body)) = Some body.
Proof.
  cbv zeta. apply andb_true_iff in Hid as [Hi Hv].
  assert (Hg : u64 generation).
  { unfold validateEnvelope in Hvalid. repeat (case_match_in Hvalid; try discriminate Hvalid); simplify_eq;
    match goal with H : parseUint64 (env_EnvelopeGeneration _) = Some _ |- _ => by apply parseUint64_Some in H as [_ ?] end. }
  unfold decode_envelope_row. cbn [vn_generation vn_envelope_json]. rewrite scan_u64_cell by done.
  assert (Hne : 1 <= slen (marshalJSON envelope)) by (eapply marshal_nonempty; reflexivity).
  rewrite scan_body_blob by lia.
  rewrite Z.eqb_refl, unmarshalAs_marshal, Hvalid; [|by eapply envelope_plain; eauto with plain].
  by rewrite !Z.eqb_refl, String.eqb_refl.
Qed.
Lemma accepted_envelope_readable_witness :
  let body := marshalJSON sample_envelope in
  decode_envelope_row sample_identity 1 1 (Mk_vault_envelope 1 (cell_u64 1) (CBlob body)) = Some body.
Proof.
  apply (accepted_envelope_readable sample_identity sample_envelope 1 1); vm_compute; reflexivity || discriminate.
Defined.

(** ** The wire and storage encodings

    Round trips of the strict JSON decoder of [models.go] and of the eight-byte
    integers of [models.go] and SQLite, and the one place where the decoder is looser
    than the protocol: keys that differ only in case. *)

(** Strict decoding inverts encoding, for every wire type: the canonical bytes of a
    value whose strings need no escaping are accepted by [decodeStrict] and decode to
    the value, and within the body limit also by the reader of stored bodies. *)
Theorem strict_decoding_roundtrip A `{GoJSONLaws A} (a : A)
    (Hdepth : ty_depth (go_ty A) <= 32) (Hplain : wire_plain a = true) :
  decodeStrictAs A (marshalJSON a) = Some a ∧
  (slen (marshalJSON a) <= maxBodyBytes → decodeStoredCanonicalAs A (marshalJSON a) = Some a).
Proof. split; [by apply decodeStrictAs_marshal|]. intros Hlen. by apply decodeStoredCanonicalAs_marshal. Qed.
Lemma strict_decoding_roundtrip_witness :
  decodeStrictAs putEnvelopeRequest (marshalJSON (Mk_putEnvelopeRequest "0" "1" sample_envelope))
  = Some (Mk_putEnvelopeRequest "0" "1" sample_envelope).
Proof.
  apply (strict_decoding_roundtrip putEnvelopeRequest (Mk_putEnvelopeRequest "0" "1" sample_envelope));
    vm_compute; reflexivity || discriminate.
Defined.

(** Stored integers keep their order: the eight-byte column of a 64-bit counter is
    read back as the counter, and the comparisons SQLite makes on the columns are those
    of the counters, so ranges and sorts over them are numeric. *)
Theorem stored_uint64_order a b (Ha : u64 a) (Hb : u64 b) :
  scan_u64 (cell_u64 a) = Some a ∧
  cell_ltb (cell_u64 a) (cell_u64 b) = (a <? b) ∧ cell_leb (cell_u64 a) (cell_u64 b) = (a <=? b) ∧
  cell_eqb (cell_u64 a) (cell_u64 b) = (a =? b).
Proof.
  split; [by apply scan_u64_cell|]. unfold cell_u64. cbn [cell_ltb cell_leb cell_eqb]. rewrite EncodeUint64_sltb, EncodeUint64_sleb by done. split_and!; [done..|].
  destruct (Z.eqb_spec a b) as [->|Hne]; [apply String.eqb_refl|]. apply String.eqb_neq. contradict Hne. by apply EncodeUint64_inj.
Qed.
Lemma stored_uint64_order_witness : cell_ltb (cell_u64 255) (cell_u64 256) = true.
Proof. apply (stored_uint64_order 255 256); vm_compute; split; reflexivity || discriminate. Defined.

(** A revocation whose two members are each repeated in another case. *)
Definition aliased_body : string :=
  let quoted s := String dquote (s +:+ String dquote "") in
  "{" +:+ quoted "request_id" +:+ ":" +:+ quoted (id_of "1") +:+ "," +:+ quoted "allow_zero_active" +:+ ":false,"
  +:+ quoted "REQUEST_ID" +:+ ":" +:+ quoted (id_of "2") +:+ "," +:+ quoted "Allow_Zero_Active" +:+ ":true}".
(** A body whose object has two members that name one field in different case is
    accepted, and the later member wins, although the protocol has readers reject
    duplicate keys and unknown fields: the duplicate check compares key bytes, while the
    decoder matches field names without regard to case. *)
Theorem case_alias_accepted :
  decodeStrictAs revokeDeviceRequest aliased_body = Some (Mk_revokeDeviceRequest (id_of "2") true).
Proof. vm_compute. reflexivity. Qed.
