(* ===== verification/ConfigProps.v ===== *)
(** * Settings: what is accepted, and that files are replaced atomically

    Theorems about [src/runtime/internal/config]: the exact set of listener addresses,
    the atomicity of WriteFileAtomic under failures and crashes, and the round trip of
    saved settings. *)

From stdpp Require Import base list strings gmap.
From Stdlib Require Import ZArith Lia Ascii.
From Stdlib Require String.
From S2P Require Import Prelude GoStd Uuid Json JsonFacts Api Wire Indent Models Vectors Accepted Release NetIP Fs Paths Config.
Local Open Scope Z_scope.

(** ** Decimal text *)
Lemma contains_cons c d s : contains_byte c (String d s) = Ascii.eqb c d || contains_byte c s.
Proof. reflexivity. Qed.
Lemma contains_byte_elem c s : contains_byte c s = true ↔ byteZ c ∈ bytes_list s.
Proof.
  induction s as [|d s IH]; simpl.
  - split; [done|by intros ?%not_elem_of_nil].
  - rewrite orb_true_iff, IH, elem_of_cons, Ascii.eqb_eq. split.
    + intros [->|?]; auto.
    + intros [H%byteZ_inj|?]; auto.
Qed.
Lemma contains_digits c n : 0 <= n → negb ((48 <=? byteZ c) && (byteZ c <=? 57)) = true →
  contains_byte c (FormatUint n) = false.
Proof.
  intros Hn Hc. apply not_true_iff_false. rewrite contains_byte_elem. intros Hin.
  pose proof (format_digits_ascii 20 n Hn) as Hall. rewrite Forall_forall in Hall.
  apply Hall in Hin. unbool. apply andb_false_iff in Hc as [?|?]; unbool; lia.
Qed.
Lemma contains_app c s t : contains_byte c (s +:+ t) = contains_byte c s || contains_byte c t.
Proof. induction s as [|d s IH]; [done|]. rewrite sapp_cons. simpl. by rewrite IH, orb_assoc. Qed.
Lemma FormatUint_nonempty n : FormatUint n ≠ "".
Proof. by apply format_digits_nonempty. Qed.

Lemma Atoi_FormatUint n : 0 <= n <= MaxInt64 → Atoi (FormatUint n) = Some n.
Proof.
  intros Hn. pose proof (FormatUint_nonempty n) as Hne.
  pose proof (contains_digits "-" n ltac:(lia) eq_refl) as Hminus.
  pose proof (contains_digits "+" n ltac:(lia) eq_refl) as Hplus.
  assert (Hd : parse_digits 0 (FormatUint n) = Some n)
    by (apply parse_format_digits; unfold MaxInt64 in Hn; lia).
  unfold Atoi. destruct (FormatUint n) as [|c s] eqn:E; [done|].
  rewrite contains_cons in Hminus, Hplus. unbool. rewrite (Ascii.eqb_sym c "-"), (Ascii.eqb_sym c "+"), H, H1.
  rewrite Hd. simpl. by rewrite (proj2 (Z.leb_le _ _) (proj2 Hn)).
Qed.
Lemma Atoi_range s n : Atoi s = Some n → - 2 ^ 63 <= n <= MaxInt64.
Proof.
  assert (Hnn : ∀ s n, parse_digits 0 s = Some n → 0 <= n)
    by (intros ??; apply parse_digits_nonneg; lia).
  unfold Atoi. destruct s as [|c s]; [done|].
  destruct (Ascii.eqb c "-"); [destruct s as [|d s]; [done|]|destruct (Ascii.eqb c "+"); [destruct s as [|d s]; [done|]|]];
    (destruct (parse_digits 0 _) as [m|] eqn:E; [apply Hnn in E|done]); simpl;
    destruct (Z.leb_spec m (2 ^ 63)), (Z.leb_spec m MaxInt64); intros [= <-]; unfold MaxInt64 in *; lia.
Qed.

(** ** Host and port *)
Lemma stake_app s t : stake (String.length s) (s +:+ t) = s.
Proof. induction s as [|d s IH]; [by destruct t|]. rewrite sapp_cons. simpl. by rewrite IH. Qed.
Lemma sdrop_app s c t : sdrop (S (String.length s)) (s +:+ String c t) = t.
Proof. induction s as [|d s IH]; [by destruct t|]. rewrite sapp_cons. apply IH. Qed.

Lemma SplitHostPort_plain host port :
  contains_byte ":" host = false → contains_byte "[" host = false → contains_byte "]" host = false →
  contains_byte ":" port = false → contains_byte "[" port = false → contains_byte "]" port = false →
  SplitHostPort (host +:+ ":" +:+ port) = Some (host, port).
Proof.
  intros H1 H2 H3 H4 H5 H6. change (":" +:+ port) with (String ":" port). unfold SplitHostPort.
  rewrite last_index_snoc by done. rewrite stake_app, sdrop_app, H1.
  assert (Hb : has_prefix "[" (host +:+ String ":" port) = false).
  { destruct host as [|d host]; [done|]. rewrite contains_cons in H2. unbool.
    rewrite sapp_cons. cbv [has_prefix strip_prefix]. by rewrite H. }
  rewrite Hb, !contains_app, !contains_cons, H2, H3, H5, H6. done.
Qed.
Lemma SplitHostPort_loopback6 port :
  contains_byte ":" port = false → contains_byte "[" port = false → contains_byte "]" port = false →
  SplitHostPort ("[::1]:" +:+ port) = Some ("::1", port).
Proof.
  intros H1 H2 H3. change ("[::1]:" +:+ port) with ("[::1]" +:+ String ":" port).
  unfold SplitHostPort. rewrite last_index_snoc by done. rewrite sdrop_app.
  change (has_prefix "[" ("[::1]" +:+ String ":" port)) with true.
  change (index_byte "]" ("[::1]" +:+ String ":" port)) with (Some 4%nat). cbv iota.
  change (contains_byte "[" (sdrop 1 ("[::1]" +:+ String ":" port))) with (contains_byte "[" port).
  change (contains_byte "]" (sdrop 5 ("[::1]" +:+ String ":" port))) with (contains_byte "]" port).
  rewrite H2, H3. by destruct port.
Qed.

(** ** Addresses *)
Lemma parse_octet_range s n : parse_octet s = Some n → is_byte n.
Proof.
  unfold parse_octet, is_byte. destruct s as [|c [|d s]]; [done|..].
  - simpl. unfold digit_value. destruct (_ && _) eqn:E; [|done]. intros [= <-]. unbool. lia.
  - destruct (Ascii.eqb c "0"); [done|].
    destruct (parse_digits 0 _) as [m|] eqn:E; [|done]. simpl.
    apply parse_digits_nonneg in E; [|lia]. destruct (Z.leb_spec m 255); [|done]. intros [= <-]. lia.
Qed.
Lemma parse_ipv4_fields_shape s l : parse_ipv4_fields s = Some l → length l = 4%nat ∧ Forall is_byte l.
Proof.
  unfold parse_ipv4_fields. destruct (split "." s) as [|a [|b [|c [|d [|]]]]]; try done.
  intros H%mapM_opt_Some. split; [by apply Forall2_length in H|].
  apply Forall_forall. intros y Hy%list_elem_of_lookup. destruct Hy as [i Hi].
  destruct (Forall2_lookup_r _ _ _ _ _ H Hi) as (x & _ & Hx). by apply parse_octet_range in Hx.
Qed.
Lemma ipv6_groups_shape rounds : ∀ ip e s ip' e' s',
  ipv6_groups rounds ip e s = Some (ip', e', s') → (length ip + 2 * rounds <= 16)%nat → Forall is_byte ip →
  (length ip' <= 16)%nat ∧ Forall is_byte ip'.
Proof.
  induction rounds as [|n IH]; intros ip e s ip' e' s' H Hl Hb; simpl in H.
  { injection H as <- <- <-. split; [lia|done]. }
  destruct (hex_group 0 0 s) as [[acc off] rest]. destruct (_ || _)%nat; [done|].
  destruct (has_prefix "." rest).
  - destruct (_ || (16 <? length ip + 4)%nat) eqn:E; [done|]. unbool. apply Nat.ltb_ge in H1.
    destruct (parse_ipv4_fields s) as [fields|] eqn:Ef; [|done]. simpl in H. injection H as <- <- <-.
    apply parse_ipv4_fields_shape in Ef as [Hlf Hbf]. rewrite length_app. split; [lia|]. by apply Forall_app.
  - set (ip2 := ip ++ _) in H.
    assert (Hl2 : (length ip2 + 2 * n <= 16)%nat) by (unfold ip2; rewrite length_app; simpl; lia).
    assert (Hb2 : Forall is_byte ip2).
    { apply Forall_app. split; [done|]. repeat constructor; apply Z.mod_pos_bound; lia. }
    clearbody ip2.
    assert (Hdone : (length ip2 <= 16)%nat ∧ Forall is_byte ip2) by (split; [lia|done]).
    repeat case_match_in H; try discriminate; try (by injection H as <- <- <-); by eapply IH in H.
Qed.
Lemma expand_ellipsis_shape ip e r : expand_ellipsis ip e = Some r → (length ip <= 16)%nat → Forall is_byte ip →
  length r = 16%nat ∧ Forall is_byte r.
Proof.
  unfold expand_ellipsis. destruct (Nat.ltb_spec (length ip) 16); destruct e as [k|]; intros [= <-] Hl Hb.
  - split.
    + rewrite !length_app, length_take, length_drop, length_replicate. lia.
    + rewrite !Forall_app. split_and!; auto using Forall_take, Forall_drop.
      apply Forall_replicate. unfold is_byte. lia.
  - split; [lia|done].
Qed.
Lemma ParseIP_shape s ip : ParseIP s = Some ip → length ip = 16%nat ∧ Forall is_byte ip.
Proof.
  unfold ParseIP. destruct (ip_family s) as [[]|]; [| |done].
  - destruct (parse_ipv4_fields s) as [l|] eqn:E; [|done]. simpl. intros [= <-].
    apply parse_ipv4_fields_shape in E as [Hl Hb]. split; [simpl; lia|].
    apply (Forall_app_2 _ v4_mapped_prefix); [|done]. repeat constructor; done.
  - destruct (contains_byte "%" s); [done|]. unfold parse_ipv6.
    set (start := match strip_prefix "::" s with Some _ => _ | None => _ end). clearbody start.
    assert (Hz : length (replicate 16 0) = 16%nat ∧ Forall is_byte (replicate 16 0))
      by (split; [done|by repeat constructor]).
    destruct start as [e rest].
    assert (Hloop : match ipv6_groups 8 [] e rest with
                    | Some (ip, e, EmptyString) => expand_ellipsis ip e | _ => None end = Some ip →
                    length ip = 16%nat ∧ Forall is_byte ip).
    { destruct (ipv6_groups 8 [] e rest) as [[[ip' e'] [|]]|] eqn:E; try done. intros H.
      apply ipv6_groups_shape in E as [??]; [by eapply expand_ellipsis_shape|simpl; lia|constructor]. }
    destruct e as [k|]; [|done]. destruct rest; [by intros [= <-]|done].
Qed.

(** ** Listener addresses *)

(** The text of an IPv4 loopback address. *)
Definition loopback4 (b c d : Z) : string := string4 [127; b; c; d].

Lemma octets_roundtrip b : is_byte b → parse_octet (FormatUint b) = Some b.
Proof.
  intros Hb. assert (Hall : forallb (λ n, bool_decide (parse_octet (FormatUint (Z.of_nat n)) = Some (Z.of_nat n)))
    (seq 0 256) = true) by (vm_compute; reflexivity).
  rewrite forallb_forall in Hall. specialize (Hall (Z.to_nat b)). unfold is_byte in Hb.
  rewrite in_seq, bool_decide_eq_true, Z2Nat.id in Hall by lia. apply Hall. lia.
Qed.
Lemma string4_roundtrip l : length l = 4%nat → Forall is_byte l → parse_ipv4_fields (string4 l) = Some l.
Proof.
  intros Hl Hb. unfold parse_ipv4_fields, string4.
  rewrite split_join; [|by destruct l|].
  - assert (Hm : mapM_opt parse_octet (map FormatUint l) = Some l).
    { apply mapM_opt_Some. clear Hl. induction Hb; constructor; auto using octets_roundtrip. }
    destruct l as [|a [|b [|c [|d [|]]]]]; try discriminate Hl. exact Hm.
  - clear Hl. induction Hb as [|b l H _ IH]; constructor; [|done].
    apply contains_digits; [unfold is_byte in H; lia|done].
Qed.
Lemma string4_plain b c d (ch : ascii) : is_byte b → is_byte c → is_byte d →
  negb ((48 <=? byteZ ch) && (byteZ ch <=? 57)) = true → Ascii.eqb ch "." = false →
  contains_byte ch (loopback4 b c d) = false.
Proof.
  unfold is_byte, loopback4, string4. intros Hb Hc Hd Hch Hdot. simpl map. simpl join.
  rewrite !contains_app, !contains_cons, !contains_app, !contains_cons, !contains_app, !contains_cons, Hdot.
  by rewrite !contains_digits by (done || lia).
Qed.
Lemma ParseIP_loopback4 b c d : is_byte b → is_byte c → is_byte d →
  ParseIP (loopback4 b c d) = Some (v4_mapped_prefix ++ [127; b; c; d]).
Proof.
  intros Hb Hc Hd. unfold ParseIP. change (ip_family (loopback4 b c d)) with (Some true). cbv iota.
  unfold loopback4. rewrite string4_roundtrip; [done|done|].
  rewrite !Forall_cons. unfold is_byte in *. split_and!; (lia || constructor).
Qed.
Lemma IsLoopback4 b c d : IsLoopback (v4_mapped_prefix ++ [127; b; c; d]) = true.
Proof. done. Qed.
Lemma IPString_loopback4 b c d : IPString (v4_mapped_prefix ++ [127; b; c; d]) = loopback4 b c d.
Proof. done. Qed.
Lemma IsLoopback_inv ip : length ip = 16%nat → Forall is_byte ip → IsLoopback ip = true →
  ip = IPv6loopback ∨ ∃ b c d, is_byte b ∧ is_byte c ∧ is_byte d ∧ ip = v4_mapped_prefix ++ [127; b; c; d].
Proof.
  intros Hl Hb. unfold IsLoopback, To4. case_bool_decide as Hp.
  - intros H. right. pose proof (take_drop 12 ip) as E. rewrite Hp in E.
    assert (Hd : length (drop 12 ip) = 4%nat) by (rewrite length_drop; lia).
    assert (HF : Forall is_byte (drop 12 ip)) by by apply Forall_drop.
    destruct (drop 12 ip) as [|a [|b [|c [|d [|]]]]]; try discriminate Hd.
    simpl in H. unbool. subst a. rewrite !Forall_cons in HF.
    exists b, c, d. split_and!; try apply HF. by rewrite <- E.
  - intros H. unbool. by left.
Qed.

(** An accepted listener, spelled out. *)
Definition listens_on (port : Z) (address : string) : Prop :=
  address = "[::1]:" +:+ FormatUint port ∨
  ∃ b c d, is_byte b ∧ is_byte c ∧ is_byte d ∧ address = loopback4 b c d +:+ ":" +:+ FormatUint port.
Definition loopback_listener (address : string) : Prop := ∃ port, 1 <= port <= 65535 ∧ listens_on port address.

Lemma SplitHostPort_port6 n : 0 <= n → SplitHostPort ("[::1]:" +:+ FormatUint n) = Some ("::1", FormatUint n).
Proof. intros. by apply SplitHostPort_loopback6; apply contains_digits. Qed.
Lemma SplitHostPort_port4 b c d n : is_byte b → is_byte c → is_byte d → 0 <= n →
  SplitHostPort (loopback4 b c d +:+ ":" +:+ FormatUint n) = Some (loopback4 b c d, FormatUint n).
Proof.
  intros. apply SplitHostPort_plain; (by apply contains_digits) || by apply string4_plain.
Qed.
Lemma listens_on_split n address : 0 <= n → listens_on n address →
  ∃ host, SplitHostPort address = Some (host, FormatUint n).
Proof.
  intros Hn [->|(b & c & d & Hb & Hc & Hd & ->)];
    eexists; [by apply SplitHostPort_port6|by apply SplitHostPort_port4].
Qed.
Lemma FormatUint_inj m n : u64 m → u64 n → FormatUint m = FormatUint n → m = n.
Proof. intros Hm%ParseUint_FormatUint Hn%ParseUint_FormatUint E. rewrite E in Hm. congruence. Qed.

Lemma JoinHostPort_loopback4 b c d port : is_byte b → is_byte c → is_byte d →
  JoinHostPort (loopback4 b c d) port = loopback4 b c d +:+ ":" +:+ port.
Proof. intros. unfold JoinHostPort. by rewrite string4_plain. Qed.
Lemma FormatInt_nonneg n : 0 <= n → FormatInt n = FormatUint n.
Proof. intros. unfold FormatInt. by destruct (Z.ltb_spec n 0); [lia|]. Qed.

Lemma listener_ok address host port ip n :
  SplitHostPort address = Some (host, port) → ParseIP host = Some ip → IsLoopback ip = true →
  Atoi port = Some n → 1 <= n <= 65535 → JoinHostPort (IPString ip) (FormatInt n) = address →
  ValidateListener address = Ok tt.
Proof.
  intros H1 H2 H3 H4 H5 H6. unfold ValidateListener. rewrite H1, H2, H3, H4, H6, String.eqb_refl. simpl.
  destruct (Z.ltb_spec n 1), (Z.ltb_spec 65535 n); try lia. done.
Qed.

Lemma ValidateListener_exact address : ValidateListener address = Ok tt ↔ loopback_listener address.
Proof.
  split.
  - unfold ValidateListener. destruct (SplitHostPort address) as [[host port]|]; [|done].
    destruct (ParseIP host) as [ip|] eqn:Hip; [|done]. apply ParseIP_shape in Hip as [Hl Hb].
    destruct (IsLoopback ip) eqn:Hloop; [|done]. simpl.
    destruct (Atoi port) as [n|]; [|done]. destruct (_ || _) eqn:E; [done|]. unbool.
    destruct (String.eqb_spec (JoinHostPort (IPString ip) (FormatInt n)) address) as [<-|]; [|done].
    intros _. exists n. split; [lia|]. rewrite FormatInt_nonneg by lia.
    destruct (IsLoopback_inv ip Hl Hb Hloop) as [->|(b & c & d & Hb' & Hc & Hd & ->)]; [by left|].
    right. exists b, c, d. rewrite IPString_loopback4, JoinHostPort_loopback4 by done. done.
  - intros (n & Hn & Hcase).
    assert (Hat : Atoi (FormatUint n) = Some n) by (apply Atoi_FormatUint; unfold MaxInt64; lia).
    destruct Hcase as [->|(b & c & d & Hb & Hc & Hd & ->)].
    + eapply listener_ok; [by apply SplitHostPort_port6; lia|reflexivity|done|exact Hat|done|].
      by rewrite FormatInt_nonneg by lia.
    + eapply listener_ok;
        [apply SplitHostPort_port4; (done || lia)
        |by apply ParseIP_loopback4|apply IsLoopback4|exact Hat|done|].
      by rewrite IPString_loopback4, FormatInt_nonneg, JoinHostPort_loopback4 by (done || lia).
Qed.

Lemma validate_listeners_ok port l : ∀ seen, 1 <= port <= 65535 →
  validate_listeners seen (FormatUint port) l = Ok tt ↔
  Forall (listens_on port) l ∧ NoDup l ∧ ∀ a, a ∈ l → a ∉ seen.
Proof.
  induction l as [|a l IH]; intros seen Hp; simpl.
  { split; [|done]. intros _. split_and!; [constructor..|]. by intros ? ?%not_elem_of_nil. }
  rewrite Forall_cons, NoDup_cons. setoid_rewrite elem_of_cons.
  destruct (String.eqb_spec (FormatUint port) "") as [E|_]; [by apply FormatUint_nonempty in E|]. simpl.
  destruct (ValidateListener a) as [[]|] eqn:Hv.
  2:{ split; [done|]. intros ((Ha & _) & _).
      by rewrite (proj2 (ValidateListener_exact a)) in Hv by by exists port. }
  apply ValidateListener_exact in Hv as (n & Hn & Ha).
  destruct (listens_on_split n a ltac:(lia) Ha) as [host Hs]. rewrite Hs.
  assert (Hu : ∀ k, 1 <= k <= 65535 → u64 k) by (unfold u64, two64; lia).
  destruct (String.eqb_spec (FormatUint n) (FormatUint port)) as [E|Hne]; simpl.
  - apply FormatUint_inj in E; [|auto..]. subst n. case_bool_decide as Hseen.
    + split; [done|]. intros (_ & _ & H). exfalso. apply (H a); auto.
    + rewrite IH by done. setoid_rewrite elem_of_cons.
      split; [intros (HF & Hnd & Hns)|intros ((_ & HF) & (Hna & Hnd) & Hns)]; split_and!; try done.
      * intros Hin. apply (Hns a); auto.
      * intros b [->|Hb]; [done|]. intros Hs'. apply (Hns b); auto.
      * intros b Hb [->|Hs']; [done|]. by apply (Hns b); auto.
  - split; [done|]. intros ((Ha' & _) & _).
    destruct (listens_on_split port a ltac:(lia) Ha') as [host' Hs']. congruence.
Qed.

Lemma Validate_exact (settings : Settings) :
  Validate settings = Ok tt ↔
  se_ConfigVersion settings = 1 ∧ valid_uuid (se_InstanceID settings) = true ∧
  valid_uuid (se_VaultID settings) = true ∧ se_InstanceID settings ≠ se_VaultID settings ∧
  (1 <= length (se_Listeners settings) <= 2)%nat ∧ NoDup (se_Listeners settings) ∧
  ∃ port, 1 <= port <= 65535 ∧ Forall (listens_on port) (se_Listeners settings).
Proof.
  unfold Validate, ConfigVersion.
  destruct (Z.eqb_spec (se_ConfigVersion settings) 1); simpl; [|split; [done|intros [??]; done]].
  destruct (valid_uuid (se_InstanceID settings)); simpl; [|split; [done|intros (?&?&?); done]].
  destruct (valid_uuid (se_VaultID settings)); simpl; [|split; [done|intros (?&?&?&?); done]].
  destruct (String.eqb_spec (se_InstanceID settings) (se_VaultID settings)) as [|Hne];
    [split; [done|intros (?&?&?&?&?); done]|].
  generalize (se_Listeners settings). intros l.
  destruct (Nat.eqb_spec (length l) 0), (Nat.ltb_spec 2 (length l)); simpl;
    try (split; [done|intros (_&_&_&_&?&_); lia]).
  assert (H1 : (∃ port, 1 <= port <= 65535 ∧ Forall (listens_on port) l) ∧ NoDup l ↔
               validate_listeners [] "" l = Ok tt).
  { destruct l as [|a l]; [done|]. simpl. destruct (ValidateListener a) as [[]|] eqn:Hv.
    2:{ split; [|done]. intros ((port & Hp & HF) & _). apply Forall_cons in HF as [Ha _].
        by rewrite (proj2 (ValidateListener_exact a)) in Hv by by exists port. }
    apply ValidateListener_exact in Hv as (k & Hk & Ha).
    destruct (listens_on_split k a ltac:(lia) Ha) as [host Hs]. rewrite Hs.
    rewrite validate_listeners_ok by done. setoid_rewrite Forall_cons. setoid_rewrite list_elem_of_singleton.
    rewrite NoDup_cons. split.
    - intros ((port & Hp & Ha' & HF) & Hnot & Hnd).
      destruct (listens_on_split port a ltac:(lia) Ha') as [host' Hs'].
      assert (E : port = k) by (apply FormatUint_inj; [unfold u64, two64; lia..|congruence]).
      subst. split_and!; [done..|]. by intros b Hb ->.
    - intros (HF & Hnd & Hnot). split_and!; [by exists k| |done]. intros H'. by apply (Hnot a). }
  rewrite <- H1. split; [|tauto]. intros [??]. split_and!; (done || lia).
Qed.

(** The settings the server accepts are exactly these: version 1, two distinct
    canonical identifiers, and one or two distinct loopback addresses in canonical text
    ([127.b.c.d:port] or [[::1]:port]) that share one port between 1 and 65535.  In
    particular no accepted configuration can make the server listen on an address
    other hosts can reach. *)
Theorem settings_accepted_exactly (settings : Settings) :
  Validate settings = Ok tt ↔
  se_ConfigVersion settings = 1 ∧ valid_uuid (se_InstanceID settings) = true ∧
  valid_uuid (se_VaultID settings) = true ∧ se_InstanceID settings ≠ se_VaultID settings ∧
  (1 <= length (se_Listeners settings) <= 2)%nat ∧ NoDup (se_Listeners settings) ∧
  ∃ port, 1 <= port <= 65535 ∧ Forall (listens_on port) (se_Listeners settings).
Proof. apply Validate_exact. Qed.

(** ** Atomic replacement *)
Section atomic_write.
Context (path value : string) (mode o : Z) (fs0 : files).

Definition temporary_name (n : Z) : string := temporary_path (Dir path) ".jat-write-" n.
Definition replaced : files := <[path := Regular mode o 1 value]> fs0.
Definition with_temporary (fs : files) : Prop :=
  ∃ n m c, fs0 !! temporary_name n = None ∧ fs = <[temporary_name n := Regular m o 1 c]> fs0.
(** The states a replacement goes through. *)
Definition write_states (fs : files) : Prop := fs = fs0 ∨ with_temporary fs ∨ fs = replaced.
Abbreviation W := (triple o write_states).

Lemma with_temporary_insert n m c : fs0 !! temporary_name n = None →
  write_states (<[temporary_name n := Regular m o 1 c]> fs0).
Proof. intros H. right. left. by exists n, m, c. Qed.

Lemma write_temporary_spec n m : fs0 !! temporary_name n = None →
  W (<[temporary_name n := Regular m o 1 ""]> fs0) (write_temporary path (temporary_name n) value mode)
    (λ _ fs, fs = replaced).
Proof.
  intros Hn. unfold write_temporary. set (t := temporary_name n) in *.
  assert (Hst : ∀ m c, write_states (<[t := Regular m o 1 c]> fs0)) by (intros; by apply with_temporary_insert).
  eapply (fs_triple_bind _ _ _ _ _ (λ _ fs, fs = <[t := Regular mode o 1 ""]> fs0)).
  { apply triple_context, triple_modify; [apply Hst|intros; apply Hst|]. intros w fs Hw _.
    rewrite Hw, lookup_insert_eq, insert_insert_eq. intros [= <-]. by split. }
  intros _ ? ->. eapply (fs_triple_bind _ _ _ _ _ (λ _ fs, fs = <[t := Regular mode o 1 value]> fs0)).
  { apply triple_context, triple_modify; [apply Hst| |].
    - intros k. rewrite alter_insert_eq. apply Hst.
    - intros w fs Hw _. rewrite Hw, lookup_insert_eq, insert_insert_eq. intros [= <-]. by split. }
  intros _ ? ->.
  do 2 (eapply fs_triple_bind; [apply triple_quiet; [apply Hst|unfold sync_file; quiet]|intros ? ? ->]).
  apply triple_context, triple_modify; [apply Hst|intros; apply Hst|].
  intros w fs Hw _. rewrite Hw, lookup_insert_eq.
  destruct (is_directory _ _); [done|]. rewrite delete_insert_id by done.
  intros [= <-]. split; [by right; right|done].
Qed.

(** Removing the temporary file leads back to the old files. *)
Lemma remove_temporary t fs : write_states fs → fs0 !! t = None → is_Some (fs !! t) → delete t fs = fs0.
Proof.
  intros H Ht Hs.
  assert (Hins : ∀ k x, fs = <[k := x]> fs0 → delete t fs = fs0).
  { intros k x ->. destruct (decide (k = t)) as [->|Hne].
    - by rewrite delete_insert_id.
    - rewrite lookup_insert_ne, Ht in Hs by done. by destruct Hs. }
  destruct H as [->|[(n & m & c & _ & E)|E]]; [|by eapply Hins..].
  rewrite Ht in Hs. by destruct Hs.
Qed.
Lemma Remove_spec t fs : write_states fs → fs0 !! t = None → W fs (Remove t) (λ _ fs', fs' = fs0).
Proof.
  intros H Ht. apply triple_modify; [done|done|]. intros w fs' ->.
  destruct (fs !! t) as [x|] eqn:E; [|done]. intros _ [= <-].
  rewrite (remove_temporary t fs) by (done || by eexists). split; [by left|done].
Qed.

Lemma WriteFileAtomic_spec : W fs0 (WriteFileAtomic path value mode) (λ _ fs, fs = replaced).
Proof.
  assert (H0 : write_states fs0) by by left.
  assert (Hr : write_states replaced) by by right; right.
  unfold WriteFileAtomic.
  eapply fs_triple_bind; [apply triple_quiet; [done|quiet]|]. intros _ ? ->.
  eapply fs_triple_bind; [apply triple_quiet; [done|quiet]|]. intros existing ? ->.
  eapply fs_triple_bind; [apply triple_quiet; [done|quiet]|]. intros _ ? ->.
  eapply fs_triple_bind.
  { apply triple_context, triple_CreateTemp; [done|]. intros n m Hn. by apply (with_temporary_insert n). }
  intros t ? (Ht & (n & ->) & m & ->).
  eapply fs_triple_bind; [by apply triple_attempt, write_temporary_spec|]. intros installed fs [Hfs Hok].
  eapply (fs_triple_bind _ _ _ _ _ (λ _ fs', fs' = replaced)).
  { destruct installed as [[]|e].
    - apply fs_triple_ret; [done|by apply (Hok tt)].
    - eapply fs_triple_bind; [by apply triple_attempt, Remove_spec|]. intros ? ? [? _]. by apply triple_raise. }
  intros _ ? ->. eapply fs_triple_bind; [apply triple_quiet; [done|quiet]|]. intros _ ? ->.
  apply triple_quiet; [done|quiet].
Qed.
End atomic_write.

(** Protected files are replaced atomically, whatever fails and wherever the process
    is stopped.  Every state the file system goes through is the old one, the old one plus
    one temporary file, or the old one with the target holding exactly the new content,
    owned by the user, with the requested mode and one link; success means the last, with
    no temporary file left behind. *)
Theorem write_file_atomic (path value : string) (mode : Z) (w : World) :
  let run := WriteFileAtomic path value mode w in
  (∃ added, w_trace run.1 = added ++ w_trace w ∧
     Forall (write_states path value mode (w_euid w) (w_files w)) (w_files run.1 :: added)) ∧
  (run.2 = Ok tt → w_files run.1 = <[path := Regular mode (w_euid w) 1 value]> (w_files w)).
Proof.
  intros run. destruct (WriteFileAtomic_spec path value mode (w_euid w) (w_files w) w eq_refl eq_refl)
    as [(_ & added & Ht & HF & Hw) Hok].
  split; [exists added; split; [done|by constructor]|]. apply Hok.
Qed.

(** ** Saved settings are read back *)
Lemma inspect_fault_free {A} (f : World → res ferr A) w : w_faults w = [] → inspect f w = (w, f w).
Proof. intros H. unfold inspect, next_fault. by rewrite H. Qed.

Lemma readProtectedFile_ok path content mode limit w :
  w_faults w = [] → w_files w !! path = Some (Regular mode (w_euid w) 1 content) → slen content <= limit →
  readProtectedFile path mode limit w = (w, Ok content).
Proof.
  intros Hf Hw Hl. unfold readProtectedFile, openProtectedFile, open_nofollow, sync_file, ask, mbind, fsm_bind.
  rewrite !inspect_fault_free by done. rewrite Hw. cbn -[Z.ldiff].
  rewrite Z.eqb_refl, Z.ldiff_diag. cbn. rewrite inspect_fault_free by done. unfold check.
  by rewrite (proj2 (Z.leb_le _ _) Hl).
Qed.

Lemma length_format_digits fuel n : (String.length (format_digits fuel n) <= fuel)%nat.
Proof.
  revert n. induction fuel as [|f IH]; intros n; simpl; [lia|].
  destruct (n <? 10); simpl; [lia|]. rewrite length_sapp. specialize (IH (n / 10)). simpl. lia.
Qed.
Lemma listens_on_plain port address : 0 <= port → listens_on port address →
  plain address = true ∧ (String.length address <= 200)%nat.
Proof.
  intros Hp Ha.
  assert (Hlen : ∀ n, (String.length (FormatUint n) <= 20)%nat) by (intros; apply length_format_digits).
  destruct Ha as [->|(b & c & d & Hb & Hc & Hd & ->)]; unfold is_byte in *.
  - split; [by apply plain_app; [|apply plain_FormatUint]|]. rewrite length_sapp. specialize (Hlen port). simpl. lia.
  - unfold loopback4, string4. cbn [map join].
    pose proof (Hlen 127). pose proof (Hlen b). pose proof (Hlen c). pose proof (Hlen d). pose proof (Hlen port).
    split.
    + repeat (apply plain_app || apply plain_FormatUint || (apply plain_cons; split) || reflexivity || lia).
    + rewrite !length_sapp. cbn [String.length]. rewrite !length_sapp. cbn [String.length].
      rewrite !length_sapp. cbn [String.length]. lia.
Qed.

Lemma length_uuid s : valid_uuid s = true → String.length s = 36%nat.
Proof.
  unfold valid_uuid. destruct (Parse s) as [l|] eqn:E; [|done]. intros _.
  apply Parse_Some in E as (-> & Hl & _). by apply Format_length.
Qed.

(** Accepted settings print without escapes and far below the size limit. *)
Lemma valid_settings_wire settings : Validate settings = Ok tt →
  wire_plain settings = true ∧ slen (indentedJSON settings) <= maxConfigBytes.
Proof.
  intros H%Validate_exact. destruct settings as [version instance vault listeners]. simpl in H.
  destruct H as (-> & Hi & Hv & _ & Hl & _ & port & Hp & HF).
  pose proof (plain_uuid _ Hi) as Hpi. pose proof (plain_uuid _ Hv) as Hpv.
  apply length_uuid in Hi, Hv.
  assert (HF' : Forall (λ a, plain a = true ∧ (String.length a <= 200)%nat) listeners).
  { eapply Forall_impl; [exact HF|]. intros a. apply listens_on_plain. lia. }
  destruct listeners as [|a [|b [|]]]; simpl in Hl; try lia; rewrite ?Forall_cons in HF';
    destruct HF' as [[Ha La] HF']; [|destruct HF' as [[Hb Lb] _]];
    (split; [cbn -[plain]; by rewrite ?Hpi, ?Hpv, ?Ha, ?Hb|]);
    unfold slen, maxConfigBytes, indentedJSON; cbn -[print_string String.append newline Z.mul Z.of_nat];
    rewrite ?sapp_nil_r; repeat (rewrite !length_sapp || rewrite !length_print_plain by (done || reflexivity));
    rewrite ?Hi, ?Hv; vm_compute (String.length newline); simpl; lia.
Qed.

(** What SaveSettings leaves in the file. *)
Lemma SaveSettings_ok path settings w w' : SaveSettings path settings w = (w', Ok tt) →
  Validate settings = Ok tt ∧ w_euid w' = w_euid w ∧
  w_files w' = <[path := Regular secretFileMode (w_euid w) 1 (indentedJSON settings)]> (w_files w).
Proof.
  unfold SaveSettings, valid_or_fail. destruct (Validate settings) as [[]|e] eqn:Hv; [|done].
  intros H. change (WriteFileAtomic path (indentedJSON settings) secretFileMode w = (w', Ok tt)) in H.
  destruct (WriteFileAtomic_spec path (indentedJSON settings) secretFileMode (w_euid w) (w_files w) w eq_refl eq_refl)
    as [(He & _) Hok]. rewrite H in He, Hok. split_and!; [done|done|]. by apply (Hok tt).
Qed.

(** Settings survive storage: once SaveSettings has succeeded, LoadSettings of the same
    file returns the same settings, without changing anything. *)
Theorem settings_saved_and_loaded (path : string) (settings : Settings) (w w' : World) :
  SaveSettings path settings w = (w', Ok tt) → w_faults w' = [] →
  LoadSettings path w' = (w', Ok settings).
Proof.
  intros (Hv & He & Hw)%SaveSettings_ok Hf.
  destruct (valid_settings_wire settings Hv) as [Hp Hl].
  assert (Hread : readStrictJSON Settings path w' = (w', Ok settings)).
  { unfold readStrictJSON, mbind, fsm_bind.
    rewrite (readProtectedFile_ok path (indentedJSON settings)) by (done || by rewrite Hw, He, lookup_insert_eq).
    by rewrite decodeStrictStream_indented. }
  unfold LoadSettings, attempt, mbind, fsm_bind. rewrite Hread. unfold mret, fsm_ret, in_context, valid_or_fail.
  by rewrite Hv.
Qed.

Definition sample_settings : Settings :=
  Mk_Settings 1 "11111111-1111-4111-8111-111111111111" "22222222-2222-4222-8222-222222222222"
    ["127.0.0.1:37421"; "[::1]:37421"].
(** A user's empty state directory. *)
Definition sample_world : World :=
  mkWorld (<["/state" := Directory 448 1000]> ∅) 1000 18 (repeat 7 16 ++ repeat 9 48) Z.of_nat [] [].

Lemma settings_saved_and_loaded_witness :
  ∃ w', SaveSettings "/state/config.json" sample_settings sample_world = (w', Ok tt) ∧ w_faults w' = [] ∧
        LoadSettings "/state/config.json" w' = (w', Ok sample_settings).
Proof.
  exists (SaveSettings "/state/config.json" sample_settings sample_world).1.
  assert (H : SaveSettings "/state/config.json" sample_settings sample_world =
    ((SaveSettings "/state/config.json" sample_settings sample_world).1, Ok tt)) by (vm_compute; reflexivity).
  assert (Hf : w_faults (SaveSettings "/state/config.json" sample_settings sample_world).1 = [])
    by (vm_compute; reflexivity).
  split; [exact H|]. split; [exact Hf|].
  exact (settings_saved_and_loaded "/state/config.json" sample_settings sample_world _ H Hf).
Defined.
