(* ===== verification/InstanceProps.v ===== *)
(** * Initialization can be resumed and never changes what it has written

    Theorems about [src/runtime/internal/instance]: at every moment of any number of
    interrupted and repeated initializations, and of the servers opened in between, the
    settings and the secret are absent or complete, once written they never change, and
    the marker says ready only beside both. *)

From stdpp Require Import base list strings gmap.
From Stdlib Require Import ZArith Lia Ascii.
From Stdlib Require String.
From S2P Require Import Prelude GoStd Uuid Json JsonFacts Api Wire Indent Models Release NetIP Fs Paths Config ConfigProps Layout Instance.
Local Open Scope Z_scope.

(** ** What the store and the locks promise

    The store touches only the files of its database; locking changes no file. *)
Definition database_file (database path : string) : Prop :=
  ∃ suffix, suffix ∈ [""; "-wal"; "-shm"; "-journal"] ∧ path = database +:+ suffix.
Definition same_outside (database : string) (fs0 fs : files) : Prop := ∀ path, ¬ database_file database path → fs !! path = fs0 !! path.
Class InstanceLaws `{InstanceHost} : Prop := {
  store_Open_within : ∀ database identity o fs,
    triple o (same_outside database fs) fs (store_Open database identity) (λ _ _, True);
  store_Close_within : ∀ database o fs, triple o (same_outside database fs) fs (store_Close database) (λ _ _, True);
  flock_nb_quiet : ∀ path, Quiet (flock_nb path);
  flock_release_quiet : ∀ path, Quiet (flock_release path) }.
#[export] Hint Resolve flock_nb_quiet flock_release_quiet : quiet.

(** ** The files of an instance *)
(** Whether a name is in a list of names. *)
Ltac absent :=
  repeat first [apply not_elem_of_cons; split; [done|] | apply not_elem_of_nil | apply elem_of_cons; left; reflexivity | apply elem_of_cons; right].
Definition owned_file (o : Z) (n : option node) (content : string) : Prop := n = Some (Regular secretFileMode o 1 content).
Record iview := mkView { v_config : option node; v_secret : option node; v_marker : option node }.
Section paths.
Context (r : list string) (Hr : components r).
Abbreviation dir := (abs r).
Abbreviation paths := (ForStateDir dir).
Definition view_in (fs : files) : iview :=
  mkView (fs !! ConfigPath paths) (fs !! InstanceSecret paths) (fs !! InstallMarkerPath paths).
Definition instance_file (path : string) : Prop := path ∈ [ConfigPath paths; InstanceSecret paths; InstallMarkerPath paths].

Lemma Join_dir name : component name = true → Join [dir; name] = abs (r ++ [name]).
Proof. by apply Join_abs. Qed.
Lemma instance_file_inv path : instance_file path →
  ∃ name, name ∈ ["config.json"; "instance-secret"; "install-state.json"] ∧ path = abs (r ++ [name]).
Proof.
  unfold instance_file. simpl. rewrite !Join_dir by done. intros Hp.
  repeat (apply elem_of_cons in Hp as [->|Hp]; [eexists; split; [|done]; absent|]). by apply not_elem_of_nil in Hp.
Qed.
Lemma beside_ne name path : component name = true → name ∉ ["config.json"; "instance-secret"; "install-state.json"] →
  instance_file path → path ≠ abs (r ++ [name]).
Proof.
  intros Hc Hn (name' & Hin & ->)%instance_file_inv E.
  assert (Hc' : component name' = true).
  { repeat (apply elem_of_cons in Hin as [->|Hin]; [done|]). by apply not_elem_of_nil in Hin. }
  apply abs_inj in E; [|apply Forall_app; by split; [|constructor]..]. apply app_inv_head in E. injection E as ->. done.
Qed.
Lemma same_view fs0 fs : (∀ path, instance_file path → fs !! path = fs0 !! path) → view_in fs = view_in fs0.
Proof. intros Hs. unfold view_in. by rewrite !Hs by (unfold instance_file; absent). Qed.

(** Database files, ancestors, temporaries and locks are none of them. *)
Lemma abs_append x y : abs (r ++ [x]) +:+ y = abs (r ++ [x +:+ y]).
Proof.
  unfold abs. destruct r as [|e es]; [done|]. rewrite !join_snoc by done. by rewrite !sapp_assoc.
Qed.
Lemma database_file_ne path q : instance_file path → database_file (Database paths) q → path ≠ q.
Proof.
  intros Hp (suffix & Hs & ->). simpl. rewrite Join_dir, abs_append by done.
  repeat (apply elem_of_cons in Hs as [->|Hs]; [apply beside_ne; [done|absent|done]|]). by apply not_elem_of_nil in Hs.
Qed.
Lemma ancestors_spec es : ∀ prefix done p, (prefix = "" ∧ done = [] ∨ prefix = abs done ∧ done ≠ []) →
  p ∈ ancestors prefix es → ∃ k, p = abs (done ++ take k es) ∧ (0 < k <= length es)%nat.
Proof.
  induction es as [|e es IH]; intros prefix l p Hpre Hp; [by apply not_elem_of_nil in Hp|]. simpl in Hp.
  assert (E : prefix +:+ "/" +:+ e = abs (l ++ [e])).
  { destruct Hpre as [[-> ->]|[-> Hne]]; [done|]. unfold abs. rewrite join_snoc by done. by rewrite sapp_assoc. }
  apply elem_of_cons in Hp as [->|Hp].
  - exists 1%nat. simpl. rewrite E. split; [by destruct es|lia].
  - destruct (IH (prefix +:+ "/" +:+ e) (l ++ [e]) p) as (k & -> & Hk); [right; split; [done|by destruct l]|done|].
    exists (S k). simpl. rewrite <- app_assoc. split; [done|lia].
Qed.
Lemma ancestor_ne path p : instance_file path → p ∈ ancestors "" (elements dir) → path ≠ p.
Proof.
  intros (name & Hn & ->)%instance_file_inv Hp E. rewrite elements_abs in Hp by done.
  destruct (ancestors_spec r "" [] p (or_introl (conj eq_refl eq_refl)) Hp) as (k & -> & Hk). simpl in E.
  assert (Hc : component name = true).
  { repeat (apply elem_of_cons in Hn as [->|Hn]; [done|]). by apply not_elem_of_nil in Hn. }
  apply abs_inj in E; [|apply Forall_app; by split; [|constructor]|by apply Forall_take].
  apply (f_equal length) in E. rewrite length_app, length_take in E. simpl in E. lia.
Qed.
Lemma dir_ne path : instance_file path → path ≠ dir.
Proof.
  intros (name & Hn & ->)%instance_file_inv E.
  assert (Hc : component name = true).
  { repeat (apply elem_of_cons in Hn as [->|Hn]; [done|]). by apply not_elem_of_nil in Hn. }
  apply abs_inj in E; [|apply Forall_app; by split; [|constructor]|done].
  apply (f_equal length) in E. rewrite length_app in E. simpl in E. lia.
Qed.
Lemma make_directories_other mode w ps : ∀ fs fs' q, make_directories mode w fs ps = Ok fs' → q ∉ ps → fs' !! q = fs !! q.
Proof.
  induction ps as [|p ps IH]; intros fs fs' q; simpl; [by intros [= <-]|]. rewrite not_elem_of_cons. intros Hm [Hp Hq].
  destruct (fs !! p) as [[]|]; try done; [by eapply IH|]. erewrite IH by done. by apply lookup_insert_ne.
Qed.

(** ** Computations that leave the instance's files alone *)
Definition iapart {A} (m : FsM A) : Prop := ∀ o fs, triple o (λ fs', view_in fs' = view_in fs) fs m (λ _ _, True).
Lemma iapart_quiet {A} (m : FsM A) : Quiet m → iapart m.
Proof. intros Hm o fs. eapply triple_post; [by apply triple_quiet|done]. Qed.
Lemma triple_widen {A} o (P P' : files → Prop) pre (m : FsM A) Q :
  triple o P pre m Q → (∀ fs, P fs → P' fs) → triple o P' pre m Q.
Proof. intros Hm HP w Hw Ho. destruct (Hm w Hw Ho) as [Hp Hq]. split; [by eapply passes_impl|done]. Qed.
Lemma triple_ends {A} o (P : files → Prop) pre (m : FsM A) Q : triple o P pre m Q → triple o P pre m (λ a fs, P fs ∧ Q a fs).
Proof.
  intros Hm w Hw Ho. destruct (Hm w Hw Ho) as [Hp Hq]. split; [done|]. intros a Ha.
  split; [by destruct Hp as (_ & ? & _ & _ & ?)|auto].
Qed.
Lemma iapart_bind {A B} (m : FsM A) (f : A → FsM B) : iapart m → (∀ a, iapart (f a)) → iapart (m ≫= f).
Proof.
  intros Hm Hf o fs. eapply fs_triple_bind; [apply triple_ends, Hm|]. intros a mid [Hv _].
  eapply triple_widen; [apply Hf|]. simpl. by intros fs' ->.
Qed.
Lemma iapart_attempt {A} (m : FsM A) : iapart m → iapart (attempt m).
Proof. intros Hm o fs. eapply triple_post; [by apply triple_attempt|done]. Qed.
Lemma iapart_context {A} context (m : FsM A) : iapart m → iapart (in_context context m).
Proof. intros Hm o fs. by apply triple_context. Qed.
Lemma iapart_modify f partial : (∀ n fs, view_in (partial n fs) = view_in fs) →
  (∀ w fs, f w = Ok fs → view_in fs = view_in (w_files w)) → iapart (modify f partial).
Proof. intros Hp Hf o fs. apply triple_modify; [done|auto|]. intros w fs' <- _ E. split; [by apply Hf|done]. Qed.
Lemma view_insert_other path n fs : (∀ q, instance_file q → q ≠ path) → view_in (<[path := n]> fs) = view_in fs.
Proof. intros Hne. apply same_view. intros q Hq. apply lookup_insert_ne. intros E. by apply (Hne q). Qed.
Lemma iapart_MkdirAll mode : iapart (MkdirAll dir mode).
Proof.
  apply iapart_modify; [done|]. intros w fs E. apply same_view. intros path Hp. eapply make_directories_other; [exact E|].
  intros Hin. by apply (ancestor_ne path path Hp Hin).
Qed.
Lemma iapart_Chmod mode : iapart (Chmod dir mode).
Proof.
  apply iapart_modify; [done|]. intros w fs. destruct (_ !! _); [|done]. intros [= <-]. apply view_insert_other, dir_ne.
Qed.
Lemma iapart_create name mode : component name = true → name ∉ ["config.json"; "instance-secret"; "install-state.json"] →
  iapart (create_exclusive (Join [dir; name]) mode).
Proof.
  intros Hc Hn. apply iapart_modify; [done|]. intros w fs. destruct (_ !! _); [done|]. destruct (is_directory _ _); [|done].
  intros [= <-]. unfold create_node. apply view_insert_other. intros q Hq. rewrite Join_dir by done. by apply beside_ne.
Qed.
End paths.
Create HintDb iapart.
#[export] Hint Resolve iapart_MkdirAll iapart_Chmod : iapart.
Ltac iapart :=
  repeat lazymatch goal with
  | |- iapart _ (mbind _ _) => apply iapart_bind; [|intros ?]
  | |- iapart _ (attempt _) => apply iapart_attempt
  | |- iapart _ (in_context _ _) => apply iapart_context
  | |- iapart _ (match ?x with _ => _ end) => destruct x
  | |- iapart _ (match ?x with _ => _ end _) => destruct x
  | |- iapart _ _ => first [solve [auto with iapart nocore] | apply iapart_quiet; solve [unfold Lstat, open_nofollow, sync_file, fstat; quiet]]
  end.

Section instance.
Context `{InstanceLaws} (r : list string) (Hr : components r).
Abbreviation dir := (abs r).
Abbreviation paths := (ForStateDir dir).
Abbreviation iapart := (iapart r).
Hint Resolve Hr : iapart.

Lemma iapart_EnsureStateDirectory : iapart (EnsureStateDirectory dir).
Proof. unfold EnsureStateDirectory. iapart. Qed.
Lemma iapart_store_Open identity : iapart (store_Open (Database paths) identity).
Proof.
  intros o fs. eapply triple_widen; [apply store_Open_within|]. intros fs' Hs. apply same_view. intros path Hp. apply Hs.
  intros Hd. by eapply database_file_ne.
Qed.
Lemma iapart_store_Close : iapart (store_Close (Database paths)).
Proof.
  intros o fs. eapply triple_widen; [apply store_Close_within|]. intros fs' Hs. apply same_view. intros path Hp. apply Hs.
  intros Hd. by eapply database_file_ne.
Qed.
Hint Resolve iapart_EnsureStateDirectory iapart_store_Open iapart_store_Close : iapart.
Lemma iapart_attestPathIdentity lock : iapart (attestPathIdentity lock).
Proof. unfold attestPathIdentity. iapart. Qed.
Lemma iapart_lock_Close lock : iapart (lock_Close lock).
Proof. unfold lock_Close. iapart. Qed.
Hint Resolve iapart_attestPathIdentity iapart_lock_Close : iapart.
Lemma iapart_acquireNamedLockMode name busy mode : component name = true →
  name ∉ ["config.json"; "instance-secret"; "install-state.json"] → iapart (acquireNamedLockMode dir name busy mode).
Proof.
  intros Hc Hn. pose proof (iapart_create r Hr name 384 Hc Hn) as Hcreate.
  unfold acquireNamedLockMode, open_lock_file. iapart.
Qed.
Lemma iapart_lease present : iapart (acquireInitializationLease dir present).
Proof.
  unfold acquireInitializationLease, acquireLock, acquireLockWithPresence. iapart; apply iapart_acquireNamedLockMode; (done || absent).
Qed.
Lemma iapart_OpenInstance : iapart (OpenInstance dir).
Proof. unfold OpenInstance, complete_marker. iapart. Qed.
Hint Resolve iapart_lease iapart_OpenInstance : iapart.
Lemma iapart_OpenForServe : iapart (OpenForServe dir).
Proof. unfold OpenForServe. iapart; apply iapart_acquireNamedLockMode; (done || absent). Qed.
End instance.

(** ** What reads say *)
Lemma readProtectedFile_result path allowed limit w :
  match (readProtectedFile path allowed limit w).2 with
  | Ok payload => ∃ mode, w_files w !! path = Some (Regular mode (w_euid w) 1 payload)
  | Err NotExist => w_files w !! path = None
  | Err Uninitialized => False
  | Err _ => True
  end.
Proof.
  unfold readProtectedFile, openProtectedFile, open_nofollow, sync_file, inspect, mbind, fsm_bind, ask, lift, check.
  pose proof (next_fault_files w) as Hf. pose proof (next_fault_euid w) as He. destruct (next_fault w) as [w1 [|]]; [done|].
  simpl in *. rewrite Hf. destruct (w_files w !! path) as [n|] eqn:E; [|done].
  destruct n as [m ow|m ow nl content| |]; simpl; try done.
  all: pose proof (next_fault_euid w1) as He1; destruct (next_fault w1) as [w2 [|]]; [done|]; simpl in *; try done.
  destruct (Z.eqb_spec ow (w_euid w2)); [|done]. destruct (Z.eqb_spec nl 1); [|done]. destruct (_ =? _); [|done]. simpl.
  destruct (next_fault w2) as [w3 [|]]; [done|]. simpl. destruct (_ <=? _); [|done]. simpl. subst. exists m. by rewrite He1, He.
Qed.
Lemma readStrictJSON_result A `{GoJSON A} path w :
  match (readStrictJSON A path w).2 with
  | Ok a => ∃ mode payload, w_files w !! path = Some (Regular mode (w_euid w) 1 payload) ∧ decodeStrictStream A payload = Some a
  | Err NotExist => w_files w !! path = None
  | Err Uninitialized => False
  | Err _ => True
  end.
Proof.
  unfold readStrictJSON, mbind, fsm_bind. pose proof (readProtectedFile_result path secretFileMode maxConfigBytes w) as Hr.
  destruct (readProtectedFile _ _ _ w) as [w1 [payload|e]]; simpl in *; [|by destruct e]. destruct Hr as [mode Hr].
  destruct (decodeStrictStream A payload) as [a|] eqn:E; [|done]. simpl. eauto.
Qed.
Lemma LoadSettings_result path w :
  match (LoadSettings path w).2 with
  | Ok s => ∃ mode payload, w_files w !! path = Some (Regular mode (w_euid w) 1 payload) ∧ decodeStrictStream Settings payload = Some s
  | Err Uninitialized => w_files w !! path = None
  | Err _ => True
  end.
Proof.
  unfold LoadSettings, mbind, fsm_bind, attempt. pose proof (readStrictJSON_result Settings path w) as Hr.
  destruct (readStrictJSON Settings path w) as [w1 [s|e]]; simpl in *; [|by destruct e].
  unfold in_context, valid_or_fail. by destruct (Validate s).
Qed.
Lemma LoadMarker_result path w :
  match (LoadMarker path w).2 with
  | Ok m => ∃ mode payload, w_files w !! path = Some (Regular mode (w_euid w) 1 payload) ∧ decodeStrictStream InstallMarker payload = Some m
  | Err NotExist => w_files w !! path = None
  | Err _ => True
  end.
Proof.
  unfold LoadMarker, mbind, fsm_bind. pose proof (readStrictJSON_result InstallMarker path w) as Hr.
  destruct (readStrictJSON InstallMarker path w) as [w1 [m|e]]; simpl in *; [|by destruct e].
  unfold valid_or_fail. by destruct (check_marker m).
Qed.
Lemma ReadSecret_result path w :
  match (ReadSecret path w).2 with
  | Ok _ => w_files w !! path ≠ None
  | Err NotExist => w_files w !! path = None
  | Err _ => True
  end.
Proof.
  unfold ReadSecret, mbind, fsm_bind. pose proof (readProtectedFile_result path secretFileMode 33 w) as Hr.
  destruct (readProtectedFile _ _ _ w) as [w1 [k|e]]; simpl in *; [|by destruct e].
  unfold check. destruct (_ =? _); simpl; [|done]. destruct Hr as [? ->]. done.
Qed.
Lemma NewSettings_valid listeners w s : (NewSettings listeners w).2 = Ok s → Validate s = Ok tt.
Proof.
  unfold NewSettings, mbind, fsm_bind. destruct (uuid_new w) as [w1 [a|]]; [|done]. destruct (uuid_new w1) as [w2 [b|]]; [|done].
  unfold valid_or_fail. destruct (Validate _) as [[]|] eqn:E; [|done]. simpl. by intros [= <-].
Qed.

(** ** What an initialization leaves *)
(** The content of a file, without looking into it. *)
Lemma file_content m o n c m' o' n' c' : Some (Regular m o n c) = Some (Regular m' o' n' c') → c = c'.
Proof. by intros [=]. Qed.

Section invariant.
Context (o : Z).
Definition holds_settings (n : option node) (s : Settings) : Prop := Validate s = Ok tt ∧ owned_file o n (indentedJSON s).
Definition holds_secret (n : option node) : Prop := ∃ secret, slen secret = 32 ∧ owned_file o n secret.
Definition marked (marker : InstallMarker) (v : iview) : Prop := owned_file o (v_marker v) (indentedJSON marker).
(** Each file is absent or complete; the secret comes after the settings, and the marker
    of completion after both. *)
Record inst_ok (v : iview) : Prop := {
  ok_config : v_config v = None ∨ ∃ s, holds_settings (v_config v) s;
  ok_secret : v_secret v = None ∨ holds_secret (v_secret v) ∧ v_config v ≠ None;
  ok_marker : v_marker v = None ∨ marked initializing_marker v ∨
              marked ready_marker v ∧ v_config v ≠ None ∧ v_secret v ≠ None }.
(** What was written stays. *)
Record keeps (v0 v : iview) : Prop := {
  keeps_config : v_config v0 ≠ None → v_config v = v_config v0;
  keeps_secret : v_secret v0 ≠ None → v_secret v = v_secret v0;
  keeps_ready : marked ready_marker v0 → v_marker v = v_marker v0 }.
Definition Inv (v0 v : iview) : Prop := inst_ok v ∧ keeps v0 v.
Definition completed (s : Settings) (v : iview) : Prop :=
  holds_settings (v_config v) s ∧ holds_secret (v_secret v) ∧ marked ready_marker v.

Lemma keeps_refl v : keeps v v.
Proof. by split. Qed.
Lemma keeps_trans v0 v1 v2 : keeps v0 v1 → keeps v1 v2 → keeps v0 v2.
Proof.
  intros [H1 H2 H3] [H4 H5 H6]. split.
  - intros Hn. rewrite H4; [auto|]. by rewrite H1.
  - intros Hn. rewrite H5; [auto|]. by rewrite H2.
  - intros Hn. rewrite H6; [auto|]. unfold marked in *. by rewrite H3.
Qed.
Lemma markers_ne : indentedJSON initializing_marker ≠ indentedJSON ready_marker.
Proof. by vm_compute. Qed.
Lemma markers_differ v : marked initializing_marker v → ¬ marked ready_marker v.
Proof. unfold marked, owned_file. intros -> E%file_content. by apply markers_ne. Qed.
Lemma settings_decode s : Validate s = Ok tt → decodeStrictStream Settings (indentedJSON s) = Some s.
Proof. intros Hv. apply decodeStrictStream_indented. by apply valid_settings_wire. Qed.
Lemma settings_read s n mode payload s' : holds_settings n s → n = Some (Regular mode o 1 payload) →
  decodeStrictStream Settings payload = Some s' → s' = s.
Proof.
  intros [Hv ->] E Hd. apply file_content in E. rewrite <- E, settings_decode in Hd by done. congruence.
Qed.
Lemma marker_read m v mode payload m' : wire_plain m = true → marked m v → v_marker v = Some (Regular mode o 1 payload) →
  decodeStrictStream InstallMarker payload = Some m' → m' = m.
Proof.
  unfold marked, owned_file. intros Hp -> E Hd. apply file_content in E. rewrite <- E, decodeStrictStream_indented in Hd by done. congruence.
Qed.
Lemma completed_same s s' v v' : completed s v → keeps v v' → completed s' v' → s' = s.
Proof.
  intros ((Hs & Hc) & _) [Hk _ _] ((Hs' & Hc') & _). unfold owned_file in *. rewrite Hc in Hk. rewrite Hk in Hc' by done.
  apply file_content in Hc'. apply settings_decode in Hs, Hs'. rewrite Hc' in Hs. congruence.
Qed.
End invariant.

Section triples.
Context (r : list string) (Hr : components r) (o : Z) (v0 : iview).
Abbreviation dir := (abs r).
Abbreviation paths := (ForStateDir dir).
Abbreviation view_in := (view_in r).
Abbreviation iapart := (iapart r).
Abbreviation Inv := (Inv o v0).
Definition itriple {A} (v : iview) (m : FsM A) (Q : A → iview → Prop) : Prop :=
  ∀ fs, view_in fs = v → triple o (λ fs', Inv (view_in fs')) fs m (λ a fs', Q a (view_in fs')).

Lemma itriple_ret {A} v (a : A) (Q : A → iview → Prop) : Inv v → Q a v → itriple v (mret a) Q.
Proof. intros Hi Hq fs <-. by apply fs_triple_ret. Qed.
Lemma itriple_raise {A} v e (Q : A → iview → Prop) : Inv v → itriple v (raise e) Q.
Proof. intros Hi fs <-. by apply triple_raise. Qed.
Lemma itriple_bind {A B} v (m : FsM A) (f : A → FsM B) Q R :
  itriple v m Q → (∀ a v', Q a v' → itriple v' (f a) R) → itriple v (m ≫= f) R.
Proof. intros Hm Hf fs Hfs. eapply fs_triple_bind; [by apply Hm|]. intros a mid HQ. by apply (Hf a (view_in mid)). Qed.
Lemma itriple_context {A} v context (m : FsM A) Q : itriple v m Q → itriple v (in_context context m) Q.
Proof. intros Hm fs Hfs. by apply triple_context, Hm. Qed.
Lemma itriple_post {A} v (m : FsM A) (Q R : A → iview → Prop) : itriple v m Q → (∀ a v', Q a v' → R a v') → itriple v m R.
Proof. intros Hm HR fs Hfs. eapply triple_post; [by apply Hm|]. simpl. auto. Qed.
Lemma itriple_attempt {A} v (m : FsM A) Q : itriple v m Q → itriple v (attempt m) (λ res v', Inv v' ∧ ∀ a, res = Ok a → Q a v').
Proof. intros Hm fs Hfs. by apply triple_attempt, Hm. Qed.
Lemma itriple_apart {A} v (m : FsM A) : iapart m → Inv v → itriple v m (λ _ v', v' = v).
Proof.
  intros Hm Hi fs <-. eapply triple_post; [eapply triple_widen; [apply triple_ends, Hm|by intros fs' ->]|]. by intros a fs' [? _].
Qed.
Lemma itriple_skip {A B} v (m : FsM A) (f : A → FsM B) Q : iapart m → Inv v → (∀ a, itriple v (f a) Q) → itriple v (m ≫= f) Q.
Proof. intros Hm Hi Hf. eapply itriple_bind; [by apply itriple_apart|]. intros a ? ->. apply Hf. Qed.
(** A read, with what its result says of the files. *)
Lemma itriple_read {A} v (m : FsM A) (R : res ferr A → Prop) : Quiet m → Inv v →
  (∀ w, view_in (w_files w) = v → w_euid w = o → R (m w).2) → itriple v (attempt m) (λ res v', R res ∧ v' = v).
Proof.
  intros Hm Hi HR fs Hfs w Hw Ho. destruct (Hm w) as (E1 & E2 & E3). unfold attempt. specialize (HR w).
  destruct (m w) as [w1 res]; simpl in *. subst fs. split.
  - split; [done|]. exists []. rewrite E1, E2, Hfs. split_and!; [done|constructor|done].
  - intros ? [= <-]. rewrite E1. split; [by apply HR|done].
Qed.
Lemma itriple_read_ok {A} v (m : FsM A) (R : A → Prop) : Quiet m → Inv v →
  (∀ w a, view_in (w_files w) = v → w_euid w = o → (m w).2 = Ok a → R a) → itriple v m (λ a v', R a ∧ v' = v).
Proof.
  intros Hm Hi HR fs Hfs w Hw Ho. destruct (Hm w) as (E1 & E2 & E3). specialize (HR w).
  destruct (m w) as [w1 res]; simpl in *. subst fs. split.
  - split; [done|]. exists []. rewrite E1, E2, Hfs. split_and!; [done|constructor|done].
  - intros a ->. rewrite E1. split; [by apply HR|done].
Qed.

(** Writing one of the three files. *)
Definition set_config (n : node) (v : iview) : iview := mkView (Some n) (v_secret v) (v_marker v).
Definition set_secret (n : node) (v : iview) : iview := mkView (v_config v) (Some n) (v_marker v).
Definition set_marker (n : node) (v : iview) : iview := mkView (v_config v) (v_secret v) (Some n).
Lemma files_differ : ConfigPath paths ≠ InstanceSecret paths ∧ ConfigPath paths ≠ InstallMarkerPath paths ∧
  InstanceSecret paths ≠ InstallMarkerPath paths.
Proof.
  simpl. rewrite !Join_dir by done.
  split_and!; (intros E; apply abs_inj in E; [|apply Forall_app; by split; [|constructor]..]; apply app_inv_head in E; discriminate).
Qed.
Lemma view_set_config n fs : view_in (<[ConfigPath paths := n]> fs) = set_config n (view_in fs).
Proof. destruct files_differ as (?&?&?). unfold view_in, InstanceProps.view_in, set_config. simpl v_config. by rewrite lookup_insert_eq, !lookup_insert_ne. Qed.
Lemma view_set_secret n fs : view_in (<[InstanceSecret paths := n]> fs) = set_secret n (view_in fs).
Proof. destruct files_differ as (?&?&?). unfold view_in, InstanceProps.view_in, set_secret. by rewrite lookup_insert_eq, !lookup_insert_ne. Qed.
Lemma view_set_marker n fs : view_in (<[InstallMarkerPath paths := n]> fs) = set_marker n (view_in fs).
Proof. destruct files_differ as (?&?&?). unfold view_in, InstanceProps.view_in, set_marker. by rewrite lookup_insert_eq, !lookup_insert_ne. Qed.
Lemma temporary_view path n m c fs : instance_file r path → view_in (<[temporary_name path n := Regular m o 1 c]> fs) = view_in fs.
Proof.
  intros (name & Hn & ->)%instance_file_inv; [|done]. apply view_insert_other. intros q Hq. unfold temporary_name, temporary_path.
  assert (Hc : component name = true).
  { repeat (apply elem_of_cons in Hn as [->|Hn]; [done|]). by apply not_elem_of_nil in Hn. }
  rewrite Dir_abs by done.
  assert (Ht : component (".jat-write-" +:+ FormatUint (n mod 2 ^ 32)) = true).
  { unfold component. rewrite contains_app. pose proof (Z.mod_pos_bound n (2 ^ 32) ltac:(lia)).
    rewrite (contains_digits "/" (n mod 2 ^ 32)) by (lia || done). done. }
  rewrite Join_dir by done. apply beside_ne; [done|done| |done].
  repeat (apply not_elem_of_cons; split; [done|]). apply not_elem_of_nil.
Qed.
Lemma itriple_write v path value (put : node → iview → iview) : instance_file r path →
  (∀ n fs, view_in (<[path := n]> fs) = put n (view_in fs)) →
  Inv v → Inv (put (Regular secretFileMode o 1 value) v) →
  itriple v (WriteFileAtomic path value secretFileMode) (λ _ v', v' = put (Regular secretFileMode o 1 value) v).
Proof.
  intros Hp Hput Hi Hi' fs <-. eapply triple_post; [eapply triple_widen; [apply WriteFileAtomic_spec|]|].
  - intros fs' [->|[(n & m & c & _ & ->)| ->]]; [done| |].
    + by rewrite temporary_view.
    + unfold replaced. by rewrite Hput.
  - intros ? fs' ->. unfold replaced. by rewrite Hput.
Qed.
End triples.

(** ** Initialization *)
Section initialize.
Context `{InstanceLaws} (r : list string) (Hr : components r) (o : Z) (v0 : iview).
Abbreviation dir := (abs r).
Abbreviation paths := (ForStateDir dir).
Abbreviation iapart := (iapart r).
Abbreviation Inv := (Inv o v0).
Abbreviation itriple := (itriple r o v0).
Context (attest : FsM unit) (Hattest : iapart attest).
Hint Resolve Hr Hattest iapart_EnsureStateDirectory iapart_store_Open iapart_store_Close : iapart.

Lemma instance_files : instance_file r (ConfigPath paths) ∧ instance_file r (InstanceSecret paths) ∧ instance_file r (InstallMarkerPath paths).
Proof. unfold instance_file. split_and!; absent. Qed.
Lemma Inv_start_marker v : Inv v → ¬ marked o ready_marker v → Inv (set_marker (Regular secretFileMode o 1 (indentedJSON initializing_marker)) v).
Proof.
  intros [[Hc Hs Hm] [Kc Ks Kr]] Hn. split; [split; simpl; [done|done|by right; left]|split; simpl; [done|done|]].
  intros Hready. destruct Hn. unfold marked in *. by rewrite Kr.
Qed.
Lemma Inv_finish v s : Inv v → holds_settings o (v_config v) s → v_secret v ≠ None →
  Inv (set_marker (Regular secretFileMode o 1 (indentedJSON ready_marker)) v) ∧
  completed o s (set_marker (Regular secretFileMode o 1 (indentedJSON ready_marker)) v).
Proof.
  intros [[Hc Hs Hm] [Kc Ks Kr]] Hh Hsec. assert (Hcn : v_config v ≠ None) by (destruct Hh as [_ ->]; done). split.
  - split; [split; simpl; [done|done|by right; right]|split; simpl; [done|done|]]. intros Hready. by unfold marked, owned_file in Hready.
  - split_and!; [done| |done]. by destruct Hs as [?|[? _]].
Qed.
Lemma Inv_settings v s : Inv v → v_config v = None → Validate s = Ok tt → Inv (set_config (Regular secretFileMode o 1 (indentedJSON s)) v).
Proof.
  intros [[Hc Hs Hm] [Kc Ks Kr]] Hn Hv. split; [split; simpl|split; simpl; [|done|done]].
  - right. by exists s.
  - destruct Hs as [?|[? ?]]; [by left|by right].
  - destruct Hm as [?|[?|(? & ? & ?)]]; [by left|by right; left|done].
  - intros Hc0. rewrite Kc in Hn by done. done.
Qed.
Lemma Inv_secret v k : Inv v → v_secret v = None → v_config v ≠ None → slen k = 32 → Inv (set_secret (Regular secretFileMode o 1 k) v).
Proof.
  intros [[Hc Hs Hm] [Kc Ks Kr]] Hn Hcn Hk. split; [split; simpl|split; simpl; [done| |done]].
  - done.
  - right. split; [by exists k|done].
  - destruct Hm as [?|[?|(? & ? & ?)]]; [by left|by right; left|done].
  - intros Hs0. rewrite Ks in Hn by done. done.
Qed.

(** What the reads return. *)
Lemma read_settings v : Inv v → itriple v (attempt (LoadSettings (ConfigPath paths))) (λ res v', v' = v ∧ match res with
  | Ok s => holds_settings o (v_config v) s
  | Err Uninitialized => v_config v = None
  | Err _ => True end).
Proof.
  intros Hi. eapply itriple_post; [apply (itriple_read _ _ _ _ _ (λ res, match res with
    | Ok s => holds_settings o (v_config v) s | Err Uninitialized => v_config v = None | Err _ => True end)); [quiet|done|]|by intros ? ? []].
  intros w <- Ho. pose proof (LoadSettings_result (ConfigPath paths) w) as Hres. rewrite Ho in Hres.
  destruct (LoadSettings _ w).2 as [s|[]]; try done. destruct Hres as (mode & payload & Hf & Hd).
  change (w_files w !! ConfigPath paths) with (v_config (view_in r (w_files w))) in Hf.
  destruct Hi as [[[Hc|[s0 Hs0]] _ _] _]; [by rewrite Hc in Hf|]. by rewrite (settings_read o s0 _ mode payload s Hs0 Hf Hd).
Qed.
Lemma read_secret v : Inv v → itriple v (attempt (ReadSecret (InstanceSecret paths))) (λ res v', v' = v ∧ match res with
  | Ok _ => v_secret v ≠ None
  | Err NotExist => v_secret v = None
  | Err _ => True end).
Proof.
  intros Hi. eapply itriple_post; [apply (itriple_read _ _ _ _ _ (λ res, match res with
    | Ok _ => v_secret v ≠ None | Err NotExist => v_secret v = None | Err _ => True end)); [quiet|done|]|by intros ? ? []].
  intros w <- _. apply (ReadSecret_result (InstanceSecret paths) w).
Qed.
Lemma read_marker v : Inv v → itriple v (attempt (LoadMarker (InstallMarkerPath paths))) (λ res v', v' = v ∧ match res with
  | Ok m => im_Phase m = "ready" ∧ marked o ready_marker v ∨ im_Phase m ≠ "ready" ∧ ¬ marked o ready_marker v
  | Err NotExist => ¬ marked o ready_marker v
  | Err _ => True end).
Proof.
  intros Hi. eapply itriple_post; [apply (itriple_read _ _ _ _ _ (λ res, match res with
    | Ok m => im_Phase m = "ready" ∧ marked o ready_marker v ∨ im_Phase m ≠ "ready" ∧ ¬ marked o ready_marker v
    | Err NotExist => ¬ marked o ready_marker v | Err _ => True end)); [quiet|done|]|by intros ? ? []].
  intros w <- Ho. pose proof (LoadMarker_result (InstallMarkerPath paths) w) as Hres. rewrite Ho in Hres.
  destruct (LoadMarker _ w).2 as [m|[]]; try done.
  - destruct Hres as (mode & payload & Hf & Hd).
    change (w_files w !! InstallMarkerPath paths) with (v_marker (view_in r (w_files w))) in Hf.
    destruct Hi as [[_ _ [Hm|[Hm|[Hm _]]]] _]; [by rewrite Hm in Hf| |].
    + right. rewrite (marker_read o initializing_marker _ mode payload m eq_refl Hm Hf Hd). split; [done|by apply markers_differ].
    + left. by rewrite (marker_read o ready_marker _ mode payload m eq_refl Hm Hf Hd).
  - intros Hm. unfold marked, owned_file in Hm. simpl in Hm, Hres. by rewrite Hres in Hm.
Qed.

(** The steps. *)
Lemma spec_settings_step v requested : Inv v →
  itriple v (settings_step attest paths requested) (λ s v', Inv v' ∧ holds_settings o (v_config v') s ∧ v_marker v' = v_marker v).
Proof.
  intros Hi. unfold settings_step. eapply itriple_bind; [by apply read_settings|]. intros [s|e] ? [-> Hres].
  - apply itriple_skip; [iapart|done|]. intros _. by apply itriple_ret.
  - destruct e; try by apply itriple_raise.
    apply itriple_skip; [unfold exists_path; iapart|done|]. intros secret.
    apply itriple_skip; [unfold exists_path; iapart|done|]. intros database.
    apply itriple_skip; [iapart|done|]. intros _.
    eapply itriple_bind; [apply (itriple_read_ok _ _ _ _ _ (λ s, Validate s = Ok tt)); [quiet|done|]|].
    { intros w a _ _. apply NewSettings_valid. }
    intros s ? [Hv ->]. apply itriple_skip; [iapart|done|]. intros _.
    pose proof (Inv_settings v s Hi Hres Hv) as Hi'.
    eapply itriple_bind; [apply itriple_context; unfold SaveSettings, valid_or_fail, writeJSONAtomic; rewrite Hv|].
    + eapply itriple_bind; [by apply (itriple_ret _ _ _ _ _ (λ _ v', v' = v))|]. intros _ ? ->.
      eapply (itriple_write _ Hr _ _ _ _ _ set_config); [apply instance_files|by intros; apply view_set_config|done|done].
    + intros _ ? ->. by apply itriple_ret.
Qed.
Lemma spec_secret_step v : Inv v → v_config v ≠ None →
  itriple v (secret_step attest paths) (λ _ v', Inv v' ∧ v_config v' = v_config v ∧ v_secret v' ≠ None ∧ v_marker v' = v_marker v).
Proof.
  intros Hi Hc. unfold secret_step. eapply itriple_bind; [by apply read_secret|]. intros [k|e] ? [-> Hres].
  - by apply itriple_ret.
  - destruct e; try by apply itriple_raise.
    apply itriple_skip; [iapart|done|]. intros secret. apply itriple_skip; [iapart|done|]. intros _. apply itriple_context.
    unfold WriteSecret, check. destruct (Z.eqb_spec (slen (of_bytes secret)) 32) as [Hk|]; [|by apply itriple_raise].
    pose proof (Inv_secret v _ Hi Hres Hc Hk) as Hi'.
    eapply itriple_bind; [by apply (itriple_ret _ _ _ _ _ (λ _ v', v' = v))|]. intros _ ? ->.
    eapply itriple_post; [eapply (itriple_write _ Hr _ _ _ _ _ set_secret); [apply instance_files|by intros; apply view_set_secret|done|done]|].
    intros _ ? ->. done.
Qed.
Lemma spec_save_marker v marker : Inv v → Inv (set_marker (Regular secretFileMode o 1 (indentedJSON marker)) v) →
  itriple v (SaveMarker (InstallMarkerPath paths) marker) (λ _ v', v' = set_marker (Regular secretFileMode o 1 (indentedJSON marker)) v).
Proof.
  intros Hi Hi'. eapply (itriple_write _ Hr _ _ _ _ _ set_marker); [apply instance_files|by intros; apply view_set_marker|done|done].
Qed.
Lemma spec_complete v requested : Inv v → ¬ marked o ready_marker v →
  itriple v (complete_installation attest paths requested) (completed o).
Proof.
  intros Hi Hn. unfold complete_installation. apply itriple_skip; [iapart|done|]. intros _.
  eapply itriple_bind; [apply itriple_context, spec_save_marker; [done|by apply Inv_start_marker]|]. intros _ ? ->.
  eapply itriple_bind; [apply spec_settings_step; by apply Inv_start_marker|]. intros s v1 (Hi1 & Hs & _).
  assert (Hc1 : v_config v1 ≠ None) by (destruct Hs as [_ ->]; done).
  eapply itriple_bind; [by apply spec_secret_step|]. intros _ v2 (Hi2 & Ec & Hsec & _). rewrite <- Ec in Hs.
  do 4 (apply itriple_skip; [iapart|done|]; intros _).
  destruct (Inv_finish v2 s Hi2 Hs Hsec) as [Hi3 Hdone].
  eapply itriple_bind; [by apply itriple_context, spec_save_marker|]. intros _ ? ->.
  apply itriple_skip; [iapart|done|]. intros _. by apply itriple_ret.
Qed.
Lemma spec_OpenInstance v : Inv v → itriple v (OpenInstance dir) (λ s v', v' = v ∧ holds_settings o (v_config v) s).
Proof.
  intros Hi. unfold OpenInstance. apply itriple_skip; [iapart|done|]. intros _.
  apply itriple_skip; [unfold complete_marker; iapart|done|]. intros _.
  eapply (itriple_bind _ _ _ _ _ _ (λ s v', v' = v ∧ holds_settings o (v_config v) s)).
  { intros fs Hfs w Hw Ho. destruct (read_settings v Hi fs Hfs w Hw Ho) as [Hp Hq]. unfold attempt in *.
    destruct (LoadSettings _ w) as [w1 res]; simpl in *. split; [done|]. intros s ->. by apply (Hq (Ok s) eq_refl). }
  intros s ? [-> Hs]. do 2 (apply itriple_skip; [iapart|done|]; intros _). by apply itriple_ret.
Qed.
Lemma spec_completed v requested : Inv v → marked o ready_marker v →
  itriple v (validate_completed attest dir requested) (completed o).
Proof.
  intros Hi Hm. unfold validate_completed, closeInstanceWithContext, CloseInstance. apply itriple_skip; [iapart|done|]. intros _.
  eapply itriple_bind; [by apply itriple_context, spec_OpenInstance|]. intros s ? [-> Hs].
  destruct (negb _).
  - apply itriple_skip; [iapart|done|]. intros closed. by apply itriple_raise.
  - apply itriple_skip; [iapart|done|]. intros _. apply itriple_skip; [iapart|done|]. intros _. apply itriple_ret; [done|].
    split_and!; [done| |done]. destruct Hi as [[_ Hsec Hmk] _].
    destruct Hmk as [Hn|[Hi'|(_ & _ & Hne)]]; [|by destruct (markers_differ o v Hi')|by destruct Hsec as [?|[? _]]].
    unfold marked, owned_file in Hm. congruence.
Qed.
Lemma spec_initializeWithLease v requested : Inv v → itriple v (initializeWithLease attest dir requested) (completed o).
Proof.
  intros Hi. unfold initializeWithLease. eapply itriple_bind; [by apply read_marker|]. intros [m|e] ? [-> Hm].
  - destruct Hm as [[-> Hm]|[Hne Hm]]; [by apply spec_completed|]. apply String.eqb_neq in Hne. rewrite Hne. by apply spec_complete.
  - destruct e; try by apply itriple_raise. by apply spec_complete.
Qed.
End initialize.

(** ** Stopped and run again *)
Section runs.
Context `{InstanceLaws} (r : list string) (Hr : components r) (o : Z).
Abbreviation dir := (abs r).
Lemma spec_Initialize v0 v requested : Inv o v0 v → itriple r o v0 v (InitializeInstance dir requested) (completed o).
Proof.
  intros Hi. unfold InitializeInstance, LeaseInitialize, AttestLockPath, AcquireInitializationLease.
  apply itriple_skip; [by apply iapart_lease|done|]. intros lease.
  set (attest := in_context _ _). assert (Hattest : iapart r attest) by (apply iapart_context, iapart_attestPathIdentity).
  eapply itriple_bind; [apply itriple_attempt; apply itriple_skip; [done|done|intros _; by apply spec_initializeWithLease]|].
  intros result v1 [Hi1 Hdone].
  apply itriple_skip; [by apply iapart_attempt, iapart_lock_Close|done|]. intros closed.
  destruct result, closed; try by apply itriple_raise. apply itriple_ret; auto.
Qed.

(** [stopped_in fs0 fs]: initializations and servers have been started in the directory
    any number of times, each from what the one before left, and the last was stopped at
    [fs]. *)
Definition stopped_run {A} (m : FsM A) (w : World) (fs : files) : Prop :=
  ∃ added, w_trace (m w).1 = added ++ w_trace w ∧ fs ∈ w_files (m w).1 :: added.
Inductive stopped_in (fs0 : files) : files → Prop :=
| stopped_none : stopped_in fs0 fs0
| stopped_initialize w requested fs : stopped_in fs0 (w_files w) → w_euid w = o →
    stopped_run (InitializeInstance dir requested) w fs → stopped_in fs0 fs
| stopped_serve w fs : stopped_in fs0 (w_files w) → w_euid w = o → stopped_run (OpenForServe dir) w fs → stopped_in fs0 fs.

Lemma stopped_passes {A} (P : files → Prop) (m : FsM A) w fs : passes P w (m w).1 → stopped_run m w fs → P fs.
Proof.
  intros (_ & added & Ht & HF & HP) (added' & Ht' & Hin). rewrite Ht in Ht'. apply app_inv_tail in Ht' as <-.
  apply elem_of_cons in Hin as [->|Hin]; [done|]. by rewrite Forall_forall in HF; apply HF.
Qed.
Lemma stopped_invariant fs0 fs : inst_ok o (view_in r fs0) → stopped_in fs0 fs → Inv o (view_in r fs0) (view_in r fs).
Proof.
  intros Hok. induction 1 as [|w requested fs _ IH Ho Hs|w fs _ IH Ho Hs].
  - split; [done|apply keeps_refl].
  - destruct (spec_Initialize _ _ requested IH (w_files w) eq_refl w eq_refl Ho) as [Hp _].
    apply (stopped_passes _ _ _ _ Hp Hs).
  - destruct (iapart_OpenForServe r Hr o (w_files w) w eq_refl Ho) as [Hp _].
    pose proof (stopped_passes _ _ _ _ Hp Hs) as E. simpl in E. by rewrite E.
Qed.
End runs.

(** C30. Initialization can be stopped anywhere and run again, and what it has written it
    never changes.  Start from a directory that is empty or was left by earlier
    initializations; whatever system calls and database calls fail, and wherever
    initializations and servers are stopped and started again: the settings and the secret
    are absent or complete, the secret never without the settings, the marker says ready
    only beside both, and settings, secret and a ready marker once present stay as they
    are.  An initialization that succeeds returns the stored settings and has left the
    directory complete, and every later one that succeeds returns the same settings: the
    identity of an instance never changes. *)
Theorem initialization_resumable `{InstanceHost, !InstanceLaws} (dir : string) (o : Z) (fs0 : files) :
  canonicalAbsolutePath dir = true → let view := view_in (elements dir) in
  inst_ok o (view fs0) →
  (∀ fs, stopped_in (elements dir) o fs0 fs → inst_ok o (view fs) ∧ keeps o (view fs0) (view fs)) ∧
  (∀ w requested settings, stopped_in (elements dir) o fs0 (w_files w) → w_euid w = o →
     (InitializeInstance dir requested w).2 = Ok settings →
     completed o settings (view (w_files (InitializeInstance dir requested w).1)) ∧
     ∀ w' requested' settings', stopped_in (elements dir) o (w_files (InitializeInstance dir requested w).1) (w_files w') →
       w_euid w' = o → (InitializeInstance dir requested' w').2 = Ok settings' → settings' = settings).
Proof.
  intros Hc view Hok. subst view. apply canonical_inv in Hc as (r & Hr & ->). rewrite !elements_abs in * by done.
  assert (Hrun : ∀ v0 w requested, Inv o v0 (view_in r (w_files w)) → w_euid w = o →
    Inv o v0 (view_in r (w_files (InitializeInstance (abs r) requested w).1)) ∧
    ∀ s, (InitializeInstance (abs r) requested w).2 = Ok s → completed o s (view_in r (w_files (InitializeInstance (abs r) requested w).1))).
  { intros v0 w requested Hi Ho. destruct (spec_Initialize r Hr o v0 _ requested Hi (w_files w) eq_refl w eq_refl Ho) as [Hp Hq].
    split; [by destruct Hp as (_ & ? & _ & _ & ?)|done]. }
  split; [by intros fs Hs; apply stopped_invariant|].
  intros w requested s Hs Ho E. pose proof (stopped_invariant r Hr o _ _ Hok Hs) as Hi.
  destruct (Hrun _ _ requested Hi Ho) as [[Hok1 _] Hdone]. specialize (Hdone s E). split; [done|].
  intros w' requested' s' Hs' Ho' E'. pose proof (stopped_invariant r Hr o _ _ Hok1 Hs') as Hi'.
  destruct (Hrun _ _ requested' Hi' Ho') as [[_ Hk] Hdone']. eapply completed_same; [exact Hdone|exact Hk|by apply Hdone'].
Qed.

(** ** An instance, initialized after being stopped at each of its steps *)
Definition database_node (o : Z) (identity : Identity) : node := Regular 384 o 1 (InstanceID identity +:+ VaultID identity).
Definition open_database (path : string) (identity : Identity) : FsM unit :=
  modify (λ w, match w_files w !! path with
               | None => Ok (<[path := database_node (w_euid w) identity]> (w_files w))
               | Some n => if decide (n = database_node (w_euid w) identity) then Ok (w_files w) else Err (Failed "other identity")
               end) intact.
#[export] Instance plain_database : InstanceHost := {
  store_Open := open_database;
  store_Close _ := sync_file;
  flock_nb _ := mret true;
  flock_release _ := mret tt }.
#[export] Instance plain_database_laws : InstanceLaws.
Proof.
  split.
  - intros path identity o fs. apply triple_modify; [done|done|]. intros w fs' <- _. destruct (_ !! _).
    + destruct (decide _); [|done]. by intros [= <-].
    + intros [= <-]. split; [|done]. intros q Hq. apply lookup_insert_ne. intros <-. destruct Hq.
      exists "". split; [apply elem_of_cons; by left|]. by rewrite sapp_nil_r.
  - intros path o fs. eapply triple_post; [apply triple_quiet; [done|unfold sync_file; quiet]|done].
  - intros path. apply quiet_ret.
  - intros path. apply quiet_ret.
Qed.
Definition sample_state_dir : string := "/home/u/.local/state/jat/sshserver".
Definition fresh_world (fs : files) (faults : list (option nat)) : World := mkWorld fs 1000 18 (map Z.of_nat (seq 0 64)) Z.of_nat faults [].
Definition sample_initialize : FsM Settings := InitializeInstance sample_state_dir None.
Definition settings_of (r : res ferr Settings) : option Settings := match r with Ok s => Some s | Err _ => None end.
Definition sample_run : World * res ferr Settings := sample_initialize (fresh_world home_files []).
Definition sample_crashes : list files := w_files sample_run.1 :: w_trace sample_run.1.
(** A first run succeeds; stopped at any of its steps and run again with other random
    bytes, it succeeds, and the last runs return what the first had stored. *)
Definition other_world (fs : files) : World := mkWorld fs 1000 18 (map Z.of_nat (seq 100 64)) (λ n, Z.of_nat n + 100) [] [].
Definition resumed : list (option Settings) := map (λ fs, settings_of (sample_initialize (other_world fs)).2) sample_crashes.
Definition stored_first (s : option Settings) : bool := bool_decide (s = settings_of sample_run.2).
Example initialization_resumes :
  length resumed = 21%nat ∧ forallb (λ s, bool_decide (is_Some s)) resumed = true ∧
  stored_first <$> resumed = repeat true 10 ++ repeat false 11.
Proof. vm_compute. done. Qed.
Lemma sample_run_succeeds : ∃ s, sample_run.2 = Ok s.
Proof.
  assert (Hs : bool_decide (is_Some (settings_of sample_run.2)) = true) by (vm_compute; reflexivity).
  destruct sample_run.2 as [s|e]; [by exists s|done].
Qed.
Lemma empty_home_ok : inst_ok 1000 (view_in (elements sample_state_dir) home_files).
Proof. split; by left; vm_compute. Qed.
Lemma initialization_resumable_witness : ∃ s, sample_run.2 = Ok s ∧
  completed 1000 s (view_in (elements sample_state_dir) (w_files sample_run.1)).
Proof.
  assert (Hc : canonicalAbsolutePath sample_state_dir = true) by (vm_compute; reflexivity).
  destruct sample_run_succeeds as [s E]. exists s. split; [exact E|].
  destruct (proj2 (initialization_resumable sample_state_dir 1000 home_files Hc empty_home_ok)
    (fresh_world home_files []) None s (stopped_none _ _ _) eq_refl E) as [Hdone _].
  exact Hdone.
Defined.
