(* ===== verification/DeploySpec.v ===== *)
(** * Reasoning about deployment runs

    What a crash leaves of a deployment is its two metadata files, the [view].  [spec]
    is a triple over runs of [DepM]: every file system the run goes through has a view
    in [P], and the run ends in [QO] or, on an error, in [QE].  [apart] computations
    leave the view alone; the specifications of loading, saving and removing metadata
    follow from those of the files. *)

From stdpp Require Import base list strings gmap.
From Stdlib Require Import ZArith Lia Ascii.
From Stdlib Require String.
From S2P Require Import Prelude GoStd Json JsonFacts Api Wire Indent Models Vectors Accepted Release NetIP Fs Paths Config ConfigProps Layout Deploy Lifecycle.
Local Open Scope Z_scope.

(** ** Layouts whose metadata files are not on the way to another directory *)
Fixpoint is_prefix_of (p l : list string) : bool :=
  match p, l with
  | [], _ => true
  | x :: p', y :: l' => String.eqb x y && is_prefix_of p' l'
  | _, [] => false
  end.
Definition metadata_separate (layout : Layout) : bool :=
  negb (is_prefix_of (elements (ly_StatePath layout)) (elements (ly_StateDir layout))) &&
  negb (is_prefix_of (elements (ly_JournalPath layout)) (elements (ly_StateDir layout))).
Class GoodLayout (layout : Layout) : Prop := {
  layout_accepted : NewLayout (ly_HomeDir layout) (ly_InstallRoot layout) (ly_StateDir layout) = Ok layout;
  layout_separate : metadata_separate layout = true }.

Lemma is_prefix_of_app p l : is_prefix_of p (p ++ l) = true.
Proof. induction p as [|x p IH]; [done|]. simpl. by rewrite String.eqb_refl. Qed.

Definition view : Type := option node * option node.
Section view.
Context (layout : Layout).
Definition view_of (fs : files) : view := (fs !! ly_StatePath layout, fs !! ly_JournalPath layout).

Context `{!GoodLayout layout}.

(** The components of the layout's paths. *)
Lemma layout_shape : ∃ r, components r ∧
  ly_InstallRoot layout = abs r ∧ ly_VersionsDir layout = abs (r ++ ["versions"]) ∧
  ly_StatePath layout = abs (r ++ ["deployment.json"]) ∧
  ly_JournalPath layout = abs (r ++ ["deployment-journal.json"]) ∧
  ly_LockPath layout = abs (r ++ [".deployment.lock"]).
Proof.
  destruct (NewLayout_inv _ _ _ _ layout_accepted) as (h & i & s & Hi & _ & _ & _ & E & _).
  exists (h ++ i). rewrite E. simpl. by rewrite <- !app_assoc.
Qed.
Lemma sibling_ne r a b : components r → component a = true → component b = true → a ≠ b → abs (r ++ [a]) ≠ abs (r ++ [b]).
Proof.
  intros Hr Ha Hb Hne E. apply abs_inj in E; [|apply Forall_app; by split; [|constructor]..].
  apply app_inv_head in E. congruence.
Qed.
Lemma metadata_paths_ne : ly_StatePath layout ≠ ly_JournalPath layout.
Proof. destruct layout_shape as (r & Hr & _ & _ & -> & -> & _). by apply sibling_ne. Qed.
Lemma lock_path_ne : ly_LockPath layout ≠ ly_StatePath layout ∧ ly_LockPath layout ≠ ly_JournalPath layout.
Proof. destruct layout_shape as (r & Hr & _ & _ & -> & -> & ->). split; by apply sibling_ne. Qed.

(** No directory of the layout is a metadata file. *)
Lemma directories_apart : ¬ layout_directory layout (ly_StatePath layout) ∧ ¬ layout_directory layout (ly_JournalPath layout).
Proof.
  destruct (NewLayout_inv _ _ _ _ layout_accepted) as (h & i & s & Hi & Hs & Hni & Hns & E & _).
  pose proof layout_separate as Hsep. unfold metadata_separate in Hsep. unbool.
  assert (Hv : components (h ++ i ++ ["versions"])) by (rewrite app_assoc; apply Forall_app; by split; [|constructor]).
  pose proof Hi as [Hh Hi']%Forall_app.
  assert (Hmeta : ∀ name, component name = true → name ≠ "versions" →
    negb (is_prefix_of (elements (abs (h ++ i ++ [name]))) (elements (ly_StateDir layout))) = true →
    ¬ layout_directory layout (abs (h ++ i ++ [name]))).
  { intros name Hn Hne Hsep (target & Hin & d & rest & Hd & Et & Ep).
    assert (Hc : components (h ++ i ++ [name])) by (rewrite app_assoc; apply Forall_app; by split; [|constructor]).
    rewrite E in Hin, Et, Ep, Hsep. simpl in Hin, Et, Ep, Hsep. rewrite (elements_abs h) in Et, Ep by done.
    rewrite !elements_abs in Hsep by done.
    assert (Ht : target = abs (elements target)).
    { repeat (apply elem_of_cons in Hin as [->|Hin]; [by rewrite elements_abs|]). by apply not_elem_of_nil in Hin. }
    assert (Hd' : i ++ [name] = d).
    { apply (app_inv_head h). apply abs_inj; [done| |done].
      assert (Hce := elements_components target). rewrite Et, app_assoc in Hce. by apply Forall_app in Hce as [? _]. }
    subst d. repeat (apply elem_of_cons in Hin as [->|Hin]; [rewrite elements_abs in Et by done|]).
    - apply app_inv_head in Et. apply (f_equal length) in Et. rewrite !length_app in Et. simpl in Et. lia.
    - apply app_inv_head in Et. rewrite <- app_assoc in Et. apply app_inv_head in Et. injection Et as ? _. congruence.
    - assert (E2 : h ++ s = (h ++ i ++ [name]) ++ rest) by (by rewrite Et, !app_assoc).
      by rewrite E2, is_prefix_of_app in Hsep.
    - by apply not_elem_of_nil in Hin. }
  split; rewrite E; simpl; rewrite E in H, H0; simpl in H, H0.
  - rewrite E in Hmeta. apply Hmeta; [done|done|]. simpl. by rewrite H.
  - rewrite E in Hmeta. apply Hmeta; [done|done|]. simpl. by rewrite H0.
Qed.
Lemma deployment_directories_apart :
  ¬ deployment_directory layout (ly_StatePath layout) ∧ ¬ deployment_directory layout (ly_JournalPath layout).
Proof.
  destruct directories_apart as [H1 H2]. destruct layout_shape as (r & Hr & _ & Ev & Es & Ej & _).
  assert (Hv : components (r ++ ["versions"])) by (apply Forall_app; by split; [|constructor]).
  assert (Hne : ∀ release name, Valid release = true → component name = true →
    abs (r ++ [name]) ≠ child (ly_VersionsDir layout) release).
  { intros release name Hrel Hn E. rewrite Ev, child_abs in E by done.
    apply abs_inj in E; [|apply Forall_app; split; [done|by constructor; auto using Valid_component]..].
    apply (f_equal length) in E. rewrite !length_app in E. simpl in E. lia. }
  split; (intros [?|(release & Hrel & E)]; [done|]); [rewrite Es in E|rewrite Ej in E]; by apply Hne in E.
Qed.
Lemma grows_view o fs0 fs : grows o (deployment_directory layout) fs0 fs → view_of fs = view_of fs0.
Proof.
  intros Hg. destruct deployment_directories_apart as [H1 H2]. unfold view_of.
  destruct (Hg (ly_StatePath layout)) as [->|(_ & ? & _)]; [|done].
  by destruct (Hg (ly_JournalPath layout)) as [->|(_ & ? & _)].
Qed.
End view.

(** ** Triples *)
Section spec.
Context {H : Type} (layout : Layout) (o : Z).
Abbreviation vw := (view_of layout).
Abbreviation M A := (DepM H A).

Definition spec {A} (P : view → Prop) (v : view) (j : DeploymentJournal) (m : M A)
    (QO : A → view → DeploymentJournal → Prop) (QE : derr → view → DeploymentJournal → Prop) : Prop :=
  ∀ s : Machine H, vw (w_files (m_world s)) = v → w_euid (m_world s) = o → m_journal s = j →
    passes (λ fs, P (vw fs)) (m_world s) (m_world (m s).1) ∧
    match (m s).2 with
    | Ok a => QO a (vw (w_files (m_world (m s).1))) (m_journal (m s).1)
    | Err e => QE e (vw (w_files (m_world (m s).1))) (m_journal (m s).1)
    end.

Lemma spec_ret {A} P v j (a : A) (QO : A → view → DeploymentJournal → Prop) QE :
  P v → QO a v j → spec P v j (mret a) QO QE.
Proof. intros HP HQ s <- _ <-. split; [by apply passes_refl|done]. Qed.
Lemma spec_fail {A} P v j e (QO : A → view → DeploymentJournal → Prop) (QE : derr → view → DeploymentJournal → Prop) :
  P v → QE e v j → spec P v j (fail e) QO QE.
Proof. intros HP HQ s <- _ <-. split; [by apply passes_refl|done]. Qed.
Lemma spec_bind {A B} P v j (m : M A) (f : A → M B) QO QE R :
  spec P v j m R QE → (∀ a v' j', R a v' j' → spec P v' j' (f a) QO QE) → spec P v j (m ≫= f) QO QE.
Proof.
  intros Hm Hf s Hv Ho Hj. unfold mbind, depm_bind, dep_bind. destruct (Hm s Hv Ho Hj) as [Hp HQ].
  destruct (m s) as [s1 [a|e]]; simpl in *; [|done].
  destruct (Hf a _ _ HQ s1 eq_refl) as [Hp2 HQ2]; [destruct Hp; congruence|done|].
  split; [by eapply passes_trans|done].
Qed.
Lemma spec_tried {A} P v j (m : M A) (QO : res derr A → view → DeploymentJournal → Prop) QE :
  spec P v j m (λ a, QO (Ok a)) (λ e, QO (Err e)) → spec P v j (tried m) QO QE.
Proof.
  intros Hm s Hv Ho Hj. destruct (Hm s Hv Ho Hj) as [Hp HQ]. unfold tried.
  destruct (m s) as [s1 [a|e]]; simpl in *; done.
Qed.
Lemma spec_within {A} P v j context (m : M A) QO (QE : derr → view → DeploymentJournal → Prop) :
  spec P v j m QO (λ e, QE (dwrap context e)) → spec P v j (within context m) QO QE.
Proof.
  intros Hm s Hv Ho Hj. destruct (Hm s Hv Ho Hj) as [Hp HQ]. unfold within.
  destruct (m s) as [s1 [a|e]]; simpl in *; done.
Qed.
Lemma spec_impl {A} (P P' : view → Prop) v j (m : M A) (QO QO' : A → view → DeploymentJournal → Prop)
    (QE QE' : derr → view → DeploymentJournal → Prop) :
  spec P v j m QO QE → (∀ v, P v → P' v) → (∀ a v j, QO a v j → QO' a v j) → (∀ e v j, QE e v j → QE' e v j) →
  spec P' v j m QO' QE'.
Proof.
  intros Hm HP HO HE s Hv Ho Hj. destruct (Hm s Hv Ho Hj) as [Hp HQ].
  split; [eapply passes_impl; [|exact Hp]; simpl; eauto|]. destruct (m s).2; eauto.
Qed.
Lemma spec_get P v j (QO : DeploymentJournal → view → DeploymentJournal → Prop) QE :
  P v → QO j v j → spec P v j get_journal QO QE.
Proof. intros HP HQ s <- _ <-. split; [by apply passes_refl|done]. Qed.
Lemma spec_set P v j j' (QO : unit → view → DeploymentJournal → Prop) QE :
  P v → QO tt v j' → spec P v j (set_journal j') QO QE.
Proof. intros HP HQ s <- _ <-. split; [by apply passes_refl|done]. Qed.

(** A file-system computation, from its triple. *)
Lemma spec_files {A} P v j (m : FsM A) (QO : A → view → DeploymentJournal → Prop)
    (QE : derr → view → DeploymentJournal → Prop) (R : view → Prop) :
  (∀ fs, vw fs = v → triple o (λ fs', R (vw fs')) fs m (λ a fs', QO a (vw fs') j)) →
  (∀ v', R v' → P v') → (∀ e v', R v' → QE (FileError e) v' j) → spec P v j (on_files m) QO QE.
Proof.
  intros Hm HP HE s Hv Ho Hj. unfold on_files. destruct (Hm _ Hv (m_world s) eq_refl Ho) as [Hp HQ].
  destruct (m (m_world s)) as [w [a|e]]; simpl in *; subst j.
  - split; [eapply passes_impl; [|exact Hp]; simpl; auto|]. by apply HQ.
  - split; [eapply passes_impl; [|exact Hp]; simpl; auto|]. apply HE. by destruct Hp as (_ & ? & _ & _ & ?).
Qed.

(** ** Computations that leave the metadata and the journal variable alone *)
Definition apart {A} (m : M A) : Prop := ∀ s,
  passes (λ fs, vw fs = vw (w_files (m_world s))) (m_world s) (m_world (m s).1) ∧ m_journal (m s).1 = m_journal s.

Lemma spec_apart {A} P v j (m : M A) (QO : A → view → DeploymentJournal → Prop)
    (QE : derr → view → DeploymentJournal → Prop) :
  apart m → P v → (∀ a, QO a v j) → (∀ e, QE e v j) → spec P v j m QO QE.
Proof.
  intros Hm HP HO HE s Hv Ho Hj. destruct (Hm s) as [Hp Hj']. rewrite Hv in Hp.
  split; [eapply passes_impl; [|exact Hp]; simpl; by intros ? ->|].
  destruct Hp as (_ & ? & _ & _ & ->). rewrite Hj', Hj. by destruct (m s).2.
Qed.
Lemma apart_pure {A} (r : res derr A) : apart (λ s, (s, r)).
Proof. intros s. split; [by apply passes_refl|done]. Qed.
Lemma apart_ret {A} (a : A) : apart (mret a).
Proof. apply apart_pure. Qed.
Lemma apart_bind {A B} (m : M A) (f : A → M B) : apart m → (∀ a, apart (f a)) → apart (m ≫= f).
Proof.
  intros Hm Hf s. unfold mbind, depm_bind, dep_bind. destruct (Hm s) as [Hp Hj].
  destruct (m s) as [s1 [a|e]]; simpl in *; [|done]. destruct (Hf a s1) as [Hp2 Hj2].
  split; [|congruence]. eapply passes_trans; [exact Hp|]. eapply passes_impl; [|exact Hp2]. simpl. intros fs ->.
  by destruct Hp as (_ & ? & _ & _ & ?).
Qed.
Lemma apart_tried {A} (m : M A) : apart m → apart (tried m).
Proof. intros Hm s. specialize (Hm s). unfold tried. by destruct (m s). Qed.
Lemma apart_within {A} context (m : M A) : apart m → apart (within context m).
Proof. intros Hm s. specialize (Hm s). unfold within. by destruct (m s). Qed.
Lemma apart_get : apart get_journal.
Proof. intros s. split; [by apply passes_refl|done]. Qed.
Lemma apart_quiet {A} (m : FsM A) : Quiet m → apart (on_files m).
Proof.
  intros Hm s. unfold on_files. destruct (Hm (m_world s)) as (E1 & E2 & E3).
  destruct (m (m_world s)) as [w r]; simpl in *. split; [|done]. split; [done|]. exists []. rewrite E1, E2.
  by repeat constructor.
Qed.
Lemma apart_demand b text : apart (demand b text).
Proof. unfold demand. destruct b; apply apart_pure. Qed.
Lemma apart_from_res {A} (r : res string A) : apart (from_res r).
Proof. destruct r; apply apart_pure. Qed.
End spec.
Create HintDb apart.
#[export] Hint Resolve apart_demand apart_from_res apart_get apart_ret : apart.
Ltac apart :=
  repeat lazymatch goal with
  | |- apart _ (mbind _ _) => apply apart_bind; [|intros ?]
  | |- apart _ (mret _) => apply apart_ret
  | |- apart _ (fail _) => apply apart_pure
  | |- apart _ (refuse _) => apply apart_pure
  | |- apart _ (from_derr _) => apply apart_pure
  | |- apart _ (tried _) => apply apart_tried
  | |- apart _ (within _ _) => apply apart_within
  | |- apart _ (match ?x with _ => _ end) => destruct x
  | |- apart _ _ => solve [auto with apart nocore]
  end.

(** ** The metadata files *)
Section metadata.
Context {H : Type} (layout : Layout) (o : Z) `{!GoodLayout layout}.
Abbreviation vw := (view_of layout).
Abbreviation M A := (DepM H A).

(** An owner-only file with this content, and the file a save leaves. *)
Definition is_file (n : option node) (content : string) : Prop :=
  ∃ mode, n = Some (Regular mode o 1 content) ∧ Z.land mode 63 = 0.
Definition saved (content : string) : option node := Some (Regular 384 o 1 content).
Lemma saved_is_file content : is_file (saved content) content.
Proof. by exists 384. Qed.

Definition put (path : string) (n : option node) (v : view) : view :=
  if String.eqb path (ly_StatePath layout) then (n, v.2) else (v.1, n).
Definition metadata_path (path : string) : Prop := path = ly_StatePath layout ∨ path = ly_JournalPath layout.

Lemma view_insert path n fs : metadata_path path → vw (<[path := n]> fs) = put path (Some n) (vw fs).
Proof.
  pose proof (metadata_paths_ne layout) as Hne. unfold put, view_of.
  intros [->| ->]; [rewrite String.eqb_refl|destruct (String.eqb_spec (ly_JournalPath layout) (ly_StatePath layout)); [congruence|]];
    simpl; by rewrite lookup_insert_eq, lookup_insert_ne.
Qed.
Lemma view_delete path fs : metadata_path path → vw (delete path fs) = put path None (vw fs).
Proof.
  pose proof (metadata_paths_ne layout) as Hne. unfold put, view_of.
  intros [->| ->]; [rewrite String.eqb_refl|destruct (String.eqb_spec (ly_JournalPath layout) (ly_StatePath layout)); [congruence|]];
    simpl; by rewrite lookup_delete_eq, lookup_delete_ne.
Qed.
Lemma view_insert_ne path n fs : path ≠ ly_StatePath layout → path ≠ ly_JournalPath layout → vw (<[path := n]> fs) = vw fs.
Proof. intros H1 H2. unfold view_of. by rewrite !lookup_insert_ne. Qed.

Lemma temporary_component n : component (".jat-write-" +:+ FormatUint (n mod 2 ^ 32)) = true.
Proof.
  unfold component. rewrite contains_app. pose proof (Z.mod_pos_bound n (2 ^ 32) ltac:(lia)).
  rewrite (contains_digits "/" (n mod 2 ^ 32)) by (lia || done). done.
Qed.
Lemma temporary_apart path n : metadata_path path →
  temporary_name path n ≠ ly_StatePath layout ∧ temporary_name path n ≠ ly_JournalPath layout.
Proof.
  intros Hp. destruct (layout_shape layout) as (r & Hr & _ & _ & Es & Ej & _).
  assert (Hd : Dir path = abs r) by (destruct Hp as [->| ->]; [rewrite Es|rewrite Ej]; by apply Dir_abs).
  unfold temporary_name, temporary_path. rewrite Hd, Join_abs, Es, Ej by (done || apply temporary_component).
  split; (apply sibling_ne; [done|apply temporary_component|done|done]).
Qed.
Lemma write_states_view path value fs0 fs : metadata_path path → write_states path value 384 o fs0 fs →
  vw fs = vw fs0 ∨ vw fs = put path (saved value) (vw fs0).
Proof.
  intros Hp [->|[(n & m & c & _ & ->)| ->]]; [by left| |].
  - left. destruct (temporary_apart path n Hp). by apply view_insert_ne.
  - right. unfold replaced. by apply view_insert.
Qed.

Lemma spec_save {A} `{GoJSON A} P v j path (valid : A → res string unit) (a : A)
    (QO : unit → view → DeploymentJournal → Prop) (QE : derr → view → DeploymentJournal → Prop) :
  metadata_path path → P v → (∀ e, QE e v j) →
  (valid a = Ok tt → P (put path (saved (indentedJSON a)) v) ∧ QO tt (put path (saved (indentedJSON a)) v) j ∧
     ∀ e, QE e (put path (saved (indentedJSON a)) v) j) →
  spec (H:=H) layout o P v j (save_metadata path valid a) QO QE.
Proof.
  intros Hp HP HE Hok. unfold save_metadata, from_res. destruct (valid a) as [[]|e]; [|by apply spec_fail].
  destruct (Hok eq_refl) as (HP' & HQ & HE').
  eapply spec_bind; [by apply (spec_ret _ _ _ _ _ _ (λ _ v' j', v' = v ∧ j' = j))|]. intros _ ? ? [-> ->].
  unfold saveCanonicalDeploymentJSON.
  apply (spec_files _ _ _ _ _ _ _ _ (λ v', v' = v ∨ v' = put path (saved (indentedJSON a)) v)).
  - intros fs <-. apply (triple_post _ _ _ _ (λ _ fs', fs' = replaced path (indentedJSON a) 384 o fs)).
    + intros w Hw Ho. destruct (WriteFileAtomic_spec path (indentedJSON a) 384 o fs w Hw Ho) as [Hpass Hpost].
      split; [|exact Hpost]. eapply passes_impl; [|exact Hpass]. simpl. intros fs'. by apply write_states_view.
    + simpl. intros [] fs' ->. unfold replaced. rewrite view_insert by done. exact HQ.
  - by intros ? [->| ->].
  - intros e ? [->| ->]; auto.
Qed.

Lemma open_nofollow_result path b w n : (open_nofollow path b w).2 = Ok n → w_files w !! path = Some n.
Proof.
  unfold open_nofollow, inspect. pose proof (next_fault_files w) as Hw.
  destruct (next_fault w) as [w' []]; [done|]. simpl in *. rewrite Hw.
  destruct (w_files w !! path) as [[]|]; try done; [destruct b; [done|]|..]; by intros [= <-].
Qed.
Lemma open_nofollow_missing path b w : (open_nofollow path b w).2 = Err NotExist → w_files w !! path = None.
Proof.
  unfold open_nofollow, inspect. pose proof (next_fault_files w) as Hw.
  destruct (next_fault w) as [w' []]; [done|]. simpl in *. rewrite Hw.
  destruct (w_files w !! path) as [[]|]; try done. by destruct b.
Qed.
Lemma fstat_errors w : (fstat w).2 ≠ Err NotExist.
Proof. unfold fstat, sync_file, inspect. by destruct (next_fault w) as [w' []]. Qed.
Lemma validateDeploymentFileFD_result n w :
  match (validateDeploymentFileFD n w).2 with
  | Ok _ => ∃ mode content, n = Regular mode (w_euid w) 1 content ∧ Z.land mode 63 = 0
  | Err e => e ≠ NotExist
  end.
Proof.
  unfold validateDeploymentFileFD, mbind, fsm_bind. pose proof (fstat_errors w) as Hf.
  pose proof (quiet_fstat w) as (_ & _ & He). destruct (fstat w) as [w1 [[]|e]]; simpl in *; [|congruence].
  destruct n as [|mode owner nlink content| |]; try done. unfold check, ask, raise, mret, fsm_ret.
  destruct (Z.eqb_spec owner (w_euid w1)); [|done]. simpl.
  destruct (Z.eqb_spec nlink 1); [|done]. simpl.
  destruct (Z.eqb_spec (Z.land mode 63) 0); [|done]. simpl. subst. rewrite He. eauto.
Qed.
Lemma quiet_validateDeploymentFileFD n : Quiet (validateDeploymentFileFD n).
Proof. unfold validateDeploymentFileFD. quiet. Qed.
Hint Resolve quiet_validateDeploymentFileFD : quiet.
Lemma quiet_open_nofollow path b : Quiet (open_nofollow path b).
Proof. unfold open_nofollow. quiet. Qed.
Hint Resolve quiet_open_nofollow : quiet.
Lemma quiet_load A `{GoJSON A} path : Quiet (loadCanonicalDeploymentJSON A path).
Proof. unfold loadCanonicalDeploymentJSON, readDeploymentFile, sync_file. quiet. Qed.
Hint Resolve quiet_load : quiet.

Lemma load_result A `{GoJSON A} path w :
  match (loadCanonicalDeploymentJSON A path w).2 with
  | Ok a => (∃ mode, w_files w !! path = Some (Regular mode (w_euid w) 1 (indentedJSON a)) ∧ Z.land mode 63 = 0) ∧
            decodeStrictStream A (indentedJSON a) = Some a
  | Err e => e = NotExist → w_files w !! path = None
  end.
Proof.
  unfold loadCanonicalDeploymentJSON, readDeploymentFile, mbind, fsm_bind.
  pose proof (open_nofollow_result path false w) as Hn. pose proof (open_nofollow_missing path false w) as Hm.
  pose proof (quiet_open_nofollow path false w) as (_ & _ & He).
  destruct (open_nofollow path false w) as [w1 [n|e]]; simpl in *; [|intros ->; auto].
  specialize (Hn n eq_refl). pose proof (validateDeploymentFileFD_result n w1) as Hv.
  destruct (validateDeploymentFileFD n w1) as [w2 [[]|e]]; simpl in *; [|done].
  destruct Hv as (mode & content & -> & Hmode).
  destruct (sync_file w2) as [w3 [[]|e]] eqn:E3; simpl.
  2:{ intros ->. pose proof (fstat_errors w2) as Hf. unfold fstat in Hf. by rewrite E3 in Hf. }
  unfold check. destruct (_ <=? _); [|done]. simpl.
  destruct (decodeStrictStream A content) as [a|] eqn:Ed; [|done]. unfold check.
  destruct (String.eqb_spec content (indentedJSON a)) as [->|]; [|done]. simpl.
  split; [|done]. exists mode. by rewrite <- He.
Qed.

(** What a successful load says of the file. *)
Definition stored A `{GoJSON A} (n : option node) (valid : A → res string unit) (a : A) : Prop :=
  is_file n (indentedJSON a) ∧ decodeStrictStream A (indentedJSON a) = Some a ∧ valid a = Ok tt.
Definition at_path (path : string) (v : view) : option node :=
  if String.eqb path (ly_StatePath layout) then v.1 else v.2.
Lemma at_path_view path fs : metadata_path path → at_path path (vw fs) = fs !! path.
Proof.
  pose proof (metadata_paths_ne layout) as Hne. unfold at_path.
  intros [->| ->]; [by rewrite String.eqb_refl|]. destruct (String.eqb_spec (ly_JournalPath layout) (ly_StatePath layout)); [congruence|done].
Qed.
Lemma spec_load A `{GoJSON A} P v j missing context path (valid : A → res string unit)
    (QO : A → view → DeploymentJournal → Prop) (QE : derr → view → DeploymentJournal → Prop) :
  metadata_path path → P v → (∀ a, stored A (at_path path v) valid a → QO a v j) →
  (at_path path v = None → QE missing v j) →
  (∀ e, (∀ sentinel, (∀ x, sentinel ≠ FileError x) → (∀ x, sentinel ≠ Refused x) → Is e sentinel = false) → QE e v j) →
  spec (H:=H) layout o P v j (load_metadata A missing context path valid) QO QE.
Proof.
  intros Hp HP HQ Hmiss HE s Hv Ho Hj. unfold load_metadata, tried, on_files, mbind, depm_bind, dep_bind.
  pose proof (quiet_load A path (m_world s)) as (E1 & E2 & E3). pose proof (load_result A path (m_world s)) as Hr.
  rewrite <- at_path_view, Hv, Ho in Hr by done.
  destruct (loadCanonicalDeploymentJSON A path (m_world s)) as [w1 r]; simpl in *.
  assert (Hpass : passes (λ fs, P (vw fs)) (m_world s) w1).
  { split; [done|]. exists []. rewrite E1, E2, Hv. by repeat constructor. }
  assert (Herr : ∀ x, (∀ y, x ≠ FileError y) → (∀ y, x ≠ Refused y) → ∀ y : derr,
    (∃ z, y = FileError z) ∨ (∃ z, y = Refused z) → Is y x = false).
  { intros x Hx1 Hx2 y [[z ->]|[z ->]]; simpl; rewrite bool_decide_eq_false_2; naive_solver. }
  destruct r as [a|e]; simpl in *.
  - destruct Hr as [Hfile Hdec]. unfold from_res. destruct (valid a) as [[]|e] eqn:Ev; simpl;
      (split; [done|]); rewrite E1, Hv, Hj.
    + by apply HQ.
    + apply HE. intros. apply Herr; eauto.
  - destruct (decide (e = NotExist)) as [->|Hne].
    + simpl. split; [done|]. rewrite E1, Hv, Hj. auto.
    + assert (E : (match e with NotExist => fail missing | _ => fail (dwrap context (FileError e)) end
                   (mkMachine w1 (m_host s) (m_journal s)) : Machine H * res derr A)
                  = (mkMachine w1 (m_host s) (m_journal s), Err (dwrap context (FileError e)))) by by destruct e.
      destruct e; [done|..]; simpl; (split; [done|]); rewrite E1, Hv, Hj; apply HE; intros; apply Herr; eauto.
Qed.

Lemma apart_load A `{GoJSON A} missing context path (valid : A → res string unit) :
  apart (H:=H) layout (load_metadata A missing context path valid).
Proof.
  unfold load_metadata. apart. apply apart_quiet. quiet.
Qed.
(** Removing a file that is there. *)
Lemma attempt_Remove P fs path n : fs !! path = Some n → P fs → P (delete path fs) →
  triple o P fs (attempt (Remove path)) (λ r fs', P fs' ∧ r ≠ Err NotExist ∧ (r = Ok tt → fs' = delete path fs)).
Proof.
  intros Hn HP HP' w <- Ho. unfold attempt, Remove, modify. destruct (next_fault w) as [w1 fault] eqn:E.
  pose proof (passes_next_fault P w HP) as Hpass. pose proof (next_fault_files w) as Hw. rewrite E in Hpass, Hw.
  simpl in *. rewrite Hw, Hn. destruct fault as [k|]; simpl; split.
  - eapply passes_trans; [exact Hpass|]. unfold intact. apply passes_one; by rewrite ?Hw.
  - intros r [= <-]. unfold intact. rewrite ?Hw. done.
  - eapply passes_trans; [exact Hpass|]. apply passes_one; by rewrite ?Hw.
  - intros r [= <-]. by rewrite ?Hw.
Qed.
Lemma spec_remove P v j path (QO : unit → view → DeploymentJournal → Prop) (QE : derr → view → DeploymentJournal → Prop) :
  metadata_path path → P v → P (put path None v) → QO tt (put path None v) j →
  (∀ e, QE e v j) → (∀ e, QE e (put path None v) j) →
  spec (H:=H) layout o P v j (on_files (removeDeploymentFile path)) QO QE.
Proof.
  intros Hp HP HP' HQ HE HE'.
  apply (spec_files _ _ _ _ _ _ _ _ (λ v', v' = v ∨ v' = put path None v)).
  2: by intros ? [->| ->]. 2: intros e ? [->| ->]; auto.
  intros fs Hv. set (R := λ fs', vw fs' = v ∨ vw fs' = put path None v).
  assert (HR : R fs) by by left.
  assert (Hdel : vw (delete path fs) = put path None v) by (by rewrite view_delete, Hv).
  assert (HRd : R (delete path fs)) by by right.
  unfold removeDeploymentFile.
  eapply (fs_triple_bind _ _ _ _ _ (λ r fs', fs' = fs ∧
    match r with Ok n => fs !! path = Some n | Err e => e = NotExist → fs !! path = None end)).
  { intros w <- Ho. destruct (quiet_attempt _ (quiet_open_nofollow path false) w) as (E1 & E2 & E3). split.
    - split; [done|]. exists []. rewrite E1, E2. by repeat constructor.
    - intros r Hr. rewrite E1. split; [done|]. unfold attempt in Hr.
      pose proof (open_nofollow_missing path false w) as Hm. pose proof (open_nofollow_result path false w) as Hn.
      destruct (open_nofollow path false w) as [w1 r']. simpl in *. injection Hr as ->.
      destruct r; [auto|]. intros ->. auto. }
  intros [n|e] ? [-> Hn].
  - eapply fs_triple_bind; [apply triple_quiet; [done|quiet]|]. intros _ ? ->.
    eapply fs_triple_bind; [apply triple_quiet; [done|unfold sync_file; quiet]|]. intros _ ? ->.
    eapply fs_triple_bind; [by eapply attempt_Remove|]. intros r fs' (HRf & Hne & Hok).
    eapply (fs_triple_bind _ _ _ _ _ (λ _ fs'', fs'' = delete path fs)).
    { destruct r as [[]|e]; [|destruct e; [done|by apply triple_raise..]].
      apply fs_triple_ret; [done|]. by apply Hok. }
    intros _ ? ->. eapply fs_triple_bind; [apply triple_quiet; [done|quiet]|]. intros _ ? ->.
    eapply triple_post; [apply triple_quiet; [done|unfold sync_file; quiet]|]. intros [] ? ->. by rewrite Hdel.
  - destruct e; [|by apply triple_raise..]. apply fs_triple_ret; [done|].
    assert (E : put path None v = v); [|by rewrite Hv, <- E].
    rewrite <- Hdel, <- Hv, delete_id; auto.
Qed.
End metadata.
#[export] Hint Resolve apart_load : apart.

(** Two values found in one file are the same. *)
Lemma stored_inj A `{GoJSON A} o n (valid : A → res string unit) a b :
  stored o A n valid a → is_file o n (indentedJSON b) → decodeStrictStream A (indentedJSON b) = Some b → a = b.
Proof. intros ((m & E1 & _) & Hd & _) (m' & E2 & _) Hd'. rewrite E1 in E2. injection E2 as _ E. congruence. Qed.
Lemma spec_demand {H} layout o P v j b text (QO : unit → view → DeploymentJournal → Prop)
    (QE : derr → view → DeploymentJournal → Prop) :
  P v → (b = true → QO tt v j) → (∀ e, QE e v j) → spec (H:=H) layout o P v j (demand b text) QO QE.
Proof. intros. unfold demand, refuse. destruct b; [apply spec_ret|apply spec_fail]; auto. Qed.
Lemma spec_from_res {H A} layout o P v j (r : res string A) (QO : A → view → DeploymentJournal → Prop)
    (QE : derr → view → DeploymentJournal → Prop) :
  P v → (∀ a, r = Ok a → QO a v j) → (∀ e, QE e v j) → spec (H:=H) layout o P v j (from_res r) QO QE.
Proof. intros. unfold from_res, refuse. destruct r; [apply spec_ret|apply spec_fail]; auto. Qed.
