(* ===== verification/LifecycleProps.v ===== *)
(** * Crash consistency of the deployment lifecycle

    Whatever fails and wherever a rollback, an uninstall or an apply transaction is
    stopped, the metadata files are those of the prior deployment, with or without the
    journal of the transaction, or those of the committed one; a journal in its last
    phases is the only one found beside the committed state. *)

From stdpp Require Import base list strings gmap.
From Stdlib Require Import ZArith Lia Ascii.
From Stdlib Require String.
From S2P Require Import Prelude GoStd Json JsonFacts Api Wire Indent Release NetIP Fs Paths Config ConfigProps Layout Deploy Lifecycle DeploySpec.
Local Open Scope Z_scope.

(** ** What the host promises

    Its calls leave the two metadata files alone: the service manager, the artifacts and
    the runtime live elsewhere. *)
Definition host_apart {H A} (layout : Layout) (x : HostM H A) : Prop := ∀ w h,
  passes (λ fs, view_of layout fs = view_of layout (w_files w)) w (x (w, h)).1.1.
Class HostLaws (H : Type) `{!Host H} (layout : Layout) : Prop := {
  Detect_apart : ∀ b s, host_apart layout (Detect b s);
  InstallDefinition_apart : ∀ p, host_apart layout (InstallDefinition p);
  Activate_apart : host_apart layout Activate;
  Stop_apart : host_apart layout Stop;
  RemoveService_apart : host_apart layout RemoveService;
  IsActive_apart : host_apart layout IsActive;
  Inspect_apart : ∀ p, host_apart layout (Inspect p);
  stageArtifact_apart : ∀ release dir source name n d, VersionDir layout release = Ok dir →
    host_apart layout (stageArtifact source dir name n d);
  verifyArtifact_apart : ∀ a b c, host_apart layout (verifyArtifact a b c);
  stageReleaseFile_apart : ∀ release dir source name n d, VersionDir layout release = Ok dir →
    host_apart layout (stageReleaseFile source dir name n d);
  verifyReleaseFile_apart : ∀ a b c, host_apart layout (verifyReleaseFile a b c);
  verifyPreviewRelease_apart : ∀ r, host_apart layout (verifyPreviewRelease r);
  probeRunning_apart : ∀ s, host_apart layout (probeRunning s);
  removeArtifacts_apart : host_apart layout (removeArtifacts layout);
  lease_Initialize_apart : host_apart layout lease_Initialize;
  lease_Attest_apart : host_apart layout lease_Attest;
  flock_apart : ∀ p, host_apart layout (flock p);
  funlock_apart : ∀ p, host_apart layout (funlock p);
  health_deadline_apart : host_apart layout health_deadline;
  (** The manager's name and its definition path are printable. *)
  Detect_plain : ∀ b s w h a, (Detect b s (w, h)).2 = Ok a →
    plain (ma_Manager a) = true ∧ plain (ma_ServiceDefinition a) = true }.
#[export] Hint Resolve Detect_apart InstallDefinition_apart Activate_apart Stop_apart RemoveService_apart
  IsActive_apart Inspect_apart verifyArtifact_apart
  verifyReleaseFile_apart verifyPreviewRelease_apart probeRunning_apart removeArtifacts_apart
  lease_Initialize_apart lease_Attest_apart flock_apart funlock_apart health_deadline_apart : apart.

Section steps.
Context {H : Type} `{!Host H} (lifecycle : Lifecycle).
Abbreviation layout := (lc_layout lifecycle).
Context `{!GoodLayout layout, !HostLaws H layout}.
Abbreviation apart := (apart (H:=H) layout).

Lemma apart_host {A} (x : HostM H A) : host_apart layout x → apart (host x).
Proof.
  intros Hx s. specialize (Hx (m_world s) (m_host s)). unfold host.
  by destruct (x (m_world s, m_host s)) as [[w h] r].
Qed.
Hint Resolve apart_host : apart.

Lemma apart_SupportFilePath desired name : apart (from_res (SupportFilePath layout desired name)).
Proof. apply apart_from_res. Qed.
Lemma apart_verifyDesired desired : apart (verifyDesired lifecycle desired).
Proof. unfold verifyDesired. apart. Qed.
Lemma apart_stopPrior prior attest : apart attest → apart (stopPrior lifecycle prior attest).
Proof. intros Ha. unfold stopPrior. apart. Qed.
Lemma apart_activateDesired desired attest : apart attest → apart (activateDesired lifecycle desired attest).
Proof. intros Ha. unfold activateDesired. apart. Qed.
Lemma apart_wait_loop polls desired : apart (wait_loop lifecycle polls desired).
Proof. induction polls as [|n IH]; simpl; apart. Qed.
Lemma apart_waitForRunning desired : apart (waitForRunning lifecycle desired).
Proof. apply apart_wait_loop. Qed.
Hint Resolve apart_verifyDesired apart_stopPrior apart_activateDesired apart_waitForRunning : apart.
Lemma apart_install_desired desired attest refusal : apart attest → apart (install_desired lifecycle desired attest refusal).
Proof. intros Ha. unfold install_desired. apart. Qed.
Lemma apart_restore_service what active attest : apart attest → apart (restore_service lifecycle what active attest).
Proof. intros Ha. unfold restore_service. apart. Qed.
Hint Resolve apart_install_desired apart_restore_service : apart.
Lemma apart_restore_if_active what prior attest : apart attest → apart (restore_if_active lifecycle what prior attest).
Proof. intros Ha. unfold restore_if_active. apart. Qed.
Lemma apart_stageSupportFiles release v d a b attest : VersionDir layout release = Ok v → apart attest →
  apart (stageSupportFiles lifecycle v d a b attest).
Proof. intros Hv Ha. unfold stageSupportFiles. apart; eapply apart_host, stageReleaseFile_apart, Hv. Qed.
Hint Resolve apart_restore_if_active : apart.
Lemma apart_close_lock path : apart (close_lock path).
Proof. unfold close_lock. apart. apply apart_quiet. unfold sync_file. quiet. Qed.
Hint Resolve apart_close_lock : apart.

(** Directories and the lock file are not metadata either. *)
Lemma apart_prepares {A} (m : FsM A) P : (∀ o, prepares o (deployment_directory layout) m (P o)) → apart (on_files m).
Proof.
  intros Hm s. unfold on_files. destruct (Hm (w_euid (m_world s)) _ (m_world s) eq_refl eq_refl) as [Hp _].
  destruct (m (m_world s)) as [w r]; simpl in *. split; [|done].
  eapply passes_impl; [|exact Hp]. intros fs. apply grows_view, _.
Qed.
Lemma apart_PrepareLayout : apart (on_files (PrepareLayout layout)).
Proof. eapply (apart_prepares _ (λ o _ _, _)). intros o. eapply prepares_wider; [|apply prepares_PrepareLayout]. by left. Qed.
Lemma apart_PrepareVersionDirectory release : apart (on_files (PrepareVersionDirectory layout release)).
Proof. apply (apart_prepares _ (λ _ _ _, True)). intros o. apply prepares_PrepareVersionDirectory. Qed.
Lemma apart_PrepareDeploymentLockRoot : apart (on_files (PrepareDeploymentLockRoot layout)).
Proof.
  eapply (apart_prepares _ (λ o _ _, _)). intros o. eapply prepares_wider; [|apply prepares_prepareLayoutDirectory].
  - by left.
  - apply elem_of_cons. by left.
Qed.
Lemma apart_open_lock create : apart (on_files (open_lock (ly_LockPath layout) create)).
Proof.
  intros s. unfold on_files. set (w := m_world s). set (P := λ fs, view_of layout fs = view_of layout (w_files w)).
  assert (Ht : triple (w_euid w) P (w_files w) (open_lock (ly_LockPath layout) create) (λ _ _, True)).
  { assert (HP : P (w_files w)) by done. unfold open_lock.
    eapply fs_triple_bind; [apply triple_quiet; [done|unfold open_nofollow; quiet]|]. intros [n|[]] ? ->.
    - by apply fs_triple_ret.
    - destruct create; [|by apply triple_raise].
      eapply (fs_triple_bind _ _ _ _ _ (λ _ fs, P fs)).
      { eapply triple_post; [apply triple_attempt, (triple_modify _ _ _ _ _ (λ _ _, True)); [done|done|]|by intros ? ? []].
        intros w' fs Hw _. destruct (w_files w' !! ly_LockPath layout); [done|]. destruct (is_directory _ _); [|done].
        intros [= <-]. split; [|done]. unfold P, create_node. rewrite Hw.
        destruct (lock_path_ne layout) as [??]. by apply view_insert_ne. }
      intros made fs Hfs. eapply fs_triple_bind; [apply triple_quiet; [done|quiet]|]. intros _ ? ->.
      eapply triple_post; [apply triple_quiet; [done|unfold open_nofollow; quiet]|done].
    - by apply triple_raise.
    - by apply triple_raise.
    - by apply triple_raise. }
  destruct (Ht w eq_refl eq_refl) as [Hp _]. destruct (open_lock _ _ w) as [w' r]; simpl in *. by split.
Qed.
Hint Resolve apart_PrepareLayout apart_PrepareVersionDirectory apart_PrepareDeploymentLockRoot apart_open_lock : apart.
Lemma apart_fd n : apart (on_files (validateDeploymentFileFD n)).
Proof. apply apart_quiet. unfold validateDeploymentFileFD. quiet. Qed.
Hint Resolve apart_fd : apart.
Lemma apart_bootstrap : apart (acquireDeploymentBootstrapLock lifecycle).
Proof. unfold acquireDeploymentBootstrapLock. apart; apply apart_quiet; quiet. Qed.
Lemma apart_lifecycle_lock : apart (lifecycle_lock lifecycle).
Proof.
  unfold lifecycle_lock, acquireExistingDeploymentLock, acquireDeploymentLock, acquireDeploymentFileLock. apart.
  apply apart_quiet. unfold Lstat. quiet.
Qed.
Lemma apart_newTransactionID : apart newTransactionID.
Proof. unfold newTransactionID. apart. apply apart_quiet. quiet. Qed.
(** The directory a release is staged in is its version directory. *)
Lemma on_files_result {A} (m : FsM A) (s : Machine H) a : (on_files m s).2 = Ok a → (m (m_world s)).2 = Ok a.
Proof. unfold on_files. destruct (m (m_world s)) as [w [b|e]]; [by intros [= <-]|done]. Qed.
Lemma PrepareVersionDirectory_result release w dir : (PrepareVersionDirectory layout release w).2 = Ok dir → VersionDir layout release = Ok dir.
Proof.
  unfold PrepareVersionDirectory, mbind, fsm_bind. destruct (PrepareLayout layout w) as [w1 [[]|]]; [|done].
  destruct (VersionDir layout release) as [d|]; [|done]. destruct (openSecureDirectory _ _) as [w2 []]; [|done].
  destruct (in_context _ _ _) as [w3 []]; [|done]. by intros [= <-].
Qed.
Lemma apart_bind_result {A B} (m : DepM H A) (f : A → DepM H B) :
  apart m → (∀ a s, (m s).2 = Ok a → apart (f a)) → apart (m ≫= f).
Proof.
  intros Hm Hf s. unfold mbind, depm_bind, dep_bind. destruct (Hm s) as [Hp Hj].
  destruct (m s) as [s1 [a|e]] eqn:E; simpl in *; [|done]. destruct (Hf a s (f_equal snd E) s1) as [Hp2 Hj2].
  split; [|congruence]. eapply passes_trans; [exact Hp|]. eapply passes_impl; [|exact Hp2]. simpl. intros fs ->.
  by destruct Hp as (_ & ? & _ & _ & ?).
Qed.
Lemma apart_stage_release release a l n refusal attest : apart attest →
  apart (stage_release lifecycle release a l n refusal attest).
Proof.
  intros Ha. unfold stage_release. apply apart_bind; [done|]. intros _.
  apply apart_bind_result; [apply apart_PrepareVersionDirectory|]. intros dir s Hdir.
  assert (Hv : VersionDir layout (ir_Release release) = Ok dir) by (by eapply PrepareVersionDirectory_result, on_files_result).
  apply apart_bind; [done|]. intros _. apply apart_bind; [eapply apart_host, stageArtifact_apart, Hv|]. intros staged.
  apart. by eapply apart_stageSupportFiles.
Qed.
End steps.
#[export] Hint Resolve apart_host apart_verifyDesired apart_stopPrior apart_activateDesired apart_waitForRunning
  apart_install_desired apart_restore_service apart_restore_if_active apart_close_lock
  apart_PrepareLayout apart_PrepareVersionDirectory apart_bootstrap apart_lifecycle_lock apart_newTransactionID
  apart_stage_release : apart.

(** ** Transactions

    A transaction has a journal [J], up to its phase; [prior] is what it started from in
    the state file and [C] the state it commits. *)
Lemma put_state layout n v : put layout (ly_StatePath layout) n v = (n, v.2).
Proof. unfold put. by rewrite String.eqb_refl. Qed.
Lemma put_journal layout n v `{!GoodLayout layout} : put layout (ly_JournalPath layout) n v = (v.1, n).
Proof.
  unfold put. pose proof (metadata_paths_ne layout).
  destruct (String.eqb_spec (ly_JournalPath layout) (ly_StatePath layout)); [congruence|done].
Qed.

Section transaction.
Context {H : Type} `{!Host H} (lifecycle : Lifecycle) (o : Z).
Abbreviation layout := (lc_layout lifecycle).
Context `{!GoodLayout layout, !HostLaws H layout}.
Context (J : DeploymentJournal) (prior : option node → Prop) (C : DeploymentState).
Abbreviation apart := (apart (H:=H) layout).
Abbreviation spec := (spec (H:=H) layout o).

Definition journal_at (phase : string) (n : option node) : Prop := is_file o n (indentedJSON (at_phase J phase)).
Definition committed (n : option node) : Prop := is_file o n (indentedJSON C).

(** A transaction in progress can be resumed and can be undone. *)
Definition running (phase : string) (v : view) : Prop :=
  phase ≠ PhaseStateSaved ∧ plain phase = true ∧ journal_at phase v.2 ∧
  (prior v.1 ∨ (phase = PhaseCommitting ∧ committed v.1)).
Definition undoable (v : view) : Prop := ∃ phase, running phase v.
Definition state_is_saved (v : view) : Prop := committed v.1 ∧ journal_at PhaseStateSaved v.2.
Definition settled (v : view) : Prop := v.2 = None ∧ (prior v.1 ∨ committed v.1).
Definition crash_view (v : view) : Prop := settled v ∨ undoable v ∨ state_is_saved v.

(** The end of a run: committed, or failed with the journal variable at some phase. *)
Definition succeeded (v : view) : Prop := v.2 = None ∧ committed v.1.
Definition undo_from (phase : string) (v : view) : Prop := undoable v ∧ (prior v.1 ∨ phase = PhaseCommitting).
Definition failed (_ : derr) (v : view) (j : DeploymentJournal) : Prop :=
  ∃ phase, j = at_phase J phase ∧ crash_view v ∧ (phase ≠ PhaseStateSaved → undo_from phase v).
Definition at_run (v : view) (j : DeploymentJournal) : Prop := ∃ phase, j = at_phase J phase ∧ running phase v.

Lemma running_crash phase v : running phase v → crash_view v.
Proof. intros. right. left. by exists phase. Qed.
Lemma running_failed phase v e : running phase v → failed e v (at_phase J phase).
Proof.
  intros Hr. exists phase. split_and!; [done|by eapply running_crash|]. intros _. split; [by exists phase|].
  destruct Hr as (_ & _ & _ & [?|[? _]]); [by left|by right].
Qed.
Lemma at_run_crash v j : at_run v j → crash_view v.
Proof. intros (phase & _ & ?). by eapply running_crash. Qed.
Lemma at_run_failed v j e : at_run v j → failed e v j.
Proof. intros (phase & -> & ?). by apply running_failed. Qed.

Lemma spec_run_apart {A B} v j (m : DepM H A) (f : A → DepM H B) QO :
  apart m → at_run v j → (∀ a, spec crash_view v j (f a) QO failed) → spec crash_view v j (m ≫= f) QO failed.
Proof.
  intros Hm Hrun Hf. eapply (spec_bind _ _ _ _ _ _ _ _ _ (λ _ v' j', v' = v ∧ j' = j)).
  - apply spec_apart; [done|by eapply at_run_crash|done|]. intros e. by apply at_run_failed.
  - intros a ? ? [-> ->]. apply Hf.
Qed.

Lemma spec_injectCrash P v j phase (QO : unit → view → DeploymentJournal → Prop) (QE : derr → view → DeploymentJournal → Prop) :
  P v → QO tt v j → (∀ e, QE e v j) → spec P v j (injectCrash lifecycle phase) QO QE.
Proof. intros HP HO HE. unfold injectCrash. destruct (String.eqb _ _); [by apply spec_fail|by apply spec_ret]. Qed.
Lemma at_phase_twice j a b : at_phase (at_phase j a) b = at_phase j b.
Proof. done. Qed.

Lemma spec_checkpoint phase X v : X ≠ PhaseStateSaved → plain X = true → running phase v → prior v.1 →
  spec crash_view v (at_phase J phase) (checkpoint lifecycle X)
    (λ _ v' j', j' = at_phase J X ∧ running X v' ∧ prior v'.1) failed.
Proof.
  intros HX Hpl Hrun Hprior. unfold checkpoint.
  eapply spec_bind; [apply (spec_get _ _ _ _ _ (λ j0 v' j', j0 = at_phase J phase ∧ v' = v ∧ j' = at_phase J phase)); [by eapply running_crash|done]|].
  intros ? ? ? (-> & -> & ->). rewrite at_phase_twice.
  eapply spec_bind; [apply (spec_set _ _ _ _ _ _ (λ _ v' j', v' = v ∧ j' = at_phase J X)); [by eapply running_crash|done]|].
  intros _ ? ? (-> & ->).
  set (v' := (v.1, saved o (indentedJSON (at_phase J X)))).
  assert (Hrun' : running X v').
  { split_and!; [done|done|apply saved_is_file|by left]. }
  assert (Hfail : ∀ e v0, v0 = v ∨ v0 = v' → failed e v0 (at_phase J X)).
  { intros e v0 Hv0. assert (undoable v0 ∧ prior v0.1) as [??].
    { destruct Hv0 as [->| ->]; (split; [eexists; done|done]). }
    exists X. split_and!; [done|by right; left|]. intros _. split; [done|by left]. }
  eapply (spec_bind _ _ _ _ _ _ _ _ _ (λ _ v0 j0, v0 = v' ∧ j0 = at_phase J X)).
  - apply spec_save; [exact _|by right|by eapply running_crash|intros e; apply Hfail; by left|].
    intros _. rewrite put_journal by done. split_and!; [by eapply running_crash|done|done|].
    intros e. apply Hfail. by right.
  - intros _ ? ? (-> & ->). apply spec_injectCrash; [by eapply running_crash|done|]. intros e. apply Hfail. by right.
Qed.

(** A guarded step: done, or already passed. *)
Lemma spec_unless order X v j step :
  phase_reached order PhaseCommitting X = true → phase_reached order X X = true →
  at_run v j →
  (∀ phase, running phase v → prior v.1 →
    spec crash_view v (at_phase J phase) step (λ _ v' j', j' = at_phase J X ∧ running X v' ∧ prior v'.1) failed) →
  spec crash_view v j (unless_reached order X step)
    (λ _ v' j', at_run v' j' ∧ phase_reached order (dj_Phase j') X = true) failed.
Proof.
  intros HC HX Hrun Hstep. unfold unless_reached.
  eapply spec_bind; [apply (spec_get _ _ _ _ _ (λ j0 v' j', j0 = j ∧ v' = v ∧ j' = j)); [by eapply at_run_crash|done]|].
  intros ? ? ? (-> & -> & ->). destruct (phase_reached order (dj_Phase j) X) eqn:E.
  - apply spec_ret; [by eapply at_run_crash|done].
  - destruct Hrun as (phase & -> & Hr). simpl in E. eapply spec_impl; [apply Hstep|done|..|done].
    + done.
    + destruct Hr as (_ & _ & _ & [?|[-> _]]); [done|congruence].
    + intros _ v' j' (-> & Hr' & _). split; [by exists X|done].
Qed.
Lemma spec_step order X v j (body : DepM H unit) :
  phase_reached order PhaseCommitting X = true → phase_reached order X X = true → X ≠ PhaseStateSaved → plain X = true →
  apart body → at_run v j →
  spec crash_view v j (unless_reached order X (_ ← body; checkpoint lifecycle X))
    (λ _ v' j', at_run v' j' ∧ phase_reached order (dj_Phase j') X = true) failed.
Proof.
  intros HC HX Hne Hpl Hb Hrun. apply spec_unless; [done..|]. intros phase Hr Hp.
  apply spec_run_apart; [done|by exists phase|]. intros _. by apply spec_checkpoint.
Qed.
Lemma spec_mark order X v j :
  phase_reached order PhaseCommitting X = true → phase_reached order X X = true → X ≠ PhaseStateSaved → plain X = true →
  at_run v j →
  spec crash_view v j (unless_reached order X (checkpoint lifecycle X))
    (λ _ v' j', at_run v' j' ∧ phase_reached order (dj_Phase j') X = true) failed.
Proof. intros HC HX Hne Hpl Hrun. apply spec_unless; [done..|]. intros phase Hr Hp. by apply spec_checkpoint. Qed.

(** The commit: the state, the last checkpoint and the removal of the journal. *)
Lemma spec_save_committed v : running PhaseCommitting v →
  spec crash_view v (at_phase J PhaseCommitting) (SaveState layout C)
    (λ _ v' j', j' = at_phase J PhaseCommitting ∧ running PhaseCommitting v' ∧ committed v'.1) failed.
Proof.
  intros Hr. pose proof Hr as (Hne & Hpl & Hj & _).
  assert (Hr' : running PhaseCommitting (saved o (indentedJSON C), v.2)).
  { split_and!; [done|done|done|]. right. split; [done|apply saved_is_file]. }
  apply spec_save; [exact _|by left|by eapply running_crash|intros e; by apply running_failed|].
  intros _. rewrite put_state. split_and!; [by eapply running_crash|done|done|apply saved_is_file|].
  intros e. by apply running_failed.
Qed.
Lemma saved_failed e v : crash_view v → failed e v (at_phase J PhaseStateSaved).
Proof. intros Hv. by exists PhaseStateSaved. Qed.
Lemma spec_mark_saved v : running PhaseCommitting v → committed v.1 →
  spec crash_view v (at_phase J PhaseCommitting) (checkpoint lifecycle PhaseStateSaved)
    (λ _ v' j', j' = at_phase J PhaseStateSaved ∧ state_is_saved v') failed.
Proof.
  intros Hr Hc. unfold checkpoint.
  eapply spec_bind; [apply (spec_get _ _ _ _ _ (λ j0 v' j', j0 = at_phase J PhaseCommitting ∧ v' = v ∧ j' = at_phase J PhaseCommitting)); [by eapply running_crash|done]|].
  intros ? ? ? (-> & -> & ->). rewrite at_phase_twice.
  eapply spec_bind; [apply (spec_set _ _ _ _ _ _ (λ _ v' j', v' = v ∧ j' = at_phase J PhaseStateSaved)); [by eapply running_crash|done]|].
  intros _ ? ? (-> & ->).
  set (v' := (v.1, saved o (indentedJSON (at_phase J PhaseStateSaved)))).
  assert (Hs : state_is_saved v') by (split; [done|apply saved_is_file]).
  assert (Hcr : crash_view v') by by right; right.
  eapply (spec_bind _ _ _ _ _ _ _ _ _ (λ _ v0 j0, v0 = v' ∧ j0 = at_phase J PhaseStateSaved)).
  - apply spec_save; [exact _|by right|by eapply running_crash|intros e; by apply saved_failed; eapply running_crash|].
    intros _. rewrite put_journal by done. split_and!; [done|done|done|]. intros e. by apply saved_failed.
  - intros _ ? ? (-> & ->). apply spec_injectCrash; [done|done|]. intros e. by apply saved_failed.
Qed.
Lemma spec_finish v : state_is_saved v →
  spec crash_view v (at_phase J PhaseStateSaved) (RemoveJournal layout) (λ _ v' _, succeeded v') failed.
Proof.
  intros Hs. assert (Hcr : crash_view v) by by right; right.
  assert (Hcr' : crash_view (v.1, None)) by (left; split; [done|]; right; apply Hs).
  unfold RemoveJournal. apply spec_remove; [exact _|by right|rewrite ?put_journal by done..]; try done.
  - split; [done|apply Hs].
  - intros e. by apply saved_failed.
  - intros e. by apply saved_failed.
Qed.
Lemma spec_saved_apart {A B} v (m : DepM H A) (f : A → DepM H B) QO :
  apart m → state_is_saved v → (∀ a, spec crash_view v (at_phase J PhaseStateSaved) (f a) QO failed) →
  spec crash_view v (at_phase J PhaseStateSaved) (m ≫= f) QO failed.
Proof.
  intros Hm Hs Hf. assert (Hcr : crash_view v) by by right; right.
  eapply (spec_bind _ _ _ _ _ _ _ _ _ (λ _ v' j', v' = v ∧ j' = at_phase J PhaseStateSaved)).
  - apply spec_apart; [done|done|done|]. intros e. by apply saved_failed.
  - intros a ? ? [-> ->]. apply Hf.
Qed.

(** Undoing: the prior state is saved again, then the journal removed. *)
Definition restored (v : view) : Prop := v.2 = None ∧ prior v.1.
Lemma spec_forget v j : undoable v → prior v.1 →
  spec crash_view v j (RemoveJournal layout) (λ _ v' _, restored v') (λ _ v' _, crash_view v').
Proof.
  intros Hu Hp. assert (Hcr : crash_view v) by by right; left.
  assert (Hcr' : crash_view (v.1, None)) by (left; split; [done|by left]).
  unfold RemoveJournal. apply spec_remove; [exact _|by right|rewrite ?put_journal by done..]; done.
Qed.
Lemma spec_undo st v j : (∀ content, content = indentedJSON st → prior (saved o content)) → undoable v →
  spec crash_view v j (_ ← SaveState layout st; RemoveJournal layout) (λ _ v' _, restored v') (λ _ v' _, crash_view v').
Proof.
  intros Hst Hu. assert (Hcr : crash_view v) by by right; left.
  set (v' := (saved o (indentedJSON st), v.2)).
  assert (Hu' : undoable v').
  { destruct Hu as (phase & Hne & Hpl & Hj & _). exists phase. split_and!; [done|done|done|]. left. by apply Hst. }
  eapply (spec_bind _ _ _ _ _ _ _ _ _ (λ _ v0 _, v0 = v')).
  - apply spec_save; [exact _|by left|done|done|]. intros _. rewrite put_state. fold v'.
    assert (crash_view v') by by right; left. done.
  - intros _ ? ? ->. apply spec_forget; [done|]. by apply Hst.
Qed.
Lemma spec_undo_apart {A B} v j (m : DepM H A) (f : A → DepM H B) QO :
  apart m → undoable v → (∀ a, spec crash_view v j (f a) QO (λ _ v' _, crash_view v')) →
  spec crash_view v j (m ≫= f) QO (λ _ v' _, crash_view v').
Proof.
  intros Hm Hu Hf. assert (Hcr : crash_view v) by by right; left.
  eapply (spec_bind _ _ _ _ _ _ _ _ _ (λ _ v' j', v' = v ∧ j' = j)); [by apply spec_apart|].
  intros a ? ? [-> ->]. apply Hf.
Qed.

(** Running a transaction and undoing it when it fails. *)
Lemma spec_or_restore {A} v j (run : DepM H A) keep restore (QO : A → view → DeploymentJournal → Prop) :
  (∀ j' e, keep j' e = false → dj_Phase j' ≠ PhaseStateSaved) →
  spec crash_view v j run QO failed →
  (∀ v' phase, undo_from phase v' →
    spec crash_view v' (at_phase J phase) restore (λ _ v'' _, restored v'') (λ _ v'' _, crash_view v'')) →
  (∀ a v j, QO a v j → crash_view v) →
  spec crash_view v j (or_restore run keep restore) QO (λ _ v' _, crash_view v').
Proof.
  intros Hkeep Hrun Hres HQ. unfold or_restore.
  eapply (spec_bind _ _ _ _ _ _ _ _ _ (λ r v' j', match r with Ok a => QO a v' j' | Err e => failed e v' j' end)).
  { apply spec_tried. eapply spec_impl; [exact Hrun|done|done|done]. }
  intros r v' j' Hr. assert (Hcr : crash_view v') by (destruct r; [by eapply HQ|by destruct Hr as (? & _ & ? & _)]).
  eapply spec_bind; [apply (spec_get _ _ _ _ _ (λ j0 v0 j1, j0 = j' ∧ v0 = v' ∧ j1 = j')); [done|done]|].
  intros ? ? ? (-> & -> & ->). destruct r as [a|e]; [by apply spec_ret|].
  destruct (_ || _) eqn:E; [by apply spec_fail|]. unbool.
  destruct Hr as (phase & -> & _ & Hu). apply Hkeep in H1. simpl in H1.
  eapply (spec_bind _ _ _ _ _ _ _ _ _ (λ _ v0 _, crash_view v0)).
  - apply spec_tried. eapply spec_impl; [by apply Hres; auto|done| |done].
    intros _ v0 _ [H2 H3]. left. split; [done|by left].
  - intros x v0 j0 Hv0. by apply spec_fail.
Qed.
End transaction.

(** ** Printable journals are read back as they were written *)
Lemma wire_plain_journal j : wire_plain j =
  (0 <=? dj_StateVersion j) && (dj_StateVersion j <=? MaxInt64) && (plain (dj_TransactionID j) &&
  (plain (dj_Operation j) && (plain (dj_Phase j) && (plain (dj_Manager j) && (plain (dj_ServiceDefinition j) &&
  (plain (dj_SourcePath j) && (plain (dj_LicenseSourcePath j) && (plain (dj_NoticeSourcePath j) &&
  (wire_plain (dj_Desired j) && (wire_plain (dj_PriorState j) && true)))))))))).
Proof. by destruct j. Qed.
Lemma wire_plain_state s : wire_plain s =
  (0 <=? ds_StateVersion s) && (ds_StateVersion s <=? MaxInt64) && ((0 <=? ds_Generation s) && (ds_Generation s <? two64) &&
  (plain (ds_Status s) && (plain (ds_Manager s) && (plain (ds_StateDir s) && (plain (ds_ServiceDefinition s) &&
  (wire_plain (ds_Active s) && (wire_plain (ds_Previous s) && true))))))).
Proof. by destruct s. Qed.
Lemma wire_plain_phase j phase : wire_plain j = true → plain phase = true → wire_plain (at_phase j phase) = true.
Proof. rewrite !wire_plain_journal. simpl. intros Hj ->. unbool. by rewrite ?andb_true_iff, ?Z.leb_le. Qed.
Lemma journal_decodes j phase : wire_plain j = true → plain phase = true →
  decodeStrictStream DeploymentJournal (indentedJSON (at_phase j phase)) = Some (at_phase j phase).
Proof. intros. by apply decodeStrictStream_indented, wire_plain_phase. Qed.

(** ** Phases *)
Lemma rank_absent order phase : ∀ i r, phase ∉ order → rank_from i order phase r = r.
Proof.
  induction order as [|p order IH]; intros i r Hn; [done|]. apply not_elem_of_cons in Hn as [Hp Hn]. simpl.
  destruct (String.eqb_spec phase p); [done|]. by apply IH.
Qed.
(** In these orders only two phases have reached the commit. *)
Definition commits_last (order : list string) : bool :=
  (0 <=? rank_from 0 order PhaseCommitting (-1)) &&
  forallb (λ p, negb (phase_reached order p PhaseCommitting) || String.eqb p PhaseCommitting || String.eqb p PhaseStateSaved) order.
Lemma reached_committing order phase : commits_last order = true →
  phase_reached order phase PhaseCommitting = true → phase = PhaseCommitting ∨ phase = PhaseStateSaved.
Proof.
  unfold commits_last. intros Hc Hr. unbool. rewrite forallb_forall in H0.
  destruct (decide (phase ∈ order)) as [Hin|Hout].
  - apply list_elem_of_In, H0 in Hin. rewrite Hr in Hin. simpl in Hin.
    destruct (String.eqb_spec phase PhaseCommitting); [by left|]. destruct (String.eqb_spec phase PhaseStateSaved); [by right|done].
  - unfold phase_reached in Hr. rewrite (rank_absent order phase) in Hr by done. unbool. lia.
Qed.
Lemma sameDeploymentState_eq a b : sameDeploymentState a b = true → a = b.
Proof.
  unfold sameDeploymentState, sameInstalledRelease. intros. unbool. destruct a, b; simpl in *.
  rewrite !String.eqb_eq in *. by subst.
Qed.

(** ** Rollback *)
Section runs.
Context {H : Type} `{!Host H} (lifecycle : Lifecycle) (o : Z).
Abbreviation layout := (lc_layout lifecycle).
Context `{!GoodLayout layout, !HostLaws H layout}.
Abbreviation apart := (apart (H:=H) layout).
Abbreviation spec := (spec (H:=H) layout o).

(** The start of a run: a transaction in progress, or one whose state is saved. *)
Definition started (J : DeploymentJournal) prior C (v : view) (j : DeploymentJournal) : Prop :=
  at_run o J prior C v j ∨ (j = at_phase J PhaseStateSaved ∧ state_is_saved o J C v).

Lemma spec_journal_prior P v j p (QO : DeploymentState → view → DeploymentJournal → Prop) QE :
  dj_PriorState j = Some p → P v → QO p v j → spec P v j journal_prior QO QE.
Proof.
  intros E HP HQ. unfold journal_prior. eapply spec_bind.
  - apply (spec_get _ _ _ _ _ (λ j0 v' j', j0 = j ∧ v' = v ∧ j' = j)); done.
  - intros ? ? ? (-> & -> & ->). rewrite E. by apply spec_ret.
Qed.
Lemma spec_journal_desired P v j d (QO : InstalledRelease → view → DeploymentJournal → Prop) QE :
  dj_Desired j = Some d → P v → QO d v j → spec P v j journal_desired QO QE.
Proof.
  intros E HP HQ. unfold journal_desired. eapply spec_bind.
  - apply (spec_get _ _ _ _ _ (λ j0 v' j', j0 = j ∧ v' = v ∧ j' = j)); done.
  - intros ? ? ? (-> & -> & ->). rewrite E. by apply spec_ret.
Qed.
Lemma spec_get_bind {A} P v j (f : DeploymentJournal → DepM H A) QO QE :
  P v → spec P v j (f j) QO QE → spec P v j (j' ← get_journal; f j') QO QE.
Proof.
  intros HP Hf. eapply spec_bind.
  - apply (spec_get _ _ _ _ _ (λ j0 v' j', j0 = j ∧ v' = v ∧ j' = j)); done.
  - by intros ? ? ? (-> & -> & ->).
Qed.

Section one.
Context (J : DeploymentJournal) (prior : option node → Prop) (C : DeploymentState).
Abbreviation crash := (crash_view o J prior C).
Abbreviation fail_post := (failed o J prior C).
Abbreviation saved_phase := (at_phase J PhaseStateSaved).

(** A run that reaches the commit commits. *)
Lemma spec_commit {A} order v j (f : DepM H A) QO : commits_last order = true →
  at_run o J prior C v j → phase_reached order (dj_Phase j) PhaseCommitting = true →
  (∀ v', running o J prior C PhaseCommitting v' → committed o C v'.1 →
    spec crash v' (at_phase J PhaseCommitting) f QO fail_post) →
  spec crash v j (_ ← SaveState layout C; f) QO fail_post.
Proof.
  intros Hord (phase & -> & Hr) Hreach Hf. simpl in Hreach.
  assert (E : phase = PhaseCommitting).
  { destruct (reached_committing order phase Hord Hreach); [done|]. by destruct Hr. }
  subst phase. eapply spec_bind; [by apply spec_save_committed|].
  intros ? v' ? (-> & Hr' & Hc). by apply Hf.
Qed.
(** The committed state a recovery finds. *)
Lemma spec_validate_committed v refusal : state_is_saved o J C v →
  spec crash v saved_phase (validate_committed lifecycle C refusal)
    (λ state v' j', state = C ∧ v' = v ∧ j' = saved_phase) fail_post.
Proof.
  intros Hs. assert (Hcr : crash v) by by right; right. unfold validate_committed.
  apply spec_saved_apart; [apply apart_load|done|]. intros state.
  eapply spec_bind; [apply (spec_demand _ _ _ _ _ _ _ (λ _ v' j', state = C ∧ v' = v ∧ j' = saved_phase)); [done| |]|].
  - intros ->%sameDeploymentState_eq. done.
  - intros e. by apply saved_failed.
  - intros ? ? ? (-> & -> & ->). by apply spec_ret.
Qed.
Lemma spec_result {B} v state foreground id (f : ApplyResult → DepM H B) QO : state_is_saved o J C v →
  (∀ r, ar_State r = state → spec crash v saved_phase (f r) QO fail_post) →
  spec crash v saved_phase (r ← from_res (resultForState layout state foreground id); f r) QO fail_post.
Proof.
  intros Hs Hf. assert (Hcr : crash v) by by right; right.
  eapply spec_bind; [apply (spec_from_res _ _ _ _ _ _ (λ r v' j', ar_State r = state ∧ v' = v ∧ j' = saved_phase)); [done| |]|].
  - unfold resultForState. intros r. destruct (deploymentLocatorForState _ _); [|done]. by intros [= <-].
  - intros e. by apply saved_failed.
  - intros r ? ? (Hr & -> & ->). by apply Hf.
Qed.
Lemma spec_finish_with {A} v (a : A) : state_is_saved o J C v →
  spec crash v saved_phase (_ ← RemoveJournal layout; mret a) (λ a' v' _, succeeded o C v' ∧ a' = a) fail_post.
Proof.
  intros Hs. eapply spec_bind; [by apply spec_finish|]. intros ? v' j' Hv. apply spec_ret; [|done].
  left. split; [apply Hv|right; apply Hv].
Qed.
End one.

Definition state_file (st : DeploymentState) (n : option node) : Prop := is_file o n (indentedJSON st).
Definition rollback_of (st0 : DeploymentState) (J : DeploymentJournal) : Prop :=
  dj_Operation J = OperationRollback ∧ dj_PriorState J = Some st0 ∧ dj_Desired J = ds_Previous st0 ∧
  is_Some (ds_Previous st0) ∧ wire_plain J = true.
Abbreviation rollback_commit st0 J := (committedRollbackState layout J st0).

Lemma spec_runRollback st0 J v j : rollback_of st0 J →
  started J (state_file st0) (rollback_commit st0 J) v j →
  spec (crash_view o J (state_file st0) (rollback_commit st0 J)) v j (runRollback lifecycle)
    (λ r v' _, succeeded o (rollback_commit st0 J) v' ∧ ar_State r = rollback_commit st0 J)
    (failed o J (state_file st0) (rollback_commit st0 J)).
Proof.
  intros (Hop & Hp & Hd & [d Ed] & _) Hst. set (C := rollback_commit st0 J).
  assert (Hcr : crash_view o J (state_file st0) C v).
  { destruct Hst as [?|[_ ?]]; [by eapply at_run_crash|by right; right]. }
  unfold runRollback. apply spec_get_bind; [done|].
  destruct Hst as [Hrun|[-> Hs]].
  - pose proof Hrun as (phase & -> & Hr). simpl. destruct (String.eqb_spec phase PhaseStateSaved); [by destruct Hr|].
    eapply (spec_bind _ _ _ _ _ _ _ _ _ (λ d' v' j', d' = d ∧ v' = v ∧ j' = at_phase J phase)).
    { eapply spec_journal_desired; [by simpl; rewrite Hd|done|done]. }
    intros ? ? ? (-> & -> & ->).
    apply spec_run_apart; [auto with apart|done|]. intros _.
    eapply spec_bind; [apply spec_step; [done..|apart|done]|]. intros ? v1 j1 [Hr1 _].
    eapply spec_bind; [apply spec_step; [done..|apart|done]|]. intros ? v2 j2 [Hr2 _].
    eapply (spec_bind _ _ _ _ _ _ _ _ _ (λ _ v' j', at_run o J (state_file st0) C v' j')).
    { destruct (negb _); [|apply spec_ret; [by eapply at_run_crash|done]].
      eapply spec_bind; [apply spec_step; [done..|apart|done]|]. intros ? v3 j3 [Hr3 _].
      eapply spec_impl; [apply spec_step; [done..|apart|done]|done| |done]. by intros ? ? ? []. }
    intros ? v4 j4 Hr4. eapply spec_bind; [by apply spec_mark|]. intros ? v5 j5 [Hr5 Hreach].
    eapply (spec_bind _ _ _ _ _ _ _ _ _ (λ p v' j', p = st0 ∧ v' = v5 ∧ j' = j5)).
    { eapply spec_journal_prior; [|by eapply at_run_crash|done]. by destruct Hr5 as (? & -> & _). }
    intros ? ? ? (-> & -> & ->).
    change (committedRollbackState layout (at_phase J phase) st0) with C.
    eapply spec_commit; [|done|done|]; [done|]. intros v6 Hr6 Hc6.
    eapply spec_bind; [by apply spec_mark_saved|]. intros ? v7 ? (-> & Hs7).
    apply spec_result; [done|]. intros r Hr'. eapply spec_impl; [by apply spec_finish_with|done| |done].
    by intros ? ? ? [? ->].
  - rewrite String.eqb_refl.
    eapply (spec_bind _ _ _ _ _ _ _ _ _ (λ p v' j', p = st0 ∧ v' = v ∧ j' = at_phase J PhaseStateSaved)).
    { by eapply spec_journal_prior. }
    intros ? ? ? (-> & -> & ->).
    change (committedRollbackState layout (at_phase J PhaseStateSaved) st0) with C.
    eapply spec_bind; [by apply spec_validate_committed|]. intros ? ? ? (-> & -> & ->).
    apply spec_result; [done|]. intros r Hr'. eapply spec_impl; [by apply spec_finish_with|done| |done].
    by intros ? ? ? [? ->].
Qed.

Lemma spec_restore_switch st0 J v phase : rollback_of st0 J → undoable o J (state_file st0) (rollback_commit st0 J) v →
  spec (crash_view o J (state_file st0) (rollback_commit st0 J)) v (at_phase J phase)
    (restorePriorAfterFailedSwitch lifecycle) (λ _ v' _, restored (state_file st0) v')
    (λ _ v' _, crash_view o J (state_file st0) (rollback_commit st0 J) v').
Proof.
  intros (_ & Hp & _) Hu. unfold restorePriorAfterFailedSwitch. apply spec_get_bind; [by right; left|]. simpl.
  apply spec_undo_apart; [apart|done|]. intros _. rewrite Hp.
  apply spec_undo_apart; [apart|done|]. intros _. apply spec_undo; [exact _| |done].
  intros content ->. apply saved_is_file.
Qed.
Lemma spec_run_or_restore_rollback st0 J v j : rollback_of st0 J →
  started J (state_file st0) (rollback_commit st0 J) v j →
  spec (crash_view o J (state_file st0) (rollback_commit st0 J)) v j (run_or_restore_rollback lifecycle)
    (λ r v' _, succeeded o (rollback_commit st0 J) v' ∧ ar_State r = rollback_commit st0 J)
    (λ _ v' _, crash_view o J (state_file st0) (rollback_commit st0 J) v').
Proof.
  intros Hof Hst. unfold run_or_restore_rollback. apply spec_or_restore.
  - intros j' e. unfold state_saved. intros E%String.eqb_neq. done.
  - by apply spec_runRollback.
  - intros v' phase [Hu _]. by apply spec_restore_switch.
  - intros a v' j' [[H1 H2] _]. left. split; [done|by right].
Qed.

(** ** Locks around a body *)
Lemma spec_closing {A} P v j context path (body : DepM H A) (QO : A → view → DeploymentJournal → Prop) :
  (∀ a v j, QO a v j → P v) → spec P v j body QO (λ _ v' _, P v') →
  spec P v j (closing context path body) QO (λ _ v' _, P v').
Proof.
  intros HQ Hb. unfold closing.
  eapply (spec_bind _ _ _ _ _ _ _ _ _ (λ r v' j', match r with Ok a => QO a v' j' | Err _ => P v' end)).
  { apply spec_tried. eapply spec_impl; [exact Hb|done..]. }
  intros r v' j' Hr. assert (HP : P v') by (destruct r; eauto).
  eapply (spec_bind _ _ _ _ _ _ _ _ _ (λ _ v0 j0, v0 = v' ∧ j0 = j')).
  { apply spec_apart; [apart|done..]. }
  intros [[]|e] ? ? [-> ->]; [|by apply spec_fail]. destruct r; [by apply spec_ret|by apply spec_fail].
Qed.
Lemma spec_with_mutation_locks {A} P v j (body : DepM H A) (QO : A → view → DeploymentJournal → Prop) :
  P v → (∀ a v j, QO a v j → P v) → spec P v j body QO (λ _ v' _, P v') →
  spec P v j (with_mutation_locks lifecycle body) QO (λ _ v' _, P v').
Proof.
  intros HP HQ Hb. unfold with_mutation_locks.
  eapply (spec_bind _ _ _ _ _ _ _ _ _ (λ _ v' j', v' = v ∧ j' = j)); [apply spec_apart; [apart|done..]|].
  intros bootstrap ? ? [-> ->].
  eapply (spec_bind _ _ _ _ _ _ _ _ _ (λ _ v' j', v' = v ∧ j' = j)); [apply spec_apart; [apart|done..]|].
  intros [lock|e] ? ? [-> ->]; [by repeat apply spec_closing|].
  eapply (spec_bind _ _ _ _ _ _ _ _ _ (λ _ v' j', v' = v ∧ j' = j)); [apply spec_apart; [apart|done..]|].
  intros c ? ? [-> ->]. by apply spec_fail.
Qed.

(** ** Starting *)
Lemma all_ok_cons r l : all_ok (r :: l) = Ok tt ↔ r = Ok tt ∧ all_ok l = Ok tt.
Proof. destruct r as [[]|]; simpl; [tauto|]. split; [done|by intros [? _]]. Qed.
Lemma plain_lower_hex n s : matches (Repeat n lower_hex) s = true → plain s = true.
Proof.
  intros Hm%matches_spec%lang_classes. unfold plain. rewrite forallb_forall. intros z Hz%list_elem_of_In.
  rewrite Forall_forall in Hm. apply Hm in Hz. clear Hm.
  assert (Hc : ∀ n, classes (Repeat n lower_hex) z = true → classes lower_hex z = true).
  { intros k. induction k as [|k IH]; [done|]. cbn [Repeat classes]. intros [?|?]%orb_true_iff; auto. }
  apply Hc in Hz. simpl in Hz. unfold html_safe.
  rewrite orb_true_iff, !andb_true_iff, !Z.leb_le in Hz.
  repeat (rewrite andb_true_iff || rewrite negb_true_iff || rewrite Z.eqb_neq || rewrite Z.leb_le || rewrite Z.ltb_lt); lia.
Qed.
Lemma spec_Detect P v j b st (QE : derr → view → DeploymentJournal → Prop) : P v → (∀ e, QE e v j) →
  spec P v j (host (Detect b st))
    (λ a v' j', plain (ma_Manager a) = true ∧ plain (ma_ServiceDefinition a) = true ∧ v' = v ∧ j' = j) QE.
Proof.
  intros HP HE s Hv Ho Hj. pose proof (apart_host lifecycle _ (Detect_apart b st) s) as [Hp Hj'].
  pose proof (Detect_plain b st (m_world s) (m_host s)) as Hd. rewrite Hv in Hp.
  split; [eapply passes_impl; [|exact Hp]; simpl; by intros ? ->|].
  destruct Hp as (_ & ? & _ & _ & Hv'). rewrite Hv', Hj', Hj. unfold host in *.
  destruct (Detect b st (m_world s, m_host s)) as [[w h] [a|e]]; simpl in *; [|done].
  destruct (Hd a eq_refl). done.
Qed.

(** A computation that leaves the view alone, before anything has been decided. *)
Lemma spec_idle {A B} P v j (m : DepM H A) (f : A → DepM H B) QO :
  apart m → P v → (∀ a, spec P v j (f a) QO (λ _ v' _, P v')) → spec P v j (m ≫= f) QO (λ _ v' _, P v').
Proof.
  intros Hm HP Hf. eapply (spec_bind _ _ _ _ _ _ _ _ _ (λ _ v' j', v' = v ∧ j' = j)); [by apply spec_apart|].
  intros a ? ? [-> ->]. apply Hf.
Qed.
(** Writing the first journal of a transaction. *)
Lemma spec_first_journal {A} P v j J (f : DepM H A) QO : P v →
  (validate_journal layout J = Ok tt →
     spec P (v.1, saved o (indentedJSON J)) J f QO (λ _ v' _, P v') ∧ P (v.1, saved o (indentedJSON J))) →
  spec P v j (_ ← set_journal J; _ ← SaveJournal layout J; _ ← injectCrash lifecycle PhasePlanned; f) QO (λ _ v' _, P v').
Proof.
  intros HP Hf. eapply spec_bind; [by apply (spec_set _ _ _ _ _ _ (λ _ v' j', v' = v ∧ j' = J))|].
  intros ? ? ? [-> ->].
  eapply (spec_bind _ _ _ _ _ _ _ _ _ (λ _ v' j', v' = (v.1, saved o (indentedJSON J)) ∧ j' = J ∧
    validate_journal layout J = Ok tt)).
  - apply spec_save; [exact _|by right|done|done|]. intros Hok. rewrite put_journal by done.
    destruct (Hf Hok). by split_and!.
  - intros ? ? ? (-> & -> & Hok). destruct (Hf Hok) as [Hf' HP'].
    eapply (spec_bind _ _ _ _ _ _ _ _ _ (λ _ v' j', v' = (v.1, saved o (indentedJSON J)) ∧ j' = J)).
    + by apply spec_injectCrash.
    + by intros ? ? ? [-> ->].
Qed.
Lemma valid_journal_id J : validate_journal layout J = Ok tt → plain (dj_TransactionID J) = true.
Proof.
  unfold validate_journal. rewrite all_ok_cons. intros [Hid _].
  destruct (_ || _) eqn:E in Hid; [done|]. unbool. by eapply plain_lower_hex.
Qed.
Lemma wire_plain_option {A} `{GoJSON A} (a : A) : wire_plain (Some a) = wire_plain a.
Proof. done. Qed.

(** What a crash during a rollback from [st0] can leave. *)
Definition rollback_view (st0 : DeploymentState) (v : view) : Prop :=
  (v.2 = None ∧ state_file st0 v.1) ∨
  ∃ J, rollback_of st0 J ∧ crash_view o J (state_file st0) (rollback_commit st0 J) v.
Definition rollback_done (st0 : DeploymentState) (r : ApplyResult) (v : view) (_ : DeploymentJournal) : Prop :=
  ∃ J, rollback_of st0 J ∧ succeeded o (rollback_commit st0 J) v ∧ ar_State r = rollback_commit st0 J.
(** Where a rollback can start: no transaction, or one of its own. *)
Definition rollback_ready (st0 : DeploymentState) (v : view) : Prop :=
  wire_plain st0 = true ∧ is_Some (ds_Previous st0) ∧ rollback_view st0 v ∧ (v.2 = None → state_file st0 v.1).

Lemma rollback_done_view st0 r v j : rollback_done st0 r v j → rollback_view st0 v.
Proof. intros (J & Hof & [H1 H2] & _). right. exists J. split; [done|]. left. split; [done|by right]. Qed.
Lemma spec_rollback_transaction st0 J v j : rollback_of st0 J →
  started J (state_file st0) (rollback_commit st0 J) v j →
  spec (rollback_view st0) v j (run_or_restore_rollback lifecycle) (rollback_done st0) (λ _ v' _, rollback_view st0 v').
Proof.
  intros Hof Hst. eapply spec_impl; [by apply spec_run_or_restore_rollback|..].
  - intros v' Hv'. right. by exists J.
  - intros r v' j' [??]. by exists J.
  - intros e v' j' Hv'. right. by exists J.
Qed.
Lemma spec_start_rollback st0 v j : rollback_ready st0 v → v.2 = None →
  spec (rollback_view st0) v j (start_rollback lifecycle) (rollback_done st0) (λ _ v' _, rollback_view st0 v').
Proof.
  intros (Hw & [previous Hprev] & Hview & Hst) Hnone. specialize (Hst Hnone). unfold start_rollback.
  eapply (spec_bind _ _ _ _ _ _ _ _ _ (λ st v' j', st = st0 ∧ v' = v ∧ j' = j)).
  { apply spec_load; [exact _|by left|done| |done|done]. unfold at_path. rewrite String.eqb_refl. intros a Ha.
    split; [|done]. eapply stored_inj; [done|done|]. by apply decodeStrictStream_indented. }
  intros ? ? ? (-> & -> & ->). rewrite Hprev.
  destruct (ds_Active st0) as [active|] eqn:Hact; [|by apply spec_fail].
  do 3 (apply spec_idle; [apart|done|]; intros _).
  eapply spec_bind; [by apply spec_Detect|]. intros a ? ? (Hm & Hdef & -> & ->).
  apply spec_idle; [apart|done|]; intros _. apply spec_idle; [apart|done|]; intros id.
  apply spec_first_journal; [done|]. set (J := Mk_DeploymentJournal _ _ _ _ _ _ _ _ _ _ _). intros Hok.
  assert (Hof : rollback_of st0 J).
  { split_and!; [done|done|done|by rewrite Hprev|]. apply valid_journal_id in Hok.
    assert (Hwp : wire_plain (Some previous) = true).
    { rewrite wire_plain_state, Hprev, !andb_true_iff in Hw. tauto. }
    rewrite wire_plain_journal. simpl in Hok |- *. by rewrite Hok, Hm, Hdef, Hwp, (wire_plain_option st0), Hw. }
  assert (Hrun : running o J (state_file st0) (rollback_commit st0 J) PhasePlanned (v.1, saved o (indentedJSON J))).
  { split_and!; [done|done|apply saved_is_file|by left]. }
  split; [|right; exists J; split; [done|by eapply running_crash]].
  apply (spec_rollback_transaction st0 J); [done|]. left. by exists PhasePlanned.
Qed.
(** Recovering the transaction found in the journal, or starting one. *)
Lemma spec_recover_or_start {A} P v j (own : DeploymentJournal → bool) text (run start : DepM H A) QO : P v →
  (∀ Jl, stored o DeploymentJournal v.2 (validate_journal layout) Jl → spec P v Jl run QO (λ _ v' _, P v')) →
  (v.2 = None → spec P v j start QO (λ _ v' _, P v')) →
  spec P v j (loaded ← tried (LoadJournal layout);
              match loaded with
              | Ok journal => _ ← set_journal journal; _ ← demand (own journal) text; run
              | Err e => if Is e ErrNoDeploymentJournal then start else fail e
              end) QO (λ _ v' _, P v').
Proof.
  intros HP Hrun Hstart.
  eapply (spec_bind _ _ _ _ _ _ _ _ _ (λ r v' j', v' = v ∧ j' = j ∧ match r with
    | Ok J => stored o DeploymentJournal v.2 (validate_journal layout) J
    | Err e => Is e ErrNoDeploymentJournal = true → v.2 = None end)).
  { apply spec_tried, spec_load; [exact _|by right|done|..]; unfold at_path.
    all: destruct (String.eqb_spec (ly_JournalPath layout) (ly_StatePath layout)) as [E|_];
      [by destruct (metadata_paths_ne layout)|]; try done.
    intros e He. split_and!; [done|done|]. by rewrite He. }
  intros [Jl|e] ? ? (-> & -> & Hl).
  - eapply spec_bind; [by apply (spec_set _ _ _ _ _ _ (λ _ v' j', v' = v ∧ j' = Jl))|]. intros ? ? ? [-> ->].
    apply spec_idle; [apart|done|]. intros _. by apply Hrun.
  - destruct (Is e ErrNoDeploymentJournal); [auto|by apply spec_fail].
Qed.
Lemma found_started J prior C v Jl : wire_plain J = true → crash_view o J prior C v →
  stored o DeploymentJournal v.2 (validate_journal layout) Jl → started J prior C v Jl.
Proof.
  intros Hplain Hcr Hl. destruct Hcr as [[Hn _]|[[phase Hr]|Hs]].
  - destruct Hl as [(? & E & _) _]. by rewrite Hn in E.
  - left. exists phase. split; [|done]. destruct Hr as (_ & Hpl & Hj & _).
    eapply stored_inj; [exact Hl|exact Hj|]. by apply journal_decodes.
  - right. split; [|done]. eapply stored_inj; [exact Hl|apply Hs|]. by apply journal_decodes.
Qed.
Lemma stored_some A `{GoJSON A} v (valid : A → res string unit) a : stored o A v valid a → v ≠ None.
Proof. intros [(? & E & _) _]. by rewrite E. Qed.
Lemma spec_Rollback st0 v j : rollback_ready st0 v →
  spec (rollback_view st0) v j (Rollback lifecycle) (rollback_done st0) (λ _ v' _, rollback_view st0 v').
Proof.
  intros Hready. pose proof Hready as (Hw & Hprev & Hview & _). unfold Rollback.
  apply spec_with_mutation_locks; [done|apply rollback_done_view|].
  apply spec_idle; [apart|done|]. intros _. apply spec_recover_or_start; [done| |by apply spec_start_rollback].
  intros Jl Hl. destruct Hview as [[Hn _]|(J & Hof & Hcr)]; [by apply stored_some in Hl|].
  apply (spec_rollback_transaction st0 J); [done|]. apply found_started; [apply Hof|done|done].
Qed.
End runs.
