(* ===== verification/DeployCrash.v ===== *)
(** * Crash consistency of uninstall, apply and restarts

    The transactions of uninstall and apply have the crash views of [LifecycleProps];
    the theorems at the end say so of whole operations, however often they are stopped
    and run again.  A host with a service that starts and stops discharges the laws. *)

From stdpp Require Import base list strings gmap.
From Stdlib Require Import ZArith Lia Ascii.
From Stdlib Require String.
From S2P Require Import Prelude GoStd Json JsonFacts Api Wire Indent Release NetIP Fs Paths Config ConfigProps Layout Deploy Lifecycle DeploySpec LifecycleProps.
Local Open Scope Z_scope.

Section transactions.
Context {H : Type} `{!Host H} (lifecycle : Lifecycle) (o : Z).
Abbreviation layout := (lc_layout lifecycle).
Context `{!GoodLayout layout, !HostLaws H layout}.
Abbreviation apart := (apart (H:=H) layout).
Abbreviation spec := (spec (H:=H) layout o).

(** What a transaction starts from: a state, or none. *)
Definition prior_file (prior : option DeploymentState) (n : option node) : Prop :=
  match prior with Some st => state_file o st n | None => n = None end.

(** ** Uninstall *)
Definition uninstall_of (st0 : DeploymentState) (J : DeploymentJournal) : Prop :=
  dj_Operation J = OperationUninstall ∧ dj_PriorState J = Some st0 ∧ wire_plain J = true.
Abbreviation uninstall_commit st0 J := (committedUninstallState layout J st0).

Lemma spec_runUninstall st0 J v j : uninstall_of st0 J →
  started o J (state_file o st0) (uninstall_commit st0 J) v j →
  spec (crash_view o J (state_file o st0) (uninstall_commit st0 J)) v j (runUninstall lifecycle)
    (λ r v' _, succeeded o (uninstall_commit st0 J) v' ∧ ur_State r = uninstall_commit st0 J)
    (failed o J (state_file o st0) (uninstall_commit st0 J)).
Proof.
  intros (Hop & Hp & _) Hst. set (C := uninstall_commit st0 J).
  assert (Hcr : crash_view o J (state_file o st0) C v).
  { destruct Hst as [?|[_ ?]]; [by eapply at_run_crash|by right; right]. }
  assert (Hjp : dj_PriorState j = Some st0) by (destruct Hst as [(? & -> & _)|[-> _]]; done).
  unfold runUninstall. apply spec_get_bind; [done|].
  eapply (spec_bind _ _ _ _ _ _ _ _ _ (λ p v' j', p = st0 ∧ v' = v ∧ j' = j)); [by eapply spec_journal_prior|].
  intros ? ? ? (-> & -> & ->). change (committedUninstallState layout j st0) with C.
  destruct Hst as [Hrun|[-> Hs]].
  - pose proof Hrun as (phase & -> & Hr). simpl. destruct (String.eqb_spec phase PhaseStateSaved); [by destruct Hr|].
    eapply spec_bind; [apply spec_step; [done..|apart|done]|]. intros ? v1 j1 [Hr1 _].
    eapply spec_bind; [apply spec_step; [done..|apart|done]|]. intros ? v2 j2 [Hr2 _].
    eapply spec_bind; [by apply spec_mark|]. intros ? v3 j3 [Hr3 _].
    eapply spec_bind; [apply spec_step; [done..|apart|done]|]. intros ? v4 j4 [Hr4 _].
    eapply spec_bind; [by apply spec_mark|]. intros ? v5 j5 [Hr5 Hreach].
    eapply spec_commit; [exact _| |done|done|]; [done|]. intros v6 Hr6 Hc6.
    eapply spec_bind; [by apply spec_mark_saved|]. intros ? v7 ? (-> & Hs7).
    eapply spec_impl; [by apply spec_finish_with|done| |done]. by intros ? ? ? [? ->].
  - rewrite String.eqb_refl.
    eapply spec_bind; [by apply spec_validate_committed|]. intros ? ? ? (-> & -> & ->).
    eapply spec_impl; [by apply spec_finish_with|done| |done]. by intros ? ? ? [? ->].
Qed.
Lemma spec_run_or_restore_uninstall st0 J v j : uninstall_of st0 J →
  started o J (state_file o st0) (uninstall_commit st0 J) v j →
  spec (crash_view o J (state_file o st0) (uninstall_commit st0 J)) v j (run_or_restore_uninstall lifecycle)
    (λ r v' _, succeeded o (uninstall_commit st0 J) v' ∧ ur_State r = uninstall_commit st0 J)
    (λ _ v' _, crash_view o J (state_file o st0) (uninstall_commit st0 J) v').
Proof.
  intros Hof Hst. unfold run_or_restore_uninstall. apply spec_or_restore.
  - intros j' e Hk E. unfold removing_artifacts in Hk. by rewrite E in Hk.
  - by apply spec_runUninstall.
  - intros v' phase [Hu _]. unfold restorePriorAfterFailedUninstall. apply spec_get_bind; [by right; left|]. simpl.
    destruct Hof as (_ & -> & _). apply spec_undo_apart; [apart|done|]. intros _. apply spec_undo; [exact _| |done].
    intros content ->. apply saved_is_file.
  - intros a v' j' [[H1 H2] _]. left. split; [done|by right].
Qed.

(** What an uninstall ends in, what it can leave and where it can start. *)
Definition uninstalled_from (prior : option DeploymentState) : DeploymentState :=
  match prior with
  | None => Mk_DeploymentState DeploymentStateVersion 1 StatusUninstalled ManagerNone (ly_StateDir layout) "" None None
  | Some st =>
      if String.eqb (ds_Status st) StatusUninstalled then st
      else Mk_DeploymentState DeploymentStateVersion (next_generation (ds_Generation st)) StatusUninstalled ManagerNone
             (ly_StateDir layout) "" None (ds_Active st)
  end.
Definition uninstall_view (prior : option DeploymentState) (v : view) : Prop :=
  (v.2 = None ∧ (prior_file prior v.1 ∨ is_file o v.1 (indentedJSON (uninstalled_from prior)))) ∨
  ∃ st0 J, prior = Some st0 ∧ ds_Status st0 ≠ StatusUninstalled ∧ uninstall_of st0 J ∧
    crash_view o J (state_file o st0) (uninstall_commit st0 J) v.
Definition uninstall_done (prior : option DeploymentState) (r : UninstallResult) (v : view) (_ : DeploymentJournal) : Prop :=
  ur_State r = uninstalled_from prior ∧ v.2 = None ∧ is_file o v.1 (indentedJSON (uninstalled_from prior)).
Definition uninstall_ready (prior : option DeploymentState) (v : view) : Prop :=
  (∀ st, prior = Some st → wire_plain st = true) ∧ uninstall_view prior v ∧ (v.2 = None → prior_file prior v.1).

Lemma uninstall_done_view prior r v j : uninstall_done prior r v j → uninstall_view prior v.
Proof. intros (_ & H1 & H2). left. split; [done|by right]. Qed.
Lemma spec_uninstall_transaction st0 J v j : ds_Status st0 ≠ StatusUninstalled → uninstall_of st0 J →
  started o J (state_file o st0) (uninstall_commit st0 J) v j →
  spec (uninstall_view (Some st0)) v j (run_or_restore_uninstall lifecycle) (uninstall_done (Some st0))
    (λ _ v' _, uninstall_view (Some st0) v').
Proof.
  intros Hs Hof Hst. apply String.eqb_neq in Hs as Hs'. eapply spec_impl; [by apply spec_run_or_restore_uninstall|..].
  - intros v' Hv'. right. by exists st0, J.
  - intros r v' j' [[H1 H2] H3]. unfold uninstall_done, uninstalled_from. by rewrite Hs'.
  - intros e v' j' Hv'. right. by exists st0, J.
Qed.
Lemma spec_start_uninstall prior v j : uninstall_ready prior v → v.2 = None →
  spec (uninstall_view prior) v j (start_uninstall lifecycle) (uninstall_done prior) (λ _ v' _, uninstall_view prior v').
Proof.
  intros (Hw & Hview & Hst) Hnone. specialize (Hst Hnone). unfold start_uninstall.
  eapply (spec_bind _ _ _ _ _ _ _ _ _ (λ r v' j', v' = v ∧ j' = j ∧ match r with
    | Ok st => prior = Some st ∧ validate_state layout st = Ok tt
    | Err e => Is e ErrNoDeploymentState = true → prior = None end)).
  { apply spec_tried, spec_load; [exact _|by left|done|..]; unfold at_path; rewrite ?String.eqb_refl.
    - intros a Ha. split_and!; [done|done| |apply Ha]. destruct prior as [st0|]; simpl in Hst.
      + f_equal. symmetry. eapply stored_inj; [done|done|]. apply decodeStrictStream_indented. by apply Hw.
      + by apply stored_some in Ha.
    - intros Hn. split_and!; [done|done|]. intros _. destruct prior as [st0|]; [|done]. simpl in Hst.
      destruct Hst as (? & E & _). by rewrite Hn in E.
    - intros e He. split_and!; [done|done|]. by rewrite He. }
  intros [st|e] ? ? (-> & -> & Hl).
  - destruct Hl as [-> Hvalid]. destruct (String.eqb_spec (ds_Status st) StatusUninstalled) as [E|E].
    + apply String.eqb_eq in E. apply spec_ret; [done|]. unfold uninstall_done, uninstalled_from. by rewrite E.
    + apply spec_idle; [apart|done|]; intros id. apply spec_first_journal; [exact _|done|].
      set (J := Mk_DeploymentJournal _ _ _ _ _ _ _ _ _ _ _). intros Hok.
      assert (Hof : uninstall_of st J).
      { split_and!; [done|done|]. apply (valid_journal_id lifecycle) in Hok. specialize (Hw st eq_refl).
        rewrite wire_plain_journal. simpl in Hok |- *. rewrite Hok, (wire_plain_option st), Hw.
        rewrite wire_plain_state, !andb_true_iff in Hw. destruct Hw as (_ & _ & _ & -> & _ & -> & _). done. }
      assert (Hrun : running o J (state_file o st) (uninstall_commit st J) PhasePlanned (v.1, saved o (indentedJSON J))).
      { split_and!; [done|done|apply saved_is_file|by left]. }
      split; [|right; exists st, J; split_and!; [done|done|done|by eapply running_crash]].
      apply (spec_uninstall_transaction st J); [done|done|]. left. by exists PhasePlanned.
  - destruct (Is e ErrNoDeploymentState); [|by apply spec_fail]. rewrite (Hl eq_refl) in *.
    set (v' := (saved o (indentedJSON (uninstalled_from None)), v.2)).
    assert (Hv' : uninstall_view None v') by (left; split; [done|]; right; apply saved_is_file).
    eapply (spec_bind _ _ _ _ _ _ _ _ _ (λ _ v0 _, v0 = v')).
    + apply spec_save; [exact _|by left|done|done|]. intros _. rewrite put_state. fold v'. done.
    + intros ? ? ? ->. apply spec_ret; [done|]. split_and!; [done|done|apply saved_is_file].
Qed.
Lemma spec_Uninstall prior v j : uninstall_ready prior v →
  spec (uninstall_view prior) v j (Uninstall lifecycle) (uninstall_done prior) (λ _ v' _, uninstall_view prior v').
Proof.
  intros Hready. pose proof Hready as (Hw & Hview & _). unfold Uninstall.
  apply spec_with_mutation_locks; [exact _|exact _|done|apply uninstall_done_view|].
  apply spec_idle; [apart|done|]. intros _. apply spec_recover_or_start; [exact _|done| |by apply spec_start_uninstall].
  intros Jl Hl. destruct Hview as [[Hn _]|(st0 & J & -> & Hs & Hof & Hcr)]; [by apply stored_some in Hl|].
  apply (spec_uninstall_transaction st0 J); [done|done|]. apply (found_started lifecycle); [apply Hof|done|done].
Qed.

(** ** Apply *)
Definition apply_of (prior : option DeploymentState) (desired : InstalledRelease) (J : DeploymentJournal) : Prop :=
  dj_Operation J = OperationApply ∧ dj_PriorState J = prior ∧ dj_Desired J = Some desired ∧ wire_plain J = true.
Abbreviation apply_commit desired J := (committedApplyState layout J desired).

Section attested.
Context (initialize attest : DepM H unit) (Hinit : apart initialize) (Hattest : apart attest).
Hint Resolve Hinit Hattest : apart.

Section one.
Context (J : DeploymentJournal) (prior : option node → Prop) (C : DeploymentState).
Abbreviation crash := (crash_view o J prior C).
Abbreviation fail_post := (failed o J prior C).

Lemma spec_attested_checkpoint phase X v : X ≠ PhaseStateSaved → plain X = true →
  running o J prior C phase v → prior v.1 →
  spec crash v (at_phase J phase) (attested_checkpoint lifecycle attest X)
    (λ _ v' j', j' = at_phase J X ∧ running o J prior C X v' ∧ prior v'.1) fail_post.
Proof.
  intros. unfold attested_checkpoint. apply spec_run_apart; [apart|by exists phase|]. intros _. by apply spec_checkpoint.
Qed.
Lemma spec_attested_step order X v j (body : DepM H unit) :
  phase_reached order PhaseCommitting X = true → phase_reached order X X = true → X ≠ PhaseStateSaved → plain X = true →
  apart body → at_run o J prior C v j →
  spec crash v j (unless_reached order X (_ ← body; attested_checkpoint lifecycle attest X))
    (λ _ v' j', at_run o J prior C v' j' ∧ phase_reached order (dj_Phase j') X = true) fail_post.
Proof.
  intros HC HX Hne Hpl Hb Hrun. apply spec_unless; [done..|]. intros phase Hr Hp.
  apply spec_run_apart; [done|by exists phase|]. intros _. by apply spec_attested_checkpoint.
Qed.
Lemma spec_attested_mark order X v j :
  phase_reached order PhaseCommitting X = true → phase_reached order X X = true → X ≠ PhaseStateSaved → plain X = true →
  at_run o J prior C v j →
  spec crash v j (unless_reached order X (attested_checkpoint lifecycle attest X))
    (λ _ v' j', at_run o J prior C v' j' ∧ phase_reached order (dj_Phase j') X = true) fail_post.
Proof.
  intros HC HX Hne Hpl Hrun. apply spec_unless; [done..|]. intros phase Hr Hp. by apply spec_attested_checkpoint.
Qed.
(** The end of the transaction, from the saved state on. *)
Lemma spec_attested_finish v state foreground id : state_is_saved o J C v → state = C →
  spec crash v (at_phase J PhaseStateSaved)
    (result ← from_res (resultForState layout state foreground id); _ ← attest; _ ← RemoveJournal layout; mret result)
    (λ r v' _, succeeded o C v' ∧ ar_State r = C) fail_post.
Proof.
  intros Hs ->. apply spec_result; [done|]. intros r Hr. apply spec_saved_apart; [apart|done|]. intros _.
  eapply spec_impl; [by apply spec_finish_with|done| |done]. by intros ? ? ? [? ->].
Qed.
End one.

Lemma spec_runApply prior d J v j : apply_of prior d J →
  started o J (prior_file prior) (apply_commit d J) v j →
  spec (crash_view o J (prior_file prior) (apply_commit d J)) v j (runApply lifecycle initialize attest)
    (λ r v' _, succeeded o (apply_commit d J) v' ∧ ar_State r = apply_commit d J)
    (failed o J (prior_file prior) (apply_commit d J)).
Proof.
  intros (Hop & Hp & Hd & _) Hst. set (C := apply_commit d J).
  assert (Hcr : crash_view o J (prior_file prior) C v).
  { destruct Hst as [?|[_ ?]]; [by eapply at_run_crash|by right; right]. }
  assert (Hjd : dj_Desired j = Some d) by (destruct Hst as [(? & -> & _)|[-> _]]; done).
  assert (HC : committedApplyState layout j d = C) by (destruct Hst as [(? & -> & _)|[-> _]]; done).
  unfold runApply. apply spec_get_bind; [done|].
  eapply (spec_bind _ _ _ _ _ _ _ _ _ (λ d' v' j', d' = d ∧ v' = v ∧ j' = j)); [by eapply spec_journal_desired|].
  intros ? ? ? (-> & -> & ->). rewrite HC.
  destruct Hst as [Hrun|[-> Hs]].
  - pose proof Hrun as (phase & -> & Hr). simpl. destruct (String.eqb_spec phase PhaseStateSaved); [by destruct Hr|].
    eapply (spec_bind _ _ _ _ _ _ _ _ _ (λ _ v' j', at_run o J (prior_file prior) C v' j')).
    { destruct (applyPhaseReached phase PhaseArtifactStaged) eqn:E.
      - apply spec_apart; [apart|done|done|]. intros e. by apply at_run_failed.
      - do 2 (apply spec_run_apart; [apart|done|]; intros _).
        eapply spec_impl; [apply spec_attested_checkpoint; [done|done|exact Hr|]|done| |done].
        + destruct Hr as (_ & _ & _ & [?|[-> _]]); done.
        + intros _ v' j' (-> & Hr' & _). by exists PhaseArtifactStaged. }
    intros ? v1 j1 Hr1.
    eapply spec_bind; [apply spec_attested_step; [done..|apart|done]|]. intros ? v2 j2 [Hr2 _].
    eapply spec_bind; [apply spec_attested_step; [done..|apart|done]|]. intros ? v3 j3 [Hr3 _].
    eapply spec_bind; [apply spec_attested_step; [done..|apart|done]|]. intros ? v4 j4 [Hr4 _].
    eapply (spec_bind _ _ _ _ _ _ _ _ _ (λ _ v' j', at_run o J (prior_file prior) C v' j')).
    { destruct (negb _); [|apply spec_ret; [by eapply at_run_crash|done]].
      eapply spec_bind; [apply spec_attested_step; [done..|apart|done]|]. intros ? v5 j5 [Hr5 _].
      eapply spec_impl; [apply spec_attested_step; [done..|apart|done]|done| |done]. by intros ? ? ? []. }
    intros ? v6 j6 Hr6. eapply spec_bind; [by apply spec_attested_mark|]. intros ? v7 j7 [Hr7 Hreach].
    apply spec_run_apart; [apart|done|]. intros _.
    eapply spec_commit; [exact _| |done|done|]; [done|]. intros v8 Hr8 Hc8.
    unfold attested_checkpoint at 1.
    eapply (spec_bind _ _ _ _ _ _ _ _ _ (λ _ v' j', j' = at_phase J PhaseStateSaved ∧ state_is_saved o J C v')).
    { apply spec_run_apart; [apart|by exists PhaseCommitting|]. intros _. by apply spec_mark_saved. }
    intros ? v9 ? (-> & Hs9). by apply spec_attested_finish.
  - rewrite String.eqb_refl.
    eapply spec_bind; [by apply spec_validate_committed|]. intros ? ? ? (-> & -> & ->).
    by apply spec_attested_finish.
Qed.

Lemma spec_removeJournal J prior C v j : undoable o J prior C v → prior v.1 →
  spec (crash_view o J prior C) v j (_ ← attest; RemoveJournal layout)
    (λ _ v' _, restored prior v') (λ _ v' _, crash_view o J prior C v').
Proof. intros Hu Hp. apply spec_undo_apart; [apart|done|]. intros _. by apply spec_forget. Qed.
Lemma spec_removeState J C v j : undoable o J (prior_file None) C v →
  spec (crash_view o J (prior_file None) C) v j (_ ← (_ ← attest; RemoveState layout); _ ← attest; RemoveJournal layout)
    (λ _ v' _, restored (prior_file None) v') (λ _ v' _, crash_view o J (prior_file None) C v').
Proof.
  intros Hu. assert (Hcr : crash_view o J (prior_file None) C v) by by right; left.
  set (v' := (None : option node, v.2)).
  assert (Hu' : undoable o J (prior_file None) C v').
  { destruct Hu as (phase & Hne & Hpl & Hj & _). exists phase. split_and!; [done|done|done|]. by left. }
  assert (Hcr' : crash_view o J (prior_file None) C v') by by right; left.
  eapply (spec_bind _ _ _ _ _ _ _ _ _ (λ _ v0 _, v0 = v')).
  - apply spec_undo_apart; [apart|done|]. intros _. apply spec_remove; [exact _|by left|rewrite ?put_state..]; done.
  - intros ? ? ? ->. by apply spec_removeJournal.
Qed.
Lemma spec_saveState st J C v j : undoable o J (prior_file (Some st)) C v →
  spec (crash_view o J (prior_file (Some st)) C) v j (_ ← (_ ← attest; SaveState layout st); _ ← attest; RemoveJournal layout)
    (λ _ v' _, restored (prior_file (Some st)) v') (λ _ v' _, crash_view o J (prior_file (Some st)) C v').
Proof.
  intros Hu. assert (Hcr : crash_view o J (prior_file (Some st)) C v) by by right; left.
  set (v' := (saved o (indentedJSON st), v.2)).
  assert (Hu' : undoable o J (prior_file (Some st)) C v').
  { destruct Hu as (phase & Hne & Hpl & Hj & _). exists phase. split_and!; [done|done|done|].
    left. apply saved_is_file. }
  assert (Hcr' : crash_view o J (prior_file (Some st)) C v') by by right; left.
  eapply (spec_bind _ _ _ _ _ _ _ _ _ (λ _ v0 _, v0 = v')).
  - apply spec_undo_apart; [apart|done|]. intros _. apply spec_save; [exact _|by left|done|done|].
    intros _. rewrite put_state. done.
  - intros ? ? ? ->. apply spec_removeJournal; [done|apply saved_is_file].
Qed.

Lemma spec_restore_apply prior d J v phase : apply_of prior d J → undo_from o J (prior_file prior) (apply_commit d J) phase v →
  spec (crash_view o J (prior_file prior) (apply_commit d J)) v (at_phase J phase)
    (restorePriorAfterFailedApply lifecycle attest) (λ _ v' _, restored (prior_file prior) v')
    (λ _ v' _, crash_view o J (prior_file prior) (apply_commit d J) v').
Proof.
  intros (_ & Hp & _) [Hu Hph]. unfold restorePriorAfterFailedApply. apply spec_get_bind; [by right; left|].
  cbn [at_phase dj_Phase dj_PriorState dj_Manager]. rewrite Hp.
  destruct (applyPhaseReached phase PhasePriorServiceStopped) eqn:E; cbn [negb].
  - apply spec_undo_apart; [apart|done|]. intros _. destruct prior as [st|]; [|by apply spec_removeState].
    apply spec_undo_apart; [apart|done|]. intros _. by apply spec_saveState.
  - assert (Hpr : prior_file prior v.1) by (destruct Hph as [?| ->]; done).
    destruct prior as [st|]; [|by apply spec_removeJournal]. destruct (ds_Active st) as [active|]; [|by apply spec_removeJournal].
    destruct (_ && _); [|by apply spec_removeJournal].
    do 3 (apply spec_undo_apart; [apart|done|]; intros ?). by apply spec_removeJournal.
Qed.
Lemma spec_run_or_restore_apply prior d J v j : apply_of prior d J →
  started o J (prior_file prior) (apply_commit d J) v j →
  spec (crash_view o J (prior_file prior) (apply_commit d J)) v j (run_or_restore_apply lifecycle initialize attest)
    (λ r v' _, succeeded o (apply_commit d J) v' ∧ ar_State r = apply_commit d J)
    (λ _ v' _, crash_view o J (prior_file prior) (apply_commit d J) v').
Proof.
  intros Hof Hst. unfold run_or_restore_apply. apply spec_or_restore.
  - intros j' e Hk E. unfold unconfirmed_or_saved in Hk. rewrite E, orb_true_r in Hk. done.
  - unfold reattested. eapply (spec_bind _ _ _ _ _ _ _ _ _ (λ r v' j', match r with
      | Ok a => succeeded o (apply_commit d J) v' ∧ ar_State a = apply_commit d J
      | Err e => failed o J (prior_file prior) (apply_commit d J) e v' j' end)).
    { apply spec_tried. eapply spec_impl; [by apply spec_runApply|done..]. }
    intros [r|e] v' j' Hr.
    + apply spec_ret; [|done]. left. destruct Hr as [[??] _]. split; [done|by right].
    + assert (Hcr : crash_view o J (prior_file prior) (apply_commit d J) v') by by destruct Hr as (? & _ & ? & _).
      eapply (spec_bind _ _ _ _ _ _ _ _ _ (λ _ v0 j0, v0 = v' ∧ j0 = j')).
      * apply spec_apart; [apart|done|done|]. intros e'. exact Hr.
      * intros ? ? ? [-> ->]. by apply spec_fail.
  - intros v' phase Hu. by apply spec_restore_apply.
  - intros a v' j' [[H1 H2] _]. left. split; [done|by right].
Qed.
End attested.
End transactions.

(** ** Stopped and run again

    [restarts_any ops fs0 fs]: starting from [fs0], operations of [ops] have been run any
    number of times, each time from what the run before it left, with whatever else is on
    the machine, and the last run was stopped at [fs].  After the first, a run starts only
    while a journal is there: one that finds none is a new transaction.  [restarts op] is
    one operation, run again and again. *)
Section restarts.
Context {H A : Type} (layout : Layout) (o : Z) (ops : DepM H A → Prop).
Definition stopped_at (op : DepM H A) (s : Machine H) (fs : files) : Prop :=
  ∃ added, w_trace (m_world (op s).1) = added ++ w_trace (m_world s) ∧ fs ∈ w_files (m_world (op s).1) :: added.
Definition runs_from (fs0 : files) (s : Machine H) : Prop :=
  w_euid (m_world s) = o ∧ (w_files (m_world s) = fs0 ∨ w_files (m_world s) !! ly_JournalPath layout ≠ None).
Inductive restarts_any (fs0 : files) : files → Prop :=
| restarts_nothing : restarts_any fs0 fs0
| restarts_run op s fs : ops op → restarts_any fs0 (w_files (m_world s)) → runs_from fs0 s → stopped_at op s fs → restarts_any fs0 fs.

Context (P ready : view → Prop) (QO : A → view → DeploymentJournal → Prop).
Context (Hspec : ∀ op v j, ops op → ready v → spec layout o P v j op QO (λ _ v' _, P v')).
Context (Hview : ∀ v, ready v → P v) (Hagain : ∀ v, P v → v.2 ≠ None → ∀ v0, ready v0 → ready v).

Lemma stopped_view op s fs : ops op → ready (view_of layout (w_files (m_world s))) → w_euid (m_world s) = o →
  stopped_at op s fs → P (view_of layout fs).
Proof using Hspec.
  intros Hop Hr Ho (added & Ht & Hin). destruct (Hspec _ _ (m_journal s) Hop Hr s eq_refl Ho eq_refl) as [Hp _].
  destruct Hp as (_ & added' & Ht' & HF & HP). rewrite Ht in Ht'. apply app_inv_tail in Ht' as <-.
  apply elem_of_cons in Hin as [->|Hin]; [done|]. by rewrite Forall_forall in HF; apply HF.
Qed.
Lemma restarts_view fs0 fs : ready (view_of layout fs0) → restarts_any fs0 fs → P (view_of layout fs).
Proof using Hspec Hview Hagain.
  intros Hr. induction 1 as [|op s fs Hop Hs IH [Ho Hfrom] Hstop]; [by apply Hview|].
  apply (stopped_view op s); [done| |done|done]. destruct Hfrom as [->|Hj]; [done|]. by eapply Hagain.
Qed.
Lemma restarts_result fs0 op s a : ops op → ready (view_of layout fs0) → restarts_any fs0 (w_files (m_world s)) → runs_from fs0 s →
  (op s).2 = Ok a → QO a (view_of layout (w_files (m_world (op s).1))) (m_journal (op s).1).
Proof using Hspec Hview Hagain.
  intros Hop Hr Hs [Ho Hfrom] E.
  assert (Hs' : ready (view_of layout (w_files (m_world s)))).
  { destruct Hfrom as [->|Hj]; [done|]. eapply Hagain; [by eapply restarts_view|done|exact Hr]. }
  destruct (Hspec _ _ (m_journal s) Hop Hs' s eq_refl Ho eq_refl) as [_ HQ]. by rewrite E in HQ.
Qed.
End restarts.
Definition restarts {H A} (layout : Layout) (o : Z) (op : DepM H A) : files → files → Prop := restarts_any layout o (eq op).
Lemma restarts_none {H A} layout o (op : DepM H A) fs : restarts layout o op fs fs.
Proof. apply restarts_nothing. Qed.

Lemma rollback_runs {H : Type} `{!Host H} (lifecycle : Lifecycle) (o : Z) (st0 : DeploymentState)
    (fs0 : files) `{!GoodLayout (lc_layout lifecycle), !HostLaws H (lc_layout lifecycle)} :
  rollback_ready lifecycle o st0 (view_of (lc_layout lifecycle) fs0) →
  (∀ fs, restarts (lc_layout lifecycle) o (Rollback lifecycle) fs0 fs →
     rollback_view lifecycle o st0 (view_of (lc_layout lifecycle) fs)) ∧
  (∀ s r, restarts (lc_layout lifecycle) o (Rollback lifecycle) fs0 (w_files (m_world s)) →
     runs_from (lc_layout lifecycle) o fs0 s → (Rollback lifecycle s).2 = Ok r →
     ∃ J, rollback_of st0 J ∧ ar_State r = committedRollbackState (lc_layout lifecycle) J st0 ∧
       w_files (m_world (Rollback lifecycle s).1) !! ly_JournalPath (lc_layout lifecycle) = None ∧
       is_file o (w_files (m_world (Rollback lifecycle s).1) !! ly_StatePath (lc_layout lifecycle))
         (indentedJSON (ar_State r))).
Proof.
  intros Hr.
  assert (Hspec : ∀ op v j, Rollback lifecycle = op → rollback_ready lifecycle o st0 v → spec (lc_layout lifecycle) o (rollback_view lifecycle o st0) v j
    op (rollback_done lifecycle o st0) (λ _ v' _, rollback_view lifecycle o st0 v')).
  { intros ? ? ? <- ?. by apply spec_Rollback. }
  assert (Hv : ∀ v, rollback_ready lifecycle o st0 v → rollback_view lifecycle o st0 v) by (intros ? (_ & _ & ? & _); done).
  assert (Ha : ∀ v, rollback_view lifecycle o st0 v → v.2 ≠ None → ∀ v0, rollback_ready lifecycle o st0 v0 →
    rollback_ready lifecycle o st0 v) by (intros v ? ? ? (? & ? & _); done).
  split.
  - intros fs. by eapply restarts_view.
  - intros s r Hs Hf E. eapply restarts_result in E; [|done..].
    destruct E as (J & Hof & [H1 H2] & HC). exists J. rewrite HC. done.
Qed.

(** C7. A rollback is crash consistent.  From a deployment whose state file holds [st0],
    with no transaction pending or with one of this rollback's own, whatever system calls
    fail, whatever the service manager and the runtime answer, wherever the process is
    stopped and however often the rollback is run again: the metadata files hold [st0]
    and no journal, or [st0] with the rollback's journal at some phase, or the committed
    rollback of [st0] with the journal in one of its last two phases, or the committed
    rollback and no journal; and a run that reports success has removed the journal and
    left, and returned, exactly the committed state. *)
Theorem rollback_crash_consistent {H : Type} `{!Host H} (lifecycle : Lifecycle) (o : Z) (st0 : DeploymentState)
    (fs0 : files) `{!GoodLayout (lc_layout lifecycle), !HostLaws H (lc_layout lifecycle)} :
  rollback_ready lifecycle o st0 (view_of (lc_layout lifecycle) fs0) →
  (∀ fs, restarts (lc_layout lifecycle) o (Rollback lifecycle) fs0 fs →
     rollback_view lifecycle o st0 (view_of (lc_layout lifecycle) fs)) ∧
  (∀ s r, restarts (lc_layout lifecycle) o (Rollback lifecycle) fs0 (w_files (m_world s)) →
     runs_from (lc_layout lifecycle) o fs0 s → (Rollback lifecycle s).2 = Ok r →
     ∃ J, rollback_of st0 J ∧ ar_State r = committedRollbackState (lc_layout lifecycle) J st0 ∧
       w_files (m_world (Rollback lifecycle s).1) !! ly_JournalPath (lc_layout lifecycle) = None ∧
       is_file o (w_files (m_world (Rollback lifecycle s).1) !! ly_StatePath (lc_layout lifecycle))
         (indentedJSON (ar_State r))).
Proof. apply rollback_runs; exact _. Qed.

Lemma uninstall_runs {H : Type} `{!Host H} (lifecycle : Lifecycle) (o : Z) (prior : option DeploymentState)
    (fs0 : files) `{!GoodLayout (lc_layout lifecycle), !HostLaws H (lc_layout lifecycle)} :
  uninstall_ready lifecycle o prior (view_of (lc_layout lifecycle) fs0) →
  (∀ fs, restarts (lc_layout lifecycle) o (Uninstall lifecycle) fs0 fs →
     uninstall_view lifecycle o prior (view_of (lc_layout lifecycle) fs)) ∧
  (∀ s r, restarts (lc_layout lifecycle) o (Uninstall lifecycle) fs0 (w_files (m_world s)) →
     runs_from (lc_layout lifecycle) o fs0 s → (Uninstall lifecycle s).2 = Ok r →
     ur_State r = uninstalled_from lifecycle prior ∧
     w_files (m_world (Uninstall lifecycle s).1) !! ly_JournalPath (lc_layout lifecycle) = None ∧
     is_file o (w_files (m_world (Uninstall lifecycle s).1) !! ly_StatePath (lc_layout lifecycle))
       (indentedJSON (ur_State r))).
Proof.
  intros Hr.
  assert (Hspec : ∀ op v j, Uninstall lifecycle = op → uninstall_ready lifecycle o prior v → spec (lc_layout lifecycle) o (uninstall_view lifecycle o prior) v j
    op (uninstall_done lifecycle o prior) (λ _ v' _, uninstall_view lifecycle o prior v')).
  { intros ? ? ? <- ?. by apply spec_Uninstall. }
  assert (Hv : ∀ v, uninstall_ready lifecycle o prior v → uninstall_view lifecycle o prior v) by (intros ? (_ & ? & _); done).
  assert (Ha : ∀ v, uninstall_view lifecycle o prior v → v.2 ≠ None → ∀ v0, uninstall_ready lifecycle o prior v0 →
    uninstall_ready lifecycle o prior v) by (intros v ? ? ? (? & _); done).
  split.
  - intros fs. by eapply restarts_view.
  - intros s r Hs Hf E. eapply restarts_result in E; [|done..].
    destruct E as (E & H1 & H2). by rewrite E.
Qed.

(** C8. An uninstall is crash consistent in the same sense, from an installed state, an
    uninstalled one or none: it ends with the state file [uninstalled_from prior], whose
    previous release is the one that was active; until then the files hold the prior
    state, with or without the uninstall's journal, or that final state with the journal
    in one of its last two phases. *)
Theorem uninstall_crash_consistent {H : Type} `{!Host H} (lifecycle : Lifecycle) (o : Z) (prior : option DeploymentState)
    (fs0 : files) `{!GoodLayout (lc_layout lifecycle), !HostLaws H (lc_layout lifecycle)} :
  uninstall_ready lifecycle o prior (view_of (lc_layout lifecycle) fs0) →
  (∀ fs, restarts (lc_layout lifecycle) o (Uninstall lifecycle) fs0 fs →
     uninstall_view lifecycle o prior (view_of (lc_layout lifecycle) fs)) ∧
  (∀ s r, restarts (lc_layout lifecycle) o (Uninstall lifecycle) fs0 (w_files (m_world s)) →
     runs_from (lc_layout lifecycle) o fs0 s → (Uninstall lifecycle s).2 = Ok r →
     ur_State r = uninstalled_from lifecycle prior ∧
     w_files (m_world (Uninstall lifecycle s).1) !! ly_JournalPath (lc_layout lifecycle) = None ∧
     is_file o (w_files (m_world (Uninstall lifecycle s).1) !! ly_StatePath (lc_layout lifecycle))
       (indentedJSON (ur_State r))).
Proof. apply uninstall_runs; exact _. Qed.

(** ** A host

    One service: its definition names the binary it runs.  Releases are found by the path
    of their binary. *)
Record Service := mkService { sv_definition : option string; sv_active : bool }.
#[export] Instance Service_eq_dec : EqDecision Service.
Proof. solve_decision. Defined.
Definition installed_releases : list InstalledRelease := [sample_release "1.0.0" "1"; sample_release "2.0.0" "2"].
Definition identity_of (release : InstalledRelease) : BuildIdentity := {|
  Release := ir_Release release; SourceRevision := ir_SourceRevision release;
  BuildToolchain := ir_BuildToolchain release; BuildDigest := ir_BuildIdentity release;
  ProtocolVersion := ir_ProtocolVersion release; StorageSchemaVersion := ir_StorageSchema release |}.
Definition release_at (path : string) : option InstalledRelease :=
  list_find (λ r, ir_BinaryPath r = path) installed_releases ≫= λ '(_, r), Some r.
Definition answer {A} (r : res derr A) : HostM Service A := λ s, (s, r).
Definition becomes (f : Service → Service) : HostM Service unit := λ '(w, h), ((w, f h), Ok tt).
Definition identity_at (path : option string) : res derr BuildIdentity :=
  match path ≫= release_at with Some r => Ok (identity_of r) | None => Err ErrRuntimeUnavailable end.
#[export] Instance service_host : Host Service := {
  Kind := ManagerSystemd;
  DefinitionPath := sample_definition;
  Detect _ _ := answer (Ok (Mk_ManagerAvailability ManagerSystemd true sample_definition None));
  InstallDefinition payload := λ '(w, h), ((w, mkService (Some payload) (sv_active h)), Ok sample_definition);
  Activate := becomes (λ h, mkService (sv_definition h) true);
  Stop := becomes (λ h, mkService (sv_definition h) false);
  RemoveService := becomes (λ _, mkService None false);
  IsActive := λ '(w, h), ((w, h), Ok (sv_active h));
  Inspect path := answer (identity_at (Some path));
  stageArtifact _ dir name _ _ := answer (Ok (Join [dir; name]));
  verifyArtifact path _ _ := answer (match release_at path with Some _ => Ok tt | None => Err (FileError NotExist) end);
  stageReleaseFile _ dir name _ _ := answer (Ok (Join [dir; name]));
  verifyReleaseFile _ _ _ := answer (Ok tt);
  verifyPreviewRelease _ := answer (Ok tt);
  renderService _ path _ := Ok path;
  probeRunning _ := λ '(w, h),
    ((w, h), if sv_active h then identity_at (sv_definition h) else Err ErrRuntimeUnavailable);
  removeArtifacts _ := answer (Ok tt);
  lease_Initialize := answer (Err (Refused "not leased"));
  lease_Attest := answer (Ok tt);
  flock _ := answer (Ok tt);
  funlock _ := answer (Ok tt);
  health_deadline := answer (Ok false) }.
#[export] Instance service_laws layout : HostLaws Service layout.
Proof.
  split; try (intros; intros w h; apply passes_refl; reflexivity).
  intros b s w h a [= <-]. by vm_compute.
Qed.
#[export] Instance sample_layout_good : GoodLayout sample_layout.
Proof. by split; vm_compute. Qed.

(** The sample deployment, at generation 7, with its service running; a rollback stopped
    after each of its phases, and run again. *)
Definition stopping_after (phase : string) : Lifecycle := Mk_Lifecycle sample_layout (Mk_Target "linux" "amd64") phase.
Definition sample_lifecycle : Lifecycle := stopping_after "".
Definition deployed (machine : Machine unit) : Machine Service :=
  mkMachine (m_world machine) (mkService (Some (ir_BinaryPath (sample_release "2.0.0" "2"))) true) sample_journal.
Definition installed_machine : Machine Service := deployed (SaveState sample_layout (sample_state 7) sample_machine).1.
Definition rolled_back_state : DeploymentState := committedRollbackState sample_layout sample_journal (sample_state 7).
Definition state_after {A} (s : Machine Service * res derr A) : option DeploymentState * option derr :=
  (match (LoadState sample_layout s.1).2 with Ok st => Some st | Err _ => None end,
   match (LoadJournal sample_layout s.1).2 with Ok _ => None | Err e => Some e end).
Definition stop_and_resume (phase : string) : option derr * (option DeploymentState * option derr) * Service :=
  let stopped := Rollback (stopping_after phase) installed_machine in
  let resumed := Rollback sample_lifecycle stopped.1 in
  (match stopped.2 with Err e => Some e | Ok _ => None end, state_after resumed, m_host resumed.1).
Example rollback_resumes :
  map stop_and_resume rollback_order =
  repeat (Some ErrInjectedDeploymentCrash, (Some rolled_back_state, Some ErrNoDeploymentJournal),
          mkService (Some (ir_BinaryPath (sample_release "1.0.0" "1"))) true) 7.
Proof. vm_compute. reflexivity. Qed.

(** The sample run, for the theorems: the rollback of generation 7 and its uninstall. *)
Definition sample_view : view := view_of sample_layout (w_files (m_world installed_machine)).
Lemma sample_view_idle : sample_view = (saved 1000 (indentedJSON (sample_state 7)), None).
Proof. vm_compute. reflexivity. Qed.
Lemma sample_plain : wire_plain (sample_state 7) = true.
Proof. vm_compute. reflexivity. Qed.
Lemma sample_rollback_runs : ∃ r, (Rollback sample_lifecycle installed_machine).2 = Ok r.
Proof.
  assert (H : match (Rollback sample_lifecycle installed_machine).2 with Ok _ => true | Err _ => false end = true)
    by (vm_compute; reflexivity).
  destruct (Rollback sample_lifecycle installed_machine).2 as [r|]; [by exists r|done].
Qed.
Lemma sample_uninstall_runs : ∃ r, (Uninstall sample_lifecycle installed_machine).2 = Ok r.
Proof.
  assert (H : match (Uninstall sample_lifecycle installed_machine).2 with Ok _ => true | Err _ => false end = true)
    by (vm_compute; reflexivity).
  destruct (Uninstall sample_lifecycle installed_machine).2 as [r|]; [by exists r|done].
Qed.
Lemma sample_rollback_ready : rollback_ready sample_lifecycle 1000 (sample_state 7)
  (view_of (lc_layout sample_lifecycle) (w_files (m_world installed_machine))).
Proof.
  change (rollback_ready sample_lifecycle 1000 (sample_state 7) sample_view). rewrite sample_view_idle.
  split_and!; [apply sample_plain|by eexists|left; split; [done|apply saved_is_file]|intros _; apply saved_is_file].
Qed.
Lemma sample_uninstall_ready : uninstall_ready sample_lifecycle 1000 (Some (sample_state 7))
  (view_of (lc_layout sample_lifecycle) (w_files (m_world installed_machine))).
Proof.
  change (uninstall_ready sample_lifecycle 1000 (Some (sample_state 7)) sample_view). rewrite sample_view_idle.
  split_and!; [intros ? [= <-]; apply sample_plain|left; split; [done|left; apply saved_is_file]|intros _; apply saved_is_file].
Qed.
Lemma sample_runs_from : runs_from (lc_layout sample_lifecycle) 1000 (w_files (m_world installed_machine)) installed_machine.
Proof. split; [vm_compute; reflexivity|by left]. Qed.

Lemma rollback_crash_consistent_witness : ∃ r J,
  (Rollback sample_lifecycle installed_machine).2 = Ok r ∧
  ar_State r = committedRollbackState sample_layout J (sample_state 7).
Proof.
  destruct sample_rollback_runs as [r E].
  destruct (proj2 (rollback_crash_consistent sample_lifecycle 1000 (sample_state 7) _ sample_rollback_ready)
              installed_machine r (restarts_none _ _ _ _) sample_runs_from E) as (J & _ & HC & _).
  exists r, J. exact (conj E HC).
Defined.
Lemma uninstall_crash_consistent_witness : ∃ r,
  (Uninstall sample_lifecycle installed_machine).2 = Ok r ∧
  ur_State r = uninstalled_from sample_lifecycle (Some (sample_state 7)).
Proof.
  destruct sample_uninstall_runs as [r E].
  destruct (proj2 (uninstall_crash_consistent sample_lifecycle 1000 (Some (sample_state 7)) _ sample_uninstall_ready)
              installed_machine r (restarts_none _ _ _ _) sample_runs_from E) as (HC & _).
  exists r. exact (conj E HC).
Defined.
