(* ===== verification/ManifestProps.v ===== *)
(** * What a pinned manifest guarantees

    The accepted payloads are exactly the canonical bytes of valid manifests under their
    own digest; a valid manifest installs on every supported target; a release URL names
    one file below the release's directory of the download origin. *)

From stdpp Require Import base list strings gmap.
From Stdlib Require Import ZArith Lia Ascii.
From Stdlib Require String.
From S2P Require Import Prelude GoStd Json JsonFacts Api Wire Indent Release NetIP Fs Paths Config Layout Deploy Manifest.
Local Open Scope Z_scope.

(** ** Checks in order *)
Lemma all_ok_iff l : all_ok l = Ok tt ↔ Forall (λ r, r = Ok tt) l.
Proof.
  induction l as [|[[]|e] l IH]; simpl.
  - split; [constructor|done].
  - rewrite Forall_cons, IH. tauto.
  - rewrite Forall_cons. split; [done|by intros [? _]].
Qed.
Lemma fails_iff (c : bool) (e : string) : (if c then Err e else Ok tt) = Ok tt ↔ c = false.
Proof. by destruct c. Qed.
Ltac checks H := rewrite all_ok_iff, ?Forall_cons, ?fails_iff in H.

(** ** Lower-case hexadecimal text is the encoding of what it decodes to *)
Definition lower_hex_byte (z : Z) : bool := ((48 <=? z) && (z <=? 57)) || ((97 <=? z) && (z <=? 102)).
Lemma lang_lower_hex n : ∀ l, lang (Repeat n lower_hex) l ↔ length l = n ∧ Forall (λ z, lower_hex_byte z = true) l.
Proof.
  induction n as [|n IH]; intros l; simpl.
  - split; [by inversion 1|]. intros [E _]. destruct l; [constructor|done].
  - split.
    + inversion 1 as [| |? ? u v Hu Hv| | | |]; subst. inversion Hu; subst. apply IH in Hv as [<- Hv].
      split; [done|by constructor].
    + intros [E HF]. destruct l as [|z l]; [done|]. inversion HF; subst. injection E as E.
      apply (lang_cat _ _ [z] l); [by constructor|]. by apply IH.
Qed.
Lemma matches_lower_hex n s : matches (Repeat n lower_hex) s = true ↔
  String.length s = n ∧ Forall (λ z, lower_hex_byte z = true) (bytes_list s).
Proof. by rewrite matches_spec, lang_lower_hex, length_bytes_list. Qed.

Lemma hex_digit_value c v : lower_hex_byte (byteZ c) = true → hex_value c = Some v → hex_digit v = c ∧ 0 <= v < 16.
Proof.
  unfold lower_hex_byte, hex_value, hex_digit. intros Hc Hv. pose proof (byteZ_range c).
  rewrite orb_true_iff, !andb_true_iff, !Z.leb_le in Hc.
  destruct ((48 <=? byteZ c) && (byteZ c <=? 57)) eqn:E1.
  - injection Hv as <-. apply andb_true_iff in E1 as [E1%Z.leb_le E2%Z.leb_le].
    destruct (Z.ltb_spec (byteZ c - 48) 10); [|lia]. split; [|lia]. rewrite <- (chrZ_byteZ c) at 2. f_equal. lia.
  - destruct ((97 <=? byteZ c) && (byteZ c <=? 102)) eqn:E2.
    + injection Hv as <-. apply andb_true_iff in E2 as [E2%Z.leb_le E3%Z.leb_le].
      destruct (Z.ltb_spec (byteZ c - 87) 10); [lia|]. split; [|lia]. rewrite <- (chrZ_byteZ c) at 2. f_equal. lia.
    + exfalso. rewrite andb_false_iff, !Z.leb_gt in E1, E2. lia.
Qed.
Lemma hex_encode_decode s : ∀ l, Forall (λ z, lower_hex_byte z = true) (bytes_list s) → hex_decode s = Some l → hex_encode l = s.
Proof.
  induction s as [s IH] using (Nat.measure_induction _ String.length).
  destruct s as [|c [|d s]]; intros l HF; simpl; [by intros [= <-]|done|].
  simpl in HF. inversion HF as [|? ? Hc HF']; subst. inversion HF' as [|? ? Hd HF'']; subst.
  destruct (hex_value c) as [h|] eqn:Eh; [|done]. destruct (hex_value d) as [w|] eqn:Ew; [|done].
  destruct (hex_decode s) as [r|] eqn:Er; [|done]. intros [= <-].
  apply hex_digit_value in Eh as [Eh Hh]; [|done]. apply hex_digit_value in Ew as [Ew Hw]; [|done].
  simpl. rewrite (IH s) by (simpl; lia || done).
  rewrite Z.div_add_l, Z.div_small, Z.add_0_r by lia. rewrite Z.add_comm, Z.mod_add, Z.mod_small by lia. by rewrite Eh, Ew.
Qed.
Lemma hex_digit_lower v : 0 <= v < 16 → lower_hex_byte (byteZ (hex_digit v)) = true.
Proof.
  intros Hv. unfold lower_hex_byte, hex_digit. destruct (Z.ltb_spec v 10); rewrite byteZ_chrZ by lia;
    rewrite orb_true_iff, !andb_true_iff, !Z.leb_le; lia.
Qed.
Lemma hex_encode_lower l : Forall is_byte l → Forall (λ z, lower_hex_byte z = true) (bytes_list (hex_encode l)).
Proof.
  induction 1 as [|z l Hz _ IH]; simpl; [constructor|]. unfold is_byte in Hz.
  repeat constructor; [apply hex_digit_lower; split; [apply Z.div_pos; lia|apply Z.div_lt_upper_bound; lia]
                      |apply hex_digit_lower, Z.mod_pos_bound; lia|done].
Qed.
Lemma SHA256Hex_digest payload : matches hexDigestPattern (SHA256Hex payload) = true.
Proof.
  apply matches_lower_hex. unfold SHA256Hex. split.
  - rewrite length_hex_encode, length_bytes_list. pose proof (Sum256_length payload). unfold slen in *. lia.
  - apply hex_encode_lower, bytes_list_byte.
Qed.
Lemma digest_decodes pin payload : matches hexDigestPattern pin = true →
  hex_decode pin = Some (bytes_list (Sum256 payload)) ↔ pin = SHA256Hex payload.
Proof.
  intros [_ Hp]%matches_lower_hex. split.
  - intros Hd. symmetry. by apply hex_encode_decode.
  - intros ->. apply hex_decode_encode, bytes_list_byte.
Qed.

Section props.
Context `{UnicodeCase}.

(** ** Pinned parsing *)
Lemma ParsePinnedManifest_iff payload pin m : ParsePinnedManifest payload pin = Ok m ↔
  0 < slen payload <= maxManifestBytes ∧ pin = SHA256Hex payload ∧ payload = indentedJSON m ∧
  validate_manifest m = Ok tt ∧ decodeStrictStream ReleaseManifest payload = Some m.
Proof.
  unfold ParsePinnedManifest, manifest_CanonicalBytes. assert (Hlen : 0 <= slen payload) by (unfold slen; lia). split.
  - destruct (_ || _) eqn:E1; [done|]. apply orb_false_iff in E1 as [E1%Z.eqb_neq E2%Z.ltb_ge].
    destruct (matches hexDigestPattern pin) eqn:E3; [|done]. simpl.
    destruct (bool_decide _) eqn:E4; [|done]. simpl. apply bool_decide_eq_true, digest_decodes in E4; [|done].
    destruct (decodeStrictStream _ _) as [m'|] eqn:E5; [|done]. destruct (validate_manifest m') as [[]|] eqn:E6; [|done].
    destruct (String.eqb_spec payload (indentedJSON m')); [|done]. intros [= ->].
    split_and!; try done. lia.
  - intros (Hs & -> & Ep & Hv & Hd). rewrite SHA256Hex_digest, Hd, Hv, <- Ep, String.eqb_refl.
    destruct (Z.eqb_spec (slen payload) 0); [lia|]. destruct (Z.ltb_spec maxManifestBytes (slen payload)); [lia|]. simpl.
    rewrite bool_decide_eq_true_2; [done|]. by apply digest_decodes; [apply SHA256Hex_digest|].
Qed.

(** ** Installing *)
Lemma validate_manifest_inv m : validate_manifest m = Ok tt →
  Valid (rm_Release m) = true ∧ matches sourceRevisionPattern (rm_SourceRevision m) = true ∧
  matches toolchainPattern (rm_BuildToolchain m) = true ∧ rm_ProtocolVersion m = "1" ∧ rm_StorageSchema m = "1" ∧
  ∃ origin, parseDownloadOrigin (rm_DownloadOrigin m) = Ok origin ∧
    Forall2 (λ t a, validate_artifact m origin t a = Ok tt) supportedTargets (rm_Artifacts m) ∧
    map rf_Name (rm_ReleaseFiles m) = ["LICENSE"; "NOTICE"] ∧
    Forall (λ f, validate_release_file m origin f = Ok tt) (rm_ReleaseFiles m).
Proof.
  unfold validate_manifest. intros Hv. checks Hv.
  destruct Hv as (_ & H1 & H2 & H3 & H4%negb_false_iff & H5%negb_false_iff & Hv & _).
  apply negb_false_iff in H1, H2, H3. apply String.eqb_eq in H4, H5. split_and!; try done.
  destruct (parseDownloadOrigin _) as [origin|] eqn:Eo; [|done]. exists origin. split; [done|].
  checks Hv. destruct Hv as (Hl%negb_false_iff & Ha & Hn%negb_false_iff & Hf & _).
  apply Nat.eqb_eq in Hl. apply bool_decide_eq_true in Hn. rewrite all_ok_iff in Ha, Hf. split_and!; [|done|].
  - clear -Ha Hl. revert Ha Hl. generalize supportedTargets. induction (rm_Artifacts m) as [|a l IH]; intros [|t ts]; try done.
    simpl. intros Ha [= Hl]. apply Forall_cons in Ha as [??]. constructor; [done|by apply IH].
  - by rewrite Forall_map in Hf.
Qed.
Lemma validate_artifact_inv m origin t a : validate_artifact m origin t a = Ok tt →
  ra_OS a = tg_OS t ∧ ra_Architecture a = tg_Architecture t ∧ 0 < ra_Bytes a <= maxArtifactBytes ∧
  matches hexDigestPattern (ra_BuildIdentity a) = true ∧ matches hexDigestPattern (ra_SHA256 a) = true ∧
  DeriveBuildIdentity (rm_Release m) (rm_SourceRevision m) (rm_BuildToolchain m) t = Ok (ra_BuildIdentity a).
Proof.
  unfold validate_artifact. intros Hv. checks Hv. destruct Hv as (H1 & H2 & H3 & H4 & H5 & _).
  rewrite orb_false_iff, !negb_false_iff, !String.eqb_eq in H1. rewrite orb_false_iff, Z.leb_gt, Z.ltb_ge in H2.
  rewrite negb_false_iff in H3, H5. destruct (DeriveBuildIdentity _ _ _ _) as [expected|]; [|done].
  apply fails_iff, negb_false_iff, String.eqb_eq in H4 as <-. tauto.
Qed.
Lemma find_artifact m origin ts l t : Forall2 (λ t a, validate_artifact m origin t a = Ok tt) ts l → t ∈ ts →
  ∃ a, List.find (λ a, String.eqb (ra_OS a) (tg_OS t) && String.eqb (ra_Architecture a) (tg_Architecture t)) l = Some a ∧
    validate_artifact m origin t a = Ok tt.
Proof.
  induction 1 as [|t' a ts l Ha _ IH]; [by intros ?%not_elem_of_nil|]. intros Ht. simpl.
  pose proof (validate_artifact_inv _ _ _ _ Ha) as (E1 & E2 & _). rewrite E1, E2.
  destruct (String.eqb_spec (tg_OS t') (tg_OS t)) as [E3|E3]; destruct (String.eqb_spec (tg_Architecture t') (tg_Architecture t)) as [E4|E4]; simpl.
  - exists a. split; [done|]. destruct t, t'; simpl in *; by subst.
  - apply elem_of_cons in Ht as [->|?]; [done|by apply IH].
  - apply elem_of_cons in Ht as [->|?]; [done|by apply IH].
  - apply elem_of_cons in Ht as [->|?]; [done|by apply IH].
Qed.

(** A valid manifest installs: on every layout and every supported target it yields
    the installed release with the manifest's identity, the deterministic build identity
    of that target, the sizes and digests of its artifact, LICENSE and NOTICE, and the
    layout's path for the binary; and that release passes the validation with which
    deployment states and journals are checked. *)
Theorem valid_manifest_installs (homeDir installRoot stateDir : string) (layout : Layout) (m : ReleaseManifest)
    (pin : string) (target : Target) :
  NewLayout homeDir installRoot stateDir = Ok layout → validate_manifest m = Ok tt →
  matches hexDigestPattern pin = true → isSupportedTarget target = true →
  ∃ r artifact, InstalledFromManifest layout m pin target = Ok r ∧ validate_release layout r = Ok tt ∧
    artifact ∈ rm_Artifacts m ∧ Artifact m target = Ok artifact ∧
    ir_BinarySHA256 r = ra_SHA256 artifact ∧ ir_BinaryBytes r = ra_Bytes artifact ∧
    BinaryPath layout (rm_Release m) target = Ok (ir_BinaryPath r) ∧
    DeriveBuildIdentity (rm_Release m) (rm_SourceRevision m) (rm_BuildToolchain m) target = Ok (ir_BuildIdentity r).
Proof.
  intros Hlayout Hm Hpin Ht. pose proof (validate_manifest_inv _ Hm) as (Hr & Hrev & Htool & Hproto & Hschema & origin & _ & Ha & Hn & Hf).
  destruct (find_artifact _ _ _ _ target Ha) as (a & Efind & Hva); [by apply bool_decide_eq_true in Ht|].
  assert (Hin : a ∈ rm_Artifacts m) by (apply find_some in Efind as [?%list_elem_of_In _]; done).
  pose proof (validate_artifact_inv _ _ _ _ Hva) as (Eos & Earch & Hbytes & Hid & Hsha & Hderive).
  assert (HA : Artifact m target = Ok a) by (unfold Artifact; by rewrite Hm, Efind).
  destruct (NewLayout_inv _ _ _ _ Hlayout) as (h & i & s & Hi & _ & _ & _ & E & _).
  assert (Hv : components (h ++ i ++ ["versions"])) by (rewrite app_assoc; apply Forall_app; by split; [|constructor]).
  destruct (BinaryPath layout (rm_Release m) target) as [path|e] eqn:Ep.
  2:{ assert (Hb := proj2 (BinaryPath_abs _ layout (rm_Release m) target _ Hv ltac:(by rewrite E)) (conj Hr (conj Ht eq_refl))).
      by rewrite Ep in Hb. }
  pose proof Ep as (_ & _ & Epath)%(BinaryPath_abs _ layout _ _ _ Hv ltac:(by rewrite E)).
  assert (Hcanon : canonicalAbsolutePath path = true).
  { rewrite Epath. apply canonical_abs. apply Forall_app. split; [done|]. apply Valid_component in Hr.
    apply binary_name_component in Ht. by repeat constructor. }
  unfold canonicalAbsolutePath in Hcanon. rewrite !andb_true_iff in Hcanon. destruct Hcanon as [[_ Habs] Hclean].
  destruct (rm_ReleaseFiles m) as [|f1 [|f2 [|]]] eqn:Ef; try done.
  apply Forall_cons in Hf as [Hf1 [Hf2 _]%Forall_cons]. unfold validate_release_file in Hf1, Hf2.
  checks Hf1. checks Hf2. destruct Hf1 as (Hs1 & Hd1 & _), Hf2 as (Hs2 & Hd2 & _).
  rewrite negb_false_iff in Hd1, Hd2. rewrite orb_false_iff, Z.leb_gt, Z.ltb_ge in Hs1, Hs2.
  unfold InstalledFromManifest. rewrite Hm, Hpin, HA, Ep. simpl. unfold support_file. rewrite Ef. simpl.
  set (r := Mk_InstalledRelease _ _ _ _ _ _ _ _ _ _ _ _ _ _ _ _).
  assert (Hvalid : validate_release layout r = Ok tt).
  { unfold validate_release. simpl. rewrite Hr, Hrev, Htool, Hid, Hpin, Hsha, Hproto, Hschema, Hd1, Hd2.
    destruct target as [os arch]. simpl in *. rewrite Ep, Habs, Hclean. simpl.
    rewrite String.eqb_refl. simpl.
    destruct (Z.ltb_spec 0 (ra_Bytes a)), (Z.leb_spec (ra_Bytes a) maxArtifactBytes), (Z.ltb_spec 0 (rf_Bytes f1)),
      (Z.leb_spec (rf_Bytes f1) maxReleaseFileBytes), (Z.ltb_spec 0 (rf_Bytes f2)),
      (Z.leb_spec (rf_Bytes f2) maxReleaseFileBytes); try lia; done. }
  exists r, a. rewrite Hvalid. done.
Qed.

(** C16. Pinned manifests are authentic and canonical.  A payload is accepted only when
    the pin is its SHA-256 and it is the one canonical byte form of a valid manifest
    within the size bound; conversely the canonical bytes of every valid printable
    manifest within the bound are accepted under their own digest and parse to it. *)
Theorem pinned_manifest_roundtrip (payload pin : string) (m : ReleaseManifest) :
  (ParsePinnedManifest payload pin = Ok m →
     manifest_CanonicalBytes m = Ok payload ∧ pin = SHA256Hex payload ∧ 0 < slen payload <= maxManifestBytes) ∧
  (manifest_CanonicalBytes m = Ok payload → wire_plain m = true → slen payload <= maxManifestBytes →
     ParsePinnedManifest payload (SHA256Hex payload) = Ok m).
Proof.
  unfold manifest_CanonicalBytes. split.
  - intros (Hs & Hp & Epay & Hv & _)%ParsePinnedManifest_iff. by rewrite Hv, Epay at 1.
  - destruct (validate_manifest m) as [[]|] eqn:Hv; [|done]. intros [= <-] Hplain Hs.
    apply ParsePinnedManifest_iff. split_and!; [|done|done|done|done|by apply decodeStrictStream_indented].
    unfold indentedJSON, slen. rewrite length_sapp. simpl. lia.
Qed.

(** ** The path of a URL with a host *)
Lemma unescape_head mode s p : host_like mode = false → unescape mode (String "/" s) = Some p → ∃ p', p = String "/" p'.
Proof.
  intros Hm. unfold unescape. cbn [bytes_list unescape_bytes]. change (byteZ "/") with 47. cbn [Z.eqb].
  rewrite Hm. simpl. destruct (unescape_bytes mode (bytes_list s)) as [l|]; [|done]. intros [= <-].
  exists (of_bytes l). done.
Qed.
Lemma index_byte_split c s i : index_byte c s = Some i → ∃ t, sdrop i s = String c t.
Proof.
  revert i. induction s as [|d s IH]; intros i; [done|]. simpl. destruct (Ascii.eqb_spec c d) as [->|].
  - intros [= <-]. by exists s.
  - destruct (index_byte c s) as [j|] eqn:E; [|done]. intros [= <-]. by apply IH.
Qed.
Definition rooted_path (u : URL) : Prop := u_Host u = "" ∨ u_Path u = "" ∨ ∃ p, u_Path u = String "/" p.
Lemma setPath_rooted rest path raw : setPath rest = Some (path, raw) → rest = "" ∨ (∃ t, rest = String "/" t) →
  path = "" ∨ ∃ p, path = String "/" p.
Proof.
  unfold setPath. destruct (unescape encodePath rest) as [q|] eqn:E; [|done]. simpl. intros [= <- _] [->|[t ->]].
  - by injection E as <-; left.
  - right. by apply (unescape_head encodePath t).
Qed.
Lemma parse_url_rooted raw u : parse_url raw = Some u → rooted_path u.
Proof.
  unfold parse_url, rooted_path. destruct (contains_ctl raw); [done|]. destruct (String.eqb raw "*"); [by intros [= <-]; left|].
  destruct (getScheme raw) as [[scheme rest0]|]; [|done].
  destruct (if _ && _ then _ else _) as [rest query]. destruct (_ && _); [by intros [= <-]; left|].
  destruct (_ && _); [done|].
  destruct ((_ || _) && _) eqn:Ea.
  - assert (Hrest : ∀ authority rest', (rest' = "" ∨ ∃ t, rest' = String "/" t) → 
      match parseAuthority authority with
      | Some (user, host) => Some (user, host, rest', false) | None => None end ≫= (λ '(user, host, rest, omit),
      match setPath rest with
      | Some (path, rawPath) =>
          Some (mkURL (ascii_lower scheme) "" user host path rawPath (has_suffix "?" rest0 && (count_byte "?" rest0 =? 1)%nat) query "" omit)
      | None => None end) = Some u → u_Path u = "" ∨ ∃ p, u_Path u = String "/" p).
    { intros authority rest' Hr. destruct (parseAuthority authority) as [[user host]|]; [|done]. simpl.
      destruct (setPath rest') as [[path rawPath]|] eqn:Ep; [|done]. intros [= <-]. by eapply setPath_rooted. }
    destruct (index_byte "/" (sdrop 2 rest)) as [i|] eqn:Ei; intros Hu; right.
    + apply (Hrest (stake i (sdrop 2 rest)) (sdrop i (sdrop 2 rest))); [right; by apply index_byte_split|].
      by destruct (parseAuthority _) as [[]|].
    + apply (Hrest (sdrop 2 rest) ""); [by left|]. by destruct (parseAuthority _) as [[]|].
  - destruct (setPath rest) as [[path rawPath]|]; [|done]. intros [= <-]. by left.
Qed.
Lemma ParseURL_rooted raw u : ParseURL raw = Some u → rooted_path u.
Proof.
  unfold ParseURL. destruct (Cut "#" raw) as [v frag]. destruct (parse_url v) as [url|] eqn:E; [|done].
  apply parse_url_rooted in E. destruct (String.eqb frag ""); [by intros [= <-]|].
  destruct (unescape encodeFragment frag); [|done]. by intros [= <-].
Qed.

(** The path and its segments. *)
Definition segments_path (l : list string) : string := match l with [] => "" | _ => "/" +:+ join "/" l end.
Lemma split_canonical_path u : rooted_path u → u_Host u ≠ "" → segments_path (splitCanonicalURLPath (u_Path u)) = u_Path u.
Proof.
  intros [?|[->|[p ->]]] Hh; [done|done|]. unfold splitCanonicalURLPath. simpl.
  change (trim_prefix "/" (String "/" p)) with p. unfold segments_path.
  pose proof (split_nonempty "/" p). destruct (split "/" p) as [|x l] eqn:E; [done|]. rewrite <- E, join_split. done.
Qed.
Lemma segments_path_cons x l : segments_path (x :: l) = "/" +:+ x +:+ segments_path l.
Proof. destruct l; [by rewrite sapp_nil_r|done]. Qed.
Lemma segments_path_app a b : segments_path (a ++ b) = segments_path a +:+ segments_path b.
Proof.
  induction a as [|x a IH]; [done|]. rewrite <- app_comm_cons, !segments_path_cons, IH. by rewrite !sapp_assoc.
Qed.
Lemma parseDownloadOrigin_inv value origin : parseDownloadOrigin value = Ok origin →
  u_Scheme origin = "https" ∧ u_Host origin ≠ "" ∧ rooted_path origin.
Proof.
  unfold parseDownloadOrigin. destruct (ParseURL value) as [u|] eqn:E; [|done].
  case_match eqn:E1; [done|]. repeat (case_match; [done|]). intros [= <-].
  rewrite !orb_false_iff, !negb_false_iff, !String.eqb_eq, String.eqb_neq in E1.
  split_and!; [tauto|tauto|by eapply ParseURL_rooted].
Qed.

(** A release URL names one file of the release on the approved origin.  An accepted
    URL has the origin's scheme and host, no credentials, query or fragment, and its path
    is the origin's path followed by /releases/, the release and one file name made of
    letters, digits, dots, dashes and underscores that is not a dot segment. *)
Theorem release_url_location (download_origin value release : string) (origin u : URL) :
  parseDownloadOrigin download_origin = Ok origin → parseReleaseURL value origin release = Ok u →
  u_Scheme u = "https" ∧ u_Host u = u_Host origin ∧ u_User u = None ∧ u_RawQuery u = "" ∧ u_Fragment u = "" ∧
  ∃ name, safe_segment name = true ∧
    u_Path u = u_Path origin +:+ "/releases/" +:+ release +:+ "/" +:+ name.
Proof.
  intros (Hs & Hh & Hr)%parseDownloadOrigin_inv. unfold parseReleaseURL. destruct (ParseURL value) as [v|] eqn:Ev; [|done].
  apply ParseURL_rooted in Ev. destruct (_ || _) eqn:E1 at 1; [done|].
  rewrite !orb_false_iff, !negb_false_iff, !String.eqb_eq, bool_decide_eq_false, <- eq_None_not_Some in E1.
  set (os := splitCanonicalURLPath (u_Path origin)). set (ss := splitCanonicalURLPath (u_Path v)).
  destruct (_ || _) eqn:E2; [done|]. rewrite !orb_false_iff, !negb_false_iff, !bool_decide_eq_true, Nat.eqb_eq in E2.
  destruct (forallb safe_segment ss) eqn:E3; [|done]. intros [= <-].
  destruct E1 as (((((((((E1 & E4) & E5) & E6) & E7) & _) & _) & _) & _) & _).
  destruct E2 as (((Hlen & Htake) & Hrel) & Hname).
  split_and!; [congruence|done|done|done|done|].
  assert (Hss : ∃ name, ss = os ++ ["releases"; release; name]).
  { rewrite <- (take_drop (length os) ss), Htake. apply (f_equal length) in Htake.
    assert (Hd : length (drop (length os) ss) = 3%nat) by (rewrite length_drop; lia).
    pose proof (lookup_drop ss (length os) 0) as H0. pose proof (lookup_drop ss (length os) 1) as H1.
    rewrite Nat.add_0_r in H0. rewrite Nat.add_1_r in H1. rewrite Hrel in H0. rewrite Hname in H1.
    destruct (drop (length os) ss) as [|a [|b [|c [|]]]]; try done. simpl in H0, H1.
    injection H0 as ->. injection H1 as ->. by exists c. }
  destruct Hss as [name Hss]. exists name. split.
  - rewrite forallb_forall in E3. apply E3, list_elem_of_In. rewrite Hss. apply elem_of_app. right.
    by do 2 (apply elem_of_cons; right); apply list_elem_of_singleton.
  - rewrite <- (split_canonical_path v) by (done || congruence). fold ss. rewrite Hss, segments_path_app.
    unfold os. rewrite split_canonical_path by done. done.
Qed.
End props.

(** ** A concrete manifest *)
#[export] Instance ascii_only : UnicodeCase := {| unicode_lower s := s |}.
Definition sample_url (name : string) : string := "https://downloads.example.test/jat/releases/2.1.0/" +:+ name.
Definition sample_revision : string := String.concat "" (repeat "e" 40).
Definition sample_artifact (target : Target) (digit : string) : ReleaseArtifact :=
  Mk_ReleaseArtifact (tg_OS target) (tg_Architecture target)
    (SHA256Hex (build_identity_input "2.1.0" sample_revision "go1.25.0" target))
    (sample_url ("sshserver-" +:+ tg_OS target +:+ "-" +:+ tg_Architecture target)) 1024 (digest_of digit).
Definition sample_manifest : ReleaseManifest :=
  Mk_ReleaseManifest 1 "2.1.0" sample_revision "go1.25.0" "1" "1" "https://downloads.example.test/jat"
    (zip_with sample_artifact supportedTargets ["a"; "b"; "c"; "d"])
    [Mk_ReleaseFile "LICENSE" (sample_url "LICENSE") 11358 (digest_of "5");
     Mk_ReleaseFile "NOTICE" (sample_url "NOTICE") 2048 (digest_of "6")].
Lemma sample_manifest_valid : validate_manifest sample_manifest = Ok tt.
Proof. vm_compute. reflexivity. Qed.
Lemma sample_manifest_canonical : manifest_CanonicalBytes sample_manifest = Ok (indentedJSON sample_manifest).
Proof. unfold manifest_CanonicalBytes. by rewrite sample_manifest_valid. Qed.
Lemma sample_manifest_plain : wire_plain sample_manifest = true.
Proof. vm_compute. reflexivity. Qed.
Lemma sample_manifest_small : slen (indentedJSON sample_manifest) <= maxManifestBytes.
Proof. apply Z.leb_le. vm_compute. reflexivity. Qed.
Lemma sample_layout_accepted : NewLayout "/home/u" "/home/u/.local/share/jat/sshserver-deployment" "/home/u/.local/state/jat/sshserver" = Ok sample_layout.
Proof. vm_compute. reflexivity. Qed.
Lemma sample_origin : parseDownloadOrigin "https://downloads.example.test/jat" = Ok (base_url "https" "downloads.example.test" "/jat").
Proof. vm_compute. reflexivity. Qed.
Lemma sample_license_url : parseReleaseURL (sample_url "LICENSE") (base_url "https" "downloads.example.test" "/jat") "2.1.0" =
  Ok (base_url "https" "downloads.example.test" "/jat/releases/2.1.0/LICENSE").
Proof. vm_compute. reflexivity. Qed.

Lemma pinned_manifest_roundtrip_witness :
  ParsePinnedManifest (indentedJSON sample_manifest) (SHA256Hex (indentedJSON sample_manifest)) = Ok sample_manifest.
Proof.
  exact (proj2 (pinned_manifest_roundtrip _ "" sample_manifest) sample_manifest_canonical sample_manifest_plain sample_manifest_small).
Defined.
Lemma valid_manifest_installs_witness : ∃ r,
  InstalledFromManifest sample_layout sample_manifest (digest_of "7") (Mk_Target "linux" "arm64") = Ok r.
Proof.
  assert (Hpin : matches hexDigestPattern (digest_of "7") = true) by (vm_compute; reflexivity).
  assert (Ht : isSupportedTarget (Mk_Target "linux" "arm64") = true) by (vm_compute; reflexivity).
  destruct (valid_manifest_installs _ _ _ _ _ _ _ sample_layout_accepted sample_manifest_valid Hpin Ht) as (r & _ & Hr & _).
  exists r. exact Hr.
Defined.
Lemma release_url_location_witness : ∃ name,
  "/jat/releases/2.1.0/LICENSE" = "/jat" +:+ "/releases/" +:+ "2.1.0" +:+ "/" +:+ name.
Proof.
  destruct (release_url_location _ _ _ _ _ sample_origin sample_license_url) as (_ & _ & _ & _ & _ & name & _ & E).
  exists name. exact E.
Defined.

(** The packaged schema ([src/packaging/release-manifest.schema.json]) admits only a
    download origin that starts with a lower-case https:// and has no question mark or
    number sign; the parser also accepts other spellings of one. *)
Example download_origin_spellings :
  map (λ spelling, match parseDownloadOrigin spelling with Ok u => Some (u_Scheme u, u_Host u, u_Path u) | Err _ => None end)
    ["https://downloads.example.test/jat"; "HTTPS://downloads.example.test/jat?"; "https://downloads.example.test/jat#";
     "https://downloads.example.test:/jat"] =
  [Some ("https", "downloads.example.test", "/jat"); Some ("https", "downloads.example.test", "/jat");
   Some ("https", "downloads.example.test", "/jat"); Some ("https", "downloads.example.test:", "/jat")].
Proof. vm_compute. reflexivity. Qed.
