(* ===== verification/ArtifactProps.v ===== *)
(** * Staging is atomic, verification is sound, removal stays inside the version tree

    Symbolic execution of [Artifact]: the states a staging goes through, what is published,
    what a successful verification says of a file, and what removal deletes. *)

From stdpp Require Import base list strings gmap.
From Stdlib Require Import ZArith Lia Ascii.
From Stdlib Require String.
From S2P Require Import Prelude GoStd Json JsonFacts Api Wire Indent Release NetIP Fs Paths Config Layout Deploy Manifest Artifact.
Local Open Scope Z_scope.

(** ** More rules *)
Lemma triple_check o (P : files → Prop) pre b e : P pre → triple o P pre (check b e) (λ _ fs, b = true ∧ fs = pre).
Proof. intros HP. destruct b; [by apply fs_triple_ret|by apply triple_raise]. Qed.
Lemma triple_cleanup {A} o (P P' : files → Prop) pre (m : FsM A) cleanup Q :
  triple o P' pre m Q → (∀ fs, P' fs → P fs) → (∀ fs, P' fs → triple o P fs cleanup (λ _ _, True)) →
  triple o P pre (on_error m cleanup) Q.
Proof.
  intros Hm HP Hc w Hw Ho. destruct (Hm w Hw Ho) as [Hp Hq]. unfold on_error.
  destruct (m w) as [w1 [a|e]]; simpl in *; [split; [by eapply passes_impl|done]|].
  pose proof Hp as (He & ? & _ & _ & HP'). destruct (Hc _ HP' w1 eq_refl ltac:(congruence)) as [Hp2 _].
  split; [|done]. eapply passes_trans; [by eapply passes_impl|done].
Qed.
Lemma triple_attempt_modify o (P : files → Prop) pre f (post : files → Prop) : P pre →
  (∀ w fs, w_files w = pre → w_euid w = o → f w = Ok fs → P fs ∧ post fs) →
  triple o P pre (attempt (modify f intact)) (λ r fs, match r with Ok _ => post fs | Err _ => fs = pre end).
Proof.
  intros HP Hf w <- Ho. unfold attempt, modify. destruct (next_fault w) as [w1 fault] eqn:E.
  pose proof (passes_next_fault P w HP) as H. pose proof (next_fault_files w) as Hw.
  pose proof (next_fault_euid w) as He. rewrite E in H, Hw, He. simpl in *.
  destruct fault as [n|]; [|destruct (f w1) as [fs|e] eqn:Ef]; simpl.
  - split; [|intros ? [= <-]; by rewrite Hw]. eapply passes_trans; [exact H|]. apply passes_one; by rewrite ?Hw.
  - destruct (Hf w1 fs Hw ltac:(congruence) Ef) as [Hfs Hpost]. split; [|by intros ? [= <-]].
    eapply passes_trans; [exact H|]. apply passes_one; by rewrite ?Hw.
  - split; [done|]. intros ? [= <-]. done.
Qed.
Lemma triple_wider {A} o (P P' : files → Prop) pre (m : FsM A) Q :
  triple o P' pre m Q → (∀ fs, P' fs → P fs) → triple o P pre m Q.
Proof. intros Hm HP w Hw Ho. destruct (Hm w Hw Ho) as [Hp Hq]. split; [by eapply passes_impl|done]. Qed.
Lemma triple_unattempt {A} o (P : files → Prop) pre (m : FsM A) Q :
  triple o P pre (attempt m) Q → triple o P pre m (λ a, Q (Ok a)).
Proof.
  intros Hm w Hw Ho. destruct (Hm w Hw Ho) as [Hp Hq]. unfold attempt in *. destruct (m w) as [w1 r]; simpl in *.
  split; [done|]. intros a ->. by apply Hq.
Qed.
Lemma triple_any {A} o (P : files → Prop) pre (m : FsM A) Q : triple o P pre m Q → triple o P pre m (λ _ _, True).
Proof. intros Hm. by eapply triple_post. Qed.
(** A quiet step, and a refusal. *)
Lemma triple_quiet_bind {A B} o (P : files → Prop) pre (m : FsM A) (f : A → FsM B) Q :
  P pre → Quiet m → (∀ a, triple o P pre (f a) Q) → triple o P pre (m ≫= f) Q.
Proof. intros HP Hm Hf. eapply fs_triple_bind; [by apply triple_quiet|]. intros a ? ->. apply Hf. Qed.
Lemma triple_check_bind {A} o (P : files → Prop) pre b text (f : unit → FsM A) Q :
  P pre → (b = true → triple o P pre (f tt) Q) → triple o P pre (refuse_unless b text ≫= f) Q.
Proof.
  intros HP Hf. eapply fs_triple_bind; [by apply triple_check|]. intros [] ? [Hb ->]. by apply Hf.
Qed.
Lemma quiet_from_text {A} (r : res string A) : Quiet (from_text r).
Proof. unfold from_text. quiet. Qed.
Lemma quiet_refuse_unless b text : Quiet (refuse_unless b text).
Proof. unfold refuse_unless. quiet. Qed.
Lemma quiet_statFile path : Quiet (statFile path).
Proof. unfold statFile. quiet. Qed.
Lemma quiet_sync_call : Quiet sync_file.
Proof. unfold sync_file. quiet. Qed.
Lemma quiet_valid_or_fail r : Quiet (valid_or_fail r).
Proof. unfold valid_or_fail. quiet. Qed.
Lemma quiet_open_file path b : Quiet (open_nofollow path b).
Proof. unfold open_nofollow. quiet. Qed.
#[export] Hint Resolve quiet_from_text quiet_refuse_unless quiet_statFile quiet_sync_call quiet_valid_or_fail quiet_open_file : quiet.
Lemma quiet_inspectExisting d n e m : Quiet (inspectExistingArtifact d n e m).
Proof. unfold inspectExistingArtifact. quiet. Qed.
Lemma quiet_openSource p n : Quiet (openVerifiedArtifactSource p n).
Proof. unfold openVerifiedArtifactSource. quiet. Qed.
#[export] Hint Resolve quiet_inspectExisting quiet_openSource : quiet.

(** ** What an inspection says *)
Lemma triple_inspect {A} o (P : files → Prop) pre (f : World → res ferr A) : P pre →
  triple o P pre (inspect f) (λ a fs, fs = pre ∧ ∃ w, w_files w = pre ∧ w_euid w = o ∧ f w = Ok a).
Proof.
  intros HP w <- Ho. destruct (triple_quiet o P (w_files w) (inspect f) HP (quiet_inspect f) w eq_refl Ho) as [Hp Hq].
  split; [done|]. intros a Ha. split; [by apply (Hq a)|]. revert Ha. unfold inspect.
  pose proof (next_fault_files w) as Hf. pose proof (next_fault_euid w) as He.
  destruct (next_fault w) as [w1 [|]]; simpl in *; [done|]. intros Ha. exists w1. by rewrite Hf, He.
Qed.
Lemma triple_statFile o (P : files → Prop) pre path : P pre →
  triple o P pre (statFile path) (λ n fs, fs = pre ∧ pre !! path = Some n).
Proof.
  intros HP. eapply triple_post; [by apply triple_inspect|]. intros n fs (-> & w & <- & _ & E). split; [done|].
  destruct (_ !! _); [by injection E as ->|done].
Qed.
Lemma triple_attempt_quiet {A} o (P : files → Prop) pre (m : FsM A) Q : Quiet m → P pre →
  triple o P pre m Q → triple o P pre (attempt m) (λ r fs, fs = pre ∧ ∀ a, r = Ok a → Q a pre).
Proof.
  intros Hm HP Ht w Hw Ho. destruct (Ht w Hw Ho) as [Hp Hq]. destruct (Hm w) as (E1 & _). unfold attempt.
  destruct (m w) as [w1 r]; simpl in *. split; [done|]. intros ? [= <-]. split; [congruence|]. intros a ->.
  rewrite <- Hw, <- E1. by apply Hq.
Qed.
Lemma triple_ask {A} o (P : files → Prop) pre (f : World → A) : P pre →
  triple o P pre (ask f) (λ a fs, fs = pre ∧ ∃ w, w_euid w = o ∧ a = f w).
Proof. intros HP w <- Ho. split; [by apply passes_refl|]. intros a [= <-]. eauto. Qed.

(** A regular file of one link with the exact permissions, and the expected bytes. *)
Definition genuine (expectation : artifactExpectation) (content : string) : Prop :=
  slen content = ae_bytes expectation ∧ bytes_list (Sum256 content) = ae_digest expectation.
Definition holds_artifact (o : Z) (expectation : artifactExpectation) (finalMode : Z) (fs : files) (path : string) : Prop :=
  ∃ mode content, fs !! path = Some (Regular mode o 1 content) ∧ permissions mode = finalMode ∧ genuine expectation content.
Lemma owned_ok_exact euid n m : owned_ok euid n (Some m) = true →
  ∃ mode content, n = Regular mode euid 1 content ∧ permissions mode = m.
Proof.
  unfold owned_ok, validateOwnedRegularFile. destruct n as [|mode owner nlink content| |]; try done.
  destruct (Z.eqb_spec owner euid); [|done]. destruct (Z.eqb_spec nlink 1); [|done]. simpl. subst.
  destruct (negb _); [done|]. destruct (Z.eqb_spec (permissions mode) m); [|done]. intros _. by exists mode, content.
Qed.
Lemma limited_all limit s : slen s ≤ limit → limited limit s = s.
Proof. unfold limited. intros H. by destruct (Z.leb_spec (slen s) limit); [|lia]. Qed.
Lemma triple_inspectExisting o (P : files → Prop) pre destination finalName expectation finalMode : P pre →
  triple o P pre (inspectExistingArtifact destination finalName expectation finalMode)
    (λ r fs, fs = pre ∧ (r = (true, true) → holds_artifact o expectation finalMode pre (child destination finalName))).
Proof.
  intros HP. unfold inspectExistingArtifact. set (path := child destination finalName).
  eapply (fs_triple_bind _ _ _ _ _ (λ r fs, fs = pre ∧ ∀ n, r = Ok n → pre !! path = Some n)).
  { eapply triple_post; [apply triple_attempt_quiet; [quiet|done|by apply triple_inspect]|].
    intros r fs [-> Hr]. split; [done|]. intros n ->. destruct (Hr n eq_refl) as (_ & w & <- & _ & E).
    clear Hr. destruct (_ !! _) as [[]|]; naive_solver. }
  intros [n|[]] fs [-> Hn]; [|by (apply fs_triple_ret || apply triple_raise)..]. specialize (Hn n eq_refl).
  apply triple_quiet_bind; [done|quiet|]. intros _.
  eapply fs_triple_bind; [by apply triple_ask|]. intros euid ? (-> & w & <- & ->).
  case_match eqn:E; [by apply fs_triple_ret|]. apply orb_false_iff in E as [Hok%negb_false_iff Hsize%negb_false_iff].
  apply triple_quiet_bind; [done|quiet|]. intros _. apply triple_quiet_bind; [done|quiet|]. intros last.
  apply fs_triple_ret; [done|]. split; [done|]. intros [= Hr]. unbool.
  apply owned_ok_exact in Hok as (mode & content & -> & Hmode). exists mode, content. split; [done|]. split; [done|].
  unfold size_of in *. simpl in *. by rewrite limited_all in * by lia.
Qed.

(** ** The states of a staging *)
Section staging.
Context (o : Z) (expectation : artifactExpectation) (finalMode : Z) (pre : files) (final : string).

Definition copying (temporary : string) (fs : files) : Prop :=
  ∃ mode content, fs = <[temporary := Regular mode o 1 content]> pre.
Definition linked (temporary content : string) (fs : files) : Prop :=
  fs = <[final := Regular finalMode o 2 content]> (<[temporary := Regular finalMode o 2 content]> pre).
Definition published (content : string) (fs : files) : Prop := fs = <[final := Regular finalMode o 1 content]> pre.
Definition after_copy (temporary : string) (fs : files) : Prop :=
  fs = pre ∨ copying temporary fs ∨
  (pre !! final = None ∧ ∃ content, genuine expectation content ∧ (linked temporary content fs ∨ published content fs)).

Context (temporary : string) (Hfree : pre !! temporary = None) (Hne : temporary ≠ final).
Abbreviation at_copy mode content := (<[temporary := Regular mode o 1 content]> pre).

Lemma copying_at mode content : copying temporary (at_copy mode content).
Proof. by exists mode, content. Qed.
Lemma copying_after fs : copying temporary fs → after_copy temporary fs.
Proof. intros. by right; left. Qed.
Hint Resolve copying_at copying_after : core.

Lemma triple_copy_verified source : triple o (copying temporary) (at_copy 384 "")
  (copy_verified source temporary expectation finalMode)
  (λ _ fs, ∃ content, genuine expectation content ∧ fs = at_copy finalMode content).
Proof.
  unfold copy_verified. apply triple_quiet_bind; [auto|quiet|]. intros initial.
  set (payload := limited _ _).
  eapply (fs_triple_bind _ _ _ _ _ (λ _ fs, fs = at_copy 384 payload)).
  { apply triple_context, triple_modify; [auto| |].
    - intros n. rewrite alter_insert_eq. simpl. auto.
    - intros w fs Hw _. rewrite Hw, lookup_insert_eq, insert_insert_eq. intros [= <-]. simpl. auto. }
  intros _ ? ->. apply triple_check_bind; [auto|]. intros Hlen%Z.eqb_eq.
  apply triple_quiet_bind; [auto|quiet|]. intros last. apply triple_quiet_bind; [auto|quiet|]. intros euid.
  apply triple_check_bind; [auto|]. intros _. apply triple_check_bind; [auto|]. intros Hsum%bool_decide_eq_true.
  apply triple_quiet_bind; [auto|quiet|]. intros copied. apply triple_check_bind; [auto|]. intros _.
  apply triple_quiet_bind; [auto|quiet|]. intros _.
  eapply (fs_triple_bind _ _ _ _ _ (λ _ fs, fs = at_copy finalMode payload)).
  { apply triple_context, triple_modify; [auto|intros; apply copying_at|].
    intros w fs Hw _. rewrite Hw, lookup_insert_eq, insert_insert_eq. intros [= <-]. simpl. auto. }
  intros _ ? ->. apply triple_quiet_bind; [auto|quiet|]. intros _. apply triple_quiet_bind; [auto|quiet|]. intros verified.
  eapply triple_post; [apply triple_check; auto|]. intros _ fs [_ ->]. by exists payload.
Qed.

(** Unlinking the temporary name before and after the link. *)
Lemma unlink_copying (P : files → Prop) other fs : copying temporary fs → P fs → P pre →
  triple o P fs (attempt (Unlinkat temporary other)) (λ r fs', match r with Ok _ => fs' = pre | Err _ => fs' = fs end).
Proof.
  intros (mode & content & ->) HP HP'. apply triple_attempt_modify; [done|]. intros w fs Hw _.
  rewrite Hw. rewrite lookup_insert_eq. intros [= <-]. unfold drop_link. rewrite lookup_insert_eq. simpl.
  by rewrite delete_insert_id.
Qed.
Lemma linked_lookup content fs : linked temporary content fs →
  fs !! temporary = Some (Regular finalMode o 2 content) ∧ fs !! final = Some (Regular finalMode o 2 content).
Proof. intros ->. by rewrite lookup_insert_ne, !lookup_insert_eq by done. Qed.
Lemma unlink_linked (P : files → Prop) content fs : linked temporary content fs → pre !! final = None → P fs →
  (∀ fs, published content fs → P fs) →
  triple o P fs (attempt (Unlinkat temporary final)) (λ r fs', match r with Ok _ => published content fs' | Err _ => fs' = fs end).
Proof.
  intros Hl Hn HP HP'. apply triple_attempt_modify; [done|]. intros w fs' Hw _.
  pose proof (linked_lookup _ _ Hl) as [Ht Hf]. rewrite Hw, Ht. intros [= <-].
  assert (E : published content (drop_link temporary final fs)); [|auto].
  unfold drop_link. rewrite Ht. simpl. unfold published. rewrite Hl.
  rewrite alter_insert_eq. simpl. rewrite delete_insert_ne by done. by rewrite delete_insert_id.
Qed.
Lemma unlink_final (P : files → Prop) content fs : linked temporary content fs → pre !! final = None → P fs →
  P (at_copy finalMode content) →
  triple o P fs (attempt (Unlinkat final temporary)) (λ r fs', match r with Ok _ => fs' = at_copy finalMode content | Err _ => fs' = fs end).
Proof.
  intros Hl Hn HP HP'. apply triple_attempt_modify; [done|]. intros w fs' Hw _.
  pose proof (linked_lookup _ _ Hl) as [Ht Hf]. rewrite Hw, Hf. intros [= <-].
  assert (E : drop_link final temporary fs = at_copy finalMode content); [|by rewrite E].
  unfold drop_link. rewrite Hf. simpl. rewrite Hl, insert_insert_ne by done.
  rewrite alter_insert_eq. simpl. rewrite delete_insert_ne by done. rewrite delete_insert_id; [done|].
  done.
Qed.

Lemma triple_finish content fs : linked temporary content fs → pre !! final = None → genuine expectation content →
  triple o (after_copy temporary) fs (finish_publication final temporary expectation finalMode) (λ _, published content).
Proof.
  intros Hl Hn Hg. unfold finish_publication.
  assert (Hal : after_copy temporary fs) by (right; right; split; [done|]; exists content; auto).
  assert (Hap : ∀ fs, published content fs → after_copy temporary fs)
    by (intros; right; right; split; [done|]; exists content; auto).
  eapply fs_triple_bind; [by apply unlink_linked|]. intros [[]|e] fs1 Hfs1.
  - pose proof (Hap _ Hfs1). do 3 (apply triple_quiet_bind; [done|quiet|]; intros ?).
    apply triple_check_bind; [done|]. intros _.
    eapply triple_post; [apply triple_quiet; [done|quiet]|]. by intros _ ? ->.
  - subst fs1. eapply fs_triple_bind; [by apply (unlink_final _ content); auto|]. intros r fs2 Hfs2.
    eapply (fs_triple_bind _ _ _ _ _ (λ _ fs, after_copy temporary fs)).
    + destruct r; subst fs2.
      * eapply triple_post; [apply unlink_copying; auto; by left|]. intros [] ? ->; [by left|auto].
      * eapply triple_post; [by apply unlink_linked|]. intros [] ? Hx; [auto|by subst].
    + intros _ ? Hx. by apply triple_raise.
Qed.
Lemma triple_reuse destination finalName content : genuine expectation content → final = child destination finalName →
  triple o (λ fs, fs = pre ∨ copying temporary fs) (at_copy finalMode content)
    (reuse_existing destination finalName temporary expectation finalMode)
    (λ _ fs, fs = pre ∧ holds_artifact o expectation finalMode pre final).
Proof.
  intros Hg Hfinal. unfold reuse_existing. set (P := λ fs, fs = pre ∨ copying temporary fs).
  eapply (fs_triple_bind _ _ _ _ _ (λ _ fs, fs = pre ∧ holds_artifact o expectation finalMode pre final)).
  { apply (triple_cleanup _ _ P); [|done|].
    - eapply fs_triple_bind; [apply triple_inspectExisting; right; auto|]. intros [exists_ identical] ? [-> Hi].
      apply triple_check_bind; [right; auto|]. intros [-> ->]%andb_prop. specialize (Hi eq_refl).
      destruct Hi as (mode & c & Hc & Hi). rewrite <- Hfinal, lookup_insert_ne in Hc by done.
      apply triple_context. eapply triple_post; [apply triple_unattempt, unlink_copying; [auto|right; auto|by left]|].
      simpl. intros _ ? ->. split; [done|]. by exists mode, c.
    - intros fs [->|Hc].
      + apply triple_modify; [by left|by left|]. intros w fs -> _. by rewrite Hfree.
      + eapply triple_any, triple_unattempt, unlink_copying; [done|by right|by left]. }
  intros _ ? [-> Hh]. apply triple_quiet_bind; [by left|quiet|]. intros _.
  eapply triple_post; [apply triple_quiet; [by left|quiet]|]. by intros ? ? ->.
Qed.
End staging.

(** The whole staging: [pre] are the files it starts from. *)
Section publication.
Context (o : Z) (expectation : artifactExpectation) (finalMode : Z) (pre : files) (destination finalName : string).
Abbreviation final := (child destination finalName).
Definition is_temporary (path : string) : Prop :=
  ∃ random, path = child destination ("." +:+ finalName +:+ ".stage-" +:+ hex_encode random).
Definition stage_states (fs : files) : Prop :=
  fs = pre ∨ ∃ temporary, is_temporary temporary ∧ pre !! temporary = None ∧
    after_copy o expectation finalMode pre final temporary fs.

Lemma child_inj d a b : child d a = child d b → a = b.
Proof. unfold child. destruct (String.eqb d "/"); intros E; apply sapp_inv_head in E; [done|]. by injection E. Qed.
Lemma temporary_not_final temporary : is_temporary temporary → temporary ≠ final.
Proof.
  intros [random ->] E%child_inj. apply (f_equal String.length) in E. rewrite !length_sapp in E. simpl in E. lia.
Qed.
Lemma states_copying temporary fs : is_temporary temporary → pre !! temporary = None → copying o pre temporary fs → stage_states fs.
Proof. intros Ht Hn Hc. right. exists temporary. split_and!; [done|done|]. by right; left. Qed.

Lemma triple_temporary attempts : triple o stage_states pre (createArtifactTemporary attempts destination finalName)
  (λ path fs, is_temporary path ∧ pre !! path = None ∧ fs = <[path := Regular 384 o 1 ""]> pre).
Proof.
  induction attempts as [|n IH]; simpl; [apply triple_raise; by left|].
  apply triple_quiet_bind; [by left|quiet|]. intros random. set (path := child _ _).
  assert (Ht : is_temporary path) by by exists random.
  eapply (fs_triple_bind _ _ _ _ _ (λ r fs, match r with
    | Ok _ => pre !! path = None ∧ ∃ mode, fs = <[path := Regular mode o 1 ""]> pre | Err _ => fs = pre end)).
  { apply triple_attempt_modify; [by left|]. intros w fs Hw Ho. rewrite Hw. destruct (pre !! path) eqn:E; [done|].
    destruct (is_directory _ _); [|done]. intros [= <-]. unfold create_node. rewrite Hw, Ho.
    split; [|eauto]. eapply states_copying; [done|done|]. eexists _, _. done. }
  intros [[]|[]] fs Hfs; [|subst fs; by (apply IH || (apply triple_raise; by left))..].
  destruct Hfs as (Hn & mode & ->).
  assert (Hst : ∀ fs, copying o pre path fs → stage_states fs) by (intros; by eapply states_copying).
  assert (Hundo : ∀ fs, copying o pre path fs → triple o stage_states fs (Unlinkat path path) (λ _ _, True)).
  { intros fs Hc. eapply triple_any, triple_unattempt, unlink_copying; [done|done|auto|by left]. }
  eapply (fs_triple_bind _ _ _ _ _ (λ _ fs, fs = <[path := Regular 384 o 1 ""]> pre)).
  { apply (triple_cleanup _ _ (copying o pre path)); [|done|done].
    apply triple_context, triple_modify; [apply copying_at|intros; apply copying_at|].
    intros w fs Hw _. rewrite Hw, lookup_insert_eq, insert_insert_eq. intros [= <-]. split; [apply copying_at|done]. }
  intros _ ? ->. assert (Hc : copying o pre path (<[path := Regular 384 o 1 ""]> pre)) by apply copying_at.
  apply triple_quiet_bind; [auto|quiet|]. intros stat. apply triple_quiet_bind; [auto|quiet|]. intros euid.
  eapply (fs_triple_bind _ _ _ _ _ (λ _ fs, fs = <[path := Regular 384 o 1 ""]> pre)).
  { apply (triple_cleanup _ _ (copying o pre path)); [|done|done].
    eapply triple_post; [by apply triple_check|]. by intros _ fs [_ ->]. }
  intros _ ? ->. apply fs_triple_ret; auto.
Qed.

Definition publishes (fs : files) : Prop :=
  (pre !! final = None ∧ ∃ content, genuine expectation content ∧ fs = <[final := Regular finalMode o 1 content]> pre) ∨
  (fs = pre ∧ holds_artifact o expectation finalMode pre final).
Lemma triple_publish source temporary : is_temporary temporary → pre !! temporary = None →
  triple o stage_states (<[temporary := Regular 384 o 1 ""]> pre)
    (_ ← on_error (copy_verified source temporary expectation finalMode) (Unlinkat temporary final);
     linked ← attempt (Linkat temporary final);
     match linked with
     | Ok _ => finish_publication final temporary expectation finalMode
     | Err Exist => reuse_existing destination finalName temporary expectation finalMode
     | Err e => _ ← attempt (Unlinkat temporary final);
                raise (wrap "publish verified artifact without replacing an existing file" e)
     end) (λ _, publishes).
Proof.
  intros Ht Hn. pose proof (temporary_not_final _ Ht) as Hne.
  assert (Hst : ∀ fs, after_copy o expectation finalMode pre final temporary fs → stage_states fs) by (intros; right; eauto).
  assert (Hcp : ∀ fs, copying o pre temporary fs → stage_states fs) by (intros; by eapply states_copying).
  eapply fs_triple_bind.
  { apply (triple_cleanup _ _ (copying o pre temporary)); [by apply triple_copy_verified|done|].
    intros fs Hc. eapply triple_any, triple_unattempt, unlink_copying; [done|done|auto|by left]. }
  intros _ ? (content & Hg & ->).
  eapply (fs_triple_bind _ _ _ _ _ (λ r fs, match r with
    | Ok _ => pre !! final = None ∧ linked o finalMode pre final temporary content fs
    | Err _ => fs = <[temporary := Regular finalMode o 1 content]> pre end)).
  { apply triple_attempt_modify; [apply Hcp, copying_at|]. intros w fs Hw _.
    rewrite Hw, lookup_insert_eq, lookup_insert_ne by done. destruct (pre !! final) eqn:E; [done|]. intros [= <-].
    assert (Hl : linked o finalMode pre final temporary content
      (<[final := Regular finalMode o (1 + 1) content]> (<[temporary := Regular finalMode o (1 + 1) content]>
        (<[temporary := Regular finalMode o 1 content]> pre)))) by (unfold linked; by rewrite insert_insert_eq).
    split; [|done]. apply Hst. right. right. eauto. }
  intros [[]|e] fs Hfs.
  - destruct Hfs as [Hnf Hl]. eapply triple_post; [eapply triple_wider; [by apply (triple_finish _ _ _ _ _ _ Hn Hne content)|done]|].
    intros ? fs' Hp. left. split; [done|]. by exists content.
  - subst fs. destruct e; first [
      eapply triple_post; [eapply triple_wider; [by apply (triple_reuse _ expectation _ _ final)|]|];
        [intros ? [->|?]; [by left|auto]|by intros ? fs' Hp; right]
    | eapply fs_triple_bind; [apply unlink_copying; [done|apply copying_at|apply Hcp, copying_at|by left]|];
        intros r ? Hr; apply triple_raise; destruct r; subst; [by left|apply Hcp, copying_at] ].
Qed.
End publication.

Lemma validatePath_inv path : validateAbsoluteCanonicalPath path = Ok tt → ∃ es, components es ∧ path = abs es.
Proof.
  unfold validateAbsoluteCanonicalPath. intros H. apply canonical_inv. unfold canonicalAbsolutePath.
  case_match eqn:E; [done|]. rewrite !orb_false_iff, !negb_false_iff in E. destruct E as [[[-> _] ->] ->]. done.
Qed.
Lemma openVerified_self path b w r : (openVerifiedDirectory path b w).2 = Ok r →
  r = path ∧ ∃ es, components es ∧ path = abs es.
Proof.
  intros H. assert (Hp : ∃ es, components es ∧ path = abs es).
  { apply validatePath_inv. revert H. unfold openVerifiedDirectory, mbind, fsm_bind, valid_or_fail.
    by destruct (validateAbsoluteCanonicalPath path) as [[]|]. }
  split; [|done]. destruct Hp as (es & Hes & ->). by eapply openVerifiedDirectory_path.
Qed.

Lemma triple_quiet_run {A} o (P : files → Prop) pre (m : FsM A) : P pre → Quiet m →
  triple o P pre m (λ a fs, fs = pre ∧ ∃ w, w_files w = pre ∧ w_euid w = o ∧ (m w).2 = Ok a).
Proof.
  intros HP Hq w Hw Ho. destruct (triple_quiet o P pre m HP Hq w Hw Ho) as [Hp Hf]. split; [done|].
  intros a Ha. split; [by apply (Hf a)|]. by exists w.
Qed.

(** *** Opening a directory again

    A run that only looks at directories, and succeeds, succeeds again without failing calls. *)
Section replay.
Context (fs fs' : files)
  (Hkeep : ∀ p mode owner, fs !! p = Some (Directory mode owner) → fs' !! p = Some (Directory mode owner)).
Definition replays {A} (m : FsM A) : Prop := ∀ w w' a,
  w_files w = fs → w_files w' = fs' → w_euid w = w_euid w' → w_faults w' = [] → (m w).2 = Ok a → m w' = (w', Ok a).
Lemma replays_bind {A B} (m : FsM A) (f : A → FsM B) : Quiet m → replays m → (∀ a, replays (f a)) → replays (m ≫= f).
Proof.
  intros Hq Hm Hf w w' b Hw Hw' He Hn. unfold mbind, fsm_bind. destruct (Hq w) as (E1 & _ & E3).
  destruct (m w) as [w1 [a|e]] eqn:E; [|done]. simpl in *. intros Hb.
  rewrite (Hm w w' a); [|done..|by rewrite E]. apply (Hf a w1); congruence.
Qed.
Lemma replays_pure {A} (m : FsM A) (r : World → res ferr A) : (∀ w, m w = (w, r w)) → 
  (∀ w w', w_euid w = w_euid w' → r w = r w') → replays m.
Proof. intros Hm Hr w w' a _ _ He _. rewrite !Hm. simpl. by intros <-; rewrite (Hr w w'). Qed.
Lemma replays_ret {A} (a : A) : replays (mret a).
Proof. by eapply replays_pure. Qed.
Lemma replays_valid r : replays (valid_or_fail r).
Proof. unfold valid_or_fail. destruct r as [[]|e]; [apply replays_ret|by eapply (replays_pure _ (λ _, Err _))]. Qed.
Lemma replays_context {A} context (m : FsM A) : replays m → replays (in_context context m).
Proof.
  intros Hm w w' a Hw Hw' He Hn Ha%in_context_ok. unfold in_context. by rewrite (Hm w w' a).
Qed.
Lemma inspect_calm {A} (f : World → res ferr A) w : w_faults w = [] → inspect f w = (w, f w).
Proof. intros H. unfold inspect, next_fault. by rewrite H. Qed.
Lemma replays_open path : replays (open_directory_nofollow path).
Proof.
  intros w w' n Hw Hw' _ Hn. unfold open_directory_nofollow. rewrite (inspect_calm _ w') by done. rewrite Hw'.
  unfold inspect. pose proof (next_fault_files w) as Hf. destruct (next_fault w) as [w1 [|]]; simpl in *; [done|].
  rewrite Hf, Hw. destruct (fs !! path) as [[]|] eqn:E; try done. intros [= <-]. by rewrite (Hkeep _ _ _ E).
Qed.
Lemma replays_trusted n b refusal : replays (trusted n b refusal).
Proof.
  intros w w' [] _ _ He Hn. unfold trusted, attempt, fstat, sync_file, mbind, fsm_bind, ask, check. rewrite (inspect_calm _ w') by done.
  unfold inspect. pose proof (next_fault_euid w) as Hf. destruct (next_fault w) as [w1 [|]]; simpl in *; [done|].
  rewrite Hf, He. by case_match.
Qed.
Lemma replays_open_components b cs : ∀ current n, replays (open_components b current n cs).
Proof.
  induction cs as [|c cs IH]; intros current n; simpl; [apply replays_ret|].
  apply replays_bind; [quiet|apply replays_context, replays_open|]. intros m.
  apply replays_bind; [quiet|apply replays_trusted|]. intros _. apply IH.
Qed.
Lemma replays_openVerifiedDirectory path b : replays (openVerifiedDirectory path b).
Proof.
  unfold openVerifiedDirectory. apply replays_bind; [quiet|apply replays_valid|]. intros _.
  apply replays_bind; [quiet|apply replays_context, replays_open|]. intros root.
  apply replays_bind; [quiet|apply replays_trusted|]. intros _.
  apply replays_bind; [apply quiet_open_components|apply replays_open_components|]. intros [opened n].
  apply replays_bind; [quiet|by destruct b; [apply replays_trusted|apply replays_ret]|]. intros _. apply replays_ret.
Qed.
End replay.

(** ** Staging as a whole *)
Definition expectation_of (expectedBytes : Z) (expectedSHA256 : string) (content : string) : Prop :=
  slen content = expectedBytes ∧ hex_decode expectedSHA256 = Some (bytes_list (Sum256 content)).
Lemma parseArtifactExpectation_inv n s expectation : parseArtifactExpectation n s = Ok expectation →
  ae_bytes expectation = n ∧ hex_decode s = Some (ae_digest expectation).
Proof.
  unfold parseArtifactExpectation. destruct (_ || _); [done|]. destruct (_ || _); [done|].
  destruct (hex_decode s); [|done]. by intros [= <-].
Qed.
(** The files before, with the final name published in mode [finalMode], or with a
    temporary name besides. *)
Definition staging_view (o : Z) (destinationDir finalName : string) (expectedBytes : Z) (expectedSHA256 : string) (finalMode : Z)
    (pre fs : files) : Prop :=
  (∀ path, path ≠ child destinationDir finalName → fs !! path = pre !! path ∨
     (pre !! path = None ∧ ∃ random, path = child destinationDir ("." +:+ finalName +:+ ".stage-" +:+ hex_encode random))) ∧
  (fs !! child destinationDir finalName = pre !! child destinationDir finalName ∨
   (pre !! child destinationDir finalName = None ∧ ∃ nlink content,
      fs !! child destinationDir finalName = Some (Regular finalMode o nlink content) ∧
      expectation_of expectedBytes expectedSHA256 content)).
Lemma stage_states_view o expectation finalMode pre destinationDir finalName n s fs :
  ae_bytes expectation = n → hex_decode s = Some (ae_digest expectation) →
  stage_states o expectation finalMode pre destinationDir finalName fs →
  staging_view o destinationDir finalName n s finalMode pre fs.
Proof.
  intros Hn Hd Hfs. assert (Hg : ∀ c, genuine expectation c → expectation_of n s c).
  { intros c [H1 H2]. split; [congruence|]. by rewrite Hd, H2. }
  destruct Hfs as [->|(temporary & Ht & Hfree & Hafter)]; [split; [by left|by left]|].
  pose proof (temporary_not_final _ _ _ Ht) as Hne. destruct Ht as [random Ht].
  assert (Htmp : ∀ path n0, path ≠ child destinationDir finalName → <[temporary := n0]> pre !! path = pre !! path ∨
    (pre !! path = None ∧ ∃ random, path = child destinationDir ("." +:+ finalName +:+ ".stage-" +:+ hex_encode random))).
  { intros path n0 _. destruct (decide (path = temporary)) as [->|]; [right; eauto|left; by rewrite lookup_insert_ne]. }
  destruct Hafter as [->|[(mode & c & ->)|(Hnf & c & Hgc & [->| ->])]].
  - split; [by left|by left].
  - split; [auto|left]. by rewrite lookup_insert_ne.
  - split.
    + intros path Hp. rewrite lookup_insert_ne by done. by apply Htmp.
    + right. split; [done|]. rewrite lookup_insert_eq. eauto.
  - split.
    + intros path Hp. left. by rewrite lookup_insert_ne.
    + right. split; [done|]. rewrite lookup_insert_eq. eauto.
Qed.

Lemma triple_from_text {A} o (P : files → Prop) pre (r : res string A) : P pre →
  triple o P pre (from_text r) (λ a fs, r = Ok a ∧ fs = pre).
Proof. intros HP. destruct r; [by apply fs_triple_ret|by apply triple_raise]. Qed.

(** A successful staging found its destination directory trusted. *)
Definition trusted_directory (o : Z) (fs : files) (path : string) : Prop :=
  ∃ w, w_files w = fs ∧ w_euid w = o ∧ (openVerifiedDirectory path true w).2 = Ok path.
Lemma triple_stageOpened o source n destinationDir finalName expectation finalMode pre :
  triple o (stage_states o expectation finalMode pre destinationDir finalName) pre
    (stageOpenedArtifact source n destinationDir finalName expectation finalMode)
    (λ path fs, publishes o expectation finalMode pre destinationDir finalName fs ∧
      path = Join [destinationDir; finalName] ∧ validateArtifactName finalName = Ok tt ∧
      trusted_directory o pre destinationDir).
Proof.
  unfold stageOpenedArtifact. set (P := stage_states _ _ _ _ _ _). assert (HP : P pre) by by left.
  eapply fs_triple_bind; [by apply triple_from_text|]. intros [] ? [Hname ->]. apply triple_quiet_bind; [done|quiet|]. intros euid.
  apply triple_check_bind; [done|]. intros _.
  eapply fs_triple_bind; [apply triple_quiet_run; [done|quiet]|].
  intros opened ? (-> & w0 & Hw0 & Ho0 & Hopen%in_context_ok).
  destruct (openVerified_self _ _ _ _ Hopen) as [-> _].
  eapply fs_triple_bind; [apply triple_temporary|]. intros temporary ? (Ht & Hn & ->).
  pose proof (triple_publish o expectation finalMode pre destinationDir finalName source temporary Ht Hn) as Hp.
  intros w Hw Ho. destruct (Hp w Hw Ho) as [Hpass Hpost]. clear Hp. unfold mbind, fsm_bind in *.
  destruct (on_error _ _ w) as [w1 [a|e]]; [|by split].
  destruct (attempt _ w1) as [w2 [linked|e]]; [|by split].
  destruct (match linked with _ => _ end w2) as [w3 [b|e]]; simpl in *; [|by split].
  split; [done|]. intros ? [= <-]. split_and!; [by eapply Hpost|done|done|by exists w0].
Qed.

(** The final name holds the expected file, alone; nothing else changed. *)
Definition staged_as (o : Z) (destinationDir finalName : string) (expectedBytes : Z) (expectedSHA256 : string) (finalMode : Z)
    (pre fs : files) : Prop :=
  (∀ path, path ≠ child destinationDir finalName → fs !! path = pre !! path) ∧
  (pre !! child destinationDir finalName = None ∨ fs = pre) ∧
  ∃ mode content, fs !! child destinationDir finalName = Some (Regular mode o 1 content) ∧
    permissions mode = finalMode ∧ expectation_of expectedBytes expectedSHA256 content.
Lemma genuine_expectation expectation n s content : parseArtifactExpectation n s = Ok expectation →
  genuine expectation content → expectation_of n s content.
Proof. intros [Hn Hd]%parseArtifactExpectation_inv [H1 H2]. split; [congruence|]. by rewrite Hd, H2. Qed.
Lemma publishes_staged o expectation finalMode pre destinationDir finalName n s fs :
  permissions finalMode = finalMode → parseArtifactExpectation n s = Ok expectation →
  publishes o expectation finalMode pre destinationDir finalName fs →
  staged_as o destinationDir finalName n s finalMode pre fs.
Proof.
  intros Hm He [(Hn & content & Hg & ->)|[-> (mode & content & Hl & Hp & Hg)]].
  - split; [intros; by rewrite lookup_insert_ne|]. split; [by left|]. exists finalMode, content. rewrite lookup_insert_eq.
    split_and!; [done|done|by eapply genuine_expectation].
  - split; [done|]. split; [by right|]. exists mode, content. split_and!; [done|done|by eapply genuine_expectation].
Qed.
(** What a successful staging established besides. *)
Definition staged_result (o : Z) (destinationDir finalName : string) (expectedBytes : Z) (expectedSHA256 : string)
    (maximumBytes : Z) (pre : files) (path : string) : Prop :=
  path = Join [destinationDir; finalName] ∧ validateArtifactName finalName = Ok tt ∧ trusted_directory o pre destinationDir ∧
  (expectedBytes <=? 0) || (maximumBytes <? expectedBytes) = false ∧
  ∃ expectation, parseArtifactExpectation expectedBytes expectedSHA256 = Ok expectation.
Lemma triple_stageVerifiedFile o pre sourcePath destinationDir finalName n s maximum finalMode :
  permissions finalMode = finalMode →
  triple o (staging_view o destinationDir finalName n s finalMode pre) pre
    (stageVerifiedFile sourcePath destinationDir finalName n s maximum finalMode)
    (λ path fs, staged_as o destinationDir finalName n s finalMode pre fs ∧
       staged_result o destinationDir finalName n s maximum pre path).
Proof.
  intros Hm. unfold stageVerifiedFile. set (P := staging_view _ _ _ _ _ _ _).
  assert (HP : P pre) by (split; by left).
  apply triple_check_bind; [done|]. intros Hb%negb_true_iff. eapply fs_triple_bind; [by apply triple_from_text|].
  intros expectation ? [He ->]. apply triple_quiet_bind; [done|quiet|]. intros _.
  apply triple_quiet_bind; [done|quiet|]. intros [source stat].
  eapply triple_post.
  - eapply triple_wider; [apply triple_stageOpened|]. intros fs Hfs. apply parseArtifactExpectation_inv in He as [? ?].
    by eapply stage_states_view.
  - intros ? fs (Hfs & -> & Hname & Hopen). split; [by eapply publishes_staged|]. split_and!; eauto.
Qed.

(** ** Verification *)
Lemma name_component name : validateArtifactName name = Ok tt → name ≠ "/" → component name = true ∧ contains_byte (chrZ 0) name = false.
Proof.
  unfold validateArtifactName. intros H Hs. case_match eqn:E; [done|].
  rewrite !orb_false_iff, !negb_false_iff, !String.eqb_neq, !String.eqb_eq in E.
  destruct E as [[[[[[He Hd] Hdd] _] H0] Hb] _]. split; [|done]. unfold component.
  rewrite (proj2 (String.eqb_neq _ _) He), (proj2 (String.eqb_neq _ _) Hd), (proj2 (String.eqb_neq _ _) Hdd). simpl.
  apply negb_true_iff. revert Hb. unfold Base. rewrite (proj2 (String.eqb_neq _ _) He).
  destruct (last (path_elements name)) as [e|] eqn:El; [|by intros <-]. intros ->.
  apply last_Some in El as [l El]. assert (Hin : name ∈ path_elements name) by (rewrite El; set_solver).
  apply list_elem_of_In, List.filter_In in Hin as [Hin _]. pose proof (split_no_sep "/" name) as Hf.
  rewrite Forall_forall in Hf. by apply Hf, list_elem_of_In.
Qed.
Lemma Base_abs es c : components es → component c = true → Base (abs (es ++ [c])) = c.
Proof.
  intros He Hc. unfold Base. rewrite path_elements_abs, last_snoc; [done|]. apply Forall_app; by split; [|constructor].
Qed.
Lemma contains_byte_app c s t : contains_byte c (s +:+ t) = contains_byte c s || contains_byte c t.
Proof. induction s as [|d s IH]; [done|]. rewrite sapp_cons. cbn [contains_byte]. by rewrite IH, orb_assoc. Qed.
Lemma validatePath_child es name : components es → component name = true → contains_byte (chrZ 0) name = false →
  validateAbsoluteCanonicalPath (abs es) = Ok tt → validateAbsoluteCanonicalPath (abs (es ++ [name])) = Ok tt.
Proof.
  intros He Hc H0. unfold validateAbsoluteCanonicalPath. intros H. rewrite Clean_abs, String.eqb_refl;
    [|apply Forall_app; by split; [|constructor]]. change (IsAbs (abs (es ++ [name]))) with true.
  assert (E : contains_byte (chrZ 0) (abs es) = false).
  { destruct (contains_byte (chrZ 0) (abs es)); [|done]. by rewrite orb_true_r in H. }
  assert (E' : contains_byte (chrZ 0) (abs (es ++ [name])) = false); [|by rewrite E'].
  rewrite <- child_abs by done. unfold child.
  destruct (String.eqb (abs es) "/"); rewrite !contains_byte_app, ?E, H0; done.
Qed.
(** A file of the expected kind at [path]. *)
Definition verified_at (o : Z) (fs : files) (path : string) (n : Z) (s : string) (finalMode : Z) : Prop :=
  ∃ mode content, fs !! path = Some (Regular mode o 1 content) ∧ permissions mode = finalMode ∧ expectation_of n s content.
Lemma triple_valid o (P : files → Prop) pre r : P pre → triple o P pre (valid_or_fail r) (λ _ fs, r = Ok tt ∧ fs = pre).
Proof. intros HP. unfold valid_or_fail. destruct r as [[]|]; [by apply fs_triple_ret|by apply triple_raise]. Qed.
Lemma triple_verifyStagedFile o (P : files → Prop) pre path n s maximum finalMode : P pre →
  triple o P pre (verifyStagedFile path n s maximum finalMode) (λ _ fs, fs = pre ∧
    (∃ es, components es ∧ path = abs es) ∧ verified_at o fs (child (Dir path) (Base path)) n s finalMode).
Proof.
  intros HP. unfold verifyStagedFile. apply triple_check_bind; [done|]. intros _.
  eapply fs_triple_bind; [by apply triple_from_text|]. intros expectation ? [He ->].
  eapply fs_triple_bind; [by apply triple_valid|]. intros _ ? [Hpath%validatePath_inv ->].
  eapply fs_triple_bind; [apply triple_quiet_run; [done|quiet]|].
  intros directory ? (-> & w & _ & _ & Hd%in_context_ok). apply openVerified_self in Hd as [-> _].
  eapply fs_triple_bind; [by apply triple_inspectExisting|]. intros [exists_ identical] ? [-> Hi].
  apply triple_check_bind; [done|]. intros ->. eapply triple_post; [by apply triple_check|].
  intros _ ? [-> ->]. do 2 (split; [done|]). destruct (Hi eq_refl) as (mode & content & Hl & Hm & Hg). exists mode, content.
  split_and!; [done|done|by eapply genuine_expectation].
Qed.

(** Support files and executables, staged and verified alike. *)
Definition stage_file (support : bool) :=
  if support then StageVerifiedReleaseFile else StageVerifiedArtifact.
Definition verify_file (support : bool) :=
  if support then VerifyStagedReleaseFile else VerifyStagedArtifact.
Definition staged_mode (support : bool) : Z := if support then supportFileMode else executableMode.
Definition staged_limit (support : bool) : Z := if support then maxReleaseFileBytes else maximumStagedArtifactBytes.
Lemma triple_stage_file o support pre sourcePath destinationDir finalName n s :
  triple o (staging_view o destinationDir finalName n s (staged_mode support) pre) pre
    (stage_file support sourcePath destinationDir finalName n s)
    (λ path fs, (support = true → support_name finalName = true) ∧
       staged_as o destinationDir finalName n s (staged_mode support) pre fs ∧
       staged_result o destinationDir finalName n s (staged_limit support) pre path).
Proof.
  destruct support; simpl; [apply triple_check_bind; [by split; left|]; intros Hs|].
  all: eapply triple_post; [by apply triple_stageVerifiedFile|]; intros ? ? [? ?]; done.
Qed.

(** C14. Whatever fails, and wherever a run of [StageVerifiedArtifact] or
    [StageVerifiedReleaseFile] is cut off, the published name is either what it was, or it
    was free and now names a file of exactly the pinned size and digest with the published
    mode; no other file has changed, a temporary name of the same directory apart.  A
    staging that succeeds leaves no temporary name, and its file has one link. *)
Theorem staging_is_atomic (support : bool) (sourcePath destinationDir finalName : string) (n : Z) (s : string) (w : World) :
  finalName ≠ "/" →
  let '(w', r) := stage_file support sourcePath destinationDir finalName n s w in
  passes (staging_view (w_euid w) destinationDir finalName n s (staged_mode support) (w_files w)) w w' ∧
  ∀ path, r = Ok path →
    staged_as (w_euid w) destinationDir finalName n s (staged_mode support) (w_files w) (w_files w').
Proof.
  intros _. pose proof (triple_stage_file (w_euid w) support (w_files w) sourcePath destinationDir finalName n s w eq_refl eq_refl)
    as [Hp Hq]. destruct (stage_file _ _ _ _ _ _ w) as [w' r]. split; [done|]. intros path Hr. by apply (Hq path).
Qed.

(** What [VerifyStagedArtifact] or [VerifyStagedReleaseFile] accepts is a regular
    file of the user with one link, exactly the published permissions, and the pinned size
    and digest; verifying changes nothing. *)
Theorem verification_is_sound (support : bool) (path : string) (n : Z) (s : string) (w w' : World) :
  path ≠ "/" → verify_file support path n s w = (w', Ok tt) →
  w_files w' = w_files w ∧ verified_at (w_euid w) (w_files w) path n s (staged_mode support).
Proof.
  intros Hroot Hrun.
  assert (Ht : triple (w_euid w) (λ _, True) (w_files w) (verify_file support path n s)
    (λ _ fs, fs = w_files w ∧ (∃ es, components es ∧ path = abs es) ∧
       verified_at (w_euid w) fs (child (Dir path) (Base path)) n s (staged_mode support))).
  { destruct support; [apply triple_check_bind; [done|]; intros _|]; by apply triple_verifyStagedFile. }
  destruct (Ht w eq_refl eq_refl) as [_ Hq]. rewrite Hrun in Hq. destruct (Hq tt eq_refl) as (Hf & (es & Hes & ->) & Hh).
  split; [done|]. rewrite <- Hf. destruct (exists_last (l := es)) as (es' & c & ->); [intros ->; by apply Hroot|].
  apply Forall_app in Hes as [He [Hc _]%Forall_cons]. by rewrite Dir_abs, Base_abs, child_abs in Hh by done.
Qed.

(** *** What was staged verifies *)
Lemma inspectExisting_calm destination finalName expectation finalMode w mode content : w_faults w = [] →
  w_files w !! child destination finalName = Some (Regular mode (w_euid w) 1 content) → permissions mode = finalMode →
  Z.land finalMode 18 = 0 → genuine expectation content →
  inspectExistingArtifact destination finalName expectation finalMode w = (w, Ok (true, true)).
Proof.
  intros Hn Hl Hm Hw [Hlen Hsum]. unfold inspectExistingArtifact, open_nofollow, statFile, attempt, in_context, fstat, sync_file,
    mbind, fsm_bind, ask. do 2 (rewrite (inspect_calm _ w) by done; rewrite ?Hl; cbv beta iota zeta).
  assert (Hok : owned_ok (w_euid w) (Regular mode (w_euid w) 1 content) (Some finalMode) = true).
  { unfold owned_ok, validateOwnedRegularFile. by rewrite !Z.eqb_refl, Hm, Hw, !Z.eqb_refl. }
  rewrite Hok. unfold size_of. change (content_of (Regular mode (w_euid w) 1 content)) with content.
  rewrite Hlen, Z.eqb_refl, limited_all by lia. cbn [negb orb].
  do 2 (rewrite (inspect_calm _ w) by done; rewrite ?Hl; cbv beta iota zeta).
  change (content_of (Regular mode (w_euid w) 1 content)) with content.
  by rewrite Hlen, Z.eqb_refl, bool_decide_true, Hok.
Qed.
Lemma verifyStagedFile_calm es name n s maximum finalMode mode content expectation w w0 : w_faults w = [] →
  components es → component name = true → contains_byte (chrZ 0) name = false →
  (openVerifiedDirectory (abs es) true w0).2 = Ok (abs es) → w_euid w0 = w_euid w →
  (∀ p m owner, w_files w0 !! p = Some (Directory m owner) → w_files w !! p = Some (Directory m owner)) →
  (n <=? 0) || (maximum <? n) = false → parseArtifactExpectation n s = Ok expectation →
  w_files w !! child (abs es) name = Some (Regular mode (w_euid w) 1 content) → permissions mode = finalMode →
  Z.land finalMode 18 = 0 → genuine expectation content →
  verifyStagedFile (abs (es ++ [name])) n s maximum finalMode w = (w, Ok tt).
Proof.
  intros Hn He Hc H0 Hopen Ho Hkeep Hb Hp Hl Hm Hw Hg. unfold verifyStagedFile. rewrite Hb, Hp, Dir_abs, Base_abs by done.
  assert (Hv : validateAbsoluteCanonicalPath (abs es) = Ok tt).
  { revert Hopen. unfold openVerifiedDirectory, mbind, fsm_bind, valid_or_fail. by destruct (validateAbsoluteCanonicalPath _) as [[]|]. }
  rewrite (validatePath_child es name) by done. cbn [negb from_text valid_or_fail].
  unfold refuse_unless, check, mbind, fsm_bind, in_context. cbn [mret fsm_ret].
  rewrite (replays_openVerifiedDirectory (w_files w0) (w_files w) Hkeep (abs es) true w0 w (abs es)) by done.
  by rewrite (inspectExisting_calm _ _ _ _ _ mode content).
Qed.

(** A release file that was staged verifies: when [StageVerifiedArtifact] or
    [StageVerifiedReleaseFile] returns a path, the matching verification of that path with
    the same size and digest accepts, provided its own system calls do not fail. *)
Theorem staged_file_verifies (support : bool) (sourcePath destinationDir finalName path : string) (n : Z) (s : string) (w w' : World) :
  finalName ≠ "/" → stage_file support sourcePath destinationDir finalName n s w = (w', Ok path) → w_faults w' = [] →
  verify_file support path n s w' = (w', Ok tt).
Proof.
  intros Hroot Hrun Hcalm.
  pose proof (triple_stage_file (w_euid w) support (w_files w) sourcePath destinationDir finalName n s w eq_refl eq_refl)
    as [(He & _) Hq]. rewrite Hrun in He, Hq. simpl in He.
  destruct (Hq path eq_refl) as (Hs & (Hrest & Hfree & mode & content & Hl & Hm & Hx) & -> & Hname & (w0 & Hw0 & Ho0 & Hopen) & Hb & exp & Hexp).
  clear Hq. simpl in *. destruct (name_component _ Hname Hroot) as [Hc H0].
  destruct (openVerified_self _ _ _ _ Hopen) as [_ (es & Hes & ->)]. rewrite Join_abs by done.
  assert (Hv : verifyStagedFile (abs (es ++ [finalName])) n s (staged_limit support) (staged_mode support) w' = (w', Ok tt)).
  { eapply (verifyStagedFile_calm _ _ _ _ _ _ mode content exp w' w0); rewrite ?He; try done.
    - intros p m owner Hp. destruct Hfree as [Hfree| ->]; [|congruence]. rewrite Hrest; congruence.
    - by destruct support.
    - destruct Hx as [H1 H2]. apply parseArtifactExpectation_inv in Hexp as [H3 H4]. split; congruence. }
  destruct support; [|exact Hv]. unfold verify_file, VerifyStagedReleaseFile. rewrite Base_abs, Hs by done. exact Hv.
Qed.
