(* ===== verification/RemovalProps.v ===== *)
(** * Removing the version tree: all of it is inspected first, and nothing else goes

    Symbolic execution of the removal of [Artifact]: what [RemoveInstalledArtifacts] may
    delete, what is left when it succeeds, and when it refuses. *)

From stdpp Require Import base list strings gmap.
From Stdlib Require Import ZArith Lia Ascii.
From Stdlib Require String.
From S2P Require Import Prelude GoStd Json JsonFacts Api Wire Indent Release NetIP Fs Paths Config Layout Deploy Manifest Artifact ArtifactProps.
Local Open Scope Z_scope.

(** ** Names of a directory *)
Lemma child_split directory name : child directory name = child directory "" +:+ name.
Proof. unfold child. destruct (String.eqb directory "/"); [done|]. by rewrite sapp_assoc. Qed.
Lemma entry_name_spec directory path name :
  entry_name directory path = Some name ↔ path = child directory name ∧ name ≠ "" ∧ contains_byte "/" name = false.
Proof.
  unfold entry_name. rewrite (child_split directory name). split.
  - destruct (strip_prefix _ path) as [rest|] eqn:E; [|done]. apply strip_prefix_Some in E as ->. 
    destruct (String.eqb rest "") eqn:E1, (contains_byte "/" rest) eqn:E2; try done. intros [= <-].
    apply String.eqb_neq in E1. done.
  - intros (-> & Hn & Hs). rewrite strip_prefix_app. apply String.eqb_neq in Hn. by rewrite Hn, Hs.
Qed.
Lemma elem_directory_names fs directory name :
  name ∈ directory_names fs directory ↔
  is_Some (fs !! child directory name) ∧ name ≠ "" ∧ contains_byte "/" name = false.
Proof.
  unfold directory_names. rewrite elem_of_order_by, list_elem_of_omap. split.
  - intros ([path n] & Hin & Hn%entry_name_spec). apply elem_of_map_to_list in Hin. destruct Hn as [-> ?]. eauto.
  - intros [[n Hn] Hs]. exists (child directory name, n). split; [by apply elem_of_map_to_list|]. by apply entry_name_spec.
Qed.

(** ** Sequences of steps *)
Lemma triple_final {A} o (P : files → Prop) pre (m : FsM A) Q :
  triple o P pre m Q → triple o P pre m (λ a fs, P fs ∧ Q a fs).
Proof. intros Hm w Hw Ho. destruct (Hm w Hw Ho) as [(? & ? & ? & ? & Hp) Hq]. split; [by split; eauto|]. eauto. Qed.
Lemma triple_each {A} o (P : files → Prop) (f : A → FsM unit) (Q : A → files → Prop) l :
  (∀ x fs, x ∈ l → P fs → triple o P fs (f x) (λ _ fs', fs' ⊆ fs ∧ Q x fs')) →
  (∀ x fs fs', Q x fs → fs' ⊆ fs → Q x fs') →
  ∀ fs, P fs → triple o P fs (each f l) (λ _ fs', fs' ⊆ fs ∧ Forall (λ x, Q x fs') l).
Proof.
  intros Hf Hmono. induction l as [|x l IH]; intros fs HP; simpl; [by apply fs_triple_ret|].
  eapply fs_triple_bind; [apply triple_final, Hf; [set_solver|done]|]. intros [] mid [HPm [Hsub HQ]].
  eapply triple_post; [apply IH; [|done]|].
  - intros y fs' Hy. apply Hf. set_solver.
  - intros _ fs' [Hsub' HF]. split; [by etrans|]. constructor; [|done]. by eapply Hmono.
Qed.
Lemma triple_collect {A B} o (P : files → Prop) pre (f : A → FsM B) (R : A → B → Prop) l : P pre →
  (∀ x, x ∈ l → triple o P pre (f x) (λ y fs, fs = pre ∧ R x y)) →
  triple o P pre (collect f l) (λ ys fs, fs = pre ∧ Forall2 R l ys).
Proof.
  intros HP. induction l as [|x l IH]; intros Hf; simpl; [by apply fs_triple_ret|].
  eapply fs_triple_bind; [apply Hf; set_solver|]. intros y ? [-> Hy].
  eapply fs_triple_bind; [apply IH; intros z Hz; apply Hf; set_solver|]. intros ys ? [-> Hys].
  apply fs_triple_ret; [done|]. by split; [|constructor].
Qed.

Lemma Forall2_member_r {A B} (R : A → B → Prop) l k y : Forall2 R l k → y ∈ k → ∃ x, x ∈ l ∧ R x y.
Proof.
  intros H (i & Hi)%list_elem_of_lookup. eapply Forall2_lookup_r in Hi as (x & Hx & HR); [|done].
  exists x. split; [by eapply list_elem_of_lookup_2|done].
Qed.
Lemma Forall2_member_l {A B} (R : A → B → Prop) l k x : Forall2 R l k → x ∈ l → ∃ y, y ∈ k ∧ R x y.
Proof. intros H Hx. by apply (Forall2_member_r (flip R) k l); [apply Forall2_flip|]. Qed.

(** ** What is inspected *)
Lemma triple_check_removable o (P : files → Prop) pre directory name : P pre →
  triple o P pre (check_removable directory name)
    (λ _ fs, fs = pre ∧ ∃ n, pre !! child directory name = Some n ∧ validateRemovableArtifact o name n = Ok tt).
Proof.
  intros HP. unfold check_removable. eapply fs_triple_bind; [by apply triple_statFile|]. intros n ? [-> Hn].
  eapply fs_triple_bind; [by apply triple_ask|]. intros ? ? (-> & w & <- & ->).
  eapply triple_post; [by apply triple_from_text|]. intros [] ? [? ->]. eauto.
Qed.
(** A version directory every file of which may be removed. *)
Definition removable_version (o : Z) (versions : string) (fs : files) (release : string) (version : removableVersion) : Prop :=
  rv_name version = release ∧ Valid release = true ∧ rv_files version = directory_names fs (child versions release) ∧
  ∀ name, name ∈ rv_files version →
    ∃ n, fs !! child (child versions release) name = Some n ∧ validateRemovableArtifact o name n = Ok tt.
Lemma triple_preflight_version o (P : files → Prop) pre versions release : P pre →
  triple o P pre (preflight_version versions release) (λ version fs, fs = pre ∧ removable_version o versions pre release version).
Proof.
  intros HP. unfold preflight_version. apply triple_check_bind; [done|]. intros Hv.
  apply triple_quiet_bind; [done|quiet|]. intros n. apply triple_quiet_bind; [done|quiet|]. intros _.
  eapply fs_triple_bind; [by apply triple_inspect|]. intros names ? (-> & w & <- & <- & [= <-]).
  set (names := directory_names _ _).
  eapply (fs_triple_bind _ _ _ _ _ (λ _ fs, fs = w_files w ∧ ∀ name, name ∈ names →
    ∃ n, w_files w !! child (child versions release) name = Some n ∧ validateRemovableArtifact (w_euid w) name n = Ok tt)).
  { generalize names. intros l. induction l as [|name l IH]; simpl; [apply fs_triple_ret; [done|]; split; [done|]; set_solver|].
    eapply fs_triple_bind; [by apply triple_check_removable|]. intros [] ? [-> Hn].
    eapply triple_post; [exact IH|]. intros _ ? [-> Hl]. split; [done|]. intros x [->|Hx]%elem_of_cons; auto. }
  intros _ ? [-> Hok]. apply triple_quiet_bind; [done|quiet|]. intros _. by apply fs_triple_ret.
Qed.
Definition removable_tree (o : Z) (versions : string) (fs : files) (plan : list removableVersion) : Prop :=
  Forall2 (removable_version o versions fs) (directory_names fs versions) plan.
Lemma triple_preflight o (P : files → Prop) pre versions : P pre →
  triple o P pre (preflightInstalledVersions versions) (λ plan fs, fs = pre ∧ removable_tree o versions pre plan).
Proof.
  intros HP. unfold preflightInstalledVersions. apply triple_quiet_bind; [done|quiet|]. intros _.
  eapply fs_triple_bind; [by apply triple_inspect|]. intros names ? (-> & w & <- & <- & [= <-]).
  apply triple_collect; [done|]. intros x _. by apply triple_preflight_version.
Qed.

(** ** What is removed *)
Section removal.
Context (o : Z) (versions : string) (pre : files).
(** The directory of a release, or a file of it that is one of the installer's own. *)
Definition removable_path (path : string) : Prop :=
  ∃ release, Valid release = true ∧
    (path = child versions release ∨
     ∃ name n, path = child (child versions release) name ∧ pre !! path = Some n ∧ validateRemovableArtifact o name n = Ok tt).
Definition only_removed (fs : files) : Prop :=
  ∀ path, fs !! path = pre !! path ∨ (fs !! path = None ∧ removable_path path).

Lemma only_removed_refl : only_removed pre.
Proof. by left. Qed.
Lemma only_removed_delete fs path : only_removed fs → removable_path path → only_removed (delete path fs).
Proof.
  intros H Hp q. destruct (decide (q = path)) as [->|]; [right; by rewrite lookup_delete_eq|].
  rewrite lookup_delete_ne by done. apply H.
Qed.
Lemma only_removed_sub fs : only_removed fs → fs ⊆ pre.
Proof. intros H. apply map_subseteq_spec. intros p n Hn. destruct (H p) as [<-|[E _]]; congruence. Qed.
Lemma drop_link_same path fs : drop_link path path fs = delete path fs.
Proof. unfold drop_link. repeat case_match; try done. apply delete_alter_eq. Qed.

Lemma triple_remove_file release name n fs : only_removed fs → Valid release = true →
  pre !! child (child versions release) name = Some n → validateRemovableArtifact o name n = Ok tt →
  triple o only_removed fs (remove_file (child versions release) name)
    (λ _ fs', fs' ⊆ fs ∧ fs' !! child (child versions release) name = None).
Proof.
  intros HP Hv Hn Hok. unfold remove_file. apply triple_quiet_bind; [done|quiet|]. intros n'.
  apply triple_quiet_bind; [done|quiet|]. intros euid. apply triple_quiet_bind; [done|quiet|]. intros _.
  apply triple_context, triple_modify; [done|done|]. intros w fs' -> _. rewrite drop_link_same.
  intros Hfs'. assert (E : fs' = delete (child (child versions release) name) fs) by (destruct (fs !! _) as [[]|]; naive_solver).
  subst fs'. split; [apply only_removed_delete; [done|]; exists release; eauto 8|].
  split; [apply delete_subseteq|apply lookup_delete_eq].
Qed.
Lemma triple_remove_version release version fs : only_removed fs → removable_version o versions pre release version →
  triple o only_removed fs (remove_version versions version) (λ _ fs', fs' ⊆ fs ∧ fs' !! child versions (rv_name version) = None).
Proof.
  intros HP (Hr & Hv & _ & Hfiles). unfold remove_version. rewrite Hr. apply triple_quiet_bind; [done|quiet|]. intros _.
  eapply fs_triple_bind.
  { apply triple_final. eapply (triple_each _ _ _ (λ name fs, fs !! child (child versions release) name = None)); [| |done].
    - intros name fs' Hin HP'. destruct (Hfiles name Hin) as (n & Hn & Hok). by eapply triple_remove_file.
    - intros name fs1 fs2 H1 Hsub. by eapply lookup_weaken_None. }
  intros _ mid [HPm [Hsub _]]. apply triple_quiet_bind; [done|quiet|]. intros _. apply triple_quiet_bind; [done|quiet|]. intros _.
  apply triple_context, triple_modify; [done|done|]. intros w fs' -> _ Hfs'.
  assert (E : fs' = delete (child versions release) mid) by (destruct (mid !! _) as [[]|]; try done; case_match; naive_solver).
  subst fs'. split; [apply only_removed_delete; [done|]; exists release; eauto|].
  split; [etrans; [apply delete_subseteq|done]|apply lookup_delete_eq].
Qed.
Lemma triple_remove_tree plan : removable_tree o versions pre plan →
  triple o only_removed pre (each (remove_version versions) plan) (λ _ fs, directory_names fs versions = []).
Proof.
  intros Hplan. eapply triple_post; [apply triple_final|].
  - apply (triple_each _ _ _ (λ v fs, fs !! child versions (rv_name v) = None)); [| |apply only_removed_refl].
    + intros version fs Hin HP. apply (Forall2_member_r _ _ _ _ Hplan) in Hin as (release & _ & Hr).
      by eapply triple_remove_version.
    + intros v fs1 fs2 H1 Hsub. by eapply lookup_weaken_None.
  - intros _ fs [HP [_ HF]]. destruct (directory_names fs versions) as [|name l] eqn:E; [done|].
    assert (Hin : name ∈ directory_names fs versions) by (rewrite E; set_solver).
    apply elem_directory_names in Hin as [[n Hn] Hs].
    assert (Hin : name ∈ directory_names pre versions).
    { apply elem_directory_names. split; [|done]. exists n. eapply lookup_weaken; [done|by apply only_removed_sub]. }
    apply (Forall2_member_l _ _ _ _ Hplan) in Hin as (version & Hv & Hr & _).
    rewrite Forall_forall in HF. specialize (HF version Hv). simpl in HF.
    rewrite Hr in HF. congruence.
Qed.
End removal.

Lemma removal_run (layout : Layout) (w : World) :
  let '(w', r) := RemoveInstalledArtifacts layout w in
  passes (only_removed (w_euid w) (ly_VersionsDir layout) (w_files w)) w w' ∧
  (r = Ok tt → (openVerifiedDirectory (ly_VersionsDir layout) true w).2 ≠ Err NotExist →
     directory_names (w_files w') (ly_VersionsDir layout) = []).
Proof.
  set (P := only_removed _ _ _). assert (HP : P (w_files w)) by apply only_removed_refl.
  unfold RemoveInstalledArtifacts, mbind at 1, fsm_bind at 1, attempt.
  destruct (quiet_openVerifiedDirectory (ly_VersionsDir layout) true w) as (E1 & E2 & E3).
  destruct (openVerifiedDirectory _ true w) as [w1 [versions|e]] eqn:Eo; simpl in *.
  - assert (versions = ly_VersionsDir layout) as ->.
    { apply (openVerified_self _ true w). by rewrite Eo. }
    assert (Ht : triple (w_euid w) P (w_files w)
      (plan ← preflightInstalledVersions (ly_VersionsDir layout);
       _ ← each (remove_version (ly_VersionsDir layout)) plan;
       in_context "sync installed versions directory" sync_file)
      (λ _ fs, directory_names fs (ly_VersionsDir layout) = [])).
    { eapply fs_triple_bind; [by apply triple_preflight|]. intros plan ? [-> Hplan].
      eapply fs_triple_bind; [by apply triple_final, triple_remove_tree|]. intros _ fs [HPf Hfs].
      eapply triple_post; [apply triple_quiet; [done|quiet]|]. by intros _ ? ->. }
    destruct (Ht w1 E1 E3) as [Hp Hq]. match type of Hp with passes _ _ ?x.1 => destruct x as [w' r] end. simpl in *. split.
    + eapply passes_trans; [|exact Hp]. split; [done|]. exists []. by rewrite E1, E2.
    + intros -> _. by apply (Hq tt).
  - assert (Hpass : passes P w w1) by (split; [done|]; exists []; by rewrite E1, E2). by destruct e.
Qed.

(** Whatever fails and wherever [RemoveInstalledArtifacts] is cut off, the files gone
    are directories of release identifiers in the versions directory, and files of such
    directories that are the installer's own: an executable, a temporary or a support file,
    of the user, of one link and of its exact mode; everything else is unchanged.  When it
    succeeds on a directory that was there, the versions directory is empty. *)
Theorem removal_stays_inside (layout : Layout) (w : World) :
  let '(w', r) := RemoveInstalledArtifacts layout w in
  passes (only_removed (w_euid w) (ly_VersionsDir layout) (w_files w)) w w' ∧
  (r = Ok tt → (openVerifiedDirectory (ly_VersionsDir layout) true w).2 ≠ Err NotExist →
     directory_names (w_files w') (ly_VersionsDir layout) = []).
Proof. apply removal_run. Qed.

(** C15. The whole tree is inspected before anything is deleted: when an entry of the
    versions directory is not a release identifier, or a file of a release directory is
    not one the installer may remove, [RemoveInstalledArtifacts] fails and changes nothing. *)
Theorem removal_preflights_everything (layout : Layout) (release : string) (w : World) :
  let versions := ly_VersionsDir layout in
  (openVerifiedDirectory versions true w).2 = Ok versions →
  release ∈ directory_names (w_files w) versions →
  Valid release = false ∨ (∃ name, name ∈ directory_names (w_files w) (child versions release) ∧
    ∀ n, w_files w !! child (child versions release) name = Some n → validateRemovableArtifact (w_euid w) name n ≠ Ok tt) →
  let '(w', r) := RemoveInstalledArtifacts layout w in
  r ≠ Ok tt ∧ w_files w' = w_files w.
Proof.
  intros versions Hopen Hin Hbad. unfold RemoveInstalledArtifacts, mbind at 1, fsm_bind at 1, attempt. fold versions.
  destruct (quiet_openVerifiedDirectory versions true w) as (E1 & E2 & E3).
  destruct (openVerifiedDirectory versions true w) as [w1 r1] eqn:Eo; simpl in *. subst r1.
  assert (Ht : triple (w_euid w) (λ fs, fs = w_files w) (w_files w)
    (plan ← preflightInstalledVersions versions; _ ← each (remove_version versions) plan;
     in_context "sync installed versions directory" sync_file) (λ _ _, False)).
  { eapply fs_triple_bind; [by apply triple_preflight|]. intros plan ? [-> Hplan]. exfalso.
    apply (Forall2_member_l _ _ _ _ Hplan) in Hin as (version & _ & _ & Hv & Hnames & Hok).
    destruct Hbad as [Hbad|(name & Hname & Hbad)]; [congruence|].
    rewrite <- Hnames in Hname. destruct (Hok name Hname) as (n & Hn & Hr). by eapply Hbad. }
  destruct (Ht w1 E1 E3) as [(_ & _ & _ & _ & Hp) Hq].
  match type of Hp with w_files ?x.1 = _ => destruct x as [w' r] end. simpl in *.
  split; [|done]. intros ->. by apply (Hq tt).
Qed.

(** ** Concrete runs *)
Definition text_digest : string := hex_encode (bytes_list (Sum256 "text")).
Definition staged_license : World * res ferr string :=
  stage_file true "/home/u/input" sample_version_dir "LICENSE" 4 text_digest (sample_world_with "text").
Definition license_path : string := Join [sample_version_dir; "LICENSE"].
Lemma staged_license_ok : staged_license.2 = Ok license_path ∧ w_faults staged_license.1 = [] ∧
  (verify_file true license_path 4 text_digest staged_license.1).2 = Ok tt.
Proof. vm_compute. done. Qed.
Lemma run_split {A} (run : World * res ferr A) r : run.2 = r → run = (run.1, r).
Proof. intros <-. by destruct run. Qed.

Lemma staging_is_atomic_witness : "LICENSE" ≠ "/" ∧
  staged_as (w_euid (sample_world_with "text")) sample_version_dir "LICENSE" 4 text_digest 256
    (w_files (sample_world_with "text")) (w_files staged_license.1).
Proof.
  split; [discriminate|].
  pose proof (staging_is_atomic true "/home/u/input" sample_version_dir "LICENSE" 4 text_digest (sample_world_with "text")
    ltac:(discriminate)) as H.
  pose proof (run_split _ _ (proj1 staged_license_ok)) as E. change (stage_file true _ _ _ _ _ _) with staged_license in H.
  rewrite E in H. exact (proj2 H _ eq_refl).
Defined.
Lemma verification_is_sound_witness : license_path ≠ "/" ∧
  verified_at (w_euid staged_license.1) (w_files staged_license.1) license_path 4 text_digest 256.
Proof.
  destruct staged_license_ok as (_ & _ & Hv). assert (Hr : license_path ≠ "/") by discriminate. split; [exact Hr|].
  exact (proj2 (verification_is_sound true _ _ _ _ _ Hr (run_split _ _ Hv))).
Defined.
Lemma staged_file_verifies_witness : w_faults staged_license.1 = [] ∧
  verify_file true license_path 4 text_digest staged_license.1 = (staged_license.1, Ok tt).
Proof.
  destruct staged_license_ok as (Hs & Hf & _). split; [exact Hf|].
  eapply (staged_file_verifies true); [|exact (run_split _ _ Hs)|exact Hf]. discriminate.
Defined.

(** *** Interrupted stagings

    A crash leaves the files of one of the states a staging passes through. *)
Definition restarted_with (fs : files) : World := mkWorld fs 1000 18 (repeat 8 64) Z.of_nat [] [].
Definition crash_states (w : World) : list files := rev (w_trace w).
Definition succeeds {A} (r : res ferr A) : bool := match r with Ok _ => true | Err _ => false end.
Definition stage_executable : FsM string :=
  stage_file false "/home/u/input" sample_version_dir "sshserver-linux-amd64" 4 text_digest.
Definition removal_after (fs : files) : bool := succeeds (RemoveInstalledArtifacts sample_layout (restarted_with fs)).2.
(** Whether an executable can be removed, and staged again, after each of them: not removed
    once its temporary has mode 0500, nor staged again between the link and the unlink;
    after a support file's staging was interrupted nothing can be removed. *)
Example interrupted_staging :
  map removal_after (crash_states (stage_executable (sample_world_with "text")).1) = [true; true; true; true; false; false] ∧
  map (λ fs, succeeds (stage_executable (restarted_with fs)).2) (crash_states (stage_executable (sample_world_with "text")).1)
    = [true; true; true; true; true; false] ∧
  map removal_after (crash_states staged_license.1) = [true; false; false; false; false; false].
Proof. vm_compute. done. Qed.

(** The state in which the temporary has been created. *)
Definition license_interrupted : World := restarted_with (default ∅ (crash_states staged_license.1 !! 1%nat)).
Definition license_temporary : string := ".LICENSE.stage-07070707070707070707070707070707".
Lemma license_interrupted_facts :
  (openVerifiedDirectory (ly_VersionsDir sample_layout) true license_interrupted).2 = Ok (ly_VersionsDir sample_layout) ∧
  directory_names (w_files license_interrupted) (ly_VersionsDir sample_layout) = ["2.1.0"] ∧
  directory_names (w_files license_interrupted) (child (ly_VersionsDir sample_layout) "2.1.0") = [license_temporary].
Proof. vm_compute. done. Qed.
Lemma license_temporary_refused euid n : validateRemovableArtifact euid license_temporary n ≠ Ok tt.
Proof. unfold validateRemovableArtifact. vm_compute. done. Qed.
Lemma removal_preflights_everything_witness :
  (RemoveInstalledArtifacts sample_layout license_interrupted).2 ≠ Ok tt ∧
  w_files (RemoveInstalledArtifacts sample_layout license_interrupted).1 = w_files license_interrupted.
Proof.
  destruct license_interrupted_facts as (H1 & H2 & H3).
  pose proof (removal_preflights_everything sample_layout "2.1.0" license_interrupted H1) as H.
  destruct (RemoveInstalledArtifacts sample_layout license_interrupted) as [w' r]. apply H.
  - rewrite H2. apply list_elem_of_singleton. reflexivity.
  - right. exists license_temporary. split; [rewrite H3; apply list_elem_of_singleton; reflexivity|].
    intros n _. apply license_temporary_refused.
Defined.
