(* ===== verification/ServiceProps.v ===== *)
(** * Rendered service definitions, managers and probes

    What the rendered systemd unit and LaunchAgent mean to the managers that read them:
    the decoders below follow systemd.syntax(7), systemd.service(5) and the XML of
    property lists, and decoding gives back the paths that were rendered. *)

From stdpp Require Import base list strings gmap.
From Stdlib Require Import ZArith Lia Ascii.
From Stdlib Require String.
From S2P Require Import Prelude GoStd Json JsonFacts Api Wire Indent Release NetIP Fs Paths Config ConfigProps Layout Deploy Manifest Lifecycle Preview PreviewRun Http Service DeploySpec ArtifactProps.
Local Open Scope Z_scope.

(** ** Replacement *)
Lemma has_prefix_before c old : contains_byte c old = false → ∀ a b,
  has_prefix old (a +:+ String c b) = has_prefix old a.
Proof.
  unfold has_prefix. induction old as [|d old IH]; intros Hc a b; [done|].
  rewrite contains_cons in Hc. unbool. destruct a as [|e a].
  - change ("" +:+ String c b) with (String c b). cbn [strip_prefix]. by rewrite Ascii.eqb_sym, H.
  - rewrite sapp_cons. cbn [strip_prefix]. destruct (Ascii.eqb d e); [by apply IH|done].
Qed.
Lemma has_prefix_length old s : has_prefix old s = true → (String.length old ≤ String.length s)%nat.
Proof.
  unfold has_prefix. revert s. induction old as [|d old IH]; intros [|e s]; simpl; try done; [lia|].
  destruct (Ascii.eqb d e); [|done]. intros H%IH. lia.
Qed.
Lemma replace_separated c old new : old ≠ "" → contains_byte c old = false → ∀ a k b, (k ≤ String.length a)%nat →
  replace_from k old new (a +:+ String c b) = replace_from k old new a +:+ String c (replace_from 0 old new b).
Proof.
  intros Hne Hc. induction a as [|d a IH]; intros k b Hk; simpl in Hk.
  - destruct k; [|lia]. change ("" +:+ String c b) with (String c b). cbn [replace_from].
    rewrite (has_prefix_before c old Hc "" b : has_prefix old (String c b) = has_prefix old ""). by destruct old.
  - rewrite sapp_cons. destruct k as [|k]; cbn [replace_from]; [|by apply IH; lia].
    rewrite <- sapp_cons, has_prefix_before by done. destruct (has_prefix old (String d a)) eqn:E.
    + apply has_prefix_length in E. simpl in E. rewrite IH by lia. by rewrite sapp_assoc.
    + rewrite IH by lia. done.
Qed.
Lemma Contains_cons old c s : Contains (String c s) old = has_prefix old (String c s) || Contains s old.
Proof. unfold Contains. cbn [index_string]. destruct (has_prefix _ _); [done|]. by destruct (index_string old s). Qed.
Lemma replace_absent old new s : Contains s old = false → replace_from 0 old new s = s.
Proof.
  induction s as [|c s IH]; [done|]. rewrite Contains_cons. intros H. unbool. cbn [replace_from]. by rewrite H, IH.
Qed.
(** Text between two bytes that the placeholder does not have is left alone. *)
Lemma replace_around c d old new a x b : old ≠ "" → contains_byte c old = false → contains_byte d old = false →
  Contains x old = false →
  ReplaceAll (a +:+ String c (x +:+ String d b)) old new = ReplaceAll a old new +:+ String c (x +:+ String d (ReplaceAll b old new)).
Proof.
  intros. unfold ReplaceAll. rewrite !replace_separated by (done || lia). by rewrite (replace_absent _ _ x).
Qed.

(** ** Text without placeholders: no two opening braces in a row *)
Definition brace : ascii := "{".
Fixpoint braces (open : bool) (s : string) : bool :=
  match s with
  | EmptyString => false
  | String c rest => if Ascii.eqb c brace then open || braces true rest else braces false rest
  end.
Lemma braces_mono s : braces true s = false → braces false s = false.
Proof. destruct s as [|c s]; [done|]. simpl. by destruct (Ascii.eqb c brace). Qed.
Lemma Contains_braces s : Contains s "{{" = braces false s.
Proof.
  induction s as [|c s IH]; [done|]. rewrite Contains_cons, IH. unfold has_prefix.
  change "{{" with (String brace (String brace "")). cbn [strip_prefix braces]. rewrite (Ascii.eqb_sym brace c).
  destruct (Ascii.eqb c brace); [|done]. destruct s as [|d s]; [done|]. cbn [strip_prefix braces].
  rewrite (Ascii.eqb_sym brace d). by destruct (Ascii.eqb d brace).
Qed.
Lemma Contains_prefix p q s : Contains s p = false → Contains s (p +:+ q) = false.
Proof.
  assert (Hp : ∀ s, has_prefix p s = false → has_prefix (p +:+ q) s = false).
  { unfold has_prefix. induction p as [|c p IH]; intros [|d t]; rewrite ?sapp_cons; cbn [strip_prefix]; try done.
    destruct (Ascii.eqb c d); [apply IH|done]. }
  induction s as [|c s IH].
  - unfold Contains. cbn [index_string]. specialize (Hp ""). destruct (has_prefix p ""); [done|]. by rewrite Hp.
  - rewrite !Contains_cons. intros H. unbool. by rewrite Hp, IH.
Qed.
Lemma braces_app_plain p x y : contains_byte brace x = false → x ≠ "" → braces p (x +:+ y) = braces false y.
Proof.
  revert p. induction x as [|c x IH]; intros p Hx Hne; [done|]. rewrite contains_cons in Hx. unbool.
  rewrite sapp_cons. simpl. rewrite Ascii.eqb_sym, H. destruct x as [|d x]; [done|]. by apply IH.
Qed.
Lemma braces_before p s t : contains_byte brace t = false → braces p s = false → braces p (s +:+ t) = false.
Proof.
  intros Ht. revert p. induction s as [|c s IH]; intros p Hs; cbn [braces] in Hs.
  - destruct t as [|c t]; [done|]. change ("" +:+ String c t) with (String c t).
    rewrite <- (sapp_nil_r (String c t)). by rewrite braces_app_plain.
  - rewrite sapp_cons. cbn [braces]. destruct (Ascii.eqb c brace); [|by apply IH]. unbool. rewrite IH by done. by subst.
Qed.

(** A byte-wise escape that leaves braces alone. *)
Lemma braces_flat f s : (∀ c, f c = String c "" ∨ (contains_byte brace (f c) = false ∧ f c ≠ "")) → ∀ p,
  braces p s = false → braces p (flat_string f s) = false.
Proof.
  intros Hf. induction s as [|c s IH]; intros p Hs; [done|]. simpl in *.
  destruct (Hf c) as [-> |[Hn Hne]].
  - change (String c "" +:+ flat_string f s) with (String c (flat_string f s)). simpl.
    destruct (Ascii.eqb c brace); [|by apply IH]. unbool. rewrite IH by done. by subst.
  - rewrite braces_app_plain by done. apply IH. destruct (Ascii.eqb c brace); [|done]. unbool. by apply braces_mono.
Qed.
Lemma contains_flat d f s :
  (∀ c, c ≠ d → contains_byte d (f c) = false) → contains_byte d s = false → contains_byte d (flat_string f s) = false.
Proof.
  intros Hf. induction s as [|c s IH]; [done|]. rewrite contains_cons. intros H. unbool. simpl.
  rewrite contains_app, IH by done. rewrite Hf; [done|]. intros ->. by rewrite Ascii.eqb_refl in *.
Qed.

(** ** How systemd reads a line

    Words are separated by spaces; a double-quoted part may hold spaces, and in it a
    backslash quotes itself and the quote.  Then a doubled [%] stands for one, since a
    single one starts a specifier, and on command lines a doubled [$] for one, since a
    single one starts a variable.  Escapes, specifiers and variables that would change
    the text are not words here. *)
Fixpoint split_words (inside : bool) (word : option string) (s : string) : option (list string) :=
  let finish (rest : option (list string)) := match word with Some w => cons w <$> rest | None => rest end in
  let extend (c : ascii) := Some (default "" word +:+ String c "") in
  match s with
  | EmptyString => if inside then None else finish (Some [])
  | String c rest =>
      if Ascii.eqb c (chrZ 34) then split_words (negb inside) (Some (default "" word)) rest
      else if Ascii.eqb c "\" then
        match rest with
        | String d rest' => if Ascii.eqb d "\" || Ascii.eqb d (chrZ 34) then split_words inside (extend d) rest' else None
        | EmptyString => None
        end
      else if Ascii.eqb c " " && negb inside then finish (split_words false None rest)
      else split_words inside (extend c) rest
  end.
Fixpoint expand (mark : ascii) (s : string) : option string :=
  match s with
  | EmptyString => Some ""
  | String c rest =>
      if Ascii.eqb c mark then
        match rest with
        | String d rest' => if Ascii.eqb d mark then String c <$> expand mark rest' else None
        | EmptyString => None
        end
      else String c <$> expand mark rest
  end.
Definition unit_word (command_line : bool) (word : string) : option string :=
  word ← expand "%" word;
  if command_line then expand "$" word else Some word.
Definition unit_words (command_line : bool) (line : string) : option (list string) :=
  words ← split_words false None line;
  mapM (unit_word command_line) words.

(** What is left of a quoted path once it is unquoted. *)
Definition doubled (escapeDollar : bool) (c : ascii) : string :=
  if Ascii.eqb c "%" then "%%" else if escapeDollar && Ascii.eqb c "$" then "$$" else String c "".
Lemma unquote_body dollar v : ∀ acc rest,
  split_words true (Some acc) (flat_string (systemd_escape dollar) v +:+ dquote +:+ rest) =
  split_words false (Some (acc +:+ flat_string (doubled dollar) v)) rest.
Proof.
  induction v as [|c v IH]; intros acc rest.
  - simpl. by rewrite sapp_nil_r.
  - assert (Hs : ∀ x, flat_string x (String c v) = x c +:+ flat_string x v) by done.
    rewrite (Hs (systemd_escape dollar)), (Hs (doubled dollar)), !sapp_assoc. unfold systemd_escape at 1, doubled at 1.
    destruct (Ascii.eqb_spec c "\") as [->|H1]; [|destruct (Ascii.eqb_spec c (chrZ 34)) as [->|H2];
      [|destruct (Ascii.eqb_spec c "%") as [->|H3]; [|destruct (Ascii.eqb_spec c "$") as [->|H4]]]].
    + transitivity (split_words true (Some (acc +:+ "\")) (flat_string (systemd_escape dollar) v +:+ dquote +:+ rest)); [done|].
      rewrite IH, !sapp_assoc. by destruct dollar.
    + transitivity (split_words true (Some (acc +:+ dquote)) (flat_string (systemd_escape dollar) v +:+ dquote +:+ rest)); [done|].
      rewrite IH, !sapp_assoc. by destruct dollar.
    + transitivity (split_words true (Some ((acc +:+ "%") +:+ "%")) (flat_string (systemd_escape dollar) v +:+ dquote +:+ rest)); [done|].
      rewrite IH. by rewrite !sapp_assoc.
    + destruct dollar.
      * transitivity (split_words true (Some ((acc +:+ "$") +:+ "$")) (flat_string (systemd_escape true) v +:+ dquote +:+ rest)); [done|].
        rewrite IH. by rewrite !sapp_assoc.
      * transitivity (split_words true (Some (acc +:+ "$")) (flat_string (systemd_escape false) v +:+ dquote +:+ rest)); [done|].
        rewrite IH. by rewrite !sapp_assoc.
    + change (String c "" +:+ ?x) with (String c x). cbn [split_words].
      rewrite (proj2 (Ascii.eqb_neq _ _) H1), (proj2 (Ascii.eqb_neq _ _) H2), andb_false_r. cbn [default from_option].
      rewrite IH, sapp_assoc. by destruct dollar.
Qed.
Lemma expand_doubled mark f g v :
  (∀ c rest, expand mark (f c +:+ rest) = (λ s, g c +:+ s) <$> expand mark rest) →
  expand mark (flat_string f v) = Some (flat_string g v).
Proof.
  intros Hf. induction v as [|c v IH]; [done|]. simpl. rewrite Hf, IH. done.
Qed.
Lemma unit_word_doubled dollar v : unit_word dollar (flat_string (doubled dollar) v) = Some v.
Proof.
  assert (Hid : flat_string (λ c, String c "") v = v) by (induction v as [|c v IH]; [done|]; simpl; by rewrite IH).
  set (one := λ c : ascii, if dollar && Ascii.eqb c "$" then "$$" else String c "").
  assert (H1 : expand "%" (flat_string (doubled dollar) v) = Some (flat_string one v)).
  { apply expand_doubled. intros c rest. unfold doubled, one. destruct (Ascii.eqb_spec c "%") as [->|H1].
    - by destruct dollar; simpl; change ("" +:+ rest) with rest; destruct (expand "%" rest).
    - destruct dollar; simpl; [destruct (Ascii.eqb_spec c "$") as [->|H2]|].
      + by simpl; change ("" +:+ rest) with rest; destruct (expand "%" rest).
      + change (String c "" +:+ rest) with (String c rest). cbn [expand]. by rewrite (proj2 (Ascii.eqb_neq _ _) H1).
      + cbn [expand]. by rewrite (proj2 (Ascii.eqb_neq _ _) H1). }
  unfold unit_word. rewrite H1. simpl. destruct dollar; [|by rewrite <- Hid at 2].
  rewrite <- Hid at 2. apply expand_doubled. intros c rest. unfold one. simpl.
  destruct (Ascii.eqb_spec c "$") as [->|H2]; [by simpl; change ("" +:+ rest) with rest; destruct (expand "$" rest)|].
  change (String c "" +:+ rest) with (String c rest). cbn [expand]. by rewrite (proj2 (Ascii.eqb_neq _ _) H2).
Qed.
Lemma quoteSystemd_inv v dollar q : quoteSystemd v dollar = Ok q →
  validPathText v = true ∧ q = dquote +:+ flat_string (systemd_escape dollar) v +:+ dquote.
Proof. unfold quoteSystemd. destruct (validPathText v); [|done]. by intros [= <-]. Qed.
Lemma split_words_quoted dollar v rest :
  split_words false None (dquote +:+ flat_string (systemd_escape dollar) v +:+ dquote +:+ rest) =
  split_words false (Some (flat_string (doubled dollar) v)) rest.
Proof. exact (unquote_body dollar v "" rest). Qed.
Lemma unit_words_path v : unit_words false (dquote +:+ flat_string (systemd_escape false) v +:+ dquote) = Some [v].
Proof.
  unfold unit_words. rewrite <- (sapp_nil_r dquote) at 2. rewrite split_words_quoted. simpl. by rewrite unit_word_doubled.
Qed.
Lemma unit_words_exec b s :
  unit_words true (join " " [dquote +:+ flat_string (systemd_escape true) b +:+ dquote; "serve"; "--state-dir";
                             dquote +:+ flat_string (systemd_escape true) s +:+ dquote]) = Some [b; "serve"; "--state-dir"; s].
Proof.
  unfold unit_words. cbn [join]. rewrite !sapp_assoc, split_words_quoted.
  change (split_words false (Some ?w) (String " " ("serve" +:+ String " " ("--state-dir" +:+ String " " ?q))))
    with (cons w <$> (cons "serve" <$> (cons "--state-dir" <$> split_words false None q))).
  rewrite <- (sapp_nil_r dquote) at 2. rewrite split_words_quoted. simpl. by rewrite !unit_word_doubled.
Qed.

(** ** How a property list is read

    The character data of an element: five entities, no markup. *)
Definition entities : list (string * ascii) :=
  [("#34;", chrZ 34); ("#39;", chrZ 39); ("amp;", "&"%char); ("lt;", "<"%char); ("gt;", ">"%char)].
Fixpoint entity (table : list (string * ascii)) (s : string) : option (ascii * nat) :=
  match table with
  | [] => None
  | (name, c) :: rest => if has_prefix name s then Some (c, String.length name) else entity rest s
  end.
Fixpoint xml_text (skip : nat) (s : string) : option string :=
  match s with
  | EmptyString => Some ""
  | String c rest =>
      match skip with
      | S k => xml_text k rest
      | O =>
          if Ascii.eqb c "&" then
            match entity entities rest with Some (d, n) => String d <$> xml_text n rest | None => None end
          else if Ascii.eqb c "<" then None
          else String c <$> xml_text 0 rest
      end
  end.
(** U+FFFE and U+FFFF. *)
Fixpoint noncharacters (s : string) : bool :=
  match s with
  | EmptyString => false
  | String a rest =>
      match rest with
      | String b (String c _) => (byteZ a =? 239) && (byteZ b =? 191) && (190 <=? byteZ c)
      | _ => false
      end || noncharacters rest
  end.
Lemma EscapeText_plain v : noncharacters v = false → EscapeText v = flat_string xml_escape v.
Proof.
  induction v as [|a v IH]; [done|]. intros H. cbn [noncharacters] in H. unbool. specialize (IH H0).
  destruct v as [|b [|c v]]; [done| |].
  { change (EscapeText (String a (String b ""))) with (xml_escape a +:+ EscapeText (String b "")). by rewrite IH. }
  change (EscapeText (String a (String b (String c v)))) with
    (if (byteZ a =? 239) && (byteZ b =? 191) && (190 <=? byteZ c) then of_bytes [239; 191; 189] +:+ EscapeText v
     else xml_escape a +:+ EscapeText (String b (String c v))). rewrite H, IH. done.
Qed.
(** Byte by byte, with the replaced characters. *)
Lemma EscapeText_ind (R : string → string → Prop) : R "" "" → (∀ c v s, R v s → R (String c v) (xml_escape c +:+ s)) →
  (∀ a b c v s, byteZ a = 239 → byteZ b = 191 → 190 <= byteZ c → R v s →
     R (String a (String b (String c v))) (of_bytes [239; 191; 189] +:+ s)) → ∀ v, R v (EscapeText v).
Proof.
  intros H0 H1 H2 v. remember (String.length v) as n eqn:E. revert v E.
  induction n as [n IH] using (well_founded_induction lt_wf). intros v ->.
  destruct v as [|a [|b [|c v]]]; [done|by apply H1|by apply H1, H1|].
  change (EscapeText (String a (String b (String c v)))) with
    (if (byteZ a =? 239) && (byteZ b =? 191) && (190 <=? byteZ c) then of_bytes [239; 191; 189] +:+ EscapeText v
     else xml_escape a +:+ EscapeText (String b (String c v))).
  destruct (_ && _) eqn:E.
  - unbool. apply H2; [lia..|]. eapply IH; [|done]. simpl. lia.
  - apply H1. eapply IH; [|done]. simpl. lia.
Qed.
Lemma xml_escape_cases c : xml_escape c = String c "" ∨ (contains_byte brace (xml_escape c) = false ∧ xml_escape c ≠ "").
Proof. unfold xml_escape. repeat case_match; auto. Qed.
Lemma systemd_escape_cases dollar c :
  systemd_escape dollar c = String c "" ∨ (contains_byte brace (systemd_escape dollar c) = false ∧ systemd_escape dollar c ≠ "").
Proof. unfold systemd_escape. repeat case_match; auto. Qed.
Lemma braces_EscapeText v p : braces p v = false → braces p (EscapeText v) = false.
Proof.
  revert p. apply (EscapeText_ind (λ v s, ∀ p, braces p v = false → braces p s = false)); clear v.
  - done.
  - intros c v s IH p Hv. cbn [braces] in Hv. destruct (xml_escape_cases c) as [->|[Hn Hne]].
    + change (String c "" +:+ s) with (String c s). cbn [braces]. destruct (Ascii.eqb c brace); [|by apply IH].
      unbool. rewrite IH by done. by subst.
    + rewrite braces_app_plain by done. apply IH. destruct (Ascii.eqb c brace); [|done]. unbool. by apply braces_mono.
  - intros a b c v s Ha Hb Hc IH p Hv. rewrite braces_app_plain by done. apply IH.
    assert (Hbrace : ∀ d, 128 <= byteZ d → Ascii.eqb d brace = false).
    { intros d Hd. apply Ascii.eqb_neq. intros ->. done. }
    cbn [braces] in Hv. by rewrite !Hbrace in Hv by lia.
Qed.
(** No newline, and no markup. *)
Lemma no_newline v : validPathText v = true → contains_byte (chrZ 10) v = false.
Proof.
  unfold validPathText. intros H. unbool. apply not_true_is_false. intros Hc%contains_byte_elem.
  rewrite forallb_forall in H0. specialize (H0 10). apply list_elem_of_In in Hc. by specialize (H0 Hc).
Qed.
Lemma newline_quoted dollar v : validPathText v = true →
  contains_byte (chrZ 10) (dquote +:+ flat_string (systemd_escape dollar) v +:+ dquote) = false.
Proof.
  intros H%no_newline. rewrite !contains_app. rewrite contains_flat; [done| |done].
  intros c Hc. unfold systemd_escape. repeat case_match; try done. rewrite contains_cons.
  by rewrite (proj2 (Ascii.eqb_neq _ _)).
Qed.
Lemma newline_EscapeText v : contains_byte (chrZ 10) v = false → contains_byte (chrZ 10) (EscapeText v) = false.
Proof.
  apply (EscapeText_ind (λ v s, contains_byte (chrZ 10) v = false → contains_byte (chrZ 10) s = false)); clear v.
  - done.
  - intros c v s IH Hv. rewrite contains_cons in Hv. unbool. rewrite contains_app, IH by done.
    unfold xml_escape. repeat case_match; try done. by rewrite contains_cons, H.
  - intros a b c v s _ _ _ IH Hv. rewrite !contains_cons in Hv. unbool. rewrite contains_app, IH by done. done.
Qed.
Lemma xml_text_entity c s : 32 <= byteZ c → xml_text 0 (xml_escape c +:+ s) = String c <$> xml_text 0 s.
Proof.
  intros Hc. unfold xml_escape.
  destruct (Z.eqb_spec (byteZ c) 34) as [E|H1]; [by rewrite <- (chrZ_byteZ c), E|].
  destruct (Z.eqb_spec (byteZ c) 39) as [E|H2]; [by rewrite <- (chrZ_byteZ c), E|].
  destruct (Z.eqb_spec (byteZ c) 38) as [E|H3]; [by rewrite <- (chrZ_byteZ c), E|].
  destruct (Z.eqb_spec (byteZ c) 60) as [E|H4]; [by rewrite <- (chrZ_byteZ c), E|].
  destruct (Z.eqb_spec (byteZ c) 62) as [E|H5]; [by rewrite <- (chrZ_byteZ c), E|].
  repeat case_match; unbool; try lia. change (String c "" +:+ s) with (String c s). cbn [xml_text].
  destruct (Ascii.eqb_spec c "&") as [->|]; [done|]. by destruct (Ascii.eqb_spec c "<") as [->|].
Qed.
Definition uncontrolled (v : string) : bool := forallb (λ z, negb ((z <? 32) || (z =? 127))) (bytes_list v).
Lemma xml_text_escaped v : uncontrolled v = true → noncharacters v = false → xml_text 0 (EscapeText v) = Some v.
Proof.
  intros Hv Hn. rewrite EscapeText_plain by done. clear Hn. unfold uncontrolled in Hv.
  induction v as [|c v IH]; [done|]. cbn [bytes_list forallb] in Hv. apply andb_true_iff in Hv as [Hc Hv]. unbool.
  change (flat_string xml_escape (String c v)) with (xml_escape c +:+ flat_string xml_escape v).
  by rewrite xml_text_entity, IH.
Qed.

(** ** The rendered texts *)
Lemma lines_split lines : Forall (λ line, contains_byte (chrZ 10) line = false) lines →
  split (chrZ 10) (lines_text lines) = lines ++ [""].
Proof.
  induction 1 as [|line lines Hl _ IH]; [done|].
  change (lines_text (line :: lines)) with (line +:+ String (chrZ 10) (lines_text lines)). by rewrite split_cons, IH.
Qed.
Lemma contains_join c sep l : Ascii.eqb c sep = false → Forall (λ s, contains_byte c s = false) l → contains_byte c (join sep l) = false.
Proof.
  intros Hc. induction 1 as [|s [|t l] Hs _ IH]; [done|done|].
  change (join sep (s :: t :: l)) with (s +:+ String sep (join sep (t :: l))). by rewrite contains_app, contains_cons, Hs, Hc.
Qed.
Abbreviation single_lines := (Forall (λ line, contains_byte (chrZ 10) line = false)).
Lemma systemd_lines_single X P : contains_byte (chrZ 10) X = false → contains_byte (chrZ 10) P = false → single_lines (systemd_lines X P).
Proof. intros HX HP. repeat apply Forall_cons_2; try apply Forall_nil_2; try done; by rewrite contains_app. Qed.
Lemma launchd_lines_single b s out err : contains_byte (chrZ 10) b = false → contains_byte (chrZ 10) s = false →
  contains_byte (chrZ 10) out = false → contains_byte (chrZ 10) err = false → single_lines (launchd_lines b s out err).
Proof. intros Hb Hs Ho He. repeat apply Forall_cons_2; try apply Forall_nil_2; try done; by rewrite !contains_app, ?Hb, ?Hs, ?Ho, ?He. Qed.
Definition unit_head : string := lines_text (take 7 (systemd_lines "" "")) +:+ "ExecStart=".
Definition unit_middle : string := newline +:+ lines_text (take 7 (drop 8 (systemd_lines "" ""))) +:+ "ReadWritePaths=".
Definition unit_tail : string := newline +:+ lines_text (drop 16 (systemd_lines "" "")).
Lemma systemd_text X P : lines_text (systemd_lines X P) = unit_head +:+ X +:+ unit_middle +:+ P +:+ unit_tail.
Proof. reflexivity. Qed.
Definition plist_head : string := lines_text (take 8 (launchd_lines "" "" "" "")) +:+ "    <string".
Definition plist_arguments : string :=
  "/string>" +:+ newline +:+ lines_text (take 2 (drop 9 (launchd_lines "" "" "" ""))) +:+ "    <string".
Definition plist_policy : string :=
  "/string>" +:+ newline +:+ lines_text (take 15 (drop 12 (launchd_lines "" "" "" ""))) +:+ "  <string".
Definition plist_error : string :=
  "/string>" +:+ newline +:+ lines_text (take 1 (drop 28 (launchd_lines "" "" "" ""))) +:+ "  <string".
Definition plist_tail : string := "/string>" +:+ newline +:+ lines_text (drop 30 (launchd_lines "" "" "" "")).
Definition element_text (x rest : string) : string := String ">" (x +:+ String "<" rest).
Lemma launchd_text b s out err : lines_text (launchd_lines b s out err) =
  plist_head +:+ element_text b (plist_arguments +:+ element_text s (plist_policy +:+ element_text out
    (plist_error +:+ element_text err plist_tail))).
Proof.
  cbv [lines_text launchd_lines foldr element_text]. rewrite !sapp_assoc. vm_compute. reflexivity. Qed.
Lemma plain_absent v q : braces false v = false → Contains v ("{{" +:+ q) = false.
Proof. intros H. apply Contains_prefix. by rewrite Contains_braces. Qed.
Lemma quoted_absent dollar v q : braces false v = false → Contains (flat_string (systemd_escape dollar) v) ("{{" +:+ q) = false.
Proof. intros H. apply plain_absent, braces_flat; [apply systemd_escape_cases|done]. Qed.
Lemma escaped_absent v q : braces false v = false → Contains (EscapeText v) ("{{" +:+ q) = false.
Proof. intros H. by apply plain_absent, braces_EscapeText. Qed.

Lemma systemd_rendered B S P : Contains B "{{STATE_DIR}}" = false → Contains S "{{STATE_DIR}}" = false →
  let exec := join " " [dquote +:+ B +:+ dquote; "serve"; "--state-dir"; dquote +:+ S +:+ dquote] in
  ReplaceAll (ReplaceAll systemdTemplate "{{EXEC_START}}" exec) "{{STATE_DIR}}" P = lines_text (systemd_lines exec P).
Proof.
  intros HB HS exec.
  replace (ReplaceAll systemdTemplate "{{EXEC_START}}" exec) with (lines_text (systemd_lines exec "{{STATE_DIR}}")) by reflexivity.
  rewrite !systemd_text. subst exec. cbn [join].
  repeat first [rewrite sapp_assoc|rewrite sapp_cons].
  match goal with |- ReplaceAll ?text _ _ = _ =>
    replace text with (unit_head +:+ String (chrZ 34) (B +:+ String (chrZ 34) (" serve --state-dir " +:+ String (chrZ 34)
      (S +:+ String (chrZ 34) (unit_middle +:+ "{{STATE_DIR}}" +:+ unit_tail))))) by reflexivity end.
  rewrite !(replace_around (chrZ 34) (chrZ 34)) by done.
  replace (ReplaceAll unit_head _ _) with unit_head by (vm_compute; reflexivity).
  replace (ReplaceAll " serve --state-dir " _ _) with " serve --state-dir " by (vm_compute; reflexivity).
  replace (ReplaceAll (unit_middle +:+ _) _ _) with (unit_middle +:+ P +:+ unit_tail) by (vm_compute; reflexivity).
  reflexivity.
Qed.
Lemma replace_element a x rest old new : old ≠ "" → contains_byte ">" old = false → contains_byte "<" old = false →
  Contains x old = false → ReplaceAll a old new = a →
  ReplaceAll (a +:+ element_text x rest) old new = a +:+ element_text x (ReplaceAll rest old new).
Proof. intros ? ? ? ? Ha. unfold element_text. rewrite replace_around by done. by rewrite Ha. Qed.
Lemma launchd_rendered B S O E : braces false B = false → braces false S = false → braces false O = false →
  ReplaceAll (ReplaceAll (ReplaceAll (ReplaceAll launchdTemplate "{{BINARY}}" B) "{{STATE_DIR}}" S) "{{STDOUT}}" O) "{{STDERR}}" E =
  lines_text (launchd_lines B S O E).
Proof.
  intros HB HS HO.
  replace (ReplaceAll launchdTemplate "{{BINARY}}" B) with (plist_head +:+ element_text B (plist_arguments +:+ element_text "{{STATE_DIR}}"
    (plist_policy +:+ element_text "{{STDOUT}}" (plist_error +:+ element_text "{{STDERR}}" plist_tail)))) by (vm_compute; reflexivity).
  rewrite replace_element by (done || by apply (plain_absent _ "STATE_DIR}}")).
  replace (ReplaceAll (plist_arguments +:+ _) _ _) with (plist_arguments +:+ element_text S
    (plist_policy +:+ element_text "{{STDOUT}}" (plist_error +:+ element_text "{{STDERR}}" plist_tail))) by (vm_compute; reflexivity).
  rewrite 2!(replace_element _ _ _ "{{STDOUT}}") by (done || by apply (plain_absent _ "STDOUT}}")).
  replace (ReplaceAll (plist_policy +:+ _) _ _) with
    (plist_policy +:+ element_text O (plist_error +:+ element_text "{{STDERR}}" plist_tail)) by (vm_compute; reflexivity).
  rewrite 3!(replace_element _ _ _ "{{STDERR}}") by (done || by apply (plain_absent _ "STDERR}}")).
  replace (ReplaceAll (plist_error +:+ _) _ _) with (plist_error +:+ element_text E plist_tail) by (vm_compute; reflexivity).
  by rewrite launchd_text.
Qed.

(** The log files beside the state. *)
Lemma state_file stateDir name : IsAbs stateDir = true → Clean stateDir = stateDir → stateDir ≠ "/" →
  component name = true → Join [stateDir; name] = stateDir +:+ "/" +:+ name.
Proof.
  intros Ha Hc Hr Hn. assert (Hcan : canonicalAbsolutePath stateDir = true).
  { unfold canonicalAbsolutePath. rewrite Ha, Hc, String.eqb_refl. by destruct stateDir. }
  apply canonical_inv in Hcan as (es & Hes & ->). rewrite Join_abs by done. unfold abs.
  destruct es as [|e es]; [done|]. by rewrite join_snoc, !sapp_assoc.
Qed.
(** A rendered path as a text of one line that decodes to it. *)
Definition plist_reads (text path : string) : Prop := noncharacters path = false → xml_text 0 text = Some path.
Lemma Render_inv platform binary stateDir text : Render platform binary stateDir = Ok text →
  validPathText binary = true ∧ validPathText stateDir = true ∧
  Join [stateDir; "service.stdout.log"] = stateDir +:+ "/service.stdout.log" ∧
  Join [stateDir; "service.stderr.log"] = stateDir +:+ "/service.stderr.log" ∧
  (platform = "linux" ∧
     (let q d v := dquote +:+ flat_string (systemd_escape d) v +:+ dquote in
      text = ReplaceAll (ReplaceAll systemdTemplate "{{EXEC_START}}" (join " " [q true binary; "serve"; "--state-dir"; q true stateDir]))
               "{{STATE_DIR}}" (q false stateDir)) ∨
   platform = "darwin" ∧
     text = ReplaceAll (ReplaceAll (ReplaceAll (ReplaceAll launchdTemplate "{{BINARY}}" (EscapeText binary)) "{{STATE_DIR}}" (EscapeText stateDir))
              "{{STDOUT}}" (EscapeText (stateDir +:+ "/service.stdout.log"))) "{{STDERR}}" (EscapeText (stateDir +:+ "/service.stderr.log"))).
Proof.
  unfold Render. destruct (negb _ && _) eqn:Hp; [done|]. destruct (canonical_text binary) eqn:Hb; [|done].
  destruct (canonical_text stateDir) eqn:Hs; [|done]. destruct (String.eqb_spec stateDir "/") as [|Hr]; [done|].
  apply andb_true_iff in Hb as [_ Vb]. apply andb_true_iff in Hs as [[As Cs%String.eqb_eq]%andb_true_iff Vs].
  rewrite !state_file by done. intros Ht. do 4 (split; [done|]). destruct (String.eqb_spec platform "linux") as [->|Hl]; [left|right].
  - split; [done|]. unfold quoteSystemdExecArgument, quoteSystemdPath, quoteSystemd in Ht. rewrite Vb, Vs in Ht.
    simpl negb in Ht. cbv iota in Ht. congruence.
  - split; [by destruct (String.eqb_spec platform "darwin")|]. injection Ht as <-. reflexivity.
Qed.

Definition awkward : string := "/home/u/a b$HOME %h\c" +:+ dquote +:+ "<&'>{".
Definition rendered (platform : string) : string := match Render platform awkward (awkward +:+ "/state") with Ok text => text | Err _ => "" end.
(** The exception is real: a path that contains a placeholder of a later replacement is
    itself rewritten, and the manager starts another program. *)
Definition exec_line (text : string) : string := nth 7 (split (chrZ 10) text) "".
Example placeholder_in_path :
  match Render "linux" "/opt/{{STATE_DIR}}/bin" "/s" with
  | Ok text => exec_line text = "ExecStart=" +:+ quoted ("/opt/" +:+ quoted "/s" +:+ "/bin") +:+ " serve --state-dir " +:+ quoted "/s"
  | Err _ => False
  end.
Proof. vm_compute. reflexivity. Qed.
Example noncharacter_in_path : xml_text 0 (EscapeText ("/a" +:+ of_bytes [239; 191; 190])) = Some ("/a" +:+ of_bytes [239; 191; 189]).
Proof. vm_compute. reflexivity. Qed.

(** ** Bounded output *)
Definition concat_chunks (chunks : list string) : string := foldr String.append "" chunks.
Lemma slen_app s t : slen (s +:+ t) = slen s + slen t.
Proof. unfold slen. rewrite <- !length_bytes_list, bytes_list_app, length_app. lia. Qed.
Lemma stake_all n s : (String.length s ≤ n)%nat → stake n s = s.
Proof. revert s. induction n as [|n IH]; intros [|c s] H; simpl in *; try done; [lia|]. by rewrite IH by lia. Qed.
Lemma stake_long n s t : (String.length s ≤ n)%nat → stake n (s +:+ t) = s +:+ stake (n - String.length s) t.
Proof.
  revert n. induction s as [|c s IH]; intros n H.
  - change ("" +:+ t) with t. simpl String.length. by rewrite Nat.sub_0_r.
  - simpl in H. destruct n as [|n]; [lia|]. rewrite !sapp_cons. simpl. by rewrite IH by lia.
Qed.
Lemma stake_short n s t : (n ≤ String.length s)%nat → stake n (s +:+ t) = stake n s.
Proof. revert s. induction n as [|n IH]; intros [|c s] H; simpl in H; try done; [lia|]. rewrite sapp_cons. simpl. by rewrite IH by lia. Qed.
Lemma buffer_Write_spec limit all payload : 0 <= limit → payload ≠ "" →
  buffer_Write (mkBuffer (stake (Z.to_nat limit) all) limit (limit <? slen all)) payload =
  mkBuffer (stake (Z.to_nat limit) (all +:+ payload)) limit (limit <? slen (all +:+ payload)).
Proof.
  intros Hl Hp. unfold buffer_Write. simpl. rewrite slen_app.
  assert (Hpos : 0 < slen payload) by (destruct payload; [done|unfold slen; simpl; lia]).
  destruct (Z.ltb_spec limit (slen all)) as [Hlt|Hge].
  - assert (Hlen : slen (stake (Z.to_nat limit) all) = limit).
    { unfold slen in *. rewrite <- (Z2Nat.id limit) at 2 by done. f_equal. clear -Hlt Hl.
      assert (Hn : (Z.to_nat limit ≤ String.length all)%nat) by lia. revert Hn. generalize (Z.to_nat limit) as n.
      clear. revert all. induction all as [|c s IH]; intros [|n] H; simpl in *; try done; [lia|]. by rewrite IH by lia. }
    rewrite Hlen, Z.sub_diag. simpl. rewrite stake_short by (unfold slen in Hlt; lia).
    f_equal. symmetry. apply Z.ltb_lt. lia.
  - assert (Hall : stake (Z.to_nat limit) all = all) by (apply stake_all; unfold slen in Hge; lia). rewrite Hall.
    rewrite stake_long by (unfold slen in Hge; lia).
    destruct (Z.leb_spec (limit - slen all) 0) as [H0|H0].
    + f_equal; [|symmetry; apply Z.ltb_lt; lia]. replace (Z.to_nat limit - _)%nat with 0%nat by (unfold slen in *; lia).
      simpl. by rewrite sapp_nil_r.
    + replace (Z.to_nat limit - String.length all)%nat with (Z.to_nat (limit - slen all)) by (unfold slen; lia).
      destruct (Z.ltb_spec (limit - slen all) (slen payload)) as [H1|H1].
      * f_equal. symmetry. apply Z.ltb_lt. lia.
      * rewrite (stake_all _ payload) by (unfold slen in *; lia). f_equal. symmetry. apply Z.ltb_ge. lia.
Qed.

(** However a process cuts its output into writes, the bounded buffer holds exactly
    the first [limit] bytes of it and reports an overflow exactly when there were more:
    what the manager's answers and the reported identities are read from does not depend
    on the chunks (none of which is empty). *)
Theorem bounded_output (limit : Z) (chunks : list string) : 0 <= limit → Forall (λ chunk, chunk ≠ "") chunks →
  let output := concat_chunks chunks in
  buffer_of limit chunks = mkBuffer (stake (Z.to_nat limit) output) limit (limit <? slen output).
Proof.
  intros Hl Hc output. subst output. unfold buffer_of.
  assert (H0 : mkBuffer "" limit false = mkBuffer (stake (Z.to_nat limit) "") limit (limit <? slen "")).
  { destruct (Z.to_nat limit); simpl; f_equal; symmetry; apply Z.ltb_ge; unfold slen; simpl; lia. }
  rewrite H0. change (concat_chunks chunks) with ("" +:+ concat_chunks chunks). generalize "" as all. clear H0.
  induction Hc as [|chunk chunks Hne Hc IH]; intros all; simpl.
  - change (concat_chunks []) with "". by rewrite sapp_nil_r.
  - rewrite buffer_Write_spec by done. rewrite IH. change (concat_chunks (chunk :: chunks)) with (chunk +:+ concat_chunks chunks).
    by rewrite sapp_assoc.
Qed.
Lemma bounded_output_witness : 0 <= 5 ∧ buffer_of 5 ["abc"; "def"; "g"] = mkBuffer "abcde" 5 true.
Proof.
  split; [lia|]. apply (bounded_output 5 ["abc"; "def"; "g"]); [lia|]. by repeat constructor.
Defined.

(** ** Which commands the adapter runs *)
Definition manager_commands (adapter : ServiceManagerAdapter) : list (list string) :=
  if on_linux adapter then
    [["--user"; "show-environment"]; ["--user"; "daemon-reload"];
     ["--user"; "enable"; "--now"; sa_target adapter]; ["--user"; "disable"; "--now"; sa_target adapter];
     ["--user"; "is-active"; sa_target adapter]]
  else
    [["print-disabled"; sa_domain adapter]; ["bootstrap"; sa_domain adapter; sa_definitionPath adapter];
     ["kickstart"; "-k"; sa_target adapter]; ["bootout"; sa_target adapter]; ["print"; sa_target adapter]].
Section commands.
Context {H : Type} `{!CommandRunner H} `{UnicodeCase} (adapter : ServiceManagerAdapter).
(** Finite sequences of lookups of the manager's command, of such commands by absolute
    path, and of removals of the definition file. *)
Inductive managed : World * H → World * H → Prop :=
| managed_none s : managed s s
| managed_look s s' : managed (LookPath (sa_commandName adapter) s).1 s' → managed s s'
| managed_run s s' command args : validateAbsoluteCanonicalPath command = Ok tt → args ∈ manager_commands adapter →
    managed (Run command args s).1 s' → managed s s'
| managed_unlink s s' : managed ((removeDeploymentFile (sa_definitionPath adapter) s.1).1, s.2) s' → managed s s'.
Definition Managed {A} (x : HostM H A) : Prop := ∀ s, managed s (x s).1.

Lemma managed_trans s1 s2 s3 : managed s1 s2 → managed s2 s3 → managed s1 s3.
Proof. induction 1; eauto using managed. Qed.
Lemma Managed_bind {A B} (x : HostM H A) (f : A → HostM H B) : Managed x → (∀ a, Managed (f a)) → Managed (x ≫= f).
Proof.
  intros Hx Hf s. unfold mbind, hostm_bind, host_bind. specialize (Hx s). destruct (x s) as [s' [a|e]]; [|done].
  eapply managed_trans; [exact Hx|apply Hf].
Qed.
Lemma Managed_pure {A} (r : res derr A) : Managed (λ s, (s, r)).
Proof. intros s. constructor. Qed.
Lemma Managed_within {A} context (x : HostM H A) : Managed x → Managed (hwithin context x).
Proof. intros Hx s. specialize (Hx s). unfold hwithin. by destruct (x s). Qed.
Lemma Managed_run command args : validateAbsoluteCanonicalPath command = Ok tt → args ∈ manager_commands adapter →
  Managed (run_command command args).
Proof.
  intros Hc Ha s. unfold run_command. eapply managed_run; [exact Hc|exact Ha|].
  destruct (Run command args s). constructor.
Qed.
Lemma Managed_required command operation args : validateAbsoluteCanonicalPath command = Ok tt → args ∈ manager_commands adapter →
  Managed (runRequired adapter command operation args).
Proof.
  intros Hc Ha. apply Managed_bind; [by apply Managed_run|]. intros [result [e|]]; apply Managed_pure.
Qed.
(** A command that was found is an absolute path. *)
Lemma Managed_lookup {A} (f : res look_error string → HostM H A) :
  (∀ e, Managed (f (Err e))) → (∀ command, validateAbsoluteCanonicalPath command = Ok tt → Managed (f (Ok command))) →
  Managed (lookupCommand adapter ≫= f).
Proof.
  intros He Ho s. eapply managed_look. unfold lookupCommand, lookup_result, mbind, hostm_bind, host_bind.
  destruct (LookPath _ s) as [s' [command|e]]; simpl; [|apply He].
  destruct (validateAbsoluteCanonicalPath command) as [[]|e] eqn:E; [by apply Ho|apply He].
Qed.
Lemma host_bind_assoc {A B C} (x : HostM H A) (f : A → HostM H B) (g : B → HostM H C) s :
  ((x ≫= f) ≫= g) s = (x ≫= λ a, f a ≫= g) s.
Proof. unfold mbind, hostm_bind, host_bind. by destruct (x s) as [? []]. Qed.
Lemma Managed_command {A} purpose (f : string → HostM H A) :
  (∀ command, validateAbsoluteCanonicalPath command = Ok tt → Managed (f command)) →
  Managed (required_command adapter purpose ≫= f).
Proof.
  intros Hf s. unfold required_command. rewrite host_bind_assoc. apply Managed_lookup.
  - intros [|text] s1; apply managed_none.
  - intros command Hc s1. by apply Hf.
Qed.
Lemma Managed_unlink : Managed (hfiles (removeDeploymentFile (sa_definitionPath adapter))).
Proof. intros [w h]. apply managed_unlink. unfold hfiles. simpl. destruct (removeDeploymentFile _ w). constructor. Qed.
End commands.
Ltac managed :=
  repeat first
  [ apply Managed_command; intros ? ?
  | apply Managed_required; [done|unfold manager_commands; case_match; set_solver]
  | apply Managed_run; [done|unfold manager_commands; case_match; set_solver]
  | apply Managed_within
  | apply Managed_pure
  | match goal with |- Managed _ (mbind _ _) => apply Managed_bind; [|intros ?] end
  | match goal with |- Managed _ (match ?x with _ => _ end) => destruct x eqn:? end ].
Lemma Managed_Stop {H : Type} `{!CommandRunner H, !UnicodeCase} adapter : Managed adapter (adapter_Stop adapter).
Proof. unfold adapter_Stop. managed. Qed.


(** ** Installing the definition *)
(** An adapter as its constructor leaves it: the definition is beneath the home directory. *)
Definition definition_beneath (adapter : ServiceManagerAdapter) : Prop := ∃ h d name,
  components (h ++ d ++ [name]) ∧ sa_homeDir adapter = abs h ∧ sa_definitionPath adapter = abs (h ++ d ++ [name]) ∧
  (name = Label +:+ ".service" ∨ name = Label +:+ ".plist").
Lemma Join_many es cs : components (es ++ cs) → cs ≠ [] → Join (abs es :: cs) = abs (es ++ cs).
Proof.
  intros Hc Hne. pose proof Hc as [He Hcs]%Forall_app. unfold Join.
  assert (E : List.filter (λ e, negb (String.eqb e "")) (abs es :: cs) = abs es :: cs).
  { cbn [List.filter]. change (negb (String.eqb (abs es) "")) with true. cbv iota. f_equal. clear Hc Hne.
    induction Hcs as [|c cs (H1 & _)%component_inv _ IH]; [done|]. simpl. destruct (String.eqb_spec c ""); [done|]. simpl. by rewrite IH. }
  rewrite E. unfold Clean.
  assert (Hj : join "/" (abs es :: cs) = abs es +:+ String "/" (join "/" cs)) by (by destruct cs).
  rewrite Hj. change (IsAbs (abs es +:+ String "/" (join "/" cs))) with true. cbv iota. unfold abs at 2. f_equal. f_equal.
  assert (Hs : split "/" (abs es +:+ String "/" (join "/" cs)) = (if decide (es = []) then ["";""] else "" :: es) ++ cs).
  { case_decide as E'.
    - subst es. change (abs [] +:+ String "/" (join "/" cs)) with ("" +:+ String "/" ("" +:+ String "/" (join "/" cs))).
      rewrite !split_cons by done. by rewrite split_join by (done || by apply component_plain).
    - change (abs es +:+ String "/" (join "/" cs)) with ("" +:+ String "/" (join "/" es +:+ String "/" (join "/" cs))).
      rewrite split_cons by done. transitivity ("" :: split "/" (join "/" (es ++ cs))).
      + f_equal. f_equal. clear -E' Hne. induction es as [|e [|f es] IH]; [done|by destruct cs|].
        change (join "/" (e :: f :: es)) with (e +:+ String "/" (join "/" (f :: es))). rewrite sapp_assoc, sapp_cons, IH by done. done.
      + rewrite split_join; [done|by destruct es|by apply component_plain]. }
  rewrite Hs. case_decide; subst.
  - exact (clean_components _ [] Hc).
  - exact (clean_components _ [] Hc).
Qed.
Lemma fs_bind_ok {A B} (m : FsM A) (f : A → FsM B) w b : ((m ≫= f) w).2 = Ok b →
  ∃ a w', m w = (w', Ok a) ∧ (f a w').2 = Ok b.
Proof. unfold mbind, fsm_bind. destruct (m w) as [w' [a|e]]; [|done]. eauto. Qed.
Lemma fs_res_ok {A} (r : res string A) context w w' a : in_context context (fs_res r) w = (w', Ok a) → r = Ok a.
Proof. unfold in_context, fs_res. destruct r; [by intros [= _ ->]|done]. Qed.
Lemma check_ok b e w w' : check b e w = (w', Ok tt) → b = true.
Proof. by destruct b. Qed.
Ltac fs_ok H x E :=
  let w := fresh "w" in apply fs_bind_ok in H as (x & w & E & H).
Lemma adapter_definition environment platform homeDir linuxConfigHome w adapter :
  (newServiceManagerAdapter environment platform homeDir linuxConfigHome w).2 = Ok adapter →
  definition_beneath adapter ∧ sa_homeDir adapter = homeDir ∧ sa_platform adapter = platform.
Proof.
  unfold newServiceManagerAdapter. intros Hr. fs_ok Hr u1 Hp. fs_ok Hr u2 Hh. fs_ok Hr u3 E3. fs_ok Hr u4 E4. fs_ok Hr uid E5.
  fs_ok Hr a Ha. fs_ok Hr u6 Hd. fs_ok Hr u7 Hc. injection Hr as <-. destruct u1, u2, u6.
  apply fs_res_ok in Hh. apply check_ok in Hp. assert (Hd' : requireStrictDescendant homeDir (sa_definitionPath a) "service definition" = Ok tt).
  { unfold fs_res in Hd. by destruct (requireStrictDescendant _ _ _) as [[]|]. }
  apply validatePath_inv in Hh as (h & Hh & ->).
  assert (Hshape : ∃ base name, components (base ++ [name]) ∧ sa_definitionPath a = abs (base ++ [name]) ∧
    (name = Label +:+ ".service" ∨ name = Label +:+ ".plist") ∧ sa_homeDir a = abs h ∧ sa_platform a = platform).
  { destruct (String.eqb_spec platform "linux") as [->|Hl].
    - set (configHome := if String.eqb linuxConfigHome "" then _ else _) in Ha. unfold mbind, fsm_bind in Ha.
      destruct (in_context _ (fs_res (validateAbsoluteCanonicalPath configHome)) _) as [w' [[]|]] eqn:Ec; [|done].
      apply fs_res_ok, validatePath_inv in Ec as (es & Hes & E). injection Ha as _ <-. simpl. rewrite E.
      exists (es ++ ["systemd"; "user"]), (Label +:+ ".service").
      assert (Hcs : components (es ++ ["systemd"; "user"; Label +:+ ".service"])) by (apply Forall_app; split; [done|by repeat constructor]).
      rewrite Join_many, <- app_assoc by done. by eauto 10.
    - injection Ha as _ <-. simpl. exists (h ++ ["Library"; "LaunchAgents"]), (Label +:+ ".plist").
      assert (Hcs : components (h ++ ["Library"; "LaunchAgents"; Label +:+ ".plist"])) by (apply Forall_app; split; [done|by repeat constructor]).
      rewrite Join_many, <- app_assoc by done. by eauto 10. }
  destruct Hshape as (base & name & Hcs & Ed & Hn & Eh & Ep). split; [|by rewrite Eh, Ep].
  rewrite Ed in Hd'. apply requireStrictDescendant_abs in Hd' as (d & Hne & E); [|done..].
  destruct (exists_last Hne) as (d' & last & ->). rewrite app_assoc in E. apply app_inj_tail in E as [-> ->].
  exists h, d', last. rewrite app_assoc. done.
Qed.

(** The states an installation of [payload] goes through: new directories on the way to
    the definition, a temporary file beside it, and the complete definition. *)
Definition definition_states (o : Z) (adapter : ServiceManagerAdapter) (payload : string) (fs0 fs : files) : Prop := ∀ p,
  fs !! p = fs0 !! p ∨
  (fs0 !! p = None ∧ on_the_way (sa_homeDir adapter) (Dir (sa_definitionPath adapter)) p ∧ ∃ mode, fs !! p = Some (Directory mode o)) ∨
  (p = sa_definitionPath adapter ∧ fs !! p = Some (Regular 384 o 1 payload)) ∨
  (fs0 !! p = None ∧ ∃ n, p = temporary_name (sa_definitionPath adapter) n).
Section install.
Context (o : Z) (adapter : ServiceManagerAdapter) (payload : string).
Abbreviation new := (on_the_way (sa_homeDir adapter) (Dir (sa_definitionPath adapter))).
Lemma definition_states_grown fs0 fs : grows o new fs0 fs → definition_states o adapter payload fs0 fs.
Proof. intros Hg p. destruct (Hg p); auto. Qed.
Lemma definition_states_written fs0 fs1 fs : grows o new fs0 fs1 →
  write_states (sa_definitionPath adapter) payload 384 o fs1 fs → definition_states o adapter payload fs0 fs.
Proof.
  intros Hg [->|[(n & m & c & Hfree & ->)| ->]]; [by apply definition_states_grown| |].
  - intros p. destruct (decide (p = temporary_name (sa_definitionPath adapter) n)) as [->|Hne].
    + right. right. right. split; [|eauto]. destruct (Hg (temporary_name (sa_definitionPath adapter) n)) as [E|(E & _)]; congruence.
    + rewrite lookup_insert_ne by done. by apply definition_states_grown.
  - intros p. unfold replaced. destruct (decide (p = sa_definitionPath adapter)) as [->|Hne].
    + rewrite lookup_insert_eq. auto.
    + rewrite lookup_insert_ne by done. by apply definition_states_grown.
Qed.
Lemma prepares_parent h d name home : components (h ++ d ++ [name]) → sa_homeDir adapter = abs h →
  sa_definitionPath adapter = abs (h ++ d ++ [name]) → home = abs h → ∀ relative,
  Rel (sa_homeDir adapter) (Dir (sa_definitionPath adapter)) = Some relative →
  prepares o new (ensureDirectoryBelow home relative) (λ _ _, True).
Proof.
  intros Hc Eh Ed -> relative. pose proof Hc as Hc'. rewrite app_assoc in Hc'. apply Forall_app in Hc' as [Hhd Hn].
  apply Forall_inv in Hn. rewrite Eh, Ed, app_assoc, Dir_abs by done. pose proof Hhd as [Hh Hd]%Forall_app.
  rewrite Rel_abs by done. case_bool_decide as E.
  - intros [= <-]. apply prepares_quiet, quiet_bind; [quiet|]. intros _ w. done.
  - rewrite strip_common_app. simpl. intros [= <-]. eapply prepares_impl; [apply prepares_ensureDirectoryBelow|done].
    assert (Hne : d ≠ []) by (intros ->; by rewrite app_nil_r in E).
    rewrite split_join by (done || by apply component_plain). apply Forall_forall.
    intros p (d1 & rest & Hd1 & -> & ->)%chain_spec; [|done..]. exists d1, rest. by rewrite !elements_abs.
Qed.
Lemma triple_install_definition fs0 : definition_beneath adapter →
  triple o (definition_states o adapter payload fs0) fs0 (install_definition adapter payload)
    (λ path fs, path = sa_definitionPath adapter ∧ fs !! path = Some (Regular 384 o 1 payload)).
Proof.
  intros (h & d & name & Hc & Eh & Ed & Hn). assert (H0 : definition_states o adapter payload fs0 fs0) by (intros p; by left).
  eapply fs_triple_bind; [apply triple_quiet; [done|quiet]|]. intros _ ? ->.
  eapply fs_triple_bind.
  { eapply triple_context, (triple_quiet_run o _ fs0); [done|]. unfold openSecureDirectory. quiet. }
  intros home ? (-> & w & _ & _ & Hhome).
  assert (home = abs h) as ->.
  { rewrite <- Eh. clear -Hhome. unfold openSecureDirectory in Hhome.
    apply fs_bind_ok in Hhome as (n & w1 & _ & Hhome). apply fs_bind_ok in Hhome as (u & w2 & _ & Hhome).
    by injection Hhome. }
  destruct (Rel _ _) as [relative|] eqn:Er; [|by apply triple_raise].
  eapply (fs_triple_bind _ _ _ _ _ (λ _ fs, grows o new fs0 fs)).
  { apply triple_context. eapply triple_wider; [|intros fs; apply definition_states_grown].
    eapply triple_post; [by apply (prepares_parent h d name (abs h) Hc Eh Ed eq_refl relative Er fs0)|]. by intros ? ? [? _]. }
  intros _ fs1 Hg. eapply fs_triple_bind; [apply triple_quiet; [by apply definition_states_grown|quiet]|]. intros _ ? ->.
  eapply (fs_triple_bind _ _ _ _ _ (λ _ fs, fs = replaced (sa_definitionPath adapter) payload 384 o fs1)).
  { apply triple_context. eapply triple_wider; [apply WriteFileAtomic_spec|]. intros fs. by apply definition_states_written. }
  intros _ ? ->. assert (Hw : definition_states o adapter payload fs0 (replaced (sa_definitionPath adapter) payload 384 o fs1)).
  { eapply definition_states_written; [exact Hg|]. by right; right. }
  eapply fs_triple_bind; [apply triple_quiet; [done|]|].
  { unfold readDeploymentFile. quiet. apply quiet_validateDeploymentFileFD. }
  intros installed ? ->. eapply fs_triple_bind; [apply triple_quiet; [done|quiet]|]. intros _ ? ->.
  apply fs_triple_ret; [done|]. split; [done|]. unfold replaced. by rewrite lookup_insert_eq.
Qed.
End install.

(** Whatever fails and wherever it is stopped, installing a service definition leaves
    the definition either as it was or complete, owner-only and with one link, and changes
    nothing else but missing directories on the way to it and a temporary file beside it;
    when it succeeds the definition is exactly the rendered text. *)
Theorem definition_installed_atomically (environment platform homeDir payload : string) (w w1 : World) (adapter : ServiceManagerAdapter) :
  NewServiceManagerAdapter environment platform homeDir w = (w1, Ok adapter) → ∀ w2,
  let run := install_definition adapter payload w2 in
  passes (definition_states (w_euid w2) adapter payload (w_files w2)) w2 run.1 ∧
  ∀ path, run.2 = Ok path → path = sa_definitionPath adapter ∧
    w_files run.1 !! path = Some (Regular 384 (w_euid w2) 1 payload).
Proof.
  intros Ha w2. destruct (adapter_definition environment platform homeDir "" w adapter) as [Hb _].
  { unfold NewServiceManagerAdapter in Ha. by rewrite Ha. }
  exact (triple_install_definition (w_euid w2) adapter payload (w_files w2) Hb w2 eq_refl eq_refl).
Qed.
Definition sample_adapter : ServiceManagerAdapter :=
  mkAdapter "linux" "/home/u" 1000 "systemctl" ("/home/u/.config/systemd/user/" +:+ Label +:+ ".service") "" (Label +:+ ".service").
Definition sample_unit : string := match Render "linux" "/home/u/bin/sshserver" "/home/u/state" with Ok text => text | Err _ => "" end.
Lemma definition_installed_atomically_witness :
  w_files (install_definition sample_adapter sample_unit home_world).1 !! sa_definitionPath sample_adapter =
  Some (Regular 384 1000 1 sample_unit).
Proof.
  assert (Ha : NewServiceManagerAdapter "" "linux" "/home/u" home_world = (home_world, Ok sample_adapter)) by (vm_compute; reflexivity).
  destruct (definition_installed_atomically "" "linux" "/home/u" sample_unit home_world home_world sample_adapter Ha home_world)
    as [_ Hok].
  apply (Hok (sa_definitionPath sample_adapter)). vm_compute. reflexivity.
Defined.
