(* ===== verification/PreviewProps.v ===== *)
(** * Previews: canonical bytes, and plans that are what apply runs

    The round trip of [Preview], what a valid preview promises, and the correspondence of
    its plan with the phases a journal has still to reach. *)

From stdpp Require Import base list strings gmap.
From Stdlib Require Import ZArith Lia Ascii.
From Stdlib Require String.
From S2P Require Import Prelude GoStd Json JsonFacts Api Wire Indent Release NetIP Fs Paths Config Layout Deploy Manifest Lifecycle Preview ManifestProps.
Local Open Scope Z_scope.

(** ** Canonical bytes *)
Definition manager_fields (foreground : ty) : list (string * ty) :=
  [("manager", TString); ("available", TBool); ("service_definition", TString); ("foreground", foreground)].
Definition manager_members (m : ManagerAvailability) : list (string * json) :=
  [("manager", JStr (ma_Manager m)); ("available", JBool (ma_Available m))] ++
  (if String.eqb (ma_ServiceDefinition m) "" then [] else [("service_definition", JStr (ma_ServiceDefinition m))]) ++
  match ma_Foreground m with
  | Some f => [("foreground", to_json (go_ty ForegroundFallback) (to_g f))]
  | None => []
  end.
Lemma manager_json_members m : manager_json m = JObj (manager_members m).
Proof. destruct m as [? ? [|c d] [[]|]]; reflexivity. Qed.
Lemma plain_manager m : wire_plain m = true →
  plain (ma_Manager m) = true ∧ plain (ma_ServiceDefinition m) = true ∧ has_ty (TPtr (go_ty ForegroundFallback)) (to_g (ma_Foreground m)) = true.
Proof.
  intros Hp. apply (has_ty_struct (manager_fields (TPtr (go_ty ForegroundFallback)))
    [GStr (ma_Manager m); GBool (ma_Available m); GStr (ma_ServiceDefinition m); to_g (ma_Foreground m)]) in Hp.
  inversion_clear Hp as [|? ? ? ? H1 Hp']. inversion_clear Hp' as [|? ? ? ? _ Hp]. inversion_clear Hp as [|? ? ? ? H3 Hp'].
  by inversion_clear Hp' as [|? ? ? ? H4 _].
Qed.
Lemma set_foreground T J v manager available definition : decode true (TPtr T) (GPtr None) J = Some v →
  set_member true (manager_fields (TPtr T)) (Some [manager; available; definition; GPtr None]) ("foreground", J)
  = Some [manager; available; definition; v].
Proof. intros Hd. cbn -[decode]. by rewrite Hd. Qed.
Lemma manager_json_decodes (m : ManagerAvailability) : wire_plain m = true →
  decode true (go_ty ManagerAvailability) (zero (go_ty ManagerAvailability)) (manager_json m) = Some (to_g m).
Proof.
  intros (_ & _ & Hf)%plain_manager. rewrite manager_json_members. destruct m as [manager available definition foreground].
  apply (decode_to_json true) in Hf; [|done].
  assert (Hd : decode true (TPtr (go_ty ForegroundFallback)) (GPtr None) (to_json (TPtr (go_ty ForegroundFallback)) (to_g foreground))
    = Some (to_g foreground)) by exact Hf. clear Hf. unfold manager_members. cbn [ma_Manager ma_Available ma_ServiceDefinition ma_Foreground] in *.
  change (go_ty ManagerAvailability) with (TStruct (manager_fields (TPtr (go_ty ForegroundFallback)))).
  rewrite zero_struct, decode_struct, !fold_left_app. cbn -[decode to_json to_g go_ty].
  set (finish o := match o with Some vals => Some (GStruct vals) | None => None end).
  destruct foreground as [f|]; [|by destruct (String.eqb_spec definition "") as [->|]].
  destruct (String.eqb_spec definition "") as [->|];
    exact (f_equal finish (set_foreground _ _ _ (GStr manager) (GBool available) (GStr _) Hd)).
Qed.
Lemma manager_json_plain m : wire_plain m = true → json_plain (manager_json m) = true.
Proof.
  intros (Hm & Hd & Hf)%plain_manager. rewrite manager_json_members. unfold manager_members.
  cbn [json_plain]. rewrite !forallb_app. cbn [forallb json_plain fst snd]. rewrite Hm.
  assert (E : ∀ f, ma_Foreground m = Some f → json_plain (to_json (go_ty ForegroundFallback) (to_g f)) = true).
  { intros f Ef. apply to_json_plain; [done|]. by rewrite Ef in Hf. }
  destruct (String.eqb _ _), (ma_Foreground m) as [f|]; cbn [forallb json_plain fst snd];
    rewrite ?Hd, ?(E f eq_refl); done.
Qed.

Definition struct_fields (t : ty) : list (string * ty) := match t with TStruct fs => fs | _ => [] end.
Definition struct_values (g : gval) : list gval := match g with GStruct vs => vs | _ => [] end.
Abbreviation preview_fields := (struct_fields (go_ty DeploymentPreview)).
Definition member_json (p : DeploymentPreview) (f : string * ty) (v : gval) : json :=
  if String.eqb f.1 "manager" then manager_json (dp_Manager p) else to_json f.2 v.
Lemma map_zip_with {A B C D} (g : C → D) (h : A → B → C) l k : map g (zip_with h l k) = zip_with (λ a b, g (h a b)) l k.
Proof. revert k. induction l as [|a l IH]; intros [|b k]; simpl; [done..|]. by rewrite IH. Qed.
Lemma preview_json_members p :
  preview_json p = JObj (zip_with (λ f v, (f.1, member_json p f v)) preview_fields (struct_values (to_g p))).
Proof. reflexivity. Qed.
Lemma plain_preview p : wire_plain p = true →
  wire_plain (dp_Manager p) = true ∧ Forall2 (λ f v, has_ty f.2 v = true) preview_fields (struct_values (to_g p)).
Proof.
  intros Hp. change (has_ty (TStruct preview_fields) (GStruct (struct_values (to_g p))) = true) in Hp.
  rewrite has_ty_struct in Hp. split; [|done].
  by apply (Forall2_lookup_lr _ _ _ 8 ("manager", go_ty ManagerAvailability) (to_g (dp_Manager p)) Hp).
Qed.
Lemma preview_fields_wf f : f ∈ preview_fields → plain f.1 = true ∧ wf_ty f.2 = true.
Proof.
  intros Hf. assert (H : forallb (λ f, plain f.1 && wf_ty f.2) preview_fields = true) by reflexivity.
  rewrite forallb_forall in H. apply andb_true_iff, H. by apply list_elem_of_In.
Qed.
Lemma preview_fields_nodup : NoDup preview_fields.*1.
Proof. by apply (bool_decide_unpack _). Qed.
Lemma member_decodes p : wire_plain p = true →
  Forall2 (λ f v, decode true f.2 (zero f.2) (member_json p f v) = Some v) preview_fields (struct_values (to_g p)).
Proof.
  intros [Hm Hp]%plain_preview. 
  apply Forall2_same_length_lookup_2; [by eapply Forall2_length|]. intros i f v Hf Hv.
  pose proof (Forall2_lookup_lr _ _ _ i f v Hp Hf Hv) as Ht. unfold member_json.
  destruct (preview_fields_wf f) as [_ Hw]; [by eapply list_elem_of_lookup_2|].
  destruct (String.eqb_spec f.1 "manager") as [E|]; [|by apply decode_to_json].
  do 12 (destruct i as [|i]; [injection Hf as <-; injection Hv as <-; first [discriminate E|by apply manager_json_decodes]|]).
  discriminate Hf.
Qed.
Lemma preview_json_decodes p : wire_plain p = true →
  decode true (go_ty DeploymentPreview) (zero (go_ty DeploymentPreview)) (preview_json p) = Some (to_g p).
Proof.
  intros Hp. rewrite preview_json_members. change (go_ty DeploymentPreview) with (TStruct preview_fields) at 1 2.
  rewrite zero_struct, decode_struct, (decode_fields true preview_fields (struct_values (to_g p))); [done| |by apply member_decodes].
  apply preview_fields_nodup.
Qed.
Lemma preview_json_plain p : wire_plain p = true → json_plain (preview_json p) = true.
Proof.
  intros [Hm Hp]%plain_preview. rewrite preview_json_members. cbn [json_plain]. revert Hp.
  assert (Hw : ∀ f, f ∈ preview_fields → plain f.1 = true ∧ wf_ty f.2 = true) by apply preview_fields_wf.
  revert Hw. generalize preview_fields, (struct_values (to_g p)). intros fs vs Hw Hp.
  induction Hp as [|f v fs vs Hv Hp IH]; [done|]. cbn [zip_with forallb fst snd].
  destruct (Hw f) as [-> Hf]; [by left|]. rewrite IH by (intros; apply Hw; by right). unfold member_json.
  destruct (String.eqb f.1 "manager"); [by rewrite manager_json_plain|by rewrite to_json_plain].
Qed.
Lemma decode_marshal_preview p : wire_plain p = true →
  decodeStrictStream DeploymentPreview (marshal_preview p +:+ String (chrZ 10) "") = Some p.
Proof.
  intros Hp. pose proof (preview_json_plain p Hp) as Hj. unfold decodeStrictStream, marshal_preview, parse_json.
  rewrite parse_print; [|done| |done].
  - change (String.eqb (skip_ws (String (chrZ 10) "")) "") with true. cbv iota.
    rewrite preview_json_decodes by done. apply of_to_g.
  - rewrite length_sapp. pose proof (jsize_print _ Hj). lia.
Qed.

Section previews.
Context `{UnicodeCase}.

(** Previews are canonical.  A payload is accepted only when it is the one byte form
    of a valid preview within the size bound; conversely the canonical bytes of every valid
    printable preview within the bound are accepted and parse to it. *)
Theorem preview_roundtrip (payload : string) (p : DeploymentPreview) :
  (ParseDeploymentPreview payload = Ok p →
     preview_CanonicalBytes p = Ok payload ∧ validate_preview p = Ok tt ∧ 0 < slen payload <= maxDeploymentPreviewBytes) ∧
  (preview_CanonicalBytes p = Ok payload → wire_plain p = true → slen payload <= maxDeploymentPreviewBytes →
     ParseDeploymentPreview payload = Ok p).
Proof.
  unfold ParseDeploymentPreview, preview_CanonicalBytes. split.
  - destruct (_ || _) eqn:E; [done|]. apply orb_false_iff in E as [E1%Z.eqb_neq E2%Z.ltb_ge].
    destruct (decodeStrictStream _ _) as [q|]; [|done]. destruct (validate_preview q) as [[]|] eqn:Ev; [|done].
    destruct (String.eqb_spec payload (marshal_preview q +:+ String (chrZ 10) "")) as [->|]; [|done].
    intros [= <-]. rewrite Ev. unfold slen in *. split_and!; [done|done|lia|lia].
  - destruct (validate_preview p) as [[]|] eqn:Ev; [|done]. intros [= <-] Hp Hs.
    rewrite decode_marshal_preview by done. set (payload' := marshal_preview p +:+ _) in *.
    destruct (Z.eqb_spec (slen payload') 0) as [E|_].
    { unfold payload', slen in E. rewrite length_sapp in E. simpl in E. lia. }
    destruct (Z.ltb_spec maxDeploymentPreviewBytes (slen payload')); [lia|]. cbn [orb].
    rewrite Ev. fold payload'. by rewrite String.eqb_refl.
Qed.
End previews.

(** ** Plans stay in the home directory *)
Definition beneath (home path : string) : Prop := ∃ h d, home = abs h ∧ components (h ++ d) ∧ path = abs (h ++ d).
Lemma beneath_join home path name : beneath home path → component name = true → beneath home (Join [path; name]).
Proof.
  intros (h & d & -> & Hc & ->) Hn. exists h, (d ++ [name]). rewrite Join_abs, <- app_assoc by done. split_and!; [done| |done].
  rewrite app_assoc. by apply Forall_app; split; [|constructor].
Qed.
Lemma beneath_strict home path what : beneath home home → requireStrictDescendant home path what = Ok tt →
  canonicalAbsolutePath path = true → beneath home path.
Proof.
  intros (h & d & -> & Hc & E) Hr (t & Ht & ->)%canonical_inv. apply Forall_app in Hc as [Hc _].
  apply requireStrictDescendant_abs in Hr as (d' & _ & ->); [|done..]. by exists h, d'.
Qed.

(** The paths of a preview whose derived paths are right. *)
Record paths_ok (p : DeploymentPreview) : Prop := {
  po_home : beneath (pp_HomeDir (dp_Paths p)) (pp_HomeDir (dp_Paths p));
  po_root : beneath (pp_HomeDir (dp_Paths p)) (pp_InstallRoot (dp_Paths p));
  po_versions : beneath (pp_HomeDir (dp_Paths p)) (pp_VersionsDir (dp_Paths p));
  po_release : beneath (pp_HomeDir (dp_Paths p)) (pp_ReleaseDir (dp_Paths p));
  po_state : beneath (pp_HomeDir (dp_Paths p)) (pp_StateDir (dp_Paths p));
  po_binary : beneath (pp_HomeDir (dp_Paths p)) (pp_BinaryPath (dp_Paths p));
  po_license : beneath (pp_HomeDir (dp_Paths p)) (pp_LicensePath (dp_Paths p));
  po_notice : beneath (pp_HomeDir (dp_Paths p)) (pp_NoticePath (dp_Paths p));
  po_deployment : beneath (pp_HomeDir (dp_Paths p)) (pp_DeploymentState (dp_Paths p));
  po_journal : beneath (pp_HomeDir (dp_Paths p)) (pp_DeploymentJournal (dp_Paths p));
  po_lock : beneath (pp_HomeDir (dp_Paths p)) (pp_LifecycleLock (dp_Paths p));
  po_init : beneath (pp_HomeDir (dp_Paths p)) (pp_InitializationLock (dp_Paths p));
  po_socket : beneath (pp_HomeDir (dp_Paths p)) (pp_AdminSocket (dp_Paths p));
  po_definition : is_foreground p = true ∨ beneath (pp_HomeDir (dp_Paths p)) (pp_ServiceDefinition (dp_Paths p)) }.
Create HintDb plan.
#[export] Hint Resolve po_home po_root po_versions po_release po_state po_binary po_license po_notice po_deployment
  po_journal po_lock po_init po_socket : plan.

Definition step_path (s : step) : string := s.1.2.
Definition allowed_path (p : DeploymentPreview) (path : string) : Prop := path = "" ∨ beneath (pp_HomeDir (dp_Paths p)) path.
Abbreviation steps_ok p := (Forall (λ s, allowed_path p (step_path s))).
Lemma numbered_paths p steps : steps_ok p steps → Forall (λ a, allowed_path p (pa_Path a)) (numbered steps).
Proof.
  intros H. unfold numbered. apply Forall_lookup. intros i a. rewrite list_lookup_imap.
  intros (s & Hs & ->)%fmap_Some. apply (Forall_lookup_1 _ _ _ _ H) in Hs. by destruct s as [[[c op] path] args].
Qed.
Lemma pending_ok p journal phase steps : steps_ok p steps → steps_ok p (pending journal phase steps).
Proof. intros H. unfold pending. destruct journal; [|done]. by case_match. Qed.
(** A prior state of the plan names a definition only when it is active. *)
Definition prior_ok (p : DeploymentPreview) (prior : option DeploymentState) : Prop :=
  ∀ state, prior = Some state → ds_Status state = StatusActive → beneath (pp_HomeDir (dp_Paths p)) (ds_ServiceDefinition state).
Ltac plan_paths :=
  repeat first [apply Forall_nil_2 | apply Forall_cons_2 | apply Forall_app_2 | apply pending_ok];
  try (right; by auto with plan).
Lemma preparation_ok p : paths_ok p → steps_ok p (previewApplyPreparation p) ∧
  steps_ok p (previewMutationAdmission p) ∧ steps_ok p (previewLayoutPreparation p).
Proof.
  intros Hp. assert (Hm : steps_ok p (previewMutationAdmission p)).
  { unfold previewMutationAdmission, previewLifecycleLockOperations. destruct (pe_LifecycleLockPresent _); simpl; plan_paths. }
  assert (Hl : steps_ok p (previewLayoutPreparation p)) by (unfold previewLayoutPreparation; plan_paths).
  split_and!; [|done|done]. unfold previewApplyPreparation, previewInitializationLockOperations.
  repeat apply Forall_app_2; [done|plan_paths| |done]. destruct (pe_InitializationLockPresent _); simpl; plan_paths.
Qed.
Lemma journal_steps_ok p journal : paths_ok p → steps_ok p (journal_steps p journal).
Proof. intros Hp. destruct journal as [j|]; simpl; [case_match|]; plan_paths. Qed.
Lemma stop_steps_ok p prior : paths_ok p → prior_ok p prior → steps_ok p (stop_steps p prior).
Proof.
  intros Hp Hprior. destruct prior as [prior|]; simpl; [|plan_paths]. destruct (String.eqb_spec (ds_Status prior) StatusActive).
  - apply Forall_singleton. right. by apply Hprior.
  - case_match; plan_paths.
Qed.
Lemma install_steps_ok p : paths_ok p → steps_ok p (install_steps p).
Proof.
  intros Hp. unfold install_steps. destruct (po_definition p Hp) as [->|Hd]; [apply Forall_singleton; by left|].
  case_match; apply Forall_singleton; [by left|by right].
Qed.
Lemma activation_steps_ok p journal : paths_ok p → steps_ok p
  (if is_foreground p then [("health", "defer_health_until_supervised_foreground_start", pp_AdminSocket (dp_Paths p), [])]
   else pending journal PhaseActivated [("service", "activate_user_service", pp_ServiceDefinition (dp_Paths p), [ma_Manager (dp_Manager p)]);
          checkpoint_step p PhaseActivated] ++
        pending journal PhaseHealthVerified [("health", "verify_running_release_identity_and_loopback_health", pp_AdminSocket (dp_Paths p),
          [pr_BuildIdentity (dp_Release p)]); checkpoint_step p PhaseHealthVerified]).
Proof.
  intros Hp. destruct (po_definition p Hp) as [->|Hd]; [plan_paths|]. destruct (is_foreground p); plan_paths.
Qed.
Lemma apply_actions_ok p prior journal : paths_ok p →
  prior_ok p (match journal with Some j => dj_PriorState j | None => prior end) →
  Forall (λ a, allowed_path p (pa_Path a)) (previewApplyActions p prior journal).
Proof.
  intros Hp Hprior. unfold previewApplyActions. apply numbered_paths.
  apply Forall_app_2; [by apply preparation_ok|]. apply Forall_app_2; [by apply journal_steps_ok|].
  apply Forall_app_2; [plan_paths|]. apply Forall_app_2; [plan_paths|].
  apply Forall_app_2; [apply pending_ok, Forall_app_2; [by apply stop_steps_ok|plan_paths]|].
  apply Forall_app_2; [apply pending_ok, Forall_app_2; [by apply install_steps_ok|plan_paths]|].
  apply Forall_app_2; [by apply activation_steps_ok|]. plan_paths.
Qed.
Lemma idempotent_actions_ok p state : paths_ok p → prior_ok p (Some state) →
  Forall (λ a, allowed_path p (pa_Path a)) (previewIdempotentActions p state).
Proof.
  intros Hp Hprior. unfold previewIdempotentActions. apply numbered_paths.
  apply Forall_app_2; [by apply preparation_ok|]. apply Forall_app_2; [plan_paths|].
  destruct (String.eqb_spec (ds_Status state) StatusActive); plan_paths. right. by apply Hprior.
Qed.
Lemma recovery_actions_ok p journal : paths_ok p →
  Forall (λ a, allowed_path p (pa_Path a)) (previewRecoveryActions p journal).
Proof.
  intros Hp. destruct (preparation_ok p Hp) as (H1 & H2 & H3). unfold previewRecoveryActions. apply numbered_paths.
  apply Forall_app_2; [|plan_paths]. case_match; [done|]. by apply Forall_app_2.
Qed.
Lemma expected_actions_ok p expected : paths_ok p → prior_ok p (pe_State (dp_Existing p)) →
  (∀ j, pe_Journal (dp_Existing p) = Some j → prior_ok p (dj_PriorState j)) →
  expectedPreviewActions p = Ok expected → Forall (λ a, allowed_path p (pa_Path a)) expected.
Proof.
  intros Hp Hs Hj. unfold expectedPreviewActions. repeat case_match; try done; intros [= <-]; try done.
  - by apply apply_actions_ok.
  - by apply idempotent_actions_ok.
  - by apply apply_actions_ok.
  - apply apply_actions_ok; [done|]. by apply Hj.
  - by apply recovery_actions_ok.
Qed.
Lemma equal_actions_paths first : ∀ second, equalPreviewActions first second = true → map pa_Path first = map pa_Path second.
Proof.
  induction first as [|a first IH]; intros [|b second]; simpl; try done. unfold equal_action. rewrite !andb_true_iff, !String.eqb_eq.
  intros (((_ & Hpath) & _) & Hrest). f_equal; [done|by apply IH].
Qed.

(** ** What a valid preview says *)
Lemma validate_state_definition layout state : validate_state layout state = Ok tt → ds_Status state = StatusActive →
  requireStrictDescendant (ly_HomeDir layout) (ds_ServiceDefinition state) "service definition" = Ok tt ∧
  canonicalAbsolutePath (ds_ServiceDefinition state) = true.
Proof.
  unfold validate_state. intros Hv Ha. checks Hv. destruct Hv as (_ & _ & _ & _ & _ & Hv & _).
  rewrite Ha in Hv. change (String.eqb StatusActive StatusActive) with true in Hv. cbv iota in Hv. checks Hv.
  destruct Hv as (Hd & Hr & _). split; [done|]. rewrite !orb_false_iff, !negb_false_iff in Hd. tauto.
Qed.

Section valid.
Context `{UnicodeCase} (p : DeploymentPreview) (Hvalid : validate_preview p = Ok tt).
Abbreviation P := (dp_Paths p).
Abbreviation target := (Mk_Target (pt_OS (dp_Target p)) (pt_Architecture (dp_Target p))).

(** The layout of a valid preview, and the paths derived from it. *)
Lemma valid_layout : ∃ layout, NewLayout (pp_HomeDir P) (pp_InstallRoot P) (pp_StateDir P) = Ok layout ∧
  pp_VersionsDir P = ly_VersionsDir layout ∧ pp_DeploymentState P = ly_StatePath layout ∧
  pp_DeploymentJournal P = ly_JournalPath layout ∧ pp_LifecycleLock P = ly_LockPath layout ∧
  BinaryPath layout (pr_Release (dp_Release p)) target = Ok (pp_BinaryPath P) ∧
  VersionDir layout (pr_Release (dp_Release p)) = Ok (pp_ReleaseDir P) ∧
  pp_LicensePath P = Join [pp_ReleaseDir P; "LICENSE"] ∧ pp_NoticePath P = Join [pp_ReleaseDir P; "NOTICE"] ∧
  pp_InitializationLock P = Join [pp_StateDir P; ".instance.lock"] ∧ pp_AdminSocket P = Join [pp_StateDir P; ".enrollment.sock"] ∧
  validate_release layout (installedReleaseFromPreview p) = Ok tt ∧ validate_manager layout p = Ok tt ∧
  when_some (pe_State (dp_Existing p)) (validate_state layout) = Ok tt ∧
  when_some (pe_Journal (dp_Existing p)) (validate_journal layout) = Ok tt.
Proof.
  pose proof Hvalid as Hv. unfold validate_preview in Hv. checks Hv. destruct Hv as (_ & _ & _ & _ & _ & _ & Hl & _).
  destruct (NewLayout _ _ _) as [layout|] eqn:El; [|done]. exists layout. split; [done|]. checks Hl.
  destruct Hl as (Hp & _ & _ & _ & Hb & Hd & _ & _ & _ & Hr & _ & Hm & Hs & Hj & _).
  rewrite !orb_false_iff, !negb_false_iff, !String.eqb_eq in Hp. rewrite !orb_false_iff, !negb_false_iff, !String.eqb_eq in Hd.
  destruct Hp as (((-> & ->) & ->) & ->).
  destruct (BinaryPath layout _ _) as [binary|] eqn:Eb; [|done]. rewrite fails_iff, negb_false_iff, String.eqb_eq in Hb. subst binary.
  assert (Hstate : ly_StateDir layout = pp_StateDir P).
  { apply NewLayout_inv in El as (? & ? & ? & _ & _ & _ & _ & -> & _ & _ & ->). done. }
  assert (Ev : ∃ d, VersionDir layout (pr_Release (dp_Release p)) = Ok d).
  { unfold BinaryPath in Eb. destruct (VersionDir layout _); [by eauto|done]. }
  destruct Ev as [d Ev]. rewrite Ev in Hd |- *. destruct Hd as ((((-> & ->) & ->) & ->) & ->). rewrite Hstate.
  destruct (validate_release _ _) as [[]|]; [|done]. done.
Qed.
Lemma valid_paths : paths_ok p.
Proof.
  destruct valid_layout as (layout & El & Hv & Hs & Hj & Hk & Hb & Hd & Hlic & Hnot & Hi & Ha & _ & Hm & _).
  pose proof El as (h & i & s & Hci & Hcs & Hni & Hns & E & Eh & Ei & Es)%NewLayout_inv.
  pose proof Hci as [Hh Hci']%Forall_app.
  assert (Hroot : beneath (pp_HomeDir P) (pp_InstallRoot P)) by (rewrite Eh, Ei; by exists h, i).
  assert (Hst : beneath (pp_HomeDir P) (pp_StateDir P)) by (rewrite Eh, Es; by exists h, s).
  assert (Hhome : beneath (pp_HomeDir P) (pp_HomeDir P)) by (rewrite Eh; exists h, []; by rewrite app_nil_r).
  assert (Hin : ∀ c, component c = true → beneath (pp_HomeDir P) (abs (h ++ i ++ [c]))).
  { intros c Hc. rewrite app_assoc, <- Join_abs by done. rewrite <- Ei. by apply beneath_join. }
  assert (Hvers : beneath (pp_HomeDir P) (pp_VersionsDir P)) by (rewrite Hv, E; by apply Hin).
  assert (Hrel : beneath (pp_HomeDir P) (pp_ReleaseDir P)).
  { unfold VersionDir in Hd. destruct (Valid _) eqn:Er; [|done]. injection Hd as <-. rewrite <- Hv.
    apply beneath_join; [done|by apply Valid_component]. }
  split; try done.
  - unfold BinaryPath in Hb. rewrite Hd in Hb. destruct (isSupportedTarget target) eqn:Et; [|done]. injection Hb as <-.
    apply beneath_join; [done|]. by apply (binary_name_component target).
  - rewrite Hlic. by apply beneath_join.
  - rewrite Hnot. by apply beneath_join.
  - rewrite Hs, E. by apply Hin.
  - rewrite Hj, E. by apply Hin.
  - rewrite Hk, E. by apply Hin.
  - rewrite Hi. by apply beneath_join.
  - rewrite Ha. by apply beneath_join.
  - unfold validate_manager in Hm. unfold is_foreground. destruct (String.eqb (ma_Manager (dp_Manager p)) ManagerForeground); [by left|].
    right. checks Hm. destruct Hm as (Hd1 & Hd2 & _). rewrite !orb_false_iff, !negb_false_iff, !String.eqb_eq in Hd1.
    destruct Hd1 as ((((_ & _) & _) & Hdef) & Hcan). rewrite <- Hdef. eapply beneath_strict; [done| |done].
    by rewrite E in Hd2; rewrite Eh.
Qed.
End valid.

Lemma prior_ok_state `{UnicodeCase} p layout state : validate_preview p = Ok tt →
  NewLayout (pp_HomeDir (dp_Paths p)) (pp_InstallRoot (dp_Paths p)) (pp_StateDir (dp_Paths p)) = Ok layout →
  when_some state (validate_state layout) = Ok tt → prior_ok p state.
Proof.
  intros Hv El Hs st -> Ha. simpl in Hs. destruct (validate_state_definition _ _ Hs Ha) as [Hr Hc].
  pose proof (po_home _ (valid_paths p Hv)) as Hh. eapply beneath_strict; [done| |done].
  apply NewLayout_inv in El as (? & ? & ? & _ & _ & _ & _ & -> & -> & _). exact Hr.
Qed.
Lemma journal_prior_valid layout j : validate_journal layout j = Ok tt → when_some (dj_PriorState j) (validate_state layout) = Ok tt.
Proof. unfold validate_journal. intros Hv. rewrite all_ok_iff, !Forall_cons in Hv. tauto. Qed.

(** A valid preview stays in the user's scope: every path its plan names is the home
    directory or beneath it (or there is none), every listener it plans is a loopback
    address, nothing of the instance is to be purged, the release it names validates for
    the layout it names, and a preview that is not applicable changes nothing but at most
    recovers the transaction it found. *)
Theorem valid_preview_scope `{UnicodeCase} (p : DeploymentPreview) : validate_preview p = Ok tt →
  (∀ a, a ∈ elements_of (dp_Actions p) → pa_Path a = "" ∨ beneath (pp_HomeDir (dp_Paths p)) (pa_Path a)) ∧
  (∀ l, l ∈ pna_Listeners (pas_Network (dp_Assertions p)) → ValidateListener l = Ok tt) ∧
  pda_DestructivePurgePlanned (pas_Data (dp_Assertions p)) = false ∧ psa_SudoRequired (pas_Scope (dp_Assertions p)) = false ∧
  (∃ layout, NewLayout (pp_HomeDir (dp_Paths p)) (pp_InstallRoot (dp_Paths p)) (pp_StateDir (dp_Paths p)) = Ok layout ∧
     validate_release layout (installedReleaseFromPreview p) = Ok tt) ∧
  (dp_ApplyAllowed p = false → dp_BlockReason p ≠ different_transaction → elements_of (dp_Actions p) = []).
Proof.
  intros Hv. pose proof (valid_paths p Hv) as Hpaths.
  destruct (valid_layout p Hv) as (layout & El & _ & _ & _ & _ & _ & _ & _ & _ & _ & _ & Hr & _ & Hs & Hj).
  pose proof Hv as Hv'. unfold validate_preview in Hv'. checks Hv'. destruct Hv' as (_ & Hc & _ & _ & _ & _ & _ & _ & _ & Ha & Has & _).
  unfold validate_actions in Ha. checks Ha. destruct Ha as (_ & _ & Ha & _).
  destruct (expectedPreviewActions p) as [expected|] eqn:Ee; [|done]. rewrite fails_iff, negb_false_iff in Ha.
  assert (Hexp : Forall (λ a, allowed_path p (pa_Path a)) expected).
  { eapply expected_actions_ok; [done|by eapply prior_ok_state| |done]. intros j Ej. rewrite Ej in Hj. simpl in Hj.
    eapply prior_ok_state; [done..|]. by apply journal_prior_valid. }
  pose proof (equal_actions_paths _ _ Ha) as Hmap.
  unfold validate_assertions in Has. checks Has. destruct Has as (Hsafe & Hlist & _).
  rewrite !orb_false_iff in Hsafe. split_and!; try tauto; [| |by eauto|].
  - intros a Hin. apply list_elem_of_In, (in_map pa_Path) in Hin. rewrite Hmap in Hin. apply in_map_iff in Hin as (b & <- & Hb).
    apply list_elem_of_In in Hb. rewrite Forall_forall in Hexp. by apply Hexp.
  - intros l Hl. rewrite all_ok_iff, Forall_map, Forall_forall in Hlist. specialize (Hlist l Hl). simpl in Hlist.
    by destruct (ValidateListener l) as [[]|].
  - intros Hna Hbr. unfold validate_classification in Hc. unfold expectedPreviewActions in Ee. unfold classified in Hc.
    rewrite Hna in Hc, Ee. apply String.eqb_neq in Hbr. rewrite Hbr in Ee.
    assert (expected = []) as ->; [|by destruct (elements_of (dp_Actions p))].
    repeat case_match; simpl in *; try done; congruence.
Qed.

(** The phases a plan records, in order. *)
Definition planned_phases (actions : list PreviewAction) : list string :=
  omap (λ a, if String.eqb (pa_Operation a) "checkpoint_apply_journal" then head (elements_of (pa_Arguments a)) else None) actions.
Definition reached (journal : option DeploymentJournal) (phase : string) : bool :=
  match journal with Some j => applyPhaseReached (dj_Phase j) phase | None => false end.
Definition step_phase (s : step) : option string :=
  let '(_, operation, _, arguments) := s in if String.eqb operation "checkpoint_apply_journal" then head arguments else None.
Lemma planned_numbered steps : planned_phases (numbered steps) = omap step_phase steps.
Proof.
  unfold numbered.
  enough (Hg : ∀ g : nat → Z, planned_phases (imap (λ i '(category, operation, path, arguments),
    Mk_PreviewAction (g i) category operation path (Slice arguments)) steps) = omap step_phase steps) by apply (Hg (λ i, Z.of_nat i + 1)).
  induction steps as [|[[[c op] path] args] steps IH]; intros g; [done|]. rewrite imap_cons. unfold planned_phases in *. simpl.
  specialize (IH (λ i, g (S i))). destruct (String.eqb op _); [destruct args; simpl|]; first [exact IH|f_equal; exact IH].
Qed.
Definition phase_steps (journal : option DeploymentJournal) (phase : string) : list string := if reached journal phase then [] else [phase].
Lemma pending_phases journal phase steps : omap step_phase steps = [phase] →
  omap step_phase (pending journal phase steps) = phase_steps journal phase.
Proof. intros Hs. unfold pending, phase_steps, reached. destruct journal as [j|]; [|done]. by destruct (applyPhaseReached _ _). Qed.
Lemma no_phases steps : Forall (λ s, step_phase s = None) steps → omap step_phase steps = [].
Proof. induction 1 as [|x l Hx _ IH]; [done|]. simpl. by rewrite Hx. Qed.

