(* ===== verification/ApplyGuard.v ===== *)
(** * Confirmation comes first

    [still] computations change nothing on the machine.  Taking a preview is one; and an
    apply is one until it has rebuilt, from the files it found, a preview with the digest
    the user confirmed. *)

From stdpp Require Import base list strings gmap.
From Stdlib Require Import ZArith Lia Ascii.
From Stdlib Require String.
From S2P Require Import Prelude GoStd Json JsonFacts Api Wire Indent Release NetIP Fs Paths Config Layout Deploy Manifest Artifact Lifecycle Preview PreviewRun ApplyRun DeploySpec ArtifactProps.
Local Open Scope Z_scope.

(** ** Computations that change nothing *)
Definition unmoved (w w' : World) : Prop := w_files w' = w_files w ∧ w_trace w' = w_trace w ∧ w_euid w' = w_euid w.
Lemma unmoved_trans w w1 w2 : unmoved w w1 → unmoved w1 w2 → unmoved w w2.
Proof. intros (? & ? & ?) (? & ? & ?). split_and!; congruence. Qed.
Definition host_still {H A} (x : HostM H A) : Prop := ∀ w h, unmoved w (x (w, h)).1.1.
(** The calls that inspect the machine do not change its files. *)
Class ReadOnlyHost (H : Type) `{!Host H} : Prop := {
  Detect_still : ∀ b s, host_still (Detect b s);
  IsActive_still : host_still IsActive;
  verifyPreviewRelease_still : ∀ r, host_still (verifyPreviewRelease r);
  probeRunning_still : ∀ s, host_still (probeRunning s);
  flock_still : ∀ p, host_still (flock p);
  funlock_still : ∀ p, host_still (funlock p) }.
Class ReadOnlyPreviewHost (H : Type) `{!PreviewHost H} : Prop := {
  flock_shared_still : ∀ p, host_still (flock_shared p);
  validate_existing_still : ∀ a b c, host_still (validate_existing a b c);
  verifySourceArtifact_still : ∀ p r, host_still (verifySourceArtifact p r);
  verifySourceReleaseFile_still : ∀ p n d, host_still (verifySourceReleaseFile p n d) }.

Section still.
Context {H : Type}.
Abbreviation M A := (DepM H A).
Definition still {A} (m : M A) : Prop := ∀ s, unmoved (m_world s) (m_world (m s).1) ∧ m_journal (m s).1 = m_journal s.

Lemma still_pure {A} (r : res derr A) : still (λ s, (s, r)).
Proof. done. Qed.
Lemma still_ret {A} (a : A) : still (mret a).
Proof. done. Qed.
Lemma still_bind {A B} (m : M A) (f : A → M B) : still m → (∀ a, still (f a)) → still (m ≫= f).
Proof.
  intros Hm Hf s. unfold mbind, depm_bind, dep_bind. destruct (Hm s) as [Hu Hj].
  destruct (m s) as [s1 [a|e]]; simpl in *; [|done]. destruct (Hf a s1) as [Hu2 Hj2].
  split; [by eapply unmoved_trans|congruence].
Qed.
Lemma still_tried {A} (m : M A) : still m → still (tried m).
Proof. intros Hm s. specialize (Hm s). unfold tried. by destruct (m s). Qed.
Lemma still_within {A} context (m : M A) : still m → still (within context m).
Proof. intros Hm s. specialize (Hm s). unfold within. by destruct (m s). Qed.
Lemma still_files {A} (m : FsM A) : Quiet m → still (on_files m).
Proof. intros Hm s. specialize (Hm (m_world s)). unfold on_files. by destruct (m (m_world s)). Qed.
Lemma still_host {A} (x : HostM H A) : host_still x → still (host x).
Proof. intros Hx s. specialize (Hx (m_world s) (m_host s)). unfold host. by destruct (x _) as [[w h] r]. Qed.
Lemma still_demand b text : still (demand b text).
Proof. by destruct b. Qed.
Lemma still_from_res {A} (r : res string A) : still (from_res r).
Proof. by destruct r. Qed.
Lemma still_apart layout {A} (m : M A) : still m → apart layout m.
Proof.
  intros Hm s. destruct (Hm s) as [(E1 & E2 & E3) Hj]. split; [|done]. split; [done|]. exists []. rewrite E1, E2.
  by repeat constructor.
Qed.
End still.
Create HintDb still.
#[export] Hint Resolve still_demand still_from_res still_host Detect_still IsActive_still verifyPreviewRelease_still
  probeRunning_still flock_still funlock_still flock_shared_still validate_existing_still verifySourceArtifact_still
  verifySourceReleaseFile_still : still.
Ltac still :=
  repeat lazymatch goal with
  | |- still (mbind _ _) => apply still_bind; [|intros ?]
  | |- still (mret _) => apply still_ret
  | |- still (fail _) => apply still_pure
  | |- still (refuse _) => apply still_pure
  | |- still (from_derr _) => apply still_pure
  | |- still (tried _) => apply still_tried
  | |- still (within _ _) => apply still_within
  | |- still (on_files _) => apply still_files; unfold Lstat, sync_file; quiet
  | |- still (match ?x with _ => _ end) => destruct x
  | |- still _ => solve [auto with still nocore]
  end.

Lemma quiet_Readdirnames directory : Quiet (Readdirnames directory).
Proof. unfold Readdirnames. quiet. Qed.
Lemma quiet_verifyStagedFile path bytes digest maximum mode : Quiet (verifyStagedFile path bytes digest maximum mode).
Proof. unfold verifyStagedFile. quiet. Qed.
Lemma quiet_readVerifiedSourceSnapshot source e kind : Quiet (readVerifiedSourceSnapshot source e kind).
Proof. unfold readVerifiedSourceSnapshot. quiet. Qed.
#[export] Hint Resolve quiet_Readdirnames quiet_verifyStagedFile quiet_readVerifiedSourceSnapshot
  quiet_load quiet_validateDeploymentFileFD quiet_ValidateLayoutReadOnly : quiet.
Lemma quiet_VerifyArtifactSource `{BuildInfoReader} path expected : Quiet (VerifyArtifactSource path expected).
Proof. unfold VerifyArtifactSource. quiet. Qed.
Lemma quiet_ReadPinnedManifestFile `{UnicodeCase} path digest : Quiet (ReadPinnedManifestFile path digest).
Proof. unfold ReadPinnedManifestFile, readDeploymentFile. quiet. Qed.
Lemma quiet_open_existing path : Quiet (open_lock path false).
Proof. unfold open_lock. quiet. Qed.
Lemma quiet_validateExistingDirectoryBelow root relative : Quiet (validateExistingDirectoryBelow root relative).
Proof. unfold validateExistingDirectoryBelow. quiet. Qed.
#[export] Hint Resolve quiet_VerifyArtifactSource quiet_ReadPinnedManifestFile quiet_open_existing
  quiet_validateExistingDirectoryBelow : quiet.

Section preview.
Context {H : Type} `{!Host H} `{!PreviewHost H} `{!ReadOnlyHost H} `{!ReadOnlyPreviewHost H} `{UnicodeCase} `{BuildInfoReader} (lifecycle : Lifecycle).
Abbreviation layout := (lc_layout lifecycle).

(** ** Locks and metadata *)
Lemma still_close_lock path : still (close_lock path).
Proof. unfold close_lock. still. Qed.
Hint Resolve still_close_lock : still.
Lemma still_closing {A} context path (body : DepM H A) : still body → still (closing context path body).
Proof. intros Hb. unfold closing. still. Qed.
Lemma still_sharedIfPresent : still (H:=H) (acquireDeploymentSharedLockIfPresent lifecycle).
Proof. unfold acquireDeploymentSharedLockIfPresent, acquireDeploymentSharedLock. still. Qed.
Lemma still_bootstrap : still (H:=H) (acquireDeploymentBootstrapLock lifecycle).
Proof. unfold acquireDeploymentBootstrapLock. still. Qed.
Lemma still_existing : still (H:=H) (acquireExistingDeploymentLock lifecycle).
Proof. unfold acquireExistingDeploymentLock, acquireDeploymentFileLock. still. Qed.
Hint Resolve still_sharedIfPresent : still.
Lemma still_validateExistingLock : still (validateExistingDeploymentLock lifecycle).
Proof. unfold validateExistingDeploymentLock. still. Qed.
Lemma still_load A `{GoJSON A} missing context path (valid : A → res string unit) :
  still (H:=H) (load_metadata A missing context path valid).
Proof. unfold load_metadata. still. Qed.
Lemma still_loadPreviewState : still (H:=H) (loadPreviewState lifecycle).
Proof. unfold loadPreviewState, LoadState. still. apply still_load. Qed.
Lemma still_loadPreviewJournal : still (H:=H) (loadPreviewJournal lifecycle).
Proof. unfold loadPreviewJournal, LoadJournal. still. apply still_load. Qed.
Hint Resolve still_validateExistingLock still_loadPreviewState still_loadPreviewJournal : still.

(** ** The instance *)
Lemma still_pathExists path : still (H:=H) (pathExists path).
Proof. unfold pathExists. still. Qed.
Hint Resolve still_pathExists : still.
Lemma still_any_exists l : still (H:=H) (any_exists l).
Proof. induction l; simpl; still. Qed.
Lemma still_protected_files optional l : still (H:=H) (protected_files optional l).
Proof. induction l; simpl; still. Qed.
Hint Resolve still_any_exists still_protected_files : still.
Lemma still_resumable paths settings : still (validateResumableInstanceFiles paths settings).
Proof. unfold validateResumableInstanceFiles. still. Qed.
Hint Resolve still_resumable : still.
Lemma still_inspectPreviewInstance dir : still (inspectPreviewInstance dir).
Proof. unfold inspectPreviewInstance, completed_instance, partial_instance, partialInstanceDataExists. still. Qed.
Hint Resolve still_inspectPreviewInstance : still.

(** ** Releases and the manager *)
Lemma still_verifyInstalled desired : still (H:=H) (verifyInstalledReleaseForPreview lifecycle desired).
Proof.
  unfold verifyInstalledReleaseForPreview, verifyPreviewInstalledPath, VerifyStagedArtifact, VerifyStagedReleaseFile. still.
Qed.
Hint Resolve still_verifyInstalled : still.
Lemma still_preflight desired : still (H:=H) (preflightDesiredReleaseDestinations lifecycle desired).
Proof. unfold preflightDesiredReleaseDestinations. still. Qed.
Lemma still_applyManager desired a : still (validateApplyManager lifecycle desired a).
Proof. unfold validateApplyManager, validateManagerAvailability, validateProspectiveServiceDefinition. still. Qed.
Lemma still_retained state desired : still (verifyRetainedRollbackReleaseForApply state desired).
Proof. unfold verifyRetainedRollbackReleaseForApply. still. Qed.
Hint Resolve still_preflight still_applyManager still_retained : still.
Lemma still_recorded state desired : still (verifyRecordedReleaseForApply state desired).
Proof. unfold verifyRecordedReleaseForApply. still. Qed.
Lemma still_foreground_reason state : still (foregroundRuntimePreviewBlockReason lifecycle state).
Proof. unfold foregroundRuntimePreviewBlockReason. still. Qed.
Hint Resolve still_recorded still_foreground_reason : still.

(** ** The snapshot *)
Lemma still_classifyJournal p d a j : still (classifyJournalPreview lifecycle p d a j).
Proof. unfold classifyJournalPreview. still. Qed.
Lemma still_classifyState p d a st : still (classifyStatePreview lifecycle p d a st).
Proof. unfold classifyStatePreview. still. Qed.
Lemma still_verify_recovering d b : still (verify_recovering d b).
Proof. unfold verify_recovering. still. Qed.
Hint Resolve still_classifyJournal still_classifyState still_verify_recovering : still.
Lemma still_snapshot request manifest desired artifact present instance :
  still (previewSnapshotWithInstance lifecycle request manifest desired artifact present instance).
Proof. unfold previewSnapshotWithInstance. still. Qed.
Hint Resolve still_snapshot still_closing : still.
Lemma still_verify_inputs what request desired : still (verify_inputs what request desired).
Proof. unfold verify_inputs. still. Qed.
Hint Resolve still_verify_inputs : still.
Lemma still_TakePreview request : still (TakePreview lifecycle request).
Proof. unfold TakePreview, previewWhileLocked, previewSnapshot. still. Qed.

(** ** Apply before anything is confirmed *)
Lemma still_verifyConfirmation request desired : still (verifyApplyConfirmationInputs request desired).
Proof. unfold verifyApplyConfirmationInputs. still. Qed.
Lemma still_revalidate desired a : still (revalidateApplyManager lifecycle desired a).
Proof. unfold revalidateApplyManager. still. Qed.
Lemma still_recorded_ok state desired : still (recorded_ok state desired).
Proof. unfold recorded_ok, validateRecordedActiveServiceBinding. still. Qed.
Lemma still_confirm p digest : still (H:=H) (confirmDeploymentPreview p digest).
Proof. unfold confirmDeploymentPreview. still. Qed.
Hint Resolve still_verifyConfirmation still_revalidate still_recorded_ok still_confirm : still.
Lemma still_preflight_apply request desired : still (apply_preflight lifecycle request desired).
Proof. unfold apply_preflight, same_transaction, same_manager. still. Qed.
End preview.

(** ** Confirmation

    [confirmed request fs]: from the files [fs], in some run, the snapshot of the
    request's preview is one that may be applied and has the digest of the request. *)
Section guard.
Context {H : Type} `{!Host H} `{!PreviewHost H} `{!ReadOnlyHost H} `{!ReadOnlyPreviewHost H} `{UnicodeCase} `{BuildInfoReader}.
Context (lifecycle : Lifecycle) (request : ApplyRequest).
Abbreviation M A := (DepM H A).
Definition confirmed (fs : files) : Prop :=
  ∃ (s : Machine H) lockPresent manifest desired artifact preview canonical,
    w_files (m_world s) = fs ∧ previewDesired lifecycle (aq_preview request) = Ok (manifest, desired, artifact) ∧
    (previewSnapshot lifecycle (aq_preview request) manifest desired artifact lockPresent s).2 = Ok preview ∧
    preview_CanonicalBytes preview = Ok canonical ∧ SHA256Hex canonical = aq_ConfirmedPreviewSHA256 request ∧
    dp_ApplyAllowed preview = true.
Definition guarded {A} (m : M A) : Prop := ∀ s,
  unmoved (m_world s) (m_world (m s).1) ∨ confirmed (w_files (m_world s)).

Lemma guarded_still {A} (m : M A) : still m → guarded m.
Proof. intros Hm s. left. apply Hm. Qed.
Lemma guarded_bind {A B} (m : M A) (f : A → M B) : still m → (∀ a, guarded (f a)) → guarded (m ≫= f).
Proof.
  intros Hm Hf s. unfold mbind, depm_bind, dep_bind. destruct (Hm s) as [Hu _].
  destruct (m s) as [s1 [a|e]]; simpl in *; [|by left]. destruct (Hf a s1) as [?|Hc].
  - left. by eapply unmoved_trans.
  - right. destruct Hu as (<- & _). done.
Qed.
Lemma guarded_closing {A} context path (body : M A) : guarded body → guarded (closing context path body).
Proof.
  intros Hb s. unfold closing, mbind, depm_bind, dep_bind, tried at 1. destruct (Hb s) as [Hu|]; [left|by right].
  destruct (body s) as [s1 r]. simpl in *.
  assert (Hs : still (closed ← tried (close_lock path);
    match closed with
    | Ok _ => from_derr r
    | Err e => fail (match r with Ok _ => dwrap context e | Err first => Joined first (dwrap context e) end)
    end)).
  { still; eauto using still_close_lock. }
  eapply unmoved_trans; [exact Hu|]. apply Hs.
Qed.
Lemma confirmDeploymentPreview_ok preview digest (s : Machine H) : (confirmDeploymentPreview preview digest s).2 = Ok tt →
  ∃ canonical, preview_CanonicalBytes preview = Ok canonical ∧ SHA256Hex canonical = digest ∧ dp_ApplyAllowed preview = true.
Proof.
  unfold confirmDeploymentPreview, mbind, depm_bind, dep_bind, demand, from_res. destruct (matches _ _); [|done]. simpl.
  destruct (preview_CanonicalBytes preview) as [canonical|]; [|done]. simpl.
  destruct (String.eqb_spec (SHA256Hex canonical) digest); [|done]. simpl.
  destruct (dp_ApplyAllowed preview); [|done]. eauto.
Qed.

Lemma bind_assoc {A B C} (m : M A) (f : A → M B) (g : B → M C) s :
  ((m ≫= f) ≫= g) s = (m ≫= λ a, f a ≫= g) s.
Proof. unfold mbind, depm_bind, dep_bind. by destruct (m s) as [s1 []]. Qed.

Section desired.
Context (manifest : ReleaseManifest) (desired : InstalledRelease) (artifact : ReleaseArtifact).
Context (Hdesired : previewDesired lifecycle (aq_preview request) = Ok (manifest, desired, artifact)).

(** Once a snapshot has been confirmed anything may follow. *)
Lemma guarded_confirmed {A} present (f : DeploymentPreview → M A) :
  guarded (confirmed_snapshot lifecycle request manifest desired artifact present None ≫= f).
Proof using Hdesired ReadOnlyHost0 ReadOnlyPreviewHost0.
  intros s. unfold confirmed_snapshot, mbind, depm_bind, dep_bind.
  destruct (still_snapshot lifecycle (aq_preview request) manifest desired artifact present None s) as [Hu _].
  destruct (previewSnapshotWithInstance _ _ _ _ _ _ _ s) as [s1 [preview|e]] eqn:E; simpl in *; [|by left].
  destruct (still_confirm preview (aq_ConfirmedPreviewSHA256 request) s1) as [Hu' _].
  pose proof (confirmDeploymentPreview_ok preview (aq_ConfirmedPreviewSHA256 request) s1) as Hc.
  destruct (confirmDeploymentPreview _ _ s1) as [s2 [[]|e]]; simpl in *; [right|left; by eapply unmoved_trans].
  destruct (Hc eq_refl) as (canonical & Hb & Hd & Ha).
  exists s, present, manifest, desired, artifact, preview, canonical. unfold previewSnapshot. by rewrite E.
Qed.
Lemma guarded_locked present bootstrap : guarded (apply_locked lifecycle request manifest desired artifact present bootstrap).
Proof using Hdesired ReadOnlyHost0 ReadOnlyPreviewHost0.
  unfold apply_locked. apply guarded_bind; [apply still_verifyConfirmation; exact _|]. intros _. apply guarded_confirmed.
Qed.
Lemma guarded_admitted : guarded (apply_admitted lifecycle request manifest desired artifact).
Proof using Hdesired ReadOnlyHost0 ReadOnlyPreviewHost0.
  unfold apply_admitted. apply guarded_bind; [still|]. intros [n|e]; [|destruct (not_exist e)].
  2:{ intros s. rewrite bind_assoc. apply guarded_confirmed. }
  all: apply guarded_bind; [still; try apply still_existing; exact _|]; intros [[lock present] bootstrap];
    apply guarded_closing, guarded_locked.
Qed.
End desired.
Lemma guarded_Apply : guarded (Apply lifecycle request).
Proof using ReadOnlyHost0 ReadOnlyPreviewHost0.
  unfold Apply. apply guarded_bind; [still|]. intros _ s. unfold mbind at 1, depm_bind, dep_bind, from_res.
  destruct (previewDesired lifecycle (aq_preview request)) as [[[manifest desired] artifact]|e] eqn:E; [|by left].
  simpl. revert s. apply guarded_bind; [apply still_preflight_apply; exact _|]. intros _.
  apply guarded_bind; [apply still_bootstrap; exact _|]. intros bootstrap. apply guarded_closing. by apply guarded_admitted.
Qed.
End guard.


