(* ===== verification/ApplyCrash.v ===== *)
(** * Crash consistency of apply

    The whole of [Apply], however often it is stopped and run again: everything before
    the transaction leaves the metadata alone, and a transaction that is begun, or found
    and resumed, has the crash views of [DeployCrash]. *)

From stdpp Require Import base list strings gmap.
From Stdlib Require Import ZArith Lia Ascii.
From Stdlib Require String.
From S2P Require Import Prelude GoStd Json JsonFacts Api Wire Indent Release NetIP Fs Paths Config ConfigProps Layout Deploy Manifest Artifact Lifecycle Preview PreviewRun ApplyRun DeploySpec LifecycleProps DeployCrash ApplyGuard.
From S2P Require Import ManifestProps PreviewProps.
Local Open Scope Z_scope.

(** Leasing the instance leaves the deployment's metadata alone: its lock is in the state
    directory. *)
Class LeaseLaws (H : Type) `{!PreviewHost H} (layout : Layout) : Prop := {
  acquireInstanceLease_apart : ∀ present, host_apart layout (acquireInstanceLease (ly_StateDir layout) present);
  close_lease_apart : host_apart layout close_lease }.
#[export] Hint Resolve acquireInstanceLease_apart close_lease_apart : apart.

Section apply.
Context {H : Type} `{!Host H, !PreviewHost H, !ReadOnlyHost H, !ReadOnlyPreviewHost H} `{UnicodeCase} `{BuildInfoReader}.
Context (lifecycle : Lifecycle) (o : Z).
Abbreviation layout := (lc_layout lifecycle).
Context `{!GoodLayout layout, !HostLaws H layout, !LeaseLaws H layout}.
Abbreviation apart := (apart (H:=H) layout).
Abbreviation spec := (spec (H:=H) layout o).

(** ** Reading the metadata *)
Lemma spec_loadPreviewState P prior v j : P v → prior_file o prior v.1 → (∀ st, prior = Some st → wire_plain st = true) →
  spec P v j (loadPreviewState lifecycle) (λ st v' j', st = prior ∧ v' = v ∧ j' = j) (λ _ v' _, P v').
Proof.
  intros HP Hst Hw. unfold loadPreviewState.
  eapply (spec_bind _ _ _ _ _ _ _ _ _ (λ r v' j', v' = v ∧ j' = j ∧ match r with
    | Ok st => prior = Some st
    | Err e => Is e ErrNoDeploymentState = true → prior = None end)).
  { apply spec_tried, spec_load; [exact _|by left|done|..]; unfold at_path; rewrite ?String.eqb_refl.
    - intros a Ha. split_and!; [done|done|]. destruct prior as [st0|]; simpl in Hst; [|by apply stored_some in Ha].
      f_equal. symmetry. eapply stored_inj; [done|done|]. apply decodeStrictStream_indented. by apply Hw.
    - intros Hn. split_and!; [done|done|]. intros _. destruct prior as [st0|]; [|done]. simpl in Hst.
      destruct Hst as (? & E & _). by rewrite Hn in E.
    - intros e He. split_and!; [done|done|]. by rewrite He. }
  intros [st|e] ? ? (-> & -> & Hl); [by apply spec_ret|].
  destruct (Is e ErrNoDeploymentState); [|by apply spec_fail]. apply spec_ret; [done|]. by rewrite Hl.
Qed.
Lemma spec_loadPreviewJournal P v j : P v →
  spec P v j (loadPreviewJournal lifecycle) (λ J v' j', v' = v ∧ j' = j ∧ match J with
    | Some J => stored o DeploymentJournal v.2 (validate_journal layout) J
    | None => v.2 = None end) (λ _ v' _, P v').
Proof.
  intros HP. unfold loadPreviewJournal.
  eapply (spec_bind _ _ _ _ _ _ _ _ _ (λ r v' j', v' = v ∧ j' = j ∧ match r with
    | Ok J => stored o DeploymentJournal v.2 (validate_journal layout) J
    | Err e => Is e ErrNoDeploymentJournal = true → v.2 = None end)).
  { apply spec_tried, spec_load; [exact _|by right|done|..]; unfold at_path.
    all: destruct (String.eqb_spec (ly_JournalPath layout) (ly_StatePath layout)) as [E|_];
      [by destruct (metadata_paths_ne layout)|]; try done.
    intros e He. split_and!; [done|done|]. by rewrite He. }
  intros [J|e] ? ? (-> & -> & Hl); [by apply spec_ret|].
  destruct (Is e ErrNoDeploymentJournal); [|by apply spec_fail]. apply spec_ret; [done|]. by rewrite Hl.
Qed.
Lemma apart_attest : apart attestConfirmedInitializationLease.
Proof using HostLaws0. unfold attestConfirmedInitializationLease. apart. Qed.
Hint Resolve apart_attest : apart.
(** Writing the journal of a transaction under the lease. *)
Lemma spec_record_journal P v j J : P v → (validate_journal layout J = Ok tt → P (v.1, saved o (indentedJSON J))) →
  spec P v j (record_journal lifecycle J)
    (λ _ v' j', v' = (v.1, saved o (indentedJSON J)) ∧ j' = J ∧ validate_journal layout J = Ok tt) (λ _ v' _, P v').
Proof using GoodLayout0 HostLaws0.
  intros HP Hf. unfold record_journal. eapply spec_bind; [by apply (spec_set _ _ _ _ _ _ (λ _ v' j', v' = v ∧ j' = J))|].
  intros ? ? ? [-> ->]. apply spec_idle; [apart|done|]. intros _.
  apply spec_save; [exact _|by right|done|done|]. intros Hok. rewrite put_journal by done. auto.
Qed.

(** ** What a computation yields *)
Definition yields {A} (R : A → Prop) (m : DepM H A) : Prop := ∀ s a, (m s).2 = Ok a → R a.
Lemma yields_bind {A B} (R : B → Prop) (m : DepM H A) (f : A → DepM H B) : (∀ a, yields R (f a)) → yields R (m ≫= f).
Proof using.
  intros Hf s b. unfold mbind, depm_bind, dep_bind. destruct (m s) as [s1 [a|e]]; [apply Hf|done].
Qed.
Lemma yields_impl {A} (Q R : A → Prop) (m : DepM H A) : yields Q m → (∀ a, Q a → R a) → yields R m.
Proof using. intros Hm HR s a Ha. by eapply HR, Hm. Qed.
Lemma yields_known {A B} (Q : A → Prop) (R : B → Prop) (m : DepM H A) (f : A → DepM H B) :
  yields Q m → (∀ a, Q a → yields R (f a)) → yields R (m ≫= f).
Proof using.
  intros Hm Hf s b. unfold mbind, depm_bind, dep_bind. specialize (Hm s). destruct (m s) as [s1 [a|e]]; [|done].
  apply Hf. by apply Hm.
Qed.
Lemma yields_from_res {A} (R : A → Prop) (r : res string A) : (∀ a, r = Ok a → R a) → yields R (from_res r).
Proof using. intros Hr s a. destruct r; [|done]. intros [= <-]. by apply Hr. Qed.
Lemma spec_still {A} P v j (m : DepM H A) R : still m → yields R m → P v →
  spec P v j m (λ a v' j', R a ∧ v' = v ∧ j' = j) (λ _ v' _, P v').
Proof using.
  intros Hm HR HP s Hv Ho Hj. destruct (still_apart layout m Hm s) as [Hp Hj']. rewrite Hv in Hp.
  split; [eapply passes_impl; [|exact Hp]; simpl; by intros ? ->|].
  destruct Hp as (_ & ? & _ & _ & ->). rewrite Hj', Hj. destruct (m s).2 eqn:E; [|done]. split_and!; [by eapply HR|done..].
Qed.

(** The manager of a preview is the one that was detected. *)
Definition plain_manager (a : ManagerAvailability) : Prop := plain (ma_Manager a) = true ∧ plain (ma_ServiceDefinition a) = true.
Lemma finishPreview_ok p q : finishPreview p = Ok q → q = p.
Proof using. unfold finishPreview. destruct (validate_preview p); [|done]. by intros [= <-]. Qed.
Lemma basePreview_manager request manifest desired artifact a state journal present instance p :
  basePreview layout request manifest desired artifact a state journal present instance = Ok p → dp_Manager p = a.
Proof using. unfold basePreview. destruct (VersionDir _ _); [|done]. repeat (destruct (SupportFilePath _ _ _); [|done]). by intros [= <-]. Qed.
Ltac yields_manager :=
  repeat first
    [ apply yields_bind; intros ?
    | apply yields_from_res; unfold finishBlockedPreview, finishRecoveryUnavailable; intros ? ->%finishPreview_ok; done
    | match goal with |- yields _ (match ?x with _ => _ end) => destruct x end ].
Lemma yields_classifyJournal p d a j : yields (λ q, dp_Manager q = dp_Manager p) (classifyJournalPreview lifecycle p d a j).
Proof using. unfold classifyJournalPreview. yields_manager. Qed.
Lemma yields_classifyState p d a st : yields (λ q, dp_Manager q = dp_Manager p) (classifyStatePreview lifecycle p d a st).
Proof using. unfold classifyStatePreview. yields_manager. Qed.
Lemma yields_Detect b st : yields plain_manager (host (Detect b st)).
Proof using HostLaws0.
  intros s a. pose proof (Detect_plain b st (m_world s) (m_host s)) as Hd. unfold host.
  destruct (Detect b st _) as [[w h] r]. apply Hd.
Qed.
Lemma yields_snapshot request manifest desired artifact present instance :
  yields (λ p, plain_manager (dp_Manager p)) (previewSnapshotWithInstance lifecycle request manifest desired artifact present instance).
Proof using HostLaws0.
  unfold previewSnapshotWithInstance. apply yields_bind. intros _. eapply yields_known; [apply yields_Detect|]. intros a Ha.
  do 4 (apply yields_bind; intros ?). eapply yields_known; [apply yields_from_res, basePreview_manager|]. intros p <-.
  apply yields_bind. intros installed.
  eapply (yields_impl (λ q, dp_Manager q = dp_Manager p)); [|by intros q ->].
  yields_manager; first [apply yields_classifyJournal|apply yields_classifyState].
Qed.
Lemma yields_confirmed request manifest desired artifact present instance :
  yields (λ p, plain_manager (dp_Manager p)) (confirmed_snapshot lifecycle request manifest desired artifact present instance).
Proof using HostLaws0.
  unfold confirmed_snapshot. eapply yields_known; [apply yields_snapshot|]. intros p Hp. apply yields_bind. intros _ s q.
  by intros [= <-].
Qed.
Lemma still_confirmed request manifest desired artifact present instance :
  still (confirmed_snapshot lifecycle request manifest desired artifact present instance).
Proof using ReadOnlyHost0 ReadOnlyPreviewHost0.
  unfold confirmed_snapshot. still; [apply still_snapshot; exact _|apply still_confirm].
Qed.

Section request.
Context (inputs : PreviewRequest) (desired : InstalledRelease) (prior : option DeploymentState).
Abbreviation commit J := (committedApplyState layout J desired).

(** What a crash during the apply of [desired] over [prior] can leave. *)
Definition apply_view (v : view) : Prop :=
  (v.2 = None ∧ prior_file o prior v.1) ∨
  ∃ J, apply_of prior desired J ∧ crash_view o J (prior_file o prior) (commit J) v.
Definition apply_done (r : ApplyResult) (v : view) (_ : DeploymentJournal) : Prop :=
  v.2 = None ∧ is_file o v.1 (indentedJSON (ar_State r)) ∧
  (prior = Some (ar_State r) ∧ ds_Active (ar_State r) = Some desired ∨
   ∃ J, apply_of prior desired J ∧ ar_State r = commit J).
(** The strings of the request are printable. *)
Definition plain_inputs : Prop :=
  plain (pq_ArtifactPath inputs) = true ∧ plain (pq_LicensePath inputs) = true ∧ plain (pq_NoticePath inputs) = true ∧
  wire_plain desired = true.
Definition plain_prior : Prop := ∀ st, prior = Some st → wire_plain st = true.
(** Where an apply can start: no transaction, or one of its own. *)
Definition apply_ready (v : view) : Prop := apply_view v ∧ (v.2 = None → prior_file o prior v.1).
Context (Hplain : plain_inputs) (Hprior : plain_prior).

Lemma apply_done_view r v j : apply_done r v j → apply_view v.
Proof using.
  intros (Hn & Hf & [[Hp _]|(J & Hof & HC)]); [left|right].
  - split; [done|]. by rewrite Hp.
  - exists J. split; [done|]. left. split; [done|right]. unfold committed. by rewrite <- HC.
Qed.
Lemma apart_initialize : apart initialize_instance.
Proof using HostLaws0. unfold initialize_instance. apart. Qed.
Lemma spec_apply_transaction J v j : apply_of prior desired J →
  started o J (prior_file o prior) (commit J) v j →
  spec apply_view v j (run_or_restore_apply lifecycle initialize_instance attestConfirmedInitializationLease)
    apply_done (λ _ v' _, apply_view v').
Proof using GoodLayout0 HostLaws0.
  intros Hof Hst. eapply spec_impl; [apply spec_run_or_restore_apply; [exact _|exact _|apply apart_initialize|apply apart_attest|exact Hof|done]|..].
  - intros v' Hv'. right. by exists J.
  - intros r v' j' [[Hn Hc] Hr]. split_and!; [done|by rewrite Hr|]. right. by exists J.
  - intros e v' j' Hv'. right. by exists J.
Qed.
(** A journal in its first phase, on the way to the disk. *)
Lemma planned_journal J (v : view) : apply_of prior desired J → dj_Phase J = PhasePlanned → prior_file o prior v.1 →
  spec apply_view (v.1, saved o (indentedJSON J)) J
    (run_or_restore_apply lifecycle initialize_instance attestConfirmedInitializationLease)
    apply_done (λ _ v' _, apply_view v') ∧ apply_view (v.1, saved o (indentedJSON J)).
Proof using GoodLayout0 HostLaws0.
  intros Hof Hph Hp. assert (EJ : at_phase J PhasePlanned = J) by (destruct J; simpl in *; by subst).
  assert (Hr : running o J (prior_file o prior) (commit J) PhasePlanned (v.1, saved o (indentedJSON J))).
  { split_and!; [done|done| |by left]. unfold journal_at. rewrite EJ. apply saved_is_file. }
  split.
  - apply (spec_apply_transaction J); [done|]. left. exists PhasePlanned. by rewrite EJ.
  - right. exists J. split; [done|]. by eapply running_crash.
Qed.

Lemma apart_recorded_ok state : apart (recorded_ok state desired).
Proof using ReadOnlyHost0. apply still_apart, still_recorded_ok; exact _. Qed.
Hint Resolve apart_recorded_ok : apart.

(** ** Resuming *)
Lemma wire_plain_rebound J : wire_plain J = true → wire_plain (rebound J inputs) = true.
Proof using Hplain.
  destruct Hplain as (Ha & Hl & Hn & _). rewrite !wire_plain_journal. simpl. rewrite Ha, Hl, Hn. intros Hw. unbool.
  by rewrite ?andb_true_iff, ?Z.leb_le.
Qed.
Lemma spec_resume_apply availability Jl v j : apply_view v → stored o DeploymentJournal v.2 (validate_journal layout) Jl →
  spec apply_view v j (resume_apply lifecycle inputs desired availability Jl) apply_done (λ _ v' _, apply_view v').
Proof using Hplain GoodLayout0 HostLaws0 ReadOnlyHost0.
  intros Hv Hl. pose proof Hv as [[Hn _]|(J & Hof & Hcr)]; [by apply stored_some in Hl|].
  assert (Hst : started o J (prior_file o prior) (commit J) v Jl) by (apply (found_started lifecycle); [apply Hof|done|done]).
  unfold resume_apply. eapply spec_bind; [by apply (spec_set _ _ _ _ _ _ (λ _ v' j', v' = v ∧ j' = Jl))|]. intros ? ? ? [-> ->].
  unfold same_transaction, same_manager. do 3 (apply spec_idle; [apart|done|]; intros _).
  apply spec_idle; [apply still_apart, still_loadPreviewState|done|]. intros current.
  apply spec_idle; [apart|done|]. intros _.
  destruct (String.eqb_spec (dj_Phase Jl) PhasePlanned) as [Hph|Hph]; [destruct (_ || _)|]; cbn [andb].
  2,3: eapply spec_bind; [by apply (spec_ret _ _ _ _ _ _ (λ _ v' j', v' = v ∧ j' = Jl))|]; intros ? ? ? [-> ->];
    by apply (spec_apply_transaction J).
  destruct Hst as [(phase & -> & Hr)|[-> _]]; [|done]. simpl in Hph. subst phase.
  set (J' := rebound _ inputs).
  assert (Hof' : apply_of prior desired J').
  { destruct Hof as (? & ? & ? & ?). split_and!; [done..|]. by apply wire_plain_rebound, wire_plain_phase. }
  assert (Hp : prior_file o prior v.1) by (destruct Hr as (_ & _ & _ & [?|[[=] _]]); done).
  destruct (planned_journal J' v) as [Hrun Hv']; [done..|].
  eapply spec_bind; [by apply spec_record_journal|]. by intros ? ? ? (-> & -> & _).
Qed.

(** ** Starting *)
Lemma spec_idempotent state (v : view) j a l n attest : apart attest → v.2 = None → prior_file o prior v.1 → prior = Some state →
  ds_Active state = Some desired →
  spec apply_view v j (validateIdempotentApply lifecycle state a l n attest) apply_done (λ _ v' _, apply_view v').
Proof using GoodLayout0 HostLaws0.
  intros Hat Hn Hp Hpr Hd. assert (Hv : apply_view v) by by left. unfold validateIdempotentApply. rewrite Hd.
  do 2 (apply spec_idle; [apart|done|]; intros _). apply spec_idle; [apart|done|]. intros _.
  eapply (spec_bind _ _ _ _ _ _ _ _ _ (λ r v' j', ar_State r = state ∧ v' = v ∧ j' = j)).
  { apply spec_from_res; [done| |done]. unfold resultForState. intros r. destruct (deploymentLocatorForState _ _); [|done].
    by intros [= <-]. }
  intros r ? ? (Hr & -> & ->). apply spec_idle; [done|done|]. intros _. apply spec_ret; [done|].
  rewrite Hpr in Hp. split_and!; [done|by rewrite Hr|]. left. by rewrite Hr.
Qed.
Lemma fresh_journal_of availability id : plain (ma_Manager availability) = true → plain (ma_ServiceDefinition availability) = true →
  plain id = true →
  apply_of prior desired (Mk_DeploymentJournal DeploymentStateVersion id OperationApply PhasePlanned (ma_Manager availability)
    (ma_ServiceDefinition availability) (pq_ArtifactPath inputs) (pq_LicensePath inputs) (pq_NoticePath inputs) (Some desired) prior).
Proof using Hplain Hprior.
  intros Hm Hs Hid. split_and!; [done..|]. destruct Hplain as (Ha & Hl & Hn & Hd). rewrite wire_plain_journal. simpl.
  rewrite Hid, Hm, Hs, Ha, Hl, Hn, (wire_plain_option desired), Hd. destruct prior as [st|] eqn:E; [|done].
  by rewrite (wire_plain_option st), Hprior.
Qed.
Lemma spec_start_apply availability (v : view) j : v.2 = None → prior_file o prior v.1 →
  plain (ma_Manager availability) = true → plain (ma_ServiceDefinition availability) = true →
  spec apply_view v j (start_apply lifecycle inputs desired availability) apply_done (λ _ v' _, apply_view v').
Proof using Hplain Hprior GoodLayout0 HostLaws0 ReadOnlyHost0.
  intros Hn Hp Hm Hs. assert (Hv : apply_view v) by by left. unfold start_apply.
  eapply spec_bind; [by apply spec_loadPreviewState|]. intros st ? ? (Est & -> & ->).
  do 2 (apply spec_idle; [apart|done|]; intros _).
  set (fresh := newTransactionID ≫= _).
  assert (Hfresh : spec apply_view v j fresh apply_done (λ _ v' _, apply_view v')).
  { unfold fresh. rewrite Est. apply spec_idle; [apart|done|]. intros id. set (J := Mk_DeploymentJournal _ _ _ _ _ _ _ _ _ _ _).
    assert (Hok : validate_journal layout J = Ok tt → apply_of prior desired J).
    { intros Hok. apply fresh_journal_of; [done..|]. by apply (valid_journal_id lifecycle) in Hok. }
    eapply spec_bind; [apply spec_record_journal; [done|]|].
    { intros ?%Hok. by apply planned_journal. }
    intros ? ? ? (-> & -> & ?%Hok). destruct (planned_journal J v) as [Hrun Hv']; [done..|].
    eapply (spec_bind _ _ _ _ _ _ _ _ _ (λ _ v' j', v' = (v.1, saved o (indentedJSON J)) ∧ j' = J)); [by apply spec_injectCrash|].
    by intros ? ? ? [-> ->]. }
  destruct st as [state|]; [|done]. destruct (bool_decide_reflect (ds_Active state = Some desired)) as [Hd|]; [|done].
  destruct (String.eqb _ _); [|done]. cbn [andb]. by apply spec_idempotent; [apart|..].
Qed.
Lemma spec_apply_transaction_of availability v j : apply_ready v →
  plain (ma_Manager availability) = true → plain (ma_ServiceDefinition availability) = true →
  spec apply_view v j (apply_transaction lifecycle inputs desired availability) apply_done (λ _ v' _, apply_view v').
Proof using Hplain Hprior GoodLayout0 HostLaws0 ReadOnlyHost0.
  intros [Hv Hn] Hm Hs. unfold apply_transaction. eapply spec_bind; [by apply spec_loadPreviewJournal|].
  intros [J|] ? ? (-> & -> & HJ); [by apply spec_resume_apply|]. apply spec_start_apply; auto.
Qed.

(** ** The whole operation *)
Context (request : ApplyRequest) (manifest : ReleaseManifest) (artifact : ReleaseArtifact) (Hinputs : inputs = aq_preview request).
Lemma spec_releasing_lease {A} P v j (body : DepM H A) (QO : A → view → DeploymentJournal → Prop) :
  (∀ a v j, QO a v j → P v) → spec P v j body QO (λ _ v' _, P v') → spec P v j (releasing_lease body) QO (λ _ v' _, P v').
Proof using HostLaws0 LeaseLaws0 GoodLayout0.
  intros HQ Hb. unfold releasing_lease.
  eapply (spec_bind _ _ _ _ _ _ _ _ _ (λ r v' j', match r with Ok a => QO a v' j' | Err _ => P v' end)).
  { apply spec_tried. eapply spec_impl; [exact Hb|done..]. }
  intros r v' j' Hr. assert (HP : P v') by (destruct r; eauto). apply spec_idle; [apart|done|].
  intros [[]|e]; [|by apply spec_fail]. destruct r; [by apply spec_ret|by apply spec_fail].
Qed.
Lemma apart_lockedConfirmation state : apart (lockedConfirmationInstanceSnapshot lifecycle state).
Proof using ReadOnlyHost0 ReadOnlyPreviewHost0.
  apply still_apart. unfold lockedConfirmationInstanceSnapshot, onlyInitializationLockPresent.
  still; apply still_inspectPreviewInstance; exact _.
Qed.
Lemma apart_verifyConfirmation : apart (verifyApplyConfirmationInputs request desired).
Proof using ReadOnlyHost0 ReadOnlyPreviewHost0. apply still_apart, still_verifyConfirmation; exact _. Qed.
Lemma apart_preflight_destinations : apart (preflightDesiredReleaseDestinations lifecycle desired).
Proof using. apply still_apart, still_preflight; exact _. Qed.
Lemma apart_PrepareDeploymentStateDirectory : apart (on_files (PrepareDeploymentStateDirectory layout)).
Proof using GoodLayout0.
  eapply (apart_prepares lifecycle _ (λ o _ _, _)). intros ?. eapply prepares_wider; [|apply prepares_prepareLayoutDirectory].
  - by left.
  - by do 2 (apply elem_of_cons; right); apply elem_of_cons; left.
Qed.
Lemma spec_apply_leased present created confirmed v j : apply_ready v →
  spec apply_view v j (apply_leased lifecycle request manifest desired artifact present created confirmed) apply_done
    (λ _ v' _, apply_view v').
Proof using Hplain Hprior Hinputs GoodLayout0 HostLaws0 LeaseLaws0 ReadOnlyHost0 ReadOnlyPreviewHost0.
  intros Hr. pose proof Hr as [Hv _]. unfold apply_leased.
  apply spec_idle; [apart|done|]. intros _. apply spec_idle; [apply apart_verifyConfirmation|done|]. intros _.
  apply spec_idle; [apply apart_lockedConfirmation|done|]. intros snapshot. apply spec_idle; [apart|done|]. intros _.
  eapply spec_bind; [apply spec_still; [apply still_confirmed|apply yields_confirmed|done]|].
  intros final ? ? ([Hm Hs] & -> & ->). do 2 (apply spec_idle; [apart|done|]; intros _).
  rewrite <- Hinputs. by apply spec_apply_transaction_of.
Qed.
Lemma spec_apply_locked present bootstrap v j : apply_ready v →
  spec apply_view v j (apply_locked lifecycle request manifest desired artifact present bootstrap) apply_done
    (λ _ v' _, apply_view v').
Proof using Hplain Hprior Hinputs GoodLayout0 HostLaws0 LeaseLaws0 ReadOnlyHost0 ReadOnlyPreviewHost0.
  intros Hr. pose proof Hr as [Hv _]. unfold apply_locked, lease_instance.
  apply spec_idle; [apply apart_verifyConfirmation|done|]. intros _.
  apply spec_idle; [apply still_apart, still_confirmed|done|]. intros locked.
  apply spec_idle; [apply apart_preflight_destinations|done|]. intros _.
  apply spec_idle; [apply apart_PrepareDeploymentStateDirectory|done|]. intros _.
  apply spec_idle; [apart|done|]. intros created. apply spec_releasing_lease; [apply apply_done_view|]. by apply spec_apply_leased.
Qed.
Lemma apart_acquireDeploymentLock create : apart (acquireDeploymentFileLock lifecycle create).
Proof using GoodLayout0 HostLaws0.
  unfold acquireDeploymentFileLock. apart; first [by apply apart_open_lock|apply apart_fd].
Qed.
Lemma spec_apply_admitted v j : apply_ready v →
  spec apply_view v j (apply_admitted lifecycle request manifest desired artifact) apply_done (λ _ v' _, apply_view v').
Proof using Hplain Hprior Hinputs GoodLayout0 HostLaws0 LeaseLaws0 ReadOnlyHost0 ReadOnlyPreviewHost0.
  intros Hr. pose proof Hr as [Hv _]. unfold apply_admitted.
  apply spec_idle; [apply still_apart; still|done|]. intros stat.
  apply spec_idle; [|done|].
  - unfold acquireExistingDeploymentLock, acquireDeploymentLock. apart.
    all: first [by apply apart_acquireDeploymentLock|apply still_apart, still_confirmed|apply apart_verifyConfirmation|
                by apply apart_PrepareDeploymentLockRoot].
  - intros [[lock present] bootstrap]. apply spec_closing; [exact _|apply apply_done_view|]. by apply spec_apply_locked.
Qed.
Lemma spec_Apply v j : previewDesired lifecycle (aq_preview request) = Ok (manifest, desired, artifact) → apply_ready v →
  spec apply_view v j (Apply lifecycle request) apply_done (λ _ v' _, apply_view v').
Proof using Hplain Hprior Hinputs GoodLayout0 HostLaws0 LeaseLaws0 ReadOnlyHost0 ReadOnlyPreviewHost0.
  intros Hd Hr. pose proof Hr as [Hv _]. unfold Apply. rewrite Hd. apply spec_idle; [apart|done|]. intros _.
  eapply spec_bind; [by apply (spec_ret _ _ _ _ _ _ (λ x v' j', x = (manifest, desired, artifact) ∧ v' = v ∧ j' = j))|].
  intros ? ? ? (-> & -> & ->).
  apply spec_idle; [apply still_apart, still_preflight_apply; exact _|done|]. intros _.
  apply spec_idle; [apart|done|]. intros bootstrap. apply spec_closing; [exact _|apply apply_done_view|]. by apply spec_apply_admitted.
Qed.
End request.
End apply.

(** The runs that apply [desired]: each has its own request, since a run that resumes a
    transaction confirms another preview than the one that began it. *)
Definition applies {H : Type} `{!Host H, !PreviewHost H, !UnicodeCase, !BuildInfoReader} (lifecycle : Lifecycle)
    (desired : InstalledRelease) (op : DepM H ApplyResult) : Prop :=
  ∃ request manifest artifact, op = Apply lifecycle request ∧
    previewDesired lifecycle (aq_preview request) = Ok (manifest, desired, artifact) ∧
    plain_inputs (aq_preview request) desired.

Lemma apply_runs {H : Type} `{!Host H, !PreviewHost H, !ReadOnlyHost H, !ReadOnlyPreviewHost H, !UnicodeCase,
    !BuildInfoReader} (lifecycle : Lifecycle) (o : Z) (desired : InstalledRelease) (prior : option DeploymentState) (fs0 : files)
    `{!GoodLayout (lc_layout lifecycle), !HostLaws H (lc_layout lifecycle), !LeaseLaws H (lc_layout lifecycle)} :
  plain_prior prior → apply_ready lifecycle o desired prior (view_of (lc_layout lifecycle) fs0) →
  (∀ fs, restarts_any (H:=H) (lc_layout lifecycle) o (applies lifecycle desired) fs0 fs →
     apply_view lifecycle o desired prior (view_of (lc_layout lifecycle) fs)) ∧
  (∀ op (s : Machine H) r, applies lifecycle desired op →
     restarts_any (lc_layout lifecycle) o (applies lifecycle desired) fs0 (w_files (m_world s)) →
     runs_from (lc_layout lifecycle) o fs0 s → (op s).2 = Ok r →
     w_files (m_world (op s).1) !! ly_JournalPath (lc_layout lifecycle) = None ∧
     is_file o (w_files (m_world (op s).1) !! ly_StatePath (lc_layout lifecycle)) (indentedJSON (ar_State r)) ∧
     (prior = Some (ar_State r) ∧ ds_Active (ar_State r) = Some desired ∨
      ∃ J, apply_of prior desired J ∧ ar_State r = committedApplyState (lc_layout lifecycle) J desired)).
Proof.
  intros Hpr Hr. set (V := apply_view lifecycle o desired prior).
  assert (Hspec : ∀ op v j, applies lifecycle desired op → apply_ready lifecycle o desired prior v →
    spec (H:=H) (lc_layout lifecycle) o V v j op (apply_done lifecycle o desired prior) (λ _ v' _, V v')).
  { intros op v j (request & manifest & artifact & -> & Hd & Hpl) Hv. by eapply (spec_Apply lifecycle o (aq_preview request)). }
  assert (Hv : ∀ v, apply_ready lifecycle o desired prior v → V v) by (intros ? (? & _); done).
  assert (Ha : ∀ v, V v → v.2 ≠ None → ∀ v0, apply_ready lifecycle o desired prior v0 → apply_ready lifecycle o desired prior v)
    by (intros v ? ? ? _; split; done).
  split.
  - intros fs. by eapply restarts_view.
  - intros op s r Hop Hs Hf E. by eapply restarts_result in E; [|done..].
Qed.

(** C10. An apply is crash consistent.  From a deployment whose state file holds [prior],
    or that has none, with no transaction pending or with one that applies the same
    release over the same state, whatever system calls fail, whatever the service manager
    and the runtime answer, wherever the process is stopped and however often the release
    is applied again, with whatever confirmations: the metadata files hold the prior
    deployment, with or without a journal of this apply, or the state that journal
    commits, with a journal in one of its last two phases or with none.  A run that
    reports success has left no journal and, in the state file, the state it returns: the
    state some journal of this apply commits, or, when the release was active already,
    the prior state unchanged. *)
Theorem apply_crash_consistent {H : Type} `{!Host H, !PreviewHost H, !ReadOnlyHost H, !ReadOnlyPreviewHost H, !UnicodeCase,
    !BuildInfoReader} (lifecycle : Lifecycle) (o : Z) (desired : InstalledRelease) (prior : option DeploymentState) (fs0 : files)
    `{!GoodLayout (lc_layout lifecycle), !HostLaws H (lc_layout lifecycle), !LeaseLaws H (lc_layout lifecycle)} :
  plain_prior prior → apply_ready lifecycle o desired prior (view_of (lc_layout lifecycle) fs0) →
  (∀ fs, restarts_any (H:=H) (lc_layout lifecycle) o (applies lifecycle desired) fs0 fs →
     apply_view lifecycle o desired prior (view_of (lc_layout lifecycle) fs)) ∧
  (∀ op (s : Machine H) r, applies lifecycle desired op →
     restarts_any (lc_layout lifecycle) o (applies lifecycle desired) fs0 (w_files (m_world s)) →
     runs_from (lc_layout lifecycle) o fs0 s → (op s).2 = Ok r →
     w_files (m_world (op s).1) !! ly_JournalPath (lc_layout lifecycle) = None ∧
     is_file o (w_files (m_world (op s).1) !! ly_StatePath (lc_layout lifecycle)) (indentedJSON (ar_State r)) ∧
     (prior = Some (ar_State r) ∧ ds_Active (ar_State r) = Some desired ∨
      ∃ J, apply_of prior desired J ∧ ar_State r = committedApplyState (lc_layout lifecycle) J desired)).
Proof. apply apply_runs; exact _. Qed.

(** ** An installation, from the preview to the running service

    A host on which releases can be installed, with one service and one lease of the
    instance; the sample manifest is previewed on an empty home directory, confirmed and
    applied. *)

#[export] Instance no_build_info : BuildInfoReader := {| read_build_info _ := None |}.

(** ** The host *)
Definition sample_target : Target := Mk_Target "linux" "amd64".
Definition sample_pin : string := "9ad73c7b67e10ac00febdb8f142b7aaca0cb6b55b2e11df1e97edb77098b2fa9".
Definition sample_desired : InstalledRelease :=
  Mk_InstalledRelease "2.1.0" sample_revision "go1.25.0" "8c2f42d02a7df332861ca67357f2492ca4727f7318b93b4e94ea5826947817db"
    sample_pin "1" "1" "linux" "amd64"
    "/home/u/.local/share/jat/sshserver-deployment/versions/2.1.0/sshserver-linux-amd64"
    1024 (digest_of "a") 11358 (digest_of "5") 2048 (digest_of "6").
Record Desk := mkDesk { dk_service : Service; dk_leased : bool }.
Definition on_desk {A} (r : res derr A) : HostM Desk A := λ s, (s, r).
Definition with_service (f : Service → Service) : HostM Desk unit := λ '(w, h), ((w, mkDesk (f (dk_service h)) (dk_leased h)), Ok tt).
Definition desk_identity (path : option string) : res derr BuildIdentity :=
  if bool_decide (path = Some (ir_BinaryPath sample_desired)) then Ok (identity_of sample_desired) else Err ErrRuntimeUnavailable.
#[export] Instance desk_host : Host Desk := {
  Kind := ManagerSystemd;
  DefinitionPath := sample_definition;
  Detect _ _ := on_desk (Ok (Mk_ManagerAvailability ManagerSystemd true sample_definition None));
  InstallDefinition payload := λ '(w, h),
    ((w, mkDesk (mkService (Some payload) (sv_active (dk_service h))) (dk_leased h)), Ok sample_definition);
  Activate := with_service (λ h, mkService (sv_definition h) true);
  Stop := with_service (λ h, mkService (sv_definition h) false);
  RemoveService := with_service (λ _, mkService None false);
  IsActive := λ '(w, h), ((w, h), Ok (sv_active (dk_service h)));
  Inspect path := on_desk (desk_identity (Some path));
  stageArtifact _ dir name _ _ := on_desk (Ok (Join [dir; name]));
  verifyArtifact _ _ _ := on_desk (Ok tt);
  stageReleaseFile _ dir name _ _ := on_desk (Ok (Join [dir; name]));
  verifyReleaseFile _ _ _ := on_desk (Ok tt);
  verifyPreviewRelease _ := on_desk (Ok tt);
  renderService _ path _ := Ok path;
  probeRunning _ := λ '(w, h),
    ((w, h), if sv_active (dk_service h) then desk_identity (sv_definition (dk_service h)) else Err ErrRuntimeUnavailable);
  removeArtifacts _ := on_desk (Ok tt);
  lease_Initialize := λ '(w, h),
    ((w, h), if dk_leased h then Ok (Mk_Settings 1 (digest_of "0") (digest_of "0") DefaultListeners) else Err (Refused "not leased"));
  lease_Attest := λ '(w, h), ((w, h), if dk_leased h then Ok tt else Err (Refused "not leased"));
  flock _ := on_desk (Ok tt);
  funlock _ := on_desk (Ok tt);
  health_deadline := on_desk (Ok false) }.
Definition lease_path : string := Join [ly_StateDir sample_layout; ".instance.lock"].
#[export] Instance desk_preview : PreviewHost Desk := {
  verifySourceArtifact _ _ := on_desk (Ok tt);
  verifySourceReleaseFile _ _ _ := on_desk (Ok tt);
  validate_existing _ _ _ := on_desk (Ok tt);
  flock_shared _ := on_desk (Ok tt);
  acquireInstanceLease _ present := λ '(w, h),
    if (present : bool) then ((w, mkDesk (dk_service h) true), Ok false)
    else ((with_files (<[lease_path := Regular 384 (w_euid w) 1 ""]> (w_files w)) w, mkDesk (dk_service h) true), Ok true);
  close_lease := λ '(w, h), ((w, mkDesk (dk_service h) false), Ok tt) }.
#[export] Instance desk_read_only : ReadOnlyHost Desk.
Proof. by split. Qed.
#[export] Instance desk_preview_read_only : ReadOnlyPreviewHost Desk.
Proof. by split. Qed.
#[export] Instance desk_laws : HostLaws Desk sample_layout.
Proof.
  split; try (intros; intros w h; apply passes_refl; reflexivity).
  intros b s w h a [= <-]. by vm_compute.
Qed.
Lemma lease_path_apart : lease_path ≠ ly_StatePath sample_layout ∧ lease_path ≠ ly_JournalPath sample_layout.
Proof. by vm_compute. Qed.
#[export] Instance desk_lease_laws : LeaseLaws Desk sample_layout.
Proof.
  split; [|intros w h; by apply passes_refl]. intros [] w h; simpl; [by apply passes_refl|].
  destruct lease_path_apart as [Hs Hj]. apply passes_one; [reflexivity|].
  exact (view_insert_ne sample_layout lease_path _ (w_files w) Hs Hj).
Qed.

(** ** The request *)
Definition manifest_path : string := "/home/u/release.json".
Definition sample_request : PreviewRequest :=
  Mk_PreviewRequest manifest_path (indentedJSON sample_manifest) sample_pin "/home/u/sshserver" "/home/u/LICENSE" "/home/u/NOTICE".
Definition desk_world : World :=
  with_files (<[manifest_path := Regular 384 1000 1 (indentedJSON sample_manifest)]> (w_files home_world)) home_world.
Definition desk_machine : Machine Desk := mkMachine desk_world (mkDesk (mkService None false) false) sample_journal.
Lemma sample_request_desired :
  previewDesired sample_lifecycle sample_request = Ok (sample_manifest, sample_desired, sample_artifact sample_target "a").
Proof. vm_compute. reflexivity. Qed.

(** The preview of a first installation, and its confirmation. *)
Definition fresh_plan (base : res string DeploymentPreview) : res string DeploymentPreview :=
  match base with
  | Ok preview => finishPreview (with_plan preview PreviewFresh true "" (previewApplyActions preview None None))
  | Err e => Err e
  end.
Definition sample_preview : res string DeploymentPreview :=
  fresh_plan (basePreview sample_layout sample_request sample_manifest sample_desired (sample_artifact sample_target "a")
    (Mk_ManagerAvailability ManagerSystemd true sample_definition None) None None false
    (mkInstance "missing" (order_by sleb DefaultListeners) "" false)).
Definition sample_confirmation : string := "1ecd8932c3ada11cae66ccc7a6300dd5105b031403278d2092ccef41471a25ed".
(** Its bytes, when it is valid, printable, applicable, within the bound and has that digest. *)
Definition preview_checked (preview : DeploymentPreview) (payload : string) : bool :=
  wire_plain preview && dp_ApplyAllowed preview && (slen payload <=? maxDeploymentPreviewBytes) &&
  String.eqb (SHA256Hex payload) sample_confirmation.
Definition sample_checked : bool :=
  match sample_preview with
  | Ok preview => match preview_CanonicalBytes preview with Ok payload => preview_checked preview payload | Err _ => false end
  | Err _ => false
  end.
Lemma sample_checked_true : sample_checked = true.
Proof. vm_compute. reflexivity. Qed.
Lemma sample_preview_facts : ∃ preview payload, sample_preview = Ok preview ∧ preview_CanonicalBytes preview = Ok payload ∧
  validate_preview preview = Ok tt ∧ preview_checked preview payload = true.
Proof.
  pose proof sample_checked_true as Hc. unfold sample_checked in Hc. destruct sample_preview as [preview|e]; [|done].
  destruct (preview_CanonicalBytes preview) as [payload|e] eqn:E; [|done]. exists preview, payload.
  split_and!; [done|done| |done]. unfold preview_CanonicalBytes in E. by destruct (validate_preview preview) as [[]|].
Qed.
Definition refused {A} (r : res string A) : res derr A := match r with Ok a => Ok a | Err e => Err (Refused e) end.
Lemma sample_preview_taken : (TakePreview sample_lifecycle sample_request desk_machine).2 = refused sample_preview.
Proof. vm_compute. reflexivity. Qed.

(** The confirmed preview is applied; the machine ends with the release recorded as
    generation 1, no journal, and the service running it. *)
Definition sample_apply : ApplyRequest := Mk_ApplyRequest sample_request sample_confirmation.
Definition first_state : DeploymentState :=
  Mk_DeploymentState 1 1 StatusActive ManagerSystemd (ly_StateDir sample_layout) sample_definition (Some sample_desired) None.
Definition is_present (n : option node) : bool := match n with Some _ => true | None => false end.
Definition desk_outcome (run : Machine Desk * res derr ApplyResult) :
    option DeploymentState * option DeploymentState * (bool * bool) * (Service * bool) :=
  (match run.2 with Ok r => Some (ar_State r) | Err _ => None end,
   match (LoadState sample_layout run.1).2 with Ok st => Some st | Err _ => None end,
   (is_present (w_files (m_world run.1) !! ly_StatePath sample_layout),
    is_present (w_files (m_world run.1) !! ly_JournalPath sample_layout)),
   (dk_service (m_host run.1), dk_leased (m_host run.1))).
Example sample_apply_runs :
  desk_outcome (Apply sample_lifecycle sample_apply desk_machine) =
  (Some first_state, Some first_state, (true, false), (mkService (Some (ir_BinaryPath sample_desired)) true, false)).
Proof. vm_compute. reflexivity. Qed.
Lemma outcome_facts (s : Machine Desk) (run : Machine Desk * res derr ApplyResult) st service :
  desk_outcome run = (Some st, Some st, (true, false), service) → w_files (m_world s) !! ly_StatePath sample_layout = None →
  (∃ r, run.2 = Ok r ∧ ar_State r = st) ∧ ¬ unmoved (m_world s) (m_world run.1).
Proof.
  intros E Hs. destruct run as [s' r]. unfold desk_outcome in E. cbn [fst snd] in *. split.
  - destruct r as [r|]; [|discriminate]. exists r. injection E as <- _ _. done.
  - intros (Hu & _). rewrite Hu, Hs in E. discriminate.
Qed.
Lemma desk_empty : view_of sample_layout (w_files (m_world desk_machine)) = (None, None).
Proof. vm_compute. reflexivity. Qed.
Lemma desk_state_missing : w_files (m_world desk_machine) !! ly_StatePath sample_layout = None.
Proof. vm_compute. reflexivity. Qed.

Lemma sample_applies : applies (H:=Desk) sample_lifecycle sample_desired (Apply sample_lifecycle sample_apply).
Proof.
  exists sample_apply, sample_manifest, (sample_artifact sample_target "a").
  split_and!; [reflexivity|exact sample_request_desired|]. by vm_compute.
Qed.
Lemma sample_apply_ready : apply_ready sample_lifecycle 1000 sample_desired None
  (view_of sample_layout (w_files (m_world desk_machine))).
Proof. rewrite desk_empty. split; [left|]; done. Qed.
Lemma desk_runs_from : runs_from sample_layout 1000 (w_files (m_world desk_machine)) desk_machine.
Proof. split; [vm_compute; reflexivity|by left]. Qed.
Lemma no_prior_plain : plain_prior None.
Proof. done. Qed.
Lemma apply_crash_consistent_witness : ∃ r J,
  (Apply sample_lifecycle sample_apply desk_machine).2 = Ok r ∧ apply_of None sample_desired J ∧
  ar_State r = committedApplyState sample_layout J sample_desired.
Proof.
  destruct (outcome_facts desk_machine _ _ _ sample_apply_runs desk_state_missing) as [(r & E & _) _].
  destruct (proj2 (apply_crash_consistent sample_lifecycle 1000 sample_desired None _ no_prior_plain sample_apply_ready)
    _ desk_machine r sample_applies (restarts_nothing _ _ _ _) desk_runs_from E) as (_ & _ & [[Hp _]|(J & Hof & HC)]).
  - discriminate Hp.
  - exists r, J. exact (conj E (conj Hof HC)).
Defined.
Lemma preview_roundtrip_witness : ∃ preview payload, sample_preview = Ok preview ∧ ParseDeploymentPreview payload = Ok preview.
Proof.
  destruct sample_preview_facts as (preview & payload & Ep & Eb & _ & Hc). exists preview, payload. split; [exact Ep|].
  unfold preview_checked in Hc. apply andb_true_iff in Hc as [Hc _]. apply andb_true_iff in Hc as [Hc Hs].
  apply andb_true_iff in Hc as [Hw _]. apply Z.leb_le in Hs.
  exact (proj2 (preview_roundtrip payload preview) Eb Hw Hs).
Defined.
Lemma valid_preview_scope_witness : ∃ preview, sample_preview = Ok preview ∧
  psa_SudoRequired (pas_Scope (dp_Assertions preview)) = false.
Proof.
  destruct sample_preview_facts as (preview & payload & Ep & _ & Hv & _). exists preview. split; [exact Ep|].
  destruct (valid_preview_scope preview Hv) as (_ & _ & _ & Hs & _). exact Hs.
Defined.
