(* ===== verification/HttpProps.v ===== *)
(** * The transport: what reaches the data plane, and what every reply carries

    Theorems about [src/runtime/internal/httpapi/handler.go], against the interfaces of
    [Http.v]; the last section instantiates them with the store. *)

From stdpp Require Import base list strings gmap.
From Stdlib Require Import ZArith Lia Ascii.
From Stdlib Require String.
From S2P Require Import Prelude GoStd GoTime Uuid Release Json JsonFacts Api Wire Models Vectors NetIP Fs Config Http.
From S2P Require Import Accepted ConfigProps Schema Monad Snapshot Samples.
Local Open Scope Z_scope.

(** The framing the transport insists on. *)
Record well_framed (request : HttpRequest) : Prop := {
  wf_version : ProtoMajor request = 1 ∧ ProtoMinor request = 1;
  wf_origin_form : Scheme (URL request) = "" ∧ RawQuery (URL request) = "" ∧ ForceQuery (URL request) = false ∧
                   Fragment (URL request) = "" ∧ RawPath (URL request) = "";
  wf_method : HttpMethod request ≠ "CONNECT";
  wf_no_origin : HttpHeader request !! "Origin" = None;
  wf_no_upgrade : HeaderGet "Upgrade" request = "" ∧
                  headerContainsToken (HeaderValues "Connection" request) "upgrade" = false;
  wf_no_proxy : HeaderGet "Proxy-Connection" request = "";
  wf_no_stream : TransferEncoding request = [] ∧ Trailer request = ∅ ∧ HeaderGet "Expect" request = "" ∧
                 HeaderGet "Te" request = "";
  wf_length : 0 <= ContentLength request }.

Lemma validateTransport_framed request : validateTransport request = Ok tt → well_framed request.
Proof.
  unfold validateTransport. intros H.
  repeat (case_match_in H; [discriminate H|]). unbool. apply String.eqb_neq in E2.
  repeat match goal with H : String.eqb _ _ = true |- _ => apply String.eqb_eq in H end.
  repeat match goal with H : (_ =? _)%nat = true |- _ => apply Nat.eqb_eq in H end.
  split; try first [done | lia | split_and!; (done || lia)].
  - destruct (HttpHeader request !! "Origin"); [|done]. exfalso. eauto.
  - split_and!; try done. by destruct (TransferEncoding request).
Qed.

(** The body the data plane gets: none for GET, else the whole JSON body within the limit. *)
Definition admitted_body (request : HttpRequest) (body : string) : Prop :=
  (HttpMethod request = "GET" ∧ body = "" ∧ ContentLength request = 0 ∧ body_bytes (HttpBodyOf request) = "") ∨
  ((HttpMethod request = "POST" ∨ HttpMethod request = "PUT") ∧ 0 < ContentLength request ∧
   HeaderValues "Content-Type" request = ["application/json; charset=utf-8"] ∧
   body = body_bytes (HttpBodyOf request) ∧ 0 < slen body <= MaxBodyBytes).

Lemma slen_zero s : slen s = 0 → s = "".
Proof. destruct s; [done|]. unfold slen. simpl. lia. Qed.
Lemma requireEmptyBody_ok request : requireEmptyBody request = Ok tt →
  ContentLength request = 0 ∧ body_bytes (HttpBodyOf request) = "".
Proof.
  unfold requireEmptyBody. intros H. repeat (case_match_in H; [discriminate H|]). unbool.
  split; [done|]. by apply slen_zero.
Qed.
Lemma readJSONBody_ok request body : readJSONBody request = Ok body →
  (HttpMethod request = "POST" ∨ HttpMethod request = "PUT") ∧ 0 < ContentLength request ∧
  HeaderValues "Content-Type" request = ["application/json; charset=utf-8"] ∧
  body = body_bytes (HttpBodyOf request) ∧ 0 < slen body <= MaxBodyBytes.
Proof.
  unfold readJSONBody. intros H. repeat (case_match_in H; [discriminate H|]). injection H as <-. unbool.
  apply andb_false_iff in E. assert (0 <= slen (body_bytes (HttpBodyOf request))) by (unfold slen; lia).
  split_and!; try done; try lia.
  destruct E as [E|E]; unbool; apply String.eqb_eq in E; auto.
Qed.

Section transport.
Context {S : Type} `{!DataPlane S} `{!Readiness S} `{!Random S}.
Context (handler : HttpHandler) (conn : connection) (now : gotime).

(** The reply to a data-plane result. *)
Definition reply_of (requestID : string) (result : res Error Response) : HttpReply :=
  match result with
  | Ok r => writeJSONBytes conn (Status r) requestID (RBody r) (Some (Headers r))
  | Err e => writeProtocolError conn (ErrorStatus e) (Code e) (Retryable e) requestID
  end.
(** The two replies the transport gives on its own. *)
Definition health_body : string := marshalJSON (Mk_health "ok" "1").
Definition capabilities_body : string :=
  capabilitiesResponse (h_settings handler) (if h_dataPlane handler then capability_names else []).
(** An exchange that called the data plane once, with [r]. *)
Definition dispatched (request : HttpRequest) (s : S) (reply : HttpReply) (s' : S) (r : Request) : Prop :=
  h_dataPlane handler = true ∧ well_framed request ∧
  HeaderValues "Jat-Protocol-Version" request = ["1"] ∧
  HeaderValues "Jat-Request-Id" request = [RequestID r] ∧ valid_uuid (RequestID r) = true ∧
  HeaderValues "Authorization" request = [Authorization r] ∧
  Method r = HttpMethod request ∧ Path r = UrlPath (URL request) ∧ Now r = now ∧ admitted_body request (Body r) ∧
  reply = reply_of (RequestID r) (dp_HandleAPI r s).1 ∧ s' = (dp_HandleAPI r s).2.

Lemma RequestIDOrFallback_sole v s : valid_uuid v = true → RequestIDOrFallback [v] s = (v, s).
Proof. intros H. unfold RequestIDOrFallback. by rewrite H. Qed.
Lemma RequestIDOrFallback_state l s :
  (RequestIDOrFallback l s).2 = s ∨ (RequestIDOrFallback l s).2 = (rnd_Read 16 s).2.
Proof.
  unfold RequestIDOrFallback. destruct (rnd_Read 16 s) as [[r|] s1]; destruct l as [|v [|]]; auto;
    destruct (valid_uuid v); auto.
Qed.

Lemma serve_data_plane_cases request requestID s :
  well_framed request → HeaderValues "Jat-Protocol-Version" request = ["1"] →
  HeaderValues "Jat-Request-Id" request = [requestID] → valid_uuid requestID = true →
  let run := serve_data_plane handler conn now request requestID s in
  (∃ r, dispatched request s run.1 run.2 r) ∨
  (run.2 = s ∧ ∃ e, run.1 = writeProtocolError conn (ErrorStatus e) (Code e) (Retryable e) requestID).
Proof.
  intros Hw Hv Hid Hu run. unfold run, serve_data_plane.
  destruct (h_dataPlane handler) eqn:Hdp; simpl; [|right; split; [done|by exists (NewError "invalid_request" false)]].
  destruct (if String.eqb (HttpMethod request) "GET" then _ else _) as [body|e] eqn:Hb; [|right; split; eauto].
  assert (Hbody : admitted_body request body).
  { destruct (String.eqb_spec (HttpMethod request) "GET") as [Hget|_]; [left|right].
    - destruct (requireEmptyBody request) as [[]|] eqn:E; [|done]. injection Hb as <-.
      by apply requireEmptyBody_ok in E as [??].
    - by apply readJSONBody_ok. }
  destruct (HeaderValues "Authorization" request) as [|a [|]] eqn:Ha;
    try (right; split; [done|by exists (NewError "unauthorized" false)]).
  left. exists {| Method := HttpMethod request; Path := UrlPath (URL request); RequestID := requestID;
                  Authorization := a; Body := body; Now := now |}.
  unfold dispatched, reply_of. destruct (dp_HandleAPI _ s) as [[result|e] s']; by split_and!.
Qed.

(** Every exchange, case by case. *)
Lemma ServeHTTP_cases request s :
  let run := ServeHTTP handler conn now request s in
  (∃ r, dispatched request s run.1 run.2 r) ∨
  ∃ requestID,
    (requestID, run.2) = RequestIDOrFallback (HeaderValues "Jat-Request-Id" request) s ∧
      ((∃ e, run.1 = writeProtocolError conn (ErrorStatus e) (Code e) (Retryable e) requestID) ∨
       UrlPath (URL request) = "/v1/capabilities" ∧ run.1 = writeJSONBytes conn 200 requestID capabilities_body None) ∨
    HeaderValues "Jat-Request-Id" request = [requestID] ∧ valid_uuid requestID = true ∧
      UrlPath (URL request) = "/v1/healthz" ∧ run.2 = (rd_Ready s).2 ∧
      run.1 = (if (rd_Ready s).1 then writeJSONBytes conn 200 requestID health_body None
               else writeProtocolError conn 500 "internal_error" true requestID).
Proof.
  intros run. unfold run, ServeHTTP.
  destruct (RequestIDOrFallback (HeaderValues "Jat-Request-Id" request) s) as [fid s1] eqn:Hf.
  assert (Href : ∀ code, ∃ e, writeProtocolError conn (ErrorStatus (NewError code false)) code false fid =
    writeProtocolError conn (ErrorStatus e) (Code e) (Retryable e) fid) by (intros code; by exists (NewError code false)).
  destruct (validateTransport request) as [[]|] eqn:Ht;
    [|right; exists fid; left; split; [done|left; apply (Href "invalid_request")]].
  apply validateTransport_framed in Ht.
  destruct (HeaderValues "Jat-Protocol-Version" request) as [|version [|]] eqn:Hv;
    try (right; exists fid; left; split; [done|left; apply (Href "invalid_request")]).
  destruct (String.eqb version ""); [right; exists fid; left; split; [done|left; apply (Href "invalid_request")]|].
  destruct (String.eqb_spec version "1") as [->|]; simpl;
    [|right; exists fid; left; split; [done|left; apply (Href "unsupported_protocol")]].
  destruct (HeaderValues "Jat-Request-Id" request) as [|rid [|]] eqn:Hid;
    try (right; exists fid; left; split; [done|left; apply (Href "invalid_request")]).
  destruct (valid_uuid rid) eqn:Hu; simpl;
    [|right; exists fid; left; split; [done|left; apply (Href "invalid_request")]].
  rewrite RequestIDOrFallback_sole in Hf by done. injection Hf as <- <-.
  destruct (String.eqb_spec (UrlPath (URL request)) "/v1/healthz") as [Hpath|_].
  { right. exists rid. destruct (_ || _); [left; split; [done|left; apply (Href "invalid_request")]|].
    right. by destruct (rd_Ready s) as [[] s2]. }
  destruct (String.eqb_spec (UrlPath (URL request)) "/v1/capabilities") as [Hpath|_].
  { right. exists rid. left. destruct (_ || _); (split; [done|]); [left; apply (Href "invalid_request")|right; eauto]. }
  destruct (serve_data_plane_cases request rid s Ht Hv Hid Hu) as [?|[-> He]]; [by left|].
  right. exists rid. left. split; [done|by left].
Qed.

(** ** Replies *)

(** A reply of the V1 contract: written with exactly the V1 headers for this identifier
    and body, or, on a connection taken over, the bytes of that response up to where the
    peer stopped accepting them. *)
Definition v1_reply (requestID : string) (status : Z) (body : string) (reply : HttpReply) : Prop :=
  reply = Written status (v1_headers requestID body) body ∨
  ∃ n, conn = Hijack n ∧
    let bytes := retained_bytes status body (V1ResponseHeaders requestID (slen body)) in
    reply = Raw match n with Some k => stake k bytes | None => bytes end.

Lemma writeJSONBytes_v1 status requestID body headers :
  v1_reply requestID status body (writeJSONBytes conn status requestID body headers).
Proof.
  unfold writeJSONBytes. destruct headers as [headers|]; [|by left].
  case_bool_decide as E; [|by left]. subst headers. destruct conn as [|[k|]] eqn:Ec; [by left|..].
  - right. exists (Some k). by rewrite Ec.
  - right. exists None. by rewrite Ec.
Qed.

(** C28. The data plane is reached only through the transport's checks.  In every exchange
    either it is called exactly once, on a well-framed HTTP/1.1 origin-form request
    without Origin, upgrade, proxy or streaming, with protocol version 1, one canonical
    request identifier and one Authorization value, an empty body for GET and a JSON body
    of at most 4 MiB for POST and PUT, and the reply is its result; or it is not called,
    and nothing but a random draw or the readiness check touches the state behind it. *)
Theorem data_plane_gate (request : HttpRequest) (s : S) :
  let run := ServeHTTP handler conn now request s in
  (∃ r, dispatched request s run.1 run.2 r) ∨
  run.2 = s ∨ run.2 = (rnd_Read 16 s).2 ∨ run.2 = (rd_Ready s).2.
Proof.
  intros run. destruct (ServeHTTP_cases request s) as [?|(rid & [[E _]|(_ & _ & _ & E & _)])]; [by left| |auto].
  destruct (RequestIDOrFallback_state (HeaderValues "Jat-Request-Id" request) s) as [H|H];
    rewrite <- E in H; simpl in H; auto.
Qed.

(** The error envelope of a code of the protocol decodes to what was reported. *)
Lemma error_codes_plain code : code ∈ errorStatuses.*1 → ∀ b,
  plain code = true ∧ plain (ErrorMessage (NewError code b)) = true.
Proof.
  intros Hin b. assert (Hall : forallb (λ code, plain code && plain (ErrorMessage (NewError code true)))
    errorStatuses.*1 = true) by (vm_compute; reflexivity).
  rewrite forallb_forall in Hall. rewrite list_elem_of_In in Hin. apply Hall in Hin. by unbool.
Qed.
Definition error_body (requestID : string) (e : Error) : string :=
  marshalJSON (Mk_errorEnvelope (Mk_protocolError (Code e) (ErrorMessage e) (Retryable e) requestID)).
Lemma error_body_decodes requestID e : Code e ∈ errorStatuses.*1 → valid_uuid requestID = true →
  decodeStrictAs errorEnvelope (error_body requestID e) =
    Some (Mk_errorEnvelope (Mk_protocolError (Code e) (ErrorMessage e) (Retryable e) requestID)).
Proof.
  intros Hc Hid. destruct e as [code retryable]. simpl in Hc.
  destruct (error_codes_plain code Hc retryable) as [H1 H2]. pose proof (plain_uuid _ Hid) as H3.
  unfold error_body. change (Code {| Code := code; Retryable := retryable |}) with code.
  change (Retryable {| Code := code; Retryable := retryable |}) with retryable.
  change {| Code := code; Retryable := retryable |} with (NewError code retryable).
  generalize dependent (ErrorMessage (NewError code retryable)). intros message H2.
  apply decodeStrictAs_marshal; [vm_compute; discriminate|]. cbn -[plain]. by rewrite H1, H2, H3.
Qed.
Lemma writeProtocolError_v1 requestID e :
  v1_reply requestID (ErrorStatus e) (error_body requestID e)
    (writeProtocolError conn (ErrorStatus e) (Code e) (Retryable e) requestID).
Proof. by left. Qed.

Context `{!RandomLaws S}.
Lemma RequestIDOrFallback_valid l s : valid_uuid (RequestIDOrFallback l s).1 = true.
Proof.
  unfold RequestIDOrFallback.
  assert (Hf : valid_uuid (match rnd_Read 16 s with
    | (Some random, s') => (New (bytes_list random), s') | (None, s') => (zero_request_id, s') end).1 = true).
  { destruct (rnd_Read 16 s) as [[r|] s1] eqn:E; simpl; [|by vm_compute].
    apply rnd_Read_length in E. apply New_valid; [|apply bytes_list_byte].
    rewrite length_bytes_list. unfold slen in E. lia. }
  destruct l as [|v [|]]; try done. by destruct (valid_uuid v) eqn:E.
Qed.

(** C29. Every exchange is answered once, within the V1 contract: a reply has a canonical
    request identifier, which is the client's own when it sent exactly one; its headers are
    the fixed V1 set with the true body length and no date; the health reply is given on its
    path when the store is ready, the capabilities reply on its path, an answer of the data
    plane is passed on with its status and body, and any refusal is an error whose status is the
    one of its code and whose body strictly decodes to that code, its message and the
    request identifier. *)
Theorem reply_contract (request : HttpRequest) (s : S) :
  let run := ServeHTTP handler conn now request s in
  ∃ requestID status body,
    valid_uuid requestID = true ∧
    (∀ v, HeaderValues "Jat-Request-Id" request = [v] → valid_uuid v = true → requestID = v) ∧
    v1_reply requestID status body run.1 ∧
    (status = 200 ∧ UrlPath (URL request) = "/v1/healthz" ∧ (rd_Ready s).1 = true ∧ body = health_body ∨
     status = 200 ∧ UrlPath (URL request) = "/v1/capabilities" ∧ body = capabilities_body ∨
     (∃ r result, dispatched request s run.1 run.2 r ∧ (dp_HandleAPI r s).1 = Ok result ∧
                  status = Status result ∧ body = RBody result) ∨
     ∃ e, status = ErrorStatus e ∧
       (Code e ∈ errorStatuses.*1 →
        decodeStrictAs errorEnvelope body =
          Some (Mk_errorEnvelope (Mk_protocolError (Code e) (ErrorMessage e) (Retryable e) requestID)))).
Proof.
  intros run. destruct (ServeHTTP_cases request s) as [(r & Hd)|(rid & Hcase)].
  - pose proof Hd as (_ & _ & _ & Hid & Hu & _ & _ & _ & _ & _ & Hreply & _). fold run in Hreply, Hd.
    destruct (dp_HandleAPI r s) as [[result|e] s2] eqn:E; cbn [fst reply_of] in Hreply.
    + exists (RequestID r), (Status result), (RBody result). split_and!; [done|congruence| |].
      * rewrite Hreply. apply writeJSONBytes_v1.
      * right. right. left. exists r, result. by rewrite E.
    + exists (RequestID r), (ErrorStatus e), (error_body (RequestID r) e). split_and!; [done|congruence| |].
      * rewrite Hreply. apply writeProtocolError_v1.
      * right. right. right. exists e. split; [done|]. intros. by apply error_body_decodes.
  - assert (Hids : valid_uuid rid = true ∧ (∀ v, HeaderValues "Jat-Request-Id" request = [v] → valid_uuid v = true → rid = v)).
    { destruct Hcase as [[E _]|(E & Hu & _)]; [|split; [done|congruence]].
      apply (f_equal fst) in E. simpl in E. split; [rewrite E; apply RequestIDOrFallback_valid|].
      intros v Hv Hval. rewrite E, Hv, RequestIDOrFallback_sole by done. done. }
    destruct Hids as [Hv Hsame].
    assert (Herr : ∀ e, run.1 = writeProtocolError conn (ErrorStatus e) (Code e) (Retryable e) rid →
      v1_reply rid (ErrorStatus e) (error_body rid e) run.1) by (intros e ->; apply writeProtocolError_v1).
    assert (Hok : ∀ body, run.1 = writeJSONBytes conn 200 rid body None → v1_reply rid 200 body run.1)
      by (intros body ->; apply writeJSONBytes_v1).
    destruct Hcase as [[_ [[e He]|[Hpath Hb]]]|(_ & _ & Hpath & _ & Hr)].
    + exists rid, (ErrorStatus e), (error_body rid e). split_and!; eauto.
      right. right. right. exists e. split; [done|]. intros. by apply error_body_decodes.
    + exists rid, 200, capabilities_body. split_and!; eauto 8.
    + fold run in Hr. destruct (rd_Ready s).1.
      * exists rid, 200, health_body. split_and!; eauto 8.
      * exists rid, 500, (error_body rid (NewError "internal_error" true)). split_and!; eauto.
        -- by apply (Herr (NewError "internal_error" true)).
        -- right. right. right. exists (NewError "internal_error" true). split; [done|]. intros. by apply error_body_decodes.
Qed.
End transport.
