(* ===== verification/Constraints.v ===== *)
(** * The schema's constraints hold in every reachable database

    SQLite checks the CHECK clauses, the primary keys and the unique constraints on
    every INSERT and UPDATE; the statements of [Schema.v] do the same.  [db_ok] says
    that all of them hold of all rows of all tables, and every data-plane request
    keeps it, in the committed database as well as inside the transaction.  Other
    proofs use it to know, for instance, that a device identifier names one row. *)

From stdpp Require Import base list strings gmap.
From Stdlib Require Import ZArith Lia Ascii.
From S2P Require Import Prelude GoStd GoTime Api Json Wire Models Sql Schema Monad Keys SqlFacts Runtime.
From S2P Require Import Receipts Persist Envelope Devices Enrollment Collection Sync Snapshot Samples.
Local Open Scope Z_scope.

(** ** One table *)
Section table.
Context {R : Type} (ck : R → bool) (conflict : R → R → bool).
(** Every row satisfies its checks and no two rows share a key. *)
Inductive table_ok : list R → Prop :=
  | table_ok_nil : table_ok []
  | table_ok_cons r rows : ck r = true → (∀ q, q ∈ rows → conflict r q = false) → table_ok rows → table_ok (r :: rows).

Context (conflict_sym : ∀ r q, conflict r q = conflict q r).
Lemma table_ok_snoc r rows : table_ok rows → ck r = true → (∀ q, q ∈ rows → conflict r q = false) → table_ok (rows ++ [r]).
Proof using conflict_sym.
  induction 1 as [|r' rows Hr Hc Ht IH]; intros Hck Hn; simpl.
  - constructor; [done| |constructor]. intros q Hq. by apply elem_of_nil in Hq.
  - constructor; [done| |].
    + intros q [Hq| ->%list_elem_of_singleton]%elem_of_app; [auto|]. rewrite conflict_sym. apply Hn. left.
    + apply IH; [done|]. intros q Hq. apply Hn. by right.
Qed.
Lemma table_ok_insert r rows rows' : insert_row ck conflict r rows = Some rows' → table_ok rows → table_ok rows'.
Proof using conflict_sym. intros (-> & ? & ?)%insert_row_Some Ht. by apply table_ok_snoc. Qed.
Lemma table_ok_app a b : table_ok (a ++ b) ↔ table_ok a ∧ table_ok b ∧ ∀ x y, x ∈ a → y ∈ b → conflict x y = false.
Proof using.
  induction a as [|r a IH]; simpl.
  - split; [|by intros (_&?&_)]. intros H. split_and!; [constructor|done|]. intros x y Hx. by apply elem_of_nil in Hx.
  - split.
    + intros H. inversion H as [|? ? Hr Hc Ht]; subst. apply IH in Ht as (Ha & Hb & Hab). split_and!; [|done|].
      * constructor; [done| |done]. intros q Hq. apply Hc, elem_of_app. by left.
      * intros x y [->|Hx]%elem_of_cons Hy; [|auto]. apply Hc, elem_of_app. by right.
    + intros (Ha & Hb & Hab). inversion Ha as [|? ? Hr Hc Ht]; subst. constructor; [done| |].
      * intros q [Hq|Hq]%elem_of_app; [auto|]. apply Hab; [left|done].
      * apply IH. split_and!; [done..|]. intros x y Hx. apply Hab. by right.
Qed.
Lemma table_ok_update p f before after rows' : update_rows ck conflict p f before after = Some rows' →
  table_ok (before ++ after) → table_ok rows'.
Proof using conflict_sym.
  revert before. induction after as [|r after IH]; intros before; simpl.
  - intros [= <-]. by rewrite app_nil_r.
  - intros H Ht. destruct (p r); [|apply (IH _ H); by rewrite <- app_assoc].
    destruct (ck (f r)) eqn:Hck; [|done]. simpl in H.
    destruct (forallb _ _) eqn:Hf; [|done]. apply (IH _ H). rewrite forallb_forall in Hf.
    assert (Hn : ∀ q, q ∈ before ++ after → conflict (f r) q = false).
    { intros q Hq. by apply negb_true_iff, Hf, list_elem_of_In. }
    apply table_ok_app in Ht as (Hb & Hra & Hcross). inversion Hra as [|? ? _ _ Ha]; subst.
    rewrite <- app_assoc. apply table_ok_app. split_and!; [done| |].
    + constructor; [done| |done]. intros q Hq. apply Hn, elem_of_app. by right.
    + intros x y Hx [->|Hy]%elem_of_cons; [|apply Hcross; [done|by right]].
      rewrite conflict_sym. apply Hn, elem_of_app. by left.
Qed.
Lemma table_ok_delete p rows : table_ok rows → table_ok (delete_rows p rows).
Proof using.
  induction 1 as [|r rows Hr Hc Ht IH]; simpl; [constructor|]. unfold delete_rows in *. simpl.
  destruct (negb (p r)); [|done]. constructor; [done| |done]. intros q Hq.
  apply Hc. apply list_elem_of_In, filter_In in Hq as [Hq _]. by apply list_elem_of_In.
Qed.
Lemma table_ok_unique rows r q : table_ok rows → r ∈ rows → q ∈ rows → conflict r q = true → r = q.
Proof using conflict_sym.
  induction 1 as [|x rows Hx Hc Ht IH]; [by intros ?%elem_of_nil|].
  intros [->|Hr]%elem_of_cons [->|Hq]%elem_of_cons Hcon; [done|..|by apply IH].
  - by rewrite Hc in Hcon.
  - rewrite conflict_sym in Hcon. by rewrite Hc in Hcon.
Qed.
End table.

(** ** The database *)
Record db_ok (d : db) : Prop := {
  ok_instance_metadata : table_ok ck_instance_metadata conflict_instance_metadata (tb_instance_metadata d);
  ok_devices : table_ok ck_devices conflict_devices (tb_devices d);
  ok_device_origins : table_ok ck_device_origins conflict_device_origins (tb_device_origins d);
  ok_runtime_state : table_ok ck_runtime_state conflict_runtime_state (tb_runtime_state d);
  ok_device_sync_state : table_ok ck_device_sync_state conflict_device_sync_state (tb_device_sync_state d);
  ok_enrollment_grants : table_ok ck_enrollment_grants conflict_enrollment_grants (tb_enrollment_grants d);
  ok_enrollments : table_ok ck_enrollments conflict_enrollments (tb_enrollments d);
  ok_vault_envelope : table_ok ck_vault_envelope conflict_vault_envelope (tb_vault_envelope d);
  ok_revision_objects : table_ok ck_revision_objects conflict_revision_objects (tb_revision_objects d);
  ok_record_revisions : table_ok ck_record_revisions conflict_record_revisions (tb_record_revisions d);
  ok_revision_acceptance_origins : table_ok ck_revision_acceptance_origins conflict_revision_acceptance_origins (tb_revision_acceptance_origins d);
  ok_collection_records : table_ok ck_collection_records conflict_collection_records (tb_collection_records d);
  ok_record_heads : table_ok ck_record_heads conflict_record_heads (tb_record_heads d);
  ok_record_vector_index : table_ok ck_record_vector_index conflict_record_vector_index (tb_record_vector_index d);
  ok_collection_candidates : table_ok ck_collection_candidates conflict_collection_candidates (tb_collection_candidates d);
  ok_collection_markers : table_ok ck_collection_markers conflict_collection_markers (tb_collection_markers d);
  ok_change_origins : table_ok ck_change_origins conflict_change_origins (tb_change_origins d);
  ok_changes : table_ok ck_changes conflict_changes (tb_changes d);
  ok_operation_receipts : table_ok ck_operation_receipts conflict_operation_receipts (tb_operation_receipts d);
  ok_operation_receipt_retention : table_ok ck_operation_receipt_retention conflict_operation_receipt_retention (tb_operation_receipt_retention d);
  ok_token_rotations : table_ok ck_token_rotations conflict_token_rotations (tb_token_rotations d);
  ok_self_revocation_receipts : table_ok ck_self_revocation_receipts conflict_self_revocation_receipts (tb_self_revocation_receipts d);
  ok_snapshots : table_ok ck_snapshots conflict_snapshots (tb_snapshots d);
  ok_snapshot_pages : table_ok ck_snapshot_pages conflict_snapshot_pages (tb_snapshot_pages d);
  ok_snapshot_revision_refs : table_ok ck_snapshot_revision_refs conflict_snapshot_revision_refs (tb_snapshot_revision_refs d) }.

Ltac conflict_sym_tac :=
  intros; repeat first [apply cell_eqb_sym | apply Z.eqb_sym | apply (f_equal2 andb) | apply (f_equal2 orb) | reflexivity].
Lemma conflict_instance_metadata_sym r q : conflict_instance_metadata r q = conflict_instance_metadata q r.
Proof. unfold conflict_instance_metadata. conflict_sym_tac. Qed.
Lemma conflict_devices_sym r q : conflict_devices r q = conflict_devices q r.
Proof. unfold conflict_devices. conflict_sym_tac. Qed.
Lemma conflict_device_origins_sym r q : conflict_device_origins r q = conflict_device_origins q r.
Proof. unfold conflict_device_origins. conflict_sym_tac. Qed.
Lemma conflict_runtime_state_sym r q : conflict_runtime_state r q = conflict_runtime_state q r.
Proof. unfold conflict_runtime_state. conflict_sym_tac. Qed.
Lemma conflict_device_sync_state_sym r q : conflict_device_sync_state r q = conflict_device_sync_state q r.
Proof. unfold conflict_device_sync_state. conflict_sym_tac. Qed.
Lemma conflict_enrollment_grants_sym r q : conflict_enrollment_grants r q = conflict_enrollment_grants q r.
Proof. unfold conflict_enrollment_grants. conflict_sym_tac. Qed.
Lemma conflict_enrollments_sym r q : conflict_enrollments r q = conflict_enrollments q r.
Proof. unfold conflict_enrollments. conflict_sym_tac. Qed.
Lemma conflict_vault_envelope_sym r q : conflict_vault_envelope r q = conflict_vault_envelope q r.
Proof. unfold conflict_vault_envelope. conflict_sym_tac. Qed.
Lemma conflict_revision_objects_sym r q : conflict_revision_objects r q = conflict_revision_objects q r.
Proof. unfold conflict_revision_objects. conflict_sym_tac. Qed.
Lemma conflict_record_revisions_sym r q : conflict_record_revisions r q = conflict_record_revisions q r.
Proof. unfold conflict_record_revisions. conflict_sym_tac. Qed.
Lemma conflict_revision_acceptance_origins_sym r q : conflict_revision_acceptance_origins r q = conflict_revision_acceptance_origins q r.
Proof. unfold conflict_revision_acceptance_origins. conflict_sym_tac. Qed.
Lemma conflict_collection_records_sym r q : conflict_collection_records r q = conflict_collection_records q r.
Proof. unfold conflict_collection_records. conflict_sym_tac. Qed.
Lemma conflict_record_heads_sym r q : conflict_record_heads r q = conflict_record_heads q r.
Proof. unfold conflict_record_heads. conflict_sym_tac. Qed.
Lemma conflict_record_vector_index_sym r q : conflict_record_vector_index r q = conflict_record_vector_index q r.
Proof. unfold conflict_record_vector_index. conflict_sym_tac. Qed.
Lemma conflict_collection_candidates_sym r q : conflict_collection_candidates r q = conflict_collection_candidates q r.
Proof. unfold conflict_collection_candidates. conflict_sym_tac. Qed.
Lemma conflict_collection_markers_sym r q : conflict_collection_markers r q = conflict_collection_markers q r.
Proof. unfold conflict_collection_markers. conflict_sym_tac. Qed.
Lemma conflict_change_origins_sym r q : conflict_change_origins r q = conflict_change_origins q r.
Proof. unfold conflict_change_origins. conflict_sym_tac. Qed.
Lemma conflict_changes_sym r q : conflict_changes r q = conflict_changes q r.
Proof. unfold conflict_changes. conflict_sym_tac. Qed.
Lemma conflict_operation_receipts_sym r q : conflict_operation_receipts r q = conflict_operation_receipts q r.
Proof. unfold conflict_operation_receipts. conflict_sym_tac. Qed.
Lemma conflict_operation_receipt_retention_sym r q : conflict_operation_receipt_retention r q = conflict_operation_receipt_retention q r.
Proof. unfold conflict_operation_receipt_retention. conflict_sym_tac. Qed.
Lemma conflict_token_rotations_sym r q : conflict_token_rotations r q = conflict_token_rotations q r.
Proof. unfold conflict_token_rotations. conflict_sym_tac. Qed.
Lemma conflict_self_revocation_receipts_sym r q : conflict_self_revocation_receipts r q = conflict_self_revocation_receipts q r.
Proof. unfold conflict_self_revocation_receipts. conflict_sym_tac. Qed.
Lemma conflict_snapshots_sym r q : conflict_snapshots r q = conflict_snapshots q r.
Proof. unfold conflict_snapshots. conflict_sym_tac. Qed.
Lemma conflict_snapshot_pages_sym r q : conflict_snapshot_pages r q = conflict_snapshot_pages q r.
Proof. unfold conflict_snapshot_pages. conflict_sym_tac. Qed.
Lemma conflict_snapshot_revision_refs_sym r q : conflict_snapshot_revision_refs r q = conflict_snapshot_revision_refs q r.
Proof. unfold conflict_snapshot_revision_refs. conflict_sym_tac. Qed.
Create HintDb constraints.
#[export] Hint Resolve conflict_instance_metadata_sym conflict_devices_sym conflict_device_origins_sym : constraints.
#[export] Hint Resolve conflict_runtime_state_sym conflict_device_sync_state_sym conflict_enrollment_grants_sym : constraints.
#[export] Hint Resolve conflict_enrollments_sym conflict_vault_envelope_sym conflict_revision_objects_sym : constraints.
#[export] Hint Resolve conflict_record_revisions_sym conflict_revision_acceptance_origins_sym conflict_collection_records_sym : constraints.
#[export] Hint Resolve conflict_record_heads_sym conflict_record_vector_index_sym conflict_collection_candidates_sym : constraints.
#[export] Hint Resolve conflict_collection_markers_sym conflict_change_origins_sym conflict_changes_sym : constraints.
#[export] Hint Resolve conflict_operation_receipts_sym conflict_operation_receipt_retention_sym conflict_token_rotations_sym : constraints.
#[export] Hint Resolve conflict_self_revocation_receipts_sym conflict_snapshots_sym conflict_snapshot_pages_sym : constraints.
#[export] Hint Resolve conflict_snapshot_revision_refs_sym : constraints.

(** A statement that keeps the constraints. *)
Definition stmt_ok (f : db → option db) : Prop := ∀ d d', f d = Some d' → db_ok d → db_ok d'.
Lemma empty_db_ok : db_ok empty_db.
Proof. split; constructor. Qed.
Ltac head_of_stmt t := lazymatch t with ?f _ => head_of_stmt f | _ => t end.
Ltac unfold_stmt H :=
  cbv beta in H; try (lazymatch type of H with ?f = Some _ => let h := head_of_stmt f in unfold h in H end).
Ltac table_tac :=
  first [ assumption
        | eapply table_ok_insert; [solve [auto with constraints nocore]|eassumption|assumption]
        | eapply table_ok_update; [solve [auto with constraints nocore]|eassumption|assumption]
        | apply table_ok_delete; assumption
        | constructor ].
Ltac stmt_tac :=
  let d := fresh "d" in let d' := fresh "d'" in let H := fresh "H" in let Hok := fresh "Hok" in
  intros d d' H Hok; destruct Hok;
  do 2 (unfold_stmt H; repeat (case_match_in H; try discriminate H));
  injection H as <-; split; cbn; table_tac.

(** ** Runs *)
Definition constrained : relation St := λ s s',
  db_ok (st_db s) ∧ db_ok (st_tx s) → db_ok (st_db s') ∧ db_ok (st_tx s').
#[export] Instance constrained_preorder : PreOrder constrained.
Proof. split; [intros s H; exact H|]. intros s1 s2 s3 H1 H2 H. apply H2, H1, H. Qed.
Lemma same_state_constrained s s' : same_state s s' → constrained s s'.
Proof. intros (E1 & E2 & _). unfold constrained. by rewrite E1, E2. Qed.
Lemma constrained_exec {E} (e : E) f : stmt_ok f → Pres constrained (exec e f).
Proof.
  intros Hf s. unfold constrained, exec, tick, mbind, M_bind, read_tx, from_option, write_tx, mret, M_ret, throw.
  destruct (st_faults s) as [|[] ?]; simpl; [|done|]; destruct (f (st_tx s)) eqn:Ef; simpl; try done;
    intros [? ?]; (split; [done|]); by eapply Hf.
Qed.
Lemma constrained_begin {E} (e : E) : Pres constrained (begin_tx e).
Proof.
  intros s. unfold constrained, begin_tx, tick, mbind, M_bind, throw. by destruct (st_faults s) as [|[] ?]; simpl; intros [? ?].
Qed.
Lemma constrained_commit {E} (e : E) : Pres constrained (commit_tx e).
Proof.
  intros s. unfold constrained, commit_tx, tick, mbind, M_bind, throw. by destruct (st_faults s) as [|[] ?]; simpl; intros [? ?].
Qed.
Lemma constrained_on_error {E A} (m : M E A) cleanup :
  Pres constrained m → Pres constrained cleanup → Pres constrained (on_error m cleanup).
Proof.
  intros Hm Hc s. specialize (Hm s). unfold on_error. destruct (m s) as [[a|e] s1]; [done|]. simpl in *.
  etrans; [exact Hm|apply Hc].
Qed.
Ltac constrain_step :=
  lazymatch goal with
  | |- Pres constrained (query _ _) => apply pres_query; [apply _|apply same_state_constrained]
  | |- Pres constrained (select_db _) => apply pres_query; [apply _|apply same_state_constrained]
  | |- Pres constrained (rand_read _ _) => apply pres_rand_read; apply same_state_constrained
  | |- Pres constrained (exec _ _) => apply constrained_exec; solve [auto with constraints nocore | stmt_tac]
  | |- Pres constrained (exec_db _) => apply constrained_exec; solve [auto with constraints nocore | stmt_tac]
  | |- Pres constrained (begin_tx _) => apply constrained_begin
  | |- Pres constrained beginTransaction => apply constrained_begin
  | |- Pres constrained (commit_tx _) => apply constrained_commit
  | |- Pres constrained commitTransaction => apply constrained_commit
  | |- Pres constrained (on_error _ _) => apply constrained_on_error
  | |- Pres constrained (set_eph _) => let s := fresh in let H := fresh in intros s H; exact H
  | |- Pres constrained _ =>
      first [ pres_step (auto with constraints nocore)
            | apply (pres_weaken same_state _ _ same_state_constrained); solve [auto with reads nocore] ]
  end.
Ltac constrain := repeat constrain_step.

Lemma constrained_checkpointUptimeTx a : Pres constrained (checkpointUptimeTx a).
Proof. unfold checkpointUptimeTx. constrain. Qed.
#[export] Hint Resolve constrained_checkpointUptimeTx : constraints.
Lemma constrained_commitUptimeTransaction a : Pres constrained (commitUptimeTransaction a).
Proof. unfold commitUptimeTransaction. constrain. Qed.
#[export] Hint Resolve constrained_commitUptimeTransaction : constraints.
Lemma constrained_setServerCursor a : Pres constrained (setServerCursor a).
Proof. unfold setServerCursor. constrain. Qed.
#[export] Hint Resolve constrained_setServerCursor : constraints.
Lemma constrained_insertChange a b c d e f g h : Pres constrained (insertChange a b c d e f g h).
Proof. unfold insertChange, insertChangeOrigin. constrain. Qed.
#[export] Hint Resolve constrained_insertChange : constraints.
Lemma constrained_pruneOperationReceipts a b c d e : Pres constrained (pruneOperationReceipts a b c d e).
Proof. unfold pruneOperationReceipts. constrain. Qed.
#[export] Hint Resolve constrained_pruneOperationReceipts : constraints.
Lemma constrained_storeReceiptAtUptime a b c d e f g : Pres constrained (storeReceiptAtUptime a b c d e f g).
Proof. unfold storeReceiptAtUptime. constrain. Qed.
#[export] Hint Resolve constrained_storeReceiptAtUptime : constraints.
Lemma constrained_storeReceipt a b c d e f : Pres constrained (storeReceipt a b c d e f).
Proof. unfold storeReceipt. constrain. Qed.
#[export] Hint Resolve constrained_storeReceipt : constraints.
Lemma constrained_put_envelope_write a b c d e f g : Pres constrained (put_envelope_write a b c d e f g).
Proof. unfold put_envelope_write. constrain. Qed.
#[export] Hint Resolve constrained_put_envelope_write : constraints.
Lemma constrained_handlePutEnvelope a b : Pres constrained (handlePutEnvelope a b).
Proof. unfold handlePutEnvelope. constrain. Qed.
#[export] Hint Resolve constrained_handlePutEnvelope : constraints.
Lemma constrained_handleGetEnvelope a b : Pres constrained (handleGetEnvelope a b).
Proof. unfold handleGetEnvelope. constrain. Qed.
#[export] Hint Resolve constrained_handleGetEnvelope : constraints.
Lemma constrained_handleListDevices a b : Pres constrained (handleListDevices a b).
Proof. unfold handleListDevices. constrain. Qed.
#[export] Hint Resolve constrained_handleListDevices : constraints.
Lemma constrained_handleRevokeDevice a b c : Pres constrained (handleRevokeDevice a b c).
Proof. unfold handleRevokeDevice, revoke_again, revoke_active, revoke_mark, self_receipt. constrain. Qed.
#[export] Hint Resolve constrained_handleRevokeDevice : constraints.
Lemma constrained_handleTokenRotation a b : Pres constrained (handleTokenRotation a b).
Proof. unfold handleTokenRotation, rotation_apply. constrain. Qed.
#[export] Hint Resolve constrained_handleTokenRotation : constraints.
Lemma constrained_enrollment_admit a b c : Pres constrained (enrollment_admit a b c).
Proof. unfold enrollment_admit, admitEnrollmentAttempt. constrain. Qed.
#[export] Hint Resolve constrained_enrollment_admit : constraints.
Lemma constrained_handleEnrollment a b : Pres constrained (handleEnrollment a b).
Proof. unfold handleEnrollment, enrollment_write. constrain. Qed.
#[export] Hint Resolve constrained_handleEnrollment : constraints.
Lemma constrained_deleteUnreferencedRevisionObject a b : Pres constrained (deleteUnreferencedRevisionObject a b).
Proof. unfold deleteUnreferencedRevisionObject. constrain. Qed.
#[export] Hint Resolve constrained_deleteUnreferencedRevisionObject : constraints.
Lemma constrained_collect_candidate a b c : Pres constrained (collect_candidate a b c).
Proof. unfold collect_candidate. constrain. Qed.
#[export] Hint Resolve constrained_collect_candidate : constraints.
Lemma constrained_collect_record a b c d e : Pres constrained (collect_record a b c d e).
Proof. unfold collect_record, writeCollectionMarker, insertMarkerChange, insertChangeOrigin. constrain. Qed.
#[export] Hint Resolve constrained_collect_record : constraints.
Lemma constrained_collectEligible a b c : Pres constrained (collectEligible a b c).
Proof. unfold collectEligible, collection_batch. constrain. Qed.
#[export] Hint Resolve constrained_collectEligible : constraints.
Lemma constrained_deleteSnapshotAndReleaseObjects a : Pres constrained (deleteSnapshotAndReleaseObjects a).
Proof. unfold deleteSnapshotAndReleaseObjects. constrain. Qed.
#[export] Hint Resolve constrained_deleteSnapshotAndReleaseObjects : constraints.
Lemma constrained_pruneExpiredSnapshots a : Pres constrained (pruneExpiredSnapshots a).
Proof. unfold pruneExpiredSnapshots. constrain. Qed.
#[export] Hint Resolve constrained_pruneExpiredSnapshots : constraints.
Lemma constrained_sync_apply a b c d : Pres constrained (sync_apply a b c d).
Proof. unfold sync_apply, store_object, retire_head. constrain. Qed.
#[export] Hint Resolve constrained_sync_apply : constraints.
Lemma constrained_sync_write a b c d e f g h : Pres constrained (sync_write a b c d e f g h).
Proof. unfold sync_write. constrain. Qed.
#[export] Hint Resolve constrained_sync_write : constraints.
Lemma constrained_sync_reply a b c d e f g : Pres constrained (sync_reply a b c d e f g).
Proof. unfold sync_reply. constrain. Qed.
#[export] Hint Resolve constrained_sync_reply : constraints.
Lemma constrained_handleSync a b : Pres constrained (handleSync a b).
Proof. unfold handleSync, sync_authenticate, sync_execute. constrain. Qed.
#[export] Hint Resolve constrained_handleSync : constraints.
Lemma constrained_handleCreateSnapshot a b : Pres constrained (handleCreateSnapshot a b).
Proof. unfold handleCreateSnapshot, snapshot_create, preflightSnapshotOwnerKeys, admitSnapshotAttempt, snapshot_write, insert_pages, raise_max_returned, set_deadline, drop_deadline. constrain. Qed.
#[export] Hint Resolve constrained_handleCreateSnapshot : constraints.
Lemma constrained_handleSnapshotPage a b c : Pres constrained (handleSnapshotPage a b c).
Proof. unfold handleSnapshotPage. constrain. Qed.
#[export] Hint Resolve constrained_handleSnapshotPage : constraints.
Lemma constrained_CreateDevice a b c d e : Pres constrained (CreateDevice a b c d e).
Proof. unfold CreateDevice. constrain. Qed.
#[export] Hint Resolve constrained_CreateDevice : constraints.
Lemma constrained_CreateEnrollmentGrant a b : Pres constrained (CreateEnrollmentGrant a b).
Proof. unfold CreateEnrollmentGrant. constrain. Qed.
#[export] Hint Resolve constrained_CreateEnrollmentGrant : constraints.
Lemma constrained_StartBoot a : Pres constrained (StartBoot a).
Proof. unfold StartBoot. constrain. Qed.
#[export] Hint Resolve constrained_StartBoot : constraints.
Lemma constrained_initialize_rows a : Pres constrained (initialize_rows a).
Proof. unfold initialize_rows. constrain. Qed.
#[export] Hint Resolve constrained_initialize_rows : constraints.
Lemma constrained_HandleAPI identity clock request : Pres constrained (HandleAPI identity clock request).
Proof.
  unfold HandleAPI, route_identified. cbv zeta.
  generalize (if is_zero_time (Now request) then with_now clock request else request). intros r. constrain.
Qed.

(** The open transaction, when there is one, is a database too. *)
Definition state_ok (s : St) : Prop := db_ok (st_db s) ∧ db_ok (st_tx s).

(** ** The constraints hold from the start *)
Lemma blank_ok : state_ok blank.
Proof. split; apply empty_db_ok. Qed.
Ltac table_by_computation :=
  repeat (apply table_ok_cons;
    [vm_compute; reflexivity
    |let q := fresh in let H := fresh in intros q H; repeat (apply elem_of_cons in H as [->|H]; [vm_compute; reflexivity|]);
     by apply elem_of_nil in H|]); apply table_ok_nil.
Lemma enrolled_ok : db_ok (st_db enrolled_state).
Proof. split; table_by_computation. Qed.

(** ** Which statements leave which tables alone

    [same_of π] relates states whose open transactions agree on a projection [π] of
    the database (a table, or part of one).  The tactic [framed] shows that a
    computation keeps it, descending through the monad; statements on other tables
    are discharged by computation.  [pres_run] uses such a fact on a run. *)

Lemma pres_run {E A} (R : relation St) (m : M E A) s r s' : Pres R m → m s = (r, s') → R s s'.
Proof. intros Hm H. specialize (Hm s). by rewrite H in Hm. Qed.

Definition same_of {X} (π : db → X) : relation St := λ s s', π (st_tx s') = π (st_tx s).
#[export] Instance same_of_preorder {X} (π : db → X) : PreOrder (same_of π).
Proof. split; [done|]. intros s1 s2 s3 H1 H2. unfold same_of in *. congruence. Qed.
Lemma same_state_of {X} (π : db → X) s s' : same_state s s' → same_of π s s'.
Proof. intros (_ & E & _). unfold same_of. by rewrite E. Qed.

Definition frames {X} (π : db → X) (f : db → option db) : Prop := ∀ d d', f d = Some d' → π d' = π d.
Lemma framed_exec {E X} (π : db → X) (e : E) f : frames π f → Pres (same_of π) (exec e f).
Proof.
  intros Hf s. unfold same_of, exec, tick, mbind, M_bind, read_tx, from_option, write_tx, mret, M_ret, throw.
  destruct (st_faults s) as [|[] ?]; simpl; [|done|]; destruct (f (st_tx s)) eqn:Ef; simpl; try done; by apply Hf.
Qed.
Lemma framed_commit {E X} (π : db → X) (e : E) : Pres (same_of π) (commit_tx e).
Proof. intros s. unfold same_of, commit_tx, tick, mbind, M_bind, throw. by destruct (st_faults s) as [|[] ?]. Qed.
Lemma framed_on_error {E A X} (π : db → X) (m : M E A) cleanup :
  Pres (same_of π) m → Pres (same_of π) cleanup → Pres (same_of π) (on_error m cleanup).
Proof.
  intros Hm Hc s. specialize (Hm s). unfold on_error. destruct (m s) as [[a|e] s1]; [done|]. simpl in *.
  etrans; [exact Hm|apply Hc].
Qed.

Ltac head_of_statement t := lazymatch t with ?f _ => head_of_statement f | _ => t end.
Ltac unfold_statement H :=
  cbv beta in H; try (lazymatch type of H with ?f = Some _ => let h := head_of_statement f in unfold h in H end).
Ltac frames_tac :=
  let d := fresh "d" in let d' := fresh "d'" in let H := fresh "H" in
  intros d d' H; do 2 (unfold_statement H; repeat (case_match_in H; try discriminate H));
  injection H as <-; reflexivity.
Create HintDb frames.
Ltac framed_step :=
  lazymatch goal with
  | |- Pres (same_of _) (query _ _) => apply pres_query; [apply _|apply same_state_of]
  | |- Pres (same_of _) (select_db _) => apply pres_query; [apply _|apply same_state_of]
  | |- Pres (same_of _) (rand_read _ _) => apply pres_rand_read; apply same_state_of
  | |- Pres (same_of _) (exec _ _) => apply framed_exec; solve [auto with frames nocore | frames_tac]
  | |- Pres (same_of _) (exec_db _) => apply framed_exec; solve [auto with frames nocore | frames_tac]
  | |- Pres (same_of _) (commit_tx _) => apply framed_commit
  | |- Pres (same_of _) commitTransaction => apply framed_commit
  | |- Pres (same_of _) (on_error _ _) => apply framed_on_error
  | |- Pres (same_of _) (set_eph _) => let s := fresh in intros s; reflexivity
  | |- Pres (same_of ?π) _ =>
      first [ pres_step (auto with frames nocore)
            | apply (pres_weaken same_state _ _ (same_state_of π)); solve [auto with reads nocore] ]
  end.
Ltac framed := repeat framed_step.

(** The bookkeeping helpers, whatever table is watched, unfolded. *)
Ltac framed_helpers :=
  unfold storeReceipt, storeReceiptAtUptime, pruneOperationReceipts, checkpointUptimeTx, commitUptimeTransaction,
    setServerCursor, insertChange, insertChangeOrigin; framed.

(** The first step of a run. *)
Ltac run_as H a s Hm := apply bind_ok in H as (a & s & Hm & H).
Ltac run H := let a := fresh "a" in let s := fresh "s" in let Hm := fresh "Hm" in run_as H a s Hm.
(** A step that only reads. *)
Ltac reading Hm := apply (pres_run same_state) in Hm; [|solve [reads | auto with reads nocore]].

(** A step that leaves a projection of the open transaction alone. *)
Ltac framing H π := apply (pres_run (same_of π)) in H; [|solve [framed]].

(** The databases and the memory of a state, fixed while a run only reads. *)
Definition held (D T : db) (e : ephemeralState) (s : St) : Prop := st_db s = D ∧ st_tx s = T ∧ st_eph s = e.
Lemma bind_reads {E A B} D T e (m : M E A) (f : A → M E B) s b s' :
  held D T e s → Pres same_state m → (m ≫= f) s = (Ok b, s') →
  ∃ a s1, m s = (Ok a, s1) ∧ held D T e s1 ∧ f a s1 = (Ok b, s').
Proof.
  intros (<- & <- & <-) Hm (a & s1 & H1 & H2)%bind_ok. exists a, s1.
  pose proof (pres_run _ _ _ _ _ Hm H1) as (E1&E2&E3). done.
Qed.
Lemma held_begin {E} (e : E) s u s' : begin_tx e s = (Ok u, s') → held (st_db s) (st_db s) (st_eph s) s'.
Proof. by intros (? & ? & ? & _)%begin_ok. Qed.
Lemma held_reads {E A} D T e (m : M E A) s r s' : held D T e s → Pres same_state m → m s = (r, s') → held D T e s'.
Proof. intros (<- & <- & <-) Hm H. by pose proof (pres_run _ _ _ _ _ Hm H) as (?&?&?). Qed.
(** [pass HP H]: the next step of the run [H] only reads; [HP] moves past it. *)
Ltac pass_as HP H a s Hm :=
  let HP' := fresh "HP" in
  apply (bind_reads _ _ _ _ _ _ _ _ HP) in H;
  [destruct H as (a & s & Hm & HP' & H); clear HP; rename HP' into HP | solve [reads | auto with reads nocore]].
Ltac pass HP H := let a := fresh "a" in let s := fresh "s" in let Hm := fresh "Hm" in pass_as HP H a s Hm.
