(* ===== verification/Security.v ===== *)
(** * Credentials

    Who a bearer token authenticates, and what revocation and rotation do to it:
    theorems about authenticate ([dataplane.go]) and the handlers of [devices.go]. *)

From stdpp Require Import base list strings gmap.
From Stdlib Require Import ZArith Lia Ascii.
From S2P Require Import Prelude GoStd GoTime Auth Api Json Wire Models Sql Schema Monad Keys SqlFacts Runtime.
From S2P Require Import Receipts Devices Samples Constraints.
From S2P Require Import Persist Envelope.
Local Open Scope Z_scope.

Section credentials.
Context (identity : Identity).

(** The row of the registry that a token opens as a device. *)
Definition credential (token : string) (dev : deviceAuth) (r : devices_row) : Prop :=
  d_device_id r = CText (da_DeviceID dev) ∧ d_token_hash r = CBlob (da_Hash dev) ∧
  DeviceTokenHash (InstanceID identity) (VaultID identity) (da_DeviceID dev) token = Some (da_Hash dev) ∧
  da_Scopes dev = FixedScopes ∧ da_Revoked dev = negb (active r).

Lemma scan_credential_Some r deviceID stored revoked : scan_credential r = Some (deviceID, stored, revoked) →
  d_device_id r = CText deviceID ∧ d_token_hash r = CBlob stored ∧ revoked = negb (active r).
Proof.
  intros H. unfold scan_credential in H.
  destruct (scan_uuid (d_device_id r)) as [id|] eqn:E1; [|done]. apply scan_uuid_Some in E1 as [-> _].
  destruct (scan_blob 32 32 (d_token_hash r)) as [h|] eqn:E2; [|done]. apply scan_blob_Some in E2 as [-> _].
  destruct (scan_text _ _ _); [|done]. case_match_in H; [|done]. injection H as -> -> <-.
  unfold active. by destruct (d_revoked_at_ms r).
Qed.
Lemma authenticate_rows_Some token m rows dev : authenticate_rows identity token m rows = Some (Some dev) →
  m = Some dev ∨ ∃ r, r ∈ rows ∧ credential token dev r.
Proof.
  revert m. induction rows as [|r rows IH]; intros m H; cbn [authenticate_rows] in H; [left; congruence|].
  destruct (scan_credential r) as [[[deviceID stored] revoked]|] eqn:Es; [|done].
  destruct (DeviceTokenHash _ _ deviceID token) as [h|] eqn:Eh; [|done].
  destruct (VerifyHash stored h) eqn:Ev.
  - destruct (unmarshalAs (list string) wantScopes) as [scopes|]; [|done].
    destruct (ValidateScopes scopes) eqn:Evs; [|done].
    destruct (IH _ H) as [[= <-]|(q & Hq & Hc)]; [|right; exists q; split; [by right|done]].
    right. exists r. split; [left|]. apply scan_credential_Some in Es as (Ed & Et & ->).
    apply VerifyHash_iff in Ev. subst h. by apply ValidateScopes_iff in Evs.
  - destruct (IH _ H) as [?|(q & Hq & Hc)]; [by left|]. right. exists q. split; [by right|done].
Qed.
End credentials.

Lemma authenticate_Ok identity authorization scope s dev s'
    (Hrun : authenticate identity authorization scope s = (Ok dev, s')) :
  ∃ token r, parseAuthorization authorization "Bearer" = Some token ∧
    r ∈ tb_devices (st_tx s) ∧ credential identity token dev r ∧ active r = true ∧
    (scope = "" ∨ scope ∈ FixedScopes) ∧ (length (tb_devices (st_tx s)) <= 64)%nat.
Proof.
  unfold authenticate in Hrun.
  run_as Hrun token s1 H1. apply from_option_ok in H1 as [Htok ->].
  run_as Hrun rows s2 H2. apply query_ok in H2 as (-> & _).
  run_as Hrun found s3 H3. apply from_option_ok in H3 as [Hf ->].
  run_as Hrun u4 s4 H4. apply ensure_ok in H4 as [Hlen%Nat.leb_le ->].
  run_as Hrun d s5 H5. apply from_option_ok in H5 as [-> ->].
  run_as Hrun u6 s6 H6. apply ensure_ok in H6 as [Hrev ->].
  run_as Hrun u7 s7 H7. apply ensure_ok in H7 as [Hsc ->].
  apply ret_ok in Hrun as [-> ->].
  apply authenticate_rows_Some in Hf as [?|(r & Hr & Hc)]; [done|].
  exists token, r. unfold registry_rows in *. rewrite length_take, length_order_by in Hlen.
  pose proof Hc as (_ & _ & _ & Hscopes & Hact). rewrite Hact, negb_involutive in Hrev. rewrite Hscopes in Hsc.
  split_and!; [done| |done|done| |lia].
  - apply (elem_of_order_by (λ a b, cell_oleb (d_device_id a) (d_device_id b))).
    rewrite <- (take_drop 65). apply elem_of_app. by left.
  - apply orb_true_iff in Hsc as [->%String.eqb_eq|Hin]; [by left|]. right.
    apply existsb_exists in Hin as (x & Hx & ->%String.eqb_eq). by apply list_elem_of_In.
Qed.
(** C17. Authentication is sound: when a bearer is accepted, its token hashes, under
    the instance, the vault and the device's own identifier, to the token hash of a
    registered device that is not revoked; the scopes are the fixed scopes and contain
    the required one; and the registry holds at most 64 devices. *)
Theorem authenticate_sound identity authorization scope s dev s'
    (Hrun : authenticate identity authorization scope s = (Ok dev, s')) :
  ∃ token r, parseAuthorization authorization "Bearer" = Some token ∧
    r ∈ tb_devices (st_tx s) ∧ credential identity token dev r ∧ active r = true ∧
    (scope = "" ∨ scope ∈ FixedScopes) ∧ (length (tb_devices (st_tx s)) <= 64)%nat.
Proof. by eapply authenticate_Ok. Qed.
Lemma authenticate_sound_witness :
  ∃ token r, parseAuthorization (bearer sample_token) "Bearer" = Some token ∧
    r ∈ tb_devices (st_db enrolled_state) ∧
    credential sample_identity token
      {| da_DeviceID := sample_device;
         da_Hash := default "" (DeviceTokenHash (InstanceID sample_identity) (VaultID sample_identity) sample_device sample_token);
         da_Scopes := FixedScopes; da_Revoked := false |} r ∧ active r = true ∧
    ("sync:read" = "" ∨ "sync:read" ∈ FixedScopes) ∧ (length (tb_devices (st_db enrolled_state)) <= 64)%nat.
Proof.
  apply (authenticate_sound sample_identity (bearer sample_token) "sync:read" (with_tx (st_db enrolled_state) enrolled_state) _
           (with_tx (st_db enrolled_state) enrolled_state)).
  vm_compute. reflexivity.
Defined.

(** ** Revocation *)
(** Every row of the device is revoked. *)
Definition locked_out (target : string) (d : db) : Prop :=
  ∀ r, r ∈ tb_devices d → d_device_id r = CText target → active r = false.
Lemma locked_out_authenticate identity target authorization scope s dev s' :
  locked_out target (st_tx s) → authenticate identity authorization scope s = (Ok dev, s') → da_DeviceID dev ≠ target.
Proof.
  intros Hl Hrun Heq. apply authenticate_Ok in Hrun as (token & r & _ & Hr & (Hid & _) & Hact & _).
  rewrite Hl in Hact; [done|done|by rewrite Hid, Heq].
Qed.

Lemma device_is_true target r : device_is target r = true ↔ d_device_id r = CText target.
Proof.
  unfold device_is. split; [apply cell_eqb_true|]. intros ->. by apply cell_eqb_refl.
Qed.
Lemma update_revoked_locks target at_ d d' :
  update_devices (λ r, device_is target r && active r) (with_revoked_at at_) d = Some d' → locked_out target d'.
Proof.
  unfold update_devices. destruct (update_rows _ _ _ _ _ _) as [rows|] eqn:E; [|done]. intros [= <-].
  apply update_rows_map in E. subst rows. intros r Hr Hid. simpl in Hr.
  apply list_elem_of_In, in_map_iff in Hr as (q & <- & Hq).
  destruct (device_is target q && active q) eqn:Ed; [done|].
  apply device_is_true in Hid. rewrite Hid in Ed. done.
Qed.
Definition devices_frame (s s' : St) : Prop := same_of tb_devices s s'.
Lemma locked_out_frame target s s' : same_of tb_devices s s' → locked_out target (st_tx s) → locked_out target (st_tx s').
Proof. unfold same_of, locked_out. by intros ->. Qed.

Section revocation.
Context (identity : Identity).
Lemma framed_storeReceipt a b c d e f : Pres (same_of tb_devices) (storeReceipt a b c d e f).
Proof. framed_helpers. Qed.
Lemma framed_insertChange a b c d e f g h : Pres (same_of tb_devices) (insertChange a b c d e f g h).
Proof. framed_helpers. Qed.
Lemma framed_setServerCursor a : Pres (same_of tb_devices) (setServerCursor a).
Proof. framed_helpers. Qed.
Lemma framed_commitUptimeTransaction a : Pres (same_of tb_devices) (commitUptimeTransaction a).
Proof. framed_helpers. Qed.
Hint Resolve framed_storeReceipt framed_insertChange framed_setServerCursor framed_commitUptimeTransaction : frames.
Lemma commitUptime_committed next s u s' : commitUptimeTransaction next s = (Ok u, s') → st_db s' = st_tx s'.
Proof.
  intros H. run_as H v s1 Hc. apply commit_ok in Hc as (E1 & E2 & _).
  run_as H e s2 He. injection He as <- <-. destruct (After _ _); injection H as _ <-; simpl; congruence.
Qed.

Lemma revoke_active_locks call deviceID target operation fingerprint request s r s' :
  revoke_active identity call deviceID target operation fingerprint request s = (Ok r, s') →
  locked_out target (st_db s').
Proof.
  unfold revoke_active. intros H. do 4 run H.
  run_as H dh s5 Hmark. destruct dh as [dev hash]. unfold revoke_mark in Hmark.
  run_as Hmark u s6 Hu. apply exec_ok in Hu as (Hu & _). apply update_revoked_locks in Hu.
  apply (pres_run (same_of tb_devices)) in Hmark; [|framed].
  apply (locked_out_frame target) in Hmark; [|done].
  assert (Hrest := H). apply (pres_run (same_of tb_devices)) in Hrest; [|unfold self_receipt; framed].
  apply (locked_out_frame target) in Hrest; [|done].
  do 5 run H. run_as H uz sz Hcm. apply ret_ok in H as [_ ->].
  by rewrite (commitUptime_committed _ _ _ _ Hcm).
Qed.

Lemma readDevice_Ok target s dev hash s' : readDevice target s = (Ok (dev, hash), s') →
  ∃ r, device_row target (st_tx s) = Some r ∧ d_token_hash r = CBlob hash ∧
       dev_Status dev = (if active r then "active" else "revoked").
Proof.
  intros H. run_as H row s1 Hq. apply query_ok in Hq as (-> & _).
  run_as H r s2 Hr. apply from_option_ok in Hr as [Hr ->]. apply from_option_ok in H as [H ->].
  exists r. split; [done|]. unfold decode_device in H.
  destruct (scan_blob 32 32 (d_token_hash r)) as [h|] eqn:Eh; [|done]. apply scan_blob_Some in Eh as [-> _].
  repeat (case_match_in H; try discriminate H); injection H as <- <-; unfold active; by destruct (d_revoked_at_ms r).
Qed.
Lemma device_row_unique target d r q : db_ok d → device_row target d = Some r →
  q ∈ tb_devices d → d_device_id q = CText target → q = r.
Proof.
  intros Hok Hr Hq Hid. unfold device_row, query_row in Hr. apply head_elem in Hr.
  apply elem_of_select in Hr as [Hin Hr]. apply device_is_true in Hr.
  eapply table_ok_unique; [apply conflict_devices_sym|apply ok_devices, Hok|done|done|].
  unfold conflict_devices. rewrite Hid, Hr. by rewrite cell_eqb_refl.
Qed.
Lemma revoke_again_locks call deviceID operation fingerprint target dev hash s0 s r s' :
  db_ok (st_tx s0) → readDevice target s0 = (Ok (dev, hash), s) → String.eqb (dev_Status dev) "revoked" = true →
  revoke_again call deviceID operation fingerprint dev s = (Ok r, s') → locked_out target (st_db s').
Proof.
  intros Hok Hread Hst H. assert (Hsame := Hread). apply (pres_run same_state) in Hsame as (_ & Etx & _); [|auto with reads nocore].
  apply readDevice_Ok in Hread as (row & Hrow & _ & Hstatus).
  assert (Hl : locked_out target (st_tx s)).
  { rewrite Etx. intros q Hq Hid. rewrite (device_row_unique target _ row q Hok Hrow Hq Hid).
    rewrite Hstatus in Hst. by destruct (active row). }
  unfold revoke_again in H. run_as H checkpoint s1 Hs. run_as H u s2 Hc. apply ret_ok in H as [_ ->].
  rewrite (commitUptime_committed _ _ _ _ Hc).
  eapply locked_out_frame; [by eapply pres_run; [apply framed_commitUptimeTransaction|]|].
  eapply locked_out_frame; [by eapply pres_run; [apply framed_storeReceipt|]|done].
Qed.
End revocation.


(** ** Rotation *)
(** The registry with the token hash of one device replaced. *)
Definition rehashed (deviceID hash : string) (rows : list devices_row) : list devices_row :=
  map (λ r, if device_is deviceID r then with_token_hash (CBlob hash) r else r) rows.
Lemma rotation_apply_Ok call request presentedHash newHash fingerprint s r s' :
  rotation_apply call request presentedHash newHash fingerprint s = (Ok r, s') →
  tb_devices (st_db s') = rehashed (tr_DeviceID request) newHash (tb_devices (st_tx s)) ∧
  ∃ row, row ∈ tb_devices (st_tx s) ∧ d_device_id row = CText (tr_DeviceID request) ∧
         active row = true ∧ d_token_hash row = CBlob presentedHash.
Proof.
  unfold rotation_apply. intros H.
  assert (HP : held (st_db s) (st_tx s) (st_eph s) s) by done.
  pass_as HP H dh s1 Hread. destruct dh as [dev hash]. pass_as HP H u s2 Hst. apply ensure_ok in Hst as [Hst <-].
  pass_as HP H u3 s3 Hv. apply ensure_ok in Hv as [Hv <-].
  apply readDevice_Ok in Hread as (row & Hrow & Hhash & Hstatus). apply VerifyHash_iff in Hv. subst hash.
  destruct HP as (_ & Etx & _). run_as H u4 s4 Hu. apply exec_ok in Hu as (Hu & _).
  split.
  - assert (Hdev : tb_devices (st_tx s4) = rehashed (tr_DeviceID request) newHash (tb_devices (st_tx s))).
    { unfold update_devices in Hu. destruct (update_rows _ _ _ _ _ _) eqn:E; [|done]. injection Hu as <-. simpl.
      apply update_rows_map in E. subst. by rewrite Etx. }
    rewrite <- Hdev. assert (Hf := H). apply (pres_run (same_of tb_devices)) in Hf; [|framed]. rewrite <- Hf.
    run_as H dh5 s5 H5. destruct dh5. do 1 run H. run_as H uz sz Hc. apply ret_ok in H as [_ ->].
    by apply commit_ok in Hc as (-> & -> & _).
  - exists row. unfold device_row, query_row in Hrow. apply head_elem, elem_of_select in Hrow as [Hin Hid].
    apply device_is_true in Hid. split_and!; try done. rewrite Hstatus in Hst. by destruct (active row).
Qed.

(** Rotation replaces one credential: when a rotation succeeds and changes the
    database, the bearer presented the current token of the active device it names, the
    registry is the old one with that device's token hash replaced by the hash of the
    new token, and from then on a bearer authenticates as that device exactly by
    hashing to it. *)
Theorem rotation_replaces_credential identity call s r s'
    (Hrun : handleTokenRotation identity call s = (Ok r, s')) :
  st_db s' = st_db s ∨
  ∃ request newToken oldToken newHash oldHash,
    decodeStrictAs tokenRotationRequest (Body call) = Some request ∧
    decodeBase64 (tr_NewDeviceToken request) 32 0 0 = Some newToken ∧
    parseAuthorization (Authorization call) "Bearer" = Some oldToken ∧
    DeviceTokenHash (InstanceID identity) (VaultID identity) (tr_DeviceID request) newToken = Some newHash ∧
    DeviceTokenHash (InstanceID identity) (VaultID identity) (tr_DeviceID request) oldToken = Some oldHash ∧
    (∃ row, row ∈ tb_devices (st_db s) ∧ d_device_id row = CText (tr_DeviceID request) ∧
            active row = true ∧ d_token_hash row = CBlob oldHash) ∧
    tb_devices (st_db s') = rehashed (tr_DeviceID request) newHash (tb_devices (st_db s)) ∧
    ∀ authorization scope s1 dev s2 token, st_tx s1 = st_db s' →
      authenticate identity authorization scope s1 = (Ok dev, s2) → da_DeviceID dev = tr_DeviceID request →
      parseAuthorization authorization "Bearer" = Some token →
      DeviceTokenHash (InstanceID identity) (VaultID identity) (tr_DeviceID request) token = Some newHash.
Proof.
  unfold handleTokenRotation in Hrun.
  assert (HP : held (st_db s) (st_tx s) (st_eph s) s) by done.
  pass_as HP Hrun request s1 H1. apply from_option_ok in H1 as [Hreq _]. pass HP Hrun.
  pass_as HP Hrun newToken s3 H3. apply from_option_ok in H3 as [Hnew _].
  pass_as HP Hrun oldToken s4 H4. apply from_option_ok in H4 as [Hold _].
  pass_as HP Hrun oldHash s5 H5. apply from_option_ok in H5 as [Holdh _].
  pass_as HP Hrun newHash s6 H6. apply from_option_ok in H6 as [Hnewh _].
  pass_as HP Hrun fp s7 H7. run_as Hrun u8 s8 Hb. apply held_begin in Hb. destruct HP as (Edb & _). rewrite Edb in Hb.
  do 3 pass Hb Hrun. case_match.
  { left. eapply held_reads in Hrun; [apply Hrun|done|auto with reads nocore]. }
  case_match; [|done]. right. apply rotation_apply_Ok in Hrun as (Hdev & Hrow).
  destruct Hb as (_ & Etx & _). rewrite Etx in *.
  exists request, newToken, oldToken, newHash, oldHash. split_and!; try done.
  intros authorization scope t1 dev t2 token Et Hauth Hid Htok.
  apply authenticate_Ok in Hauth as (token' & row & Htok' & Hin & (Hrid & Hrh & Hh & _) & _). simplify_eq.
  rewrite Et, Hdev in Hin. unfold rehashed in Hin. apply list_elem_of_In, in_map_iff in Hin as (q & Hq & _).
  rewrite Hid in Hh. destruct (device_is (tr_DeviceID request) q) eqn:Eq.
  - subst row. simpl in Hrh. injection Hrh as Hrh. by rewrite <- Hrh in Hh.
  - subst q. rewrite Hid in Hrid. by apply device_is_true in Hrid; rewrite Hrid in Eq.
Qed.
Lemma rotation_replaces_credential_witness :
  let s' := after (handleTokenRotation sample_identity rotate_call) enrolled_state in
  st_db s' = st_db enrolled_state ∨
  ∃ request newToken oldToken newHash oldHash,
    decodeStrictAs tokenRotationRequest (Body rotate_call) = Some request ∧
    decodeBase64 (tr_NewDeviceToken request) 32 0 0 = Some newToken ∧
    parseAuthorization (Authorization rotate_call) "Bearer" = Some oldToken ∧
    DeviceTokenHash (id_of "1") (id_of "2") (tr_DeviceID request) newToken = Some newHash ∧
    DeviceTokenHash (id_of "1") (id_of "2") (tr_DeviceID request) oldToken = Some oldHash ∧
    (∃ row, row ∈ tb_devices (st_db enrolled_state) ∧ d_device_id row = CText (tr_DeviceID request) ∧
            active row = true ∧ d_token_hash row = CBlob oldHash) ∧
    tb_devices (st_db s') = rehashed (tr_DeviceID request) newHash (tb_devices (st_db enrolled_state)) ∧
    ∀ authorization scope s1 dev s2 token, st_tx s1 = st_db s' →
      authenticate sample_identity authorization scope s1 = (Ok dev, s2) → da_DeviceID dev = tr_DeviceID request →
      parseAuthorization authorization "Bearer" = Some token →
      DeviceTokenHash (id_of "1") (id_of "2") (tr_DeviceID request) token = Some newHash.
Proof.
  cbv zeta. eapply (rotation_replaces_credential sample_identity rotate_call enrolled_state).
  vm_compute. reflexivity.
Defined.

(** ** The envelope is replaced by compare-and-swap

    Theorems about handleGetEnvelope and handlePutEnvelope ([envelope.go]). *)

(** The counters of the runtime row: cursor, envelope and secret generations. *)
Definition counters (d : db) : option (Z * Z * Z) :=
  match runtime_row d with
  | Some r => match decode_runtime r with Some (c, e, g, _) => Some (c, e, g) | None => None end
  | None => None
  end.
Lemma readRuntimeState_Ok s c e g k s' : readRuntimeState s = (Ok (c, e, g, k), s') → counters (st_tx s) = Some (c, e, g).
Proof.
  intros H. run_as H row s1 Hq. apply query_ok in Hq as (-> & _). run_as H r s2 Hr. apply from_option_ok in Hr as [Hr ->].
  apply from_option_ok in H as [Hd _]. unfold counters. by rewrite Hr, Hd.
Qed.

Lemma runtime_row_update f d d' : (∀ r, rs_singleton (f r) = rs_singleton r) →
  update_runtime_state runtime_singleton f d = Some d' → runtime_row d' = f <$> runtime_row d.
Proof.
  intros Hs H. unfold update_runtime_state in H. destruct (update_rows _ _ _ _ _ _) as [rows|] eqn:E; [|done].
  injection H as <-. apply update_rows_map in E. subst rows. unfold runtime_row, query_row. simpl.
  assert (Hr : ∀ r, runtime_singleton (f r) = runtime_singleton r) by (intros r; unfold runtime_singleton; by rewrite Hs).
  rewrite select_map_update by (intros r; rewrite Hr; done). rewrite map_select_all.
  by destruct (select runtime_singleton (tb_runtime_state d)).
Qed.
Lemma frames_counters f : (∀ r, rs_singleton (f r) = rs_singleton r) → (∀ r, decode_runtime (f r) = decode_runtime r) →
  frames counters (update_runtime_state runtime_singleton f).
Proof.
  intros Hs Hd d d' H%runtime_row_update; [|done]. unfold counters. rewrite H.
  destruct (runtime_row d) as [r|]; [|done]. simpl. by rewrite Hd.
Qed.
Lemma frames_counters_uptime c : frames counters (update_runtime_state runtime_singleton (with_accumulated_uptime c)).
Proof. by apply frames_counters. Qed.
#[export] Hint Resolve frames_counters_uptime : frames.
Lemma counters_range d c e g : counters d = Some (c, e, g) → u64 c ∧ u64 e ∧ u64 g.
Proof.
  unfold counters, decode_runtime. intros H. repeat (case_match_in H; try discriminate H). simplify_eq.
  repeat match goal with H : scan_u64 _ = Some _ |- _ => apply scan_u64_Some in H end. naive_solver.
Qed.

Lemma put_envelope_checks_Ok identity request expected cursor stored secret s v s' :
  put_envelope_checks identity request expected cursor stored secret s = (Ok v, s') →
  expected = stored ∧ v = stored + 1 ∧ cursor ≠ MaxUint64 ∧ stored ≠ MaxUint64 ∧
  validateEnvelope (pe_Envelope request) identity = Some (v, secret).
Proof.
  unfold put_envelope_checks. intros H.
  run_as H u1 s1 H1. apply ensure_ok in H1 as [H1 ->]. run_as H u2 s2 H2. apply ensure_ok in H2 as [H2 ->].
  run_as H n s3 H3. apply from_option_ok in H3 as [_ ->]. run_as H u4 s4 H4. apply ensure_ok in H4 as [H4 ->].
  run_as H u5 s5 H5. apply ensure_ok in H5 as [H5 ->]. run_as H u6 s6 H6. apply ensure_ok in H6 as [H6 ->].
  apply ret_ok in H as [-> ->].
  destruct (validateEnvelope _ _) as [[g sg]|]; [|done]. unbool. subst. done.
Qed.

(** The envelope row of a database. *)
Lemma upsert_row generation body d d' : upsert_vault_envelope generation body d = Some d' →
  envelope_row d' = Some (Mk_vault_envelope 1 generation body).
Proof.
  unfold upsert_vault_envelope, envelope_row, query_row. intros H.
  destruct (existsb (λ r, vn_singleton r =? 1) (tb_vault_envelope d)) eqn:Ex.
  - unfold update_vault_envelope in H. destruct (update_rows _ _ _ _ _ _) as [rows|] eqn:E; [|done].
    injection H as <-. apply update_rows_map in E. subst rows. simpl.
    rewrite select_map_update by (by intros r; simpl; intros ->). rewrite map_select_all.
    apply existsb_exists in Ex as (r & Hr & Hs).
    destruct (select (λ r, vn_singleton r =? 1) (tb_vault_envelope d)) as [|q rest] eqn:Es.
    + assert (Hin : r ∈ select (λ r, vn_singleton r =? 1) (tb_vault_envelope d))
        by (apply elem_of_select; split; [by apply list_elem_of_In|done]).
      rewrite Es in Hin. by apply elem_of_nil in Hin.
    + simpl. assert (Hq : q ∈ select (λ r, vn_singleton r =? 1) (tb_vault_envelope d)) by (rewrite Es; left).
      apply elem_of_select in Hq as [_ Hq]. by apply Z.eqb_eq in Hq as ->.
  - unfold insert_vault_envelope in H. destruct (insert_row _ _ _ _) as [rows|] eqn:E; [|done].
    injection H as <-. apply insert_row_Some in E as (-> & _). simpl. unfold select. rewrite List.filter_app. simpl.
    destruct (List.filter _ (tb_vault_envelope d)) as [|q rest] eqn:Ef; [done|].
    assert (Hq : q ∈ select (λ r, vn_singleton r =? 1) (tb_vault_envelope d)) by (unfold select; rewrite Ef; left).
    apply elem_of_select in Hq as [Hin Hq]. exfalso. apply not_true_iff_false in Ex. apply Ex, existsb_exists.
    exists q. split; [by apply list_elem_of_In|done].
Qed.

Lemma commitUptime_committed_tx next s u s' : commitUptimeTransaction next s = (Ok u, s') → st_db s' = st_tx s.
Proof.
  intros H. run_as H v s1 Hc. apply commit_ok in Hc as (E1 & E2 & _).
  run_as H e s2 He. injection He as <- <-. destruct (After _ _); injection H as _ <-; simpl; congruence.
Qed.
Definition watched (d : db) : option (Z * Z * Z) * option vault_envelope_row := (counters d, envelope_row d).
Lemma frames_watched_uptime c : frames watched (update_runtime_state runtime_singleton (with_accumulated_uptime c)).
Proof.
  intros d d' H. unfold watched. rewrite (frames_counters_uptime c d d' H). f_equal.
  unfold update_runtime_state in H. by case_match_in H; [injection H as <-|].
Qed.
Hint Resolve frames_watched_uptime : frames.
Lemma frames_watched_receipt a b c d e f : Pres (same_of watched) (storeReceipt a b c d e f).
Proof. framed_helpers. Qed.
Lemma frames_watched_change a b c d e f g h : Pres (same_of watched) (insertChange a b c d e f g h).
Proof. framed_helpers. Qed.
Lemma counters_set (f : runtime_state_row → runtime_state_row) d d' c e g c' e' g' :
  (∀ r, rs_singleton (f r) = rs_singleton r) →
  (∀ r k, decode_runtime r = Some (c, e, g, k) → decode_runtime (f r) = Some (c', e', g', k)) →
  update_runtime_state runtime_singleton f d = Some d' → counters d = Some (c, e, g) →
  counters d' = Some (c', e', g') ∧ envelope_row d' = envelope_row d.
Proof.
  intros Hs Hf H Hc. split.
  - apply runtime_row_update in H; [|done]. unfold counters in *. rewrite H.
    destruct (runtime_row d) as [r|]; [|done]. simpl. destruct (decode_runtime r) as [[[[? ?] ?] ?]|] eqn:Ed; [|done].
    simplify_eq. by rewrite (Hf _ _ Ed).
  - unfold update_runtime_state in H. by case_match_in H; [injection H as <-|].
Qed.
Ltac runtime_fields :=
  cbn [rs_server_cursor rs_envelope_generation rs_instance_secret_generation rs_collection_generation].
Lemma decode_with_envelope r c e g k e' : u64 e' → decode_runtime r = Some (c, e, g, k) →
  decode_runtime (with_envelope_generation (cell_u64 e') r) = Some (c, e', g, k).
Proof. intros He H. unfold decode_runtime, with_envelope_generation in *. runtime_fields. rewrite scan_u64_cell by done. repeat case_match_in H; naive_solver. Qed.
Lemma decode_with_cursor r c e g k c' : u64 c' → decode_runtime r = Some (c, e, g, k) →
  decode_runtime (with_server_cursor (cell_u64 c') r) = Some (c', e, g, k).
Proof. intros He H. unfold decode_runtime, with_server_cursor in *. runtime_fields. rewrite scan_u64_cell by done. repeat case_match_in H; naive_solver. Qed.

Lemma put_envelope_write_Ok deviceID requestID fingerprint now cursor e g generation body s r s' :
  counters (st_tx s) = Some (cursor, e, g) → u64 generation → u64 (cursor + 1) →
  put_envelope_write deviceID requestID fingerprint now cursor generation body s = (Ok r, s') →
  counters (st_db s') = Some (cursor + 1, generation, g) ∧
  envelope_row (st_db s') = Some (Mk_vault_envelope 1 (cell_u64 generation) (CBlob body)) ∧ r = ok_response 200 body.
Proof.
  unfold put_envelope_write. intros Hc Hg Hcur H.
  run_as H u1 s1 H1. apply exec_ok in H1 as (H1 & _). pose proof (upsert_row _ _ _ _ H1) as Hrow.
  assert (Hc1 : counters (st_tx s1) = Some (cursor, e, g)).
  { rewrite <- Hc. revert H1. generalize (st_tx s) (st_tx s1). change (frames counters (upsert_vault_envelope (cell_u64 generation) (CBlob body))).
    frames_tac. }
  run_as H u2 s2 H2. apply exec_ok in H2 as (H2 & _).
  eapply counters_set in H2 as [Hc2 Hr2]; [|done|intros r0 k0 Hd; by eapply decode_with_envelope|done]. rewrite Hrow in Hr2.
  run_as H u3 s3 H3. apply (pres_run _ _ _ _ _ (frames_watched_change _ _ _ _ _ _ _ _)) in H3.
  run_as H u4 s4 H4. apply (pres_run _ _ _ _ _ (frames_watched_receipt _ _ _ _ _ _)) in H4.
  unfold same_of, watched in H3, H4. injection H3 as Hc3 Hr3. injection H4 as Hc4 Hr4.
  run_as H u5 s5 H5. apply exec_ok in H5 as (H5 & _).
  eapply counters_set in H5 as [Hc5 Hr5]; [|done|intros r0 k0 Hd; by eapply decode_with_cursor|by rewrite Hc4, Hc3].
  run_as H u6 s6 H6. apply commitUptime_committed_tx in H6. apply ret_ok in H as [-> ->]. rewrite H6.
  split_and!; [done|congruence|done].
Qed.

(** C19. The vault envelope is replaced by compare-and-swap: a successful put that
    changes the database found the stored generation equal to the expected one; the
    new generation is its successor, for which the envelope was validated against this
    instance; the change takes the next cursor; and the stored row and the reply are
    the canonical bytes of the submitted envelope. *)
Theorem envelope_compare_and_swap identity call s r s'
    (Hrun : handlePutEnvelope identity call s = (Ok r, s')) :
  st_db s' = st_db s ∨
  ∃ request generation cursor secret, let body := marshalJSON (pe_Envelope request) in
    decodeStrictAs putEnvelopeRequest (Body call) = Some request ∧
    parseUint64 (pe_ExpectedGeneration request) = Some generation ∧
    counters (st_db s) = Some (cursor, generation, secret) ∧
    counters (st_db s') = Some (cursor + 1, generation + 1, secret) ∧
    validateEnvelope (pe_Envelope request) identity = Some (generation + 1, secret) ∧
    envelope_row (st_db s') = Some (Mk_vault_envelope 1 (cell_u64 (generation + 1)) (CBlob body)) ∧
    r = ok_response 200 body.
Proof.
  unfold handlePutEnvelope in Hrun.
  run_as Hrun request s1 H1. apply from_option_ok in H1 as [Hreq ->].
  run_as Hrun expected s2 H2. apply from_option_ok in H2 as [Hexp ->].
  run_as Hrun u3 s3 HP. apply held_begin in HP.
  do 3 pass HP Hrun. case_match; [apply ret_ok in Hrun as [_ ->]; left; apply HP|]. right.
  pose proof HP as (_ & Etx & _). pass_as HP Hrun st s4 H4. destruct st as [[[cursor stored] secret] k].
  apply readRuntimeState_Ok in H4. rewrite Etx in H4.
  do 2 pass HP Hrun. pass_as HP Hrun v sv H5. apply put_envelope_checks_Ok in H5 as (-> & -> & Hmax & Hmaxg & Hv).
  pose proof (counters_range _ _ _ _ H4) as (Hu1 & Hu2 & _). unfold u64, MaxUint64 in *.
  destruct HP as (_ & Etx5 & _).
  eapply put_envelope_write_Ok in Hrun as (Hc & Hrow & ->); [|by rewrite Etx5|unfold u64; lia..].
  by exists request, stored, cursor, secret.
Qed.
Lemma envelope_compare_and_swap_witness :
  let s' := after (handlePutEnvelope sample_identity put_call) enrolled_state in
  st_db s' = st_db enrolled_state ∨
  ∃ request generation cursor secret, let body := marshalJSON (pe_Envelope request) in
    decodeStrictAs putEnvelopeRequest (Body put_call) = Some request ∧
    parseUint64 (pe_ExpectedGeneration request) = Some generation ∧
    counters (st_db enrolled_state) = Some (cursor, generation, secret) ∧
    counters (st_db s') = Some (cursor + 1, generation + 1, secret) ∧
    validateEnvelope (pe_Envelope request) sample_identity = Some (generation + 1, secret) ∧
    envelope_row (st_db s') = Some (Mk_vault_envelope 1 (cell_u64 (generation + 1)) (CBlob body)) ∧
    ok_response 200 (marshalJSON sample_envelope) = ok_response 200 body.
Proof.
  cbv zeta. eapply (envelope_compare_and_swap sample_identity put_call enrolled_state).
  vm_compute. reflexivity.
Defined.
