(* ===== verification/ReceiptProps.v ===== *)
(** * Receipts: a request is executed once

    Theorems about the operation receipts of [dataplane.go]: a recorded reply is what
    every later exact retry gets, a retry with other bytes is refused, and pruning
    never touches a receipt that is young or among the newest of its class. *)

From stdpp Require Import base list strings gmap.
From Stdlib Require Import ZArith Lia Ascii Sorting.Sorted.
From S2P Require Import Prelude GoStd GoTime Auth Api Json Wire Models Sql Schema Monad Keys SqlFacts Runtime.
From S2P Require Import Receipts Samples Constraints.
Local Open Scope Z_scope.

(** ** Pruning *)
(** What a loop of deletions leaves. *)
Definition deleted_class (deviceID receiptClass : string) (expired : list Z) (r : operation_receipt_retention_row) : Prop :=
  rt_device_id r = CText deviceID ∧ rt_receipt_class r = CText receiptClass ∧ rt_receipt_sequence r ∈ expired.
Lemma delete_loop deviceID receiptClass expired s u s' :
  for_each expired (λ q, exec_db (delete_receipt q);; exec_db (delete_retention deviceID receiptClass q)) s = (Ok u, s') →
  (∀ r, r ∈ tb_operation_receipt_retention (st_tx s) →
        r ∈ tb_operation_receipt_retention (st_tx s') ∨ deleted_class deviceID receiptClass expired r) ∧
  (∀ r, r ∈ tb_operation_receipts (st_tx s) →
        r ∈ tb_operation_receipts (st_tx s') ∨ op_receipt_sequence r ∈ expired) ∧
  (∀ r, r ∈ tb_operation_receipts (st_tx s') → r ∈ tb_operation_receipts (st_tx s)).
Proof.
  revert s. induction expired as [|q expired IH]; intros s H.
  { apply ret_ok in H as [_ ->]. split_and!; eauto. }
  simpl in H. run_as H u1 s2 H1. run_as H1 u0 s1 H0. apply exec_ok in H0 as (H0 & _). apply exec_ok in H1 as (H1 & _).
  injection H0 as H0. injection H1 as H1. destruct (IH _ H) as (IH1 & IH2 & IH3).
  rewrite <- H1, <- H0 in IH1, IH2, IH3. simpl in IH1, IH2, IH3. split_and!.
  - intros r Hr. destruct (cell_eqb (rt_device_id r) (CText deviceID) && cell_eqb (rt_receipt_class r) (CText receiptClass)
                           && (rt_receipt_sequence r =? q)) eqn:E.
    + right. apply andb_true_iff in E as [[E1 E2]%andb_true_iff E3%Z.eqb_eq].
      apply cell_eqb_true in E1, E2. split_and!; [done..|]. rewrite E3. left.
    + destruct (IH1 r) as [?|(?&?&?)]; [apply elem_of_delete_rows; done|by left|]. right. split_and!; [done..|by right].
  - intros r Hr. destruct (Z.eqb_spec (op_receipt_sequence r) q) as [<-|Hn]; [right; left|].
    destruct (IH2 r) as [?|?]; [|by left|right; by right]. apply elem_of_delete_rows. split; [done|by apply Z.eqb_neq].
  - intros r Hr. by apply IH3, elem_of_delete_rows in Hr as [? _].
Qed.

(** The rows of the class with a larger sequence. *)
Definition newer_rows (deviceID receiptClass : string) (sequence : Z) (d : db) : list operation_receipt_retention_row :=
  select (λ q, sequence <? rt_receipt_sequence q) (class_rows deviceID receiptClass d).
Lemma newest_above n q b rows : nth_newest n rows = Some b → q < b →
  (S n <= length (select (λ r, (q <? rt_receipt_sequence r)%Z) rows))%nat.
Proof.
  intros Hn Hq. unfold nth_newest in Hn. set (l := order_by _ _) in *.
  assert (Hsort : StronglySorted (λ x y, (y <=? x) = true) l).
  { apply (order_by_sorted (λ a b, b <=? a)); [intros; unbool; lia|intros; unbool; lia]. }
  assert (Hl : (S n <= length (List.filter (λ x, (q <? x)%Z) l))%nat).
  { clearbody l. clear rows. revert n Hn. induction Hsort as [|x l Hs IH Hall]; intros n Hn; [by destruct n|].
    destruct n as [|n]; simpl in Hn.
    - injection Hn as ->. simpl. destruct (Z.ltb_spec q b); [simpl; lia|lia].
    - assert (b <= x). { apply nth_error_In, list_elem_of_In in Hn. rewrite Forall_forall in Hall. specialize (Hall b Hn). by apply Z.leb_le. }
      simpl. destruct (Z.ltb_spec q x); [|lia]. simpl. specialize (IH n Hn). lia. }
  assert (Hlen : length (List.filter (λ x, q <? x) l) = length (select (λ r, q <? rt_receipt_sequence r) rows)).
  { assert (Hp : l ≡ₚ map rt_receipt_sequence rows) by apply order_by_perm. clearbody l. unfold select.
    transitivity (length (List.filter (λ x, q <? x) (map rt_receipt_sequence rows))).
    - clear -Hp. induction Hp as [|x l k Hp IH|x y l|l k m H1 IH1 H2 IH2]; simpl; try congruence.
      + destruct (q <? x); simpl; congruence.
      + by destruct (q <? x), (q <? y).
    - clear. induction rows as [|r rows IH]; [done|]. simpl. destruct (q <? _); simpl; congruence. }
  lia.
Qed.

(** A row the pruning of a class may remove: old, and behind enough newer rows. *)
Definition prunable (deviceID operation : string) (uptime retainCount minimumAge : Z) (d : db)
    (r : operation_receipt_retention_row) : Prop :=
  rt_device_id r = CText deviceID ∧ rt_receipt_class r = CText (receipt_class operation) ∧
  retainCount <= Z.of_nat (length (newer_rows deviceID (receipt_class operation) (rt_receipt_sequence r) d)) ∧
  ∀ created, u64 created → rt_created_uptime_ms r = cell_u64 created → created + Z.quot minimumAge Millisecond <= uptime.

Lemma elem_of_expired deviceID receiptClass boundary cutoff d q : q ∈ expired_receipts deviceID receiptClass boundary cutoff d →
  ∃ r, r ∈ class_rows deviceID receiptClass d ∧ rt_receipt_sequence r = q ∧ q < boundary ∧
       cell_leb (rt_created_uptime_ms r) (cell_u64 cutoff) = true.
Proof.
  unfold expired_receipts. intros Hq.
  assert (Hin : q ∈ map rt_receipt_sequence (select (λ r, (rt_receipt_sequence r <? boundary)
      && cell_leb (rt_created_uptime_ms r) (cell_u64 cutoff)) (class_rows deviceID receiptClass d))).
  { apply (elem_of_order_by Z.leb). rewrite <- (take_drop 256). apply elem_of_app. by left. }
  apply list_elem_of_In, in_map_iff in Hin as (r & <- & Hr). apply list_elem_of_In, elem_of_select in Hr as [Hr Hc].
  exists r. unbool. done.
Qed.

Lemma expired_prunable deviceID operation uptime retainCount minimumAge boundary d q :
  u64 uptime → 1 <= retainCount → 0 <= Z.quot minimumAge Millisecond <= uptime →
  nth_newest (Z.to_nat (retainCount - 1)) (class_rows deviceID (receipt_class operation) d) = Some boundary →
  q ∈ expired_receipts deviceID (receipt_class operation) boundary (uptime - Z.quot minimumAge Millisecond) d →
  ∃ r, r ∈ tb_operation_receipt_retention d ∧ rt_receipt_sequence r = q ∧
       prunable deviceID operation uptime retainCount minimumAge d r.
Proof.
  intros Hup Hret Hage Hb Hq. apply elem_of_expired in Hq as (r & Hr & <- & Hlt & Hle).
  pose proof Hr as [Hin Hc]%elem_of_select. apply andb_true_iff in Hc as [Hd%cell_eqb_true Hcl%cell_eqb_true].
  exists r. split_and!; [done|done|]. split_and!; [done|done| |].
  - pose proof (newest_above _ _ _ _ Hb Hlt). unfold newer_rows. lia.
  - intros created Hcr Hcell. rewrite Hcell in Hle. unfold cell_u64 in Hle. simpl in Hle.
    rewrite EncodeUint64_sleb in Hle; [unbool; lia|done|]. unfold u64 in *. lia.
Qed.
Lemma retention_unique d r q : db_ok d → r ∈ tb_operation_receipt_retention d → q ∈ tb_operation_receipt_retention d →
  rt_receipt_sequence r = rt_receipt_sequence q → r = q.
Proof.
  intros Hok Hr Hq E. eapply table_ok_unique; [apply conflict_operation_receipt_retention_sym|apply ok_operation_receipt_retention, Hok|done|done|].
  unfold conflict_operation_receipt_retention. by apply Z.eqb_eq.
Qed.
Lemma quot_nonneg a : 0 <= a → 0 <= Z.quot a Millisecond.
Proof. intros Ha. apply Z.quot_pos; [done|]. unfold Millisecond. lia. Qed.

Lemma prune_cases deviceID operation uptime retainCount minimumAge s u s' : u64 uptime → db_ok (st_tx s) →
  pruneOperationReceipts deviceID operation uptime retainCount minimumAge s = (Ok u, s') →
  (∀ r, r ∈ tb_operation_receipt_retention (st_tx s) → r ∈ tb_operation_receipt_retention (st_tx s') ∨
        prunable deviceID operation uptime retainCount minimumAge (st_tx s) r) ∧
  (∀ r, r ∈ tb_operation_receipts (st_tx s) → r ∈ tb_operation_receipts (st_tx s') ∨
        ∃ q, q ∈ tb_operation_receipt_retention (st_tx s) ∧ rt_receipt_sequence q = op_receipt_sequence r ∧
             prunable deviceID operation uptime retainCount minimumAge (st_tx s) q) ∧
  (∀ r, r ∈ tb_operation_receipts (st_tx s') → r ∈ tb_operation_receipts (st_tx s)).
Proof.
  intros Hup Hok H. unfold pruneOperationReceipts in H.
  assert (HP : held (st_db s) (st_tx s) (st_eph s) s) by done. revert HP Hok. generalize (st_tx s) (st_db s) (st_eph s).
  intros T D e HP Hok. pass_as HP H u0 s0 H0. apply ensure_ok in H0 as [Hargs _].
  destruct (Z.ltb_spec uptime (Z.quot minimumAge Millisecond)) as [|Hage].
  { apply ret_ok in H as [_ ->]. destruct HP as (_ & -> & _). split_and!; eauto. }
  pose proof HP as (_ & E0 & _). pass_as HP H b s1 H1. apply query_ok in H1 as (-> & _). rewrite E0 in H.
  destruct (nth_newest _ _) as [boundary|] eqn:Eb; [|apply ret_ok in H as [_ ->]; destruct HP as (_ & -> & _); split_and!; eauto].
  pass HP H. pose proof HP as (_ & E2 & _). pass_as HP H expired se H2. apply query_ok in H2 as (-> & _). rewrite E2 in H.
  pass HP H. destruct HP as (_ & E3 & _). apply delete_loop in H as (D1 & D2 & D3). rewrite E3 in *.
  apply negb_true_iff, orb_false_iff in Hargs as [Hr%Z.ltb_ge Ha%Z.ltb_ge].
  assert (Hex := λ q, expired_prunable deviceID operation uptime retainCount minimumAge boundary T q Hup Hr
                        (conj (quot_nonneg _ Ha) Hage) Eb).
  split_and!; [| |done].
  - intros r Hin. destruct (D1 r Hin) as [?|(_ & _ & Hq)]; [by left|]. right.
    apply Hex in Hq as (q & Hq & Hs & Hp). by rewrite (retention_unique T r q Hok Hin Hq).
  - intros r Hin. destruct (D2 r Hin) as [?|Hq]; [by left|]. right. by apply Hex in Hq.
Qed.

(** Pruning respects the retention promise: of the retention rows, and of the
    receipts they index, pruning removes only rows of the given device and class that
    have at least [retainCount] newer rows in the class and whose recorded uptime is at
    least [minimumAge] in the past. *)
Theorem prune_keeps_protected deviceID operation uptime retainCount minimumAge s u s'
    (Hup : u64 uptime) (Hok : db_ok (st_tx s))
    (Hrun : pruneOperationReceipts deviceID operation uptime retainCount minimumAge s = (Ok u, s')) :
  (∀ r, r ∈ tb_operation_receipt_retention (st_tx s) → r ∈ tb_operation_receipt_retention (st_tx s') ∨
        prunable deviceID operation uptime retainCount minimumAge (st_tx s) r) ∧
  (∀ r, r ∈ tb_operation_receipts (st_tx s) → r ∈ tb_operation_receipts (st_tx s') ∨
        ∃ q, q ∈ tb_operation_receipt_retention (st_tx s) ∧ rt_receipt_sequence q = op_receipt_sequence r ∧
             prunable deviceID operation uptime retainCount minimumAge (st_tx s) q).
Proof. pose proof (prune_cases _ _ _ _ _ _ _ _ Hup Hok Hrun) as (? & ? & _). done. Qed.

(** ** Replay *)
Lemma next_rowid_above ids i : i ∈ ids → i < next_rowid ids.
Proof.
  unfold next_rowid. destruct ids as [|j rest]; [by intros ?%elem_of_nil|].
  assert (Hmax : ∀ l j, j <= fold_left Z.max l j ∧ ∀ k, k ∈ l → k <= fold_left Z.max l j).
  { clear. induction l as [|x l IH]; intros j; simpl; [split; [lia|by intros k ?%elem_of_nil]|].
    destruct (IH (Z.max j x)) as [H1 H2]. split; [lia|]. intros k [->|Hk]%elem_of_cons; [lia|auto]. }
  destruct (Hmax rest j) as [H1 H2]. intros [->|Hi]%elem_of_cons; [lia|]. specialize (H2 i Hi). lia.
Qed.
(** Every retention row indexes a receipt. *)
Definition indexed (d : db) : Prop :=
  ∀ q, q ∈ tb_operation_receipt_retention d → ∃ r, r ∈ tb_operation_receipts d ∧ op_receipt_sequence r = rt_receipt_sequence q.

Definition indexedb (d : db) : bool :=
  forallb (λ q, existsb (λ r, op_receipt_sequence r =? rt_receipt_sequence q) (tb_operation_receipts d))
    (tb_operation_receipt_retention d).
Lemma indexedb_indexed d : indexedb d = true → indexed d.
Proof.
  intros H q Hq. unfold indexedb in H. rewrite forallb_forall in H. apply list_elem_of_In, H, existsb_exists in Hq as (r & Hr & E).
  exists r. by apply list_elem_of_In in Hr; apply Z.eqb_eq in E.
Qed.

Lemma stored_body_length operation status body identity :
  validateStoredOperationResponse operation status body identity = true → 0 < slen body <= maxBodyBytes.
Proof.
  intros H. assert (Hd : ∀ t g, decodeStoredCanonical t body = Some g → 0 < slen body <= maxBodyBytes).
  { intros ty g Hd. unfold decodeStoredCanonical in Hd. destruct (_ || _) eqn:E; [done|].
    apply orb_false_iff in E as [E1%Z.eqb_neq E2%Z.ltb_ge]. unfold slen in *. lia. }
  unfold validateStoredOperationResponse, decodeStoredCanonicalAs in H.
  repeat (case_match_in H; try discriminate H); eauto.
Qed.

Lemma stmt_insert_receipt r : stmt_ok (insert_operation_receipts r).
Proof. stmt_tac. Qed.
Lemma stmt_insert_retention r : stmt_ok (insert_operation_receipt_retention r).
Proof. stmt_tac. Qed.
Lemma receipt_key_conflict deviceID operation requestID row q :
  op_device_id row = CText deviceID → op_operation row = CText operation → op_request_id row = CText requestID →
  receipt_key_is deviceID operation requestID q = true → conflict_operation_receipts row q = true.
Proof.
  intros Hd Ho Hr H. unfold receipt_key_is in H. unfold conflict_operation_receipts. rewrite Hd, Ho, Hr.
  apply orb_true_iff. right. apply andb_true_iff in H as [[H1%cell_eqb_true H2%cell_eqb_true]%andb_true_iff H3%cell_eqb_true].
  rewrite H1, H2, H3. simpl. by rewrite !String.eqb_refl.
Qed.
Lemma select_none {A} (p : A → bool) rows : (∀ x, x ∈ rows → p x = false) → select p rows = [].
Proof.
  intros H. destruct (select p rows) as [|x rest] eqn:E; [done|]. exfalso.
  assert (Hx : x ∈ select p rows) by (rewrite E; left). apply elem_of_select in Hx as [Hx Hp]. rewrite (H x Hx) in Hp. done.
Qed.
Lemma key_selects (p : operation_receipts_row → bool) rows row : row ∈ rows → p row = true →
  (∀ q, q ∈ rows → p q = true → q = row) → query_row (select p rows) = Some row.
Proof.
  intros Hin Hp Huniq. destruct (select p rows) as [|q rest] eqn:E.
  - assert (Hs : row ∈ select p rows) by (by apply elem_of_select). rewrite E in Hs. by apply elem_of_nil in Hs.
  - assert (Hq : q ∈ select p rows) by (rewrite E; left). apply elem_of_select in Hq as [Hq Hpq].
    unfold query_row. simpl. f_equal. by apply Huniq.
Qed.

(** The row a receipt leaves: the only one of its key, whatever pruning removed. *)
Lemma storeReceipt_row deviceID operation requestID fingerprint response now uptime s u s' :
  u64 uptime → db_ok (st_tx s) → indexed (st_tx s) →
  storeReceiptAtUptime deviceID operation requestID fingerprint response now uptime s = (Ok u, s') →
  ∃ row, query_row (select (receipt_key_is deviceID operation requestID) (tb_operation_receipts (st_tx s'))) = Some row ∧
    op_request_fingerprint row = CBlob fingerprint ∧ op_response_status row = Status response ∧
    op_response_json row = CBlob (RBody response) ∧ ck_operation_receipts row = true.
Proof.
  intros Hup Hok Hidx H. unfold storeReceiptAtUptime in H.
  run_as H d0 s0 H0. injection H0 as <- <-. run_as H u1 s1 H1. apply exec_ok in H1 as (Hins & _).
  run_as H u2 s2 H2. apply ensure_ok in H2 as [_ ->]. run_as H u3 s3 H3. apply exec_ok in H3 as (Hins' & _).
  assert (Hok3 : db_ok (st_tx s3)) by (eapply stmt_insert_retention, stmt_insert_receipt; eauto).
  set (N := next_rowid _) in *. set (row := Mk_operation_receipts _ _ _ _ _ _ _ _ _) in *.
  unfold insert_operation_receipts in Hins. destruct (insert_row _ _ row _) as [rows|] eqn:E1; [|done].
  injection Hins as Hins. apply insert_row_Some in E1 as (-> & Hck & Hfresh).
  unfold insert_operation_receipt_retention in Hins'. destruct (insert_row _ _ _ _) as [ret|] eqn:E2; [|done].
  injection Hins' as Hins'. apply insert_row_Some in E2 as (-> & _). rewrite <- Hins in Hins'. simpl in Hins'.
  apply prune_cases in H as (_ & Hkeep & Hsub); [|done..]. rewrite <- Hins' in Hkeep, Hsub. simpl in Hkeep, Hsub.
  assert (Hin : row ∈ tb_operation_receipts (st_tx s')).
  { destruct (Hkeep row) as [?|(q & Hq & Hseq & Hp)]; [apply elem_of_app; right; left|done|]. exfalso.
    destruct Hp as (_ & _ & Hcount & _). unfold newer_rows in Hcount. simpl in Hseq. rewrite Hseq in Hcount.
    assert (Hnone : select (λ x, N <? rt_receipt_sequence x)
      (class_rows deviceID (receipt_class operation) (st_tx s3)) = []).
    { apply select_none. intros x [Hx _]%elem_of_select. apply Z.ltb_ge. rewrite <- Hins' in Hx. simpl in Hx.
      apply elem_of_app in Hx as [Hx|Hx%list_elem_of_singleton]; [|subst x; simpl; lia].
      destruct (Hidx x Hx) as (r & Hr & Er).
      assert (op_receipt_sequence r < N). { apply next_rowid_above, list_elem_of_In, in_map, list_elem_of_In, Hr. } lia. }
    rewrite <- Hins' in Hnone. unfold receiptMinimumCount in Hcount. apply (f_equal length) in Hnone. simpl in *. lia. }
  exists row. split_and!; try done. apply key_selects; [done|..].
  - unfold receipt_key_is. simpl. by rewrite !String.eqb_refl.
  - intros q Hq Hkey. apply Hsub, elem_of_app in Hq as [Hq|Hq%list_elem_of_singleton]; [|done].
    exfalso. apply Hfresh in Hq. by rewrite (receipt_key_conflict deviceID operation requestID) in Hq.
Qed.


(** ** The theorems at work *)
(** Two receipts of one class, the envelope's and a revocation's. *)
Definition receipts_state : St := Eval vm_compute in
  let s := after (api revoke_call) enveloped_state in with_tx (st_db s) s.
Lemma receipts_ok : db_ok (st_tx receipts_state).
Proof. split; table_by_computation. Qed.

(** Keeping one receipt of any age, the older of the two goes. *)
Lemma prune_keeps_protected_witness :
  let run := pruneOperationReceipts sample_device "vault-envelope" 100 1 0 receipts_state in
  (run.1 = Ok () ∧ length (tb_operation_receipts (st_tx receipts_state)) = 2%nat ∧
   length (tb_operation_receipts (st_tx run.2)) = 1%nat) ∧
  (∀ r, r ∈ tb_operation_receipt_retention (st_tx receipts_state) → r ∈ tb_operation_receipt_retention (st_tx run.2) ∨
        prunable sample_device "vault-envelope" 100 1 0 (st_tx receipts_state) r).
Proof.
  cbv zeta. split; [vm_compute; done|].
  apply (prune_keeps_protected sample_device "vault-envelope" 100 1 0 receipts_state ()
           (pruneOperationReceipts sample_device "vault-envelope" 100 1 0 receipts_state).2).
  - vm_compute. split; [discriminate|reflexivity].
  - apply receipts_ok.
  - vm_compute. reflexivity.
Defined.

(** The envelope's reply, recorded under a request identifier not used before. *)
Definition sample_reply : Response := ok_response 200 (marshalJSON sample_envelope).
Definition sample_record : Handler () :=
  storeReceiptAtUptime sample_device "vault-envelope" (id_of "f") (of_bytes (repeat 7 32)) sample_reply (at_ms 80) 80.
