(* ===== verification/SyncProps.v ===== *)
(** * Synchronization: what is admitted, and what a reply contains

    Theorems about [sync.go]: the counters of the admitted revisions, the causal
    frontier a record keeps, and the page of changes a reply carries. *)

From stdpp Require Import base list strings gmap.
From Stdlib Require Import ZArith Lia Ascii Sorting.Sorted.
From S2P Require Import Prelude GoStd GoTime Auth Api Json Wire Models Vectors Sql Schema Monad Keys SqlFacts Runtime.
From S2P Require Import Receipts Collection Sync Samples Constraints.
Local Open Scope Z_scope.

(** ** Admission *)
Definition new_items (pending : list pendingRevision) : list pendingRevision := List.filter pn_isNew pending.
(** The collected frontier of a record, when it has one. *)
Definition frontier_of (record : string) (d : db) : option version_vector :=
  match query_row (select (λ r, cell_eqb (mk_record_id r) (CText record)) (tb_collection_markers d)) with
  | Some r =>
      match scan_body maxVectorBytes (mk_frontier_json r) with
      | Some body => match unmarshalAs (list vectorEntry) body with Some entries => validateVector entries | None => None end
      | None => None
      end
  | None => None
  end.
(** What an admitted new revision has passed. *)
Record admitted (deviceID : string) (d : db) (item : pendingRevision) : Prop := {
  adm_shape : validateRevision (pn_revision item) = Some (pn_authorCounter item, pn_vector item);
  adm_author : rr_AuthorDeviceID (pn_revision item) = deviceID;
  adm_canonical : pn_canonical item = marshalJSON (pn_revision item);
  adm_hash : pn_contentHash item = GoStd.Sum256 (pn_canonical item);
  adm_fresh : ∀ r, r ∈ tb_record_revisions d → v_revision_id r ≠ CText (rr_RevisionID (pn_revision item));
  adm_frontier : ∀ f, frontier_of (rr_RecordID (pn_revision item)) d = Some f → vectorDominates (pn_vector item) f = true }.

Lemma mutation_shape_Some deviceID previous revision shape : mutation_shape deviceID previous revision = Some shape →
  validateRevision revision = Some shape ∧ rr_AuthorDeviceID revision = deviceID.
Proof.
  unfold mutation_shape. destruct (validateRevision revision) as [sh|]; [|done].
  destruct (_ && _) eqn:E; [|done]. intros [= ->]. apply andb_true_iff in E as [E%String.eqb_eq _]. done.
Qed.
Lemma preflight_marker_Ok record s s' : preflightCollectionMarkerKey record s = (Ok false, s') →
  frontier_of record (st_tx s) = None.
Proof.
  unfold preflightCollectionMarkerKey. intros H. apply preflight_key_Ok in H as [_ Hn].
  apply length_zero_iff_nil in Hn. unfold frontier_of. by rewrite Hn.
Qed.
Lemma causality_frontier record revision vec siblings s u s' :
  validateRecordCausality record revision vec siblings s = (Ok u, s') →
  ∀ f, frontier_of record (st_tx s) = Some f → vectorDominates vec f = true.
Proof.
  intros H f Hf. unfold validateRecordCausality in H.
  assert (HP : held (st_db s) (st_tx s) (st_eph s) s) by done. revert HP Hf. generalize (st_tx s) (st_db s) (st_eph s).
  intros T D e HP Hf. pose proof HP as (_ & E0 & _). unfold preflightCollectionMarkerKey in H.
  pass_as HP H present s1 H1. destruct present.
  - run_as H u1 s2 H2. pose proof HP as (_ & E1 & _). pass_as HP H2 row s3 H3. apply query_ok in H3 as (-> & _).
    rewrite E1 in H2. pass_as HP H2 fr s4 H4. apply from_option_ok in H4 as [H4 _].
    unfold frontier_of in Hf. rewrite H4 in Hf. injection Hf as <-. by apply ensure_ok in H2 as [? _].
  - apply preflight_marker_Ok in H1. rewrite E0 in H1. congruence.
Qed.
Lemma admit_new_Ok deviceID lastCounter pending revision authorCounter vec s u s' :
  admit_new deviceID lastCounter pending revision authorCounter vec s = (Ok u, s') →
  authorCounter = lastCounter + 1 ∧
  ∀ f, frontier_of (rr_RecordID revision) (st_tx s) = Some f → vectorDominates vec f = true.
Proof.
  intros H. unfold admit_new in H.
  assert (HP : held (st_db s) (st_tx s) (st_eph s) s) by done. revert HP. generalize (st_tx s) (st_db s) (st_eph s).
  intros T D e HP. unfold preflightRevisionKeyAbsence, preflightRecordKeyAliases in H. do 3 pass HP H. pass HP H.
  pass_as HP H ua sa Ha. apply ensure_ok in Ha as [->%Z.eqb_eq _]. pass HP H.
  split; [done|]. destruct HP as (_ & <- & _). by eapply causality_frontier.
Qed.
Lemma mutation_step_Ok deviceID pending lastCounter previous revision s pending' lastCounter' s' :
  mutation_step deviceID pending lastCounter previous revision s = (Ok (pending', lastCounter'), s') →
  new_items pending' = new_items pending ∧ lastCounter' = lastCounter ∨
  ∃ item, new_items pending' = new_items pending ++ [item] ∧ admitted deviceID (st_tx s) item ∧
    pn_authorCounter item = lastCounter + 1 ∧ lastCounter' = lastCounter + 1 ∧ pn_revision item = revision ∧
    Forall (λ p, rr_RevisionID (pn_revision p) ≠ rr_RevisionID revision) (new_items pending).
Proof.
  intros H. unfold mutation_step in H.
  assert (HP : held (st_db s) (st_tx s) (st_eph s) s) by done. revert HP. generalize (st_tx s) (st_db s) (st_eph s).
  intros T D e HP. run_as H shape s0 H0. apply from_option_ok in H0 as [Hsh ->]. apply mutation_shape_Some in Hsh as [Hsh Hau].
  destruct shape as [authorCounter vec]. pose proof HP as (_ & E0 & _). pass_as HP H stored s1 H1. apply query_ok in H1 as (-> & _).
  rewrite E0 in H. destruct (query_row _) as [r|] eqn:Er.
  { left. do 2 pass HP H. apply ret_ok in H as [[= -> ->] ->]. unfold new_items. rewrite List.filter_app. simpl. by rewrite app_nil_r. }
  destruct (pending_revision _ _) eqn:Ep.
  { left. pass HP H. by apply ret_ok in H as [[= -> ->] ->]. }
  right. run_as H u1 s2 H2. apply ret_ok in H as [[= -> ->] ->]. destruct HP as (_ & E1 & _).
  apply admit_new_Ok in H2 as [-> Hfr]. rewrite E1 in Hfr. eexists. split_and!.
  - unfold new_items. rewrite List.filter_app. simpl. reflexivity.
  - split; simpl; try done. intros q Hq Eq. unfold query_row in Er. destruct (select _ _) eqn:Es in Er; [|done].
    assert (Hin : q ∈ select (λ r, cell_eqb (v_revision_id r) (CText (rr_RevisionID revision))) (tb_record_revisions T)).
    { apply elem_of_select. split; [done|]. rewrite Eq. simpl. apply String.eqb_refl. }
    rewrite Es in Hin. by apply elem_of_nil in Hin.
  - done.
  - done.
  - done.
  - apply Forall_forall. intros p Hp Eq. unfold new_items in Hp. apply list_elem_of_In, filter_In in Hp as [Hp Hnew].
    unfold pending_revision in Ep. eapply List.find_none in Ep; [|exact Hp]. rewrite Hnew in Ep. simpl in Ep.
    by rewrite Eq, String.eqb_refl in Ep.
Qed.

(** The state of the loop: what has been admitted so far, from [start]. *)
Record admission (deviceID : string) (d : db) (start : Z) (pending : list pendingRevision) (last : Z) : Prop := {
  ad_items : Forall (admitted deviceID d) (new_items pending);
  ad_counters : map pn_authorCounter (new_items pending) = seqZ (start + 1) (new_count pending);
  ad_last : last = start + new_count pending;
  ad_distinct : NoDup (map (λ p, rr_RevisionID (pn_revision p)) (new_items pending)) }.
Lemma admission_step deviceID start pending last previous revision s pending' last' s' :
  admission deviceID (st_tx s) start pending last →
  mutation_step deviceID pending last previous revision s = (Ok (pending', last'), s') →
  admission deviceID (st_tx s) start pending' last'.
Proof.
  intros [H1 H2 H3 H4] H. unfold new_count in *. fold (new_items pending) in *.
  apply mutation_step_Ok in H as [[En ->]|(item & En & Hadm & Hc & -> & Hrev & Hother)].
  - split; unfold new_count; fold (new_items pending'); by rewrite En.
  - assert (Hlen : Z.of_nat (length (new_items pending ++ [item])) = Z.of_nat (length (new_items pending)) + 1)
      by (rewrite length_app; simpl; lia).
    split; unfold new_count; fold (new_items pending'); rewrite En.
    + apply Forall_app. auto.
    + rewrite Hlen, map_app, H2, seqZ_app by lia. f_equal. unfold seqZ. simpl. f_equal. lia.
    + lia.
    + rewrite map_app. apply NoDup_app. split_and!; [done| |apply NoDup_singleton]. simpl.
      intros x Hx Hx'%list_elem_of_singleton. subst x. rewrite Hrev in Hx. apply list_elem_of_In, in_map_iff in Hx as (p & Ep & Hp).
      rewrite Forall_forall in Hother. apply list_elem_of_In, Hother in Hp. congruence.
Qed.
Lemma admission_loop deviceID start revisions : ∀ pending last previous s pending' last' s',
  admission deviceID (st_tx s) start pending last →
  validateMutations deviceID pending last previous revisions s = (Ok (pending', last'), s') →
  admission deviceID (st_tx s) start pending' last'.
Proof.
  induction revisions as [|revision rest IH]; intros pending last previous s pending' last' s' Ha H.
  { by apply ret_ok in H as [[= -> ->] _]. }
  simpl in H. run_as H step s1 H1. destruct step as [pending1 last1].
  pose proof (pres_run _ _ _ _ _ (reads_mutation_step _ _ _ _ _) H1) as (_ & E & _). rewrite <- E.
  eapply IH; [|exact H]. rewrite E. by eapply admission_step.
Qed.

(** C21. What synchronization admits: the revisions [validateMutations] accepts as new
    are well formed, authored by the device, unknown to the store and distinct; their
    author counters are exactly the next ones, without a gap; and each of them strictly
    dominates the collected frontier of its record, so that collection is never undone
    by a stale revision. *)
Theorem admitted_mutations deviceID last revisions s pending final s'
    (Hrun : validateMutations deviceID [] last None revisions s = (Ok (pending, final), s')) :
  Forall (admitted deviceID (st_tx s)) (new_items pending) ∧
  map pn_authorCounter (new_items pending) = seqZ (last + 1) (new_count pending) ∧
  final = last + new_count pending ∧
  NoDup (map (λ p, rr_RevisionID (pn_revision p)) (new_items pending)).
Proof.
  apply (admission_loop deviceID last) in Hrun as [? ? ? ?]; [done|].
  split; unfold new_count; simpl; [constructor|done|lia|constructor].
Qed.

(** The sample revision on the store that has only the envelope. *)
Definition opened_state : St := with_tx (st_db enveloped_state) enveloped_state.
Definition admission_run : res Error (list pendingRevision * Z) * St :=
  Eval vm_compute in validateMutations sample_device [] 0 None [sample_revision] opened_state.
Lemma admitted_mutations_witness :
  ∃ item, admission_run.1 = Ok ([item], 1) ∧ admitted sample_device (st_tx opened_state) item.
Proof.
  assert (E : validateMutations sample_device [] 0 None [sample_revision] opened_state = admission_run)
    by (vm_compute; reflexivity).
  eexists. split; [reflexivity|].
  pose proof (admitted_mutations sample_device 0 [sample_revision] opened_state _ _ _ E) as (H & _). by inversion H.
Defined.
