(* ===== verification/Frontier.v ===== *)
(** * The causal frontier of a record

    A record's heads are its undominated revisions.  [sync.go] keeps them
    incrementally (classifyRevisionFrontier and the writes of handleSync); here that
    is shown to be the set of maximal vectors, first on lists and then on the rows a
    run of the loop body leaves. *)

From stdpp Require Import base list strings gmap.
From Stdlib Require Import ZArith Lia Ascii.
From S2P Require Import Prelude GoStd GoTime Uuid Auth Api Json JsonFacts Wire Models Vectors Sql Schema Monad Keys SqlFacts.
From S2P Require Import Runtime Receipts Persist Collection Sync Samples Accepted Constraints.
Local Open Scope Z_scope.

(** ** The size of an accepted vector *)
Lemma format_digits_length fuel n : (String.length (format_digits fuel n) <= fuel)%nat.
Proof.
  revert n. induction fuel as [|f IH]; intros n; simpl; [lia|]. destruct (n <? 10); [simpl; lia|].
  rewrite length_sapp. simpl. specialize (IH (n / 10)). lia.
Qed.
Lemma vector_entry_size e d c : Parse (ve_DeviceID e) = Some d → parseUint64 (ve_Counter e) = Some c →
  (String.length (print (to_json (go_ty vectorEntry) (to_g e))) <= String.length maxVectorEntryText)%nat.
Proof.
  intros Hd Hc. assert (Hu : validateUUID (ve_DeviceID e) = true) by (unfold validateUUID, valid_uuid; by rewrite Hd).
  pose proof (valid_uuid_length _ Hu) as Hlen. pose proof (plain_uuid _ Hu) as P1. pose proof (plain_counter _ _ Hc) as P2.
  apply parseUint64_Some in Hc as [Hc _]. pose proof (format_digits_length 20 c) as Hl. fold (FormatUint c) in Hl.
  change (to_json (go_ty vectorEntry) (to_g e)) with
    (JObj [("device_id", JStr (ve_DeviceID e)); ("counter", JStr (ve_Counter e))]).
  rewrite print_obj. cbn [print_members]. change (String.length maxVectorEntryText) with 85%nat.
  rewrite !length_sapp. cbn [print]. rewrite !length_print_plain by done.
  rewrite Hlen, Hc. unfold encodeUint64Text. cbn [String.length]. lia.
Qed.
Lemma print_elems_size l n : Forall (λ j, String.length (print j) <= n)%nat l →
  (String.length (print_elems l) <= length l * n + (length l - 1))%nat.
Proof.
  induction 1 as [|x l Hx Hl IH]; [simpl; lia|]. destruct l as [|y l]; [simpl in *; lia|].
  change (print_elems (x :: y :: l)) with (print x +:+ "," +:+ print_elems (y :: l)).
  rewrite !length_sapp. simpl in *. lia.
Qed.
Lemma validateVector_loop_entries p vs vec out : validateVector_loop p vs vec = Some out →
  Forall (λ e, is_Some (Parse (ve_DeviceID e)) ∧ is_Some (parseUint64 (ve_Counter e))) vec.
Proof.
  revert p vs. induction vec as [|e vec IH]; intros p vs H; [constructor|]. simpl in H.
  destruct (Parse (ve_DeviceID e)) eqn:Ed; [|done]. destruct (match p with None => true | Some _ => _ end); [|done].
  destruct (parseUint64 (ve_Counter e)) eqn:Ec; [|done]. destruct (_ =? 0); [done|]. constructor; [split; eauto|by eapply IH].
Qed.
Lemma vector_size vec v : validateVector vec = Some v → 0 < slen (marshalJSON vec) <= maxVectorBytes.
Proof.
  intros Hv. pose proof (validateVector_spec _ _ Hv) as (_ & _ & Hlen & _).
  unfold validateVector in Hv. case_match; [done|]. apply validateVector_loop_entries in Hv.
  unfold marshalJSON, marshal. change (to_json (go_ty (list vectorEntry)) (to_g vec)) with
    (JArr (map (to_json (go_ty vectorEntry)) (map to_g vec))).
  rewrite print_arr. unfold slen. rewrite !length_sapp.
  assert (Hall : Forall (λ j, String.length (print j) <= String.length maxVectorEntryText)%nat
    (map (to_json (go_ty vectorEntry)) (map to_g vec))).
  { apply Forall_forall. intros j Hj. apply list_elem_of_In in Hj. rewrite map_map in Hj. apply in_map_iff in Hj as (e & <- & He).
    rewrite Forall_forall in Hv. apply list_elem_of_In, Hv in He as [[? ?] [? ?]]. by eapply vector_entry_size. }
  apply print_elems_size in Hall. rewrite !length_map in Hall. unfold maxVectorBytes, slen, maxVectorEntries in *.
  set (m := String.length maxVectorEntryText) in *. cbn [String.length]. nia.
Qed.
Lemma scan_marshalled_vector id vec v : validateVector vec = Some v →
  ∀ r, v_vector_json r = CBlob (marshalJSON vec) → v_revision_id r = CText id → validateUUID id = true →
  scan_vector_row r = Some (id, v).
Proof.
  intros Hv r Hj Hid Hu. unfold scan_vector_row. rewrite Hid, scan_uuid_ok by done.
  rewrite Hj, scan_body_blob by (by eapply vector_size). rewrite unmarshalAs_marshal by (by eapply vector_plain). by rewrite Hv.
Qed.

(** The bound on stored vectors is right: the canonical bytes of any vector that
    [validateVector] accepts are at most [maxVectorBytes] long, so the readers that
    enforce the bound accept them, and they decode to the vector that was accepted. *)
Theorem accepted_vector_fits vec v (Hv : validateVector vec = Some v) :
  let body := marshalJSON vec in
  slen body <= maxVectorBytes ∧ scan_body maxVectorBytes (CBlob body) = Some body ∧
  unmarshalAs (list vectorEntry) body = Some vec.
Proof.
  cbv zeta. pose proof (vector_size _ _ Hv). split; [lia|]. split; [by apply scan_body_blob|].
  apply unmarshalAs_marshal. by eapply vector_plain.
Qed.
Lemma accepted_vector_fits_witness :
  slen (marshalJSON (sample_vector 1 MaxUint64)) <= maxVectorBytes.
Proof.
  apply (accepted_vector_fits (sample_vector 1 MaxUint64) (sample_map 1 MaxUint64)). vm_compute. reflexivity.
Defined.

(** ** Maximal vectors *)
Abbreviation stamped := (string * version_vector)%type.
Definition dominated_in (all : list stamped) (x : stamped) : bool := existsb (λ y : stamped, vectorDominates y.2 x.2) all.
(** The reference: the revisions no revision dominates. *)
Definition maximal (all : list stamped) : list stamped := List.filter (λ x, negb (dominated_in all x)) all.
(** The heads after a revision: those classify does not retire, and the revision itself
    when it is undominated. *)
Definition insert_head (id : string) (candidate : version_vector) (heads : list stamped) : list stamped :=
  let '(undominated, dominated) := classify candidate heads in
  List.filter (λ h : stamped, negb (bool_decide (h.1 ∈ dominated))) heads ++ (if undominated then [(id, candidate)] else []).

Definition counted (v : stamped) : Prop := positive v.2.
Lemma dominated_in_true all x : dominated_in all x = true ↔ ∃ y, y ∈ all ∧ vectorDominates y.2 x.2 = true.
Proof. unfold dominated_in. rewrite existsb_exists. by setoid_rewrite list_elem_of_In. Qed.
Lemma elem_of_maximal all x : x ∈ maximal all ↔ x ∈ all ∧ dominated_in all x = false.
Proof. unfold maximal. by rewrite !list_elem_of_In, filter_In, negb_true_iff. Qed.
Lemma filter_weaker {A} (p q : A → bool) l : (∀ x, x ∈ l → p x = true → q x = true) →
  (length (List.filter p l) <= length (List.filter q l))%nat.
Proof.
  induction l as [|x l IH]; intros H; simpl; [lia|].
  assert (length (List.filter p l) <= length (List.filter q l))%nat by (apply IH; intros y Hy; apply H; by right).
  destruct (p x) eqn:Ep; [rewrite (H x); [simpl; lia|left|done]|]. destruct (q x); simpl; lia.
Qed.
Lemma filter_stronger {A} (p q : A → bool) l x : (∀ y, y ∈ l → p y = true → q y = true) → x ∈ l → q x = true → p x = false →
  (length (List.filter p l) < length (List.filter q l))%nat.
Proof.
  intros H Hx Hq Hp. apply list_elem_of_split in Hx as (l1 & l2 & ->). rewrite !List.filter_app, !length_app. simpl.
  rewrite Hq, Hp. simpl.
  assert (length (List.filter p l1) <= length (List.filter q l1))%nat by (apply filter_weaker; set_solver).
  assert (length (List.filter p l2) <= length (List.filter q l2))%nat by (apply filter_weaker; set_solver). lia.
Qed.
(** Everything dominated is dominated by something maximal. *)
Lemma maximal_covers all x : Forall counted all → counted x → dominated_in all x = true → dominated_in (maximal all) x = true.
Proof.
  intros Hall Hx Hd. rewrite Forall_forall in Hall. apply dominated_in_true in Hd as (y & Hy & Hyx).
  remember (length (List.filter (λ z : stamped, vectorDominates z.2 y.2) all)) as n eqn:En. revert y Hy Hyx En.
  induction n as [n IH] using lt_wf_ind. intros y Hy Hyx ->.
  destruct (dominated_in all y) eqn:Edom.
  - apply dominated_in_true in Edom as (z & Hz & Hzy).
    pose proof (positive_nonneg _ (Hall _ Hy)) as Ny. pose proof (positive_nonneg _ (Hall _ Hz)) as Nz.
    pose proof (positive_nonneg _ Hx) as Nx.
    refine (IH _ _ z Hz _ eq_refl); [|by eapply vectorDominates_trans; [| | |exact Hzy|]].
    apply (filter_stronger _ _ _ z); [|done|done|by apply vectorDominates_irrefl].
    intros w Hw Hwz. eapply vectorDominates_trans; [by apply positive_nonneg, Hall|exact Nz|done|done|done].
  - apply dominated_in_true. exists y. split; [by apply elem_of_maximal|done].
Qed.
Lemma dominated_maximal all x : Forall counted all → counted x → dominated_in (maximal all) x = dominated_in all x.
Proof.
  intros Hall Hx. destruct (dominated_in all x) eqn:Ed; [by apply maximal_covers|].
  apply not_true_iff_false. intros (y & [Hy _]%elem_of_maximal & Hyx)%dominated_in_true.
  assert (dominated_in all x = true) by (apply dominated_in_true; eauto). congruence.
Qed.
Lemma dominated_in_app l k x : dominated_in (l ++ k) x = dominated_in l x || dominated_in k x.
Proof. apply existsb_app. Qed.
Lemma filter_filter {A} (p q : A → bool) l : List.filter p (List.filter q l) = List.filter (λ x, q x && p x) l.
Proof. induction l as [|x l IH]; [done|]. simpl. destruct (q x); simpl; [destruct (p x)|]; by rewrite IH. Qed.
Lemma filter_distinct {A B} (f : A → B) (p : A → bool) l : NoDup (map f l) → NoDup (map f (List.filter p l)).
Proof.
  induction l as [|y l IH]; intros H; [done|]. simpl in *. inversion H as [|? ? Hy H']; subst.
  destruct (p y); [|by apply IH]. simpl. constructor; [|by apply IH]. contradict Hy.
  apply list_elem_of_In, in_map_iff in Hy as (z & Ez & [Hz _]%filter_In). rewrite <- Ez. by apply list_elem_of_In, in_map.
Qed.
Lemma classify_retires candidate heads h : NoDup (map fst heads) → h ∈ heads →
  bool_decide (h.1 ∈ (classify candidate heads).2) = vectorDominates candidate h.2.
Proof.
  intros Hnd Hh. simpl. destruct (vectorDominates candidate h.2) eqn:E.
  - apply bool_decide_eq_true. apply list_elem_of_In, in_map_iff. exists h. split; [done|].
    apply filter_In. split; [by apply list_elem_of_In|done].
  - apply bool_decide_eq_false. intros Hin. apply list_elem_of_In, in_map_iff in Hin as (k & Ek & [Hk Hdom]%filter_In).
    apply list_elem_of_In in Hk. assert (k = h) as ->; [|congruence].
    apply list_elem_of_lookup in Hk as [i Hi]. apply list_elem_of_lookup in Hh as [j Hj].
    assert (i = j) as <-; [|congruence].
    change (map fst heads) with (fst <$> heads) in Hnd. eapply (NoDup_lookup (fst <$> heads)); [done| |];
      rewrite list_lookup_fmap, ?Hi, ?Hj; simpl; by rewrite ?Ek.
Qed.

(** The incremental step computes the reference. *)
Lemma insert_head_maximal id candidate all : NoDup (map fst all) → Forall counted all → positive candidate →
  insert_head id candidate (maximal all) = maximal (all ++ [(id, candidate)]).
Proof.
  intros Hnd Hall Hc. unfold insert_head. destruct (classify candidate (maximal all)) as [u dom] eqn:Ecl.
  assert (Hnd' : NoDup (map fst (maximal all))) by (by apply filter_distinct).
  unfold maximal at 2. rewrite List.filter_app. f_equal.
  - unfold maximal at 1. rewrite filter_filter. apply List.filter_ext_in. intros h Hh%list_elem_of_In.
    rewrite dominated_in_app. destruct (dominated_in all h) eqn:Eh; [done|]. simpl. rewrite orb_false_r. f_equal.
    replace dom with (classify candidate (maximal all)).2 by (by rewrite Ecl).
    apply classify_retires; [done|]. by apply elem_of_maximal.
  - injection Ecl as <- _. cbn [List.filter]. rewrite dominated_in_app.
    change (existsb _ (maximal all)) with (dominated_in (maximal all) (id, candidate)). rewrite dominated_maximal by done.
    simpl. rewrite vectorDominates_irrefl by (by apply positive_nonneg). rewrite !orb_false_r.
    by destruct (dominated_in all (id, candidate)).
Qed.

(** ** The rows *)
(** The heads of a record with their vectors, as classifyRevisionFrontier reads them. *)
Definition head_set (record : string) (d : db) : option (list stamped) := mapM_opt scan_vector_row (head_rows record d).
(** The vectors of the revisions with an identifier. *)
Definition vectors_of (revs : list record_revisions_row) (id : cell) : list (option stamped) :=
  map scan_vector_row (select (λ r, cell_eqb (v_revision_id r) id) revs).
Definition of_record (record : string) (h : record_heads_row) : bool := cell_eqb (h_record_id h) (CText record).
Definition head_vectors (record : string) (heads : list record_heads_row) (revs : list record_revisions_row)
    : list (option stamped) :=
  flat_map (λ h, vectors_of revs (h_revision_id h)) (select (of_record record) heads).

Lemma mapM_opt_map {A B} (f : A → option B) l k : mapM_opt f l = Some k ↔ map f l = map Some k.
Proof.
  rewrite mapM_opt_Some. split.
  - induction 1 as [|x y l k Hx Hl IH]; simpl; congruence.
  - revert k. induction l as [|x l IH]; intros [|y k] H; simpl in H; try discriminate; [constructor|].
    injection H as Hx Hl. constructor; [done|by apply IH].
Qed.
Lemma map_Some_perm {A} (l : list (option A)) k : l ≡ₚ map Some k → ∃ k', l = map Some k' ∧ k' ≡ₚ k.
Proof.
  intros (k' & -> & Hk)%Permutation_map_inv. exists k'. split; [done|]. by symmetry.
Qed.
Lemma head_rows_vectors record d :
  map scan_vector_row (head_rows record d) ≡ₚ head_vectors record (tb_record_heads d) (tb_record_revisions d).
Proof.
  unfold head_rows, head_vectors, vectors_of, of_record. rewrite flat_map_concat_map, concat_map, map_map, <- flat_map_concat_map.
  apply Permutation_flat_map, order_by_perm.
Qed.
Lemma head_set_vectors record d heads : head_set record d = Some heads →
  ∃ k, head_vectors record (tb_record_heads d) (tb_record_revisions d) = map Some k ∧ k ≡ₚ heads.
Proof.
  unfold head_set. rewrite mapM_opt_map. intros H. apply map_Some_perm. by rewrite <- head_rows_vectors, H.
Qed.
Lemma vectors_head_set record d k : head_vectors record (tb_record_heads d) (tb_record_revisions d) = map Some k →
  ∃ heads, head_set record d = Some heads ∧ heads ≡ₚ k.
Proof.
  intros H. destruct (map_Some_perm (map scan_vector_row (head_rows record d)) k) as (k' & H1 & H2).
  - by rewrite head_rows_vectors, H.
  - exists k'. by rewrite <- mapM_opt_map in H1.
Qed.

(** Retired heads leave, and nothing else. *)
Definition named (ids : list string) (c : cell) : bool := existsb (λ t, cell_eqb c (CText t)) ids.
Lemma retire_loop record ids s u s' : for_each ids (retire_head record) s = (Ok u, s') →
  tb_record_heads (st_tx s') = delete_rows (λ h, of_record record h && named ids (h_revision_id h)) (tb_record_heads (st_tx s)) ∧
  ∀ id, vectors_of (tb_record_revisions (st_tx s')) id = vectors_of (tb_record_revisions (st_tx s)) id.
Proof.
  revert s. induction ids as [|t ids IH]; intros s H.
  { apply ret_ok in H as [_ ->]. split; [|done]. unfold delete_rows. clear. induction (tb_record_heads (st_tx s)) as [|h l IH]; [done|].
    simpl. rewrite andb_false_r. simpl. by f_equal. }
  simpl in H. run_as H u1 s1 H1. destruct (IH _ H) as [IH1 IH2]. unfold retire_head in H1. run_as H1 u2 s2 H2.
  apply exec_ok in H1 as (H1 & _). apply exec_ok in H2 as (H2 & _). injection H1 as H1.
  unfold update_record_revisions in H2. destruct (update_rows _ _ _ _ _ _) as [rows|] eqn:E; [|done]. injection H2 as H2.
  apply update_rows_map in E as ->. split.
  - rewrite IH1, <- H1, <- H2. simpl. unfold delete_rows. rewrite filter_filter. apply List.filter_ext. intros h. unfold of_record, named. simpl.
    destruct (cell_eqb (h_record_id h) _), (cell_eqb (h_revision_id h) _); simpl; done.
  - intros id. rewrite IH2, <- H1, <- H2. simpl. unfold vectors_of.
    rewrite select_map_update; [|done|done]. rewrite map_map. apply map_ext. intros r. by destruct (_ && _).
Qed.
(** A revision is filed under its own identifier. *)
Lemma vectors_of_id revs c x : Some x ∈ vectors_of revs c → c = CText x.1.
Proof.
  unfold vectors_of. intros H%list_elem_of_In. apply in_map_iff in H as (r & Hr & [_ Hc%cell_eqb_true]%filter_In).
  unfold scan_vector_row in Hr. destruct (scan_uuid _) as [id|] eqn:E; [|done].
  apply scan_uuid_Some in E as [E _]. repeat (case_match_in Hr; try discriminate Hr). injection Hr as <-. simpl. congruence.
Qed.
Lemma named_text ids t : named ids (CText t) = bool_decide (t ∈ ids).
Proof.
  apply Bool.eq_iff_eq_true. unfold named. rewrite existsb_exists, bool_decide_eq_true. split.
  - intros (x & Hx & E). simpl in E. apply String.eqb_eq in E as <-. by apply list_elem_of_In.
  - intros H. exists t. split; [by apply list_elem_of_In|]. simpl. apply String.eqb_refl.
Qed.
Lemma retired_vectors ids revs heads k : flat_map (λ h, vectors_of revs (h_revision_id h)) heads = map Some k →
  flat_map (λ h, vectors_of revs (h_revision_id h)) (List.filter (λ h, negb (named ids (h_revision_id h))) heads)
  = map Some (List.filter (λ x : stamped, negb (bool_decide (x.1 ∈ ids))) k).
Proof.
  revert k. induction heads as [|h heads IH]; intros k H; simpl in H.
  { by destruct k. }
  symmetry in H. apply map_eq_app in H as (k1 & k2 & -> & H1 & H2). rewrite List.filter_app, map_app, <- (IH k2) by done.
  assert (Hk1 : ∀ x, x ∈ k1 → bool_decide (x.1 ∈ ids) = named ids (h_revision_id h)).
  { intros x Hx. rewrite <- named_text. f_equal. symmetry. apply (vectors_of_id revs). rewrite <- H1. by apply list_elem_of_In, in_map, list_elem_of_In. }
  simpl. destruct (named ids (h_revision_id h)); simpl.
  - replace (List.filter _ k1) with (@nil stamped); [done|]. symmetry. clear -Hk1. induction k1 as [|x k1 IH]; [done|].
    simpl. rewrite (Hk1 x) by left. apply IH. intros y Hy. apply Hk1. by right.
  - f_equal. rewrite <- H1. f_equal. symmetry. clear -Hk1. induction k1 as [|x k1 IH]; [done|].
    simpl. rewrite (Hk1 x) by left. simpl. f_equal. apply IH. intros y Hy. apply Hk1. by right.
Qed.

#[export] Instance filter_perm {A} (p : A → bool) : Proper ((≡ₚ) ==> (≡ₚ)) (List.filter p).
Proof.
  induction 1 as [|x l k Hp IH|x y l|l k m H1 IH1 H2 IH2]; simpl; [done| | |by etrans].
  - destruct (p x); [by apply Permutation_skip|done].
  - destruct (p x), (p y); try done. apply Permutation_swap.
Qed.
#[export] Instance existsb_perm {A} (p : A → bool) : Proper ((≡ₚ) ==> (=)) (existsb p).
Proof.
  intros l k H. apply Bool.eq_iff_eq_true. rewrite !existsb_exists. by setoid_rewrite <- list_elem_of_In; setoid_rewrite H.
Qed.
(** The order of the heads is irrelevant. *)
#[export] Instance insert_head_perm id candidate : Proper ((≡ₚ) ==> (≡ₚ)) (insert_head id candidate).
Proof.
  intros l k H. unfold insert_head, classify. apply Permutation_app; [|by rewrite (existsb_perm _ _ _ H)].
  rewrite (filter_perm _ _ _ H). apply reflexive_eq, List.filter_ext. intros h. f_equal. apply bool_decide_ext.
  by rewrite (Permutation_map fst (filter_perm _ _ _ H)).
Qed.

Definition head_tables (d : db) : list record_heads_row * list record_revisions_row := (tb_record_heads d, tb_record_revisions d).
Lemma framed_store_object item : Pres (same_of head_tables) (store_object item).
Proof. unfold store_object. framed. Qed.
Lemma framed_heads_insertChange a b c d e f g h : Pres (same_of head_tables) (insertChange a b c d e f g h).
Proof. framed_helpers. Qed.
Lemma framed_upsert_record record barrier : frames head_tables (upsert_collection_record record barrier).
Proof. frames_tac. Qed.

(** What classifyRevisionFrontier reads is the whole head set. *)
Lemma classify_Ok record candidate s u dominated s' : classifyRevisionFrontier record candidate s = (Ok (u, dominated), s') →
  ∃ heads, head_set record (st_tx s) = Some heads ∧ classify candidate heads = (u, dominated) ∧ st_tx s' = st_tx s.
Proof.
  unfold classifyRevisionFrontier. intros H. run_as H rows s1 H1. apply query_ok in H1 as (-> & Etx & _).
  run_as H heads s2 H2. apply from_option_ok in H2 as [Hm ->]. run_as H u1 s3 H3. apply ensure_ok in H3 as [Hlen ->].
  apply ret_ok in H as [-> ->]. exists heads. split_and!; [|done|done].
  unfold head_set. rewrite <- Hm. apply Nat.leb_le in Hlen. rewrite length_take in Hlen. f_equal. symmetry. apply take_ge. lia.
Qed.
Lemma vectors_of_fresh row revs id : (∀ q, q ∈ revs → conflict_record_revisions row q = false) → v_revision_id row = CText id →
  vectors_of revs (CText id) = [].
Proof.
  intros Hf Hr. unfold vectors_of. destruct (select _ _) as [|q rest] eqn:E; [done|]. exfalso.
  assert (Hq : q ∈ select (λ r, cell_eqb (v_revision_id r) (CText id)) revs) by (rewrite E; left).
  apply elem_of_select in Hq as [Hq Hc]. specialize (Hf q Hq). unfold conflict_record_revisions in Hf.
  rewrite Hr, cell_eqb_sym, Hc in Hf. done.
Qed.
Lemma vectors_of_snoc revs row c : vectors_of (revs ++ [row]) c =
  vectors_of revs c ++ (if cell_eqb (v_revision_id row) c then [scan_vector_row row] else []).
Proof. unfold vectors_of, select. rewrite List.filter_app, map_app. simpl. by destruct (cell_eqb _ _). Qed.

(** The heads the writes leave, for heads that do not name the new revision. *)
Lemma head_vectors_after record id heads revs row dominated (u : bool) k :
  (∀ h, h ∈ heads → h_revision_id h ≠ CText id) → vectors_of revs (CText id) = [] →
  v_revision_id row = CText id → scan_vector_row row = Some (id, k) →
  ∀ old, head_vectors record heads revs = map Some old →
  head_vectors record (delete_rows (λ h, of_record record h && named dominated (h_revision_id h)) heads
                       ++ (if u then [Mk_record_heads (CText record) (CText id)] else [])) (revs ++ [row])
  = map Some (List.filter (λ x : stamped, negb (bool_decide (x.1 ∈ dominated))) old ++ (if u then [(id, k)] else [])).
Proof.
  intros Hn Hfresh Hid Hrow old Hold. unfold head_vectors, select in *. rewrite List.filter_app, flat_map_app, map_app. f_equal.
  - rewrite <- (retired_vectors dominated revs (List.filter (of_record record) heads) old) by exact Hold. unfold delete_rows. rewrite !filter_filter.
    replace (List.filter (λ x, of_record record x && negb (named dominated (h_revision_id x))) heads)
      with (List.filter (λ x, negb (of_record record x && named dominated (h_revision_id x)) && of_record record x) heads)
      by (apply List.filter_ext; intros h; by destruct (of_record _ _), (named _ _)).
    rewrite !flat_map_concat_map. f_equal. apply map_ext_in. intros h [Hh _]%filter_In. apply list_elem_of_In, Hn in Hh.
    rewrite vectors_of_snoc, Hid. replace (cell_eqb _ _) with false; [apply app_nil_r|]. symmetry.
    apply not_true_iff_false. intros E%cell_eqb_true. congruence.
  - destruct u; [|done]. simpl. unfold of_record. simpl. rewrite String.eqb_refl. simpl.
    by rewrite vectors_of_snoc, Hfresh, Hid, cell_eqb_refl, Hrow.
Qed.


Lemma validateRevision_parts revision counter vec : validateRevision revision = Some (counter, vec) →
  validateUUID (rr_RevisionID revision) = true ∧ validateVector (rr_VersionVector revision) = Some vec.
Proof.
  unfold validateRevision. simpl. destruct (validateUUID (rr_RecordID revision)); [|done]. simpl.
  destruct (validateUUID (rr_RevisionID revision)); [|done]. intros H.
  repeat (case_match_in H; try discriminate H); by simplify_eq.
Qed.
Lemma revision_vector_row now uptime cursor undominated item counter :
  validateRevision (pn_revision item) = Some (counter, pn_vector item) →
  scan_vector_row (revision_row now uptime cursor undominated item) = Some (rr_RevisionID (pn_revision item), pn_vector item).
Proof.
  intros Hv. apply validateRevision_parts in Hv as [Hu Hv]. by eapply scan_marshalled_vector.
Qed.
(** The two tables after the loop body. *)
Lemma sync_apply_tables now uptime cursor item s c s' : pn_isNew item = true →
  sync_apply now uptime cursor item s = (Ok c, s') →
  let record := rr_RecordID (pn_revision item) in
  let id := rr_RevisionID (pn_revision item) in
  ∃ heads u dominated revs, let row := revision_row now uptime (cursor + 1) u item in
    head_set record (st_tx s) = Some heads ∧ classify (pn_vector item) heads = (u, dominated) ∧
    (∀ i, vectors_of revs i = vectors_of (tb_record_revisions (st_tx s)) i) ∧
    (∀ q, q ∈ revs → conflict_record_revisions row q = false) ∧
    tb_record_revisions (st_tx s') = revs ++ [row] ∧
    tb_record_heads (st_tx s') = delete_rows (λ h, of_record record h && named dominated (h_revision_id h)) (tb_record_heads (st_tx s))
      ++ (if u then [Mk_record_heads (CText record) (CText id)] else []).
Proof.
  intros Hnew H. cbv zeta. unfold sync_apply in H. rewrite Hnew in H. cbn [negb] in H.
  set (record := rr_RecordID (pn_revision item)) in *. set (id := rr_RevisionID (pn_revision item)) in *.
  run_as H u1 s1 H1. apply (pres_run _ _ _ _ _ (framed_store_object item)) in H1. unfold same_of, head_tables in H1. injection H1 as Eh1 Er1.
  run_as H cl s2 H2. destruct cl as [u dominated]. apply classify_Ok in H2 as (heads & Hset & Hcl & E2).
  assert (Hset0 : head_set record (st_tx s) = Some heads) by (unfold head_set, head_rows in *; by rewrite <- Eh1, <- Er1).
  run_as H u3 s3 H3. apply retire_loop in H3 as [Eh3 Er3]. rewrite E2, Eh1 in Eh3. rewrite E2, Er1 in Er3.
  run_as H u4 s4 H4. apply exec_ok in H4 as (H4 & _). unfold insert_record_revisions in H4.
  destruct (insert_row _ _ _ _) as [rows|] eqn:Erow; [|done]. injection H4 as H4. apply insert_row_Some in Erow as (-> & _ & Hfresh).
  set (row := revision_row _ _ _ _ _) in *.
  run_as H u5 s5 H5. framing H5 head_tables. run_as H u6 s6 H6. framing H6 head_tables. run_as H u7 s7 H7. framing H7 head_tables.
  run_as H u8 s8 H8. run_as H u9 s9 H9. framing H9 head_tables. run_as H u10 s10 H10.
  apply (pres_run _ _ _ _ _ (framed_heads_insertChange _ _ _ _ _ _ _ _)) in H10. apply ret_ok in H as [_ ->].
  assert (E8 : tb_record_heads (st_tx s8) = tb_record_heads (st_tx s7)
      ++ (if u then [Mk_record_heads (CText record) (CText id)] else []) ∧ tb_record_revisions (st_tx s8) = tb_record_revisions (st_tx s7)).
  { destruct u; [|apply ret_ok in H8 as [_ ->]; by rewrite app_nil_r]. apply exec_ok in H8 as (H8 & _). unfold insert_record_heads in H8.
    destruct (insert_row _ _ _ _) as [hs|] eqn:Ehs; [|done]. injection H8 as <-. by apply insert_row_Some in Ehs as (-> & _). }
  destruct E8 as [Eh8 Er8]. unfold same_of, head_tables in H5, H6, H7, H9, H10. simplify_eq.
  exists heads, u, dominated, (tb_record_revisions (st_tx s3)). split_and!; try done.
  - transitivity (tb_record_revisions (st_tx s4)); [congruence|]. by rewrite <- H4.
  - rewrite <- Eh3. transitivity (tb_record_heads (st_tx s8)); [congruence|]. rewrite Eh8. f_equal.
    transitivity (tb_record_heads (st_tx s4)); [congruence|]. by rewrite <- H4.
Qed.

(** No head names the revision yet. *)
Definition unnamed (id : string) (d : db) : Prop := ∀ h, h ∈ tb_record_heads d → h_revision_id h ≠ CText id.

(** C22. A record's heads stay its causal frontier: when the loop body of handleSync
    stores an accepted revision of a record whose heads are the maximal vectors of a
    history, its heads are afterwards the maximal vectors of the history extended with
    the revision. *)
Theorem sync_apply_frontier now uptime cursor item counter history s c s'
    (Hnew : pn_isNew item = true) (Hv : validateRevision (pn_revision item) = Some (counter, pn_vector item))
    (Hnames : unnamed (rr_RevisionID (pn_revision item)) (st_tx s))
    (Hdistinct : NoDup (map fst history)) (Hcounted : Forall counted history)
    (Hheads : ∀ heads, head_set (rr_RecordID (pn_revision item)) (st_tx s) = Some heads → heads ≡ₚ maximal history)
    (Hrun : sync_apply now uptime cursor item s = (Ok c, s')) :
  ∃ heads, head_set (rr_RecordID (pn_revision item)) (st_tx s') = Some heads ∧
    heads ≡ₚ maximal (history ++ [(rr_RevisionID (pn_revision item), pn_vector item)]).
Proof.
  apply sync_apply_tables in Hrun as (heads & u & dominated & revs & Hset & Hcl & Hvec & Hfresh & Er & Eh); [|done].
  specialize (Hheads heads Hset). apply head_set_vectors in Hset as (k & Hk & Hkp).
  set (record := rr_RecordID (pn_revision item)) in *. set (id := rr_RevisionID (pn_revision item)) in *.
  pose proof (vectors_of_fresh _ revs id Hfresh eq_refl) as Hnone.
  assert (Hold : head_vectors record (tb_record_heads (st_tx s)) revs = map Some k).
  { rewrite <- Hk. unfold head_vectors. rewrite !flat_map_concat_map. f_equal. apply map_ext. intros h. apply Hvec. }
  pose proof (head_vectors_after record id _ _ (revision_row now uptime (cursor + 1) u item) dominated u (pn_vector item) Hnames Hnone eq_refl
                (revision_vector_row now uptime (cursor + 1) u item counter Hv) k Hold) as Hafter.
  rewrite <- Eh, <- Er in Hafter. apply vectors_head_set in Hafter as (heads' & Hset' & Hperm).
  exists heads'. split; [done|]. rewrite Hperm. apply validateRevision_parts in Hv as [_ Hv%validateVector_positive].
  rewrite <- insert_head_maximal, <- Hheads by done. unfold insert_head. by rewrite Hcl, Hkp.
Qed.

(** The first revision of a record becomes its only head. *)
Definition apply_start : St := with_tx (st_db enveloped_state) enveloped_state.
Definition sample_item : pendingRevision :=
  Mk_pending sample_revision (marshalJSON sample_revision) (GoStd.Sum256 (marshalJSON sample_revision)) 1 {[sample_device := 1]} true.
Definition apply_run : res Error Z * St := Eval vm_compute in sync_apply (at_ms 40) 40 2 sample_item apply_start.
Lemma sync_apply_frontier_witness :
  ∃ heads, head_set (rr_RecordID sample_revision) (st_tx apply_run.2) = Some heads ∧
    heads ≡ₚ maximal [(rr_RevisionID sample_revision, {[sample_device := 1]})].
Proof.
  apply (sync_apply_frontier (at_ms 40) 40 2 sample_item 1 [] apply_start 3 apply_run.2).
  - reflexivity.
  - vm_compute. reflexivity.
  - intros h Hh. by apply elem_of_nil in Hh.
  - constructor.
  - constructor.
  - vm_compute. by intros heads [= <-].
  - vm_compute. reflexivity.
Defined.
