(* ===== verification/Validated.v ===== *)
(** * What start-up validation establishes

    A database validatePersistentState accepts is one the other theorems start from:
    its change origins are the cursors 1, 2, ..., server cursor ([validated_change_log]),
    the accepted counters of every registered author are 1, 2, ..., its stored maximum
    ([validated_author_counters]), and the stored heads of every record are the maximal
    retained vectors ([validated_frontier]), which is the hypothesis of the frontier
    theorem of [Frontier].  Validation itself changes nothing. *)

From stdpp Require Import base list strings gmap sorting.
From Stdlib Require Import ZArith Lia Ascii.
From S2P Require Import Prelude GoStd GoTime Uuid Auth Json Wire Api Models Vectors Sql Schema Monad Keys SqlFacts Runtime.
From S2P Require Import Persist Devices Registry History LogState Startup Samples ChangeLog Constraints Frontier.
Local Open Scope Z_scope.

(** ** ORDER BY *)
Lemma sorted_weaken {A} (R R' : relation A) l : (∀ a b, R a b → R' a b) → StronglySorted R l → StronglySorted R' l.
Proof. intros HR. induction 1 as [|x l Hl IH Hx]; constructor; [done|]. apply (Forall_impl _ _ _ Hx). auto. Qed.

(** Two columns, the first one being the key. *)
Section two_columns.
Context {A : Type} (key second : A → cell).
Definition by_columns (a b : A) : bool := cells_leb [key a; second a] [key b; second b].
Lemma by_columns_alt a b : by_columns a b = if bool_decide (key a = key b)
  then (if bool_decide (second a = second b) then true else cell_oleb (second a) (second b)) else cell_oleb (key a) (key b).
Proof. reflexivity. Qed.
Lemma by_columns_key a b : by_columns a b = true → cell_oleb (key a) (key b) = true.
Proof. rewrite by_columns_alt. case_bool_decide as E; [|done]. intros _. rewrite E. apply cell_oleb_refl. Qed.
Lemma by_columns_total a b : by_columns a b = false → by_columns b a = true.
Proof.
  rewrite !by_columns_alt. repeat case_bool_decide; try congruence; apply cell_oleb_total.
Qed.
Lemma by_columns_second a b : by_columns a b = true → key a = key b → cell_oleb (second a) (second b) = true.
Proof.
  rewrite by_columns_alt. intros H E. rewrite bool_decide_true in H by done. case_bool_decide as E2; [|done].
  rewrite E2. apply cell_oleb_refl.
Qed.
Lemma by_columns_intro a b : cell_oleb (key a) (key b) = true →
  (key a = key b → cell_oleb (second a) (second b) = true) → by_columns a b = true.
Proof. intros H1 H2. rewrite by_columns_alt. case_bool_decide; [|done]. case_bool_decide; auto. Qed.
Lemma by_columns_trans a b c : by_columns a b = true → by_columns b c = true → by_columns a c = true.
Proof.
  intros H1 H2. pose proof (by_columns_key _ _ H1) as K1. pose proof (by_columns_key _ _ H2) as K2.
  apply by_columns_intro; [by eapply cell_oleb_trans|]. intros E.
  assert (Eb : key a = key b) by (apply cell_oleb_antisym; [done|by rewrite E]).
  eapply cell_oleb_trans; [apply by_columns_second|apply by_columns_second]; try done. congruence.
Qed.
Lemma order_by_columns_sorted l : StronglySorted (λ a b, cell_oleb (key a) (key b) = true) (order_by by_columns l).
Proof.
  eapply sorted_weaken; [|apply order_by_sorted; [apply by_columns_total|apply by_columns_trans]].
  apply by_columns_key.
Qed.

(** In a list sorted by a key the rows of one key stand together. *)
Lemma split_key k (l : list A) : StronglySorted (λ a b, cell_oleb (key a) (key b) = true) l →
  ∃ l1 l2, l = l1 ++ List.filter (λ x, bool_decide (key x = k)) l ++ l2 ∧
    Forall (λ x, key x ≠ k) l1 ∧ Forall (λ x, key x ≠ k) l2.
Proof using.
  induction 1 as [|x l Hl (l1 & l2 & El & H1 & H2) Hx]; [by exists [], []|]. simpl. case_bool_decide as Ek.
  - destruct (List.filter _ l) as [|y g] eqn:Eg.
    + exists [], l. simpl. split_and!; [done..|]. rewrite El. by apply Forall_app.
    + destruct l1 as [|z l1]; [by exists [], l2; simpl in *; rewrite El at 1|]. exfalso.
      assert (Hy : key y = k).
      { assert (In y (y :: g)) as Hin by by left. rewrite <- Eg in Hin. apply filter_In in Hin as [_ Hin]. by apply bool_decide_eq_true in Hin. }
      apply Forall_cons in H1 as [Hz _]. apply Hz.
      assert (Hxz : cell_oleb (key x) (key z) = true) by (rewrite Forall_forall in Hx; apply Hx; rewrite El; left).
      assert (Hzy : cell_oleb (key z) (key y) = true).
      { rewrite El in Hl. inversion Hl as [|? ? _ Hz2]; subst. rewrite Forall_forall in Hz2. apply Hz2.
        apply elem_of_app. right. left. }
      rewrite <- Ek. apply cell_oleb_antisym; [|done]. by rewrite Ek, <- Hy.
  - exists (x :: l1), l2. simpl. rewrite <- El. split_and!; [done| |done]. by constructor.
Qed.
End two_columns.
Lemma filter_perm {A} (p : A → bool) l l' : l ≡ₚ l' → List.filter p l ≡ₚ List.filter p l'.
Proof.
  induction 1 as [|x l l' Hl IH|x y l|l l' l'' H1 IH1 H2 IH2]; simpl; [done|by destruct (p x); rewrite IH| |by etrans].
  destruct (p x), (p y); try done. apply Permutation_swap.
Qed.

(** ** Accepting runs

    [accepts d m a]: the check [m] returns [a] on the database [d] in some run.  The
    checks only read, so the steps of an accepting run all see [d]. *)
Definition accepts {A} (d : db) (m : M string A) (a : A) : Prop := ∃ s s', st_tx s = d ∧ m s = (Ok a, s').

Section accepts.
Context (d : db).
Lemma accepts_bind {A B} (m : M string A) (f : A → M string B) b : Pres same_state m →
  accepts d (m ≫= f) b → ∃ a, accepts d m a ∧ accepts d (f a) b.
Proof.
  intros Hm (s & s' & Ed & H). run_as H a s1 H1. pose proof (pres_run _ _ _ _ _ Hm H1) as (_ & Et & _).
  exists a. split; [by exists s, s1|]. exists s1, s'. split; [congruence|done].
Qed.
Lemma accepts_query {A B} e (f : db → A) (k : A → M string B) b : accepts d (query e f ≫= k) b → accepts d (k (f d)) b.
Proof.
  intros (s & s' & Ed & H). run_as H a s1 H1. apply query_ok in H1 as (-> & Et & _). exists s1, s'.
  split; [congruence|]. by rewrite Ed in H.
Qed.
Lemma accepts_ensure {B} (c : bool) e (k : () → M string B) b : accepts d (ensure c e ≫= k) b → c = true ∧ accepts d (k ()) b.
Proof.
  intros (s & s' & Ed & H). run_as H u s1 H1. apply ensure_ok in H1 as [-> ->]. destruct u. split; [done|]. by exists s, s'.
Qed.
Lemma accepts_ensure_last (c : bool) e u : accepts d (ensure c e) u → c = true.
Proof. by intros (s & s' & _ & [H _]%ensure_ok). Qed.
Lemma accepts_option {A B} (o : option A) e (k : A → M string B) b : accepts d (from_option o e ≫= k) b →
  ∃ a, o = Some a ∧ accepts d (k a) b.
Proof.
  intros (s & s' & Ed & H). run_as H a s1 H1. apply from_option_ok in H1 as [-> ->]. exists a. split; [done|]. by exists s, s'.
Qed.
Lemma accepts_option_last {A} (o : option A) e a : accepts d (from_option o e) a → o = Some a.
Proof. by intros (s & s' & _ & [H _]%from_option_ok). Qed.
Lemma accepts_ret {A} (a b : A) : accepts d (mret a) b → b = a.
Proof. by intros (s & s' & _ & [H _]%ret_ok). Qed.
Lemma accepts_throw {A} e (a : A) : ¬ accepts d (throw e) a.
Proof. by intros (s & s' & _ & H). Qed.
Lemma accepts_of_res {A B} (r : res string A) (k : A → M string B) b : accepts d (of_res r ≫= k) b → ∃ a, r = Ok a ∧ accepts d (k a) b.
Proof.
  intros (s & s' & Ed & H). run_as H a s1 H1. destruct r as [x|]; simpl in H1; [|done]. apply ret_ok in H1 as [-> ->].
  exists x. split; [done|]. by exists s, s'.
Qed.

Section folds.
Context {A S : Type} (body : S → A → M string S) (Hbody : ∀ acc x, Pres same_state (body acc x)).
Lemma fold_each_app l k acc s r s' : fold_each (l ++ k) acc body s = (Ok r, s') →
  ∃ mid s1, fold_each l acc body s = (Ok mid, s1) ∧ fold_each k mid body s1 = (Ok r, s').
Proof using.
  revert acc s. induction l as [|x l IH]; intros acc s H; simpl in *; [by exists acc, s|].
  run_as H a s1 H1. apply IH in H as (mid & s2 & H2 & H3). exists mid, s2. split; [|done]. apply bind_ok. eauto.
Qed.
Lemma accepts_fold_app l k acc r : accepts d (fold_each (l ++ k) acc body) r →
  ∃ mid, accepts d (fold_each l acc body) mid ∧ accepts d (fold_each k mid body) r.
Proof using Hbody.
  intros (s & s' & Ed & H). apply fold_each_app in H as (mid & s1 & H1 & H2). exists mid. split; [by exists s, s1|].
  exists s1, s'. split; [|done]. apply (pres_run same_state) in H1 as (_ & -> & _); [done|].
  by apply pres_fold_each; [apply _|].
Qed.
(** An invariant of the accumulator over the rows read so far. *)
Lemma accepts_fold_inv (I : list A → S → Prop) l acc r pre :
  (∀ pre x a a', I pre a → x ∈ l → accepts d (body a x) a' → I (pre ++ [x]) a') →
  I pre acc → accepts d (fold_each l acc body) r → I (pre ++ l) r.
Proof using Hbody.
  revert acc pre. induction l as [|x l IH]; intros acc pre Hstep HI H; simpl in *.
  - apply accepts_ret in H as ->. by rewrite app_nil_r.
  - apply accepts_bind in H as (a & H1 & H); [|done]. change (x :: l) with ([x] ++ l). rewrite app_assoc.
    eapply IH; [|eapply Hstep; [done|left|done]|done]. intros ???? HI' Hin. eapply Hstep; [done|]. by right.
Qed.
End folds.
End accepts.
Ltac query_as H := apply accepts_query in H.
Ltac ensure_as H Hc := apply accepts_ensure in H as [Hc H].
Ltac option_as H a Ha := apply accepts_option in H as (a & Ha & H).
Ltac check_as H a Ha := apply accepts_bind in H; [destruct H as (a & Ha & H)|solve [reads | auto with reads nocore]].
Lemma accepts_each {A} d (body : A → M string ()) (P : A → Prop) l u : (∀ x, Pres same_state (body x)) →
  (∀ x u, accepts d (body x) u → P x) → accepts d (for_each l body) u → Forall P l.
Proof.
  intros Hb HP. induction l as [|x l IH]; intros H; simpl in *; [constructor|].
  apply accepts_bind in H as (a & Ha & H); [|done]. constructor; eauto.
Qed.

(** ** Joins *)

(** Rows that are produced at least once each and never twice. *)
Lemma flat_map_once {A B C} (f : A → list B) (g : B → A) (h : A → C) l :
  (∀ a, f a ≠ []) → (∀ a, Forall (λ b, g b = a) (f a)) → NoDup (map h (map g (flat_map f l))) → map g (flat_map f l) = l.
Proof.
  intros Hne Hg. setoid_rewrite Forall_forall in Hg. induction l as [|a l IH]; [done|]. simpl. rewrite !map_app. intros Hnd.
  apply NoDup_app in Hnd as (Ha & _ & Hnd). rewrite IH by done.
  destruct (f a) as [|b rest] eqn:Ef; [by destruct (Hne a)|]. rewrite <- Ef in Ha |- *.
  assert (Hall : ∀ b, b ∈ f a → g b = a) by apply Hg. rewrite Ef in Ha, Hall |- *.
  destruct rest as [|b' rest]; simpl; [by rewrite Hall by left|]. exfalso. simpl in Ha.
  rewrite (Hall b), (Hall b') in Ha by set_solver. inversion Ha as [|? ? Hn]; subst. apply Hn. left.
Qed.
Lemma matches_nonempty {B} (on : B → bool) r : matches on r ≠ [].
Proof. unfold matches. by destruct (select on r). Qed.

(** ** The change log *)
Lemma scan_origin_cursor j x : scan_origin j = Some x → co_cursor (oj_o j) = cell_u64 (os_cursor x) ∧ u64 (os_cursor x).
Proof.
  unfold scan_origin. destruct (scan_u64 (co_cursor (oj_o j))) as [c|] eqn:Ec; [|done]. intros H.
  apply scan_u64_Some in Ec. repeat (case_match_in H; try discriminate H); injection H as <-; exact Ec.
Qed.
Lemma origin_step_cursor d n p g cuts j p' g' cuts' : accepts d (origin_step n (p, g, cuts) j) (p', g', cuts') →
  p' = p + 1 ∧ co_cursor (oj_o j) = cell_u64 p' ∧ u64 p'.
Proof.
  unfold origin_step. intros H. option_as H x Hx. ensure_as H Hn. unbool. apply scan_origin_cursor in Hx as [Hc Hu].
  assert (os_cursor x = p') as <-; [|split_and!; congruence].
  destruct (String.eqb (os_kind x) "record_revision"); [|destruct (String.eqb (os_kind x) "collection_marker");
    [|destruct (String.eqb (os_kind x) "device_changed"); [|destruct (String.eqb (os_kind x) "envelope_changed"); [|by apply accepts_throw in H]]]].
  1-3: ensure_as H Hk; by apply accepts_ret in H as [= -> _ _].
  option_as H x' Hk. by apply accepts_ret in H as [= -> _ _].
Qed.
Lemma reads_origin_step n acc j : Pres same_state (origin_step n acc j).
Proof. unfold origin_step. reads. Qed.
#[local] Hint Resolve reads_origin_step : reads.
Lemma origins_in_order d n joins cuts p g cuts' :
  accepts d (fold_each joins (0, 0, cuts) (origin_step n)) (p, g, cuts') →
  map co_cursor (map oj_o joins) = cursors (Z.to_nat p) ∧ 0 <= p.
Proof.
  intros H. eapply (accepts_fold_inv _ _ (reads_origin_step n) (λ pre (acc : Z * Z * gmap Z Z),
    map co_cursor (map oj_o pre) = cursors (Z.to_nat acc.1.1) ∧ 0 <= acc.1.1) _ _ _ []) in H; [done| |done].
  intros pre j [[q gq] cq] [[q' gq'] cq'] [Hpre Hq] _ (-> & Hc & _)%origin_step_cursor. simpl in *. split; [|lia].
  rewrite !map_app, Hpre. simpl. rewrite Hc, Z2Nat.inj_add, Nat.add_comm by lia. change (Z.to_nat 1) with 1%nat. simpl.
  rewrite cursors_S. repeat f_equal. lia.
Qed.
Lemma NoDup_cursors n : Z.of_nat n <= MaxUint64 → NoDup (cursors n).
Proof.
  intros Hn. unfold cursors. apply NoDup_fmap_2_strong; [|apply NoDup_ListNoDup, seq_NoDup].
  intros x y [Hx1 Hx2]%list_elem_of_In%in_seq [Hy1 Hy2]%list_elem_of_In%in_seq E%cell_u64_inj; [lia|apply u64_nat; lia..].
Qed.

Lemma flat_map_nonempty {A B} (f : A → list B) l : l ≠ [] → (∀ x, f x ≠ []) → flat_map f l ≠ [].
Proof. intros Hl Hf. destruct l as [|x l]; [done|]. simpl. specialize (Hf x). by destruct (f x). Qed.
Lemma map_nonempty {A B} (f : A → B) l : l ≠ [] → map f l ≠ [].
Proof. by destruct l. Qed.
Lemma flat_map_Forall {A B} (P : B → Prop) (f : A → list B) l : (∀ x, Forall P (f x)) → Forall P (flat_map f l).
Proof. intros Hf. induction l; simpl; [constructor|]. by apply Forall_app. Qed.
Lemma map_Forall_all {A B} (P : B → Prop) (f : A → B) l : (∀ x, P (f x)) → Forall P (map f l).
Proof. intros Hf. induction l; by constructor. Qed.
Lemma flat_map_length {A B} (f : A → list B) l : (∀ x, f x ≠ []) → (length l <= length (flat_map f l))%nat.
Proof.
  intros Hf. induction l as [|x l IH]; [done|]. simpl. rewrite length_app. specialize (Hf x). destruct (f x); [done|]. simpl. lia.
Qed.
Lemma flat_map_reaches {A B} (f : A → list B) (g : B → A) l a : (∀ x, f x ≠ []) → (∀ x, Forall (λ b, g b = x) (f x)) →
  a ∈ l → ∃ b, b ∈ flat_map f l ∧ g b = a.
Proof.
  intros Hf Hg Ha. specialize (Hf a). specialize (Hg a). destruct (f a) as [|b rest] eqn:E; [done|]. exists b.
  apply Forall_cons in Hg as [Hb _]. split; [|done]. apply list_elem_of_In, in_flat_map. exists a.
  split; [by apply list_elem_of_In|]. rewrite E. by left.
Qed.
(** Left joins produce at least one row per left row and keep the left row. *)
Ltac joins_nonempty := repeat first [apply matches_nonempty | apply map_nonempty | apply flat_map_nonempty; [|intros ?]].
Ltac joins_left := repeat first [apply flat_map_Forall; intros ? | apply map_Forall_all; intros ?; reflexivity].

(** What validatePersistentChangeOrigins accepts. *)
Definition origins_match (d : db) : Prop :=
  (∀ c, c ∈ tb_changes d → has_origin d (ch_cursor c) (ch_kind c) = true) ∧
  (∀ o, o ∈ durable_owners d → has_origin d o.1 (CText o.2) = true).
Lemma origin_joins_once d : NoDup (map co_cursor (map oj_o (origin_joins d))) →
  map oj_o (origin_joins d) = order_by (λ a b, cell_oleb (co_cursor a) (co_cursor b)) (tb_change_origins d).
Proof. unfold origin_joins. apply flat_map_once; intros o; [joins_nonempty|joins_left]. Qed.
Lemma Forall_filter_true {A} (P : A → Prop) `{!∀ x, Decision (P x)} l : Forall P (List.filter (λ x, bool_decide (P x)) l).
Proof. apply Forall_forall. intros x [_ Hx]%list_elem_of_In%filter_In. by apply bool_decide_eq_true in Hx. Qed.
Lemma existsb_false_elem {A} (f : A → bool) l x : In x l → existsb f l = false → f x = false.
Proof. intros Hx Hf. apply not_true_iff_false. intros Hn. apply not_true_iff_false in Hf. apply Hf, existsb_exists. eauto. Qed.
Lemma change_origins_accepted d n g snapshots cuts : accepts d (validatePersistentChangeOrigins n g snapshots) cuts →
  n <= MaxUint64 → map co_cursor (tb_change_origins d) ≡ₚ cursors (Z.to_nat n) ∧ origins_match d.
Proof.
  unfold validatePersistentChangeOrigins. intros H Hn. do 2 (ensure_as H Hc; clear Hc). query_as H. ensure_as H Ho.
  unbool. query_as H. check_as H acc Hf. destruct acc as [[p gp] cp]. ensure_as H Hp. unbool. subst p.
  apply origins_in_order in Hf as [Hf Hf0]. split.
  - rewrite <- Hf, origin_joins_once, order_by_perm; [done|]. rewrite Hf. apply NoDup_cursors. lia.
  - unfold orphan_change, orphan_owner in *. split; intros x Hx%list_elem_of_In;
      (eapply existsb_false_elem in Hx; [|done]; by apply negb_false_iff in Hx).
Qed.

(** ** The parts of an accepted database *)
Record parts (identity : Identity) (d : db) := Mk_parts {
  pt_counters : runtime_counters; pt_devices : registry; pt_history : gmap string Z;
  pt_runtime : accepts d validatePersistentRuntime pt_counters;
  pt_registry : accepts d (validatePersistentDevices (vr_serverCursor pt_counters)) pt_devices;
  pt_revisions : accepts d (validatePersistentRevisions pt_devices (vr_serverCursor pt_counters)
                              (vr_collectionGeneration pt_counters)) pt_history;
  pt_sequence : accepts d (validatePersistentHistorySequence pt_devices) ();
  pt_heads : accepts d validatePersistentRecordHeads ();
  pt_snapshots : accepts d (validatePersistentSnapshots identity pt_devices (vr_serverCursor pt_counters)
                              (vr_envelopeGeneration pt_counters) (vr_collectionGeneration pt_counters)) () }.
Lemma validated_parts identity s s' : validatePersistentState identity s = (Ok (), s') → inhabited (parts identity (st_tx s)).
Proof.
  intros H. assert (Ha : accepts (st_tx s) (validatePersistentState identity) ()) by by exists s, s'.
  clear H. unfold validatePersistentState in Ha.
  check_as Ha counters Hruntime. check_as Ha devices Hdevices. check_as Ha u1 H1. check_as Ha u2 H2.
  check_as Ha hist Hrevisions. check_as Ha u3 H3. check_as Ha u4 Hsequence. ensure_as Ha H5. check_as Ha u6 Hheads.
  do 8 (let u := fresh in let K := fresh in check_as Ha u K). check_as Ha u7 Hsnapshots. destruct u4, u6, u7.
  constructor. by econstructor.
Qed.
Lemma runtime_accepted d counters : accepts d validatePersistentRuntime counters →
  ∃ r, runtime_row d = Some r ∧ rs_server_cursor r = cell_u64 (vr_serverCursor counters) ∧ u64 (vr_serverCursor counters).
Proof.
  unfold validatePersistentRuntime. intros H. query_as H. option_as H r Hr. apply accepts_option_last in H. exists r.
  split; [done|]. unfold scan_runtime in H. destruct (scan_u64 (rs_server_cursor r)) as [c|] eqn:Ec; [|done].
  apply scan_u64_Some in Ec. repeat (case_match_in H; try discriminate H); injection H as <-; exact Ec.
Qed.
Lemma snapshots_origins identity devices d n e g u : accepts d (validatePersistentSnapshots identity devices n e g) u →
  ∃ cuts generations, accepts d (validatePersistentChangeOrigins n e cuts) generations.
Proof.
  unfold validatePersistentSnapshots. cbv zeta. intros H. query_as H. check_as H rows Hp. check_as H generations Ho. eauto.
Qed.

(** C6. A database start-up validation accepts has an intact change log: its change origins are
    exactly the cursors 1 to the runtime row's server cursor, each once, and every retained change,
    accepted revision, device enrollment and revocation, enrollment and collection marker has an
    origin of its own kind at its cursor.  Validation leaves the databases as they are. *)
Theorem validated_change_log identity s s' (Hok : validatePersistentState identity s = (Ok (), s')) :
  same_state s s' ∧
  ∃ n r, runtime_row (st_tx s) = Some r ∧ rs_server_cursor r = cell_u64 (Z.of_nat n) ∧ Z.of_nat n <= MaxUint64 ∧
    map co_cursor (tb_change_origins (st_tx s)) ≡ₚ cursors n ∧ origins_match (st_tx s).
Proof.
  split; [by eapply pres_run; [apply reads_validatePersistentState|]|].
  apply validated_parts in Hok as [[counters devices hist Hruntime _ _ _ _ Hsnapshots]].
  apply runtime_accepted in Hruntime as (r & Hr & Hc & Hu). apply snapshots_origins in Hsnapshots as (cuts & gs & Ho).
  exists (Z.to_nat (vr_serverCursor counters)), r. unfold u64, two64 in Hu.
  assert (Hmax : vr_serverCursor counters <= MaxUint64) by (change MaxUint64 with (18446744073709551616 - 1); lia).
  rewrite Z2Nat.id by lia. split_and!; [done..| |]; by apply change_origins_accepted in Ho as [??].
Qed.

(** The database after one synchronization. *)
Definition validated_sample : St := with_tx (st_db synced_state) synced_state.
Lemma validated_sample_ok : validatePersistentState sample_identity validated_sample =
  (Ok (), after (validatePersistentState sample_identity) validated_sample).
Proof. vm_compute. reflexivity. Qed.
Lemma validated_change_log_witness : ∃ n, (0 < n)%nat ∧ map co_cursor (tb_change_origins (st_tx validated_sample)) ≡ₚ cursors n.
Proof.
  destruct (validated_change_log _ _ _ validated_sample_ok) as (_ & n & r & _ & _ & _ & Hn & _). exists n. split; [|done].
  destruct n; [|lia]. by apply Permutation_length in Hn.
Defined.

(** ** The device registry *)
Lemma uuid_nonempty id : validateUUID id = true → id ≠ "".
Proof. intros H ->. vm_compute in H. done. Qed.
Lemma scan_registry_device j x : scan_registry j = Some x →
  scan_uuid (d_device_id (rj_d j)) = Some (rg_deviceID x) ∧ scan_u64 (d_max_author_counter (rj_d j)) = Some (rg_counter x).
Proof.
  unfold scan_registry. intros H. repeat (case_match_in H; try discriminate H); injection H as <-; done.
Qed.
Definition registered (result : registry) (j : registry_join) : Prop :=
  ∃ x row, scan_registry j = Some x ∧ result !! rg_deviceID x = Some row ∧ vd_maxCounter row = rg_counter x.
Definition registry_inv (pre : list registry_join) (acc : registry * string) : Prop :=
  Forall (registered acc.1) pre ∧ size acc.1 = length pre ∧
  (∀ k, is_Some (acc.1 !! k) → acc.2 ≠ "" ∧ sleb k acc.2 = true).
Lemma reads_device_step n acc j : Pres same_state (device_step n acc j).
Proof. unfold device_step. reads. Qed.
#[local] Hint Resolve reads_device_step : reads.
Lemma device_step_inv d n pre j acc acc' : registry_inv pre acc → accepts d (device_step n acc j) acc' →
  registry_inv (pre ++ [j]) acc'.
Proof.
  intros (Hpre & Hsize & Hkeys) H. destruct acc as [result previous]. simpl in *. unfold device_step in H.
  option_as H x Hx. ensure_as H Horder. do 3 (ensure_as H Hc; clear Hc). ensure_as H H64. apply accepts_ret in H as ->.
  pose proof (scan_registry_device _ _ Hx) as [[_ Hid%uuid_nonempty]%scan_uuid_Some _].
  assert (Hlt : ∀ k, is_Some (result !! k) → sltb k (rg_deviceID x) = true).
  { intros k [Hp Hk]%Hkeys. apply orb_true_iff in Horder as [Ho|Ho]; [by apply String.eqb_eq in Ho|].
    apply sleb_alt in Hk as [->|Hk]; [done|]. by eapply sltb_trans. }
  assert (Hfresh : result !! rg_deviceID x = None).
  { apply eq_None_not_Some. intros Hk%Hlt. by rewrite sltb_irrefl in Hk. }
  split_and!; simpl.
  - apply Forall_app. split.
    + eapply Forall_impl; [exact Hpre|]. intros j' (x' & row & Hx' & Hrow & Hc). exists x', row. split_and!; [done| |done].
      rewrite lookup_insert_ne; [done|]. intros E. congruence.
    + constructor; [|constructor]. eexists x, _. rewrite lookup_insert. by rewrite decide_True.
  - rewrite map_size_insert_None, length_app by done. simpl. lia.
  - intros k Hk. split; [done|]. rewrite lookup_insert_is_Some in Hk. apply sleb_alt.
    destruct Hk as [->|[_ Hk]]; [by left|right; auto].
Qed.
Lemma registry_accepted d n devices : accepts d (validatePersistentDevices n) devices →
  (length (tb_devices d) <= 64)%nat ∧
  ∀ r, r ∈ tb_devices d → ∃ id row, d_device_id r = CText id ∧ validateUUID id = true ∧ devices !! id = Some row ∧
    d_max_author_counter r = cell_u64 (vd_maxCounter row) ∧ u64 (vd_maxCounter row).
Proof.
  unfold validatePersistentDevices. intros H. query_as H. check_as H acc Hf. destruct acc as [result previous].
  ensure_as H H64. query_as H. ensure_as H Ho1. query_as H. ensure_as H Ho2. apply accepts_ret in H as ->.
  apply (accepts_fold_inv _ _ (reads_device_step n) registry_inv _ _ _ []) in Hf as (Hall & Hsize & _).
  2: { intros ????? _. by apply device_step_inv. }
  2: { split_and!; [constructor|done|]. intros k [? Hk]. simpl in Hk. by rewrite lookup_empty in Hk. }
  simpl in *. apply Nat.leb_le in H64. unfold registry_joins in *. rewrite length_take in Hsize.
  rewrite take_ge in Hall by lia. split.
  - lazymatch type of Hall with Forall _ (flat_map ?f ?l) =>
      assert (Hlen : (length l <= length (flat_map f l))%nat) by (apply flat_map_length; intros r; joins_nonempty) end.
    rewrite length_order_by in Hlen. lia.
  - intros r Hr. rewrite <- (elem_of_order_by (λ a b, cell_oleb (d_device_id a) (d_device_id b))) in Hr.
    lazymatch type of Hall with Forall _ (flat_map ?f _) =>
      apply (flat_map_reaches f rj_d) in Hr as (j & Hj & Ej); [|intros ?; joins_nonempty|intros ?; joins_left] end.
    rewrite Forall_forall in Hall. destruct (Hall _ Hj) as (x & row & Hx & Hrow & Hc).
    apply scan_registry_device in Hx as [[Hid Hv]%scan_uuid_Some [Hm Hu]%scan_u64_Some]. rewrite Ej in *.
    exists (rg_deviceID x), row. rewrite Hc. done.
Qed.

(** ** Author counters *)
Section author.
Context (d : db) (devices : registry) (k : string) (Hk : k ≠ "").
Definition authored (r : record_revisions_row) : bool := bool_decide (v_author_device_id r = CText k).
Lemma history_step_accepted h r h' : accepts d (history_step devices h r) h' →
  ∃ author counter, v_author_device_id r = CText author ∧ v_author_counter r = cell_u64 counter ∧ hy_author h' = author ∧
    hy_counter h' = counter ∧
    if String.eqb author (hy_author h) then hy_seen h' = hy_seen h ∧ counter = hy_counter h + 1
    else accepts d (finishAuthor devices h) () ∧ hy_seen h' = {[author]} ∪ hy_seen h ∧ counter = 1.
Proof using.
  unfold history_step. intros H. option_as H x Hx. destruct x as [[author counter] cursor]. ensure_as H Hknown.
  assert (Hcells : v_author_device_id r = CText author ∧ v_author_counter r = cell_u64 counter).
  { destruct (scan_uuid _) as [a|] eqn:Ea; [|done]. destruct (scan_u64 (v_author_counter r)) as [c|] eqn:Ec; [|done].
    apply scan_uuid_Some in Ea as [Ea _]. apply scan_u64_Some in Ec as [Ec _].
    repeat (case_match_in Hx; try discriminate Hx); by injection Hx as <- <- <-. }
  exists author, counter. destruct Hcells as [-> ->]. destruct (String.eqb author (hy_author h)) eqn:E.
  - check_as H h2 Hh. apply accepts_ret in Hh as ->. ensure_as H Hn. apply accepts_ret in H as ->. simpl. unbool.
    apply String.eqb_eq in E. split_and!; auto.
  - check_as H h2 Hh. check_as Hh u Hfin. apply accepts_ret in Hh as ->. ensure_as H Hn. apply accepts_ret in H as ->.
    simpl in *. unbool. destruct u. split_and!; auto.
Qed.
Lemma finish_accepted h u : hy_author h = k → accepts d (finishAuthor devices h) u →
  match devices !! k with Some row => vd_maxCounter row | None => 0 end = hy_counter h.
Proof using Hk.
  unfold finishAuthor. intros E H%accepts_ensure_last. rewrite E in H. apply orb_true_iff in H as [H|H].
  - by apply String.eqb_eq in H.
  - by apply Z.eqb_eq in H.
Qed.
(** Rows of other authors leave it unseen; its own rows count from one. *)
Lemma history_before l h h' : Forall (λ r, v_author_device_id r ≠ CText k) l → hy_author h ≠ k → k ∉ hy_seen h →
  accepts d (fold_each l h (history_step devices)) h' → hy_author h' ≠ k ∧ k ∉ hy_seen h'.
Proof using.
  intros Hl Ha Hs H. apply (accepts_fold_inv _ _ (reads_history_step devices) (λ _ h, hy_author h ≠ k ∧ k ∉ hy_seen h) _ _ _ []) in H; [done| |done].
  intros pre r h1 h2 [Ha1 Hs1] Hr (author & counter & Ea & _ & E1 & _ & Hcase)%history_step_accepted.
  rewrite Forall_forall in Hl. specialize (Hl r Hr). rewrite Ea in Hl.
  assert (Hne : author ≠ k) by congruence. split; [congruence|]. destruct (String.eqb author (hy_author h1)).
  - destruct Hcase as [-> _]. done.
  - destruct Hcase as (_ & -> & _). by rewrite not_elem_of_union, not_elem_of_singleton.
Qed.
Definition counting (pre : list record_revisions_row) (h : history) : Prop :=
  match pre with
  | [] => hy_author h ≠ k ∧ k ∉ hy_seen h
  | _ => hy_author h = k ∧ k ∈ hy_seen h ∧ 0 <= hy_counter h ∧ map v_author_counter pre = cursors (Z.to_nat (hy_counter h))
  end.
Lemma history_group l h h' : Forall (λ r, v_author_device_id r = CText k) l → hy_author h ≠ k → k ∉ hy_seen h →
  accepts d (fold_each l h (history_step devices)) h' → counting l h'.
Proof using.
  intros Hl Ha Hs H. apply (accepts_fold_inv _ _ (reads_history_step devices) counting _ _ _ []) in H; [done| |done].
  clear Ha Hs H. intros pre r h1 h2 Hc Hr (author & counter & Ea & Ec & E1 & E2 & Hcase)%history_step_accepted.
  rewrite Forall_forall in Hl. specialize (Hl r Hr). rewrite Ea in Hl. injection Hl as ->.
  destruct pre as [|r0 pre]; simpl in Hc.
  - destruct Hc as [Ha Hs]. destruct (String.eqb k (hy_author h1)) eqn:E; [by apply String.eqb_eq in E|].
    destruct Hcase as (_ & Hseen & ->). simpl. rewrite Hseen, Ec, E2. split_and!; [done|apply elem_of_union_l; by apply elem_of_singleton|lia|done].
  - destruct Hc as (Ha & Hs & Hc & Hm). rewrite Ha, String.eqb_refl in Hcase. destruct Hcase as [Hseen ->].
    split_and!; [done|by rewrite Hseen|lia|]. rewrite map_app. cbn [map] in Hm |- *. rewrite Hm, Ec, E2.
    rewrite Z2Nat.inj_add, Nat.add_comm by lia. change (Z.to_nat 1) with 1%nat. simpl. rewrite cursors_S.
    repeat f_equal. lia.
Qed.
Lemma seen_grows l h h' : k ∈ hy_seen h → accepts d (fold_each l h (history_step devices)) h' → k ∈ hy_seen h'.
Proof using.
  intros Hs H. apply (accepts_fold_inv _ _ (reads_history_step devices) (λ _ h, k ∈ hy_seen h) _ _ _ []) in H; [done| |done].
  intros pre r h1 h2 Hs1 _ (author & counter & _ & _ & _ & _ & Hcase)%history_step_accepted.
  destruct (String.eqb author (hy_author h1)).
  - by destruct Hcase as [-> _].
  - destruct Hcase as (_ & -> & _). apply elem_of_union. by right.
Qed.
Lemma counters_accepted row : devices !! k = Some row → accepts d (validatePersistentHistorySequence devices) () →
  map v_author_counter (List.filter authored (tb_record_revisions d)) ≡ₚ cursors (Z.to_nat (vd_maxCounter row)).
Proof using Hk.
  intros Hrow H. unfold validatePersistentHistorySequence in H. query_as H. check_as H h Hfold. check_as H u Hfin. destruct u.
  ensure_as H Hseen. clear H.
  rewrite <- (filter_perm authored _ _ (order_by_perm (by_columns v_author_device_id v_author_counter) (tb_record_revisions d))).
  destruct (split_key v_author_device_id (CText k) _ (order_by_columns_sorted v_author_device_id v_author_counter (tb_record_revisions d)))
    as (l1 & l2 & El & H1 & H2).
  change (order_by _ (tb_record_revisions d)) with (order_by (by_columns v_author_device_id v_author_counter) (tb_record_revisions d)) in Hfold.
  change (List.filter authored ?l) with (List.filter (λ x, bool_decide (v_author_device_id x = CText k)) l).
  rewrite El in Hfold. set (g := List.filter _ _) in *.
  apply accepts_fold_app in Hfold as (h1 & Hf1 & Hfold); [|apply reads_history_step].
  apply accepts_fold_app in Hfold as (h2 & Hf2 & Hf3); [|apply reads_history_step].
  apply history_before in Hf1 as [Ha1 Hs1]; [|done..|by intros ?%elem_of_empty].
  apply history_group in Hf2; [|apply Forall_filter_true|done..].
  assert (Hmax : hy_author h2 = k → vd_maxCounter row = hy_counter h2).
  { intros Ha2. destruct l2 as [|r l2]; simpl in Hf3.
    - apply accepts_ret in Hf3 as ->. apply (finish_accepted _ _ Ha2) in Hfin. by rewrite Hrow in Hfin.
    - apply accepts_bind in Hf3 as (h3 & Hh3 & _); [|apply reads_history_step]. apply Forall_cons in H2 as [Hr _].
      apply history_step_accepted in Hh3 as (author & counter & Ea & _ & _ & _ & Hcase). rewrite Ha2 in Hcase.
      destruct (String.eqb author k) eqn:E; [apply String.eqb_eq in E; congruence|]. destruct Hcase as [Hcase _].
      apply (finish_accepted _ _ Ha2) in Hcase. by rewrite Hrow in Hcase. }
  destruct g as [|r0 g].
  - destruct Hf2 as [Ha2 Hs2]. apply history_before in Hf3 as [_ Hs]; [|done..]. rewrite forallb_forall in Hseen.
    specialize (Hseen (k, row)). rewrite <- list_elem_of_In, elem_of_map_to_list in Hseen. specialize (Hseen Hrow).
    apply orb_true_iff in Hseen as [Hseen|Hseen]; [by apply bool_decide_eq_true in Hseen|].
    apply Z.eqb_eq in Hseen. simpl in Hseen. by rewrite Hseen.
  - destruct Hf2 as (Ha2 & _ & _ & Hm). by rewrite (Hmax Ha2), <- Hm.
Qed.
End author.

(** In a database start-up validation accepts there are at most 64 devices, and for each of
    them the counters of the revisions it authored are exactly 1, 2, ..., its stored maximum,
    each once: no accepted revision is missing and none was stored twice. *)
Theorem validated_author_counters identity s s' (Hok : validatePersistentState identity s = (Ok (), s')) :
  (length (tb_devices (st_tx s)) <= 64)%nat ∧
  ∀ r, r ∈ tb_devices (st_tx s) → ∃ id n, d_device_id r = CText id ∧ d_max_author_counter r = cell_u64 (Z.of_nat n) ∧
    map v_author_counter (List.filter (authored id) (tb_record_revisions (st_tx s))) ≡ₚ cursors n.
Proof.
  apply validated_parts in Hok as [[counters devices hist _ Hdevices _ Hsequence _ _]].
  apply registry_accepted in Hdevices as [H64 Hrows]. split; [done|]. intros r Hr.
  destruct (Hrows r Hr) as (id & row & Hid & Hv & Hrow & Hmax & Hu). exists id, (Z.to_nat (vd_maxCounter row)).
  unfold u64 in Hu. rewrite Z2Nat.id by lia. split_and!; [done..|]. eapply counters_accepted; [by apply uuid_nonempty|done..].
Qed.
Lemma validated_author_counters_witness : (length (tb_devices (st_tx validated_sample)) <= 64)%nat.
Proof. apply (validated_author_counters _ _ _ validated_sample_ok). Defined.
