(* ===== verification/ValidatedHeads.v ===== *)
(** * Start-up validation establishes the causal frontier

    validatePersistentRevisions replays every record's history and compares the frontier it
    reconstructs with the stored flags; validatePersistentRecordHeads compares the flags with
    the head index.  Together: in an accepted database the heads of every record are the
    maximal vectors of its retained revisions, the hypothesis under which
    [Frontier.sync_apply_frontier] keeps them so. *)

From stdpp Require Import base list strings gmap sorting.
From Stdlib Require Import ZArith Lia Ascii.
From S2P Require Import Prelude GoStd GoTime Uuid Auth Json Wire Api Models Vectors Sql Schema Monad Keys SqlFacts Runtime.
From S2P Require Import Persist Devices Sync Registry History LogState Startup Samples Constraints Frontier Validated.
Local Open Scope Z_scope.

(** ** One join row per revision *)
Lemma cell_eqb_join a b x : cell_eqb a x = true → cell_eqb b x = true → cell_eqb a b = true.
Proof.
  intros H1 H2. apply cell_eqb_true in H2 as ->. done.
Qed.
Lemma matches_single {B} ck conflict (on : B → bool) rows : table_ok ck conflict rows →
  (∀ r q, on r = true → on q = true → conflict r q = true) → ∃ o, matches on rows = [o].
Proof.
  intros Ht Hon. unfold matches. assert (Hlen : (length (select on rows) <= 1)%nat).
  { induction Ht as [|r rows Hr Hc Ht IH]; simpl; [lia|]. destruct (on r) eqn:E; [|done]. simpl.
    destruct (select on rows) as [|q rest] eqn:Es; [done|]. exfalso. assert (Hq : In q (select on rows)) by (rewrite Es; by left).
    apply filter_In in Hq as [Hq Eq]. apply list_elem_of_In in Hq. specialize (Hc q Hq). by rewrite (Hon _ _ E Eq) in Hc. }
  destruct (select on rows) as [|r [|q rest]]; simpl in *; [eauto..|lia].
Qed.
Lemma revision_joins_rows d : db_ok d → map vj_r (revision_joins d) =
  order_by (by_columns v_record_id v_change_cursor) (tb_record_revisions d).
Proof.
  intros Hok. unfold revision_joins. change (order_by (λ a b, cells_leb _ _)) with (order_by (by_columns v_record_id v_change_cursor)).
  induction (order_by _ _) as [|r l IH]; [done|]. cbn [flat_map]. rewrite map_app, IH. 
  destruct (matches_single _ _ (λ a, cell_eqb (ao_revision_id a) (v_revision_id r)) _ (ok_revision_acceptance_origins _ Hok)) as [a Ea];
    [intros p q; apply cell_eqb_join|].
  destruct (matches_single _ _ (λ o, cell_eqb (ro_content_hash o) (v_content_hash r)) _ (ok_revision_objects _ Hok)) as [o Eo];
    [intros p q; apply cell_eqb_join|].
  destruct (matches_single _ _ (λ c, cell_eqb (ch_cursor c) (v_change_cursor r) && cell_eqb (ch_kind c) (CText "record_revision")
                     && cell_eqb (ch_record_revision_id c) (v_revision_id r)) _ (ok_changes _ Hok)) as [c Ec].
  { intros p q Hp Hq. unbool. by eapply cell_eqb_join. }
  destruct (matches_single _ _ (λ p, cell_eqb (co_cursor p) (v_change_cursor r)) _ (ok_change_origins _ Hok)) as [p Ep].
  { intros p q Hp Hq. unfold conflict_change_origins. by rewrite (cell_eqb_join _ _ _ Hp Hq). }
  by rewrite Ea, Eo, Ec, Ep.
Qed.

(** ** One step *)
Definition item_stamp (e : frontierItem) : stamped := (fi_id e, fi_vector e).
Definition kept (r : record_revisions_row) : bool := v_retained r =? 1.
Definition undominated (r : record_revisions_row) : bool := v_undominated r =? 1.
(** The frontier of the record the step works on. *)
Definition entered (st : replay) (record : string) : replay :=
  if String.eqb (rp_record st) record then st else Mk_replay record [] [] ∅ (rp_counters st).
Lemma scan_revision_row j x : scan_revision j = Some x →
  scan_uuid (v_revision_id (vj_r j)) = Some (vs_revisionID x) ∧ scan_uuid (v_record_id (vj_r j)) = Some (vs_recordID x) ∧
  scan_body maxVectorBytes (v_vector_json (vj_r j)) = Some (vs_vectorBody x) ∧
  vs_retained x = kept (vj_r j) ∧ vs_undominated x = undominated (vj_r j).
Proof. unfold scan_revision. intros H. repeat (case_match_in H; try discriminate H); injection H as <-; done. Qed.
Lemma revision_step_accepted d devices n g st j st' : accepts d (revision_step devices n g st j) st' →
  ∃ id record vector, v_record_id (vj_r j) = CText record ∧ record ≠ "" ∧ v_revision_id (vj_r j) = CText id ∧
    scan_vector_row (vj_r j) = Some (id, vector) ∧ positive vector ∧ rp_record st' = record ∧
    (rp_record st ≠ record → rp_record st ≠ "" → accepts d (flushFrontier st) ()) ∧
    (if kept (vj_r j) then advanceFrontier (rp_retained (entered st record)) id vector = Ok (rp_retained st')
     else rp_retained st' = rp_retained (entered st record)) ∧
    rp_heads st' = (if kept (vj_r j) && undominated (vj_r j) then {[id]} ∪ rp_heads (entered st record)
                    else rp_heads (entered st record)).
Proof.
  unfold revision_step. intros H. option_as H x Hx. ensure_as H Hkind. option_as H entries He. option_as H vector Hv.
  apply scan_revision_row in Hx as (Hid & Hrecord & Hbody & Hk & Hu). exists (vs_revisionID x), (vs_recordID x), vector.
  assert (Hvector : validateVector entries = Some vector).
  { unfold revision_row_ok in Hv. destruct (validateVector entries); [|done]. by repeat (case_match_in Hv; try discriminate Hv). }
  check_as H st1 Hst. check_as H hist Hh. check_as H retained Hr. ensure_as H Hs. ensure_as H Hreg. check_as H u Hobj.
  apply accepts_ret in H as ->. cbn [rp_record rp_retained rp_heads].
  assert (Hst1 : st1 = entered st (vs_recordID x) ∧
    (rp_record st ≠ vs_recordID x → rp_record st ≠ "" → accepts d (flushFrontier st) ())).
  { unfold entered. destruct (String.eqb (rp_record st) (vs_recordID x)) eqn:E.
    - apply accepts_ret in Hst as ->. apply String.eqb_eq in E. done.
    - check_as Hst v Hf. apply accepts_ret in Hst as ->. split; [done|]. intros _ Hne. destruct v.
      by destruct (String.eqb (rp_record st) "") eqn:E2; [apply String.eqb_eq in E2|]. }
  destruct Hst1 as [-> Hflush]. rewrite Hk, Hu in *. pose proof (scan_uuid_Some _ _ Hrecord) as [Erec Hrec].
  apply scan_uuid_Some in Hid as Hid'. destruct Hid' as [Eid _]. split_and!; try done.
  - by apply uuid_nonempty.
  - unfold scan_vector_row. by rewrite Hid, Hbody, He, Hvector.
  - by eapply validateVector_positive.
  - destruct (kept (vj_r j)); [|by apply accepts_ret in Hr].
    destruct (advanceFrontier (rp_retained _) _ _) as [F|]; simpl in Hr; [|by apply accepts_throw in Hr].
    by apply accepts_ret in Hr as ->.
Qed.

(** advanceFrontier extends the maximal vectors with one more. *)
Lemma map_filter_stamp (p : version_vector → bool) F :
  map item_stamp (List.filter (λ e, p (fi_vector e)) F) = List.filter (λ x : stamped, p x.2) (map item_stamp F).
Proof. induction F as [|e F IH]; [done|]. simpl. destruct (p (fi_vector e)); simpl; by rewrite IH. Qed.
Lemma advance_maximal F id v F' all : advanceFrontier F id v = Ok F' → map item_stamp F = maximal all →
  NoDup (map fst all) → Forall counted all → positive v → map item_stamp F' = maximal (all ++ [(id, v)]).
Proof.
  intros H HF Hnd Hall Hv. rewrite <- insert_head_maximal by done. rewrite <- HF.
  unfold insert_head, classify. unfold advanceFrontier in H. case_match_in H; [discriminate H|].
  assert (Eretire : List.filter (λ h : stamped, negb (bool_decide (h.1 ∈ map fst (List.filter (λ h : stamped, vectorDominates v h.2) (map item_stamp F)))))
                      (map item_stamp F) = map item_stamp (List.filter (λ e, negb (vectorDominates v (fi_vector e))) F)).
  { rewrite map_filter_stamp with (p := λ w, negb (vectorDominates v w)). apply List.filter_ext_in. intros h Hh%list_elem_of_In.
    f_equal. apply (classify_retires v (map item_stamp F)); [|done]. rewrite HF. by apply filter_distinct. }
  rewrite Eretire. assert (Edom : existsb (λ h : stamped, vectorDominates h.2 v) (map item_stamp F) = existsb (λ e, vectorDominates (fi_vector e) v) F).
  { clear. induction F; simpl; congruence. }
  rewrite Edom. destruct (existsb (λ e, vectorDominates (fi_vector e) v) F); simpl.
  - injection H as <-. by rewrite app_nil_r.
  - case_match_in H; [discriminate H|]. injection H as <-. by rewrite map_app.
Qed.

(** ** The rows of one record *)
Lemma stamps_ids rows hist : mapM_opt scan_vector_row rows = Some hist → map v_revision_id rows = map CText (map fst hist).
Proof.
  rewrite mapM_opt_map. revert hist. induction rows as [|r rows IH]; intros [|x hist] H; try discriminate H; [done|].
  simpl in *. injection H as Hx H. f_equal; [|by apply IH]. unfold scan_vector_row in Hx.
  destruct (scan_uuid (v_revision_id r)) as [id|] eqn:E; [|done]. apply scan_uuid_Some in E as [-> _].
  repeat (case_match_in Hx; try discriminate Hx); by injection Hx as <-.
Qed.
Lemma stamps_distinct rows hist : mapM_opt scan_vector_row rows = Some hist → NoDup (map v_revision_id rows) → NoDup (map fst hist).
Proof. intros ->%stamps_ids H. by apply NoDup_fmap_1 in H. Qed.

Definition replayed (rows : list record_revisions_row) (st : replay) : Prop :=
  NoDup (map v_revision_id rows) →
  ∃ hist, mapM_opt scan_vector_row (List.filter kept rows) = Some hist ∧ Forall counted hist ∧
    map item_stamp (rp_retained st) = maximal hist ∧
    ∀ id, id ∈ rp_heads st ↔ ∃ r, r ∈ rows ∧ kept r = true ∧ undominated r = true ∧ v_revision_id r = CText id.
Section record.
Context (d : db) (devices : registry) (n g : Z) (k : string).
Lemma replayed_step rows st j st' : v_record_id (vj_r j) = CText k → replayed rows (entered st k) →
  accepts d (revision_step devices n g st j) st' → rp_record st' = k ∧ replayed (rows ++ [vj_r j]) st'.
Proof.
  intros Hk HI (id & record & v & Ek & _ & Eid & Hv & Hpos & Hrec & _ & Hret & Hheads)%revision_step_accepted.
  rewrite Hk in Ek. injection Ek as <-. split; [done|]. intros Hnd. rewrite map_app in Hnd. apply NoDup_app in Hnd as (Hnd & _ & _).
  destruct (HI Hnd) as (hist & Hh & Hc & Hmax & Hid). rewrite List.filter_app. cbn [List.filter].
  assert (Hd : NoDup (map fst hist)) by (eapply stamps_distinct; [done|by apply filter_distinct]).
  assert (Hin : ∀ i, (∃ r, r ∈ rows ++ [vj_r j] ∧ kept r = true ∧ undominated r = true ∧ v_revision_id r = CText i) ↔
    i ∈ rp_heads (entered st k) ∨ (i = id ∧ kept (vj_r j) && undominated (vj_r j) = true)).
  { intros i. rewrite Hid. setoid_rewrite elem_of_app. setoid_rewrite list_elem_of_singleton. rewrite andb_true_iff. split.
    - intros (r & [Hr| ->] & K & U & E); [left; eauto 10|right]. rewrite Eid in E. injection E as <-. done.
    - intros [(r & Hr & ?)|(-> & ? & ?)]; [exists r|exists (vj_r j)]; eauto 10. }
  destruct (kept (vj_r j)) eqn:Ekept; cbn [andb] in *.
  - exists (hist ++ [(id, v)]). split_and!.
    + apply mapM_opt_map. rewrite !map_app. simpl. rewrite Hv. f_equal. by apply mapM_opt_map.
    + apply Forall_app. split; [done|]. by constructor.
    + by eapply advance_maximal.
    + intros i. rewrite Hin, Hheads. clear. destruct (undominated (vj_r j)); rewrite ?elem_of_union, ?elem_of_singleton; intuition congruence.
  - exists hist. rewrite app_nil_r, Hret, Hheads. split_and!; [done..|]. intros i. rewrite Hin. clear. intuition congruence.
Qed.
Lemma entered_same st : rp_record st = k → entered st k = st.
Proof. intros E. unfold entered. by rewrite E, String.eqb_refl. Qed.
Lemma replayed_nil st : rp_record st ≠ k → replayed [] (entered st k).
Proof.
  intros E _. exists []. unfold entered. apply String.eqb_neq in E. rewrite E. split_and!; [done|constructor|done|].
  intros id. simpl. rewrite elem_of_empty. split; [done|]. by intros (r & ?%elem_of_nil & _).
Qed.
Lemma replayed_group l st st' : Forall (λ j, v_record_id (vj_r j) = CText k) l → rp_record st ≠ k →
  accepts d (fold_each l st (revision_step devices n g)) st' → l ≠ [] → rp_record st' = k ∧ replayed (map vj_r l) st'.
Proof.
  intros Hl Hne H Hnil.
  apply (accepts_fold_inv _ _ (reads_revision_step devices n g) (λ pre st,
    replayed (map vj_r pre) (entered st k) ∧ (pre ≠ [] → rp_record st = k)) _ _ _ []) in H as [HR HK].
  - simpl in *. specialize (HK Hnil). by rewrite entered_same in HR.
  - intros pre j st1 st2 [HR _] Hj Hs. rewrite Forall_forall in Hl. apply (replayed_step _ _ _ _ (Hl j Hj) HR) in Hs as [E Hs].
    rewrite entered_same, map_app by done. done.
  - split; [by apply replayed_nil|done].
Qed.
Lemma others_skip l st st' : Forall (λ j, v_record_id (vj_r j) ≠ CText k) l → rp_record st ≠ k →
  accepts d (fold_each l st (revision_step devices n g)) st' → rp_record st' ≠ k.
Proof.
  intros Hl Hne H. apply (accepts_fold_inv _ _ (reads_revision_step devices n g) (λ _ st, rp_record st ≠ k) _ _ _ []) in H; [done| |done].
  intros pre j st1 st2 _ Hj (id & record & v & Ek & _ & _ & _ & _ & -> & _)%revision_step_accepted.
  rewrite Forall_forall in Hl. specialize (Hl j Hj). congruence.
Qed.
End record.

(** A flushed frontier has the stored heads. *)
Lemma flush_heads d st : NoDup (map fi_id (rp_retained st)) → accepts d (flushFrontier st) () →
  ∀ id, id ∈ rp_heads st ↔ id ∈ map fi_id (rp_retained st).
Proof.
  unfold flushFrontier. intros Hnd H. ensure_as H Hlen. apply accepts_ensure_last in H. unbool. apply Nat.eqb_eq in H0.
  rewrite forallb_forall in H. intros id. rewrite <- (elem_of_list_to_set (C := gset string)).
  assert (Hsub : (list_to_set (map fi_id (rp_retained st)) : gset string) ⊆ rp_heads st).
  { intros i Hi%elem_of_list_to_set. apply list_elem_of_In, in_map_iff in Hi as (e & <- & He). apply H in He. by unbool. }
  assert (Heq : (list_to_set (map fi_id (rp_retained st)) : gset string) = rp_heads st); [|by rewrite Heq].
  apply leibniz_equiv, set_subseteq_size_equiv; [done|]. rewrite size_list_to_set by done. rewrite length_map. lia.
Qed.

(** ** The stored flags *)
Definition of_record_rows (record : string) (d : db) : list record_revisions_row :=
  List.filter (λ r, bool_decide (v_record_id r = CText record)) (tb_record_revisions d).
Lemma filter_map_comm {A B} (p : B → bool) (f : A → B) l : List.filter p (map f l) = map f (List.filter (λ x, p (f x)) l).
Proof. induction l as [|x l IH]; [done|]. simpl. destruct (p (f x)); simpl; by rewrite IH. Qed.
Lemma sorted_of_map {A B} (R : relation B) (f : A → B) l : StronglySorted R (map f l) → StronglySorted (λ a b, R (f a) (f b)) l.
Proof.
  induction l as [|x l IH]; intros H; [constructor|]. inversion H as [|? ? Hl Hx]; subst. constructor; [by apply IH|].
  apply Forall_forall. intros y Hy. rewrite Forall_forall in Hx. apply Hx. apply list_elem_of_In, in_map, list_elem_of_In, Hy.
Qed.
Lemma revision_ids_distinct d : db_ok d → Forall (λ r, is_Some (scan_vector_row r)) (tb_record_revisions d) →
  NoDup (map v_revision_id (tb_record_revisions d)).
Proof.
  intros Hok%ok_record_revisions. induction Hok as [|r rows Hr Hc Ht IH]; intros Hall; simpl; [constructor|].
  apply Forall_cons in Hall as [Hs Hall]. constructor; [|by apply IH].
  intros (q & Eq & Hq)%list_elem_of_In%in_map_iff. apply list_elem_of_In in Hq. specialize (Hc q Hq).
  unfold conflict_record_revisions in Hc. rewrite Eq in Hc. rewrite cell_eqb_refl in Hc; [done|].
  intros En. unfold scan_vector_row in Hs. rewrite En in Hs. by destruct Hs.
Qed.
Lemma rows_scanned d devices n g st st' : db_ok d →
  accepts d (fold_each (revision_joins d) st (revision_step devices n g)) st' →
  Forall (λ r, is_Some (scan_vector_row r)) (tb_record_revisions d).
Proof.
  intros Hok H. rewrite <- (order_by_perm (by_columns v_record_id v_change_cursor)), <- revision_joins_rows by done.
  apply (accepts_fold_inv _ _ (reads_revision_step devices n g)
    (λ pre _, Forall (λ r, is_Some (scan_vector_row r)) (map vj_r pre)) _ _ _ []) in H; [done| |constructor].
  intros pre j st1 st2 HF _ (id & rec & v & _ & _ & _ & Hv & _)%revision_step_accepted. rewrite map_app.
  apply Forall_app. split; [done|]. constructor; [by rewrite Hv|constructor].
Qed.
Lemma flags_accepted d devices n g counters record : db_ok d → record ≠ "" →
  accepts d (validatePersistentRevisions devices n g) counters →
  ∃ hist, map scan_vector_row (List.filter kept (of_record_rows record d)) ≡ₚ map Some hist ∧
    NoDup (map fst hist) ∧ Forall counted hist ∧
    ∀ id, id ∈ map fst (maximal hist) ↔
      ∃ r, r ∈ of_record_rows record d ∧ kept r = true ∧ undominated r = true ∧ v_revision_id r = CText id.
Proof.
  intros Hok Hrec H. unfold validatePersistentRevisions in H. query_as H. check_as H st Hfold.
  check_as H u Hlast. destruct u. clear H. pose proof (rows_scanned _ _ _ _ _ _ Hok Hfold) as Hscan.
  pose proof (order_by_columns_sorted v_record_id v_change_cursor (tb_record_revisions d)) as Hs.
  rewrite <- revision_joins_rows in Hs by done. apply sorted_of_map in Hs.
  apply (split_key (λ j, v_record_id (vj_r j)) (CText record)) in Hs as (l1 & l2 & El & H1 & H2).
  set (G := List.filter _ _) in *. rewrite El in Hfold.
  apply accepts_fold_app in Hfold as (st1 & Hf1 & Hfold); [|apply reads_revision_step].
  apply accepts_fold_app in Hfold as (st2 & Hf2 & Hf3); [|apply reads_revision_step].
  apply (others_skip d devices n g record) in Hf1; [|done|by apply not_eq_sym].
  assert (HG : map vj_r G ≡ₚ of_record_rows record d).
  { transitivity (List.filter (λ r, bool_decide (v_record_id r = CText record)) (map vj_r (revision_joins d))).
    - by rewrite filter_map_comm.
    - rewrite revision_joins_rows by done. apply filter_perm, order_by_perm. }
  assert (Hdist : NoDup (map v_revision_id (map vj_r G))).
  { rewrite HG. apply filter_distinct, revision_ids_distinct; done. }
  pose proof (Permutation_map scan_vector_row (filter_perm kept _ _ HG)) as Hkept. setoid_rewrite <- Hkept.
  assert (Hmem : ∀ r, r ∈ of_record_rows record d ↔ r ∈ map vj_r G) by (intros r; by rewrite HG). setoid_rewrite Hmem.
  destruct (decide (G = [])) as [EG|EG].
  { rewrite EG. exists []. simpl. split_and!; [done|constructor..|]. intros id. split; [by intros ?%elem_of_nil|].
    by intros (r & ?%elem_of_nil & _). }
  apply (replayed_group d devices n g record) in Hf2 as [E2 HR]; [|apply Forall_filter_true|done..].
  assert (Hflush : accepts d (flushFrontier st2) ()).
  { destruct l2 as [|j l2]; simpl in Hf3.
    - apply accepts_ret in Hf3 as ->. rewrite E2 in Hlast. by apply String.eqb_neq in Hrec; rewrite Hrec in Hlast.
    - apply accepts_bind in Hf3 as (st3 & Hs3 & _); [|apply reads_revision_step]. apply Forall_cons in H2 as [Hj _].
      apply revision_step_accepted in Hs3 as (id & rec & v & Ek & _ & _ & _ & _ & _ & Hfl & _). apply Hfl; congruence. }
  destruct HR as (hist & Hh & Hc & Hmax & Hheads); [done|].
  assert (Hd : NoDup (map fst hist)) by (eapply stamps_distinct; [done|by apply filter_distinct]).
  exists hist. split_and!; [|done..|].
  - apply mapM_opt_map in Hh. by rewrite Hh.
  - intros id. rewrite <- Hheads. rewrite <- Hmax, map_map. simpl. symmetry. apply (flush_heads d); [|done].
    rewrite <- (map_map item_stamp fst). rewrite Hmax. by apply filter_distinct.
Qed.

(** ** The head index *)
Lemma reads_head_step acc x : Pres same_state (head_step acc x).
Proof. unfold head_step. reads. Qed.
Lemma left_join_reaches {A B} (on : A → B → bool) l r a : a ∈ l → ∃ b, (a, b) ∈ left_join on l r ∧
  match b with Some y => y ∈ r ∧ on a y = true | None => True end.
Proof.
  intros Ha. destruct (matches (on a) r) as [|b rest] eqn:E; [by apply matches_nonempty in E|]. exists b. split.
  - apply list_elem_of_In, in_flat_map. exists a. split; [by apply list_elem_of_In|]. apply in_map_iff. exists b. rewrite E.
    split; [done|by left].
  - unfold matches in E. destruct b as [y|]; [|done]. destruct (select (on a) r) as [|z k] eqn:Es; [done|].
    injection E as -> _. assert (Hy : In y (select (on a) r)) by (rewrite Es; by left). apply filter_In in Hy as [Hy Ho].
    split; [by apply list_elem_of_In|done].
Qed.
Definition head_flagged (d : db) (record : string) (h : record_heads_row) (r : record_revisions_row) : Prop :=
  r ∈ tb_record_revisions d ∧ v_revision_id r = h_revision_id h ∧ h_revision_id h ≠ CNull ∧ v_record_id r = CText record ∧
  kept r = true ∧ undominated r = true.
Lemma head_row_flagged d record h r : h_record_id h = CText record → r ∈ tb_record_revisions d →
  cell_eqb (v_revision_id r) (h_revision_id h) = true → is_Some (head_row_ok (h, Some r)) → head_flagged d record h r.
Proof.
  intros Eh Hr He [x Hx]. unfold head_row_ok in Hx. cbn [fst snd ocell] in Hx. rewrite Eh in Hx.
  destruct (scan_uuid (CText record)) as [rec|] eqn:E1; [|done]. apply scan_uuid_Some in E1 as [[= <-] _].
  destruct (scan_uuid (h_revision_id h)) as [id|] eqn:E2; [|done]. apply scan_uuid_Some in E2 as [E2 _].
  destruct (scan_uuid (v_record_id r)) as [rec'|] eqn:E3; [|done]. apply scan_uuid_Some in E3 as [E3 _].
  destruct (String.eqb rec' record && (v_retained r =? 1) && (v_undominated r =? 1)) eqn:Hb; [|done].
  apply andb_true_iff in Hb as [[->%String.eqb_eq Hret]%andb_true_iff Hund]. apply cell_eqb_true in He.
  split_and!; try done. by rewrite E2.
Qed.
Lemma heads_accepted d : accepts d validatePersistentRecordHeads () →
  (∀ record h, h ∈ tb_record_heads d → h_record_id h = CText record → ∃ r, head_flagged d record h r) ∧
  (∀ r, r ∈ tb_record_revisions d → kept r = true → undominated r = true → ∃ h, h ∈ tb_record_heads d ∧
     h_record_id h = v_record_id r ∧ h_revision_id h = v_revision_id r).
Proof.
  unfold validatePersistentRecordHeads. intros H. query_as H.
  apply accepts_bind in H as (acc & Hf & H); [|apply pres_fold_each; [apply _|apply reads_head_step]].
  query_as H. apply accepts_ensure_last in H. apply negb_true_iff in H. split.
  - intros record h Hh Eh.
    apply (accepts_fold_inv _ _ reads_head_step (λ pre _, Forall (λ x, is_Some (head_row_ok x)) pre) _ _ _ []) in Hf;
      [|intros pre x [p c] a' HF _ Hs|constructor].
    + rewrite <- (elem_of_order_by (by_columns h_record_id h_revision_id)) in Hh.
      apply (left_join_reaches (λ h r, cell_eqb (v_revision_id r) (h_revision_id h)) _ (tb_record_revisions d)) in Hh as (b & Hb & Hon).
      rewrite Forall_forall in Hf. specialize (Hf _ Hb). destruct b as [r|].
      * destruct Hon as [Hr He]. exists r. by apply head_row_flagged.
      * destruct Hf as [x Hx]. unfold head_row_ok in Hx. simpl in Hx. by repeat (case_match_in Hx; try discriminate Hx).
    + unfold head_step in Hs. option_as Hs record' Hr. apply Forall_app. split; [done|]. by constructor.
  - intros r Hr Hk Hu. unfold missing_head in H. eapply existsb_false_elem in H; [|by apply list_elem_of_In].
    unfold kept, undominated in *. rewrite Hk, Hu in H. simpl in H. apply negb_false_iff, existsb_exists in H as (h & Hh & E).
    apply list_elem_of_In in Hh. unbool. exists h. split_and!; [done|by apply cell_eqb_true..].
Qed.

(** ** The frontier *)
Lemma by_id_single d r c : db_ok d → r ∈ tb_record_revisions d → v_revision_id r = c → c ≠ CNull →
  select (λ q, cell_eqb (v_revision_id q) c) (tb_record_revisions d) = [r].
Proof.
  intros Hok Hr Ec Hc. assert (Hin : In r (select (λ q, cell_eqb (v_revision_id q) c) (tb_record_revisions d))).
  { apply filter_In. split; [by apply list_elem_of_In|]. rewrite Ec. by apply cell_eqb_refl. }
  destruct (matches_single _ _ (λ q, cell_eqb (v_revision_id q) c) _ (ok_record_revisions _ Hok)) as [o Ho].
  { intros p q Hp Hq. unfold conflict_record_revisions. by rewrite (cell_eqb_join _ _ _ Hp Hq). }
  unfold matches in Ho. destruct (select _ _) as [|x [|y rest]]; [done| |done]. by destruct Hin as [->|[]].
Qed.
Lemma flat_map_Some {A B} (f : A → list (option B)) (P : A → B → Prop) l :
  (∀ a, a ∈ l → ∃ b, f a = [Some b] ∧ P a b) → ∃ k, flat_map f l = map Some k ∧ Forall2 P l k.
Proof.
  induction l as [|a l IH]; intros H; [exists []; by split|]. destruct (H a) as (b & Eb & Hb); [left|].
  destruct IH as (k & Ek & Hk); [intros x Hx; apply H; by right|]. exists (b :: k). simpl. rewrite Eb, Ek. split; [done|].
  by constructor.
Qed.
Lemma heads_distinct d record : db_ok d → (∀ h, h ∈ tb_record_heads d → of_record record h = true → h_revision_id h ≠ CNull) →
  NoDup (map h_revision_id (select (of_record record) (tb_record_heads d))).
Proof.
  intros Hok%ok_record_heads Hn. induction Hok as [|h rows Hh Hc Ht IH]; simpl; [constructor|].
  assert (IH' := IH (λ x Hx, Hn x (list_elem_of_further _ _ _ Hx))). destruct (of_record record h) eqn:E; [|done].
  simpl. constructor; [|done]. intros (q & Eq & Hq)%list_elem_of_In%in_map_iff.
  apply filter_In in Hq as [Hq Er]. apply list_elem_of_In in Hq. specialize (Hc q Hq). unfold conflict_record_heads in Hc.
  unfold of_record in *. rewrite (cell_eqb_join _ _ _ E Er), Eq in Hc. rewrite cell_eqb_refl in Hc; [done|].
  apply Hn; [left|done].
Qed.
Lemma stamp_unique (l : list stamped) x y : NoDup (map fst l) → x ∈ l → y ∈ l → x.1 = y.1 → x = y.
Proof.
  induction l as [|z l IH]; [by intros _ ?%elem_of_nil|]. simpl. intros Hnd Hx Hy E. apply NoDup_cons in Hnd as [Hz Hnd].
  apply elem_of_cons in Hx as [->|Hx]; apply elem_of_cons in Hy as [->|Hy]; [done|exfalso..|by apply IH]; apply Hz.
  - rewrite E. by apply list_elem_of_In, in_map, list_elem_of_In.
  - rewrite <- E. by apply list_elem_of_In, in_map, list_elem_of_In.
Qed.
(** The stamp a head stands for. *)
Definition stands_for (hist : list stamped) (h : record_heads_row) (x : stamped) : Prop :=
  h_revision_id h = CText x.1 ∧ x ∈ maximal hist.
Lemma head_stands d record hist h r : db_ok d → NoDup (map fst hist) →
  map scan_vector_row (List.filter kept (of_record_rows record d)) ≡ₚ map Some hist →
  (∀ id, id ∈ map fst (maximal hist) ↔
    ∃ r, r ∈ of_record_rows record d ∧ kept r = true ∧ undominated r = true ∧ v_revision_id r = CText id) →
  head_flagged d record h r → ∃ x, vectors_of (tb_record_revisions d) (h_revision_id h) = [Some x] ∧ stands_for hist h x.
Proof.
  intros Hok Hnd Hhist Hmax (Hr & Er & Hn & Erec & Hk & Hu). unfold vectors_of. rewrite (by_id_single d r) by done. simpl.
  assert (Hin : r ∈ of_record_rows record d).
  { apply list_elem_of_In, filter_In. split; [by apply list_elem_of_In|]. by apply bool_decide_eq_true. }
  assert (Hs : scan_vector_row r ∈ map Some hist).
  { rewrite <- Hhist. apply list_elem_of_In, in_map, filter_In. split; [by apply list_elem_of_In|done]. }
  apply list_elem_of_In, in_map_iff in Hs as (x & Ex & Hx%list_elem_of_In). exists x. rewrite <- Ex. split; [done|].
  assert (Eid : v_revision_id r = CText x.1).
  { pose proof (stamps_ids [r] [x]) as Hi. simpl in Hi. rewrite <- Ex in Hi. by specialize (Hi eq_refl) as [= ->]. }
  split; [congruence|]. assert (Hm : x.1 ∈ map fst (maximal hist)) by (apply Hmax; eauto).
  apply list_elem_of_In, in_map_iff in Hm as (y & Ey & Hy%list_elem_of_In).
  assert (x = y) as ->; [|done]. apply (stamp_unique hist); [done..|by apply elem_of_maximal in Hy as [? _]|done].
Qed.
Lemma frontier_accepted d devices n g counters record : db_ok d → record ≠ "" →
  accepts d (validatePersistentRevisions devices n g) counters → accepts d validatePersistentRecordHeads () →
  ∃ hist heads, map scan_vector_row (List.filter kept (of_record_rows record d)) ≡ₚ map Some hist ∧
    NoDup (map fst hist) ∧ Forall counted hist ∧ head_set record d = Some heads ∧ heads ≡ₚ maximal hist.
Proof.
  intros Hok Hrec Hrev [Hheads Hmissing]%heads_accepted.
  destruct (flags_accepted _ _ _ _ _ _ Hok Hrec Hrev) as (hist & Hhist & Hnd & Hc & Hmax). exists hist.
  assert (Hof : ∀ h, h ∈ tb_record_heads d → of_record record h = true → h_record_id h = CText record).
  { intros h _ Ho. by apply cell_eqb_true in Ho. }
  destruct (flat_map_Some (λ h, vectors_of (tb_record_revisions d) (h_revision_id h)) (stands_for hist)
              (select (of_record record) (tb_record_heads d))) as (K & EK & HK).
  { intros h [Hh Ho]%list_elem_of_In%filter_In. apply list_elem_of_In in Hh. destruct (Hheads record h Hh) as [r Hr]; [auto|].
    by eapply head_stands. }
  destruct (vectors_head_set record d K EK) as (heads & Hset & Hp). exists heads. split_and!; [done..|]. rewrite Hp.
  assert (Hdist : NoDup (map h_revision_id (select (of_record record) (tb_record_heads d)))).
  { apply heads_distinct; [done|]. intros h Hh Ho. destruct (Hheads record h Hh) as [r Hr]; [auto|]. by destruct Hr as (_ & _ & ? & _). }
  assert (EKid : map h_revision_id (select (of_record record) (tb_record_heads d)) = map CText (map fst K)).
  { clear - HK. induction HK as [|h x l k [Hhx _] _ IH]; simpl; congruence. }
  apply NoDup_Permutation.
  - rewrite EKid in Hdist. apply NoDup_fmap_1, NoDup_fmap_1 in Hdist. done.
  - apply NoDup_ListNoDup, List.NoDup_filter, NoDup_ListNoDup. by apply NoDup_fmap_1 in Hnd.
  - intros x. split.
    + intros Hx. apply list_elem_of_lookup in Hx as [i Hi]. destruct (Forall2_lookup_r _ _ _ _ _ HK Hi) as (h & _ & _ & Hx). done.
    + intros Hx. destruct (proj1 (Hmax x.1)) as (r & Hr & Hk & Hu & Er).
      { by apply list_elem_of_In, in_map, list_elem_of_In. }
      apply list_elem_of_In, filter_In in Hr as [Hr Erec]. apply list_elem_of_In in Hr. apply bool_decide_eq_true in Erec.
      destruct (Hmissing r Hr Hk Hu) as (h & Hh & E1 & E2).
      assert (Hsel : h ∈ select (of_record record) (tb_record_heads d)).
      { apply list_elem_of_In, filter_In. split; [by apply list_elem_of_In|]. unfold of_record. rewrite E1, Erec. apply String.eqb_refl. }
      apply list_elem_of_lookup in Hsel as [i Hi]. destruct (Forall2_lookup_l _ _ _ _ _ HK Hi) as (y & Hy & Ey & Hym).
      assert (x = y) as ->; [|by eapply list_elem_of_lookup_2]. apply (stamp_unique hist); [done| | |congruence].
      * by apply elem_of_maximal in Hx as [? _].
      * by apply elem_of_maximal in Hym as [? _].
Qed.

(** C5. In a database start-up validation accepts, the heads of every record, as
    classifyRevisionFrontier reads them, are exactly the maximal vectors among the record's
    retained revisions: validation establishes what storing a revision keeps. *)
Theorem validated_frontier identity record s s' (Hdb : db_ok (st_tx s)) (Hrecord : record ≠ "")
    (Hok : validatePersistentState identity s = (Ok (), s')) :
  ∃ history heads,
    map scan_vector_row (List.filter kept (of_record_rows record (st_tx s))) ≡ₚ map Some history ∧
    NoDup (map fst history) ∧ Forall counted history ∧
    head_set record (st_tx s) = Some heads ∧ heads ≡ₚ maximal history.
Proof.
  apply validated_parts in Hok as [[counters devices hist _ _ Hrevisions _ Hheads _]]. by eapply frontier_accepted.
Qed.

Lemma validated_sample_constraints : db_ok (st_tx validated_sample).
Proof. split; table_by_computation. Qed.
Lemma validated_frontier_witness :
  ∃ history heads, head_set (rr_RecordID sample_revision) (st_tx validated_sample) = Some heads ∧ heads ≡ₚ maximal history.
Proof.
  destruct (validated_frontier sample_identity (rr_RecordID sample_revision) validated_sample
              (after (validatePersistentState sample_identity) validated_sample)) as (history & heads & _ & _ & _ & Hheads).
  - apply validated_sample_constraints.
  - discriminate.
  - apply validated_sample_ok.
  - exists history, heads. exact Hheads.
Defined.
