(* ===== verification/System.v ===== *)
(** * The running system: transport, store and local control together

    The store implements the interfaces [Http] states for the code behind the transport,
    and a step of the running system is one HTTP exchange, one local control operation
    (baseline device, boot, grant, uptime checkpoint, readiness) or a move of the
    environment, which decides what statements fail next and what the random source
    yields.  Whatever happens, the change log stays contiguous and the schema's
    constraints stay satisfied. *)

From stdpp Require Import base list strings gmap relations.
From Stdlib Require Import ZArith Lia Ascii.
From S2P Require Import Prelude GoStd GoTime Uuid Auth Json Wire Api Models NetIP Fs Config Sql Schema Monad Runtime.
From S2P Require Import Persist Devices Enrollment Collection Snapshot Http Registry Samples ChangeLog Constraints ConfigProps HttpProps.
Local Open Scope Z_scope.

(** ** The store behind the transport *)
Section instances.
Context (identity : Identity) (clock : gotime).
#[export] Instance store_plane : DataPlane St := {| dp_HandleAPI := HandleAPI identity clock |}.
#[export] Instance store_readiness : Readiness St :=
  {| rd_Ready := λ s, match Ready identity s with (Ok _, s') => (true, s') | (Err _, s') => (false, s') end |}.
End instances.
#[export] Instance store_random : Random St :=
  {| rnd_Read := λ n s, match rand_read n "" s with (Ok r, s') => (Some r, s') | (Err _, s') => (None, s') end |}.
#[export] Instance store_random_laws : RandomLaws St.
Proof.
  split. intros n s r s'. simpl. unfold rand_read. destruct (st_rand s) as [|x rest]; [done|].
  destruct (slen x =? n) eqn:E; [|done]. intros [= <- _]. by apply Z.eqb_eq.
Qed.

(** ** Local control operations and the change log

    A computation is [mixed] when every log it leaves, committed or pending, is one of the
    two it found; behind [begin_tx] both are the committed one. *)
Definition mixed : relation St := λ s s',
  (log_of (st_db s') = log_of (st_db s) ∨ log_of (st_db s') = log_of (st_tx s)) ∧
  (log_of (st_tx s') = log_of (st_db s) ∨ log_of (st_tx s') = log_of (st_tx s)).
#[export] Instance mixed_preorder : PreOrder mixed.
Proof.
  split; [split; auto|]. intros s1 s2 s3 [[E1|E1] [E2|E2]] [[E3|E3] [E4|E4]]; split; rewrite ?E3, ?E4, ?E1, ?E2; auto.
Qed.
Lemma same_log_mixed s s' : same_log s s' → mixed s s'.
Proof. intros [E1 E2]. split; [left|right]; congruence. Qed.
Lemma mixed_commit {E} (e : E) : Pres mixed (commit_tx e).
Proof.
  apply pres_bind; [apply _|apply pres_tick; intros s s' H; apply same_log_mixed, same_state_log, H|].
  intros []; [by apply pres_throw, _|]. intros s. split; simpl; auto.
Qed.
Ltac mix := repeat first
  [ apply mixed_commit
  | apply (pres_weaken same_log _ _ same_log_mixed); solve [logs]
  | apply pres_bind; [apply _| |intros ?]
  | case_match ].
Definition log_kept {E A} (m : M E A) : Prop := ∀ s, log_of (st_db (m s).2) = log_of (st_db s).
Lemma log_kept_keeps {E A} (m : M E A) : Pres same_db m → log_kept m.
Proof. intros Hm s. by rewrite (Hm s). Qed.
Lemma log_kept_skip {E A B} (m : M E A) (f : A → M E B) : Pres same_db m → (∀ a, log_kept (f a)) → log_kept (m ≫= f).
Proof.
  intros Hm Hf s. unfold mbind, M_bind. specialize (Hm s). unfold same_db in Hm. destruct (m s) as [[a|e] s1]; simpl in *; [|congruence].
  by rewrite Hf, Hm.
Qed.
Lemma log_kept_begin {E A} (e : E) (f : () → M E A) : (∀ u, Pres mixed (f u)) → log_kept (begin_tx e ≫= f).
Proof.
  intros Hf s. unfold mbind at 1, M_bind at 1. destruct (begin_tx e s) as [[u|x] s1] eqn:Eb.
  - apply begin_ok in Eb as (E1 & E2 & _). destruct (Hf u s1) as [[H|H] _]; rewrite H; congruence.
  - pose proof (keeps_begin e s) as H. rewrite Eb in H. unfold same_db in H. simpl in *. congruence.
Qed.
Ltac control :=
  lazymatch goal with
  | |- log_kept (begin_tx _ ≫= _) => apply log_kept_begin; intros ?; mix
  | |- log_kept (_ ≫= _) => apply log_kept_skip; [solve [keeps]|intros ?; cbv zeta; control]
  end.

Lemma logs_delete_snapshot_boot a b : Pres same_log (map_err (E := Error) (E' := string) b (deleteSnapshotAndReleaseObjects a)).
Proof. apply pres_map_err, logs_deleteSnapshotAndReleaseObjects. Qed.
#[export] Hint Resolve logs_delete_snapshot_boot : logs.
Lemma log_kept_CreateDevice identity a b c d : log_kept (CreateDevice identity a b c d).
Proof. unfold CreateDevice. control. Qed.
Lemma log_kept_StartBoot now : log_kept (StartBoot now).
Proof. unfold StartBoot. control. Qed.
Lemma log_kept_CreateEnrollmentGrant identity now : log_kept (CreateEnrollmentGrant identity now).
Proof. unfold CreateEnrollmentGrant. control. Qed.
Lemma log_kept_CheckpointUptime now : log_kept (CheckpointUptime now).
Proof. unfold CheckpointUptime, beginTransaction. control. Qed.

(** ** Steps of the running system *)
Section system.
Context (identity : Identity) (handler : HttpHandler).
Definition exchange (conn : connection) (now clock : gotime) (request : HttpRequest) (s : St) : HttpReply * St :=
  ServeHTTP (DataPlane0 := store_plane identity clock) (Readiness0 := store_readiness identity) handler conn now request s.
Inductive system_step (s : St) : St → Prop :=
  | step_exchange conn now clock request : system_step s (exchange conn now clock request s).2
  | step_device deviceID token scopes now : system_step s (CreateDevice identity deviceID token scopes now s).2
  | step_boot now : system_step s (StartBoot now s).2
  | step_grant now : system_step s (CreateEnrollmentGrant identity now s).2
  | step_checkpoint now : system_step s (CheckpointUptime now s).2
  | step_environment faults rand : system_step s (Mk_St (st_db s) (st_tx s) (st_eph s) faults rand).

Definition sound (n : nat) (s : St) : Prop := ∃ n', (n <= n')%nat ∧ change_log_ok (st_db s) n' ∧ state_ok s.
Lemma sound_api clock r n s : sound n s → sound n (HandleAPI identity clock r s).2.
Proof.
  intros (n1 & Hn & Hlog & Hok). pose proof (constrained_HandleAPI identity clock r s Hok) as Hok'.
  destruct (HandleAPI identity clock r s) as [[a|e] s'] eqn:E; simpl in *.
  - destruct (triple_HandleAPI identity n1 clock r s a s') as (n2 & Hn2 & Hlog2); [done..|]. exists n2. split_and!; [lia|done..].
  - exists n1. rewrite (atomic_HandleAPI _ _ _ _ _ _ E). done.
Qed.
Lemma sound_kept {E A} (m : M E A) n s : log_kept m → Pres constrained m → sound n s → sound n (m s).2.
Proof.
  intros Hm Hc (n1 & Hn & [Hlog Hmax] & Hok). exists n1. split_and!; [done| |by apply Hc]. split; [|done].
  unfold log_at. by rewrite Hm.
Qed.
Lemma keeps_Ready : Pres same_db (Ready identity).
Proof. unfold Ready, validateReadinessSnapshot. keeps. apply pres_tick, same_state_db. Qed.
Lemma constrained_Ready : Pres constrained (Ready identity).
Proof. unfold Ready, validateReadinessSnapshot. constrain. apply pres_tick, same_state_constrained. Qed.
Lemma sound_ready n s : sound n s → sound n (rd_Ready (Readiness := store_readiness identity) s).2.
Proof.
  intros Hs. apply (sound_kept _ _ _ (log_kept_keeps _ keeps_Ready) constrained_Ready) in Hs. simpl.
  by destruct (Ready identity s) as [[] ?].
Qed.
Lemma sound_random k n s : sound n s → sound n (rnd_Read k s).2.
Proof.
  intros Hs. simpl. unfold rand_read. destruct (st_rand s) as [|x rest]; [done|]. by destruct (slen x =? k).
Qed.
Lemma sound_exchange conn now clock request n s : sound n s → sound n (exchange conn now clock request s).2.
Proof.
  intros Hs. pose proof (ServeHTTP_cases (DataPlane0 := store_plane identity clock)
    (Readiness0 := store_readiness identity) handler conn now request s) as Hcases. fold (exchange conn now clock request s) in Hcases.
  destruct Hcases as [(r & Hd)|(rid & [[E _]|(_ & _ & _ & E & _)])].
  - destruct Hd as (_ & _ & _ & _ & _ & _ & _ & _ & _ & _ & _ & E). rewrite E. by apply sound_api.
  - apply (f_equal snd) in E. simpl in E. rewrite E.
    destruct (RequestIDOrFallback_state (HeaderValues "Jat-Request-Id" request) s) as [H|H]; rewrite H; [done|by apply sound_random].
  - rewrite E. by apply sound_ready.
Qed.
Lemma sound_step n s s' : system_step s s' → sound n s → sound n s'.
Proof.
  intros [conn now clock request|deviceID token scopes now|now|now|now|faults rand].
  - apply sound_exchange.
  - apply sound_kept; [apply log_kept_CreateDevice|auto with constraints].
  - apply sound_kept; [apply log_kept_StartBoot|auto with constraints].
  - apply sound_kept; [apply log_kept_CreateEnrollmentGrant|auto with constraints].
  - apply sound_kept; [apply log_kept_CheckpointUptime|]. unfold CheckpointUptime. constrain.
  - done.
Qed.

(** C4. The whole server keeps its state sound.  From a database with a contiguous change log and
    satisfied constraints, after any sequence of HTTP exchanges (well-formed or not), baseline
    devices, boots, grants, uptime checkpoints and readiness checks, with any statement failures
    and any random bytes, the log is still contiguous and no shorter, and every CHECK, primary
    key and unique constraint still holds. *)
Theorem system_keeps_sound s s' n (Hlog : change_log_ok (st_db s) n) (Hok : state_ok s) (Hsteps : rtc system_step s s') :
  ∃ n', (n <= n')%nat ∧ change_log_ok (st_db s') n' ∧ state_ok s'.
Proof.
  assert (Hs : sound n s) by by exists n. clear Hlog Hok.
  induction Hsteps as [|s1 s2 s3 Hstep _ IH]; [done|]. apply IH. by eapply sound_step.
Qed.
End system.

(** ** A session *)
Definition sample_handler : HttpHandler := {| h_settings := sample_settings; h_dataPlane := true |}.
(** The request of [Samples.put_call] as it arrives over HTTP. *)
Definition put_request : HttpRequest :=
  {| ProtoMajor := 1; ProtoMinor := 1; HttpMethod := "PUT";
     URL := {| Scheme := ""; UrlPath := "/v1/vault-envelope"; RawPath := ""; RawQuery := ""; ForceQuery := false; Fragment := "" |};
     RequestURI := "/v1/vault-envelope";
     HttpHeader := list_to_map [ ("Jat-Protocol-Version", ["1"]); ("Jat-Request-Id", [RequestID put_call]);
                                 ("Authorization", [Authorization put_call]);
                                 ("Content-Type", ["application/json; charset=utf-8"]) ];
     TransferEncoding := []; Trailer := ∅; ContentLength := slen (Body put_call);
     HttpBodyOf := {| body_bytes := Body put_call; body_fails := false |} |}.
Definition session_start : St := with_tx (st_db enrolled_state) enrolled_state.
Definition put_exchange : HttpReply * St :=
  exchange sample_identity sample_handler NoHijack (at_ms 30) (at_ms 30) put_request session_start.
Example put_exchange_written : match put_exchange.1 with Written status _ _ => status | Raw _ => 0 end = 200.
Proof. vm_compute. reflexivity. Qed.
Lemma system_keeps_sound_witness : ∃ n', (1 <= n')%nat ∧ change_log_ok (st_db (CheckpointUptime (at_ms 90) put_exchange.2).2) n' ∧
  state_ok (CheckpointUptime (at_ms 90) put_exchange.2).2.
Proof.
  apply (system_keeps_sound sample_identity sample_handler session_start).
  - split; [vm_compute; reflexivity|vm_compute; discriminate].
  - split; apply enrolled_ok.
  - eapply rtc_l; [apply (step_exchange _ _ _ NoHijack (at_ms 30) (at_ms 30) put_request)|].
    eapply rtc_l; [apply (step_checkpoint _ _ _ (at_ms 90))|]. apply rtc_refl.
Defined.
Lemma reply_contract_witness : ∃ requestID status body, valid_uuid requestID = true ∧
  v1_reply NoHijack requestID status body put_exchange.1.
Proof.
  destruct (reply_contract (DataPlane0 := store_plane sample_identity (at_ms 30)) (Readiness0 := store_readiness sample_identity)
    sample_handler NoHijack (at_ms 30) put_request session_start) as (requestID & status & body & Hid & _ & Hreply & _).
  exists requestID, status, body. by split.
Defined.
