(* ===== verification/SyncReply.v ===== *)
(** * The page of changes a synchronization reply carries

    [loadChanges] returns the changes after a cursor in order, and the loop of
    handleSync that shortens a reply to the body limit keeps the longest prefix that
    fits. *)

From stdpp Require Import base list strings gmap.
From Stdlib Require Import ZArith Lia Ascii Sorting.Sorted.
From S2P Require Import Prelude GoStd GoTime Auth Api Json Wire Models Vectors Sql Schema Monad Keys SqlFacts Runtime.
From S2P Require Import Receipts Collection Sync Samples Constraints.
Local Open Scope Z_scope.
#[local] Opaque marshalJSON.

(** ** Fitting the body limit *)
Section fitting.
Context (serverCursor envelopeGeneration : Z).
(** The reply that carries the first [k] of the changes. *)
Definition page_cursor (changes : list change) (nextCursor : Z) (k : nat) : Z :=
  if (k =? length changes)%nat then nextCursor
  else default 0 (changes !! pred k ≫= λ c, parseUint64 (chg_Cursor c)).
Definition page_more (changes : list change) (hasMore : bool) (k : nat) : bool :=
  if (k =? length changes)%nat then hasMore else true.
Definition page_body (changes : list change) (nextCursor : Z) (hasMore : bool) (k : nat) : string :=
  marshalJSON (Mk_syncResponse "1" (encodeUint64Text serverCursor) (encodeUint64Text (page_cursor changes nextCursor k))
                 (page_more changes hasMore k) (encodeUint64Text envelopeGeneration) (take k changes)).
Definition fits (body : string) : Prop := slen body <= maxBodyBytes.

Lemma page_body_all changes nextCursor hasMore :
  page_body changes nextCursor hasMore (length changes) =
  marshalJSON (Mk_syncResponse "1" (encodeUint64Text serverCursor) (encodeUint64Text nextCursor) hasMore
                 (encodeUint64Text envelopeGeneration) changes).
Proof. unfold page_body, page_cursor, page_more. by rewrite Nat.eqb_refl, firstn_all. Qed.
(** Pages of the shortened list are pages of the list. *)
Lemma page_cursor_shorter changes x cursor nextCursor k : (1 <= k <= length changes)%nat →
  (last changes ≫= λ c, parseUint64 (chg_Cursor c)) = Some cursor →
  page_cursor changes cursor k = page_cursor (changes ++ [x]) nextCursor k.
Proof.
  intros Hk Hc. unfold page_cursor. rewrite length_app. simpl.
  replace (k =? length changes + 1)%nat with false by (symmetry; apply Nat.eqb_neq; lia).
  rewrite lookup_app_l by lia. destruct (Nat.eqb_spec k (length changes)) as [->|]; [|done].
  by rewrite <- last_lookup, Hc.
Qed.
Lemma page_body_shorter changes x cursor nextCursor hasMore k : (1 <= k <= length changes)%nat →
  (last changes ≫= λ c, parseUint64 (chg_Cursor c)) = Some cursor →
  page_body changes cursor true k = page_body (changes ++ [x]) nextCursor hasMore k.
Proof.
  intros Hk Hc. unfold page_body. rewrite (page_cursor_shorter changes x cursor nextCursor) by done.
  unfold page_more. rewrite length_app. simpl.
  replace (k =? length changes + 1)%nat with false by (symmetry; apply Nat.eqb_neq; lia).
  rewrite take_app_le by lia. by destruct (k =? length changes)%nat.
Qed.

#[local] Opaque page_body.
(** The longest page that fits, or none does. *)
Definition longest_page (changes : list change) (nextCursor : Z) (hasMore : bool) (r : option (string * Z)) : Prop :=
  let page := page_body changes nextCursor hasMore in
  match r with
  | Some (body, cursor) => ∃ k, (k = length changes ∨ 1 <= k < length changes)%nat ∧
      body = page k ∧ cursor = page_cursor changes nextCursor k ∧ fits body ∧
      ∀ j, (k < j <= length changes)%nat → ¬ fits (page j)
  | None => ∀ j, (j = length changes ∨ 1 <= j < length changes)%nat → ¬ fits (page j)
  end.
Lemma fit_response_longest fuel changes : ∀ nextCursor hasMore, (length changes <= fuel)%nat →
  Forall (λ c, is_Some (parseUint64 (chg_Cursor c))) changes →
  longest_page changes nextCursor hasMore (fit_response fuel serverCursor envelopeGeneration changes nextCursor hasMore).
Proof.
  revert changes. induction fuel as [|fuel IH]; intros changes nextCursor hasMore Hfuel Hall.
  - destruct changes; [|simpl in Hfuel; lia]. pose proof (page_body_all [] nextCursor hasMore) as Hpage. simpl in Hpage.
    cbn [fit_response]. rewrite <- Hpage. destruct (Z.leb_spec (slen (page_body [] nextCursor hasMore 0)) maxBodyBytes) as [Hf|Hf].
    + exists 0%nat. unfold fits. split_and!; try done; [by left|]. simpl. lia.
    + simpl. intros j [->|?]; [unfold fits; lia|lia].
  - cbn [fit_response]. rewrite <- page_body_all.
    destruct (Z.leb_spec (slen (page_body changes nextCursor hasMore (length changes))) maxBodyBytes) as [Hf|Hf].
    { exists (length changes). unfold page_cursor. rewrite Nat.eqb_refl. split_and!; try done; [by left|]. lia. }
    destruct (Nat.leb_spec (length changes) 1) as [Hl|Hl].
    { intros j Hj. replace j with (length changes) by lia. unfold fits. lia. }
    destruct changes as [|x changes _] using rev_ind; [simpl in Hl; lia|]. rewrite length_app in *. simpl in *.
    rewrite removelast_last. apply Forall_app in Hall as [Hall _].
    destruct (last changes) as [final|] eqn:Elast; [|apply last_None in Elast; subst; simpl in *; lia].
    assert (Hfin : is_Some (parseUint64 (chg_Cursor final))).
    { rewrite Forall_forall in Hall. by apply Hall, last_Some_elem_of. }
    destruct Hfin as [cursor Hc]. rewrite Hc.
    assert (Hcur : (last changes ≫= λ c, parseUint64 (chg_Cursor c)) = Some cursor) by (by rewrite Elast).
    specialize (IH changes cursor true ltac:(lia) Hall). unfold longest_page in *. rewrite length_app. simpl.
    assert (Hbad : ¬ fits (page_body (changes ++ [x]) nextCursor hasMore (length changes + 1))) by (unfold fits; lia).
    destruct (fit_response _ _ _ _ _ _) as [[body cur]|].
    + destruct IH as (k & Hk & -> & -> & Hfit & Hno). exists k.
      rewrite (page_body_shorter changes x cursor nextCursor hasMore) in * by first [exact Hcur | lia].
      rewrite (page_cursor_shorter changes x cursor nextCursor) by first [exact Hcur | lia]. split_and!; [lia|reflexivity..|exact Hfit|].
      intros j Hj. destruct (decide (j = length changes + 1)%nat) as [->|]; [exact Hbad|].
      rewrite <- (page_body_shorter changes x cursor nextCursor hasMore) by first [exact Hcur | lia]. apply Hno. lia.
    + intros j Hj. destruct (decide (j = length changes + 1)%nat) as [->|]; [exact Hbad|].
      rewrite <- (page_body_shorter changes x cursor nextCursor hasMore) by first [exact Hcur | lia]. apply IH. lia.
Qed.
End fitting.

(** C31. The reply is cut no shorter than necessary: with any fuel that covers the list,
    the loop returns the longest prefix of the changes whose reply fits the body limit,
    with the cursor of its last change, and fails only when no prefix fits. *)
Theorem fit_response_correct fuel serverCursor envelopeGeneration changes nextCursor hasMore
    (Hfuel : (length changes <= fuel)%nat) (Hparse : Forall (λ c, is_Some (parseUint64 (chg_Cursor c))) changes) :
  longest_page serverCursor envelopeGeneration changes nextCursor hasMore
    (fit_response fuel serverCursor envelopeGeneration changes nextCursor hasMore).
Proof. by apply fit_response_longest. Qed.
(** Two changes that fit are both kept. *)
Definition sample_change (cursor : Z) (kind : string) : change :=
  Mk_change (encodeUint64Text cursor) kind (formatTimestamp 0) None None.
Lemma fit_response_correct_witness :
  let changes := [sample_change 7 "device_changed"; sample_change 8 "envelope_changed"] in
  option_map snd (fit_response 2 9 1 changes 8 false) = Some 8 ∧
  longest_page 9 1 changes 8 false (fit_response 2 9 1 changes 8 false).
Proof.
  cbv zeta. split; [vm_compute; reflexivity|]. apply fit_response_correct.
  - simpl. lia.
  - repeat constructor; by eexists.
Defined.

(** ** The changes after a cursor *)
Definition cursor_of (r : changes_row) : Z := default 0 (scan_u64 (ch_cursor r)).
Lemma table_ok_check {R} (ck : R → bool) conflict rows r : table_ok ck conflict rows → r ∈ rows → ck r = true.
Proof. induction 1 as [|x rows Hx Hc Ht IH]; [by intros ?%elem_of_nil|]. intros [->|?]%elem_of_cons; auto. Qed.
Lemma change_cursor d r : db_ok d → r ∈ tb_changes d → ch_cursor r = cell_u64 (cursor_of r) ∧ u64 (cursor_of r).
Proof.
  intros Hok Hr. eapply table_ok_check in Hr; [|apply ok_changes, Hok]. unfold cursor_of.
  assert (Hscan : is_Some (scan_u64 (ch_cursor r))).
  { unfold ck_changes in Hr. rewrite !andb_true_iff in Hr. destruct_and!.
    destruct (ch_cursor r) as [|x|x]; try done. unfold length_is in *. simpl in *. unbool.
    unfold scan_u64. rewrite scan_blob_ok by lia. unfold DecodeUint64. unfold slen in *.
    by replace (String.length x) with 8%nat by lia. }
  destruct Hscan as [c Hc]. rewrite Hc. simpl. by apply scan_u64_Some.
Qed.
Lemma change_unique d r q : db_ok d → r ∈ tb_changes d → q ∈ tb_changes d → cursor_of r = cursor_of q → r = q.
Proof.
  intros Hok Hr Hq E. eapply table_ok_unique; [apply conflict_changes_sym|apply ok_changes, Hok|done|done|].
  destruct (change_cursor _ _ Hok Hr) as [H1 _]. destruct (change_cursor _ _ Hok Hq) as [H2 _].
  unfold conflict_changes. rewrite H1, H2, E. apply cell_eqb_refl. done.
Qed.

(** The cursors after [afterCursor], in order. *)
Definition later_changes (afterCursor : Z) (d : db) : list changes_row :=
  order_by (λ a b, cell_oleb (ch_cursor a) (ch_cursor b)) (select (λ r, cell_ltb (cell_u64 afterCursor) (ch_cursor r)) (tb_changes d)).
Lemma elem_of_later afterCursor d r : db_ok d → u64 afterCursor →
  r ∈ later_changes afterCursor d ↔ r ∈ tb_changes d ∧ afterCursor < cursor_of r.
Proof.
  intros Hok Ha. unfold later_changes. rewrite elem_of_order_by, elem_of_select. split; intros [Hr H]; (split; [done|]);
    destruct (change_cursor _ _ Hok Hr) as [Hc Hu]; rewrite Hc in *; unfold cell_u64 in *; simpl in *;
    rewrite EncodeUint64_sltb in * by done; by apply Z.ltb_lt.
Qed.
Lemma later_sorted afterCursor d : db_ok d → u64 afterCursor → StronglySorted Z.lt (map cursor_of (later_changes afterCursor d)).
Proof.
  intros Hok Ha.
  assert (Hs : StronglySorted (λ a b, cell_oleb (ch_cursor a) (ch_cursor b) = true) (later_changes afterCursor d)).
  { apply (order_by_sorted (λ a b, cell_oleb (ch_cursor a) (ch_cursor b))).
    - intros x y. apply cell_oleb_total.
    - intros x y z. apply cell_oleb_trans. }
  assert (Hnd : NoDup (later_changes afterCursor d)).
  { unfold later_changes. rewrite order_by_perm. unfold select. apply NoDup_ListNoDup, List.NoDup_filter, NoDup_ListNoDup.
    assert (Ht : table_ok ck_changes conflict_changes (tb_changes d)) by apply Hok. clear -Ht.
    induction Ht as [|x rows Hx Hc Ht IH]; constructor; [|done]. intros Hin. specialize (Hc x Hin).
    unfold ck_changes in Hx. rewrite !andb_true_iff in Hx. destruct_and!. unfold conflict_changes in Hc.
    destruct (ch_cursor x); try done. by rewrite cell_eqb_refl in Hc. }
  assert (Hin : ∀ r, r ∈ later_changes afterCursor d → r ∈ tb_changes d) by (intros r; rewrite elem_of_later by done; tauto).
  induction Hs as [|x l Hs IH Hall]; [constructor|]. inversion Hnd as [|? ? Hx Hnd']; subst. simpl. constructor.
  - apply IH; [done|]. intros r Hr. apply Hin. by right.
  - apply Forall_forall. intros c Hc. apply list_elem_of_In, in_map_iff in Hc as (y & <- & Hy). apply list_elem_of_In in Hy.
    rewrite Forall_forall in Hall. specialize (Hall y Hy).
    assert (Hx' : x ∈ tb_changes d) by (apply Hin; left). assert (Hy' : y ∈ tb_changes d) by (apply Hin; by right).
    destruct (change_cursor _ _ Hok Hx') as [Ex Ux]. destruct (change_cursor _ _ Hok Hy') as [Ey Uy].
    rewrite Ex, Ey in Hall. unfold cell_u64 in Hall. simpl in Hall. rewrite EncodeUint64_sleb in Hall by done. apply Z.leb_le in Hall.
    destruct (Z.eq_dec (cursor_of x) (cursor_of y)) as [E|]; [|lia]. apply (change_unique d) in E; [|done..]. by subst.
Qed.

(** A prefix of an increasing list is what its last element bounds. *)
Lemma sorted_prefix afterCursor l m c : StronglySorted Z.lt l → Forall (λ x, afterCursor < x) l → c ∈ l →
  c ∈ take m l ↔ c <= List.last (take m l) afterCursor.
Proof.
  intros Hs. revert m afterCursor. induction Hs as [|x l Hs IH Hall]; intros m a Ha Hc; [by apply elem_of_nil in Hc|].
  inversion Ha as [|? ? Hax Ha']; subst. destruct m as [|m]; simpl take.
  { simpl. split; [by intros ?%elem_of_nil|]. rewrite Forall_forall in Ha. specialize (Ha c Hc). lia. }
  assert (Elast : List.last (x :: take m l) a = List.last (take m l) x).
  { destruct (take m l) as [|y t]; [done|]. clear. simpl. revert y. induction t as [|z t IH]; intros y; [done|]. apply (IH z). }
  rewrite Elast. apply elem_of_cons in Hc as [->|Hc].
  - split; [intros _|by left]. clear -Hall. assert (Hall' := Forall_take _ m _ Hall). revert Hall'.
    generalize (take m l). intros t Ht. destruct (list_eq_nil_dec t) as [->|Hne]; [simpl; lia|].
    rewrite Forall_forall in Ht. enough (x < List.last t x) by lia. apply Ht, list_elem_of_In.
    destruct (exists_last Hne) as (t' & z & ->). rewrite last_last. apply in_app_iff. right. by left.
  - rewrite <- (IH m x Hall Hc). rewrite elem_of_cons. split; [|by right]. intros [->|?]; [|done].
    rewrite Forall_forall in Hall. specialize (Hall x Hc). lia.
Qed.

(** The cursors of the changes [loadChanges] returns. *)
Definition stamped_with (c : change) (cursor : Z) : Prop := chg_Cursor c = encodeUint64Text cursor ∧ u64 cursor.
Lemma map_each_ok {E A B} (f : A → M E B) (R : A → B → Prop) l s k s' :
  (∀ x s1 y s2, f x s1 = (Ok y, s2) → R x y) → map_each f l s = (Ok k, s') → Forall2 R l k.
Proof.
  intros Hf. revert s k s'. induction l as [|x l IH]; intros s k s' H; simpl in H.
  - apply ret_ok in H as [-> _]. constructor.
  - run_as H y s1 H1. run_as H ys s2 H2. apply ret_ok in H as [-> _]. constructor; [by eapply Hf|by eapply IH].
Qed.
Lemma load_change_cursor item s c s' : load_change item s = (Ok c, s') → chg_Cursor c = encodeUint64Text (sc_cursor item).
Proof.
  unfold load_change. intros H. case_match.
  - run H. run H. run_as H ro s3 H3. destruct ro. run H. by apply ret_ok in H as [-> _].
  - case_match; [run H|]; by apply ret_ok in H as [-> _].
Qed.
Lemma scan_change_cursor r item : scan_change r = Some item → scan_u64 (ch_cursor r) = Some (sc_cursor item).
Proof. unfold scan_change. intros H. repeat (case_match_in H; try discriminate H). by injection H as <-. Qed.

Lemma loadChanges_Ok afterCursor s changes nextCursor hasMore s' :
  loadChanges afterCursor s = (Ok (changes, nextCursor, hasMore), s') →
  let cursors := map cursor_of (later_changes afterCursor (st_tx s)) in
  Forall2 stamped_with changes (take maxChanges cursors) ∧ nextCursor = List.last (take maxChanges cursors) afterCursor ∧
  hasMore = (maxChanges <? length cursors)%nat ∧ st_tx s' = st_tx s.
Proof.
  intros H. pose proof (pres_run _ _ _ _ _ (reads_loadChanges afterCursor) H) as (_ & Etx & _). unfold loadChanges in H. cbv zeta.
  run_as H rows s1 H1. apply query_ok in H1 as (-> & _). run_as H stored s2 H2. apply from_option_ok in H2 as [Hm ->].
  run_as H loaded s3 H3. apply (map_each_ok _ (λ item c, chg_Cursor c = encodeUint64Text (sc_cursor item))) in H3;
    [|intros; by eapply load_change_cursor]. apply ret_ok in H as [[= -> -> ->] ->].
  unfold change_rows in Hm. fold (later_changes afterCursor (st_tx s)) in Hm. apply mapM_opt_Some in Hm.
  set (L := later_changes afterCursor (st_tx s)) in *.
  assert (Hcur : map sc_cursor stored = map cursor_of (take (maxChanges + 1) L) ∧ Forall u64 (map sc_cursor stored)).
  { clear -Hm. induction Hm as [|r item l k Hr Hl IH]; [done|]. simpl. apply scan_change_cursor in Hr.
    unfold cursor_of at 1. rewrite Hr. simpl. destruct IH as [-> IH]. split; [done|]. constructor; [|done].
    by apply scan_u64_Some in Hr as [_ ?]. }
  destruct Hcur as [Hcur Hu].
  assert (Htake : map sc_cursor (take maxChanges stored) = take maxChanges (map cursor_of L)).
  { rewrite <- !firstn_map, Hcur, <- firstn_map, take_take. f_equal. }
  split_and!; [| | |done].
  - rewrite <- Htake. rewrite <- firstn_map in *. clear -H3 Hu. revert loaded H3. generalize maxChanges. intros n.
    revert n. induction stored as [|x stored IH]; intros [|n] loaded H3; inversion H3; subst; simpl; constructor.
    + split; [done|]. by inversion Hu.
    + apply IH; [by inversion Hu|done].
  - by rewrite Htake.
  - apply (f_equal length) in Hcur. rewrite !length_map, length_take in *. rewrite Hcur.
    apply Bool.eq_iff_eq_true. rewrite !Nat.ltb_lt. lia.
Qed.

(** A page of changes: the cursors it carries are increasing, and are exactly those of
    the stored changes after [afterCursor] up to [nextCursor]; when it claims to be the
    last, no stored change lies beyond. *)
Record page_exact (afterCursor nextCursor : Z) (hasMore : bool) (cursors : list Z) (d : db) : Prop := {
  pe_increasing : StronglySorted Z.lt cursors;
  pe_exact : ∀ c, c ∈ cursors ↔ ∃ r, r ∈ tb_changes d ∧ cursor_of r = c ∧ afterCursor < c <= nextCursor;
  pe_last : hasMore = false → ∀ r, r ∈ tb_changes d → afterCursor < cursor_of r → cursor_of r <= nextCursor }.
Lemma prefix_exact afterCursor d m hasMore : db_ok d → u64 afterCursor →
  let l := map cursor_of (later_changes afterCursor d) in
  (hasMore = false → take m l = l) → page_exact afterCursor (List.last (take m l) afterCursor) hasMore (take m l) d.
Proof.
  intros Hok Ha. cbv zeta. set (l := map _ _). intros Hmore.
  assert (Hs : StronglySorted Z.lt l) by (by apply later_sorted).
  assert (Hl : ∀ c, c ∈ l ↔ ∃ r, r ∈ tb_changes d ∧ cursor_of r = c ∧ afterCursor < c).
  { intros c. unfold l. rewrite list_elem_of_In, in_map_iff. setoid_rewrite <- list_elem_of_In. setoid_rewrite elem_of_later; [|done..].
    split; [intros (r & <- & ? & ?)|intros (r & ? & <- & ?)]; exists r; done. }
  assert (Hab : Forall (λ x, afterCursor < x) l) by (apply Forall_forall; intros c (r & _ & _ & ?)%Hl; done).
  split.
  - by apply StronglySorted_take.
  - intros c. split.
    + intros Hc. assert (Hin : c ∈ l) by (rewrite <- (take_drop m l); apply elem_of_app; by left). apply (sorted_prefix _ _ m _ Hs Hab Hin) in Hc.
      apply Hl in Hin as (r & ? & ? & ?). eauto 10 with lia.
    + intros (r & Hr & <- & H1 & H2). apply (sorted_prefix afterCursor); [done|done| |done]. apply Hl. eauto.
  - intros ->%Hmore r Hr Hlt. assert (Hin : cursor_of r ∈ l) by (apply Hl; eauto).
    rewrite <- (firstn_all l). apply (sorted_prefix afterCursor l (length l) _ Hs Hab Hin). by rewrite firstn_all.
Qed.

(** The page that is left after the reply is cut. *)
Lemma page_cut serverCursor envelopeGeneration afterCursor d changes nextCursor hasMore body cursor :
  let l := map cursor_of (later_changes afterCursor d) in
  Forall2 stamped_with changes (take maxChanges l) → nextCursor = List.last (take maxChanges l) afterCursor →
  hasMore = (maxChanges <? length l)%nat →
  fit_response (length changes) serverCursor envelopeGeneration changes nextCursor hasMore = Some (body, cursor) →
  ∃ m page more, Forall2 stamped_with page (take m l) ∧ cursor = List.last (take m l) afterCursor ∧
    (more = false → take m l = l) ∧ fits body ∧
    body = marshalJSON (Mk_syncResponse "1" (encodeUint64Text serverCursor) (encodeUint64Text cursor) more
                          (encodeUint64Text envelopeGeneration) page).
Proof.
  cbv zeta. set (l := map _ _). intros Hch -> -> Hfit.
  pose proof (fit_response_longest serverCursor envelopeGeneration (length changes) changes
                (List.last (take maxChanges l) afterCursor) (maxChanges <? length l)%nat (Nat.le_refl _)) as Hp.
  rewrite Hfit in Hp. destruct Hp as (k & Hk & -> & -> & Hbody & _).
  { clear -Hch. induction Hch as [|c x cs xs [Hc Hx] _ IH]; constructor; [|done]. rewrite Hc, parseUint64_encode by done. done. }
  pose proof (Forall2_length _ _ _ Hch) as Hlen. rewrite length_take in Hlen.
  exists (if (k =? length changes)%nat then maxChanges else k), (take k changes), (page_more changes (maxChanges <? length l)%nat k).
  split_and!; [| | |exact Hbody|reflexivity].
  - destruct (Nat.eqb_spec k (length changes)) as [->|Hne]; [by rewrite firstn_all|].
    replace (take k l) with (take k (take maxChanges l)) by (rewrite take_take; f_equal; lia). by apply Forall2_take.
  - unfold page_cursor. destruct (Nat.eqb_spec k (length changes)) as [->|Hne]; [done|].
    assert (Hlk : is_Some (changes !! pred k)) by (apply lookup_lt_is_Some_2; lia). destruct Hlk as [c Hc]. rewrite Hc. simpl.
    eapply Forall2_lookup_l in Hch as (x & Hx & Hcx & Hux); [|exact Hc]. rewrite Hcx, parseUint64_encode by done. simpl.
    rewrite lookup_take_lt in Hx by lia. replace k with (S (pred k)) by lia. rewrite (take_S_r l (pred k) x) by done. by rewrite last_last.
  - unfold page_more. destruct (Nat.eqb_spec k (length changes)) as [->|Hne]; [|done]. intros Hm%Nat.ltb_ge. by rewrite take_ge.
Qed.


(** The three changes of the sample history. *)
Definition reply_start : St := with_tx (st_db synced_state) synced_state.
Definition sample_sync_reply : Handler Response := sync_reply sample_device (at_ms 60) 60 3 0 1 3.
Definition reply_body : string := Eval vm_compute in
  match (sample_sync_reply reply_start).1 with Ok r => RBody r | Err _ => "" end.
Lemma synced_ok : db_ok (st_db synced_state).
Proof. split; table_by_computation. Qed.
