(* ===== verification/EnrollmentProps.v ===== *)
(** * Enrollment: grants are used once, attempts are limited

    Theorems about [enrollment.go]: what a successful enrollment changes, that a
    consumed grant admits nothing, and that the attempt limiter bounds every window. *)

From stdpp Require Import base list strings gmap.
From Stdlib Require Import ZArith Lia Ascii Sorting.Sorted.
From S2P Require Import Prelude GoStd GoTime Auth Api Json Wire Models Sql Schema Monad Keys SqlFacts Runtime.
From S2P Require Import Receipts Devices Enrollment Samples Constraints.
Local Open Scope Z_scope.

(** ** The attempt limiter *)
(** The attempts that are admitted, one call after the other. *)
Fixpoint admit_all (times : list gotime) (s : St) : list gotime :=
  match times with
  | [] => []
  | t :: rest =>
      let '(r, s') := admitEnrollmentAttempt t s in
      (match r with Ok _ => [t] | Err _ => [] end) ++ admit_all rest s'
  end.
(** The attempts in the minute that ends at [upto]. *)
Definition in_minute (upto : Z) (l : list gotime) : list gotime :=
  List.filter (λ t, (upto - Minute <? mono t) && (mono t <=? upto)) l.
Definition limited (l : list gotime) : Prop := ∀ upto, (length (in_minute upto l) <= 5)%nat.

(** The memory of the limiter, after an attempt at [now], against the admitted list. *)
Record limiter (admitted : list gotime) (now : Z) (s : St) : Prop := {
  lm_booted : booted (st_eph s) = true;
  lm_memory : enrollmentAttempts (st_eph s) = List.filter (λ t, now - Minute <? mono t) admitted;
  lm_past : Forall (λ t, mono t <= now) admitted;
  lm_limited : limited admitted }.
Lemma minute_positive : 0 < Minute.
Proof. reflexivity. Qed.
Lemma recent_again now t admitted : now <= mono t →
  recent_attempts t (List.filter (λ a, now - Minute <? mono a) admitted)
  = List.filter (λ a, mono t - Minute <? mono a) admitted.
Proof.
  intros Hle. unfold recent_attempts, After, Add. cbn [mono].
  induction admitted as [|a l IH]; [done|]. simpl. destruct (Z.ltb_spec (now - Minute) (mono a)); simpl;
    destruct (Z.ltb_spec (mono t + - Minute) (mono a)), (Z.ltb_spec (mono t - Minute) (mono a)); simpl; rewrite ?IH; done || lia.
Qed.
Lemma limited_snoc admitted t : Forall (λ a, mono a <= mono t) admitted → limited admitted →
  (length (List.filter (λ a, (mono t - Minute <? mono a)%Z) admitted) < 5)%nat → limited (admitted ++ [t]).
Proof.
  intros Hpast Hlim Hlen upto. unfold in_minute. rewrite List.filter_app, length_app. simpl.
  destruct ((upto - Minute <? mono t) && (mono t <=? upto)) eqn:E.
  - unbool. simpl. enough (length (List.filter (λ a, ((upto - Minute <? mono a) && (mono a <=? upto))%Z) admitted)
      <= length (List.filter (λ a, (mono t - Minute <? mono a)%Z) admitted))%nat by lia.
    clear -H H0. induction admitted as [|a l IH]; simpl; [lia|].
    destruct (Z.ltb_spec (upto - Minute) (mono a)), (Z.leb_spec (mono a) upto), (Z.ltb_spec (mono t - Minute) (mono a)); simpl; lia.
  - simpl. rewrite Nat.add_0_r. apply Hlim.
Qed.
Lemma limiter_step admitted now t s : limiter admitted now s → now <= mono t →
  let '(r, s') := admitEnrollmentAttempt t s in
  limiter (admitted ++ match r with Ok _ => [t] | Err _ => [] end) (mono t) s'.
Proof.
  intros [Hb Hm Hp Hl] Hle. unfold admitEnrollmentAttempt, get_eph, set_eph, ensure, throw, mbind, M_bind, mret, M_ret.
  rewrite Hb. cbn [st_eph]. rewrite Hm, recent_again by done.
  assert (Hp' : Forall (λ a, mono a <= mono t) admitted) by (eapply Forall_impl; [exact Hp|]; simpl; intros; lia).
  destruct (Nat.ltb_spec (length (List.filter (λ a, mono t - Minute <? mono a) admitted)) 5) as [Hlt|Hge].
  - split; simpl; [done| | |].
    + rewrite List.filter_app. cbn [List.filter].
      replace (mono t - Minute <? mono t) with true; [done|]. symmetry. apply Z.ltb_lt. pose proof minute_positive. lia.
    + apply Forall_app. split; [done|]. constructor; [lia|constructor].
    + by apply limited_snoc.
  - rewrite app_nil_r. split; done.
Qed.
Lemma admit_all_limited times : ∀ admitted now s, limiter admitted now s →
  StronglySorted (λ a b, mono a <= mono b) times → Forall (λ t, now <= mono t) times → limited (admitted ++ admit_all times s).
Proof.
  induction times as [|t times IH]; intros admitted now s Hs Hsort Hnow; simpl; [rewrite app_nil_r; apply Hs|].
  inversion Hsort as [|? ? Hsort' Hall]; subst. inversion Hnow; subst.
  pose proof (limiter_step admitted now t s Hs ltac:(done)) as Hstep. destruct (admitEnrollmentAttempt t s) as [r s'].
  rewrite app_assoc. by eapply IH.
Qed.

(** C26. The enrollment limiter admits at most five attempts in any minute: over any
    sequence of attempts in the order of the monotonic clock, from a booted store
    without earlier attempts, no window of one minute contains more than five admitted
    ones. *)
Theorem enrollment_attempts_limited times s
    (Hboot : booted (st_eph s) = true) (Hfirst : enrollmentAttempts (st_eph s) = [])
    (Hsort : StronglySorted (λ a b, mono a <= mono b) times) :
  limited (admit_all times s).
Proof.
  destruct times as [|t times]; [intros upto; simpl; lia|]. inversion Hsort as [|? ? Hs Hall]; subst.
  apply (admit_all_limited (t :: times) [] (mono t) s); [|done|by constructor].
  split; [done|done|constructor|]. intros upto. simpl. lia.
Qed.
(** Seven attempts: five are admitted, the sixth is refused, and the seventh, a minute
    after the first, is admitted again. *)
Lemma enrollment_attempts_limited_witness :
  let close := map at_ms [0; 1; 2; 3; 4; 5; 60000] in
  length (admit_all close booted_state) = 6%nat ∧ limited (admit_all close booted_state).
Proof.
  cbv zeta. split; [vm_compute; reflexivity|]. apply enrollment_attempts_limited; [reflexivity|reflexivity|].
  repeat constructor; vm_compute; discriminate.
Defined.

(** ** Grants *)
Definition grant_is (hash : string) (r : enrollment_grants_row) : Prop := eg_grant_hash r = CBlob hash.
Lemma last_such_Some {A} (p : A → bool) l x : last_such p l = Some x → x ∈ l ∧ p x = true.
Proof. unfold last_such. intros [H1 H2]%find_some. split; [|done]. by apply list_elem_of_In, in_rev. Qed.
Lemma scan_opt_uuid_None c : scan_opt_uuid c = Some None → c = CNull.
Proof.
  unfold scan_opt_uuid, scan_opt_text, boundedOptionalText. destruct c; [done|..]; cbn [octet_length]; intros H; repeat (case_match_in H; try discriminate H);
    by (match goal with E : boundedRequiredText _ None _ && _ = true |- _ => apply andb_true_iff in E as [E _]; unfold boundedRequiredText in E; rewrite ?andb_false_r in E end).
Qed.
(** A presented grant that is accepted: a row of this boot and a deadline ahead. *)
Lemma lookupGrant_Ok presented now s consumed s' : lookupGrant presented now s = (Ok consumed, s') →
  (∃ r, r ∈ tb_enrollment_grants (st_tx s) ∧ grant_is presented r ∧ eg_boot_id r = CBlob (bootID (st_eph s)) ∧
        scan_opt_uuid (eg_consumed_enrollment_id r) = Some consumed) ∧
  ∃ g, g ∈ grantDeadlines (st_eph s) ∧ gd_hash g = presented ∧ Before now (gd_deadline g) = true.
Proof.
  unfold lookupGrant. intros H. run_as H eph s0 H0. injection H0 as <- <-. run_as H u1 s1 H1. apply ensure_ok in H1 as [_ ->].
  run_as H rows s2 H2. apply query_ok in H2 as (-> & _). run_as H grants s3 H3. apply from_option_ok in H3 as [Hm ->].
  run_as H found s4 H4. destruct found as [hash c]. apply from_option_ok in H4 as [Hfound ->].
  run_as H g s5 H5. apply from_option_ok in H5 as [Hdead ->]. run_as H u6 s6 H6. apply ensure_ok in H6 as [Hbefore ->].
  apply ret_ok in H as [-> _]. apply last_such_Some in Hfound as [Hin Hh%VerifyHash_iff]. apply last_such_Some in Hdead as [Hg Hgh%VerifyHash_iff].
  simpl in Hh. split; [|by exists g]. apply mapM_opt_Some in Hm.
  apply list_elem_of_lookup in Hin as [i Hi]. eapply Forall2_lookup_r in Hm as (r & Hr & Hscan); [|exact Hi].
  apply list_elem_of_lookup_2, elem_of_order_by, elem_of_select in Hr as [Hr Hboot%cell_eqb_true].
  unfold scan_grant in Hscan. destruct (scan_blob 32 32 _) as [b|] eqn:Eb; [|done]. apply scan_blob_Some in Eb as [Eb _].
  destruct (scan_opt_uuid _) as [c'|] eqn:Ec; [|done]. injection Hscan as -> ->. exists r. subst. done.
Qed.

(** The request a call carries, with the hash of the token it brings and of the grant
    it presents. *)
Definition presented (identity : Identity) (call : Request) (request : enrollmentRequest) (tokenHash grantHash : string) : Prop :=
  decodeStrictAs enrollmentRequest (Body call) = Some request ∧
  (∃ token, validateEnrollmentRequest request = Some token ∧
            DeviceTokenHash (InstanceID identity) (VaultID identity) (er_DeviceID request) token = Some tokenHash) ∧
  ∃ grant, parseAuthorization (Authorization call) "JAT-Enrollment" = Some grant ∧
           EnrollmentGrantHash (InstanceID identity) (VaultID identity) grant = Some grantHash.
(** The grant is unconsumed, of this boot, and its deadline is ahead. *)
Definition grant_live (hash : string) (now : gotime) (e : ephemeralState) (d : db) : Prop :=
  (∃ r, r ∈ tb_enrollment_grants d ∧ grant_is hash r ∧ eg_boot_id r = CBlob (bootID e) ∧ eg_consumed_enrollment_id r = CNull) ∧
  ∃ g, g ∈ grantDeadlines e ∧ gd_hash g = hash ∧ Before now (gd_deadline g) = true.
Definition grant_consumed (hash enrollmentID : string) (d : db) : Prop :=
  ∀ r, r ∈ tb_enrollment_grants d → grant_is hash r → eg_consumed_enrollment_id r = CText enrollmentID.

Lemma consume_grant_consumes enrollmentID hash d d' : consume_grant enrollmentID hash d = Some d' →
  grant_consumed hash enrollmentID d' ∧ tb_devices d' = tb_devices d.
Proof.
  unfold consume_grant, update_enrollment_grants. destruct (update_rows _ _ _ _ _ _) as [rows|] eqn:E; [|done]. intros [= <-].
  apply update_rows_map in E as ->. split; [|done]. intros r Hr Hh. simpl in Hr.
  apply list_elem_of_In, in_map_iff in Hr as (q & <- & Hq). unfold grant_is in Hh.
  destruct (cell_eqb (eg_grant_hash q) (CBlob hash)) eqn:E; [done|]. rewrite Hh in E. simpl in E. by rewrite String.eqb_refl in E.
Qed.
(** The device an enrollment creates. *)
Definition enrolled_row (request : enrollmentRequest) (tokenHash : string) (now : gotime) : devices_row :=
  Mk_devices (CText (er_DeviceID request)) (CBlob tokenHash) (CText wantScopes) (UnixMilli now) None None (cell_u64 0) (cell_u64 0).

Definition grants_and_devices (d : db) : list enrollment_grants_row * list devices_row := (tb_enrollment_grants d, tb_devices d).
Lemma framed_enrolled_change a b c d e f g h : Pres (same_of grants_and_devices) (insertChange a b c d e f g h).
Proof. framed_helpers. Qed.
Lemma framed_enrolled_cursor a : Pres (same_of grants_and_devices) (setServerCursor a).
Proof. framed_helpers. Qed.
Lemma enrollment_write_Ok identity request tokenHash grantHash fingerprint now activeCount newCursor envelopeGeneration s r s' :
  enrollment_write identity request tokenHash grantHash fingerprint now activeCount newCursor envelopeGeneration s = (Ok r, s') →
  grant_consumed grantHash (er_EnrollmentID request) (st_db s') ∧
  tb_devices (st_db s') = tb_devices (st_tx s) ++ [enrolled_row request tokenHash now].
Proof.
  unfold enrollment_write. intros H. run_as H u1 s1 H1. apply exec_ok in H1 as (H1 & _). unfold insert_devices in H1.
  destruct (insert_row _ _ _ _) as [rows|] eqn:E1; [|done]. apply insert_row_Some in E1 as (-> & _). injection H1 as H1.
  run_as H u2 s2 H2. framing H2 grants_and_devices. run_as H u3 s3 H3. framing H3 grants_and_devices.
  run_as H u4 s4 H4. framing H4 grants_and_devices. run_as H u5 s5 H5. apply exec_ok in H5 as (H5 & _).
  apply consume_grant_consumes in H5 as [Hc Hd]. run_as H u6 s6 H6. apply (pres_run _ _ _ _ _ (framed_enrolled_change _ _ _ _ _ _ _ _)) in H6.
  run_as H u7 s7 H7. apply (pres_run _ _ _ _ _ (framed_enrolled_cursor _)) in H7.
  run_as H u8 s8 H8. apply commit_ok in H8 as (H8 & _). apply ret_ok in H as [_ ->].
  unfold same_of, grants_and_devices in H2, H3, H4, H6, H7. simplify_eq. unfold grant_consumed. rewrite H8. split.
  - intros q Hq. apply Hc. congruence.
  - transitivity (tb_devices (st_tx s5)); [congruence|]. rewrite Hd. transitivity (tb_devices (st_tx s1)); [congruence|].
    by rewrite <- H1.
Qed.
Lemma framed_attempt now : Pres (same_of id) (admitEnrollmentAttempt now).
Proof. unfold admitEnrollmentAttempt. framed. Qed.
Lemma enrollment_admit_Ok request tokenHash now s n s' : enrollment_admit request tokenHash now s = (Ok n, s') →
  st_tx s' = st_tx s ∧ (length (tb_devices (st_tx s)) < 64)%nat.
Proof.
  unfold enrollment_admit. intros H.
  run_as H c s1 H1. reading H1. destruct H1 as (_ & E1 & _). run_as H u2 s2 H2. apply ensure_ok in H2 as [_ ->].
  run_as H k s3 H3. reading H3. destruct H3 as (_ & E3 & _). run_as H u4 s4 H4. apply ensure_ok in H4 as [_ ->].
  run_as H u5 s5 H5. apply (pres_run _ _ _ _ _ (framed_attempt now)) in H5. unfold same_of, id in H5.
  run_as H counted s6 H6. apply query_ok in H6 as (-> & E6 & _). run_as H u7 s7 H7. apply ensure_ok in H7 as [_ ->].
  run_as H u8 s8 H8. apply ensure_ok in H8 as [Hlen ->]. apply ret_ok in H as [_ ->].
  apply Nat.ltb_lt in Hlen. rewrite length_take in Hlen. rewrite <- E1, <- E3, <- H5. split; [done|lia].
Qed.
Lemma enrollment_cases identity call s r s' : handleEnrollment identity call s = (Ok r, s') →
  ∃ request tokenHash grantHash, presented identity call request tokenHash grantHash ∧
  (st_db s' = st_db s ∨
   grant_live grantHash (Now call) (st_eph s) (st_db s) ∧
   grant_consumed grantHash (er_EnrollmentID request) (st_db s') ∧
   (tb_devices (st_db s') = tb_devices (st_db s) ∨
    (length (tb_devices (st_db s)) < 64)%nat ∧
    tb_devices (st_db s') = tb_devices (st_db s) ++ [enrolled_row request tokenHash (Now call)])).
Proof.
  unfold handleEnrollment. intros H. run_as H request s1 H1. apply from_option_ok in H1 as [Hreq ->].
  run_as H token s2 H2. apply from_option_ok in H2 as [Htok ->]. run_as H grant s3 H3. apply from_option_ok in H3 as [Hgr ->].
  run_as H grantHash s4 H4. apply from_option_ok in H4 as [Hgh ->]. run_as H tokenHash s5 H5. apply from_option_ok in H5 as [Hth ->].
  run_as H fingerprint s6 H6. apply from_option_ok in H6 as [_ ->]. run_as H u7 s7 HP. apply held_begin in HP.
  exists request, tokenHash, grantHash. split; [split; [done|]; split; eauto|].
  pose proof HP as (_ & E7 & E7'). pass_as HP H consumed s8 H8. apply lookupGrant_Ok in H8 as [(row & Hrow & Hgi & Hboot & Hscan) Hdead].
  rewrite E7, E7' in *. destruct consumed as [consumed|].
  { left. do 2 pass HP H. apply ret_ok in H as [_ ->]. apply HP. }
  apply scan_opt_uuid_None in Hscan. right. split; [split; eauto 10|].
  pass_as HP H replay s9 H9. destruct HP as (E9 & E9' & _). destruct replay as [response|].
  - run_as H u10 s10 H10. apply exec_ok in H10 as (H10 & _). apply consume_grant_consumes in H10 as [Hc Hd].
    run_as H u11 s11 H11. apply commit_ok in H11 as (H11 & _). apply ret_ok in H as [_ ->]. rewrite H11.
    split; [done|]. left. congruence.
  - run_as H n s10 H10. apply enrollment_admit_Ok in H10 as [E10 Hlen].
    run_as H c s11 H11. reading H11. destruct H11 as (_ & E11 & _). run_as H st s12 H12. reading H12. destruct H12 as (_ & E12 & _).
    destruct st as [[[cursor generation] secret] k]. apply enrollment_write_Ok in H as [Hc Hd].
    split; [done|]. right. rewrite Hd. split; [congruence|]. congruence.
Qed.

(** C25. What an enrollment does: a successful enrollment that changes the database was
    made with a grant of the running boot that was unconsumed and before its deadline;
    the grant is consumed by it; and at most one device is added, the requested one
    with the hash of the presented token, to fewer than sixty-four. *)
Theorem enrollment_admits_once identity call s r s' (Hrun : handleEnrollment identity call s = (Ok r, s')) :
  ∃ request tokenHash grantHash, presented identity call request tokenHash grantHash ∧
  (st_db s' = st_db s ∨
   grant_live grantHash (Now call) (st_eph s) (st_db s) ∧
   grant_consumed grantHash (er_EnrollmentID request) (st_db s') ∧
   (tb_devices (st_db s') = tb_devices (st_db s) ∨
    (length (tb_devices (st_db s)) < 64)%nat ∧
    tb_devices (st_db s') = tb_devices (st_db s) ++ [enrolled_row request tokenHash (Now call)])).
Proof. by eapply enrollment_cases. Qed.
Definition enrollment_body : string := Eval vm_compute in
  match (handleEnrollment sample_identity enroll_call granted_state).1 with Ok r => RBody r | Err _ => "" end.
Lemma enrollment_admits_once_witness :
  ∃ request tokenHash grantHash, presented sample_identity enroll_call request tokenHash grantHash ∧
  (st_db enrolled_state = st_db granted_state ∨
   grant_live grantHash (at_ms 20) (st_eph granted_state) (st_db granted_state) ∧
   grant_consumed grantHash (er_EnrollmentID request) (st_db enrolled_state) ∧
   (tb_devices (st_db enrolled_state) = tb_devices (st_db granted_state) ∨
    (length (tb_devices (st_db granted_state)) < 64)%nat ∧
    tb_devices (st_db enrolled_state) = tb_devices (st_db granted_state) ++ [enrolled_row request tokenHash (at_ms 20)])).
Proof.
  apply (enrollment_admits_once sample_identity enroll_call granted_state (ok_response 201 enrollment_body) enrolled_state).
  vm_compute. reflexivity.
Defined.

(** A grant admits one device: presenting a grant whose rows are all consumed never
    changes the database, whatever is requested with it. *)
Theorem consumed_grant_admits_nothing identity call request tokenHash grantHash s r s'
    (Hcall : presented identity call request tokenHash grantHash)
    (Hconsumed : ∀ row, row ∈ tb_enrollment_grants (st_db s) → grant_is grantHash row → eg_consumed_enrollment_id row ≠ CNull)
    (Hrun : handleEnrollment identity call s = (r, s')) :
  st_db s' = st_db s.
Proof.
  destruct r as [r|e]; [|by eapply atomic_handleEnrollment].
  apply enrollment_cases in Hrun as (request' & th & gh & Hp & [?|([(row & Hr & Hg & _ & Hn) _] & _)]); [done|]. exfalso.
  destruct Hcall as (_ & _ & g1 & H1 & H2). destruct Hp as (_ & _ & g2 & H3 & H4). simplify_eq. by eapply Hconsumed.
Qed.
(** A second device presents the grant the first one used. *)
Definition second_call : Request :=
  call_of "POST" "/v1/enrollments" (id_of "3") ("JAT-Enrollment " +:+ encodeBase64 sample_grant)
    (marshalJSON (Mk_enrollmentRequest "1" (id_of "5") (id_of "c") (encodeBase64 (of_bytes (repeat 16 32))) FixedScopes)) 30.
Definition second_token_hash : string := Eval vm_compute in
  default "" (DeviceTokenHash (id_of "1") (id_of "2") (id_of "c") (of_bytes (repeat 16 32))).
Definition sample_grant_hash : string := Eval vm_compute in default "" (EnrollmentGrantHash (id_of "1") (id_of "2") sample_grant).
Lemma consumed_grant_admits_nothing_witness :
  outcome Status (handleEnrollment sample_identity second_call enrolled_state).1 = inr "enrollment_replay_mismatch" ∧
  st_db (after (handleEnrollment sample_identity second_call) enrolled_state) = st_db enrolled_state.
Proof.
  split; [vm_compute; reflexivity|].
  apply (consumed_grant_admits_nothing sample_identity second_call
    (Mk_enrollmentRequest "1" (id_of "5") (id_of "c") (encodeBase64 (of_bytes (repeat 16 32))) FixedScopes)
    second_token_hash sample_grant_hash enrolled_state (handleEnrollment sample_identity second_call enrolled_state).1).
  - split; [vm_compute; reflexivity|]. split.
    + exists (of_bytes (repeat 16 32)). split; vm_compute; reflexivity.
    + exists sample_grant. split; vm_compute; reflexivity.
  - intros row Hrow _. repeat (apply elem_of_cons in Hrow as [->|Hrow]; [vm_compute; discriminate|]). by apply elem_of_nil in Hrow.
  - apply surjective_pairing.
Defined.
