(* ===== verification/CollectionProps.v ===== *)
(** * Collection: only what is old, acknowledged and covered; uptime

    Theorems about [collection.go]: what the pure selection guarantees, and what a
    pass over a record removes. *)

From stdpp Require Import base list strings gmap.
From Stdlib Require Import ZArith Lia Ascii.
From S2P Require Import Prelude GoStd GoTime Uuid Auth Api Json JsonFacts Wire Models Vectors Sql Schema Monad Keys SqlFacts.
From S2P Require Import Runtime Receipts Persist Collection Sync Samples Accepted Constraints SyncProps Frontier.
Local Open Scope Z_scope.

(** ** Selection *)
Definition covers (frontier : version_vector) (frontierID : string) (c : collectionRevision) : Prop :=
  vectorDominates frontier (vector c) = true ∨ revisionID c = frontierID ∧ vectorsEqual (vector c) frontier = true ∧ tombstone c = true.
Lemma covers_vle frontier id c : positive frontier → positive (vector c) → covers frontier id c → vle (vector c) frontier.
Proof.
  intros Hf Hc [H|(_ & H & _)].
  - apply vectorDominates_positive in H as [? _]; done.
  - by apply vectorsEqual_eq in H as ->.
Qed.
Lemma dominates_others_spec v index heads : dominates_others v index heads = true →
  ∀ i h, heads !! i = Some h → i ≠ index → vectorDominates v (vector h) = true.
Proof.
  revert index. induction heads as [|x heads IH]; intros index H i h Hi Hne; [done|]. destruct index as [|index]; simpl in H.
  - destruct i as [|i]; [done|]. rewrite forallb_forall in H. by eapply H, list_elem_of_In, list_elem_of_lookup_2.
  - apply andb_true_iff in H as [H1 H2]. destruct i as [|i]; [by injection Hi as <-|]. eapply IH; [exact H2|exact Hi|lia].
Qed.
(** The witness a marker may advance to. *)
Record advances (heads : list collectionRevision) (marker : option storedCollectionMarker) (w : collectionRevision) : Prop := {
  av_index : ∃ i, heads !! i = Some w ∧ ∀ j h, heads !! j = Some h → j ≠ i → vectorDominates (vector w) (vector h) = true;
  av_authenticated : ∃ a, authenticator w = Some a ∧ slen a = 32;
  av_marker : ∀ m, marker = Some m → vectorDominates (vector w) (sm_frontier m) = true }.
Lemma advancing_witness_Some all todo index marker w : advancing_witness_from index all todo marker = Some w →
  (∀ j, todo !! j = all !! (index + j)%nat) → advances all marker w.
Proof.
  revert index. induction todo as [|x todo IH]; intros index H Hall; [done|]. simpl in H. case_match.
  - injection H as ->. apply andb_true_iff in H0 as [[Ha Hm]%andb_true_iff Hd]. split.
    + exists index. split; [by rewrite <- (Nat.add_0_r index), <- (Hall 0%nat)|]. intros j h Hj Hne. by eapply dominates_others_spec.
    + unfold authenticated_head in Ha. destruct (authenticator w) as [a|]; [|done]. exists a. by apply Z.eqb_eq in Ha.
    + intros m ->. done.
  - eapply IH; [exact H|]. intros j. specialize (Hall (S j)). simpl in Hall. rewrite Hall. f_equal. lia.
Qed.
Lemma witness_covered revisions w c : c ∈ selectWitnessCoveredCandidates revisions (Some w) →
  c ∈ revisions ∧ (vectorDominates (vector w) (vector c) = true ∨
    revisionID c = revisionID w ∧ vectorsEqual (vector c) (vector w) = true ∧ tombstone w = true).
Proof.
  simpl. rewrite list_elem_of_In, filter_In, <- list_elem_of_In. intros [Hc H]. split; [done|].
  destruct (String.eqb (revisionID c) (revisionID w) && vectorsEqual (vector c) (vector w)) eqn:E; [|by left].
  right. apply andb_true_iff in E as [?%String.eqb_eq ?]. done.
Qed.
Lemma marker_covered revisions m c : c ∈ selectMarkerCoveredCandidates revisions (Some m) →
  c ∈ revisions ∧ slen (sm_authenticator m) = 32 ∧ covers (sm_frontier m) (sm_witnessRevisionID m) c.
Proof.
  simpl. destruct (Z.eqb_spec (slen (sm_authenticator m)) 32) as [Ha|]; [|by intros ?%elem_of_nil].
  rewrite list_elem_of_In, filter_In, <- list_elem_of_In. intros [Hc H]. split; [done|]. split; [done|]. unfold covers.
  destruct (String.eqb (revisionID c) (sm_witnessRevisionID m) && vectorsEqual (vector c) (sm_frontier m)) eqn:E; [|by left].
  right. apply andb_true_iff in E as [?%String.eqb_eq ?]. done.
Qed.

Lemma selection_cases st heads candidates marker selected advancing
    (Hsel : collect_selection st heads candidates marker = (selected, advancing)) :
  match advancing with
  | Some w => advances heads marker w ∧ cs_serverCursor st ≠ MaxUint64 ∧
      ∀ c, c ∈ selected → c ∈ candidates ∧ (vectorDominates (vector w) (vector c) = true ∨
        revisionID c = revisionID w ∧ vectorsEqual (vector c) (vector w) = true ∧ tombstone w = true)
  | None => ∀ c, c ∈ selected → ∃ m, marker = Some m ∧ c ∈ candidates ∧ slen (sm_authenticator m) = 32 ∧
      covers (sm_frontier m) (sm_witnessRevisionID m) c
  end.
Proof.
  unfold collect_selection in Hsel.
  destruct (selectAdvancingWitness heads marker) as [w|] eqn:Ew; [destruct (_ && _) eqn:E|]; injection Hsel as <- <-.
  - apply andb_true_iff in E as [_ E%negb_true_iff%Z.eqb_neq]. split_and!; [|done|by apply witness_covered].
    by eapply advancing_witness_Some.
  - destruct marker as [m|]; [|by intros c ?%elem_of_nil]. intros c (? & ? & ?)%marker_covered. eauto.
  - destruct marker as [m|]; [|by intros c ?%elem_of_nil]. intros c (? & ? & ?)%marker_covered. eauto.
Qed.
(** Selection is safe: whatever is selected for collection is one of the candidates
    and is covered; when the marker advances, by an authenticated head that dominates
    every other head and the frontier of the present marker, otherwise by the present
    marker; and a revision that is itself the covering one is selected only when it is a
    tombstone. *)
Theorem collection_selection_safe st heads candidates marker selected advancing
    (Hsel : collect_selection st heads candidates marker = (selected, advancing)) :
  match advancing with
  | Some w => advances heads marker w ∧ cs_serverCursor st ≠ MaxUint64 ∧
      ∀ c, c ∈ selected → c ∈ candidates ∧ (vectorDominates (vector w) (vector c) = true ∨
        revisionID c = revisionID w ∧ vectorsEqual (vector c) (vector w) = true ∧ tombstone w = true)
  | None => ∀ c, c ∈ selected → ∃ m, marker = Some m ∧ c ∈ candidates ∧ slen (sm_authenticator m) = 32 ∧
      covers (sm_frontier m) (sm_witnessRevisionID m) c
  end.
Proof. by apply selection_cases. Qed.
(** A head that dominates an old revision, with no marker yet. *)
Definition sample_head (counter : Z) (witness : option string) : collectionRevision :=
  Mk_collectionRevision (id_of (FormatUint counter)) (id_of "6") [Mk_vectorEntry sample_device (FormatUint counter)]
    {[sample_device := counter]} witness (of_bytes (repeat 1 32)) false 0 counter.
Lemma collection_selection_safe_witness :
  let st := Mk_collect_state 9 0 0 false in
  let w := sample_head 2 (Some (of_bytes (repeat 4 32))) in
  let old := sample_head 1 None in
  advances [w] None w ∧ cs_serverCursor st ≠ MaxUint64 ∧
  ∀ c, c ∈ [old] → c ∈ [old; w] ∧ (vectorDominates (vector w) (vector c) = true ∨
    revisionID c = revisionID w ∧ vectorsEqual (vector c) (vector w) = true ∧ tombstone w = true).
Proof.
  cbv zeta.
  apply (collection_selection_safe (Mk_collect_state 9 0 0 false) [sample_head 2 (Some (of_bytes (repeat 4 32)))]
    [sample_head 1 None; sample_head 2 (Some (of_bytes (repeat 4 32)))] None [sample_head 1 None]
    (Some (sample_head 2 (Some (of_bytes (repeat 4 32)))))).
  vm_compute. reflexivity.
Defined.

(** ** The candidates of a record *)
(** What the row of a loaded revision says. *)
Record loaded (c : collectionRevision) (r : record_revisions_row) : Prop := {
  ld_id : v_revision_id r = CText (revisionID c);
  ld_record : v_record_id r = CText (recordID c);
  ld_accepted : v_accepted_uptime_ms r = cell_u64 (acceptedUptimeMS c) ∧ u64 (acceptedUptimeMS c);
  ld_cursor : v_change_cursor r = cell_u64 (changeCursor c) ∧ u64 (changeCursor c);
  ld_vector : validateVector (vectorEntries c) = Some (vector c) ∧ scan_vector_row r = Some (revisionID c, vector c) }.
Lemma scan_collection_Some r indexed a c : scan_collection_row (r, indexed, a) = Some c →
  loaded c r ∧ indexed = cell_u64 (acceptedUptimeMS c).
Proof.
  intros H. unfold scan_collection_row in H. repeat (case_match_in H; try discriminate H). injection H as <-.
  repeat match goal with
  | E : scan_blob _ _ _ = Some _ |- _ => apply scan_blob_Some in E as [? _]
  | E : DecodeUint64 _ = Some _ |- _ => pose proof (DecodeUint64_range _ _ E); apply EncodeUint64_DecodeUint64 in E
  | E : _ && _ = true |- _ => apply andb_true_iff in E as [?%String.eqb_eq ?%String.eqb_eq]
  end. subst. split; [split; simpl|]; unfold cell_u64 in *.
  - by apply scan_uuid_Some in E as [? _].
  - by apply scan_uuid_Some in E0 as [? _].
  - split; congruence.
  - split; congruence.
  - split; [done|]. unfold scan_vector_row. by rewrite E, E2, E10, E11.
  - simpl. congruence.
Qed.
Lemma elem_of_flat_map {A B} (f : A → list B) l y : y ∈ flat_map f l ↔ ∃ x, x ∈ l ∧ y ∈ f x.
Proof. rewrite list_elem_of_In, in_flat_map. by setoid_rewrite list_elem_of_In. Qed.
Lemma loaded_rows statement s cs s' : loadCollectionRevisionRows statement s = (Ok cs, s') →
  ∀ c, c ∈ cs → ∃ r indexed a, (r, indexed, a) ∈ statement (st_tx s) ∧ loaded c r ∧ indexed = cell_u64 (acceptedUptimeMS c).
Proof.
  unfold loadCollectionRevisionRows. intros H c Hc. run_as H rows s1 H1. apply query_ok in H1 as (-> & _).
  apply from_option_ok in H as [Hm _]. apply mapM_opt_Some in Hm. apply list_elem_of_lookup in Hc as [i Hi].
  eapply Forall2_lookup_r in Hm as ([[r indexed] a] & Hr & Hs); [|exact Hi].
  apply scan_collection_Some in Hs as [? ->]. eexists r, _, a. split; [by eapply list_elem_of_lookup_2|done].
Qed.
Definition retentionMS : Z := Z.quot minimumRetentionUptime Millisecond.
(** A revision a pass over the record may collect: stored, retained, and old. *)
Definition candidate_of (record : string) (uptime : Z) (d : db) (c : collectionRevision) : Prop :=
  ∃ r, r ∈ tb_record_revisions d ∧ loaded c r ∧ recordID c = record ∧ v_retained r = 1 ∧ acceptedUptimeMS c + retentionMS <= uptime.
(** A head of the record. *)
Definition head_of (record : string) (d : db) (c : collectionRevision) : Prop :=
  ∃ h r, h ∈ tb_record_heads d ∧ r ∈ tb_record_revisions d ∧ loaded c r ∧ h_record_id h = CText record ∧ h_revision_id h = v_revision_id r.

Lemma candidates_Ok record uptime s cs s' : u64 uptime → retentionMS <= uptime →
  loadCollectionRevisionRows (collectionCandidatesSQL record (uptime - retentionMS)) s = (Ok cs, s') →
  ∀ c, c ∈ cs → candidate_of record uptime (st_tx s) c.
Proof.
  intros Hu Hm H c Hc. eapply loaded_rows in H as (r & indexed & a & Hin & Hl & ->); [|exact Hc].
  unfold collectionCandidatesSQL in Hin. apply elem_of_take in Hin as (i & Hin & _). apply list_elem_of_lookup_2 in Hin.
  apply elem_of_flat_map in Hin as (q & Hq & Hin). apply elem_of_flat_map in Hin as (r' & Hr & Hin).
  apply list_elem_of_In, in_map_iff in Hin as (a' & [= <- Hcell <-] & _).
  apply elem_of_order_by, elem_of_select in Hq as [_ [Hqr%cell_eqb_true Hold]%andb_true_iff].
  apply elem_of_select in Hr as [Hr [[_ Hrec%cell_eqb_true]%andb_true_iff Hret%Z.eqb_eq]%andb_true_iff].
  rewrite Hcell in Hold. pose proof (ld_accepted _ _ Hl) as [_ Hacc]. unfold cell_u64 in Hold. simpl in Hold.
  assert (0 <= retentionMS) by (vm_compute; discriminate).
  rewrite EncodeUint64_sleb in Hold by (done || unfold u64 in *; lia). apply Z.leb_le in Hold.
  exists r'. split_and!; try done; [|lia]. pose proof (ld_record _ _ Hl). congruence.
Qed.
Lemma heads_Ok record s cs s' : loadCollectionRevisionRows (collectionHeadsSQL record) s = (Ok cs, s') →
  ∀ c, c ∈ cs → head_of record (st_tx s) c.
Proof.
  intros H c Hc. eapply loaded_rows in H as (r & indexed & a & Hin & Hl & ->); [|exact Hc].
  unfold collectionHeadsSQL in Hin. apply elem_of_take in Hin as (i & Hin & _). apply list_elem_of_lookup_2 in Hin.
  apply elem_of_flat_map in Hin as (h & Hh & Hin). apply elem_of_flat_map in Hin as (r' & Hr & Hin).
  apply list_elem_of_In, in_map_iff in Hin as (a' & [= <- _ <-] & _).
  apply elem_of_order_by, elem_of_select in Hh as [Hh Hrec%cell_eqb_true]. apply elem_of_select in Hr as [Hr Hid%cell_eqb_true].
  exists h, r'. done.
Qed.
Lemma work_Ok record uptime s barrier heads candidates s' : u64 uptime →
  loadCollectionRecordWork record uptime s = (Ok (barrier, heads, candidates), s') →
  (∀ c, c ∈ candidates → candidate_of record uptime (st_tx s) c) ∧ (∀ c, c ∈ heads → head_of record (st_tx s) c).
Proof.
  intros Hu H. unfold loadCollectionRecordWork in H.
  assert (HP : held (st_db s) (st_tx s) (st_eph s) s) by done. revert HP. generalize (st_tx s) (st_db s) (st_eph s).
  intros T D e HP. do 4 pass HP H. pose proof HP as (_ & E & _). pass_as HP H hs sh Hh. pose proof (heads_Ok _ _ _ _ Hh) as Hheads. rewrite E in Hheads.
  pass HP H. fold retentionMS in H. destruct (Z.ltb_spec uptime retentionMS) as [|Hle].
  - apply ret_ok in H as [[= -> -> ->] _]. split; [|done]. by intros c ?%elem_of_nil.
  - pose proof HP as (_ & E' & _). pass_as HP H cs s_c Hc. pose proof (candidates_Ok _ _ _ _ _ Hu Hle Hc) as Hcs. rewrite E' in Hcs.
    by apply ret_ok in H as [[= -> -> ->] _].
Qed.

(** ** What the writes remove *)
Definition markers_and_revisions (d : db) : list collection_markers_row * list record_revisions_row :=
  (tb_collection_markers d, tb_record_revisions d).
Lemma framed_delete_object hash revision : Pres (same_of markers_and_revisions) (deleteUnreferencedRevisionObject hash revision).
Proof. unfold deleteUnreferencedRevisionObject. framed. Qed.
Lemma collect_candidate_Ok generation floor c s floor' s' : collect_candidate generation floor c s = (Ok floor', s') →
  tb_collection_markers (st_tx s') = tb_collection_markers (st_tx s) ∧ floor <= floor' ∧ changeCursor c <= floor' ∧
  ∀ r, r ∈ tb_record_revisions (st_tx s) → r ∈ tb_record_revisions (st_tx s') ∨ v_revision_id r = CText (revisionID c).
Proof.
  unfold collect_candidate. intros H. run_as H u1 s1 H1. apply exec_ok in H1 as (H1 & _). unfold update_record_revisions in H1.
  destruct (update_rows _ _ _ _ _ _) as [rows|] eqn:E; [|done]. injection H1 as H1. apply update_rows_map in E as ->.
  run_as H u2 s2 H2. framing H2 markers_and_revisions. run_as H u3 s3 H3. framing H3 markers_and_revisions.
  run_as H u4 s4 H4. framing H4 markers_and_revisions. run_as H u5 s5 H5. apply (pres_run _ _ _ _ _ (framed_delete_object _ _)) in H5.
  apply ret_ok in H as [-> ->]. unfold same_of, markers_and_revisions in H2, H3, H4, H5. simplify_eq.
  split_and!; [|destruct (Z.ltb_spec floor (changeCursor c)); lia..|].
  - transitivity (tb_collection_markers (st_tx s1)); [congruence|]. by rewrite <- H1.
  - intros r Hr. destruct (cell_eqb (v_revision_id r) (CText (revisionID c)) && (v_retained r =? 1)) eqn:E.
    + right. by apply andb_true_iff in E as [?%cell_eqb_true _].
    + left. replace (tb_record_revisions (st_tx s5)) with (tb_record_revisions (st_tx s1)) by congruence. rewrite <- H1. simpl.
      apply list_elem_of_In, in_map_iff. exists r. rewrite E. split; [done|]. by apply list_elem_of_In.
Qed.
Lemma collect_loop generation selected : ∀ floor s floor' s',
  fold_each selected floor (collect_candidate generation) s = (Ok floor', s') →
  tb_collection_markers (st_tx s') = tb_collection_markers (st_tx s) ∧ floor <= floor' ∧
  (∀ c, c ∈ selected → changeCursor c <= floor') ∧
  ∀ r, r ∈ tb_record_revisions (st_tx s) → r ∈ tb_record_revisions (st_tx s') ∨
    ∃ c, c ∈ selected ∧ v_revision_id r = CText (revisionID c).
Proof.
  induction selected as [|c selected IH]; intros floor s floor' s' H.
  { apply ret_ok in H as [-> ->]. split_and!; [done|lia|by intros ? ?%elem_of_nil|by left]. }
  simpl in H. run_as H floor1 s1 H1. apply collect_candidate_Ok in H1 as (M1 & F1 & C1 & R1).
  apply IH in H as (M2 & F2 & C2 & R2). split_and!; [congruence|lia| |].
  - intros x [->|Hx]%elem_of_cons; [lia|auto].
  - intros r Hr. destruct (R1 r Hr) as [Hr'|Hid]; [|right; exists c; by split; [left|]].
    destruct (R2 r Hr') as [?|(x & Hx & Hid)]; [by left|]. right. exists x. by split; [right|].
Qed.

(** The frontier the marker holds after it is written. *)
Lemma frontier_written record w barrier cursor now s body s' :
  recordID w = record → validateVector (vectorEntries w) = Some (vector w) →
  writeCollectionMarker w barrier cursor now s = (Ok body, s') →
  frontier_of record (st_tx s') = Some (vector w) ∧ tb_record_revisions (st_tx s') = tb_record_revisions (st_tx s).
Proof.
  intros <- Hv. unfold writeCollectionMarker. intros H. run_as H u1 s1 H1. apply exec_ok in H1 as (H1 & _). apply ret_ok in H as [_ ->].
  set (row := Mk_collection_markers _ _ _ _ _ _ _ _) in *.
  enough (∃ r, query_row (select (λ r, cell_eqb (mk_record_id r) (CText (recordID w))) (tb_collection_markers (st_tx s1))) = Some r ∧
    mk_frontier_json r = CBlob (marshalJSON (vectorEntries w)) ∧ tb_record_revisions (st_tx s1) = tb_record_revisions (st_tx s))
    as (r & Hr & Hj & ?).
  { split; [|done]. unfold frontier_of. rewrite Hr, Hj, scan_body_blob by (by eapply vector_size).
    by rewrite unmarshalAs_marshal by (by eapply vector_plain). }
  unfold upsert_collection_marker in H1. cbv zeta in H1. destruct (existsb _ _) eqn:Ex.
  - unfold update_collection_markers in H1. destruct (update_rows _ _ _ _ _ _) as [rows|] eqn:E; [|done]. injection H1 as <-.
    apply update_rows_map in E as ->. simpl. rewrite select_map_update by (intros r Hr; simpl; done || intros; congruence).
    rewrite map_select_all. apply existsb_exists in Ex as (x & Hx & Hm).
    assert (Hs : x ∈ select (λ r, cell_eqb (mk_record_id r) (CText (recordID w))) (tb_collection_markers (st_tx s)))
      by (apply elem_of_select; split; [by apply list_elem_of_In|done]).
    destruct (select _ _) as [|y rest]; [by apply elem_of_nil in Hs|]. by eexists.
  - unfold insert_collection_markers in H1. destruct (insert_row _ _ _ _) as [rows|] eqn:E; [|done]. injection H1 as <-.
    apply insert_row_Some in E as (-> & _). exists row. simpl. unfold select. rewrite List.filter_app.
    replace (List.filter _ (tb_collection_markers (st_tx s))) with (@nil collection_markers_row).
    + simpl. by rewrite String.eqb_refl.
    + symmetry. induction (tb_collection_markers (st_tx s)) as [|x l IHl]; [done|]. simpl in *. apply orb_false_iff in Ex as [-> Ex]. by apply IHl.
Qed.

(** ** A pass over a record *)
Lemma loadCollectionMarker_Ok record s m s' : loadCollectionMarker record s = (Ok (Some m), s') →
  frontier_of record (st_tx s) = Some (sm_frontier m).
Proof.
  unfold loadCollectionMarker. intros H. run_as H present s1 H1.
  pose proof (pres_run _ _ _ _ _ (reads_preflight_key _ _ _) H1) as (_ & E1 & _).
  destruct present; [|by apply ret_ok in H as [? _]]. cbn [negb] in H.
  run_as H row s2 H2. apply query_ok in H2 as (-> & _). run_as H r s3 H3. apply from_option_ok in H3 as [Hr ->].
  run_as H m' s4 H4. apply from_option_ok in H4 as [Hd ->]. apply ret_ok in H as [[= ->] _]. rewrite E1 in Hr.
  unfold frontier_of. rewrite Hr. unfold decode_marker in Hd. repeat (case_match_in Hd; try discriminate Hd). by injection Hd as <-.
Qed.
Lemma frontier_of_positive record d f : frontier_of record d = Some f → positive f.
Proof. unfold frontier_of. intros H. repeat (case_match_in H; try discriminate H). by eapply validateVector_positive. Qed.
Lemma loaded_positive c r : loaded c r → positive (vector c).
Proof. intros Hl. destruct (ld_vector _ _ Hl) as [H _]. by eapply validateVector_positive. Qed.
Lemma work_barrier record uptime s barrier heads candidates s' :
  loadCollectionRecordWork record uptime s = (Ok (barrier, heads, candidates), s') →
  ∃ row, row ∈ tb_collection_records (st_tx s) ∧ cr_record_id row = CText record ∧ cr_barrier_cursor row = cell_u64 barrier.
Proof.
  unfold loadCollectionRecordWork. intros H. run_as H row s1 H1. apply query_ok in H1 as (-> & _). run_as H r s2 H2.
  apply from_option_ok in H2 as [Hr ->]. run_as H b s3 H3. apply from_option_ok in H3 as [Hb ->]. run_as H u4 s4 H4. run_as H hs s5 H5.
  run_as H u6 s6 H6. assert (barrier = b) as ->.
  { case_match; [by apply ret_ok in H as [[= -> _] _]|]. run_as H cs s7 H7. by apply ret_ok in H as [[= -> _] _]. }
  apply head_elem, elem_of_select in Hr as [Hr Hid%cell_eqb_true]. apply scan_u64_Some in Hb as [Hb _]. eauto.
Qed.
(** Heads name revisions of their own record. *)
Definition heads_consistent (d : db) : Prop := ∀ h r, h ∈ tb_record_heads d → r ∈ tb_record_revisions d →
  h_revision_id h = v_revision_id r → v_record_id r = h_record_id h.
Lemma revision_unique d r q : db_ok d → r ∈ tb_record_revisions d → q ∈ tb_record_revisions d →
  ∀ id, v_revision_id r = CText id → v_revision_id q = CText id → r = q.
Proof.
  intros Hok Hr Hq id E1 E2. eapply table_ok_unique; [apply conflict_record_revisions_sym|apply ok_record_revisions, Hok|done|done|].
  unfold conflict_record_revisions. rewrite E1, E2. simpl. by rewrite String.eqb_refl.
Qed.

(** What has to hold of a revision a pass removes: old enough, behind the floor, and
    below the frontier the record's marker then holds. *)
Definition removable (record : string) (uptime floor : Z) (d' : db) (r : record_revisions_row) : Prop :=
  v_record_id r = CText record ∧
  (∃ accepted, v_accepted_uptime_ms r = cell_u64 accepted ∧ accepted + retentionMS <= uptime) ∧
  (∃ cursor, v_change_cursor r = cell_u64 cursor ∧ cursor <= floor) ∧
  ∃ id v f, scan_vector_row r = Some (id, v) ∧ frontier_of record d' = Some f ∧ vle v f.
Lemma removable_intro record uptime floor d d' c r f : candidate_of record uptime d c → db_ok d →
  r ∈ tb_record_revisions d → v_revision_id r = CText (revisionID c) → changeCursor c <= floor →
  frontier_of record d' = Some f → vle (vector c) f → removable record uptime floor d' r.
Proof.
  intros (q & Hq & Hl & Hrec & _ & Hold) Hok Hr Hid Hfl Hf Hle.
  rewrite (revision_unique _ _ _ Hok Hr Hq _ Hid (ld_id _ _ Hl)). pose proof (ld_record _ _ Hl). split_and!.
  - congruence.
  - exists (acceptedUptimeMS c). by destruct (ld_accepted _ _ Hl).
  - exists (changeCursor c). by destruct (ld_cursor _ _ Hl).
  - exists (revisionID c), (vector c), f. by destruct (ld_vector _ _ Hl).
Qed.
(** The step that writes the marker leaves a frontier above everything selected. *)
Lemma marker_step record uptime now barrier st heads candidates marker selected advancing s cursor s' :
  collect_selection st heads candidates marker = (selected, advancing) → heads_consistent (st_tx s) →
  (∀ c, c ∈ candidates → candidate_of record uptime (st_tx s) c) → (∀ c, c ∈ heads → head_of record (st_tx s) c) →
  (∀ m, marker = Some m → frontier_of record (st_tx s) = Some (sm_frontier m)) →
  (match advancing with
   | Some witness =>
       markerBody ← writeCollectionMarker witness barrier (cs_serverCursor st + 1) now;
       insertMarkerChange (cs_serverCursor st + 1) record markerBody now;;
       mret (cs_serverCursor st + 1)
   | None => mret (cs_serverCursor st)
   end) s = (Ok cursor, s') →
  tb_record_revisions (st_tx s') = tb_record_revisions (st_tx s) ∧
  ∀ c, c ∈ selected → ∃ f, frontier_of record (st_tx s') = Some f ∧ vle (vector c) f.
Proof.
  intros Hsel Hcons Hcand Hheads Hmark H. apply selection_cases in Hsel. destruct advancing as [w|].
  - destruct Hsel as ([(i & Hi & _) _ _] & _ & Hcov).
    destruct (Hheads w (list_elem_of_lookup_2 _ _ _ Hi)) as (h & q & Hh & Hq & Hl & Hhr & Hid).
    assert (Hrec : recordID w = record). { pose proof (Hcons h q Hh Hq Hid). pose proof (ld_record _ _ Hl). congruence. }
    run_as H body s1 H1. apply (frontier_written record) in H1 as [Hf Hrev]; [|done|apply (ld_vector _ _ Hl)].
    run_as H u2 s2 H2. apply ret_ok in H as [_ ->]. unfold insertMarkerChange, insertChangeOrigin in H2. framing H2 markers_and_revisions.
    unfold same_of, markers_and_revisions in H2. injection H2 as E1 E2. split; [congruence|]. intros c Hc. exists (vector w).
    split; [unfold frontier_of in *; by rewrite E1|]. apply Hcov in Hc as [Hc [Hd|(_ & He & _)]].
    + apply vectorDominates_positive in Hd as [? _]; [done|by eapply loaded_positive|].
      apply Hcand in Hc as (r & _ & Hlc & _). by eapply loaded_positive.
    + apply vectorsEqual_eq in He as ->; [done| |by eapply loaded_positive].
      apply Hcand in Hc as (r & _ & Hlc & _). by eapply loaded_positive.
  - apply ret_ok in H as [_ ->]. split; [done|]. intros c Hc. apply Hsel in Hc as (m & Hm & Hc & _ & Hcov).
    specialize (Hmark m Hm). exists (sm_frontier m). split; [done|]. eapply covers_vle; [by eapply frontier_of_positive| |done].
    apply Hcand in Hc as (r & _ & Hlc & _). by eapply loaded_positive.
Qed.

(** C24. Collection removes only what it may: when a pass over a record succeeds, every
    stored revision is still there unchanged, or it belongs to the record, was accepted
    at least ninety days of server uptime ago, lies behind the cursor floor (so no
    device can be asked to fetch it), and is at or below the frontier of the record's
    marker (so no later submission can bring it back); and every active device has
    acknowledged the record's barrier when anything was removed. *)
Theorem collection_respects_retention now activeAcks uptime st record s st' s'
    (Hu : u64 uptime) (Hok : db_ok (st_tx s)) (Hcons : heads_consistent (st_tx s))
    (Hrun : collect_record now activeAcks uptime st record s = (Ok st', s')) :
  ∀ r, r ∈ tb_record_revisions (st_tx s) → r ∈ tb_record_revisions (st_tx s') ∨
    removable record uptime (cs_cursorFloor st') (st_tx s') r ∧
    ∃ row barrier, row ∈ tb_collection_records (st_tx s) ∧ cr_record_id row = CText record ∧
      cr_barrier_cursor row = cell_u64 barrier ∧ Forall (λ ack, barrier <= ack) activeAcks.
Proof.
  unfold collect_record in Hrun.
  assert (HP : held (st_db s) (st_tx s) (st_eph s) s) by done. revert HP Hok Hcons. generalize (st_tx s) (st_db s) (st_eph s).
  intros T D e HP Hok Hcons. pose proof HP as (_ & E0 & _). pass_as HP Hrun work s1 H1. destruct work as [[barrier heads] candidates].
  pose proof (work_Ok _ _ _ _ _ _ _ Hu H1) as [Hcand Hheads]. apply work_barrier in H1 as (row & Hrow & Hrid & Hbar). rewrite E0 in *.
  destruct (negb (allAcknowledged activeAcks barrier)) eqn:Hack.
  { apply ret_ok in Hrun as [_ ->]. destruct HP as (_ & -> & _). by left. }
  apply negb_false_iff in Hack. pose proof HP as (_ & E1 & _). pass_as HP Hrun marker s2 H2.
  assert (Hmark : ∀ m, marker = Some m → frontier_of record T = Some (sm_frontier m)).
  { intros m ->. apply loadCollectionMarker_Ok in H2. by rewrite E1 in H2. }
  destruct (collect_selection st heads candidates marker) as [selected advancing] eqn:Hsel.
  destruct HP as (_ & E2 & _). destruct (length selected =? 0)%nat eqn:Hz.
  { apply ret_ok in Hrun as [_ ->]. rewrite E2. by left. }
  run_as Hrun cursor s3 H3. eapply marker_step in H3 as [Erev Hfr]; [|exact Hsel|rewrite ?E2; done..]. rewrite E2 in Erev.
  run_as Hrun fl s4 H4. apply collect_loop in H4 as (Em & _ & Hfloor & Hrem). run_as Hrun u5 s5 H5. framing H5 markers_and_revisions.
  apply ret_ok in Hrun as [-> ->]. unfold same_of, markers_and_revisions in H5. injection H5 as Em5 Er5. simpl.
  intros r Hr. rewrite <- Erev in Hr. destruct (Hrem r Hr) as [?|(c & Hc & Hid)]; [left; congruence|]. right. rewrite Erev in Hr.
  destruct (Hfr c Hc) as (f & Hf & Hle). split.
  - eapply removable_intro; [|exact Hok|exact Hr|exact Hid|by apply Hfloor| |exact Hle].
    + apply selection_cases in Hsel. apply Hcand. destruct advancing as [w|]; [by apply Hsel|]. by apply Hsel in Hc as (m & _ & ? & _).
    + unfold frontier_of in *. by rewrite Em5, Em.
  - exists row, barrier. split_and!; try done. apply Forall_forall. intros ack Hin. unfold allAcknowledged in Hack.
    rewrite forallb_forall in Hack. apply list_elem_of_In, Hack, negb_true_iff, Z.ltb_ge in Hin. done.
Qed.

(** A second revision of the sample record dominates the first; ninety days later the
    first is collected. *)
Definition next_revision : recordRevision :=
  Mk_recordRevision (id_of "6") (id_of "8") sample_device "2" [Mk_vectorEntry sample_device "2"]
    (Some (encodeBase64 (of_bytes (repeat 4 32)))) "1" cryptoSuite false
    (encodeBase64 (of_bytes (repeat 2 24))) (encodeBase64 (of_bytes (repeat 8 16))).
Definition next_item : pendingRevision :=
  Mk_pending next_revision (marshalJSON next_revision) (GoStd.Sum256 (marshalJSON next_revision)) 2 {[sample_device := 2]} true.
Definition collection_start : St := Eval vm_compute in
  after (sync_apply (at_ms 60) 60 3 next_item) (with_tx (st_db synced_state) synced_state).
Definition collection_pass : Handler collect_state :=
  collect_record (at_ms 60) [4; 5] (100 + retentionMS) (Mk_collect_state 4 0 0 false) (id_of "6").
Definition retained_count (s : St) : nat := length (List.filter (λ r, v_retained r =? 1) (tb_record_revisions (st_tx s))).
Lemma collection_respects_retention_witness :
  (retained_count collection_start = 2%nat ∧ retained_count (after collection_pass collection_start) = 1%nat) ∧
  ∀ r, r ∈ tb_record_revisions (st_tx collection_start) → r ∈ tb_record_revisions (st_tx (after collection_pass collection_start)) ∨
    removable (id_of "6") (100 + retentionMS) 3 (st_tx (after collection_pass collection_start)) r ∧
    ∃ row barrier, row ∈ tb_collection_records (st_tx collection_start) ∧ cr_record_id row = CText (id_of "6") ∧
      cr_barrier_cursor row = cell_u64 barrier ∧ Forall (λ ack, barrier <= ack) [4; 5].
Proof.
  split; [vm_compute; split; reflexivity|].
  apply (collection_respects_retention (at_ms 60) [4; 5] (100 + retentionMS) (Mk_collect_state 4 0 0 false) (id_of "6")
           collection_start (Mk_collect_state 5 3 1 true) (after collection_pass collection_start)).
  - vm_compute. split; [discriminate|reflexivity].
  - split; table_by_computation.
  - intros h r Hh Hr. repeat (apply elem_of_cons in Hh as [->|Hh]; [|]); [|by apply elem_of_nil in Hh].
    repeat (apply elem_of_cons in Hr as [->|Hr]; [vm_compute; done|]). by apply elem_of_nil in Hr.
  - vm_compute. reflexivity.
Defined.

(** ** The uptime clock

    Retention is measured in accumulated server uptime.  checkpointUptimeTx adds the
    whole milliseconds since the last checkpoint and commitUptimeTransaction moves the
    checkpoint by exactly what was added; together no time is lost or counted twice,
    also when the transaction fails. *)

Definition uptime_of (d : db) : option Z :=
  match runtime_row d with Some r => scan_u64 (rs_accumulated_uptime_ms r) | None => None end.

Lemma set_uptime_row v d d' : u64 v → update_runtime_state runtime_singleton (with_accumulated_uptime (cell_u64 v)) d = Some d' →
  is_Some (runtime_row d) → uptime_of d' = Some v.
Proof.
  intros Hv H [r0 Hr]. unfold update_runtime_state in H. destruct (update_rows _ _ _ _ _ _) as [rows|] eqn:E; [|done].
  injection H as <-. apply update_rows_map in E as ->. unfold uptime_of, runtime_row in *. simpl.
  rewrite select_map_update by (intros r Hs; unfold runtime_singleton in *; simpl; done || intros; congruence).
  rewrite map_select_all. destruct (select _ _) as [|r rest]; [done|]. simpl. by apply scan_u64_cell.
Qed.
(** The elapsed whole milliseconds between the checkpoint and [now]. *)
Definition elapsed (now : gotime) (e : ephemeralState) : Z := Milliseconds (Sub now (uptimeCheckpoint e)).

Lemma checkpointUptimeTx_Ok now s accumulated next s' : checkpointUptimeTx now s = (Ok (accumulated, next), s') →
  ∃ before, uptime_of (st_tx s) = Some before ∧ uptime_of (st_tx s') = Some accumulated ∧ st_eph s' = st_eph s ∧
    st_db s' = st_db s ∧
    accumulated = (if elapsed now (st_eph s) <=? 0 then before else advance_uptime before (elapsed now (st_eph s))) ∧
    mono next = mono (uptimeCheckpoint (st_eph s)) + Z.max 0 (elapsed now (st_eph s)) * Millisecond.
Proof.
  unfold checkpointUptimeTx. fold (elapsed now (st_eph s)). intros H. run_as H eph s0 H0. injection H0 as <- <-.
  run_as H u1 s1 H1. apply ensure_ok in H1 as [_ ->]. fold (elapsed now (st_eph s)) in H.
  run_as H row s2 H2. apply query_ok in H2 as (-> & Etx & Edb & Ee & _). run_as H r s3 H3. apply from_option_ok in H3 as [Hr ->].
  run_as H before s4 H4. apply from_option_ok in H4 as [Hb ->].
  assert (Hbefore : uptime_of (st_tx s) = Some before) by (unfold uptime_of; by rewrite Hr). exists before. split; [done|].
  destruct (Z.leb_spec (elapsed now (st_eph s)) 0) as [Hle|Hgt].
  - apply ret_ok in H as [[= -> ->] ->]. rewrite Etx, Edb, Ee. split_and!; try done.
    destruct (Z.ltb_spec 0 (elapsed now (st_eph s))); [lia|]. rewrite Z.max_l by lia. lia.
  - run_as H u5 s5 H5. apply exec_ok in H5 as (H5 & Edb5 & Ee5 & _). apply ret_ok in H as [[= -> ->] ->].
    apply scan_u64_Some in Hb as [_ Hu]. split_and!; try congruence.
    + eapply set_uptime_row; [|exact H5|by rewrite Etx, Hr]. unfold advance_uptime, u64, MaxUint64, two64 in *.
      destruct (Z.ltb_spec (2 ^ 64 - 1 - before) (elapsed now (st_eph s))); lia.
    + destruct (Z.ltb_spec 0 (elapsed now (st_eph s))); [|lia]. simpl. rewrite Z.max_r by lia. done.
Qed.

(** The memory is untouched until the commit. *)
Definition same_eph : relation St := λ s s', st_eph s' = st_eph s.
#[export] Instance same_eph_preorder : PreOrder same_eph.
Proof. split; [done|]. intros s1 s2 s3. unfold same_eph. congruence. Qed.
Lemma same_state_eph s s' : same_state s s' → same_eph s s'.
Proof. by intros (_ & _ & ?). Qed.
Lemma eph_exec {E} (e : E) f : Pres same_eph (exec e f).
Proof.
  intros s. unfold same_eph, exec, tick, mbind, M_bind, read_tx, from_option, write_tx, mret, M_ret, throw.
  destruct (st_faults s) as [|[] ?]; simpl; [|done|]; by destruct (f (st_tx s)).
Qed.
Lemma eph_checkpoint now : Pres same_eph (checkpointUptimeTx now).
Proof.
  unfold checkpointUptimeTx. repeat first
    [ apply eph_exec | apply pres_query; [apply _|apply same_state_eph] | apply pres_bind; [apply _| |intros ?]
    | apply pres_get_eph; apply _ | apply pres_ensure; apply _ | apply pres_from_option; apply _ | apply pres_ret; apply _
    | case_match ].
Qed.
Lemma checkpoint_error now s e s' : CheckpointUptime now s = (Err e, s') → st_db s' = st_db s ∧ st_eph s' = st_eph s.
Proof.
  intros H. split; [by eapply atomic_CheckpointUptime|]. unfold CheckpointUptime in H.
  assert (Hbegin : ∀ r s1, beginTransaction s = (r, s1) → st_eph s1 = st_eph s).
  { intros r s1. unfold beginTransaction, begin_tx, tick, mbind, M_bind, throw. destruct (st_faults s) as [|[] ?]; by intros [= _ <-]. }
  apply bind_err in H as [H|(u & s1 & H1 & H)]; [by eapply Hbegin|]. apply Hbegin in H1.
  apply bind_err in H as [H|([a next] & s2 & H2 & H)].
  { apply (pres_run _ _ _ _ _ (eph_checkpoint now)) in H. unfold same_eph in H. congruence. }
  apply (pres_run _ _ _ _ _ (eph_checkpoint now)) in H2. unfold same_eph in H2.
  unfold commitUptimeTransaction in H. apply bind_err in H as [H|(u3 & s3 & H3 & H)].
  - unfold commitTransaction, commit_tx, tick, mbind, M_bind, throw in H. destruct (st_faults s2) as [|[] ?]; try done. injection H as _ <-. simpl. congruence.
  - apply bind_err in H as [H|(eph & s4 & H4 & H)]; [done|]. by case_match.
Qed.
Lemma elapsed_spec now e : mono (uptimeCheckpoint e) <= mono now < mono (uptimeCheckpoint e) + 2 ^ 63 →
  0 <= elapsed now e ∧ elapsed now e * Millisecond <= mono now - mono (uptimeCheckpoint e) < (elapsed now e + 1) * Millisecond.
Proof.
  intros H. unfold elapsed, Milliseconds, Sub. rewrite Z.min_r, Z.max_r by lia.
  unfold Millisecond. change (10 ^ 6) with 1000000. rewrite Z.quot_div_nonneg by lia.
  pose proof (Z.div_mod (mono now - mono (uptimeCheckpoint e)) 1000000). pose proof (Z.mod_pos_bound (mono now - mono (uptimeCheckpoint e)) 1000000). lia.
Qed.

(** Uptime is neither lost nor counted twice: whatever a checkpoint returns, the
    stored uptime grows by exactly what the in-memory checkpoint moves, never past the
    present instant, and when it succeeds less than a millisecond is left uncounted.
    (The instants are within the range of a Go duration of each other and the counter
    is not at its end.) *)
Theorem uptime_accounting now s r s' before
    (Hbefore : uptime_of (st_db s) = Some before)
    (Hnow : mono (uptimeCheckpoint (st_eph s)) <= mono now < mono (uptimeCheckpoint (st_eph s)) + 2 ^ 63)
    (Hroom : before + elapsed now (st_eph s) <= MaxUint64)
    (Hrun : CheckpointUptime now s = (r, s')) :
  ∃ later, uptime_of (st_db s') = Some later ∧
    (later - before) * Millisecond = mono (uptimeCheckpoint (st_eph s')) - mono (uptimeCheckpoint (st_eph s)) ∧
    mono (uptimeCheckpoint (st_eph s)) <= mono (uptimeCheckpoint (st_eph s')) <= mono now ∧
    (r = Ok () → mono now - mono (uptimeCheckpoint (st_eph s')) < Millisecond).
Proof.
  pose proof (elapsed_spec _ _ Hnow) as (He0 & He1 & He2). destruct r as [[]|e].
  2: { apply checkpoint_error in Hrun as [-> ->]. exists before. split_and!; [done|lia|lia|lia|done]. }
  unfold CheckpointUptime in Hrun. run_as Hrun u1 s1 H1. apply begin_ok in H1 as (Etx & Edb & Ee & _).
  run_as Hrun st s2 H2. destruct st as [accumulated next]. apply checkpointUptimeTx_Ok in H2 as (b & Hb & Ha & Ee2 & _ & Hacc & Hnext).
  rewrite Etx, Hbefore in Hb. injection Hb as <-. rewrite Ee in *. rewrite Z.max_r in Hnext by lia.
  unfold commitUptimeTransaction in Hrun. run_as Hrun u3 s3 H3. apply commit_ok in H3 as (Edb3 & _ & Ee3 & _).
  run_as Hrun eph s4 H4. injection H4 as <- <-.
  assert (Hlater : accumulated = before + elapsed now (st_eph s)).
  { rewrite Hacc. unfold advance_uptime. destruct (Z.leb_spec (elapsed now (st_eph s)) 0); [lia|].
    destruct (Z.ltb_spec (MaxUint64 - before) (elapsed now (st_eph s))); lia. }
  assert (Hpos : 0 <= elapsed now (st_eph s) * Millisecond) by (apply Z.mul_nonneg_nonneg; [done|vm_compute; discriminate]).
  assert (Hfin : uptime_of (st_db s') = Some accumulated ∧ mono (uptimeCheckpoint (st_eph s')) = mono next).
  { rewrite Ee3, Ee2 in Hrun. unfold After in Hrun. destruct (Z.ltb_spec (mono (uptimeCheckpoint (st_eph s))) (mono next)).
    - injection Hrun as <-. simpl. rewrite Edb3. done.
    - apply ret_ok in Hrun as [_ ->]. rewrite Edb3, Ee3, Ee2. split; [done|]. lia. }
  destruct Hfin as [Hf1 Hf2]. exists accumulated. rewrite Hf2, Hnext. split_and!; [done|lia..|]. intros _. lia.
Qed.
Lemma uptime_accounting_witness :
  let s' := after (CheckpointUptime (at_ms 90)) synced_state in
  ∃ later, uptime_of (st_db s') = Some later ∧
    (later - 40) * Millisecond = mono (uptimeCheckpoint (st_eph s')) - mono (uptimeCheckpoint (st_eph synced_state)) ∧
    mono (uptimeCheckpoint (st_eph synced_state)) <= mono (uptimeCheckpoint (st_eph s')) <= mono (at_ms 90) ∧
    ((Ok () : res Error ()) = Ok () → mono (at_ms 90) - mono (uptimeCheckpoint (st_eph s')) < Millisecond).
Proof.
  cbv zeta. apply (uptime_accounting (at_ms 90) synced_state (Ok ())).
  - vm_compute. reflexivity.
  - vm_compute. split; [discriminate|reflexivity].
  - vm_compute. discriminate.
  - vm_compute. reflexivity.
Defined.
