(* ===== verification/SnapshotProps.v ===== *)
(** * Snapshots: complete, bounded, correctly accounted

    Theorems about [snapshot.go]: following the page tokens visits every page once,
    the revision pages hold every head once and fit the reply limit, and the metadata
    account is the exact sum of the records it stands for, with overflow detected. *)

From stdpp Require Import base list strings gmap.
From Stdlib Require Import ZArith Lia Ascii.
From S2P Require Import Prelude GoStd GoTime Auth Api Json Wire Models Sql Schema Monad Keys SqlFacts Runtime.
From S2P Require Import Receipts Persist Collection Sync Snapshot Samples Constraints.
Local Open Scope Z_scope.
#[local] Opaque marshalJSON.

(** ** Following the tokens *)
(** What a device collects that starts at a token and asks for the next page while there
    is one. *)
Fixpoint follow (fuel : nat) (pages : list storedSnapshotPage) (token : string) : list storedSnapshotPage :=
  match fuel with
  | O => []
  | S fuel' =>
      match List.find (λ p, String.eqb (pp_token p) token) pages with
      | None => []
      | Some p => p :: match pd_NextPageToken (pp_descriptor p) with Some next => follow fuel' pages next | None => [] end
      end
  end.
Lemma length_link_pages descriptors tokens : length descriptors = length tokens → map pp_token (link_pages descriptors tokens) = tokens.
Proof. revert tokens. induction descriptors as [|d ds IH]; intros [|t ts] H; try done. simpl in *. by rewrite IH by lia. Qed.
Lemma find_token pre p post : NoDup (map pp_token (pre ++ p :: post)) →
  List.find (λ q, String.eqb (pp_token q) (pp_token p)) (pre ++ p :: post) = Some p.
Proof.
  induction pre as [|q pre IH]; simpl; intros H; [by rewrite String.eqb_refl|]. inversion H as [|? ? Hq Hnd]; subst.
  destruct (String.eqb_spec (pp_token q) (pp_token p)) as [E|]; [|by apply IH]. exfalso. apply Hq. rewrite E, map_app.
  apply elem_of_app. right. left.
Qed.
Lemma follow_link descriptors : ∀ pre tokens, length descriptors = length tokens →
  NoDup (map pp_token (pre ++ link_pages descriptors tokens)) → descriptors ≠ [] →
  follow (length tokens) (pre ++ link_pages descriptors tokens) (default "" (head tokens)) = link_pages descriptors tokens.
Proof.
  induction descriptors as [|d ds IH]; intros pre [|t ts] Hlen Hnd Hne; try done. simpl in Hlen.
  set (pages := pre ++ link_pages (d :: ds) (t :: ts)) in *. cbn [length follow link_pages] in *.
  set (p := Mk_page t _ _) in *. change (default "" (head (t :: ts))) with (pp_token p).
  assert (Hp : pages = pre ++ p :: link_pages ds ts) by reflexivity.
  rewrite Hp in *. rewrite find_token by done. f_equal. destruct ds as [|d' ds]; [done|]. destruct ts as [|t' ts]; [done|].
  cbn [pd_NextPageToken pp_descriptor p head]. rewrite cons_middle, app_assoc in Hnd |- *.
  specialize (IH (pre ++ [p]) (t' :: ts) ltac:(simpl in *; lia) Hnd ltac:(done)). exact IH.
Qed.


(** ** The revision pages *)
Section plan.
Context (snapshotID : string) (cutCursor envelopeGeneration availableMetadata : Z).
(** A page of heads: not empty, at most 128, and its reply fits. *)
Definition good_page (group : list head_object) : Prop :=
  group ≠ [] ∧ revisions_fit snapshotID cutCursor envelopeGeneration (map ho_revision group) (map ho_revisionID group) = true.
Definition page_of (group : list head_object) : snapshotPageDescriptor := revisions_page (map ho_revisionID group).
Definition reference_of (h : head_object) : snapshotRevisionReference := Mk_reference (ho_revisionID h) (ho_hash h).
(** The loop of the revision phase: the pages closed so far and the open one. *)
Record planned (base : list snapshotPageDescriptor) (heads : list head_object) (ph : revision_phase) : Prop := {
  pl_groups : ∃ groups group, pl_descriptors (rp_plan ph) = base ++ map page_of groups ∧ Forall good_page groups ∧
    rp_revisions ph = map ho_revision group ∧ rp_ids ph = map ho_revisionID group ∧ (group = [] ∨ good_page group) ∧
    concat groups ++ group = heads;
  pl_references : rp_references ph = map reference_of heads }.

Lemma appendDescriptor_Ok st descriptor s st' s' :
  appendDescriptor snapshotID availableMetadata st descriptor s = (Ok st', s') → pl_descriptors st' = pl_descriptors st ++ [descriptor].
Proof. unfold appendDescriptor. intros H. run H. by apply ret_ok in H as [-> _]. Qed.
Lemma finish_Ok st ids s st' s' : finishRevisionPage snapshotID availableMetadata st ids s = (Ok st', s') →
  pl_descriptors st' = pl_descriptors st ++ (if decide (ids = []) then [] else [revisions_page ids]).
Proof.
  unfold finishRevisionPage. destruct ids as [|i ids].
  - intros [-> _]%ret_ok. by rewrite app_nil_r.
  - apply appendDescriptor_Ok.
Qed.
Lemma finishRevisionPage_Ok base st groups group s st' s' :
  pl_descriptors st = base ++ map page_of groups → Forall good_page groups → (group = [] ∨ good_page group) →
  finishRevisionPage snapshotID availableMetadata st (map ho_revisionID group) s = (Ok st', s') →
  ∃ groups', pl_descriptors st' = base ++ map page_of groups' ∧ Forall good_page groups' ∧ concat groups' = concat groups ++ group.
Proof.
  intros Hd Hg Hopen H. apply finish_Ok in H. destruct Hopen as [->|Hgood].
  - exists groups. rewrite !app_nil_r in *. split_and!; [congruence|done|done].
  - exists (groups ++ [group]). destruct (decide (map ho_revisionID group = [])) as [E|_].
    { destruct Hgood as [Hne _]. by destruct group. }
    split_and!; [|apply Forall_app; by split; [|constructor]|].
    + by rewrite H, Hd, map_app, app_assoc.
    + rewrite concat_app. simpl. by rewrite app_nil_r.
Qed.
Lemma plan_revision_Ok base heads ph row s ph' s' : planned base heads ph →
  plan_revision snapshotID cutCursor envelopeGeneration availableMetadata ph row s = (Ok ph', s') →
  ∃ h previous, scan_plan_row previous row = Some h ∧ planned base (heads ++ [h]) ph'.
Proof.
  intros [(groups & group & Hd & Hg & Hr & Hi & Hopen & Hcat) Href] H. unfold plan_revision in H.
  run_as H h s1 H1. apply from_option_ok in H1 as [Hscan ->]. exists h, (rp_previous ph). split; [done|].
  run_as H placed s2 H2. destruct placed as [[plan revisions] ids]. run_as H u3 s3 H3. apply ret_ok in H as [-> _]. split; simpl.
  2: { by rewrite Href, map_app. }
  unfold place_revision in H2. destruct (revisions_fit _ _ _ _ _) eqn:Efit.
  - apply ret_ok in H2 as [[= -> -> ->] _]. exists groups, (group ++ [h]). rewrite !map_app, <- Hr, <- Hi. split_and!; try done.
    + right. split; [by destruct group|]. by rewrite !map_app, <- Hr, <- Hi.
    + by rewrite app_assoc, Hcat.
  - run_as H2 u4 s4 H4. run_as H2 plan' s5 H5. rewrite Hi in H5.
    eapply finishRevisionPage_Ok in H5 as (groups' & Hd' & Hg' & Hcat'); [|done..].
    run_as H2 u6 s6 H6. apply ensure_ok in H6 as [Hfits _]. apply ret_ok in H2 as [[= -> -> ->] _].
    exists groups', [h]. split_and!; try done.
    + right. split; [done|]. unfold revisions_fit. cbn [map]. by rewrite Hfits.
    + by rewrite Hcat', Hcat.
Qed.
Lemma plan_loop base rows : ∀ heads ph s ph' s', planned base heads ph →
  fold_each rows ph (plan_revision snapshotID cutCursor envelopeGeneration availableMetadata) s = (Ok ph', s') →
  ∃ more, Forall2 (λ row h, ∃ previous, scan_plan_row previous row = Some h) rows more ∧ planned base (heads ++ more) ph'.
Proof.
  induction rows as [|row rows IH]; intros heads ph s ph' s' Hp H.
  - apply ret_ok in H as [-> _]. exists []. split; [constructor|]. by rewrite app_nil_r.
  - simpl in H. run_as H ph1 s1 H1. eapply plan_revision_Ok in H1 as (h & previous & Hscan & Hp1); [|exact Hp].
    eapply IH in H as (more & Hall & Hp2); [|exact Hp1]. exists (h :: more). split; [constructor; eauto|]. by rewrite cons_middle, app_assoc.
Qed.

(** The revision pages of a snapshot are complete and bounded: they hold the
    current head revisions, each exactly once and in the order of the head table, in
    pages of one to 128 revisions whose replies fit the body limit; and the references
    that protect the bodies from collection are those of the same revisions. *)
Theorem revision_pages_complete st s plan references s'
    (Hrun : plan_revisions snapshotID cutCursor envelopeGeneration availableMetadata st s = (Ok (plan, references), s')) :
  ∃ groups, pl_descriptors plan = pl_descriptors st ++ map page_of groups ∧ Forall good_page groups ∧
    references = map reference_of (concat groups) ∧
    Forall2 (λ row h, ∃ previous, scan_plan_row previous row = Some h) (plan_rows (st_tx s)) (concat groups).
Proof.
  unfold plan_revisions in Hrun. run_as Hrun rows s1 H1. apply query_ok in H1 as (-> & _). run_as Hrun ph s2 H2.
  eapply (plan_loop (pl_descriptors st) _ []) in H2 as (heads & Hall & [(groups & group & Hd & Hg & Hr & Hi & Hopen & Hcat) Href]).
  - run_as Hrun final s3 H3. apply ret_ok in Hrun as [[= -> ->] _]. rewrite Hi in H3.
    eapply finishRevisionPage_Ok in H3 as (groups' & Hd' & Hg' & Hcat'); [|exact Hd|done|done].
    simpl in *. exists groups'. rewrite Hcat', Hcat. by split_and!.
  - split; [|done]. exists [], []. simpl. rewrite app_nil_r. split_and!; try done. by left.
Qed.
End plan.
Definition plan_start : St := with_tx (st_db synced_state) synced_state.
Definition plan_base : plan_state := Mk_plan (Mk_account 0 false) [].
Definition plan_result : res Error (plan_state * list snapshotRevisionReference) * St :=
  Eval vm_compute in plan_revisions (id_of "9") 3 1 1000000 plan_base plan_start.
Lemma revision_pages_complete_witness :
  ∃ plan references, plan_result.1 = Ok (plan, references) ∧ length (pl_descriptors plan) = 1%nat ∧
  ∃ groups, pl_descriptors plan = [] ++ map page_of groups ∧ Forall (good_page (id_of "9") 3 1) groups ∧
    references = map reference_of (concat groups) ∧
    Forall2 (λ row h, ∃ previous, scan_plan_row previous row = Some h) (plan_rows (st_tx plan_start)) (concat groups).
Proof.
  eexists _, _. split; [reflexivity|]. split; [reflexivity|].
  apply (revision_pages_complete (id_of "9") 3 1 1000000 plan_base plan_start _ _ plan_result.2). vm_compute. reflexivity.
Defined.

(** ** Metadata *)
(** The records a snapshot is charged for: a tag and its fields. *)
Abbreviation metadata_record := (string * list string)%type.
Definition page_records (snapshotID : string) (index : Z) (page : storedSnapshotPage) : list metadata_record :=
  [("snapshot_pages.row", [snapshotID; accountingUint64 index; pp_token page; pp_body page]);
   ("snapshot_pages.pk", [snapshotID; accountingUint64 index]);
   ("snapshot_pages.token.unique", [pp_token page; snapshotID; accountingUint64 index])].
Definition reference_records (snapshotID : string) (r : snapshotRevisionReference) : list metadata_record :=
  [("snapshot_revision_refs.row", [snapshotID; sr_revisionID r; sr_contentHash r]);
   ("snapshot_revision_refs.pk", [snapshotID; sr_revisionID r])].
Definition metadata_records (snapshotID owner requestID createBody : string) (pages : list storedSnapshotPage)
    (references : list snapshotRevisionReference) : list metadata_record :=
  [("snapshots.row", [snapshotID; owner; requestID; zero32; zero8; zero8; zero8; zero8; zero8; createBody]);
   ("snapshots.pk", [snapshotID]); ("snapshots.owner_request.unique", [owner; requestID; snapshotID]);
   ("snapshots.monotonic_lease", [snapshotID; zero8])]
  ++ concat (imap (λ i p, page_records snapshotID (Z.of_nat i) p) pages)
  ++ flat_map (reference_records snapshotID) references.
(** Length-prefixed tag, field count, length-prefixed fields. *)
Definition lp_size (s : string) : Z := 8 + slen s.
Definition sum (l : list Z) : Z := foldr Z.add 0 l.
Definition record_size (r : metadata_record) : Z := lp_size r.1 + 8 + sum (map lp_size r.2).

(** [adds f n]: an accounting step that adds exactly [n], or overflows. *)
Definition sane (a : snapshotMetadataAccounting) : Prop := 0 <= total a <= MaxInt64.
Definition adds (f : snapshotMetadataAccounting → snapshotMetadataAccounting) (n : Z) : Prop :=
  0 <= n ∧ ∀ a, sane a → sane (f a) ∧
    (overflow a = false → total a + n <= MaxInt64 → f a = Mk_account (total a + n) false) ∧
    (overflow a = true ∨ MaxInt64 < total a + n → overflow (f a) = true).
Lemma adds_comp f g n m : adds f n → adds g m → adds (λ a, g (f a)) (n + m).
Proof.
  intros [Hn Hf] [Hm Hg]. split; [lia|]. intros a Ha. destruct (Hf a Ha) as (F1 & F2 & F3). destruct (Hg _ F1) as (G1 & G2 & G3).
  split_and!; [done| |].
  - intros Ho Ht. rewrite F2 in * by (done || lia). simpl in *. rewrite G2 by (done || lia). f_equal. lia.
  - intros H. apply G3. destruct (overflow a) eqn:Eo; [left; by apply F3; left|]. destruct H as [?|H]; [done|].
    destruct (Z.le_gt_cases (total a + n) MaxInt64) as [Hle|Hgt]; [|left; apply F3; by right].
    right. rewrite F2 by done. simpl. lia.
Qed.
Lemma adds_id : adds (λ a, a) 0.
Proof. split; [done|]. intros a Ha. split_and!; [done| |]; [intros Ho _; destruct a; simpl in *; by rewrite Z.add_0_r, Ho|]. unfold sane in Ha. intros [?|?]; [done|lia]. Qed.
Lemma adds_length n : 0 <= n → adds (addLength n) n.
Proof.
  intros Hn. split; [done|]. intros [t o] Ha. unfold addLength, addLength64, sane in *. simpl in *.
  destruct o; simpl; [split_and!; done || lia|]. destruct (Z.ltb_spec n 0); [lia|].
  destruct (Z.ltb_spec (MaxInt64 - t) n); simpl; split_and!; try done; try lia; intros [?|?]; done || lia.
Qed.
Lemma adds_lp s : adds (addLP s) (lp_size s).
Proof. unfold addLP, lp_size. apply (adds_comp (addLength 8) (addLength (slen s))); apply adds_length; [done|]. unfold slen. lia. Qed.
Lemma adds_fields fields : adds (λ a, fold_left (λ acc field, addLP field acc) fields a) (sum (map lp_size fields)).
Proof.
  induction fields as [|f fields IH]; simpl; [apply adds_id|].
  apply (adds_comp (addLP f) (λ a, fold_left (λ acc field, addLP field acc) fields a)); [apply adds_lp|done].
Qed.
Lemma adds_record tag fields : adds (addRecord tag fields) (record_size (tag, fields)).
Proof.
  unfold addRecord, record_size. simpl.
  apply (adds_comp (λ a, addLength 8 (addLP tag a)) (λ a, fold_left (λ acc field, addLP field acc) fields a)); [|apply adds_fields].
  apply (adds_comp (addLP tag) (addLength 8)); [apply adds_lp|by apply adds_length].
Qed.
#[local] Opaque addRecord.
Lemma adds_eq f n m : n = m → adds f n → adds f m.
Proof. by intros ->. Qed.
Lemma sum_app l k : sum (l ++ k) = sum l + sum k.
Proof. unfold sum. induction l; simpl; lia. Qed.
Definition size_of (l : list metadata_record) : Z := sum (map record_size l).
Lemma size_of_app l k : size_of (l ++ k) = size_of l + size_of k.
Proof. unfold size_of. by rewrite map_app, sum_app. Qed.
Lemma size_of_cons r l : size_of (r :: l) = record_size r + size_of l.
Proof. done. Qed.
Lemma adds_records l : adds (λ a, fold_left (λ acc r, addRecord (fst r) (snd r) acc) l a) (size_of l).
Proof.
  induction l as [|[tag fields] l IH]; [apply adds_id|]. rewrite size_of_cons. cbn [fold_left fst snd].
  apply (adds_comp (addRecord tag fields) (λ a, fold_left _ l a)); [apply adds_record|exact IH].
Qed.
Lemma adds_ext f g n : (∀ a, g a = f a) → adds f n → adds g n.
Proof. intros E [Hn H]. split; [done|]. intros a Ha. rewrite E. by apply H. Qed.
Lemma adds_base snapshotID owner requestID createBody :
  adds (accountSnapshotBase snapshotID owner requestID createBody) (size_of (metadata_records snapshotID owner requestID createBody [] [])).
Proof.
  eapply adds_ext; [|apply adds_records]. intros a. unfold metadata_records. cbn [imap concat flat_map app fold_left fst snd]. reflexivity.
Qed.
Lemma adds_page snapshotID index page :
  adds (accountSnapshotPage snapshotID index (pp_token page) (pp_body page)) (size_of (page_records snapshotID index page)).
Proof. eapply adds_ext; [|apply adds_records]. intros a. unfold page_records. cbn [fold_left fst snd]. reflexivity. Qed.
Lemma account_pages_cons snapshotID index page pages a :
  account_pages snapshotID index (page :: pages) a =
  account_pages snapshotID (index + 1) pages (accountSnapshotPage snapshotID index (pp_token page) (pp_body page) a).
Proof. set (f := accountSnapshotPage). unfold account_pages. fold account_pages. reflexivity. Qed.
Lemma adds_pages snapshotID pages : ∀ start,
  adds (account_pages snapshotID (Z.of_nat start) pages)
    (size_of (concat (imap (λ i p, page_records snapshotID (Z.of_nat (start + i)) p) pages))).
Proof.
  induction pages as [|page pages IH]; intros start; [apply adds_id|].
  rewrite imap_cons, concat_cons, size_of_app, Nat.add_0_r. eapply adds_ext; [intros a; apply account_pages_cons|].
  replace (Z.of_nat start + 1) with (Z.of_nat (S start)) by lia.
  apply (adds_comp (accountSnapshotPage snapshotID (Z.of_nat start) (pp_token page) (pp_body page))
           (account_pages snapshotID (Z.of_nat (S start)) pages)); [apply adds_page|].
  eapply adds_eq; [|apply (IH (S start))]. apply (f_equal (λ l, size_of (concat l))). apply imap_ext. intros i p _.
  unfold compose. by rewrite Nat.add_succ_r.
Qed.
Lemma adds_reference snapshotID r : adds (accountSnapshotReference snapshotID r) (size_of (reference_records snapshotID r)).
Proof. eapply adds_ext; [|apply adds_records]. intros a. unfold reference_records. cbn [fold_left fst snd]. reflexivity. Qed.
Lemma adds_fold {R} (f : R → snapshotMetadataAccounting → snapshotMetadataAccounting) (w : R → list metadata_record) l :
  (∀ r, adds (f r) (size_of (w r))) → adds (λ a, fold_left (λ acc r, f r acc) l a) (size_of (flat_map w l)).
Proof.
  intros Hf. induction l as [|r l IH]; [apply adds_id|]. cbn [fold_left flat_map]. rewrite size_of_app.
  apply (adds_comp (f r) (λ a, fold_left (λ acc r, f r acc) l a)); [apply Hf|exact IH].
Qed.
Lemma adds_comp3 f g h n m k : adds f n → adds g m → adds h k → adds (λ a, h (g (f a))) (n + m + k).
Proof. intros Hf Hg Hh. apply (adds_comp (λ a, g (f a)) h); [by apply adds_comp|done]. Qed.
Lemma adds_all snapshotID owner requestID createBody pages references :
  adds (λ a, fold_left (λ acc r, accountSnapshotReference snapshotID r acc) references
    (account_pages snapshotID (Z.of_nat 0) pages (accountSnapshotBase snapshotID owner requestID createBody a)))
  (size_of (metadata_records snapshotID owner requestID createBody [] [])
   + size_of (concat (imap (λ i p, page_records snapshotID (Z.of_nat (0 + i)) p) pages))
   + size_of (flat_map (reference_records snapshotID) references)).
Proof.
  exact (adds_comp3 _ _ _ _ _ _ (adds_base snapshotID owner requestID createBody) (adds_pages snapshotID pages 0)
           (adds_fold (accountSnapshotReference snapshotID) (reference_records snapshotID) references (adds_reference snapshotID))).
Qed.
Lemma metadata_size snapshotID owner requestID createBody pages references :
  size_of (metadata_records snapshotID owner requestID createBody pages references)
  = size_of (metadata_records snapshotID owner requestID createBody [] [])
    + size_of (concat (imap (λ i p, page_records snapshotID (Z.of_nat i) p) pages))
    + size_of (flat_map (reference_records snapshotID) references).
Proof. unfold metadata_records. rewrite !size_of_app. cbn [imap concat flat_map]. change (size_of []) with 0. lia. Qed.

(** The metadata account of a snapshot is exact: it is the sum of the sizes of the
    records the snapshot is charged for when that sum is an int64, and otherwise it
    reports overflow, so the limit is never passed by wrapping around. *)
Theorem snapshot_metadata_exact snapshotID owner requestID createBody pages references :
  let size := size_of (metadata_records snapshotID owner requestID createBody pages references) in
  let '(bytes, ok) := snapshotMetadataBytes snapshotID owner requestID createBody pages references in
  (size <= MaxInt64 → bytes = size ∧ ok = true) ∧ (MaxInt64 < size → ok = false).
Proof.
  cbv zeta. unfold snapshotMetadataBytes. rewrite metadata_size.
  destruct (adds_all snapshotID owner requestID createBody pages references) as [_ Hadds].
  specialize (Hadds (Mk_account 0 false)). cbv beta in Hadds. change (Z.of_nat 0) with 0 in Hadds.
  set (account := fold_left _ references _) in *. set (size := size_of _ + _ + _) in *. change (total (Mk_account 0 false)) with 0 in Hadds.
  clearbody account size. destruct Hadds as (_ & H1 & H2); [unfold sane; simpl; unfold MaxInt64; lia|].
  split; intros H.
  - rewrite H1 by done. done.
  - unfold account_ok. rewrite H2 by (right; lia). done.
Qed.
