(* ===== verification/ServerProps.v ===== *)
(** * The bounded request head and the admin socket

    However the peer cuts its bytes into segments and whatever sizes net/http reads,
    the head filter delivers a fixed function of the bytes sent; and what the admin
    socket answers, to whom, and under which lock. *)

From stdpp Require Import base list strings gmap.
From Stdlib Require Import ZArith Lia Ascii.
From Stdlib Require String.
From S2P Require Import Prelude GoStd GoTime Uuid Auth Json JsonFacts Api Wire Models Sql Schema Monad Runtime Enrollment.
From S2P Require Import Indent Release NetIP Fs Paths Config ConfigProps Layout Deploy Manifest Lifecycle Preview PreviewRun Http Service Server.
From S2P Require Import DeploySpec LifecycleProps DeployCrash ArtifactProps ServiceProps ApplyCrash HttpProps Samples.
Local Open Scope Z_scope.

(** ** Occurrences *)
Lemma has_prefix_app p b t : has_prefix p b = true → has_prefix p (b +:+ t) = true.
Proof.
  unfold has_prefix. destruct (strip_prefix p b) as [r|] eqn:E; [|done]. apply strip_prefix_Some in E as ->.
  by rewrite sapp_assoc, strip_prefix_app.
Qed.
Lemma has_prefix_cut p b t : (String.length p ≤ String.length b)%nat → has_prefix p (b +:+ t) = has_prefix p b.
Proof.
  unfold has_prefix. revert b. induction p as [|c p IH]; intros [|d b] H; simpl in H; try done; [lia|].
  rewrite sapp_cons. cbn [strip_prefix]. destruct (Ascii.eqb c d); [apply IH; lia|done].
Qed.
Lemma index_bound p s e : index_string p s = Some e → (e + String.length p ≤ String.length s)%nat.
Proof.
  revert e. induction s as [|c s IH]; intros e; cbn [index_string].
  - destruct (has_prefix p "") eqn:E; [|done]. intros [= <-]. by apply has_prefix_length in E.
  - destruct (has_prefix p (String c s)) eqn:E; [intros [= <-]; by apply has_prefix_length in E|].
    destruct (index_string p s) as [e'|]; [|done]. intros [= <-]. specialize (IH e' eq_refl). simpl. lia.
Qed.
Lemma index_app p b t e : index_string p b = Some e → index_string p (b +:+ t) = Some e.
Proof.
  intros H. pose proof (index_bound _ _ _ H) as Hb. revert e H Hb. induction b as [|c b IH]; intros e; cbn [index_string].
  - destruct (has_prefix p "") eqn:E; [|done]. intros [= <-] _. change ("" +:+ t) with t.
    destruct p; [by destruct t|]. by apply has_prefix_length in E; simpl in E; lia.
  - rewrite sapp_cons. cbn [index_string]. rewrite <- sapp_cons.
    destruct (has_prefix p (String c b)) eqn:E; [intros [= <-] _; by rewrite has_prefix_app|].
    destruct (index_string p b) as [e'|] eqn:Ei; [|done]. intros [= <-] Hb. simpl in Hb.
    rewrite has_prefix_cut, E by (simpl; lia). by rewrite (IH e' eq_refl) by lia.
Qed.
Lemma index_cut p b t e : index_string p (b +:+ t) = Some e → (e + String.length p ≤ String.length b)%nat → index_string p b = Some e.
Proof.
  revert e. induction b as [|c b IH]; intros e H Hb.
  - simpl in Hb. assert (e = 0%nat) as -> by lia. destruct p; [done|simpl in Hb; lia].
  - rewrite sapp_cons in H. cbn [index_string] in *. rewrite <- sapp_cons in H.
    simpl in Hb. rewrite has_prefix_cut in H by (simpl; destruct e; lia).
    destruct (has_prefix p (String c b)); [done|].
    destruct (index_string p (b +:+ t)) as [e'|]; [|done]. injection H as <-. by rewrite (IH e') by (done || lia).
Qed.
Lemma stake_sdrop n s : stake n s +:+ sdrop n s = s.
Proof. revert s. induction n as [|n IH]; intros [|c s]; try done. simpl stake. simpl sdrop. by rewrite sapp_cons, IH. Qed.
Lemma sdrop_app_exact s t : sdrop (String.length s) (s +:+ t) = t.
Proof. induction s as [|c s IH]; [done|]. by rewrite sapp_cons. Qed.
Lemma stake_empty n s : stake n s = "" → n ≠ 0%nat → s = "".
Proof. by destruct n, s. Qed.

(** ** The bytes net/http gets *)
Definition stream (p : peer) : string := concat_chunks (pr_segments p).
Definition head_fits (maxBytes : Z) (sent : string) : bool :=
  match index_string head_end sent with Some e => Z.of_nat e + 4 <=? maxBytes | None => false end.
(** A request whose head fits is passed on unchanged; a longer head is replaced, with the
    bytes read so far, by a fixed request; a connection that ends before is empty. *)
Definition filtered (maxBytes : Z) (sent : string) : string :=
  if head_fits maxBytes sent then sent
  else if maxBytes <? slen sent then limit_request +:+ sdrop (Z.to_nat (maxBytes + 1)) sent else "".

Lemma peer_Read_spec size p data err p' : peer_Read size p = (data, err, p') → size ≠ 0%nat →
  stream p = data +:+ stream p' ∧ (String.length data ≤ size)%nat ∧
  match err with
  | Some _ => data = "" ∧ p' = p ∧ stream p = ""
  | None => (peer_size p' < peer_size p)%nat
  end.
Proof.
  unfold peer_Read, stream, peer_size. destruct (pr_segments p) as [|segment rest] eqn:E.
  - intros [= <- <- <-] _. rewrite E. split_and!; [done|simpl; lia|done..].
  - intros [= <- <- <-] Hn. pose proof (stake_sdrop size segment) as Hs. split_and!.
    + destruct (String.eqb_spec (sdrop size segment) "") as [E'|_]; simpl.
      * rewrite <- Hs at 1. by rewrite E', sapp_nil_r.
      * rewrite <- Hs at 1. by rewrite sapp_assoc.
    + clear. revert segment. induction size as [|n IH]; intros [|c s]; simpl; try lia. specialize (IH s). lia.
    + destruct (String.eqb_spec (sdrop size segment) "") as [E'|Hk]; simpl; [lia|].
      assert (String.length segment = String.length (stake size segment) + String.length (sdrop size segment))%nat.
      { rewrite <- Hs at 1. by rewrite length_sapp. }
      assert (String.length (stake size segment) ≠ 0%nat); [|lia].
      destruct segment; [by destruct size|]. by destruct size.
Qed.

(** What is still to be delivered. *)
Definition undelivered (maxBytes : Z) (c : headerLimitConn) : string :=
  if hc_complete c then hc_buffer c +:+ stream (hc_peer c) else filtered maxBytes (hc_buffer c +:+ stream (hc_peer c)).
(** Before the head is complete nothing is delivered, at most one byte too many was
    read, and the flag is not yet set; afterwards the flag says what was delivered. *)
Definition conn_ok (maxBytes : Z) (sent : string) (c : headerLimitConn) : Prop :=
  if hc_complete c then
    hc_exceeded c = negb (head_fits maxBytes sent) ∧ (hc_exceeded c = true → valid_uuid (hc_requestID c) = true)
  else hc_exceeded c = false ∧ hc_buffer c +:+ stream (hc_peer c) = sent ∧ slen (hc_buffer c) <= maxBytes + 1.
Section filter.
Context {S : Type} `{!Random S, !RandomLaws S} (maxBytes : Z) (Hmax : 0 <= maxBytes).
Lemma deliver_pending size c out err c' : deliver size c = (out, err, c') → hc_complete c = true →
  undelivered maxBytes c = out +:+ undelivered maxBytes c' ∧ err = None ∧ hc_complete c' = true ∧
  hc_exceeded c' = hc_exceeded c ∧ hc_requestID c' = hc_requestID c.
Proof.
  intros [= <- <- <-] Hc. unfold undelivered. rewrite Hc. simpl. by rewrite <- sapp_assoc, stake_sdrop.
Qed.
Lemma overlong c sent : conn_ok maxBytes sent c → hc_complete c = false → slen (hc_buffer c) = maxBytes + 1 →
  (∀ e, index_string head_end (hc_buffer c) = Some e → maxBytes < Z.of_nat e + 4) →
  head_fits maxBytes sent = false ∧ filtered maxBytes sent = limit_request +:+ stream (hc_peer c).
Proof.
  unfold conn_ok. intros Hok Hc Hl Hi. rewrite Hc in Hok. destruct Hok as (_ & Hs & _).
  assert (Hf : head_fits maxBytes sent = false).
  { unfold head_fits. destruct (index_string head_end sent) as [e|] eqn:E; [|done]. apply Z.leb_gt.
    destruct (Z.le_gt_cases (Z.of_nat e + 4) maxBytes) as [Hle|]; [|done]. apply Hi. subst sent.
    eapply index_cut; [exact E|]. change (String.length head_end) with 4%nat. unfold slen in Hl. lia. }
  split; [done|]. unfold filtered. rewrite Hf. subst sent. rewrite slen_app, Hl.
  assert (0 <= slen (stream (hc_peer c))) by (unfold slen; lia).
  rewrite (proj2 (Z.ltb_lt _ _)) by lia. f_equal.
  replace (Z.to_nat (maxBytes + 1)) with (String.length (hc_buffer c)) by (unfold slen in Hl; lia). apply sdrop_app_exact.
Qed.
Lemma replace_pending size c sent s out err c' s' : conn_ok maxBytes sent c → hc_complete c = false →
  slen (hc_buffer c) = maxBytes + 1 →
  (∀ e, index_string head_end (hc_buffer c) = Some e → maxBytes < Z.of_nat e + 4) →
  replaceWithLimitRequest size c s = ((out, err, c'), s') →
  undelivered maxBytes c = out +:+ undelivered maxBytes c' ∧ err = None ∧ hc_complete c' = true ∧ conn_ok maxBytes sent c'.
Proof.
  intros Hok Hc Hl Hi. destruct (overlong c sent Hok Hc Hl Hi) as [Hf Hp]. unfold replaceWithLimitRequest.
  destruct (RequestIDOrFallback _ s) as [id s1] eqn:Er. intros Hd%(f_equal fst). cbn [fst] in Hd.
  assert (Hid : valid_uuid id = true).
  { pose proof (RequestIDOrFallback_valid (requestIDValues (hc_buffer c)) s) as Hv. by rewrite Er in Hv. }
  apply deliver_pending in Hd as (Hpend & -> & Hc' & He & Hi'); [|done]. split_and!; [|done|done|].
  - rewrite <- Hpend. unfold undelivered at 1. rewrite Hc. unfold conn_ok in Hok. rewrite Hc in Hok.
    destruct Hok as (_ & -> & _). by rewrite Hp.
  - unfold conn_ok. rewrite Hc', He, Hi', Hf. done.
Qed.
Lemma fill_pending fuel size sent : ∀ c s out err c' s', conn_ok maxBytes sent c → hc_complete c = false →
  (peer_size (hc_peer c) < fuel)%nat → fill maxBytes fuel size c s = ((out, err, c'), s') →
  undelivered maxBytes c = out +:+ undelivered maxBytes c' ∧ conn_ok maxBytes sent c' ∧
  (is_Some err → out = "" ∧ undelivered maxBytes c' = "") ∧ (err = None → hc_complete c' = true).
Proof.
  induction fuel as [|fuel IH]; intros c s out err c' s' Hok Hc Hfuel; [lia|]. cbn [fill].
  pose proof Hok as Hok'. unfold conn_ok in Hok'. rewrite Hc in Hok'. destruct Hok' as (Hx & Hs & Hl).
  destruct (index_string head_end (hc_buffer c)) as [e|] eqn:Ei.
  - pose proof (index_bound _ _ _ Ei) as Hb. change (String.length head_end) with 4%nat in Hb.
    destruct (Z.ltb_spec maxBytes (Z.of_nat e + 4)) as [Hlt|Hge].
    + intros Hr. apply (replace_pending size c sent) in Hr as (H1 & -> & H2 & H3); [|done|done|unfold slen in *; lia|intros e' He'; congruence || (rewrite Ei in He'; by injection He' as <-)].
      split_and!; [done|done|by intros []|done].
    + intros [= <- <- <- _]. assert (Hfit : head_fits maxBytes sent = true).
      { unfold head_fits. rewrite <- Hs, (index_app _ _ _ _ Ei). by apply Z.leb_le. }
      split_and!; [| |by intros []|done].
      * unfold undelivered, filtered. rewrite Hc, Hs, Hfit. simpl. by rewrite <- sapp_assoc, stake_sdrop, Hs.
      * unfold conn_ok. simpl. rewrite Hx, Hfit. done.
  - destruct (Z.ltb_spec maxBytes (slen (hc_buffer c))) as [Hlt|Hge].
    + intros Hr. apply (replace_pending size c sent) in Hr as (H1 & -> & H2 & H3); [|done|done|lia|by rewrite Ei].
      split_and!; [done|done|by intros []|done].
    + set (chunk := if _ <? 4096 then _ else _). assert (Hch : 0 < chunk <= maxBytes + 1 - slen (hc_buffer c)).
      { subst chunk. destruct (Z.ltb_spec (maxBytes + 1 - slen (hc_buffer c)) 4096); lia. }
      destruct (peer_Read (Z.to_nat chunk) (hc_peer c)) as [[data perr] p] eqn:Er.
      apply peer_Read_spec in Er as (Hst & Hd & Hp); [|lia].
      set (c1 := mkConn p _ _ _ _). assert (Hsame : undelivered maxBytes c1 = undelivered maxBytes c).
      { unfold undelivered. subst c1. simpl. rewrite Hc, Hst. by rewrite sapp_assoc. }
      assert (Hok1 : conn_ok maxBytes sent c1).
      { unfold conn_ok. subst c1. simpl. rewrite Hc. split_and!; [done|by rewrite sapp_assoc, <- Hst|].
        rewrite slen_app. unfold slen in *. lia. }
      destruct perr as [e|].
      * destruct Hp as (-> & -> & Hnil). simpl. intros [= <- <- <- _]. rewrite Hsame. split_and!; [done|done| |done].
        intros _. split; [done|]. unfold undelivered, filtered, head_fits. rewrite Hc, Hnil, sapp_nil_r, Ei.
        by rewrite (proj2 (Z.ltb_ge _ _)) by lia.
      * intros Hr. assert (Hnext : fill maxBytes fuel size c1 s = (out, err, c', s')) by by destruct (negb _).
        rewrite <- Hsame. apply (IH c1 s _ _ _ s'); [done|by subst c1|subst c1; simpl; lia|done].
Qed.
Lemma read_pending size sent c s out err c' s' : size ≠ 0%nat → conn_ok maxBytes sent c →
  conn_Read maxBytes size c s = ((out, err, c'), s') →
  undelivered maxBytes c = out +:+ undelivered maxBytes c' ∧ conn_ok maxBytes sent c' ∧
  (is_Some err → out = "" ∧ undelivered maxBytes c' = "") ∧ (err = None → hc_complete c' = true).
Proof.
  intros Hn Hok. unfold conn_Read. destruct (negb _ && _) eqn:E1.
  - unbool. intros Hd%(f_equal fst). cbn [fst] in Hd. apply deliver_pending in Hd as (H1 & -> & H2 & H3 & H4); [|done].
    split_and!; [done| |by intros []|done]. unfold conn_ok in *. by rewrite H2, H3, H4, H0 in *.
  - destruct (hc_complete c) eqn:Ec; [|intros Hf; eapply fill_pending; [done|done| |exact Hf]; lia].
    rewrite andb_true_r in E1. unbool. apply String.eqb_eq in E1.
    destruct (peer_Read size (hc_peer c)) as [[data perr] p] eqn:Er. apply peer_Read_spec in Er as (Hst & _ & Hp); [|done].
    intros [= <- <- <- _]. unfold undelivered, conn_ok in *. simpl. rewrite Ec, E1 in *.
    split; [exact Hst|]. split; [exact Hok|]. split; [|done]. intros [e ->]. destruct Hp as (-> & -> & ->). done.
Qed.

(** A sequence of reads, up to the first that fails. *)
Fixpoint reads (sizes : list nat) (c : headerLimitConn) (s : S) : string * option string * headerLimitConn * S :=
  match sizes with
  | [] => ("", None, c, s)
  | size :: rest =>
      match conn_Read maxBytes size c s with
      | ((out, Some e, c'), s') => (out, Some e, c', s')
      | ((out, None, c'), s') => let '(more, err, c'', s'') := reads rest c' s' in (out +:+ more, err, c'', s'')
      end
  end.
Lemma reads_pending sizes sent : Forall (λ n, n ≠ 0%nat) sizes → ∀ c s out err c' s', conn_ok maxBytes sent c →
  reads sizes c s = (out, err, c', s') →
  undelivered maxBytes c = out +:+ undelivered maxBytes c' ∧ conn_ok maxBytes sent c' ∧
  (is_Some err → undelivered maxBytes c' = "") ∧ (out ≠ "" → hc_complete c = true ∨ hc_complete c' = true).
Proof.
  induction 1 as [|size rest Hn _ IH]; intros c s out err c' s' Hok; cbn [reads].
  { intros [= <- <- <- _]. split_and!; [done|done|by intros []|done]. }
  destruct (conn_Read maxBytes size c s) as [[[out1 err1] c1] s1] eqn:E.
  apply (read_pending size sent) in E as (H1 & H2 & H3 & H4); [|done|done]. destruct err1 as [e|].
  - intros [= <- <- <- _]. destruct H3 as [-> H3]; [by eexists|]. split_and!; [done|done|done|done].
  - destruct (reads rest c1 s1) as [[[more err2] c2] s2] eqn:Er. intros [= <- <- <- _].
    destruct (IH c1 s1 _ _ _ _ H2 Er) as (H5 & H6 & H7 & H8). specialize (H4 eq_refl).
    split_and!; [by rewrite H1, H5, sapp_assoc|done|done|]. intros _. right.
    clear -Er H4 Hmax. revert c1 s1 more err2 c2 s2 Er H4. induction rest as [|n rest IH]; intros c1 s1 more err2 c2 s2; cbn [reads].
    { by intros [= _ _ <- _]. }
    intros Er H4. destruct (conn_Read maxBytes n c1 s1) as [[[o e] c3] s3] eqn:E3. assert (H5 : hc_complete c3 = true).
    { unfold conn_Read in E3. rewrite H4, andb_true_r in E3. destruct (negb _).
      - injection E3 as _ _ <- _. done.
      - destruct (peer_Read n (hc_peer c1)) as [[? ?] ?]. by injection E3 as _ _ <- _. }
    destruct e as [e|]; [by injection Er as _ _ <- _|]. destruct (reads rest c3 s3) as [[[m e] c4] s4] eqn:E4.
    injection Er as _ _ <- _. by eapply IH.
Qed.
End filter.

(** A transport without a source of random bytes, for the witness. *)
#[local] Instance mute_random : Random unit := {| rnd_Read _ u := (None, u) |}.
#[local] Instance mute_random_laws : RandomLaws unit.
Proof. by split. Qed.
#[local] Instance mute_plane : DataPlane unit := {| dp_HandleAPI _ u := (Err (NewError "internal_error" false), u) |}.
#[local] Instance mute_readiness : Readiness unit := {| rd_Ready u := (false, u) |}.
Definition long_head : peer := mkPeer ["GET / HT"; "TP/1.1"; crlf +:+ "jat-request-id: 01234567-89ab-4cde-8f01-23456789abcd" +:+ crlf; "X: y"] "EOF".
Definition head_run : string * option string * headerLimitConn * unit := reads 70 [5; 4096]%nat (accept_limited long_head) tt.

(** ** Admin requests *)
Abbreviation admin_fields T := [("operation", TString); ("direct_init", TBool); ("deployment", T)].
Lemma plain_admin r : wire_plain r = true →
  plain (aq_Operation r) = true ∧ has_ty (TPtr (go_ty wireBinding)) (to_g (aq_Deployment r)) = true.
Proof.
  intros Hp. apply (has_ty_struct (admin_fields (TPtr (go_ty wireBinding)))
    [GStr (aq_Operation r); GBool (aq_DirectInit r); to_g (aq_Deployment r)]) in Hp.
  inversion_clear Hp as [|? ? ? ? H1 Hp']. inversion_clear Hp' as [|? ? ? ? _ Hp]. by inversion_clear Hp as [|? ? ? ? H3 _].
Qed.
Definition admin_members (r : adminRequest) : list (string * json) :=
  [("operation", JStr (aq_Operation r))] ++ (if aq_DirectInit r then [("direct_init", JBool true)] else []) ++
  match aq_Deployment r with Some b => [("deployment", to_json (go_ty wireBinding) (to_g b))] | None => [] end.
Lemma admin_json_members r : admin_json r = JObj (admin_members r).
Proof. destruct r as [operation [] [binding|]]; reflexivity. Qed.
Lemma set_deployment T J v operation direct : decode true (TPtr T) (GPtr None) J = Some v →
  set_member true (admin_fields (TPtr T)) (Some [operation; direct; GPtr None]) ("deployment", J) = Some [operation; direct; v].
Proof. intros Hd. cbn -[decode]. by rewrite Hd. Qed.
Lemma admin_json_decodes r : wire_plain r = true →
  decode true (go_ty adminRequest) (zero (go_ty adminRequest)) (admin_json r) = Some (to_g r).
Proof.
  intros (_ & Hf)%plain_admin. rewrite admin_json_members. destruct r as [operation direct binding].
  apply (decode_to_json true) in Hf; [|done].
  assert (Hd : decode true (TPtr (go_ty wireBinding)) (GPtr None) (to_json (TPtr (go_ty wireBinding)) (to_g binding))
    = Some (to_g binding)) by exact Hf. clear Hf. unfold admin_members. cbn [aq_Operation aq_DirectInit aq_Deployment] in *.
  change (go_ty adminRequest) with (TStruct (admin_fields (TPtr (go_ty wireBinding)))).
  rewrite zero_struct, decode_struct, !fold_left_app. cbn -[decode to_json to_g go_ty].
  set (finish o := match o with Some vals => Some (GStruct vals) | None => None end).
  destruct binding as [b|]; [|by destruct direct].
  destruct direct; exact (f_equal finish (set_deployment _ _ _ (GStr operation) (GBool _) Hd)).
Qed.
Lemma admin_json_plain r : wire_plain r = true → json_plain (admin_json r) = true.
Proof.
  intros (Ho & Hf)%plain_admin. rewrite admin_json_members. unfold admin_members.
  cbn [json_plain]. rewrite !forallb_app. cbn [forallb json_plain fst snd]. rewrite Ho.
  destruct (aq_DirectInit r), (aq_Deployment r) as [b|]; cbn [forallb json_plain fst snd]; try done.
  all: by rewrite to_json_plain.
Qed.
Lemma decode_admin r : wire_plain r = true → decodeStrictStream adminRequest (print (admin_json r)) = Some r.
Proof.
  intros Hp. pose proof (admin_json_plain r Hp) as Hj. unfold decodeStrictStream, parse_json.
  rewrite <- (sapp_nil_r (print (admin_json r))) at 2. rewrite parse_print; [|done| |done].
  - change (String.eqb (skip_ws "") "") with true. cbv iota. rewrite admin_json_decodes by done. apply of_to_g.
  - pose proof (jsize_print _ Hj). lia.
Qed.

(** The admin socket accepts a request exactly in its canonical form: what decodes is
    within the bound and encodes back to the very bytes that were sent, and every request
    of printable text that encodes within the bound decodes to itself. *)
Theorem admin_request_canonical (payload : string) (request : adminRequest) :
  (decodeAdminRequest payload = Ok request → encodeAdminRequest request = Ok payload) ∧
  (wire_plain request = true → encodeAdminRequest request = Ok payload → decodeAdminRequest payload = Ok request).
Proof.
  split.
  - unfold decodeAdminRequest. destruct (_ || _); [done|]. destruct (decodeStrictStream _ _) as [r|]; [|done].
    destruct (encodeAdminRequest r) as [canonical|] eqn:E; [|done]. destruct (String.eqb_spec payload canonical) as [->|]; [|done].
    by intros [= <-].
  - intros Hp He. unfold decodeAdminRequest. pose proof He as He'. unfold encodeAdminRequest in He'. cbv zeta in He'.
    destruct (_ || _) eqn:Eb in He'; [done|]. apply Ok_inj in He'. subst payload. rewrite Eb. rewrite decode_admin by done.
    rewrite He. by rewrite String.eqb_refl.
Qed.
Definition sample_admin : adminRequest := Mk_adminRequest "enrollment_create" false (Some (Mk_wireBinding 7 "/home/u/bin" "aa")).
Lemma admin_request_canonical_witness : ∃ payload, decodeAdminRequest payload = Ok sample_admin.
Proof.
  exists (print (admin_json sample_admin)). apply (admin_request_canonical (print (admin_json sample_admin)) sample_admin); vm_compute; reflexivity.
Defined.

(** ** Who may create a grant *)
Lemma dep_bind_ok {H A B} (x : DepM H A) (f : A → DepM H B) m m' b : (x ≫= f) m = (m', Ok b) →
  ∃ a m1, x m = (m1, Ok a) ∧ f a m1 = (m', Ok b).
Proof. unfold mbind, depm_bind, dep_bind. destruct (x m) as [m1 [a|e]]; [|done]. eauto. Qed.
Lemma within_ok {H A} context (x : DepM H A) m m' a : within context x m = (m', Ok a) → x m = (m', Ok a).
Proof. unfold within. destruct (x m) as [m1 [b|e]]; [by intros [= -> ->]|done]. Qed.
Lemma from_res_ok {H A} (r : res string A) (m m' : Machine H) a : from_res r m = (m', Ok a) → r = Ok a ∧ m' = m.
Proof. destruct r; [by intros [= -> ->]|done]. Qed.
Lemma demand_ok {H} b text (m m' : Machine H) : demand b text m = (m', Ok tt) → b = true.
Proof. by destruct b. Qed.
Section grants.
Context {H : Type} `{!Host H, !PreviewHost H}.
(** On the machine [m]: no deployment is in progress, and the recorded state has
    [executable] as its running release, with the generation and digest of the binding. *)
Definition managed_deployment (layout : Layout) (executable : string) (b : wireBinding) (m : Machine H) : Prop :=
  ∃ m1 m2 e state release,
    LoadJournal layout m = (m1, Err e) ∧ Is e ErrNoDeploymentJournal = true ∧ LoadState layout m1 = (m2, Ok state) ∧
    (ds_Status state = StatusActive ∨ ds_Status state = StatusForeground) ∧ ds_Active state = Some release ∧
    ir_BinaryPath release = executable ∧ ds_Generation state = wb_Generation b ∧
    ir_BinaryPath release = wb_BinaryPath b ∧ ir_BinarySHA256 release = wb_BinarySHA256 b.
Lemma managed_binding_ok layout location b m m' :
  managed_binding layout location (mkBinding (wb_Generation b) (wb_BinaryPath b) (wb_BinarySHA256 b) "") m = (m', Ok tt) →
  managed_deployment layout (el_resolvedExecutable location) b m.
Proof.
  unfold managed_binding. intros Hb. apply dep_bind_ok in Hb as (journal & m1 & Hj & Hb).
  apply dep_bind_ok in Hb as ([] & m2 & He & Hb). apply dep_bind_ok in Hb as (state & m3 & Hs & Hb). apply within_ok in Hs.
  apply dep_bind_ok in Hb as (actual & m4 & Ha & Hb). apply from_res_ok in Ha as [Ha ->]. apply demand_ok in Hb.
  unfold tried in Hj. destruct (LoadJournal layout m) as [m5 [j|e]] eqn:El; [injection Hj as <- <-; done|]. injection Hj as <- <-.
  destruct (Is e ErrNoDeploymentJournal) eqn:Ei; [|done]. injection He as <-.
  unfold activeExecutableBinding in Ha. destruct (ds_Active state) as [release|] eqn:Er; [|done].
  destruct (negb _ || negb _) eqn:Eb; [done|]. injection Ha as <-.
  apply orb_false_iff in Eb as [Est%negb_false_iff Ebin%negb_false_iff%String.eqb_eq]. apply orb_true_iff in Est.
  rewrite !String.eqb_eq in Est. unfold same_binding in Hb. cbn [ab_Generation ab_BinaryPath ab_BinarySHA256] in Hb.
  apply andb_true_iff in Hb as [[Eg%Z.eqb_eq Ep%String.eqb_eq]%andb_true_iff Ed%String.eqb_eq].
  exists m5, m3, e, state, release. split_and!; done || congruence.
Qed.
Context (UserHomeDir : res string string) (EvalSymlinks : string → FsM string).
Lemma lease_ok executable stateDir b m m' lock :
  AcquireManagedActiveLease UserHomeDir EvalSymlinks executable stateDir
    (mkBinding (wb_Generation b) (wb_BinaryPath b) (wb_BinarySHA256 b) "") m = (m', Ok lock) →
  ∃ location layout m1 m2, locateDeploymentExecutable UserHomeDir EvalSymlinks executable m = (m1, Ok location) ∧
    NewLayout (el_physicalHome location) (el_installRoot location) stateDir = Ok layout ∧
    acquireDeploymentSharedLock (lifecycle_of layout) m1 = (m2, Ok lock) ∧
    managed_deployment layout (el_resolvedExecutable location) b m2.
Proof.
  unfold AcquireManagedActiveLease. intros Hl. apply dep_bind_ok in Hl as (location & m1 & Hloc & Hl).
  apply dep_bind_ok in Hl as (layout & m1' & Hlay & Hl). apply within_ok, from_res_ok in Hlay as [Hlay ->].
  apply dep_bind_ok in Hl as (lock' & m2 & Hlock & Hl). apply within_ok in Hlock.
  apply dep_bind_ok in Hl as (bound & m3 & Hb & Hl). unfold tried in Hb.
  destruct (managed_binding layout location _ m2) as [m4 [[]|e]] eqn:Em; injection Hb as <- <-.
  - injection Hl as _ <-. apply managed_binding_ok in Em. by exists location, layout, m1, m2.
  - apply dep_bind_ok in Hl as (closed & m5 & _ & Hl). done.
Qed.
End grants.

(** C33. The admin socket creates an enrollment grant only for an executable it is bound
    to.  A request that changes the committed database is a canonical [enrollment_create]
    request; if it names a deployment then, with the shared lifecycle lock taken before,
    no deployment was in progress and the recorded one was running this very executable
    with the named generation, path and digest; otherwise it is a direct request to an
    executable that belongs to no deployment. *)
Theorem enrollment_requires_binding {H : Type} `{!Host H, !PreviewHost H} (UserHomeDir : res string string)
    (EvalSymlinks : string → FsM string) (settings : Settings) (stateDir executable runtime_version EncodedIdentity : string)
    (now : gotime) (payload : string) (st : St) (m : Machine H) :
  let run := handleAdminRequest UserHomeDir EvalSymlinks settings stateDir executable runtime_version EncodedIdentity now payload (st, m) in
  st_db run.1.1 ≠ st_db st →
  ∃ request, decodeAdminRequest payload = Ok request ∧ aq_Operation request = "enrollment_create" ∧
    match aq_Deployment request with
    | Some b => aq_DirectInit request = false ∧
        ∃ location layout m1 m2 lock, locateDeploymentExecutable UserHomeDir EvalSymlinks executable m = (m1, Ok location) ∧
          NewLayout (el_physicalHome location) (el_installRoot location) stateDir = Ok layout ∧
          acquireDeploymentSharedLock (lifecycle_of layout) m1 = (m2, Ok lock) ∧
          managed_deployment layout (el_resolvedExecutable location) b m2
    | None => aq_DirectInit request = true ∧
        ∃ e, (ActiveExecutableForExecutable UserHomeDir EvalSymlinks executable m).2 = Err e ∧ Is e ErrNotDeployedExecutable = true
    end.
Proof.
  intros run Hne. subst run. unfold handleAdminRequest, mbind at 1, adminm_bind at 1, admin_bind at 1 in Hne.
  destruct (decodeAdminRequest payload) as [request|e]; [|done]. exists request. split; [done|]. cbn [admin_res mret] in Hne.
  change (@mret (AdminM H) _ adminRequest request (st, m)) with ((st, m), Ok (E:=derr) request) in Hne. cbv iota beta in Hne.
  destruct (String.eqb_spec (aq_Operation request) "deployment_status") as [E|_].
  { destruct (_ || _) in Hne; [done|]. unfold admin_res in Hne. destruct deployment_status_reply in Hne; done. }
  destruct (String.eqb_spec (aq_Operation request) "enrollment_create") as [E|_]; [|done]. split; [done|].
  unfold handleEnrollmentRequest in Hne. destruct (aq_Deployment request) as [b|].
  - destruct (aq_DirectInit request); [done|]. split; [done|]. unfold mbind at 1, adminm_bind at 1, admin_bind at 1, on_machine at 1 in Hne.
    cbn [fst snd] in Hne. destruct (AcquireManagedActiveLease _ _ _ _ _ m) as [m' [lock|e]] eqn:El; [|done].
    apply lease_ok in El as (location & layout & m1 & m2 & Hl). by exists location, layout, m1, m2, lock.
  - destruct (aq_DirectInit request); [|done]. split; [done|]. unfold mbind at 1, adminm_bind at 1, admin_bind at 1, admin_tried at 1, on_machine at 1 in Hne.
    cbn [negb fst snd] in Hne. destruct (ActiveExecutableForExecutable _ _ _ m) as [m' [binding|e]] eqn:Ea; [done|].
    exists e. split; [done|]. destruct (Is e ErrNotDeployedExecutable) eqn:Ei; [done|].
    done.
Qed.
(** An installed release asks for a grant. *)
Definition sample_binding : wireBinding := Mk_wireBinding 1 (ir_BinaryPath sample_desired) (ir_BinarySHA256 sample_desired).
Definition grant_request : string := print (admin_json (Mk_adminRequest "enrollment_create" false (Some sample_binding))).
Definition deployed_machine : Machine Desk :=
  ((_ ← on_files (PrepareVersionDirectory sample_layout "2.1.0"); _ ← SaveState sample_layout first_state;
    _ ← acquireDeploymentLock (lifecycle_of sample_layout); mret tt : DepM Desk unit)
    (mkMachine prepared_world (mkDesk (mkService None true) false) sample_journal)).1.
Definition sample_settings : Settings := Mk_Settings 1 (InstanceID sample_identity) (VaultID sample_identity) DefaultListeners.
Definition grant_run : (St * Machine Desk) * res derr string :=
  handleAdminRequest (Ok "/home/u") (λ path, mret path) sample_settings (ly_StateDir sample_layout) (ir_BinaryPath sample_desired)
    "go1.25.0" "dev" (at_ms 10) grant_request (with_rand [sample_grant] booted_state, deployed_machine).
Definition grants_of (d : db) : nat := length (tb_enrollment_grants d).
Lemma enrollment_requires_binding_witness : ∃ request, decodeAdminRequest grant_request = Ok request ∧ aq_Deployment request = Some sample_binding ∧
  aq_Operation request = "enrollment_create".
Proof.
  destruct (enrollment_requires_binding (Ok "/home/u") (λ path, mret path) sample_settings (ly_StateDir sample_layout) (ir_BinaryPath sample_desired)
    "go1.25.0" "dev" (at_ms 10) grant_request (with_rand [sample_grant] booted_state) deployed_machine) as (request & Hd & Ho & _).
  - intros E. apply (f_equal grants_of) in E. vm_compute in E. discriminate E.
  - exists request. split; [exact Hd|]. split; [|exact Ho].
    assert (E : decodeAdminRequest grant_request = Ok (Mk_adminRequest "enrollment_create" false (Some sample_binding))) by (vm_compute; reflexivity).
    rewrite E in Hd. by injection Hd as <-.
Defined.
