(* ===== verification/BundleProps.v ===== *)
(** * Release bundles: properties

    Theorems about [src/runtime/internal/releasebundle]: the commands it writes mean to a
    shell exactly what was meant, a bundle is published as a whole or not at all and never
    replaced, and what it contains is what its manifest pins and what the deployment of a
    release accepts.  [sh_words] is the reading of a simple command by a POSIX shell. *)

From stdpp Require Import base list strings gmap.
From Stdlib Require Import ZArith Lia Ascii.
From Stdlib Require String.
From S2P Require Import Prelude GoStd GoTime Json JsonFacts Api Wire Indent Release NetIP Fs Paths Config Layout Deploy Manifest Artifact.
From S2P Require Import Lifecycle Preview PreviewRun Http Service Bundle ConfigProps InstanceProps ManifestProps ArtifactProps RemovalProps ServiceProps.
Local Open Scope Z_scope.

(** ** Words of a shell command

    Unquoted text, single quotes, and double quotes with [${NAME-}]; anything else that
    a shell would interpret is refused. *)
Inductive sh_mode := Unquoted | Single | Double | Dollar | Expanding (name : string).
Definition plain_char (c : ascii) : bool :=
  let z := byteZ c in is_alpha z || is_digit z || one_of "-_./:=,+@%" z.
Definition plain_text (s : string) : bool := forallb (λ z, is_alpha z || is_digit z || one_of "-_./:=,+@%" z) (bytes_list s).
Definition flush (word : option string) (words : list string) : list string :=
  match word with Some w => w :: words | None => words end.
Definition grown (word : option string) (s : string) : option string :=
  Some (match word with Some w => w +:+ s | None => s end).

Section shell.
Context (env : string → string).
Fixpoint sh (mode : sh_mode) (word : option string) (s : string) : option (list string) :=
  match s with
  | EmptyString => match mode with Unquoted => Some (flush word []) | _ => None end
  | String c rest =>
      match mode with
      | Unquoted =>
          if byteZ c =? 10 then if String.eqb rest "" then Some (flush word []) else None
          else if Ascii.eqb c " " then flush word <$> sh Unquoted None rest
          else if Ascii.eqb c "'" then sh Single (grown word "") rest
          else if byteZ c =? 34 then sh Double (grown word "") rest
          else if Ascii.eqb c "~" then
            match word, rest with
            | None, String "/" _ => sh Unquoted (Some (env "HOME")) rest
            | _, _ => None
            end
          else if plain_char c then sh Unquoted (grown word (String c "")) rest else None
      | Single => if Ascii.eqb c "'" then sh Unquoted word rest else sh Single (grown word (String c "")) rest
      | Double =>
          if byteZ c =? 34 then sh Unquoted word rest
          else if Ascii.eqb c "$" then sh Dollar word rest
          else if Ascii.eqb c "\" || Ascii.eqb c "`" then None
          else sh Double (grown word (String c "")) rest
      | Dollar => if Ascii.eqb c "{" then sh (Expanding "") word rest else None
      | Expanding name =>
          match c, rest with
          | "-"%char, String "}" _ => sh (Expanding name) word rest
          | "}"%char, _ => sh Double (grown word (env name)) rest
          | _, _ => if is_alpha (byteZ c) || (byteZ c =? 95) then sh (Expanding (name +:+ String c "")) word rest else None
          end
      end
  end.
Definition sh_words (line : string) : option (list string) := sh Unquoted None line.

Lemma grown_grown word s t : grown (grown word s) t = grown word (s +:+ t).
Proof. unfold grown. destruct word; [by rewrite sapp_assoc|done]. Qed.
Lemma grown_nil w : grown (Some w) "" = Some w.
Proof. unfold grown. by rewrite sapp_nil_r. Qed.
Lemma plain_not_special c : plain_char c = true →
  (byteZ c =? 10) = false ∧ Ascii.eqb c " " = false ∧ Ascii.eqb c "'" = false ∧ (byteZ c =? 34) = false ∧ Ascii.eqb c "~" = false.
Proof. destruct c as [[] [] [] [] [] [] [] []]; vm_compute; done. Qed.
Lemma sh_plain s : plain_text s = true → ∀ word rest, s ≠ "" →
  sh Unquoted word (s +:+ rest) = sh Unquoted (grown word s) rest.
Proof.
  induction s as [|c s IH]; [done|]. intros Hp word rest _.
  change (plain_char c && plain_text s = true) in Hp. apply andb_true_iff in Hp as [Hc Hs].
  pose proof (plain_not_special c Hc) as (E1 & E2 & E3 & E4 & E5).
  change (String c s +:+ rest) with (String c (s +:+ rest)). simpl. rewrite E1, E2, E3, E4, E5, Hc.
  destruct s as [|d s]; [done|]. rewrite IH by done. by rewrite grown_grown.
Qed.
Lemma sh_space word rest : sh Unquoted word (String " " rest) = flush word <$> sh Unquoted None rest.
Proof. done. Qed.
Lemma sh_newline word : sh Unquoted word newline = Some (flush word []).
Proof. done. Qed.
Lemma sh_tilde rest : sh Unquoted None ("~/" +:+ rest) = sh Unquoted (Some (env "HOME" +:+ "/")) rest.
Proof. done. Qed.

(** A quoted text is one word with exactly its bytes. *)
Lemma sh_single v : ∀ w rest,
  sh Single (Some w) (ReplaceAll v "'" ("'" +:+ dquote +:+ "'" +:+ dquote +:+ "'") +:+ String "'" rest) = sh Unquoted (Some (w +:+ v)) rest.
Proof.
  induction v as [|c v IH]; intros w rest.
  - change (sh Single (Some w) (String "'" rest) = sh Unquoted (Some (w +:+ "")) rest). by rewrite sapp_nil_r.
  - destruct (Ascii.eqb_spec c "'") as [->|Hc].
    + change (sh Single (Some w) (("'" +:+ dquote +:+ "'" +:+ dquote +:+ "'") +:+
        (ReplaceAll v "'" ("'" +:+ dquote +:+ "'" +:+ dquote +:+ "'") +:+ String "'" rest)) = sh Unquoted (Some (w +:+ String "'" v)) rest).
      change (sh Single (grown (grown (grown (Some w) "") "'") "")
        (ReplaceAll v "'" ("'" +:+ dquote +:+ "'" +:+ dquote +:+ "'") +:+ String "'" rest) = sh Unquoted (Some (w +:+ String "'" v)) rest).
      rewrite !grown_grown. unfold grown. rewrite IH. by rewrite sapp_assoc.
    + assert (E : has_prefix "'" (String c v) = false).
      { unfold has_prefix. cbn [strip_prefix]. assert (E : Ascii.eqb "'" c = false) by (apply Ascii.eqb_neq; congruence). by rewrite E. }
      unfold ReplaceAll. cbn [replace_from]. rewrite E.
      fold (ReplaceAll v "'" ("'" +:+ dquote +:+ "'" +:+ dquote +:+ "'")).
      change (sh Single (Some w) (String c (ReplaceAll v "'" ("'" +:+ dquote +:+ "'" +:+ dquote +:+ "'") +:+ String "'" rest)) =
        sh Unquoted (Some (w +:+ String c v)) rest).
      cbn [sh]. apply Ascii.eqb_neq in Hc. rewrite Hc. unfold grown. rewrite IH. by rewrite sapp_assoc.
Qed.
Lemma sh_quote v word rest : sh Unquoted word (shellQuote v +:+ rest) = sh Unquoted (grown word v) rest.
Proof.
  unfold shellQuote. rewrite !sapp_assoc.
  change (sh Single (grown word "") (ReplaceAll v "'" ("'" +:+ dquote +:+ "'" +:+ dquote +:+ "'") +:+ String "'" rest) = sh Unquoted (grown word v) rest).
  unfold grown at 1. rewrite sh_single. unfold grown. destruct word; [by rewrite sapp_nil_r|done].
Qed.

(** [means p w]: at the start of a word the text [p] is the word [w]. *)
Definition means (p w : string) : Prop := ∀ rest, sh Unquoted None (p +:+ rest) = sh Unquoted (Some w) rest.
Lemma means_plain p : plain_text p = true → p ≠ "" → means p p.
Proof. intros Hp Hn rest. by rewrite sh_plain. Qed.
Lemma means_home p : plain_text p = true → p ≠ "" → means (prefixHome p) (env "HOME" +:+ "/" +:+ p).
Proof.
  intros Hp Hn rest. unfold prefixHome. rewrite sapp_assoc, sh_tilde, sh_plain by done. unfold grown. by rewrite sapp_assoc.
Qed.
Lemma sh_join parts words : Forall2 means parts words → parts ≠ [] →
  sh_words (join " " parts +:+ newline) = Some words.
Proof.
  intros H. induction H as [|p w parts words Hp H IH]; [done|]. intros _. unfold sh_words in *. destruct parts as [|q parts].
  - inversion H; subst. change (join " " [p]) with p. by rewrite Hp, sh_newline.
  - change (join " " (p :: q :: parts)) with (p +:+ String " " (join " " (q :: parts))).
    rewrite sapp_assoc. change (String " " (join " " (q :: parts)) +:+ newline) with (String " " (join " " (q :: parts) +:+ newline)).
    rewrite Hp, sh_space, IH by done. done.
Qed.
End shell.

(** ** The client's commands *)
Lemma plain_text_app s t : plain_text (s +:+ t) = plain_text s && plain_text t.
Proof. unfold plain_text. by rewrite bytes_list_app, forallb_app. Qed.
Lemma plain_matches r s : (∀ c, classes r (byteZ c) = true → plain_char c = true) → matches r s = true → plain_text s = true.
Proof.
  intros Hr H%matches_spec%lang_classes. induction s as [|c s IH]; [done|]. simpl in H. inversion H; subst.
  change (plain_char c && plain_text s = true). rewrite Hr by done. by apply IH.
Qed.
Ltac by_bytes := let c := fresh in intros c; destruct c as [[] [] [] [] [] [] [] []]; vm_compute; done.
Lemma plain_release r : Valid r = true → plain_text r = true.
Proof. unfold Valid. intros. unbool. eapply plain_matches; [|eassumption]. by_bytes. Qed.
Lemma plain_digest s : matches hexDigestPattern s = true → plain_text s = true.
Proof. apply plain_matches. by_bytes. Qed.
Lemma plain_stake n s : plain_text s = true → plain_text (stake n s) = true.
Proof.
  revert s. induction n as [|n IH]; intros [|c s]; try done.
  change (plain_char c && plain_text s = true → plain_char c && plain_text (stake n s) = true).
  intros [Hc Hs]%andb_true_iff. apply andb_true_iff. auto.
Qed.
Lemma plain_text_bytes p s : (∀ c, p (byteZ c) = true → plain_char c = true) → forallb p (bytes_list s) = true → plain_text s = true.
Proof.
  intros Hp. induction s as [|c s IH]; [done|]. simpl. intros [Hc Hs]%andb_true_iff.
  change (plain_char c && plain_text s = true). apply andb_true_iff. auto.
Qed.
Lemma plain_text_hex s : forallb (one_of "0123456789abcdef") (bytes_list s) = true → plain_text s = true.
Proof. apply plain_text_bytes. by_bytes. Qed.

(** The arguments of a deployment command. *)
Definition deploy_arguments (at_home : string → string) (files : UploadFiles) (operation sha : string) : list string := [
  at_home (uf_Artifact files); "deploy"; operation; "--manifest"; at_home (uf_Manifest files); "--manifest-sha256"; sha;
  "--artifact"; at_home (uf_Artifact files); "--license"; at_home (uf_License files); "--notice"; at_home (uf_Notice files)].

Section commands.
Context `{UnicodeCase}.
Lemma pin_matches_inv canonical n sha : pin_matches canonical n sha = true →
  n = slen canonical ∧ 0 < n <= maxManifestBytes ∧ sha = SHA256Hex canonical.
Proof.
  unfold pin_matches. intros. unbool. match goal with H : String.eqb _ _ = true |- _ => apply String.eqb_eq in H as <- end.
  done.
Qed.
Lemma artifact_target m origin a : Forall2 (λ t a, validate_artifact m origin t a = Ok tt) supportedTargets (rm_Artifacts m) →
  a ∈ rm_Artifacts m → plain_text (ra_OS a) = true ∧ plain_text (ra_Architecture a) = true.
Proof.
  intros H2 Ha. destruct (Forall2_member_r _ _ _ _ H2 Ha) as (t & Ht & (-> & -> & _)%validate_artifact_inv).
  unfold supportedTargets in Ht. repeat (apply elem_of_cons in Ht as [->|Ht]; [by vm_compute|]). by apply not_elem_of_nil in Ht.
Qed.
Lemma validatedCommandFiles_inv m n sha a files : validatedCommandFiles m n sha a = Ok files →
  files = uploadFiles m sha a ∧ validate_manifest m = Ok tt ∧ a ∈ rm_Artifacts m ∧ matches hexDigestPattern sha = true.
Proof.
  unfold validatedCommandFiles, manifest_CanonicalBytes. destruct (validate_manifest m) as [[]|] eqn:Hv; [|done].
  destruct (pin_matches _ _ _) eqn:Hp; [|done]. apply pin_matches_inv in Hp as (-> & _ & ->). simpl.
  destruct (_ || _); [done|]. unfold Artifact. rewrite Hv.
  destruct (List.find _ _) as [a'|] eqn:Ef; [|done]. destruct (bool_decide _) eqn:Ea; [|done]. apply bool_decide_eq_true in Ea as ->.
  intros [= <-]. apply find_some in Ef as [Hin%list_elem_of_In _]. auto using SHA256Hex_digest.
Qed.
Lemma upload_plain m sha a files n : validatedCommandFiles m n sha a = Ok files →
  plain_text sha = true ∧ Forall (λ p, plain_text p = true ∧ p ≠ "") [uf_Manifest files; uf_Artifact files; uf_License files; uf_Notice files].
Proof.
  intros (-> & Hv & Ha & Hs)%validatedCommandFiles_inv. apply validate_manifest_inv in Hv as (Hr & _ & _ & _ & _ & origin & _ & H2 & _).
  destruct (artifact_target _ _ _ H2 Ha) as [Ho Har]. apply plain_digest in Hs. apply plain_release in Hr. split; [done|].
  assert (Hd : plain_text (uf_Directory (uploadFiles m sha a)) = true).
  { unfold uploadFiles. cbn [uf_Directory]. rewrite !plain_text_app, Hr, Ho, Har. rewrite plain_stake by done. reflexivity. }
  assert (Hall : ∀ name, plain_text name = true →
    plain_text (uf_Directory (uploadFiles m sha a) +:+ name) = true ∧ uf_Directory (uploadFiles m sha a) +:+ name ≠ "").
  { intros name Hn. by rewrite plain_text_app, Hd, Hn. }
  repeat constructor; apply (Hall (String _ _)); reflexivity.
Qed.
Lemma command_parts_mean env files operation sha : plain_text sha = true → sha ≠ "" → plain_text operation = true → operation ≠ "" →
  Forall (λ p, plain_text p = true ∧ p ≠ "") [uf_Manifest files; uf_Artifact files; uf_License files; uf_Notice files] →
  Forall2 (means env) (command_parts files operation sha) (deploy_arguments (λ p, env "HOME" +:+ "/" +:+ p) files operation sha).
Proof.
  intros Hs Hsn Ho Hon Hf. rewrite !Forall_cons in Hf. destruct Hf as ([??] & [??] & [??] & [??] & _).
  unfold command_parts, deploy_arguments. repeat constructor; (by apply means_home) || (by apply means_plain).
Qed.
Lemma digest_nonempty sha : matches hexDigestPattern sha = true → sha ≠ "".
Proof. by intros Hm ->. Qed.
End commands.

(** The commands a client runs over SSH mean to a shell exactly what was meant: for any
    environment, a preview or activation line is one simple command whose words are the
    uploaded executable in the home directory, [deploy preview] or [deploy apply], and the
    paths of the uploaded files, the pinned digest and the confirmed preview digest, each as
    one argument, with nothing for the shell to interpret. *)
Lemma client_commands_exact `{UnicodeCase} (env : string → string) (m : ReleaseManifest) (n : Z) (sha : string) (a : ReleaseArtifact)
    (line : string) :
  let files := uploadFiles m sha a in
  let at_home p := env "HOME" +:+ "/" +:+ p in
  (PreviewLine m n sha a = Ok line → sh_words env line = Some (deploy_arguments at_home files "preview" sha)) ∧
  (∀ confirmed, ActivationLine m n sha a confirmed = Ok line →
     sh_words env line = Some (deploy_arguments at_home files "apply" sha ++ ["--confirmed-preview-sha256"; confirmed; "--consume-inputs"]) ∧
     String.length confirmed = 64%nat).
Proof.
  intros files at_home. unfold PreviewLine, ActivationLine.
  destruct (validatedCommandFiles m n sha a) as [files'|] eqn:Ev; [|split; [done|]; intros ?; done].
  pose proof (upload_plain _ _ _ _ _ Ev) as [Hs Hf]. apply validatedCommandFiles_inv in Ev as (-> & _ & _ & Hd%digest_nonempty). split.
  - intros <-%Ok_inj. apply sh_join; [|done]. by apply command_parts_mean.
  - intros confirmed. destruct (_ || _) eqn:E; [done|]. unbool. intros <-%Ok_inj. split; [|unfold slen in *; lia].
    apply sh_join; [|done]. apply Forall2_app; [by apply command_parts_mean|].
    repeat constructor; (by apply means_plain) || apply means_plain; [by apply plain_text_hex|]. intros ->. done.
Qed.

(** ** The install command *)

Definition environment_words (env : string → string) : list string := ["/usr/bin/env"; "-i"; "HOME=" +:+ env "HOME"; "XDG_DATA_HOME=" +:+ env "XDG_DATA_HOME";
  "XDG_STATE_HOME=" +:+ env "XDG_STATE_HOME"; "XDG_CONFIG_HOME=" +:+ env "XDG_CONFIG_HOME";
  "XDG_RUNTIME_DIR=" +:+ env "XDG_RUNTIME_DIR"; "PATH=/usr/bin:/bin"; "LC_ALL=C"; "/bin/sh"; "-c"].
Definition environment_parts : list string := [
  "/usr/bin/env"; "-i"; with_quotes "HOME=^${HOME-}^"; with_quotes "XDG_DATA_HOME=^${XDG_DATA_HOME-}^";
  with_quotes "XDG_STATE_HOME=^${XDG_STATE_HOME-}^"; with_quotes "XDG_CONFIG_HOME=^${XDG_CONFIG_HOME-}^";
  with_quotes "XDG_RUNTIME_DIR=^${XDG_RUNTIME_DIR-}^"; "PATH='/usr/bin:/bin'"; "LC_ALL=C"; "/bin/sh"; "-c"].
Lemma means_quote env v : means env (shellQuote v) v.
Proof. intros rest. by rewrite sh_quote. Qed.
Lemma command_line_words env program :
  sh_words env (command_line productionInstallerRenderOptions program) = Some (environment_words env ++ [program]).
Proof.
  change (command_line productionInstallerRenderOptions program) with (join " " (environment_parts ++ [shellQuote program]) +:+ newline).
  apply sh_join; [|done]. apply Forall2_app; [|by constructor; [apply means_quote|]].
  unfold environment_parts, environment_words. repeat constructor; intros rest; reflexivity.
Qed.

(** The published install command is one line that a shell reads as: run [env -i] with
    the five variables of the caller, the fixed tool path and the C locale, and [sh -c] with
    the rendered bootstrap program as one argument, whatever bytes the program has. *)
Theorem install_command_exact `{UnicodeCase} (env : string → string) (url payload line : string) :
  InstallCommand url payload = Ok line →
  ∃ program, Execute installerBootstrapTemplate (bootstrap_fields productionInstallerRenderOptions url payload) = Ok program ∧
    contains_byte (chrZ 10) program = false ∧ 0 < slen payload <= maxInstallerBytes ∧
    sh_words env line = Some (environment_words env ++ [program]).
Proof.
  unfold InstallCommand, installCommandWithOptions. destruct (validateInstallerRenderOptions _); [|done].
  destruct (canonical_installer_url url) as [u|]; [|done]. destruct (installer_layout _); [|done].
  destruct (forallb _ _); [|done]. cbn [negb]. destruct (_ || contains_byte (chrZ 0) payload) eqn:Ep; [done|].
  destruct (Execute installerBootstrapTemplate _) as [program|] eqn:Ex; [|done].
  destruct (contains_byte (chrZ 10) program) eqn:En; [done|]. cbn [orb]. destruct (contains_byte (chrZ 0) program); [done|].
  match goal with |- (if ?b then _ else _) = _ → _ => destruct b end; [done|].
  intros <-%Ok_inj. exists program. unbool. unfold slen in *.
  split; [reflexivity|]. split; [first [exact En|reflexivity]|]. split; [lia|]. apply command_line_words.
Qed.

(** ** Trees *)
Lemma child_nested d name : name ≠ "" → child (child d name) "" = child d name +:+ "/".
Proof.
  intros Hn. unfold child at 1. destruct (String.eqb_spec (child d name) "/") as [E|]; [|done]. exfalso.
  rewrite child_split in E. unfold child in E. destruct (String.eqb d "/") eqn:Ed.
  - injection E as E. done.
  - destruct d as [|c d]; [injection E as E; done|]. injection E as -> E. destruct d; [done|]. done.
Qed.
Definition tail_text (x : string) : Prop := x = "" ∨ ∃ r, x = String "/" r.
Lemma below_child d name p : name ≠ "" → below (child d name) p = true ↔ ∃ x, p = child d name +:+ x ∧ tail_text x.
Proof.
  intros Hn. unfold below. rewrite child_nested by done. rewrite orb_true_iff, String.eqb_eq. unfold has_prefix. split.
  - intros [->|H]; [exists ""; rewrite sapp_nil_r; split; [done|by left]|].
    destruct (strip_prefix _ p) as [r|] eqn:E; [|done]. apply strip_prefix_Some in E as ->.
    exists (String "/" r). rewrite sapp_assoc. split; [done|right; eauto].
  - intros (x & -> & [->|[r ->]]); [left; by rewrite sapp_nil_r|]. right.
    change (String "/" r) with ("/" +:+ r). by rewrite <- sapp_assoc, strip_prefix_app.
Qed.
Lemma tail_split a x : contains_byte "/" a = false → tail_text x → hd "" (split "/" (a +:+ x)) = a.
Proof. intros Ha [->|[r ->]]; [by rewrite sapp_nil_r, split_plain|by rewrite split_cons]. Qed.
Lemma below_apart d a b p : a ≠ "" → b ≠ "" → contains_byte "/" a = false → contains_byte "/" b = false → a ≠ b →
  below (child d a) p = true → below (child d b) p = true → False.
Proof.
  intros Ha Hb Sa Sb Hne (x & -> & Hx)%below_child (y & E & Hy)%below_child; [|done..].
  rewrite (child_split d a), (child_split d b), !sapp_assoc in E. apply sapp_inv_head in E.
  apply Hne. by rewrite <- (tail_split a x), E, tail_split.
Qed.
Lemma below_self d : below d d = true.
Proof. unfold below. by rewrite String.eqb_refl. Qed.
Lemma below_entry d name : below d (child d name) = true.
Proof. unfold below, has_prefix. rewrite (child_split d name), strip_prefix_app. apply orb_true_r. Qed.

Section moving.
Context (d a b : string) (Ha : a ≠ "") (Hb : b ≠ "") (Sa : contains_byte "/" a = false) (Sb : contains_byte "/" b = false) (Hne : a ≠ b).
Let T := child d a.
Let D := child d b.
Lemma moved_outside p : below T p = false → moved T D p = p.
Proof.
  unfold below, moved, has_prefix. intros [E1 E2]%orb_false_iff. rewrite E1. by destruct (strip_prefix _ p).
Qed.
Lemma moved_tail x : tail_text x → moved T D (T +:+ x) = D +:+ x.
Proof.
  unfold moved. intros [->|[r ->]]; [by rewrite !sapp_nil_r, String.eqb_refl|].
  destruct (String.eqb_spec (T +:+ String "/" r) T) as [E|_].
  { exfalso. rewrite <- (sapp_nil_r T) in E at 2. by apply sapp_inv_head in E. }
  unfold T at 1. rewrite child_nested by done. fold T. change (String "/" r) with ("/" +:+ r).
  rewrite <- (sapp_assoc T), strip_prefix_app, child_split. unfold D at 1. rewrite child_nested by done. fold D. by rewrite sapp_assoc.
Qed.
Lemma tail_inj x y : T +:+ x = T +:+ y → x = y.
Proof. apply sapp_inv_head. Qed.

Context (fs : files) (Hfree : ∀ p, below D p = true → fs !! p = None).
Lemma moved_inj p q n m : fs !! p = Some n → fs !! q = Some m → moved T D p = moved T D q → p = q.
Proof.
  intros Hp Hq. destruct (below T p) eqn:Ep, (below T q) eqn:Eq.
  - apply below_child in Ep as (x & -> & Hx); [|done]. apply below_child in Eq as (y & -> & Hy); [|done]. fold T.
    rewrite !moved_tail by done. by intros ->%sapp_inv_head.
  - apply below_child in Ep as (x & -> & Hx); [|done]. fold T. rewrite moved_tail, (moved_outside q) by done. intros <-. exfalso.
    rewrite Hfree in Hq; [done|]. apply below_child; eauto.
  - apply below_child in Eq as (x & -> & Hx); [|done]. fold T. rewrite moved_tail, (moved_outside p) by done. intros ->. exfalso.
    rewrite Hfree in Hp; [done|]. apply below_child; eauto.
  - by rewrite !moved_outside by done.
Qed.
Lemma move_tree_spec p n : move_tree T D fs !! p = Some n ↔ ∃ q, fs !! q = Some n ∧ moved T D q = p.
Proof.
  unfold move_tree. rewrite <- elem_of_list_to_map.
  - rewrite list_elem_of_fmap. split.
    + intros ([q n'] & [= -> ->] & Hq%elem_of_map_to_list). eauto.
    + intros (q & Hq & <-). exists (q, n). split; [done|]. by apply elem_of_map_to_list.
  - assert (E : (map (λ '(path, n), (moved T D path, n)) (map_to_list fs)).*1 = map (λ kv, moved T D kv.1) (map_to_list fs)).
    { rewrite <- list_fmap_compose. apply list_fmap_ext. by intros ? [] _. }
    rewrite E. apply NoDup_fmap_2_strong; [|apply NoDup_map_to_list].
    intros [q1 n1] [q2 n2] H1%elem_of_map_to_list H2%elem_of_map_to_list. simpl. intros Em.
    pose proof (moved_inj _ _ _ _ H1 H2 Em) as ->. congruence.
Qed.
Lemma move_tree_outside p : below T p = false → below D p = false → move_tree T D fs !! p = fs !! p.
Proof.
  intros HT HD. apply option_eq. intros n. rewrite move_tree_spec. split.
  - intros (q & Hq & <-). destruct (below T q) eqn:E; [|by rewrite moved_outside].
    apply below_child in E as (x & -> & Hx); [|done]. fold T in HD. rewrite moved_tail in HD by done. exfalso.
    assert (below D (D +:+ x) = true) by (apply below_child; eauto). congruence.
  - intros Hp. exists p. split; [done|]. by apply moved_outside.
Qed.
Lemma move_tree_into x : tail_text x → move_tree T D fs !! (D +:+ x) = fs !! (T +:+ x).
Proof.
  intros Hx. apply option_eq. intros n. rewrite move_tree_spec. split.
  - intros (q & Hq & E). destruct (below T q) eqn:Eq.
    + apply below_child in Eq as (y & -> & Hy); [|done]. fold T in E, Hq. rewrite moved_tail in E by done. by apply sapp_inv_head in E as ->.
    + rewrite moved_outside in E by done. subst q. rewrite Hfree in Hq; [done|]. apply below_child; eauto.
  - intros Hp. exists (T +:+ x). split; [done|]. by apply moved_tail.
Qed.
Lemma move_tree_gone p : below T p = true → move_tree T D fs !! p = None.
Proof.
  intros HT. apply eq_None_not_Some. intros [n Hn]. apply move_tree_spec in Hn as (q & Hq & <-).
  destruct (below T q) eqn:E; [|by rewrite moved_outside in HT; congruence].
  apply below_child in E as (x & -> & Hx); [|done]. fold T in HT. rewrite moved_tail in HT by done.
  apply (below_apart d a b (D +:+ x)); try done. apply below_child; eauto.
Qed.
End moving.

(** ** What a bundle holds *)

(** The published directory has exactly the given files, owner-only and read-only. *)
Definition holds (o : Z) (fs : files) (directory : string) (outputs : list bundleOutput) : Prop :=
  (∃ mode, fs !! directory = Some (Directory mode o) ∧ permissions mode = 448) ∧
  directory_names fs directory ≡ₚ map bo_name outputs ∧
  ∀ output, output ∈ outputs → ∃ mode,
    fs !! child directory (bo_name output) = Some (Regular mode o 1 (bo_payload output)) ∧ permissions mode = bo_mode output.

Section consistency.
Context `{UnicodeCase} (verifyMetadata : string → Target → string → string → string → string → res string unit) (options : Options).
(** The files are those of one release: the canonical bytes of a valid manifest for the
    requested release, the installer and the commands made from it, and for each entry of
    the manifest a file with the size and the digest it pins, whose build metadata was
    verified for its target. *)
Definition consistent (result : BundleResult) (outputs : list bundleOutput) : Prop := ∃ manifest payload script command,
  manifest_CanonicalBytes manifest = Ok payload ∧ slen payload <= maxManifestBytes ∧ br_ManifestSHA256 result = SHA256Hex payload ∧
  rm_Release manifest = op_Release options ∧ rm_SourceRevision manifest = op_SourceRevision options ∧
  rm_BuildToolchain manifest = op_BuildToolchain options ∧ rm_DownloadOrigin manifest = op_DownloadOrigin options ∧
  InstallerScript manifest (slen payload) (SHA256Hex payload) = Ok script ∧
  InstallCommand (releaseURL options "install.sh") script = Ok command ∧
  mkOutput "release-manifest.json" payload 256 ∈ outputs ∧ mkOutput "install.sh" script 256 ∈ outputs ∧
  mkOutput "install-command.txt" command 256 ∈ outputs ∧
  (∀ f, f ∈ rm_ReleaseFiles manifest → ∃ content, mkOutput (rf_Name f) content 256 ∈ outputs ∧
     slen content = rf_Bytes f ∧ SHA256Hex content = rf_SHA256 f) ∧
  (∀ target, target ∈ supportedTargets → ∃ artifact binary line,
     Artifact manifest target = Ok artifact ∧ mkOutput (target_name target) binary 320 ∈ outputs ∧
     slen binary = ra_Bytes artifact ∧ SHA256Hex binary = ra_SHA256 artifact ∧
     verifyMetadata binary target (rm_Release manifest) (rm_SourceRevision manifest) (rm_BuildToolchain manifest)
       (ra_BuildIdentity artifact) = Ok tt ∧
     PreviewLine manifest (slen payload) (SHA256Hex payload) artifact = Ok line ∧ mkOutput (preview_name target) line 256 ∈ outputs) ∧
  NoDup (map bo_name outputs) ∧ Forall (λ output, component (bo_name output) = true) outputs.

Lemma collect_ok {A B} (f : A → FsM B) l : ∀ w ys, (collect f l w).2 = Ok ys → Forall2 (λ x y, ∃ w', (f x w').2 = Ok y) l ys.
Proof.
  induction l as [|x l IH]; intros w ys Hc; simpl in Hc; [injection Hc as <-; constructor|].
  fs_ok Hc y Ey. fs_ok Hc ys' Es. injection Hc as <-. constructor; [exists w; by rewrite Ey|].
  apply (IH w0). by rewrite Es.
Qed.
Lemma from_text_ok {A} (r : res string A) w w' a : from_text r w = (w', Ok a) → r = Ok a.
Proof. unfold from_text. destruct r; [by intros [= _ ->]|done]. Qed.
Lemma bundle_artifact_ok target w r : (bundle_artifact verifyMetadata options target w).2 = Ok r →
  ra_OS r.2 = tg_OS target ∧ ra_Architecture r.2 = tg_Architecture target ∧ ra_Bytes r.2 = slen r.1 ∧ ra_SHA256 r.2 = SHA256Hex r.1 ∧
  verifyMetadata r.1 target (op_Release options) (op_SourceRevision options) (op_BuildToolchain options) (ra_BuildIdentity r.2) = Ok tt.
Proof.
  unfold bundle_artifact. intros Hr. fs_ok Hr digest E1. fs_ok Hr payload E2. fs_ok Hr u1 E3. fs_ok Hr u2 E4.
  injection Hr as <-. simpl. split_and!; try done. destruct u2. by eapply from_text_ok.
Qed.
Lemma bundle_preview_ok manifest n sha target w r : (bundle_preview manifest n sha target w).2 = Ok r →
  ∃ artifact, Artifact manifest target = Ok artifact ∧ PreviewLine manifest n sha artifact = Ok r.1 ∧ r.2 = uploadFiles manifest sha artifact.
Proof.
  unfold bundle_preview. intros Hr. fs_ok Hr artifact E1. fs_ok Hr preview E2. apply from_text_ok in E1, E2. exists artifact.
  injection Hr as <-. done.
Qed.
Lemma script_pin manifest n sha script payload : InstallerScript manifest n sha = Ok script → manifest_CanonicalBytes manifest = Ok payload →
  n = slen payload ∧ n <= maxManifestBytes.
Proof.
  unfold InstallerScript, installerScriptWithOptions. intros Hs Hm. rewrite Hm in Hs. destruct (pin_matches _ _ _) eqn:E; [|done].
  apply pin_matches_inv in E as (? & ? & _). lia.
Qed.
Lemma artifact_of manifest target a : validate_manifest manifest = Ok tt → target ∈ supportedTargets → a ∈ rm_Artifacts manifest →
  ra_OS a = tg_OS target → ra_Architecture a = tg_Architecture target → Artifact manifest target = Ok a.
Proof.
  intros Hv Ht Ha Eo Er. unfold Artifact. rewrite Hv. apply validate_manifest_inv in Hv as (_ & _ & _ & _ & _ & origin & _ & H2 & _).
  pose proof H2 as Hall. destruct (find_artifact _ _ _ _ _ H2 Ht) as (a' & Ef & _). rewrite Ef. f_equal.
  apply find_some in Ef as [Ha'%list_elem_of_In [Eo'%String.eqb_eq Er'%String.eqb_eq]%andb_true_iff].
  destruct (list_elem_of_lookup_1 _ _ Ha) as [i Hi]. destruct (list_elem_of_lookup_1 _ _ Ha') as [j Hj].
  destruct (Forall2_lookup_r _ _ _ _ _ Hall Hi) as (ti & Hti & (E1 & E2 & _)%validate_artifact_inv).
  destruct (Forall2_lookup_r _ _ _ _ _ Hall Hj) as (tj & Htj & (E3 & E4 & _)%validate_artifact_inv).
  assert (ti = tj) as -> by (destruct ti, tj; simpl in *; congruence).
  assert (i = j) as ->; [|congruence]. eapply (NoDup_lookup supportedTargets); [|done..]. by apply (bool_decide_unpack _).
Qed.
Definition bundle_names : list string :=
  ["LICENSE"; "NOTICE"] ++ map target_name supportedTargets ++ ["release-manifest.json"; "install.sh"; "install-command.txt"] ++
  map preview_name supportedTargets.
Lemma zip_names {A} (f : Target → string) (g : A → string) mode ts (l : list A) : length ts = length l →
  map bo_name (zip_with (λ t a, mkOutput (f t) (g a) mode) ts l) = map f ts.
Proof. revert l. induction ts as [|t ts IH]; intros [|x l]; try done. simpl. intros [= El]. by rewrite IH. Qed.
Lemma names_map license notice payload script command (artifacts : list (string * ReleaseArtifact)) (previews : list (string * UploadFiles)) :
  length supportedTargets = length artifacts → length supportedTargets = length previews →
  map bo_name ([mkOutput "LICENSE" license 256; mkOutput "NOTICE" notice 256] ++
    zip_with (λ t a, mkOutput (target_name t) a.1 320) supportedTargets artifacts ++
    [mkOutput "release-manifest.json" payload 256; mkOutput "install.sh" script 256; mkOutput "install-command.txt" command 256] ++
    zip_with (λ t p, mkOutput (preview_name t) p.1 256) supportedTargets previews) = bundle_names.
Proof.
  intros H1 H2. rewrite !map_app. rewrite (zip_names target_name fst 320), (zip_names preview_name fst 256) by done. done.
Qed.
Ltac listed := repeat first [apply list_elem_of_here | apply list_elem_of_further].
Lemma bundle_contents_ok w result outputs : (bundle_contents verifyMetadata options w).2 = Ok (result, outputs) → consistent result outputs.
Proof.
  unfold bundle_contents. intros Hr. fs_ok Hr license E1. fs_ok Hr notice E2. fs_ok Hr u E3. fs_ok Hr artifacts E4.
  fs_ok Hr payload E5. fs_ok Hr script E6. fs_ok Hr command E7. fs_ok Hr previews E8.
  apply from_text_ok in E5, E6, E7. pose proof (script_pin _ _ _ _ _ E6 E5) as [_ Hsize].
  assert (Hv : validate_manifest (bundle_manifest options license notice (map snd artifacts)) = Ok tt).
  { unfold manifest_CanonicalBytes in E5. by destruct (validate_manifest _) as [[]|]. }
  assert (Ha : Forall2 (λ t a, ra_OS a.2 = tg_OS t ∧ ra_Architecture a.2 = tg_Architecture t ∧ ra_Bytes a.2 = slen a.1 ∧
    ra_SHA256 a.2 = SHA256Hex a.1 ∧ verifyMetadata a.1 t (op_Release options) (op_SourceRevision options) (op_BuildToolchain options)
      (ra_BuildIdentity a.2) = Ok tt) supportedTargets artifacts).
  { assert (H4 := f_equal snd E4). apply collect_ok in H4. eapply Forall2_impl; [exact H4|].
    intros t a [w' Hw]. by eapply bundle_artifact_ok. }
  assert (Hp : Forall2 (λ t p, ∃ a, Artifact (bundle_manifest options license notice (map snd artifacts)) t = Ok a ∧
    PreviewLine (bundle_manifest options license notice (map snd artifacts)) (slen payload) (SHA256Hex payload) a = Ok p.1)
    supportedTargets previews).
  { assert (H8 := f_equal snd E8). apply collect_ok in H8. eapply Forall2_impl; [exact H8|].
    intros t p [w' (a & ? & ? & _)%bundle_preview_ok]. eauto. }
  apply Ok_inj in Hr. pose proof (f_equal fst Hr) as Eresult. pose proof (f_equal snd Hr) as Eoutputs. cbn [fst snd] in Eresult, Eoutputs.
  clear Hr E1 E2 E3 E4 E8. subst result outputs.
  exists (bundle_manifest options license notice (map snd artifacts)), payload, script, command.
  split_and!; try done; try (rewrite !elem_of_app; right; right; left; listed).
  - intros f Hf. repeat (apply elem_of_cons in Hf as [->|Hf]; [eexists; split; [|done]; rewrite elem_of_app; left; listed|]).
    by apply not_elem_of_nil in Hf.
  - intros target Ht. destruct (list_elem_of_lookup_1 _ _ Ht) as [i Hi].
    destruct (Forall2_lookup_l _ _ _ _ _ Ha Hi) as (a & Hai & Eo & Er & Eb & Es & Em).
    destruct (Forall2_lookup_l _ _ _ _ _ Hp Hi) as (p & Hpi & a' & Ea' & El).
    assert (Ea : Artifact (bundle_manifest options license notice (map snd artifacts)) target = Ok a.2).
    { apply artifact_of; try done. simpl. apply (list_elem_of_fmap_2 snd). by eapply list_elem_of_lookup_2. }
    rewrite Ea in Ea'. apply Ok_inj in Ea' as <-. exists a.2, a.1, p.1. rewrite Eb, Es.
    split_and!; try done; rewrite !elem_of_app.
    + right; left. apply list_elem_of_lookup. exists i. rewrite lookup_zip_with, Hi. simpl. by rewrite Hai.
    + right; right; right. apply list_elem_of_lookup. exists i. rewrite lookup_zip_with, Hi. simpl. by rewrite Hpi.
  - rewrite names_map by (eapply Forall2_length; eassumption). by apply (bool_decide_unpack _).
  - apply (Forall_map bo_name (λ name, component name = true)). rewrite names_map by (eapply Forall2_length; eassumption).
    unfold bundle_names. simpl. by repeat constructor.
Qed.
End consistency.

(** ** Publication *)
Lemma make_directories_spec mode w ps : ∀ fs fs', make_directories mode w fs ps = Ok fs' → ∀ q,
  fs' !! q = fs !! q ∨ (q ∈ ps ∧ fs !! q = None ∧ fs' !! q = Some (Directory (Z.ldiff mode (w_umask w)) (w_euid w))).
Proof.
  induction ps as [|p ps IH]; simpl; intros fs fs' E q; [injection E as ->; by left|].
  destruct (fs !! p) as [[]|] eqn:Ep; try done.
  - destruct (IH _ _ E q) as [|(? & ? & ?)]; [by left|right]. split_and!; [by apply list_elem_of_further|done|done].
  - destruct (IH _ _ E q) as [Eq|(Hin & Eq & Hq)].
    + destruct (decide (q = p)) as [->|Hne].
      * right. rewrite lookup_insert_eq in Eq. split_and!; [apply list_elem_of_here|done|done].
      * left. by rewrite lookup_insert_ne in Eq.
    + right. destruct (decide (q = p)) as [->|Hne]; [by rewrite lookup_insert_eq in Eq|].
      rewrite lookup_insert_ne in Eq by done. split_and!; [by apply list_elem_of_further|done|done].
Qed.
Lemma triple_MkdirTemp o (P : files → Prop) pre directory pattern : P pre →
  (∀ n m, pre !! temporary_path directory pattern n = None → P (<[temporary_path directory pattern n := Directory m o]> pre)) →
  triple o P pre (MkdirTemp directory pattern) (λ path fs, contains_byte "/" pattern = false ∧ pre !! path = None ∧
    (∃ n, path = temporary_path directory pattern n) ∧ ∃ m, fs = <[path := Directory m o]> pre).
Proof.
  intros Hp Hnew w <- Ho. unfold MkdirTemp. destruct (contains_byte "/" pattern); [split; [by apply passes_refl|done]|].
  destruct (next_fault w) as [w1 fault] eqn:E.
  pose proof (passes_next_fault P w Hp) as H. pose proof (next_fault_files w) as Hw.
  pose proof (next_fault_euid w) as He. pose proof (next_fault_trace w) as Ht. rewrite E in H, Hw, He, Ht. simpl in *.
  destruct fault; [by split|].
  destruct (free_name _ _ _ _ _) as [[path rest]|] eqn:En; [|by split].
  apply free_name_spec in En as [Hfree [n Hn]]. rewrite Hw in Hfree.
  destruct (is_directory _ _); [|by split]. rewrite He, Hw, Ho. simpl.
  assert (Hfs : P (<[path := Directory (Z.ldiff 448 (w_umask w1)) o]> (w_files w))) by (subst path; auto).
  split.
  - split; [simpl; congruence|]. exists [w_files w]. simpl. rewrite Ht. split_and!; [done|by constructor|done].
  - intros ? [= <-]. split_and!; eauto.
Qed.
(** A deferred cleanup after a computation that changes nothing. *)
Lemma triple_deferred_quiet {A} o (P : files → Prop) pre (m : FsM A) cleanup (R : files → Prop) (Q : A → Prop) : P pre → Quiet m →
  (∀ w a, w_files w = pre → w_euid w = o → (m w).2 = Ok a → Q a) →
  triple o (λ fs, P fs ∧ R fs) pre cleanup (λ _ _, True) →
  triple o P pre (deferred m cleanup) (λ a fs, Q a ∧ R fs).
Proof.
  intros HP Hm HQ Hc w Hw Ho. unfold deferred. pose proof (HQ w) as HQw. destruct (Hm w) as (E1 & E2 & E3).
  destruct (m w) as [w1 r]; simpl in *. destruct (Hc w1) as [Hpass _]; [congruence..|].
  destruct Hpass as (Ee & added & Et & HF & HP' & HR). split.
  - split; [congruence|]. exists added. rewrite Et, E2. split_and!; [done| |done]. eapply Forall_impl; [exact HF|]. by intros ? [].
  - intros a ->. eauto.
Qed.

Lemma NoDup_directory_names fs directory : NoDup (directory_names fs directory).
Proof.
  unfold directory_names. rewrite order_by_perm.
  assert (Hinj : ∀ x y n, x ∈ map_to_list fs → y ∈ map_to_list fs → entry_name directory x.1 = Some n → entry_name directory y.1 = Some n → x = y).
  { intros [p a] [q b] n Hp%elem_of_map_to_list Hq%elem_of_map_to_list E1 E2. simpl in *. apply entry_name_spec in E1 as [-> _], E2 as [-> _]. congruence. }
  pose proof (NoDup_map_to_list fs) as Hnd. revert Hinj Hnd. generalize (map_to_list fs). intros l Hinj.
  induction 1 as [|[p a] l Hnot Hnd IH]; [constructor|]. simpl. destruct (entry_name directory p) as [n|] eqn:En.
  - constructor; [|apply IH; intros; eapply Hinj; eauto using list_elem_of_further].
    intros ([q b] & Hq & Hn)%list_elem_of_omap. apply Hnot.
    assert ((p, a) = (q, b)) as -> by (apply (Hinj _ _ n); [by apply list_elem_of_here|by apply list_elem_of_further|done|done]). done.
  - apply IH. intros; eapply Hinj; eauto using list_elem_of_further.
Qed.

(** ** Comparing with a published bundle *)
Lemma quiet_validateBundleDirectory path : Quiet (validateBundleDirectory path).
Proof. unfold validateBundleDirectory. quiet. Qed.
Lemma quiet_readBundleInput path limit : Quiet (readBundleInput path limit).
Proof. unfold readBundleInput. quiet. Qed.
Lemma quiet_readExact path output : Quiet (readExactBundleOutput path output).
Proof. unfold readExactBundleOutput. quiet. Qed.
Lemma quiet_collect {A B} (f : A → FsM B) l : (∀ x, Quiet (f x)) → Quiet (collect f l).
Proof. intros Hf. induction l as [|x l IH]; simpl; quiet; auto. Qed.
#[local] Hint Resolve quiet_validateBundleDirectory quiet_readBundleInput quiet_readExact : quiet.
Lemma quiet_compareBundleDirectory published outputs : Quiet (compareBundleDirectory published outputs).
Proof.
  unfold compareBundleDirectory, Lstat, Readdirnames. quiet. apply quiet_each. intros x. unfold compare_entry. quiet.
Qed.
Lemma quiet_Lstat path : Quiet (Lstat path).
Proof. apply quiet_inspect. Qed.
#[local] Hint Resolve quiet_compareBundleDirectory quiet_Lstat : quiet.
Lemma quiet_bundle_contents `{UnicodeCase} verifyMetadata options : Quiet (bundle_contents verifyMetadata options).
Proof.
  unfold bundle_contents. quiet; apply quiet_collect; intros x; unfold bundle_artifact, bundle_preview; quiet.
Qed.
Lemma triple_readExact o (P : files → Prop) pre path output : P pre →
  triple o P pre (readExactBundleOutput path output) (λ payload fs, fs = pre ∧
    (payload = bo_payload output → ∃ mode, pre !! path = Some (Regular mode o 1 (bo_payload output)) ∧ permissions mode = bo_mode output)).
Proof.
  intros HP. unfold readExactBundleOutput. eapply fs_triple_bind; [by apply triple_inspect|].
  intros before ? (-> & w1 & Hw1 & _ & Hb). apply triple_quiet_bind; [done|quiet|]. intros _.
  eapply fs_triple_bind; [by apply triple_ask|]. intros euid ? (-> & w2 & Ho & ->). apply triple_check_bind; [done|]. intros Hm.
  apply triple_quiet_bind; [done|quiet|]. intros _. apply triple_quiet_bind; [done|quiet|]. intros after. apply triple_check_bind; [done|].
  intros Hl. apply fs_triple_ret; [done|]. split; [done|]. intros Epay.
  destruct before as [|mode owner nlink content| |]; try done. unfold exact_metadata in Hm. unbool. subst owner nlink.
  exists mode. split; [|done]. rewrite Ho in Hb. rewrite <- Epay. simpl. rewrite limited_all by lia.
  rewrite Hw1 in Hb. by destruct (pre !! path) as [[]|]; simplify_eq.
Qed.
Lemma triple_compare_entry o (P : files → Prop) pre published outputs name : P pre →
  triple o P pre (compare_entry published outputs name) (λ _ fs, fs = pre ∧ ∃ output, output ∈ outputs ∧ bo_name output = name ∧
    ∃ mode, pre !! Join [published; name] = Some (Regular mode o 1 (bo_payload output)) ∧ permissions mode = bo_mode output).
Proof.
  intros HP. unfold compare_entry. destruct (List.find _ _) as [output|] eqn:Ef; [|by apply triple_raise].
  apply find_some in Ef as [Hin%in_rev%list_elem_of_In Hn%String.eqb_eq].
  eapply fs_triple_bind; [by apply triple_ask|]. intros directory ? (-> & _). apply triple_check_bind; [done|]. intros _.
  eapply fs_triple_bind; [by apply triple_readExact|]. intros payload ? (-> & Hp). eapply triple_post; [by apply triple_check|].
  intros [] fs [E%String.eqb_eq ->]. split; [done|]. exists output. auto.
Qed.
Lemma triple_compare_entries o (P : files → Prop) pre published outputs names : P pre →
  triple o P pre (each (compare_entry published outputs) names) (λ _ fs, fs = pre ∧ Forall (λ name, ∃ output, output ∈ outputs ∧ bo_name output = name ∧
    ∃ mode, pre !! Join [published; name] = Some (Regular mode o 1 (bo_payload output)) ∧ permissions mode = bo_mode output) names).
Proof.
  intros HP. induction names as [|name names IH]; [by apply fs_triple_ret|]. simpl.
  eapply fs_triple_bind; [by apply triple_compare_entry|]. intros [] ? [-> Hn]. eapply triple_post; [exact IH|].
  intros _ fs [-> HF]. auto.
Qed.
Lemma triple_validateBundleDirectory o (P : files → Prop) pre path : P pre →
  triple o P pre (validateBundleDirectory path) (λ _ fs, fs = pre ∧ ∃ mode, pre !! path = Some (Directory mode o)).
Proof.
  intros HP. unfold validateBundleDirectory. eapply fs_triple_bind; [by apply triple_inspect|]. intros n ? (-> & w & <- & _ & En).
  apply triple_quiet_bind; [done|quiet|]. intros _. eapply fs_triple_bind; [by apply triple_ask|]. intros euid ? (-> & w2 & <- & ->).
  eapply triple_post; [by apply triple_check|]. intros [] fs [Hv ->]. split; [done|].
  destruct (w_files w !! path) as [[]|]; simplify_eq. simpl in Hv. unbool. subst. eauto.
Qed.
Lemma triple_compare o (P : files → Prop) pre l outputs : P pre → components l →
  NoDup (map bo_name outputs) → Forall (λ output, component (bo_name output) = true) outputs →
  triple o P pre (compareBundleDirectory (abs l) outputs) (λ _ fs, fs = pre ∧ holds o pre (abs l) outputs).
Proof.
  intros HP Hl Hnd Hcs. unfold compareBundleDirectory. eapply fs_triple_bind; [by apply triple_validateBundleDirectory|].
  intros [] ? (-> & mode & Hd). eapply fs_triple_bind; [apply triple_attempt_quiet; [quiet|done|by apply triple_inspect]|].
  intros info ? (-> & Hi). apply triple_check_bind; [done|]. intros Hm.
  eapply fs_triple_bind; [by apply triple_inspect|]. intros names ? (-> & w & <- & _ & En). apply Ok_inj in En as <-.
  apply triple_check_bind; [done|]. intros Hlen%Nat.eqb_eq. eapply triple_post; [by apply triple_compare_entries|].
  intros [] fs (-> & HF). split; [done|]. rewrite Forall_forall in HF. split_and!.
  - exists mode. split; [done|]. destruct info as [n|]; [|done]. destruct (Hi n eq_refl) as (_ & w' & Hw' & _ & E).
    rewrite Hw', Hd in E. injection E as <-. simpl in Hm. by apply Z.eqb_eq.
  - apply submseteq_length_Permutation; [|rewrite length_map; lia]. apply NoDup_submseteq; [apply NoDup_directory_names|].
    intros name Hin. destruct (HF name Hin) as (output & Ho & <- & _). by apply (list_elem_of_fmap_2 bo_name).
  - assert (Hperm : directory_names (w_files w) (abs l) ≡ₚ map bo_name outputs).
    { apply submseteq_length_Permutation; [|rewrite length_map; lia]. apply NoDup_submseteq; [apply NoDup_directory_names|].
      intros name Hin. destruct (HF name Hin) as (output & Ho & <- & _). by apply (list_elem_of_fmap_2 bo_name). }
    intros output Ho. destruct (HF (bo_name output)) as (output' & Ho' & En & m & Hf & Em).
    { rewrite Hperm. by apply (list_elem_of_fmap_2 bo_name). }
    assert (output' = output) as ->.
    { destruct (list_elem_of_lookup_1 _ _ Ho) as [i Hi']. destruct (list_elem_of_lookup_1 _ _ Ho') as [j Hj].
      assert (i = j) as ->; [|congruence]. eapply (NoDup_lookup (map bo_name outputs)); [done|by apply (list_lookup_fmap_Some_2 bo_name)|].
      rewrite <- En. by apply (list_lookup_fmap_Some_2 bo_name). }
    rewrite Forall_forall in Hcs. rewrite Join_abs, <- child_abs in Hf by auto. eauto.
Qed.

Lemma foldr_delete_other (fs : files) l p : Forall (λ q, q ≠ p) l → foldr delete fs l !! p = fs !! p.
Proof. induction 1 as [|q l Hq _ IH]; [done|]. simpl. by rewrite lookup_delete_ne. Qed.
Lemma abs_longer l r : (String.length (abs l) ≤ String.length (abs (l ++ r)))%nat.
Proof.
  induction r as [|x r IH] using rev_ind; [by rewrite app_nil_r|]. rewrite app_assoc. etrans; [exact IH|]. unfold abs.
  destruct (l ++ r) as [|y k] eqn:E; [simpl; lia|]. rewrite join_snoc by done. rewrite !length_sapp. lia.
Qed.
Lemma abs_longer_snoc l x : x ≠ "" → (String.length (abs l) < String.length (abs (l ++ [x])))%nat.
Proof.
  intros Hx. unfold abs. destruct l as [|y k]; [destruct x; [done|simpl; lia]|]. rewrite join_snoc by done. rewrite !length_sapp. simpl. lia.
Qed.
Lemma ancestor_outside es x p : components es → component x = true → p ∈ ancestors "" es → below (child (abs es) x) p = false.
Proof.
  intros Hes Hx Hp. destruct (ancestors_spec es "" [] p (or_introl (conj eq_refl eq_refl)) Hp) as (k & -> & _). simpl.
  apply not_true_is_false. apply component_inv in Hx as (Hn & _). intros (y & E & _)%below_child; [|done].
  apply (f_equal String.length) in E. rewrite length_sapp, child_abs in E by done.
  pose proof (abs_longer (take k es) (drop k es)) as Hl. rewrite take_drop in Hl. pose proof (abs_longer_snoc es x Hn). lia.
Qed.

Section publication.
Context `{UnicodeCase} (verifyMetadata : string → Target → string → string → string → string → res string unit) (options : Options).
Context (o : Z) (es : list string) (c : string) (Hes : components es) (Hc : component c = true) (pre : files).
Hypothesis HD : op_DistDir options = abs (es ++ [c]).
Abbreviation D := (op_DistDir options).
Definition stage_name (n : Z) : string := "." +:+ c +:+ ".stage-" +:+ FormatUint (n mod 2 ^ 32).
Lemma stage_component n : component (stage_name n) = true.
Proof.
  clear -Hc. unfold component, stage_name. apply component_inv in Hc as (Hn & _ & _ & Hs).
  assert (contains_byte "/" (FormatUint (n mod 2 ^ 32)) = false) as Hd.
  { apply contains_digits; [|done]. apply Z.mod_pos_bound. lia. }
  change (("." +:+ c +:+ ".stage-" +:+ FormatUint (n mod 2 ^ 32))) with (String "." (c +:+ ".stage-" +:+ FormatUint (n mod 2 ^ 32))).
  destruct c as [|x c']; [done|]. change (contains_byte "/" (String x c') = false) in Hs.
  assert (E : contains_byte "/" (String "." (String x c' +:+ ".stage-" +:+ FormatUint (n mod 2 ^ 32))) = false).
  { change (contains_byte "/" ("." +:+ String x c' +:+ ".stage-" +:+ FormatUint (n mod 2 ^ 32)) = false).
    rewrite !contains_app, Hs, Hd. reflexivity. }
  rewrite E, !andb_true_iff, !negb_true_iff, !String.eqb_neq. split_and!; try done.
  intros [= _ E']. apply (f_equal String.length) in E'. rewrite length_sapp in E'. simpl in E'. lia.
Qed.
Lemma stage_differs n : stage_name n ≠ c.
Proof.
  unfold stage_name. intros E%(f_equal String.length). rewrite !length_sapp in E. simpl in E. lia.
Qed.
Lemma stage_path n : temporary_path (abs es) ("." +:+ c +:+ ".stage-") n = child (abs es) (stage_name n).
Proof.
  unfold temporary_path. rewrite child_abs by done. unfold stage_name. rewrite !sapp_assoc. fold (stage_name n).
  apply Join_abs; [done|apply stage_component].
Qed.
Lemma dist_child : D = child (abs es) c.
Proof. by rewrite HD, child_abs. Qed.
Lemma component_sides x : component x = true → x ≠ "" ∧ contains_byte "/" x = false.
Proof. intros (? & _ & _ & ?)%component_inv. done. Qed.

(** At any moment only a new temporary tree beside the bundle and directories above it
    have been added, and the bundle is as it was, or was absent and is complete. *)
Definition outside (T : option string) (p : string) : Prop := match T with Some t => below t p = false | None => True end.
Definition bundle_states (fs : files) : Prop := ∃ T,
  (∀ t, T = Some t → pre !! t = None ∧ ∃ n, t = child (abs es) (stage_name n)) ∧
  (∀ p, outside T p → below D p = false → fs !! p = pre !! p ∨
     (p ∈ ancestors "" es ∧ pre !! p = None ∧ ∃ mode, fs !! p = Some (Directory mode o))) ∧
  ((∀ p, below D p = true → fs !! p = pre !! p) ∨
   (∀ p, below D p = true → pre !! p = None) ∧ ∃ result outputs, consistent verifyMetadata options result outputs ∧ holds o fs D outputs).

Section staged.
Context (mid : files) (Hmid : ∀ p, mid !! p = pre !! p ∨ (p ∈ ancestors "" es ∧ pre !! p = None ∧ ∃ mode, mid !! p = Some (Directory mode o))).
Context (n : Z) (Hfresh : mid !! child (abs es) (stage_name n) = None).
Let T := child (abs es) (stage_name n).
Definition staging (fs : files) : Prop := ∀ p, below T p = false → fs !! p = mid !! p.
Lemma below_both p : below T p = true → below D p = true → False.
Proof.
  rewrite dist_child. apply below_apart; try apply component_sides; auto using stage_component, stage_differs.
Qed.
Lemma mid_dist p : below D p = true → mid !! p = pre !! p.
Proof.
  intros Hp. destruct (Hmid p) as [|(Ha & _)]; [done|]. apply (ancestor_outside _ c) in Ha; [|done..]. rewrite dist_child in Hp. congruence.
Qed.
Lemma pre_stage : pre !! T = None.
Proof. destruct (Hmid T) as [E|(_ & ? & _)]; [by rewrite <- E|done]. Qed.
Lemma staging_states fs : staging fs → bundle_states fs.
Proof.
  intros Hs. exists (Some T). split_and!.
  - intros t [= <-]. split; [apply pre_stage|by eexists].
  - intros p Hp _. simpl in Hp. rewrite Hs by done. apply Hmid.
  - left. intros p Hp. rewrite Hs; [by apply mid_dist|]. apply not_true_is_false. intros Ht. by eapply below_both.
Qed.
Definition put (fs : files) (output : bundleOutput) : files :=
  <[child T (bo_name output) := Regular (bo_mode output) o 1 (bo_payload output)]> fs.
Lemma staging_insert fs name m : staging fs → staging (<[child T name := m]> fs).
Proof.
  intros Hs p Hp. rewrite lookup_insert_ne; [by apply Hs|]. intros <-. by rewrite below_entry in Hp.
Qed.
Lemma Join_stage name : component name = true → Join [T; name] = child T name.
Proof.
  intros Hn. unfold T. rewrite child_abs by done. pose proof (stage_component n).
  rewrite Join_abs, child_abs; try done; apply Forall_app; by split; [|constructor].
Qed.
Lemma triple_write fs output : staging fs → component (bo_name output) = true →
  triple o staging fs (writeNewBundleFile T output) (λ _ fs', fs' = put fs output ∧ output_ok output = true).
Proof.
  intros Hs Hn. unfold writeNewBundleFile. rewrite Join_stage by done. apply triple_check_bind; [done|]. intros Hok.
  eapply fs_triple_bind.
  { apply triple_context, (triple_modify _ _ _ _ _ (λ _ fs', ∃ m, fs' = <[child T (bo_name output) := Regular m o 1 ""]> fs)); [done|done|].
    intros w fs' <- Ho. destruct (w_files w !! _); [done|]. destruct (is_directory _ _); [|done]. intros [= <-]. unfold create_node. rewrite Ho.
    split; [by apply staging_insert|eauto]. }
  intros [] fs1 [m ->]. eapply fs_triple_bind.
  { apply (triple_modify _ _ _ _ _ (λ _ fs', fs' = <[child T (bo_name output) := Regular (bo_mode output) o 1 ""]> fs)).
    - by apply staging_insert.
    - intros ?. by apply staging_insert.
    - intros w fs' Hw _. rewrite Hw, lookup_insert_eq. intros [= <-]. rewrite insert_insert_eq. simpl. split; [by apply staging_insert|done]. }
  intros [] fs2 ->. eapply fs_triple_bind.
  { apply (triple_modify _ _ _ _ _ (λ _ fs', fs' = put fs output)).
    - by apply staging_insert.
    - intros k p Hp. rewrite lookup_alter_ne; [by apply staging_insert|]. intros <-. by rewrite below_entry in Hp.
    - intros w fs' Hw _. rewrite Hw, lookup_insert_eq. intros [= <-]. rewrite insert_insert_eq. simpl. split; [by apply staging_insert|done]. }
  intros [] fs3 ->. apply triple_quiet_bind; [by apply staging_insert|apply quiet_inspect|]. intros _.
  eapply triple_post; [apply triple_quiet; [by apply staging_insert|apply quiet_inspect]|]. done.
Qed.
Lemma triple_writes outputs : ∀ fs, staging fs → Forall (λ output, component (bo_name output) = true) outputs →
  triple o staging fs (each (writeNewBundleFile T) outputs) (λ _ fs', fs' = foldl put fs outputs ∧ staging fs' ∧ Forall (λ output, output_ok output = true) outputs).
Proof.
  induction outputs as [|x l IH]; intros fs Hs HF; [by apply fs_triple_ret|]. apply Forall_cons in HF as [Hx HF]. simpl.
  eapply fs_triple_bind; [by apply triple_write|]. intros [] ? [-> Hok].
  eapply triple_post; [apply IH; [by apply staging_insert|done]|]. intros _ fs' (-> & ? & ?). auto.
Qed.
Lemma staging_at_stage fs m : staging fs → staging (<[T := m]> fs).
Proof. intros Hs p Hp. rewrite lookup_insert_ne; [by apply Hs|]. intros <-. by rewrite below_self in Hp. Qed.
Lemma triple_removed fs : staging fs → triple o (λ fs', staging fs' ∧ ∀ p, below D p = true → fs' !! p = fs !! p) fs (RemoveAll T) (λ _ _, True).
Proof.
  intros Hs. assert (Hd : ∀ p, below D p = true → below T p = false).
  { intros p Hp. apply not_true_is_false. intros Ht. by eapply below_both. }
  assert (Hout : ∀ fs', (∀ p, below T p = false → fs' !! p = fs !! p) → staging fs' ∧ ∀ p, below D p = true → fs' !! p = fs !! p).
  { intros fs' Hf. split; [|auto]. intros p Hp. rewrite Hf by done. by apply Hs. }
  apply triple_modify; [by apply Hout| |].
  - intros k. apply Hout. intros p Hp. apply foldr_delete_other, Forall_take, Forall_forall.
    intros q (name & -> & _)%list_elem_of_fmap <-. by rewrite below_entry in Hp.
  - intros w fs' Hw _ [= <-]. split; [|done]. rewrite Hw. apply Hout. intros p Hp. unfold remove_tree.
    destruct (fs !! p) as [m|] eqn:E; [by apply map_lookup_filter_Some|]. apply map_lookup_filter_None. by left.
Qed.
Definition staged_files (outputs : list bundleOutput) : files := foldl put (<[T := Directory 448 o]> mid) outputs.
Lemma triple_write_bundle m : triple o staging (<[T := Directory m o]> mid) (write_bundle verifyMetadata options T)
  (λ r fs, consistent verifyMetadata options r.1 r.2 ∧ fs = staged_files r.2 ∧ staging fs ∧ Forall (λ output, output_ok output = true) r.2).
Proof.
  assert (H0 : ∀ m', staging (<[T := Directory m' o]> mid)) by (intros m'; by apply staging_at_stage).
  unfold write_bundle. eapply fs_triple_bind.
  { apply triple_context, (triple_modify _ _ _ _ _ (λ _ fs', fs' = <[T := Directory 448 o]> mid)); [done|intros; apply H0|].
    intros w fs' Hw _. rewrite Hw, lookup_insert_eq. intros [= <-]. rewrite insert_insert_eq. simpl. auto. }
  intros [] ? ->. eapply fs_triple_bind; [apply triple_quiet_run; [done|apply quiet_bundle_contents]|].
  intros [result outputs] ? (-> & w & _ & _ & Hok%bundle_contents_ok).
  eapply fs_triple_bind; [apply triple_writes; [done|by destruct Hok as (? & ? & ? & ? & Hok); apply Hok]|].
  intros [] ? (-> & Hs & Hmodes). apply triple_quiet_bind; [done|unfold syncBundleDirectory, open_directory; quiet|]. intros _.
  by apply fs_triple_ret.
Qed.

Lemma puts_other outputs : ∀ fs p, (∀ output, output ∈ outputs → p ≠ child T (bo_name output)) → foldl put fs outputs !! p = fs !! p.
Proof.
  induction outputs as [|x l IH]; intros fs p Hp; [done|]. simpl. rewrite IH by (intros; apply Hp; by apply list_elem_of_further).
  apply lookup_insert_ne. intros E. apply (Hp x); [apply list_elem_of_here|done].
Qed.
Lemma puts_output outputs : ∀ fs output, NoDup (map bo_name outputs) → output ∈ outputs →
  foldl put fs outputs !! child T (bo_name output) = Some (Regular (bo_mode output) o 1 (bo_payload output)).
Proof.
  induction outputs as [|x l IH]; intros fs output Hnd Hin; [by apply not_elem_of_nil in Hin|]. simpl in *.
  apply NoDup_cons in Hnd as [Hx Hnd]. apply elem_of_cons in Hin as [->|Hin]; [|by apply IH].
  rewrite puts_other; [by apply lookup_insert_eq|]. intros output Ho E. apply child_inj in E. apply Hx. rewrite E.
  by apply (list_elem_of_fmap_2 bo_name).
Qed.

Hypothesis Hrooted : ∀ d p, canonicalAbsolutePath d = true → below d p = true → is_Some (pre !! p) → is_Some (pre !! d).
Lemma mid_stage p : below T p = true → mid !! p = None ∧ pre !! p = None.
Proof.
  intros Hp. assert (Hn : pre !! p = None).
  { apply eq_None_not_Some. intros Hs. apply (Hrooted T) in Hs; [|unfold T; rewrite child_abs by done|done].
    - rewrite pre_stage in Hs. by destruct Hs.
    - apply canonical_abs, Forall_app. split; [done|]. constructor; [apply stage_component|done]. }
  split; [|done]. destruct (Hmid p) as [E|(Ha & _)]; [congruence|].
  apply (ancestor_outside _ (stage_name n)) in Ha; [|done|apply stage_component]. unfold T in Hp. congruence.
Qed.
Lemma staged_dist_free outputs : staging (staged_files outputs) → staged_files outputs !! D = None →
  (∀ p, below D p = true → pre !! p = None) ∧ ∀ p, below D p = true → staged_files outputs !! p = None.
Proof.
  intros Hs Hd. assert (Hout : ∀ p, below D p = true → staged_files outputs !! p = pre !! p).
  { intros p Hp. rewrite Hs; [by apply mid_dist|]. apply not_true_is_false. intros Ht. by eapply below_both. }
  assert (Hpre : ∀ p, below D p = true → pre !! p = None).
  { intros p Hp. apply eq_None_not_Some. intros Hsome. apply (Hrooted D) in Hsome; [|rewrite HD|done].
    - rewrite <- Hout, Hd in Hsome by apply below_self. by destruct Hsome.
    - apply canonical_abs, Forall_app. split; [done|]. by constructor. }
  split; [done|]. intros p Hp. rewrite Hout by done. auto.
Qed.
Lemma child_tail d x name : x ≠ "" → child (child d x) name = child d x +:+ String "/" name.
Proof. intros Hx. rewrite child_split, child_nested by done. by rewrite sapp_assoc. Qed.
Lemma published_holds outputs : staging (staged_files outputs) → staged_files outputs !! D = None → NoDup (map bo_name outputs) →
  Forall (λ output, component (bo_name output) = true) outputs → Forall (λ output, output_ok output = true) outputs →
  holds o (move_tree T D (staged_files outputs)) D outputs.
Proof.
  intros Hs Hd Hnd Hcs Hmodes. destruct (staged_dist_free outputs Hs Hd) as [Hpre Hfree].
  pose proof (component_sides _ (stage_component n)) as [Ht1 Ht2]. pose proof (component_sides _ Hc) as [Hc1 Hc2].
  rewrite dist_child in Hfree |- *.
  assert (Hroot : staged_files outputs !! T = Some (Directory 448 o)).
  { unfold staged_files. rewrite puts_other; [by apply lookup_insert_eq|]. intros output _ E. unfold T in E. rewrite child_tail in E by done.
    rewrite <- (sapp_nil_r (child _ _)) in E at 1. by apply sapp_inv_head in E. }
  assert (Hin : ∀ name, move_tree T (child (abs es) c) (staged_files outputs) !! child (child (abs es) c) name =
    staged_files outputs !! child T name).
  { intros name. rewrite (child_tail _ c) by done. unfold T at 2. rewrite (child_tail _ (stage_name n)) by done.
    apply move_tree_into; auto using stage_differs. right; eauto. }
  split_and!.
  - exists 448. split; [|done]. rewrite <- Hroot. unfold T.
    pose proof (move_tree_into (abs es) (stage_name n) c Ht1 Hc1 (staged_files outputs) Hfree "" (or_introl eq_refl)) as E.
    by rewrite !sapp_nil_r in E.
  - apply NoDup_Permutation; [apply NoDup_directory_names|done|]. intros name. rewrite elem_directory_names, Hin. split.
    + intros [[m Hm] _]. destruct (decide (name ∈ map bo_name outputs)) as [|Hnot]; [done|]. exfalso. unfold staged_files in Hm.
      rewrite puts_other in Hm; [|intros output Ho E; apply child_inj in E as ->; by apply Hnot, (list_elem_of_fmap_2 bo_name)].
      rewrite lookup_insert_ne in Hm.
      * by rewrite (proj1 (mid_stage _ (below_entry T name))) in Hm.
      * intros E. unfold T in E. rewrite child_tail in E by done. rewrite <- (sapp_nil_r (child _ _)) in E at 1. by apply sapp_inv_head in E.
    + intros (output & -> & Ho)%list_elem_of_fmap. unfold staged_files. rewrite puts_output by done. split; [by eexists|].
      rewrite Forall_forall in Hcs. by apply component_sides, Hcs.
  - intros output Ho. exists (bo_mode output). rewrite Hin. unfold staged_files. rewrite puts_output by done. split; [done|].
    rewrite Forall_forall in Hmodes. specialize (Hmodes output Ho). unfold output_ok in Hmodes. unbool.
    match goal with H : _ || _ = true |- _ => apply orb_true_iff in H as [E%Z.eqb_eq|E%Z.eqb_eq] end; by rewrite E.
Qed.
Lemma published_states result outputs : consistent verifyMetadata options result outputs → staging (staged_files outputs) →
  staged_files outputs !! D = None → holds o (move_tree T D (staged_files outputs)) D outputs →
  bundle_states (move_tree T D (staged_files outputs)).
Proof.
  intros Hok Hs Hd Hh. destruct (staged_dist_free outputs Hs Hd) as [Hpre Hfree].
  pose proof (component_sides _ (stage_component n)) as [Ht1 Ht2]. pose proof (component_sides _ Hc) as [Hc1 Hc2].
  exists None. split_and!; [done| |right; eauto].
  intros p _ Hp. rewrite dist_child in Hfree, Hp |- *. destruct (below T p) eqn:Et.
  - left. rewrite (proj2 (mid_stage p Et)). unfold T. apply move_tree_gone; auto using stage_differs.
  - unfold T. rewrite move_tree_outside by auto using stage_differs. fold T. rewrite Hs by done. apply Hmid.
Qed.
Lemma holds_elsewhere fs fs' outputs : (∀ p, below D p = true → fs' !! p = fs !! p) → holds o fs D outputs → holds o fs' D outputs.
Proof.
  intros Hsame (Hd & Hn & Hf). split_and!.
  - by rewrite Hsame by apply below_self.
  - rewrite <- Hn. apply NoDup_Permutation; [apply NoDup_directory_names..|]. intros name.
    rewrite !elem_directory_names, Hsame by apply below_entry. done.
  - intros output Ho. rewrite Hsame by apply below_entry. auto.
Qed.

(** What happens once the staging directory exists. *)
Lemma triple_staged m : triple o bundle_states (<[T := Directory m o]> mid)
  ('(result, outputs) ← on_error (write_bundle verifyMetadata options T) (RemoveAll T);
   published ← attempt (publishDirectoryNoReplace T D);
   match published with
   | Ok _ =>
       _ ← in_context "sync published release bundle parent" (syncBundleDirectory (Dir D));
       mret result
   | Err e =>
       deferred (
         existing ← attempt (Lstat D);
         match existing with
         | Err _ => raise (wrap "publish immutable release bundle" e)
         | Ok _ =>
             _ ← in_context "immutable release bundle already exists with different or unsafe contents" (compareBundleDirectory D outputs);
             mret result
         end) (RemoveAll T)
   end)
  (λ result fs, ∃ outputs, consistent verifyMetadata options result outputs ∧ holds o fs D outputs).
Proof.
  eapply fs_triple_bind.
  { eapply triple_cleanup; [apply triple_write_bundle|apply staging_states|]. intros fs Hs.
    eapply triple_wider; [by apply triple_removed|]. intros fs' [? _]. by apply staging_states. }
  intros [result outputs] fs (Hok & -> & Hs & Hmodes). simpl in *.
  pose proof Hok as (mf & payload & script & command & _ & _ & _ & _ & _ & _ & _ & _ & _ & _ & _ & _ & _ & _ & Hnd & Hcs).
  eapply fs_triple_bind.
  { apply (triple_attempt_modify _ _ _ _ (λ fs', bundle_states fs' ∧ holds o fs' D outputs)); [by apply staging_states|].
    intros w fs' Hw Ho. rewrite Hw. destruct (staged_files outputs !! T); [|done]. destruct (staged_files outputs !! D) eqn:Ed; [done|].
    destruct (is_directory _ _); [|done]. intros <-%Ok_inj.
    assert (Hh : holds o (move_tree T D (staged_files outputs)) D outputs) by by apply published_holds.
    assert (bundle_states (move_tree T D (staged_files outputs))) by by eapply published_states. done. }
  intros [[]|e] fs'; simpl.
  - intros [HP Hh]. apply triple_quiet_bind; [done|unfold syncBundleDirectory, open_directory; quiet|]. intros _.
    apply fs_triple_ret; eauto.
  - intros ->. set (fs := staged_files outputs) in *.
    apply (triple_post _ _ _ _ (λ r fs', (r = result ∧ holds o fs D outputs) ∧ ∀ p, below D p = true → fs' !! p = fs !! p)).
    2: { intros r fs' [[-> Hh] Hsame]. exists outputs. split; [done|]. by eapply holds_elsewhere. }
    apply triple_deferred_quiet; [by apply staging_states| | |].
    + quiet.
    + intros w r Hw Ho Hr. fs_ok Hr existing E1. destruct existing; [|done]. fs_ok Hr u E2. injection Hr as ->. split; [done|].
      assert (Hq : w_files w0 = fs ∧ w_euid w0 = o).
      { pose proof (quiet_attempt (Lstat D) (quiet_inspect _) w) as (F1 & _ & F3). rewrite E1 in F1, F3. simpl in F1, F3. split; congruence. }
      destruct Hq as [Hq1 Hq2]. rewrite HD in E2 |- *.
      destruct (triple_context o (λ _, True) fs "immutable release bundle already exists with different or unsafe contents" _ _
        (triple_compare o (λ _, True) fs (es ++ [c]) outputs I ltac:(apply Forall_app; by split; [|constructor]) Hnd Hcs) w0 Hq1 Hq2) as [_ Hpost].
      rewrite E2 in Hpost. destruct (Hpost u eq_refl) as [_ Hh]. done.
    + eapply triple_wider; [by apply triple_removed|]. intros fs' [? ?]. split; [by apply staging_states|done].
Qed.
End staged.
End publication.

(** Every existing path has its directory. *)
Definition rooted (fs : files) : Prop :=
  ∀ d p, canonicalAbsolutePath d = true → below d p = true → is_Some (fs !! p) → is_Some (fs !! d).
Lemma bundle_states_refl `{UnicodeCase} verifyMetadata options o es c pre : bundle_states verifyMetadata options o es c pre pre.
Proof. exists None. split_and!; [done|by left|by left]. Qed.
Lemma canonical_directory_abs path : canonical_directory path = true → canonicalAbsolutePath path = true.
Proof. unfold canonical_directory, canonicalAbsolutePath. intros H. unbool. repeat (apply andb_true_iff; split); try done. by apply negb_true_iff. Qed.
Lemma MkdirTemp_slash directory pattern w : contains_byte "/" pattern = true →
  MkdirTemp directory pattern w = (w, Err (Failed "pattern contains path separator")).
Proof. unfold MkdirTemp. by intros ->. Qed.
Lemma dist_split path : canonicalAbsolutePath path = true →
  (path = "/" ∧ Base path = "/") ∨ ∃ es c, components es ∧ component c = true ∧ path = abs (es ++ [c]) ∧ Dir path = abs es ∧ Base path = c ∧
    elements (Dir path) = es.
Proof.
  intros (l & Hl & ->)%canonical_inv. destruct l as [|c es _] using rev_ind; [by left|right].
  apply Forall_app in Hl as [Hes Hc]. apply Forall_cons in Hc as [Hc _]. exists es, c. rewrite Dir_abs, Base_abs, elements_abs by done. done.
Qed.
(** The bundle after the checks of its options, in the two shapes of its path. *)
Definition after_checks `{UnicodeCase} (verifyMetadata : string → Target → string → string → string → string → res string unit)
    (options : Options) : FsM BundleResult :=
  let distributionParent := Dir (op_DistDir options) in
  _ ← in_context "create release distribution parent" (MkdirAll distributionParent 448);
  _ ← in_context "validate release distribution parent" (validateBundleDirectory distributionParent);
  stageDir ← in_context "create release bundle staging directory"
               (MkdirTemp distributionParent ("." +:+ Base (op_DistDir options) +:+ ".stage-"));
  '(result, outputs) ← on_error (write_bundle verifyMetadata options stageDir) (RemoveAll stageDir);
  published ← attempt (publishDirectoryNoReplace stageDir (op_DistDir options));
  match published with
  | Ok _ =>
      _ ← in_context "sync published release bundle parent" (syncBundleDirectory distributionParent);
      mret result
  | Err e =>
      deferred (
        existing ← attempt (Lstat (op_DistDir options));
        match existing with
        | Err _ => raise (wrap "publish immutable release bundle" e)
        | Ok _ =>
            _ ← in_context "immutable release bundle already exists with different or unsafe contents"
                  (compareBundleDirectory (op_DistDir options) outputs);
            mret result
        end) (RemoveAll stageDir)
  end.
Lemma generate_unfold `{UnicodeCase} verifyMetadata options : generate verifyMetadata options =
  (_ ← from_text (check_options options);
   _ ← in_context "validate release artifact directory" (validateBundleDirectory (op_ArtifactDir options));
   after_checks verifyMetadata options).
Proof. reflexivity. Qed.
Lemma triple_root `{UnicodeCase} verifyMetadata options o pre es c Q : op_DistDir options = "/" →
  triple o (bundle_states verifyMetadata options o es c pre) pre (after_checks verifyMetadata options) Q.
Proof.
  intros E1. unfold after_checks. rewrite E1. change (Dir "/") with "/". change (Base "/") with "/". eapply fs_triple_bind.
  { apply triple_context, (triple_modify _ _ _ _ _ (λ _ fs, fs = pre)); [apply bundle_states_refl|intros; apply bundle_states_refl|].
    intros w fs <- _. change (ancestors _ _) with (@nil string). cbn [make_directories]. intros <-%Ok_inj. split; [apply bundle_states_refl|done]. }
  intros [] ? ->. apply triple_quiet_bind; [apply bundle_states_refl|quiet|]. intros _.
  eapply (fs_triple_bind _ _ _ _ _ (λ _ _, False)); [|done]. apply triple_context.
  intros w Hw Ho. rewrite MkdirTemp_slash by done. split; [|done]. rewrite <- Hw. apply passes_refl, bundle_states_refl.
Qed.
Lemma grown_states `{UnicodeCase} verifyMetadata options o es c pre mid : components es → component c = true →
  op_DistDir options = abs (es ++ [c]) →
  (∀ p, mid !! p = pre !! p ∨ (p ∈ ancestors "" es ∧ pre !! p = None ∧ ∃ mode, mid !! p = Some (Directory mode o))) →
  bundle_states verifyMetadata options o es c pre mid.
Proof.
  intros Hes Hc ED Hmid. exists None. split_and!; [done|by intros p _ _|]. left. intros p Hp.
  destruct (Hmid p) as [|(Ha & _)]; [done|]. apply (ancestor_outside _ c) in Ha; [|done..]. rewrite ED, <- child_abs in Hp by done. congruence.
Qed.
Lemma triple_parent `{UnicodeCase} verifyMetadata options o es c pre : components es → component c = true →
  op_DistDir options = abs (es ++ [c]) →
  triple o (bundle_states verifyMetadata options o es c pre) pre (MkdirAll (abs es) 448)
    (λ _ fs, ∀ p, fs !! p = pre !! p ∨ (p ∈ ancestors "" es ∧ pre !! p = None ∧ ∃ mode, fs !! p = Some (Directory mode o))).
Proof.
  intros Hes Hc ED. apply triple_modify; [apply bundle_states_refl|intros; apply bundle_states_refl|].
  intros w fs <- Ho Em. assert (Hg : ∀ p, fs !! p = w_files w !! p ∨
    (p ∈ ancestors "" es ∧ w_files w !! p = None ∧ ∃ mode, fs !! p = Some (Directory mode o))).
  { intros p. change (clean_elements true [] (split "/" (abs es))) with (elements (abs es)) in Em. rewrite elements_abs in Em by done.
    destruct (make_directories_spec _ _ _ _ _ Em p) as [|(? & ? & ?)]; [by left|right]. rewrite <- Ho. eauto. }
  split; [|exact Hg]. by apply grown_states.
Qed.
Lemma triple_beside `{UnicodeCase} verifyMetadata options o es c pre : components es → component c = true →
  op_DistDir options = abs (es ++ [c]) → Dir (op_DistDir options) = abs es → Base (op_DistDir options) = c → rooted pre →
  triple o (bundle_states verifyMetadata options o es c pre) pre (after_checks verifyMetadata options)
    (λ result fs, ∃ outputs, consistent verifyMetadata options result outputs ∧ holds o fs (op_DistDir options) outputs).
Proof.
  intros Hes Hc ED EDir EBase Hrooted. unfold after_checks. cbv zeta. rewrite EBase. rewrite EDir.
  eapply fs_triple_bind; [by apply triple_context, triple_parent|]. intros [] mid Hmid.
  assert (Hms : bundle_states verifyMetadata options o es c pre mid) by by apply grown_states.
  apply triple_quiet_bind; [done|quiet|]. intros _. eapply fs_triple_bind.
  { apply triple_context, triple_MkdirTemp; [done|]. intros n m Hn. rewrite stage_path in Hn |- * by done.
    eapply (staging_states verifyMetadata options o es c Hes Hc pre ED mid Hmid n Hn). apply staging_at_stage. by intros p _. }
  intros stageDir fs (_ & Hn & [n ->] & m & ->). rewrite stage_path in Hn |- * by done.
  pose proof (triple_staged verifyMetadata options o es c Hes Hc pre ED mid Hmid n Hn Hrooted m) as Ht. rewrite EDir in Ht. exact Ht.
Qed.
Lemma triple_generate `{UnicodeCase} verifyMetadata options o pre : rooted pre →
  triple o (bundle_states verifyMetadata options o (elements (Dir (op_DistDir options))) (Base (op_DistDir options)) pre) pre
    (generate verifyMetadata options)
    (λ result fs, ∃ outputs, consistent verifyMetadata options result outputs ∧ holds o fs (op_DistDir options) outputs).
Proof.
  intros Hrooted. rewrite generate_unfold. eapply fs_triple_bind; [apply triple_from_text, bundle_states_refl|].
  intros [] ? [Hopt ->]. apply all_ok_iff in Hopt. rewrite !Forall_cons in Hopt. destruct Hopt as (_ & Hd & _).
  apply fails_iff, negb_false_iff, canonical_directory_abs in Hd.
  apply triple_quiet_bind; [apply bundle_states_refl|quiet|]. intros _.
  destruct (dist_split _ Hd) as [[E1 E2]|(es & c & Hes & Hc & ED & EDir & EBase & Eel)]; [by apply triple_root|].
  rewrite Eel, EBase. by apply triple_beside.
Qed.

(** C36. A release bundle is published as a whole or not at all, and never replaced.
    Whatever it finds, whatever fails and wherever it is cut off, generating a bundle leaves
    at every moment everything outside as it was but for one new temporary tree beside the
    bundle and new directories above it; the bundle itself is untouched, or it was absent and
    is complete.  On success the directory holds exactly the files of one release that is
    consistent with its manifest, whether this run published it or found it there. *)
Theorem bundle_published_atomically `{UnicodeCase}
    (verifyMetadata : string → Target → string → string → string → string → res string unit) (options : Options) (w : World) :
  rooted (w_files w) →
  let '(w', r) := generate verifyMetadata options w in
  passes (bundle_states verifyMetadata options (w_euid w) (elements (Dir (op_DistDir options))) (Base (op_DistDir options)) (w_files w)) w w' ∧
  ∀ result, r = Ok result → ∃ outputs,
    consistent verifyMetadata options result outputs ∧ holds (w_euid w) (w_files w') (op_DistDir options) outputs.
Proof.
  intros Hr. destruct (triple_generate verifyMetadata options (w_euid w) (w_files w) Hr w eq_refl eq_refl) as [Hp Hq].
  destruct (generate verifyMetadata options w) as [w' r]. split; [exact Hp|]. intros result ->. by apply Hq.
Qed.

(** ** What was bundled deploys *)
Lemma lower_hex_fixed s : Forall (λ z, lower_hex_byte z = true) (bytes_list s) → ascii_lower s = s.
Proof.
  unfold ascii_lower. induction s as [|c s IH]; [done|]. simpl. intros [Hc Hs]%Forall_cons. specialize (IH Hs).
  change (of_bytes ((if (65 <=? byteZ c) && (byteZ c <=? 90) then byteZ c + 32 else byteZ c) ::
    map (λ z, if (65 <=? z) && (z <=? 90) then z + 32 else z) (bytes_list s)) = String c s).
  assert (E : (65 <=? byteZ c) && (byteZ c <=? 90) = false).
  { clear -Hc. revert Hc. destruct c as [[] [] [] [] [] [] [] []]; vm_compute; done. }
  rewrite E. change (String (chrZ (byteZ c)) (of_bytes (map (λ z, if (65 <=? z) && (z <=? 90) then z + 32 else z) (bytes_list s))) = String c s).
  by rewrite IH, chrZ_byteZ.
Qed.
Lemma pinned_expectation binary bytes sha : 0 < bytes <= maximumStagedArtifactBytes → matches hexDigestPattern sha = true →
  SHA256Hex binary = sha → parseArtifactExpectation bytes sha = Ok (mkExpectation bytes (bytes_list (Sum256 binary))).
Proof.
  intros Hb Hm <-. pose proof (proj1 (matches_lower_hex 64 _) Hm) as [Hl HF]. unfold parseArtifactExpectation.
  destruct (Z.leb_spec bytes 0); [lia|]. destruct (Z.ltb_spec maximumStagedArtifactBytes bytes); [lia|]. simpl orb. cbv iota.
  unfold slen. rewrite Hl, lower_hex_fixed, String.eqb_refl by done. simpl orb. cbv iota.
  by rewrite (proj2 (digest_decodes _ binary Hm) eq_refl).
Qed.
Lemma build_info_accepted info target sourceRevision toolchain (release : InstalledRelease) :
  validateGoBuildInfo info target sourceRevision toolchain = Ok tt → ir_BuildToolchain release = toolchain →
  ir_OS release = tg_OS target → ir_Architecture release = tg_Architecture target →
  validateArtifactBuildMetadata info release = Ok tt.
Proof.
  unfold validateGoBuildInfo, validateArtifactBuildMetadata. rewrite !all_ok_iff. intros HF -> -> ->.
  cbv zeta in HF |- *. cbn [app map] in HF |- *. rewrite !Forall_cons, ?fails_iff in HF.
  destruct HF as (H1 & H2 & H3 & H4 & H5 & H6 & H7 & H8 & H9 & _ & _ & H10 & H11 & H12 & H13 & H14 & _).
  assert (Hforbid : ∀ key, bool_decide (is_Some (setting (bm_Settings info) key)) = false →
    match setting (bm_Settings info) key with Some _ => true | None => false end = false).
  { intros key. destruct (setting _ key); [|done]. by rewrite bool_decide_true. }
  rewrite !Forall_cons, ?fails_iff. split_and!; try done; try (by apply Hforbid).
  destruct (String.eqb (tg_Architecture target) "arm64"); apply fails_iff in H10; by apply fails_iff.
Qed.
Lemma InstalledFromManifest_inv `{UnicodeCase} layout manifest sha target release : InstalledFromManifest layout manifest sha target = Ok release →
  ∃ artifact, validate_manifest manifest = Ok tt ∧ Artifact manifest target = Ok artifact ∧
    ir_Release release = rm_Release manifest ∧ ir_SourceRevision release = rm_SourceRevision manifest ∧
    ir_BuildToolchain release = rm_BuildToolchain manifest ∧ ir_BuildIdentity release = ra_BuildIdentity artifact ∧
    ir_ProtocolVersion release = rm_ProtocolVersion manifest ∧ ir_StorageSchema release = rm_StorageSchema manifest ∧
    ir_OS release = tg_OS target ∧ ir_Architecture release = tg_Architecture target ∧
    ir_BinaryBytes release = ra_Bytes artifact ∧ ir_BinarySHA256 release = ra_SHA256 artifact ∧ isSupportedTarget target = true.
Proof.
  unfold InstalledFromManifest. destruct (validate_manifest manifest) as [[]|] eqn:Hv; [|done]. destruct (matches _ sha); [|done]. simpl.
  destruct (Artifact manifest target) as [artifact|] eqn:Ea; [|done]. destruct (BinaryPath _ _ _) as [path|] eqn:Ep; [|done].
  destruct (validate_release _ _); [|done]. intros <-%Ok_inj. exists artifact. split_and!; try done.
  revert Ep. unfold BinaryPath. destruct (VersionDir _ _); [|done]. by destruct (isSupportedTarget target).
Qed.

Lemma statFile_calm source w n : w_faults w = [] → w_files w !! source = Some n → statFile source w = (w, Ok n).
Proof. intros Hf Hs. unfold statFile. rewrite inspect_calm by done. by rewrite Hs. Qed.
Lemma snapshot_calm source mode content expectation kind w : w_faults w = [] →
  w_files w !! source = Some (Regular mode (w_euid w) 1 content) → Z.land (permissions mode) 18 = 0 → genuine expectation content →
  readVerifiedSourceSnapshot source expectation kind w = (w, Ok content).
Proof.
  intros Hf Hs Hm [Hl Hd]. unfold readVerifiedSourceSnapshot, mbind, fsm_bind, in_context, ask, refuse_unless, check, mret, fsm_ret.
  rewrite (statFile_calm _ _ _ Hf Hs). cbn [content_of]. rewrite limited_all by lia. rewrite Hl, Z.eqb_refl, bool_decide_true by done. cbn [andb].
  rewrite (statFile_calm _ _ _ Hf Hs). unfold owned_ok, validateOwnedRegularFile, size_of. cbn [content_of].
  rewrite !Z.eqb_refl, Hm, Hl. simpl. by rewrite Z.eqb_refl.
Qed.

(** C37. What was bundled deploys.  The executable a consistent bundle holds for a target is
    accepted by the verification a deployment runs on it: for every layout and every release
    installed from the bundle's manifest under the bundle's pin, a trusted single-link copy
    of the bundled bytes passes [VerifyArtifactSource] (size, digest, frozen attestation and
    build metadata). *)
Theorem bundled_artifacts_deploy `{UnicodeCase} `{BuildInfoReader} (options : Options) (result : BundleResult) (outputs : list bundleOutput) :
  consistent verifyGoBuildMetadata options result outputs →
  ∃ manifest payload, manifest_CanonicalBytes manifest = Ok payload ∧ mkOutput "release-manifest.json" payload 256 ∈ outputs ∧
    br_ManifestSHA256 result = SHA256Hex payload ∧
    ∀ layout target release, InstalledFromManifest layout manifest (br_ManifestSHA256 result) target = Ok release →
    ∃ binary, mkOutput (target_name target) binary 320 ∈ outputs ∧
      ∀ path source mode w, w_faults w = [] →
        openVerifiedArtifactSource path (slen binary) w = (w, Ok (source, Regular mode (w_euid w) 1 binary)) →
        w_files w !! source = Some (Regular mode (w_euid w) 1 binary) → Z.land (permissions mode) 18 = 0 →
        VerifyArtifactSource path release w = (w, Ok tt).
Proof.
  intros (manifest & payload & script & command & Hm & _ & Hs & _ & _ & _ & _ & _ & _ & Hin & _ & _ & _ & Hall & _).
  exists manifest, payload. split_and!; try done. intros layout target release Hrel.
  apply InstalledFromManifest_inv in Hrel as (artifact & Hv & Ha & E1 & E2 & E3 & E4 & E5 & E6 & E7 & E8 & E9 & E10 & Ht).
  unfold isSupportedTarget in Ht. apply bool_decide_eq_true in Ht.
  destruct (Hall target Ht) as (artifact' & binary & line & Ha' & Hbin & Eb & Es & Hmeta & _). rewrite Ha in Ha'. apply Ok_inj in Ha' as <-.
  exists binary. split; [done|]. intros path source mode w Hf Hopen Hsrc Hmode.
  assert (Hart : 0 < ra_Bytes artifact <= maximumStagedArtifactBytes ∧ matches hexDigestPattern (ra_SHA256 artifact) = true ∧
    rm_ProtocolVersion manifest = "1" ∧ rm_StorageSchema manifest = "1").
  { pose proof (validate_manifest_inv _ Hv) as (_ & _ & _ & Hp & Hst & origin & _ & H2 & _).
    destruct (find_artifact _ _ _ _ _ H2 Ht) as (a & Ef & (_ & _ & Hb & _ & Hd & _)%validate_artifact_inv).
    unfold Artifact in Ha. rewrite Hv, Ef in Ha. apply Ok_inj in Ha as ->. done. }
  destruct Hart as (Hb & Hd & Hproto & Hschema). unfold VerifyArtifactSource.
  rewrite E9, E10, (pinned_expectation binary) by done. unfold mbind, fsm_bind, from_text at 1, mret, fsm_ret. cbn [ae_bytes].
  rewrite <- Eb, Hopen. rewrite (snapshot_calm _ mode binary) by done.
  unfold verifyGoBuildMetadata in Hmeta. unfold expected_identity. rewrite E1, E2, E3, E4, E5, E6, Hproto, Hschema.
  destruct (Encode _) as [attestation|]; [|done]. unfold in_context, from_text, mret, fsm_ret. destruct (Contains binary attestation) eqn:Ec; [|done].
  unfold Contains in Ec. unfold refuse_unless. rewrite Ec. cbn [check]. simpl in Hmeta. unfold mret, fsm_ret.
  destruct (read_build_info binary) as [info|]; [|done]. by rewrite (build_info_accepted _ _ _ _ release Hmeta).
Qed.

(** ** A concrete bundle *)

(** [rooted] is decided by looking at the prefixes of each path. *)
Fixpoint prefixes (s : string) : list string :=
  match s with EmptyString => [""] | String c s' => "" :: map (String c) (prefixes s') end.
Lemma prefixes_app d x : d ∈ prefixes (d +:+ x).
Proof.
  induction d as [|c d IH]; simpl; [destruct x; constructor|]. constructor. by apply list_elem_of_fmap_2.
Qed.
Lemma below_prefix d p : below d p = true → d ∈ prefixes p.
Proof.
  unfold below, has_prefix. destruct (String.eqb_spec p d) as [->|_]; simpl; [rewrite <- (sapp_nil_r d) at 2; intros _; apply prefixes_app|].
  destruct (strip_prefix (child d "") p) as [rest|] eqn:E; [|done]. apply strip_prefix_Some in E as ->. intros _.
  unfold child. destruct (String.eqb_spec d "/") as [->|_]; rewrite ?sapp_assoc; apply prefixes_app.
Qed.
Definition all_rooted (fs : files) : bool :=
  forallb (λ '(p, _), forallb (λ d, negb (canonicalAbsolutePath d && below d p) || bool_decide (is_Some (fs !! d))) (prefixes p)) (map_to_list fs).
Lemma all_rooted_spec fs : all_rooted fs = true → rooted fs.
Proof.
  unfold all_rooted. rewrite forallb_forall. intros H d p Hd Hb [n Hn].
  specialize (H (p, n)). rewrite <- list_elem_of_In, elem_of_map_to_list in H. specialize (H Hn). rewrite forallb_forall in H.
  specialize (H d). rewrite <- list_elem_of_In in H. specialize (H (below_prefix _ _ Hb)). rewrite Hd, Hb in H. simpl in H.
  by apply bool_decide_eq_true in H.
Qed.

Definition sample_options : Options :=
  mkOptions "/build" "/dist/2.1.0" "/src/LICENSE" "/src/NOTICE" "2.1.0" (rm_SourceRevision sample_manifest) (rm_BuildToolchain sample_manifest)
    "https://downloads.example.test/jat".
(** An executable names its target, and contains its digest and its attestation. *)
Definition sample_binary (t : Target) : string :=
  let revision := op_SourceRevision sample_options in
  let toolchain := op_BuildToolchain sample_options in
  match DeriveBuildIdentity "2.1.0" revision toolchain t with
  | Err _ => ""
  | Ok digest =>
      match Encode {| Release := "2.1.0"; SourceRevision := revision; BuildToolchain := toolchain; BuildDigest := digest;
                      ProtocolVersion := "1"; StorageSchemaVersion := "1" |} with
      | Ok attestation => targetKey t +:+ " " +:+ digest +:+ " " +:+ attestation
      | Err _ => ""
      end
  end.
#[export] Instance sample_reader : BuildInfoReader := {|
  read_build_info payload :=
    (λ t, mkMetadata (op_BuildToolchain sample_options) (runtimeModule +:+ "/cmd/sshserver") runtimeModule false
            ([("-buildmode", "exe"); ("-compiler", "gc"); ("-trimpath", "true"); ("CGO_ENABLED", "0"); ("GOOS", tg_OS t);
              ("GOARCH", tg_Architecture t)] ++
             [if String.eqb (tg_Architecture t) "arm64" then ("GOARM64", "v8.0") else ("GOAMD64", "v1")]) "(devel)")
    <$> List.find (λ t, has_prefix (targetKey t +:+ " ") payload) supportedTargets |}.
Definition bundle_world : World := mkWorld
  (list_to_map ([("/", Directory 493 0); ("/build", Directory 448 1000); ("/src", Directory 448 1000);
     ("/src/LICENSE", Regular 384 1000 1 "license"); ("/src/NOTICE", Regular 384 1000 1 "notice")] ++
   map (λ t, ("/build/" +:+ target_name t, Regular 448 1000 1 (sample_binary t))) supportedTargets))
  1000 63 [] (λ n, Z.of_nat n) [] [].
Lemma bundle_world_rooted : rooted (w_files bundle_world).
Proof. apply all_rooted_spec. vm_compute. reflexivity. Qed.
Definition is_ok {E A} (r : res E A) : bool := match r with Ok _ => true | Err _ => false end.
Lemma is_ok_inv {E A} (r : res E A) : is_ok r = true → ∃ a, r = Ok a.
Proof. destruct r; [eauto|done]. Qed.
Lemma sample_generated : is_ok (Generate sample_options bundle_world).2 = true.
Proof. vm_compute. reflexivity. Qed.

Lemma bundle_published_atomically_witness :
  ∃ w' result outputs, Generate sample_options bundle_world = (w', Ok result) ∧
    passes (bundle_states verifyGoBuildMetadata sample_options 1000 (elements (Dir (op_DistDir sample_options))) (Base (op_DistDir sample_options))
      (w_files bundle_world)) bundle_world w' ∧
    consistent verifyGoBuildMetadata sample_options result outputs ∧ holds 1000 (w_files w') (op_DistDir sample_options) outputs.
Proof.
  pose proof (bundle_published_atomically verifyGoBuildMetadata sample_options bundle_world bundle_world_rooted) as H.
  pose proof sample_generated as G. unfold Generate in G |- *.
  destruct (generate verifyGoBuildMetadata sample_options bundle_world) as [w' r]. apply is_ok_inv in G as [result G]. simpl in G. subst r.
  destruct H as [Hp Hq]. destruct (Hq result eq_refl) as (outputs & Hc & Hh). by exists w', result, outputs.
Defined.

Lemma bundled_artifacts_deploy_witness : ∃ result outputs, consistent verifyGoBuildMetadata sample_options result outputs ∧
  ∃ manifest payload, manifest_CanonicalBytes manifest = Ok payload ∧ mkOutput "release-manifest.json" payload 256 ∈ outputs ∧
    br_ManifestSHA256 result = SHA256Hex payload ∧
    ∀ layout target release, InstalledFromManifest layout manifest (br_ManifestSHA256 result) target = Ok release →
    ∃ binary, mkOutput (target_name target) binary 320 ∈ outputs ∧
      ∀ path source mode w, w_faults w = [] →
        openVerifiedArtifactSource path (slen binary) w = (w, Ok (source, Regular mode (w_euid w) 1 binary)) →
        w_files w !! source = Some (Regular mode (w_euid w) 1 binary) → Z.land (permissions mode) 18 = 0 →
        VerifyArtifactSource path release w = (w, Ok tt).
Proof.
  destruct (triple_generate verifyGoBuildMetadata sample_options 1000 (w_files bundle_world) bundle_world_rooted bundle_world eq_refl eq_refl)
    as [_ Hq].
  pose proof sample_generated as G. unfold Generate in G.
  destruct (generate verifyGoBuildMetadata sample_options bundle_world) as [w' r]. apply is_ok_inv in G as [result G]. simpl in G. subst r.
  destruct (Hq result eq_refl) as (outputs & Hc & _). exists result, outputs. split; [exact Hc|].
  exact (bundled_artifacts_deploy sample_options result outputs Hc).
Defined.

Definition sample_url : string := "https://downloads.example.test/jat/releases/2.1.0/install.sh".
Definition sample_payload : string := "echo 'hello'" +:+ newline.
Definition sample_env (name : string) : string := "<" +:+ name +:+ ">".
Lemma install_command_exact_witness : ∃ line program, InstallCommand sample_url sample_payload = Ok line ∧
  sh_words sample_env line = Some (environment_words sample_env ++ [program]).
Proof.
  assert (E : is_ok (InstallCommand sample_url sample_payload) = true) by (vm_compute; reflexivity).
  apply is_ok_inv in E as [line E]. destruct (install_command_exact sample_env sample_url sample_payload line E) as (program & _ & _ & _ & H).
  exists line, program. exact (conj E H).
Defined.
