(* ===== verification/CliProps.v ===== *)
(** * The command line: properties

    What [src/runtime/internal/cli/cli.go] constructs and runs.  The native lifecycle
    satisfies the laws of the interfaces [Host] and [PreviewHost] against which the
    lifecycle was proved; the commands that only read change nothing; a client's command
    reaches the lifecycle with exactly the inputs it names; the reply of the server to an
    enrollment request is the one the client accepts. *)

From stdpp Require Import base list strings gmap.
From Stdlib Require Import ZArith Lia Ascii.
From Stdlib Require String.
From S2P Require Import Prelude GoStd GoTime Uuid Json JsonFacts Api Wire Indent Models Release NetIP Fs Paths Config Layout Deploy Instance.
From S2P Require Import Manifest Artifact Lifecycle Preview PreviewRun ApplyRun Http Service Bundle Runtime Server Cli.
From S2P Require Import ConfigProps InstanceProps DeploySpec LifecycleProps DeployCrash ManifestProps ArtifactProps RemovalProps ServiceProps.
From S2P Require Import Auth Sql Monad Schema Enrollment Samples Accepted SqlFacts CollectionProps ApplyGuard ApplyCrash ServerProps BundleProps.
Local Open Scope Z_scope.

(** ** Computations that leave a path alone *)
Definition spares {A} (p : string) (m : FsM A) : Prop := ∀ o fs, triple o (λ fs', fs' !! p = fs !! p) fs m (λ _ _, True).
Create HintDb spares.
Section spares.
Context (p : string).
Lemma spares_quiet {A} (m : FsM A) : Quiet m → spares p m.
Proof. intros Hm o fs. eapply triple_post; [by apply triple_quiet|done]. Qed.
Lemma spares_bind {A B} (m : FsM A) (f : A → FsM B) : spares p m → (∀ a, spares p (f a)) → spares p (m ≫= f).
Proof.
  intros Hm Hf o fs. eapply fs_triple_bind; [apply triple_ends, Hm|]. intros a mid [Hv _].
  eapply triple_widen; [apply Hf|]. simpl. by intros fs' ->.
Qed.
Lemma spares_attempt {A} (m : FsM A) : spares p m → spares p (attempt m).
Proof. intros Hm o fs. eapply triple_post; [by apply triple_attempt|done]. Qed.
Lemma spares_context {A} context (m : FsM A) : spares p m → spares p (in_context context m).
Proof. intros Hm o fs. by apply triple_context. Qed.
Lemma spares_modify f : (∀ w fs, f w = Ok fs → fs !! p = w_files w !! p) → spares p (modify f intact).
Proof. intros Hf o fs. apply triple_modify; [done|done|]. intros w fs' <- _ E. split; [by apply Hf|done]. Qed.
(** From the states a computation goes through. *)
Lemma spares_states {A} (m : FsM A) (P : Z → files → files → Prop) (Q : Z → files → A → files → Prop) :
  (∀ o fs, triple o (P o fs) fs m (Q o fs)) → (∀ o fs fs', P o fs fs' → fs' !! p = fs !! p) → spares p m.
Proof. intros Hm HP o fs. eapply triple_post; [eapply triple_widen; [apply Hm|apply HP]|done]. Qed.

Lemma spares_MkdirAll path mode : p ∉ ancestors "" (elements path) → spares p (MkdirAll path mode).
Proof. intros Hp. apply spares_modify. intros w fs E. by eapply make_directories_other. Qed.
Lemma spares_Chmod path mode : p ≠ path → spares p (Chmod path mode).
Proof. intros Hp. apply spares_modify. intros w fs. destruct (_ !! _); [|done]. intros [= <-]. by rewrite lookup_insert_ne. Qed.
Lemma spares_create path mode : p ≠ path → spares p (create_exclusive path mode).
Proof.
  intros Hp. apply spares_modify. intros w fs. destruct (_ !! _); [done|]. destruct (is_directory _ _); [|done].
  intros [= <-]. unfold create_node. by rewrite lookup_insert_ne.
Qed.
Lemma spares_Remove path : p ≠ path → spares p (Remove path).
Proof.
  intros Hp. apply spares_modify. intros w fs E. repeat case_match; simplify_eq; by rewrite lookup_delete_ne.
Qed.
Lemma spares_write path value mode : p ≠ path → (∀ n, p ≠ temporary_name path n) → spares p (WriteFileAtomic path value mode).
Proof.
  intros Hp Ht. eapply (spares_states _ (λ o fs, write_states path value mode o fs)); [intros o fs; apply WriteFileAtomic_spec|].
  intros o fs fs' [->|[(n & m & c & _ & ->)| ->]]; [done| |]; unfold replaced; by rewrite lookup_insert_ne.
Qed.
Lemma spares_removeDeploymentFile path : p ≠ path → spares p (removeDeploymentFile path).
Proof.
  intros Hp. unfold removeDeploymentFile. apply spares_bind; [apply spares_quiet; quiet|]. intros [n|e].
  - apply spares_bind; [apply spares_quiet, quiet_validateDeploymentFileFD|]. intros _.
    apply spares_bind; [apply spares_quiet; unfold sync_file; quiet|]. intros _.
    apply spares_bind; [by apply spares_attempt, spares_Remove|]. intros r.
    apply spares_bind; [apply spares_quiet; quiet|]. intros _.
    apply spares_quiet. unfold sync_file. quiet.
  - apply spares_quiet. destruct e; quiet.
Qed.
End spares.
Ltac spares :=
  repeat lazymatch goal with
  | |- spares _ (mbind _ _) => apply spares_bind; [|intros ?]
  | |- spares _ (attempt _) => apply spares_attempt
  | |- spares _ (in_context _ _) => apply spares_context
  | |- spares _ (match ?x with _ => _ end) => destruct x
  | |- spares _ (match ?x with _ => _ end _) => destruct x
  | |- spares _ _ => first [solve [auto with spares nocore] | apply spares_quiet; solve [unfold Lstat, open_nofollow, sync_file, fstat; quiet]]
  end.

(** ** The metadata files among the other paths of a deployment *)
Lemma child_slash d x : ∃ s, child d x = s +:+ String "/" x.
Proof. unfold child. destruct (String.eqb d "/"); [by exists ""|by exists d]. Qed.
Lemma last_name s t x y : s +:+ String "/" x = t +:+ String "/" y → contains_byte "/" x = false → contains_byte "/" y = false → x = y.
Proof.
  revert t. induction s as [|c s IH]; intros [|d t] E Hx Hy; simpl in E; injection E; intros.
  - done.
  - subst. exfalso. rewrite contains_app in Hx. simpl in Hx. by rewrite orb_true_r in Hx.
  - subst. exfalso. rewrite contains_app in Hy. simpl in Hy. by rewrite orb_true_r in Hy.
  - by eapply IH.
Qed.
Lemma child_name d e x y : child d x = child e y → contains_byte "/" x = false → contains_byte "/" y = false → x = y.
Proof. destruct (child_slash d x) as [s ->], (child_slash e y) as [t ->]. apply last_name. Qed.

Definition metadata_names : list string := ["deployment.json"; "deployment-journal.json"].
Lemma is_prefix_of_take k (l : list string) : is_prefix_of (take k l) l = true.
Proof. rewrite <- (take_drop k l) at 2. apply is_prefix_of_app. Qed.
Section metadata.
Context (layout : Layout) `{!GoodLayout layout} (p : string) (Hp : metadata_path layout p).
Lemma metadata_shape : ∃ r name, components r ∧ name ∈ metadata_names ∧ p = child (abs r) name ∧
  ly_VersionsDir layout = abs (r ++ ["versions"]).
Proof using GoodLayout0 Hp.
  destruct (layout_shape layout) as (r & Hr & _ & Ev & Es & Ej & _). exists r.
  destruct Hp as [->| ->]; [exists "deployment.json"; rewrite Es|exists "deployment-journal.json"; rewrite Ej];
    rewrite child_abs by done; split_and!; try done; unfold metadata_names; absent.
Qed.
(** A name of its own in any directory, and anything below the versions. *)
Lemma apart_name d x : contains_byte "/" x = false → x ∉ metadata_names → p ≠ child d x.
Proof using GoodLayout0 Hp.
  destruct metadata_shape as (r & name & _ & Hn & -> & _). intros Hx Hne E. apply child_name in E; [by subst| |done].
  repeat (apply elem_of_cons in Hn as [->|Hn]; [done|]). by apply not_elem_of_nil in Hn.
Qed.
Lemma apart_versions x : p ≠ child (ly_VersionsDir layout) x.
Proof using GoodLayout0 Hp.
  destruct metadata_shape as (r & name & Hr & Hn & -> & Ev). rewrite Ev, <- child_abs by done. intros E.
  assert (Hs : name ≠ "" ∧ contains_byte "/" name = false ∧ name ≠ "versions").
  { repeat (apply elem_of_cons in Hn as [->|Hn]; [done|]). by apply not_elem_of_nil in Hn. }
  destruct Hs as (H1 & H2 & H3). apply (below_apart (abs r) name "versions" (child (abs r) name)); try done; [apply below_self|].
  rewrite E. apply below_entry.
Qed.
(** Nothing on the way to the state directory, nor to any other from which they are apart. *)
Lemma apart_ancestors path : is_prefix_of (elements p) (elements path) = false → p ∉ ancestors "" (elements path).
Proof using Type.
  clear Hp. intros Hs Hin. pose proof (elements_components path) as Hc.
  destruct (ancestors_spec (elements path) "" [] p (or_introl (conj eq_refl eq_refl)) Hin) as (k & E & _). simpl in E.
  rewrite E, elements_abs, is_prefix_of_take in Hs; [done|by apply Forall_take].
Qed.
Lemma apart_state_dir : is_prefix_of (elements p) (elements (ly_StateDir layout)) = false.
Proof using GoodLayout0 Hp.
  pose proof layout_separate as Hs. unfold metadata_separate in Hs. unbool. by destruct Hp as [->| ->].
Qed.
Lemma apart_on_the_way home target : is_prefix_of (elements p) (elements target) = false → ¬ on_the_way home target p.
Proof using Type.
  clear Hp. intros Hs (d & rest & _ & E & ->). rewrite E, app_assoc in Hs.
  rewrite elements_abs, is_prefix_of_app in Hs; [done|].
  pose proof (elements_components target) as Hc. rewrite E, app_assoc in Hc. by apply Forall_app in Hc as [? _].
Qed.
End metadata.

(** ** What the native lifecycle's parts leave alone *)
Lemma child_child d a b : a ≠ "" → child (child d a) b = child d (a +:+ "/" +:+ b).
Proof.
  intros Ha. rewrite (child_split (child d a) b), child_nested, (child_split d a), (child_split d (a +:+ _)) by done.
  by rewrite !sapp_assoc.
Qed.
Section parts.
Context (layout : Layout) `{!GoodLayout layout} (p : string) (Hp : metadata_path layout p).
Lemma version_child release dir x : VersionDir layout release = Ok dir → p ≠ child dir x.
Proof using GoodLayout0 Hp.
  unfold VersionDir. destruct (Valid release) eqn:Hv; [|done]. intros <-%Ok_inj.
  destruct (metadata_shape layout p Hp) as (r & name & Hr & _ & _ & Ev). apply Valid_component in Hv.
  rewrite Ev, Join_abs, <- child_abs, <- Ev by (done || apply Forall_app; by split; [|constructor]).
  apply component_inv in Hv as (Hne & _). rewrite child_child by done. by apply (apart_versions layout).
Qed.
Lemma spares_staged support source dir name n d : (∀ x, p ≠ child dir x) → spares p (stage_file support source dir name n d).
Proof using Type.
  intros Hd. eapply (spares_states _ _ (λ o fs, staging_view o dir name n d (staged_mode support) fs)).
  - intros o fs. apply triple_stage_file.
  - intros o fs fs' [H _]. destruct (H p) as [->|(_ & random & E)]; [done|done|]. by apply Hd in E.
Qed.
Lemma spares_removal : spares p (RemoveInstalledArtifacts layout).
Proof using GoodLayout0 Hp.
  intros o fs w <- <-. pose proof (removal_run layout w) as H.
  destruct (RemoveInstalledArtifacts layout w) as [w' r]. destruct H as [H _]. split; [|done].
  eapply passes_impl; [|exact H]. intros fs' Hr. destruct (Hr p) as [->|(_ & release & Hv & E)]; [done|]. exfalso.
  apply Valid_component, component_inv in Hv as (Hne & _). destruct E as [E|(name & n & E & _)].
  - by apply (apart_versions layout p Hp) in E.
  - rewrite child_child in E by done. by apply (apart_versions layout p Hp) in E.
Qed.
(** The definition of the service: not on the way to it, and of another name. *)
Definition definition_separate (adapter : ServiceManagerAdapter) : Prop :=
  definition_beneath adapter ∧ ∀ q, metadata_path layout q →
    is_prefix_of (elements q) (elements (Dir (sa_definitionPath adapter))) = false.
Context (adapter : ServiceManagerAdapter) (Hdef : definition_separate adapter).
Lemma definition_ne : p ≠ sa_definitionPath adapter ∧ ∀ n, p ≠ temporary_name (sa_definitionPath adapter) n.
Proof using GoodLayout0 Hp Hdef.
  destruct Hdef as [(h & d & name & Hc & _ & E & Hn) _]. rewrite app_assoc in Hc, E. apply Forall_app in Hc as [Hhd Hc].
  apply Forall_inv in Hc. split.
  - rewrite E, <- child_abs by done. apply (apart_name layout p Hp); [by apply component_inv in Hc as (_ & _ & _ & ?)|].
    destruct Hn as [->| ->]; unfold metadata_names; absent.
  - intros n. unfold temporary_name, temporary_path. rewrite E, Dir_abs, Join_abs by (done || apply temporary_component).
    rewrite <- child_abs by done. apply (apart_name layout p Hp); [|by unfold metadata_names; absent].
    pose proof (temporary_component n) as Ht. by apply component_inv in Ht as (_ & _ & _ & ?).
Qed.
Lemma spares_install payload : spares p (install_definition adapter payload).
Proof using GoodLayout0 Hp Hdef.
  pose proof definition_ne as [Hne Ht]. destruct Hdef as [Hb Hway].
  eapply (spares_states _ _ (λ o fs, definition_states o adapter payload fs)).
  - intros o fs. by apply triple_install_definition.
  - intros o fs fs' H. destruct (H p) as [|[(_ & Hw & _)|[(E & _)|(_ & n & E)]]]; [done| |done|by apply Ht in E].
    exfalso. eapply apart_on_the_way; [|exact Hw]. by apply Hway.
Qed.
End parts.

(** The instance's files have names of their own in the state directory. *)
Section instance.
Context `{InstanceLaws} (layout : Layout) `{!GoodLayout layout} (p : string) (Hp : metadata_path layout p).
Abbreviation dir := (ly_StateDir layout).
Abbreviation paths := (ForStateDir dir).
Lemma state_dir_shape : ∃ s, components s ∧ dir = abs s.
Proof using GoodLayout0.
  destruct (NewLayout_inv _ _ _ _ (layout_accepted (layout := layout))) as (h & i & s & _ & Hs & _ & _ & E & _).
  exists (h ++ s). split; [done|]. by rewrite E.
Qed.
Lemma state_file_ne name : component name = true → name ∉ metadata_names → p ≠ Join [dir; name].
Proof using GoodLayout0 Hp.
  intros Hc Hn. destruct state_dir_shape as (s & Hs & ->). rewrite Join_abs, <- child_abs by done.
  apply (apart_name layout p Hp); [by apply component_inv in Hc as (_ & _ & _ & ?)|done].
Qed.
Lemma state_temporary_ne name n : component name = true → p ≠ temporary_name (Join [dir; name]) n.
Proof using GoodLayout0 Hp.
  intros Hc. unfold temporary_name, temporary_path. assert (E : Dir (Join [dir; name]) = dir).
  { destruct state_dir_shape as (s & Hs & ->). by rewrite Join_abs, Dir_abs. }
  rewrite E. apply state_file_ne; [apply temporary_component|unfold metadata_names; absent].
Qed.
Lemma state_dir_ne : p ≠ dir.
Proof using GoodLayout0 Hp.
  intros E. pose proof (apart_state_dir layout p Hp) as Hs. rewrite E in Hs.
  rewrite <- (take_ge (elements dir) (length (elements dir))) in Hs at 1 by lia. by rewrite is_prefix_of_take in Hs.
Qed.
Lemma spares_Ensure : spares p (EnsureStateDirectory dir).
Proof using GoodLayout0 Hp.
  pose proof (spares_MkdirAll p dir stateDirMode (apart_ancestors p dir (apart_state_dir layout p Hp))).
  pose proof (spares_Chmod p dir stateDirMode state_dir_ne). unfold EnsureStateDirectory. spares.
Qed.
Lemma database_ne q : database_file (Database paths) q → p ≠ q.
Proof using GoodLayout0 Hp.
  intros (suffix & Hs & ->). simpl. destruct state_dir_shape as (s & Hc & E). rewrite E, Join_abs, abs_append by done.
  rewrite <- child_abs by done.
  repeat (apply elem_of_cons in Hs as [->|Hs]; [apply (apart_name layout p Hp); [done|unfold metadata_names; absent]|]).
  by apply not_elem_of_nil in Hs.
Qed.
Lemma spares_store_Open identity : spares p (store_Open (Database paths) identity).
Proof using H0 GoodLayout0 Hp.
  eapply (spares_states _ _ (λ _ fs, same_outside (Database paths) fs)); [intros; apply store_Open_within|].
  intros _ fs fs' Hs. apply Hs. intros Hd. by apply (database_ne p).
Qed.
Lemma spares_store_Close : spares p (store_Close (Database paths)).
Proof using H0 GoodLayout0 Hp.
  eapply (spares_states _ _ (λ _ fs, same_outside (Database paths) fs)); [intros; apply store_Close_within|].
  intros _ fs fs' Hs. apply Hs. intros Hd. by apply (database_ne p).
Qed.
Lemma spares_state_write name value mode : component name = true → name ∉ metadata_names →
  spares p (WriteFileAtomic (Join [dir; name]) value mode).
Proof using GoodLayout0 Hp. intros Hc Hn. apply spares_write; [by apply state_file_ne|]. intros n. by apply state_temporary_ne. Qed.
Lemma quiet_attestPathIdentity lock : Quiet (attestPathIdentity lock).
Proof. unfold attestPathIdentity, fstat, sync_file, Lstat. quiet. Qed.
Lemma quiet_lock_Close lock : Quiet (lock_Close lock).
Proof using H0. unfold lock_Close, sync_file. quiet. repeat case_match; quiet. Qed.
Hint Resolve quiet_attestPathIdentity quiet_lock_Close : quiet.
Hint Resolve spares_Ensure spares_store_Open spares_store_Close : spares.
Lemma spares_lease present : spares p (AcquireInitializationLeaseWithLockPresence dir present).
Proof using H0 GoodLayout0 Hp.
  assert (Hl : spares p (create_exclusive (Join [dir; ".instance.lock"]) 384)).
  { apply spares_create, state_file_ne; [done|unfold metadata_names; absent]. }
  unfold AcquireInitializationLeaseWithLockPresence, acquireInitializationLease, acquireLockWithPresence, acquireNamedLockMode, open_lock_file.
  destruct present; spares.
Qed.
Lemma spares_Open : spares p (OpenInstance dir).
Proof using H0 GoodLayout0 Hp. unfold OpenInstance, complete_marker. spares. Qed.
Lemma spares_Initialize lease listeners : spares p (LeaseInitialize dir lease listeners).
Proof using H0 GoodLayout0 Hp.
  assert (Hw : ∀ name value mode, name ∈ ["config.json"; "instance-secret"; "install-state.json"] →
    spares p (WriteFileAtomic (Join [dir; name]) value mode)).
  { intros name value mode Hn. repeat (apply elem_of_cons in Hn as [->|Hn]; [apply spares_state_write; [done|unfold metadata_names; absent]|]).
    by apply not_elem_of_nil in Hn. }
  pose proof spares_Open as Ho. unfold LeaseInitialize, AttestLockPath, initializeWithLease.
  unfold validate_completed, complete_installation, settings_step, secret_step, exists_path, closeInstanceWithContext, CloseInstance,
    SaveSettings, SaveMarker, WriteSecret, writeJSONAtomic. cbn [ConfigPath InstanceSecret InstallMarkerPath ForStateDir].
  spares; try (apply Hw; absent).
Qed.
End instance.

(** ** What the platform promises

    Inspecting commands, the sockets, the locks and the streams change no file; the
    commands of the service manager leave the deployment's metadata alone. *)
Definition query (args : list string) : Prop :=
  args = ["--user"; "show-environment"] ∨ args = ["version"; "--format=json"] ∨
  (∃ x, args = ["--user"; "is-active"; x] ∨ args = ["print-disabled"; x] ∨ args = ["print"; x]).
Class PlatformReads (S : Type) `{!Platform S} : Prop := {
  query_still : ∀ env name args w s, query args → unmoved w (exec_Run env name args (w, s)).1.1;
  LookPath_still : ∀ name w s, unmoved w (exec_LookPath name (w, s)).1.1;
  DialUnix_still : ∀ path w s, unmoved w (DialUnix path (w, s)).1.1;
  SetDeadline_still : ∀ c, host_still (SetDeadline c);
  WriteString_still : ∀ c text, host_still (WriteString c text);
  CloseWrite_still : ∀ c, host_still (CloseWrite c);
  read_up_to_still : ∀ c n, host_still (read_up_to c n);
  CloseConnection_still : ∀ c, host_still (CloseConnection c);
  lock_exclusive_still : ∀ path, host_still (lock_exclusive path);
  lock_shared_still : ∀ path, host_still (lock_shared path);
  unlock_still : ∀ path, host_still (unlock path);
  deadline_still : host_still deadline_passed;
  ValidateExisting_still : ∀ a b c, host_still (ValidateExisting a b c);
  EvalSymlinks_quiet : ∀ path, Quiet (EvalSymlinks path);
  WriteStdout_still : ∀ text, host_still (WriteStdout text);
  WriteStderr_still : ∀ text, host_still (WriteStderr text);
  PrintError_still : ∀ e, host_still (PrintError e);
  PrintFlagError_still : ∀ name e, host_still (PrintFlagError name e);
  ClientDo_still : ∀ method url headers, host_still (ClientDo method url headers) }.
Class PlatformLaws (S : Type) `{!Platform S} (layout : Layout) : Prop := {
  exec_Run_apart : ∀ env name args w s,
    passes (λ fs, view_of layout fs = view_of layout (w_files w)) w (exec_Run env name args (w, s)).1.1 }.

(** Host computations that move the files only along a relation. *)
Class FileOrder (R : World → World → Prop) : Prop := { moved_refl : ∀ w, R w w; moved_trans : ∀ w1 w2 w3, R w1 w2 → R w2 w3 → R w1 w3;
  moved_quiet : ∀ w w', unmoved w w' → R w w' }.
#[export] Instance unmoved_preorder : FileOrder unmoved.
Proof. split; [done|apply unmoved_trans|done]. Qed.
Definition apart_of (layout : Layout) (w w' : World) : Prop := passes (λ fs, view_of layout fs = view_of layout (w_files w)) w w'.
#[export] Instance apart_preorder layout : FileOrder (apart_of layout).
Proof.
  split.
  - intros w. by apply passes_refl.
  - intros w1 w2 w3 H1 H2. eapply passes_trans; [exact H1|]. eapply passes_impl; [|exact H2]. simpl. intros fs ->.
    by destruct H1 as (_ & ? & _ & _ & ?).
  - intros w w' (E1 & E2 & E3). split; [done|]. exists []. rewrite E1, E2. by repeat constructor.
Qed.
Definition moves (R : World → World → Prop) {H A} (x : HostM H A) : Prop := ∀ w h, R w (x (w, h)).1.1.
Create HintDb moves.
Section moves.
Context (R : World → World → Prop) `{!FileOrder R} {H : Type}.
Lemma moves_pure {A} (r : res derr A) : moves R (λ s : World * H, (s, r)).
Proof using FileOrder0. intros w h. apply moved_refl. Qed.
Lemma moves_still {A} (x : HostM H A) : host_still x → moves R x.
Proof using FileOrder0. intros Hx w h. apply moved_quiet, Hx. Qed.
Lemma moves_bind {A B} (x : HostM H A) (f : A → HostM H B) : moves R x → (∀ a, moves R (f a)) → moves R (x ≫= f).
Proof using FileOrder0.
  intros Hx Hf w h. unfold mbind, hostm_bind, host_bind. specialize (Hx w h). destruct (x (w, h)) as [[w1 h1] [a|e]]; simpl in *; [|done].
  eapply moved_trans; [exact Hx|apply Hf].
Qed.
Lemma moves_within {A} context (x : HostM H A) : moves R x → moves R (hwithin context x).
Proof. intros Hx w h. specialize (Hx w h). unfold hwithin. by destruct (x (w, h)) as [[w1 h1] r]. Qed.
Lemma moves_tried {A} (x : HostM H A) : moves R x → moves R (htried x).
Proof. intros Hx w h. specialize (Hx w h). unfold htried. by destruct (x (w, h)) as [[w1 h1] r]. Qed.
Lemma moves_demand b text : moves R (H:=H) (hdemand b text).
Proof using FileOrder0. unfold hdemand. destruct b; apply moves_pure. Qed.
Lemma moves_res {A} (r : res string A) : moves R (H:=H) (hres r).
Proof using FileOrder0. unfold hres. destruct r; apply moves_pure. Qed.
Lemma moves_quiet {A} (m : FsM A) : Quiet m → moves R (H:=H) (hfiles m).
Proof using FileOrder0. intros Hm w h. unfold hfiles. simpl. specialize (Hm w). destruct (m w) as [w1 r]. by apply moved_quiet. Qed.
End moves.
#[export] Hint Resolve moves_demand moves_res moves_pure : moves.
Ltac moves :=
  repeat lazymatch goal with
  | |- moves _ (mbind _ _) => apply moves_bind; [exact _| |intros ?]
  | |- moves _ (mret _) => apply moves_pure; exact _
  | |- moves _ (hfail _) => apply moves_pure; exact _
  | |- moves _ (hrefuse _) => apply moves_pure; exact _
  | |- moves _ (htried _) => apply moves_tried
  | |- moves _ (hwithin _ _) => apply moves_within
  | |- moves _ (match ?x with _ => _ end) => destruct x
  | |- moves _ _ => solve [auto with moves nocore typeclass_instances]
  end.

Section adapter.
Context (R : World → World → Prop) `{!FileOrder R} {S : Type} `{!Platform S, !PlatformReads S, !UnicodeCase} (adapter : ServiceManagerAdapter).
Abbreviation moves := (moves R (H:=S)).
Lemma run_bounded_world name args w (s : S) : (run_bounded name args (w, s)).1.1 = (exec_Run None name args (w, s)).1.1.
Proof. unfold run_bounded. by destruct (exec_Run None name args (w, s)) as [[w1 s1] p]. Qed.
Lemma moves_command command args : (∀ w s, R w (exec_Run None command args (w, s)).1.1) → moves (run_command command args).
Proof using Type.
  intros Hr w s. unfold run_command. simpl. specialize (Hr w s). rewrite <- run_bounded_world in Hr.
  by destruct (run_bounded command args (w, s)) as [[w1 s1] r].
Qed.
Lemma moves_query command args : query args → moves (run_command command args).
Proof using FileOrder0 PlatformReads0. intros Hq. apply moves_command. intros w s. by apply moved_quiet, query_still. Qed.
Lemma moves_lookup : moves (lookup_result adapter).
Proof using FileOrder0 PlatformReads0.
  intros w s. unfold lookup_result. simpl. pose proof (LookPath_still (sa_commandName adapter) w s) as Hl.
  destruct (exec_LookPath _ (w, s)) as [[w1 s1] r]. by apply moved_quiet.
Qed.
Hint Resolve moves_lookup : moves.
Lemma moves_lookupCommand : moves (lookupCommand adapter).
Proof using FileOrder0 PlatformReads0. unfold lookupCommand. moves. Qed.
Hint Resolve moves_lookupCommand : moves.
Lemma moves_required purpose : moves (required_command adapter purpose).
Proof using FileOrder0 PlatformReads0. unfold required_command. moves. Qed.
Hint Resolve moves_required : moves.
Ltac querying := apply moves_query; unfold query; eauto 8.
Lemma moves_Detect binary stateDir : moves (adapter_Detect adapter binary stateDir).
Proof using FileOrder0 PlatformReads0. unfold adapter_Detect, runProbe. moves; querying. Qed.
Lemma moves_IsActive : moves (adapter_IsActive adapter).
Proof using FileOrder0 PlatformReads0. unfold adapter_IsActive. moves; querying. Qed.
Lemma moves_Inspect path : moves (InspectExecutable path).
Proof using FileOrder0 PlatformReads0.
  unfold InspectExecutable. moves. intros w s. assert (Hq : query ["version"; "--format=json"]) by (unfold query; auto).
  pose proof (query_still (Some inspection_environment) path _ w s Hq) as Hs.
  destruct (exec_Run _ path _ (w, s)) as [[w1 s1] r]. by apply moved_quiet.
Qed.
Lemma moves_Probe stateDir : moves (ProbeRunningIdentity stateDir).
Proof using FileOrder0 PlatformReads0.
  unfold ProbeRunningIdentity, converse. moves; try (apply moves_still; [done|];
    auto using SetDeadline_still, WriteString_still, CloseWrite_still, read_up_to_still, CloseConnection_still).
  intros w s. pose proof (DialUnix_still (AdminSocket (ForStateDir stateDir)) w s) as Hd.
  destruct (DialUnix _ (w, s)) as [[w1 s1] r]. by apply moved_quiet.
Qed.
Context (Hrun : ∀ env name args w s, R w (exec_Run env name args (w, s)).1.1).
Lemma moves_runRequired command operation args : moves (runRequired adapter command operation args).
Proof using FileOrder0 Hrun. unfold runRequired. moves. by apply moves_command. Qed.
Hint Resolve moves_runRequired : moves.
Lemma moves_Activate : moves (adapter_Activate adapter).
Proof using FileOrder0 PlatformReads0 Hrun. unfold adapter_Activate. moves. Qed.
Lemma moves_Stop : moves (adapter_Stop adapter).
Proof using FileOrder0 PlatformReads0 Hrun. unfold adapter_Stop. moves; by apply moves_command. Qed.
Lemma moves_Remove : moves (hfiles (removeDeploymentFile (sa_definitionPath adapter))) → moves (adapter_Remove adapter).
Proof using FileOrder0 PlatformReads0 Hrun. intros Hr. pose proof moves_Stop. unfold adapter_Remove. moves. Qed.
End adapter.

Lemma host_bind_ok {H A B} (x : HostM H A) (f : A → HostM H B) s b : ((x ≫= f) s).2 = Ok b → ∃ a s', x s = (s', Ok a) ∧ (f a s').2 = Ok b.
Proof. unfold mbind, hostm_bind, host_bind. destruct (x s) as [s' [a|e]]; [|done]. intros Hf. by exists a, s'. Qed.
Lemma Detect_answer `{!CommandRunner H, !UnicodeCase} adapter binary stateDir (s : World * H) a :
  (adapter_Detect adapter binary stateDir s).2 = Ok a →
  (ma_Manager a = ManagerForeground ∧ ma_ServiceDefinition a = "") ∨
  (ma_Manager a = adapter_Kind adapter ∧ ma_ServiceDefinition a = sa_definitionPath adapter).
Proof.
  unfold adapter_Detect. intros (command & s1 & _ & Hr)%host_bind_ok. apply host_bind_ok in Hr as (found & s2 & _ & Hr).
  destruct found as [m|[]]; [|apply Ok_inj in Hr as <-; by left|done].
  apply host_bind_ok in Hr as ([result [e|]] & s3 & _ & Hr); [|apply Ok_inj in Hr as <-; by right].
  destruct (managerUnavailable _ _); [|done]. apply Ok_inj in Hr as <-. by left.
Qed.

(** ** The native lifecycle satisfies the laws *)
Section native.
Context {S : Type} `{!Platform S, !PlatformReads S} {IH : InstanceHost} `{IL : !InstanceLaws} `{!UnicodeCase, !BuildInfoReader}.
Context (layout : Layout) (manager : ServiceManagerAdapter).
Abbreviation N := (Native S).
#[local] Instance the_host : Host N := native_host layout manager.
#[local] Instance the_preview_host : PreviewHost N := native_preview_host.

Lemma moves_platform R {A} (x : HostM S A) : moves R x → moves R (on_platform x).
Proof. intros Hx w [s lease]. specialize (Hx w s). unfold on_platform. simpl. by destruct (x (w, s)) as [[w1 s1] r]. Qed.
Lemma moves_as_host R `{!FileOrder R} {A} (x : DepM N A) : still x → moves R (as_host x).
Proof.
  intros Hx w h. unfold as_host. simpl. destruct (Hx (mkMachine w h no_journal)) as [Hm _].
  destruct (x (mkMachine w h no_journal)) as [m r]. by apply moved_quiet.
Qed.
Lemma moves_with_lease R `{!FileOrder R} {A} (f : fileLock → FsM A) : (∀ lease, moves R (H:=N) (hfiles (f lease))) → moves R (with_lease (S:=S) f).
Proof. intros Hf w h. unfold with_lease. simpl. destruct (nt_lease h); [apply Hf|apply moved_refl]. Qed.
Lemma native_still_release R `{!FileOrder R} release : moves R (verifyPreviewRelease (Host:=the_host) release).
Proof. apply (moves_as_host R). by apply still_verifyInstalled. Qed.

Lemma native_read_only : ReadOnlyHost N.
Proof using PlatformReads0.
  split.
  - intros b s. apply (moves_platform unmoved). apply moves_Detect; (exact _ || done).
  - apply (moves_platform unmoved). apply moves_IsActive; (exact _ || done).
  - apply (native_still_release unmoved); exact _.
  - intros s. apply (moves_platform unmoved). apply moves_Probe; (exact _ || done).
  - intros p. apply (moves_platform unmoved), lock_exclusive_still.
  - intros p. apply (moves_platform unmoved), unlock_still.
Qed.
Lemma native_preview_read_only : ReadOnlyPreviewHost N.
Proof using PlatformReads0.
  split.
  - intros p. apply (moves_platform unmoved), lock_shared_still.
  - intros a b c. apply (moves_platform unmoved), ValidateExisting_still.
  - intros p r. apply (moves_quiet unmoved). quiet.
  - intros p n d. apply (moves_quiet unmoved). unfold VerifyReleaseFileSource. quiet.
Qed.

Context `{!GoodLayout layout, !PlatformLaws S layout} (Hdef : definition_separate layout manager)
  (Hplain : plain (sa_definitionPath manager) = true).
Abbreviation R := (apart_of layout).
Lemma moves_spares {A K} (m : FsM A) : (∀ p, metadata_path layout p → spares p m) → moves R (H:=K) (hfiles m).
Proof.
  intros Hm w h. unfold hfiles. simpl.
  assert (Ht : ∀ p, metadata_path layout p → passes (λ fs, fs !! p = w_files w !! p) w (m w).1).
  { intros p Hp. by destruct (Hm p Hp (w_euid w) (w_files w) w eq_refl eq_refl) as [? _]. }
  destruct (Ht (ly_StatePath layout) (or_introl eq_refl)) as (E & l & Ew & F1 & L1).
  destruct (Ht (ly_JournalPath layout) (or_intror eq_refl)) as (_ & l' & Ew' & F2 & L2).
  destruct (m w) as [w1 r]. simpl in *. rewrite Ew in Ew'. apply app_inv_tail in Ew' as <-.
  split; [done|]. exists l. split; [done|]. unfold view_of. split; [|by rewrite L1, L2].
  rewrite Forall_forall in *. intros fs Hfs. by rewrite F1, F2.
Qed.
Lemma native_run env name args w (s : S) : R w (exec_Run env name args (w, s)).1.1.
Proof using PlatformLaws0. apply exec_Run_apart. Qed.
Lemma native_lease_laws : LeaseLaws N layout.
Proof using GoodLayout0 PlatformReads0 IL.
  split.
  - intros present w h. simpl. unfold acquire_lease.
    assert (Hm : moves R (H:=N) (hfiles (AcquireInitializationLeaseWithLockPresence (ly_StateDir layout) present))).
    { apply moves_spares. intros p Hp. by apply spares_lease. }
    specialize (Hm w h). destruct (hfiles _ (w, h)) as [[w1 h1] [lease|e]]; done.
  - intros w h. simpl. unfold release_lease. simpl. destruct (nt_lease h) as [lease|]; [|by apply passes_refl].
    assert (Hm : moves R (H:=N) (hfiles (lock_Close lease))) by (apply moves_quiet; [exact _|by apply quiet_lock_Close]).
    specialize (Hm w h). by destruct (hfiles _ (w, h)) as [[w1 h1] r].
Qed.
Lemma native_host_laws : HostLaws N layout.
Proof using GoodLayout0 PlatformReads0 IL PlatformLaws0 Hdef Hplain.
  pose proof native_run as Hrun. split.
  - intros b s. apply (moves_platform R). apply moves_Detect; exact _.
  - intros payload. apply moves_spares. intros p Hp. by eapply spares_install.
  - apply (moves_platform R). apply moves_Activate; (exact _ || done).
  - apply (moves_platform R). apply moves_Stop; (exact _ || done).
  - apply (moves_platform R). apply moves_Remove; [exact _|exact _|done|]. apply moves_spares. intros p Hp.
    apply spares_removeDeploymentFile. by eapply definition_ne.
  - apply (moves_platform R). apply moves_IsActive; exact _.
  - intros path. apply (moves_platform R). apply moves_Inspect; exact _.
  - intros release dir source name n d Hv. apply moves_spares. intros p Hp. apply (spares_staged p false). intros x.
    by eapply version_child.
  - intros path n d. apply (moves_quiet R). unfold VerifyStagedArtifact. quiet.
  - intros release dir source name n d Hv. apply moves_spares. intros p Hp. apply (spares_staged p true). intros x.
    by eapply version_child.
  - intros path n d. apply (moves_quiet R). unfold VerifyStagedReleaseFile. quiet.
  - intros release. apply (native_still_release R); exact _.
  - intros s. apply (moves_platform R). apply moves_Probe; exact _.
  - apply moves_spares. intros p Hp. by apply spares_removal.
  - apply (moves_with_lease R). intros lease. apply moves_spares. intros p Hp. by apply spares_Initialize.
  - apply (moves_with_lease R). intros lease. apply (moves_quiet R). apply quiet_attestPathIdentity.
  - intros p. apply (moves_platform R), moves_still; [exact _|]. apply lock_exclusive_still.
  - intros p. apply (moves_platform R), moves_still; [exact _|]. apply unlock_still.
  - apply (moves_platform R), moves_still; [exact _|]. apply deadline_still.
  - intros b s w h a Ha. simpl in Ha. unfold on_platform in Ha. simpl in Ha.
    pose proof (Detect_answer manager b s (w, nt_platform h) a) as Hd. destruct (adapter_Detect manager b s _) as [[w1 s1] r].
    destruct (Hd Ha) as [[-> ->]|[-> ->]]; [done|]. split; [|done]. unfold adapter_Kind. by destruct (String.eqb _ _).
Qed.
End native.

(** C11. The lifecycle the command line constructs is crash consistent on the real host.
    On a layout whose metadata files are on the way neither to the state directory nor to
    the service definition, with the service-manager adapter of the machine, the staging
    and removal of artifacts, the instance lease and the status socket behind it, and a
    platform whose commands leave the two metadata files alone: whatever fails, wherever
    the process is stopped and however often it is run again, a rollback, an uninstall or
    an apply goes only through the metadata states their specifications allow, and an
    apply that reports success has left no journal and the state it returns. *)
Theorem native_lifecycle_crash_consistent {S : Type} `{!Platform S, !PlatformReads S} {IH : InstanceHost} `{IL : !InstanceLaws}
    `{!UnicodeCase, !BuildInfoReader} (layout : Layout) `{!GoodLayout layout, !PlatformLaws S layout} (target : Target) (o : Z)
    (environment goos : string) (w0 : World) (manager : ServiceManagerAdapter) :
  (NewNativeServiceManagerAdapter environment goos (ly_HomeDir layout) w0).2 = Ok manager →
  (∀ q, metadata_path layout q → is_prefix_of (elements q) (elements (Dir (sa_definitionPath manager))) = false) →
  plain (sa_definitionPath manager) = true →
  let lc := (newLifecycle layout target, manager) in
  let view fs := view_of layout fs in
  let apply_ops desired := applies (Host0 := on_host lc) (PreviewHost0 := native_preview_host (S := S)) lc.1 desired in
  (∀ st0 fs0 fs, rollback_ready lc.1 o st0 (view fs0) →
     restarts layout o (lifecycle_Rollback (S := S) lc) fs0 fs → rollback_view lc.1 o st0 (view fs)) ∧
  (∀ prior fs0 fs, uninstall_ready lc.1 o prior (view fs0) →
     restarts layout o (lifecycle_Uninstall (S := S) lc) fs0 fs → uninstall_view lc.1 o prior (view fs)) ∧
  (∀ desired prior fs0, plain_prior prior → apply_ready lc.1 o desired prior (view fs0) →
     (∀ fs, restarts_any layout o (apply_ops desired) fs0 fs → apply_view lc.1 o desired prior (view fs)) ∧
     (∀ op s r, apply_ops desired op → restarts_any layout o (apply_ops desired) fs0 (w_files (m_world s)) →
        runs_from layout o fs0 s → (op s).2 = Ok r →
        w_files (m_world (op s).1) !! ly_JournalPath layout = None ∧
        is_file o (w_files (m_world (op s).1) !! ly_StatePath layout) (indentedJSON (ar_State r)))).
Proof.
  intros Hm Hway Hpl lc view apply_ops. apply adapter_definition in Hm as (Hb & _).
  assert (Hdef : definition_separate layout manager) by done.
  pose proof (native_host_laws (S := S) layout manager Hdef Hpl) as HL. pose proof (native_lease_laws (S := S) layout) as HI.
  pose proof (native_read_only (S := S) layout manager) as HR. pose proof (native_preview_read_only (S := S)) as HP.
  split_and!.
  - intros st0 fs0 fs Hr. by apply (rollback_runs (Host0 := on_host (S := S) lc) lc.1 o st0 fs0).
  - intros prior fs0 fs Hr. by apply (uninstall_runs (Host0 := on_host (S := S) lc) lc.1 o prior fs0).
  - intros desired prior fs0 Hp Hr.
    destruct (apply_runs (Host0 := on_host (S := S) lc) (PreviewHost0 := native_preview_host (S := S)) lc.1 o desired prior fs0 Hp Hr)
      as [H1 H2].
    split; [exact H1|]. intros op s r Hop Hs Hf E. destruct (H2 op s r Hop Hs Hf E) as (? & ? & _). done.
Qed.

(** ** Commands that only read *)
Definition reads_only (args : list string) : bool :=
  match args with
  | [] => true
  | command :: rest =>
      bool_decide (command ∈ ["help"; "-h"; "--help"; "version"; "health"; "endpoint"]) ||
      match rest with
      | [] => bool_decide (command ∈ ["deploy"; "service"; "enrollment"])
      | sub :: _ => (String.eqb command "deploy" && bool_decide (sub ∈ ["preview"; "status"])) ||
                    (String.eqb command "service" && String.eqb sub "render")
      end
  end.
Section readers.
Context {S : Type} `{!Platform S, !PlatformReads S, !InstanceHost, !UnicodeCase, !BuildInfoReader} (env : Environment).
Abbreviation N := (Native S).
Lemma still_platform {A} (x : HostM S A) : host_still x → still (platform x).
Proof. intros Hx. apply still_host. exact (moves_platform unmoved x Hx). Qed.
Lemma still_ignored x : host_still x → still (ignored (S:=S) x).
Proof. intros Hx. pose proof (still_platform x Hx). unfold ignored. still. Qed.
Hint Resolve WriteStdout_still WriteStderr_still PrintError_still PrintFlagError_still ClientDo_still still_platform still_ignored : still.
Hint Resolve EvalSymlinks_quiet : quiet.
Lemma still_parse_flags name flags args : still (parse_flags (S:=S) name flags args).
Proof. unfold parse_flags. still. Qed.
Lemma still_no_arguments p name : still (no_arguments (S:=S) p name).
Proof. unfold no_arguments. still. Qed.
Lemma still_encode j : still (encode_json (S:=S) j).
Proof. unfold encode_json. still. Qed.
Lemma still_default_layout : still (default_layout (S:=S) env).
Proof. unfold default_layout, file. still. Qed.
Hint Resolve still_parse_flags still_no_arguments still_encode still_default_layout : still.
Lemma still_usage : still (usage (S:=S)).
Proof. unfold usage. still. Qed.
Lemma still_version args : still (runVersion (S:=S) env args).
Proof. unfold runVersion. still. Qed.
Lemma still_health args : still (runHealth (S:=S) args).
Proof. unfold runHealth, file, uuid_new. still. Qed.
Lemma quiet_openVerified path b : Quiet (openVerifiedDirectory path b).
Proof. apply quiet_openVerifiedDirectory. Qed.
Lemma still_ActiveExecutable executable : still (ActiveExecutableForExecutable (H:=N) (en_UserHomeDir env) EvalSymlinks executable).
Proof. unfold ActiveExecutableForExecutable, locateDeploymentExecutable. still. Qed.
Hint Resolve still_ActiveExecutable : still.
Lemma still_or_text {A} text (x : DepM N A) : still x → still (or_text text x).
Proof. intros Hx. unfold or_text. still. Qed.
Lemma quiet_LoadCompleted dir : Quiet (LoadCompletedSettings dir).
Proof. unfold LoadCompletedSettings, complete_marker. quiet. Qed.
Hint Resolve quiet_LoadCompleted : quiet.
Lemma still_endpoint args : still (runEndpoint (S:=S) env args).
Proof.
  unfold runEndpoint, runEndpointShow, stateDirForExecutable, commandStateForExecutable, state_of_environment, file.
  still; apply still_or_text; still.
Qed.
Lemma still_render args : still (renderService_command (S:=S) env args).
Proof. unfold renderService_command, serviceFlags. still. Qed.
Lemma quiet_adapter environment platform home config : Quiet (newServiceManagerAdapter environment platform home config).
Proof.
  unfold newServiceManagerAdapter, fs_res, openSecureDirectory. quiet; try (intros w; by repeat case_match); unfold sync_file; quiet.
Qed.
Hint Resolve quiet_adapter : quiet.
Lemma still_lifecycle values : still (lifecycle (S:=S) env values).
Proof. unfold lifecycle, NewNativeLifecycle, supported_host, file, NewNativeServiceManagerAdapter, NewServiceManagerAdapter. still. Qed.
Lemma still_statusLifecycle values : still (statusLifecycle (S:=S) env values).
Proof.
  unfold statusLifecycle, statusLayout, NewNativeStatusLifecycle, supported_host, file, newNativeStatusServiceManagerAdapter. still.
Qed.
Hint Resolve still_lifecycle still_statusLifecycle : still.
Lemma still_lifecycle_Preview lc request : still (lifecycle_Preview (S:=S) lc request).
Proof.
  pose proof (native_read_only (S:=S) (lc_layout lc.1) lc.2). pose proof (native_preview_read_only (S:=S)).
  apply still_TakePreview; exact _.
Qed.
Lemma still_lifecycle_Status lc : still (lifecycle_Status (S:=S) lc).
Proof.
  pose proof (native_read_only (S:=S) (lc_layout lc.1) lc.2) as Hr.
  assert (Hi : ∀ path, host_still (Inspect (Host := on_host (S:=S) lc) path)).
  { intros path. apply (moves_platform unmoved). apply moves_Inspect; exact _. }
  assert (Hv : ∀ path n d, host_still (verifyArtifact (Host := on_host (S:=S) lc) path n d)).
  { intros path n d. apply (moves_quiet unmoved). unfold VerifyStagedArtifact. quiet. }
  assert (Hf : ∀ path n d, host_still (verifyReleaseFile (Host := on_host (S:=S) lc) path n d)).
  { intros path n d. apply (moves_quiet unmoved). unfold VerifyStagedReleaseFile. quiet. }
  unfold lifecycle_Status, Status, LoadJournal, LoadState, verifyDesired. still; try apply still_load.
Qed.
Hint Resolve still_lifecycle_Preview still_lifecycle_Status : still.
Lemma still_preview args : still (runDeployPreview (S:=S) env args).
Proof. unfold runDeployPreview, newDeploymentFlags, read_inputs, file, writePreviewResult. still. Qed.
Lemma still_status args : still (runDeployStatus (S:=S) env args).
Proof. unfold runDeployStatus, newDeploymentStatusFlags. still. Qed.
Lemma still_dispatch command rest : reads_only (command :: rest) = true → command ∉ ["help"; "-h"; "--help"] →
  still (dispatch (S:=S) env command rest).
Proof.
  intros Hr Hn. unfold reads_only in Hr. apply orb_true_iff in Hr as [Hr|Hr].
  - apply bool_decide_eq_true in Hr. assert (Hc : command ∈ ["version"; "health"; "endpoint"]) by (clear - Hr Hn; rewrite !elem_of_cons in *; tauto).
    clear Hr Hn. rewrite !elem_of_cons in Hc.
    destruct Hc as [->|[->|[->|[]%not_elem_of_nil]]]; [apply still_version|apply still_health|apply still_endpoint].
  - destruct rest as [|sub rest].
    + apply bool_decide_eq_true in Hr. clear Hn. rewrite !elem_of_cons in Hr. destruct Hr as [->|[->|[->|[]%not_elem_of_nil]]]; apply still_pure.
    + apply orb_true_iff in Hr as [[Hc Hs]%andb_true_iff|[Hc Hs]%andb_true_iff]; apply String.eqb_eq in Hc as ->.
      * apply bool_decide_eq_true in Hs. rewrite !elem_of_cons in Hs.
        destruct Hs as [->|[->|[]%not_elem_of_nil]]; [apply still_preview|apply still_status].
      * apply String.eqb_eq in Hs as ->. apply still_render.
Qed.
End readers.


(** ** The commands of a client *)
Section client.
Context {S : Type} `{!Platform S, !InstanceHost, !UnicodeCase, !BuildInfoReader} (env : Environment).
Abbreviation N := (Native S).
(** The lifecycle of the default layout, and the request of the uploaded files. *)
Definition default_lifecycle : DepM N (Lifecycle * ServiceManagerAdapter) :=
  layout ← default_layout env;
  lifecycle env (mkValues (ly_HomeDir layout) (ly_InstallRoot layout) (ly_StateDir layout)).
Definition uploaded (at_home : string → string) (files : UploadFiles) (sha : string) : DepM N PreviewRequest :=
  payload ← on_files (ReadPinnedManifestFile (at_home (uf_Manifest files)) sha);
  mret (Mk_PreviewRequest (at_home (uf_Manifest files)) payload sha (at_home (uf_Artifact files)) (at_home (uf_License files))
          (at_home (uf_Notice files))).
Definition preview_of (at_home : string → string) (files : UploadFiles) (sha : string) : DepM N unit :=
  lc ← default_lifecycle;
  request ← uploaded at_home files sha;
  preview ← lifecycle_Preview lc request;
  writePreviewResult preview.
Definition activation_of (at_home : string → string) (files : UploadFiles) (sha confirmed : string) : DepM N unit :=
  lc ← default_lifecycle;
  request ← uploaded at_home files sha;
  result ← lifecycle_Apply lc (Mk_ApplyRequest request confirmed);
  _ ← consume_inputs request;
  writeApplyResult result.
(** The exit code of a command, its error printed. *)
Definition reports (x : DepM N unit) (m : Machine N) : Machine N * Z :=
  match x m with (m', Ok _) => (m', 0) | (m', Err e) => ((ignored (PrintError e) m').1, 1) end.

Lemma dep_bind_assoc {A B C} (x : DepM N A) (f : A → DepM N B) (g : B → DepM N C) m :
  ((x ≫= f) ≫= g) m = (x ≫= (λ a, f a ≫= g)) m.
Proof. unfold mbind, depm_bind, dep_bind. by destruct (x m) as [m' []]. Qed.
Lemma dep_bind_ext {A B} (x : DepM N A) (f g : A → DepM N B) m : (∀ a m, f a m = g a m) → (x ≫= f) m = (x ≫= g) m.
Proof. intros Hf. unfold mbind, depm_bind, dep_bind. destruct (x m) as [m' []]; [apply Hf|done]. Qed.
Lemma upload_names manifest sha artifact (home : string) :
  let at_home p := home +:+ "/" +:+ p in let files := uploadFiles manifest sha artifact in
  no_duplicates [at_home (uf_Manifest files); at_home (uf_Artifact files); at_home (uf_License files); at_home (uf_Notice files)] = true ∧
  ∀ p, String.eqb (at_home p) "" = false.
Proof.
  intros at_home files. split.
  - assert (Hne : ∀ x y, x ≠ y → String.eqb (at_home (uf_Directory files +:+ x)) (at_home (uf_Directory files +:+ y)) = false).
    { intros x y Hxy. apply String.eqb_neq. unfold at_home. intros E. do 2 apply sapp_inv_head in E. by apply sapp_inv_head in E. }
    subst files. unfold uploadFiles in *. cbn [uf_Manifest uf_Artifact uf_License uf_Notice uf_Directory] in *.
    cbn [no_duplicates existsb]. by rewrite !Hne.
  - intros p. apply String.eqb_neq. unfold at_home. by destruct home.
Qed.
Section inputs.
Context (mf sha af lf nf : string) (Hgiven : Forall (λ v, String.eqb v "" = false) [mf; sha; af; lf; nf])
  (Hdistinct : no_duplicates [mf; af; lf; nf] = true).
Abbreviation arguments := ["--manifest"; mf; "--manifest-sha256"; sha; "--artifact"; af; "--license"; lf; "--notice"; nf].
Definition input_values : list (string * string) :=
  [("manifest", mf); ("manifest-sha256", sha); ("artifact", af); ("license", lf); ("notice", nf)].
Lemma parse_preview : FlagSet_Parse (string_flags layout_flags ++ string_flags input_flags) arguments = Ok (mkParsed input_values []).
Proof. lazy. reflexivity. Qed.
Lemma parse_apply confirmed : FlagSet_Parse (string_flags layout_flags ++ apply_flags)
  (arguments ++ ["--confirmed-preview-sha256"; confirmed; "--consume-inputs"]) =
  Ok (mkParsed (input_values ++ [("confirmed-preview-sha256", confirmed); ("consume-inputs", "true")]) []).
Proof. lazy. reflexivity. Qed.
Abbreviation previewed := (mkParsed input_values []).
Abbreviation activated confirmed := (mkParsed (input_values ++ [("confirmed-preview-sha256", confirmed); ("consume-inputs", "true")]) []).
Lemma given_preview : inputs_given previewed input_flags = true ∧ inputs_distinct previewed = true.
Proof using Hgiven Hdistinct.
  rewrite !Forall_cons in Hgiven. destruct Hgiven as (G1 & G2 & G3 & G4 & G5 & _). split; [|exact Hdistinct].
  change (inputs_given previewed input_flags) with
    (negb (String.eqb mf "") && (negb (String.eqb sha "") && (negb (String.eqb af "") && (negb (String.eqb lf "") && (negb (String.eqb nf "") && true))))).
  by rewrite G1, G2, G3, G4, G5.
Qed.
Lemma given_activation confirmed : String.eqb confirmed "" = false →
  inputs_given (activated confirmed) (input_flags ++ ["confirmed-preview-sha256"]) = true ∧ inputs_distinct (activated confirmed) = true.
Proof using Hgiven Hdistinct.
  intros G6. rewrite !Forall_cons in Hgiven. destruct Hgiven as (G1 & G2 & G3 & G4 & G5 & _). split; [|exact Hdistinct].
  change (inputs_given (activated confirmed) (input_flags ++ ["confirmed-preview-sha256"])) with
    (negb (String.eqb mf "") && (negb (String.eqb sha "") && (negb (String.eqb af "") && (negb (String.eqb lf "") && (negb (String.eqb nf "") &&
     (negb (String.eqb confirmed "") && true)))))).
  by rewrite G1, G2, G3, G4, G5, G6.
Qed.
Lemma run_preview m : runDeployPreview env arguments m =
  (lc ← default_lifecycle; request ← (payload ← on_files (ReadPinnedManifestFile mf sha); mret (Mk_PreviewRequest mf payload sha af lf nf));
   preview ← lifecycle_Preview lc request; writePreviewResult preview) m.
Proof using Hgiven Hdistinct.
  unfold runDeployPreview, newDeploymentFlags, default_lifecycle, parse_flags. rewrite parse_preview.
  unfold mbind, depm_bind, dep_bind. destruct (default_layout env m) as [m1 [layout|e]]; [|done].
  unfold no_arguments. cbn [p_args]. unfold mret, depm_ret, dep_ret, demand. destruct given_preview as [-> ->]. reflexivity.
Qed.
Lemma run_activation confirmed m : String.eqb confirmed "" = false →
  runDeployApply env "apply" (arguments ++ ["--confirmed-preview-sha256"; confirmed; "--consume-inputs"]) m =
  (lc ← default_lifecycle; request ← (payload ← on_files (ReadPinnedManifestFile mf sha); mret (Mk_PreviewRequest mf payload sha af lf nf));
   result ← lifecycle_Apply lc (Mk_ApplyRequest request confirmed); _ ← consume_inputs request; writeApplyResult result) m.
Proof using Hgiven Hdistinct.
  intros Hc. unfold runDeployApply, newDeploymentFlags, default_lifecycle, parse_flags. rewrite parse_apply.
  unfold mbind, depm_bind, dep_bind. destruct (default_layout env m) as [m1 [layout|e]]; [|done].
  unfold no_arguments. cbn [p_args]. unfold mret, depm_ret, dep_ret, demand. destruct (given_activation confirmed Hc) as [-> ->]. reflexivity.
Qed.
End inputs.
End client.

(** C38. The commands of a release bundle do what the client was told they do.  Read by a
    shell with any environment, a preview line is one simple command: it runs the uploaded
    executable with arguments on which the command line takes the preview of exactly the
    uploaded manifest, executable, licence and notice under the bundle's pin, on the
    default layout of the machine, and prints its canonical bytes.  An activation line
    likewise applies exactly these inputs under exactly the confirmed digest, then removes
    them and prints the result. *)
Theorem client_commands_run {S : Type} `{!Platform S, !InstanceHost, !UnicodeCase, !BuildInfoReader} (env : Environment)
    (shell : string → string) (manifest : ReleaseManifest) (n : Z) (sha : string) (artifact : ReleaseArtifact) (line : string) :
  let files := uploadFiles manifest sha artifact in
  let at_home p := shell "HOME" +:+ "/" +:+ p in
  (PreviewLine manifest n sha artifact = Ok line →
   ∃ args, sh_words shell line = Some (at_home (uf_Artifact files) :: args) ∧
     ∀ m : Machine (Native S), Runner_Run env args m = reports (preview_of env at_home files sha) m) ∧
  (∀ confirmed, ActivationLine manifest n sha artifact confirmed = Ok line →
   ∃ args, sh_words shell line = Some (at_home (uf_Artifact files) :: args) ∧
     ∀ m : Machine (Native S), Runner_Run env args m = reports (activation_of env at_home files sha confirmed) m).
Proof.
  intros files at_home. destruct (client_commands_exact shell manifest n sha artifact line) as [Hp Ha].
  destruct (upload_names manifest sha artifact (shell "HOME")) as [Hdistinct Hne].
  assert (Hgiven : sha ≠ "" → Forall (λ v, String.eqb v "" = false)
    [at_home (uf_Manifest files); sha; at_home (uf_Artifact files); at_home (uf_License files); at_home (uf_Notice files)]).
  { intros Hs. apply String.eqb_neq in Hs. repeat constructor; first [exact Hs|apply Hne]. }
  assert (Hsha : (∃ f, validatedCommandFiles manifest n sha artifact = Ok f) → sha ≠ "").
  { intros [f (_ & _ & _ & Hd)%validatedCommandFiles_inv]. by apply digest_nonempty. }
  split.
  - intros Hl. specialize (Hp Hl). unfold PreviewLine in Hl. destruct (validatedCommandFiles _ _ _ _) as [f|] eqn:Ef; [|done].
    exists (tail (deploy_arguments at_home files "preview" sha)). split; [exact Hp|]. intros m. unfold reports, preview_of, uploaded.
    rewrite <- run_preview by eauto. reflexivity.
  - intros confirmed Hl. destruct (Ha confirmed Hl) as [Hw Hlen]. unfold ActivationLine in Hl.
    destruct (validatedCommandFiles _ _ _ _) as [f|] eqn:Ef; [|done].
    assert (Hc : String.eqb confirmed "" = false) by (apply String.eqb_neq; by intros ->).
    eexists. split; [exact Hw|]. intros m. unfold reports, activation_of, uploaded.
    rewrite <- (run_activation _ _ _ _ _ _ (Hgiven (Hsha (ex_intro _ f eq_refl))) Hdistinct confirmed m Hc). reflexivity.
Qed.

(** ** Enrollment: what the server answers is what the client accepts *)
#[export] Instance enrollmentReply_laws : GoJSONLaws enrollmentReply.
Proof. solve_struct_laws. Qed.
Lemma decodeStrictStream_marshal {A} `{GoJSONLaws A} (a : A) : wire_plain a = true → decodeStrictStream A (marshalJSON a) = Some a.
Proof.
  intros Hp. unfold decodeStrictStream, marshalJSON, marshal. rewrite parse_json_print by (apply to_json_plain; [apply wf_go_ty|done]).
  rewrite decode_to_json by (done || apply wf_go_ty). apply of_to_g.
Qed.
Lemma length_b64 : ∀ l, (String.length (b64_encode l) <= 2 * length l)%nat.
Proof.
  intros l. induction l as [l IH] using (induction_ltof1 _ length). unfold ltof in IH.
  destruct l as [|a [|b [|c l]]]; simpl; [lia..|]. specialize (IH l). simpl in IH. lia.
Qed.
Lemma digit_plain z : 0 <= z < 10 → plain (digit z) = true.
Proof.
  intros Hz. assert (Hall : forallb (λ n, plain (digit (Z.of_nat n))) (seq 0 10) = true) by reflexivity.
  rewrite forallb_forall in Hall. specialize (Hall (Z.to_nat z)). rewrite in_seq, Z2Nat.id in Hall by lia. apply Hall. lia.
Qed.
Lemma padded_text w : ∀ n, plain (padded w n) = true ∧ String.length (padded w n) = w.
Proof.
  induction w as [|w IH]; intros n; [done|]. simpl. destruct (IH (n / 10)) as [H1 H2]. rewrite length_sapp, H2.
  split; [|simpl; lia]. apply plain_app; [done|]. apply digit_plain. apply Z.mod_pos_bound. lia.
Qed.
Lemma timestamp_text ms : four_digit_year ms → plain (formatTimestamp ms) = true ∧ String.length (formatTimestamp ms) = 24%nat.
Proof.
  unfold four_digit_year, formatTimestamp. destruct (civil _) as [[y m] d]. intros Hy. unfold append_int.
  destruct (Z.ltb_spec y 0); [lia|]. destruct (Z.ltb_spec y (10 ^ Z.of_nat 4)) as [_|?]; [|simpl in *; lia].
  rewrite !length_sapp, !(proj2 (padded_text _ _)). split; [|reflexivity].
  repeat (apply plain_app; [first [apply padded_text|reflexivity]|]). reflexivity.
Qed.

(** What a created grant is: 32 fresh bytes whose hash is committed for the running boot
    and remembered with its deadline. *)
Definition grant_recorded (identity : Identity) (grant : string) (deadline : gotime) (st : St) : Prop :=
  ∃ hash, EnrollmentGrantHash (InstanceID identity) (VaultID identity) grant = Some hash ∧
    Mk_enrollment_grants (CBlob hash) (CBlob (bootID (st_eph st))) (UnixMilli deadline) CNull ∈ tb_enrollment_grants (st_db st) ∧
    {| gd_hash := hash; gd_deadline := deadline |} ∈ grantDeadlines (st_eph st).
Lemma grant_created identity now s g s' : CreateEnrollmentGrant identity now s = (Ok g, s') →
  slen (Grant g) = 32 ∧ ExpiresAt g = Add now enrollmentGrantLifetime ∧ grant_recorded identity (Grant g) (ExpiresAt g) s'.
Proof.
  unfold CreateEnrollmentGrant. intros (eph & s0 & [= <- <-] & H)%bind_ok.
  apply bind_ok in H as (u & s1 & [_ ->]%ensure_ok & H). apply bind_ok in H as (grant & s2 & Hr & H).
  apply bind_ok in H as (hash & s3 & Hh & H). apply from_option_ok in Hh as [Hh ->].
  apply bind_ok in H as (u1 & s4 & (Htx & Hdb & He & _)%begin_ok & H). apply bind_ok in H as (u2 & s5 & Hf & H).
  apply bind_ok in H as (u3 & s6 & (Hi & _ & He6 & _)%exec_ok & H). apply bind_ok in H as (u4 & s7 & (Hc & _ & He7 & _)%commit_ok & H).
  apply bind_ok in H as (eph' & s8 & [= <- <-] & H). apply bind_ok in H as (u5 & s9 & [= _ <-] & H). apply ret_ok in H as [-> ->].
  assert (Heph : st_eph s5 = st_eph s4).
  { assert (HP : Pres same_eph (for_each (map gd_hash (List.filter (λ g, negb (Before now (gd_deadline g))) (grantDeadlines (st_eph s))))
      (λ expiredHash, exec (E:=string) "prune expired enrollment grant hashes" (delete_grant expiredHash (bootID (st_eph s))))))
      by (apply pres_for_each; [apply _|intros; apply eph_exec]).
    specialize (HP s4). unfold same_eph in HP. by rewrite Hf in HP. }
  unfold rand_read in Hr. destruct (st_rand s) as [|r rest]; [done|]. destruct (Z.eqb_spec (slen r) 32) as [Hl|]; [|done].
  injection Hr as <- <-. split; [done|]. split; [done|]. exists hash. split; [done|]. cbn [st_eph st_db bootID with_deadlines grantDeadlines].
  split; [|apply elem_of_app; right; apply list_elem_of_here].
  rewrite Hc. unfold insert_enrollment_grants in Hi. destruct (insert_row _ _ _ _) as [rows|] eqn:E; [|done].
  apply insert_row_Some in E as (-> & _). injection Hi as <-. cbn [tb_enrollment_grants set_enrollment_grants ExpiresAt].
  apply elem_of_app. right. rewrite He7, He6, Heph, He. apply list_elem_of_here.
Qed.
Lemma credential_text value : slen value = 32 → credential_ok (b64_encode (bytes_list value)) = true ∧
  plain (b64_encode (bytes_list value)) = true ∧ (String.length (b64_encode (bytes_list value)) <= 64)%nat.
Proof.
  unfold slen. intros Hl. pose proof (bytes_list_byte value) as Hb. unfold credential_ok. rewrite b64_decode_encode by done.
  pose proof (length_b64 (bytes_list value)) as Hle. rewrite length_bytes_list in *. rewrite Hl, String.eqb_refl.
  split; [done|]. split; [by apply plain_b64_encode|lia].
Qed.
Lemma reply_wire instance vault secret grant expires port :
  Forall (λ s, plain s = true ∧ (String.length s <= 64)%nat) [instance; vault; secret; grant; expires] → 1 <= port <= 65535 →
  let reply := Mk_enrollmentReply "1" instance vault secret grant expires port in
  wire_plain reply = true ∧ 0 < slen (marshalJSON reply) <= 4096.
Proof.
  rewrite !Forall_cons. intros ([P1 L1] & [P2 L2] & [P3 L3] & [P4 L4] & [P5 L5] & _) Hp reply. subst reply. split.
  - cbn -[plain Z.leb]. rewrite P1, P2, P3, P4, P5. cbn -[Z.leb MaxInt64]. unfold MaxInt64.
    repeat (rewrite (proj2 (Z.leb_le _ _)) by lia). reflexivity.
  - pose proof (length_format_digits 20 port) as Hd. unfold slen, marshalJSON, marshal.
    cbn -[print_string String.append Z.mul Z.of_nat FormatInt].
    repeat (rewrite !length_sapp || rewrite !length_print_plain by (done || reflexivity)).
    rewrite FormatInt_nonneg by lia. change (FormatUint port) with (format_digits 20 port). cbn [String.length]. clear - L1 L2 L3 L4 L5 Hd. lia.
Qed.
Lemma reply_accepted settings secret grant ms port : Validate settings = Ok tt → slen secret = 32 → slen grant = 32 →
  four_digit_year ms → 1 <= port <= 65535 →
  let reply := Mk_enrollmentReply "1" (se_InstanceID settings) (se_VaultID settings) (b64_encode (bytes_list secret))
    (b64_encode (bytes_list grant)) (formatTimestamp ms) port in
  enrollment_reply (marshalJSON reply) = Ok reply.
Proof.
  intros (_ & Hi & Hv & Hne & _)%Validate_exact Hs Hg Hy Hp reply.
  apply credential_text in Hs as (Hs & Hps & Hls), Hg as (Hg & Hpg & Hlg). pose proof (timestamp_text ms Hy) as [Hpt Hlt].
  pose proof (length_uuid _ Hi) as Hli. pose proof (length_uuid _ Hv) as Hlv.
  destruct (reply_wire (se_InstanceID settings) (se_VaultID settings) (b64_encode (bytes_list secret)) (b64_encode (bytes_list grant))
    (formatTimestamp ms) port) as [Hw Hlen]; [|exact Hp|].
  { apply plain_uuid in Hi, Hv. rewrite !Forall_cons, Hli, Hlv, Hlt. split_and!; first [assumption|lia|constructor]. }
  unfold enrollment_reply. rewrite decodeStrictStream_marshal by exact Hw. fold reply in Hlen |- *.
  rewrite (proj2 (Z.eqb_neq _ _)), (proj2 (Z.ltb_ge _ _)) by lia. cbn [orb]. unfold reply_ok. subst reply.
  cbn [er_ProtocolVersion er_InstanceID er_VaultID er_InstanceSecret er_EnrollmentGrant er_ExpiresAt er_LoopbackPort].
  rewrite Hs, Hg, Hi, Hv, formatTimestamp_valid by done. apply not_eq_sym, String.eqb_neq in Hne. rewrite Hne.
  by rewrite (proj2 (Z.leb_le _ _) (proj1 Hp)), (proj2 (Z.leb_le _ _) (proj2 Hp)).
Qed.

Section admin.
Context {H : Type} `{!Host H, !PreviewHost H} (UserHomeDir : res string string) (EvalSymlinks : string → FsM string).
Context (settings : Settings) (stateDir executable runtime_version EncodedIdentity : string) (now : gotime).
Abbreviation response := (enrollmentResponse_body (H:=H) settings stateDir now).
Abbreviation answered := (handleAdminRequest (H:=H) UserHomeDir EvalSymlinks settings stateDir executable runtime_version EncodedIdentity now).
Lemma admin_bind_ok {A B} (x : AdminM H A) (f : A → AdminM H B) s s' b : (x ≫= f) s = (s', Ok b) →
  ∃ a s1, x s = (s1, Ok a) ∧ f a s1 = (s', Ok b).
Proof. unfold mbind, adminm_bind, admin_bind. destruct (x s) as [s1 [a|e]]; [eauto|done]. Qed.
Lemma on_machine_ok {A} (x : DepM H A) s s' a : on_machine x s = (s', Ok a) → s'.1 = s.1 ∧ (x s.2).2 = Ok a.
Proof. unfold on_machine. destruct (x s.2) as [m r]. by intros [= <- ->]. Qed.
Lemma ReadSecret_ok path w value : (ReadSecret path w).2 = Ok value → slen value = 32.
Proof.
  unfold ReadSecret, mbind, fsm_bind, check. destruct (readProtectedFile _ _ _ w) as [w' [v|e]]; [|done].
  destruct (Z.eqb_spec (slen v) 32) as [E|]; [|done]. by intros [= <-].
Qed.
(** The answer [enrollmentResponse_body] builds. *)
Lemma response_ok s s' body : Validate settings = Ok tt → four_digit_year (UnixMilli (Add now enrollmentGrantLifetime)) →
  response s = (s', Ok body) →
  ∃ reply grant, enrollment_reply body = Ok reply ∧ marshalJSON reply = body ∧
    er_InstanceID reply = se_InstanceID settings ∧ er_VaultID reply = se_VaultID settings ∧
    Forall (listens_on (er_LoopbackPort reply)) (se_Listeners settings) ∧
    b64_decode (er_EnrollmentGrant reply) = Some (bytes_list grant) ∧
    parse_timestamp (er_ExpiresAt reply) = Some (UnixMilli (Add now enrollmentGrantLifetime)) ∧
    grant_recorded (instance_identity settings) grant (Add now enrollmentGrantLifetime) s'.1.
Proof using Type.
  clear UserHomeDir EvalSymlinks executable runtime_version EncodedIdentity.
  intros HV Hy Hb. unfold enrollmentResponse_body in Hb. apply admin_bind_ok in Hb as (g & s1 & Hg & Hb).
  apply admin_bind_ok in Hb as (secret & s2 & Hs & Hb). apply on_machine_ok in Hs as [E2 Hs].
  apply admin_bind_ok in Hb as ([host portText] & s3 & Hh & Hb). apply admin_bind_ok in Hb as (port & s4 & Hp & Hb). injection Hb as <- <-.
  unfold on_store in Hg. destruct (CreateEnrollmentGrant _ _ _) as [[g'|e] st] eqn:Ec; [|done]. injection Hg as <- <-.
  apply grant_created in Ec as (Hl & Ht & Hrec). cbn [fst] in E2.
  assert (Hsec : slen secret = 32).
  { unfold on_files in Hs. destruct (ReadSecret _ _) as [w [v|e]] eqn:Er; [|done]. injection Hs as ->.
    eapply ReadSecret_ok. by rewrite Er. }
  pose proof HV as (_ & _ & _ & _ & Hn & _ & n & Hr & HF)%Validate_exact.
  destruct (se_Listeners settings) as [|a l] eqn:El; [simpl in Hn; lia|]. cbn [hd] in Hh.
  pose proof HF as [Ha _]%Forall_cons. apply listens_on_split in Ha as [host' Ha]; [|lia]. rewrite Ha in Hh. injection Hh as <- <- <-.
  rewrite Atoi_FormatUint in Hp by (unfold MaxInt64; lia). injection Hp as <- <-.
  rewrite Ht in Hrec |- *. eexists _, (Grant g'). split; [apply reply_accepted; [exact HV|exact Hsec|exact Hl|exact Hy|exact Hr]|].
  cbn [er_InstanceID er_VaultID er_LoopbackPort er_EnrollmentGrant er_ExpiresAt]. split; [done|]. do 2 (split; [done|]). split; [exact HF|].
  split; [apply b64_decode_encode, bytes_list_byte|]. split; [by apply parse_format_timestamp|]. by rewrite E2.
Qed.
(** A request for a grant is answered by that body or by an error. *)
Lemma answer_ok request_bytes request s s' body : aq_Operation request = "enrollment_create" → decodeAdminRequest request_bytes = Ok request →
  answered request_bytes s = (s', Ok body) → ∃ s1 s2, response s1 = (s2, Ok body) ∧ s'.1 = s2.1.
Proof.
  intros Ho Hd Ha. unfold handleAdminRequest in Ha. rewrite Hd in Ha.
  apply admin_bind_ok in Ha as (r & s0 & Hr & Ha). injection Hr as <- <-. rewrite Ho in Ha. cbn [String.eqb] in Ha.
  change (String.eqb "enrollment_create" "deployment_status") with false in Ha. cbn iota in Ha.
  unfold handleEnrollmentRequest in Ha. destruct (aq_Deployment request) as [b|].
  - destruct (aq_DirectInit request); [done|]. apply admin_bind_ok in Ha as (lease & s1 & _ & Ha).
    apply admin_bind_ok in Ha as (res1 & s2 & Hb & Ha). apply admin_bind_ok in Ha as (closed & s3 & Hc & Ha).
    unfold admin_tried in Hb, Hc. destruct (response s1) as [t r] eqn:Er. injection Hb as <- <-.
    unfold on_machine in Hc. destruct (managed_Close _ _) as [m c]. injection Hc as <- <-.
    destruct r as [body'|e], c as [u|e']; try done. injection Ha as <- <-. by exists s1, t.
  - destruct (aq_DirectInit request); [|done]. apply admin_bind_ok in Ha as (active & s1 & Hc & Ha).
    destruct active as [?|e]; [done|]. destruct (Is e _); [|done]. by exists s1, s'.
Qed.
End admin.

(** C39. The enrollment handshake.  A client sends the canonical request for a grant over the
    admin socket of a server whose settings are valid, and checks what comes back.  It
    refuses only the error answer: every other answer passes its checks, is printed again
    byte for byte as the server sent it, names the instance and vault of the settings and
    the port every listener of theirs is bound to, and carries a grant that works: its hash is committed for
    the running boot and remembered with the deadline the client is told, five minutes
    after the request. *)
Theorem enrollment_handshake {H : Type} `{!Host H, !PreviewHost H} (UserHomeDir : res string string) (EvalSymlinks : string → FsM string)
    (settings : Settings) (stateDir executable runtime_version EncodedIdentity : string) (now : gotime)
    (binding : option ActiveExecutableBinding) (sent answer : string) (s s' : St * Machine H) :
  Validate settings = Ok tt → four_digit_year (UnixMilli (Add now enrollmentGrantLifetime)) →
  wire_plain (option_map wire_binding binding) = true → EncodeEnrollmentCreateRequest binding = Ok sent →
  handleAdminConnection UserHomeDir EvalSymlinks settings stateDir executable runtime_version EncodedIdentity now sent s = (s', answer) →
  match enrollment_reply answer with
  | Err _ => answer = bootstrap_failed
  | Ok reply => print (json_of reply) = answer ∧
      er_InstanceID reply = se_InstanceID settings ∧ er_VaultID reply = se_VaultID settings ∧
      Forall (listens_on (er_LoopbackPort reply)) (se_Listeners settings) ∧
      ∃ grant, b64_decode (er_EnrollmentGrant reply) = Some (bytes_list grant) ∧
        parse_timestamp (er_ExpiresAt reply) = Some (UnixMilli (Add now enrollmentGrantLifetime)) ∧
        grant_recorded (instance_identity settings) grant (Add now enrollmentGrantLifetime) s'.1
  end.
Proof.
  intros HV Hy Hw He Ha. unfold handleAdminConnection in Ha.
  assert (Hr : ∃ request, decodeAdminRequest sent = Ok request ∧ aq_Operation request = "enrollment_create" ∧ slen sent <= maxAdminRequestBytes).
  { unfold EncodeEnrollmentCreateRequest in He. eexists. split; [|split].
    - apply admin_request_canonical; [|exact He]. destruct binding as [b|]; [|reflexivity].
      unfold wire_plain in *. cbn -[plain] in Hw |- *. by rewrite Hw.
    - by destruct binding.
    - unfold encodeAdminRequest in He. cbv zeta in He. destruct (_ || _) eqn:E in He; [done|]. apply Ok_inj in He as <-. unbool. lia. }
  destruct Hr as (request & Hd & Ho & Hlen). rewrite stake_all in Ha by (unfold slen in *; lia).
  destruct (handleAdminRequest _ _ _ _ _ _ _ _ sent s) as [s1 [body|e]] eqn:E; injection Ha as <- <-; [|reflexivity].
  eapply answer_ok in E as (t1 & t2 & Ht & Es); [|exact Ho|exact Hd].
  eapply response_ok in Ht as (reply & grant & Hreply & Hp & Hi & Hv & HF & Hrest); [|exact HV|exact Hy].
  rewrite Hreply, Es. do 4 (split; [assumption|]). by exists grant.
Qed.
(** The deployment of the sample layout, its secret in place, asked for a grant. *)
Definition secret_machine : Machine Desk :=
  let w := m_world deployed_machine in
  mkMachine (mkWorld (<[InstanceSecret (ForStateDir (ly_StateDir sample_layout)) := Regular secretFileMode 1000 1 sample_grant]> (w_files w))
    (w_euid w) (w_umask w) (w_rand w) (w_names w) (w_faults w) (w_trace w)) (m_host deployed_machine) (m_journal deployed_machine).
Definition sample_active : ActiveExecutableBinding := mkBinding 1 (ir_BinaryPath sample_desired) (ir_BinarySHA256 sample_desired) "".
Definition sample_connection : (St * Machine Desk) * string :=
  handleAdminConnection (Ok "/home/u") (λ path, mret path) ServerProps.sample_settings (ly_StateDir sample_layout) (ir_BinaryPath sample_desired)
    "go1.25.0" "dev" (at_ms 10) grant_request (with_rand [sample_grant] booted_state, secret_machine).
Definition sample_accepted : bool := match enrollment_reply sample_connection.2 with Ok _ => true | Err _ => false end.
Lemma enrollment_handshake_witness : ∃ reply, enrollment_reply sample_connection.2 = Ok reply ∧ print (json_of reply) = sample_connection.2.
Proof.
  assert (Hok : sample_accepted = true) by (vm_compute; reflexivity).
  assert (HV : Validate ServerProps.sample_settings = Ok tt) by (vm_compute; reflexivity).
  assert (Hy : four_digit_year (UnixMilli (Add (at_ms 10) enrollmentGrantLifetime))) by (vm_compute; split; discriminate).
  assert (Hw : wire_plain (option_map wire_binding (Some sample_active)) = true) by (vm_compute; reflexivity).
  assert (He : EncodeEnrollmentCreateRequest (Some sample_active) = Ok grant_request) by (vm_compute; reflexivity).
  pose proof (enrollment_handshake (Ok "/home/u") (λ path, mret path) ServerProps.sample_settings (ly_StateDir sample_layout)
    (ir_BinaryPath sample_desired) "go1.25.0" "dev" (at_ms 10) (Some sample_active) grant_request sample_connection.2
    (with_rand [sample_grant] booted_state, secret_machine) sample_connection.1 HV Hy Hw He (surjective_pairing _)) as H.
  unfold sample_accepted in Hok. destruct (enrollment_reply sample_connection.2) as [reply|e]; [|discriminate Hok].
  exists reply. split; [reflexivity|exact (proj1 H)].
Defined.

(** ** A quiet machine

    Its commands succeed and change no file, no server listens on its sockets, its locks
    are free and what is printed is recorded. *)
#[local] Instance quiet_exec : Exec (list string) := {|
  exec_LookPath name s := (s, Ok ("/usr/bin/" +:+ name));
  exec_Run _ _ _ s := (s, mkProcess [] [] None) |}.
#[local] Instance quiet_sockets : UnixSockets (list string) := {|
  connection := unit;
  DialUnix _ s := (s, Err (NoServer "connection refused"));
  SetDeadline _ s := (s, Ok tt); WriteString _ _ s := (s, Ok tt); CloseWrite _ s := (s, Ok tt);
  read_up_to _ _ s := (s, Ok ""); CloseConnection _ s := (s, Ok tt) |}.
#[local] Instance quiet_platform : Platform (list string) := {|
  lock_exclusive _ s := (s, Ok tt); lock_shared _ s := (s, Ok tt); unlock _ s := (s, Ok tt);
  deadline_passed s := (s, Ok true); ValidateExisting _ _ _ s := (s, Ok tt); RunWithAdmin _ _ s := (s, Ok tt);
  EvalSymlinks path := mret path;
  WriteStdout text s := ((s.1, s.2 ++ [text]), Ok tt); WriteStderr text s := ((s.1, s.2 ++ [text]), Ok tt);
  PrintError _ s := (s, Ok tt); PrintFlagError _ _ s := (s, Ok tt); ExecForeground _ _ s := (s, Ok tt);
  ClientDo _ _ _ s := (s, Err (Refused "connection refused")) |}.
#[local] Instance quiet_reads : PlatformReads (list string).
Proof. split; try (intros; exact (quiet_ret _)); unfold host_still, unmoved; intros; split_and!; reflexivity. Qed.
#[local] Instance quiet_laws layout : PlatformLaws (list string) layout.
Proof. split. intros. split; [reflexivity|]. exists []. split; [reflexivity|]. split; [constructor|reflexivity]. Qed.
Definition restarted (w : World) : World := mkWorld (w_files w) (w_euid w) (w_umask w) (w_rand w) (w_names w) (w_faults w) [].
Lemma restarted_files w : w_files (restarted w) = w_files w ∧ w_euid (restarted w) = w_euid w.
Proof. done. Qed.
Definition native_machine : Machine (Native (list string)) :=
  mkMachine (restarted (m_world installed_machine)) (mkNative [] None) sample_journal.
Definition sample_environment : Environment :=
  mkEnvironment "linux" "amd64" "dev" (Ok "/home/u") (Ok "/home/u/bin/sshserver") (λ _, "") "".
Definition sample_native : Lifecycle * ServiceManagerAdapter := (newLifecycle sample_layout (Mk_Target "linux" "amd64"), sample_adapter).
Definition native_uninstall : Machine (Native (list string)) * res derr UninstallResult := lifecycle_Uninstall sample_native native_machine.
Lemma sample_uninstall_stops : stopped_at (lifecycle_Uninstall sample_native) native_machine (w_files (m_world native_uninstall.1)).
Proof.
  exists (w_trace (m_world native_uninstall.1)). split; [symmetry; apply app_nil_r|apply list_elem_of_here].
Qed.
Lemma native_runs_from : runs_from sample_layout 1000 (w_files (m_world installed_machine)) native_machine.
Proof.
  destruct (restarted_files (m_world installed_machine)) as [Hf He]. destruct sample_runs_from as [Ho _].
  split; [exact (eq_trans He Ho)|left; exact Hf].
Qed.
(** An uninstall runs to its end, and where it ends is a state it may leave. *)
Definition reported (r : res derr UninstallResult) : option string := match r with Ok r => Some (ur_Status r) | Err _ => None end.
Lemma native_lifecycle_crash_consistent_witness : reported native_uninstall.2 = Some "uninstalled" ∧
  uninstall_view sample_lifecycle 1000 (Some (sample_state 7)) (view_of sample_layout (w_files (m_world native_uninstall.1))).
Proof.
  split; [vm_compute; reflexivity|].
  assert (Ha : (NewNativeServiceManagerAdapter "" "linux" "/home/u" home_world).2 = Ok sample_adapter) by (vm_compute; reflexivity).
  assert (Hway : ∀ q, metadata_path sample_layout q → is_prefix_of (elements q) (elements (Dir (sa_definitionPath sample_adapter))) = false)
    by (intros q [->| ->]; vm_compute; reflexivity).
  pose proof (native_lifecycle_crash_consistent (S := list string) sample_layout (Mk_Target "linux" "amd64") 1000 "" "linux" home_world sample_adapter
    Ha Hway (eq_refl true)) as [_ [Hu _]].
  refine (Hu (Some (sample_state 7)) _ _ sample_uninstall_ready _).
  eapply (restarts_run _ _ _ _ (lifecycle_Uninstall sample_native) native_machine); [reflexivity|apply restarts_nothing| |].
  - exact native_runs_from.
  - exact sample_uninstall_stops.
Defined.
